(* ===== verification/_CoqProject ===== *)
-Q . S2P
Prelude.v
Memory.v
BitExp.v
CornerSpec.v
CornerTurn1.v
CornerTurn2.v
CornerTurn4.v
CornerTurnWide.v
CornerTurners.v
BitFields.v
DateUtils.v
VdifHeader.v
VdifBuffer.v
VdifMux.v
VdifMuxRun.v
VdifMuxScan.v
VdifMuxCorrect.v
VdifMuxTheorems.v
VdifMuxComplete.v
Streams.v
Mark6Gather.v
Mark6GatherSpec.v
Mark6GatherTheorems.v
Mark6Seek.v
Mark6Reader.v
VdifReader.v
VdifReaderSpec.v
VdifReaderOpen.v
VdifReaderSearch.v
VdifReaderTheorems.v
VdifFile.v
VdifFileTheorems.v
Mark5bFix.v
Mark5bFixSpec.v
Mark5bFixTheorems.v
Mark5Stream.v
Mark5StreamTheorems.v
Decoders.v
DecodersSpec.v
CountersSpec.v
Mark5bDecode.v
Mark5bFrames.v
Mark5bDecodeTheorems.v
Mark5bCount.v
Mark5bRepaired.v
VdifDecode.v
VdifFrames.v
VdifDecodeTheorems.v
CStrings.v
ParseDifx.v
DifxWrite.v
ParseDifxTheorems.v
DifxStringArrays.v
VdifMuxUnpack.v
