(* ===== verification/Prelude.v ===== *)
(** * The raw-data libraries of DiFX, verified

    DiFX correlates the recordings of radio telescopes.  Before anything can be
    correlated, the data of a recording must be found on the disks of the
    recorder, put in time order, and brought into the single-thread form that
    the decoders read.  This development is about the C code that does so: the
    library [libraries/vdifio] (frames, threads and multiplexing of VDIF data),
    the gatherer of [libraries/mark6sg] (scattered files of a Mark 6 recorder),
    and the repair of Mark5B data in [libraries/mark5access].  What is to be
    correlated is in text files, which [libraries/difxio] writes and reads.

    ** The parts and how they interact

    - [cornerturners.c]: 75 functions that interleave the samples of several
      threads, the table [getCornerTurner] and a self test.
    - [dateutils.c]: Modified Julian Days and calendar dates.
    - [vdifio.h], [vdifio.c]: the VDIF frame header and its fields; the epoch
      uses the dates.
    - [vdifbuffer.c]: finds the frame size and the first frame of a buffer.
    - [vdifmux.c]: [configurevdifmux] picks a corner turner from the table;
      [vdifmux] sorts the frames of all threads into output frames (stage 1),
      backs up over frames that are not complete at the end of the input, and
      writes headers and corner-turned payloads (stage 2).
    - [vdiffile.c]: scans the first and the last bytes of a file of frames for its
      threads, rate and times; the summary is what the file reader starts from.
    - [vdiffilereader.c]: reads such a file with one handle per thread, so that
      the frames of all threads come out time by time for [vdifmux]; missing
      frames are replaced, damaged places are skipped.
    - [mark6gather.c]: every file of a recording has a reader thread that reads
      one block ahead; [mark6Gather] returns the packets of all files in the
      order of their frame numbers, [seekMark6Gather] positions the files.
    - [mark5bfix.c]: copies the frames of a block of Mark5B data to the places
      that their numbers give and marks the missing ones, before decoding.
    - [mark5_stream.c], [mark5_stream_unpacker.c], [mark5_stream_memory.c],
      [blanker_mark5.c], [mark5_format_mark5b.c], [format_vdif.c] of
      [mark5access]: a stream steps from frame to frame, a blanker looks for fill
      pattern in each payload, and one of 67 unrolled decoders (22 counters) turns
      its bytes into samples; the correlator calls [mark5_unpack_with_offset] on
      Mark5B data that were repaired and on VDIF data that were multiplexed.
    - [parsedifx.c], [difx_write.c] of [difxio]: files of lines "KEY: value" as
      tables of rows that are searched by key, also by keys with an index and by
      several keys in order; arrays of strings, written as comma lists.

    ** Files

    - [Prelude], [Memory]: integers with their wrap-around ([uwrap], [swrap];
      [sint] is an [int] expression, undefined on overflow), loops over options
      ([run_iters]), byte buffers, little-endian loads and stores.
    - [BitExp]: movements of bits inside machine words, decided by reflection.
    - [CornerSpec]: the specification [corner_turned], the class [CornerTurns]
      that a corner turner promises to its clients, loops with an OpenMP
      schedule.  [CornerTurn1], [CornerTurn2], [CornerTurn4], [CornerTurnWide]:
      the functions by sample width.  [CornerTurners]: the table and the self
      test.
    - [BitFields]: structs of bit fields and their bytes.  [DateUtils],
      [VdifHeader], [VdifBuffer]: the files of the same names.
    - [VdifMux]: the state [vdif_mux] and its configuration.  [VdifMuxRun]: the
      run.  [VdifMuxScan], [VdifMuxCorrect]: lemmas on the scans of the input
      and on both stages.  [VdifMuxTheorems]: the properties of a run.
      [VdifMuxComplete]: input that comes in order is not lost.
    - [Streams]: files that are read, for the Mark 6 and the VDIF readers.
    - [VdifReader]: the state [vdif_file_reader] and its operations.
      [VdifReaderSpec]: a file as a list of frames, the relation of a handle to
      the frames of its thread still to come ([thread_rep]) and of the reader to
      a slot, that is a time and a thread ([reader_at]).  [VdifReaderOpen]:
      opening and seeking, with the majority vote for the common start.
      [VdifReaderSearch]: the reader on any bytes, and the invariant [safe] of
      every operation.  [VdifReaderTheorems]: the properties.
    - [VdifFile], [VdifFileTheorems]: summaries of files and their properties;
      the last file also composes summary and reader.
    - [Mark6Gather]: opening, reading blocks, gathering.  [Mark6GatherSpec]: a
      recording as a list of blocks, the relation of an open file to the packets
      it still holds ([file_rep], [gather_rep]), gathering as a merge
      ([gathers]).  [Mark6GatherTheorems]: the properties.  [Mark6Seek]:
      positioning.  [Mark6Reader]: the two threads of a file as a step relation
      and its refinement by the sequential functions of the other files.
    - [Mark5bFix]: a call of [mark5bfix], from what the scan sees ([sight]) to
      the statistics.  [Mark5bFixSpec]: the good frames of a source, their
      numbers counted through the seconds ([numbered]), and what a destination
      holds after them ([filled]).  [Mark5bFixTheorems]: the properties.
    - [Mark5Stream]: the stream, its blankers, the validity of a frame and the step
      to the next one; [Mark5StreamTheorems]: where the blanker sees fill pattern.
      [Decoders]: the loop that the decoders of all formats share, with a value of
      type [decoder] or [counter] for what differs in each unrolled function, and
      unpacking.  [DecodersSpec]: what it is for a [decoder] to be right for a
      format ([decodes]), the class [FrameStream] that a stream of frames promises
      to a decoder, and the loop over any such stream; [CountersSpec]: the same for
      counters.
    - [Mark5bDecode]: tables of levels, decoders and counters of Mark5B.
      [Mark5bFrames]: its frames are an instance of [FrameStream], and equal frames
      decode to equal samples.  [Mark5bDecodeTheorems], [Mark5bCount]: the
      properties.  [Mark5bRepaired]: [mark5bfix] and unpacking, composed.
    - [VdifDecode], [VdifFrames], [VdifDecodeTheorems]: the same for VDIF, whose
      frames are good or bad as a whole.  [VdifMuxUnpack]: [vdifmux] and unpacking,
      composed.
    - [CStrings]: C strings, formats with numbers, [atoi], [fgets].  [ParseDifx],
      [DifxWrite]: the two files.  [ParseDifxTheorems]: a row as cut and trimmed
      text ([row_of]), a table in memory ([params_rep]), searches ([found_row])
      and what is read back.  [DifxStringArrays]: the same for lists of strings.

    A definition has the name of the C function, macro or field it models; the
    fields of a struct carry a prefix ([vh_], [vm_], [m6_], [bs_], [rd_], [vs_],
    [vr_], [tf_], [fs_], [fx_], [sa_], [row_], [ms_], [mv_]).  A
    part of a long C function that is a definition of its own says which part
    in its comment.

    ** Conventions

    A function of the code that can go wrong by undefined behaviour (an access
    outside its buffer, a signed overflow, a shift by the width, a division by
    zero, an indeterminate value) is an option, and [None] is that behaviour.
    Errors that the code reports are values: an error code, or a status paired
    with the state that the code leaves.  State is passed explicitly.  What the
    code gets from outside is an argument: the memory that [malloc] returns, the
    order in which OpenMP runs the iterations of a loop, the contents of a file.

    ** What the theorems show

    - Corner turners: every function of the table puts each sample in its place,
      reads and writes inside its buffers only, and, with the exception of the
      functions that advance pointers in the loop, does so in any order of the
      iterations; the self test reports no error and its counts are exact.
    - Dates and headers: the calendar from MJD 0 on, round trips of dates, times
      and fields, the status and the fields of every operation on every branch.
    - Frame finder: what a result means, memory safety, when there is none.
    - Multiplexer: configuration establishes and keeps an invariant; a run ends
      inside its buffers, every output frame has the time of its place and is
      either marked invalid or the corner turn of input payloads of that time,
      nothing is lost where the run backs up, and a time whose packets come within
      the gap that is tolerated is output as valid, whatever else the input holds.
    - File reader: a file of frames is read as the frames of every time, thread by
      thread, with marked replacements for missing ones; reading to the end
      returns every frame and then says so; seeking restarts at a frame; on a file
      of any bytes every session stays inside its buffers and ends.
    - File summaries: what a summary of a file of frames says, the statuses on any
      file, and that a file can be summarized, opened and read to its end.
    - Gatherer: opening a recording gives exactly its packets; gathering refines
      a merge, neither losing nor inventing a packet, and keeps time order;
      seeking a striped recording leaves the blocks from the target on; the
      reader thread and its user never touch the shared fields at once, and
      every schedule ends in the state of the sequential description.
    - Mark5B fixer: with never more than 29 frames missing in a row, every frame
      of the output is the frame of the source with its number or the marked
      header of a missing one; bytes and sizes are kept on any source; the time
      codes are right over midnight and day 999.
    - Mark5B decoders: the table gives a decoder for exactly the supported formats,
      and it is the right one; unpacking gives every sample the level of its bits
      across frames, zero in marked frames and blanked data; counters count the
      extremes of the same samples; the blanker is exact up to 40 bytes behind a
      change.  Data that were repaired and then unpacked have the samples of every
      frame of the source in its place and zeros for every missing one.
    - VDIF decoders: the same for 1, 2, 4 and 8 bits, with channels padded to a
      power of two.  Data that were multiplexed and then unpacked have in channel
      [c] the samples of the input frames of thread [c], at the same times.
    - Parameter files: any file is read; keys, values, numbers under keys with an
      index and lists of strings that are written are found and read back; a batch
      of keys is found exactly when the rows have the keys in its order.
    - Limits of the code that the modelling showed are theorems as well: the
      thread counts for which masks are computed by undefined shifts, the read
      past the end in the frame finder, the order dependence of the pointer
      loops, the blocks lost when file 0 ends first, files of version 1, seeks to
      0 and beyond 2 GiB; the end flag of the file reader that seeking does not
      clear, its buffer for two frames that large frames overflow, the last
      frame that a summary does not see; the two frames that the fixer reports
      for a source without any, and what it writes before its destination after
      long gaps; the counter that takes four samples for three, results of decimated
      decoders below zero, the frame behind the data that an unpacker reads and the
      byte before them without headers; the bad frame that VDIF
      decoders of several channels of 8 bits do not leave; the search in parameter
      files that reads a table before it tests the pointer to it.

    ** Bounds and fuel

    Loops over known ranges are structural.  [VdifMux.gcd] halves an argument in
    every call: 65 calls do for 32 bits.  The scans of the multiplexer and its
    stage 1 advance by at least a byte per iteration, their fuel is the size of
    the input.  The loop of [mark6Gather] takes a packet per iteration, its fuel
    [gather_fuel] is more than the bytes the gatherer can still see.  The searches
    of the file reader and of the summary advance by at least a byte of the file
    per iteration, a read by at least a byte of what was asked for; after a
    resynchronisation a good header follows, so two rounds of [valid_loop] do.  That the
    fuel is enough is part of the theorems, which state that there is a result.
    The scan of the fixer advances by four bytes or more, its
    fuel is the number of positions.  A turn of a decoder or counter makes a sample
    at least, so [nsamp] turns do; the bisections of the blanker halve an [int], 32
    steps do; a stream whose turns do not divide a payload (odd decimations of many
    bit streams) loses its phase at frame ends, so that the decoder theorems assume
    that they do.  A parameter file has at most as many lines
    as characters.
    The dates are computed in [Z]: from MJD -2400001 to 500000000 no C expression
    of them overflows an [int].

    ** Not modelled

    Printing and messages; floating point ([getVDIFFrameDMJD]); of the gatherer,
    the serial number of the module, lists of files by pattern, and adding files
    to a gatherer that is in use; closing and freeing; of the fixer, calls
    without statistics, and big-endian hosts; of the
    parameter files, lines with numbers in floating point or hexadecimal, and
    memory that is not granted.  A barrier of two threads is one step of both.
    The step of a thread between two waits is atomic, which the mutual exclusion
    theorem justifies.

    Of [libraries/mark5access], VDIF with complex or 32-bit samples, the decoders
    of the other formats (10000 lines and more of the same unrolled kind for Mark4
    and VLBA each), the detection of formats, and times and rates, which are
    floating point; so a stream has no date, with which the validity of VDIF frames
    would also compare their times.  Of [libraries/difxio],
    the structures that are filled from the files, most of them floating point.
    [libraries/codifio] repeats the VDIF header with other fields; the scan of
    [mark6gather_vdif.c] repeats that of [vdiffile.c]; [mark6sg]'s virtual files
    and [difxmessage] are mostly system calls.
    The correlator [mpifxcorr] and the programs in C++ are outside the scope, as
    are vendored code, generated parsers and bindings. *)
From stdpp Require Export base list numbers option tactics.
From Stdlib Require Export Lia.
#[local] Open Scope Z_scope.

(** ** Machine integers

    A C integer of width [w] is a [Z]; the wrap-around of an assignment to a
    [w]-bit object is written out with [uwrap] (unsigned) or [swrap] (two's
    complement). *)

Definition uwrap (w x : Z) : Z := x mod 2 ^ w.
Definition swrap (w x : Z) : Z := (x + 2 ^ (w - 1)) mod 2 ^ w - 2 ^ (w - 1).

Abbreviation u8 := (uwrap 8).
Abbreviation u16 := (uwrap 16).
Abbreviation u32 := (uwrap 32).
Abbreviation u64 := (uwrap 64).
Abbreviation s32 := (swrap 32).
Abbreviation s64 := (swrap 64).

(** C's [/] and [%] truncate towards zero. *)
Abbreviation cdiv := Z.quot.
Abbreviation cmod := Z.rem.

Declare Scope cint_scope.
Delimit Scope cint_scope with C.
Notation "a ||| b" := (Z.lor a b) (at level 50, left associativity) : cint_scope.
Notation "a &&& b" := (Z.land a b) (at level 40, left associativity) : cint_scope.
Notation "a <<< b" := (Z.shiftl a b) (at level 40, left associativity) : cint_scope.
Notation "a >>> b" := (Z.shiftr a b) (at level 40, left associativity) : cint_scope.

Create HintDb cint.
Create Rewrite HintDb clen.

Lemma uwrap_range w x : 0 <= w -> 0 <= uwrap w x < 2 ^ w.
Proof. intros. apply Z.mod_pos_bound. lia. Qed.

Lemma uwrap_small w x : 0 <= x < 2 ^ w -> uwrap w x = x.
Proof. intros. by apply Z.mod_small. Qed.

Lemma pow2_half w : 0 < w -> 2 ^ w = 2 * 2 ^ (w - 1).
Proof. intros. rewrite <-Z.pow_succ_r by lia. f_equal. lia. Qed.

Lemma swrap_small w x : 0 < w -> - 2 ^ (w - 1) <= x < 2 ^ (w - 1) -> swrap w x = x.
Proof.
  intros Hw Hx. pose proof (pow2_half w Hw). unfold swrap. rewrite Z.mod_small; lia.
Qed.

Lemma swrap_range w x : 0 < w -> - 2 ^ (w - 1) <= swrap w x < 2 ^ (w - 1).
Proof.
  intros Hw. pose proof (pow2_half w Hw). unfold swrap.
  pose proof (Z.mod_pos_bound (x + 2 ^ (w - 1)) (2 ^ w) ltac:(lia)). lia.
Qed.

(** A signed value survives the unsigned representation. *)
Lemma swrap_uwrap w x : 0 < w -> - 2 ^ (w - 1) <= x < 2 ^ (w - 1) -> swrap w (uwrap w x) = x.
Proof.
  intros Hw Hx. pose proof (pow2_half w Hw). unfold swrap, uwrap.
  rewrite Z.add_mod_idemp_l by lia. rewrite Z.mod_small; lia.
Qed.

#[export] Hint Resolve uwrap_range : cint.

Lemma bits_above_lt n x :
  0 <= n -> (forall i, n <= i -> Z.testbit x i = false) -> x < 2 ^ n.
Proof.
  intros Hn Hb. replace x with (x mod 2 ^ n); [apply Z.mod_pos_bound; lia|].
  apply Z.bits_inj'. intros i Hi. destruct (decide (i < n)).
  - by rewrite Z.mod_pow2_bits_low by lia.
  - rewrite Z.mod_pow2_bits_high by lia. symmetry. apply Hb. lia.
Qed.

Lemma lor_shift_add x y n : 0 <= n -> 0 <= y < 2 ^ n -> Z.lor (Z.shiftl x n) y = x * 2 ^ n + y.
Proof.
  intros Hn Hy. assert (E : Z.land (Z.shiftl x n) y = 0).
  { apply Z.bits_inj'. intros i Hi. rewrite Z.land_spec, Z.bits_0. destruct (decide (i < n)).
    - by rewrite Z.shiftl_spec_low.
    - replace y with (y mod 2 ^ n) by (by apply Z.mod_small).
      rewrite Z.mod_pow2_bits_high by lia. apply andb_false_r. }
  rewrite <-Z.lxor_lor, <-Z.add_nocarry_lxor by done. by rewrite Z.shiftl_mul_pow2.
Qed.

(** The value of a signed [int] expression: overflow is undefined. *)
Definition sint (x : Z) : option Z :=
  if decide (- 2 ^ 31 <= x < 2 ^ 31) then Some x else None.

Lemma sint_Some x : - 2 ^ 31 <= x < 2 ^ 31 -> sint x = Some x.
Proof. intros. unfold sint. by rewrite decide_True. Qed.

(** The same for [int64_t]. *)
Definition slong (x : Z) : option Z :=
  if decide (- 2 ^ 63 <= x < 2 ^ 63) then Some x else None.

Lemma slong_Some x : - 2 ^ 63 <= x < 2 ^ 63 -> slong x = Some x.
Proof. intros. unfold slong. by rewrite decide_True. Qed.

(** [while(ut < n) ut *= 2;] *)
Fixpoint pow2_loop (fuel : nat) (ut n : Z) : option Z :=
  if ut <? n then
    match fuel with
    | O => None
    | S fuel => ut' ← sint (ut * 2); pow2_loop fuel ut' n
    end
  else Some ut.

Lemma pow2_loop_spec fuel k n :
  0 <= k <= Z.log2_up n -> 1 <= n <= 2 ^ 30 -> Z.log2_up n - k <= Z.of_nat fuel ->
  pow2_loop fuel (2 ^ k) n = Some (2 ^ Z.log2_up n).
Proof.
  revert k. induction fuel as [|fuel IH]; intros k Hk Hn Hf; cbn [pow2_loop].
  - assert (k = Z.log2_up n) as -> by lia. rewrite (proj2 (Z.ltb_ge _ _)); [done|].
    apply Z.log2_up_le_pow2; lia.
  - destruct (Z.ltb_spec (2 ^ k) n) as [Hlt|Hge].
    + assert (k < Z.log2_up n) by (apply Z.log2_up_lt_pow2; lia).
      assert (Z.log2_up n <= 30) by (apply Z.log2_up_le_pow2; lia).
      assert (E : 2 ^ k * 2 = 2 ^ (k + 1)) by (rewrite Z.pow_add_r by lia; lia).
      assert (2 ^ (k + 1) <= 2 ^ 30) by (apply Z.pow_le_mono_r; lia).
      rewrite sint_Some by (pose proof (Z.pow_pos_nonneg 2 k); lia). cbn. rewrite E.
      apply IH; lia.
    + assert (Z.log2_up n <= k) by (apply Z.log2_up_le_pow2; lia).
      do 2 f_equal. lia.
Qed.

(** ** Iteration in the option monad *)

(** [run_iters body order a] executes the loop body once for each element of
    [order], threading the state; [None] is an undefined behaviour of C met by
    one of the iterations. *)
Fixpoint run_iters {I A} (body : I -> A -> option A) (order : list I) (a : A) : option A :=
  match order with
  | [] => Some a
  | i :: order => a' ← body i a; run_iters body order a'
  end.

Lemma run_iters_app {I A} (body : I -> A -> option A) o1 o2 a :
  run_iters body (o1 ++ o2) a = a' ← run_iters body o1 a; run_iters body o2 a'.
Proof.
  revert a. induction o1 as [|i o1 IH]; intros a; simpl; [done|].
  destruct (body i a); simpl; auto.
Qed.

Lemma run_iters_fmap {I J A} (f : I -> J) (body : J -> A -> option A) o a :
  run_iters body (f <$> o) a = run_iters (fun i => body (f i)) o a.
Proof.
  revert a. induction o as [|i o IH]; intros a; [done|]. rewrite fmap_cons. cbn [run_iters].
  destruct (body (f i) a); cbn; [apply IH|done].
Qed.

(** A state predicate kept by every iteration. *)
Lemma run_iters_inv {I A} (body : I -> A -> option A) (P : A -> Prop) order a :
  (forall i b, i ∈ order -> P b -> exists b', body i b = Some b' /\ P b') ->
  P a -> exists a', run_iters body order a = Some a' /\ P a'.
Proof.
  revert a. induction order as [|i order IH]; intros a Hstep Ha; cbn [run_iters]; [by eauto|].
  destruct (Hstep i a) as (b & -> & Hb); [left|done|]. cbn [mbind option_bind].
  apply IH; [|done]. intros j c Hj. apply Hstep. by right.
Qed.

(** What every iteration keeps holds at the end. *)
Lemma run_iters_all {I A} (body : I -> A -> option A) (Q : A -> Prop) order a a' :
  (forall i b b', Q b -> body i b = Some b' -> Q b') ->
  Q a -> run_iters body order a = Some a' -> Q a'.
Proof.
  intros Hstep. revert a. induction order as [|i order IH]; cbn [run_iters]; intros a Ha; [by intros [= <-]|].
  destruct (body i a) as [b|] eqn:E; [|done]. cbn [mbind option_bind]. apply IH. by apply (Hstep i a).
Qed.

(** A predicate indexed by the iteration. *)
Lemma run_iters_seq {A} (body : nat -> A -> option A) (P : nat -> A -> Prop) m a :
  (forall i b, (i < m)%nat -> P i b -> exists b', body i b = Some b' /\ P (S i) b') ->
  P 0%nat a -> exists a', run_iters body (seq 0 m) a = Some a' /\ P m a'.
Proof.
  induction m as [|m IH]; intros Hstep Ha; [by eauto|].
  destruct IH as (b & Eb & Hb); [intros; apply Hstep; [lia|done]|done|].
  rewrite seq_S, run_iters_app, Eb. cbn [mbind option_bind run_iters].
  rewrite Nat.add_0_l. destruct (Hstep m b) as (c & -> & Hc); [lia|done|]. by exists c.
Qed.

(** [f] holds of every index below [n]. *)
Fixpoint forall_below (n : nat) (f : nat -> bool) : bool :=
  match n with
  | O => true
  | S n => f n && forall_below n f
  end.

Lemma forall_below_spec n f : forall_below n f = true -> forall i, (i < n)%nat -> f i = true.
Proof.
  induction n as [|n IH]; simpl; intros H i Hi; [lia|].
  apply andb_prop in H as [H1 H2].
  destruct (decide (i = n)) as [->|]; [done|]. apply IH; [done|lia].
Qed.

(** An exhaustive check of [z, z + n). *)
Fixpoint forall_from (n : nat) (z : Z) (f : Z -> bool) : bool :=
  match n with
  | O => true
  | S n => if f z then forall_from n (z + 1) f else false
  end.

Lemma forall_from_spec n z f :
  forall_from n z f = true -> forall x, z <= x < z + Z.of_nat n -> f x = true.
Proof.
  revert z. induction n as [|n IH]; intros z; cbn [forall_from]; intros H x Hx; [lia|].
  destruct (f z) eqn:E; [|done].
  destruct (decide (x = z)) as [->|]; [done|]. apply (IH (z + 1)); [done|lia].
Qed.

(** An exhaustive check over one byte. *)
Lemma byte_exhaust (f : Z -> bool) :
  forall_below 256 (fun i => f (Z.of_nat i)) = true ->
  forall x, 0 <= x < 256 -> f x = true.
Proof.
  intros H x Hx. pose proof (forall_below_spec _ _ H (Z.to_nat x) ltac:(lia)) as Hf.
  simpl in Hf. by rewrite Z2Nat.id in Hf by lia.
Qed.
