(* ===== verification/Memory.v ===== *)
(** * Memory: byte buffers and little-endian access

    A C buffer is the list of its bytes.  [load]/[store] are the accesses of
    the libraries through [uint8_t*] .. [uint64_t*] pointers on a little-endian
    host: element [idx] of an array of [w]-byte words that starts at the
    beginning of the buffer.  An access outside the buffer is [None]. *)
From S2P Require Export Prelude.
#[local] Open Scope Z_scope.

Abbreviation buffer := (list Z).

Definition is_byte (x : Z) : Prop := 0 <= x < 256.
Definition bytes_ok (buf : buffer) : Prop := Forall is_byte buf.

(** Bit [k] of a buffer: bit [k mod 8] of byte [k / 8]. *)
Definition bit_at (buf : buffer) (k : nat) : bool :=
  Z.testbit (nth (k / 8) buf 0) (Z.of_nat (k mod 8)).

Fixpoint le_combine (bs : list Z) : Z :=
  match bs with
  | [] => 0
  | b :: bs => Z.lor b (Z.shiftl (le_combine bs) 8)
  end.

Fixpoint le_split (n : nat) (x : Z) : list Z :=
  match n with
  | O => []
  | S n => uwrap 8 x :: le_split n (Z.shiftr x 8)
  end.

Definition slice (buf : buffer) (off len : nat) : list Z := take len (drop off buf).

Definition load (w : nat) (buf : buffer) (idx : nat) : option Z :=
  if decide (w * idx + w <= length buf)%nat
  then Some (le_combine (slice buf (w * idx) w)) else None.

Definition store (w : nat) (buf : buffer) (idx : nat) (x : Z) : option buffer :=
  if decide (w * idx + w <= length buf)%nat
  then Some (list_inserts (w * idx) (le_split w x) buf) else None.

(** Consecutive stores to the words [idx], [idx + 1], ... *)
Fixpoint stores (w : nat) (buf : buffer) (idx : nat) (xs : list Z) : option buffer :=
  match xs with
  | [] => Some buf
  | x :: xs => buf' ← store w buf idx x; stores w buf' (S idx) xs
  end.

(** ** Lengths *)

Lemma slice_slice (data : buffer) i n j m : (j + m <= n)%nat -> slice (slice data i n) j m = slice data (i + j) m.
Proof.
  intros H. unfold slice. apply list_eq. intros k. destruct (decide (k < m)%nat).
  - rewrite !lookup_take_lt, !lookup_drop by lia. rewrite lookup_take_lt, lookup_drop by lia. f_equal. lia.
  - rewrite !lookup_take_ge by lia. done.
Qed.

Lemma length_le_split n x : length (le_split n x) = n.
Proof. revert x. induction n; intros; simpl; auto. Qed.

Lemma length_slice buf off len :
  (off + len <= length buf)%nat -> length (slice buf off len) = len.
Proof. intros. unfold slice. rewrite length_take, length_drop. lia. Qed.

Lemma slice_lookup buf off len j :
  (j < len)%nat -> slice buf off len !! j = buf !! (off + j)%nat.
Proof. intros. unfold slice. rewrite lookup_take, lookup_drop. by case_decide; [|lia]. Qed.

#[export] Hint Rewrite length_le_split @length_inserts @length_app @length_take
  @length_drop @length_fmap @length_seq @length_replicate : clen.

(** ** Bytes *)

Lemma bytes_ok_nth buf i : bytes_ok buf -> is_byte (nth i buf 0).
Proof.
  intros Hb. rewrite nth_lookup. destruct (buf !! i) as [x|] eqn:E; simpl.
  - by eapply Forall_lookup in E.
  - unfold is_byte; lia.
Qed.

Lemma bytes_ok_slice buf off len : bytes_ok buf -> bytes_ok (slice buf off len).
Proof. intros. by apply Forall_take, Forall_drop. Qed.

Lemma le_split_bytes n x : bytes_ok (le_split n x).
Proof.
  revert x. induction n; intros x; simpl; constructor; [|apply IHn].
  unfold is_byte. apply (uwrap_range 8); lia.
Qed.

Lemma testbit_byte_high x k : is_byte x -> 8 <= k -> Z.testbit x k = false.
Proof.
  intros Hx Hk. destruct (decide (x = 0)) as [->|]; [apply Z.bits_0|].
  apply Z.bits_above_log2; [unfold is_byte in *; lia|].
  unfold is_byte in Hx. apply Z.log2_lt_pow2; [lia|].
  assert (2 ^ 8 <= 2 ^ k) by (apply Z.pow_le_mono_r; lia). lia.
Qed.

#[export] Hint Resolve bytes_ok_nth bytes_ok_slice le_split_bytes : cint.

(** ** Bits *)

Lemma bit_at_cons x buf k :
  bit_at (x :: buf) k = if decide (k < 8)%nat then Z.testbit x (Z.of_nat k) else bit_at buf (k - 8).
Proof.
  unfold bit_at. case_decide.
  - rewrite Nat.div_small, Nat.mod_small by lia. done.
  - replace k with (k - 8 + 1 * 8)%nat at 1 2 by lia.
    rewrite Nat.div_add, Nat.Div0.mod_add by lia.
    by replace ((k - 8) / 8 + 1)%nat with (S ((k - 8) / 8)) by lia.
Qed.

Lemma bit_at_nil k : bit_at [] k = false.
Proof. unfold bit_at. destruct (k / 8)%nat; apply Z.bits_0. Qed.

Lemma le_combine_bit bs k :
  bytes_ok bs -> Z.testbit (le_combine bs) (Z.of_nat k) = bit_at bs k.
Proof.
  intros Hb. revert k. induction Hb as [|b bs Hx Hb IH]; intros k; simpl.
  - by rewrite Z.bits_0, bit_at_nil.
  - rewrite bit_at_cons, Z.lor_spec, Z.shiftl_spec by lia. case_decide.
    + rewrite (Z.testbit_neg_r _ (_ - 8)) by lia. apply orb_false_r.
    + rewrite testbit_byte_high by (done || lia). simpl.
      rewrite <-IH. f_equal. lia.
Qed.

Lemma le_split_bit n x k :
  (k < 8 * n)%nat -> bit_at (le_split n x) k = Z.testbit x (Z.of_nat k).
Proof.
  revert x k. induction n as [|n IH]; intros x k Hk; [lia|].
  simpl le_split. rewrite bit_at_cons. case_decide.
  - unfold uwrap. by rewrite Z.mod_pow2_bits_low by lia.
  - rewrite IH by lia. rewrite Z.shiftr_spec by lia. f_equal. lia.
Qed.

Lemma le_combine_nonneg bs : bytes_ok bs -> 0 <= le_combine bs.
Proof.
  induction 1 as [|b bs Hx Hb IH]; simpl; [lia|].
  apply Z.lor_nonneg. split; [unfold is_byte in *; lia|]. by apply Z.shiftl_nonneg.
Qed.

Lemma bit_at_high bs k : (8 * length bs <= k)%nat -> bit_at bs k = false.
Proof.
  intros Hk. unfold bit_at. rewrite nth_overflow; [apply Z.bits_0|].
  apply Nat.div_le_lower_bound; lia.
Qed.

Lemma le_combine_bound bs : bytes_ok bs -> 0 <= le_combine bs < 2 ^ (8 * Z.of_nat (length bs)).
Proof.
  intros Hb. split; [by apply le_combine_nonneg|].
  apply bits_above_lt; [lia|]. intros i Hi.
  replace i with (Z.of_nat (Z.to_nat i)) by lia.
  rewrite le_combine_bit by done. apply bit_at_high. lia.
Qed.

Lemma le_split_combine bs n : bytes_ok bs -> length bs = n -> le_split n (le_combine bs) = bs.
Proof.
  intros Hb <-. induction Hb as [|b bs Hx Hb IH]; [done|].
  cbn [length le_split le_combine]. f_equal.
  - unfold uwrap. apply Z.bits_inj'. intros i Hi.
    destruct (decide (i < 8)).
    + rewrite Z.mod_pow2_bits_low, Z.lor_spec, Z.shiftl_spec by lia.
      by rewrite (Z.testbit_neg_r _ (i - 8)), orb_false_r by lia.
    + rewrite Z.mod_pow2_bits_high by lia. symmetry. apply testbit_byte_high; [done|lia].
  - etransitivity; [|exact IH]. f_equal. apply Z.bits_inj'. intros i Hi.
    rewrite Z.shiftr_spec, Z.lor_spec, Z.shiftl_spec by lia.
    rewrite testbit_byte_high by (done || lia). simpl. f_equal. lia.
Qed.

(** Combining the bytes of a number gives it modulo the width. *)
Lemma le_combine_split_wrap n x : le_combine (le_split n x) = uwrap (8 * Z.of_nat n) x.
Proof.
  unfold uwrap. apply Z.bits_inj'. intros i Hi.
  replace i with (Z.of_nat (Z.to_nat i)) by lia. rewrite le_combine_bit by auto with cint.
  destruct (decide (Z.to_nat i < 8 * n)%nat) as [|Hge].
  - rewrite le_split_bit, Z.mod_pow2_bits_low by lia. done.
  - rewrite Z.mod_pow2_bits_high by lia. apply bit_at_high. rewrite length_le_split. lia.
Qed.

Lemma le_combine_split n x : 0 <= x < 2 ^ (8 * Z.of_nat n) -> le_combine (le_split n x) = x.
Proof. intros Hx. rewrite le_combine_split_wrap. by apply uwrap_small. Qed.

(** ** Loads and stores *)

Lemma load_Some w buf idx :
  (w * idx + w <= length buf)%nat -> load w buf idx = Some (le_combine (slice buf (w * idx) w)).
Proof. intros. unfold load. by case_decide. Qed.

Lemma load_bytes buf idx : (idx < length buf)%nat -> bytes_ok buf -> load 1 buf idx = Some (nth idx buf 0).
Proof.
  intros H Hb. rewrite load_Some by lia. f_equal.
  unfold slice. rewrite Nat.mul_1_l, nth_lookup.
  destruct (buf !! idx) as [x|] eqn:E; [|apply lookup_ge_None in E; lia].
  erewrite drop_S by done. simpl. by rewrite Z.shiftl_0_l, Z.lor_0_r.
Qed.

Lemma load_range w buf idx x :
  bytes_ok buf -> load w buf idx = Some x -> 0 <= x < 2 ^ (8 * Z.of_nat w).
Proof.
  intros Hb. unfold load. case_decide as Hl; [|done]. intros [= <-].
  pose proof (le_combine_bound (slice buf (w * idx) w)) as Hr.
  rewrite length_slice in Hr by lia. auto with cint.
Qed.

Lemma stores_Some w buf idx xs :
  (w * idx + w * length xs <= length buf)%nat ->
  stores w buf idx xs = Some (list_inserts (w * idx) (concat (le_split w <$> xs)) buf).
Proof.
  revert buf idx. induction xs as [|x xs IH]; intros buf idx Hl; simpl in *; [done|].
  unfold store. case_decide; [|lia]. simpl. rewrite IH by (autorewrite with clen; lia).
  f_equal. rewrite list_inserts_app_l. f_equal. f_equal. f_equal; autorewrite with clen; lia.
Qed.

(** ** A store and the loads after it *)

Lemma slice_inserts_same buf off l :
  (off + length l <= length buf)%nat -> slice (list_inserts off l buf) off (length l) = l.
Proof.
  intros H. apply list_eq. intros k. unfold slice. destruct (decide (k < length l)%nat).
  - rewrite lookup_take_lt, lookup_drop by lia.
    rewrite list_lookup_inserts by lia. f_equal. lia.
  - rewrite !lookup_ge_None_2; [done|lia|]. rewrite length_take. lia.
Qed.

Lemma slice_inserts_other buf off l off' n :
  (off' + n <= off \/ off + length l <= off')%nat ->
  slice (list_inserts off l buf) off' n = slice buf off' n.
Proof.
  intros H. apply list_eq. intros k. unfold slice. destruct (decide (k < n)%nat).
  - rewrite !lookup_take_lt, !lookup_drop by lia.
    destruct H; [by rewrite list_lookup_inserts_lt by lia|by rewrite list_lookup_inserts_ge by lia].
  - rewrite !lookup_ge_None_2; [done|rewrite length_take; lia..].
Qed.

Lemma store_Some w buf idx x :
  (w * idx + w <= length buf)%nat ->
  exists buf', store w buf idx x = Some buf' /\ length buf' = length buf /\
    (0 <= x < 2 ^ (8 * Z.of_nat w) -> load w buf' idx = Some x) /\
    (forall idx', idx' <> idx -> load w buf' idx' = load w buf idx') /\
    (forall k, (k < w * idx \/ w * idx + w <= k)%nat -> buf' !! k = buf !! k) /\
    (bytes_ok buf -> bytes_ok buf').
Proof.
  intros H. unfold store. rewrite decide_True by done. eexists. split; [done|].
  assert (Hl : length (list_inserts (w * idx) (le_split w x) buf) = length buf) by apply length_inserts.
  split_and!.
  - done.
  - intros Hx. rewrite load_Some by lia. f_equal.
    pose proof (slice_inserts_same buf (w * idx) (le_split w x)) as E.
    rewrite length_le_split in E. rewrite E by done. by apply le_combine_split.
  - intros idx' Hne. unfold load. rewrite Hl. case_decide; [|done]. do 2 f_equal.
    apply slice_inserts_other. rewrite length_le_split.
    assert (idx' < idx \/ idx < idx')%nat as [Hlt|Hlt] by lia; [left|right]; nia.
  - intros k [Hk|Hk]; [by apply list_lookup_inserts_lt|].
    apply list_lookup_inserts_ge. rewrite length_le_split. lia.
  - intros Hb. apply Forall_lookup. intros k y Hy.
    apply list_lookup_inserts_Some in Hy as [[_ Hy]|(_ & _ & Hy)].
    + by eapply Forall_lookup in Hy.
    + eapply Forall_lookup in Hy; [done|apply le_split_bytes].
Qed.
