(* ===== verification/BitExp.v ===== *)
(** * BitExp: deciding bit movements by reflection

    The corner turners compute words from bytes with or, constant masks,
    constant shifts and constant multiplications only.  Such an expression
    moves bits: each bit of its value is the disjunction of some bits of its
    variables.  [bexp] is the syntax of these expressions, [sym] computes for
    each bit of the value the list of the variable bits that feed it, and
    [sym_sound] says that it is right; the tactic [reify_bexp] turns a
    Gallina expression into syntax. *)
From S2P Require Export Memory.
#[local] Open Scope Z_scope.

Inductive bexp :=
| BVar (v : nat)
| BLor (a b : bexp)
| BMask (a : bexp) (m : Z)
| BShl (a : bexp) (n : Z)
| BShr (a : bexp) (n : Z)
| BMul (a : bexp) (c : Z)
| BWrap (w : Z) (a : bexp).

Fixpoint denote (env : list Z) (e : bexp) : Z :=
  match e with
  | BVar v => nth v env 0
  | BLor a b => Z.lor (denote env a) (denote env b)
  | BMask a m => Z.land (denote env a) m
  | BShl a n => Z.shiftl (denote env a) n
  | BShr a n => Z.shiftr (denote env a) n
  | BMul a c => denote env a * c
  | BWrap w a => uwrap w (denote env a)
  end.

(** The source of one bit: variable bits, as (variable, bit number). *)
Abbreviation atoms := (list (nat * nat)).

Fixpoint merge_bits (a b : list atoms) : list atoms :=
  match a, b with
  | [], _ => b
  | _, [] => a
  | x :: a, y :: b => (x ++ y) :: merge_bits a b
  end.

Fixpoint mask_bits (m : Z) (n : nat) (a : list atoms) : list atoms :=
  match a with
  | [] => []
  | x :: a => (if Z.testbit m (Z.of_nat n) then x else []) :: mask_bits m (S n) a
  end.

Section Sym.
(** Every variable has [wd] bits. *)
Context (wd : nat).

Fixpoint sym (e : bexp) : list atoms :=
  match e with
  | BVar v => (fun k => [(v, k)]) <$> seq 0 wd
  | BLor a b => merge_bits (sym a) (sym b)
  | BMask a m => mask_bits m 0 (sym a)
  | BShl a n => replicate (Z.to_nat n) [] ++ sym a
  | BShr a n => drop (Z.to_nat n) (sym a)
  | BMul a c => replicate (Z.to_nat (Z.log2 c)) [] ++ sym a
  | BWrap w a => take (Z.to_nat w) (sym a)
  end.

Fixpoint wf_bexp (e : bexp) : bool :=
  match e with
  | BVar _ => true
  | BLor a b => wf_bexp a && wf_bexp b
  | BMask a m => wf_bexp a
  | BShl a n | BShr a n => (0 <=? n) && wf_bexp a
  | BMul a c => (c =? 2 ^ Z.log2 c) && wf_bexp a
  | BWrap w a => (0 <=? w) && wf_bexp a
  end.

Definition atom_val (env : list Z) (x : nat * nat) : bool :=
  Z.testbit (nth x.1 env 0) (Z.of_nat x.2).

Definition bit_val (env : list Z) (bits : list atoms) (n : nat) : bool :=
  existsb (atom_val env) (nth n bits []).

Definition env_ok (env : list Z) : Prop :=
  forall v, 0 <= nth v env 0 < 2 ^ Z.of_nat wd.

Lemma bit_val_nil env n : bit_val env [] n = false.
Proof. unfold bit_val. by destruct n. Qed.

Lemma bit_val_merge env a b n :
  bit_val env (merge_bits a b) n = bit_val env a n || bit_val env b n.
Proof.
  revert b n. induction a as [|x a IH]; intros [|y b] n; simpl.
  - by rewrite bit_val_nil.
  - by rewrite bit_val_nil.
  - by rewrite bit_val_nil, orb_false_r.
  - destruct n as [|n]; [apply existsb_app|exact (IH b n)].
Qed.

Lemma bit_val_mask env m k a n :
  bit_val env (mask_bits m k a) n = bit_val env a n && Z.testbit m (Z.of_nat (k + n)).
Proof.
  revert k n. induction a as [|x a IH]; intros k n; simpl.
  - by rewrite !bit_val_nil.
  - destruct n as [|n].
    + rewrite Nat.add_0_r. unfold bit_val; simpl.
      destruct (Z.testbit m (Z.of_nat k)); simpl; [by rewrite andb_true_r|by rewrite andb_false_r].
    + rewrite Nat.add_succ_r. apply (IH (S k) n).
Qed.

Lemma bit_val_shl env j a n :
  bit_val env (replicate j [] ++ a) n = if decide (n < j)%nat then false else bit_val env a (n - j).
Proof.
  unfold bit_val. case_decide.
  - rewrite app_nth1 by (by rewrite length_replicate).
    by rewrite nth_lookup, lookup_replicate_2 by done.
  - rewrite app_nth2; rewrite length_replicate; [done|lia].
Qed.

Lemma bit_val_drop env j a n : bit_val env (drop j a) n = bit_val env a (j + n).
Proof. unfold bit_val. by rewrite !nth_lookup, lookup_drop. Qed.

Lemma bit_val_take env j a n :
  bit_val env (take j a) n = if decide (n < j)%nat then bit_val env a n else false.
Proof. unfold bit_val. rewrite !nth_lookup, lookup_take. by case_decide. Qed.

Lemma shiftl_bit x j n :
  0 <= j ->
  Z.testbit (Z.shiftl x j) (Z.of_nat n) =
    if decide (n < Z.to_nat j)%nat then false else Z.testbit x (Z.of_nat (n - Z.to_nat j)).
Proof.
  intros Hj. rewrite Z.shiftl_spec by lia. case_decide.
  - apply Z.testbit_neg_r. lia.
  - f_equal. lia.
Qed.

Theorem sym_sound env e n :
  env_ok env -> wf_bexp e = true ->
  Z.testbit (denote env e) (Z.of_nat n) = bit_val env (sym e) n.
Proof.
  intros Henv. revert n.
  induction e as [v|a IHa b IHb|a IHa m|a IHa j|a IHa j|a IHa c|w a IHa]; intros n Hwf;
    cbn [denote sym wf_bexp] in *;
    rewrite ?andb_true_iff, ?Z.leb_le, ?Z.eqb_eq in Hwf;
    repeat match goal with H : _ /\ _ |- _ => destruct H as [Hw1 Hw2] end.
  - unfold bit_val. rewrite (nth_lookup (_ <$> _)), list_lookup_fmap.
    destruct (decide (n < wd)%nat).
    + rewrite lookup_seq_lt by done. simpl. by rewrite orb_false_r.
    + rewrite lookup_seq_ge by lia. simpl. specialize (Henv v).
      destruct (decide (nth v env 0 = 0)) as [->|]; [apply Z.bits_0|].
      apply Z.bits_above_log2; [lia|]. apply Z.log2_lt_pow2; [lia|].
      assert (2 ^ Z.of_nat wd <= 2 ^ Z.of_nat n) by (apply Z.pow_le_mono_r; lia). lia.
  - by rewrite Z.lor_spec, bit_val_merge, IHa, IHb.
  - by rewrite Z.land_spec, bit_val_mask, IHa.
  - rewrite shiftl_bit, bit_val_shl by done. case_decide; auto.
  - rewrite Z.shiftr_spec, bit_val_drop by lia. rewrite <-IHa by done. f_equal. lia.
  - rewrite Hw1 at 1. rewrite <-Z.shiftl_mul_pow2 by apply Z.log2_nonneg.
    rewrite shiftl_bit, bit_val_shl by apply Z.log2_nonneg. case_decide; auto.
  - rewrite bit_val_take. unfold uwrap. case_decide.
    + rewrite Z.mod_pow2_bits_low by lia. auto.
    + by rewrite Z.mod_pow2_bits_high by lia.
Qed.
End Sym.

(** ** Reification *)

Ltac reify_bexp t :=
  lazymatch t with
  | nth ?v _ 0 => constr:(BVar v)
  | Z.lor ?a ?b => let a := reify_bexp a in let b := reify_bexp b in constr:(BLor a b)
  | Z.land ?a ?m => let a := reify_bexp a in constr:(BMask a m)
  | Z.shiftl ?a ?n => let a := reify_bexp a in constr:(BShl a n)
  | Z.shiftr ?a ?n => let a := reify_bexp a in constr:(BShr a n)
  | Z.mul ?a ?c => let a := reify_bexp a in constr:(BMul a c)
  | uwrap ?w ?a => let a := reify_bexp a in constr:(BWrap w a)
  end.

Ltac reify_bexps ts :=
  lazymatch ts with
  | @nil _ => constr:(@nil bexp)
  | ?t :: ?ts => let t := reify_bexp t in let ts := reify_bexps ts in constr:(t :: ts)
  end.
