(* ===== verification/CornerSpec.v ===== *)
(** * CornerSpec: what a corner turner promises, and how its loops keep it

    Shared by the files that model [cornerturners.c]: the loops of the corner
    turners (with the OpenMP schedule as a parameter), the specification
    [corner_turned], the interface [CornerTurns] a client relies on, and the
    generic lemmas that reduce a corner turner to one iteration of its loop. *)
From stdpp Require Export list sets.
From S2P Require Export BitExp.
#[local] Open Scope nat_scope.
#[local] Arguments Nat.mul : simpl never.

(** ** Loops

    [PRAGMA_OMP(for schedule(dynamic,125) nowait)]: in an OpenMP build the
    iterations of the loop run in any order; [sched n] is the order in which
    the [n] iterations run.  Without OpenMP it is [sequential]. *)
Definition schedule := nat -> list nat.
Definition sequential : schedule := seq 0.
Definition valid_schedule (sched : schedule) : Prop := forall n, sched n ≡ₚ seq 0 n.

Definition par_for (sched : schedule) (n : nat) (out : buffer)
    (body : nat -> buffer -> option buffer) : option buffer :=
  run_iters body (sched n) out.

(** The loops that advance a shared output pointer [p] in every iteration. *)
Definition par_for_ptr (sched : schedule) (n : nat) (out : buffer)
    (body : nat -> buffer * nat -> option (buffer * nat)) : option buffer :=
  fst <$> run_iters body (sched n) (out, 0).

(** [for(i = 0; i < n; i += 2)] *)
Definition evens (n : nat) : list nat := Nat.mul 2 <$> seq 0 ((n + 1) / 2).

(** ** Accesses to the thread buffers *)

Definition load_thread (w : nat) (tb : list buffer) (t idx : nat) : option Z :=
  buf ← tb !! t; load w buf idx.

(** The values of [t_k[idx + off]] for the pairs [(k, off)] of [ls]. *)
Fixpoint loads (w : nat) (tb : list buffer) (idx : nat) (ls : list (nat * nat)) : option (list Z) :=
  match ls with
  | [] => Some []
  | (t, off) :: ls => x ← load_thread w tb t (idx + off); xs ← loads w tb idx ls; Some (x :: xs)
  end.

(** Threads [0 .. n-1], each at the loop index. *)
Definition threads (n : nat) : list (nat * nat) := (fun t => (t, 0)) <$> seq 0 n.

(** [*out = t_k[j]; ++out;] for the pairs [(k, j)] of [ls]. *)
Fixpoint moves (w : nat) (tb : list buffer) (out : buffer) (idx : nat) (ls : list (nat * nat))
    : option buffer :=
  match ls with
  | [] => Some out
  | (t, j) :: ls => x ← load_thread w tb t j; out' ← store w out idx x; moves w tb out' (S idx) ls
  end.

Definition cornerturner := schedule -> buffer -> list buffer -> Z -> option buffer.

(** ** Specification *)

(** The number of output channels: the lowest power of two that is at least
    the number of threads. *)
Definition nchan (nt : nat) : nat := 2 ^ Nat.log2_up nt.

(** The [N]-byte output is a sequence of [b]-bit samples; sample [s] belongs to
    thread [t = s mod nchan nt] and is that thread's sample [s / nchan nt].
    Channels at or above [nt] are padding. *)
Definition corner_turned (nt b : nat) (tb : list buffer) (out : buffer) (N : nat) : Prop :=
  forall p, p < 8 * N ->
    let s := p / b in let t := s mod nchan nt in
    t < nt -> bit_at out p = bit_at (nth t tb []) (s / nchan nt * b + p mod b).

(** The input a call with [N] bytes of output may rely on. *)
Record turn_input (nt : nat) (tb : list buffer) (out : buffer) (N : nat) : Prop := {
  ti_out : N <= length out;
  ti_threads : nt <= length tb;
  ti_bytes : Forall bytes_ok tb;
  ti_len : forall t, t < nt -> N / nchan nt <= length (nth t tb []) }.

Record turn_output (nt b : nat) (tb : list buffer) (out : buffer) (N : nat)
    (out' : buffer) : Prop := {
  to_length : length out' = length out;
  to_turned : corner_turned nt b tb out' N;
  to_rest : forall p, N <= p -> out' !! p = out !! p;
  to_bytes : bytes_ok out -> bytes_ok out' }.

(** The interface of a corner turner for [nt] threads of [b]-bit samples: for
    every order of iterations in [S] and every output size that is a multiple
    of [g] bytes the call stays inside its buffers, corner turns the data and
    writes nothing else, and the result does not depend on the order. *)
Class CornerTurns (S : schedule -> Prop) (ct : cornerturner) (nt b g : nat) : Prop := {
  ct_turns sched tb out N :
    S sched -> Nat.divide g N -> turn_input nt tb out N ->
    exists out', ct sched out tb (Z.of_nat N) = Some out' /\ turn_output nt b tb out N out';
  ct_order sched1 sched2 tb out N :
    S sched1 -> S sched2 -> Nat.divide g N -> turn_input nt tb out N ->
    ct sched1 out tb (Z.of_nat N) = ct sched2 out tb (Z.of_nat N) }.

Lemma sequential_valid : valid_schedule sequential.
Proof. intros n. done. Qed.

Lemma nchan_pos nt : 0 < nchan nt.
Proof. unfold nchan. pose proof (Nat.pow_nonzero 2 (Nat.log2_up nt) ltac:(lia)). lia. Qed.

Lemma nchan_ge nt : nt <= nchan nt.
Proof.
  unfold nchan. destruct (decide (1 < nt)) as [H|].
  - apply (Nat.log2_up_spec nt H).
  - pose proof (nchan_pos nt) as H'. unfold nchan in H'. lia.
Qed.

(** ** One iteration writes one chunk *)

Section Chunks.
Context (k : nat) (chunk : nat -> list Z) (n L : nat).
Context (body : nat -> buffer -> option buffer).

(** Iteration [i] writes the bytes [chunk i] at offset [k * i]. *)
Record chunk_writer : Prop := {
  cw_body i out : i < n -> length out = L ->
    body i out = Some (list_inserts (k * i) (chunk i) out);
  cw_len i : i < n -> length (chunk i) <= k;
  cw_bytes i : i < n -> bytes_ok (chunk i);
  cw_fits : k * n <= L }.

Context (Hcw : chunk_writer) (Hk : 0 < k).

(** Byte [p] of the output after the iterations of [order]. *)
Definition chunk_at (order : list nat) (out : buffer) (p : nat) : option Z :=
  if decide (p / k ∈ order /\ p mod k < length (chunk (p / k)))
  then chunk (p / k) !! (p mod k) else out !! p.

Lemma chunk_insert_lookup i out p :
  i < n -> length out = L ->
  list_inserts (k * i) (chunk i) out !! p = chunk_at [i] out p.
Proof using Hcw Hk.
  intros Hi Hl. pose proof (cw_len Hcw i Hi) as Hlen. pose proof (cw_fits Hcw) as Hfit.
  pose proof (Nat.div_mod_eq p k) as Hp. pose proof (Nat.mod_upper_bound p k ltac:(lia)) as Hr.
  assert (k * i + k <= k * n) by (rewrite <-Nat.mul_succ_r; apply Nat.mul_le_mono_l; lia).
  unfold chunk_at. generalize dependent (p mod k). generalize dependent (p / k).
  intros q r Hp Hr. case_decide as Hd.
  - destruct Hd as [->%list_elem_of_singleton Hlt].
    rewrite list_lookup_inserts by lia. f_equal. lia.
  - assert (p < k * i \/ k * i + length (chunk i) <= p) as [|].
    { destruct (decide (q = i)) as [->|].
      - right. assert (~ r < length (chunk i)) by (intros ?; apply Hd; set_solver). lia.
      - assert (q < i \/ i < q) as [|] by lia; [left|right]; nia. }
    + by rewrite list_lookup_inserts_lt.
    + by rewrite list_lookup_inserts_ge by lia.
Qed.

Lemma run_chunks order out :
  (forall i, i ∈ order -> i < n) -> length out = L ->
  exists out', run_iters body order out = Some out' /\ length out' = L /\
    forall p, out' !! p = chunk_at order out p.
Proof using Hcw Hk.
  revert out. induction order as [|i order IH]; intros out Hord Hl.
  - exists out. split_and!; [done..|]. intros p. unfold chunk_at.
    case_decide as Hd; [|done]. destruct Hd as [[]%elem_of_nil _].
  - assert (i < n) as Hi by (apply Hord; set_solver).
    cbn [run_iters]. rewrite (cw_body Hcw) by done. cbn.
    destruct (IH (list_inserts (k * i) (chunk i) out)) as (out' & Hr & Hl' & Hp).
    + intros j Hj. apply Hord. set_solver.
    + by rewrite length_inserts.
    + exists out'. split_and!; [done..|]. intros p. rewrite Hp. unfold chunk_at at 1.
      rewrite chunk_insert_lookup by done. unfold chunk_at.
      repeat case_decide; set_solver.
Qed.

(** The order of the iterations does not matter. *)
Lemma run_chunks_order o1 o2 out :
  o1 ≡ₚ seq 0 n -> o2 ≡ₚ seq 0 n -> length out = L ->
  run_iters body o1 out = run_iters body o2 out.
Proof using Hcw Hk.
  intros H1 H2 Hl.
  assert (Hin : forall o, o ≡ₚ seq 0 n -> forall i, i ∈ o <-> i < n).
  { intros o Ho i. rewrite Ho, elem_of_seq. lia. }
  destruct (run_chunks o1 out) as (out1 & -> & _ & Hp1); [by intros; apply (Hin o1)|done|].
  destruct (run_chunks o2 out) as (out2 & -> & _ & Hp2); [by intros; apply (Hin o2)|done|].
  f_equal. apply list_eq. intros p. rewrite Hp1, Hp2. unfold chunk_at.
  repeat case_decide; rewrite ?Hin in * by done; naive_solver.
Qed.

Lemma run_chunks_bytes order out out' :
  (forall i, i ∈ order -> i < n) -> length out = L ->
  run_iters body order out = Some out' -> bytes_ok out -> bytes_ok out'.
Proof using Hcw Hk.
  intros Hord Hl Hr Hb. destruct (run_chunks order out) as (o & Hr' & _ & Hp); [done..|].
  assert (out' = o) as -> by congruence.
  apply Forall_lookup. intros p x. rewrite Hp. unfold chunk_at. case_decide as Hd.
  - intros Hx. eapply Forall_lookup; [|exact Hx]. apply (cw_bytes Hcw), Hord, Hd.
  - intros Hx. by eapply Forall_lookup.
Qed.
End Chunks.

(** ** From one chunk to the whole output *)

(** [chunk] is the corner turned output of the bytes [c * i .. c * i + c - 1]
    of every thread. *)
Definition chunk_turned (nt b c : nat) (tb : list buffer) (i : nat) (chunk : list Z) : Prop :=
  forall r, r < 8 * (c * nchan nt) ->
    let s := r / b in let t := s mod nchan nt in
    t < nt -> r < 8 * length chunk /\
      bit_at chunk r = bit_at (nth t tb []) (8 * (c * i) + (s / nchan nt * b + r mod b)).

Lemma bit_at_byte out p x : out !! (p / 8) = Some x -> bit_at out p = Z.testbit x (Z.of_nat (p mod 8)).
Proof. intros H. unfold bit_at. by rewrite nth_lookup, H. Qed.

(** Sample arithmetic: a position splits into its chunk and the rest. *)
Lemma chunk_sample b c m u i r :
  0 < b -> 0 < u -> 8 * c = b * m ->
  let p := 8 * (c * u) * i + r in
  p / b = u * (m * i) + r / b /\ p mod b = r mod b /\
  p / b mod u = r / b mod u /\
  p / b / u * b = 8 * (c * i) + r / b / u * b.
Proof.
  intros Hb Hu Hm p.
  assert (Hp : p = r + (u * (m * i)) * b) by (subst p; nia).
  assert (Hs : p / b = r / b + (m * i) * u) by (rewrite Hp, Nat.div_add by lia; lia).
  split_and!.
  - lia.
  - by rewrite Hp, Nat.Div0.mod_add.
  - by rewrite Hs, Nat.Div0.mod_add.
  - rewrite Hs, Nat.div_add by lia. rewrite Nat.mul_add_distr_r.
    assert (m * i * b = 8 * (c * i)) by nia. lia.
Qed.

Section Turner.
Context (nt b c m : nat) (Hb : 0 < b) (Hc : 0 < c) (Hm : 8 * c = b * m).
Local Definition turner_k := c * nchan nt.

Lemma chunks_turned tb chunk n (out out' : buffer) (order : list nat) :
  order ≡ₚ seq 0 n ->
  (forall i, i < n -> chunk_turned nt b c tb i (chunk i)) ->
  (forall p, out' !! p = chunk_at turner_k chunk order out p) ->
  (forall i, i < n -> length (chunk i) <= turner_k) ->
  corner_turned nt b tb out' (turner_k * n).
Proof using Hb Hc Hm.
  intros Hord Hch Hp Hlen p Hlt s t Ht. subst s t.
  pose proof (nchan_pos nt) as Hu. unfold turner_k in *.
  set (k := c * nchan nt) in *. assert (Hk : 0 < k) by (subst k; nia).
  set (i := p / (8 * k)). set (r := p mod (8 * k)).
  assert (Hpr : p = 8 * k * i + r) by apply Nat.div_mod_eq.
  assert (Hr : r < 8 * k) by (apply Nat.mod_upper_bound; lia).
  assert (Hi : i < n) by (apply Nat.Div0.div_lt_upper_bound; lia).
  clearbody i r. subst p.
  destruct (chunk_sample b c m (nchan nt) i r Hb Hu Hm) as (_ & H2 & H3 & H4).
  fold k in H2, H3, H4. rewrite H3 in Ht. rewrite H2, H3, H4.
  destruct (Hch i Hi r Hr Ht) as [Hrl Hbit].
  replace (8 * (c * i) + r / b / nchan nt * b + r mod b)
    with (8 * (c * i) + (r / b / nchan nt * b + r mod b)) by lia.
  rewrite <-Hbit.
  assert (E8 : (8 * k * i + r) / 8 = k * i + r / 8 /\ (8 * k * i + r) mod 8 = r mod 8).
  { replace (8 * k * i + r) with (r + k * i * 8) by lia.
    rewrite Nat.div_add, Nat.Div0.mod_add by lia. lia. }
  destruct E8 as [E8 E8'].
  assert (Hr8 : r / 8 < length (chunk i)) by (apply Nat.Div0.div_lt_upper_bound; lia).
  pose proof (Hlen i Hi) as Hck.
  unfold bit_at. rewrite E8, E8', !nth_lookup, Hp. unfold chunk_at.
  assert (Ek : (k * i + r / 8) / k = i /\ (k * i + r / 8) mod k = r / 8).
  { replace (k * i + r / 8) with (r / 8 + i * k) by lia.
    rewrite Nat.div_add, Nat.Div0.mod_add by lia.
    rewrite Nat.div_small, Nat.mod_small by lia. lia. }
  destruct Ek as [-> ->]. rewrite decide_True; [done|]. split; [|lia].
  rewrite Hord, elem_of_seq. lia.
Qed.

Lemma chunks_rest chunk n (out out' : buffer) (order : list nat) :
  order ≡ₚ seq 0 n ->
  (forall p, out' !! p = chunk_at turner_k chunk order out p) ->
  forall p, turner_k * n <= p -> out' !! p = out !! p.
Proof using Hb Hc Hm.
  intros Hord Hp p Hge. rewrite Hp. unfold chunk_at.
  rewrite decide_False; [done|]. intros [Hin _]. rewrite Hord, elem_of_seq in Hin.
  pose proof (nchan_pos nt) as Hu. assert (0 < turner_k) by (unfold turner_k; nia).
  assert (n <= p / turner_k) by (apply Nat.div_le_lower_bound; lia). lia.
Qed.

(** A turner whose loop body is an indexed chunk writer. *)
Lemma chunks_run tb chunk n out body sched :
  valid_schedule sched ->
  chunk_writer turner_k chunk n (length out) body ->
  (forall i, i < n -> chunk_turned nt b c tb i (chunk i)) ->
  exists out', run_iters body (sched n) out = Some out' /\
    turn_output nt b tb out (turner_k * n) out'.
Proof using Hb Hc Hm.
  intros Hs Hcw Hch. pose proof (nchan_pos nt) as Hu.
  assert (Hk : 0 < turner_k) by (unfold turner_k; nia).
  assert (Hin : forall i, i ∈ sched n -> i < n) by (intros i; rewrite (Hs n), elem_of_seq; lia).
  destruct (run_chunks turner_k chunk n (length out) body Hcw Hk (sched n) out)
    as (out' & Hr & Hl & Hp); [done..|].
  exists out'. split; [done|]. split.
  - done.
  - eapply chunks_turned; eauto. apply (cw_len _ _ _ _ _ Hcw).
  - eapply chunks_rest; eauto.
  - by eapply run_chunks_bytes.
Qed.
End Turner.

(** ** Loads *)

Definition load_val (w : nat) (tb : list buffer) (idx : nat) (l : nat * nat) : Z :=
  le_combine (slice (nth l.1 tb []) (w * (idx + l.2)) w).

Lemma load_thread_Some w tb t idx :
  t < length tb -> w * idx + w <= length (nth t tb []) ->
  load_thread w tb t idx = Some (le_combine (slice (nth t tb []) (w * idx) w)).
Proof.
  intros Ht Hl. unfold load_thread. rewrite nth_lookup in *.
  destruct (tb !! t) as [buf|] eqn:E; [|apply lookup_ge_None in E; lia].
  simpl in *. by apply load_Some.
Qed.

Lemma loads_Some w tb idx ls :
  Forall (fun l => l.1 < length tb /\ w * (idx + l.2) + w <= length (nth l.1 tb [])) ls ->
  loads w tb idx ls = Some (load_val w tb idx <$> ls).
Proof.
  induction 1 as [|[t off] ls [Ht Hl] _ IH]; [done|].
  cbn [loads]. rewrite load_thread_Some by done. cbn. by rewrite IH.
Qed.

Lemma tb_nth_bytes (tb : list buffer) t : Forall bytes_ok tb -> bytes_ok (nth t tb []).
Proof.
  intros H. rewrite nth_lookup. destruct (tb !! t) as [x|] eqn:E; simpl; [|constructor].
  by eapply Forall_lookup in E.
Qed.

Lemma load_vals_env w tb idx ls :
  Forall bytes_ok tb ->
  Forall (fun l => w * (idx + l.2) + w <= length (nth l.1 tb [])) ls ->
  env_ok (8 * w) (load_val w tb idx <$> ls).
Proof.
  intros Hb Hl v. rewrite nth_lookup, list_lookup_fmap.
  destruct (ls !! v) as [[t off]|] eqn:E; cbn -[Nat.mul Z.of_nat Z.pow]; [|lia].
  eapply Forall_lookup in E; [|exact Hl]. unfold load_val. cbn [fst snd] in *.
  pose proof (le_combine_bound (slice (nth t tb []) (w * (idx + off)) w)) as Hr.
  rewrite length_slice in Hr by lia.
  replace (Z.of_nat (8 * w)) with (8 * Z.of_nat w)%Z by lia.
  apply Hr. by apply bytes_ok_slice, tb_nth_bytes.
Qed.

Lemma bit_at_slice buf off len k :
  k < 8 * len -> bit_at (slice buf off len) k = bit_at buf (8 * off + k).
Proof.
  intros Hk. unfold bit_at. rewrite !nth_lookup.
  replace (8 * off + k) with (k + off * 8) by lia.
  rewrite Nat.div_add, Nat.Div0.mod_add, slice_lookup by (lia || (apply Nat.Div0.div_lt_upper_bound; lia)).
  do 2 f_equal. f_equal. lia.
Qed.

Lemma load_val_bit w tb idx t off k :
  Forall bytes_ok tb -> k < 8 * w ->
  Z.testbit (load_val w tb idx (t, off)) (Z.of_nat k) =
  bit_at (nth t tb []) (8 * (w * (idx + off)) + k).
Proof.
  intros Hb Hk. unfold load_val. rewrite le_combine_bit by (by apply bytes_ok_slice, tb_nth_bytes).
  by apply bit_at_slice.
Qed.

Lemma bit_at_app_l (l1 l2 : buffer) k : k < 8 * length l1 -> bit_at (l1 ++ l2) k = bit_at l1 k.
Proof.
  intros. unfold bit_at. rewrite app_nth1; [done|]. apply Nat.Div0.div_lt_upper_bound; lia.
Qed.

Lemma bit_at_app_r (l1 l2 : buffer) k : bit_at (l1 ++ l2) (8 * length l1 + k) = bit_at l2 k.
Proof.
  unfold bit_at. replace (8 * length l1 + k) with (k + length l1 * 8) by lia.
  rewrite Nat.div_add, Nat.Div0.mod_add by lia. rewrite app_nth2 by lia. do 2 f_equal. lia.
Qed.

(** Bits of a concatenation of blocks of [w] bytes. *)
Lemma bit_at_blocks {A} (f : A -> buffer) w (xs : list A) j r x :
  Forall (fun x => length (f x) = w) xs -> r < 8 * w -> xs !! j = Some x ->
  bit_at (concat (f <$> xs)) (8 * w * j + r) = bit_at (f x) r.
Proof.
  intros Hf Hr. revert j. induction Hf as [|y xs Hy _ IH]; intros j Hx; [done|].
  rewrite fmap_cons. cbn [concat]. destruct j as [|j]; cbn in Hx.
  - simplify_eq. rewrite Nat.mul_0_r. apply bit_at_app_l. lia.
  - rewrite <-(IH j Hx). replace (8 * w * S j + r) with (8 * length (f y) + (8 * w * j + r)).
    + apply bit_at_app_r.
    + rewrite Hy. nia.
Qed.

Lemma length_blocks {A} (f : A -> buffer) w (xs : list A) :
  Forall (fun x => length (f x) = w) xs -> length (concat (f <$> xs)) = w * length xs.
Proof.
  intros Hf. induction Hf as [|x xs Hx _ IH]; [simpl; lia|].
  rewrite fmap_cons. cbn [concat length]. rewrite length_app, Hx, IH. lia.
Qed.

Lemma Forall_length_split w (xs : list Z) : Forall (fun x => length (le_split w x) = w) xs.
Proof. apply Forall_true. intros x. apply length_le_split. Qed.

Lemma bytes_ok_blocks {A} (f : A -> buffer) (xs : list A) :
  (forall x, bytes_ok (f x)) -> bytes_ok (concat (f <$> xs)).
Proof.
  intros Hf. induction xs; [constructor|]. rewrite fmap_cons. cbn [concat].
  apply Forall_app; split; [apply Hf|done].
Qed.

(** ** Bodies that are decided by reflection *)

Section Reflect.
Context (nt b c m : nat) (Hb : 0 < b) (Hc : 0 < c) (Hm : 8 * c = b * m).
Local Abbreviation k := (c * nchan nt).
(** Loads of [w']-byte words [ls], stores of the [w]-byte words [es]. *)
Context (w' w : nat) (ls : list (nat * nat)) (es : list bexp).

Definition atom_ok (t q : nat) (a : nat * nat) : bool :=
  match ls !! a.1 with
  | Some (t', off) =>
      (t' =? t) && (8 * (w' * off) + a.2 =? q) && (a.2 <? 8 * w')
  | None => false
  end.

Definition bit_ok (syms : list (list atoms)) (r : nat) : bool :=
  let s := r / b in let t := s mod nchan nt in
  if t <? nt then
    let bits := nth (r mod (8 * w)) (nth (r / (8 * w)) syms []) [] in
    match bits with
    | [] => false
    | _ => forallb (atom_ok t (s / nchan nt * b + r mod b)) bits
    end
  else true.

Definition check_loads : bool :=
  forallb (fun l => (l.1 <? nt) && (w' * l.2 + w' <=? c)) ls.

Definition check_chunk : bool :=
  forallb wf_bexp es && (0 <? w) && (w * length es =? k) && check_loads &&
  (let syms := map (sym (8 * w')) es in forall_below (8 * k) (bit_ok syms)).

Definition chunk_of (tb : list buffer) (idx i : nat) : list Z :=
  concat (le_split w <$> (denote (load_val w' tb idx <$> ls) <$> es)).

Lemma atom_ok_val tb idx i t q a :
  Forall bytes_ok tb -> w' * idx = c * i -> atom_ok t q a = true ->
  atom_val (load_val w' tb idx <$> ls) a = bit_at (nth t tb []) (8 * (c * i) + q).
Proof.
  intros Htb Hidx. destruct a as [v kk]. unfold atom_ok, atom_val. cbn [fst snd].
  rewrite nth_lookup, list_lookup_fmap. destruct (ls !! v) as [[t' off]|] eqn:E; [|done].
  rewrite !andb_true_iff, !Nat.eqb_eq, Nat.ltb_lt. intros [[-> Hq] Hk].
  cbn [fmap option_fmap option_map from_option]. unfold id.
  rewrite load_val_bit by done. f_equal. nia.
Qed.

Lemma bits_ok_val tb idx i t q bits :
  Forall bytes_ok tb -> w' * idx = c * i ->
  match bits with [] => false | _ => forallb (atom_ok t q) bits end = true ->
  existsb (atom_val (load_val w' tb idx <$> ls)) bits = bit_at (nth t tb []) (8 * (c * i) + q).
Proof.
  intros Htb Hidx. destruct bits as [|a bits]; [done|]. intros Hall.
  assert (Hf : Forall (fun a => atom_ok t q a = true) (a :: bits)).
  { apply List.Forall_forall. by apply List.forallb_forall. }
  clear Hall. inversion Hf as [|? ? Ha Hbits]; subst. cbn [existsb].
  rewrite (atom_ok_val tb idx i t q a) by done.
  clear Hf Ha a. induction Hbits as [|a bits Ha _ IH]; cbn [existsb]; [apply orb_false_r|].
  rewrite (atom_ok_val tb idx i t q a) by done.
  rewrite orb_assoc, orb_diag. done.
Qed.

Context (Hcheck : check_chunk = true).

Lemma check_chunk_unfold :
  Forall (fun e => wf_bexp e = true) es /\ 0 < w /\ w * length es = k /\
  Forall (fun l => l.1 < nt /\ w' * l.2 + w' <= c) ls /\
  forall r, r < 8 * k -> bit_ok (map (sym (8 * w')) es) r = true.
Proof using Hcheck.
  pose proof Hcheck as H. unfold check_chunk in H. rewrite !andb_true_iff in H.
  destruct H as [[[[H1 H2] H3] H4] H5].
  split_and!.
  - apply List.Forall_forall. by apply List.forallb_forall.
  - by apply Nat.ltb_lt.
  - by apply Nat.eqb_eq.
  - apply List.Forall_forall. intros l Hl. unfold check_loads in H4.
    rewrite List.forallb_forall in H4. apply H4 in Hl.
    rewrite andb_true_iff, Nat.ltb_lt, Nat.leb_le in Hl. done.
  - by apply forall_below_spec.
Qed.

Lemma reflect_chunk_turned tb idx i :
  Forall bytes_ok tb -> w' * idx = c * i ->
  (forall t, t < nt -> c * i + c <= length (nth t tb [])) ->
  chunk_turned nt b c tb i (chunk_of tb idx i).
Proof using Hb Hc Hm Hcheck.
  intros Htb Hidx Hlen r Hr s t Ht.
  destruct check_chunk_unfold as (Hwf & Hw & Hk & Hls & Hbits).
  assert (Hlc : length (chunk_of tb idx i) = k).
  { unfold chunk_of. rewrite (length_blocks _ w) by apply Forall_length_split.
    by rewrite length_fmap. }
  split; [lia|]. specialize (Hbits r Hr). unfold bit_ok in Hbits.
  fold s in Hbits. fold t in Hbits. apply Nat.ltb_lt in Ht as Ht'. rewrite Ht' in Hbits.
  set (j := r / (8 * w)) in *. set (r' := r mod (8 * w)) in *.
  assert (Hrr : r = 8 * w * j + r') by apply Nat.div_mod_eq.
  assert (Hr' : r' < 8 * w) by (apply Nat.mod_upper_bound; lia).
  assert (Hj : j < length es) by (apply Nat.Div0.div_lt_upper_bound; nia).
  destruct (lookup_lt_is_Some_2 _ _ Hj) as [e He].
  assert (Hsym : nth j (map (sym (8 * w')) es) [] = sym (8 * w') e).
  { rewrite nth_lookup. change (map (sym (8 * w')) es) with (sym (8 * w') <$> es).
    by rewrite list_lookup_fmap, He. }
  rewrite Hsym in Hbits. eapply bits_ok_val in Hbits; [|done..].
  rewrite <-Hbits. rewrite Hrr at 1. unfold chunk_of.
  rewrite (bit_at_blocks _ w _ j r' (denote (load_val w' tb idx <$> ls) e));
    [|apply Forall_length_split|done|by rewrite list_lookup_fmap, He].
  rewrite le_split_bit by done.
  rewrite (sym_sound (8 * w')).
  - done.
  - apply load_vals_env; [done|]. eapply Forall_impl; [|exact Hls].
    intros [t' off] [Ht1 Ht2]. cbn [fst snd] in *. specialize (Hlen t' Ht1). nia.
  - exact (Forall_lookup_1 _ _ _ _ Hwf He).
Qed.

(** The turner of a loop whose iteration [i] performs exactly these loads
    and stores. *)
Lemma reflect_writer tb (out : buffer) n (idx oidx : nat -> nat) body :
  Forall bytes_ok tb -> nt <= length tb ->
  (forall t, t < nt -> c * n <= length (nth t tb [])) ->
  k * n <= length out ->
  (forall i, w' * idx i = c * i) -> (forall i, w * oidx i = k * i) ->
  (forall i o, body i o =
    xs ← loads w' tb (idx i) ls; stores w o (oidx i) (denote xs <$> es)) ->
  chunk_writer k (fun i => chunk_of tb (idx i) i) n (length out) body /\
  forall i, i < n -> chunk_turned nt b c tb i (chunk_of tb (idx i) i).
Proof using Hb Hc Hm Hcheck.
  intros Htb Hnt Hlen Hout Hidx Hoidx Hbody.
  destruct check_chunk_unfold as (_ & Hw & Hk & Hls & _).
  assert (Hlc : forall i, length (chunk_of tb (idx i) i) = k).
  { intros i. unfold chunk_of. rewrite (length_blocks _ w) by apply Forall_length_split.
    by rewrite length_fmap. }
  split; [split|].
  - intros i o Hi Ho. rewrite Hbody, loads_Some.
    + cbn. rewrite stores_Some; rewrite Hoidx; [done|].
      rewrite length_fmap, Hk, <-Nat.mul_succ_r, Ho.
      etransitivity; [|exact Hout]. apply Nat.mul_le_mono_l. lia.
    + eapply Forall_impl; [|exact Hls]. intros [t off] [Ht1 Ht2]. cbn [fst snd] in *.
      split; [lia|]. specialize (Hlen t Ht1). specialize (Hidx i).
      assert (c * i + c <= c * n) by (rewrite <-Nat.mul_succ_r; apply Nat.mul_le_mono_l; lia). lia.
  - intros i _. by rewrite Hlc.
  - intros i _. apply bytes_ok_blocks. auto with cint.
  - done.
  - intros i Hi. apply reflect_chunk_turned; [done|apply Hidx|].
    intros t Ht. specialize (Hlen t Ht).
    assert (c * i + c <= c * n) by (rewrite <-Nat.mul_succ_r; apply Nat.mul_le_mono_l; lia). lia.
Qed.
End Reflect.

(** ** Building the interface *)

Lemma turn_input_div nt c n tb out :
  turn_input nt tb out (c * nchan nt * n) ->
  c * nchan nt * n <= length out /\ nt <= length tb /\ Forall bytes_ok tb /\
  forall t, t < nt -> c * n <= length (nth t tb []).
Proof.
  intros [H1 H2 H3 H4]. split_and!; try done. intros t Ht. specialize (H4 t Ht).
  pose proof (nchan_pos nt).
  replace (c * nchan nt * n) with (c * n * nchan nt) in H4 by lia.
  by rewrite Nat.div_mul in H4 by lia.
Qed.

Lemma cdiv_nat d k n : 0 < k -> Z.of_nat k = d -> Z.to_nat (cdiv (Z.of_nat (k * n)) d) = n.
Proof.
  intros Hk <-. rewrite Nat2Z.inj_mul, Z.mul_comm, Z.quot_mul by lia. apply Nat2Z.id.
Qed.

(** A turner whose loop body is an indexed chunk writer keeps its promise for
    every order of the iterations that the loop can take. *)
Lemma chunk_turner (S : schedule -> Prop) (σ : schedule -> schedule) ct nt b c m
    (chunk : list buffer -> nat -> list Z) body :
  0 < b -> 0 < c -> 8 * c = b * m ->
  (forall sched, S sched -> valid_schedule (σ sched)) ->
  (forall sched out tb n, S sched -> Forall bytes_ok tb ->
    ct sched out tb (Z.of_nat (c * nchan nt * n)) = par_for (σ sched) n out (body tb)) ->
  (forall tb (out : buffer) n, turn_input nt tb out (c * nchan nt * n) ->
    chunk_writer (c * nchan nt) (chunk tb) n (length out) (body tb) /\
    forall i, i < n -> chunk_turned nt b c tb i (chunk tb i)) ->
  CornerTurns S ct nt b (c * nchan nt).
Proof.
  intros Hb Hc Hm Hσ Hct Hw. pose proof (nchan_pos nt) as Hu.
  split.
  - intros sched tb out N Hs [n Hn] Hin. rewrite Nat.mul_comm in Hn. subst N.
    rewrite Hct by (done || apply Hin). destruct (Hw tb out n Hin) as [Hcw Hch].
    eapply chunks_run; eauto.
  - intros s1 s2 tb out N Hs1 Hs2 [n Hn] Hin. rewrite Nat.mul_comm in Hn. subst N.
    rewrite !Hct by (done || apply Hin). destruct (Hw tb out n Hin) as [Hcw Hch].
    eapply run_chunks_order; [exact Hcw|nia|by apply Hσ|by apply Hσ|done].
Qed.

Lemma corner_weaken (S : schedule -> Prop) ct nt b g :
  S sequential -> CornerTurns S ct nt b g -> CornerTurns (eq sequential) ct nt b g.
Proof.
  intros HS [H1 H2]. split.
  - intros sched tb out N <-. by apply H1.
  - intros s1 s2 tb out N <- <-. done.
Qed.

Lemma reflect_turner ct nt b c m w' w ls es (d : Z) (idx oidx : nat -> nat)
    (body : list buffer -> nat -> buffer -> option buffer) :
  check_chunk nt b c w' w ls es = true ->
  0 < b -> 0 < c -> 8 * c = b * m -> Z.of_nat (c * nchan nt) = d ->
  (forall sched out tb N, ct sched out tb N = par_for sched (Z.to_nat (cdiv N d)) out (body tb)) ->
  (forall tb i o, Forall bytes_ok tb -> body tb i o =
    xs ← loads w' tb (idx i) ls; stores w o (oidx i) (denote xs <$> es)) ->
  (forall i, w' * idx i = c * i) -> (forall i, w * oidx i = c * nchan nt * i) ->
  CornerTurns valid_schedule ct nt b (c * nchan nt).
Proof.
  intros Hck Hb Hc Hm Hd Hct Hbody Hidx Hoidx. pose proof (nchan_pos nt) as Hu.
  eapply (chunk_turner valid_schedule id ct nt b c m
    (fun tb i => chunk_of w' w ls es tb (idx i) i) body); try done.
  - intros sched out tb n _ _. rewrite Hct, cdiv_nat; [done|nia|done].
  - intros tb out n Hin. apply turn_input_div in Hin as (H1 & H2 & H3 & H4).
    eapply (reflect_writer nt b c m Hb Hc Hm w' w ls es Hck tb out n idx oidx); auto.
Qed.

(** The same for a loop that advances the output pointer by [a] words in every
    iteration: right when the iterations run in order. *)
Lemma run_ptr n out a (body : nat -> buffer * nat -> option (buffer * nat)) F :
  (forall i o p, body i (o, p) = o' ← F i p o; Some (o', p + a)) ->
  forall j, run_iters body (seq j n) (out, a * j) =
    o' ← run_iters (fun i o => F i (a * i) o) (seq j n) out; Some (o', a * (j + n)).
Proof.
  intros Hb. revert out. induction n as [|n IH]; intros out j; cbn.
  - do 2 f_equal. lia.
  - rewrite Hb. destruct (F j (a * j) out) as [o'|]; cbn; [|done].
    replace (a * j + a) with (a * S j) by lia. rewrite IH.
    by replace (S j + n) with (j + S n) by lia.
Qed.

Lemma par_for_ptr_seq n out a body F :
  (forall i o p, body i (o, p) = o' ← F i p o; Some (o', p + a)) ->
  par_for_ptr sequential n out body = par_for sequential n out (fun i o => F i (a * i) o).
Proof.
  intros Hb. unfold par_for_ptr, par_for, sequential.
  pose proof (run_ptr n out a body F Hb 0) as Hr. rewrite Nat.mul_0_r in Hr. rewrite Hr.
  destruct (run_iters (fun i o => F i (a * i) o) (seq 0 n) out); reflexivity.
Qed.

Lemma reflect_ptr_turner ct nt b c m w' w ls es (d : Z) (a : nat) (idx : nat -> nat)
    (body : list buffer -> nat -> buffer * nat -> option (buffer * nat)) :
  check_chunk nt b c w' w ls es = true ->
  0 < b -> 0 < c -> 8 * c = b * m -> Z.of_nat (c * nchan nt) = d ->
  (forall sched out tb N,
    ct sched out tb N = par_for_ptr sched (Z.to_nat (cdiv N d)) out (body tb)) ->
  (forall tb i o p, Forall bytes_ok tb -> body tb i (o, p) =
    o' ← (xs ← loads w' tb (idx i) ls; stores w o p (denote xs <$> es)); Some (o', p + a)) ->
  (forall i, w' * idx i = c * i) -> w * a = c * nchan nt ->
  CornerTurns (eq sequential) ct nt b (c * nchan nt).
Proof.
  intros Hck Hb Hc Hm Hd Hct Hbody Hidx Ha. pose proof (nchan_pos nt) as Hu.
  pose (F := fun (tb : list buffer) (i p : nat) (o : buffer) =>
    xs ← loads w' tb (idx i) ls; stores w o p (denote xs <$> es)).
  eapply (chunk_turner (eq sequential) id ct nt b c m
    (fun tb i => chunk_of w' w ls es tb (idx i) i) (fun tb i o => F tb i (a * i) o)); try done.
  - intros sched <-. apply sequential_valid.
  - intros sched out tb n <- Htb. rewrite Hct, cdiv_nat by (nia || done).
    apply (par_for_ptr_seq n out a (body tb) (F tb)). auto.
  - intros tb out n Hin. apply turn_input_div in Hin as (H1 & H2 & H3 & H4).
    eapply (reflect_writer nt b c m Hb Hc Hm w' w ls es Hck tb out n idx (fun i => a * i)); try done.
    intros i. rewrite Nat.mul_assoc, Ha. done.
Qed.

(** ** Turners that move whole words *)

Definition move_val (w : nat) (tb : list buffer) (l : nat * nat) : buffer :=
  slice (nth l.1 tb []) (w * l.2) w.

Definition move_ok (w : nat) (tb : list buffer) (l : nat * nat) : Prop :=
  l.1 < length tb /\ w * l.2 + w <= length (nth l.1 tb []).

Lemma moves_Some w tb out idx ls :
  Forall bytes_ok tb -> Forall (move_ok w tb) ls -> w * idx + w * length ls <= length out ->
  moves w tb out idx ls = Some (list_inserts (w * idx) (concat (move_val w tb <$> ls)) out).
Proof.
  intros Htb Hls. revert out idx. induction Hls as [|[t j] ls [Ht Hl] _ IH]; intros out idx Hout.
  - done.
  - cbn [moves length] in *. cbn [fst snd] in *. rewrite load_thread_Some by done. cbn [mbind option_bind].
    unfold store. rewrite decide_True by nia. cbn [mbind option_bind].
    assert (Hb : bytes_ok (slice (nth t tb []) (w * j) w)) by (by apply bytes_ok_slice, tb_nth_bytes).
    rewrite le_split_combine by (done || by apply length_slice).
    rewrite IH by (rewrite length_inserts; nia).
    rewrite fmap_cons. cbn [concat]. unfold move_val at 2. cbn [fst snd].
    rewrite list_inserts_app_l. do 2 f_equal. rewrite length_slice by lia. lia.
Qed.

(** Iteration [i] of a mover of [c]-byte samples: one sample of every thread. *)
Definition word_chunk (c nt : nat) (tb : list buffer) (i : nat) : buffer :=
  concat (move_val c tb <$> ((fun t => (t, i)) <$> seq 0 nt)).

Lemma word_chunk_sizes c nt tb n i :
  nt <= length tb -> (forall t, t < nt -> c * n <= length (nth t tb [])) -> i < n ->
  Forall (move_ok c tb) ((fun t => (t, i)) <$> seq 0 nt) /\
  Forall (fun l => length (move_val c tb l) = c) ((fun t => (t, i)) <$> seq 0 nt).
Proof.
  intros Hnt Hlen Hi.
  assert (H : Forall (move_ok c tb) ((fun t => (t, i)) <$> seq 0 nt)).
  { apply Forall_fmap, Forall_seq. intros t Ht. unfold move_ok. cbn.
    specialize (Hlen t ltac:(lia)).
    assert (c * i + c <= c * n) by (rewrite <-Nat.mul_succ_r; apply Nat.mul_le_mono_l; lia). lia. }
  split; [done|]. eapply Forall_impl; [|exact H]. intros [t j] [_ Hl]. by apply length_slice.
Qed.

Lemma word_chunk_turned c nt tb n i :
  0 < c -> nt <= length tb -> (forall t, t < nt -> c * n <= length (nth t tb [])) -> i < n ->
  length (word_chunk c nt tb i) = c * nt /\
  chunk_turned nt (8 * c) c tb i (word_chunk c nt tb i).
Proof.
  intros Hc Hnt Hlen Hi. destruct (word_chunk_sizes c nt tb n i Hnt Hlen Hi) as [_ Hs].
  assert (Hl : length (word_chunk c nt tb i) = c * nt).
  { unfold word_chunk. rewrite (length_blocks _ c) by done.
    by rewrite length_fmap, length_seq. }
  split; [done|]. intros r Hr s t Ht.
  assert (Hs' : s < nchan nt) by (apply Nat.Div0.div_lt_upper_bound; nia).
  subst t. rewrite (Nat.mod_small s), (Nat.div_small s) in * by done.
  pose proof (Nat.div_mod_eq r (8 * c)) as Hr'. fold s in Hr'.
  pose proof (Nat.mod_upper_bound r (8 * c) ltac:(lia)) as Hm.
  split; [rewrite Hl; nia|]. rewrite Nat.mul_0_l, Nat.add_0_l.
  rewrite Hr' at 1. unfold word_chunk.
  rewrite (bit_at_blocks _ c _ s (r mod (8 * c)) (s, i)); [|done|done|].
  - unfold move_val. cbn [fst snd]. by rewrite bit_at_slice.
  - by rewrite list_lookup_fmap, lookup_seq_lt.
Qed.

Lemma moves_turner ct nt c w (d : Z) (oidx : nat -> nat)
    (pairs : nat -> list (nat * nat)) (body : list buffer -> nat -> buffer -> option buffer) :
  0 < c -> 0 < w -> Z.of_nat (c * nchan nt) = d ->
  (forall sched out tb n, ct sched out tb (Z.of_nat (c * nchan nt * n)) =
     par_for sequential n out (body tb)) ->
  (forall tb i o, body tb i o = moves w tb o (oidx i) (pairs i)) ->
  (forall i, w * oidx i = c * nchan nt * i) ->
  (forall i, w * length (pairs i) = c * nt) ->
  (forall tb i, Forall (move_ok c tb) ((fun t => (t, i)) <$> seq 0 nt) ->
     Forall (move_ok w tb) (pairs i) /\
     concat (move_val w tb <$> pairs i) = word_chunk c nt tb i) ->
  CornerTurns valid_schedule ct nt (8 * c) (c * nchan nt).
Proof.
  intros Hc Hw Hd Hct Hbody Hoidx Hpairs Hblocks.
  pose proof (nchan_pos nt) as Hu. pose proof (nchan_ge nt) as Hge.
  apply (chunk_turner valid_schedule (fun _ => sequential) ct nt (8 * c) c 1
    (word_chunk c nt) body); [lia|done|lia| |done|].
  - intros _ _. apply sequential_valid.
  - intros tb out n Hin. apply turn_input_div in Hin as (H1 & H2 & H3 & H4).
    split; [split|].
    + intros i o Hi Ho. rewrite Hbody.
      destruct (word_chunk_sizes c nt tb n i H2 H4 Hi) as [Hok _].
      destruct (Hblocks tb i Hok) as [Hok' Hbl].
      rewrite moves_Some; [by rewrite Hbl, Hoidx|done|done|].
      rewrite Hoidx, Hpairs, Ho. etransitivity; [|exact H1].
      etransitivity; [|apply (Nat.mul_le_mono_l (S i) n (c * nchan nt)); lia].
      rewrite Nat.mul_succ_r. by apply Nat.add_le_mono_l, Nat.mul_le_mono_l.
    + intros i Hi. destruct (word_chunk_turned c nt tb n i Hc H2 H4 Hi) as [-> _].
      by apply Nat.mul_le_mono_l.
    + intros i Hi. apply bytes_ok_blocks. intros l. by apply bytes_ok_slice, tb_nth_bytes.
    + done.
    + intros i Hi. by destruct (word_chunk_turned c nt tb n i Hc H2 H4 Hi).
Qed.

(** ** Notation and automation for the turners decided by reflection *)

Notation "t .[ k ]" := (nth k t 0%Z) (at level 1, left associativity, format "t .[ k ]") : cint_scope.

Lemma option_bind_eq {A B} (x : option A) (f g : A -> option B) :
  (forall a, x = Some a -> f a = g a) -> x ≫= f = x ≫= g.
Proof. intros H. destruct x; [by apply H|done]. Qed.

Lemma option_bind_eq_assoc {A B C} (x : option A) (f : A -> option C) (g : A -> option B) h :
  (forall a, x = Some a -> f a = g a ≫= h) -> x ≫= f = (x ≫= g) ≫= h.
Proof. intros H. destruct x; [by apply H|done]. Qed.

Create HintDb corner.

(** Byte [k] of a word: the members [u8[k]] and [b[k]] of the unions. *)
Definition byte_of (x k : Z) : Z := u8 (Z.shiftr x (8 * k)).

(** [(d << 24) | (c << 16) | (b << 8) | a] of four bytes, as assigned to a
    [uint32_t]. *)
Definition asm4 (d c b a : Z) : Z :=
  (u32 ((d <<< 24) ||| (c <<< 16) ||| (b <<< 8) ||| a))%C.

#[export] Hint Unfold byte_of asm4 : corner.

(** Closes [stores w o p ts = stores ?w o (?oidx i) (denote xs <$> ?es)], also
    when both sides go on with the advanced pointer. *)
Ltac reify_stores :=
  let go ts es :=
    let r := reify_bexps ts in
    let ok := constr:(eq_refl r : es = r) in
    cbv [denote fmap list_fmap]; reflexivity in
  lazymatch goal with
  | |- stores _ _ _ ?ts = stores _ _ _ (denote _ <$> ?es) => go ts es
  | |- stores _ _ _ ?ts ≫= _ = stores _ _ _ (denote _ <$> ?es) ≫= _ => go ts es
  end.

Ltac solve_corner_side := first [vm_compute; reflexivity | reflexivity | intros; cbn; lia].

(** [reflect_corner c]: a turner that consumes [c] bytes of every thread per
    iteration, its helper functions in the unfold base [corner]. *)
Ltac reflect_corner_with c tac :=
  lazymatch goal with
  | |- CornerTurns ?S ?ct ?nt ?b _ =>
      let m := eval compute in (8 * c / b) in
      change (CornerTurns S ct nt b (c * nchan nt));
      first [eapply (reflect_turner ct nt b c m) | eapply (reflect_ptr_turner ct nt b c m)];
      [ | | | | | intros; unfold ct; reflexivity | | | ];
      [ | | | | | intros; autounfold with corner; cbv beta zeta match;
                  first [apply option_bind_eq_assoc | apply option_bind_eq];
                  intros; tac; reify_stores | | ];
      solve_corner_side
  end.

Ltac reflect_corner c := reflect_corner_with c ltac:(idtac).

Lemma loads_byte tb idx ls t v :
  Forall bytes_ok tb -> loads 1 tb idx ls = Some t -> (0 <= nth v t 0 < 256)%Z.
Proof.
  intros Htb. revert t v. induction ls as [|[k off] ls IH]; intros t v; cbn.
  - intros [= <-]. destruct v; simpl; lia.
  - destruct (load_thread 1 tb k (idx + off)) as [x|] eqn:E; cbn; [|done].
    destruct (loads 1 tb idx ls) as [xs|]; cbn; [|done]. intros [= <-].
    destruct v as [|v]; cbn; [|by apply IH].
    unfold load_thread in E. destruct (tb !! k) as [buf|] eqn:Eb; cbn in E; [|done].
    apply load_range in E; [simpl in E; lia|]. by eapply Forall_lookup in Eb.
Qed.
