(* ===== verification/CornerTurn1.v ===== *)
(** * CornerTurn1: the 1-bit corner turners of [cornerturners.c]

    One definition per function.  [outputDataSize / k] iterations; iteration
    [i] loads the words [t_k[i]] of the thread buffers and stores the words of
    the output.  Arithmetic on [uint32_t] and [uint64_t] is reduced with [u32]
    and [u64]; the bytes [A.u8[k]] of a union are [byte_of A k] (little
    endian). *)
From S2P Require Import CornerSpec.
#[local] Open Scope Z_scope.
#[local] Open Scope cint_scope.

(** The statements that spread the bits of [t_k[i]], repeated in the functions
    for every thread: two positions apart from a [uint16_t], four and eight
    apart from a [uint8_t]. *)
Definition spread2 (x : Z) : Z :=
  let x := (x ||| u32 (x <<< 8)) &&& 0x00FF00FF in
  let x := (x ||| u32 (x <<< 4)) &&& 0x0F0F0F0F in
  let x := (x ||| u32 (x <<< 2)) &&& 0x33333333 in
  (x ||| u32 (x <<< 1)) &&& 0x55555555.

Definition spread4 (x : Z) : Z :=
  let x := x ||| u32 (x <<< 12) in
  let x := (x ||| u32 (x <<< 6)) &&& 0x03030303 in
  (x ||| u32 (x <<< 3)) &&& 0x11111111.

Definition spread8 (a : Z) : Z :=
  let a := a ||| u64 (a <<< 28) in
  let a := a ||| u64 (a <<< 14) in
  (a ||| u64 (a <<< 7)) &&& 0x0101010101010101.

(** The eight spread bytes combined into the word of eight threads. *)
Definition pack8 (x0 x1 x2 x3 x4 x5 x6 x7 : Z) : Z :=
  let a := spread8 x0 in
  let b := spread8 x1 in
  let c := spread8 x2 in
  let d := spread8 x3 in
  let e := spread8 x4 in
  let f := spread8 x5 in
  let g := spread8 x6 in
  let h := spread8 x7 in
  a ||| u64 (b <<< 1) ||| u64 (c <<< 2) ||| u64 (d <<< 3) ||| u64 (e <<< 4)
    ||| u64 (f <<< 5) ||| u64 (g <<< 6) ||| u64 (h <<< 7).

#[local] Hint Unfold spread2 spread4 spread8 pack8 : corner.

(** The multiplications of the slow two-thread version; [sh] is 49 for thread
    0 and 48 for thread 1. *)
Definition slow_term (x sh : Z) : Z :=
  u64 ((u64 (x * 0x0101010101010101) &&& 0x8040201008040201) * 0x0102040810204081) >>> sh.

Definition cornerturn_2thread_1bit_slow : cornerturner :=
  fun sched out tb outputDataSize =>
  let n := Z.to_nat (cdiv outputDataSize 2) in
  par_for sched n out (fun i out =>
    t ← loads 1 tb i (threads 2);
    stores 2 out i
      [(slow_term t.[0] 49 &&& 0x5555) ||| (slow_term t.[1] 48 &&& 0xAAAA)]).

Definition cornerturn_2thread_1bit : cornerturner :=
  fun sched out tb outputDataSize =>
  let n := Z.to_nat (cdiv outputDataSize 4) in
  par_for sched n out (fun i out =>
    t ← loads 2 tb i (threads 2);
    let x := spread2 t.[0] in
    let y := spread2 t.[1] in
    stores 4 out i [x ||| u32 (y <<< 1)]).

Definition cornerturn_3thread_1bit : cornerturner :=
  fun sched out tb outputDataSize =>
  let n := Z.to_nat (cdiv outputDataSize 4) in
  par_for sched n out (fun i out =>
    t ← loads 1 tb i (threads 3);
    let x := spread4 t.[0] in
    let y := spread4 t.[1] in
    let z := spread4 t.[2] in
    stores 4 out i [x ||| u32 (y <<< 1) ||| u32 (z <<< 2)]).

Definition cornerturn_4thread_1bit : cornerturner :=
  fun sched out tb outputDataSize =>
  let n := Z.to_nat (cdiv outputDataSize 4) in
  par_for sched n out (fun i out =>
    t ← loads 1 tb i (threads 4);
    let x := spread4 t.[0] in
    let y := spread4 t.[1] in
    let z := spread4 t.[2] in
    let w := spread4 t.[3] in
    stores 4 out i [x ||| u32 (y <<< 1) ||| u32 (z <<< 2) ||| u32 (w <<< 3)]).


Definition cornerturn_5thread_1bit : cornerturner :=
  fun sched out tb outputDataSize =>
  let n := Z.to_nat (cdiv outputDataSize 8) in
  par_for sched n out (fun i out =>
    t ← loads 1 tb i (threads 5);
    let a := spread8 t.[0] in
    let b := spread8 t.[1] in
    let c := spread8 t.[2] in
    let d := spread8 t.[3] in
    let e := spread8 t.[4] in
    stores 8 out i
      [a ||| u64 (b <<< 1) ||| u64 (c <<< 2) ||| u64 (d <<< 3) ||| u64 (e <<< 4)]).

Definition cornerturn_6thread_1bit : cornerturner :=
  fun sched out tb outputDataSize =>
  let n := Z.to_nat (cdiv outputDataSize 8) in
  par_for sched n out (fun i out =>
    t ← loads 1 tb i (threads 6);
    let a := spread8 t.[0] in
    let b := spread8 t.[1] in
    let c := spread8 t.[2] in
    let d := spread8 t.[3] in
    let e := spread8 t.[4] in
    let f := spread8 t.[5] in
    stores 8 out i
      [a ||| u64 (b <<< 1) ||| u64 (c <<< 2) ||| u64 (d <<< 3) ||| u64 (e <<< 4) ||| u64 (f <<< 5)]).

Definition cornerturn_7thread_1bit : cornerturner :=
  fun sched out tb outputDataSize =>
  let n := Z.to_nat (cdiv outputDataSize 8) in
  par_for sched n out (fun i out =>
    t ← loads 1 tb i (threads 7);
    let a := spread8 t.[0] in
    let b := spread8 t.[1] in
    let c := spread8 t.[2] in
    let d := spread8 t.[3] in
    let e := spread8 t.[4] in
    let f := spread8 t.[5] in
    let g := spread8 t.[6] in
    stores 8 out i
      [a ||| u64 (b <<< 1) ||| u64 (c <<< 2) ||| u64 (d <<< 3) |||
       u64 (e <<< 4) ||| u64 (f <<< 5) ||| u64 (g <<< 6)]).

Definition cornerturn_8thread_1bit : cornerturner :=
  fun sched out tb outputDataSize =>
  let n := Z.to_nat (cdiv outputDataSize 8) in
  par_for sched n out (fun i out =>
    t ← loads 1 tb i (threads 8);
    let a := spread8 t.[0] in
    let b := spread8 t.[1] in
    let c := spread8 t.[2] in
    let d := spread8 t.[3] in
    let e := spread8 t.[4] in
    let f := spread8 t.[5] in
    let g := spread8 t.[6] in
    let h := spread8 t.[7] in
    stores 8 out i
      [a ||| u64 (b <<< 1) ||| u64 (c <<< 2) ||| u64 (d <<< 3) |||
       u64 (e <<< 4) ||| u64 (f <<< 5) ||| u64 (g <<< 6) ||| u64 (h <<< 7)]).

Definition cornerturn_16thread_1bit : cornerturner :=
  fun sched out tb outputDataSize =>
  let n := Z.to_nat (cdiv outputDataSize 16) in
  par_for_ptr sched n out (fun i '(out, outputwordptr) =>
    t ← loads 1 tb i (threads 16);
    let A := pack8 t.[0] t.[1] t.[2] t.[3] t.[4] t.[5] t.[6] t.[7] in
    let B := pack8 t.[8] t.[9] t.[10] t.[11] t.[12] t.[13] t.[14] t.[15] in
    out' ← stores 1 out outputwordptr
      [byte_of A 0; byte_of B 0; byte_of A 1; byte_of B 1;
       byte_of A 2; byte_of B 2; byte_of A 3; byte_of B 3;
       byte_of A 4; byte_of B 4; byte_of A 5; byte_of B 5;
       byte_of A 6; byte_of B 6; byte_of A 7; byte_of B 7];
    Some (out', outputwordptr + 16)%nat).

Definition cornerturn_32thread_1bit : cornerturner :=
  fun sched out tb outputDataSize =>
  let n := Z.to_nat (cdiv outputDataSize 32) in
  par_for_ptr sched n out (fun i '(out, outputwordptr) =>
    t ← loads 1 tb i (threads 32);
    let A := pack8 t.[0] t.[1] t.[2] t.[3] t.[4] t.[5] t.[6] t.[7] in
    let B := pack8 t.[8] t.[9] t.[10] t.[11] t.[12] t.[13] t.[14] t.[15] in
    let C := pack8 t.[16] t.[17] t.[18] t.[19] t.[20] t.[21] t.[22] t.[23] in
    let D := pack8 t.[24] t.[25] t.[26] t.[27] t.[28] t.[29] t.[30] t.[31] in
    out' ← stores 1 out outputwordptr
      [byte_of A 0; byte_of B 0; byte_of C 0; byte_of D 0;
       byte_of A 1; byte_of B 1; byte_of C 1; byte_of D 1;
       byte_of A 2; byte_of B 2; byte_of C 2; byte_of D 2;
       byte_of A 3; byte_of B 3; byte_of C 3; byte_of D 3;
       byte_of A 4; byte_of B 4; byte_of C 4; byte_of D 4;
       byte_of A 5; byte_of B 5; byte_of C 5; byte_of D 5;
       byte_of A 6; byte_of B 6; byte_of C 6; byte_of D 6;
       byte_of A 7; byte_of B 7; byte_of C 7; byte_of D 7];
    Some (out', outputwordptr + 32)%nat).

Definition cornerturn_64thread_1bit : cornerturner :=
  fun sched out tb outputDataSize =>
  let n := Z.to_nat (cdiv outputDataSize 64) in
  par_for_ptr sched n out (fun i '(out, outputwordptr) =>
    t ← loads 1 tb i (threads 64);
    let A := pack8 t.[0] t.[1] t.[2] t.[3] t.[4] t.[5] t.[6] t.[7] in
    let B := pack8 t.[8] t.[9] t.[10] t.[11] t.[12] t.[13] t.[14] t.[15] in
    let C := pack8 t.[16] t.[17] t.[18] t.[19] t.[20] t.[21] t.[22] t.[23] in
    let D := pack8 t.[24] t.[25] t.[26] t.[27] t.[28] t.[29] t.[30] t.[31] in
    let E := pack8 t.[32] t.[33] t.[34] t.[35] t.[36] t.[37] t.[38] t.[39] in
    let F := pack8 t.[40] t.[41] t.[42] t.[43] t.[44] t.[45] t.[46] t.[47] in
    let G := pack8 t.[48] t.[49] t.[50] t.[51] t.[52] t.[53] t.[54] t.[55] in
    let H := pack8 t.[56] t.[57] t.[58] t.[59] t.[60] t.[61] t.[62] t.[63] in
    out' ← stores 1 out outputwordptr
      [byte_of A 0; byte_of B 0; byte_of C 0; byte_of D 0; byte_of E 0; byte_of F 0; byte_of G 0; byte_of H 0;
       byte_of A 1; byte_of B 1; byte_of C 1; byte_of D 1; byte_of E 1; byte_of F 1; byte_of G 1; byte_of H 1;
       byte_of A 2; byte_of B 2; byte_of C 2; byte_of D 2; byte_of E 2; byte_of F 2; byte_of G 2; byte_of H 2;
       byte_of A 3; byte_of B 3; byte_of C 3; byte_of D 3; byte_of E 3; byte_of F 3; byte_of G 3; byte_of H 3;
       byte_of A 4; byte_of B 4; byte_of C 4; byte_of D 4; byte_of E 4; byte_of F 4; byte_of G 4; byte_of H 4;
       byte_of A 5; byte_of B 5; byte_of C 5; byte_of D 5; byte_of E 5; byte_of F 5; byte_of G 5; byte_of H 5;
       byte_of A 6; byte_of B 6; byte_of C 6; byte_of D 6; byte_of E 6; byte_of F 6; byte_of G 6; byte_of H 6;
       byte_of A 7; byte_of B 7; byte_of C 7; byte_of D 7; byte_of E 7; byte_of F 7; byte_of G 7; byte_of H 7];
    Some (out', outputwordptr + 64)%nat).

(** ** Correctness *)

(** The multiplicative interleave of one byte equals a spread by two. *)
Lemma slow_term_spread x :
  0 <= x < 256 ->
  slow_term x 49 &&& 0x5555 = spread2 x /\ slow_term x 48 &&& 0xAAAA = spread2 x <<< 1.
Proof.
  intros Hx.
  apply (byte_exhaust (fun x => (slow_term x 49 &&& 0x5555 =? spread2 x) &&
    (slow_term x 48 &&& 0xAAAA =? spread2 x <<< 1))) in Hx; [|vm_compute; reflexivity].
  by rewrite andb_true_iff, !Z.eqb_eq in Hx.
Qed.

#[export] Instance cornerturn_2thread_1bit_slow_ok :
  CornerTurns valid_schedule cornerturn_2thread_1bit_slow 2 1 2.
Proof.
  reflect_corner_with 1%nat ltac:(idtac;
    match goal with H : loads 1 _ _ _ = Some ?t |- _ =>
      rewrite (proj1 (slow_term_spread t.[0] (loads_byte _ _ _ _ 0 ltac:(eassumption) H))),
              (proj2 (slow_term_spread t.[1] (loads_byte _ _ _ _ 1 ltac:(eassumption) H)))
    end; autounfold with corner; cbv beta zeta).
Qed.

#[export] Instance cornerturn_2thread_1bit_ok :
  CornerTurns valid_schedule cornerturn_2thread_1bit 2 1 4.
Proof. reflect_corner 2%nat. Qed.

#[export] Instance cornerturn_3thread_1bit_ok :
  CornerTurns valid_schedule cornerturn_3thread_1bit 3 1 4.
Proof. reflect_corner 1%nat. Qed.

#[export] Instance cornerturn_4thread_1bit_ok :
  CornerTurns valid_schedule cornerturn_4thread_1bit 4 1 4.
Proof. reflect_corner 1%nat. Qed.

#[export] Instance cornerturn_5thread_1bit_ok :
  CornerTurns valid_schedule cornerturn_5thread_1bit 5 1 8.
Proof. reflect_corner 1%nat. Qed.

#[export] Instance cornerturn_6thread_1bit_ok :
  CornerTurns valid_schedule cornerturn_6thread_1bit 6 1 8.
Proof. reflect_corner 1%nat. Qed.

#[export] Instance cornerturn_7thread_1bit_ok :
  CornerTurns valid_schedule cornerturn_7thread_1bit 7 1 8.
Proof. reflect_corner 1%nat. Qed.

#[export] Instance cornerturn_8thread_1bit_ok :
  CornerTurns valid_schedule cornerturn_8thread_1bit 8 1 8.
Proof. reflect_corner 1%nat. Qed.

#[export] Instance cornerturn_16thread_1bit_ok :
  CornerTurns (eq sequential) cornerturn_16thread_1bit 16 1 16.
Proof. reflect_corner 1%nat. Qed.

#[export] Instance cornerturn_32thread_1bit_ok :
  CornerTurns (eq sequential) cornerturn_32thread_1bit 32 1 32.
Proof. reflect_corner 1%nat. Qed.

#[export] Instance cornerturn_64thread_1bit_ok :
  CornerTurns (eq sequential) cornerturn_64thread_1bit 64 1 64.
Proof. reflect_corner 1%nat. Qed.
