(* ===== verification/CornerTurn2.v ===== *)
(** * CornerTurn2: the 2-bit corner turners of [cornerturners.c]

    The functions assemble 32-bit words from one byte of four threads,
    transpose each word with masks and shifts, and shuffle the bytes of the
    results.  [t_k[i] << 24] is computed in [int]; its value modulo 2^32 is what
    the assignment to the [uint32_t] keeps, hence the [u32] around the
    assembled word. *)
From S2P Require Import CornerSpec.
#[local] Open Scope Z_scope.
#[local] Open Scope cint_scope.

(** The masks of the four-thread transposition, the same in every function
    from four threads up. *)
Definition M0 : Z := 0xC0300C03.
Definition M1 : Z := 0x300C0300.
Definition M2 : Z := 0x00C0300C.
Definition M3 : Z := 0x0C030000.
Definition M4 : Z := 0x0000C030.
Definition M5 : Z := 0x03000000.
Definition M6 : Z := 0x000000C0.

(** "mask and shift": the transposition of an assembled word. *)
Definition turn4 (x : Z) : Z :=
  (x &&& M0) ||| ((x &&& M1) >>> 6) ||| u32 ((x &&& M2) <<< 6) ||| ((x &&& M3) >>> 12)
    ||| u32 ((x &&& M4) <<< 12) ||| ((x &&& M5) >>> 18) ||| u32 ((x &&& M6) <<< 18).

#[local] Hint Unfold turn4 : corner.

(** The version for 64-bit machines: four bytes of each thread at once. *)
Definition cornerturn_2thread_2bit_w64 : cornerturner :=
  fun sched out tb outputDataSize =>
  let M0 := 0xC003C003C003C003 in
  let M1 := 0x3000300030003000 in
  let M2 := 0x000C000C000C000C in
  let M3 := 0x0C000C000C000C00 in
  let M4 := 0x0030003000300030 in
  let M5 := 0x0300030003000300 in
  let M6 := 0x00C000C000C000C0 in
  let n := Z.to_nat (cdiv outputDataSize 8) in
  par_for sched n out (fun i out =>
    t ← loads 1 tb (4 * i) [(0, 0); (0, 1); (0, 2); (0, 3); (1, 0); (1, 1); (1, 2); (1, 3)]%nat;
    let x := u64 (t.[7] * 0x100000000000000) ||| u64 (t.[3] * 0x001000000000000) |||
             u64 (t.[6] * 0x000010000000000) ||| u64 (t.[2] * 0x000000100000000) |||
             u64 (t.[5] * 0x000000001000000) ||| u64 (t.[1] * 0x000000000010000) |||
             u64 (t.[4] * 0x000000000000100) ||| t.[0] in
    stores 8 out i
      [(x &&& M0) ||| ((x &&& M1) >>> 2) ||| u64 ((x &&& M2) <<< 2) ||| ((x &&& M3) >>> 4)
         ||| u64 ((x &&& M4) <<< 4) ||| ((x &&& M5) >>> 6) ||| u64 ((x &&& M6) <<< 6)]).

(** The version for 32-bit machines: two bytes of each thread at once. *)
Definition cornerturn_2thread_2bit_w32 : cornerturner :=
  fun sched out tb outputDataSize =>
  let M0 := 0xC003C003 in
  let M1 := 0x30003000 in
  let M2 := 0x000C000C in
  let M3 := 0x0C000C00 in
  let M4 := 0x00300030 in
  let M5 := 0x03000300 in
  let M6 := 0x00C000C0 in
  let n := Z.to_nat (cdiv outputDataSize 4) in
  par_for sched n out (fun i out =>
    t ← loads 1 tb (2 * i) [(0, 0); (0, 1); (1, 0); (1, 1)]%nat;
    let x := u32 ((t.[3] <<< 24) ||| (t.[1] <<< 16) ||| (t.[2] <<< 8) ||| t.[0]) in
    stores 4 out i
      [(x &&& M0) ||| ((x &&& M1) >>> 2) ||| u32 ((x &&& M2) <<< 2) ||| ((x &&& M3) >>> 4)
         ||| u32 ((x &&& M4) <<< 4) ||| ((x &&& M5) >>> 6) ||| u32 ((x &&& M6) <<< 6)]).

(** The preprocessor names the two versions after [SIZEOF_SIZE_T]: 0 when the
    macro is not defined. *)
Definition cornerturn_2thread_2bit (SIZEOF_SIZE_T : Z) : cornerturner :=
  if SIZEOF_SIZE_T =? 8 then cornerturn_2thread_2bit_w32 else cornerturn_2thread_2bit_w64.

Definition cornerturn_2thread_2bit_slow (SIZEOF_SIZE_T : Z) : cornerturner :=
  if SIZEOF_SIZE_T =? 8 then cornerturn_2thread_2bit_w64 else cornerturn_2thread_2bit_w32.

Definition cornerturn_3thread_2bit : cornerturner :=
  fun sched out tb outputDataSize =>
  let M0 := 0x00300C03 in
  let M1 := 0x000C0300 in
  let M2 := 0x00C0300C in
  let M3 := 0x00030000 in
  let M4 := 0x0000C030 in
  let M6 := 0x000000C0 in
  let n := Z.to_nat (cdiv outputDataSize 4) in
  par_for sched n out (fun i out =>
    t ← loads 1 tb i (threads 3);
    let x := u32 ((t.[2] <<< 16) ||| (t.[1] <<< 8) ||| t.[0]) in
    stores 4 out i
      [(x &&& M0) ||| ((x &&& M1) >>> 6) ||| u32 ((x &&& M2) <<< 6) ||| ((x &&& M3) >>> 12)
         ||| u32 ((x &&& M4) <<< 12) ||| u32 ((x &&& M6) <<< 18)]).

Definition cornerturn_4thread_2bit : cornerturner :=
  fun sched out tb outputDataSize =>
  let n := Z.to_nat (cdiv outputDataSize 4) in
  par_for sched n out (fun i out =>
    t ← loads 1 tb i (threads 4);
    let x := asm4 t.[3] t.[2] t.[1] t.[0] in
    stores 4 out i [turn4 x]).

Definition cornerturn_5thread_2bit : cornerturner :=
  fun sched out tb outputDataSize =>
  let n := Z.to_nat (cdiv outputDataSize 8) in
  par_for sched n out (fun i out =>
    t ← loads 1 tb i (threads 5);
    let x1 := asm4 t.[3] t.[2] t.[1] t.[0] in
    let x2 := u32 (t.[4]) in
    let y1 := turn4 x1 in
    let y2 := (x2 &&& M0) ||| u32 ((x2 &&& M2) <<< 6) ||| u32 ((x2 &&& M4) <<< 12) ||| u32 ((x2 &&& M6) <<< 18) in
    stores 4 out (2 * i)
      [asm4 (byte_of y2 1) (byte_of y1 1) (byte_of y2 0) (byte_of y1 0);
       asm4 (byte_of y2 3) (byte_of y1 3) (byte_of y2 2) (byte_of y1 2)]).

Definition cornerturn_6thread_2bit : cornerturner :=
  fun sched out tb outputDataSize =>
  let n := Z.to_nat (cdiv outputDataSize 8) in
  par_for sched n out (fun i out =>
    t ← loads 1 tb i (threads 6);
    let x1 := asm4 t.[3] t.[2] t.[1] t.[0] in
    let x2 := u32 ((t.[5] <<< 8) ||| t.[4]) in
    let y1 := turn4 x1 in
    let y2 := (x2 &&& M0) ||| ((x2 &&& M1) >>> 6) ||| u32 ((x2 &&& M2) <<< 6) ||| u32 ((x2 &&& M4) <<< 12) ||| u32 ((x2 &&& M6) <<< 18) in
    stores 4 out (2 * i)
      [asm4 (byte_of y2 1) (byte_of y1 1) (byte_of y2 0) (byte_of y1 0);
       asm4 (byte_of y2 3) (byte_of y1 3) (byte_of y2 2) (byte_of y1 2)]).

Definition cornerturn_7thread_2bit : cornerturner :=
  fun sched out tb outputDataSize =>
  let n := Z.to_nat (cdiv outputDataSize 8) in
  par_for sched n out (fun i out =>
    t ← loads 1 tb i (threads 7);
    let x1 := asm4 t.[3] t.[2] t.[1] t.[0] in
    let x2 := u32 ((t.[6] <<< 16) ||| (t.[5] <<< 8) ||| t.[4]) in
    let y1 := turn4 x1 in
    let y2 := (x2 &&& M0) ||| ((x2 &&& M1) >>> 6) ||| u32 ((x2 &&& M2) <<< 6) ||| ((x2 &&& M3) >>> 12) ||| u32 ((x2 &&& M4) <<< 12) ||| u32 ((x2 &&& M6) <<< 18) in
    stores 4 out (2 * i)
      [asm4 (byte_of y2 1) (byte_of y1 1) (byte_of y2 0) (byte_of y1 0);
       asm4 (byte_of y2 3) (byte_of y1 3) (byte_of y2 2) (byte_of y1 2)]).

Definition cornerturn_8thread_2bit : cornerturner :=
  fun sched out tb outputDataSize =>
  let n := Z.to_nat (cdiv outputDataSize 8) in
  par_for sched n out (fun i out =>
    t ← loads 1 tb i (threads 8);
    let x1 := asm4 t.[3] t.[2] t.[1] t.[0] in
    let x2 := asm4 t.[7] t.[6] t.[5] t.[4] in
    let y1 := turn4 x1 in
    let y2 := turn4 x2 in
    stores 4 out (2 * i)
      [asm4 (byte_of y2 1) (byte_of y1 1) (byte_of y2 0) (byte_of y1 0);
       asm4 (byte_of y2 3) (byte_of y1 3) (byte_of y2 2) (byte_of y1 2)]).

Definition cornerturn_10thread_2bit : cornerturner :=
  fun sched out tb outputDataSize =>
  let n := Z.to_nat (cdiv outputDataSize 16) in
  par_for sched n out (fun i out =>
    t ← loads 1 tb i (threads 10);
    let x1 := asm4 t.[3] t.[2] t.[1] t.[0] in
    let x2 := asm4 t.[7] t.[6] t.[5] t.[4] in
    let x3 := u32 ((t.[9] <<< 8) ||| t.[8]) in
    let y1 := turn4 x1 in
    let y2 := turn4 x2 in
    let y3 := (x3 &&& M0) ||| ((x3 &&& M1) >>> 6) ||| u32 ((x3 &&& M2) <<< 6) ||| u32 ((x3 &&& M4) <<< 12) ||| u32 ((x3 &&& M6) <<< 18) in
    stores 4 out (4 * i)
      [u32 ((byte_of y3 0 <<< 16) ||| (byte_of y2 0 <<< 8) ||| byte_of y1 0);
       u32 ((byte_of y3 1 <<< 16) ||| (byte_of y2 1 <<< 8) ||| byte_of y1 1);
       u32 ((byte_of y3 2 <<< 16) ||| (byte_of y2 2 <<< 8) ||| byte_of y1 2);
       u32 ((byte_of y3 3 <<< 16) ||| (byte_of y2 3 <<< 8) ||| byte_of y1 3)]).

Definition cornerturn_12thread_2bit : cornerturner :=
  fun sched out tb outputDataSize =>
  let n := Z.to_nat (cdiv outputDataSize 16) in
  par_for sched n out (fun i out =>
    t ← loads 1 tb i (threads 12);
    let x1 := asm4 t.[3] t.[2] t.[1] t.[0] in
    let x2 := asm4 t.[7] t.[6] t.[5] t.[4] in
    let x3 := asm4 t.[11] t.[10] t.[9] t.[8] in
    let y1 := turn4 x1 in
    let y2 := turn4 x2 in
    let y3 := turn4 x3 in
    stores 4 out (4 * i)
      [u32 ((byte_of y3 0 <<< 16) ||| (byte_of y2 0 <<< 8) ||| byte_of y1 0);
       u32 ((byte_of y3 1 <<< 16) ||| (byte_of y2 1 <<< 8) ||| byte_of y1 1);
       u32 ((byte_of y3 2 <<< 16) ||| (byte_of y2 2 <<< 8) ||| byte_of y1 2);
       u32 ((byte_of y3 3 <<< 16) ||| (byte_of y2 3 <<< 8) ||| byte_of y1 3)]).

Definition cornerturn_14thread_2bit : cornerturner :=
  fun sched out tb outputDataSize =>
  let n := Z.to_nat (cdiv outputDataSize 16) in
  par_for sched n out (fun i out =>
    t ← loads 1 tb i (threads 14);
    let x1 := asm4 t.[3] t.[2] t.[1] t.[0] in
    let x2 := asm4 t.[7] t.[6] t.[5] t.[4] in
    let x3 := asm4 t.[11] t.[10] t.[9] t.[8] in
    let x4 := u32 ((t.[13] <<< 8) ||| t.[12]) in
    let y1 := turn4 x1 in
    let y2 := turn4 x2 in
    let y3 := turn4 x3 in
    let y4 := (x4 &&& M0) ||| ((x4 &&& M1) >>> 6) ||| u32 ((x4 &&& M2) <<< 6) ||| u32 ((x4 &&& M4) <<< 12) ||| u32 ((x4 &&& M6) <<< 18) in
    stores 4 out (4 * i)
      [asm4 (byte_of y4 0) (byte_of y3 0) (byte_of y2 0) (byte_of y1 0);
       asm4 (byte_of y4 1) (byte_of y3 1) (byte_of y2 1) (byte_of y1 1);
       asm4 (byte_of y4 2) (byte_of y3 2) (byte_of y2 2) (byte_of y1 2);
       asm4 (byte_of y4 3) (byte_of y3 3) (byte_of y2 3) (byte_of y1 3)]).

Definition cornerturn_16thread_2bit : cornerturner :=
  fun sched out tb outputDataSize =>
  let n := Z.to_nat (cdiv outputDataSize 16) in
  par_for sched n out (fun i out =>
    t ← loads 1 tb i (threads 16);
    let x1 := asm4 t.[3] t.[2] t.[1] t.[0] in
    let x2 := asm4 t.[7] t.[6] t.[5] t.[4] in
    let x3 := asm4 t.[11] t.[10] t.[9] t.[8] in
    let x4 := asm4 t.[15] t.[14] t.[13] t.[12] in
    let y1 := turn4 x1 in
    let y2 := turn4 x2 in
    let y3 := turn4 x3 in
    let y4 := turn4 x4 in
    stores 4 out (4 * i)
      [asm4 (byte_of y4 0) (byte_of y3 0) (byte_of y2 0) (byte_of y1 0);
       asm4 (byte_of y4 1) (byte_of y3 1) (byte_of y2 1) (byte_of y1 1);
       asm4 (byte_of y4 2) (byte_of y3 2) (byte_of y2 2) (byte_of y1 2);
       asm4 (byte_of y4 3) (byte_of y3 3) (byte_of y2 3) (byte_of y1 3)]).

Definition cornerturn_32thread_2bit : cornerturner :=
  fun sched out tb outputDataSize =>
  let n := Z.to_nat (cdiv outputDataSize 32) in
  par_for sched n out (fun i out =>
    t ← loads 1 tb i (threads 32);
    let x1 := asm4 t.[3] t.[2] t.[1] t.[0] in
    let x2 := asm4 t.[7] t.[6] t.[5] t.[4] in
    let x3 := asm4 t.[11] t.[10] t.[9] t.[8] in
    let x4 := asm4 t.[15] t.[14] t.[13] t.[12] in
    let x5 := asm4 t.[19] t.[18] t.[17] t.[16] in
    let x6 := asm4 t.[23] t.[22] t.[21] t.[20] in
    let x7 := asm4 t.[27] t.[26] t.[25] t.[24] in
    let x8 := asm4 t.[31] t.[30] t.[29] t.[28] in
    let y1 := turn4 x1 in
    let y2 := turn4 x2 in
    let y3 := turn4 x3 in
    let y4 := turn4 x4 in
    let y5 := turn4 x5 in
    let y6 := turn4 x6 in
    let y7 := turn4 x7 in
    let y8 := turn4 x8 in
    stores 4 out (8 * i)
      [asm4 (byte_of y4 0) (byte_of y3 0) (byte_of y2 0) (byte_of y1 0);
       asm4 (byte_of y8 0) (byte_of y7 0) (byte_of y6 0) (byte_of y5 0);
       asm4 (byte_of y4 1) (byte_of y3 1) (byte_of y2 1) (byte_of y1 1);
       asm4 (byte_of y8 1) (byte_of y7 1) (byte_of y6 1) (byte_of y5 1);
       asm4 (byte_of y4 2) (byte_of y3 2) (byte_of y2 2) (byte_of y1 2);
       asm4 (byte_of y8 2) (byte_of y7 2) (byte_of y6 2) (byte_of y5 2);
       asm4 (byte_of y4 3) (byte_of y3 3) (byte_of y2 3) (byte_of y1 3);
       asm4 (byte_of y8 3) (byte_of y7 3) (byte_of y6 3) (byte_of y5 3)]).

Definition cornerturn_64thread_2bit : cornerturner :=
  fun sched out tb outputDataSize =>
  let n := Z.to_nat (cdiv outputDataSize 64) in
  par_for sched n out (fun i out =>
    t ← loads 1 tb i (threads 64);
    let x1 := asm4 t.[3] t.[2] t.[1] t.[0] in
    let x2 := asm4 t.[7] t.[6] t.[5] t.[4] in
    let x3 := asm4 t.[11] t.[10] t.[9] t.[8] in
    let x4 := asm4 t.[15] t.[14] t.[13] t.[12] in
    let x5 := asm4 t.[19] t.[18] t.[17] t.[16] in
    let x6 := asm4 t.[23] t.[22] t.[21] t.[20] in
    let x7 := asm4 t.[27] t.[26] t.[25] t.[24] in
    let x8 := asm4 t.[31] t.[30] t.[29] t.[28] in
    let x9 := asm4 t.[35] t.[34] t.[33] t.[32] in
    let x10 := asm4 t.[39] t.[38] t.[37] t.[36] in
    let x11 := asm4 t.[43] t.[42] t.[41] t.[40] in
    let x12 := asm4 t.[47] t.[46] t.[45] t.[44] in
    let x13 := asm4 t.[51] t.[50] t.[49] t.[48] in
    let x14 := asm4 t.[55] t.[54] t.[53] t.[52] in
    let x15 := asm4 t.[59] t.[58] t.[57] t.[56] in
    let x16 := asm4 t.[63] t.[62] t.[61] t.[60] in
    let y1 := turn4 x1 in
    let y2 := turn4 x2 in
    let y3 := turn4 x3 in
    let y4 := turn4 x4 in
    let y5 := turn4 x5 in
    let y6 := turn4 x6 in
    let y7 := turn4 x7 in
    let y8 := turn4 x8 in
    let y9 := turn4 x9 in
    let y10 := turn4 x10 in
    let y11 := turn4 x11 in
    let y12 := turn4 x12 in
    let y13 := turn4 x13 in
    let y14 := turn4 x14 in
    let y15 := turn4 x15 in
    let y16 := turn4 x16 in
    stores 4 out (16 * i)
      [asm4 (byte_of y4 0) (byte_of y3 0) (byte_of y2 0) (byte_of y1 0);
       asm4 (byte_of y8 0) (byte_of y7 0) (byte_of y6 0) (byte_of y5 0);
       asm4 (byte_of y12 0) (byte_of y11 0) (byte_of y10 0) (byte_of y9 0);
       asm4 (byte_of y16 0) (byte_of y15 0) (byte_of y14 0) (byte_of y13 0);
       asm4 (byte_of y4 1) (byte_of y3 1) (byte_of y2 1) (byte_of y1 1);
       asm4 (byte_of y8 1) (byte_of y7 1) (byte_of y6 1) (byte_of y5 1);
       asm4 (byte_of y12 1) (byte_of y11 1) (byte_of y10 1) (byte_of y9 1);
       asm4 (byte_of y16 1) (byte_of y15 1) (byte_of y14 1) (byte_of y13 1);
       asm4 (byte_of y4 2) (byte_of y3 2) (byte_of y2 2) (byte_of y1 2);
       asm4 (byte_of y8 2) (byte_of y7 2) (byte_of y6 2) (byte_of y5 2);
       asm4 (byte_of y12 2) (byte_of y11 2) (byte_of y10 2) (byte_of y9 2);
       asm4 (byte_of y16 2) (byte_of y15 2) (byte_of y14 2) (byte_of y13 2);
       asm4 (byte_of y4 3) (byte_of y3 3) (byte_of y2 3) (byte_of y1 3);
       asm4 (byte_of y8 3) (byte_of y7 3) (byte_of y6 3) (byte_of y5 3);
       asm4 (byte_of y12 3) (byte_of y11 3) (byte_of y10 3) (byte_of y9 3);
       asm4 (byte_of y16 3) (byte_of y15 3) (byte_of y14 3) (byte_of y13 3)]).

(** ** Correctness *)

#[export] Instance cornerturn_2thread_2bit_w64_ok :
  CornerTurns valid_schedule cornerturn_2thread_2bit_w64 2 2 8.
Proof. reflect_corner 4%nat. Qed.

#[export] Instance cornerturn_2thread_2bit_w32_ok :
  CornerTurns valid_schedule cornerturn_2thread_2bit_w32 2 2 4.
Proof. reflect_corner 2%nat. Qed.

#[export] Instance cornerturn_3thread_2bit_ok :
  CornerTurns valid_schedule cornerturn_3thread_2bit 3 2 4.
Proof. reflect_corner 1%nat. Qed.

#[export] Instance cornerturn_4thread_2bit_ok :
  CornerTurns valid_schedule cornerturn_4thread_2bit 4 2 4.
Proof. reflect_corner 1%nat. Qed.

#[export] Instance cornerturn_5thread_2bit_ok :
  CornerTurns valid_schedule cornerturn_5thread_2bit 5 2 8.
Proof. reflect_corner 1%nat. Qed.

#[export] Instance cornerturn_6thread_2bit_ok :
  CornerTurns valid_schedule cornerturn_6thread_2bit 6 2 8.
Proof. reflect_corner 1%nat. Qed.

#[export] Instance cornerturn_7thread_2bit_ok :
  CornerTurns valid_schedule cornerturn_7thread_2bit 7 2 8.
Proof. reflect_corner 1%nat. Qed.

#[export] Instance cornerturn_8thread_2bit_ok :
  CornerTurns valid_schedule cornerturn_8thread_2bit 8 2 8.
Proof. reflect_corner 1%nat. Qed.

#[export] Instance cornerturn_10thread_2bit_ok :
  CornerTurns valid_schedule cornerturn_10thread_2bit 10 2 16.
Proof. reflect_corner 1%nat. Qed.

#[export] Instance cornerturn_12thread_2bit_ok :
  CornerTurns valid_schedule cornerturn_12thread_2bit 12 2 16.
Proof. reflect_corner 1%nat. Qed.

#[export] Instance cornerturn_14thread_2bit_ok :
  CornerTurns valid_schedule cornerturn_14thread_2bit 14 2 16.
Proof. reflect_corner 1%nat. Qed.

#[export] Instance cornerturn_16thread_2bit_ok :
  CornerTurns valid_schedule cornerturn_16thread_2bit 16 2 16.
Proof. reflect_corner 1%nat. Qed.

#[export] Instance cornerturn_32thread_2bit_ok :
  CornerTurns valid_schedule cornerturn_32thread_2bit 32 2 32.
Proof. reflect_corner 1%nat. Qed.

#[export] Instance cornerturn_64thread_2bit_ok :
  CornerTurns valid_schedule cornerturn_64thread_2bit 64 2 64.
Proof. reflect_corner 1%nat. Qed.
