(* ===== verification/CornerTurn4.v ===== *)
(** * CornerTurn4: the 4-bit corner turners of [cornerturners.c]

    As in [CornerTurn2] the functions assemble 32-bit words from bytes of the
    threads; masks and shifts (multiplications by powers of two, in 64 bits)
    then interleave the nibbles.  The functions for 16, 32 and 64 threads
    advance [outputwordptr] instead of indexing it. *)
From S2P Require Import CornerSpec.
#[local] Open Scope Z_scope.
#[local] Open Scope cint_scope.


Definition cornerturn_2thread_4bit : cornerturner :=
  fun sched out tb outputDataSize =>
  let M0 := 0xF00FF00F in
  let M1 := 0x0F000F00 in
  let M2 := 0x00F000F0 in
  let n := Z.to_nat (cdiv outputDataSize 4) in
  par_for sched n out (fun i out =>
    t ← loads 1 tb (2 * i) [(0, 0); (0, 1); (1, 0); (1, 1)]%nat;
    let x := asm4 t.[3] t.[1] t.[2] t.[0] in
    stores 4 out i
      [(x &&& M0) ||| ((x &&& M1) >>> 4) ||| u32 ((x &&& M2) <<< 4)]).

Definition cornerturn_3thread_4bit : cornerturner :=
  fun sched out tb outputDataSize =>
  let M0 := 0x0000000F in
  let M2 := 0x00F00000 in
  let M3 := 0x000F0000 in
  let M4 := 0x0000F000 in
  let M5 := 0x00000F00 in
  let M6 := 0x000000F0 in
  let n := Z.to_nat (cdiv outputDataSize 4) in
  par_for sched n out (fun i out =>
    t ← loads 1 tb i (threads 3);
    let x := u32 ((t.[2] <<< 16) ||| (t.[1] <<< 8) ||| t.[0]) in
    stores 4 out i
      [(x &&& M0) ||| u32 ((x &&& M2) <<< 4) ||| ((x &&& M3) >>> 8) ||| u32 ((x &&& M4) <<< 8) ||| ((x &&& M5) >>> 4) ||| u32 ((x &&& M6) <<< 12)]).

Definition cornerturn_4thread_4bit : cornerturner :=
  fun sched out tb outputDataSize =>
  let M0 := 0xF000000F in
  let M1 := 0x0F000000 in
  let M2 := 0x00F00000 in
  let M3 := 0x000F0000 in
  let M4 := 0x0000F000 in
  let M5 := 0x00000F00 in
  let M6 := 0x000000F0 in
  let n := Z.to_nat (cdiv outputDataSize 4) in
  par_for sched n out (fun i out =>
    t ← loads 1 tb i (threads 4);
    let x := asm4 t.[3] t.[2] t.[1] t.[0] in
    stores 4 out i
      [(x &&& M0) ||| ((x &&& M1) >>> 12) ||| u32 ((x &&& M2) <<< 4) ||| ((x &&& M3) >>> 8) ||| u32 ((x &&& M4) <<< 8) ||| ((x &&& M5) >>> 4) ||| u32 ((x &&& M6) <<< 12)]).

Definition cornerturn_5thread_4bit : cornerturner :=
  fun sched out tb outputDataSize =>
  let M0 := 0x00F0F0F0 in
  let M1 := 0x000F0F0F in
  let n := Z.to_nat (cdiv outputDataSize 8) in
  par_for sched n out (fun i out =>
    t ← loads 1 tb i (threads 5);
    let xo := u32 ((t.[3] <<< 8) ||| t.[1]) in
    let xe := u32 ((t.[4] <<< 16) ||| (t.[2] <<< 8) ||| t.[0]) in
    stores 8 out i
      [u64 ((xo &&& M0) * 0x100000000) ||| u64 ((xo &&& M1) * 0x10) ||| u64 ((xe &&& M0) * 0x10000000) ||| (xe &&& M1)]).

Definition cornerturn_6thread_4bit : cornerturner :=
  fun sched out tb outputDataSize =>
  let M0 := 0x00F0F0F0 in
  let M1 := 0x000F0F0F in
  let n := Z.to_nat (cdiv outputDataSize 8) in
  par_for sched n out (fun i out =>
    t ← loads 1 tb i (threads 6);
    let xo := u32 ((t.[5] <<< 16) ||| (t.[3] <<< 8) ||| t.[1]) in
    let xe := u32 ((t.[4] <<< 16) ||| (t.[2] <<< 8) ||| t.[0]) in
    stores 8 out i
      [u64 ((xo &&& M0) * 0x100000000) ||| u64 ((xo &&& M1) * 0x10) ||| u64 ((xe &&& M0) * 0x10000000) ||| (xe &&& M1)]).

Definition cornerturn_7thread_4bit : cornerturner :=
  fun sched out tb outputDataSize =>
  let M0 := 0xF0F0F0F0 in
  let M1 := 0x0F0F0F0F in
  let n := Z.to_nat (cdiv outputDataSize 8) in
  par_for sched n out (fun i out =>
    t ← loads 1 tb i (threads 7);
    let xo := u32 ((t.[5] <<< 16) ||| (t.[3] <<< 8) ||| t.[1]) in
    let xe := asm4 t.[6] t.[4] t.[2] t.[0] in
    stores 8 out i
      [u64 ((xo &&& M0) * 0x100000000) ||| u64 ((xo &&& M1) * 0x10) ||| u64 ((xe &&& M0) * 0x10000000) ||| (xe &&& M1)]).

Definition cornerturn_8thread_4bit : cornerturner :=
  fun sched out tb outputDataSize =>
  let M0 := 0xF0F0F0F0 in
  let M1 := 0x0F0F0F0F in
  let n := Z.to_nat (cdiv outputDataSize 8) in
  par_for sched n out (fun i out =>
    t ← loads 1 tb i (threads 8);
    let xo := asm4 t.[7] t.[5] t.[3] t.[1] in
    let xe := asm4 t.[6] t.[4] t.[2] t.[0] in
    stores 8 out i
      [u64 ((xo &&& M0) * 0x100000000) ||| u64 ((xo &&& M1) * 0x10) ||| u64 ((xe &&& M0) * 0x10000000) ||| (xe &&& M1)]).

Definition cornerturn_16thread_4bit : cornerturner :=
  fun sched out tb outputDataSize =>
  let M0 := 0xF0F0F0F0 in
  let M1 := 0x0F0F0F0F in
  let n := Z.to_nat (cdiv outputDataSize 16) in
  par_for_ptr sched n out (fun i '(out, outputwordptr) =>
    t ← loads 1 tb i (threads 16);
    let x3 := asm4 t.[15] t.[13] t.[11] t.[9] in
    let x2 := asm4 t.[14] t.[12] t.[10] t.[8] in
    let x1 := asm4 t.[7] t.[5] t.[3] t.[1] in
    let x0 := asm4 t.[6] t.[4] t.[2] t.[0] in
    out' ← stores 8 out outputwordptr
      [u64 ((x3 &&& M1) * 0x1000000000) ||| u64 ((x2 &&& M1) * 0x100000000) ||| u64 ((x1 &&& M1) * 0x10) ||| (x0 &&& M1);
       u64 ((x3 &&& M0) * 0x100000000) ||| u64 ((x2 &&& M0) * 0x10000000) ||| (x1 &&& M0) ||| ((x0 &&& M0) >>> 4)];
    Some (out', outputwordptr + 2)%nat).

Definition cornerturn_32thread_4bit : cornerturner :=
  fun sched out tb outputDataSize =>
  let M0 := 0xF0F0F0F0 in
  let M1 := 0x0F0F0F0F in
  let n := Z.to_nat (cdiv outputDataSize 32) in
  par_for_ptr sched n out (fun i '(out, outputwordptr) =>
    t ← loads 1 tb i (threads 32);
    let x7 := asm4 t.[31] t.[29] t.[27] t.[25] in
    let x6 := asm4 t.[30] t.[28] t.[26] t.[24] in
    let x5 := asm4 t.[23] t.[21] t.[19] t.[17] in
    let x4 := asm4 t.[22] t.[20] t.[18] t.[16] in
    let x3 := asm4 t.[15] t.[13] t.[11] t.[9] in
    let x2 := asm4 t.[14] t.[12] t.[10] t.[8] in
    let x1 := asm4 t.[7] t.[5] t.[3] t.[1] in
    let x0 := asm4 t.[6] t.[4] t.[2] t.[0] in
    out' ← stores 8 out outputwordptr
      [u64 ((x3 &&& M1) * 0x1000000000) ||| u64 ((x2 &&& M1) * 0x100000000) ||| u64 ((x1 &&& M1) * 0x10) ||| (x0 &&& M1);
       u64 ((x7 &&& M1) * 0x1000000000) ||| u64 ((x6 &&& M1) * 0x100000000) ||| u64 ((x5 &&& M1) * 0x10) ||| (x4 &&& M1);
       u64 ((x3 &&& M0) * 0x100000000) ||| u64 ((x2 &&& M0) * 0x10000000) ||| (x1 &&& M0) ||| ((x0 &&& M0) >>> 4);
       u64 ((x7 &&& M0) * 0x100000000) ||| u64 ((x6 &&& M0) * 0x10000000) ||| (x5 &&& M0) ||| ((x4 &&& M0) >>> 4)];
    Some (out', outputwordptr + 4)%nat).

Definition cornerturn_64thread_4bit : cornerturner :=
  fun sched out tb outputDataSize =>
  let M0 := 0xF0F0F0F0 in
  let M1 := 0x0F0F0F0F in
  let n := Z.to_nat (cdiv outputDataSize 64) in
  par_for_ptr sched n out (fun i '(out, outputwordptr) =>
    t ← loads 1 tb i (threads 64);
    let x15 := asm4 t.[63] t.[61] t.[59] t.[57] in
    let x14 := asm4 t.[62] t.[60] t.[58] t.[56] in
    let x13 := asm4 t.[55] t.[53] t.[51] t.[49] in
    let x12 := asm4 t.[54] t.[52] t.[50] t.[48] in
    let x11 := asm4 t.[47] t.[45] t.[43] t.[41] in
    let x10 := asm4 t.[46] t.[44] t.[42] t.[40] in
    let x9 := asm4 t.[39] t.[37] t.[35] t.[33] in
    let x8 := asm4 t.[38] t.[36] t.[34] t.[32] in
    let x7 := asm4 t.[31] t.[29] t.[27] t.[25] in
    let x6 := asm4 t.[30] t.[28] t.[26] t.[24] in
    let x5 := asm4 t.[23] t.[21] t.[19] t.[17] in
    let x4 := asm4 t.[22] t.[20] t.[18] t.[16] in
    let x3 := asm4 t.[15] t.[13] t.[11] t.[9] in
    let x2 := asm4 t.[14] t.[12] t.[10] t.[8] in
    let x1 := asm4 t.[7] t.[5] t.[3] t.[1] in
    let x0 := asm4 t.[6] t.[4] t.[2] t.[0] in
    out' ← stores 8 out outputwordptr
      [u64 ((x3 &&& M1) * 0x1000000000) ||| u64 ((x2 &&& M1) * 0x100000000) ||| u64 ((x1 &&& M1) * 0x10) ||| (x0 &&& M1);
       u64 ((x7 &&& M1) * 0x1000000000) ||| u64 ((x6 &&& M1) * 0x100000000) ||| u64 ((x5 &&& M1) * 0x10) ||| (x4 &&& M1);
       u64 ((x11 &&& M1) * 0x1000000000) ||| u64 ((x10 &&& M1) * 0x100000000) ||| u64 ((x9 &&& M1) * 0x10) ||| (x8 &&& M1);
       u64 ((x15 &&& M1) * 0x1000000000) ||| u64 ((x14 &&& M1) * 0x100000000) ||| u64 ((x13 &&& M1) * 0x10) ||| (x12 &&& M1);
       u64 ((x3 &&& M0) * 0x100000000) ||| u64 ((x2 &&& M0) * 0x10000000) ||| (x1 &&& M0) ||| ((x0 &&& M0) >>> 4);
       u64 ((x7 &&& M0) * 0x100000000) ||| u64 ((x6 &&& M0) * 0x10000000) ||| (x5 &&& M0) ||| ((x4 &&& M0) >>> 4);
       u64 ((x11 &&& M0) * 0x100000000) ||| u64 ((x10 &&& M0) * 0x10000000) ||| (x9 &&& M0) ||| ((x8 &&& M0) >>> 4);
       u64 ((x15 &&& M0) * 0x100000000) ||| u64 ((x14 &&& M0) * 0x10000000) ||| (x13 &&& M0) ||| ((x12 &&& M0) >>> 4)];
    Some (out', outputwordptr + 8)%nat).

(** ** Correctness *)

#[export] Instance cornerturn_2thread_4bit_ok :
  CornerTurns valid_schedule cornerturn_2thread_4bit 2 4 4.
Proof. reflect_corner 2%nat. Qed.

#[export] Instance cornerturn_3thread_4bit_ok :
  CornerTurns valid_schedule cornerturn_3thread_4bit 3 4 4.
Proof. reflect_corner 1%nat. Qed.

#[export] Instance cornerturn_4thread_4bit_ok :
  CornerTurns valid_schedule cornerturn_4thread_4bit 4 4 4.
Proof. reflect_corner 1%nat. Qed.

#[export] Instance cornerturn_5thread_4bit_ok :
  CornerTurns valid_schedule cornerturn_5thread_4bit 5 4 8.
Proof. reflect_corner 1%nat. Qed.

#[export] Instance cornerturn_6thread_4bit_ok :
  CornerTurns valid_schedule cornerturn_6thread_4bit 6 4 8.
Proof. reflect_corner 1%nat. Qed.

#[export] Instance cornerturn_7thread_4bit_ok :
  CornerTurns valid_schedule cornerturn_7thread_4bit 7 4 8.
Proof. reflect_corner 1%nat. Qed.

#[export] Instance cornerturn_8thread_4bit_ok :
  CornerTurns valid_schedule cornerturn_8thread_4bit 8 4 8.
Proof. reflect_corner 1%nat. Qed.

#[export] Instance cornerturn_16thread_4bit_ok :
  CornerTurns (eq sequential) cornerturn_16thread_4bit 16 4 16.
Proof. reflect_corner 1%nat. Qed.

#[export] Instance cornerturn_32thread_4bit_ok :
  CornerTurns (eq sequential) cornerturn_32thread_4bit 32 4 32.
Proof. reflect_corner 1%nat. Qed.

#[export] Instance cornerturn_64thread_4bit_ok :
  CornerTurns (eq sequential) cornerturn_64thread_4bit 64 4 64.
Proof. reflect_corner 1%nat. Qed.
