(* ===== verification/CornerTurnWide.v ===== *)
(** * CornerTurnWide: the corner turners for samples of 8 to 128 bits

    These functions of [cornerturners.c] move whole words: [moves] lists, in
    the order of the source, the pairs (thread [k], index [j]) of the
    statements [*out = t_k[j]; ++out;].  Their loops carry no OpenMP pragma, so
    they run in order.  The one-thread function, which serves every sample
    size, is here too. *)
From S2P Require Import CornerSpec.
#[local] Open Scope Z_scope.

Definition for_loop (n : nat) (out : buffer) (body : nat -> buffer -> option buffer) : option buffer :=
  par_for sequential n out body.

Definition for_loop_ptr (n : nat) (out : buffer)
    (body : nat -> buffer * nat -> option (buffer * nat)) : option buffer :=
  par_for_ptr sequential n out body.

(** [for(i = 0; i < n; i += 2)] *)
Definition for_by2_ptr (n : nat) (out : buffer)
    (body : nat -> buffer * nat -> option (buffer * nat)) : option buffer :=
  fst <$> run_iters body (evens n) (out, 0%nat).

(** [memcpy(dst, src, n)]; a negative [n] converts to a huge [size_t]. *)
Definition memcpy (dst src : buffer) (n : Z) : option buffer :=
  if decide (0 <= n /\ n <= Z.of_nat (length dst) /\ n <= Z.of_nat (length src))
  then Some (list_inserts 0 (take (Z.to_nat n) src) dst) else None.

Definition cornerturn_1thread : cornerturner :=
  fun sched out tb outputDataSize =>
  t0 ← tb !! 0%nat;
  memcpy out t0 outputDataSize.

Definition cornerturn_2thread_8bit : cornerturner :=
  fun sched out tb outputDataSize =>
  let n := Z.to_nat (cdiv outputDataSize 2) in
  for_loop n out (fun i out =>
    moves 1 tb out (2 * i)
        [(0, i); (1, i)]%nat).

Definition cornerturn_3thread_8bit : cornerturner :=
  fun sched out tb outputDataSize =>
  let n := Z.to_nat (cdiv outputDataSize 4) in
  for_loop n out (fun i out =>
    moves 1 tb out (4 * i)
        [(0, i); (1, i); (2, i)]%nat).

Definition cornerturn_4thread_8bit : cornerturner :=
  fun sched out tb outputDataSize =>
  let n := Z.to_nat (cdiv outputDataSize 4) in
  for_loop n out (fun i out =>
    moves 1 tb out (4 * i)
        [(0, i); (1, i); (2, i); (3, i)]%nat).

Definition cornerturn_5thread_8bit : cornerturner :=
  fun sched out tb outputDataSize =>
  let n := Z.to_nat (cdiv outputDataSize 8) in
  for_loop n out (fun i out =>
    moves 1 tb out (8 * i)
        [(0, i); (1, i); (2, i); (3, i); (4, i)]%nat).

Definition cornerturn_6thread_8bit : cornerturner :=
  fun sched out tb outputDataSize =>
  let n := Z.to_nat (cdiv outputDataSize 8) in
  for_loop n out (fun i out =>
    moves 1 tb out (8 * i)
        [(0, i); (1, i); (2, i); (3, i); (4, i); (5, i)]%nat).

Definition cornerturn_7thread_8bit : cornerturner :=
  fun sched out tb outputDataSize =>
  let n := Z.to_nat (cdiv outputDataSize 8) in
  for_loop n out (fun i out =>
    moves 1 tb out (8 * i)
        [(0, i); (1, i); (2, i); (3, i); (4, i); (5, i); (6, i)]%nat).

Definition cornerturn_8thread_8bit : cornerturner :=
  fun sched out tb outputDataSize =>
  let n := Z.to_nat (cdiv outputDataSize 8) in
  for_loop n out (fun i out =>
    moves 1 tb out (8 * i)
        [(0, i); (1, i); (2, i); (3, i); (4, i); (5, i); (6, i); (7, i)]%nat).

Definition cornerturn_10thread_8bit : cornerturner :=
  fun sched out tb outputDataSize =>
  let n := Z.to_nat (cdiv outputDataSize 16) in
  for_loop n out (fun i out =>
    moves 1 tb out (16 * i)
        [(0, i); (1, i); (2, i); (3, i); (4, i); (5, i); (6, i); (7, i);
         (8, i); (9, i)]%nat).

Definition cornerturn_12thread_8bit : cornerturner :=
  fun sched out tb outputDataSize =>
  let n := Z.to_nat (cdiv outputDataSize 16) in
  for_loop n out (fun i out =>
    moves 1 tb out (16 * i)
        [(0, i); (1, i); (2, i); (3, i); (4, i); (5, i); (6, i); (7, i);
         (8, i); (9, i); (10, i); (11, i)]%nat).

Definition cornerturn_14thread_8bit : cornerturner :=
  fun sched out tb outputDataSize =>
  let n := Z.to_nat (cdiv outputDataSize 16) in
  for_loop n out (fun i out =>
    moves 1 tb out (16 * i)
        [(0, i); (1, i); (2, i); (3, i); (4, i); (5, i); (6, i); (7, i);
         (8, i); (9, i); (10, i); (11, i); (12, i); (13, i)]%nat).

Definition cornerturn_16thread_8bit : cornerturner :=
  fun sched out tb outputDataSize =>
  let n := Z.to_nat (cdiv outputDataSize 16) in
  for_loop n out (fun i out =>
    moves 1 tb out (16 * i)
        [(0, i); (1, i); (2, i); (3, i); (4, i); (5, i); (6, i); (7, i);
         (8, i); (9, i); (10, i); (11, i); (12, i); (13, i); (14, i); (15, i)]%nat).

Definition cornerturn_32thread_8bit : cornerturner :=
  fun sched out tb outputDataSize =>
  let n := Z.to_nat (cdiv outputDataSize 32) in
  for_loop n out (fun i out =>
    moves 1 tb out (32 * i)
        [(0, i); (1, i); (2, i); (3, i); (4, i); (5, i); (6, i); (7, i);
         (8, i); (9, i); (10, i); (11, i); (12, i); (13, i); (14, i); (15, i);
         (16, i); (17, i); (18, i); (19, i); (20, i); (21, i); (22, i); (23, i);
         (24, i); (25, i); (26, i); (27, i); (28, i); (29, i); (30, i); (31, i)]%nat).

Definition cornerturn_64thread_8bit : cornerturner :=
  fun sched out tb outputDataSize =>
  let n := Z.to_nat (cdiv outputDataSize 64) in
  for_loop n out (fun i out =>
    moves 1 tb out (64 * i)
        [(0, i); (1, i); (2, i); (3, i); (4, i); (5, i); (6, i); (7, i);
         (8, i); (9, i); (10, i); (11, i); (12, i); (13, i); (14, i); (15, i);
         (16, i); (17, i); (18, i); (19, i); (20, i); (21, i); (22, i); (23, i);
         (24, i); (25, i); (26, i); (27, i); (28, i); (29, i); (30, i); (31, i);
         (32, i); (33, i); (34, i); (35, i); (36, i); (37, i); (38, i); (39, i);
         (40, i); (41, i); (42, i); (43, i); (44, i); (45, i); (46, i); (47, i);
         (48, i); (49, i); (50, i); (51, i); (52, i); (53, i); (54, i); (55, i);
         (56, i); (57, i); (58, i); (59, i); (60, i); (61, i); (62, i); (63, i)]%nat).

Definition cornerturn_2thread_16bit : cornerturner :=
  fun sched out tb outputDataSize =>
  let n := Z.to_nat (cdiv outputDataSize 4) in
  for_loop_ptr n out (fun i '(out, p) =>
    out' ← moves 2 tb out p
        [(0, i); (1, i)]%nat;
    Some (out', p + 2)%nat).

Definition cornerturn_4thread_16bit : cornerturner :=
  fun sched out tb outputDataSize =>
  let n := Z.to_nat (cdiv outputDataSize 8) in
  for_loop_ptr n out (fun i '(out, p) =>
    out' ← moves 2 tb out p
        [(0, i); (1, i); (2, i); (3, i)]%nat;
    Some (out', p + 4)%nat).

Definition cornerturn_8thread_16bit : cornerturner :=
  fun sched out tb outputDataSize =>
  let n := Z.to_nat (cdiv outputDataSize 16) in
  for_loop_ptr n out (fun i '(out, p) =>
    out' ← moves 2 tb out p
        [(0, i); (1, i); (2, i); (3, i); (4, i); (5, i); (6, i); (7, i)]%nat;
    Some (out', p + 8)%nat).

Definition cornerturn_16thread_16bit : cornerturner :=
  fun sched out tb outputDataSize =>
  let n := Z.to_nat (cdiv outputDataSize 32) in
  for_loop_ptr n out (fun i '(out, p) =>
    out' ← moves 2 tb out p
        [(0, i); (1, i); (2, i); (3, i); (4, i); (5, i); (6, i); (7, i);
         (8, i); (9, i); (10, i); (11, i); (12, i); (13, i); (14, i); (15, i)]%nat;
    Some (out', p + 16)%nat).

Definition cornerturn_32thread_16bit : cornerturner :=
  fun sched out tb outputDataSize =>
  let n := Z.to_nat (cdiv outputDataSize 64) in
  for_loop_ptr n out (fun i '(out, p) =>
    out' ← moves 2 tb out p
        [(0, i); (1, i); (2, i); (3, i); (4, i); (5, i); (6, i); (7, i);
         (8, i); (9, i); (10, i); (11, i); (12, i); (13, i); (14, i); (15, i);
         (16, i); (17, i); (18, i); (19, i); (20, i); (21, i); (22, i); (23, i);
         (24, i); (25, i); (26, i); (27, i); (28, i); (29, i); (30, i); (31, i)]%nat;
    Some (out', p + 32)%nat).

Definition cornerturn_64thread_16bit : cornerturner :=
  fun sched out tb outputDataSize =>
  let n := Z.to_nat (cdiv outputDataSize 128) in
  for_loop_ptr n out (fun i '(out, p) =>
    out' ← moves 2 tb out p
        [(0, i); (1, i); (2, i); (3, i); (4, i); (5, i); (6, i); (7, i);
         (8, i); (9, i); (10, i); (11, i); (12, i); (13, i); (14, i); (15, i);
         (16, i); (17, i); (18, i); (19, i); (20, i); (21, i); (22, i); (23, i);
         (24, i); (25, i); (26, i); (27, i); (28, i); (29, i); (30, i); (31, i);
         (32, i); (33, i); (34, i); (35, i); (36, i); (37, i); (38, i); (39, i);
         (40, i); (41, i); (42, i); (43, i); (44, i); (45, i); (46, i); (47, i);
         (48, i); (49, i); (50, i); (51, i); (52, i); (53, i); (54, i); (55, i);
         (56, i); (57, i); (58, i); (59, i); (60, i); (61, i); (62, i); (63, i)]%nat;
    Some (out', p + 64)%nat).

Definition cornerturn_2thread_32bit : cornerturner :=
  fun sched out tb outputDataSize =>
  let n := Z.to_nat (cdiv outputDataSize 8) in
  for_loop_ptr n out (fun i '(out, p) =>
    out' ← moves 4 tb out p
        [(0, i); (1, i)]%nat;
    Some (out', p + 2)%nat).

Definition cornerturn_4thread_32bit : cornerturner :=
  fun sched out tb outputDataSize =>
  let n := Z.to_nat (cdiv outputDataSize 16) in
  for_loop_ptr n out (fun i '(out, p) =>
    out' ← moves 4 tb out p
        [(0, i); (1, i); (2, i); (3, i)]%nat;
    Some (out', p + 4)%nat).

Definition cornerturn_8thread_32bit : cornerturner :=
  fun sched out tb outputDataSize =>
  let n := Z.to_nat (cdiv outputDataSize 32) in
  for_loop_ptr n out (fun i '(out, p) =>
    out' ← moves 4 tb out p
        [(0, i); (1, i); (2, i); (3, i); (4, i); (5, i); (6, i); (7, i)]%nat;
    Some (out', p + 8)%nat).

Definition cornerturn_16thread_32bit : cornerturner :=
  fun sched out tb outputDataSize =>
  let n := Z.to_nat (cdiv outputDataSize 64) in
  for_loop_ptr n out (fun i '(out, p) =>
    out' ← moves 4 tb out p
        [(0, i); (1, i); (2, i); (3, i); (4, i); (5, i); (6, i); (7, i);
         (8, i); (9, i); (10, i); (11, i); (12, i); (13, i); (14, i); (15, i)]%nat;
    Some (out', p + 16)%nat).

Definition cornerturn_32thread_32bit : cornerturner :=
  fun sched out tb outputDataSize =>
  let n := Z.to_nat (cdiv outputDataSize 128) in
  for_loop_ptr n out (fun i '(out, p) =>
    out' ← moves 4 tb out p
        [(0, i); (1, i); (2, i); (3, i); (4, i); (5, i); (6, i); (7, i);
         (8, i); (9, i); (10, i); (11, i); (12, i); (13, i); (14, i); (15, i);
         (16, i); (17, i); (18, i); (19, i); (20, i); (21, i); (22, i); (23, i);
         (24, i); (25, i); (26, i); (27, i); (28, i); (29, i); (30, i); (31, i)]%nat;
    Some (out', p + 32)%nat).

Definition cornerturn_64thread_32bit : cornerturner :=
  fun sched out tb outputDataSize =>
  let n := Z.to_nat (cdiv outputDataSize 256) in
  for_loop_ptr n out (fun i '(out, p) =>
    out' ← moves 4 tb out p
        [(0, i); (1, i); (2, i); (3, i); (4, i); (5, i); (6, i); (7, i);
         (8, i); (9, i); (10, i); (11, i); (12, i); (13, i); (14, i); (15, i);
         (16, i); (17, i); (18, i); (19, i); (20, i); (21, i); (22, i); (23, i);
         (24, i); (25, i); (26, i); (27, i); (28, i); (29, i); (30, i); (31, i);
         (32, i); (33, i); (34, i); (35, i); (36, i); (37, i); (38, i); (39, i);
         (40, i); (41, i); (42, i); (43, i); (44, i); (45, i); (46, i); (47, i);
         (48, i); (49, i); (50, i); (51, i); (52, i); (53, i); (54, i); (55, i);
         (56, i); (57, i); (58, i); (59, i); (60, i); (61, i); (62, i); (63, i)]%nat;
    Some (out', p + 64)%nat).

Definition cornerturn_2thread_64bit : cornerturner :=
  fun sched out tb outputDataSize =>
  let n := Z.to_nat (cdiv outputDataSize 16) in
  for_loop_ptr n out (fun i '(out, p) =>
    out' ← moves 8 tb out p
        [(0, i); (1, i)]%nat;
    Some (out', p + 2)%nat).

Definition cornerturn_4thread_64bit : cornerturner :=
  fun sched out tb outputDataSize =>
  let n := Z.to_nat (cdiv outputDataSize 32) in
  for_loop_ptr n out (fun i '(out, p) =>
    out' ← moves 8 tb out p
        [(0, i); (1, i); (2, i); (3, i)]%nat;
    Some (out', p + 4)%nat).

Definition cornerturn_8thread_64bit : cornerturner :=
  fun sched out tb outputDataSize =>
  let n := Z.to_nat (cdiv outputDataSize 64) in
  for_loop_ptr n out (fun i '(out, p) =>
    out' ← moves 8 tb out p
        [(0, i); (1, i); (2, i); (3, i); (4, i); (5, i); (6, i); (7, i)]%nat;
    Some (out', p + 8)%nat).

Definition cornerturn_16thread_64bit : cornerturner :=
  fun sched out tb outputDataSize =>
  let n := Z.to_nat (cdiv outputDataSize 128) in
  for_loop_ptr n out (fun i '(out, p) =>
    out' ← moves 8 tb out p
        [(0, i); (1, i); (2, i); (3, i); (4, i); (5, i); (6, i); (7, i);
         (8, i); (9, i); (10, i); (11, i); (12, i); (13, i); (14, i); (15, i)]%nat;
    Some (out', p + 16)%nat).

Definition cornerturn_32thread_64bit : cornerturner :=
  fun sched out tb outputDataSize =>
  let n := Z.to_nat (cdiv outputDataSize 256) in
  for_loop_ptr n out (fun i '(out, p) =>
    out' ← moves 8 tb out p
        [(0, i); (1, i); (2, i); (3, i); (4, i); (5, i); (6, i); (7, i);
         (8, i); (9, i); (10, i); (11, i); (12, i); (13, i); (14, i); (15, i);
         (16, i); (17, i); (18, i); (19, i); (20, i); (21, i); (22, i); (23, i);
         (24, i); (25, i); (26, i); (27, i); (28, i); (29, i); (30, i); (31, i)]%nat;
    Some (out', p + 32)%nat).

Definition cornerturn_64thread_64bit : cornerturner :=
  fun sched out tb outputDataSize =>
  let n := Z.to_nat (cdiv outputDataSize 512) in
  for_loop_ptr n out (fun i '(out, p) =>
    out' ← moves 8 tb out p
        [(0, i); (1, i); (2, i); (3, i); (4, i); (5, i); (6, i); (7, i);
         (8, i); (9, i); (10, i); (11, i); (12, i); (13, i); (14, i); (15, i);
         (16, i); (17, i); (18, i); (19, i); (20, i); (21, i); (22, i); (23, i);
         (24, i); (25, i); (26, i); (27, i); (28, i); (29, i); (30, i); (31, i);
         (32, i); (33, i); (34, i); (35, i); (36, i); (37, i); (38, i); (39, i);
         (40, i); (41, i); (42, i); (43, i); (44, i); (45, i); (46, i); (47, i);
         (48, i); (49, i); (50, i); (51, i); (52, i); (53, i); (54, i); (55, i);
         (56, i); (57, i); (58, i); (59, i); (60, i); (61, i); (62, i); (63, i)]%nat;
    Some (out', p + 64)%nat).

Definition cornerturn_2thread_128bit : cornerturner :=
  fun sched out tb outputDataSize =>
  let n := Z.to_nat (cdiv outputDataSize 16) in
  for_by2_ptr n out (fun i '(out, p) =>
    out' ← moves 8 tb out p
        [(0, i); (0, S i); (1, i); (1, S i)]%nat;
    Some (out', p + 4)%nat).

Definition cornerturn_4thread_128bit : cornerturner :=
  fun sched out tb outputDataSize =>
  let n := Z.to_nat (cdiv outputDataSize 32) in
  for_by2_ptr n out (fun i '(out, p) =>
    out' ← moves 8 tb out p
        [(0, i); (0, S i); (1, i); (1, S i); (2, i); (2, S i); (3, i); (3, S i)]%nat;
    Some (out', p + 8)%nat).

Definition cornerturn_8thread_128bit : cornerturner :=
  fun sched out tb outputDataSize =>
  let n := Z.to_nat (cdiv outputDataSize 64) in
  for_by2_ptr n out (fun i '(out, p) =>
    out' ← moves 8 tb out p
        [(0, i); (0, S i); (1, i); (1, S i); (2, i); (2, S i); (3, i); (3, S i);
         (4, i); (4, S i); (5, i); (5, S i); (6, i); (6, S i); (7, i); (7, S i)]%nat;
    Some (out', p + 16)%nat).

Definition cornerturn_16thread_128bit : cornerturner :=
  fun sched out tb outputDataSize =>
  let n := Z.to_nat (cdiv outputDataSize 128) in
  for_by2_ptr n out (fun i '(out, p) =>
    out' ← moves 8 tb out p
        [(0, i); (0, S i); (1, i); (1, S i); (2, i); (2, S i); (3, i); (3, S i);
         (4, i); (4, S i); (5, i); (5, S i); (6, i); (6, S i); (7, i); (7, S i);
         (8, i); (8, S i); (9, i); (9, S i); (10, i); (10, S i); (11, i); (11, S i);
         (12, i); (12, S i); (13, i); (13, S i); (14, i); (14, S i); (15, i); (15, S i)]%nat;
    Some (out', p + 32)%nat).

Definition cornerturn_32thread_128bit : cornerturner :=
  fun sched out tb outputDataSize =>
  let n := Z.to_nat (cdiv outputDataSize 256) in
  for_by2_ptr n out (fun i '(out, p) =>
    out' ← moves 8 tb out p
        [(0, i); (0, S i); (1, i); (1, S i); (2, i); (2, S i); (3, i); (3, S i);
         (4, i); (4, S i); (5, i); (5, S i); (6, i); (6, S i); (7, i); (7, S i);
         (8, i); (8, S i); (9, i); (9, S i); (10, i); (10, S i); (11, i); (11, S i);
         (12, i); (12, S i); (13, i); (13, S i); (14, i); (14, S i); (15, i); (15, S i);
         (16, i); (16, S i); (17, i); (17, S i); (18, i); (18, S i); (19, i); (19, S i);
         (20, i); (20, S i); (21, i); (21, S i); (22, i); (22, S i); (23, i); (23, S i);
         (24, i); (24, S i); (25, i); (25, S i); (26, i); (26, S i); (27, i); (27, S i);
         (28, i); (28, S i); (29, i); (29, S i); (30, i); (30, S i); (31, i); (31, S i)]%nat;
    Some (out', p + 64)%nat).

Definition cornerturn_64thread_128bit : cornerturner :=
  fun sched out tb outputDataSize =>
  let n := Z.to_nat (cdiv outputDataSize 512) in
  for_by2_ptr n out (fun i '(out, p) =>
    out' ← moves 8 tb out p
        [(0, i); (0, S i); (1, i); (1, S i); (2, i); (2, S i); (3, i); (3, S i);
         (4, i); (4, S i); (5, i); (5, S i); (6, i); (6, S i); (7, i); (7, S i);
         (8, i); (8, S i); (9, i); (9, S i); (10, i); (10, S i); (11, i); (11, S i);
         (12, i); (12, S i); (13, i); (13, S i); (14, i); (14, S i); (15, i); (15, S i);
         (16, i); (16, S i); (17, i); (17, S i); (18, i); (18, S i); (19, i); (19, S i);
         (20, i); (20, S i); (21, i); (21, S i); (22, i); (22, S i); (23, i); (23, S i);
         (24, i); (24, S i); (25, i); (25, S i); (26, i); (26, S i); (27, i); (27, S i);
         (28, i); (28, S i); (29, i); (29, S i); (30, i); (30, S i); (31, i); (31, S i);
         (32, i); (32, S i); (33, i); (33, S i); (34, i); (34, S i); (35, i); (35, S i);
         (36, i); (36, S i); (37, i); (37, S i); (38, i); (38, S i); (39, i); (39, S i);
         (40, i); (40, S i); (41, i); (41, S i); (42, i); (42, S i); (43, i); (43, S i);
         (44, i); (44, S i); (45, i); (45, S i); (46, i); (46, S i); (47, i); (47, S i);
         (48, i); (48, S i); (49, i); (49, S i); (50, i); (50, S i); (51, i); (51, S i);
         (52, i); (52, S i); (53, i); (53, S i); (54, i); (54, S i); (55, i); (55, S i);
         (56, i); (56, S i); (57, i); (57, S i); (58, i); (58, S i); (59, i); (59, S i);
         (60, i); (60, S i); (61, i); (61, S i); (62, i); (62, S i); (63, i); (63, S i)]%nat;
    Some (out', p + 128)%nat).

(** ** Correctness *)

Lemma memcpy_Some (dst src : buffer) N :
  (N <= length dst)%nat -> (N <= length src)%nat ->
  memcpy dst src (Z.of_nat N) = Some (list_inserts 0 (take N src) dst).
Proof. intros. unfold memcpy. rewrite decide_True by lia. by rewrite Nat2Z.id. Qed.

#[export] Instance cornerturn_1thread_ok b : CornerTurns valid_schedule cornerturn_1thread 1 b 1.
Proof.
  split; [|done]. intros sched tb out N _ _ [Hout Htb Hb Hlen].
  destruct tb as [|t0 tb]; [simpl in Htb; lia|].
  specialize (Hlen 0%nat ltac:(lia)). change (nchan 1) with 1%nat in Hlen.
  rewrite Nat.div_1_r in Hlen. cbn [nth] in Hlen.
  exists (list_inserts 0 (take N t0) out). split; [by apply memcpy_Some|].
  assert (Hl : length (take N t0) = N) by (rewrite length_take; lia).
  split.
  - apply length_inserts.
  - intros p Hp s t Ht. subst s t. change (nchan 1) with 1%nat in *.
    rewrite Nat.mod_1_r, Nat.div_1_r. cbn [nth].
    replace (p / b * b + p mod b)%nat with p by (rewrite Nat.mul_comm; apply Nat.div_mod_eq).
    assert (p / 8 < N)%nat by (apply Nat.Div0.div_lt_upper_bound; lia).
    unfold bit_at. rewrite !nth_lookup, list_lookup_inserts by lia.
    rewrite Nat.sub_0_r, lookup_take_lt by lia. done.
  - intros p Hp. apply list_lookup_inserts_ge. lia.
  - intros Ho. inversion Hb; subst. apply Forall_lookup. intros i x Hx.
    apply list_lookup_inserts_Some in Hx as [[_ Hx]|(_ & _ & Hx)].
    + by eapply Forall_lookup in Hx.
    + apply lookup_take_Some in Hx as [Hx _]. eapply Forall_lookup in Hx; done.
Qed.

(** The blocks of the pairs [(t, i)] are the samples of iteration [i]. *)
Lemma blocks_single c nt tb i :
  Forall (move_ok c tb) ((fun t => (t, i)) <$> seq 0 nt) ->
  Forall (move_ok c tb) ((fun t => (t, i)) <$> seq 0 nt) /\
  concat (move_val c tb <$> ((fun t => (t, i)) <$> seq 0 nt)) = word_chunk c nt tb i.
Proof. done. Qed.

Definition pairs2 (nt i : nat) : list (nat * nat) :=
  concat ((fun t => [(t, i); (t, S i)]) <$> seq 0 nt).

(** Two 8-byte moves of a thread make a 16-byte sample. *)
Lemma blocks_double nt tb i :
  Forall (move_ok 16 tb) ((fun t => (t, i)) <$> seq 0 nt) ->
  Forall (move_ok 8 tb) (pairs2 nt (2 * i)) /\
  concat (move_val 8 tb <$> pairs2 nt (2 * i)) = word_chunk 16 nt tb i.
Proof.
  unfold pairs2, word_chunk. generalize (seq 0 nt). intros l Hl.
  induction l as [|t l IH]; [done|].
  rewrite !fmap_cons in Hl. inversion Hl as [|? ? [H1 H2] Hl']; subst. cbn [fst snd] in *.
  destruct (IH Hl') as [IH1 IH2]. rewrite !fmap_cons. cbn [concat app]. split.
  - constructor; [|constructor; [|done]]; (split; cbn [fst snd]; lia).
  - rewrite !fmap_cons. cbn [concat]. rewrite IH2, app_assoc. f_equal.
    unfold move_val, slice. cbn [fst snd].
    replace (8 * (2 * i))%nat with (16 * i)%nat by lia.
    replace (8 * S (2 * i))%nat with (16 * i + 8)%nat by lia.
    rewrite <-drop_drop.
    change 16%nat with (8 + 8)%nat at 3. by rewrite <-take_take_drop.
Qed.

Lemma by2_ptr n out body :
  for_by2_ptr (2 * n) out body = par_for_ptr sequential n out (fun i => body (2 * i)%nat).
Proof.
  unfold for_by2_ptr, par_for_ptr, evens, sequential. rewrite run_iters_fmap.
  replace ((2 * n + 1) / 2)%nat with n; [done|].
  rewrite Nat.mul_comm, Nat.div_add_l by lia. simpl. lia.
Qed.

(** [moves_turner] for a loop that advances the output pointer by [a] words. *)
Lemma moves_ptr_turner ct nt c w a (pairs : nat -> list (nat * nat))
    (body : list buffer -> nat -> buffer * nat -> option (buffer * nat)) :
  (0 < c)%nat -> (0 < w)%nat ->
  (forall sched out tb n, ct sched out tb (Z.of_nat (c * nchan nt * n)) =
     par_for_ptr sequential n out (body tb)) ->
  (forall tb i o p, body tb i (o, p) = o' ← moves w tb o p (pairs i); Some (o', p + a)%nat) ->
  (w * a = c * nchan nt)%nat -> (forall i, w * length (pairs i) = c * nt)%nat ->
  (forall tb i, Forall (move_ok c tb) ((fun t => (t, i)) <$> seq 0 nt) ->
     Forall (move_ok w tb) (pairs i) /\
     concat (move_val w tb <$> pairs i) = word_chunk c nt tb i) ->
  CornerTurns valid_schedule ct nt (8 * c) (c * nchan nt).
Proof.
  intros Hc Hw Hct Hbody Ha Hpairs Hblocks.
  apply (moves_turner ct nt c w _ (Nat.mul a) pairs
    (fun tb i o => moves w tb o (a * i) (pairs i))%nat Hc Hw eq_refl); auto.
  - intros sched out tb n. rewrite Hct.
    by rewrite (par_for_ptr_seq _ _ a _ (fun i p o => moves w tb o p (pairs i))) by auto.
  - intros i. by rewrite Nat.mul_assoc, Ha.
Qed.

(** Turners of [8 * c]-bit samples that move one word per thread. *)
Ltac move_corner c :=
  lazymatch goal with
  | |- CornerTurns ?S ?ct ?nt ?b _ =>
      change (CornerTurns S ct nt (8 * c) (c * nchan nt)%nat);
      first
      [ eapply (moves_turner ct nt c c);
        [lia | lia | reflexivity
        | intros sched out tb n; unfold ct; cbv zeta;
          rewrite cdiv_nat by (reflexivity || (vm_compute; lia)); reflexivity
        | intros; reflexivity | intros; cbn; lia | intros; reflexivity
        | intros tb i; apply (blocks_single c nt tb i) ]
      | eapply (moves_ptr_turner ct nt c c);
        [lia | lia
        | intros sched out tb n; unfold ct; cbv zeta;
          rewrite cdiv_nat by (reflexivity || (vm_compute; lia)); reflexivity
        | intros; reflexivity | reflexivity | intros; reflexivity
        | intros tb i; apply (blocks_single c nt tb i) ] ]
  end.

(** Turners that move two 8-byte words per thread. *)
Ltac move2_corner :=
  lazymatch goal with
  | |- CornerTurns ?S ?ct ?nt ?b ?g =>
      change (CornerTurns S ct nt (8 * 16) (16 * nchan nt)%nat);
      eapply (moves_ptr_turner ct nt 16 8 _ (fun i => pairs2 nt (2 * i)));
      [lia | lia
      | intros sched out tb n; unfold ct; cbv zeta;
        replace (16 * nchan nt * n)%nat with (8 * nchan nt * (2 * n))%nat by lia;
        rewrite cdiv_nat by (reflexivity || (vm_compute; lia));
        rewrite by2_ptr; reflexivity
      | intros; reflexivity | reflexivity | intros; reflexivity
      | intros tb i; apply (blocks_double nt tb i) ]
  end.

#[export] Instance cornerturn_2thread_8bit_ok :
  CornerTurns valid_schedule cornerturn_2thread_8bit 2 8 2.
Proof. move_corner 1%nat. Qed.

#[export] Instance cornerturn_3thread_8bit_ok :
  CornerTurns valid_schedule cornerturn_3thread_8bit 3 8 4.
Proof. move_corner 1%nat. Qed.

#[export] Instance cornerturn_4thread_8bit_ok :
  CornerTurns valid_schedule cornerturn_4thread_8bit 4 8 4.
Proof. move_corner 1%nat. Qed.

#[export] Instance cornerturn_5thread_8bit_ok :
  CornerTurns valid_schedule cornerturn_5thread_8bit 5 8 8.
Proof. move_corner 1%nat. Qed.

#[export] Instance cornerturn_6thread_8bit_ok :
  CornerTurns valid_schedule cornerturn_6thread_8bit 6 8 8.
Proof. move_corner 1%nat. Qed.

#[export] Instance cornerturn_7thread_8bit_ok :
  CornerTurns valid_schedule cornerturn_7thread_8bit 7 8 8.
Proof. move_corner 1%nat. Qed.

#[export] Instance cornerturn_8thread_8bit_ok :
  CornerTurns valid_schedule cornerturn_8thread_8bit 8 8 8.
Proof. move_corner 1%nat. Qed.

#[export] Instance cornerturn_10thread_8bit_ok :
  CornerTurns valid_schedule cornerturn_10thread_8bit 10 8 16.
Proof. move_corner 1%nat. Qed.

#[export] Instance cornerturn_12thread_8bit_ok :
  CornerTurns valid_schedule cornerturn_12thread_8bit 12 8 16.
Proof. move_corner 1%nat. Qed.

#[export] Instance cornerturn_14thread_8bit_ok :
  CornerTurns valid_schedule cornerturn_14thread_8bit 14 8 16.
Proof. move_corner 1%nat. Qed.

#[export] Instance cornerturn_16thread_8bit_ok :
  CornerTurns valid_schedule cornerturn_16thread_8bit 16 8 16.
Proof. move_corner 1%nat. Qed.

#[export] Instance cornerturn_32thread_8bit_ok :
  CornerTurns valid_schedule cornerturn_32thread_8bit 32 8 32.
Proof. move_corner 1%nat. Qed.

#[export] Instance cornerturn_64thread_8bit_ok :
  CornerTurns valid_schedule cornerturn_64thread_8bit 64 8 64.
Proof. move_corner 1%nat. Qed.

#[export] Instance cornerturn_2thread_16bit_ok :
  CornerTurns valid_schedule cornerturn_2thread_16bit 2 16 4.
Proof. move_corner 2%nat. Qed.

#[export] Instance cornerturn_4thread_16bit_ok :
  CornerTurns valid_schedule cornerturn_4thread_16bit 4 16 8.
Proof. move_corner 2%nat. Qed.

#[export] Instance cornerturn_8thread_16bit_ok :
  CornerTurns valid_schedule cornerturn_8thread_16bit 8 16 16.
Proof. move_corner 2%nat. Qed.

#[export] Instance cornerturn_16thread_16bit_ok :
  CornerTurns valid_schedule cornerturn_16thread_16bit 16 16 32.
Proof. move_corner 2%nat. Qed.

#[export] Instance cornerturn_32thread_16bit_ok :
  CornerTurns valid_schedule cornerturn_32thread_16bit 32 16 64.
Proof. move_corner 2%nat. Qed.

#[export] Instance cornerturn_64thread_16bit_ok :
  CornerTurns valid_schedule cornerturn_64thread_16bit 64 16 128.
Proof. move_corner 2%nat. Qed.

#[export] Instance cornerturn_2thread_32bit_ok :
  CornerTurns valid_schedule cornerturn_2thread_32bit 2 32 8.
Proof. move_corner 4%nat. Qed.

#[export] Instance cornerturn_4thread_32bit_ok :
  CornerTurns valid_schedule cornerturn_4thread_32bit 4 32 16.
Proof. move_corner 4%nat. Qed.

#[export] Instance cornerturn_8thread_32bit_ok :
  CornerTurns valid_schedule cornerturn_8thread_32bit 8 32 32.
Proof. move_corner 4%nat. Qed.

#[export] Instance cornerturn_16thread_32bit_ok :
  CornerTurns valid_schedule cornerturn_16thread_32bit 16 32 64.
Proof. move_corner 4%nat. Qed.

#[export] Instance cornerturn_32thread_32bit_ok :
  CornerTurns valid_schedule cornerturn_32thread_32bit 32 32 128.
Proof. move_corner 4%nat. Qed.

#[export] Instance cornerturn_64thread_32bit_ok :
  CornerTurns valid_schedule cornerturn_64thread_32bit 64 32 256.
Proof. move_corner 4%nat. Qed.

#[export] Instance cornerturn_2thread_64bit_ok :
  CornerTurns valid_schedule cornerturn_2thread_64bit 2 64 16.
Proof. move_corner 8%nat. Qed.

#[export] Instance cornerturn_4thread_64bit_ok :
  CornerTurns valid_schedule cornerturn_4thread_64bit 4 64 32.
Proof. move_corner 8%nat. Qed.

#[export] Instance cornerturn_8thread_64bit_ok :
  CornerTurns valid_schedule cornerturn_8thread_64bit 8 64 64.
Proof. move_corner 8%nat. Qed.

#[export] Instance cornerturn_16thread_64bit_ok :
  CornerTurns valid_schedule cornerturn_16thread_64bit 16 64 128.
Proof. move_corner 8%nat. Qed.

#[export] Instance cornerturn_32thread_64bit_ok :
  CornerTurns valid_schedule cornerturn_32thread_64bit 32 64 256.
Proof. move_corner 8%nat. Qed.

#[export] Instance cornerturn_64thread_64bit_ok :
  CornerTurns valid_schedule cornerturn_64thread_64bit 64 64 512.
Proof. move_corner 8%nat. Qed.

#[export] Instance cornerturn_2thread_128bit_ok :
  CornerTurns valid_schedule cornerturn_2thread_128bit 2 128 32.
Proof. move2_corner. Qed.

#[export] Instance cornerturn_4thread_128bit_ok :
  CornerTurns valid_schedule cornerturn_4thread_128bit 4 128 64.
Proof. move2_corner. Qed.

#[export] Instance cornerturn_8thread_128bit_ok :
  CornerTurns valid_schedule cornerturn_8thread_128bit 8 128 128.
Proof. move2_corner. Qed.

#[export] Instance cornerturn_16thread_128bit_ok :
  CornerTurns valid_schedule cornerturn_16thread_128bit 16 128 256.
Proof. move2_corner. Qed.

#[export] Instance cornerturn_32thread_128bit_ok :
  CornerTurns valid_schedule cornerturn_32thread_128bit 32 128 512.
Proof. move2_corner. Qed.

#[export] Instance cornerturn_64thread_128bit_ok :
  CornerTurns valid_schedule cornerturn_64thread_128bit 64 128 1024.
Proof. move2_corner. Qed.
