(* ===== verification/CornerTurners.v ===== *)
(** * CornerTurners: the table of corner turners and their self test

    [getCornerTurner] and [testCornerTurn] of [cornerturners.c]: every corner
    turner the table returns keeps the promise of [CornerTurns], and the self
    test counts exactly the samples that are not corner turned. *)
From Stdlib Require Import ZifyNat.
From S2P Require Export CornerSpec CornerTurn1 CornerTurn2 CornerTurn4 CornerTurnWide.
#[local] Open Scope Z_scope.
#[local] Arguments Nat.mul : simpl never.

(** [switch(x) { case k: return f; ... default: return 0; }] *)
Fixpoint switch {A} (x : Z) (cases : list (Z * A)) : option A :=
  match cases with
  | [] => None
  | (k, f) :: cases => if x =? k then Some f else switch x cases
  end.

Lemma switch_Some {A} (P : Z -> A -> Prop) x cases f :
  Forall (fun kf => P kf.1 kf.2) cases -> switch x cases = Some f -> P x f.
Proof.
  induction 1 as [|[k g] cases Hk _ IH]; simpl; [done|].
  destruct (Z.eqb_spec x k) as [->|]; [|done]. by intros [= <-].
Qed.

Lemma switch_is_Some {A} x (cases : list (Z * A)) :
  is_Some (switch x cases) <-> x ∈ cases.*1.
Proof.
  induction cases as [|[k f] cases IH]; cbn.
  - by rewrite is_Some_alt, elem_of_nil.
  - rewrite elem_of_cons. destruct (Z.eqb_spec x k); [naive_solver|]. rewrite IH. naive_solver.
Qed.

(** The null pointer of unsupported cases is [None]. *)
Definition getCornerTurner (SIZEOF_SIZE_T nThread nBit : Z) : option cornerturner :=
  if nThread =? 1 then Some cornerturn_1thread
  else if nBit =? 1 then
    switch nThread
      [(2, cornerturn_2thread_1bit);
       (4, cornerturn_4thread_1bit);
       (8, cornerturn_8thread_1bit);
       (16, cornerturn_16thread_1bit);
       (32, cornerturn_32thread_1bit);
       (64, cornerturn_64thread_1bit);
       (3, cornerturn_3thread_1bit);
       (5, cornerturn_5thread_1bit);
       (6, cornerturn_6thread_1bit);
       (7, cornerturn_7thread_1bit);
       (-2, cornerturn_2thread_1bit_slow)]
  else if nBit =? 2 then
    switch nThread
      [(2, cornerturn_2thread_2bit SIZEOF_SIZE_T);
       (4, cornerturn_4thread_2bit);
       (8, cornerturn_8thread_2bit);
       (16, cornerturn_16thread_2bit);
       (32, cornerturn_32thread_2bit);
       (64, cornerturn_64thread_2bit);
       (3, cornerturn_3thread_2bit);
       (5, cornerturn_5thread_2bit);
       (6, cornerturn_6thread_2bit);
       (7, cornerturn_7thread_2bit);
       (10, cornerturn_10thread_2bit);
       (12, cornerturn_12thread_2bit);
       (14, cornerturn_14thread_2bit);
       (-2, cornerturn_2thread_2bit_slow SIZEOF_SIZE_T)]
  else if nBit =? 4 then
    switch nThread
      [(2, cornerturn_2thread_4bit);
       (4, cornerturn_4thread_4bit);
       (8, cornerturn_8thread_4bit);
       (16, cornerturn_16thread_4bit);
       (32, cornerturn_32thread_4bit);
       (64, cornerturn_64thread_4bit);
       (3, cornerturn_3thread_4bit);
       (5, cornerturn_5thread_4bit);
       (6, cornerturn_6thread_4bit);
       (7, cornerturn_7thread_4bit)]
  else if nBit =? 8 then
    switch nThread
      [(2, cornerturn_2thread_8bit);
       (4, cornerturn_4thread_8bit);
       (8, cornerturn_8thread_8bit);
       (16, cornerturn_16thread_8bit);
       (32, cornerturn_32thread_8bit);
       (64, cornerturn_64thread_8bit);
       (3, cornerturn_3thread_8bit);
       (5, cornerturn_5thread_8bit);
       (6, cornerturn_6thread_8bit);
       (7, cornerturn_7thread_8bit);
       (10, cornerturn_10thread_8bit);
       (12, cornerturn_12thread_8bit);
       (14, cornerturn_14thread_8bit)]
  else if nBit =? 16 then
    switch nThread
      [(2, cornerturn_2thread_16bit);
       (4, cornerturn_4thread_16bit);
       (8, cornerturn_8thread_16bit);
       (16, cornerturn_16thread_16bit);
       (32, cornerturn_32thread_16bit);
       (64, cornerturn_64thread_16bit)]
  else if nBit =? 32 then
    switch nThread
      [(2, cornerturn_2thread_32bit);
       (4, cornerturn_4thread_32bit);
       (8, cornerturn_8thread_32bit);
       (16, cornerturn_16thread_32bit);
       (32, cornerturn_32thread_32bit);
       (64, cornerturn_64thread_32bit)]
  else if nBit =? 64 then
    switch nThread
      [(2, cornerturn_2thread_64bit);
       (4, cornerturn_4thread_64bit);
       (8, cornerturn_8thread_64bit);
       (16, cornerturn_16thread_64bit);
       (32, cornerturn_32thread_64bit);
       (64, cornerturn_64thread_64bit)]
  else if nBit =? 128 then
    switch nThread
      [(2, cornerturn_2thread_128bit);
       (4, cornerturn_4thread_128bit);
       (8, cornerturn_8thread_128bit);
       (16, cornerturn_16thread_128bit);
       (32, cornerturn_32thread_128bit);
       (64, cornerturn_64thread_128bit)]
  else None.

(** ** [testCornerTurn] *)

(** [buf[i]] for an [int] index. *)
Definition char_at (buf : buffer) (i : Z) : option Z :=
  if 0 <=? i then buf !! Z.to_nat i else None.

Definition thread_char (threadData : list buffer) (t i : Z) : option Z :=
  if 0 <=? t then buf ← threadData !! Z.to_nat t; char_at buf i else None.

(** One iteration of the loop over samples, for at most 8 bits. *)
Definition test_sample (outputBuffer : buffer) (threadData : list buffer) (nt ut b : Z)
    (s : nat) (nError : Z) : option Z :=
  let s := Z.of_nat s in
  let bitmask := Z.shiftl 1 b - 1 in
  let t := cmod s ut in
  if nt <=? t then Some nError else
  sb ← sint (s * b);
  let outputshift := cmod sb 8 in
  outbyte ← char_at outputBuffer (cdiv sb 8);
  let outputvalue := Z.land (Z.shiftr outbyte outputshift) bitmask in
  let inputsample := cdiv (cdiv sb ut) 8 in
  let inputshift := cdiv (cmod (cdiv sb ut) 8) b * b in
  inbyte ← thread_char threadData t inputsample;
  let inputvalue := Z.land (Z.shiftr inbyte inputshift) bitmask in
  Some (if outputvalue =? inputvalue then nError else nError + 1).

(** One iteration of the loop over bytes, for wider samples; the state is
    [(nError, lastBad)]. *)
Definition test_byte (outputBuffer : buffer) (threadData : list buffer) (ut B : Z)
    (i : nat) (st : Z * Z) : option (Z * Z) :=
  let '(nError, lastBad) := st in
  let i := Z.of_nat i in
  But ← sint (B * ut);
  let t := cmod (cdiv i B) ut in
  let ib := cmod i B in
  let ob := cmod i B in
  let is_ := cdiv i But in
  let os := cdiv i B in
  inputvalue ← thread_char threadData t (B * is_ + ib);
  outputvalue ← char_at outputBuffer (B * os + ob);
  Some (if outputvalue =? inputvalue then (nError, lastBad)
        else if lastBad =? os then (nError, lastBad) else (nError + 1, os)).

Definition testCornerTurn (outputBuffer : buffer) (threadData : list buffer)
    (outputBytes nt b : Z) : option Z :=
  ut ← pow2_loop 31 1 nt;
  if b <=? 8 then
    if b =? 0 then None else
    nBits ← sint (8 * outputBytes);
    let nSample := cdiv nBits b in
    run_iters (test_sample outputBuffer threadData nt ut b) (seq 0 (Z.to_nat nSample)) 0
  else
    let B := cdiv b 8 in
    fst <$> run_iters (test_byte outputBuffer threadData ut B) (seq 0 (Z.to_nat outputBytes))
      (0, -1).

(** ** The table *)

(** Every supported output is written in units of this many bytes. *)
Definition turner_granule (nt b : nat) : nat :=
  (if nt =? 1 then 1 else if b <=? 4 then Nat.max 8 (nchan nt) else b / 8 * nchan nt)%nat.

(** The turners that advance a shared output pointer inside their OpenMP loop. *)
Definition pointer_turner (nThread nBit : Z) : bool :=
  ((nBit =? 1) || (nBit =? 4)) && ((nThread =? 16) || (nThread =? 32) || (nThread =? 64)).

(** The instances below are found by the name of the turner. *)
#[local] Typeclasses Opaque
  cornerturn_2thread_1bit_slow cornerturn_2thread_1bit cornerturn_3thread_1bit
  cornerturn_4thread_1bit cornerturn_5thread_1bit cornerturn_6thread_1bit cornerturn_7thread_1bit
  cornerturn_8thread_1bit cornerturn_16thread_1bit cornerturn_32thread_1bit
  cornerturn_64thread_1bit cornerturn_2thread_2bit_w64 cornerturn_2thread_2bit_w32
  cornerturn_2thread_2bit cornerturn_2thread_2bit_slow cornerturn_3thread_2bit
  cornerturn_4thread_2bit cornerturn_5thread_2bit cornerturn_6thread_2bit cornerturn_7thread_2bit
  cornerturn_8thread_2bit cornerturn_10thread_2bit cornerturn_12thread_2bit
  cornerturn_14thread_2bit cornerturn_16thread_2bit cornerturn_32thread_2bit
  cornerturn_64thread_2bit cornerturn_2thread_4bit cornerturn_3thread_4bit cornerturn_4thread_4bit
  cornerturn_5thread_4bit cornerturn_6thread_4bit cornerturn_7thread_4bit cornerturn_8thread_4bit
  cornerturn_16thread_4bit cornerturn_32thread_4bit cornerturn_64thread_4bit cornerturn_1thread
  cornerturn_2thread_8bit cornerturn_3thread_8bit cornerturn_4thread_8bit cornerturn_5thread_8bit
  cornerturn_6thread_8bit cornerturn_7thread_8bit cornerturn_8thread_8bit cornerturn_10thread_8bit
  cornerturn_12thread_8bit cornerturn_14thread_8bit cornerturn_16thread_8bit
  cornerturn_32thread_8bit cornerturn_64thread_8bit cornerturn_2thread_16bit
  cornerturn_4thread_16bit cornerturn_8thread_16bit cornerturn_16thread_16bit
  cornerturn_32thread_16bit cornerturn_64thread_16bit cornerturn_2thread_32bit
  cornerturn_4thread_32bit cornerturn_8thread_32bit cornerturn_16thread_32bit
  cornerturn_32thread_32bit cornerturn_64thread_32bit cornerturn_2thread_64bit
  cornerturn_4thread_64bit cornerturn_8thread_64bit cornerturn_16thread_64bit
  cornerturn_32thread_64bit cornerturn_64thread_64bit cornerturn_2thread_128bit
  cornerturn_4thread_128bit cornerturn_8thread_128bit cornerturn_16thread_128bit
  cornerturn_32thread_128bit cornerturn_64thread_128bit.

Lemma corner_divide S ct nt b g g' :
  Nat.divide g g' -> CornerTurns S ct nt b g -> CornerTurns S ct nt b g'.
Proof.
  intros Hg [H1 H2]. split; eauto using Nat.divide_trans.
Qed.

#[export] Instance cornerturn_2thread_2bit_ok SZ :
  CornerTurns valid_schedule (cornerturn_2thread_2bit SZ) 2 2 8.
Proof.
  unfold cornerturn_2thread_2bit. case_match; [|apply _].
  eapply corner_divide; [|apply _]. by exists 2%nat.
Qed.

#[export] Instance cornerturn_2thread_2bit_slow_ok SZ :
  CornerTurns valid_schedule (cornerturn_2thread_2bit_slow SZ) 2 2 8.
Proof.
  unfold cornerturn_2thread_2bit_slow. case_match; [apply _|].
  eapply corner_divide; [|apply _]. by exists 2%nat.
Qed.

Ltac turner_case :=
  lazymatch goal with
  | |- CornerTurns ?S ?ct ?nt ?b ?g =>
      let nt := eval vm_compute in nt in let b := eval vm_compute in b in
      let g := eval vm_compute in g in
      change (CornerTurns S ct nt b g);
      eapply corner_divide; [|apply _]; apply Nat.Lcm0.mod_divide; vm_compute; reflexivity
  end.

Lemma getCornerTurner_valid SZ nThread nBit ct :
  getCornerTurner SZ nThread nBit = Some ct -> pointer_turner nThread nBit = false ->
  CornerTurns valid_schedule ct (Z.to_nat (Z.abs nThread)) (Z.to_nat nBit)
    (turner_granule (Z.to_nat (Z.abs nThread)) (Z.to_nat nBit)).
Proof.
  unfold getCornerTurner. intros H.
  destruct (Z.eqb_spec nThread 1) as [->|H1]; [injection H as <-; intros; apply _|].
  repeat match type of H with
  | (if nBit =? ?k then _ else _) = _ => destruct (Z.eqb_spec nBit k) as [->|]
  end; try discriminate;
  pattern nThread, ct; revert H; apply switch_Some;
  repeat first [apply Forall_nil_2 | apply Forall_cons_2]; cbn [fst snd];
  first [discriminate | intros _; turner_case].
Qed.

Lemma getCornerTurner_sequential SZ nThread nBit ct :
  getCornerTurner SZ nThread nBit = Some ct ->
  CornerTurns (eq sequential) ct (Z.to_nat (Z.abs nThread)) (Z.to_nat nBit)
    (turner_granule (Z.to_nat (Z.abs nThread)) (Z.to_nat nBit)).
Proof.
  intros H. destruct (pointer_turner nThread nBit) eqn:Hp.
  - unfold pointer_turner in Hp.
    apply andb_prop in Hp as [Hb Ht]. rewrite !orb_true_iff, !Z.eqb_eq in *.
    destruct Hb as [->| ->], Ht as [[->| ->]| ->]; injection H as <-;
      turner_case.
  - eapply corner_weaken, getCornerTurner_valid; eauto using sequential_valid.
Qed.

(** ** What the self test counts *)

(** Sample [s] of the output belongs to a thread and differs from its input. *)
Definition sample_wrong (nt b : nat) (tb : list buffer) (out : buffer) (s : nat) : bool :=
  (let t := s mod nchan nt in
   (t <? nt) &&
   negb (forallb (fun j => Bool.eqb (bit_at out (s * b + j))
                                    (bit_at (nth t tb []) (s / nchan nt * b + j))) (seq 0 b)))%nat.

Definition n_wrong (nt b : nat) (tb : list buffer) (out : buffer) (n : nat) : nat :=
  length (List.filter (sample_wrong nt b tb out) (seq 0 n)).

Lemma sample_wrong_false nt b tb out s :
  sample_wrong nt b tb out s = false <->
  ((s mod nchan nt < nt) -> forall j, j < b ->
    bit_at out (s * b + j) = bit_at (nth (s mod nchan nt) tb []) (s / nchan nt * b + j))%nat.
Proof.
  unfold sample_wrong. rewrite andb_false_iff, negb_false_iff, Nat.ltb_ge, forallb_forall.
  setoid_rewrite eqb_true_iff. setoid_rewrite in_seq. split.
  - intros [H|H] Ht j Hj; [lia|]. apply H. lia.
  - intros H. destruct (decide (s mod nchan nt < nt)%nat) as [Ht|]; [right|left; lia].
    intros j Hj. apply H; [done|lia].
Qed.

Lemma n_wrong_S nt b tb out n :
  n_wrong nt b tb out (S n) =
  (n_wrong nt b tb out n + if sample_wrong nt b tb out n then 1 else 0)%nat.
Proof.
  unfold n_wrong. rewrite seq_S, List.filter_app, length_app. simpl.
  destruct (sample_wrong nt b tb out n); simpl; lia.
Qed.

Lemma n_wrong_zero nt b tb out n :
  n_wrong nt b tb out n = 0%nat <-> forall s, (s < n)%nat -> sample_wrong nt b tb out s = false.
Proof.
  induction n as [|n IH]; [split; [lia|done]|]. rewrite n_wrong_S. split.
  - intros H s Hs. destruct (sample_wrong nt b tb out n) eqn:E; [lia|].
    destruct (decide (s = n)) as [->|]; [done|]. apply IH; lia.
  - intros H. rewrite (H n) by lia. rewrite (proj2 IH); [done|]. intros; apply H; lia.
Qed.

Lemma corner_turned_n_wrong nt b tb out N n :
  (0 < b)%nat -> (8 * N = b * n)%nat ->
  corner_turned nt b tb out N <-> n_wrong nt b tb out n = 0%nat.
Proof.
  intros Hb HN. rewrite n_wrong_zero. split.
  - intros H s Hs. apply sample_wrong_false. intros Ht j Hj.
    specialize (H (s * b + j)%nat). cbv zeta in H.
    rewrite Nat.div_add_l, (Nat.div_small j), Nat.add_0_r in H by lia.
    rewrite (Nat.add_comm (s * b)), Nat.Div0.mod_add, (Nat.mod_small j) in H by lia.
    rewrite (Nat.add_comm (s * b)). apply H; [nia|done].
  - intros H p Hp s t Ht. subst s t.
    pose proof (Nat.div_mod_eq p b) as Hpb. pose proof (Nat.mod_upper_bound p b ltac:(lia)).
    assert (p / b < n)%nat as Hs by (apply Nat.Div0.div_lt_upper_bound; lia).
    pose proof (proj1 (sample_wrong_false _ _ _ _ _) (H _ Hs) Ht (p mod b)%nat ltac:(lia)) as E.
    rewrite <-E. f_equal. lia.
Qed.

Lemma char_at_nat buf i : (i < length buf)%nat -> char_at buf (Z.of_nat i) = Some (nth i buf 0).
Proof.
  intros H. unfold char_at. rewrite (proj2 (Z.leb_le _ _)), Nat2Z.id by lia.
  rewrite nth_lookup. by apply lookup_lt_is_Some in H as [x ->].
Qed.

Lemma thread_char_nat (tb : list buffer) t i :
  (t < length tb)%nat -> (i < length (nth t tb []))%nat ->
  thread_char tb (Z.of_nat t) (Z.of_nat i) = Some (nth i (nth t tb []) 0).
Proof.
  intros Ht Hi. unfold thread_char. rewrite (proj2 (Z.leb_le _ _)), Nat2Z.id by lia.
  rewrite (nth_lookup tb) in *. destruct (tb !! t) as [buf|] eqn:E; simpl in *; [|lia].
  by apply char_at_nat.
Qed.

Lemma quot_nat a b : cdiv (Z.of_nat a) (Z.of_nat b) = Z.of_nat (a / b).
Proof. destruct b; [by destruct a|]. rewrite Nat2Z.inj_div. apply Z.quot_div_nonneg; lia. Qed.

Lemma rem_nat a b : (b <> 0)%nat -> cmod (Z.of_nat a) (Z.of_nat b) = Z.of_nat (a mod b).
Proof. intros. rewrite Nat2Z.inj_mod. apply Z.rem_mod_nonneg; lia. Qed.

Lemma Nat2Z_inj_log2_up n : Z.of_nat (Nat.log2_up n) = Z.log2_up (Z.of_nat n).
Proof.
  destruct (decide (n <= 1)%nat) as [Hn|Hn].
  - rewrite Nat.log2_up_eqn0, Z.log2_up_eqn0 by lia. done.
  - destruct (Nat.log2_up_spec n) as [H1 H2]; [lia|].
    pose proof (Nat.log2_up_pos n ltac:(lia)).
    symmetry. apply Z.log2_up_unique; [lia|].
    replace (Z.pred (Z.of_nat (Nat.log2_up n))) with (Z.of_nat (Nat.pred (Nat.log2_up n))) by lia.
    change 2 with (Z.of_nat 2). rewrite <-!Nat2Z.inj_pow. lia.
Qed.

Lemma nchan_pow2_loop nt :
  (1 <= nt)%nat -> (Z.of_nat nt <= 2 ^ 30) -> pow2_loop 31 1 (Z.of_nat nt) = Some (Z.of_nat (nchan nt)).
Proof.
  intros H1 H2. change 1 with (2 ^ 0) at 1.
  assert (Z.log2_up (Z.of_nat nt) <= 30) by (apply Z.log2_up_le_pow2; lia).
  rewrite pow2_loop_spec by (pose proof (Z.log2_up_nonneg (Z.of_nat nt)); lia).
  unfold nchan. by rewrite Nat2Z.inj_pow, Nat2Z_inj_log2_up.
Qed.

Lemma int_sample b x sh :
  0 <= sh -> Z.land (Z.shiftr x sh) (Z.shiftl 1 (Z.of_nat b) - 1)
  = Z.shiftr x sh mod 2 ^ Z.of_nat b.
Proof. intros. by rewrite Z.shiftl_1_l, Z.sub_1_r, <-Z.ones_equiv, Z.land_ones by lia. Qed.

Lemma sample_eqb b x y i j :
  (Z.land (Z.shiftr x (Z.of_nat i)) (Z.shiftl 1 (Z.of_nat b) - 1) =?
   Z.land (Z.shiftr y (Z.of_nat j)) (Z.shiftl 1 (Z.of_nat b) - 1)) =
  forallb (fun k => Bool.eqb (Z.testbit x (Z.of_nat (i + k))) (Z.testbit y (Z.of_nat (j + k))))
    (seq 0 b).
Proof.
  rewrite !int_sample by lia. apply eq_true_iff_eq.
  rewrite Z.eqb_eq, forallb_forall. setoid_rewrite in_seq. setoid_rewrite eqb_true_iff. split.
  - intros H k [_ Hk]. apply (f_equal (fun z => Z.testbit z (Z.of_nat k))) in H.
    rewrite !Z.mod_pow2_bits_low, !Z.shiftr_spec in H by lia.
    rewrite !Nat2Z.inj_add, !(Z.add_comm (Z.of_nat _) (Z.of_nat k)). exact H.
  - intros H. apply Z.bits_inj'. intros k Hk. destruct (decide (k < Z.of_nat b)).
    + rewrite !Z.mod_pow2_bits_low, !Z.shiftr_spec by lia.
      specialize (H (Z.to_nat k) ltac:(lia)).
      rewrite !Nat2Z.inj_add, Z2Nat.id, !(Z.add_comm (Z.of_nat _) k) in H by lia. exact H.
    + by rewrite !Z.mod_pow2_bits_high by lia.
Qed.

Lemma split_byte b c q r :
  (c * b = 8 -> r < b -> exists k x, q * b = k * 8 + x /\ x + r < 8 /\ x / b * b = x)%nat.
Proof.
  intros Hc Hr. exists (q / c)%nat, (q mod c * b)%nat.
  assert (0 < c)%nat by lia. pose proof (Nat.mod_upper_bound q c ltac:(lia)).
  split_and!.
  - rewrite (Nat.div_mod_eq q c) at 1. nia.
  - nia.
  - by rewrite Nat.div_mul by lia.
Qed.

(** A sample of at most 8 bits lies inside one byte. *)
Lemma sample_byte b q j buf :
  (0 < b)%nat -> Nat.divide b 8 -> (j < b)%nat ->
  bit_at buf (q * b + j) = Z.testbit (nth (q * b / 8) buf 0) (Z.of_nat (q * b mod 8 + j)).
Proof.
  intros Hb [c Hc] Hj. unfold bit_at.
  destruct (split_byte b c q j) as (k & x & -> & Hx & _); [done..|].
  assert ((k * 8 + x + j) / 8 = k /\ (k * 8 + x + j) mod 8 = x + j /\
          (k * 8 + x) / 8 = k /\ (k * 8 + x) mod 8 = x)%nat as (-> & -> & -> & ->) by lia.
  done.
Qed.

(** The place of the input sample: [s*b/ut], rounded down to a sample. *)
Lemma input_place b u s :
  (0 < b)%nat -> Nat.divide b 8 -> (0 < u)%nat ->
  (s * b / u / 8 = s / u * b / 8 /\ s * b / u mod 8 / b * b = (s / u * b) mod 8)%nat.
Proof.
  intros Hb [c Hc] Hu.
  assert (exists r, r < b /\ s * b / u = s / u * b + r)%nat as (r & Hr & ->).
  { exists (s mod u * b / u)%nat. split.
    - apply Nat.Div0.div_lt_upper_bound. pose proof (Nat.mod_upper_bound s u ltac:(lia)). nia.
    - rewrite (Nat.div_mod_eq s u) at 1. rewrite Nat.mul_add_distr_r.
      replace (u * (s / u) * b)%nat with (s / u * b * u)%nat by lia.
      by rewrite Nat.div_add_l by lia. }
  generalize (s / u)%nat. intros q.
  destruct (split_byte b c q r) as (k & x & -> & Hx & Hxb); [done..|].
  split; [lia|].
  assert ((k * 8 + x + r) mod 8 = x + r /\ (k * 8 + x) mod 8 = x)%nat as [-> ->] by lia.
  rewrite <-Hxb. by rewrite Nat.div_add_l, (Nat.div_small r), Nat.add_0_r by lia.
Qed.

Lemma forallb_ext_in {A} (f g : A -> bool) l :
  (forall x, In x l -> f x = g x) -> forallb f l = forallb g l.
Proof. induction l as [|x l IH]; simpl; intros H; [done|]. rewrite H, IH; auto. Qed.

Lemma bit_at_byte_of (buf : buffer) j k :
  (k < 8)%nat -> bit_at buf (8 * j + k) = Z.testbit (nth j buf 0) (Z.of_nat k).
Proof. intros. unfold bit_at. do 3 f_equal; lia. Qed.

Lemma bytes_eq_bits (x y : buffer) i j :
  bytes_ok x -> bytes_ok y ->
  (forall k, (k < 8)%nat -> bit_at x (8 * i + k) = bit_at y (8 * j + k)) ->
  nth i x 0 = nth j y 0.
Proof.
  intros Hx Hy H. apply (bytes_ok_nth _ i) in Hx. apply (bytes_ok_nth _ j) in Hy.
  unfold is_byte in *.
  apply Z.bits_inj'. intros k Hk. destruct (decide (k < 8)).
  - specialize (H (Z.to_nat k) ltac:(lia)). rewrite !bit_at_byte_of, Z2Nat.id in H by lia. done.
  - rewrite <-(Z.mod_small _ (2 ^ 8)) by lia. rewrite Z.mod_pow2_bits_high by lia.
    rewrite <-(Z.mod_small (nth j y 0) (2 ^ 8)) by lia. by rewrite Z.mod_pow2_bits_high by lia.
Qed.

Section SelfTest.
Context (nt : nat) (tb : list buffer) (out : buffer) (N : nat).
Context (Hnt : (1 <= nt)%nat) (Hu : Nat.divide (nchan nt) N) (Hin : turn_input nt tb out N).

Lemma input_byte_lt b s :
  (0 < b)%nat -> (s * b < 8 * N)%nat -> (s mod nchan nt < nt)%nat -> Nat.divide b 8 ->
  (s * b / 8 < length out)%nat /\
  (s / nchan nt * b / 8 < length (nth (s mod nchan nt) tb []))%nat.
Proof using Hnt Hu Hin.
  intros Hb Hs Ht [c Hc]. destruct Hin as [Hout _ _ Hlen]. specialize (Hlen _ Ht).
  pose proof (nchan_pos nt) as Hpos. split; [lia|]. eapply Nat.lt_le_trans; [|exact Hlen].
  destruct Hu as [m Hm]. rewrite Hm, Nat.div_mul by lia.
  assert (s < m * c * nchan nt)%nat by nia.
  assert (s / nchan nt < m * c)%nat by (apply Nat.Div0.div_lt_upper_bound; lia).
  generalize dependent (s / nchan nt)%nat. intros q Hq. nia.
Qed.

Lemma test_sample_spec b s e :
  (0 < b)%nat -> Nat.divide b 8 -> 8 * Z.of_nat N < 2 ^ 31 -> (s * b < 8 * N)%nat ->
  test_sample out tb (Z.of_nat nt) (Z.of_nat (nchan nt)) (Z.of_nat b) s e =
  Some (e + Z.of_nat (if sample_wrong nt b tb out s then 1 else 0)).
Proof using Hnt Hu Hin.
  intros Hb Hb8 HN Hs. pose proof (nchan_pos nt) as Hpos. unfold test_sample, sample_wrong.
  rewrite rem_nat by lia. destruct (Nat.ltb_spec (s mod nchan nt) nt) as [Ht|Ht].
  - rewrite (proj2 (Z.leb_gt _ _)) by lia. rewrite sint_Some by lia. cbn [mbind option_bind].
    destruct (input_byte_lt b s) as [Ho Hi]; [done..|].
    destruct (input_place b (nchan nt) s) as [E1 E2]; [done..|].
    change 8 with (Z.of_nat 8).
    rewrite <-Nat2Z.inj_mul, !quot_nat, !rem_nat, !quot_nat, <-Nat2Z.inj_mul, E1, E2 by lia.
    rewrite char_at_nat by done. cbn [mbind option_bind].
    rewrite thread_char_nat; [|destruct Hin; lia|done]. cbn [mbind option_bind].
    rewrite sample_eqb. cbn [andb]. f_equal.
    rewrite (forallb_ext_in _ (fun j => Bool.eqb (bit_at out (s * b + j))
      (bit_at (nth (s mod nchan nt) tb []) (s / nchan nt * b + j)))%nat).
    + destruct (forallb _ _); simpl; lia.
    + intros j Hj%in_seq. by rewrite !sample_byte by (done || lia).
  - rewrite (proj2 (Z.leb_le _ _)) by lia. simpl. f_equal. lia.
Qed.

Lemma test_samples_run b n :
  (0 < b)%nat -> Nat.divide b 8 -> 8 * Z.of_nat N < 2 ^ 31 -> (n * b <= 8 * N)%nat ->
  run_iters (test_sample out tb (Z.of_nat nt) (Z.of_nat (nchan nt)) (Z.of_nat b)) (seq 0 n) 0
  = Some (Z.of_nat (n_wrong nt b tb out n)).
Proof using Hnt Hu Hin.
  intros Hb Hb8 HN. induction n as [|n IH]; intros Hn; [done|].
  rewrite seq_S, run_iters_app, IH, n_wrong_S by lia. cbn [run_iters mbind option_bind].
  rewrite test_sample_spec by (done || nia). cbn. f_equal. lia.
Qed.

(** *** Wide samples *)

Context (B : nat) (HB : (0 < B)%nat) (Hfull : nchan nt = nt) (Hout : bytes_ok out).
Context (HBu : Z.of_nat (B * nt) < 2 ^ 31) (HBN : Nat.divide (B * nt) N).

Definition byte_wrong (s j : nat) : bool :=
  negb (nth (B * s + j) out 0 =? nth (B * (s / nt) + j) (nth (s mod nt) tb []) 0).

Lemma sample_wrong_bytes s :
  sample_wrong nt (8 * B) tb out s = existsb (byte_wrong s) (seq 0 B).
Proof using Hnt Hin HB Hfull HBu HBN Hout.
  destruct (existsb (byte_wrong s) (seq 0 B)) eqn:E.
  - apply existsb_exists in E as (j & Hj%in_seq & Hw). apply not_false_iff_true. intros Hok.
    rewrite sample_wrong_false, Hfull in Hok.
    specialize (Hok (Nat.mod_upper_bound s nt ltac:(lia))).
    unfold byte_wrong in Hw. apply negb_true_iff, Z.eqb_neq in Hw. apply Hw.
    apply bytes_eq_bits; [done|by apply tb_nth_bytes, Hin|].
    intros k Hk. specialize (Hok (8 * j + k)%nat ltac:(lia)).
    by replace (8 * (B * s + j) + k)%nat with (s * (8 * B) + (8 * j + k))%nat by lia;
    replace (8 * (B * (s / nt) + j) + k)%nat with (s / nt * (8 * B) + (8 * j + k))%nat by lia.
  - apply sample_wrong_false. rewrite Hfull. intros Ht k Hk.
    assert (Hw : byte_wrong s (k / 8) = false).
    { apply not_true_iff_false. intros Hw. apply not_true_iff_false in E. apply E.
      apply existsb_exists. exists (k / 8)%nat. split; [|done]. apply in_seq. lia. }
    unfold byte_wrong in Hw. apply negb_false_iff, Z.eqb_eq in Hw.
    assert (Hk8 : forall q, (q * (8 * B) + k = 8 * (B * q + k / 8) + k mod 8)%nat) by lia.
    rewrite !Hk8, !bit_at_byte_of, Hw by lia. done.
Qed.

Definition byte_step (s j : nat) (st : Z * Z) : Z * Z :=
  let '(e, lb) := st in
  if byte_wrong s j then if lb =? Z.of_nat s then (e, lb) else (e + 1, Z.of_nat s) else (e, lb).

Lemma test_byte_spec s j st :
  (j < B)%nat -> (B * s + B <= N)%nat -> Z.of_nat N < 2 ^ 31 ->
  test_byte out tb (Z.of_nat nt) (Z.of_nat B) (B * s + j) st = Some (byte_step s j st).
Proof using Hnt Hin HB Hfull HBu HBN Hout.
  intros Hj Hs HN. destruct st as [e lb]. unfold test_byte.
  rewrite <-Nat2Z.inj_mul, sint_Some by lia. cbn [mbind option_bind].
  assert (E1 : ((B * s + j) / B = s)%nat).
  { rewrite (Nat.mul_comm B), Nat.div_add_l, Nat.div_small; lia. }
  assert (E2 : ((B * s + j) mod B = j)%nat).
  { rewrite Nat.add_comm, (Nat.mul_comm B), Nat.Div0.mod_add, Nat.mod_small; lia. }
  rewrite !quot_nat, !rem_nat, <-Nat.Div0.div_div, E1, E2 by lia.
  rewrite <-!Nat2Z.inj_mul, <-!Nat2Z.inj_add.
  pose proof (Nat.mod_upper_bound s nt ltac:(lia)) as Ht.
  destruct Hin as [Ho Htl _ Hlen]. specialize (Hlen _ Ht). rewrite Hfull in Hlen.
  assert (B * (s / nt) + j < N / nt)%nat.
  { destruct HBN as [m Hm]. assert (s < nt * m)%nat by nia.
    assert (s / nt < m)%nat by (apply Nat.Div0.div_lt_upper_bound; lia).
    replace (N / nt)%nat with (B * m)%nat; [nia|].
    rewrite Hm, Nat.mul_assoc, Nat.div_mul; lia. }
  rewrite thread_char_nat by lia. cbn [mbind option_bind].
  rewrite char_at_nat by lia. cbn [mbind option_bind].
  unfold byte_step, byte_wrong. destruct (_ =? _); done.
Qed.

Lemma test_sample_bytes s k e lb :
  (k <= B)%nat -> (B * s + B <= N)%nat -> Z.of_nat N < 2 ^ 31 -> lb < Z.of_nat s ->
  run_iters (test_byte out tb (Z.of_nat nt) (Z.of_nat B)) (seq (B * s) k) (e, lb) =
  Some (if existsb (byte_wrong s) (seq 0 k) then (e + 1, Z.of_nat s) else (e, lb)).
Proof using Hnt Hin HB Hfull HBu HBN Hout.
  intros Hk Hs HN Hlb. induction k as [|k IH]; [done|].
  rewrite !seq_S, run_iters_app, IH, existsb_app by lia. cbn [mbind option_bind run_iters].
  rewrite test_byte_spec by lia. cbn [mbind option_bind existsb]. f_equal.
  rewrite orb_false_r. unfold byte_step. simpl (0 + k)%nat.
  destruct (existsb _ _), (byte_wrong s k); cbn [orb]; rewrite ?Z.eqb_refl; try done.
  by rewrite (proj2 (Z.eqb_neq _ _)) by lia.
Qed.

Lemma test_bytes_run n :
  (B * n <= N)%nat -> Z.of_nat N < 2 ^ 31 ->
  exists lb, run_iters (test_byte out tb (Z.of_nat nt) (Z.of_nat B)) (seq 0 (B * n)) (0, -1) =
    Some (Z.of_nat (n_wrong nt (8 * B) tb out n), lb) /\ lb < Z.of_nat n.
Proof using Hnt Hin HB Hfull HBu HBN Hout.
  intros Hn HN. induction n as [|n IH].
  - exists (-1). rewrite Nat.mul_0_r. split; [done|lia].
  - destruct IH as (lb & E & Hlb); [lia|].
    rewrite Nat.mul_succ_r, seq_app, run_iters_app, E. cbn [mbind option_bind].
    rewrite Nat.add_0_l, test_sample_bytes, n_wrong_S, sample_wrong_bytes by lia.
    destruct (existsb _ _); eexists; (split; [do 2 f_equal; lia|lia]).
Qed.
End SelfTest.

(** The self test returns the number of samples that are not corner turned. *)
Lemma testCornerTurn_narrow nt b tb out N :
  (1 <= nt)%nat -> Z.of_nat nt <= 2 ^ 30 -> (0 < b)%nat -> Nat.divide b 8 ->
  8 * Z.of_nat N < 2 ^ 31 -> Nat.divide (nchan nt) N -> turn_input nt tb out N ->
  testCornerTurn out tb (Z.of_nat N) (Z.of_nat nt) (Z.of_nat b) =
  Some (Z.of_nat (n_wrong nt b tb out (8 * N / b))).
Proof.
  intros Hnt Hnt' Hb Hb8 HN Hu Hin. unfold testCornerTurn.
  assert (b <= 8)%nat by (apply Nat.divide_pos_le; [lia|done]).
  rewrite nchan_pow2_loop by done. cbn [mbind option_bind].
  rewrite (proj2 (Z.leb_le _ _)), (proj2 (Z.eqb_neq _ _)), sint_Some by lia.
  cbn [mbind option_bind].
  replace (8 * Z.of_nat N) with (Z.of_nat (8 * N)) by lia. rewrite quot_nat, Nat2Z.id.
  apply test_samples_run with (N := N); try done.
  rewrite Nat.mul_comm. apply Nat.Div0.mul_div_le.
Qed.

Lemma testCornerTurn_wide nt B tb out N :
  (1 <= nt)%nat -> nchan nt = nt -> Z.of_nat nt <= 2 ^ 30 -> (1 < B)%nat ->
  Z.of_nat (B * nt) < 2 ^ 31 -> Z.of_nat N < 2 ^ 31 -> Nat.divide (B * nt) N ->
  bytes_ok out -> turn_input nt tb out N ->
  testCornerTurn out tb (Z.of_nat N) (Z.of_nat nt) (Z.of_nat (8 * B)) =
  Some (Z.of_nat (n_wrong nt (8 * B) tb out (8 * N / (8 * B)))).
Proof.
  intros Hnt Hfull Hnt' HB HBu HN HBN Hout Hin. unfold testCornerTurn.
  rewrite nchan_pow2_loop by done. cbn [mbind option_bind].
  rewrite (proj2 (Z.leb_gt _ _)) by lia. rewrite Nat2Z.id, Hfull.
  change 8 with (Z.of_nat 8). rewrite quot_nat, (Nat.mul_comm 8), Nat.div_mul by lia.
  rewrite (Nat.mul_comm B 8).
  assert (exists n, N = (B * n)%nat) as [n ->].
  { destruct HBN as [m ->]. exists (nt * m)%nat. lia. }
  replace (8 * (B * n) / (8 * B))%nat with n.
  2: { rewrite Nat.mul_assoc, (Nat.mul_comm (8 * B)), Nat.div_mul; lia. }
  destruct (test_bytes_run nt tb out (B * n) Hnt Hin B ltac:(lia) Hfull Hout HBu HBN n)
    as (lb & -> & _); [lia|done|done].
Qed.

(** ** [testvdifcornerturners] *)

Definition test_bits : list Z := [1; 2; 4; 8; 16; 32; 64; 128].
Definition maxThreads : nat := 64.

(** [-maxThreads .. maxThreads] *)
Definition test_threads : list Z :=
  (fun k => Z.of_nat k - Z.of_nat maxThreads) <$> seq 0 (2 * maxThreads + 1).

(** The body of the two loops: the report lists the printed [(b, nt, nError)]. *)
Definition test_turner (SIZEOF_SIZE_T : Z) (threadData : list buffer) (outputBytes : Z) (nTest : nat)
    (bnt : Z * Z) (st : buffer * list (Z * Z * Z)) : option (buffer * list (Z * Z * Z)) :=
  let '(b, nt) := bnt in
  let '(outputBuffer, report) := st in
  match getCornerTurner SIZEOF_SIZE_T nt b with
  | None => Some st
  | Some cornerTurner =>
      outputBuffer' ← run_iters (fun (_ : nat) o => cornerTurner sequential o threadData outputBytes)
                        (seq 0 nTest) outputBuffer;
      nError ← testCornerTurn outputBuffer' threadData outputBytes (Z.abs nt) b;
      Some (outputBuffer', report ++ [(b, nt, nError)])
  end.

(** [threadData] is what was read from the random device, [outputBuffer] the
    uninitialised allocation. *)
Definition testvdifcornerturners (SIZEOF_SIZE_T : Z) (threadData : list buffer)
    (outputBuffer : buffer) (outputBytes : Z) (nTest : nat) : option (list (Z * Z * Z)) :=
  snd <$> run_iters (test_turner SIZEOF_SIZE_T threadData outputBytes nTest)
            (list_prod test_bits test_threads) (outputBuffer, []).

Definition supported (nThread nBit : Z) : bool :=
  (nThread =? 1)
  || bool_decide (nThread ∈ [2; 4; 8; 16; 32; 64]) && bool_decide (nBit ∈ test_bits)
  || bool_decide (nThread ∈ [3; 5; 6; 7]) && bool_decide (nBit ∈ [1; 2; 4; 8])
  || bool_decide (nThread ∈ [10; 12; 14]) && bool_decide (nBit ∈ [2; 8])
  || (nThread =? -2) && bool_decide (nBit ∈ [1; 2]).

Lemma supported_is_Some SZ nThread nBit :
  is_Some (getCornerTurner SZ nThread nBit) <-> supported nThread nBit = true.
Proof.
  unfold getCornerTurner, supported, test_bits.
  rewrite !orb_true_iff, !andb_true_iff, !bool_decide_eq_true, !Z.eqb_eq.
  destruct (Z.eqb_spec nThread 1) as [->|H1]; [naive_solver|].
  repeat match goal with
  | |- context [nBit =? ?k] => destruct (Z.eqb_spec nBit k) as [->|]
  end; rewrite ?switch_is_Some, ?is_Some_alt; cbn [fmap list_fmap fst];
  rewrite ?elem_of_cons, ?elem_of_nil; lia.
Qed.

(** What the loops over [test_bits] and [test_threads] meet. *)
Definition test_case_ok (b nt : Z) : bool :=
  let n := Z.to_nat (Z.abs nt) in let w := Z.to_nat b in
  negb (supported nt b) ||
  ((1 <=? n) && (n <=? 64) && (1024 mod turner_granule n w =? 0) && (1024 mod nchan n =? 0) &&
   (0 <? w) && ((8 mod w =? 0) || (nchan n =? n) && (w mod 8 =? 0) && (8 <? w) && (w <=? 128) &&
   (1024 mod (w / 8 * n) =? 0)))%nat.

Lemma test_cases_ok : forallb (fun p => test_case_ok p.1 p.2) (list_prod test_bits test_threads) = true.
Proof. vm_compute. reflexivity. Qed.

Lemma testCornerTurn_zero nt b tb out N :
  (1 <= nt <= 64)%nat -> Nat.divide (nchan nt) 1024 -> (0 < b)%nat ->
  Nat.divide b 8 \/ nchan nt = nt /\ Nat.divide 8 b /\ (8 < b <= 128)%nat /\
    Nat.divide (b / 8 * nt) 1024 ->
  8 * Z.of_nat N < 2 ^ 31 -> Nat.divide 1024 N -> bytes_ok out ->
  turn_input nt tb out N -> corner_turned nt b tb out N ->
  testCornerTurn out tb (Z.of_nat N) (Z.of_nat nt) (Z.of_nat b) = Some 0.
Proof.
  intros Hnt Hu Hb0 Hb HN H1024 Hout Hin Hct. destruct Hb as [Hb8|(Hfull & [B ->] & HB & Hd)].
  - rewrite testCornerTurn_narrow by (done || lia || by eapply Nat.divide_trans).
    do 2 f_equal. change 0 with (Z.of_nat 0). f_equal.
    apply (corner_turned_n_wrong nt b tb out N); [done| |done].
    destruct Hb8 as [c ->].
    replace (c * b * N)%nat with (c * N * b)%nat by lia. rewrite Nat.div_mul; lia.
  - rewrite Nat.div_mul in Hd by lia. rewrite (Nat.mul_comm B 8) in *.
    assert (HBN : Nat.divide (B * nt) N) by (by eapply Nat.divide_trans).
    rewrite testCornerTurn_wide by (done || nia).
    f_equal. change 0 with (Z.of_nat 0). f_equal.
    apply (corner_turned_n_wrong nt (8 * B) tb out N); [lia| |done].
    destruct HBN as [m ->]. replace (8 * (m * (B * nt)))%nat with (m * nt * (8 * B))%nat by lia.
    rewrite Nat.div_mul; lia.
Qed.

Section SelfTestLoop.
Context (SZ : Z) (tb : list buffer) (N : nat) (nTest : nat).
Context (Htb : length tb = maxThreads) (Hlen : Forall (fun t => length t = N) tb).
Context (Hbytes : Forall bytes_ok tb) (HN : 8 * Z.of_nat N < 2 ^ 31) (Hdiv : Nat.divide 1024 N).

Definition out_ok (out : buffer) : Prop := length out = N /\ bytes_ok out.

Lemma test_input nt out : (nt <= 64)%nat -> out_ok out -> turn_input nt tb out N.
Proof using Htb Hlen Hbytes.
  intros Hnt [Ho _]. unfold maxThreads in Htb. split; [lia|lia|done|].
  intros t Ht. destruct (lookup_lt_is_Some_2 tb t) as [x Hx]; [lia|].
  rewrite nth_lookup, Hx. simpl. eapply Forall_lookup in Hx; [|exact Hlen]. simpl in Hx.
  rewrite Hx. apply Nat.Div0.div_le_upper_bound. pose proof (nchan_pos nt). nia.
Qed.

Lemma repeat_turn ct nt b g k n out :
  CornerTurns (eq sequential) ct nt b g -> Nat.divide g N -> (nt <= 64)%nat -> out_ok out ->
  exists out', run_iters (fun (_ : nat) o => ct sequential o tb (Z.of_nat N)) (seq k (S n)) out
    = Some out' /\ out_ok out' /\ corner_turned nt b tb out' N.
Proof using Htb Hlen Hbytes.
  intros Hct Hg Hnt. revert k out. induction n as [|n IH]; intros k out Hout;
    (destruct (ct_turns sequential tb out N eq_refl Hg (test_input nt out Hnt Hout))
      as (o & E & [Hl Hc _ Hb]);
     assert (Ho : out_ok o) by (destruct Hout; split; [congruence|auto])).
  - exists o. cbn [seq run_iters]. by rewrite E.
  - destruct (IH (S k) o Ho) as (out' & E' & H'). exists out'.
    change (seq k (S (S n))) with (k :: seq (S k) (S n)). cbn [run_iters]. by rewrite E.
Qed.

Lemma test_turner_spec b nt out rep :
  In (b, nt) (list_prod test_bits test_threads) -> (0 < nTest)%nat -> out_ok out ->
  exists out', out_ok out' /\
    test_turner SZ tb (Z.of_nat N) nTest (b, nt) (out, rep) =
    Some (out', rep ++ if supported nt b then [(b, nt, 0)] else []).
Proof using Htb Hlen Hbytes HN Hdiv.
  intros Hin HT Hout. pose proof (proj1 (forallb_forall _ _) test_cases_ok _ Hin) as Hok.
  cbn [fst snd] in Hok. unfold test_case_ok, test_turner in *.
  destruct (getCornerTurner SZ nt b) as [ct|] eqn:Ect; swap 1 2.
  { exists out. split; [done|]. destruct (supported nt b) eqn:Es.
    - apply (supported_is_Some SZ) in Es as [? ?]. congruence.
    - by rewrite app_nil_r. }
  assert (Es : supported nt b = true) by (apply (supported_is_Some SZ); eauto).
  rewrite Es in *. cbn [negb orb] in Hok.
  rewrite !andb_true_iff, orb_true_iff, !andb_true_iff, !Nat.leb_le, !Nat.ltb_lt,
    !Nat.eqb_eq, !Nat.Lcm0.mod_divide in Hok.
  destruct Hok as (((((H1 & H2) & H3) & H4) & H5) & H6).
  destruct nTest as [|n]; [lia|].
  destruct (repeat_turn ct _ _ _ 0 n out (getCornerTurner_sequential _ _ _ _ Ect))
    as (out' & E & Ho & Hc); [by eapply Nat.divide_trans|done|done|].
  exists out'. split; [done|]. rewrite E. cbn [mbind option_bind].
  replace (Z.abs nt) with (Z.of_nat (Z.to_nat (Z.abs nt))) by lia.
  replace (testCornerTurn out' tb (Z.of_nat N) (Z.of_nat (Z.to_nat (Z.abs nt))) b)
    with (Some 0); [done|].
  symmetry. replace b with (Z.of_nat (Z.to_nat b)) at 1 by lia.
  apply testCornerTurn_zero; try done; [|apply Ho|by apply test_input].
  destruct H6 as [|((((? & ?) & ?) & ?) & ?)]; [by left|right; tauto].
Qed.

Lemma test_turners_run l out rep :
  (forall p, In p l -> In p (list_prod test_bits test_threads)) -> (0 < nTest)%nat -> out_ok out ->
  snd <$> run_iters (test_turner SZ tb (Z.of_nat N) nTest) l (out, rep) =
  Some (rep ++ ((fun p => (p, 0)) <$> List.filter (fun p => supported p.2 p.1) l)).
Proof using Htb Hlen Hbytes HN Hdiv.
  intros Hl HT. revert out rep. induction l as [|[b nt] l IH]; intros out rep Hout.
  - cbn. by rewrite app_nil_r.
  - destruct (test_turner_spec b nt out rep) as (out' & Ho & E); [apply Hl; by left|done..|].
    cbn [run_iters]. rewrite E. cbn [mbind option_bind]. rewrite IH; [|intros; apply Hl; by right|done].
    cbn [List.filter fst snd]. destruct (supported nt b); by rewrite <-app_assoc.
Qed.
End SelfTestLoop.

(** Two threads of the OpenMP team take the chunks of [schedule(dynamic,125)]
    in the order second, first. *)
Definition second_chunk_first : schedule := fun n => drop 125 (seq 0 n) ++ take 125 (seq 0 n).

Lemma second_chunk_first_valid : valid_schedule second_chunk_first.
Proof.
  intros n. unfold second_chunk_first. rewrite Permutation_app_comm. by rewrite take_drop.
Qed.

(** Input for the witnesses: [nt] threads of [l] bytes [x]. *)
Lemma replicate_input nt l x N :
  is_byte x -> (N / nchan nt <= l)%nat ->
  turn_input nt (replicate nt (replicate l x)) (replicate N 0) N.
Proof.
  intros Hx Hl. split; [by rewrite length_replicate|by rewrite length_replicate| |].
  - by apply Forall_replicate, Forall_replicate.
  - intros t Ht. rewrite nth_lookup, lookup_replicate_2 by done. simpl. by rewrite length_replicate.
Qed.

(** ** Properties *)

(** The table serves one thread of any width, powers of two up to 64 threads
    for every power-of-two width up to 128 bits, and the listed special cases:
    exactly the pairs of [supported]. *)
Theorem getCornerTurner_supported SZ nThread nBit :
  is_Some (getCornerTurner SZ nThread nBit) <-> supported nThread nBit = true.
Proof. apply supported_is_Some. Qed.

(** C4 Every function the table returns is a corner turn: with thread buffers
    of at least [N / nchan] bytes and an output buffer of at least [N] bytes,
    for every [N] that is a multiple of the granule, the call stays inside its
    buffers, every sample of every thread lands at its place, and nothing past
    [N] bytes is written. *)
Theorem getCornerTurner_turns SZ nThread nBit ct tb out N :
  let nt := Z.to_nat (Z.abs nThread) in let b := Z.to_nat nBit in
  getCornerTurner SZ nThread nBit = Some ct ->
  Nat.divide (turner_granule nt b) N -> turn_input nt tb out N ->
  exists out', ct sequential out tb (Z.of_nat N) = Some out' /\ turn_output nt b tb out N out'.
Proof.
  intros nt b Hct HN Hin. by apply (getCornerTurner_sequential SZ nThread nBit ct Hct).
Qed.

Lemma getCornerTurner_turns_witness :
  exists out', cornerturn_3thread_2bit sequential (replicate 8 0) (replicate 3 (replicate 2 165)) 8
    = Some out' /\ turn_output 3 2 (replicate 3 (replicate 2 165)) (replicate 8 0) 8 out'.
Proof.
  apply (getCornerTurner_turns 8 3 2 cornerturn_3thread_2bit _ _ 8).
  - reflexivity.
  - exists 1%nat. reflexivity.
  - apply replicate_input; [unfold is_byte; lia|vm_compute; lia].
Defined.

(** C29 In an OpenMP build the iterations may run in any order: except for the
    turners that advance a shared output pointer the result is that of the
    sequential loop. *)
Theorem getCornerTurner_order_free SZ nThread nBit ct tb out N sched :
  let nt := Z.to_nat (Z.abs nThread) in let b := Z.to_nat nBit in
  getCornerTurner SZ nThread nBit = Some ct -> pointer_turner nThread nBit = false ->
  Nat.divide (turner_granule nt b) N -> turn_input nt tb out N -> valid_schedule sched ->
  ct sched out tb (Z.of_nat N) = ct sequential out tb (Z.of_nat N).
Proof.
  intros nt b Hct Hp HN Hin Hs.
  by apply (getCornerTurner_valid SZ nThread nBit ct Hct Hp); auto using sequential_valid.
Qed.

Lemma getCornerTurner_order_free_witness :
  cornerturn_7thread_1bit second_chunk_first (replicate 1200 0) (replicate 7 (replicate 150 165)) 1200
  = cornerturn_7thread_1bit sequential (replicate 1200 0) (replicate 7 (replicate 150 165)) 1200.
Proof.
  apply (getCornerTurner_order_free 8 7 1 cornerturn_7thread_1bit _ _ 1200).
  - reflexivity.
  - reflexivity.
  - exists 150%nat. vm_compute. reflexivity.
  - apply replicate_input; [unfold is_byte; lia|vm_compute; lia].
  - apply second_chunk_first_valid.
Defined.

(** The 16-thread 1-bit turner advances the shared [outputwordptr] inside
    its parallel loop: under a schedule that OpenMP allows the output is not
    corner turned. *)
Theorem pointer_turner_order_dependent :
  exists tb out, turn_input 16 tb out 4000 /\ valid_schedule second_chunk_first /\
    match cornerturn_16thread_1bit second_chunk_first out tb 4000 with
    | Some out' => ~ corner_turned 16 1 tb out' 4000
    | None => False
    end.
Proof.
  exists (replicate 16 (replicate 125 0 ++ replicate 125 255)), (replicate 4000 0).
  split; [|split; [apply second_chunk_first_valid|]].
  - split; [by rewrite length_replicate|by rewrite length_replicate| |].
    + apply Forall_replicate, Forall_app. split; apply Forall_replicate; unfold is_byte; lia.
    + intros t Ht. rewrite nth_lookup, lookup_replicate_2 by done. vm_compute. lia.
  - assert (E : (fun o => bit_at o 0) <$> cornerturn_16thread_1bit second_chunk_first
      (replicate 4000 0) (replicate 16 (replicate 125 0 ++ replicate 125 255)) 4000 = Some true)
      by (vm_compute; reflexivity).
    destruct (cornerturn_16thread_1bit _ _ _ _) as [out'|]; [|discriminate].
    injection E as E. intros Hc. specialize (Hc 0%nat ltac:(lia) ltac:(vm_compute; lia)).
    rewrite E in Hc. discriminate.
Qed.

(** For samples of 1, 2, 4 or 8 bits the self test returns the number of
    samples of the output that differ from their input; padding channels are
    not counted. *)
Theorem testCornerTurn_counts_narrow nt b tb out N :
  (1 <= nt)%nat -> Z.of_nat nt <= 2 ^ 30 -> b ∈ [1; 2; 4; 8]%nat ->
  8 * Z.of_nat N < 2 ^ 31 -> Nat.divide (nchan nt) N -> turn_input nt tb out N ->
  testCornerTurn out tb (Z.of_nat N) (Z.of_nat nt) (Z.of_nat b) =
    Some (Z.of_nat (n_wrong nt b tb out (8 * N / b))) /\
  (n_wrong nt b tb out (8 * N / b) = 0%nat <-> corner_turned nt b tb out N).
Proof.
  intros Hnt Hnt' Hb HN Hu Hin.
  assert (Hb' : (0 < b)%nat /\ Nat.divide b 8).
  { rewrite !elem_of_cons, elem_of_nil in Hb.
    destruct Hb as [->|[->|[->|[->|[]]]]]; (split; [lia|]); apply Nat.Lcm0.mod_divide; done. }
  destruct Hb' as [Hb0 Hb8]. split; [by apply testCornerTurn_narrow|].
  symmetry. apply corner_turned_n_wrong; [done|]. destruct Hb8 as [c ->].
  replace (c * b * N)%nat with (c * N * b)%nat by lia. rewrite Nat.div_mul; lia.
Qed.

Lemma testCornerTurn_counts_narrow_witness :
  let tb := replicate 3 (replicate 2 165) in
  testCornerTurn (replicate 8 0) tb 8 3 2 = Some (Z.of_nat (n_wrong 3 2 tb (replicate 8 0) 32)) /\
  (n_wrong 3 2 tb (replicate 8 0) 32 = 0%nat <-> corner_turned 3 2 tb (replicate 8 0) 8).
Proof.
  apply (testCornerTurn_counts_narrow 3 2 (replicate 3 (replicate 2 165)) (replicate 8 0) 8).
  - lia.
  - lia.
  - rewrite !elem_of_cons. tauto.
  - lia.
  - exists 2%nat. reflexivity.
  - apply replicate_input; [unfold is_byte; lia|vm_compute; lia].
Defined.

(** For samples of two or more whole bytes and a power of two of threads the
    self test counts each differing sample once, however many of its bytes
    differ. *)
Theorem testCornerTurn_counts_wide nt B tb out N :
  (1 <= nt)%nat -> nchan nt = nt -> Z.of_nat nt <= 2 ^ 30 -> (1 < B)%nat ->
  Z.of_nat (B * nt) < 2 ^ 31 -> Z.of_nat N < 2 ^ 31 -> Nat.divide (B * nt) N ->
  bytes_ok out -> turn_input nt tb out N ->
  testCornerTurn out tb (Z.of_nat N) (Z.of_nat nt) (Z.of_nat (8 * B)) =
    Some (Z.of_nat (n_wrong nt (8 * B) tb out (N / B))) /\
  (n_wrong nt (8 * B) tb out (N / B) = 0%nat <-> corner_turned nt (8 * B) tb out N).
Proof.
  intros Hnt Hfull Hnt' HB HBu HN HBN Hout Hin.
  assert (E : (8 * N / (8 * B) = N / B)%nat) by (apply Nat.Div0.div_mul_cancel_l; lia).
  rewrite <-E. split; [by apply testCornerTurn_wide|].
  symmetry. apply corner_turned_n_wrong; [lia|].
  destruct HBN as [m ->]. replace (8 * (m * (B * nt)))%nat with (m * nt * (8 * B))%nat by lia.
  rewrite Nat.div_mul; lia.
Qed.

Lemma testCornerTurn_counts_wide_witness :
  let tb := replicate 2 (replicate 4 165) in
  testCornerTurn (replicate 8 0) tb 8 2 16 = Some (Z.of_nat (n_wrong 2 16 tb (replicate 8 0) 4)) /\
  (n_wrong 2 16 tb (replicate 8 0) 4 = 0%nat <-> corner_turned 2 16 tb (replicate 8 0) 8).
Proof.
  apply (testCornerTurn_counts_wide 2 2 (replicate 2 (replicate 4 165)) (replicate 8 0) 8).
  - lia.
  - reflexivity.
  - lia.
  - lia.
  - lia.
  - lia.
  - exists 2%nat. reflexivity.
  - apply Forall_replicate. unfold is_byte. lia.
  - apply replicate_input; [unfold is_byte; lia|vm_compute; lia].
Defined.

(** The self test of the library, run on any 64 input buffers with an output
    size that is a multiple of 1024 bytes, reports every supported pair of
    thread count and width, and reports 0 wrong samples for each. *)
Theorem testvdifcornerturners_clean SZ tb out N nTest :
  length tb = maxThreads -> Forall (fun t => length t = N) tb -> Forall bytes_ok tb ->
  length out = N -> bytes_ok out -> 8 * Z.of_nat N < 2 ^ 31 -> Nat.divide 1024 N ->
  (0 < nTest)%nat ->
  testvdifcornerturners SZ tb out (Z.of_nat N) nTest =
  Some ((fun p => (p, 0)) <$>
        List.filter (fun p => supported p.2 p.1) (list_prod test_bits test_threads)).
Proof.
  intros Htb Hlen Hb Ho Hob HN Hd HT. unfold testvdifcornerturners.
  by rewrite (test_turners_run SZ tb N nTest Htb Hlen Hb HN Hd).
Qed.

Lemma testvdifcornerturners_clean_witness :
  testvdifcornerturners 8 (replicate 64 (replicate 1024 165)) (replicate 1024 0) 1024 2 =
  Some ((fun p => (p, 0)) <$>
        List.filter (fun p => supported p.2 p.1) (list_prod test_bits test_threads)).
Proof.
  apply (testvdifcornerturners_clean 8 (replicate 64 (replicate 1024 165)) (replicate 1024 0) 1024 2).
  - apply length_replicate.
  - apply Forall_replicate, length_replicate.
  - apply Forall_replicate, Forall_replicate. unfold is_byte. lia.
  - apply length_replicate.
  - apply Forall_replicate. unfold is_byte. lia.
  - lia.
  - exists 1%nat. lia.
  - lia.
Defined.
