(* ===== verification/BitFields.v ===== *)
(** * BitFields: C structs of bit fields and their memory image

    A struct whose members are bit fields of [uint32_t] (and whole words) is
    laid out from the least significant bit up, in declaration order, on the
    little-endian hosts the libraries run on.  [BitStruct] is the interface of
    such a struct; its memory image and the round trips are derived once. *)
From S2P Require Export Memory.
#[local] Open Scope Z_scope.

(** Values of the fields, least significant first, as one number. *)
Fixpoint pack (ws : list nat) (vs : list Z) : Z :=
  match ws, vs with
  | w :: ws, v :: vs => v + 2 ^ Z.of_nat w * pack ws vs
  | _, _ => 0
  end.

Fixpoint unpack (ws : list nat) (x : Z) : list Z :=
  match ws with
  | [] => []
  | w :: ws => x mod 2 ^ Z.of_nat w :: unpack ws (x / 2 ^ Z.of_nat w)
  end.

Definition fits (w : nat) (v : Z) : Prop := 0 <= v < 2 ^ Z.of_nat w.

Fixpoint width (ws : list nat) : nat :=
  match ws with
  | [] => O
  | w :: ws => (w + width ws)%nat
  end.

Lemma pack_range ws vs : Forall2 fits ws vs -> 0 <= pack ws vs < 2 ^ Z.of_nat (width ws).
Proof.
  induction 1 as [|w v ws vs Hv _ IH]; cbn [pack width]; [simpl; lia|].
  rewrite Nat2Z.inj_add, Z.pow_add_r by lia.
  unfold fits in *. nia.
Qed.

Lemma unpack_pack ws vs : Forall2 fits ws vs -> unpack ws (pack ws vs) = vs.
Proof.
  induction 1 as [|w v ws vs Hv _ IH]; cbn [pack unpack]; [done|]. unfold fits in Hv. f_equal.
  - rewrite Z.mul_comm, Z_mod_plus_full. by apply Z.mod_small.
  - rewrite Z.mul_comm, Z.div_add, Z.div_small by lia. done.
Qed.

Lemma pack_unpack ws x : 0 <= x < 2 ^ Z.of_nat (width ws) -> pack ws (unpack ws x) = x.
Proof.
  revert x. induction ws as [|w ws IH]; intros x Hx; cbn [pack unpack].
  - simpl in Hx. lia.
  - cbn [width] in Hx. rewrite Nat2Z.inj_add, Z.pow_add_r in Hx by lia.
    assert (0 < 2 ^ Z.of_nat w) by (apply Z.pow_pos_nonneg; lia).
    pose proof (Z.div_mod x (2 ^ Z.of_nat w) ltac:(lia)).
    rewrite IH; [lia|].
    split; [apply Z.div_pos; lia|]. apply Z.div_lt_upper_bound; lia.
Qed.

Lemma unpack_fits ws x : Forall2 fits ws (unpack ws x).
Proof.
  revert x. induction ws as [|w ws IH]; intros x; constructor; [|done].
  apply Z.mod_pos_bound. lia.
Qed.

Lemma length_unpack ws x : length (unpack ws x) = length ws.
Proof. revert x. induction ws as [|w ws IH]; intros x; simpl; [done|]. by rewrite IH. Qed.

Lemma take_unpack k ws x : take k (unpack ws x) = unpack (take k ws) x.
Proof.
  revert k x. induction ws as [|w ws IH]; intros [|k] x; cbn [unpack take]; [done..|].
  by rewrite IH.
Qed.

(** Fields read the low bits only. *)
Lemma unpack_low ws x m : Z.of_nat (width ws) <= m -> unpack ws (x mod 2 ^ m) = unpack ws x.
Proof.
  revert x m. induction ws as [|w ws IH]; intros x m Hm; cbn [unpack width] in *; [done|].
  assert (E : 2 ^ m = 2 ^ Z.of_nat w * 2 ^ (m - Z.of_nat w))
    by (rewrite <-Z.pow_add_r by lia; f_equal; lia).
  assert (0 < 2 ^ Z.of_nat w) by (apply Z.pow_pos_nonneg; lia).
  assert (0 < 2 ^ (m - Z.of_nat w)) by (apply Z.pow_pos_nonneg; lia). rewrite E. f_equal.
  - rewrite Z.rem_mul_r, Z.mul_comm, Z_mod_plus_full, Z.mod_mod by lia. done.
  - rewrite Z.rem_mul_r by lia.
    rewrite (Z.mul_comm (2 ^ Z.of_nat w)), Z.div_add, Z.div_small by (try apply Z.mod_pos_bound; lia).
    rewrite Z.add_0_l. apply IH. lia.
Qed.

Lemma le_combine_take bs k :
  bytes_ok bs -> le_combine (take k bs) = le_combine bs mod 2 ^ (8 * Z.of_nat k).
Proof.
  intros Hb. assert (Ht : bytes_ok (take k bs)) by by apply Forall_take.
  apply Z.bits_inj'. intros i Hi. replace i with (Z.of_nat (Z.to_nat i)) by lia.
  destruct (decide (Z.to_nat i < 8 * k)%nat) as [Hlt|Hge].
  - rewrite Z.mod_pow2_bits_low, !le_combine_bit by (done || lia). unfold bit_at.
    rewrite !nth_lookup, lookup_take_lt; [done|]. apply Nat.Div0.div_lt_upper_bound. lia.
  - rewrite Z.mod_pow2_bits_high, le_combine_bit by (done || lia). apply bit_at_high.
    rewrite length_take. lia.
Qed.

(** A struct of bit fields: its field widths in declaration order, with the
    conversion between values of the struct and lists of field values. *)
Class BitStruct (T : Type) := {
  layout : list nat;
  fields : T -> list Z;
  make : list Z -> T;
  make_fields x : make (fields x) = x;
  fields_make l : length l = length layout -> fields (make l) = l }.

(** Every field within its width. *)
Definition struct_ok `{BitStruct T} (x : T) : Prop := Forall2 fits layout (fields x).

Definition struct_bytes `{BitStruct T} (x : T) : buffer :=
  le_split (width layout / 8) (pack layout (fields x)).

Definition struct_of_bytes `{BitStruct T} (bs : buffer) : T :=
  make (unpack layout (le_combine bs)).

(** [*(struct T * )(buf + off)] *)
Definition struct_at (T : Type) `{BitStruct T} (buf : buffer) (off : nat) : option T :=
  let n := (width layout / 8)%nat in
  if decide (off + n <= length buf)%nat then Some (struct_of_bytes (slice buf off n)) else None.

Section BitStruct.
Context `{BS : BitStruct T} (Hwhole : (width layout mod 8 = 0)%nat).

Lemma struct_width : (8 * (width layout / 8) = width layout)%nat.
Proof using Hwhole. pose proof (Nat.div_mod_eq (width layout) 8). lia. Qed.

Lemma struct_bytes_of (x : T) : struct_ok x -> struct_of_bytes (struct_bytes x) = x.
Proof using Hwhole.
  intros Hx. unfold struct_of_bytes, struct_bytes. pose proof (pack_range _ _ Hx).
  rewrite le_combine_split.
  - rewrite unpack_pack by done. apply make_fields.
  - pose proof struct_width as E. replace (8 * Z.of_nat (width layout / 8))
      with (Z.of_nat (width layout)) by lia. done.
Qed.

Lemma struct_of_bytes_bytes (bs : buffer) :
  bytes_ok bs -> length bs = (width layout / 8)%nat ->
  struct_bytes (struct_of_bytes bs : T) = bs.
Proof using Hwhole.
  intros Hb Hl. unfold struct_of_bytes, struct_bytes.
  rewrite fields_make by apply length_unpack.
  pose proof (le_combine_bound bs Hb) as Hr. pose proof struct_width as E.
  rewrite pack_unpack; [by apply le_split_combine|].
  replace (Z.of_nat (width layout)) with (8 * Z.of_nat (length bs)) by lia. done.
Qed.

Lemma struct_of_bytes_ok (bs : buffer) : struct_ok (struct_of_bytes bs : T).
Proof using.
  unfold struct_ok, struct_of_bytes. rewrite fields_make by apply length_unpack.
  apply unpack_fits.
Qed.

(** Two buffers with the same first [n] bytes agree on the fields that lie in
    these bytes, also when read as different structs. *)
Lemma fields_prefix `{BitStruct T'} (k n : nat) (bs bs' : buffer) :
  bytes_ok bs -> bytes_ok bs' -> take n bs = take n bs' ->
  take k (layout (T:=T)) = take k (layout (T:=T')) -> (width (take k (layout (T:=T))) <= 8 * n)%nat ->
  take k (fields (struct_of_bytes bs : T)) = take k (fields (struct_of_bytes bs' : T')).
Proof using.
  clear Hwhole. intros Hb Hb' Hn Hl Hw. unfold struct_of_bytes.
  rewrite !fields_make, !take_unpack, <-Hl by apply length_unpack.
  rewrite <-(unpack_low _ (le_combine bs) (8 * Z.of_nat n)) by lia.
  rewrite <-(unpack_low _ (le_combine bs') (8 * Z.of_nat n)) by lia.
  by rewrite <-!le_combine_take, Hn.
Qed.

Lemma length_struct_bytes (x : T) : length (struct_bytes x) = (width layout / 8)%nat.
Proof using. apply length_le_split. Qed.

Lemma struct_bytes_bytes (x : T) : bytes_ok (struct_bytes x).
Proof using. apply le_split_bytes. Qed.
End BitStruct.
