(* ===== verification/DateUtils.v ===== *)
(** * DateUtils: Modified Julian Days and calendar dates

    [dateutils.c]: [mjd2ymd], [ymd2doy] and [ymd2mjd], against the Gregorian
    calendar given by its day-successor function.  [mjd2ymd] inserts the leap
    days the Gregorian calendar drops and then reads the date off a calendar
    with a leap year every fourth year: the proofs follow these two steps. *)
From S2P Require Export Prelude.
#[local] Open Scope Z_scope.

Definition UNIXZERO_MJD : Z := 40587.

Definition mjd2ymd (mjd : Z) : Z * Z * Z :=
  let jd := mjd + 2400001 in
  let temp1 := 4 * (jd + cdiv (cdiv (6 * cdiv (4 * jd - 17918) 146097) 4 + 1) 2 - 37) in
  let temp2 := 10 * cdiv (cmod (temp1 - 237) 1461) 4 + 5 in
  (cdiv temp1 1461 - 4712, cmod (cdiv temp2 306 + 2) 12 + 1, cdiv (cmod temp2 306) 10 + 1).

Definition monstart1 : list Z := [0; 31; 59; 90; 120; 151; 181; 212; 243; 273; 304; 334].
Definition monstart2 : list Z := [0; 31; 60; 91; 121; 152; 182; 213; 244; 274; 305; 335].

Definition L2 (yr : Z) : Z :=
  cdiv yr 4 - cdiv (yr + 7) 4 - cdiv yr 100 + cdiv (yr + 99) 100
  + cdiv yr 400 - cdiv (yr + 399) 400.

(** A month outside 1..12 reads outside the table. *)
Definition ymd2doy (yr mo day : Z) : option Z :=
  if 1 <=? mo then
    start ← (if L2 yr =? -1 then monstart2 else monstart1) !! Z.to_nat (mo - 1);
    Some (day + start)
  else None.

Definition ymd2mjd (yr mo day : Z) : option Z :=
  let yr1 := yr - 1 in
  doy ← ymd2doy yr mo day;
  Some (doy - 678576 + 365 * yr1 + cdiv yr1 4 - cdiv yr1 100 + cdiv yr1 400).

(** ** The Gregorian calendar *)

Definition is_leap (y : Z) : bool :=
  (y mod 4 =? 0) && (negb (y mod 100 =? 0) || (y mod 400 =? 0)).

Definition days_in_month (y m : Z) : Z :=
  if m =? 2 then (if is_leap y then 29 else 28)
  else if (m =? 4) || (m =? 6) || (m =? 9) || (m =? 11) then 30 else 31.

Definition valid_date (y m d : Z) : bool :=
  (1 <=? m) && (m <=? 12) && (1 <=? d) && (d <=? days_in_month y m).

Definition next_day (ymd : Z * Z * Z) : Z * Z * Z :=
  let '(y, m, d) := ymd in
  if d <? days_in_month y m then (y, m, d + 1)
  else if m <? 12 then (y, m + 1, 1) else (y + 1, 1, 1).

(** ** The two steps of [mjd2ymd] *)

Ltac euclid := Z.to_euclidean_division_equations; lia.

(** The day number with the dropped leap days inserted. *)
Definition century (mjd : Z) : Z := cdiv (4 * (mjd + 2400001) - 17918) 146097.
Definition inserted (mjd : Z) : Z := cdiv (cdiv (6 * century mjd) 4 + 1) 2.
Definition julian_day (mjd : Z) : Z := mjd + 2400001 + inserted mjd - 37.

(** Days since the last first of March. *)
Definition march_day (x : Z) : Z := cdiv (cmod (4 * x - 237) 1461) 4.
Definition julian_year (x : Z) : Z := cdiv (4 * x) 1461 - 4712.

Definition julian_date (x : Z) : Z * Z * Z :=
  let temp2 := 10 * march_day x + 5 in
  (julian_year x, cmod (cdiv temp2 306 + 2) 12 + 1, cdiv (cmod temp2 306) 10 + 1).

Lemma mjd2ymd_julian mjd : mjd2ymd mjd = julian_date (julian_day mjd).
Proof. reflexivity. Qed.

(** The calendar with a leap year every fourth year. *)
Definition julian_dim (y m : Z) : Z :=
  if m =? 2 then (if y mod 4 =? 0 then 29 else 28)
  else if (m =? 4) || (m =? 6) || (m =? 9) || (m =? 11) then 30 else 31.

Definition julian_next (ymd : Z * Z * Z) : Z * Z * Z :=
  let '(y, m, d) := ymd in
  if d <? julian_dim y m then (y, m, d + 1)
  else if m <? 12 then (y, m + 1, 1) else (y + 1, 1, 1).

Definition date_eqb (a b : Z * Z * Z) : bool :=
  (a.1.1 =? b.1.1) && (a.1.2 =? b.1.2) && (a.2 =? b.2).

Lemma date_eqb_eq a b : date_eqb a b = true -> a = b.
Proof.
  destruct a as [[? ?] ?], b as [[? ?] ?]. unfold date_eqb. cbn.
  rewrite !andb_true_iff, !Z.eqb_eq. intros [[-> ->] ->]. done.
Qed.

(** One four-year cycle, day by day; the year is relative to [q] cycles. *)
Definition julian_ok (x : Z) : bool :=
  let '(y, m, d) := julian_date x in
  date_eqb (julian_date (x + 1)) (julian_next (y, m, d)) &&
  (1 <=? m) && (m <=? 12) && (1 <=? d) && (d <=? julian_dim y m) &&
  Bool.eqb (march_day x =? 364) ((m =? 2) && (d =? 28)) &&
  Bool.eqb (march_day x =? 365) ((m =? 2) && (d =? 29)).

Lemma julian_cycle_ok : forall_from (Z.to_nat 1461) 1461 julian_ok = true.
Proof. vm_compute. reflexivity. Qed.

Definition shift_years (n : Z) (ymd : Z * Z * Z) : Z * Z * Z := (ymd.1.1 + n, ymd.1.2, ymd.2).

Lemma julian_date_period x k :
  1461 <= x -> 0 <= k ->
  march_day (x + 1461 * k) = march_day x /\
  julian_date (x + 1461 * k) = shift_years (4 * k) (julian_date x).
Proof.
  intros Hx Hk.
  assert (E : march_day (x + 1461 * k) = march_day x).
  { unfold march_day. replace (4 * (x + 1461 * k) - 237) with (4 * x - 237 + 4 * k * 1461) by lia.
    rewrite !Z.rem_mod_nonneg, Z_mod_plus_full by lia. done. }
  split; [done|]. unfold julian_date, shift_years, julian_year. rewrite E. cbn [fst snd].
  f_equal. f_equal. euclid.
Qed.

Lemma julian_dim_period y m k : julian_dim (y + 4 * k) m = julian_dim y m.
Proof.
  unfold julian_dim. replace (y + 4 * k) with (y + k * 4) by lia. by rewrite Z_mod_plus_full.
Qed.

Lemma julian_next_period n k ymd :
  n = 4 * k -> julian_next (shift_years n ymd) = shift_years n (julian_next ymd).
Proof.
  intros ->. destruct ymd as [[y m] d]. unfold shift_years. cbn [julian_next fst snd].
  rewrite julian_dim_period. repeat case_match; cbn [fst snd]; f_equal; f_equal; lia.
Qed.

Lemma julian_step x y m d :
  1461 <= x -> julian_date x = (y, m, d) ->
  julian_date (x + 1) = julian_next (y, m, d) /\ 1 <= m <= 12 /\ 1 <= d <= julian_dim y m /\
  (march_day x = 364 <-> m = 2 /\ d = 28) /\ (march_day x = 365 <-> m = 2 /\ d = 29).
Proof.
  intros Hx E. set (k := x / 1461 - 1). set (r := x mod 1461 + 1461).
  assert (Ek : x = r + 1461 * k /\ 0 <= k /\ 1461 <= r < 2922) by (subst r k; euclid).
  clearbody k r. destruct Ek as (-> & Hk & Hr).
  pose proof (forall_from_spec _ _ _ julian_cycle_ok r ltac:(lia)) as Hok. unfold julian_ok in Hok.
  replace (r + 1461 * k + 1) with (r + 1 + 1461 * k) by lia.
  destruct (julian_date_period r k) as [Em Ed]; [lia..|].
  destruct (julian_date_period (r + 1) k) as [_ ->]; [lia..|]. rewrite Em. rewrite Ed in E.
  destruct (julian_date r) as [[y0 m0] d0]. unfold shift_years in E. cbn [fst snd] in E.
  injection E as <- <- <-.
  rewrite !andb_true_iff, !eqb_true_iff, !Z.leb_le in Hok.
  destruct Hok as ((((((H1 & H2) & H3) & H4) & H5) & H6) & H7).
  apply date_eqb_eq in H1. rewrite H1, julian_dim_period. split_and!; try done.
  - symmetry. by apply (julian_next_period (4 * k) k (y0, m0, d0)).
  - rewrite <-(Z.eqb_eq (march_day r)), H6, andb_true_iff, !Z.eqb_eq. done.
  - rewrite <-(Z.eqb_eq (march_day r)), H7, andb_true_iff, !Z.eqb_eq. done.
Qed.

(** ** The dropped leap days *)

Definition dropped (y : Z) : Prop := y mod 100 = 0 /\ y mod 400 <> 0.

Lemma inserted_div mjd : 0 <= mjd ->
  0 <= inserted mjd /\
  inserted mjd = (6 * ((4 * (mjd + 2400001) - 17918) / 146097) / 4 + 1) / 2.
Proof.
  intros H. unfold inserted, century.
  rewrite (Z.quot_div_nonneg (_ - 17918)) by lia.
  pose proof (Z.div_pos (4 * (mjd + 2400001) - 17918) 146097 ltac:(lia) ltac:(lia)) as Hc.
  generalize dependent ((4 * (mjd + 2400001) - 17918) / 146097). intros c Hc.
  rewrite (Z.quot_div_nonneg (6 * c)) by lia.
  pose proof (Z.div_pos (6 * c) 4 ltac:(lia) ltac:(lia)).
  rewrite Z.quot_div_nonneg by lia. split; [|done]. apply Z.div_pos; lia.
Qed.

Lemma julian_div x : 1461 <= x ->
  julian_year x = 4 * x / 1461 - 4712 /\ march_day x = (4 * x - 237) mod 1461 / 4.
Proof.
  intros H. unfold julian_year, march_day.
  pose proof (Z.mod_pos_bound (4 * x - 237) 1461 ltac:(lia)).
  rewrite (Z.rem_mod_nonneg (4 * x - 237)) by lia. by rewrite !Z.quot_div_nonneg by lia.
Qed.

(** The definitions as equations between non-negative integers. *)
Ltac day_equations mjd :=
  let g := fresh "g" in let E1 := fresh "E1" in let E2 := fresh "E2" in
  pose proof (inserted_div mjd ltac:(lia)); pose proof (inserted_div (mjd + 1) ltac:(lia));
  unfold dropped, julian_day in *; set (g := inserted mjd) in *; clearbody g;
  pose proof (julian_div (mjd + 2400001 + g - 37) ltac:(lia)) as [E1 E2];
  rewrite ?E1, ?E2; clear E1 E2.

Lemma inserted_cases mjd : 0 <= mjd ->
  inserted (mjd + 1) = inserted mjd \/
  inserted (mjd + 1) = inserted mjd + 1 /\
  exists e i, 0 <= i < 3 /\ inserted mjd = 3 * e + i /\
    (i = 0 /\ mjd + 2400001 = 146097 * e + 41003 \/
     i = 1 /\ mjd + 2400001 = 146097 * e + 77527 \/
     i = 2 /\ mjd + 2400001 = 146097 * e + 150576).
Proof.
  intros H. destruct (inserted_div mjd H) as [_ ->].
  destruct (inserted_div (mjd + 1) ltac:(lia)) as [_ ->].
  set (c := (4 * (mjd + 2400001) - 17918) / 146097).
  set (c' := (4 * (mjd + 1 + 2400001) - 17918) / 146097).
  assert (c' = c \/ c' = c + 1 /\ 4 * (mjd + 2400001) - 17918 < 146097 * (c + 1)
    <= 4 * (mjd + 1 + 2400001) - 17918) as [->|(-> & Hc)] by (subst c c'; euclid); [by left|].
  clearbody c.
  assert (exists e r, c = 4 * e + r /\ 0 <= r < 4) as (e & r & -> & Hr)
    by (exists (c / 4), (c mod 4); euclid).
  assert (r = 0 \/ r = 1 \/ r = 2 \/ r = 3) as [->|[->|[->| ->]]] by lia.
  - right. split; [euclid|]. exists e, 0. split_and!; [lia|lia|euclid|lia].
  - right. split; [euclid|]. exists e, 1. split_and!; [lia|lia|euclid|lia].
  - left. euclid.
  - right. split; [euclid|]. exists e, 2. split_and!; [lia|lia|euclid|lia].
Qed.

Lemma inserted_step mjd : 0 <= mjd ->
  inserted (mjd + 1) = inserted mjd \/
  inserted (mjd + 1) = inserted mjd + 1 /\ march_day (julian_day mjd) = 364 /\
  dropped (julian_year (julian_day mjd)).
Proof.
  intros H. destruct (inserted_cases mjd H) as [?|(Hg & e & i & Hi & Eg & Hc)]; [by left|right].
  split; [done|]. destruct (julian_div (julian_day mjd)) as [-> ->];
    [unfold julian_day; pose proof (inserted_div mjd H); lia|].
  unfold julian_day, dropped. rewrite Eg.
  destruct Hc as [[-> ->]|[[-> ->]|[-> ->]]]; (split; [|split]); euclid.
Qed.

Lemma dropped_inserted mjd : 0 <= mjd ->
  dropped (julian_year (julian_day mjd)) -> march_day (julian_day mjd) = 364 ->
  inserted (mjd + 1) = inserted mjd + 1.
Proof. intros H. day_equations mjd. euclid. Qed.

Lemma dropped_no_29 mjd : 0 <= mjd ->
  dropped (julian_year (julian_day mjd)) -> march_day (julian_day mjd) <> 365.
Proof. intros H. day_equations mjd. euclid. Qed.

(** ** The Gregorian calendar *)

Lemma leap_cases y :
  is_leap y = (y mod 4 =? 0) \/ is_leap y = false /\ y mod 4 = 0 /\ dropped y.
Proof.
  unfold is_leap, dropped. destruct (Z.eqb_spec (y mod 4) 0); [|by left].
  destruct (Z.eqb_spec (y mod 100) 0); [|by left].
  destruct (Z.eqb_spec (y mod 400) 0); [by left|by right].
Qed.

Lemma dim_julian y m : ~ (dropped y /\ m = 2) -> days_in_month y m = julian_dim y m.
Proof.
  intros Hn. unfold days_in_month, julian_dim. destruct (Z.eqb_spec m 2); [|done].
  destruct (leap_cases y) as [->|(_ & _ & Hd)]; [done|]. by exfalso; auto.
Qed.

Lemma dropped_feb y :
  dropped y -> y mod 4 = 0 /\ days_in_month y 2 = 28 /\ julian_dim y 2 = 29.
Proof.
  intros [H1 H2]. assert (E : y mod 4 = 0) by euclid. split; [done|].
  unfold days_in_month, julian_dim, is_leap. cbn [Z.eqb Pos.eqb].
  rewrite E, H1, (proj2 (Z.eqb_neq _ _) H2). done.
Qed.

(** A day on which both calendars advance in the same way. *)
Lemma next_day_julian y m d :
  (dropped y -> m = 2 -> d < 28) -> next_day (y, m, d) = julian_next (y, m, d).
Proof.
  intros Hd. unfold next_day, julian_next.
  destruct (decide (m = 2)) as [->|]; [|rewrite dim_julian by tauto; done].
  destruct (leap_cases y) as [El|(_ & _ & Hdr)].
  - assert (days_in_month y 2 = julian_dim y 2) as -> by (unfold days_in_month; by rewrite El). done.
  - specialize (Hd Hdr eq_refl). destruct (dropped_feb y Hdr) as (_ & -> & ->).
    rewrite !(proj2 (Z.ltb_lt _ _)) by lia. done.
Qed.

Lemma mjd2ymd_step mjd y m d :
  0 <= mjd -> mjd2ymd mjd = (y, m, d) ->
  mjd2ymd (mjd + 1) = next_day (y, m, d) /\ 1 <= m <= 12 /\ 1 <= d <= days_in_month y m.
Proof.
  intros H E. rewrite mjd2ymd_julian in E. pose proof (inserted_div mjd H) as [Hi _].
  assert (Hx : 1461 <= julian_day mjd) by (unfold julian_day; lia).
  destruct (julian_step _ _ _ _ Hx E) as (Hn & Hm & Hd & H28 & H29).
  assert (Ey : julian_year (julian_day mjd) = y) by (unfold julian_date in E; congruence).
  pose proof (dropped_no_29 mjd H) as Hno. rewrite Ey in Hno.
  assert (Hdim : dropped y -> m = 2 -> d <= 28).
  { intros Hdr ->. destruct (dropped_feb y Hdr) as (_ & _ & E29). specialize (Hno Hdr).
    assert (d <> 29) by tauto. lia. }
  split; [|split; [done|]].
  - rewrite mjd2ymd_julian. destruct (inserted_step mjd H) as [Hg|(Hg & Hfeb & Hdr)].
    + assert (julian_day (mjd + 1) = julian_day mjd + 1) as -> by (unfold julian_day; lia).
      rewrite Hn, next_day_julian; [done|]. intros Hdr ->. specialize (Hdim Hdr eq_refl).
      assert (d <> 28); [|lia]. intros ->.
      pose proof (dropped_inserted mjd H) as Hins. rewrite Ey in Hins.
      specialize (Hins Hdr ltac:(tauto)). lia.
    + rewrite Ey in Hdr. destruct (proj1 H28 Hfeb) as [-> ->].
      destruct (dropped_feb y Hdr) as (_ & Ed & Ej).
      assert (julian_day (mjd + 1) = julian_day mjd + 1 + 1) as -> by (unfold julian_day; lia).
      unfold julian_next in Hn. rewrite Ej in Hn. cbn [Z.ltb Z.compare Pos.compare Pos.compare_cont] in Hn.
      destruct (julian_step _ _ _ _ (ltac:(lia) : 1461 <= julian_day mjd + 1) Hn) as (-> & _).
      unfold julian_next, next_day. rewrite Ej, Ed. reflexivity.
  - destruct (decide (dropped y /\ m = 2)) as [[Hdr ->]|Hnd].
    + destruct (dropped_feb y Hdr) as (_ & -> & _). specialize (Hdim Hdr eq_refl). lia.
    + by rewrite dim_julian.
Qed.

(** ** [ymd2mjd] *)

Lemma L2_leap y : 0 <= y -> (L2 y =? -1) = is_leap y.
Proof.
  intros H. unfold L2, is_leap. rewrite !Z.quot_div_nonneg by lia.
  assert (y / 4 - (y + 7) / 4 = if y mod 4 =? 0 then -1 else -2) as E4
    by (destruct (Z.eqb_spec (y mod 4) 0); euclid).
  assert ((y + 99) / 100 - y / 100 = if y mod 100 =? 0 then 0 else 1) as E100
    by (destruct (Z.eqb_spec (y mod 100) 0); euclid).
  assert (y / 400 - (y + 399) / 400 = if y mod 400 =? 0 then 0 else -1) as E400
    by (destruct (Z.eqb_spec (y mod 400) 0); euclid).
  assert (y mod 100 = 0 -> y mod 4 = 0) by euclid.
  assert (y mod 400 = 0 -> y mod 100 = 0) by euclid.
  destruct (Z.eqb_spec (y mod 4) 0), (Z.eqb_spec (y mod 100) 0), (Z.eqb_spec (y mod 400) 0);
    cbn [andb orb negb]; first [apply Z.eqb_eq; lia | apply Z.eqb_neq; lia].
Qed.

(** Days before the first of January of year [y], from the first of year 1. *)
Definition days_before (y : Z) : Z := 365 * (y - 1) + (y - 1) / 4 - (y - 1) / 100 + (y - 1) / 400.

Definition month_start (y m : Z) : Z :=
  nth (Z.to_nat (m - 1)) (if is_leap y then monstart2 else monstart1) 0.

Lemma ymd2mjd_eq y m d :
  1 <= y -> 1 <= m <= 12 -> ymd2mjd y m d = Some (days_before y + month_start y m + d - 678576).
Proof.
  intros Hy Hm. unfold ymd2mjd, ymd2doy. rewrite (proj2 (Z.leb_le _ _)), L2_leap by lia.
  unfold month_start. rewrite nth_lookup.
  assert (Hlt : (Z.to_nat (m - 1) < 12)%nat) by lia.
  destruct ((if is_leap y then monstart2 else monstart1) !! Z.to_nat (m - 1)) eqn:E.
  - cbn. unfold days_before. rewrite !Z.quot_div_nonneg by lia. f_equal. lia.
  - apply lookup_ge_None in E. destruct (is_leap y); simpl in E; lia.
Qed.

Lemma month_cases m : 1 <= m <= 12 ->
  m = 1 \/ m = 2 \/ m = 3 \/ m = 4 \/ m = 5 \/ m = 6 \/ m = 7 \/ m = 8 \/ m = 9 \/ m = 10 \/
  m = 11 \/ m = 12.
Proof. lia. Qed.

Ltac each_month H :=
  apply month_cases in H;
  destruct H as [->|[->|[->|[->|[->|[->|[->|[->|[->|[->|[->| ->]]]]]]]]]]].

Lemma month_start_next y m :
  1 <= m <= 11 -> month_start y (m + 1) = month_start y m + days_in_month y m.
Proof.
  intros Hm. assert (1 <= m <= 12) as Hm' by lia. unfold month_start, days_in_month.
  each_month Hm'; destruct (is_leap y); reflexivity || lia.
Qed.

Lemma month_start_range y m :
  1 <= m <= 12 -> 0 <= month_start y m /\
  month_start y m + days_in_month y m <= 365 + (if is_leap y then 1 else 0).
Proof.
  intros Hm. unfold month_start, days_in_month. each_month Hm; destruct (is_leap y); vm_compute; split; discriminate.
Qed.

Lemma days_before_next y : 1 <= y ->
  days_before (y + 1) = days_before y + 365 + (if is_leap y then 1 else 0).
Proof.
  intros Hy. unfold days_before, is_leap. replace (y + 1 - 1) with y by lia.
  assert (y / 4 - (y - 1) / 4 = if y mod 4 =? 0 then 1 else 0) as E4
    by (destruct (Z.eqb_spec (y mod 4) 0); euclid).
  assert (y / 100 - (y - 1) / 100 = if y mod 100 =? 0 then 1 else 0) as E100
    by (destruct (Z.eqb_spec (y mod 100) 0); euclid).
  assert (y / 400 - (y - 1) / 400 = if y mod 400 =? 0 then 1 else 0) as E400
    by (destruct (Z.eqb_spec (y mod 400) 0); euclid).
  assert (y mod 100 = 0 -> y mod 4 = 0) by euclid.
  assert (y mod 400 = 0 -> y mod 100 = 0) by euclid.
  destruct (Z.eqb_spec (y mod 4) 0), (Z.eqb_spec (y mod 100) 0), (Z.eqb_spec (y mod 400) 0);
    cbn [andb orb negb] in *; lia.
Qed.

Lemma days_before_mono y k : 1 <= y -> 0 <= k -> days_before y <= days_before (y + k).
Proof.
  intros Hy Hk. revert k Hk. apply natlike_ind; [rewrite Z.add_0_r; lia|].
  intros k Hk IH. replace (y + Z.succ k) with (y + k + 1) by lia.
  rewrite days_before_next by lia. destruct (is_leap (y + k)); lia.
Qed.

Definition date_number (ymd : Z * Z * Z) : option Z := ymd2mjd ymd.1.1 ymd.1.2 ymd.2.

Lemma date_number_next y m d :
  1 <= y -> 1 <= m <= 12 -> 1 <= d <= days_in_month y m ->
  date_number (next_day (y, m, d)) = Z.add 1 <$> date_number (y, m, d).
Proof.
  intros Hy Hm Hd. unfold date_number, next_day. cbn [fst snd]. rewrite (ymd2mjd_eq y m d) by done.
  destruct (Z.ltb_spec d (days_in_month y m)); cbn [fst snd fmap option_fmap option_map].
  - rewrite ymd2mjd_eq by lia. f_equal. lia.
  - destruct (Z.ltb_spec m 12); cbn [fst snd]; rewrite ymd2mjd_eq by lia; f_equal.
    + rewrite month_start_next by lia. lia.
    + assert (m = 12) as -> by lia. rewrite days_before_next by done.
      assert (month_start (y + 1) 1 = 0) as ->
        by (unfold month_start; by destruct (is_leap (y + 1))).
      assert (month_start y 12 + 31 = 365 + (if is_leap y then 1 else 0))
        by (unfold month_start; by destruct (is_leap y)).
      change (days_in_month y 12) with 31 in *. lia.
Qed.

Lemma next_day_year y m d : y <= (next_day (y, m, d)).1.1.
Proof. unfold next_day. repeat case_match; cbn; lia. Qed.

Lemma date_number_mjd mjd : 0 <= mjd ->
  date_number (mjd2ymd mjd) = Some mjd /\ 1858 <= (mjd2ymd mjd).1.1.
Proof.
  revert mjd. apply natlike_ind; [by vm_compute|].
  intros mjd H [IH Hy]. rewrite <-Z.add_1_r. destruct (mjd2ymd mjd) as [[y m] d] eqn:E.
  destruct (mjd2ymd_step mjd y m d H E) as (-> & Hm & Hd). cbn [fst snd] in Hy. split.
  - rewrite date_number_next, IH by lia. cbn. f_equal. lia.
  - pose proof (next_day_year y m d). lia.
Qed.

Lemma valid_date_iff y m d :
  valid_date y m d = true <-> 1 <= m <= 12 /\ 1 <= d <= days_in_month y m.
Proof. unfold valid_date. rewrite !andb_true_iff, !Z.leb_le. tauto. Qed.

Lemma month_start_mono y m m' :
  1 <= m <= 12 -> 1 <= m' <= 12 -> m < m' -> month_start y m + days_in_month y m <= month_start y m'.
Proof.
  intros Hm Hm'. unfold month_start, days_in_month.
  each_month Hm; each_month Hm'; intros; first [lia | destruct (is_leap y); vm_compute; discriminate].
Qed.

Lemma month_start_inj y m m' d d' :
  1 <= m <= 12 -> 1 <= m' <= 12 -> 1 <= d <= days_in_month y m -> 1 <= d' <= days_in_month y m' ->
  month_start y m + d = month_start y m' + d' -> m = m' /\ d = d'.
Proof.
  intros Hm Hm' Hd Hd' E. pose proof (month_start_mono y m m' Hm Hm').
  pose proof (month_start_mono y m' m Hm' Hm). assert (m = m') as <- by lia. lia.
Qed.

Lemma ymd2mjd_inj y m d y' m' d' n :
  1 <= y -> 1 <= y' -> valid_date y m d = true -> valid_date y' m' d' = true ->
  ymd2mjd y m d = Some n -> ymd2mjd y' m' d' = Some n -> (y, m, d) = (y', m', d').
Proof.
  intros Hy Hy' [Hm Hd]%valid_date_iff [Hm' Hd']%valid_date_iff.
  rewrite !ymd2mjd_eq by done. intros [= E] [= E'].
  pose proof (month_start_range y m Hm) as [R1 R2].
  pose proof (month_start_range y' m' Hm') as [R1' R2'].
  assert (y = y') as <-.
  { assert (y < y' -> False).
    { intros Hlt. pose proof (days_before_mono (y + 1) (y' - y - 1) ltac:(lia) ltac:(lia)) as Hmono.
      replace (y + 1 + (y' - y - 1)) with y' in Hmono by lia.
      rewrite days_before_next in Hmono by lia. lia. }
    assert (y' < y -> False).
    { intros Hlt. pose proof (days_before_mono (y' + 1) (y - y' - 1) ltac:(lia) ltac:(lia)) as Hmono.
      replace (y' + 1 + (y - y' - 1)) with y in Hmono by lia.
      rewrite days_before_next in Hmono by lia. lia. }
    lia. }
  destruct (month_start_inj y m m' d d') as [-> ->]; try done. lia.
Qed.

(** The day number in terms of the date. *)
Lemma mjd2ymd_number mjd y m d :
  0 <= mjd -> mjd2ymd mjd = (y, m, d) ->
  1858 <= y /\ 1 <= m <= 12 /\ 1 <= d <= days_in_month y m /\
  mjd = days_before y + month_start y m + d - 678576.
Proof.
  intros H E. destruct (mjd2ymd_step mjd y m d H E) as (_ & Hm & Hd).
  pose proof (date_number_mjd mjd H) as [En Hy]. rewrite E in En, Hy.
  unfold date_number in En. cbn [fst snd] in *. rewrite ymd2mjd_eq in En by lia.
  injection En as En. lia.
Qed.

(** Dates are in the order of their day numbers. *)
Lemma year_bounds mjd y m d y0 y1 :
  0 <= mjd -> mjd2ymd mjd = (y, m, d) -> 1 <= y0 -> 1 <= y1 ->
  days_before y0 - 678575 <= mjd < days_before y1 - 678575 -> y0 <= y < y1.
Proof.
  intros H E Hy0 Hy1 Hr. destruct (mjd2ymd_number mjd y m d H E) as (Hy & Hm & Hd & En).
  pose proof (month_start_range y m Hm) as [R1 R2].
  assert (y < y0 -> False).
  { intros Hlt. pose proof (days_before_mono (y + 1) (y0 - y - 1) ltac:(lia) ltac:(lia)) as Hmono.
    replace (y + 1 + (y0 - y - 1)) with y0 in Hmono by lia.
    rewrite days_before_next in Hmono by lia. lia. }
  assert (y1 <= y -> False); [|lia].
  intros Hle. pose proof (days_before_mono y1 (y - y1) ltac:(lia) ltac:(lia)) as Hmono.
  replace (y1 + (y - y1)) with y in Hmono by lia. lia.
Qed.

Lemma mjd_ymd_valid mjd y m d :
  0 <= mjd -> mjd2ymd mjd = (y, m, d) -> valid_date y m d = true /\ ymd2mjd y m d = Some mjd.
Proof.
  intros H E. destruct (mjd2ymd_number mjd y m d H E) as (Hy & Hm & Hd & En).
  split; [by apply valid_date_iff|]. rewrite ymd2mjd_eq by lia. by f_equal.
Qed.

Lemma mjd_ymd_inverse y m d :
  1859 <= y -> valid_date y m d = true ->
  exists mjd, ymd2mjd y m d = Some mjd /\ mjd2ymd mjd = (y, m, d).
Proof.
  intros Hy Hv. destruct (proj1 (valid_date_iff y m d) Hv) as [Hm Hd].
  eexists. split; [by apply ymd2mjd_eq; [lia|]|].
  set (n := days_before y + month_start y m + d - 678576).
  assert (Hn : 0 <= n).
  { pose proof (days_before_mono 1859 (y - 1859) ltac:(lia) ltac:(lia)) as Hmono.
    replace (1859 + (y - 1859)) with y in Hmono by lia. vm_compute (days_before 1859) in Hmono.
    pose proof (month_start_range y m Hm). subst n. lia. }
  destruct (mjd2ymd n) as [[y' m'] d'] eqn:E. destruct (mjd_ymd_valid n y' m' d' Hn E) as [Hv' E'].
  destruct (mjd2ymd_number n y' m' d' Hn E) as (Hy' & _).
  symmetry. eapply (ymd2mjd_inj y m d y' m' d' n); try done; [lia|lia|by apply ymd2mjd_eq; [lia|]].
Qed.

(** ** Properties *)


(** [ymd2mjd] undoes [mjd2ymd] on every day from 17 November 1858, and
    [mjd2ymd] undoes [ymd2mjd] on every calendar date since then. *)
Theorem mjd_ymd_roundtrip :
  (forall mjd, 0 <= mjd ->
    let '(y, m, d) := mjd2ymd mjd in valid_date y m d = true /\ ymd2mjd y m d = Some mjd) /\
  (forall y m d, 1859 <= y -> valid_date y m d = true ->
    exists mjd, ymd2mjd y m d = Some mjd /\ mjd2ymd mjd = (y, m, d)).
Proof.
  split; [|apply mjd_ymd_inverse]. intros mjd H.
  destruct (mjd2ymd mjd) as [[y m] d] eqn:E. by apply mjd_ymd_valid.
Qed.
