(* ===== verification/VdifHeader.v ===== *)
(** * VdifHeader: the VDIF frame header

    [vdifio.h] (the header structs, the inline accessors) and [vdifio.c] (the
    header operations, without the printing functions and the floating point
    [getVDIFFrameDMJD]).  A header is the record of its bit fields; an
    assignment to a field of [w] bits keeps the value modulo [2^w].  Functions
    that always return [VDIF_NOERROR] return the changed header alone; the
    others return the status with the header; a failed [assert] and an
    undefined behaviour are [None]. *)
From S2P Require Export BitFields DateUtils.
#[local] Open Scope Z_scope.

Create HintDb vdif.

Definition VDIF_HEADER_BYTES : Z := 32.
Definition VDIF_LEGACY_HEADER_BYTES : Z := 16.
Definition VDIF_MAX_THREAD_ID : Z := 1023.
Definition VDIF_NOERROR : Z := 0.
Definition VDIF_ERROR : Z := 1.
Definition VDIF_VERSION : Z := 0.

Record vdif_header : Type := {
  vh_seconds : Z;
  vh_legacymode : Z;
  vh_invalid : Z;
  vh_frame : Z;
  vh_epoch : Z;
  vh_unassigned : Z;
  vh_framelength8 : Z;
  vh_nchan : Z;
  vh_version : Z;
  vh_stationid : Z;
  vh_threadid : Z;
  vh_nbits : Z;
  vh_iscomplex : Z;
  vh_extended1 : Z;
  vh_eversion : Z;
  vh_extended2 : Z;
  vh_extended3 : Z;
  vh_extended4 : Z }.

#[export] Instance vdif_header_struct : BitStruct vdif_header.
Proof.
  refine {|
    layout := [30; 1; 1; 24; 6; 2; 24; 5; 3; 16; 10; 5; 1; 24; 8; 32; 32; 32]%nat;
    fields := fun h =>
      [vh_seconds h; vh_legacymode h; vh_invalid h; vh_frame h; vh_epoch h; vh_unassigned h;
      vh_framelength8 h; vh_nchan h; vh_version h; vh_stationid h; vh_threadid h; vh_nbits h;
      vh_iscomplex h; vh_extended1 h; vh_eversion h; vh_extended2 h; vh_extended3 h; vh_extended4
      h];
    make := fun l =>
      Build_vdif_header (nth 0 l 0) (nth 1 l 0) (nth 2 l 0) (nth 3 l 0) (nth 4 l 0) (nth 5 l 0)
      (nth 6 l 0) (nth 7 l 0) (nth 8 l 0) (nth 9 l 0) (nth 10 l 0) (nth 11 l 0) (nth 12 l 0) (nth
      13 l 0) (nth 14 l 0) (nth 15 l 0) (nth 16 l 0) (nth 17 l 0) |}.
  - by intros [].
  - intros l Hl. do 18 (destruct l as [|? l]; [done|]). destruct l; done.
Defined.

Definition vh_set_seconds (h : vdif_header) (v : Z) : vdif_header :=
  Build_vdif_header (uwrap 30 v) (vh_legacymode h) (vh_invalid h) (vh_frame h) (vh_epoch h)
    (vh_unassigned h) (vh_framelength8 h) (vh_nchan h) (vh_version h) (vh_stationid h)
    (vh_threadid h) (vh_nbits h) (vh_iscomplex h) (vh_extended1 h) (vh_eversion h) (vh_extended2
    h) (vh_extended3 h) (vh_extended4 h).

Definition vh_set_legacymode (h : vdif_header) (v : Z) : vdif_header :=
  Build_vdif_header (vh_seconds h) (uwrap 1 v) (vh_invalid h) (vh_frame h) (vh_epoch h)
    (vh_unassigned h) (vh_framelength8 h) (vh_nchan h) (vh_version h) (vh_stationid h)
    (vh_threadid h) (vh_nbits h) (vh_iscomplex h) (vh_extended1 h) (vh_eversion h) (vh_extended2
    h) (vh_extended3 h) (vh_extended4 h).

Definition vh_set_invalid (h : vdif_header) (v : Z) : vdif_header :=
  Build_vdif_header (vh_seconds h) (vh_legacymode h) (uwrap 1 v) (vh_frame h) (vh_epoch h)
    (vh_unassigned h) (vh_framelength8 h) (vh_nchan h) (vh_version h) (vh_stationid h)
    (vh_threadid h) (vh_nbits h) (vh_iscomplex h) (vh_extended1 h) (vh_eversion h) (vh_extended2
    h) (vh_extended3 h) (vh_extended4 h).

Definition vh_set_frame (h : vdif_header) (v : Z) : vdif_header :=
  Build_vdif_header (vh_seconds h) (vh_legacymode h) (vh_invalid h) (uwrap 24 v) (vh_epoch h)
    (vh_unassigned h) (vh_framelength8 h) (vh_nchan h) (vh_version h) (vh_stationid h)
    (vh_threadid h) (vh_nbits h) (vh_iscomplex h) (vh_extended1 h) (vh_eversion h) (vh_extended2
    h) (vh_extended3 h) (vh_extended4 h).

Definition vh_set_epoch (h : vdif_header) (v : Z) : vdif_header :=
  Build_vdif_header (vh_seconds h) (vh_legacymode h) (vh_invalid h) (vh_frame h) (uwrap 6 v)
    (vh_unassigned h) (vh_framelength8 h) (vh_nchan h) (vh_version h) (vh_stationid h)
    (vh_threadid h) (vh_nbits h) (vh_iscomplex h) (vh_extended1 h) (vh_eversion h) (vh_extended2
    h) (vh_extended3 h) (vh_extended4 h).

Definition vh_set_framelength8 (h : vdif_header) (v : Z) : vdif_header :=
  Build_vdif_header (vh_seconds h) (vh_legacymode h) (vh_invalid h) (vh_frame h) (vh_epoch h)
    (vh_unassigned h) (uwrap 24 v) (vh_nchan h) (vh_version h) (vh_stationid h) (vh_threadid h)
    (vh_nbits h) (vh_iscomplex h) (vh_extended1 h) (vh_eversion h) (vh_extended2 h) (vh_extended3
    h) (vh_extended4 h).

Definition vh_set_nchan (h : vdif_header) (v : Z) : vdif_header :=
  Build_vdif_header (vh_seconds h) (vh_legacymode h) (vh_invalid h) (vh_frame h) (vh_epoch h)
    (vh_unassigned h) (vh_framelength8 h) (uwrap 5 v) (vh_version h) (vh_stationid h) (vh_threadid
    h) (vh_nbits h) (vh_iscomplex h) (vh_extended1 h) (vh_eversion h) (vh_extended2 h)
    (vh_extended3 h) (vh_extended4 h).

Definition vh_set_version (h : vdif_header) (v : Z) : vdif_header :=
  Build_vdif_header (vh_seconds h) (vh_legacymode h) (vh_invalid h) (vh_frame h) (vh_epoch h)
    (vh_unassigned h) (vh_framelength8 h) (vh_nchan h) (uwrap 3 v) (vh_stationid h) (vh_threadid
    h) (vh_nbits h) (vh_iscomplex h) (vh_extended1 h) (vh_eversion h) (vh_extended2 h)
    (vh_extended3 h) (vh_extended4 h).

Definition vh_set_stationid (h : vdif_header) (v : Z) : vdif_header :=
  Build_vdif_header (vh_seconds h) (vh_legacymode h) (vh_invalid h) (vh_frame h) (vh_epoch h)
    (vh_unassigned h) (vh_framelength8 h) (vh_nchan h) (vh_version h) (uwrap 16 v) (vh_threadid h)
    (vh_nbits h) (vh_iscomplex h) (vh_extended1 h) (vh_eversion h) (vh_extended2 h) (vh_extended3
    h) (vh_extended4 h).

Definition vh_set_threadid (h : vdif_header) (v : Z) : vdif_header :=
  Build_vdif_header (vh_seconds h) (vh_legacymode h) (vh_invalid h) (vh_frame h) (vh_epoch h)
    (vh_unassigned h) (vh_framelength8 h) (vh_nchan h) (vh_version h) (vh_stationid h) (uwrap 10
    v) (vh_nbits h) (vh_iscomplex h) (vh_extended1 h) (vh_eversion h) (vh_extended2 h)
    (vh_extended3 h) (vh_extended4 h).

Definition vh_set_nbits (h : vdif_header) (v : Z) : vdif_header :=
  Build_vdif_header (vh_seconds h) (vh_legacymode h) (vh_invalid h) (vh_frame h) (vh_epoch h)
    (vh_unassigned h) (vh_framelength8 h) (vh_nchan h) (vh_version h) (vh_stationid h)
    (vh_threadid h) (uwrap 5 v) (vh_iscomplex h) (vh_extended1 h) (vh_eversion h) (vh_extended2 h)
    (vh_extended3 h) (vh_extended4 h).

Definition vh_set_iscomplex (h : vdif_header) (v : Z) : vdif_header :=
  Build_vdif_header (vh_seconds h) (vh_legacymode h) (vh_invalid h) (vh_frame h) (vh_epoch h)
    (vh_unassigned h) (vh_framelength8 h) (vh_nchan h) (vh_version h) (vh_stationid h)
    (vh_threadid h) (vh_nbits h) (uwrap 1 v) (vh_extended1 h) (vh_eversion h) (vh_extended2 h)
    (vh_extended3 h) (vh_extended4 h).

(** The EDV 4 view of the same 32 bytes. *)
Record vdif_edv4_header : Type := {
  v4_seconds : Z;
  v4_legacymode : Z;
  v4_invalid : Z;
  v4_frame : Z;
  v4_epoch : Z;
  v4_unassigned : Z;
  v4_framelength8 : Z;
  v4_nchan : Z;
  v4_version : Z;
  v4_stationid : Z;
  v4_threadid : Z;
  v4_nbits : Z;
  v4_iscomplex : Z;
  v4_dummy : Z;
  v4_masklength : Z;
  v4_eversion : Z;
  v4_syncword : Z;
  v4_validitymask : Z }.

#[export] Instance vdif_edv4_header_struct : BitStruct vdif_edv4_header.
Proof.
  refine {|
    layout := [30; 1; 1; 24; 6; 2; 24; 5; 3; 16; 10; 5; 1; 16; 8; 8; 32; 64]%nat;
    fields := fun h =>
      [v4_seconds h; v4_legacymode h; v4_invalid h; v4_frame h; v4_epoch h; v4_unassigned h;
      v4_framelength8 h; v4_nchan h; v4_version h; v4_stationid h; v4_threadid h; v4_nbits h;
      v4_iscomplex h; v4_dummy h; v4_masklength h; v4_eversion h; v4_syncword h; v4_validitymask
      h];
    make := fun l =>
      Build_vdif_edv4_header (nth 0 l 0) (nth 1 l 0) (nth 2 l 0) (nth 3 l 0) (nth 4 l 0) (nth 5 l
      0) (nth 6 l 0) (nth 7 l 0) (nth 8 l 0) (nth 9 l 0) (nth 10 l 0) (nth 11 l 0) (nth 12 l 0)
      (nth 13 l 0) (nth 14 l 0) (nth 15 l 0) (nth 16 l 0) (nth 17 l 0) |}.
  - by intros [].
  - intros l Hl. do 18 (destruct l as [|? l]; [done|]). destruct l; done.
Defined.

Definition v4_set_dummy (h : vdif_edv4_header) (v : Z) : vdif_edv4_header :=
  Build_vdif_edv4_header (v4_seconds h) (v4_legacymode h) (v4_invalid h) (v4_frame h) (v4_epoch h)
    (v4_unassigned h) (v4_framelength8 h) (v4_nchan h) (v4_version h) (v4_stationid h)
    (v4_threadid h) (v4_nbits h) (v4_iscomplex h) (uwrap 16 v) (v4_masklength h) (v4_eversion h)
    (v4_syncword h) (v4_validitymask h).

Definition v4_set_masklength (h : vdif_edv4_header) (v : Z) : vdif_edv4_header :=
  Build_vdif_edv4_header (v4_seconds h) (v4_legacymode h) (v4_invalid h) (v4_frame h) (v4_epoch h)
    (v4_unassigned h) (v4_framelength8 h) (v4_nchan h) (v4_version h) (v4_stationid h)
    (v4_threadid h) (v4_nbits h) (v4_iscomplex h) (v4_dummy h) (uwrap 8 v) (v4_eversion h)
    (v4_syncword h) (v4_validitymask h).

Definition v4_set_eversion (h : vdif_edv4_header) (v : Z) : vdif_edv4_header :=
  Build_vdif_edv4_header (v4_seconds h) (v4_legacymode h) (v4_invalid h) (v4_frame h) (v4_epoch h)
    (v4_unassigned h) (v4_framelength8 h) (v4_nchan h) (v4_version h) (v4_stationid h)
    (v4_threadid h) (v4_nbits h) (v4_iscomplex h) (v4_dummy h) (v4_masklength h) (uwrap 8 v)
    (v4_syncword h) (v4_validitymask h).

Definition v4_set_syncword (h : vdif_edv4_header) (v : Z) : vdif_edv4_header :=
  Build_vdif_edv4_header (v4_seconds h) (v4_legacymode h) (v4_invalid h) (v4_frame h) (v4_epoch h)
    (v4_unassigned h) (v4_framelength8 h) (v4_nchan h) (v4_version h) (v4_stationid h)
    (v4_threadid h) (v4_nbits h) (v4_iscomplex h) (v4_dummy h) (v4_masklength h) (v4_eversion h)
    (uwrap 32 v) (v4_validitymask h).

Definition v4_set_validitymask (h : vdif_edv4_header) (v : Z) : vdif_edv4_header :=
  Build_vdif_edv4_header (v4_seconds h) (v4_legacymode h) (v4_invalid h) (v4_frame h) (v4_epoch h)
    (v4_unassigned h) (v4_framelength8 h) (v4_nchan h) (v4_version h) (v4_stationid h)
    (v4_threadid h) (v4_nbits h) (v4_iscomplex h) (v4_dummy h) (v4_masklength h) (v4_eversion h)
    (v4_syncword h) (uwrap 64 v).

(** ** Reading one value *)

Definition getVDIFComplex (h : vdif_header) : Z := vh_iscomplex h.
Definition getVDIFLegacy (h : vdif_header) : Z := vh_legacymode h.
Definition getVDIFThreadID (h : vdif_header) : Z := vh_threadid h.
Definition getVDIFHeaderBytes (h : vdif_header) : Z :=
  if vh_legacymode h =? 0 then VDIF_HEADER_BYTES else VDIF_LEGACY_HEADER_BYTES.
Definition getVDIFFrameBytes (h : vdif_header) : Z := vh_framelength8 h * 8.
Definition getVDIFFrameSecond (h : vdif_header) : Z := cmod (vh_seconds h) 86400.
Definition getVDIFFrameNumber (h : vdif_header) : Z := vh_frame h.
Definition getVDIFStationID (h : vdif_header) : Z := vh_stationid h.
Definition getVDIFBitsPerSample (h : vdif_header) : Z := vh_nbits h + 1.
Definition getVDIFFrameInvalid (h : vdif_header) : Z := vh_invalid h.
Definition getVDIFFrameEpochSecOffset (h : vdif_header) : Z := vh_seconds h.
Definition getVDIFEpoch (h : vdif_header) : Z := vh_epoch h.

Definition getVDIFEpochMJD (h : vdif_header) : option Z :=
  let epoch := vh_epoch h in
  ymd2mjd (2000 + cdiv epoch 2) (cmod epoch 2 * 6 + 1) 1.

(** [while(logchans > 0) { numchannels *= 2; logchans--; }] *)
Fixpoint double_loop (logchans : nat) (numchannels : Z) : option Z :=
  match logchans with
  | O => Some numchannels
  | S logchans => numchannels' ← sint (numchannels * 2); double_loop logchans numchannels'
  end.

Definition getVDIFNumChannels (h : vdif_header) : option Z := double_loop (Z.to_nat (vh_nchan h)) 1.

Definition getVDIFFrameMJD (h : vdif_header) : option Z :=
  mjd ← getVDIFEpochMJD h; Some (mjd + cdiv (vh_seconds h) 86400).

Definition getVDIFFrameMJDSec (h : vdif_header) : option Z :=
  emjd ← getVDIFEpochMJD h; Some (u64 (u64 (u64 emjd * 86400) + vh_seconds h)).

(** ** Setting one value *)

Definition setVDIFFrameEpochSecOffset (h : vdif_header) (seconds : Z) : vdif_header :=
  vh_set_seconds h seconds.
Definition setVDIFFrameNumber (h : vdif_header) (framenumber : Z) : vdif_header :=
  vh_set_frame h framenumber.
Definition setVDIFFrameInvalid (h : vdif_header) (invalid : Z) : vdif_header :=
  vh_set_invalid h invalid.
Definition setVDIFBitsPerSample (h : vdif_header) (nbits : Z) : vdif_header :=
  vh_set_nbits h (nbits - 1).
Definition setVDIFComplex (h : vdif_header) (iscomplex : Z) : vdif_header :=
  vh_set_iscomplex h (if 0 <? iscomplex then 1 else 0).
Definition setVDIFEpoch (h : vdif_header) (epoch : Z) : vdif_header := vh_set_epoch h epoch.
Definition setVDIFThreadID (h : vdif_header) (threadid : Z) : vdif_header := vh_set_threadid h threadid.
Definition setVDIFFrameBytes (h : vdif_header) (bytes : Z) : vdif_header :=
  vh_set_framelength8 h (cdiv bytes 8).

(** [while(numchannels > 1) { numchannels /= 2; logchans++; }]: an [int] halves
    to 1 within 31 iterations. *)
Fixpoint halve_loop (fuel : nat) (numchannels logchans : Z) : option Z :=
  if 1 <? numchannels then
    match fuel with
    | O => None
    | S fuel => halve_loop fuel (cdiv numchannels 2) (logchans + 1)
    end
  else Some logchans.

Definition setVDIFNumChannels (h : vdif_header) (numchannels : Z) : option vdif_header :=
  logchans ← halve_loop 31 numchannels 0; Some (vh_set_nchan h logchans).

(** Assumes the epoch is already set. *)
Definition setVDIFFrameMJD (h : vdif_header) (mjd : Z) : option vdif_header :=
  emjd ← getVDIFEpochMJD h;
  let sec := cmod (vh_seconds h) 86400 in
  days ← sint (mjd - emjd);
  daysec ← sint (days * 86400);
  total ← sint (daysec + sec);
  Some (vh_set_seconds h total).

Definition setVDIFFrameMJDSec (h : vdif_header) (mjdsec : Z) : option vdif_header :=
  emjd ← getVDIFEpochMJD h;
  Some (vh_set_seconds h (s32 (u64 (mjdsec - u64 (u64 emjd * 86400))))).

Definition setVDIFFrameSecond (h : vdif_header) (seconds : Z) : option vdif_header :=
  mjdsec ← getVDIFFrameMJDSec h;
  let mjdsec := mjdsec - mjdsec mod 86400 in
  setVDIFFrameMJDSec h (u64 (mjdsec + seconds)).

Definition setVDIFEpochMJD (h : vdif_header) (mjd : Z) : vdif_header :=
  let '(year, month, day) := mjd2ymd mjd in
  let h := vh_set_epoch h ((year - 2000) * 2) in
  if 6 <? month then vh_set_epoch h (vh_epoch h + 1) else h.

(** ** Stepping through frames *)

Definition nextVDIFHeader (h : vdif_header) (framepersec : Z) : option (Z * vdif_header) :=
  if framepersec =? 16777216 then None else
  let h := vh_set_frame h (vh_frame h + 1) in
  if framepersec <? vh_frame h then Some (VDIF_ERROR, h)
  else if vh_frame h =? framepersec then
    Some (VDIF_NOERROR, vh_set_frame (vh_set_seconds h (vh_seconds h + 1)) 0)
  else Some (VDIF_NOERROR, h).

(** [while(frame < 0) { secinc++; frame += framepersec; }] *)
Fixpoint borrow_loop (fuel : nat) (framepersec frame secinc : Z) : option (Z * Z) :=
  if frame <? 0 then
    match fuel with
    | O => None
    | S fuel => secinc' ← sint (secinc + 1); borrow_loop fuel framepersec (frame + framepersec) secinc'
    end
  else Some (frame, secinc).

Definition incrementVDIFHeader (h : vdif_header) (framepersec inc : Z) : option (Z * vdif_header) :=
  frame ← slong (vh_frame h + inc);
  if framepersec <? frame then
    if framepersec =? 0 then None else
    let secinc := s32 (cdiv frame framepersec) in
    back ← sint (secinc * framepersec);
    let frame := frame - back in
    Some (VDIF_NOERROR, vh_set_frame (vh_set_seconds h (vh_seconds h + secinc)) frame)
  else
    '(frame, secinc) ← borrow_loop (Z.to_nat (- frame)) framepersec frame 0;
    if Z.abs secinc <? vh_seconds h then
      Some (VDIF_NOERROR, vh_set_frame (vh_set_seconds h (vh_seconds h - secinc)) frame)
    else None.

(** ** Unix time *)

Definition time2mjdsec (time : Z) : Z := u64 (UNIXZERO_MJD * 24 * 60 * 60 + u64 time).

(** [tm_year] and [tm_mon] of [gmtime_r]: the calendar date of the day. *)
Definition gmtime (time : Z) : Z * Z :=
  let '(y, m, _) := mjd2ymd (time / 86400 + UNIXZERO_MJD) in (y - 1900, m - 1).

Definition setVDIFEpochTime (h : vdif_header) (time : Z) : Z * vdif_header :=
  let '(tm_year, tm_mon) := gmtime time in
  let epoch := (tm_year - 100) * 2 in
  if epoch <? 0 then (VDIF_ERROR, h) else
  let epoch := if 6 <=? tm_mon then epoch + 1 else epoch in
  let epoch := cmod epoch 32 in
  (VDIF_NOERROR, vh_set_epoch h epoch).

Definition setVDIFFrameTime (h : vdif_header) (time : Z) : option vdif_header :=
  setVDIFFrameMJDSec h (time2mjdsec time).

(** ** Creating a header *)

(** The loop that rejects a channel count that is not a power of two:
    [Some None] is [return VDIF_ERROR]. *)
Fixpoint lognchan_loop (fuel : nat) (nchan lognchan : Z) : option (option Z) :=
  if 1 <? nchan then
    match fuel with
    | O => None
    | S fuel =>
        if cmod nchan 2 =? 1 then Some None
        else lognchan_loop fuel (cdiv nchan 2) (lognchan + 1)
    end
  else Some (Some lognchan).

Definition zero_header : vdif_header := Build_vdif_header 0 0 0 0 0 0 0 0 0 0 0 0 0 0 0 0 0 0.

(** The assignments that fill a valid header. [stationid] is two [char]s. *)
Definition fill_header (dataarraylength threadid bits lognchan iscomplex st0 st1 : Z) : vdif_header :=
  let h := zero_header in
  let h := vh_set_version h VDIF_VERSION in
  let h := vh_set_legacymode h 0 in
  let h := vh_set_invalid h 0 in
  let h := vh_set_nchan h lognchan in
  let h := vh_set_framelength8 h (cdiv (dataarraylength + VDIF_HEADER_BYTES) 8) in
  let h := vh_set_iscomplex h (if iscomplex =? 0 then 0 else 1) in
  let h := vh_set_nbits h (bits - 1) in
  let h := vh_set_threadid h threadid in
  let h := vh_set_stationid h (Z.lor (Z.shiftl st0 8) st1) in
  vh_set_frame h 0.

Definition createVDIFHeader (h : vdif_header) (dataarraylength threadid bits nchan iscomplex st0 st1 : Z)
    : option (Z * vdif_header) :=
  let h := vh_set_epoch h 0 in
  if 7 <? VDIF_VERSION then Some (VDIF_ERROR, h) else
  if (32 <? bits) || (bits <? 1) then Some (VDIF_ERROR, h) else
  if negb (cmod dataarraylength 8 =? 0) || (dataarraylength <? 0) then Some (VDIF_ERROR, h) else
  if (1023 <? threadid) || (threadid <? 0) then Some (VDIF_ERROR, h) else
  if nchan <? 1 then Some (VDIF_ERROR, h) else
  r ← lognchan_loop 31 nchan 0;
  match r with
  | None => Some (VDIF_ERROR, h)
  | Some lognchan =>
      if 31 <? lognchan then Some (VDIF_ERROR, h) else
      _ ← sint (dataarraylength + VDIF_HEADER_BYTES);
      Some (VDIF_NOERROR, fill_header dataarraylength threadid bits lognchan iscomplex st0 st1)
  end.

(** ** Memory image *)


(** The fields of a well-formed header are within their widths. *)
Record header_ok (h : vdif_header) : Prop := {
  ok_seconds : 0 <= vh_seconds h < 2 ^ 30;
  ok_legacymode : 0 <= vh_legacymode h < 2;
  ok_invalid : 0 <= vh_invalid h < 2;
  ok_frame : 0 <= vh_frame h < 2 ^ 24;
  ok_epoch : 0 <= vh_epoch h < 64;
  ok_framelength8 : 0 <= vh_framelength8 h < 2 ^ 24;
  ok_nchan : 0 <= vh_nchan h < 32;
  ok_threadid : 0 <= vh_threadid h < 1024;
  ok_nbits : 0 <= vh_nbits h < 32 }.

Lemma struct_header_ok h : struct_ok h -> header_ok h.
Proof.
  unfold struct_ok. cbn [layout fields vdif_header_struct]. intros H.
  repeat match goal with
  | H : Forall2 fits (_ :: _) _ |- _ => inversion H; clear H; subst
  end.
  unfold fits in *. split; cbn in *; lia.
Qed.

(** ** The two views of a header *)

(** The words 0 to 3, which both views share, as far as the struct gives them a
    meaning. *)
Definition shared_fields `{BitStruct T} (h : T) : list Z := take 13 (fields h).

Lemma header_whole : (width (layout (T:=vdif_header)) mod 8 = 0)%nat.
Proof. done. Qed.

Lemma edv4_whole : (width (layout (T:=vdif_edv4_header)) mod 8 = 0)%nat.
Proof. done. Qed.

Lemma length_header_bytes (h : vdif_header) : length (struct_bytes h) = 32%nat.
Proof. by rewrite length_struct_bytes. Qed.

Lemma length_edv4_bytes (h : vdif_edv4_header) : length (struct_bytes h) = 32%nat.
Proof. by rewrite length_struct_bytes. Qed.

Lemma edv4_view bs : bytes_ok bs ->
  shared_fields (struct_of_bytes bs : vdif_edv4_header) = shared_fields (struct_of_bytes bs : vdif_header).
Proof. intros Hb. by apply (fields_prefix 13 16). Qed.

Lemma header_view (bs bs' : buffer) : bytes_ok bs -> bytes_ok bs' -> take 16 bs = take 16 bs' ->
  shared_fields (struct_of_bytes bs : vdif_header) = shared_fields (struct_of_bytes bs' : vdif_header).
Proof. intros Hb Hb' H. by apply (fields_prefix 13 16). Qed.

(** Writing the EDV 4 words of a header leaves the shared words alone. *)
Lemma edv4_write (h4 : vdif_edv4_header) : struct_ok h4 ->
  shared_fields (struct_of_bytes (struct_bytes h4) : vdif_header) = shared_fields h4.
Proof.
  intros Hok. rewrite <-edv4_view by apply struct_bytes_bytes.
  by rewrite (struct_bytes_of edv4_whole).
Qed.

(** A setter stores its value modulo the field's width: the header stays
    within its layout. *)
Lemma fits_uwrap w v : fits w (uwrap (Z.of_nat w) v).
Proof. apply uwrap_range. lia. Qed.

Ltac setter_ok :=
  unfold struct_ok; cbn; intros;
  repeat match goal with H : Forall2 fits (_ :: _) _ |- _ => inversion H; clear H; subst end;
  repeat (constructor; [first [assumption | exact (fits_uwrap _ _)]|]); constructor.

Lemma zero_header_ok : struct_ok zero_header.
Proof. unfold struct_ok. cbn. repeat (constructor; [by split|]). constructor. Qed.

Lemma vh_set_seconds_ok h v : struct_ok h -> struct_ok (vh_set_seconds h v).
Proof. setter_ok. Qed.
Lemma vh_set_invalid_ok h v : struct_ok h -> struct_ok (vh_set_invalid h v).
Proof. setter_ok. Qed.
Lemma vh_set_frame_ok h v : struct_ok h -> struct_ok (vh_set_frame h v).
Proof. setter_ok. Qed.
Lemma vh_set_framelength8_ok h v : struct_ok h -> struct_ok (vh_set_framelength8 h v).
Proof. setter_ok. Qed.
Lemma vh_set_nchan_ok h v : struct_ok h -> struct_ok (vh_set_nchan h v).
Proof. setter_ok. Qed.
Lemma vh_set_threadid_ok h v : struct_ok h -> struct_ok (vh_set_threadid h v).
Proof. setter_ok. Qed.
Lemma v4_set_dummy_ok h v : struct_ok h -> struct_ok (v4_set_dummy h v).
Proof. setter_ok. Qed.
Lemma v4_set_masklength_ok h v : struct_ok h -> struct_ok (v4_set_masklength h v).
Proof. setter_ok. Qed.
Lemma v4_set_eversion_ok h v : struct_ok h -> struct_ok (v4_set_eversion h v).
Proof. setter_ok. Qed.
Lemma v4_set_syncword_ok h v : struct_ok h -> struct_ok (v4_set_syncword h v).
Proof. setter_ok. Qed.
Lemma v4_set_validitymask_ok h v : struct_ok h -> struct_ok (v4_set_validitymask h v).
Proof. setter_ok. Qed.

#[export] Hint Resolve vh_set_seconds_ok vh_set_invalid_ok vh_set_frame_ok vh_set_framelength8_ok vh_set_nchan_ok vh_set_threadid_ok v4_set_dummy_ok v4_set_masklength_ok v4_set_eversion_ok v4_set_syncword_ok v4_set_validitymask_ok : vdif.

Lemma double_loop_spec k n :
  0 <= n -> n * 2 ^ Z.of_nat k < 2 ^ 31 -> double_loop k n = Some (n * 2 ^ Z.of_nat k).
Proof.
  revert n. induction k as [|k IH]; intros n Hn Hlt; cbn [double_loop].
  - f_equal. simpl. lia.
  - rewrite Nat2Z.inj_succ, Z.pow_succ_r in * by lia.
    assert (0 < 2 ^ Z.of_nat k) by (apply Z.pow_pos_nonneg; lia).
    rewrite sint_Some by nia. cbn [mbind option_bind].
    rewrite IH by nia. f_equal. lia.
Qed.

Lemma getVDIFNumChannels_spec h :
  0 <= vh_nchan h <= 30 -> getVDIFNumChannels h = Some (2 ^ vh_nchan h).
Proof.
  intros H. unfold getVDIFNumChannels.
  rewrite double_loop_spec; rewrite ?Z2Nat.id by lia; [f_equal; lia|lia|].
  rewrite Z.mul_1_l. apply Z.pow_lt_mono_r; lia.
Qed.

Lemma half_log2 n : 1 < n -> Z.log2 (cdiv n 2) = Z.log2 n - 1.
Proof.
  intros H. rewrite Z.quot_div_nonneg, <-Z.div2_div, Z.div2_spec by lia.
  rewrite Z.log2_shiftr by lia. pose proof (Z.log2_pos n ltac:(lia)). lia.
Qed.

Lemma halve_loop_spec fuel n l :
  0 < n -> Z.log2 n <= Z.of_nat fuel -> halve_loop fuel n l = Some (l + Z.log2 n).
Proof.
  revert n l. induction fuel as [|fuel IH]; intros n l Hn Hf; cbn [halve_loop].
  - pose proof (Z.log2_nonneg n).
    destruct (Z.ltb_spec 1 n) as [H1|H1]; [pose proof (Z.log2_pos n); lia|].
    assert (n = 1) as -> by lia. f_equal. simpl. lia.
  - destruct (Z.ltb_spec 1 n) as [H1|H1].
    + rewrite IH; [rewrite half_log2 by done; f_equal; lia| |rewrite half_log2 by done; lia].
      apply Z.quot_str_pos. lia.
    + assert (n = 1) as -> by lia. f_equal. simpl. lia.
Qed.

(** A positive [int] fits the loop's fuel. *)
Lemma int_log2 n : 0 < n < 2 ^ 31 -> 0 <= Z.log2 n <= 30.
Proof.
  intros H. split; [apply Z.log2_nonneg|].
  assert (Z.log2 n < 31) by (apply Z.log2_lt_pow2; lia). lia.
Qed.

Lemma setVDIFNumChannels_spec h n :
  0 < n < 2 ^ 31 -> setVDIFNumChannels h n = Some (vh_set_nchan h (Z.log2 n)).
Proof.
  intros H. unfold setVDIFNumChannels. pose proof (int_log2 n H).
  by rewrite halve_loop_spec by lia.
Qed.

(** ** Epochs *)

(** The first day of a half-year. *)
Definition epoch_day (e : Z) : Z :=
  days_before (2000 + e / 2) + month_start (2000 + e / 2) (e mod 2 * 6 + 1) - 678575.

Lemma getVDIFEpochMJD_eq h :
  0 <= vh_epoch h < 64 -> getVDIFEpochMJD h = Some (epoch_day (vh_epoch h)).
Proof.
  intros He. unfold getVDIFEpochMJD, epoch_day.
  rewrite Z.quot_div_nonneg, Z.rem_mod_nonneg by lia.
  pose proof (Z.mod_pos_bound (vh_epoch h) 2 ltac:(lia)).
  pose proof (Z.div_pos (vh_epoch h) 2 ltac:(lia) ltac:(lia)).
  rewrite ymd2mjd_eq by lia. f_equal. lia.
Qed.

Lemma epoch_day_range e : 0 <= e < 64 -> 51544 <= epoch_day e <= 63050.
Proof.
  intros He.
  pose (f := fun e => (51544 <=? epoch_day e) && (epoch_day e <=? 63050)).
  assert (Hf : forall_from 64 0 f = true) by (vm_compute; reflexivity).
  apply (forall_from_spec _ _ _ Hf) in He. unfold f in He.
  rewrite andb_true_iff, !Z.leb_le in He. done.
Qed.

Lemma set_seconds_id h v : 0 <= v < 2 ^ 30 -> vh_seconds (vh_set_seconds h v) = v.
Proof. intros. cbn. by apply uwrap_small. Qed.

Lemma getVDIFFrameMJDSec_eq h :
  header_ok h -> getVDIFFrameMJDSec h = Some (epoch_day (vh_epoch h) * 86400 + vh_seconds h).
Proof.
  intros Hh. unfold getVDIFFrameMJDSec. rewrite getVDIFEpochMJD_eq by apply Hh. cbn [mbind option_bind].
  pose proof (epoch_day_range _ (ok_epoch _ Hh)). pose proof (ok_seconds _ Hh).
  by rewrite (uwrap_small 64 (epoch_day _)), (uwrap_small 64 (_ * 86400)), uwrap_small by lia.
Qed.

Lemma setVDIFFrameMJDSec_eq h s :
  0 <= vh_epoch h < 64 ->
  let sec := s - epoch_day (vh_epoch h) * 86400 in
  0 <= sec < 2 ^ 30 -> setVDIFFrameMJDSec h s = Some (vh_set_seconds h sec).
Proof.
  intros He sec Hs. unfold setVDIFFrameMJDSec. rewrite getVDIFEpochMJD_eq by done.
  cbn [mbind option_bind]. pose proof (epoch_day_range _ He). subst sec.
  rewrite (uwrap_small 64 (epoch_day _)), (uwrap_small 64 (_ * 86400)), uwrap_small by lia.
  by rewrite swrap_small by lia.
Qed.

Lemma header_ok_set_seconds h v : header_ok h -> header_ok (vh_set_seconds h v).
Proof. intros []. pose proof (uwrap_range 30 v ltac:(lia)). by split. Qed.

Lemma half_year_month y m :
  1 <= m <= 12 -> month_start y (if 6 <? m then 7 else 1) <= month_start y m /\
  month_start y m + days_in_month y m <= month_start y (if 6 <? m then 7 else 1) + 184.
Proof.
  intros Hm. unfold month_start, days_in_month.
  each_month Hm; destruct (is_leap y); vm_compute; split; discriminate.
Qed.

(** The half-year number of a date, and its first day. *)
Definition half_year (y m : Z) : Z := (y - 2000) * 2 + (if 6 <? m then 1 else 0).

Lemma epoch_day_half_year y m :
  epoch_day (half_year y m) = days_before y + month_start y (if 6 <? m then 7 else 1) - 678575.
Proof.
  unfold epoch_day, half_year.
  destruct (6 <? m).
  - replace (((y - 2000) * 2 + 1) / 2) with (y - 2000) by (Z.to_euclidean_division_equations; lia).
    replace (((y - 2000) * 2 + 1) mod 2) with 1 by (Z.to_euclidean_division_equations; lia).
    replace (2000 + (y - 2000)) with y by lia. done.
  - rewrite Z.add_0_r, Z.div_mul, Z_mod_mult by lia. replace (2000 + (y - 2000)) with y by lia. done.
Qed.

Lemma half_year_day mjd y m d :
  0 <= mjd -> mjd2ymd mjd = (y, m, d) ->
  epoch_day (half_year y m) <= mjd < epoch_day (half_year y m) + 184.
Proof.
  intros H E. destruct (mjd2ymd_number mjd y m d H E) as (Hy & Hm & Hd & En).
  rewrite epoch_day_half_year. pose proof (half_year_month y m Hm). lia.
Qed.

(** ** Properties of the time fields *)

(** A time in MJD seconds that lies within the 30-bit range of the header's
    epoch is read back as it was set; only the seconds field changes. *)
Theorem frame_mjdsec_roundtrip h s :
  header_ok h -> 0 <= s - epoch_day (vh_epoch h) * 86400 < 2 ^ 30 ->
  exists h', setVDIFFrameMJDSec h s = Some h' /\ getVDIFFrameMJDSec h' = Some s /\
    getVDIFFrameSecond h' = s mod 86400 /\ getVDIFFrameMJD h' = Some (s / 86400) /\
    h' = vh_set_seconds h (s - epoch_day (vh_epoch h) * 86400).
Proof.
  intros Hh Hs. eexists. split; [by apply setVDIFFrameMJDSec_eq; [apply Hh|]|].
  set (e := epoch_day (vh_epoch h)) in *. set (h' := vh_set_seconds h (s - e * 86400)).
  assert (Hh' : header_ok h') by by apply header_ok_set_seconds.
  assert (Es : vh_seconds h' = s - e * 86400) by by apply set_seconds_id.
  assert (Ee : vh_epoch h' = vh_epoch h) by done.
  split_and!.
  - rewrite getVDIFFrameMJDSec_eq by done. rewrite Ee, Es. fold e. f_equal. lia.
  - unfold getVDIFFrameSecond. rewrite Es, Z.rem_mod_nonneg by lia.
    replace s with (s - e * 86400 + e * 86400) at 2 by lia. by rewrite Z_mod_plus_full.
  - unfold getVDIFFrameMJD. rewrite getVDIFEpochMJD_eq by (rewrite Ee; apply Hh).
    cbn [mbind option_bind]. rewrite Ee, Es, Z.quot_div_nonneg by lia. fold e. f_equal.
    replace s with (s - e * 86400 + e * 86400) at 2 by lia. rewrite Z.div_add by lia. lia.
  - done.
Qed.

Lemma frame_mjdsec_roundtrip_witness :
  exists h', setVDIFFrameMJDSec zero_header (51544 * 86400 + 100000) = Some h' /\
    getVDIFFrameMJDSec h' = Some (51544 * 86400 + 100000) /\
    getVDIFFrameSecond h' = 13600 /\ getVDIFFrameMJD h' = Some 51545 /\
    h' = vh_set_seconds zero_header 100000.
Proof.
  apply (frame_mjdsec_roundtrip zero_header (51544 * 86400 + 100000)).
  - split; cbn; lia.
  - vm_compute. split; [discriminate|reflexivity].
Defined.

(** [setVDIFFrameSecond] keeps the day and sets the second of the day;
    [setVDIFFrameMJD] sets the day and keeps the second of the day. *)
Theorem frame_second_and_day h :
  header_ok h ->
  (forall sec, 0 <= sec < 86400 -> vh_seconds h - vh_seconds h mod 86400 + sec < 2 ^ 30 ->
    exists h', setVDIFFrameSecond h sec = Some h' /\ getVDIFFrameSecond h' = sec /\
      getVDIFFrameMJD h' = getVDIFFrameMJD h) /\
  (forall mjd, epoch_day (vh_epoch h) <= mjd -> (mjd - epoch_day (vh_epoch h)) * 86400 + 86400 <= 2 ^ 30 ->
    exists h', setVDIFFrameMJD h mjd = Some h' /\ getVDIFFrameMJD h' = Some mjd /\
      getVDIFFrameSecond h' = getVDIFFrameSecond h).
Proof.
  intros Hh. pose proof (ok_seconds _ Hh) as Hs. pose proof (epoch_day_range _ (ok_epoch _ Hh)) as He.
  set (e := epoch_day (vh_epoch h)) in *.
  pose proof (Z.mod_pos_bound (vh_seconds h) 86400 ltac:(lia)) as Hm.
  pose proof (Z.mod_le (vh_seconds h) 86400 ltac:(lia) ltac:(lia)) as Hm'.
  pose proof (Z.div_mod (vh_seconds h) 86400 ltac:(lia)) as Hdm.
  set (r := vh_seconds h mod 86400) in *. set (q := vh_seconds h / 86400) in *.
  split.
  - intros sec Hsec Hlt. unfold setVDIFFrameSecond. rewrite getVDIFFrameMJDSec_eq by done.
    cbn [mbind option_bind]. fold e.
    assert ((e * 86400 + vh_seconds h) mod 86400 = r) as ->
      by (rewrite Z.add_comm; apply Z_mod_plus_full).
    rewrite uwrap_small by lia. eexists. split.
    { apply setVDIFFrameMJDSec_eq; [apply Hh|fold e; lia]. }
    fold e. unfold getVDIFFrameSecond, getVDIFFrameMJD. rewrite set_seconds_id by lia.
    rewrite !getVDIFEpochMJD_eq by apply Hh. cbn [mbind option_bind].
    replace (e * 86400 + vh_seconds h - r + sec - e * 86400) with (sec + q * 86400) by lia.
    rewrite Z.rem_mod_nonneg, !Z.quot_div_nonneg, Z_mod_plus_full, Z.div_add by lia.
    rewrite Z.mod_small, Z.div_small by lia. done.
  - intros mjd H1 H2. unfold setVDIFFrameMJD. rewrite getVDIFEpochMJD_eq by apply Hh.
    cbn [mbind option_bind]. fold e. rewrite Z.rem_mod_nonneg by lia. fold r.
    do 3 (rewrite sint_Some by lia; cbn [mbind option_bind]). eexists. split; [done|].
    unfold getVDIFFrameSecond, getVDIFFrameMJD. rewrite set_seconds_id by lia.
    rewrite getVDIFEpochMJD_eq by apply Hh. cbn [mbind option_bind]. fold e.
    replace ((mjd - e) * 86400 + r) with (r + (mjd - e) * 86400) by lia.
    rewrite !Z.rem_mod_nonneg, Z.quot_div_nonneg, Z_mod_plus_full, Z.div_add by lia.
    rewrite (Z.mod_small r), (Z.div_small r) by lia. change (vh_epoch (vh_set_seconds h _)) with (vh_epoch h). fold e.
    split; [f_equal; lia|done].
Qed.

Lemma frame_second_and_day_witness :
  exists h', setVDIFFrameSecond (vh_set_seconds zero_header 100000) 7 = Some h' /\
    getVDIFFrameSecond h' = 7 /\ getVDIFFrameMJD h' = Some 51545.
Proof.
  apply (proj1 (frame_second_and_day (vh_set_seconds zero_header 100000)
           ltac:(split; vm_compute; (split; [discriminate|reflexivity]))) 7).
  - lia.
  - vm_compute. reflexivity.
Defined.

(** [setVDIFEpochMJD] selects the half-year that contains the day, for every
    day of the years 2000 to 2031: the epoch starts on 1 January or 1 July at
    most 183 days before it. *)
Theorem setVDIFEpochMJD_half_year h mjd :
  51544 <= mjd < 63232 ->
  let h' := setVDIFEpochMJD h mjd in
  let '(y, m, d) := mjd2ymd mjd in
  vh_epoch h' = half_year y m /\
  exists e, getVDIFEpochMJD h' = Some e /\ e <= mjd < e + 184 /\
    mjd2ymd e = (y, if 6 <? m then 7 else 1, 1).
Proof.
  intros Hr. unfold setVDIFEpochMJD. cbv zeta.
  destruct (mjd2ymd mjd) as [[y m] d] eqn:E. pose proof (half_year_day mjd y m d ltac:(lia) E) as Hd.
  assert (Hy : 2000 <= y < 2032).
  { apply (year_bounds mjd y m d); [lia|done|lia|lia|]. vm_compute (days_before _). lia. }
  assert (He : 0 <= half_year y m < 64) by (unfold half_year; destruct (6 <? m); lia).
  assert (E1 : vh_epoch (if 6 <? m
      then vh_set_epoch (vh_set_epoch h ((y - 2000) * 2)) (vh_epoch (vh_set_epoch h ((y - 2000) * 2)) + 1)
      else vh_set_epoch h ((y - 2000) * 2)) = half_year y m).
  { unfold half_year in *. destruct (6 <? m); cbn [vh_epoch vh_set_epoch].
    - by rewrite (uwrap_small 6 ((y - 2000) * 2)), uwrap_small by lia.
    - rewrite uwrap_small by lia. lia. }
  split; [done|]. exists (epoch_day (half_year y m)).
  rewrite getVDIFEpochMJD_eq by (rewrite E1; lia). rewrite E1. split; [done|]. split; [done|].
  destruct mjd_ymd_inverse with (y := y) (m := if 6 <? m then 7 else 1) (d := 1) as (n & En & Hn).
  { lia. }
  { unfold valid_date, days_in_month. by destruct (6 <? m). }
  rewrite epoch_day_half_year. rewrite ymd2mjd_eq in En by (destruct (6 <? m); lia).
  injection En as En. rewrite <-Hn. f_equal. lia.
Qed.

Lemma setVDIFEpochMJD_half_year_witness :
  vh_epoch (setVDIFEpochMJD zero_header 57300) = 31 /\
  exists e, getVDIFEpochMJD (setVDIFEpochMJD zero_header 57300) = Some e /\ e <= 57300 < e + 184 /\
    mjd2ymd e = (2015, 7, 1).
Proof. apply (setVDIFEpochMJD_half_year zero_header 57300). lia. Defined.

(** Sixteen years are 32 epochs. *)
Lemma epoch_day_wrap y m k :
  2000 <= y < 2048 -> 1 <= m <= 12 -> 16 * k = y - 2000 - (y - 2000) mod 16 -> 0 <= k <= 2 ->
  epoch_day (half_year y m) - 5844 * k - 1 <= epoch_day (half_year (y - 16 * k) m)
    <= epoch_day (half_year y m).
Proof.
  intros Hy Hm Hk Hk'.
  pose (f := fun n => let y := 2000 + n / 2 in let m := n mod 2 * 6 + 1 in let k := n / 2 / 16 in
    (epoch_day (half_year y m) - 5844 * k - 1 <=? epoch_day (half_year (y - 16 * k) m)) &&
    (epoch_day (half_year (y - 16 * k) m) <=? epoch_day (half_year y m))).
  assert (Hf : forall_from 96 0 f = true) by (vm_compute; reflexivity).
  set (n := half_year y m).
  assert (Hn : 0 <= n < 96) by (subst n; unfold half_year; destruct (6 <? m); lia).
  apply (forall_from_spec _ _ _ Hf) in Hn. unfold f in Hn. cbv zeta in Hn.
  assert (En : n / 2 = y - 2000 /\ n mod 2 = if 6 <? m then 1 else 0).
  { subst n. unfold half_year. destruct (6 <? m); Z.to_euclidean_division_equations; lia. }
  destruct En as [E1 E2]. rewrite E1, E2 in Hn.
  replace (2000 + (y - 2000)) with y in Hn by lia.
  replace ((y - 2000) / 16) with k in Hn by (Z.to_euclidean_division_equations; lia).
  assert (Ehalf : forall y, half_year y ((if 6 <? m then 1 else 0) * 6 + 1) = half_year y m).
  { intros z. unfold half_year. by destruct (6 <? m). }
  rewrite !Ehalf in Hn. rewrite andb_true_iff, !Z.leb_le in Hn. done.
Qed.

(** Setting the epoch and then the time from a Unix time between 2000 and 2047
    gives a header that reads back that time; the epoch number wraps every 16
    years ([epoch %= 32]) and the 30-bit seconds absorb the difference.  Times
    before 2000 are refused. *)
Theorem unix_time_roundtrip h time :
  header_ok h ->
  (0 <= time < 946684800 -> setVDIFEpochTime h time = (VDIF_ERROR, h)) /\
  (946684800 <= time < 2461449600 ->
   exists h1 h2, setVDIFEpochTime h time = (VDIF_NOERROR, h1) /\
     setVDIFFrameTime h1 time = Some h2 /\
     getVDIFFrameMJDSec h2 = Some (time + 40587 * 86400)).
Proof.
  intros Hh. unfold setVDIFEpochTime, gmtime, UNIXZERO_MJD.
  assert (Hday : 0 <= time -> 0 <= time / 86400) by (intros; by apply Z.div_pos).
  destruct (mjd2ymd (time / 86400 + 40587)) as [[y m] d] eqn:E. split; intros Ht.
  - assert (y < 2000).
    { apply (year_bounds (time / 86400 + 40587) y m d 1859 2000); [lia|exact E|lia|lia|]. vm_compute (days_before 1859). vm_compute (days_before 2000).
      Z.to_euclidean_division_equations; lia. }
    rewrite (proj2 (Z.ltb_lt _ _)) by lia. done.
  - assert (Hy : 2000 <= y < 2048).
    { apply (year_bounds (time / 86400 + 40587) y m d 2000 2048); [lia|exact E|lia|lia|]. vm_compute (days_before 2000). vm_compute (days_before 2048).
      Z.to_euclidean_division_equations; lia. }
    destruct (mjd2ymd_number (time / 86400 + 40587) y m d ltac:(lia) E) as (_ & Hm & _).
    pose proof (half_year_day (time / 86400 + 40587) y m d ltac:(lia) E) as Hd.
    rewrite (proj2 (Z.ltb_ge _ _)) by lia.
    set (k := (y - 2000) / 16).
    pose proof (epoch_day_wrap y m k Hy Hm ltac:(subst k; Z.to_euclidean_division_equations; lia)
      ltac:(subst k; Z.to_euclidean_division_equations; lia)) as Hw.
    assert (Ee : cmod (if 6 <=? m - 1 then (y - 1900 - 100) * 2 + 1 else (y - 1900 - 100) * 2) 32
      = half_year (y - 16 * k) m /\ 0 <= half_year (y - 16 * k) m < 32).
    { unfold half_year. subst k. destruct (Z.leb_spec 6 (m - 1)), (Z.ltb_spec 6 m); try lia;
      Z.to_euclidean_division_equations; lia. }
    destruct Ee as [-> Hr]. set (e := half_year (y - 16 * k) m) in *.
    assert (E6 : vh_epoch (vh_set_epoch h e) = e) by (cbn; apply uwrap_small; lia).
    pose proof (epoch_day_range e ltac:(lia)) as Hrange.
    eexists _, _. split; [done|].
    assert (Hsec : 0 <= time2mjdsec time - epoch_day e * 86400 < 2 ^ 30 /\
                   time2mjdsec time = time + 40587 * 86400).
    { unfold time2mjdsec, UNIXZERO_MJD. rewrite (uwrap_small 64 time), uwrap_small by lia.
      assert (k <= 2) by (subst k; Z.to_euclidean_division_equations; lia).
      split; [|lia]. Z.to_euclidean_division_equations; lia. }
    destruct Hsec as [Hsec Et]. split.
    { unfold setVDIFFrameTime. apply setVDIFFrameMJDSec_eq; rewrite E6; [lia|done]. }
    rewrite E6. rewrite getVDIFFrameMJDSec_eq.
    + rewrite set_seconds_id by done. change (vh_epoch (vh_set_seconds ?x _)) with (vh_epoch x).
      rewrite E6, Et. f_equal. lia.
    + apply header_ok_set_seconds. destruct Hh. pose proof (uwrap_range 6 e ltac:(lia)). by split.
Qed.

Lemma unix_time_roundtrip_witness :
  exists h1 h2, setVDIFEpochTime zero_header 1700000000 = (VDIF_NOERROR, h1) /\
    setVDIFFrameTime h1 1700000000 = Some h2 /\
    getVDIFFrameMJDSec h2 = Some (1700000000 + 40587 * 86400).
Proof.
  apply (proj2 (unix_time_roundtrip zero_header 1700000000 ltac:(split; cbn; lia))). lia.
Defined.

(** ** Stepping through frames *)

(** The frame number since the start of the epoch. *)
Definition abs_frame (framepersec : Z) (h : vdif_header) : Z :=
  vh_seconds h * framepersec + vh_frame h.

(** [nextVDIFHeader] advances a header by one frame and keeps the frame number
    below the number of frames per second; a header whose frame number is
    already at or above it is refused with [VDIF_ERROR]. *)
Theorem nextVDIFHeader_spec h framepersec :
  header_ok h -> 0 < framepersec < 2 ^ 24 -> vh_seconds h < 2 ^ 30 - 1 -> vh_frame h < 2 ^ 24 - 1 ->
  exists st h', nextVDIFHeader h framepersec = Some (st, h') /\
    (vh_frame h < framepersec ->
       st = VDIF_NOERROR /\ abs_frame framepersec h' = abs_frame framepersec h + 1 /\
       0 <= vh_frame h' < framepersec /\ vh_epoch h' = vh_epoch h) /\
    (framepersec <= vh_frame h -> st = VDIF_ERROR).
Proof.
  intros Hh Hf Hs Hfr. pose proof (ok_seconds _ Hh). pose proof (ok_frame _ Hh).
  unfold nextVDIFHeader, abs_frame. rewrite (proj2 (Z.eqb_neq _ _)) by lia.
  cbn [vh_frame vh_seconds vh_epoch vh_set_frame vh_set_seconds].
  rewrite (uwrap_small 24 (vh_frame h + 1)) by lia.
  destruct (Z.ltb_spec framepersec (vh_frame h + 1)); [|destruct (Z.eqb_spec (vh_frame h + 1) framepersec)];
    eexists _, _; (split; [done|]); cbn [vh_frame vh_seconds vh_epoch vh_set_frame vh_set_seconds].
  - split; [lia|done].
  - rewrite (uwrap_small 24 0), uwrap_small by lia. split; [|lia]. intros _. split_and!; (done || lia).
  - rewrite uwrap_small by lia. split; [|lia]. intros _. split_and!; (done || lia).
Qed.

Lemma nextVDIFHeader_spec_witness :
  exists st h', nextVDIFHeader (vh_set_frame zero_header 24999) 25000 = Some (st, h') /\
    (24999 < 25000 -> st = VDIF_NOERROR /\
       abs_frame 25000 h' = abs_frame 25000 (vh_set_frame zero_header 24999) + 1 /\
       0 <= vh_frame h' < 25000 /\ vh_epoch h' = 0) /\
    (25000 <= 24999 -> st = VDIF_ERROR).
Proof.
  apply (nextVDIFHeader_spec (vh_set_frame zero_header 24999) 25000).
  - split; vm_compute; (split; [discriminate|reflexivity]).
  - lia.
  - vm_compute. reflexivity.
  - vm_compute. reflexivity.
Defined.

Lemma borrow_loop_spec fuel f frame s :
  0 < f < 2 ^ 24 -> frame < 0 -> - frame <= Z.of_nat fuel -> 0 <= s ->
  s - frame / f < 2 ^ 31 ->
  borrow_loop fuel f frame s = Some (frame mod f, s - frame / f).
Proof.
  intros Hf. revert frame s. induction fuel as [|fuel IH]; intros frame s Hneg Hfu Hs Hb; [lia|].
  cbn [borrow_loop]. rewrite (proj2 (Z.ltb_lt _ _)) by done.
  assert (Hdiv : (frame + f) / f = frame / f + 1)
    by (rewrite <-(Z.div_add frame 1 f) by lia; f_equal; lia).
  assert (Hmod : (frame + f) mod f = frame mod f)
    by (rewrite <-(Z_mod_plus_full frame 1 f); f_equal; lia).
  assert (frame / f < 0) by (apply Z.div_lt_upper_bound; lia).
  rewrite sint_Some by lia. cbn [mbind option_bind].
  destruct (decide (frame + f < 0)).
  - rewrite IH by lia. rewrite Hdiv, Hmod. do 2 f_equal. lia.
  - rewrite <-Hmod. assert (Hq : frame / f = -1).
    { assert (0 <= (frame + f) / f) by (apply Z.div_pos; lia). lia. }
    rewrite Hq, Z.mod_small by lia.
    destruct fuel; cbn [borrow_loop]; rewrite (proj2 (Z.ltb_ge _ _)) by lia; do 2 f_equal; lia.
Qed.

(** [incrementVDIFHeader] moves a header by [inc] frames, forwards or backwards,
    in terms of frames since the epoch; the frame number of the result is
    below the number of frames per second unless the move ends exactly on the
    next full second.  The conditions are those of the code: the seconds must
    not leave their 30 bits, and a move that does not go forward past a second
    needs more whole seconds in the header than it borrows. *)
Theorem incrementVDIFHeader_spec h f inc :
  header_ok h -> 0 < f < 2 ^ 24 ->
  let t := vh_frame h + inc in
  (f < t < 2 ^ 31 /\ vh_seconds h + t / f < 2 ^ 30) \/
  (0 <= t <= f /\ 0 < vh_seconds h) \/
  (- 2 ^ 31 < t < 0 /\ - (t / f) < vh_seconds h) ->
  exists h', incrementVDIFHeader h f inc = Some (VDIF_NOERROR, h') /\
    abs_frame f h' = abs_frame f h + inc /\ 0 <= vh_frame h' <= f /\
    (t <> f -> vh_frame h' < f).
Proof.
  intros Hh Hf t Ht. pose proof (ok_seconds _ Hh) as Hs. pose proof (ok_frame _ Hh) as Hfr.
  pose proof (Z.div_mod t f ltac:(lia)) as Hdm. pose proof (Z.mod_pos_bound t f ltac:(lia)) as Hm.
  unfold incrementVDIFHeader, abs_frame. fold t. rewrite slong_Some by lia. cbn [mbind option_bind].
  destruct Ht as [[Ht Hsec]|[[Ht Hsec]|[Ht Hsec]]].
  - rewrite (proj2 (Z.ltb_lt _ _)), (proj2 (Z.eqb_neq _ _)), Z.quot_div_nonneg by lia.
    assert (0 <= t / f <= t) by (split; [apply Z.div_pos; lia|apply Z.div_le_upper_bound; nia]).
    rewrite swrap_small, sint_Some by nia. cbn [mbind option_bind]. eexists. split; [done|].
    cbn [vh_frame vh_seconds vh_set_frame vh_set_seconds].
    rewrite (uwrap_small 30), (uwrap_small 24) by nia. split; [lia|]. split; [nia|]. intros _. nia.
  - rewrite (proj2 (Z.ltb_ge _ _)) by lia.
    assert (borrow_loop (Z.to_nat (- t)) f t 0 = Some (t, 0)) as ->.
    { destruct (Z.to_nat (- t)); cbn [borrow_loop]; rewrite (proj2 (Z.ltb_ge _ _)) by lia; done. }
    cbn [mbind option_bind Z.abs]. rewrite (proj2 (Z.ltb_lt _ _)) by lia.
    eexists. split; [done|]. cbn [vh_frame vh_seconds vh_set_frame vh_set_seconds].
    rewrite (uwrap_small 30), (uwrap_small 24) by lia. split; [lia|]. split; [lia|]. lia.
  - rewrite (proj2 (Z.ltb_ge _ _)) by lia.
    assert (t / f < 0) by (apply Z.div_lt_upper_bound; lia).
    rewrite borrow_loop_spec by lia. cbn [mbind option_bind].
    rewrite (proj2 (Z.ltb_lt _ _)) by lia. eexists. split; [done|].
    cbn [vh_frame vh_seconds vh_set_frame vh_set_seconds].
    rewrite (uwrap_small 30), (uwrap_small 24) by lia. split; [lia|]. split; lia.
Qed.

Lemma incrementVDIFHeader_spec_witness :
  exists h', incrementVDIFHeader (vh_set_seconds zero_header 10) 1000 (-2500) = Some (VDIF_NOERROR, h') /\
    abs_frame 1000 h' = abs_frame 1000 (vh_set_seconds zero_header 10) + -2500 /\
    0 <= vh_frame h' <= 1000 /\ (0 + -2500 <> 1000 -> vh_frame h' < 1000).
Proof.
  apply (incrementVDIFHeader_spec (vh_set_seconds zero_header 10) 1000 (-2500)).
  - split; vm_compute; (split; [discriminate|reflexivity]).
  - lia.
  - right. right. vm_compute. repeat split; discriminate.
Defined.

(** Where the two disagree: from the last frame of a second [nextVDIFHeader]
    goes to frame 0 of the next second, [incrementVDIFHeader] by one frame leaves
    the frame number equal to the number of frames per second; and in the first
    second of an epoch it stops at its assertion although nothing is borrowed. *)
Theorem incrementVDIFHeader_not_normalised :
  let last := vh_set_frame (vh_set_seconds zero_header 10) 24999 in
  nextVDIFHeader last 25000 = Some (VDIF_NOERROR, vh_set_seconds zero_header 11) /\
  incrementVDIFHeader last 25000 1 =
    Some (VDIF_NOERROR, vh_set_frame (vh_set_seconds zero_header 10) 25000) /\
  nextVDIFHeader zero_header 25000 = Some (VDIF_NOERROR, vh_set_frame zero_header 1) /\
  incrementVDIFHeader zero_header 25000 1 = None.
Proof. vm_compute. split_and!; reflexivity. Qed.

(** ** Creating a header *)

Lemma even_log2 n : 1 < n -> cmod n 2 <> 1 -> (n = 2 ^ Z.log2 n <-> cdiv n 2 = 2 ^ Z.log2 (cdiv n 2)).
Proof.
  intros H He. rewrite half_log2 by done. rewrite Z.rem_mod_nonneg in He by lia.
  rewrite Z.quot_div_nonneg by lia. pose proof (Z.log2_pos n ltac:(lia)).
  rewrite (pow2_half (Z.log2 n)) by lia. Z.to_euclidean_division_equations; lia.
Qed.

Lemma lognchan_loop_spec fuel n l :
  0 < n -> Z.log2 n <= Z.of_nat fuel ->
  lognchan_loop fuel n l = Some (if n =? 2 ^ Z.log2 n then Some (l + Z.log2 n) else None).
Proof.
  revert n l. induction fuel as [|fuel IH]; intros n l Hn Hf; cbn [lognchan_loop].
  - pose proof (Z.log2_nonneg n).
    destruct (Z.ltb_spec 1 n) as [H1|H1]; [pose proof (Z.log2_pos n); lia|].
    assert (n = 1) as -> by lia. do 2 f_equal. simpl. f_equal. lia.
  - destruct (Z.ltb_spec 1 n) as [H1|H1].
    + pose proof (Z.log2_pos n ltac:(lia)). destruct (Z.eqb_spec (cmod n 2) 1) as [Ho|He].
      * rewrite (proj2 (Z.eqb_neq _ _)); [done|]. rewrite Z.rem_mod_nonneg in Ho by lia.
        rewrite (pow2_half (Z.log2 n)) by lia. Z.to_euclidean_division_equations; lia.
      * rewrite IH; [| |rewrite half_log2 by done; lia].
        -- pose proof (even_log2 n H1 He) as Hiff. rewrite half_log2 in * by done. f_equal.
           destruct (Z.eqb_spec n (2 ^ Z.log2 n)), (Z.eqb_spec (cdiv n 2) (2 ^ (Z.log2 n - 1)));
             [f_equal; lia|tauto|tauto|done].
        -- apply Z.quot_str_pos. lia.
    + assert (n = 1) as -> by lia. do 2 f_equal. simpl. f_equal. lia.
Qed.

(** The parameters [createVDIFHeader] accepts. *)
Definition create_valid (dataarraylength threadid bits nchan : Z) : bool :=
  (1 <=? bits) && (bits <=? 32) && (0 <=? dataarraylength) && (dataarraylength mod 8 =? 0) &&
  (0 <=? threadid) && (threadid <=? 1023) && (1 <=? nchan) && (nchan =? 2 ^ Z.log2 nchan).

Lemma createVDIFHeader_cases h len tid bits nchan iscomplex st0 st1 :
  nchan < 2 ^ 31 -> len < 2 ^ 31 - 32 ->
  createVDIFHeader h len tid bits nchan iscomplex st0 st1 =
  Some (if create_valid len tid bits nchan
        then (VDIF_NOERROR, fill_header len tid bits (Z.log2 nchan) iscomplex st0 st1)
        else (VDIF_ERROR, vh_set_epoch h 0)).
Proof.
  intros Hn Hl. unfold createVDIFHeader, create_valid.
  assert ((32 <? bits) || (bits <? 1) = negb ((1 <=? bits) && (bits <=? 32))) as ->
    by (destruct (Z.ltb_spec 32 bits), (Z.ltb_spec bits 1), (Z.leb_spec 1 bits), (Z.leb_spec bits 32);
        cbn; lia).
  assert ((1023 <? tid) || (tid <? 0) = negb ((0 <=? tid) && (tid <=? 1023))) as ->
    by (destruct (Z.ltb_spec 1023 tid), (Z.ltb_spec tid 0), (Z.leb_spec 0 tid), (Z.leb_spec tid 1023);
        cbn; lia).
  assert (negb (cmod len 8 =? 0) || (len <? 0) = negb ((0 <=? len) && (len mod 8 =? 0))) as ->.
  { destruct (Z.ltb_spec len 0), (Z.leb_spec 0 len); try lia.
    cbn [andb]. by rewrite orb_false_r, Z.rem_mod_nonneg by lia. }
  assert ((nchan <? 1) = negb (1 <=? nchan)) as ->
    by (destruct (Z.ltb_spec nchan 1), (Z.leb_spec 1 nchan); lia).
  change (7 <? VDIF_VERSION) with false. cbv beta match.
  destruct ((1 <=? bits) && (bits <=? 32)); cbn [andb negb]; [|done].
  destruct (Z.leb_spec 0 len); cbn [andb negb]; [|done].
  destruct (len mod 8 =? 0); cbn [andb negb]; [|done].
  destruct (0 <=? tid); cbn [andb negb]; [|done]. destruct (tid <=? 1023); cbn [andb negb]; [|done].
  destruct (Z.leb_spec 1 nchan); cbn [andb negb]; [|done].
  pose proof (int_log2 nchan ltac:(lia)). rewrite lognchan_loop_spec by lia. cbn [mbind option_bind].
  destruct (nchan =? 2 ^ Z.log2 nchan); [|done].
  rewrite (proj2 (Z.ltb_ge _ _)) by lia. rewrite sint_Some by (unfold VDIF_HEADER_BYTES; lia). done.
Qed.

(** C32 [createVDIFHeader] accepts exactly a width of 1 to 32 bits, a data length
    that is a multiple of 8, a thread id of 10 bits and a power of two of
    channels; for a frame of less than 2^27 bytes the header it fills reads
    back every parameter, with time, frame number and flags zero.  Otherwise
    it returns [VDIF_ERROR] and has only cleared the epoch. *)
Theorem createVDIFHeader_spec h len tid bits nchan iscomplex st0 st1 :
  nchan < 2 ^ 31 -> len + 32 < 2 ^ 27 -> 0 <= st0 < 128 -> 0 <= st1 < 128 ->
  (create_valid len tid bits nchan = false ->
   createVDIFHeader h len tid bits nchan iscomplex st0 st1 = Some (VDIF_ERROR, vh_set_epoch h 0)) /\
  (create_valid len tid bits nchan = true ->
   exists h', createVDIFHeader h len tid bits nchan iscomplex st0 st1 = Some (VDIF_NOERROR, h') /\
     getVDIFFrameBytes h' = len + 32 /\ getVDIFHeaderBytes h' = 32 /\
     getVDIFThreadID h' = tid /\ getVDIFBitsPerSample h' = bits /\
     getVDIFNumChannels h' = Some nchan /\ getVDIFComplex h' = (if iscomplex =? 0 then 0 else 1) /\
     getVDIFStationID h' = st0 * 256 + st1 /\ getVDIFFrameNumber h' = 0 /\
     getVDIFFrameEpochSecOffset h' = 0 /\ getVDIFEpoch h' = 0 /\ getVDIFFrameInvalid h' = 0).
Proof.
  intros Hn Hl H0 H1. rewrite createVDIFHeader_cases by lia.
  split; intros Hv; rewrite Hv; [done|]. eexists. split; [done|].
  unfold create_valid in Hv. rewrite !andb_true_iff, !Z.leb_le, !Z.eqb_eq in Hv.
  destruct Hv as (((((((Hb1 & Hb2) & Hl0) & Hl8) & Ht0) & Ht1) & Hn1) & Hn2).
  pose proof (int_log2 nchan ltac:(lia)) as Hlog.
  split_and!; try reflexivity.
  - change (uwrap 24 (cdiv (len + 32) 8) * 8 = len + 32). rewrite Z.quot_div_nonneg by lia.
    rewrite uwrap_small; Z.to_euclidean_division_equations; lia.
  - change (uwrap 10 tid = tid). apply uwrap_small. lia.
  - change (uwrap 5 (bits - 1) + 1 = bits). rewrite uwrap_small; lia.
  - rewrite getVDIFNumChannels_spec; change (vh_nchan _) with (uwrap 5 (Z.log2 nchan));
      rewrite uwrap_small by lia; [by rewrite <-Hn2|lia].
  - unfold getVDIFComplex. cbn. by destruct (iscomplex =? 0).
  - unfold getVDIFStationID. cbn [vh_stationid fill_header vh_set_frame vh_set_stationid].
    rewrite lor_shift_add by lia. apply uwrap_small. lia.
Qed.

Lemma createVDIFHeader_spec_witness :
  exists h', createVDIFHeader zero_header 8000 3 2 4 0 77 80 = Some (VDIF_NOERROR, h') /\
    getVDIFFrameBytes h' = 8000 + 32 /\ getVDIFHeaderBytes h' = 32 /\
    getVDIFThreadID h' = 3 /\ getVDIFBitsPerSample h' = 2 /\
    getVDIFNumChannels h' = Some 4 /\ getVDIFComplex h' = 0 /\
    getVDIFStationID h' = 77 * 256 + 80 /\ getVDIFFrameNumber h' = 0 /\
    getVDIFFrameEpochSecOffset h' = 0 /\ getVDIFEpoch h' = 0 /\ getVDIFFrameInvalid h' = 0.
Proof.
  apply (proj2 (createVDIFHeader_spec zero_header 8000 3 2 4 0 77 80
    ltac:(lia) ltac:(lia) ltac:(lia) ltac:(lia))).
  reflexivity.
Defined.
