(* ===== verification/VdifBuffer.v ===== *)
(** * VdifBuffer: finding frames in a buffer of VDIF data

    [vdifbuffer.c].  The functions look at the first three words of headers at
    arbitrary offsets of the buffer; reading a word that is not inside the
    buffer is [None].  [bufferSize] is the caller's idea of the length. *)
From S2P Require Export VdifHeader.
#[local] Open Scope Z_scope.

(** The header at byte [off]; only its first three words are read. *)
Definition hdr_at (buffer : list Z) (off : Z) : option vdif_header :=
  if decide (0 <= off /\ off + 12 <= Z.of_nat (length buffer))
  then Some (struct_of_bytes (slice buffer (Z.to_nat off) 32)) else None.

Definition close_in_time (vh1 vh2 vh3 : vdif_header) : bool :=
  (getVDIFEpoch vh1 =? getVDIFEpoch vh2) &&
  (getVDIFEpoch vh1 =? getVDIFEpoch vh3) &&
  (getVDIFFrameEpochSecOffset vh2 - getVDIFFrameEpochSecOffset vh1 <? 2) &&
  (getVDIFFrameEpochSecOffset vh3 - getVDIFFrameEpochSecOffset vh2 <? 2) &&
  (getVDIFFrameNumber vh2 - getVDIFFrameNumber vh1 <? 5) &&
  (getVDIFFrameNumber vh3 - getVDIFFrameNumber vh1 <? 5).

(** [a && b && ...] reads the next header only when the tests so far hold. *)
Definition comparethreeframes (buffer : list Z) (offset frameSize bufferSize : Z) : option Z :=
  if bufferSize <=? offset + 2 * frameSize then Some (-1) else
  vh1 ← hdr_at buffer offset;
  if negb (getVDIFFrameBytes vh1 =? frameSize) then Some (-1) else
  vh2 ← hdr_at buffer (offset + frameSize);
  if negb (getVDIFFrameBytes vh2 =? frameSize) then Some (-1) else
  vh3 ← hdr_at buffer (offset + 2 * frameSize);
  if negb (getVDIFFrameBytes vh3 =? frameSize) then Some (-1) else
  if close_in_time vh1 vh2 vh3 then Some frameSize else Some (-1).

(** [for(; n > 0; ++i) if(p(i)) return i;], then -1. *)
Fixpoint find_from (n : nat) (i : Z) (p : Z -> option bool) : option Z :=
  match n with
  | O => Some (-1)
  | S n => b ← p i; if (b : bool) then Some i else find_from n (i + 1) p
  end.

(** The inner loop: some offset shows three frames of the size. *)
Definition sizefits (buffer : list Z) (bufferSize frameSize : Z) : option bool :=
  let N := bufferSize - 2 * frameSize - VDIF_HEADER_BYTES in
  i ← find_from (Z.to_nat N) 0 (fun i =>
    r ← comparethreeframes buffer i frameSize bufferSize; Some (0 <? r));
  Some (0 <=? i).

(** The first size of [sizes] that fits. *)
Fixpoint trysizes (buffer : list Z) (bufferSize : Z) (sizes : list Z) : option Z :=
  match sizes with
  | [] => Some (-1)
  | frameSize :: sizes =>
      b ← sizefits buffer bufferSize frameSize;
      if (b : bool) then Some frameSize else trysizes buffer bufferSize sizes
  end.

Definition likelyFrameSizes : list Z :=
  [5032; 10032; 20032; 40032; 80032; 160032; 8032; 16032; 32032; 1032; 2032; 4032; 8224; 1312].

(** [frameSize = VDIF_HEADER_BYTES + 8; frameSize < bufferSize/4 && frameSize <
    524288; frameSize += 8] *)
Definition legalFrameSizes (bufferSize : Z) : list Z :=
  let first := VDIF_HEADER_BYTES + 8 in
  let last := Z.min (cdiv bufferSize 4) 524288 in
  (fun k => first + 8 * Z.of_nat k) <$> seq 0 (Z.to_nat ((last - first + 7) / 8)).

Definition determinevdifframesize (buffer : list Z) (bufferSize : Z) : option Z :=
  if bufferSize <? 3 * (VDIF_HEADER_BYTES + 8) then Some (-1) else
  vh ← hdr_at buffer 0;
  let frameSize := getVDIFFrameBytes vh in
  r ← comparethreeframes buffer 0 frameSize bufferSize;
  if 0 <? r then Some frameSize else
  trysizes buffer bufferSize (likelyFrameSizes ++ legalFrameSizes bufferSize).

Definition determinevdifframeoffset (buffer : list Z) (bufferSize frameSize : Z) : option Z :=
  let N := bufferSize - frameSize - VDIF_HEADER_BYTES in
  if (N <? frameSize) || (frameSize <? VDIF_HEADER_BYTES + 8) then Some (-1) else
  find_from (Z.to_nat N) 0 (fun i =>
    vh1 ← hdr_at buffer i;
    if negb (getVDIFFrameBytes vh1 =? frameSize) then Some false else
    vh2 ← hdr_at buffer (i + frameSize);
    Some ((getVDIFFrameBytes vh2 =? frameSize) && (getVDIFEpoch vh1 =? getVDIFEpoch vh2) &&
          (getVDIFFrameEpochSecOffset vh2 - getVDIFFrameEpochSecOffset vh1 <? 2))).

(** ** What the functions look for *)

(** The header at [off], for the specifications. *)
Definition hdr (buffer : list Z) (off : Z) : vdif_header :=
  struct_of_bytes (slice buffer (Z.to_nat off) 32).

Definition two_frames (buffer : list Z) (frameSize off : Z) : bool :=
  (getVDIFFrameBytes (hdr buffer off) =? frameSize) &&
  ((getVDIFFrameBytes (hdr buffer (off + frameSize)) =? frameSize) &&
   (getVDIFEpoch (hdr buffer off) =? getVDIFEpoch (hdr buffer (off + frameSize))) &&
   (getVDIFFrameEpochSecOffset (hdr buffer (off + frameSize))
      - getVDIFFrameEpochSecOffset (hdr buffer off) <? 2)).

Definition three_frames (buffer : list Z) (frameSize off : Z) : bool :=
  (getVDIFFrameBytes (hdr buffer off) =? frameSize) &&
  (getVDIFFrameBytes (hdr buffer (off + frameSize)) =? frameSize) &&
  (getVDIFFrameBytes (hdr buffer (off + 2 * frameSize)) =? frameSize) &&
  close_in_time (hdr buffer off) (hdr buffer (off + frameSize)) (hdr buffer (off + 2 * frameSize)).

Lemma hdr_at_Some buffer off :
  0 <= off -> off + 12 <= Z.of_nat (length buffer) -> hdr_at buffer off = Some (hdr buffer off).
Proof. intros. unfold hdr_at. by rewrite decide_True. Qed.

Lemma find_from_spec n i p q :
  0 <= i -> (forall j, i <= j < i + Z.of_nat n -> p j = Some (q j)) ->
  exists r, find_from n i p = Some r /\
    ((r = -1 /\ forall j, i <= j < i + Z.of_nat n -> q j = false) \/
     (i <= r < i + Z.of_nat n /\ q r = true /\ forall j, i <= j < r -> q j = false)).
Proof.
  revert i. induction n as [|n IH]; intros i Hi Hp; cbn [find_from].
  - exists (-1). split; [done|]. left. split; [done|]. lia.
  - rewrite Hp by lia. cbn [mbind option_bind]. destruct (q i) eqn:Eq.
    + exists i. split; [done|]. right. split; [lia|]. split; [done|]. lia.
    + destruct (IH (i + 1)) as (r & -> & Hr); [lia|intros; apply Hp; lia|].
      exists r. split; [done|]. destruct Hr as [[-> Hr]|(Hr1 & Hr2 & Hr3)]; [left|right].
      * split; [done|]. intros j Hj. destruct (decide (j = i)) as [->|]; [done|]. apply Hr. lia.
      * split; [lia|]. split; [done|]. intros j Hj.
        destruct (decide (j = i)) as [->|]; [done|]. apply Hr3. lia.
Qed.

Lemma comparethreeframes_spec buffer off f bs :
  bs = Z.of_nat (length buffer) -> 0 <= off -> 0 <= f -> off + 2 * f + 12 <= bs ->
  comparethreeframes buffer off f bs = Some (if three_frames buffer f off then f else -1).
Proof.
  intros -> Ho Hf Hb. unfold comparethreeframes, three_frames.
  rewrite (proj2 (Z.leb_gt _ _)) by lia. rewrite !hdr_at_Some by lia. cbn [mbind option_bind].
  repeat match goal with |- context [negb (?a =? f)] => destruct (a =? f); cbn [negb andb]; [|done] end.
  by destruct (close_in_time _ _ _).
Qed.

Lemma hdr_ok buffer off : header_ok (hdr buffer off).
Proof. apply struct_header_ok, struct_of_bytes_ok. Qed.

(** Some offset of the searched range shows three frames of size [f]. *)
Definition shows_size (buffer : list Z) (f : Z) : Prop :=
  exists off, 0 <= off < Z.of_nat (length buffer) - 2 * f - 32 /\ three_frames buffer f off = true.

Lemma sizefits_spec buffer f :
  0 < f -> exists b, sizefits buffer (Z.of_nat (length buffer)) f = Some b /\
    (b = true <-> shows_size buffer f).
Proof.
  intros Hf. unfold sizefits, VDIF_HEADER_BYTES.
  set (N := Z.of_nat (length buffer) - 2 * f - 32).
  destruct (find_from_spec (Z.to_nat N) 0
    (fun i => r ← comparethreeframes buffer i f (Z.of_nat (length buffer)); Some (0 <? r))
    (three_frames buffer f)) as (r & -> & Hr); [lia| |].
  - intros j Hj. rewrite comparethreeframes_spec by (done || lia). cbn [mbind option_bind].
    destruct (three_frames buffer f j); [by rewrite (proj2 (Z.ltb_lt _ _)) by lia|done].
  - cbn [mbind option_bind]. eexists. split; [done|]. rewrite Z.leb_le. unfold shows_size.
    destruct Hr as [[-> Hr]|(Hr1 & Hr2 & _)]; split.
    + lia.
    + intros (off & Ho & Ht). rewrite Hr in Ht by lia. done.
    + intros _. exists r. split; [lia|done].
    + lia.
Qed.

Lemma trysizes_spec buffer sizes :
  Forall (fun f => 0 < f) sizes ->
  exists r, trysizes buffer (Z.of_nat (length buffer)) sizes = Some r /\
    ((r = -1 /\ forall f, f ∈ sizes -> ~ shows_size buffer f) \/ (r ∈ sizes /\ shows_size buffer r)).
Proof.
  induction 1 as [|f sizes Hf _ IH]; cbn [trysizes].
  - exists (-1). split; [done|]. left. split; [done|]. intros f []%elem_of_nil.
  - destruct (sizefits_spec buffer f Hf) as (b & -> & Hb). cbn [mbind option_bind].
    destruct b.
    + exists f. split; [done|]. right. split; [apply elem_of_cons; by left|]. by apply Hb.
    + destruct IH as (r & -> & Hr). exists r. split; [done|].
      assert (~ shows_size buffer f) by (intros ?%Hb; done).
      destruct Hr as [[-> Hr]|[Hr1 Hr2]]; [left|right].
      * split; [done|]. intros g [->|Hg]%elem_of_cons; [done|]. by apply Hr.
      * split; [apply elem_of_cons; by right|done].
Qed.

Lemma sizes_positive bs : Forall (fun f => 0 < f) (likelyFrameSizes ++ legalFrameSizes bs).
Proof.
  apply Forall_app. split; [repeat constructor; lia|].
  apply Forall_fmap, Forall_true. intros k. cbn. unfold VDIF_HEADER_BYTES. lia.
Qed.

(** The size of the first header does not put a third header across the end of
    the buffer. *)
Definition third_inside (buffer : list Z) : Prop :=
  let f := getVDIFFrameBytes (hdr buffer 0) in
  2 * f + 12 <= Z.of_nat (length buffer) \/ Z.of_nat (length buffer) <= 2 * f.

(** [determinevdifframesize] on a buffer of the given length: a positive result
    is a size for which three consecutive consistent frame headers were seen;
    the size of the first header has precedence; -1 means that neither it nor
    any likely or legal size shows three frames anywhere. *)
Theorem determinevdifframesize_spec buffer :
  let bs := Z.of_nat (length buffer) in let f0 := getVDIFFrameBytes (hdr buffer 0) in
  120 <= bs -> third_inside buffer ->
  exists r, determinevdifframesize buffer bs = Some r /\
    (r = f0 /\ 0 < f0 /\ 2 * f0 + 12 <= bs /\ three_frames buffer f0 0 = true \/
     ~ (0 < f0 /\ 2 * f0 + 12 <= bs /\ three_frames buffer f0 0 = true) /\
     (r = -1 /\ (forall f, f ∈ likelyFrameSizes ++ legalFrameSizes bs -> ~ shows_size buffer f) \/
      r ∈ likelyFrameSizes ++ legalFrameSizes bs /\ shows_size buffer r)).
Proof.
  intros bs f0 Hbs H3. unfold third_inside in H3. fold bs f0 in H3.
  assert (Hf0 : 0 <= f0) by (pose proof (ok_framelength8 _ (hdr_ok buffer 0)); unfold f0, getVDIFFrameBytes; lia).
  unfold determinevdifframesize. rewrite (proj2 (Z.ltb_ge _ _)) by (unfold VDIF_HEADER_BYTES; lia).
  rewrite hdr_at_Some by lia. cbn [mbind option_bind]. fold f0.
  destruct (trysizes_spec buffer _ (sizes_positive bs)) as (r & Hr & Hres). fold bs in Hr.
  destruct H3 as [H3|H3].
  - rewrite comparethreeframes_spec by (done || lia). cbn [mbind option_bind].
    destruct (three_frames buffer f0 0) eqn:E3; [destruct (Z.ltb_spec 0 f0)|].
    + exists f0. split; [done|]. left. done.
    + exists r. rewrite Hr. split; [done|]. right. split; [lia|done].
    + exists r. rewrite Hr. split; [done|]. right. split; [intros (_ & _ & ?); done|done].
  - unfold comparethreeframes. rewrite (proj2 (Z.leb_le _ _)) by lia. cbn [mbind option_bind].
    exists r. rewrite Hr. split; [done|]. right. split; [lia|done].
Qed.

(** The third header is read without a check that it lies inside the buffer:
    two headers of 56 bytes at the start of a buffer of 120 bytes make the
    function read past its end. *)
Theorem determinevdifframesize_overread :
  let h := struct_bytes (vh_set_framelength8 zero_header 7) in
  let buffer := h ++ replicate 24 0 ++ h ++ replicate 32 0 in
  length buffer = 120%nat /\ determinevdifframesize buffer 120 = None.
Proof. vm_compute. split; reflexivity. Qed.

(** C35 [determinevdifframeoffset] never reads outside the buffer and returns the
    first offset that shows two consecutive consistent headers of the given
    size, or -1 when there is none. *)
Theorem determinevdifframeoffset_spec buffer f :
  let bs := Z.of_nat (length buffer) in let N := bs - f - 32 in
  40 <= f -> f <= N ->
  exists r, determinevdifframeoffset buffer bs f = Some r /\
    (r = -1 /\ (forall i, 0 <= i < N -> two_frames buffer f i = false) \/
     0 <= r < N /\ two_frames buffer f r = true /\ forall i, 0 <= i < r -> two_frames buffer f i = false).
Proof.
  intros bs N Hf HN. unfold determinevdifframeoffset, VDIF_HEADER_BYTES.
  rewrite (proj2 (Z.ltb_ge _ _)), (proj2 (Z.ltb_ge _ _)) by lia. cbn [orb]. fold N.
  destruct (find_from_spec (Z.to_nat N) 0 (fun i =>
    vh1 ← hdr_at buffer i;
    if negb (getVDIFFrameBytes vh1 =? f) then Some false else
    vh2 ← hdr_at buffer (i + f);
    Some ((getVDIFFrameBytes vh2 =? f) && (getVDIFEpoch vh1 =? getVDIFEpoch vh2) &&
          (getVDIFFrameEpochSecOffset vh2 - getVDIFFrameEpochSecOffset vh1 <? 2)))
    (two_frames buffer f)) as (r & -> & Hr); [lia| |].
  - intros j Hj. rewrite !hdr_at_Some by lia. cbn [mbind option_bind]. unfold two_frames.
    destruct (getVDIFFrameBytes (hdr buffer j) =? f); [|done]. cbn [negb andb].
    done.
  - exists r. split; [done|]. rewrite Z2Nat.id in Hr by lia. cbn in Hr. done.
Qed.

(** Witness data: three frames of 40 bytes (a bare header with 8 bytes of data)
    one second apart, behind 16 bytes of something else. *)
Definition sample_frame (sec : Z) : list Z :=
  struct_bytes (vh_set_seconds (vh_set_framelength8 zero_header 5) sec) ++ replicate 8 170.

Definition sample_buffer : list Z :=
  replicate 16 255 ++ sample_frame 7 ++ sample_frame 8 ++ sample_frame 9 ++ replicate 72 85.

Lemma determinevdifframeoffset_spec_witness :
  exists r, determinevdifframeoffset sample_buffer 208 40 = Some r /\
    (r = -1 /\ (forall i, 0 <= i < 136 -> two_frames sample_buffer 40 i = false) \/
     0 <= r < 136 /\ two_frames sample_buffer 40 r = true /\
     forall i, 0 <= i < r -> two_frames sample_buffer 40 i = false).
Proof.
  apply (determinevdifframeoffset_spec sample_buffer 40).
  - lia.
  - vm_compute. discriminate.
Defined.

Lemma determinevdifframesize_spec_witness :
  exists r, determinevdifframesize (sample_frame 7 ++ sample_frame 8 ++ sample_frame 9) 120 = Some r /\
    let buffer := sample_frame 7 ++ sample_frame 8 ++ sample_frame 9 in
    let f0 := getVDIFFrameBytes (hdr buffer 0) in
    (r = f0 /\ 0 < f0 /\ 2 * f0 + 12 <= 120 /\ three_frames buffer f0 0 = true \/
     ~ (0 < f0 /\ 2 * f0 + 12 <= 120 /\ three_frames buffer f0 0 = true) /\
     (r = -1 /\ (forall f, f ∈ likelyFrameSizes ++ legalFrameSizes 120 -> ~ shows_size buffer f) \/
      r ∈ likelyFrameSizes ++ legalFrameSizes 120 /\ shows_size buffer r)).
Proof.
  apply (determinevdifframesize_spec (sample_frame 7 ++ sample_frame 8 ++ sample_frame 9)).
  - vm_compute. discriminate.
  - left. vm_compute. discriminate.
Defined.
