(* ===== verification/VdifMux.v ===== *)
(** * VdifMux: configuration of the VDIF multiplexer

    The first half of [vdifmux.c]: [gcd], [set_nOutputChan], [configurevdifmux],
    [setvdifmuxinputchannels] and [setvdifmuxfanoutfactor] on the state
    [struct vdif_mux] of [vdifio.h].  A function that changes the state returns
    its status with the state it leaves, also when it fails half way. *)
From S2P Require Export VdifHeader CornerTurners.
#[local] Open Scope Z_scope.

(** ** [gcd] *)

(** The recursion halves an argument in every call, so 65 calls suffice for
    32-bit arguments. *)
Fixpoint gcd (fuel : nat) (u v : Z) : option Z :=
  match fuel with
  | O => None
  | S fuel =>
      if u =? v then Some u
      else if u =? 0 then Some v
      else if v =? 0 then Some u
      else if Z.land (u32 (Z.lnot u)) 1 =? 1 then
        if Z.land v 1 =? 1 then gcd fuel (Z.shiftr u 1) v
        else g ← gcd fuel (Z.shiftr u 1) (Z.shiftr v 1); Some (u32 (Z.shiftl g 1))
      else if Z.land (u32 (Z.lnot v)) 1 =? 1 then gcd fuel u (Z.shiftr v 1)
      else if v <? u then gcd fuel (Z.shiftr (u - v) 1) v
      else gcd fuel (Z.shiftr (v - u) 1) u
  end.

Lemma land_1 x : Z.land x 1 = x mod 2.
Proof. change 1 with (Z.ones 1). by rewrite Z.land_ones by lia. Qed.

Lemma lnot_land_1 x : 0 <= x < 2 ^ 32 -> Z.land (u32 (Z.lnot x)) 1 = 1 - x mod 2.
Proof.
  intros Hx. rewrite land_1. unfold uwrap. rewrite Z.mod_mod_divide by (by exists (2 ^ 31)).
  unfold Z.lnot. Z.to_euclidean_division_equations; lia.
Qed.

Lemma gcd_even_odd a v : v mod 2 = 1 -> Z.gcd (2 * a) v = Z.gcd a v.
Proof.
  intros Hv. apply Z.gcd_unique; [apply Z.gcd_nonneg| | |].
  - apply Z.divide_mul_r, Z.gcd_divide_l.
  - apply Z.gcd_divide_r.
  - intros q Hq1 Hq2. apply Z.gcd_greatest; [|done].
    apply Z.gauss with (m := 2); [done|].
    assert (Hg : Z.gcd q 2 = 1); [|done].
    pose proof (Z.gcd_nonneg q 2). pose proof (Z.gcd_divide_r q 2) as H2.
    pose proof (Z.gcd_divide_l q 2) as Hgq.
    assert (Z.gcd q 2 <= 2) by (apply Z.divide_pos_le; [lia|done]).
    assert (Z.gcd q 2 <> 0) by (intros E; apply Z.gcd_eq_0_r in E; lia).
    assert (Z.gcd q 2 <> 2); [|lia]. intros E. rewrite E in Hgq.
    assert (H2v : (2 | v)) by (by etransitivity).
    destruct H2v as [k ->]. rewrite Z_mod_mult in Hv. lia.
Qed.

Lemma gcd_sub_r u v : Z.gcd (u - v) v = Z.gcd u v.
Proof. rewrite Z.gcd_comm, Z.gcd_sub_diag_r, Z.gcd_comm. done. Qed.

Lemma shiftr_1 x : Z.shiftr x 1 = x / 2.
Proof. by rewrite Z.shiftr_div_pow2. Qed.

Lemma half_bound x a : 0 < x < 2 ^ Z.of_nat a ->
  exists a', a = S a' /\ 0 <= x / 2 < 2 ^ Z.of_nat a'.
Proof.
  intros Hx. destruct a as [|a]; [simpl in Hx; lia|]. exists a. split; [done|].
  rewrite Nat2Z.inj_succ, Z.pow_succ_r in Hx by lia. Z.to_euclidean_division_equations; lia.
Qed.

Lemma gcd_spec fuel a b u v :
  0 <= u < 2 ^ Z.of_nat a -> 0 <= v < 2 ^ Z.of_nat b -> (a <= 32)%nat -> (b <= 32)%nat ->
  (a + b < fuel)%nat -> gcd fuel u v = Some (Z.gcd u v).
Proof.
  revert a b u v. induction fuel as [|fuel IH]; intros a b u v Hu Hv Ha Hb Hf; [lia|].
  assert (P32 : forall n, (n <= 32)%nat -> 2 ^ Z.of_nat n <= 2 ^ 32)
    by (intros; apply Z.pow_le_mono_r; lia).
  pose proof (P32 a Ha). pose proof (P32 b Hb). cbn [gcd].
  destruct (Z.eqb_spec u v) as [->|Huv]; [f_equal; rewrite Z.gcd_diag; lia|].
  destruct (Z.eqb_spec u 0) as [->|Hu0]; [f_equal; rewrite Z.gcd_0_l; lia|].
  destruct (Z.eqb_spec v 0) as [->|Hv0]; [f_equal; rewrite Z.gcd_0_r; lia|].
  rewrite !lnot_land_1, !land_1, !shiftr_1 by lia.
  destruct (half_bound u a ltac:(lia)) as (a' & -> & Hu').
  destruct (half_bound v b ltac:(lia)) as (b' & -> & Hv').
  pose proof (Z.div_mod u 2 ltac:(lia)) as Eu. pose proof (Z.mod_pos_bound u 2 ltac:(lia)) as Mu.
  pose proof (Z.div_mod v 2 ltac:(lia)) as Ev. pose proof (Z.mod_pos_bound v 2 ltac:(lia)) as Mv.
  destruct (Z.eqb_spec (1 - u mod 2) 1) as [Eeu|Eou].
  - destruct (Z.eqb_spec (v mod 2) 1) as [Eov|Eev].
    + rewrite (IH a' (S b')) by lia. f_equal.
      replace u with (2 * (u / 2)) at 2 by lia. by rewrite gcd_even_odd.
    + rewrite (IH a' b') by lia. cbn [mbind option_bind]. f_equal.
      replace u with (2 * (u / 2)) at 2 by lia. replace v with (2 * (v / 2)) at 2 by lia.
      rewrite Z.gcd_mul_mono_l_nonneg, Z.shiftl_mul_pow2 by lia.
      assert (0 < Z.gcd (u / 2) (v / 2) <= u / 2).
      { pose proof (Z.gcd_nonneg (u / 2) (v / 2)).
        assert (Z.gcd (u / 2) (v / 2) <> 0) by (intros E%Z.gcd_eq_0_l; lia).
        split; [lia|]. apply Z.divide_pos_le; [lia|apply Z.gcd_divide_l]. }
      rewrite uwrap_small; lia.
  - destruct (Z.eqb_spec (1 - v mod 2) 1) as [Eev|Eov].
    + rewrite (IH (S a') b') by lia. f_equal.
      rewrite Z.gcd_comm, (Z.gcd_comm u). replace v with (2 * (v / 2)) at 2 by lia.
      rewrite gcd_even_odd; [done|lia].
    + destruct (Z.ltb_spec v u).
      * rewrite (IH a' (S b')); [|Z.to_euclidean_division_equations; lia|lia..]. f_equal.
        rewrite <-(gcd_even_odd _ v) by lia. rewrite <-(gcd_sub_r u v). f_equal.
        Z.to_euclidean_division_equations; lia.
      * rewrite (IH b' (S a')); [|Z.to_euclidean_division_equations; lia|lia..]. f_equal.
        rewrite <-(gcd_even_odd _ u) by lia. rewrite (Z.gcd_comm u v), <-(gcd_sub_r v u). f_equal.
        Z.to_euclidean_division_equations; lia.
Qed.

(** ** The state *)

Record vdif_mux : Type := {
  vm_inputFrameSize : Z;
  vm_inputDataSize : Z;
  vm_outputFrameSize : Z;
  vm_outputDataSize : Z;
  vm_inputFramesPerSecond : Z;
  vm_inputChannelsPerThread : Z;
  vm_bitsPerSample : Z;
  vm_nThread : Z;
  vm_nSort : Z;
  vm_nGap : Z;
  vm_frameGranularity : Z;
  vm_nOutputChan : Z;
  vm_complexFactor : Z;
  vm_fanoutFactor : Z;
  vm_flags : Z;
  vm_chanIndex : list Z;
  vm_goodMask : Z;
  vm_cornerTurner : option cornerturner }.

Definition vm_set_complexFactor (vm : vdif_mux) (v : Z) : vdif_mux :=
  Build_vdif_mux (vm_inputFrameSize vm) (vm_inputDataSize vm) (vm_outputFrameSize vm)
    (vm_outputDataSize vm) (vm_inputFramesPerSecond vm) (vm_inputChannelsPerThread vm)
    (vm_bitsPerSample vm) (vm_nThread vm) (vm_nSort vm) (vm_nGap vm) (vm_frameGranularity vm)
    (vm_nOutputChan vm) v (vm_fanoutFactor vm) (vm_flags vm) (vm_chanIndex vm) (vm_goodMask vm)
    (vm_cornerTurner vm).

Definition vm_set_cornerTurner (vm : vdif_mux) (v : option cornerturner) : vdif_mux :=
  Build_vdif_mux (vm_inputFrameSize vm) (vm_inputDataSize vm) (vm_outputFrameSize vm)
    (vm_outputDataSize vm) (vm_inputFramesPerSecond vm) (vm_inputChannelsPerThread vm)
    (vm_bitsPerSample vm) (vm_nThread vm) (vm_nSort vm) (vm_nGap vm) (vm_frameGranularity vm)
    (vm_nOutputChan vm) (vm_complexFactor vm) (vm_fanoutFactor vm) (vm_flags vm) (vm_chanIndex vm)
    (vm_goodMask vm) v.

Definition vm_set_inputChannelsPerThread (vm : vdif_mux) (v : Z) : vdif_mux :=
  Build_vdif_mux (vm_inputFrameSize vm) (vm_inputDataSize vm) (vm_outputFrameSize vm)
    (vm_outputDataSize vm) (vm_inputFramesPerSecond vm) v (vm_bitsPerSample vm) (vm_nThread vm)
    (vm_nSort vm) (vm_nGap vm) (vm_frameGranularity vm) (vm_nOutputChan vm) (vm_complexFactor vm)
    (vm_fanoutFactor vm) (vm_flags vm) (vm_chanIndex vm) (vm_goodMask vm) (vm_cornerTurner vm).

Definition vm_set_fanoutFactor (vm : vdif_mux) (v : Z) : vdif_mux :=
  Build_vdif_mux (vm_inputFrameSize vm) (vm_inputDataSize vm) (vm_outputFrameSize vm)
    (vm_outputDataSize vm) (vm_inputFramesPerSecond vm) (vm_inputChannelsPerThread vm)
    (vm_bitsPerSample vm) (vm_nThread vm) (vm_nSort vm) (vm_nGap vm) (vm_frameGranularity vm)
    (vm_nOutputChan vm) (vm_complexFactor vm) v (vm_flags vm) (vm_chanIndex vm) (vm_goodMask vm)
    (vm_cornerTurner vm).

Definition vm_set_nOutputChan (vm : vdif_mux) (v : Z) : vdif_mux :=
  Build_vdif_mux (vm_inputFrameSize vm) (vm_inputDataSize vm) (vm_outputFrameSize vm)
    (vm_outputDataSize vm) (vm_inputFramesPerSecond vm) (vm_inputChannelsPerThread vm)
    (vm_bitsPerSample vm) (vm_nThread vm) (vm_nSort vm) (vm_nGap vm) (vm_frameGranularity vm) v
    (vm_complexFactor vm) (vm_fanoutFactor vm) (vm_flags vm) (vm_chanIndex vm) (vm_goodMask vm)
    (vm_cornerTurner vm).

Definition vm_set_chanIndex (vm : vdif_mux) (v : list Z) : vdif_mux :=
  Build_vdif_mux (vm_inputFrameSize vm) (vm_inputDataSize vm) (vm_outputFrameSize vm)
    (vm_outputDataSize vm) (vm_inputFramesPerSecond vm) (vm_inputChannelsPerThread vm)
    (vm_bitsPerSample vm) (vm_nThread vm) (vm_nSort vm) (vm_nGap vm) (vm_frameGranularity vm)
    (vm_nOutputChan vm) (vm_complexFactor vm) (vm_fanoutFactor vm) (vm_flags vm) v (vm_goodMask
    vm) (vm_cornerTurner vm).

Definition vm_set_goodMask (vm : vdif_mux) (v : Z) : vdif_mux :=
  Build_vdif_mux (vm_inputFrameSize vm) (vm_inputDataSize vm) (vm_outputFrameSize vm)
    (vm_outputDataSize vm) (vm_inputFramesPerSecond vm) (vm_inputChannelsPerThread vm)
    (vm_bitsPerSample vm) (vm_nThread vm) (vm_nSort vm) (vm_nGap vm) (vm_frameGranularity vm)
    (vm_nOutputChan vm) (vm_complexFactor vm) (vm_fanoutFactor vm) (vm_flags vm) (vm_chanIndex vm)
    v (vm_cornerTurner vm).

Definition MAGIC_BAD_THREAD : Z := 20000.
Definition VDIF_MUX_FLAG_GOTOEND : Z := 0x01.
Definition VDIF_MUX_FLAG_RESPECTGRANULARITY : Z := 0x02.
Definition VDIF_MUX_FLAG_ENABLEVALIDITY : Z := 0x04.
Definition VDIF_MUX_FLAG_INPUTLEGACY : Z := 0x08.
Definition VDIF_MUX_FLAG_OUTPUTLEGACY : Z := 0x10.
Definition VDIF_MUX_FLAG_COMPLEX : Z := 0x20.
Definition VDIF_MUX_FLAG_PROPAGATEVALIDITY : Z := 0x40.

(** [flags & flag] as a condition. *)
Definition has_flag (flags flag : Z) : bool := negb (Z.land flags flag =? 0).

(** ** Configuration *)

Definition set_nOutputChan (vm : vdif_mux) : option vdif_mux :=
  if vm_fanoutFactor vm =? 0 then None else
  let nt := cdiv (vm_nThread vm) (vm_fanoutFactor vm) in
  n ← pow2_loop 31 1 nt;
  n ← sint (n * vm_inputChannelsPerThread vm);
  Some (vm_set_nOutputChan vm n).

(** The loop over [threadIds]: [false] is the return of an illegal thread id. *)
Fixpoint assign_threads (n i : nat) (threadIds chanIndex : list Z) : option (bool * list Z) :=
  match n with
  | O => Some (true, chanIndex)
  | S n =>
      id ← threadIds !! i;
      if (id <? 0) || (VDIF_MAX_THREAD_ID <? id) then Some (false, chanIndex)
      else assign_threads n (S i) threadIds (<[Z.to_nat id := u16 (Z.of_nat i)]> chanIndex)
  end.

(** The header sizes that [flags] select. *)
Definition header_size (flags flag : Z) : Z :=
  if has_flag flags flag then VDIF_LEGACY_HEADER_BYTES else VDIF_HEADER_BYTES.

Section Configure.
Context (SIZEOF_SIZE_T : Z).

Definition configurevdifmux (vm : vdif_mux)
    (inputFrameSize inputFramesPerSecond bitsPerSample nThread : Z) (threadIds : list Z)
    (nSort nGap flags : Z) : option (Z * vdif_mux) :=
  if 64 <? u64 nThread then Some (-3, vm) else
  let complexFactor := if has_flag flags VDIF_MUX_FLAG_COMPLEX then 2 else 1 in
  let vm := vm_set_complexFactor vm complexFactor in
  nBit ← sint (bitsPerSample * complexFactor);
  let cornerTurner := getCornerTurner SIZEOF_SIZE_T nThread nBit in
  let vm := vm_set_cornerTurner vm cornerTurner in
  if cornerTurner is None then Some (-1, vm) else
  g ← gcd 65 (u32 inputFramesPerSecond) 1000000000;
  let frameGranularity := s32 (u32 inputFramesPerSecond / g) in
  let nThread := Z.abs nThread in
  let nGap := if nGap <? nSort then nSort else nGap in
  vm ← set_nOutputChan {|
    vm_inputFrameSize := inputFrameSize;
    vm_inputDataSize := vm_inputDataSize vm;
    vm_outputFrameSize := vm_outputFrameSize vm;
    vm_outputDataSize := vm_outputDataSize vm;
    vm_inputFramesPerSecond := inputFramesPerSecond;
    vm_inputChannelsPerThread := 1;
    vm_bitsPerSample := bitsPerSample;
    vm_nThread := nThread;
    vm_nSort := nSort;
    vm_nGap := nGap;
    vm_frameGranularity := frameGranularity;
    vm_nOutputChan := vm_nOutputChan vm;
    vm_complexFactor := complexFactor;
    vm_fanoutFactor := 1;
    vm_flags := u32 flags;
    vm_chanIndex := vm_chanIndex vm;
    vm_goodMask := vm_goodMask vm;
    vm_cornerTurner := cornerTurner |};
  inputDataSize ← sint (inputFrameSize - header_size flags VDIF_MUX_FLAG_INPUTLEGACY);
  outputDataSize ← sint (inputDataSize * vm_nOutputChan vm);
  outputFrameSize ← sint (outputDataSize + header_size flags VDIF_MUX_FLAG_OUTPUTLEGACY);
  '(legal, chanIndex) ← assign_threads (Z.to_nat nThread) 0 threadIds (replicate 1024 MAGIC_BAD_THREAD);
  let vm := {|
    vm_inputFrameSize := vm_inputFrameSize vm;
    vm_inputDataSize := inputDataSize;
    vm_outputFrameSize := outputFrameSize;
    vm_outputDataSize := outputDataSize;
    vm_inputFramesPerSecond := vm_inputFramesPerSecond vm;
    vm_inputChannelsPerThread := vm_inputChannelsPerThread vm;
    vm_bitsPerSample := vm_bitsPerSample vm;
    vm_nThread := vm_nThread vm;
    vm_nSort := vm_nSort vm;
    vm_nGap := vm_nGap vm;
    vm_frameGranularity := vm_frameGranularity vm;
    vm_nOutputChan := vm_nOutputChan vm;
    vm_complexFactor := vm_complexFactor vm;
    vm_fanoutFactor := vm_fanoutFactor vm;
    vm_flags := vm_flags vm;
    vm_chanIndex := chanIndex;
    vm_goodMask := vm_goodMask vm;
    vm_cornerTurner := vm_cornerTurner vm |} in
  if (legal : bool) then
    (* a shift by the width of the type is undefined *)
    if 64 <=? nThread then None else
    Some (0, vm_set_goodMask vm (u64 (Z.shiftl 1 nThread - 1)))
  else Some (-2, vm).

(** A null [vm] is [None] on the left. *)
Definition setvdifmuxinputchannels (ovm : option vdif_mux) (inputChannelsPerThread : Z)
    : option (Z * option vdif_mux) :=
  match ovm with
  | None => Some (-1, None)
  | Some vm =>
      if inputChannelsPerThread <=? 0 then Some (-2, Some vm) else
      if (1 <? inputChannelsPerThread) && (1 <? vm_fanoutFactor vm) then Some (-3, Some vm) else
      vm ← set_nOutputChan (vm_set_inputChannelsPerThread vm inputChannelsPerThread);
      b ← sint (vm_bitsPerSample vm * vm_inputChannelsPerThread vm);
      nBit ← sint (b * vm_complexFactor vm);
      let cornerTurner := getCornerTurner SIZEOF_SIZE_T (vm_nThread vm) nBit in
      let vm := vm_set_cornerTurner vm cornerTurner in
      if cornerTurner is None then Some (-1, Some vm) else Some (0, Some vm)
  end.
End Configure.

Definition setvdifmuxfanoutfactor (ovm : option vdif_mux) (fanoutFactor : Z)
    : option (Z * option vdif_mux) :=
  match ovm with
  | None => Some (-1, None)
  | Some vm =>
      if fanoutFactor <? 1 then Some (-2, Some vm) else
      if (1 <? vm_inputChannelsPerThread vm) && (1 <? fanoutFactor) then Some (-3, Some vm) else
      if negb (cmod (vm_nThread vm) fanoutFactor =? 0) then Some (-4, Some vm) else
      vm ← set_nOutputChan (vm_set_fanoutFactor vm fanoutFactor);
      Some (0, Some vm)
  end.

(** ** Invariant of a configured multiplexer *)

Record mux_ok (SZ : Z) (vm : vdif_mux) : Prop := {
  mo_threads : 1 <= vm_nThread vm < 64;
  mo_turner : exists ct, vm_cornerTurner vm = Some ct /\
    getCornerTurner SZ (vm_nThread vm)
      (vm_bitsPerSample vm * vm_inputChannelsPerThread vm * vm_complexFactor vm) = Some ct;
  mo_bits : 0 < vm_bitsPerSample vm <= 128 /\ 1 <= vm_complexFactor vm <= 2;
  mo_channels : 0 < vm_inputChannelsPerThread vm <= 1024 /\ 0 < vm_fanoutFactor vm /\
    vm_nThread vm mod vm_fanoutFactor vm = 0;
  mo_nOutputChan : vm_nOutputChan vm =
    Z.of_nat (nchan (Z.to_nat (vm_nThread vm / vm_fanoutFactor vm))) * vm_inputChannelsPerThread vm;
  mo_inputData : vm_inputDataSize vm =
    vm_inputFrameSize vm - header_size (vm_flags vm) VDIF_MUX_FLAG_INPUTLEGACY;
  mo_outputData : vm_outputDataSize vm =
    vm_inputDataSize vm * Z.of_nat (nchan (Z.to_nat (vm_nThread vm)));
  mo_outputFrame : vm_outputFrameSize vm =
    vm_outputDataSize vm + header_size (vm_flags vm) VDIF_MUX_FLAG_OUTPUTLEGACY;
  mo_goodMask : vm_goodMask vm = 2 ^ vm_nThread vm - 1;
  mo_chanIndex : length (vm_chanIndex vm) = 1024%nat /\
    Forall (fun c => c = MAGIC_BAD_THREAD \/ 0 <= c < vm_nThread vm) (vm_chanIndex vm);
  mo_gap : vm_nSort vm <= vm_nGap vm }.

Lemma set_nOutputChan_spec vm :
  1 <= vm_nThread vm <= 64 -> 0 < vm_fanoutFactor vm -> vm_fanoutFactor vm <= vm_nThread vm ->
  0 < vm_inputChannelsPerThread vm < 2 ^ 24 ->
  set_nOutputChan vm = Some (vm_set_nOutputChan vm
    (Z.of_nat (nchan (Z.to_nat (vm_nThread vm / vm_fanoutFactor vm))) * vm_inputChannelsPerThread vm)).
Proof.
  intros Ht Hf Hft Hc. unfold set_nOutputChan. rewrite (proj2 (Z.eqb_neq _ _)) by lia.
  rewrite Z.quot_div_nonneg by lia. set (nt := vm_nThread vm / vm_fanoutFactor vm).
  assert (Hnt : 1 <= nt <= 64).
  { subst nt. split; [apply Z.div_le_lower_bound; lia|apply Z.div_le_upper_bound; nia]. }
  replace nt with (Z.of_nat (Z.to_nat nt)) at 1 by lia. rewrite nchan_pow2_loop by lia.
  cbn [mbind option_bind].
  assert ((nchan (Z.to_nat nt) <= 64)%nat).
  { unfold nchan. change 64%nat with (2 ^ 6)%nat. apply Nat.pow_le_mono_r; [lia|].
    apply Nat.log2_up_le_pow2; simpl; lia. }
  rewrite sint_Some by nia. done.
Qed.

(** ** Thread to channel map *)

Definition legal_id (id : Z) : bool := (0 <=? id) && (id <=? VDIF_MAX_THREAD_ID).

Lemma assign_threads_legal n i ids chan :
  Forall (fun id => legal_id id = true) ids -> (i + n <= length ids)%nat ->
  exists chan', assign_threads n i ids chan = Some (true, chan') /\ length chan' = length chan.
Proof.
  intros Hl. revert i chan. induction n as [|n IH]; intros i chan Hi; cbn [assign_threads]; [eauto|].
  destruct (lookup_lt_is_Some_2 ids i) as [id Hid]; [lia|]. rewrite Hid. cbn [mbind option_bind].
  assert (Hlid : legal_id id = true) by (exact (proj1 (Forall_lookup _ _) Hl _ _ Hid)).
  unfold legal_id in Hlid. rewrite andb_true_iff, !Z.leb_le in Hlid.
  rewrite (proj2 (Z.ltb_ge _ _)), (proj2 (Z.ltb_ge _ _)) by lia. cbn [orb].
  destruct (IH (S i) (<[Z.to_nat id:=u16 (Z.of_nat i)]> chan) ltac:(lia)) as (chan' & E & Hc).
  exists chan'. split; [done|]. by rewrite Hc, length_insert.
Qed.

Lemma assign_threads_bound n i ids chan r chan' m :
  assign_threads n i ids chan = Some (r, chan') -> (Z.of_nat (i + n) <= m) -> m <= 65536 ->
  Forall (fun c => c = MAGIC_BAD_THREAD \/ 0 <= c < m) chan ->
  Forall (fun c => c = MAGIC_BAD_THREAD \/ 0 <= c < m) chan' /\ length chan' = length chan.
Proof.
  revert i chan. induction n as [|n IH]; intros i chan; cbn [assign_threads].
  - intros [= <- <-] _ _ H. done.
  - destruct (ids !! i) as [id|]; cbn [mbind option_bind]; [|done].
    destruct ((id <? 0) || (VDIF_MAX_THREAD_ID <? id)); [intros [= <- <-]; done|].
    intros E Hm Hm' Hc. apply IH in E as [H1 H2]; [|lia|done|].
    + split; [done|]. by rewrite H2, length_insert.
    + apply Forall_insert; [done|]. right. rewrite uwrap_small by lia. lia.
Qed.

(** An entry that no later thread id touches keeps its value. *)
Lemma assign_threads_keep n i ids chan r chan' id :
  assign_threads n i ids chan = Some (r, chan') -> 0 <= id ->
  (forall j, (i <= j < i + n)%nat -> ids !! j <> Some id) ->
  chan' !! Z.to_nat id = chan !! Z.to_nat id.
Proof.
  revert i chan. induction n as [|n IH]; intros i chan; cbn [assign_threads].
  - intros [= <- <-]. done.
  - destruct (ids !! i) as [x|] eqn:Ex; cbn [mbind option_bind]; [|done].
    destruct ((x <? 0) || (VDIF_MAX_THREAD_ID <? x)) eqn:El; [intros [= <- <-]; done|].
    intros E Hid Hn. rewrite (IH _ _ E Hid); [|intros j Hj; apply Hn; lia].
    apply list_lookup_insert_ne. apply orb_false_iff in El as [H0%Z.ltb_ge _].
    intros Heq. apply (Hn i); [lia|]. rewrite Ex. f_equal. lia.
Qed.

(** The last position of a thread id in [threadIds] is its channel. *)
Lemma assign_threads_last n ids chan chan' i id :
  assign_threads n 0 ids chan = Some (true, chan') -> length chan = 1024%nat ->
  (i < n)%nat -> Z.of_nat n <= 65536 -> ids !! i = Some id ->
  (forall j, (i < j < n)%nat -> ids !! j <> Some id) ->
  chan' !! Z.to_nat id = Some (Z.of_nat i).
Proof.
  intros E Hlen Hi Hn Hid Hlast.
  assert (Hgen : forall m k chan, assign_threads m k ids chan = Some (true, chan') ->
    length chan = 1024%nat -> (k <= i < k + m)%nat -> (k + m = n)%nat ->
    chan' !! Z.to_nat id = Some (Z.of_nat i)).
  { clear chan E Hlen. induction m as [|m IH]; intros k chan E Hlen Hk Hkm; [lia|].
    cbn [assign_threads] in E. destruct (decide (k = i)) as [->|].
    - rewrite Hid in E. cbn [mbind option_bind] in E.
      destruct ((id <? 0) || (VDIF_MAX_THREAD_ID <? id)) eqn:El; [done|].
      apply orb_false_iff in El as [H0%Z.ltb_ge H1%Z.ltb_ge]. unfold VDIF_MAX_THREAD_ID in H1.
      rewrite (assign_threads_keep _ _ _ _ _ _ _ E H0) by (intros j ?; apply Hlast; lia).
      rewrite list_lookup_insert_eq by lia. rewrite uwrap_small by lia. done.
    - destruct (ids !! k) as [x|]; cbn [mbind option_bind] in E; [|done].
      destruct ((x <? 0) || (VDIF_MAX_THREAD_ID <? x)); [done|].
      apply (IH _ _ E); [by rewrite length_insert|lia|lia]. }
  apply (Hgen n 0%nat chan); [done..|lia|lia].
Qed.

Lemma assign_threads_total n i ids chan :
  (i + n <= length ids)%nat -> is_Some (assign_threads n i ids chan).
Proof.
  revert i chan. induction n as [|n IH]; intros i chan Hi; cbn [assign_threads]; [eauto|].
  destruct (lookup_lt_is_Some_2 ids i) as [id ->]; [lia|]. cbn [mbind option_bind].
  destruct (_ || _); [eauto|]. apply IH. lia.
Qed.

Lemma assign_threads_illegal n i ids chan k id :
  (i <= k < i + n)%nat -> ids !! k = Some id -> legal_id id = false -> (i + n <= length ids)%nat ->
  exists chan', assign_threads n i ids chan = Some (false, chan').
Proof.
  revert i chan. induction n as [|n IH]; intros i chan Hk Hid Hl Hlen; [lia|]. cbn [assign_threads].
  destruct (lookup_lt_is_Some_2 ids i) as [x Hx]; [lia|]. rewrite Hx. cbn [mbind option_bind].
  destruct ((x <? 0) || (VDIF_MAX_THREAD_ID <? x)) eqn:El; [eauto|].
  destruct (decide (i = k)) as [->|]; [|apply IH; (done || lia)].
  assert (x = id) as -> by congruence. exfalso. unfold legal_id in Hl.
  apply orb_false_iff in El as [H0%Z.ltb_ge H1%Z.ltb_ge].
  apply andb_false_iff in Hl as [?%Z.leb_gt|?%Z.leb_gt]; lia.
Qed.

(** ** Properties *)

(** The binary [gcd] of the multiplexer terminates within its recursion bound
    and is the greatest common divisor, for all 32-bit arguments. *)
Theorem gcd_correct u v :
  0 <= u < 2 ^ 32 -> 0 <= v < 2 ^ 32 -> gcd 65 u v = Some (Z.gcd u v).
Proof. intros Hu Hv. apply (gcd_spec 65 32 32); (done || lia). Qed.

Lemma gcd_correct_witness : gcd 65 25600 1000000000 = Some (Z.gcd 25600 1000000000).
Proof. apply gcd_correct; lia. Defined.

(** The arguments [configurevdifmux] can work with. *)
Record config_args (SZ inputFrameSize inputFramesPerSecond bitsPerSample nThread : Z)
    (threadIds : list Z) (flags : Z) : Prop := {
  ca_frame : 32 <= inputFrameSize < 2 ^ 24;
  ca_rate : 0 < inputFramesPerSecond < 2 ^ 31;
  ca_bits : 0 < bitsPerSample <= 128;
  ca_threads : 1 <= nThread < 64;
  ca_ids : nThread <= Z.of_nat (length threadIds);
  ca_flags : 0 <= flags < 2 ^ 31 }.

Lemma configure_gran r : 0 < r < 2 ^ 31 ->
  exists g, gcd 65 (u32 r) 1000000000 = Some g /\ s32 (u32 r / g) = r / Z.gcd r 1000000000.
Proof.
  intros Hr. rewrite uwrap_small by lia.
  exists (Z.gcd r 1000000000). split; [apply (gcd_spec 65 32 32); lia|].
  pose proof (Z.gcd_nonneg r 1000000000).
  assert (Z.gcd r 1000000000 <> 0) by (intros E%Z.gcd_eq_0_l; lia).
  apply swrap_small; [lia|].
  assert (0 <= r / Z.gcd r 1000000000 <= r); [|lia].
  split; [apply Z.div_pos; lia|apply Z.div_le_upper_bound; nia].
Qed.

Lemma nchan_64 nt : (nt <= 64)%nat -> (nchan nt <= 64)%nat.
Proof.
  intros H. unfold nchan. apply (Nat.pow_le_mono_r 2 _ 6); [lia|].
  destruct (decide (nt = 0)%nat) as [->|]; [vm_compute; lia|]. apply Nat.log2_up_le_pow2; [lia|]. exact H.
Qed.

Lemma header_size_range flags f : 16 <= header_size flags f <= 32.
Proof. unfold header_size. destruct (has_flag flags f); split; discriminate. Qed.

(** What [configurevdifmux] does with usable arguments, as one equation. *)
Lemma configure_eq SZ vm fs r bps nt ids nSort nGap flags ct :
  config_args SZ fs r bps nt ids flags ->
  let cf := if has_flag flags VDIF_MUX_FLAG_COMPLEX then 2 else 1 in
  getCornerTurner SZ nt (bps * cf) = Some ct ->
  exists legal chan, assign_threads (Z.to_nat nt) 0 ids (replicate 1024 MAGIC_BAD_THREAD) = Some (legal, chan) /\
  let ids_in := fs - header_size flags VDIF_MUX_FLAG_INPUTLEGACY in
  let ids_out := ids_in * Z.of_nat (nchan (Z.to_nat nt)) in
  let vm' := fun mask => Build_vdif_mux fs ids_in
      (ids_out + header_size flags VDIF_MUX_FLAG_OUTPUTLEGACY) ids_out r 1 bps nt nSort
      (if nGap <? nSort then nSort else nGap) (r / Z.gcd r 1000000000)
      (Z.of_nat (nchan (Z.to_nat nt))) cf 1 flags chan mask (Some ct) in
  configurevdifmux SZ vm fs r bps nt ids nSort nGap flags =
  Some (if legal then (0, vm' (2 ^ nt - 1)) else (-2, vm' (vm_goodMask vm))).
Proof.
  intros [Hfs Hr Hb Hnt Hids Hfl] cf Hct. unfold configurevdifmux.
  rewrite (uwrap_small 64 nt) by lia. rewrite (proj2 (Z.ltb_ge _ _)) by lia. fold cf.
  assert (Hcf : 1 <= cf <= 2) by (subst cf; destruct (has_flag _ _); lia).
  rewrite (sint_Some (bps * cf)) by nia. cbn [mbind option_bind]. rewrite Hct.
  destruct (configure_gran r Hr) as (g & Eg & Egran). rewrite Eg. cbn [mbind option_bind]. rewrite Egran.
  rewrite (Z.abs_eq nt) by lia.
  rewrite set_nOutputChan_spec by (cbn; lia).
  cbn [mbind option_bind vm_nOutputChan vm_set_nOutputChan vm_nThread vm_fanoutFactor
       vm_inputChannelsPerThread].
  rewrite Z.div_1_r, Z.mul_1_r.
  pose proof (nchan_64 (Z.to_nat nt) ltac:(lia)) as Hn64.
  pose proof (header_size_range flags VDIF_MUX_FLAG_INPUTLEGACY).
  pose proof (header_size_range flags VDIF_MUX_FLAG_OUTPUTLEGACY).
  do 3 (rewrite sint_Some by nia; cbn [mbind option_bind]).
  destruct (assign_threads_total (Z.to_nat nt) 0 ids (replicate 1024 MAGIC_BAD_THREAD) ltac:(lia))
    as ([legal chan] & E).
  exists legal, chan. split; [done|]. rewrite E. cbn [mbind option_bind].
  cbn [vm_inputFrameSize vm_set_nOutputChan vm_inputFramesPerSecond vm_inputChannelsPerThread
       vm_bitsPerSample vm_nThread vm_nSort vm_nGap vm_frameGranularity vm_nOutputChan vm_complexFactor
       vm_fanoutFactor vm_flags vm_goodMask vm_cornerTurner].
  rewrite (uwrap_small 32 flags) by lia.
  destruct legal; [|done]. rewrite (proj2 (Z.leb_gt _ _)) by lia.
  rewrite Z.shiftl_1_l. rewrite uwrap_small; [done|].
  assert (2 ^ nt <= 2 ^ 63) by (apply Z.pow_le_mono_r; lia).
  assert (0 < 2 ^ nt) by (apply Z.pow_pos_nonneg; lia). lia.
Qed.

(** C36 [configurevdifmux] with usable arguments, a supported pair of thread count
    and width, and legal thread ids succeeds and establishes the invariant of
    the multiplexer; the frame granularity is the smallest number of frames
    that last a whole number of nanoseconds; every listed thread id maps to
    its (last) position and every other id to the bad-thread marker. *)
Theorem configurevdifmux_ok SZ vm fs r bps nt ids nSort nGap flags :
  let cf := if has_flag flags VDIF_MUX_FLAG_COMPLEX then 2 else 1 in
  config_args SZ fs r bps nt ids flags -> supported nt (bps * cf) = true ->
  Forall (fun id => legal_id id = true) ids ->
  exists vm', configurevdifmux SZ vm fs r bps nt ids nSort nGap flags = Some (0, vm') /\
    mux_ok SZ vm' /\
    vm_frameGranularity vm' * Z.gcd r 1000000000 = r /\
    (forall i id, (i < Z.to_nat nt)%nat -> ids !! i = Some id ->
      (forall j, (i < j < Z.to_nat nt)%nat -> ids !! j <> Some id) ->
      vm_chanIndex vm' !! Z.to_nat id = Some (Z.of_nat i)) /\
    (forall id, 0 <= id < 1024 -> (forall j, (j < Z.to_nat nt)%nat -> ids !! j <> Some id) ->
      vm_chanIndex vm' !! Z.to_nat id = Some MAGIC_BAD_THREAD).
Proof.
  intros cf Hargs Hsup Hids. apply (supported_is_Some SZ) in Hsup as [ct Hct].
  destruct (configure_eq SZ vm fs r bps nt ids nSort nGap flags ct Hargs Hct)
    as (legal & chan & Ea & ->). destruct Hargs as [Hfs Hr Hb Hnt Hlen Hfl].
  destruct (assign_threads_legal (Z.to_nat nt) 0 ids (replicate 1024 MAGIC_BAD_THREAD) Hids ltac:(lia))
    as (chan0 & Ea0 & _).
  assert (legal = true) as -> by congruence. eexists. split; [done|].
  destruct (assign_threads_bound _ _ _ _ _ _ nt Ea) as [Hbound Hclen];
    [lia|lia|apply Forall_replicate; by left|]. rewrite length_replicate in Hclen.
  split; [|split; [|split]].
  - split; cbn [vm_nThread vm_cornerTurner vm_bitsPerSample vm_inputChannelsPerThread vm_complexFactor
      vm_fanoutFactor vm_nOutputChan vm_inputDataSize vm_inputFrameSize vm_flags vm_outputDataSize
      vm_outputFrameSize vm_goodMask vm_chanIndex vm_nSort vm_nGap]; try done.
    + exists ct. split; [done|]. by rewrite Z.mul_1_r.
    + split; [done|]. destruct (has_flag _ _); lia.
    + split_and!; [lia|lia|lia|apply Z.mod_1_r].
    + by rewrite Z.div_1_r, Z.mul_1_r.
    + destruct (Z.ltb_spec nGap nSort); lia.
  - cbn [vm_frameGranularity]. pose proof (Z.gcd_divide_l r 1000000000) as Hd.
    pose proof (Z.gcd_nonneg r 1000000000).
    assert (Z.gcd r 1000000000 <> 0) by (intros E%Z.gcd_eq_0_l; lia).
    set (g := Z.gcd r 1000000000) in *. clearbody g. destruct Hd as [k ->].
    by rewrite Z.div_mul.
  - cbn [vm_chanIndex]. intros i id Hi Hid Hlast.
    eapply assign_threads_last; (done || lia || by rewrite length_replicate).
  - cbn [vm_chanIndex]. intros id Hid Hnone.
    rewrite (assign_threads_keep _ _ _ _ _ _ _ Ea) by (lia || (intros j ?; apply Hnone; lia)).
    apply lookup_replicate_2. lia.
Qed.

(** Two threads of 2-bit samples with 8032-byte frames at 25600 frames per second. *)
Definition sample_mux : vdif_mux := Build_vdif_mux 0 0 0 0 0 0 0 0 0 0 0 0 0 0 0 [] 0 None.

Lemma sample_args : config_args 8 8032 25600 2 2 [5; 7] 0.
Proof. split; cbn; lia. Qed.

Lemma configurevdifmux_ok_witness :
  exists vm', configurevdifmux 8 sample_mux 8032 25600 2 2 [5; 7] 10 0 0 = Some (0, vm') /\
    mux_ok 8 vm' /\ vm_frameGranularity vm' * Z.gcd 25600 1000000000 = 25600 /\
    (forall i id, (i < 2)%nat -> [5; 7] !! i = Some id ->
      (forall j, (i < j < 2)%nat -> [5; 7] !! j <> Some id) ->
      vm_chanIndex vm' !! Z.to_nat id = Some (Z.of_nat i)) /\
    (forall id, 0 <= id < 1024 -> (forall j, (j < 2)%nat -> [5; 7] !! j <> Some id) ->
      vm_chanIndex vm' !! Z.to_nat id = Some MAGIC_BAD_THREAD).
Proof.
  apply (configurevdifmux_ok 8 sample_mux 8032 25600 2 2 [5; 7] 10 0 0).
  - apply sample_args.
  - reflexivity.
  - repeat constructor.
Defined.

(** The same, configured. *)
Definition sample_configured : vdif_mux :=
  Build_vdif_mux 8032 8000 16032 16000 25600 1 2 2 10 10 1 2 1 1 0
    (<[7%nat := 1]> (<[5%nat := 0]> (replicate 1024 MAGIC_BAD_THREAD))) 3
    (Some (cornerturn_2thread_2bit 8)).

Lemma sample_configured_ok : mux_ok 8 sample_configured.
Proof.
  split; cbn [sample_configured vm_nThread vm_cornerTurner vm_bitsPerSample vm_inputChannelsPerThread
    vm_complexFactor vm_fanoutFactor vm_nOutputChan vm_inputDataSize vm_inputFrameSize vm_flags
    vm_outputDataSize vm_outputFrameSize vm_goodMask vm_chanIndex vm_nSort vm_nGap];
    try reflexivity; try lia.
  - exists (cornerturn_2thread_2bit 8). by split.
  - split; [by rewrite !length_insert|].
    do 2 (apply Forall_insert; [|right; lia]). apply Forall_replicate. by left.
Qed.

(** The errors of [configurevdifmux]: -3 for more than 64 threads, -1 when no
    corner turner serves the threads and width, -2 for an illegal thread id;
    and, although a negative thread count is meant to request a special corner
    turner, it compares as a huge unsigned number and is always refused with
    -3, leaving the state as it was. *)
Theorem configurevdifmux_errors SZ vm fs r bps nt ids nSort nGap flags :
  (- 2 ^ 31 <= nt < 0 \/ 64 < nt < 2 ^ 31 ->
   configurevdifmux SZ vm fs r bps nt ids nSort nGap flags = Some (-3, vm)) /\
  (config_args SZ fs r bps nt ids flags ->
   let cf := if has_flag flags VDIF_MUX_FLAG_COMPLEX then 2 else 1 in
   (supported nt (bps * cf) = false ->
    configurevdifmux SZ vm fs r bps nt ids nSort nGap flags =
    Some (-1, vm_set_cornerTurner (vm_set_complexFactor vm cf) None)) /\
   (supported nt (bps * cf) = true ->
    (exists k id, (k < Z.to_nat nt)%nat /\ ids !! k = Some id /\ legal_id id = false) ->
    exists vm', configurevdifmux SZ vm fs r bps nt ids nSort nGap flags = Some (-2, vm'))).
Proof.
  split; [|intros Hargs cf; split].
  - intros Hnt. unfold configurevdifmux.
    assert (64 < u64 nt).
    { unfold uwrap. destruct Hnt as [Hnt|Hnt].
      - rewrite <-(Z_mod_plus_full nt 1), Z.mod_small by lia. lia.
      - rewrite Z.mod_small by lia. lia. }
    by rewrite (proj2 (Z.ltb_lt _ _)) by done.
  - intros Hs. destruct (getCornerTurner SZ nt (bps * cf)) as [ct|] eqn:Hct.
    { rewrite (proj1 (supported_is_Some SZ nt (bps * cf))) in Hs by eauto. done. }
    destruct Hargs as [Hfs Hr Hb Hnt Hlen Hfl]. unfold configurevdifmux.
    rewrite (uwrap_small 64 nt) by lia. rewrite (proj2 (Z.ltb_ge _ _)) by lia. fold cf.
    assert (1 <= cf <= 2) by (subst cf; destruct (has_flag _ _); lia).
    rewrite (sint_Some (bps * cf)) by nia. cbn [mbind option_bind]. by rewrite Hct.
  - intros Hs (k & id & Hk & Hid & Hill). apply (supported_is_Some SZ) in Hs as [ct Hct].
    destruct (configure_eq SZ vm fs r bps nt ids nSort nGap flags ct Hargs Hct)
      as (legal & chan & Ea & ->).
    destruct (assign_threads_illegal (Z.to_nat nt) 0 ids (replicate 1024 MAGIC_BAD_THREAD) k id)
      as [chan' E']; [lia|done|done|destruct Hargs; lia|].
    assert (legal = false) as -> by congruence. eauto.
Qed.

(** Sixty-four threads pass the check and have corner turners, but the mask of
    good threads is then computed with a shift by the width of its type. *)
Theorem configurevdifmux_64_threads :
  is_Some (getCornerTurner 8 64 2) /\
  configurevdifmux 8 sample_mux 8032 25600 2 64 (Z.of_nat <$> seq 0 64) 10 0 0 = None.
Proof. split; [by apply (supported_is_Some 8)|]. vm_compute. reflexivity. Qed.

(** [setvdifmuxinputchannels] on a configured multiplexer: it refuses a
    non-positive number of channels and the combination with fan-out and then
    leaves the state alone; it returns 0 exactly when a corner turner serves
    the wider samples, and then keeps the invariant, with the sizes of the
    frames unchanged. *)
Theorem setvdifmuxinputchannels_spec SZ vm n :
  mux_ok SZ vm -> n <= 1024 ->
  exists st vm', setvdifmuxinputchannels SZ (Some vm) n = Some (st, Some vm') /\
    (n <= 0 -> st = -2 /\ vm' = vm) /\
    (1 < n -> 1 < vm_fanoutFactor vm -> st = -3 /\ vm' = vm) /\
    (0 < n -> n = 1 \/ vm_fanoutFactor vm = 1 ->
       (st = 0 <-> supported (vm_nThread vm) (vm_bitsPerSample vm * n * vm_complexFactor vm) = true) /\
       vm_inputChannelsPerThread vm' = n /\ vm_outputFrameSize vm' = vm_outputFrameSize vm /\
       (st = 0 -> mux_ok SZ vm')).
Proof.
  intros Hok Hn. unfold setvdifmuxinputchannels.
  pose proof (mo_threads _ _ Hok). destruct (mo_channels _ _ Hok) as (Hc & Hf & Hdiv).
  destruct (mo_bits _ _ Hok) as [Hb Hcf].
  destruct (Z.leb_spec n 0). { eexists _, _. split; [done|]. split_and!; (done || lia). }
  destruct ((1 <? n) && (1 <? vm_fanoutFactor vm)) eqn:Efan.
  { apply andb_prop in Efan as [E1%Z.ltb_lt E2%Z.ltb_lt].
    eexists _, _. split; [done|]. split_and!; (done || lia). }
  assert (Hfan : ~ (1 < n /\ 1 < vm_fanoutFactor vm)).
  { intros [H1%Z.ltb_lt H2%Z.ltb_lt]. by rewrite H1, H2 in Efan. }
  assert (Hle : vm_fanoutFactor vm <= vm_nThread vm).
  { apply Z.divide_pos_le; [lia|]. by apply Z.mod_divide; [lia|]. }
  rewrite set_nOutputChan_spec by (cbn; lia).
  cbn [mbind option_bind vm_nThread vm_bitsPerSample vm_inputChannelsPerThread vm_complexFactor
       vm_set_nOutputChan vm_set_inputChannelsPerThread vm_fanoutFactor].
  assert (Hbn : 0 < vm_bitsPerSample vm * n <= 128 * 1024) by nia.
  do 2 (rewrite sint_Some by nia; cbn [mbind option_bind]).
  destruct (getCornerTurner SZ (vm_nThread vm) _) as [ct|] eqn:Ect; eexists _, _; (split; [done|]);
    (split; [lia|]); (split; [lia|]); intros _ _;
    rewrite <-(supported_is_Some SZ), Ect; (split; [|split; [done|split; [done|]]]).
  - split; eauto.
  - intros _. destruct Hok. split; try done. cbn. eauto.
  - split; [done|]. by intros [? ?].
  - done.
Qed.

(** [setvdifmuxfanoutfactor] on a configured multiplexer: the three refusals
    leave the state alone; otherwise it succeeds, keeps the invariant, and
    the output has the number of threads divided by the factor, rounded up to
    a power of two, as its channels. *)
Theorem setvdifmuxfanoutfactor_spec SZ vm f :
  mux_ok SZ vm -> f <= 1024 ->
  exists st vm', setvdifmuxfanoutfactor (Some vm) f = Some (st, Some vm') /\
    (f < 1 -> st = -2 /\ vm' = vm) /\
    (1 < f -> 1 < vm_inputChannelsPerThread vm -> st = -3 /\ vm' = vm) /\
    (1 <= f -> f = 1 \/ vm_inputChannelsPerThread vm = 1 ->
      (vm_nThread vm mod f <> 0 -> st = -4 /\ vm' = vm) /\
      (vm_nThread vm mod f = 0 -> st = 0 /\ mux_ok SZ vm' /\ vm_fanoutFactor vm' = f)).
Proof.
  intros Hok Hn. unfold setvdifmuxfanoutfactor.
  pose proof (mo_threads _ _ Hok). destruct (mo_channels _ _ Hok) as (Hc & Hf & Hdiv).
  destruct (Z.ltb_spec f 1). { eexists _, _. split; [done|]. split_and!; (done || lia). }
  destruct ((1 <? vm_inputChannelsPerThread vm) && (1 <? f)) eqn:Efan.
  { apply andb_prop in Efan as [E1%Z.ltb_lt E2%Z.ltb_lt].
    eexists _, _. split; [done|]. split_and!; (done || lia). }
  assert (Hfan : ~ (1 < vm_inputChannelsPerThread vm /\ 1 < f)).
  { intros [H1%Z.ltb_lt H2%Z.ltb_lt]. by rewrite H1, H2 in Efan. }
  rewrite Z.rem_mod_nonneg by lia. destruct (Z.eqb_spec (vm_nThread vm mod f) 0) as [E0|E0]; cbn [negb].
  - assert (Hle : f <= vm_nThread vm).
    { apply Z.divide_pos_le; [lia|]. by apply Z.mod_divide; [lia|]. }
    rewrite set_nOutputChan_spec by (cbn; lia). cbn [mbind option_bind].
    eexists _, _. split; [done|]. split; [lia|]. split; [lia|]. intros _ _. split; [done|].
    intros _. split; [done|]. split; [|done]. destruct Hok. split; try done.
    cbn. split_and!; (done || lia).
  - eexists _, _. split; [done|]. split; [lia|]. split; [lia|]. intros _ _. split; [done|lia].
Qed.


Lemma setvdifmuxinputchannels_spec_witness :
  exists st vm', setvdifmuxinputchannels 8 (Some sample_configured) 4 = Some (st, Some vm') /\
    (4 <= 0 -> st = -2 /\ vm' = sample_configured) /\
    (1 < 4 -> 1 < 1 -> st = -3 /\ vm' = sample_configured) /\
    (0 < 4 -> 4 = 1 \/ 1 = 1 ->
       (st = 0 <-> supported 2 8 = true) /\
       vm_inputChannelsPerThread vm' = 4 /\ vm_outputFrameSize vm' = 16032 /\
       (st = 0 -> mux_ok 8 vm')).
Proof.
  apply (setvdifmuxinputchannels_spec 8 sample_configured 4).
  - apply sample_configured_ok.
  - lia.
Defined.

Lemma setvdifmuxfanoutfactor_spec_witness :
  exists st vm', setvdifmuxfanoutfactor (Some sample_configured) 2 = Some (st, Some vm') /\
    (2 < 1 -> st = -2 /\ vm' = sample_configured) /\
    (1 < 2 -> 1 < 1 -> st = -3 /\ vm' = sample_configured) /\
    (1 <= 2 -> 2 = 1 \/ 1 = 1 ->
      (2 mod 2 <> 0 -> st = -4 /\ vm' = sample_configured) /\
      (2 mod 2 = 0 -> st = 0 /\ mux_ok 8 vm' /\ vm_fanoutFactor vm' = 2)).
Proof.
  apply (setvdifmuxfanoutfactor_spec 8 sample_configured 2).
  - apply sample_configured_ok.
  - lia.
Defined.
