(* ===== verification/VdifMuxRun.v ===== *)
(** * VdifMuxRun: multiplexing a buffer of VDIF data

    The second half of [vdifmux.c]: [getLowestFrameNumber],
    [getHighestFrameNumber] and [vdifmux].

    The input [src] is a byte buffer at address [src_addr].  The destination is
    the list of its output frames, each a buffer of [outputFrameSize] bytes
    (the code addresses it as [dest + outputFrameSize*f]); while the input is
    read a frame holds, as in the code, the mask of the threads found in bytes
    24..31 and the pointers to their payloads from byte 32 on.  A pointer is a
    64-bit integer.  An access outside a buffer or a frame, a signed overflow
    and an undefined shift are [None]. *)
From S2P Require Export VdifMux.
#[local] Open Scope Z_scope.

(** A [w]-byte little-endian load at byte [off]. *)
Definition load_at (w : nat) (buf : buffer) (off : Z) : option Z :=
  if decide (0 <= off /\ off + Z.of_nat w <= Z.of_nat (length buf))
  then Some (le_combine (slice buf (Z.to_nat off) w)) else None.

Definition FILL_PATTERN : Z := 0x11223344.

(** The header at byte [off]; only its first four words are read. *)
Definition frame_header (src : buffer) (off : Z) : option vdif_header :=
  if decide (0 <= off /\ off + 16 <= Z.of_nat (length src))
  then Some (struct_of_bytes (slice src (Z.to_nat off) 32)) else None.

(** ** Recognising a frame *)

(** The five outcomes of the tests at the head of the three loops. *)
Inductive scan : Type :=
  | FillAtEnd
  | FillAtStart
  | Unsynced
  | MarkedInvalid
  | Frame (vh : vdif_header).

#[export] Instance Frame_inj : Inj (=) (=) Frame.
Proof. intros h1 h2 H. by inversion H. Qed.

Definition scan_at (src : buffer) (vm : vdif_mux) (i : Z) : option scan :=
  last ← load_at 4 src (i + vm_inputFrameSize vm - 4);
  if last =? FILL_PATTERN then Some FillAtEnd else
  first ← load_at 4 src i;
  if first =? FILL_PATTERN then Some FillAtStart else
  vh ← frame_header src i;
  if negb (getVDIFFrameBytes vh =? vm_inputFrameSize vm) then Some Unsynced else
  nc ← getVDIFNumChannels vh;
  if negb (nc =? vm_inputChannelsPerThread vm) then Some Unsynced else
  if negb (getVDIFBitsPerSample vh =? vm_bitsPerSample vm) then Some Unsynced else
  if has_flag (vm_flags vm) VDIF_MUX_FLAG_ENABLEVALIDITY && (0 <? getVDIFFrameInvalid vh)
  then Some MarkedInvalid else Some (Frame vh).

(** How far the loops advance. *)
Definition scan_step (vm : vdif_mux) (s : scan) : Z :=
  match s with
  | FillAtStart => 8
  | Unsynced => 4
  | _ => vm_inputFrameSize vm
  end.

(** [seconds*inputFramesPerSecond + frameNumber] *)
Definition frame_number (vm : vdif_mux) (vh : vdif_header) : Z :=
  getVDIFFrameEpochSecOffset vh * vm_inputFramesPerSecond vm + getVDIFFrameNumber vh.

(** Every iteration advances by at least 4 bytes, so as many iterations as
    there are bytes suffice. *)
Fixpoint lowest_loop (fuel : nat) (src : buffer) (vm : vdif_mux) (N i lowest nFrame : Z) : option Z :=
  if N <? i then Some lowest else
  match fuel with
  | O => None
  | S fuel =>
      s ← scan_at src vm i;
      match s with
      | Frame vh =>
          let frameNumber := frame_number vm vh in
          let lowest := if (lowest <? 0) || (frameNumber <? lowest) then frameNumber else lowest in
          let nFrame := nFrame + 1 in
          if vm_nSort vm <=? nFrame then Some lowest
          else lowest_loop fuel src vm N (i + scan_step vm s) lowest nFrame
      | _ => lowest_loop fuel src vm N (i + scan_step vm s) lowest nFrame
      end
  end.

Definition getLowestFrameNumber (src : buffer) (srcSize : Z) (vm : vdif_mux) : option Z :=
  lowest_loop (S (Z.to_nat srcSize)) src vm (srcSize - vm_inputFrameSize vm) 0 (-1) 0.

Fixpoint highest_loop (fuel : nat) (src : buffer) (vm : vdif_mux) (N i highest : Z) : option Z :=
  if N <? i then Some highest else
  match fuel with
  | O => None
  | S fuel =>
      s ← scan_at src vm i;
      match s with
      | Frame vh =>
          let frameNumber := frame_number vm vh in
          let highest := if (highest <? 0) || (highest <? frameNumber) then frameNumber else highest in
          highest_loop fuel src vm N (i + scan_step vm s) highest
      | _ => highest_loop fuel src vm N (i + scan_step vm s) highest
      end
  end.

Definition getHighestFrameNumber (src : buffer) (srcSize : Z) (vm : vdif_mux) : option Z :=
  highest_loop (S (Z.to_nat srcSize)) src vm (srcSize - vm_inputFrameSize vm) 0 (-1).

(** ** Stage 1: find good data and put it in the output array *)

(** The local variables of the first loop; [outputHeader] is [None] while
    [vhUnset]. *)
Record stage1 : Type := {
  s1_i : Z;
  s1_nValidFrame : Z;
  s1_nSkip : Z;
  s1_nFill : Z;
  s1_nDup : Z;
  s1_nInvalidFrame : Z;
  s1_nDiscard : Z;
  s1_nSequentialUnprocessable : Z;
  s1_nEnd : Z;
  s1_nWrongThread : Z;
  s1_framesIn : Z;
  s1_highestDestIndex : Z;
  s1_highestSortedDestIndex : Z;
  s1_bytesProcessed : Z;
  s1_firstGoodByte : Z;
  s1_outputHeader : option vdif_header;
  s1_dest : list buffer }.

Definition s1_set_i (s : stage1) (v : Z) : stage1 :=
  Build_stage1 v (s1_nValidFrame s) (s1_nSkip s) (s1_nFill s) (s1_nDup s) (s1_nInvalidFrame s)
    (s1_nDiscard s) (s1_nSequentialUnprocessable s) (s1_nEnd s) (s1_nWrongThread s) (s1_framesIn
    s) (s1_highestDestIndex s) (s1_highestSortedDestIndex s) (s1_bytesProcessed s)
    (s1_firstGoodByte s) (s1_outputHeader s) (s1_dest s).

Definition s1_set_nValidFrame (s : stage1) (v : Z) : stage1 :=
  Build_stage1 (s1_i s) v (s1_nSkip s) (s1_nFill s) (s1_nDup s) (s1_nInvalidFrame s) (s1_nDiscard
    s) (s1_nSequentialUnprocessable s) (s1_nEnd s) (s1_nWrongThread s) (s1_framesIn s)
    (s1_highestDestIndex s) (s1_highestSortedDestIndex s) (s1_bytesProcessed s) (s1_firstGoodByte
    s) (s1_outputHeader s) (s1_dest s).

Definition s1_set_nSkip (s : stage1) (v : Z) : stage1 :=
  Build_stage1 (s1_i s) (s1_nValidFrame s) v (s1_nFill s) (s1_nDup s) (s1_nInvalidFrame s)
    (s1_nDiscard s) (s1_nSequentialUnprocessable s) (s1_nEnd s) (s1_nWrongThread s) (s1_framesIn
    s) (s1_highestDestIndex s) (s1_highestSortedDestIndex s) (s1_bytesProcessed s)
    (s1_firstGoodByte s) (s1_outputHeader s) (s1_dest s).

Definition s1_set_nFill (s : stage1) (v : Z) : stage1 :=
  Build_stage1 (s1_i s) (s1_nValidFrame s) (s1_nSkip s) v (s1_nDup s) (s1_nInvalidFrame s)
    (s1_nDiscard s) (s1_nSequentialUnprocessable s) (s1_nEnd s) (s1_nWrongThread s) (s1_framesIn
    s) (s1_highestDestIndex s) (s1_highestSortedDestIndex s) (s1_bytesProcessed s)
    (s1_firstGoodByte s) (s1_outputHeader s) (s1_dest s).

Definition s1_set_nDup (s : stage1) (v : Z) : stage1 :=
  Build_stage1 (s1_i s) (s1_nValidFrame s) (s1_nSkip s) (s1_nFill s) v (s1_nInvalidFrame s)
    (s1_nDiscard s) (s1_nSequentialUnprocessable s) (s1_nEnd s) (s1_nWrongThread s) (s1_framesIn
    s) (s1_highestDestIndex s) (s1_highestSortedDestIndex s) (s1_bytesProcessed s)
    (s1_firstGoodByte s) (s1_outputHeader s) (s1_dest s).

Definition s1_set_nInvalidFrame (s : stage1) (v : Z) : stage1 :=
  Build_stage1 (s1_i s) (s1_nValidFrame s) (s1_nSkip s) (s1_nFill s) (s1_nDup s) v (s1_nDiscard s)
    (s1_nSequentialUnprocessable s) (s1_nEnd s) (s1_nWrongThread s) (s1_framesIn s)
    (s1_highestDestIndex s) (s1_highestSortedDestIndex s) (s1_bytesProcessed s) (s1_firstGoodByte
    s) (s1_outputHeader s) (s1_dest s).

Definition s1_set_nDiscard (s : stage1) (v : Z) : stage1 :=
  Build_stage1 (s1_i s) (s1_nValidFrame s) (s1_nSkip s) (s1_nFill s) (s1_nDup s) (s1_nInvalidFrame
    s) v (s1_nSequentialUnprocessable s) (s1_nEnd s) (s1_nWrongThread s) (s1_framesIn s)
    (s1_highestDestIndex s) (s1_highestSortedDestIndex s) (s1_bytesProcessed s) (s1_firstGoodByte
    s) (s1_outputHeader s) (s1_dest s).

Definition s1_set_nSequentialUnprocessable (s : stage1) (v : Z) : stage1 :=
  Build_stage1 (s1_i s) (s1_nValidFrame s) (s1_nSkip s) (s1_nFill s) (s1_nDup s) (s1_nInvalidFrame
    s) (s1_nDiscard s) v (s1_nEnd s) (s1_nWrongThread s) (s1_framesIn s) (s1_highestDestIndex s)
    (s1_highestSortedDestIndex s) (s1_bytesProcessed s) (s1_firstGoodByte s) (s1_outputHeader s)
    (s1_dest s).

Definition s1_set_nEnd (s : stage1) (v : Z) : stage1 :=
  Build_stage1 (s1_i s) (s1_nValidFrame s) (s1_nSkip s) (s1_nFill s) (s1_nDup s) (s1_nInvalidFrame
    s) (s1_nDiscard s) (s1_nSequentialUnprocessable s) v (s1_nWrongThread s) (s1_framesIn s)
    (s1_highestDestIndex s) (s1_highestSortedDestIndex s) (s1_bytesProcessed s) (s1_firstGoodByte
    s) (s1_outputHeader s) (s1_dest s).

Definition s1_set_nWrongThread (s : stage1) (v : Z) : stage1 :=
  Build_stage1 (s1_i s) (s1_nValidFrame s) (s1_nSkip s) (s1_nFill s) (s1_nDup s) (s1_nInvalidFrame
    s) (s1_nDiscard s) (s1_nSequentialUnprocessable s) (s1_nEnd s) v (s1_framesIn s)
    (s1_highestDestIndex s) (s1_highestSortedDestIndex s) (s1_bytesProcessed s) (s1_firstGoodByte
    s) (s1_outputHeader s) (s1_dest s).

Definition s1_set_framesIn (s : stage1) (v : Z) : stage1 :=
  Build_stage1 (s1_i s) (s1_nValidFrame s) (s1_nSkip s) (s1_nFill s) (s1_nDup s) (s1_nInvalidFrame
    s) (s1_nDiscard s) (s1_nSequentialUnprocessable s) (s1_nEnd s) (s1_nWrongThread s) v
    (s1_highestDestIndex s) (s1_highestSortedDestIndex s) (s1_bytesProcessed s) (s1_firstGoodByte
    s) (s1_outputHeader s) (s1_dest s).

Definition s1_set_highestDestIndex (s : stage1) (v : Z) : stage1 :=
  Build_stage1 (s1_i s) (s1_nValidFrame s) (s1_nSkip s) (s1_nFill s) (s1_nDup s) (s1_nInvalidFrame
    s) (s1_nDiscard s) (s1_nSequentialUnprocessable s) (s1_nEnd s) (s1_nWrongThread s)
    (s1_framesIn s) v (s1_highestSortedDestIndex s) (s1_bytesProcessed s) (s1_firstGoodByte s)
    (s1_outputHeader s) (s1_dest s).

Definition s1_set_highestSortedDestIndex (s : stage1) (v : Z) : stage1 :=
  Build_stage1 (s1_i s) (s1_nValidFrame s) (s1_nSkip s) (s1_nFill s) (s1_nDup s) (s1_nInvalidFrame
    s) (s1_nDiscard s) (s1_nSequentialUnprocessable s) (s1_nEnd s) (s1_nWrongThread s)
    (s1_framesIn s) (s1_highestDestIndex s) v (s1_bytesProcessed s) (s1_firstGoodByte s)
    (s1_outputHeader s) (s1_dest s).

Definition s1_set_bytesProcessed (s : stage1) (v : Z) : stage1 :=
  Build_stage1 (s1_i s) (s1_nValidFrame s) (s1_nSkip s) (s1_nFill s) (s1_nDup s) (s1_nInvalidFrame
    s) (s1_nDiscard s) (s1_nSequentialUnprocessable s) (s1_nEnd s) (s1_nWrongThread s)
    (s1_framesIn s) (s1_highestDestIndex s) (s1_highestSortedDestIndex s) v (s1_firstGoodByte s)
    (s1_outputHeader s) (s1_dest s).

Definition s1_set_firstGoodByte (s : stage1) (v : Z) : stage1 :=
  Build_stage1 (s1_i s) (s1_nValidFrame s) (s1_nSkip s) (s1_nFill s) (s1_nDup s) (s1_nInvalidFrame
    s) (s1_nDiscard s) (s1_nSequentialUnprocessable s) (s1_nEnd s) (s1_nWrongThread s)
    (s1_framesIn s) (s1_highestDestIndex s) (s1_highestSortedDestIndex s) (s1_bytesProcessed s) v
    (s1_outputHeader s) (s1_dest s).

Definition s1_set_outputHeader (s : stage1) (v : option vdif_header) : stage1 :=
  Build_stage1 (s1_i s) (s1_nValidFrame s) (s1_nSkip s) (s1_nFill s) (s1_nDup s) (s1_nInvalidFrame
    s) (s1_nDiscard s) (s1_nSequentialUnprocessable s) (s1_nEnd s) (s1_nWrongThread s)
    (s1_framesIn s) (s1_highestDestIndex s) (s1_highestSortedDestIndex s) (s1_bytesProcessed s)
    (s1_firstGoodByte s) v (s1_dest s).

Definition s1_set_dest (s : stage1) (v : list buffer) : stage1 :=
  Build_stage1 (s1_i s) (s1_nValidFrame s) (s1_nSkip s) (s1_nFill s) (s1_nDup s) (s1_nInvalidFrame
    s) (s1_nDiscard s) (s1_nSequentialUnprocessable s) (s1_nEnd s) (s1_nWrongThread s)
    (s1_framesIn s) (s1_highestDestIndex s) (s1_highestSortedDestIndex s) (s1_bytesProcessed s)
    (s1_firstGoodByte s) (s1_outputHeader s) v.

(** [1 << chanId] in [int], converted to [uint64_t]: bit 31 is the sign, and a
    shift by 32 or more is undefined. *)
Definition int_bit (chanId : Z) : option Z :=
  if (0 <=? chanId) && (chanId <? 31) then Some (Z.shiftl 1 chanId)
  else if chanId =? 31 then Some (u64 (- 2 ^ 31))
  else None.

(** The prototype of the output headers: the first 16 bytes of the first good
    frame, then the EDV 4 words or zeros, and the fields that change. *)
Definition proto_header (vm : vdif_mux) (first16 : buffer) : option vdif_header :=
  let bytes :=
    if has_flag (vm_flags vm) VDIF_MUX_FLAG_PROPAGATEVALIDITY then
      let h : vdif_edv4_header := struct_of_bytes (first16 ++ replicate 16 0) in
      let h := v4_set_dummy h 0 in
      let h := v4_set_masklength h (cdiv (vm_nThread vm) (vm_fanoutFactor vm)) in
      let h := v4_set_eversion h 4 in
      let h := v4_set_syncword h 0xACABFEED in
      let h := v4_set_validitymask h 0 in
      struct_bytes h
    else first16 ++ replicate 16 0 in
  h ← setVDIFNumChannels (struct_of_bytes bytes) (vm_nOutputChan vm);
  let h := setVDIFThreadID h 0 in
  let h := setVDIFFrameBytes h (vm_outputFrameSize vm) in
  Some (setVDIFFrameInvalid h 0).

Section Run.
Context (src : buffer) (src_addr srcSize : Z) (vm : vdif_mux).
(* nSort after its adjustment, and the other values fixed before the loop *)
Context (nSort maxSrcIndex maxDestIndex startFrameNumber : Z).

Definition advance (s : stage1) (n : Z) : stage1 := s1_set_i s (s1_i s + n).
Definition discard (s : stage1) : stage1 := s1_set_nDiscard s (s1_nDiscard s + 1).
Definition mark_end (s : stage1) : stage1 :=
  let s := if s1_bytesProcessed s =? -1 then s1_set_bytesProcessed s (s1_i s) else s in
  s1_set_nEnd s (s1_nEnd s + 1).

(** The usable packet: its payload pointer goes to its frame and channel. *)
Definition store_packet (s : stage1) (destIndex chanId : Z) : option stage1 :=
  frame ← s1_dest s !! Z.to_nat destIndex;
  p3 ← load 8 frame 3;
  bit ← int_bit chanId;
  if negb (Z.land p3 bit =? 0) then
    Some (advance (s1_set_nDup s (s1_nDup s + 1)) (vm_inputFrameSize vm))
  else
    frame ← store 8 frame 3 (Z.lor p3 bit);
    frame ← store 8 frame (4 + Z.to_nat chanId) (src_addr + s1_i s + VDIF_HEADER_BYTES);
    let s := s1_set_dest s (<[Z.to_nat destIndex := frame]> (s1_dest s)) in
    let s := s1_set_nValidFrame s (s1_nValidFrame s + 1) in
    let s := if s1_highestDestIndex s <? destIndex then s1_set_highestDestIndex s destIndex else s in
    Some (advance s (vm_inputFrameSize vm)).

(** [true] goes on with the loop, [false] is [break]. *)
Definition use_packet (s : stage1) (destIndex chanId : Z) : option (bool * stage1) :=
  let s := s1_set_nSequentialUnprocessable s (s1_nSequentialUnprocessable s - 1) in
  if (s1_highestDestIndex s + vm_nGap vm <? destIndex) && (0 <? vm_nGap vm)
     && (nSort <? s1_nValidFrame s) then
    let s := mark_end s in
    if nSort <=? s1_nEnd s then Some (false, s)
    else s ← store_packet s destIndex chanId; Some (true, s)
  else s ← store_packet s destIndex chanId; Some (true, s).

(** A packet beyond the end of the output array. *)
Definition beyond_end (s : stage1) : bool * stage1 :=
  let s := s1_set_nSequentialUnprocessable s (s1_nSequentialUnprocessable s + 1) in
  if s1_framesIn s <? nSort then (true, discard (advance s (vm_inputFrameSize vm)))
  else
    let s := advance (mark_end s) (vm_inputFrameSize vm) in
    (s1_nEnd s <? nSort, s).

(** A valid frame of one of the threads. *)
Definition good_frame (s : stage1) (vh : vdif_header) (chanId : Z) : option (bool * stage1) :=
  s ← match s1_outputHeader s with
      | Some _ => Some s
      | None => h ← proto_header vm (slice src (Z.to_nat (s1_i s)) 16);
                Some (s1_set_outputHeader s (Some h))
      end;
  let s := s1_set_framesIn s (s1_framesIn s + 1) in
  let destIndex := s32 (frame_number vm vh - startFrameNumber) in
  if destIndex <? 0 then Some (true, discard (advance s (vm_inputFrameSize vm))) else
  let s := if (maxSrcIndex <? s1_i s) && (s1_highestSortedDestIndex s <? 0)
           then s1_set_highestSortedDestIndex s (s1_highestDestIndex s) else s in
  if maxDestIndex <? destIndex then Some (beyond_end s) else use_packet s destIndex chanId.

Definition stage1_step (s : stage1) : option (bool * stage1) :=
  sc ← scan_at src vm (s1_i s);
  match sc with
  | FillAtEnd => Some (true, advance (s1_set_nFill s (s1_nFill s + vm_inputFrameSize vm)) (scan_step vm sc))
  | FillAtStart => Some (true, advance (s1_set_nFill s (s1_nFill s + 8)) (scan_step vm sc))
  | Unsynced => Some (true, advance (s1_set_nSkip s (s1_nSkip s + 4)) (scan_step vm sc))
  | MarkedInvalid => Some (true, advance (s1_set_nInvalidFrame s (s1_nInvalidFrame s + 1)) (scan_step vm sc))
  | Frame vh =>
      let s := if s1_firstGoodByte s <? 0 then s1_set_firstGoodByte s (s1_i s) else s in
      chanId ← vm_chanIndex vm !! Z.to_nat (getVDIFThreadID vh);
      if chanId =? MAGIC_BAD_THREAD
      then Some (true, advance (s1_set_nWrongThread s (s1_nWrongThread s + 1)) (vm_inputFrameSize vm))
      else good_frame s vh chanId
  end.

Fixpoint stage1_loop (fuel : nat) (s : stage1) : option stage1 :=
  if srcSize - vm_inputFrameSize vm <? s1_i s then Some s else
  match fuel with
  | O => None
  | S fuel => '(go, s) ← stage1_step s; if (go : bool) then stage1_loop fuel s else Some s
  end.

(** After the loop. *)
Definition stage1_end (s : stage1) : stage1 :=
  if s1_bytesProcessed s =? -1 then s1_set_bytesProcessed s (s1_i s) else s.

(** ** Backing up over incomplete frames *)

Record backup : Type := {
  b_highestDestIndex : Z;
  b_bytesProcessed : Z;
  b_nValidFrame : Z }.

(** One thread of an incomplete frame. *)
Definition unread_thread (frame : buffer) (mask : Z) (t : nat) (b : backup) : option backup :=
  bit ← int_bit (Z.of_nat t);
  if Z.land mask bit =? 0 then Some b else
  ptr ← load 8 frame (4 + t);
  let d := s32 (ptr - src_addr - VDIF_HEADER_BYTES) in
  Some {| b_highestDestIndex := b_highestDestIndex b;
          b_bytesProcessed := if d <? b_bytesProcessed b then d else b_bytesProcessed b;
          b_nValidFrame := b_nValidFrame b - 1 |}.

Definition backup_frame (dest : list buffer) (f : Z) (b : backup) : option backup :=
  frame ← (if 0 <=? f then dest !! Z.to_nat f else None);
  mask ← load 8 frame 3;
  let below := {| b_highestDestIndex := f - 1; b_bytesProcessed := b_bytesProcessed b;
                  b_nValidFrame := b_nValidFrame b |} in
  if has_flag (vm_flags vm) VDIF_MUX_FLAG_PROPAGATEVALIDITY then
    Some (if mask =? 0 then below else b)
  else if mask =? vm_goodMask vm then Some b
  else run_iters (unread_thread frame mask) (seq 0 (Z.to_nat (vm_nThread vm))) below.

(** [f = hi, hi - 1, ..., lo] *)
Definition down_to (hi lo : Z) : list Z :=
  (fun k => hi - Z.of_nat k) <$> seq 0 (Z.to_nat (hi - lo + 1)).

Definition backup_frames (s : stage1) : option backup :=
  let hi := s1_highestDestIndex s in
  let b := {| b_highestDestIndex := hi; b_bytesProcessed := s1_bytesProcessed s;
              b_nValidFrame := s1_nValidFrame s |} in
  if 0 <=? s1_highestSortedDestIndex s then
    run_iters (backup_frame (s1_dest s)) (down_to hi (s1_highestSortedDestIndex s + 1)) b
  else
    let minDestIndex := hi - cdiv nSort (vm_nThread vm) in
    if 0 <=? minDestIndex then run_iters (backup_frame (s1_dest s)) (down_to hi minDestIndex) b
    else Some b.

End Run.

(** ** Stage 2: corner turning and header population *)

(** The bits of [mask] combined over groups of [fanoutFactor] threads. *)
Definition fanout_bit (mask : Z) (fanoutFactor i : nat) : Z :=
  foldl (fun m j => Z.land m (Z.shiftr mask (Z.of_nat (i + j)))) 1 (seq 0 fanoutFactor).

Definition fanout_mask (mask : Z) (fanoutFactor nThread : nat) : option Z :=
  run_iters (fun k v =>
      m ← sint (Z.shiftl (fanout_bit mask fanoutFactor (k * fanoutFactor)) (Z.of_nat k));
      Some (Z.lor v m))
    (seq 0 ((nThread + fanoutFactor - 1) / fanoutFactor)) 0.

Record stage2 : Type := {
  s2_dest : list buffer;
  s2_seconds : Z;
  s2_frameNum : Z;
  s2_nGoodOutput : Z;
  s2_nPartialOutput : Z;
  s2_nBadOutput : Z }.

Inductive outcome : Type := Good | Partial | Bad.

Section Output.
Context (sched : schedule) (src : buffer) (src_addr : Z) (vm : vdif_mux) (outputHeader : vdif_header).

(** The bytes a payload pointer gives access to. *)
Definition pointed (ptr : Z) : option buffer :=
  if decide (src_addr <= ptr <= src_addr + Z.of_nat (length src))
  then Some (drop (Z.to_nat (ptr - src_addr)) src) else None.

(** [threadBuffers[0 .. n-1]] *)
Fixpoint thread_buffers (frame : buffer) (n t : nat) : option (list buffer) :=
  match n with
  | O => Some []
  | S n => ptr ← load 8 frame (4 + t); tb ← pointed ptr;
           tbs ← thread_buffers frame n (S t); Some (tb :: tbs)
  end.

(** Point missing threads at the start of the input. *)
Definition point_missing (mask : Z) (t : nat) (frame : buffer) : option buffer :=
  if Z.land mask (Z.shiftl 1 (Z.of_nat t)) =? 0 then store 8 frame (4 + t) src_addr else Some frame.

Definition corner_turn (header frame : buffer) : option buffer :=
  ct ← vm_cornerTurner vm;
  tbs ← thread_buffers frame (Z.to_nat (vm_nThread vm)) 0;
  out ← ct sched (drop 32 frame) tbs (vm_outputDataSize vm);
  Some (header ++ out).

(** One output frame. *)
Definition output_frame (frame : buffer) (seconds frameNum : Z) : option (outcome * buffer) :=
  mask ← load 8 frame 3;
  let h := setVDIFFrameNumber (setVDIFFrameEpochSecOffset outputHeader seconds) frameNum in
  let invalid := struct_bytes (setVDIFFrameInvalid h 1) ++ drop 32 frame in
  if has_flag (vm_flags vm) VDIF_MUX_FLAG_PROPAGATEVALIDITY then
    if mask =? 0 then Some (Bad, invalid) else
    validity ← (if 1 <? vm_fanoutFactor vm
                then fanout_mask mask (Z.to_nat (vm_fanoutFactor vm)) (Z.to_nat (vm_nThread vm))
                else Some mask);
    let h4 : vdif_edv4_header := struct_of_bytes (struct_bytes h) in
    let header := struct_bytes (v4_set_validitymask h4 validity) in
    frame ← (if mask =? vm_goodMask vm then Some frame
             else run_iters (point_missing mask) (seq 0 (Z.to_nat (vm_nThread vm))) frame);
    frame ← corner_turn header frame;
    Some (if mask =? vm_goodMask vm then Good else Partial, frame)
  else if mask =? vm_goodMask vm then
    frame ← corner_turn (struct_bytes h) frame; Some (Good, frame)
  else Some (Bad, invalid).

Definition stage2_step (f : nat) (s : stage2) : option stage2 :=
  frame ← s2_dest s !! f;
  '(o, frame) ← output_frame frame (s2_seconds s) (s2_frameNum s);
  let frameNum := s2_frameNum s + 1 in
  let wrap := vm_inputFramesPerSecond vm <=? frameNum in
  let count (k : outcome) (n : Z) : Z :=
    match o, k with
    | Good, Good | Partial, Partial | Bad, Bad => n + 1
    | _, _ => n
    end in
  Some {| s2_dest := <[f := frame]> (s2_dest s);
          s2_seconds := if wrap then s2_seconds s + 1 else s2_seconds s;
          s2_frameNum := if wrap then frameNum - vm_inputFramesPerSecond vm else frameNum;
          s2_nGoodOutput := count Good (s2_nGoodOutput s);
          s2_nPartialOutput := count Partial (s2_nPartialOutput s);
          s2_nBadOutput := count Bad (s2_nBadOutput s) |}.

(** [for(f = 0; f <= highestDestIndex; ++f)] *)
Definition stage2_loop (highestDestIndex : Z) (s : stage2) : option stage2 :=
  run_iters stage2_step (seq 0 (Z.to_nat (highestDestIndex + 1))) s.

End Output.

(** ** The statistics *)

Record vdif_mux_statistics : Type := {
  ms_nValidFrame : Z;
  ms_nInvalidFrame : Z;
  ms_nDiscardedFrame : Z;
  ms_nWrongThread : Z;
  ms_nSkippedByte : Z;
  ms_nFillByte : Z;
  ms_nDuplicateFrame : Z;
  ms_bytesProcessed : Z;
  ms_nGoodFrame : Z;
  ms_nPartialFrame : Z;
  ms_nFillerFrame : Z;
  ms_nCall : Z;
  ms_nOutOfDataConditions : Z;
  ms_srcSize : Z;
  ms_srcUsed : Z;
  ms_destSize : Z;
  ms_destUsed : Z;
  ms_inputFrameSize : Z;
  ms_outputFrameSize : Z;
  ms_outputFrameGranularity : Z;
  ms_outputFramesPerSecond : Z;
  ms_nOutputFrame : Z;
  ms_epoch : Z;
  ms_startFrameNumber : Z }.

Definition resetvdifmuxstatistics (stats : option vdif_mux_statistics) : option vdif_mux_statistics :=
  (fun _ => Build_vdif_mux_statistics 0 0 0 0 0 0 0 0 0 0 0 0 0 0 0 0 0 0 0 0 0 0 0 0) <$> stats.

(** ** [vdifmux] *)

Section VdifMux.
Context (sched : schedule) (vm : vdif_mux) (src_addr : Z).
(* the value of the uninitialised outputHeader *)
Context (garbage : vdif_header).

(** [nSort] shortened to the buffer sizes. *)
Definition adjust_nSort (srcSize : Z) : option Z :=
  a ← sint (3 * srcSize);
  b ← sint (4 * vm_nSort vm);
  c ← sint (b * vm_inputFrameSize vm);
  if a <=? c then
    d ← sint (4 * vm_inputFrameSize vm);
    if d =? 0 then None else Some (cdiv a d)
  else Some (vm_nSort vm).

(** [startOutputFrameNumber] moved up to the frame granularity. *)
Definition adjust_start (startOutputFrameNumber : Z) : option Z :=
  if has_flag (vm_flags vm) VDIF_MUX_FLAG_RESPECTGRANULARITY && (0 <? startOutputFrameNumber) then
    if vm_frameGranularity vm =? 0 then None else
    let m := cmod startOutputFrameNumber (vm_frameGranularity vm) in
    if m =? 0 then Some startOutputFrameNumber
    else slong (startOutputFrameNumber + (vm_frameGranularity vm - m))
  else Some startOutputFrameNumber.

(** The number of the first output frame; negative if there is no input frame. *)
Definition start_frame_number (src : buffer) (srcSize startOutputFrameNumber : Z) : option Z :=
  startOutput ← adjust_start startOutputFrameNumber;
  if startOutput <? 0 then getLowestFrameNumber src srcSize vm else Some startOutput.

(** [p[3] = 0] in every output frame. *)
Fixpoint clear_masks (dest : list buffer) : option (list buffer) :=
  match dest with
  | [] => Some []
  | frame :: dest => frame ← store 8 frame 3 0; dest ← clear_masks dest; Some (frame :: dest)
  end.

Definition stage1_init (dest : list buffer) : stage1 :=
  Build_stage1 0 0 0 0 0 0 0 0 0 0 0 0 (-1) (-1) (-1) None dest.

(** The statistics of a call and the number of bytes it reports. *)
Definition update_stats (src : buffer) (srcSize destSize nSort startFrameNumber : Z)
    (s : stage1) (b : backup) (o : stage2) (bytesProcessed : Z) (stats : vdif_mux_statistics)
    : option (vdif_mux_statistics * Z) :=
  let nOut := s2_nGoodOutput o + s2_nBadOutput o + s2_nPartialOutput o in
  let lost := (nOut =? 0) || (bytesProcessed =? 0) || (s1_firstGoodByte s <? 0)
              || (nSort <=? s1_nSequentialUnprocessable s) in
  start ← (if lost then
             highest ← getHighestFrameNumber src srcSize vm;
             Some (if highest <? 0
                   then startFrameNumber + (cdiv (cdiv srcSize (vm_inputFrameSize vm)) (vm_nThread vm) + 1)
                   else highest + 1)
           else Some startFrameNumber);
  let used := if lost then srcSize - cmod srcSize (vm_inputFrameSize vm) else bytesProcessed in
  Some ({|
    ms_nValidFrame := ms_nValidFrame stats + b_nValidFrame b;
    ms_nInvalidFrame := ms_nInvalidFrame stats + s1_nInvalidFrame s;
    ms_nDiscardedFrame := ms_nDiscardedFrame stats + s1_nDiscard s;
    ms_nWrongThread := ms_nWrongThread stats + s1_nWrongThread s;
    ms_nSkippedByte := ms_nSkippedByte stats + s1_nSkip s;
    ms_nFillByte := ms_nFillByte stats + s1_nFill s;
    ms_nDuplicateFrame := ms_nDuplicateFrame stats + s1_nDup s;
    ms_bytesProcessed := ms_bytesProcessed stats + bytesProcessed;
    ms_nGoodFrame := ms_nGoodFrame stats + s2_nGoodOutput o;
    ms_nPartialFrame := ms_nPartialFrame stats + s2_nPartialOutput o;
    ms_nFillerFrame := ms_nFillerFrame stats + s2_nBadOutput o;
    ms_nCall := ms_nCall stats + 1;
    ms_nOutOfDataConditions := ms_nOutOfDataConditions stats;
    ms_srcSize := srcSize;
    ms_srcUsed := used;
    ms_destSize := destSize;
    ms_destUsed := nOut * vm_outputFrameSize vm;
    ms_inputFrameSize := vm_inputFrameSize vm;
    ms_outputFrameSize := vm_outputFrameSize vm;
    ms_outputFrameGranularity := vm_frameGranularity vm;
    ms_outputFramesPerSecond := vm_inputFramesPerSecond vm;
    ms_nOutputFrame := if lost then 0 else nOut;
    ms_epoch := match s1_outputHeader s with Some h => getVDIFEpoch h | None => -1 end;
    ms_startFrameNumber := start |}, used).

(** The call returns its value, the destination and the statistics. *)
Definition vdifmux (dest : list buffer) (destSize : Z) (src : buffer) (srcSize : Z)
    (startOutputFrameNumber : Z) (stats : option vdif_mux_statistics)
    : option (Z * list buffer * option vdif_mux_statistics) :=
  nSort ← adjust_nSort srcSize;
  let N := srcSize - vm_inputFrameSize vm in
  let maxSrcIndex := if has_flag (vm_flags vm) VDIF_MUX_FLAG_GOTOEND then N
                     else srcSize - nSort * vm_inputFrameSize vm in
  startFrameNumber ← start_frame_number src srcSize startOutputFrameNumber;
  if vm_outputFrameSize vm =? 0 then None else
  let maxDestIndex := cdiv destSize (vm_outputFrameSize vm) - 1 in
  if startFrameNumber <? 0 then Some (-3, dest, stats) else
  dest ← clear_masks dest;
  s ← stage1_loop src src_addr srcSize vm nSort maxSrcIndex maxDestIndex startFrameNumber
        (S (Z.to_nat srcSize)) (stage1_init dest);
  let s := stage1_end s in
  b ← backup_frames src_addr vm nSort s;
  let highest :=
    if (s1_i s <? N) && (b_highestDestIndex b <? maxDestIndex)
       && ((maxDestIndex - vm_nGap vm <? b_highestDestIndex b) || (vm_nGap vm =? 0))
    then maxDestIndex else b_highestDestIndex b in
  if vm_inputFramesPerSecond vm =? 0 then None else
  o ← stage2_loop sched src src_addr vm (default garbage (s1_outputHeader s)) highest
        {| s2_dest := s1_dest s;
           s2_seconds := s32 (cdiv startFrameNumber (vm_inputFramesPerSecond vm));
           s2_frameNum := s32 (cmod startFrameNumber (vm_inputFramesPerSecond vm));
           s2_nGoodOutput := 0; s2_nPartialOutput := 0; s2_nBadOutput := 0 |};
  let bytesProcessed := b_bytesProcessed b in
  '(stats, bytesProcessed) ← match stats with
    | None => Some (None, bytesProcessed)
    | Some st =>
        '(st, bp) ← update_stats src srcSize destSize nSort startFrameNumber s b o bytesProcessed st;
        Some (Some st, bp)
    end;
  Some (if s1_firstGoodByte s <? bytesProcessed then bytesProcessed else s1_firstGoodByte s,
        s2_dest o, stats).
End VdifMux.
