(* ===== verification/VdifMuxScan.v ===== *)
(** * VdifMuxScan: recognising frames in the input

    What the multiplexer assumes of its input ([run_ok]), the sequence of good
    frames a scan of the input visits ([scanned]), and the two functions that
    look for the lowest and the highest frame number in it. *)
From S2P Require Export VdifMuxRun.
#[local] Open Scope Z_scope.

(** ** Assumptions on the input of a run *)

(** [vm] is configured without the legacy header flags (which the code says are
    not complete); the input is a buffer of bytes at a valid address; no
    candidate header claims [2^31] channels. *)
Record run_ok (SZ : Z) (vm : vdif_mux) (src : buffer) (src_addr : Z) : Prop := {
  ro_mux : mux_ok SZ vm;
  ro_legacy_in : has_flag (vm_flags vm) VDIF_MUX_FLAG_INPUTLEGACY = false;
  ro_legacy_out : has_flag (vm_flags vm) VDIF_MUX_FLAG_OUTPUTLEGACY = false;
  ro_frame : 40 <= vm_inputFrameSize vm < 2 ^ 20;
  ro_rate : 0 < vm_inputFramesPerSecond vm < 2 ^ 24;
  ro_threads : vm_nThread vm <= 31;
  ro_sort : 0 <= vm_nSort vm /\ 4 * vm_nSort vm * vm_inputFrameSize vm < 2 ^ 31;
  ro_granularity : 0 < vm_frameGranularity vm;
  ro_granule : Nat.divide
    (turner_granule (Z.to_nat (vm_nThread vm)) (Z.to_nat
      (vm_bitsPerSample vm * vm_inputChannelsPerThread vm * vm_complexFactor vm)))
    (Z.to_nat (vm_outputDataSize vm));
  ro_bytes : bytes_ok src;
  ro_size : Z.of_nat (length src) < 2 ^ 28;
  ro_addr : 0 <= src_addr /\ src_addr + Z.of_nat (length src) < 2 ^ 64;
  ro_scan : forall i, 0 <= i <= Z.of_nat (length src) - vm_inputFrameSize vm ->
    is_Some (scan_at src vm i) }.

(** ** The frames of a scan *)

(** [scanned N i l]: a scan that starts at byte [i] and stops past [N] meets good
    frames with the numbers [l]. *)
Inductive scanned (src : buffer) (vm : vdif_mux) (N : Z) : Z -> list Z -> Prop :=
  | scanned_end i : N < i -> scanned src vm N i []
  | scanned_skip i s l : i <= N -> scan_at src vm i = Some s -> (forall vh, s <> Frame vh) ->
      scanned src vm N (i + scan_step vm s) l -> scanned src vm N i l
  | scanned_frame i vh l : i <= N -> scan_at src vm i = Some (Frame vh) ->
      scanned src vm N (i + vm_inputFrameSize vm) l -> scanned src vm N i (frame_number vm vh :: l).

(** The values the two loops compute. *)
Definition lower (acc x : Z) : Z := if (acc <? 0) || (x <? acc) then x else acc.
Definition higher (acc x : Z) : Z := if (acc <? 0) || (acc <? x) then x else acc.

Lemma foldl_lower l acc : 0 <= acc -> Forall (fun x => 0 <= x) l ->
  foldl lower acc l ∈ acc :: l /\ Forall (fun x => foldl lower acc l <= x) (acc :: l).
Proof.
  intros Ha Hl. revert acc Ha. induction Hl as [|x l Hx _ IH]; intros acc Ha; cbn [foldl].
  - split; [by left|]. by repeat constructor.
  - replace (lower acc x) with (if x <? acc then x else acc)
      by (unfold lower; by rewrite (proj2 (Z.ltb_ge acc 0)) by lia).
    destruct (Z.ltb_spec x acc); [destruct (IH x Hx) as [H1 H2]|destruct (IH acc Ha) as [H1 H2]];
      apply Forall_cons_1 in H2 as [H2 H3]; (split; [set_solver|]); repeat constructor; done || lia.
Qed.

Lemma foldl_higher l acc : 0 <= acc -> Forall (fun x => 0 <= x) l ->
  foldl higher acc l ∈ acc :: l /\ Forall (fun x => x <= foldl higher acc l) (acc :: l).
Proof.
  intros Ha Hl. revert acc Ha. induction Hl as [|x l Hx _ IH]; intros acc Ha; cbn [foldl].
  - split; [by left|]. by repeat constructor.
  - replace (higher acc x) with (if acc <? x then x else acc)
      by (unfold higher; by rewrite (proj2 (Z.ltb_ge acc 0)) by lia).
    destruct (Z.ltb_spec acc x); [destruct (IH x Hx) as [H1 H2]|destruct (IH acc Ha) as [H1 H2]];
      apply Forall_cons_1 in H2 as [H2 H3]; (split; [set_solver|]); repeat constructor; done || lia.
Qed.

Section Scan.
Context (SZ : Z) (vm : vdif_mux) (src : buffer) (src_addr : Z).
Context (Hrun : run_ok SZ vm src src_addr).

#[local] Abbreviation fs := (vm_inputFrameSize vm).
#[local] Abbreviation N := (Z.of_nat (length src) - vm_inputFrameSize vm).

(** The recognised frame at [i]. *)
Lemma scan_frame_header i vh : scan_at src vm i = Some (Frame vh) ->
  vh = struct_of_bytes (slice src (Z.to_nat i) 32) /\ getVDIFFrameBytes vh = fs /\
  getVDIFNumChannels vh = Some (vm_inputChannelsPerThread vm) /\
  getVDIFBitsPerSample vh = vm_bitsPerSample vm.
Proof using.
  clear Hrun. intros H.
  unfold scan_at in H. apply bind_Some in H as (z1 & _ & H). case_match; [done|].
  apply bind_Some in H as (z2 & _ & H). case_match; [done|].
  apply bind_Some in H as (vh' & Hvh & H). case_match eqn:E1; [done|].
  apply bind_Some in H as (z3 & E2 & H). case_match eqn:E3; [done|]. case_match eqn:E4; [done|].
  case_match; [done|]. apply (inj Some) in H. apply (inj Frame) in H as ->.
  apply negb_false_iff, Z.eqb_eq in E1, E3, E4. subst z3. split; [|done].
  unfold frame_header in Hvh. case_decide; [|done]. by apply (inj Some) in Hvh as <-.
Qed.

Lemma scan_frame i vh : scan_at src vm i = Some (Frame vh) ->
  struct_ok vh /\ exists c, vm_chanIndex vm !! Z.to_nat (getVDIFThreadID vh) = Some c.
Proof using Hrun.
  intros [-> _]%scan_frame_header. split; [apply struct_of_bytes_ok|]. apply lookup_lt_is_Some_2.
  destruct (mo_chanIndex _ _ (ro_mux _ _ _ _ Hrun)) as [-> _].
  pose proof (ok_threadid _ (struct_header_ok _ (struct_of_bytes_ok (T:=vdif_header) (slice src (Z.to_nat i) 32)))).
  unfold getVDIFThreadID. lia.
Qed.

Lemma scan_step_range s : 4 <= scan_step vm s <= fs.
Proof using Hrun. pose proof (ro_frame _ _ _ _ Hrun). destruct s; cbn [scan_step]; lia. Qed.

Lemma frame_number_nonneg i vh : scan_at src vm i = Some (Frame vh) -> 0 <= frame_number vm vh.
Proof using Hrun.
  intros [Hok _]%scan_frame. apply struct_header_ok in Hok. pose proof (ok_seconds _ Hok).
  pose proof (ok_frame _ Hok). pose proof (ro_rate _ _ _ _ Hrun).
  unfold frame_number, getVDIFFrameEpochSecOffset, getVDIFFrameNumber. nia.
Qed.

(** Every scan of the input ends. *)
Lemma scanned_total i : 0 <= i -> exists l, scanned src vm N i l.
Proof using Hrun.
  remember (Z.to_nat (N + 1 - i)) as fuel eqn:Ef. assert (Hf : N - i < Z.of_nat fuel) by lia. clear Ef.
  revert i Hf. induction fuel as [|fuel IH]; intros i Hf Hi;
    (destruct (decide (N < i)); [eexists; by apply scanned_end|]); [lia|].
  destruct (ro_scan _ _ _ _ Hrun i) as [s Es]; [lia|]. pose proof (scan_step_range s).
  destruct (IH (i + scan_step vm s)) as [l Hl]; [lia..|].
  destruct s as [| | | |vh]; try (exists l; eapply scanned_skip; done || lia).
  exists (frame_number vm vh :: l). apply scanned_frame; done || lia.
Qed.

Lemma scanned_nonneg i l : scanned src vm N i l -> Forall (fun x => 0 <= x) l.
Proof using Hrun. induction 1; [done..|]. constructor; [by eapply frame_number_nonneg|done]. Qed.

Lemma lowest_loop_spec fuel i l lowest nFrame : scanned src vm N i l ->
  nFrame < Z.max 1 (vm_nSort vm) -> 0 <= nFrame -> N - i < Z.of_nat fuel ->
  lowest_loop fuel src vm N i lowest nFrame =
    Some (foldl lower lowest (take (Z.to_nat (Z.max 1 (vm_nSort vm) - nFrame)) l)).
Proof using Hrun.
  intros Hs. revert fuel lowest nFrame.
  induction Hs as [i Hi|i s l Hi Es Hne _ IH|i vh l Hi Es _ IH]; intros fuel lowest nFrame Hn1 Hn2 Hf.
  - destruct fuel; cbn [lowest_loop]; rewrite (proj2 (Z.ltb_lt _ _)) by lia; by rewrite take_nil.
  - destruct fuel as [|fuel]; [lia|]. cbn [lowest_loop]. rewrite (proj2 (Z.ltb_ge _ _)), Es by lia.
    cbn [mbind option_bind]. pose proof (scan_step_range s). destruct s; try (apply IH; lia). by destruct (Hne vh).
  - destruct fuel as [|fuel]; [lia|]. cbn [lowest_loop]. rewrite (proj2 (Z.ltb_ge _ _)), Es by lia.
    cbn [mbind option_bind]. fold (lower lowest (frame_number vm vh)).
    replace (Z.to_nat (Z.max 1 (vm_nSort vm) - nFrame)) with
      (S (Z.to_nat (Z.max 1 (vm_nSort vm) - (nFrame + 1)))) by lia.
    cbn [take foldl]. destruct (Z.leb_spec (vm_nSort vm) (nFrame + 1)).
    + by replace (Z.to_nat (Z.max 1 (vm_nSort vm) - (nFrame + 1))) with 0%nat by lia.
    + pose proof (ro_frame _ _ _ _ Hrun). apply IH; cbn [scan_step]; lia.
Qed.

Lemma highest_loop_spec fuel i l highest : scanned src vm N i l -> N - i < Z.of_nat fuel ->
  highest_loop fuel src vm N i highest = Some (foldl higher highest l).
Proof using Hrun.
  intros Hs. revert fuel highest.
  induction Hs as [i Hi|i s l Hi Es Hne _ IH|i vh l Hi Es _ IH]; intros fuel highest Hf.
  - destruct fuel; cbn [highest_loop]; by rewrite (proj2 (Z.ltb_lt _ _)) by lia.
  - destruct fuel as [|fuel]; [lia|]. cbn [highest_loop]. rewrite (proj2 (Z.ltb_ge _ _)), Es by lia.
    cbn [mbind option_bind]. pose proof (scan_step_range s). destruct s; try (apply IH; lia). by destruct (Hne vh).
  - destruct fuel as [|fuel]; [lia|]. cbn [highest_loop]. rewrite (proj2 (Z.ltb_ge _ _)), Es by lia.
    cbn [mbind option_bind]. pose proof (ro_frame _ _ _ _ Hrun). apply IH. cbn [scan_step]. lia.
Qed.
End Scan.

(** ** An example run *)

(** Two threads of 2-bit samples in frames of 40 bytes, 1000 frames per second. *)
Definition example_mux : vdif_mux :=
  Build_vdif_mux 40 8 48 16 1000 1 2 2 2 2 1 2 1 1 0
    (<[7%nat := 1]> (<[5%nat := 0]> (replicate 1024 MAGIC_BAD_THREAD))) 3
    (Some (cornerturn_2thread_2bit 8)).

(** A frame of 2-bit samples in frames of 40 bytes. *)
Definition example_frame (seconds frame thread : Z) (payload : buffer) : buffer :=
  struct_bytes (Build_vdif_header seconds 0 0 frame 30 0 5 0 0 0 thread 1 0 0 0 0 0 0) ++ payload.

(** Three output times, out of order, after 4 bytes of another stream; thread 7
    of the last time is missing and thread 9 is not wanted. *)
Definition example_src : buffer :=
  [1; 2; 3; 4] ++
  example_frame 100 999 5 [27; 27; 27; 27; 27; 27; 27; 27] ++
  example_frame 101 0 7 [255; 0; 255; 0; 255; 0; 255; 0] ++
  example_frame 100 999 9 [1; 1; 1; 1; 1; 1; 1; 1] ++
  example_frame 100 999 7 [228; 228; 228; 228; 228; 228; 228; 228] ++
  example_frame 101 0 5 [0; 0; 0; 0; 0; 0; 0; 0] ++
  example_frame 101 1 5 [9; 9; 9; 9; 9; 9; 9; 9].

Lemma example_mux_ok : mux_ok 8 example_mux.
Proof.
  split; cbn [example_mux vm_nThread vm_cornerTurner vm_bitsPerSample vm_inputChannelsPerThread
    vm_complexFactor vm_fanoutFactor vm_nOutputChan vm_inputDataSize vm_inputFrameSize vm_flags
    vm_outputDataSize vm_outputFrameSize vm_goodMask vm_chanIndex vm_nSort vm_nGap];
    try reflexivity; try lia.
  - exists (cornerturn_2thread_2bit 8). by split.
  - split; [by rewrite !length_insert|].
    do 2 (apply Forall_insert; [|right; lia]). apply Forall_replicate. by left.
Qed.

(** [run_ok] by evaluation. *)
Definition run_check (src : buffer) : bool :=
  forallb (fun x => (0 <=? x) && (x <? 256)) src && (Nat.leb (length src) 1000) &&
  forall_from (length src) 0 (fun i => match scan_at src example_mux i with
    | Some _ => true | None => Z.of_nat (length src) - 40 <? i end).

Lemma example_run src : run_check src = true -> run_ok 8 example_mux src 4096.
Proof.
  unfold run_check. rewrite !andb_true_iff, Nat.leb_le. intros [[Hb Hl] Hs].
  split; cbn [example_mux vm_inputFrameSize vm_nThread vm_bitsPerSample
    vm_inputChannelsPerThread vm_complexFactor vm_outputDataSize vm_inputFramesPerSecond vm_flags
    vm_nSort vm_frameGranularity]; try lia.
  - exact example_mux_ok.
  - reflexivity.
  - reflexivity.
  - exists 2%nat. reflexivity.
  - apply List.Forall_forall. intros x Hx. rewrite List.forallb_forall in Hb.
    apply Hb, andb_prop in Hx as [H1%Z.leb_le H2%Z.ltb_lt]. split; lia.
  - intros i Hi. pose proof (forall_from_spec _ _ _ Hs i ltac:(lia)) as H. cbn beta in H.
    destruct (scan_at _ _ i); [done|]. apply Z.ltb_lt in H. lia.
Qed.

Lemma example_run_ok : run_ok 8 example_mux example_src 4096.
Proof. apply example_run. vm_compute. reflexivity. Qed.

(** ** Properties *)

(** On a readable input the searches for the lowest and the highest frame
    number terminate: a scan meets a definite sequence of good frames, the
    lowest is the minimum over the first [nSort] of them (at least one), the
    highest the maximum over all, and both are -1 if there is none. *)
Theorem frame_number_bounds SZ vm src src_addr :
  run_ok SZ vm src src_addr ->
  let size := Z.of_nat (length src) in
  exists l lo hi, scanned src vm (size - vm_inputFrameSize vm) 0 l /\
    getLowestFrameNumber src size vm = Some lo /\ getHighestFrameNumber src size vm = Some hi /\
    (l = [] -> lo = -1 /\ hi = -1) /\
    (l <> [] ->
      let first := take (Z.to_nat (Z.max 1 (vm_nSort vm))) l in
      lo ∈ first /\ Forall (fun x => lo <= x) first /\ hi ∈ l /\ Forall (fun x => x <= hi) l).
Proof.
  intros Hrun size. destruct (scanned_total _ _ _ _ Hrun 0) as [l Hl]; [lia|].
  pose proof (scanned_nonneg _ _ _ _ Hrun _ _ Hl) as Hpos. pose proof (ro_frame _ _ _ _ Hrun).
  eexists l, _, _. split; [done|]. unfold getLowestFrameNumber, getHighestFrameNumber.
  rewrite (lowest_loop_spec _ _ _ _ Hrun _ 0 l), (highest_loop_spec _ _ _ _ Hrun _ 0 l) by (done || lia).
  rewrite Z.sub_0_r. split; [done|]. split; [done|].
  destruct Hpos as [|x l Hx Hpos]; [split; [|done]; intros _; by rewrite take_nil|].
  split; [done|]. intros _.
  replace (Z.to_nat (Z.max 1 (vm_nSort vm))) with (S (Z.to_nat (Z.max 1 (vm_nSort vm) - 1))) by lia.
  cbn [take foldl].
  replace (lower (-1) x) with x by done. replace (higher (-1) x) with x by done.
  destruct (foldl_lower (take (Z.to_nat (Z.max 1 (vm_nSort vm) - 1)) l) x Hx); [by apply Forall_take|].
  destruct (foldl_higher l x Hx Hpos). done.
Qed.

Lemma frame_number_bounds_witness :
  exists l lo hi, scanned example_src example_mux 204 0 l /\
    getLowestFrameNumber example_src 244 example_mux = Some lo /\
    getHighestFrameNumber example_src 244 example_mux = Some hi /\
    (l = [] -> lo = -1 /\ hi = -1) /\
    (l <> [] -> lo ∈ take 2 l /\ Forall (fun x => lo <= x) (take 2 l) /\ hi ∈ l /\ Forall (fun x => x <= hi) l).
Proof. exact (frame_number_bounds 8 example_mux example_src 4096 example_run_ok). Defined.
