(* ===== verification/VdifMuxCorrect.v ===== *)
(** * VdifMuxCorrect: what a run of the multiplexer produces

    For a configured multiplexer and a readable input, [vdifmux] of
    [vdifmux.c] stays inside its buffers and terminates; every output frame
    carries the time of its place in the output, and the data of a valid output
    frame is the corner turn of payloads of input frames of that very time, one
    of each thread.  The first stage is an invariant of its loop
    ([stage1_inv]), the second a consequence of the interface [CornerTurns]. *)
From S2P Require Export VdifMuxScan.
#[local] Open Scope Z_scope.

(** ** Mask bits *)

Lemma int_bit_Some c : 0 <= c < 31 -> int_bit c = Some (2 ^ c).
Proof.
  intros H. unfold int_bit. rewrite (proj2 (Z.leb_le _ _)), (proj2 (Z.ltb_lt _ _)) by lia.
  cbn [andb]. by rewrite Z.shiftl_1_l.
Qed.

Lemma land_bit mask c : 0 <= c -> (Z.land mask (2 ^ c) =? 0) = negb (Z.testbit mask c).
Proof.
  intros Hc. destruct (Z.testbit mask c) eqn:E; cbn [negb].
  - apply Z.eqb_neq. intros H0. apply (f_equal (fun z => Z.testbit z c)) in H0.
    rewrite Z.land_spec, E, Z.pow2_bits_true, Z.bits_0 in H0 by lia. done.
  - apply Z.eqb_eq. apply Z.bits_inj'. intros j Hj. rewrite Z.land_spec, Z.bits_0.
    destruct (decide (j = c)) as [->|]; [by rewrite E|].
    rewrite (Z.pow2_bits_false c j) by lia. apply andb_false_r.
Qed.

Lemma lor_bit_range mask c m : 0 <= c < m -> 0 <= mask < 2 ^ m -> 0 <= Z.lor mask (2 ^ c) < 2 ^ m.
Proof.
  intros Hc Hm. split; [apply Z.lor_nonneg; lia|]. apply bits_above_lt; [lia|]. intros i Hi.
  rewrite Z.lor_spec, Z.pow2_bits_false by lia. rewrite orb_false_r.
  replace mask with (mask mod 2 ^ m) by (by apply Z.mod_small).
  by rewrite Z.mod_pow2_bits_high by lia.
Qed.

(** ** The validity bits of fanned-out threads *)

Lemma land_b2z b x : Z.land (Z.b2z b) x = Z.b2z (b && Z.testbit x 0).
Proof.
  destruct b; cbn [Z.b2z andb]; [|done]. rewrite Z.land_comm. change 1 with (Z.ones 1).
  rewrite Z.land_ones by lia. rewrite Z.pow_1_r. by rewrite <-Z.bit0_mod.
Qed.

Lemma fanout_bit_spec mask ff i :
  fanout_bit mask ff i = Z.b2z (forallb (fun j => Z.testbit mask (Z.of_nat (i + j))) (seq 0 ff)).
Proof.
  unfold fanout_bit. change 1 with (Z.b2z true).
  replace (forallb _ _) with (true && forallb (fun j => Z.testbit mask (Z.of_nat (i + j))) (seq 0 ff)) by done.
  generalize true, (seq 0 ff). intros b l. revert b. induction l as [|j l IH]; intros b; cbn [foldl forallb].
  - by rewrite andb_true_r.
  - rewrite land_b2z, IH, Z.shiftr_spec, Z.add_0_l by lia. by rewrite andb_assoc.
Qed.

Lemma fanout_mask_spec mask ff m : (0 < ff)%nat -> (m <= 31)%nat ->
  exists v, fanout_mask mask ff m = Some v /\ 0 <= v < 2 ^ 32 /\
    forall k, (k < (m + ff - 1) / ff)%nat ->
      Z.testbit v (Z.of_nat k) = forallb (fun j => Z.testbit mask (Z.of_nat (k * ff + j))) (seq 0 ff).
Proof.
  intros Hff Hm. unfold fanout_mask. set (q := ((m + ff - 1) / ff)%nat).
  assert (Hq : (q <= 31)%nat).
  { assert (q < 32)%nat; [|lia]. apply Nat.Div0.div_lt_upper_bound. nia. }
  set (bit k := forallb (fun j => Z.testbit mask (Z.of_nat (k * ff + j))) (seq 0 ff)).
  destruct (run_iters_seq (fun k v => m ← sint (Z.shiftl (fanout_bit mask ff (k * ff)) (Z.of_nat k));
      Some (Z.lor v m))
    (fun r v => 0 <= v < 2 ^ Z.of_nat r /\ forall k, (k < r)%nat -> Z.testbit v (Z.of_nat k) = bit k) q 0)
    as (v & E & Hv & Hb).
  - intros k v Hk (Hv & Hb). rewrite fanout_bit_spec. fold (bit k). rewrite Z.shiftl_mul_pow2 by lia.
    assert (Hp : 2 ^ Z.of_nat k <= 2 ^ 30) by (apply Z.pow_le_mono_r; lia).
    assert (Hpow : 2 ^ Z.of_nat (S k) = 2 * 2 ^ Z.of_nat k) by (rewrite Nat2Z.inj_succ, Z.pow_succ_r; lia).
    rewrite sint_Some by (destruct (bit k); cbn [Z.b2z]; lia). cbn [mbind option_bind].
    eexists. split; [done|]. split.
    + rewrite Z.lor_comm, <-Z.shiftl_mul_pow2, lor_shift_add by lia. destruct (bit k); cbn [Z.b2z]; lia.
    + intros j Hj. rewrite Z.lor_spec, <-Z.shiftl_mul_pow2, Z.shiftl_spec by lia.
      destruct (decide (j = k)) as [->|Hne].
      * rewrite Z.sub_diag. replace v with (v mod 2 ^ Z.of_nat k) by (by apply Z.mod_small).
        rewrite Z.mod_pow2_bits_high by lia. by rewrite Z.b2z_bit0.
      * rewrite Hb by lia. rewrite (Z.testbit_neg_r _ (_ - _)) by lia. apply orb_false_r.
  - split; [done|lia].
  - exists v. split; [done|]. split; [|done].
    assert (2 ^ Z.of_nat q <= 2 ^ 32) by (apply Z.pow_le_mono_r; lia). lia.
Qed.

Section Correct.
Context (SZ : Z) (vm : vdif_mux) (src : buffer) (src_addr start : Z).
Context (Hrun : run_ok SZ vm src src_addr).

#[local] Abbreviation srcSize := (Z.of_nat (length src)).
#[local] Abbreviation fs := (vm_inputFrameSize vm).
#[local] Abbreviation nt := (Z.to_nat (vm_nThread vm)).

(** Output sizes as natural numbers. *)
Definition odata : nat := Z.to_nat (vm_outputDataSize vm).
Definition osize : nat := (32 + odata)%nat.

Lemma sizes :
  vm_inputDataSize vm = fs - 32 /\ vm_outputDataSize vm = (fs - 32) * Z.of_nat (nchan nt) /\
  vm_outputFrameSize vm = vm_outputDataSize vm + 32 /\ vm_outputFrameSize vm = Z.of_nat osize /\
  vm_outputDataSize vm = Z.of_nat odata /\ (8 * nt <= odata)%nat /\ vm_outputFrameSize vm < 2 ^ 27.
Proof using Hrun.
  pose proof (ro_mux _ _ _ _ Hrun) as Hm. pose proof (ro_frame _ _ _ _ Hrun) as Hf.
  pose proof (mo_threads _ _ Hm) as Ht. pose proof (ro_threads _ _ _ _ Hrun) as Ht'.
  pose proof (mo_inputData _ _ Hm) as E1. pose proof (mo_outputData _ _ Hm) as E2.
  pose proof (mo_outputFrame _ _ Hm) as E3.
  unfold header_size in *. rewrite (ro_legacy_in _ _ _ _ Hrun) in E1.
  rewrite (ro_legacy_out _ _ _ _ Hrun) in E3. unfold VDIF_HEADER_BYTES in *.
  pose proof (nchan_ge nt) as Hge. pose proof (nchan_64 nt ltac:(lia)) as H64.
  unfold osize, odata. rewrite E1 in E2. split_and!; nia.
Qed.

(** ** Packets and slots *)

(** At byte [i] of the input there is a good frame of channel [c] and output
    frame [k]. *)
Definition packet_at (i k c : Z) : Prop :=
  0 <= i <= srcSize - fs /\ exists vh, scan_at src vm i = Some (Frame vh) /\
    vm_chanIndex vm !! Z.to_nat (getVDIFThreadID vh) = Some c /\
    s32 (frame_number vm vh - start) = k.

(** Frame [k] of the output while the input is read. *)
Record slot_ok (k : Z) (frame : buffer) (mask : Z) : Prop := {
  sl_length : length frame = osize;
  sl_bytes : bytes_ok frame;
  sl_mask : load 8 frame 3 = Some mask;
  sl_range : 0 <= mask < 2 ^ vm_nThread vm;
  sl_packets : forall c, 0 <= c < vm_nThread vm -> Z.testbit mask c = true ->
    exists i, packet_at i k c /\ load 8 frame (4 + Z.to_nat c) = Some (src_addr + i + 32) }.

Definition proto_ok (h : vdif_header) : Prop :=
  exists i vh, 0 <= i <= srcSize - fs /\ scan_at src vm i = Some (Frame vh) /\
    proto_header vm (slice src (Z.to_nat i) 16) = Some h.

(** The number of output channels is the power of two the header can hold. *)
Lemma output_channels i vh : scan_at src vm i = Some (Frame vh) ->
  exists e, 0 <= e <= 30 /\ vm_nOutputChan vm = 2 ^ e.
Proof using Hrun.
  intros Hscan. destruct (scan_frame _ _ _ _ Hrun _ _ Hscan) as [Hok _].
  destruct (scan_frame_header _ _ _ _ Hscan) as (_ & _ & Hc & _).
  apply struct_header_ok in Hok. pose proof (ok_nchan _ Hok) as Hnc.
  destruct (ro_mux _ _ _ _ Hrun) as [Ht _ _ (Hch & Hf & _) Hout _ _ _ _ _ _].
  assert (Hne : vh_nchan vh <> 31).
  { intros E. unfold getVDIFNumChannels in Hc. rewrite E in Hc. vm_compute in Hc. done. }
  rewrite getVDIFNumChannels_spec in Hc by lia. injection Hc as Hc.
  assert (Hq : (Z.to_nat (vm_nThread vm / vm_fanoutFactor vm) <= 64)%nat).
  { assert (vm_nThread vm / vm_fanoutFactor vm <= vm_nThread vm) by (apply Z.div_le_upper_bound; nia). lia. }
  set (u := Z.to_nat (vm_nThread vm / vm_fanoutFactor vm)) in *.
  assert (Hl : (Nat.log2_up u <= 6)%nat).
  { transitivity (Nat.log2_up 64); [by apply Nat.log2_up_le_mono|done]. }
  assert (Hnl : vh_nchan vh <= 10).
  { destruct (Z.le_gt_cases (vh_nchan vh) 10) as [|Hgt]; [done|].
    assert (2 ^ 11 <= 2 ^ vh_nchan vh) by (apply Z.pow_le_mono_r; lia). lia. }
  exists (Z.of_nat (Nat.log2_up u) + vh_nchan vh). split; [lia|].
  rewrite Hout. fold u. unfold nchan. rewrite <-Hc, Z.pow_add_r, Nat2Z.inj_pow by lia. done.
Qed.

(** The prototype header made from the frame [vh]. *)
Definition proto_of (vh : vdif_header) : vdif_header :=
  setVDIFFrameInvalid (setVDIFFrameBytes (setVDIFThreadID
    (vh_set_nchan vh (Z.log2 (vm_nOutputChan vm))) 0) (vm_outputFrameSize vm)) 0.

Lemma shared_proto_of h h' : shared_fields h = shared_fields h' ->
  shared_fields (proto_of h) = shared_fields (proto_of h').
Proof using. unfold shared_fields. cbn. intros H. injection H. congruence. Qed.

Lemma take_proto i rest : 0 <= i <= srcSize - fs ->
  take 16 (slice src (Z.to_nat i) 16 ++ rest) = take 16 (slice src (Z.to_nat i) 32).
Proof using Hrun.
  intros Hi. pose proof (ro_frame _ _ _ _ Hrun).
  rewrite take_app_length' by (rewrite length_slice; lia). unfold slice. by rewrite take_take.
Qed.

Lemma edv4_words (h : vdif_edv4_header) a b c d e :
  shared_fields (v4_set_validitymask (v4_set_syncword (v4_set_eversion
    (v4_set_masklength (v4_set_dummy h a) b) c) d) e) = shared_fields h.
Proof using. done. Qed.

Lemma proto_header_spec i vh : 0 <= i <= srcSize - fs -> scan_at src vm i = Some (Frame vh) ->
  exists h, proto_header vm (slice src (Z.to_nat i) 16) = Some h /\ struct_ok h /\
    shared_fields h = shared_fields (proto_of vh).
Proof using Hrun.
  intros Hi Hscan. destruct (output_channels _ _ Hscan) as (e & He & Hout).
  destruct (scan_frame_header _ _ _ _ Hscan) as (-> & _).
  assert (Hrange : 0 < vm_nOutputChan vm < 2 ^ 31).
  { rewrite Hout. split; [apply Z.pow_pos_nonneg; lia|apply Z.pow_lt_mono_r; lia]. }
  unfold proto_header. rewrite setVDIFNumChannels_spec by done. cbn [mbind option_bind].
  eexists. split; [done|].
  pose proof (ro_bytes _ _ _ _ Hrun) as Hb.
  assert (Hz : bytes_ok (slice src (Z.to_nat i) 16 ++ replicate 16 0)).
  { apply Forall_app. split; [by apply bytes_ok_slice|]. apply Forall_replicate. unfold is_byte. lia. }
  assert (Hview : shared_fields (struct_of_bytes (slice src (Z.to_nat i) 16 ++ replicate 16 0) : vdif_header)
    = shared_fields (struct_of_bytes (slice src (Z.to_nat i) 32) : vdif_header)).
  { apply header_view; [done|by apply bytes_ok_slice|]. by apply take_proto. }
  split.
  - unfold setVDIFFrameInvalid, setVDIFFrameBytes, setVDIFThreadID.
    case_match; auto 10 using struct_of_bytes_ok with vdif.
  - fold (proto_of (struct_of_bytes (slice src (Z.to_nat i) 32))).
    match goal with |- shared_fields (setVDIFFrameInvalid (setVDIFFrameBytes (setVDIFThreadID
      (vh_set_nchan ?x _) _) _) _) = _ => change (shared_fields (proto_of x) = shared_fields
      (proto_of (struct_of_bytes (slice src (Z.to_nat i) 32)))) end.
    apply shared_proto_of. case_match; [|done]. rewrite edv4_write.
    + rewrite edv4_words. by rewrite edv4_view.
    + auto 10 using struct_of_bytes_ok with vdif.
Qed.

Context (n : nat) (Hn : (0 < n)%nat).

(** The invariant of the first loop, on the variables it needs. *)
Record inv (i bp fgb hi hs : Z) (oh : option vdif_header) (dest : list buffer) : Prop := {
  in_i : 0 <= i <= srcSize;
  in_bp : bp = -1 \/ 0 <= bp <= i;
  in_fgb : fgb = -1 \/ 0 <= fgb <= i;
  in_hi : 0 <= hi < Z.of_nat n;
  in_hs : -1 <= hs < Z.of_nat n;
  in_oh : forall h, oh = Some h -> proto_ok h;
  in_dest : length dest = n;
  in_slots : forall k frame, dest !! k = Some frame -> exists mask,
    slot_ok (Z.of_nat k) frame mask /\ (oh = None -> mask = 0) }.

Definition stage1_inv (s : stage1) : Prop :=
  inv (s1_i s) (s1_bytesProcessed s) (s1_firstGoodByte s) (s1_highestDestIndex s)
    (s1_highestSortedDestIndex s) (s1_outputHeader s) (s1_dest s).

Lemma inv_advance i bp fgb hi hs oh dest i' :
  inv i bp fgb hi hs oh dest -> i <= i' <= srcSize -> inv i' bp fgb hi hs oh dest.
Proof using Hrun Hn. intros [] ?. split; try done; lia. Qed.

Lemma chan_range tid c :
  vm_chanIndex vm !! tid = Some c -> c <> MAGIC_BAD_THREAD -> 0 <= c < vm_nThread vm.
Proof using Hrun Hn.
  intros Hc Hne. destruct (mo_chanIndex _ _ (ro_mux _ _ _ _ Hrun)) as [_ Hall].
  pose proof (proj1 (Forall_lookup _ _) Hall _ _ Hc) as H. cbn in H. destruct H; done.
Qed.

(** Storing a packet in its slot. *)
Lemma store_slot k frame mask c i :
  slot_ok k frame mask -> 0 <= c < vm_nThread vm -> packet_at i k c ->
  exists f1 f2, store 8 frame 3 (Z.lor mask (2 ^ c)) = Some f1 /\
    store 8 f1 (4 + Z.to_nat c) (src_addr + i + 32) = Some f2 /\
    slot_ok k f2 (Z.lor mask (2 ^ c)).
Proof using Hrun Hn.
  intros [Hl Hb Hmask Hr Hp] Hc Hi. destruct sizes as (_ & _ & _ & _ & _ & H8 & _).
  pose proof (ro_threads _ _ _ _ Hrun). pose proof (ro_addr _ _ _ _ Hrun) as Ha.
  pose proof (ro_frame _ _ _ _ Hrun). pose proof (proj1 Hi) as Hi0.
  pose proof (lor_bit_range mask c (vm_nThread vm) Hc Hr) as Hr'.
  assert (2 ^ vm_nThread vm <= 2 ^ 31) by (apply Z.pow_le_mono_r; lia).
  unfold osize in Hl.
  destruct (store_Some 8 frame 3 (Z.lor mask (2 ^ c))) as (f1 & E1 & L1 & S1 & O1 & _ & B1); [lia|].
  destruct (store_Some 8 f1 (4 + Z.to_nat c) (src_addr + i + 32)) as (f2 & E2 & L2 & S2 & O2 & _ & B2); [lia|].
  exists f1, f2. split; [done|]. split; [done|]. split.
  - unfold osize. lia.
  - auto.
  - rewrite O2 by lia. apply S1. lia.
  - done.
  - intros d Hd. rewrite Z.lor_spec, Z.pow2_bits_eqb by lia.
    destruct (Z.eqb_spec c d) as [<-|Hne].
    + intros _. exists i. split; [done|]. apply S2. lia.
    + rewrite orb_false_r. intros Ht. destruct (Hp d Hd Ht) as (j & Hj & Ej).
      exists j. split; [done|]. rewrite O2, O1 by lia. done.
Qed.

(** ** The first loop *)

Lemma store_packet_inv s k c h :
  stage1_inv s -> s1_outputHeader s = Some h -> packet_at (s1_i s) k c ->
  0 <= k < Z.of_nat n -> 0 <= c < vm_nThread vm ->
  exists s', store_packet src_addr vm s k c = Some s' /\ stage1_inv s' /\ s1_i s' = s1_i s + fs.
Proof using Hrun Hn.
  intros Hinv Hh Hp Hk Hc. pose proof (ro_threads _ _ _ _ Hrun). pose proof (ro_frame _ _ _ _ Hrun).
  pose proof (proj1 Hp) as Hi. pose proof Hinv as [Ii _ _ Ihi _ _ Id Is]. unfold store_packet.
  destruct (lookup_lt_is_Some_2 (s1_dest s) (Z.to_nat k)) as [frame Hf]; [lia|].
  destruct (Is _ _ Hf) as (mask & Hslot & _). rewrite Z2Nat.id in Hslot by lia.
  rewrite Hf, int_bit_Some by lia. cbn [mbind option_bind].
  rewrite (sl_mask _ _ _ Hslot). cbn [mbind option_bind]. case_match.
  - eexists. split; [done|]. split; [|done]. eapply inv_advance; [exact Hinv|cbn; lia].
  - destruct (store_slot _ _ _ _ _ Hslot Hc Hp) as (f1 & f2 & E1 & E2 & Hs2).
    rewrite E1. cbn [mbind option_bind]. unfold VDIF_HEADER_BYTES. rewrite E2. cbn [mbind option_bind].
    eexists. split; [done|]. split; [|case_match; done].
    apply (inv_advance (s1_i s)); [|case_match; cbn; lia]. destruct Hinv as [].
    assert (Hslots : forall j frame', <[Z.to_nat k:=f2]> (s1_dest s) !! j = Some frame' ->
      exists mask', slot_ok (Z.of_nat j) frame' mask' /\ (s1_outputHeader s = None -> mask' = 0)).
    { intros j f' Hj. destruct (decide (j = Z.to_nat k)) as [->|Hne].
      - rewrite list_lookup_insert_eq in Hj by lia. injection Hj as <-. rewrite Z2Nat.id by lia.
        exists (Z.lor mask (2 ^ c)). split; [done|]. by rewrite Hh.
      - rewrite list_lookup_insert_ne in Hj by done. by apply Is. }
    case_match; split; cbn; try done; try (by rewrite length_insert); lia.
Qed.

Lemma mark_end_inv s : stage1_inv s ->
  stage1_inv (mark_end s) /\ s1_i (mark_end s) = s1_i s /\
  s1_outputHeader (mark_end s) = s1_outputHeader s.
Proof using Hrun Hn.
  intros []. unfold mark_end. case_match; split_and!; try done; split; cbn; try done; lia.
Qed.

(** What an iteration guarantees. *)
Definition step_ok (s : stage1) (r : option (bool * stage1)) : Prop :=
  exists go s', r = Some (go, s') /\ stage1_inv s' /\ s1_i s <= s1_i s' /\
    (go = true -> s1_i s + 4 <= s1_i s').

Lemma advance_ok s s' d : stage1_inv s' -> s1_i s' = s1_i s -> 4 <= d -> s1_i s + d <= srcSize ->
  step_ok s (Some (true, advance s' d)).
Proof using Hrun Hn.
  intros Hinv Hi Hd Hle. exists true, (advance s' d). split; [done|].
  split; [|cbn; split; intros; lia]. eapply inv_advance; [exact Hinv|]. cbn. lia.
Qed.

Lemma use_packet_ok nSort s k c h :
  stage1_inv s -> s1_outputHeader s = Some h -> packet_at (s1_i s) k c ->
  0 <= k < Z.of_nat n -> 0 <= c < vm_nThread vm ->
  step_ok s (use_packet src_addr vm nSort s k c).
Proof using Hrun Hn.
  intros Hinv Hh Hp Hk Hc. pose proof (ro_frame _ _ _ _ Hrun). unfold use_packet.
  set (s1 := s1_set_nSequentialUnprocessable s _).
  assert (Hs1 : stage1_inv s1 /\ s1_i s1 = s1_i s /\ s1_outputHeader s1 = Some h) by done.
  clearbody s1. destruct Hs1 as (Hs1 & Hi1 & Hh1).
  destruct (mark_end_inv s1 Hs1) as (Hs2 & Hi2 & Hh2).
  assert (Hstore : forall s2, stage1_inv s2 -> s1_i s2 = s1_i s -> s1_outputHeader s2 = Some h ->
    step_ok s (s3 ← store_packet src_addr vm s2 k c; Some (true, s3))).
  { intros s2 H2 E2 Eh. rewrite <-E2 in Hp.
    destruct (store_packet_inv s2 k c h H2 Eh Hp Hk Hc) as (s3 & E3 & H3 & Hi3).
    rewrite E3. exists true, s3. split_and!; [done..|lia|intros; lia]. }
  case_match; [case_match|]; [|apply Hstore; [done|lia|congruence]..].
  exists false, (mark_end s1). split_and!; [done..|lia|done].
Qed.

Lemma beyond_end_ok nSort s :
  stage1_inv s -> s1_i s <= srcSize - fs -> step_ok s (Some (beyond_end vm nSort s)).
Proof using Hrun Hn.
  intros Hinv Hi. pose proof (ro_frame _ _ _ _ Hrun). unfold beyond_end.
  set (s1 := s1_set_nSequentialUnprocessable s _).
  assert (Hs1 : stage1_inv s1 /\ s1_i s1 = s1_i s) by done. clearbody s1.
  destruct Hs1 as (Hs1 & Hi1). destruct (mark_end_inv s1 Hs1) as (Hs2 & Hi2 & _).
  set (s2 := mark_end s1) in *. clearbody s2. pose proof (in_i _ _ _ _ _ _ _ Hinv). case_match.
  - apply (advance_ok s (discard s1) fs); [done|done|lia..].
  - eexists _, _. split; [done|]. cbn [advance]. split; [|cbn; split; intros; lia].
    eapply inv_advance; [exact Hs2|]. cbn. lia.
Qed.

(** The first good frame provides the output header. *)
Lemma first_header_ok s vh :
  stage1_inv s -> s1_i s <= srcSize - fs -> scan_at src vm (s1_i s) = Some (Frame vh) ->
  exists s1 h, match s1_outputHeader s with
      | Some _ => Some s
      | None => h ← proto_header vm (slice src (Z.to_nat (s1_i s)) 16);
                Some (s1_set_outputHeader s (Some h))
      end = Some s1 /\ stage1_inv s1 /\ s1_i s1 = s1_i s /\ s1_outputHeader s1 = Some h /\
    s1_dest s1 = s1_dest s /\ s1_highestDestIndex s1 = s1_highestDestIndex s.
Proof using Hrun Hn.
  intros Hinv Hi Hscan. pose proof (in_i _ _ _ _ _ _ _ Hinv). case_match; [by eauto 10|].
  destruct (proto_header_spec (s1_i s) vh) as (h & Eh & _); [lia|done|].
  rewrite Eh. eexists _, h. split; [done|]. split; [|done]. destruct Hinv as [].
  split; cbn; try done.
  - intros h' [= <-]. exists (s1_i s), vh. split; [lia|done].
  - intros k f Hk. destruct (in_slots0 k f Hk) as (m & Hm & _). by exists m.
Qed.

Lemma good_frame_ok nSort maxSrcIndex s vh c :
  stage1_inv s -> s1_i s <= srcSize - fs -> scan_at src vm (s1_i s) = Some (Frame vh) ->
  vm_chanIndex vm !! Z.to_nat (getVDIFThreadID vh) = Some c -> 0 <= c < vm_nThread vm ->
  step_ok s (good_frame src src_addr vm nSort maxSrcIndex (Z.of_nat n - 1) start s vh c).
Proof using Hrun Hn.
  intros Hinv Hi Hscan Hchan Hc. pose proof (ro_frame _ _ _ _ Hrun). unfold good_frame.
  destruct (first_header_ok s vh) as (s0 & h & -> & Hs0 & Hi0 & Hh0 & _); [done..|]. cbn [mbind option_bind].
  set (s1 := s1_set_framesIn s0 _).
  assert (Hs1 : stage1_inv s1 /\ s1_i s1 = s1_i s /\ s1_outputHeader s1 = Some h) by done.
  clearbody s1. destruct Hs1 as (Hs1 & Hi1 & Hh1). pose proof (in_i _ _ _ _ _ _ _ Hinv).
  case_match eqn:Eneg.
  { apply (advance_ok s (discard s1) fs); [done|done|lia..]. }
  set (k := s32 (frame_number vm vh - start)) in *. set (s2 := if _ && _ then _ else s1).
  assert (Hs2 : stage1_inv s2 /\ s1_i s2 = s1_i s /\ s1_outputHeader s2 = Some h).
  { subst s2. case_match; [|done]. split_and!; [|done..]. destruct Hs1 as []. split; cbn; done || lia. }
  clearbody s2. destruct Hs2 as (Hs2 & Hi2 & Hh2). apply Z.ltb_ge in Eneg. case_match eqn:Emax.
  - destruct (beyond_end_ok nSort s2) as (go & s3 & E & H3); [done|lia|].
    exists go, s3. rewrite <-Hi2. done.
  - apply Z.ltb_ge in Emax. destruct (use_packet_ok nSort s2 k c h) as (go & s3 & E & H3);
      [done..| |lia|done|].
    + rewrite Hi2. split; [lia|]. by exists vh.
    + exists go, s3. rewrite <-Hi2. done.
Qed.

Lemma stage1_step_ok nSort maxSrcIndex s :
  stage1_inv s -> s1_i s <= srcSize - fs ->
  step_ok s (stage1_step src src_addr vm nSort maxSrcIndex (Z.of_nat n - 1) start s).
Proof using Hrun Hn.
  intros Hinv Hi. pose proof (ro_frame _ _ _ _ Hrun). pose proof (in_i _ _ _ _ _ _ _ Hinv).
  unfold stage1_step. destruct (ro_scan _ _ _ _ Hrun (s1_i s)) as [sc Esc]; [lia|].
  rewrite Esc. cbn [mbind option_bind]. destruct sc as [| | | |vh];
    [eapply advance_ok; [|done|cbn [scan_step]; lia..]; exact Hinv..|].
  destruct (scan_frame _ _ _ _ Hrun _ _ Esc) as (_ & c & Ec). rewrite Ec. cbn [mbind option_bind].
  set (s1 := if s1_firstGoodByte s <? 0 then _ else s). assert (Hs1 : stage1_inv s1 /\ s1_i s1 = s1_i s).
  { subst s1. case_match; [|done]. split; [|done]. destruct Hinv as []. split; cbn; done || lia. }
  clearbody s1. destruct Hs1 as (Hs1 & Hi1). case_match eqn:Eb.
  - eapply advance_ok; [|done|lia..]. exact Hs1.
  - apply Z.eqb_neq in Eb. pose proof (chan_range _ _ Ec Eb).
    destruct (good_frame_ok nSort maxSrcIndex s1 vh c) as (go & s2 & E & H2);
      [done|lia|by rewrite Hi1|done..|].
    exists go, s2. rewrite <-Hi1. done.
Qed.

Lemma stage1_loop_ok nSort maxSrcIndex fuel s :
  stage1_inv s -> srcSize - s1_i s < Z.of_nat fuel ->
  exists s', stage1_loop src src_addr srcSize vm nSort maxSrcIndex (Z.of_nat n - 1) start fuel s = Some s' /\
    stage1_inv s'.
Proof using Hrun Hn.
  revert s. induction fuel as [|fuel IH]; intros s Hinv Hf; pose proof (in_i _ _ _ _ _ _ _ Hinv);
    cbn [stage1_loop]; [lia|]. case_match eqn:E; [by eauto|]. apply Z.ltb_ge in E.
  destruct (stage1_step_ok nSort maxSrcIndex s Hinv ltac:(lia)) as (go & s1 & E1 & H1 & Hle & Hgo).
  rewrite E1. cbn [mbind option_bind]. destruct go; [|by eauto]. apply IH; [done|]. lia.
Qed.

(** The destination with its masks cleared. *)
Lemma clear_masks_ok dest :
  Forall (fun frame => length frame = osize /\ bytes_ok frame) dest ->
  exists dest', clear_masks dest = Some dest' /\ length dest' = length dest /\
    Forall (fun frame => length frame = osize /\ bytes_ok frame /\ load 8 frame 3 = Some 0) dest'.
Proof using Hrun Hn.
  induction 1 as [|frame dest [Hl Hb] _ IH]; cbn [clear_masks]; [by eexists|].
  destruct (store_Some 8 frame 3 0) as (f1 & -> & L1 & S1 & _ & _ & B1); [unfold osize in *; lia|].
  destruct IH as (d1 & -> & Ll & Hd). eexists. split; [done|]. split; [by cbn; rewrite Ll|].
  constructor; [|done]. split_and!; [lia|auto|apply S1; lia].
Qed.

Lemma stage1_init_inv dest : length dest = n ->
  Forall (fun frame => length frame = osize /\ bytes_ok frame /\ load 8 frame 3 = Some 0) dest ->
  stage1_inv (stage1_init dest).
Proof using Hrun Hn.
  intros Hl Hd. pose proof (mo_threads _ _ (ro_mux _ _ _ _ Hrun)). split; cbn; try done; try lia.
  intros k f Hf. exists 0. split; [|done].
  destruct (proj1 (Forall_lookup _ _) Hd _ _ Hf) as (H1 & H2 & H3). split; try done.
  - split; [lia|]. apply Z.pow_pos_nonneg; lia.
  - intros c Hc. by rewrite Z.bits_0.
Qed.

Lemma stage1_end_inv s : stage1_inv s -> stage1_inv (stage1_end s) /\ 0 <= s1_bytesProcessed (stage1_end s).
Proof using Hrun Hn.
  intros []. unfold stage1_end. case_match eqn:E; [|apply Z.eqb_neq in E];
    (split; [split; cbn; done || lia|cbn; lia]).
Qed.

(** ** Backing up *)

Lemma slot_pointer k frame mask c :
  slot_ok k frame mask -> 0 <= c < vm_nThread vm -> Z.testbit mask c = true ->
  exists i, packet_at i k c /\ load 8 frame (4 + Z.to_nat c) = Some (src_addr + i + 32) /\
    s32 (src_addr + i + 32 - src_addr - VDIF_HEADER_BYTES) = i.
Proof using Hrun Hn.
  intros Hs Hc Ht. destruct (sl_packets _ _ _ Hs c Hc Ht) as (i & Hi & El). exists i.
  split_and!; [done..|]. pose proof (ro_size _ _ _ _ Hrun). pose proof (ro_frame _ _ _ _ Hrun).
  pose proof (proj1 Hi). unfold VDIF_HEADER_BYTES.
  replace (src_addr + i + 32 - src_addr - 32) with i by lia. apply swrap_small; lia.
Qed.

Definition backup_inv (hi i : Z) (b : backup) : Prop :=
  -1 <= b_highestDestIndex b <= hi /\ 0 <= b_bytesProcessed b <= i.

(** Backing up one frame reads as far back as its first packet. *)
Lemma unread_threads_ok k frame mask b :
  slot_ok k frame mask -> 0 <= b_bytesProcessed b ->
  exists b', run_iters (unread_thread src_addr frame mask) (seq 0 nt) b = Some b' /\
    b_highestDestIndex b' = b_highestDestIndex b /\
    0 <= b_bytesProcessed b' <= b_bytesProcessed b /\
    forall c ptr, (c < nt)%nat -> Z.testbit mask (Z.of_nat c) = true ->
      load 8 frame (4 + c) = Some ptr -> b_bytesProcessed b' <= ptr - src_addr - 32.
Proof using Hrun Hn.
  intros Hs Hb. pose proof (ro_threads _ _ _ _ Hrun).
  apply (run_iters_seq _ (fun m b' => b_highestDestIndex b' = b_highestDestIndex b /\
    0 <= b_bytesProcessed b' <= b_bytesProcessed b /\
    forall c ptr, (c < m)%nat -> Z.testbit mask (Z.of_nat c) = true ->
      load 8 frame (4 + c) = Some ptr -> b_bytesProcessed b' <= ptr - src_addr - 32)); [|split_and!; done || lia].
  intros t b' Ht (H1 & H2 & H3). unfold unread_thread.
  rewrite int_bit_Some by lia. cbn [mbind option_bind]. rewrite land_bit by lia.
  destruct (Z.testbit mask (Z.of_nat t)) eqn:Et; cbn [negb].
  - destruct (slot_pointer _ _ _ (Z.of_nat t) Hs) as (j & Hj & El & Es); [lia|done|].
    rewrite Nat2Z.id in El. rewrite El. cbn [mbind option_bind]. rewrite Es. pose proof (proj1 Hj).
    eexists. split; [done|]. cbn [b_highestDestIndex b_bytesProcessed].
    destruct (Z.ltb_spec j (b_bytesProcessed b')); (split; [done|]; split; [lia|]; intros c ptr Hc Ec Eptr;
      destruct (decide (c = t)) as [->|]; [replace ptr with (src_addr + j + 32) by congruence; lia|];
      specialize (H3 c ptr ltac:(lia) Ec Eptr); lia).
  - eexists. split; [done|]. split; [done|]. split; [done|]. intros c ptr Hc Ec.
    destruct (decide (c = t)) as [->|]; [congruence|]. apply H3; [lia|done].
Qed.

Definition slots (dest : list buffer) : Prop :=
  length dest = n /\
  forall k frame, dest !! k = Some frame -> exists mask, slot_ok (Z.of_nat k) frame mask.

(** If frame [f] is incomplete it is dropped, and its packets lie in the part
    of the input that counts as unread. *)
Definition unread (dest : list buffer) (b : backup) (f : Z) : Prop :=
  forall frame mask, dest !! Z.to_nat f = Some frame -> load 8 frame 3 = Some mask ->
    mask <> vm_goodMask vm -> b_highestDestIndex b < f /\
    forall c ptr, (c < nt)%nat -> Z.testbit mask (Z.of_nat c) = true ->
      load 8 frame (4 + c) = Some ptr -> b_bytesProcessed b <= ptr - src_addr - 32.

Lemma unread_mono dest b b' f : unread dest b f -> b_highestDestIndex b' <= b_highestDestIndex b ->
  b_bytesProcessed b' <= b_bytesProcessed b -> unread dest b' f.
Proof using Hrun Hn.
  intros Hu H1 H2 frame mask E1 E2 E3. destruct (Hu frame mask E1 E2 E3) as [H3 H4]. split; [lia|].
  intros c ptr E4 E5 E6. specialize (H4 c ptr E4 E5 E6). lia.
Qed.

Lemma backup_frame_ok dest hi i f b :
  slots dest -> 0 <= f <= hi -> hi < Z.of_nat n -> backup_inv hi i b ->
  f <= b_highestDestIndex b ->
  exists b', backup_frame src_addr vm dest f b = Some b' /\ backup_inv hi i b' /\
    f - 1 <= b_highestDestIndex b' <= b_highestDestIndex b /\ b_bytesProcessed b' <= b_bytesProcessed b /\
    (has_flag (vm_flags vm) VDIF_MUX_FLAG_PROPAGATEVALIDITY = false -> unread dest b' f).
Proof using Hrun Hn.
  intros [Hl Hslots] Hf Hhi [Hb1 Hb2] Hfb. unfold backup_frame.
  rewrite (proj2 (Z.leb_le 0 f)) by lia.
  destruct (lookup_lt_is_Some_2 dest (Z.to_nat f)) as [frame Ef]; [lia|]. rewrite Ef.
  destruct (Hslots _ _ Ef) as (mask & Hs). pose proof (sl_mask _ _ _ Hs) as Em.
  cbn [mbind option_bind]. rewrite Em. cbn [mbind option_bind]. case_match.
  { case_match; eexists; (split; [done|]); (split; [split; cbn; lia|]);
      cbn [b_highestDestIndex b_bytesProcessed]; split_and!; done || lia. }
  destruct (Z.eqb_spec mask (vm_goodMask vm)) as [Hg|Hg].
  { eexists. split; [done|]. split; [done|]. split; [lia|]. split; [lia|]. intros _ fr m E1 E2.
    rewrite Ef in E1. injection E1 as <-. rewrite Em in E2. by injection E2 as <-. }
  match goal with |- context [run_iters _ _ ?x] => set (b0 := x) end.
  destruct (unread_threads_ok _ _ _ b0 Hs) as (b' & E & H1 & H2 & H3); [cbn; lia|].
  rewrite E. cbn [b_highestDestIndex b_bytesProcessed b0] in H1, H2. exists b'. split; [done|].
  split; [split; lia|]. split; [lia|]. split; [lia|]. intros _ fr m E1 E2 _.
  rewrite Ef in E1. injection E1 as <-. rewrite Em in E2. injection E2 as <-. split; [lia|done].
Qed.

Lemma backup_range dest hi i lo b :
  slots dest -> 0 <= lo -> hi < Z.of_nat n -> backup_inv hi i b -> b_highestDestIndex b = hi ->
  exists b', run_iters (backup_frame src_addr vm dest) (down_to hi lo) b = Some b' /\ backup_inv hi i b' /\
    (has_flag (vm_flags vm) VDIF_MUX_FLAG_PROPAGATEVALIDITY = false ->
      forall f, lo <= f <= hi -> unread dest b' f).
Proof using Hrun Hn.
  intros Hslots Hlo Hhi Hb Ehi. unfold down_to. rewrite run_iters_fmap.
  destruct (run_iters_seq (fun k => backup_frame src_addr vm dest (hi - Z.of_nat k))
    (fun m b => backup_inv hi i b /\ hi - Z.of_nat m <= b_highestDestIndex b /\
      (has_flag (vm_flags vm) VDIF_MUX_FLAG_PROPAGATEVALIDITY = false ->
       forall f, hi - Z.of_nat m < f <= hi -> unread dest b f))
    (Z.to_nat (hi - lo + 1)) b) as (b' & E & H1 & _ & H3).
  - intros m b1 Hm (H1 & H2 & H3).
    destruct (backup_frame_ok dest hi i (hi - Z.of_nat m) b1 Hslots) as (b2 & E & H4 & H5 & H6 & H7);
      [lia..|done|lia|].
    exists b2. split; [done|]. split; [done|]. split; [lia|]. intros Hp f Hf.
    destruct (decide (f = hi - Z.of_nat m)) as [->|]; [by apply H7|].
    apply (unread_mono _ b1); [apply H3; [done|lia]|lia|lia].
  - split; [done|]. split; [lia|]. intros. lia.
  - exists b'. split; [done|]. split; [done|]. intros Hp f Hf. apply H3; [done|lia].
Qed.

(** The frames the code looks back at. *)
Definition window (nSort : Z) (s : stage1) (f : Z) : Prop :=
  if 0 <=? s1_highestSortedDestIndex s
  then s1_highestSortedDestIndex s < f <= s1_highestDestIndex s
  else 0 <= s1_highestDestIndex s - cdiv nSort (vm_nThread vm) <= f /\ f <= s1_highestDestIndex s.

Lemma backup_frames_ok nSort s : stage1_inv s -> 0 <= s1_bytesProcessed s ->
  exists b, backup_frames src_addr vm nSort s = Some b /\ backup_inv (s1_highestDestIndex s) (s1_i s) b /\
    (has_flag (vm_flags vm) VDIF_MUX_FLAG_PROPAGATEVALIDITY = false ->
      forall f, window nSort s f -> unread (s1_dest s) b f).
Proof using Hrun Hn.
  intros [Ii Ibp _ Ihi Ihs _ Id Is] Hbp.
  assert (Hslots : slots (s1_dest s)).
  { split; [done|]. intros k f Hf. destruct (Is k f Hf) as (m & Hm & _). by exists m. }
  unfold backup_frames, window. set (b := Build_backup _ _ _).
  assert (Hb : backup_inv (s1_highestDestIndex s) (s1_i s) b) by (split; cbn; lia).
  case_match eqn:E1.
  { apply Z.leb_le in E1. destruct (backup_range (s1_dest s) (s1_highestDestIndex s) (s1_i s)
      (s1_highestSortedDestIndex s + 1) b) as (b' & E & H1 & H2); [done|lia|lia|done|done|].
    exists b'. split; [done|]. split; [done|]. intros Hp f Hf. apply H2; [done|lia]. }
  case_match eqn:E2.
  - apply Z.leb_le in E2. destruct (backup_range (s1_dest s) (s1_highestDestIndex s) (s1_i s)
      (s1_highestDestIndex s - cdiv nSort (vm_nThread vm)) b) as (b' & E & H1 & H2); [done|lia|lia|done|done|].
    exists b'. split; [done|]. split; [done|]. intros Hp f Hf. apply H2; [done|lia].
  - apply Z.leb_gt in E2. exists b. split; [done|]. split; [done|]. intros _ f Hf. lia.
Qed.

(** ** Stage 2 *)

(** Bits of one sample of a thread, all its channels taken together. *)
Definition nbit : Z := vm_bitsPerSample vm * vm_inputChannelsPerThread vm * vm_complexFactor vm.

(** The iteration orders the corner turner in use is correct for. *)
Definition turner_schedule (sched : schedule) : Prop :=
  sched = sequential \/ (valid_schedule sched /\ pointer_turner (vm_nThread vm) nbit = false).

(** The payloads [tb] a frame is built from: those of the threads in [mask]
    are input packets of output frame [k]. *)
Definition payloads (k mask : Z) (tb : list buffer) : Prop :=
  length tb = nt /\ forall t, (t < nt)%nat -> Z.testbit mask (Z.of_nat t) = true ->
    exists i, packet_at i k (Z.of_nat t) /\ tb !! t = Some (drop (Z.to_nat (i + 32)) src).

(** Every thread pointer of the frame leads to a whole payload. *)
Definition pointers_ok (frame : buffer) : Prop :=
  forall t, (t < nt)%nat -> exists p, load 8 frame (4 + t) = Some (src_addr + p) /\
    0 <= p <= srcSize - (fs - 32).

Lemma thread_buffers_ok frame m t : pointers_ok frame -> (t + m <= nt)%nat ->
  exists tbs, thread_buffers src src_addr frame m t = Some tbs /\ length tbs = m /\
    forall u, (u < m)%nat -> exists p, load 8 frame (4 + (t + u)) = Some (src_addr + p) /\
      0 <= p <= srcSize - (fs - 32) /\ tbs !! u = Some (drop (Z.to_nat p) src).
Proof using Hrun Hn.
  intros Hp. pose proof (ro_frame _ _ _ _ Hrun).
  revert t. induction m as [|m IH]; intros t Ht; cbn [thread_buffers].
  { eexists. split; [done|]. split; [done|]. lia. }
  destruct (Hp t) as (p & El & Hr); [lia|]. rewrite El. cbn [mbind option_bind].
  unfold pointed. rewrite decide_True by lia. cbn [mbind option_bind].
  destruct (IH (S t)) as (tbs & -> & Hl & Hu); [lia|]. eexists. split; [done|].
  split; [by cbn; rewrite Hl|]. intros [|u] Hlt.
  - exists p. rewrite Nat.add_0_r. split_and!; [done|lia..|]. cbn. do 3 f_equal. lia.
  - destruct (Hu u) as (q & Eq & Hq & Eu); [lia|]. exists q.
    replace (t + S u)%nat with (S t + u)%nat by lia. done.
Qed.

Lemma turner_input frame tbs : length frame = osize -> length tbs = nt ->
  (forall u, (u < nt)%nat -> exists p, 0 <= p <= srcSize - (fs - 32) /\
    tbs !! u = Some (drop (Z.to_nat p) src)) ->
  turn_input nt tbs (drop 32 frame) odata.
Proof using Hrun Hn.
  intros Hl Ht Hu. destruct sizes as (_ & E2 & _ & _ & E5 & _ & _).
  pose proof (ro_frame _ _ _ _ Hrun). pose proof (nchan_pos nt).
  assert (Ed : odata = (Z.to_nat (fs - 32) * nchan nt)%nat) by (unfold odata; nia).
  split.
  - rewrite length_drop, Hl. unfold osize. lia.
  - lia.
  - apply Forall_lookup. intros u tb Hx. destruct (Hu u) as (p & _ & E).
    { apply lookup_lt_Some in Hx. lia. }
    rewrite E in Hx. injection Hx as <-. apply Forall_drop, (ro_bytes _ _ _ _ Hrun).
  - intros u Hlt. destruct (Hu u Hlt) as (p & Hp & E). rewrite nth_lookup, E. cbn [default].
    rewrite Ed, Nat.div_mul by lia. cbn. rewrite length_drop. lia.
Qed.

Context (sched : schedule) (Hsched : turner_schedule sched).

(** The turner of [vm], through its interface. *)
Lemma turner_turns : exists ct, vm_cornerTurner vm = Some ct /\
  forall tb out, turn_input nt tb out odata ->
    exists out', ct sched out tb (vm_outputDataSize vm) = Some out' /\
      turn_output nt (Z.to_nat nbit) tb out odata out'.
Proof using Hrun Hn Hsched.
  pose proof (ro_mux _ _ _ _ Hrun) as Hm. pose proof (mo_threads _ _ Hm).
  destruct (mo_turner _ _ Hm) as (ct & Ec & Eg). exists ct. split; [done|]. intros tb out Hin.
  destruct sizes as (_ & _ & _ & _ & -> & _ & _). fold nbit in Eg.
  pose proof (ro_granule _ _ _ _ Hrun) as Hg. fold nbit odata in Hg.
  replace nt with (Z.to_nat (Z.abs (vm_nThread vm))) in * by lia.
  destruct Hsched as [->|[Hv Hp]].
  - by apply (getCornerTurner_sequential _ _ _ _ Eg).
  - by apply (getCornerTurner_valid _ _ _ _ Eg Hp).
Qed.

Lemma corner_turn_ok header frame : length frame = osize -> bytes_ok frame -> pointers_ok frame ->
  exists out tbs, corner_turn sched src src_addr vm header frame = Some (header ++ out) /\
    length out = odata /\ bytes_ok out /\ corner_turned nt (Z.to_nat nbit) tbs out odata /\
    length tbs = nt /\ forall u, (u < nt)%nat -> exists p,
      load 8 frame (4 + u) = Some (src_addr + p) /\ tbs !! u = Some (drop (Z.to_nat p) src).
Proof using Hrun Hn Hsched.
  intros Hl Hb Hp. destruct (thread_buffers_ok frame nt 0 Hp) as (tbs & Et & Hlt & Hu); [lia|].
  destruct turner_turns as (ct & Ec & Hct).
  destruct (Hct tbs (drop 32 frame)) as (out & Eo & [H1 H2 H3 H4]).
  { apply turner_input; [done..|]. intros u Hlu. destruct (Hu u Hlu) as (p & _ & ?). by exists p. }
  exists out, tbs. unfold corner_turn. rewrite Ec. cbn [mbind option_bind].
  rewrite Et. cbn [mbind option_bind]. rewrite Eo. split; [done|].
  rewrite length_drop, Hl in H1. split; [unfold osize in H1; lia|].
  split; [by apply H4, Forall_drop|]. split; [done|]. split; [done|].
  intros u Hlu. destruct (Hu u Hlu) as (p & El & _ & E). by exists p.
Qed.

(** Missing threads point at the start of the input. *)
Lemma point_missing_ok mask frame : 0 <= mask -> length frame = osize -> bytes_ok frame ->
  exists frame', run_iters (point_missing src_addr mask) (seq 0 nt) frame = Some frame' /\
    length frame' = osize /\ bytes_ok frame' /\
    forall t, (t < nt)%nat -> load 8 frame' (4 + t) =
      if Z.testbit mask (Z.of_nat t) then load 8 frame (4 + t) else Some src_addr.
Proof using Hrun Hn.
  intros Hm Hl Hb. destruct sizes as (_ & _ & _ & _ & _ & H8 & _).
  pose proof (ro_addr _ _ _ _ Hrun).
  destruct (run_iters_seq (point_missing src_addr mask)
    (fun m f => length f = osize /\ bytes_ok f /\ forall t, load 8 f (4 + t) =
      if decide (t < m)%nat then if Z.testbit mask (Z.of_nat t) then load 8 frame (4 + t) else Some src_addr
      else load 8 frame (4 + t)) nt frame) as (f' & E & Hl' & Hb' & Ht).
  - intros m f Hlt (Hlf & Hbf & Hf). unfold point_missing.
    rewrite Z.shiftl_1_l, land_bit by lia.
    destruct (Z.testbit mask (Z.of_nat m)) eqn:Em; cbn [negb].
    + exists f. split_and!; [done..|]. intros t. rewrite Hf. repeat case_decide; try lia; try done.
      replace t with m by lia. by rewrite Em.
    + destruct (store_Some 8 f (4 + m) src_addr) as (f2 & -> & L2 & S2 & O2 & _ & B2);
        [unfold osize in *; lia|].
      exists f2. split_and!; [done|lia|auto|]. intros t. destruct (decide (t = m)) as [->|].
      * rewrite decide_True, Em by lia. apply S2. lia.
      * rewrite O2, Hf by lia. repeat case_decide; done || lia.
  - split_and!; [done..|]. intros t. by rewrite decide_False by lia.
  - exists f'. split_and!; [done..|]. intros t Hlt. by rewrite Ht, decide_True.
Qed.

(** ** Output frames *)

Definition propagate : bool := has_flag (vm_flags vm) VDIF_MUX_FLAG_PROPAGATEVALIDITY.

(** The header with the time of output frame [k]. *)
Definition timed (k : Z) (h : vdif_header) : vdif_header :=
  setVDIFFrameNumber
    (setVDIFFrameEpochSecOffset h ((start + k) / vm_inputFramesPerSecond vm))
    ((start + k) mod vm_inputFramesPerSecond vm).

(** Bit [j] of an EDV 4 mask: all threads of output channel group [j] are in
    [mask]. *)
Definition validity_bits (mask v : Z) : Prop :=
  forall j, 0 <= j < vm_nThread vm / vm_fanoutFactor vm ->
    (Z.testbit v j = true <-> forall l, 0 <= l < vm_fanoutFactor vm ->
      Z.testbit mask (j * vm_fanoutFactor vm + l) = true).

(** The frame holds the data of the threads in [mask]. *)
Definition frame_data (k mask : Z) (frame : buffer) : Prop :=
  exists tb, payloads k mask tb /\ corner_turned nt (Z.to_nat nbit) tb (drop 32 frame) odata.

(** Frame [k] of the output. *)
Record output_ok (h0 : vdif_header) (k : Z) (frame : buffer) : Prop := {
  oo_length : length frame = osize;
  oo_bytes : bytes_ok frame;
  oo_header : exists inv, (inv = 0 \/ inv = 1) /\
    shared_fields (struct_of_bytes (take 32 frame) : vdif_header) =
    shared_fields (setVDIFFrameInvalid (timed k h0) inv);
  oo_proto : getVDIFFrameInvalid (struct_of_bytes (take 32 frame)) = 0 -> proto_ok h0;
  oo_data : getVDIFFrameInvalid (struct_of_bytes (take 32 frame)) = 0 ->
    exists mask, 0 < mask < 2 ^ vm_nThread vm /\ frame_data k mask frame /\
      (if propagate
       then validity_bits mask (v4_validitymask (struct_of_bytes (take 32 frame)))
       else mask = vm_goodMask vm) }.

Lemma timed_ok k h : struct_ok h -> struct_ok (timed k h).
Proof using. unfold timed, setVDIFFrameNumber, setVDIFFrameEpochSecOffset. auto with vdif. Qed.

Lemma good_bits t : (t < nt)%nat -> Z.testbit (vm_goodMask vm) (Z.of_nat t) = true.
Proof using Hrun Hn.
  intros Ht. rewrite (mo_goodMask _ _ (ro_mux _ _ _ _ Hrun)).
  replace (2 ^ vm_nThread vm - 1) with (Z.ones (vm_nThread vm))
    by (rewrite Z.ones_equiv; lia).
  apply Z.ones_spec_low. lia.
Qed.

Lemma good_nonzero : vm_goodMask vm <> 0.
Proof using Hrun Hn.
  rewrite (mo_goodMask _ _ (ro_mux _ _ _ _ Hrun)). pose proof (mo_threads _ _ (ro_mux _ _ _ _ Hrun)).
  assert (2 ^ 1 <= 2 ^ vm_nThread vm) by (apply Z.pow_le_mono_r; lia). lia.
Qed.

(** A frame whose missing threads point at the start of the input. *)
Lemma frame_turned header k frame mask frame' :
  slot_ok k frame mask -> mask <> 0 -> length frame' = osize -> bytes_ok frame' ->
  (forall t, (t < nt)%nat -> load 8 frame' (4 + t) =
    if Z.testbit mask (Z.of_nat t) then load 8 frame (4 + t) else Some src_addr) ->
  exists out, corner_turn sched src src_addr vm header frame' = Some (header ++ out) /\
    length out = odata /\ bytes_ok out /\
    forall hb, length hb = 32%nat -> frame_data k mask (hb ++ out).
Proof using Hrun Hn Hsched.
  intros Hs Hm Hl Hb Hload. pose proof (sl_range _ _ _ Hs) as Hr.
  pose proof (mo_threads _ _ (ro_mux _ _ _ _ Hrun)) as Hthr.
  assert (Hpk : forall t, (t < nt)%nat -> Z.testbit mask (Z.of_nat t) = true -> exists i,
    packet_at i k (Z.of_nat t) /\ load 8 frame' (4 + t) = Some (src_addr + (i + 32))).
  { intros t Ht Et. destruct (sl_packets _ _ _ Hs (Z.of_nat t)) as (i & Hi & Ei); [lia|done|].
    exists i. split; [done|]. rewrite Hload, Et, Z.add_assoc by done. by rewrite Nat2Z.id in Ei. }
  assert (Hlog : 0 <= Z.log2 mask < vm_nThread vm).
  { split; [apply Z.log2_nonneg|]. apply Z.log2_lt_pow2; lia. }
  destruct (sl_packets _ _ _ Hs (Z.log2 mask) Hlog) as (i0 & [Hi0 _] & _); [apply Z.bit_log2; lia|].
  pose proof (ro_frame _ _ _ _ Hrun).
  destruct (corner_turn_ok header frame' Hl Hb) as (out & tbs & E & Ho & Hbo & Hct & Hlt & Hu).
  { intros t Ht. destruct (Z.testbit mask (Z.of_nat t)) eqn:Et.
    - destruct (Hpk t Ht Et) as (i & [Hi _] & Ei). exists (i + 32). split; [done|lia].
    - exists 0. rewrite Hload, Et, Z.add_0_r by done. split; [done|lia]. }
  exists out. split_and!; [done..|]. intros hb Hhb. exists tbs. split.
  - split; [done|]. intros t Ht Et. destruct (Hpk t Ht Et) as (i & Hi & Ei). exists i. split; [done|].
    destruct (Hu t Ht) as (p & Ep & ->). rewrite Ei in Ep. injection Ep as Ep.
    do 3 f_equal. lia.
  - by rewrite drop_app_length'.
Qed.

Lemma shared_invalid (h h' : vdif_header) : shared_fields h = shared_fields h' -> vh_invalid h = vh_invalid h'.
Proof using. unfold shared_fields. cbn. intros H. by injection H. Qed.

Lemma built_ok h0 k hb out iv :
  length hb = 32%nat -> bytes_ok hb -> length out = odata -> bytes_ok out -> iv = 0 \/ iv = 1 ->
  shared_fields (struct_of_bytes hb : vdif_header) =
    shared_fields (setVDIFFrameInvalid (timed k h0) iv) ->
  (iv = 0 -> proto_ok h0 /\ exists mask, 0 < mask < 2 ^ vm_nThread vm /\
    frame_data k mask (hb ++ out) /\
    (if propagate then validity_bits mask (v4_validitymask (struct_of_bytes hb))
     else mask = vm_goodMask vm)) ->
  output_ok h0 k (hb ++ out).
Proof using Hrun Hn.
  intros Hl Hb Hlo Hbo Hiv Hsh Hd.
  assert (Et : take 32 (hb ++ out) = hb) by (by rewrite take_app_length').
  assert (Ei : getVDIFFrameInvalid (struct_of_bytes hb) = 0 -> iv = 0).
  { unfold getVDIFFrameInvalid. rewrite (shared_invalid _ _ Hsh). by destruct Hiv as [->| ->]. }
  split; rewrite ?Et.
  - rewrite length_app. unfold osize. lia.
  - by apply Forall_app.
  - by exists iv.
  - intros Hv. by apply Hd, Ei.
  - intros Hv. by apply Hd, Ei.
Qed.

(** A frame with its invalid bit set. *)
Lemma bad_ok h0 k frame : struct_ok h0 -> length frame = osize -> bytes_ok frame ->
  output_ok h0 k (struct_bytes (setVDIFFrameInvalid (timed k h0) 1) ++ drop 32 frame).
Proof using Hrun Hn.
  intros Hh Hl Hb. apply (built_ok _ _ _ _ 1).
  - apply length_header_bytes.
  - apply struct_bytes_bytes.
  - rewrite length_drop, Hl. unfold osize. lia.
  - by apply Forall_drop.
  - by right.
  - rewrite (struct_bytes_of header_whole); [done|]. apply vh_set_invalid_ok. by apply timed_ok.
  - lia.
Qed.

Lemma invalid_same h : struct_ok h ->
  (vh_invalid h = 0 \/ vh_invalid h = 1) /\ setVDIFFrameInvalid h (vh_invalid h) = h.
Proof using Hrun Hn.
  intros Hh%struct_header_ok. pose proof (ok_invalid _ Hh). split; [lia|].
  unfold setVDIFFrameInvalid, vh_set_invalid. rewrite uwrap_small by lia. by destruct h.
Qed.

Lemma validity_mask mask h4 v :
  0 <= mask < 2 ^ vm_nThread vm ->
  (if 1 <? vm_fanoutFactor vm
   then fanout_mask mask (Z.to_nat (vm_fanoutFactor vm)) nt else Some mask) = Some v ->
  validity_bits mask (v4_validitymask (v4_set_validitymask h4 v)).
Proof using Hrun Hn.
  intros Hm. pose proof (ro_threads _ _ _ _ Hrun) as Ht.
  destruct (ro_mux _ _ _ _ Hrun) as [Ht1 _ _ (_ & Hf & Hdiv) _ _ _ _ _ _]. cbn [v4_validitymask].
  assert (2 ^ vm_nThread vm <= 2 ^ 32) by (apply Z.pow_le_mono_r; lia).
  destruct (Z.ltb_spec 1 (vm_fanoutFactor vm)) as [Hff|Hff].
  - destruct (fanout_mask_spec mask (Z.to_nat (vm_fanoutFactor vm)) nt) as (w & -> & Hw & Hb); [lia..|].
    intros [= <-] j Hj. cbn. rewrite uwrap_small by lia.
    pose proof (Z.div_mod (vm_nThread vm) (vm_fanoutFactor vm) ltac:(lia)) as Hdm.
    rewrite <-(Z2Nat.id j), Hb by (try apply Nat.div_le_lower_bound; nia || lia).
    rewrite forallb_forall. split.
    + intros Hall l Hl. specialize (Hall (Z.to_nat l)). rewrite in_seq in Hall.
      rewrite <-Hall by lia. f_equal. nia.
    + intros Hall l Hl%in_seq. rewrite <-(Hall (Z.of_nat l)) by lia. f_equal. nia.
  - intros [= <-] j Hj. cbn. rewrite uwrap_small by lia.
    replace (vm_fanoutFactor vm) with 1 by lia. split.
    + intros Hj1 l Hl. by replace (j * 1 + l) with j by lia.
    + intros Hall. rewrite <-(Hall 0) by lia. f_equal. lia.
Qed.

(** The header of a frame with an EDV 4 mask. *)
Lemma propagate_header k h0 mask : struct_ok h0 -> 0 <= mask < 2 ^ vm_nThread vm ->
  exists v, (if 1 <? vm_fanoutFactor vm
    then fanout_mask mask (Z.to_nat (vm_fanoutFactor vm)) nt else Some mask) = Some v /\
    let hb := struct_bytes (v4_set_validitymask (struct_of_bytes (struct_bytes (timed k h0))) v) in
    length hb = 32%nat /\ bytes_ok hb /\
    shared_fields (struct_of_bytes hb : vdif_header) = shared_fields (timed k h0) /\
    validity_bits mask (v4_validitymask (struct_of_bytes hb)).
Proof using Hrun Hn.
  intros Hh Hm. pose proof (timed_ok k h0 Hh) as Ht.
  assert (Hv : exists v, (if 1 <? vm_fanoutFactor vm
    then fanout_mask mask (Z.to_nat (vm_fanoutFactor vm)) nt else Some mask) = Some v).
  { case_match eqn:E; [|by eexists]. apply Z.ltb_lt in E. pose proof (ro_threads _ _ _ _ Hrun).
    destruct (fanout_mask_spec mask (Z.to_nat (vm_fanoutFactor vm)) nt) as (v & ? & _); [lia..|].
    by exists v. }
  destruct Hv as (v & Ev). exists v. split; [done|]. cbv zeta.
  set (h4 := struct_of_bytes (struct_bytes (timed k h0)) : vdif_edv4_header).
  assert (H4 : struct_ok (v4_set_validitymask h4 v))
    by (apply v4_set_validitymask_ok; apply struct_of_bytes_ok).
  split_and!.
  - apply length_edv4_bytes.
  - apply struct_bytes_bytes.
  - rewrite edv4_write by done. transitivity (shared_fields h4); [done|].
    unfold h4. by rewrite edv4_view, (struct_bytes_of header_whole) by (done || apply struct_bytes_bytes).
  - rewrite (struct_bytes_of edv4_whole) by done. by apply validity_mask.
Qed.

Lemma output_frame_ok h0 k frame mask :
  struct_ok h0 -> slot_ok k frame mask -> (mask <> 0 -> proto_ok h0) ->
  exists o frame', output_frame sched src src_addr vm h0 frame
    ((start + k) / vm_inputFramesPerSecond vm) ((start + k) mod vm_inputFramesPerSecond vm)
    = Some (o, frame') /\ output_ok h0 k frame'.
Proof using Hrun Hn Hsched.
  intros Hh Hs Hp. pose proof Hs as [Hl Hb Em Hr _]. unfold output_frame. rewrite Em.
  cbn [mbind option_bind]. fold (timed k h0) propagate.
  pose proof (timed_ok k h0 Hh) as Ht. pose proof (bad_ok h0 k frame Hh Hl Hb) as Hbad.
  destruct (invalid_same (timed k h0) Ht) as [Hiv Hsame].
  pose proof good_nonzero as Hgood.
  destruct propagate eqn:Epr.
  - destruct (Z.eqb_spec mask 0) as [->|Hm0]; [by eexists _, _|].
    destruct (propagate_header k h0 mask Hh Hr) as (v & -> & Hv). cbn [mbind option_bind].
    set (hb := struct_bytes (v4_set_validitymask _ v)) in *.
    destruct Hv as (Hlh & Hbh & Hsh & Hval).
    assert (Hpm : exists frame', (if mask =? vm_goodMask vm then Some frame
        else run_iters (point_missing src_addr mask) (seq 0 nt) frame) = Some frame' /\
      length frame' = osize /\ bytes_ok frame' /\ forall t, (t < nt)%nat -> load 8 frame' (4 + t) =
        if Z.testbit mask (Z.of_nat t) then load 8 frame (4 + t) else Some src_addr).
    { destruct (Z.eqb_spec mask (vm_goodMask vm)) as [Hmg|Hmg]; [|apply point_missing_ok; done || lia].
      exists frame. split_and!; [done..|]. intros t Htt. by rewrite Hmg, good_bits. }
    destruct Hpm as (f1 & -> & Hl1 & Hb1 & Hload). cbn [mbind option_bind].
    destruct (frame_turned hb k frame mask f1) as (out & -> & Ho & Hbo & Hd); [done..|].
    cbn [mbind option_bind].
    eexists _, _. split; [done|]. apply (built_ok _ _ _ _ (vh_invalid (timed k h0))); try done.
    + by rewrite Hsh, Hsame.
    + intros _. split; [by apply Hp|]. exists mask. rewrite Epr. split; [lia|].
      split; [by apply Hd|done].
  - destruct (Z.eqb_spec mask (vm_goodMask vm)) as [Hmg|Hmg]; [|by eexists _, _].
    assert (Hm0 : mask <> 0) by congruence.
    destruct (frame_turned (struct_bytes (timed k h0)) k frame mask frame) as (out & -> & Ho & Hbo & Hd);
      [done..| |].
    { intros t Htt. by rewrite Hmg, good_bits. }
    eexists _, _. split; [done|]. apply (built_ok _ _ _ _ (vh_invalid (timed k h0))); try done.
    + apply struct_bytes_bytes.
    + by rewrite (struct_bytes_of header_whole), Hsame.
    + intros _. split; [by apply Hp|]. exists mask. rewrite Epr. split; [lia|].
      split; [apply Hd, length_header_bytes|done].
Qed.

Lemma next_time x r : 0 < r ->
  (if r <=? x mod r + 1 then x / r + 1 else x / r) = (x + 1) / r /\
  (if r <=? x mod r + 1 then x mod r + 1 - r else x mod r + 1) = (x + 1) mod r.
Proof using.
  clear. intros Hr. pose proof (Z.div_mod x r ltac:(lia)). pose proof (Z.mod_pos_bound x r Hr).
  destruct (Z.leb_spec r (x mod r + 1)).
  - assert (E : x + 1 = r * (x / r + 1) + 0) by lia.
    split; [apply (Z.div_unique_pos _ _ _ 0)|apply (Z.mod_unique_pos _ _ (x / r + 1))]; lia.
  - split; [apply (Z.div_unique_pos _ _ _ (x mod r + 1))|apply (Z.mod_unique_pos _ _ (x / r))]; lia.
Qed.

(** The state of the second loop before frame [m]. *)
Record stage2_inv (h0 : vdif_header) (dest0 : list buffer) (m : nat) (s : stage2) : Prop := {
  t2_seconds : s2_seconds s = (start + Z.of_nat m) / vm_inputFramesPerSecond vm;
  t2_frame : s2_frameNum s = (start + Z.of_nat m) mod vm_inputFramesPerSecond vm;
  t2_count : s2_nGoodOutput s + s2_nBadOutput s + s2_nPartialOutput s = Z.of_nat m;
  t2_done : forall k frame, (k < m)%nat -> s2_dest s !! k = Some frame -> output_ok h0 (Z.of_nat k) frame;
  t2_rest : forall k, (m <= k)%nat -> s2_dest s !! k = dest0 !! k;
  t2_length : length (s2_dest s) = length dest0 }.

(** The second loop starts at the time of the first output frame. *)
Definition stage2_init (dest : list buffer) : stage2 :=
  {| s2_dest := dest;
     s2_seconds := s32 (cdiv start (vm_inputFramesPerSecond vm));
     s2_frameNum := s32 (cmod start (vm_inputFramesPerSecond vm));
     s2_nGoodOutput := 0; s2_nPartialOutput := 0; s2_nBadOutput := 0 |}.

Lemma stage2_init_inv h0 dest : 0 <= start < 2 ^ 31 * vm_inputFramesPerSecond vm ->
  stage2_inv h0 dest 0 (stage2_init dest).
Proof using Hrun Hn.
  intros Hs0. pose proof (ro_rate _ _ _ _ Hrun) as Hrate. unfold stage2_init.
  rewrite Z.quot_div_nonneg, Z.rem_mod_nonneg by lia.
  rewrite (swrap_small 32 (start / _)) by
    (try split; try (apply Z.div_lt_upper_bound; lia); pose proof (Z.div_pos start (vm_inputFramesPerSecond vm)); lia).
  pose proof (Z.mod_pos_bound start (vm_inputFramesPerSecond vm) ltac:(lia)) as Hmod.
  rewrite (swrap_small 32 (start mod _)) by lia. split; cbn; rewrite ?Z.add_0_r; done || lia.
Qed.

Lemma stage2_step_ok h0 dest0 k s frame o frame' : stage2_inv h0 dest0 k s -> dest0 !! k = Some frame ->
  output_frame sched src src_addr vm h0 frame
    ((start + Z.of_nat k) / vm_inputFramesPerSecond vm) ((start + Z.of_nat k) mod vm_inputFramesPerSecond vm)
    = Some (o, frame') -> output_ok h0 (Z.of_nat k) frame' ->
  exists s', stage2_step sched src src_addr vm h0 k s = Some s' /\ stage2_inv h0 dest0 (S k) s' /\
    s2_dest s' = <[k := frame']> (s2_dest s).
Proof using Hrun Hn Hsched.
  intros [H1 H2 H3 H4 H5 H6] Ef Eo Ho. pose proof (ro_rate _ _ _ _ Hrun).
  apply lookup_lt_Some in Ef as Hk. unfold stage2_step. rewrite H5, Ef by lia. cbn [mbind option_bind].
  rewrite H1, H2, Eo. cbn [mbind option_bind]. eexists. split; [done|]. split; [|done].
  destruct (next_time (start + Z.of_nat k) (vm_inputFramesPerSecond vm)) as [N1 N2]; [lia|].
  rewrite <-Z.add_assoc in N1, N2.
  replace (Z.of_nat k + 1) with (Z.of_nat (S k)) in N1, N2 by lia.
  split; cbn [s2_seconds s2_frameNum s2_nGoodOutput s2_nBadOutput s2_nPartialOutput s2_dest];
    [done|done|destruct o; lia| | |by rewrite length_insert].
  - intros j f' Hj Hlk. destruct (decide (j = k)) as [->|Hne].
    + rewrite list_lookup_insert_eq in Hlk by lia. by injection Hlk as <-.
    + rewrite list_lookup_insert_ne in Hlk by done. apply H4; [lia|done].
  - intros j Hj. rewrite list_lookup_insert_ne by lia. apply H5. lia.
Qed.

(** What the second loop makes of its slots, for a property [Q] of the output
    frame that follows from the slot. *)
Lemma stage2_loop_ok h0 dest0 m s (Q : nat -> buffer -> Prop) : struct_ok h0 ->
  (forall k frame, dest0 !! k = Some frame -> exists mask,
    slot_ok (Z.of_nat k) frame mask /\ (mask <> 0 -> proto_ok h0)) ->
  (forall k frame o frame', dest0 !! k = Some frame ->
    output_frame sched src src_addr vm h0 frame
      ((start + Z.of_nat k) / vm_inputFramesPerSecond vm) ((start + Z.of_nat k) mod vm_inputFramesPerSecond vm)
      = Some (o, frame') -> Q k frame') ->
  (m <= length dest0)%nat -> stage2_inv h0 dest0 0 s ->
  exists s', stage2_loop sched src src_addr vm h0 (Z.of_nat m - 1) s = Some s' /\
    stage2_inv h0 dest0 m s' /\
    forall k frame, (k < m)%nat -> s2_dest s' !! k = Some frame -> Q k frame.
Proof using Hrun Hn Hsched.
  intros Hh Hslots HQ Hm Hinv. unfold stage2_loop.
  replace (Z.to_nat (Z.of_nat m - 1 + 1)) with m by lia.
  apply (run_iters_seq _ (fun m s => stage2_inv h0 dest0 m s /\
    forall k frame, (k < m)%nat -> s2_dest s !! k = Some frame -> Q k frame)); [|split; [done|lia]].
  clear s Hinv. intros k s Hk [Hi Hq].
  destruct (lookup_lt_is_Some_2 dest0 k) as [frame Ef]; [lia|].
  destruct (Hslots k frame Ef) as (mask & Hs & Hp).
  destruct (output_frame_ok h0 (Z.of_nat k) frame mask Hh Hs Hp) as (o & frame' & Eo & Ho).
  destruct (stage2_step_ok h0 dest0 k s frame o frame' Hi Ef Eo Ho) as (s' & E & Hi' & Ed).
  exists s'. split; [done|]. split; [done|]. intros j f' Hj Hlk. rewrite Ed in Hlk.
  destruct (decide (j = k)) as [->|Hne].
  - rewrite list_lookup_insert_eq in Hlk by (rewrite (t2_length _ _ _ _ Hi); lia).
    injection Hlk as <-. by apply (HQ k frame o).
  - rewrite list_lookup_insert_ne in Hlk by done. apply Hq; [lia|done].
Qed.

(** ** The whole call *)

Lemma adjust_nSort_total : exists nSort, adjust_nSort vm srcSize = Some nSort.
Proof using Hrun Hn.
  pose proof (ro_frame _ _ _ _ Hrun). pose proof (ro_sort _ _ _ _ Hrun). pose proof (ro_size _ _ _ _ Hrun).
  unfold adjust_nSort. rewrite (sint_Some (3 * srcSize)), (sint_Some (4 * vm_nSort vm)) by nia.
  cbn [mbind option_bind]. rewrite (sint_Some (4 * vm_nSort vm * fs)), (sint_Some (4 * fs)) by nia.
  cbn [mbind option_bind]. case_match; [|by eexists].
  rewrite (proj2 (Z.eqb_neq _ _)) by lia. by eexists.
Qed.

Lemma update_stats_ok destSize nSort s b o bp stats : 0 <= bp <= srcSize ->
  exists st used, update_stats vm src srcSize destSize nSort start s b o bp stats = Some (st, used) /\
    0 <= used <= srcSize /\
    let nOut := s2_nGoodOutput o + s2_nBadOutput o + s2_nPartialOutput o in
    ms_destUsed st = nOut * vm_outputFrameSize vm /\ ms_srcUsed st = used /\
    (ms_nOutputFrame st = 0 \/ ms_nOutputFrame st = nOut /\ ms_startFrameNumber st = start /\ used = bp).
Proof using Hrun Hn.
  intros Hbp. pose proof (ro_frame _ _ _ _ Hrun). unfold update_stats. cbv zeta.
  set (nOut := _ + _ + _). set (lost := _ || _).
  assert (Hlost : exists z, (if lost then
      highest ← getHighestFrameNumber src srcSize vm;
      Some (if highest <? 0 then start + (cdiv (cdiv srcSize fs) (vm_nThread vm) + 1) else highest + 1)
    else Some start) = Some z /\ (lost = false -> z = start)).
  { destruct lost; [|by eexists]. destruct (scanned_total _ _ _ _ Hrun 0) as [l Hl]; [lia|].
    unfold getHighestFrameNumber. rewrite (highest_loop_spec _ _ _ _ Hrun _ 0 l) by (done || lia).
    by eexists. }
  destruct Hlost as (z & -> & Hz). cbn [mbind option_bind]. eexists _, _. split; [done|].
  cbn [ms_destUsed ms_srcUsed ms_nOutputFrame ms_startFrameNumber]. split.
  - destruct lost; [|done]. pose proof (Z.rem_bound_pos srcSize fs). pose proof (Z.rem_le srcSize fs). lia.
  - split; [done|]. split; [done|]. destruct lost; [by left|]. right. auto.
Qed.

(** What a call returns. *)
Record run_result (r : Z) (dest' : list buffer) (stats' : option vdif_mux_statistics) : Prop := {
  rr_return : 0 <= r <= srcSize;
  rr_length : length dest' = n;
  rr_frames : exists m h0, (m <= n)%nat /\
    (forall k frame, (k < m)%nat -> dest' !! k = Some frame -> output_ok h0 (Z.of_nat k) frame) /\
    (forall st, stats' = Some st ->
      ms_destUsed st = Z.of_nat m * vm_outputFrameSize vm /\
      (ms_nOutputFrame st = 0 \/ ms_nOutputFrame st = Z.of_nat m /\ ms_startFrameNumber st = start /\
        ms_srcUsed st <= r)) }.

Lemma stage2_slots garbage s : struct_ok garbage -> stage1_inv s ->
  struct_ok (default garbage (s1_outputHeader s)) /\
  forall k frame, s1_dest s !! k = Some frame -> exists mask, slot_ok (Z.of_nat k) frame mask /\
    (mask <> 0 -> proto_ok (default garbage (s1_outputHeader s))).
Proof using Hrun Hn.
  intros Hg [_ _ _ _ _ Ioh _ Is]. split.
  - destruct (s1_outputHeader s) as [h|] eqn:E; [|done].
    destruct (Ioh h eq_refl) as (i & vh & Hi & Hscan & Hp).
    destruct (proto_header_spec i vh Hi Hscan) as (h2 & E2 & Hok & _). cbn.
    rewrite Hp in E2. by injection E2 as ->.
  - intros k f Hf. destruct (Is k f Hf) as (mask & Hs & Hm). exists mask. split; [done|]. intros Hne.
    destruct (s1_outputHeader s) as [h|] eqn:E; [by apply Ioh|]. by destruct Hne; apply Hm.
Qed.

Lemma vdifmux_run garbage dest destSize startOut stats :
  struct_ok garbage -> length dest = n -> cdiv destSize (vm_outputFrameSize vm) = Z.of_nat n ->
  Forall (fun frame => length frame = osize /\ bytes_ok frame) dest ->
  start_frame_number vm src srcSize startOut = Some start -> 0 <= start < 2 ^ 31 * vm_inputFramesPerSecond vm ->
  exists r dest' stats', vdifmux sched vm src_addr garbage dest destSize src srcSize startOut stats
    = Some (r, dest', stats') /\ run_result r dest' stats'.
Proof using Hrun Hn Hsched.
  intros Hg Hl Hds Hd Hstart Hs0. pose proof (ro_rate _ _ _ _ Hrun) as Hrate.
  destruct sizes as (_ & _ & _ & Hos & _). unfold vdifmux.
  destruct adjust_nSort_total as [nSort ->]. cbn [mbind option_bind]. rewrite Hstart.
  cbn [mbind option_bind]. rewrite (proj2 (Z.eqb_neq (vm_outputFrameSize vm) 0)) by (unfold osize in *; lia).
  rewrite Hds, (proj2 (Z.ltb_ge start 0)) by lia.
  destruct (clear_masks_ok dest Hd) as (d1 & -> & Hl1 & Hd1). cbn [mbind option_bind].
  match goal with |- context [stage1_loop _ _ _ _ _ ?x _ _ _ _] => set (maxSrcIndex := x) end.
  destruct (stage1_loop_ok nSort maxSrcIndex (S (Z.to_nat srcSize)) (stage1_init d1))
    as (s1 & -> & Hs1); [apply stage1_init_inv; [lia|done]|cbn; lia|].
  cbn [mbind option_bind]. clearbody maxSrcIndex.
  destruct (stage1_end_inv s1 Hs1) as [Hs Hbp]. set (s := stage1_end s1) in *. clearbody s. pose proof Hs as [Ii _ Ifgb Ihi _ _ Id _].
  destruct (backup_frames_ok nSort s Hs Hbp) as (b & -> & [Hb1 Hb2] & _). cbn [mbind option_bind].
  match goal with |- context [stage2_loop _ _ _ _ _ ?x _] => set (highest := x) end.
  assert (Hh : -1 <= highest < Z.of_nat n) by (subst highest; case_match; lia). clearbody highest.
  rewrite (proj2 (Z.eqb_neq (vm_inputFramesPerSecond vm) 0)) by lia.
  destruct (stage2_slots garbage s Hg Hs) as [Hh0 Hslots]. set (h0 := default garbage _) in *. clearbody h0.
  destruct (stage2_loop_ok h0 (s1_dest s) (Z.to_nat (highest + 1)) (stage2_init (s1_dest s)) (fun _ _ => True))
    as (o & Eo & Ho & _); [done..|lia|by apply stage2_init_inv|]. unfold stage2_init in Eo.
  replace (Z.of_nat (Z.to_nat (highest + 1)) - 1) with highest in Eo by lia.
  rewrite Eo. cbn [mbind option_bind].
  destruct Ho as [_ _ Hcount Hdone _ Hlen].
  assert (Hres : forall stats' used, 0 <= used <= srcSize ->
    (forall st, stats' = Some st -> ms_destUsed st = Z.of_nat (Z.to_nat (highest + 1)) * vm_outputFrameSize vm /\
      (ms_nOutputFrame st = 0 \/ ms_nOutputFrame st = Z.of_nat (Z.to_nat (highest + 1)) /\
        ms_startFrameNumber st = start /\ ms_srcUsed st <= used)) ->
    run_result (if s1_firstGoodByte s <? used then used else s1_firstGoodByte s) (s2_dest o) stats').
  { intros stats' used Hu Hst. split; [case_match eqn:E; [|apply Z.ltb_ge in E]; lia|lia|].
    exists (Z.to_nat (highest + 1)), h0. split; [lia|]. split; [done|]. intros st Est.
    destruct (Hst st Est) as (H1 & H2). split; [done|]. destruct H2 as [|(H2 & H3 & H4)]; [by left|].
    right. split_and!; [done..|]. case_match eqn:E; [|apply Z.ltb_ge in E]; lia. }
  destruct stats as [st|]; cbn [mbind option_bind].
  - destruct (update_stats_ok destSize nSort s b o (b_bytesProcessed b) st) as (st' & used & -> & Hu & H1 & H2 & H3);
      [lia|]. cbn [mbind option_bind]. eexists _, _, _. split; [done|]. apply Hres; [done|].
    rewrite Hcount in *. intros st2 [= <-]. split; [done|]. destruct H3 as [|(H3 & H4 & H5)]; [by left|].
    right. split_and!; [done..|lia].
  - eexists _, _, _. split; [done|]. apply Hres; [lia|done].
Qed.
End Correct.
