(* ===== verification/VdifMuxTheorems.v ===== *)
(** * VdifMuxTheorems: properties of a run of the multiplexer

    The theorems on [vdifmux] and its parts, from the lemmas of
    [VdifMuxCorrect]. *)
From S2P Require Export VdifMuxCorrect.
#[local] Open Scope Z_scope.

Definition example_dest : list buffer := replicate 3 (replicate 48 170).

Lemma example_dest_ok :
  Forall (fun frame => length frame = osize example_mux /\ bytes_ok frame) example_dest.
Proof.
  apply Forall_replicate. split; [done|]. apply Forall_replicate. split; lia.
Qed.

Lemma example_schedule : turner_schedule example_mux sequential.
Proof. by left. Qed.



(** The example evaluated: the complete output times are corner turned, the
    incomplete one is left for the next call. *)
Example vdifmux_example :
  match vdifmux sequential example_mux 4096 zero_header example_dest 144 example_src 244 (-1) None with
  | Some (r, [f0; f1; _], _) =>
      (r, drop 32 f0, drop 32 f1) =
      (204, concat (replicate 8 [99; 201]), concat (replicate 4 [204; 204; 0; 0]))
  | _ => False
  end.
Proof. vm_compute. reflexivity. Qed.

(** Without any good frame in the input and without a given start, the call
    returns -3 and touches neither the destination nor the statistics. *)
Theorem vdifmux_no_data SZ vm src src_addr sched garbage dest destSize startOut stats :
  run_ok SZ vm src src_addr -> startOut < 0 ->
  scanned src vm (Z.of_nat (length src) - vm_inputFrameSize vm) 0 [] ->
  vdifmux sched vm src_addr garbage dest destSize src (Z.of_nat (length src)) startOut stats
    = Some (-3, dest, stats).
Proof.
  intros Hrun Hneg Hs. pose proof (ro_frame _ _ _ _ Hrun).
  destruct (sizes _ _ _ _ Hrun) as (_ & _ & _ & Hos & _). unfold vdifmux.
  destruct (adjust_nSort_total SZ vm src src_addr Hrun 1 ltac:(lia)) as [nSort ->]. cbn [mbind option_bind].
  unfold start_frame_number, adjust_start. rewrite (proj2 (Z.ltb_ge 0 startOut)) by lia.
  rewrite andb_false_r. cbn [mbind option_bind]. rewrite (proj2 (Z.ltb_lt startOut 0)) by lia.
  unfold getLowestFrameNumber. rewrite (lowest_loop_spec _ _ _ _ Hrun _ 0 []) by (done || lia).
  rewrite take_nil. cbn [foldl mbind option_bind].
  rewrite (proj2 (Z.eqb_neq _ _)) by (unfold osize in *; lia). done.
Qed.

(** Two frames' worth of fill pattern. *)
Definition fill_src : buffer := concat (replicate 20 [0x44; 0x33; 0x22; 0x11]).

Lemma fill_scanned : scanned fill_src example_mux 40 0 [].
Proof.
  assert (Hskip : forall i, 0 <= i <= 40 -> i mod 40 = 0 -> scan_at fill_src example_mux i = Some FillAtEnd).
  { intros i Hi Hm. assert (i = 0 \/ i = 40) as [->| ->] by lia; vm_compute; reflexivity. }
  eapply scanned_skip; [lia|by apply Hskip|done|]. eapply scanned_skip; [cbn; lia|by apply Hskip|done|].
  apply scanned_end. cbn. lia.
Qed.

Lemma vdifmux_no_data_witness :
  vdifmux sequential example_mux 4096 zero_header example_dest 144 fill_src 80 (-1) None
  = Some (-3, example_dest, None).
Proof.
  apply (vdifmux_no_data 8 example_mux fill_src 4096 sequential zero_header example_dest 144 (-1) None).
  - apply example_run. vm_compute. reflexivity.
  - lia.
  - exact fill_scanned.
Defined.

(** C30 After the first loop the code backs up over incomplete output frames (when
    validity is not propagated): of the frames it looks back at, every
    incomplete one is dropped from the output, and the part of the input
    reported as processed ends before each of its packets, so that the next
    call reads them again. *)
Theorem backup_keeps_packets SZ vm src src_addr start n dest nSort maxSrcIndex :
  run_ok SZ vm src src_addr -> (0 < n)%nat -> length dest = n ->
  Forall (fun frame => length frame = osize vm /\ bytes_ok frame) dest ->
  has_flag (vm_flags vm) VDIF_MUX_FLAG_PROPAGATEVALIDITY = false ->
  let size := Z.of_nat (length src) in
  exists dest' s b, clear_masks dest = Some dest' /\
    stage1_loop src src_addr size vm nSort maxSrcIndex (Z.of_nat n - 1) start (S (Z.to_nat size))
      (stage1_init dest') = Some s /\
    backup_frames src_addr vm nSort (stage1_end s) = Some b /\
    -1 <= b_highestDestIndex b <= s1_highestDestIndex s /\ 0 <= b_bytesProcessed b <= s1_i s /\
    forall f, window vm nSort (stage1_end s) f -> unread vm src_addr (s1_dest s) b f.
Proof.
  intros Hrun Hn Hl Hd Hp size. destruct (clear_masks_ok SZ vm src src_addr Hrun n Hn dest Hd) as (d1 & E1 & Hl1 & Hd1).
  destruct (stage1_loop_ok SZ vm src src_addr start Hrun n Hn nSort maxSrcIndex
    (S (Z.to_nat size)) (stage1_init d1)) as (s & E2 & Hs);
    [apply (stage1_init_inv SZ); done || lia|cbn; lia|].
  destruct (stage1_end_inv SZ vm src src_addr start Hrun n Hn s Hs) as [He Hbp].
  destruct (backup_frames_ok SZ vm src src_addr start Hrun n Hn nSort _ He Hbp) as (b & E3 & [H1 H2] & H3).
  assert (Es : s1_highestDestIndex (stage1_end s) = s1_highestDestIndex s /\ s1_i (stage1_end s) = s1_i s /\
    s1_dest (stage1_end s) = s1_dest s) by (unfold stage1_end; by case_match).
  destruct Es as (Eh & Ei & Ed). rewrite Eh in H1. rewrite Ei in H2. rewrite Ed in H3.
  exists d1, s, b. split_and!; try done; try lia. by apply H3.
Qed.

Lemma backup_keeps_packets_witness :
  exists dest' s b, clear_masks example_dest = Some dest' /\
    stage1_loop example_src 4096 244 example_mux 2 164 2 100999 (S (Z.to_nat 244)) (stage1_init dest') = Some s /\
    backup_frames 4096 example_mux 2 (stage1_end s) = Some b /\
    -1 <= b_highestDestIndex b <= s1_highestDestIndex s /\ 0 <= b_bytesProcessed b <= s1_i s /\
    forall f, window example_mux 2 (stage1_end s) f -> unread example_mux 4096 (s1_dest s) b f.
Proof.
  apply (backup_keeps_packets 8 example_mux example_src 4096 100999 3 example_dest 2 164).
  - exact example_run_ok.
  - lia.
  - reflexivity.
  - exact example_dest_ok.
  - reflexivity.
Defined.

(** The prototype of the output headers, made from a good input frame: one
    thread with the output's channels and size, marked valid, with the epoch,
    station, sample width and complex flag of the input. *)
Theorem proto_header_fields SZ vm src src_addr i vh :
  run_ok SZ vm src src_addr -> 0 <= i <= Z.of_nat (length src) - vm_inputFrameSize vm ->
  scan_at src vm i = Some (Frame vh) ->
  exists h, proto_header vm (slice src (Z.to_nat i) 16) = Some h /\ struct_ok h /\
    getVDIFThreadID h = 0 /\ getVDIFFrameInvalid h = 0 /\
    getVDIFNumChannels h = Some (vm_nOutputChan vm) /\
    getVDIFFrameBytes h = vm_outputFrameSize vm /\
    getVDIFBitsPerSample h = vm_bitsPerSample vm /\ getVDIFEpoch h = getVDIFEpoch vh /\
    getVDIFStationID h = getVDIFStationID vh /\ getVDIFComplex h = getVDIFComplex vh.
Proof.
  intros Hrun Hi Hscan. destruct (proto_header_spec SZ _ _ _ Hrun _ _ Hi Hscan) as (h & E & Hok & Hsh).
  exists h. split; [done|]. split; [done|].
  destruct (scan_frame_header _ _ _ _ Hscan) as (_ & Hfb & _ & Hbps).
  destruct (output_channels SZ _ _ _ Hrun _ _ Hscan) as (e & He & Hout).
  destruct (sizes SZ _ _ _ Hrun) as (_ & E2 & E3 & Hos & _ & _ & Hlt).
  pose proof (ro_frame _ _ _ _ Hrun).
  unfold getVDIFThreadID, getVDIFFrameInvalid, getVDIFFrameBytes, getVDIFBitsPerSample, getVDIFEpoch,
    getVDIFStationID, getVDIFComplex in *.
  unfold shared_fields, proto_of, setVDIFFrameInvalid, setVDIFFrameBytes, setVDIFThreadID in Hsh.
  cbn [fields vdif_header_struct take vh_set_invalid vh_set_framelength8 vh_set_threadid vh_set_nchan
    vh_seconds vh_legacymode vh_invalid vh_frame vh_epoch vh_unassigned vh_framelength8 vh_nchan
    vh_version vh_stationid vh_threadid vh_nbits vh_iscomplex] in Hsh.
  injection Hsh as _ _ Ei _ Eep _ Efl Enc _ Est Eth Enb Ecx.
  rewrite Hout, Z.log2_pow2, uwrap_small in Enc by lia.
  rewrite getVDIFNumChannels_spec, Enc by lia. rewrite Eth, Ei, Enb, Eep, Est, Ecx, Efl.
  set (nc := nchan (Z.to_nat (vm_nThread vm))) in *.
  assert (Eout : vm_outputFrameSize vm = ((vh_framelength8 vh - 4) * Z.of_nat nc + 4) * 8) by lia.
  clear E2 E3. rewrite Eout in *. rewrite Z.quot_div_nonneg, Z.div_mul by lia.
  split_and!; (done || congruence || idtac). by rewrite uwrap_small by lia.
Qed.

Lemma proto_header_fields_witness :
  exists h, proto_header example_mux (slice example_src 4 16) = Some h /\ struct_ok h /\
    getVDIFThreadID h = 0 /\ getVDIFFrameInvalid h = 0 /\
    getVDIFNumChannels h = Some 2 /\ getVDIFFrameBytes h = 48 /\
    getVDIFBitsPerSample h = 2 /\ getVDIFEpoch h = 30 /\
    getVDIFStationID h = 0 /\ getVDIFComplex h = 0.
Proof.
  apply (proto_header_fields 8 example_mux example_src 4096 4
    (Build_vdif_header 100 0 0 999 30 0 5 0 0 0 5 1 0 0 0 0 0 0)).
  - exact example_run_ok.
  - split; [lia|]. vm_compute. discriminate.
  - vm_compute. reflexivity.
Defined.

(** The presence mask is built with [1 << chanId] in [int].  For channel 31 the
    sign extends into bits 32 to 63, so that with 32 threads a frame that has
    this channel never equals the mask of a complete frame; for channel 32 and
    above the shift is undefined, although up to 64 threads are accepted. *)
Theorem high_channels_unusable SZ vm src_addr s destIndex :
  mux_ok SZ vm ->
  (forall chanId, 32 <= chanId -> store_packet src_addr vm s destIndex chanId = None) /\
  (vm_nThread vm = 32 -> forall mask bit, int_bit 31 = Some bit -> Z.lor mask bit <> vm_goodMask vm).
Proof.
  intros Hok. split.
  - intros c Hc. unfold store_packet.
    destruct (s1_dest s !! _); cbn [mbind option_bind]; [|done].
    destruct (load _ _ _); cbn [mbind option_bind]; [|done].
    unfold int_bit. rewrite (proj2 (Z.ltb_ge c 31)), andb_false_r, (proj2 (Z.eqb_neq c 31)) by lia. done.
  - intros Ht mask bit. unfold int_bit. cbn. intros [= <-] E.
    apply (f_equal (fun x => Z.testbit x 40)) in E. rewrite Z.lor_spec in E.
    rewrite (mo_goodMask _ _ Hok), Ht in E. rewrite orb_comm in E. vm_compute in E. done.
Qed.

(** 32 threads. *)
Definition wide_mux : vdif_mux :=
  Build_vdif_mux 40 8 288 256 1000 1 2 32 2 2 1 32 1 1 0
    ((Z.of_nat <$> seq 0 32) ++ replicate 992 MAGIC_BAD_THREAD) (2 ^ 32 - 1)
    (Some cornerturn_32thread_2bit).

Lemma wide_mux_ok : mux_ok 8 wide_mux.
Proof.
  split; cbn [wide_mux vm_nThread vm_cornerTurner vm_bitsPerSample vm_inputChannelsPerThread
    vm_complexFactor vm_fanoutFactor vm_nOutputChan vm_inputDataSize vm_inputFrameSize vm_flags
    vm_outputDataSize vm_outputFrameSize vm_goodMask vm_chanIndex vm_nSort vm_nGap];
    try reflexivity; try lia.
  - exists cornerturn_32thread_2bit. by split.
  - split; [done|]. apply Forall_app. split; [|apply Forall_replicate; by left].
    apply Forall_fmap, Forall_seq. intros j Hj. right. cbn. lia.
Qed.

Lemma high_channels_unusable_witness :
  (forall chanId, 32 <= chanId ->
    store_packet 4096 wide_mux (stage1_init example_dest) 0 chanId = None) /\
  (32 = 32 -> forall mask bit, int_bit 31 = Some bit -> Z.lor mask bit <> 2 ^ 32 - 1).
Proof. exact (high_channels_unusable 8 wide_mux 4096 (stage1_init example_dest) 0 wide_mux_ok). Defined.
