(* ===== verification/VdifMuxComplete.v ===== *)
(** * VdifMuxComplete: nothing that arrives in order is lost

    [VdifMuxTheorems] says that what [vdifmux] outputs is right; this file, that
    it outputs what it should.  As long as the packets of the wanted threads
    come within the gap the multiplexer tolerates, the first loop keeps every
    one of them, backing up leaves the complete frames alone, and the second
    loop writes them all as valid. *)
From S2P Require Export VdifMuxTheorems.
#[local] Open Scope Z_scope.

(** ** Masks of the destination *)

(** The mask of frame [k]. *)
Definition mask_of (dest : list buffer) (k : Z) : option Z :=
  frame ← dest !! Z.to_nat k; load 8 frame 3.

(** Frame [k] has its packet of channel [c]. *)
Definition has (dest : list buffer) (k c : Z) : Prop :=
  exists mask, mask_of dest k = Some mask /\ Z.testbit mask c = true.

Lemma full_mask m mask : 0 < m -> 0 <= mask < 2 ^ m ->
  (forall c, 0 <= c < m -> Z.testbit mask c = true) -> mask = 2 ^ m - 1.
Proof.
  intros Hm Hr Hb. replace (2 ^ m - 1) with (Z.ones m) by (rewrite Z.ones_equiv; lia).
  apply Z.bits_inj'. intros i Hi. destruct (Z.lt_ge_cases i m).
  - rewrite Z.ones_spec_low by lia. apply Hb. lia.
  - rewrite Z.ones_spec_high by lia. rewrite <-(Z.mod_small mask (2 ^ m)) by lia.
    by apply Z.mod_pow2_bits_high; lia.
Qed.

(** ** The positions a scan visits *)

(** [visit p i]: the [p]th place the loops look at is byte [i]. *)
Inductive visit (src : buffer) (vm : vdif_mux) : nat -> Z -> Prop :=
  | visit_first : visit src vm 0 0
  | visit_next p i s : visit src vm p i -> scan_at src vm i = Some s ->
      visit src vm (S p) (i + scan_step vm s).

Section Complete.
Context (SZ : Z) (vm : vdif_mux) (src : buffer) (src_addr start : Z).
Context (Hrun : run_ok SZ vm src src_addr).
#[local] Abbreviation srcSize := (Z.of_nat (length src)).
#[local] Abbreviation fs := (vm_inputFrameSize vm).
#[local] Abbreviation nt := (Z.to_nat (vm_nThread vm)).

Lemma visit_fun p i j : visit src vm p i -> visit src vm p j -> i = j.
Proof using.
  revert i j. induction p as [|p IH]; intros i j H1 H2; inversion H1; inversion H2; subst; [done|].
  match goal with H : visit _ _ _ ?a, H' : visit _ _ _ ?b |- _ => pose proof (IH _ _ H H'); subst end.
  congruence.
Qed.

Lemma visit_mono p q i j : visit src vm p i -> visit src vm q j -> (p < q)%nat ->
  exists s, scan_at src vm i = Some s /\ i + scan_step vm s <= j.
Proof using Hrun.
  intros Hi Hj. revert j Hj. induction q as [|q IH]; intros j Hj Hlt; [lia|].
  inversion Hj as [|? i' s' Hv Hs]; subst. destruct (decide (p = q)) as [->|].
  - rewrite (visit_fun q i i') by done. exists s'. split; [done|lia].
  - destruct (IH i' Hv) as (s & Es & Hle); [lia|]. exists s. split; [done|].
    pose proof (scan_step_range _ _ _ _ Hrun s'). lia.
Qed.

Definition visited (i : Z) : Prop := exists p, visit src vm p i.

(** Between two places the scan visits in turn there is no other. *)
Lemma visited_between i j s : visited i -> visited j -> scan_at src vm i = Some s ->
  j < i + scan_step vm s -> j <= i.
Proof using Hrun.
  intros [p Hi] [q Hj] Es Hlt. destruct (Nat.lt_trichotomy p q) as [H|[<-|H]].
  - destruct (visit_mono p q i j Hi Hj H) as (s' & Es' & Hle). rewrite Es in Es'. injection Es' as <-. lia.
  - by rewrite (visit_fun p i j).
  - destruct (visit_mono q p j i Hj Hi H) as (s' & _ & Hle). pose proof (scan_step_range _ _ _ _ Hrun s'). lia.
Qed.

Context (n : nat) (Hn : (0 < n)%nat).

#[local] Abbreviation slotted := (stage1_inv vm src src_addr start n).

(** A packet of output frame [k] and channel [c] at a place the scan visits. *)
Definition packet (i k c : Z) : Prop :=
  visited i /\ packet_at vm src start i k c /\ c <> MAGIC_BAD_THREAD.

(** Up to byte [P] no packet is beyond the output, and none is further ahead of
    all those before it than the gap the multiplexer is configured for. *)
Definition in_order (P : Z) : Prop :=
  forall i k c, packet i k c -> i < P ->
    k < Z.of_nat n /\
    (vm_nGap vm = 0 \/ k <= vm_nGap vm \/
      exists j k' c', packet j k' c' /\ j < i /\ 0 <= k' /\ k <= k' + vm_nGap vm).

Lemma packet_chan i k c : packet i k c -> 0 <= c < vm_nThread vm.
Proof using Hrun Hn.
  intros (_ & (_ & vh & _ & Hc & _) & Hb). by apply (chan_range SZ vm src src_addr Hrun n Hn _ _ Hc).
Qed.

(** ** The first loop *)

Lemma mask_of_insert d k frame m j : 0 <= k -> 0 <= j -> (Z.to_nat k < length d)%nat -> load 8 frame 3 = Some m ->
  mask_of (<[Z.to_nat k := frame]> d) j = if j =? k then Some m else mask_of d j.
Proof using.
  clear. intros Hk Hj Hl Hm. unfold mask_of. destruct (Z.eqb_spec j k) as [->|Hne].
  - by rewrite list_lookup_insert_eq by lia.
  - by rewrite list_lookup_insert_ne by lia.
Qed.

(** How an iteration changes what the later stages read. *)
Inductive effect (s s' : stage1) : Prop :=
  | effect_none : s1_dest s' = s1_dest s -> s1_highestDestIndex s' = s1_highestDestIndex s -> effect s s'
  | effect_store k c frame mask :
      packet_at vm src start (s1_i s) k c -> 0 <= k < Z.of_nat n -> 0 <= c < vm_nThread vm ->
      mask_of (s1_dest s) k = Some mask -> load 8 frame 3 = Some (Z.lor mask (2 ^ c)) ->
      s1_dest s' = <[Z.to_nat k := frame]> (s1_dest s) ->
      s1_highestDestIndex s' = Z.max (s1_highestDestIndex s) k -> effect s s'
  | effect_dup k c :
      packet_at vm src start (s1_i s) k c -> has (s1_dest s) k c ->
      s1_dest s' = s1_dest s -> s1_highestDestIndex s' = s1_highestDestIndex s -> effect s s'.

Lemma effect_same s s0 s' : s1_dest s0 = s1_dest s -> s1_highestDestIndex s0 = s1_highestDestIndex s ->
  s1_i s0 = s1_i s -> effect s0 s' -> effect s s'.
Proof using.
  intros Ed Eh Ei [H1 H2|k c f m H1 H2 H3 H4 H5 H6 H7|k c H1 H2 H3 H4]; rewrite ?Ed, ?Eh, ?Ei in *.
  - by apply effect_none.
  - by apply (effect_store _ _ k c f m); rewrite ?Ei, ?Ed, ?Eh.
  - by apply (effect_dup _ _ k c); rewrite ?Ei, ?Ed, ?Eh.
Qed.

Lemma store_packet_effect s k c : slotted s -> packet_at vm src start (s1_i s) k c ->
  0 <= k < Z.of_nat n -> 0 <= c < vm_nThread vm ->
  exists s', store_packet src_addr vm s k c = Some s' /\ effect s s' /\ s1_i s' = s1_i s + fs /\
    has (s1_dest s') k c.
Proof using Hrun Hn.
  intros Hinv Hp Hk Hc. pose proof (ro_threads _ _ _ _ Hrun). destruct Hinv as [_ _ _ _ _ _ Hl Hs].
  destruct (lookup_lt_is_Some_2 (s1_dest s) (Z.to_nat k)) as [frame Ef]; [lia|].
  destruct (Hs _ _ Ef) as (mask & Hslot & _). rewrite Z2Nat.id in Hslot by lia.
  pose proof (sl_mask _ _ _ _ _ _ _ Hslot) as Em.
  assert (Hm : mask_of (s1_dest s) k = Some mask) by (unfold mask_of; by rewrite Ef).
  unfold store_packet. rewrite Ef, int_bit_Some by lia. cbn [mbind option_bind]. rewrite Em.
  cbn [mbind option_bind]. rewrite land_bit by lia. destruct (Z.testbit mask c) eqn:Eb; cbn [negb].
  - eexists. split; [done|]. assert (has (s1_dest s) k c) by (by exists mask).
    split; [by apply (effect_dup _ _ k c)|done].
  - destruct (store_slot SZ vm src src_addr start Hrun n Hn _ _ _ _ _ Hslot Hc Hp) as (f1 & f2 & -> & E2 & Hs2).
    cbn [mbind option_bind]. unfold VDIF_HEADER_BYTES. rewrite E2. cbn [mbind option_bind].
    pose proof (sl_mask _ _ _ _ _ _ _ Hs2) as Em2. set (s2 := if _ <? _ then _ else _).
    assert (E : s1_dest s2 = <[Z.to_nat k := f2]> (s1_dest s) /\ s1_i s2 = s1_i s /\
      s1_highestDestIndex s2 = Z.max (s1_highestDestIndex s) k).
    { subst s2. case_match eqn:E; cbn [s1_highestDestIndex s1_set_nValidFrame s1_set_dest s1_set_highestDestIndex] in *;
        [apply Z.ltb_lt in E|apply Z.ltb_ge in E]; (split; [done|]; split; [done|lia]). }
    clearbody s2. destruct E as (Ed & Ei & Eh). eexists. split; [done|]. cbn [advance].
    split; [by apply (effect_store _ _ k c f2 mask)|]. split; [cbn; lia|]. cbn. rewrite Ed.
    exists (Z.lor mask (2 ^ c)). rewrite (mask_of_insert _ _ _ (Z.lor mask (2 ^ c))), Z.eqb_refl by (done || lia).
    split; [done|]. rewrite Z.lor_spec, Z.pow2_bits_true by lia. apply orb_true_r.
Qed.

(** The packet at the current place is neither beyond the output nor after a gap. *)
Definition expected (s : stage1) (k : Z) : Prop :=
  k < Z.of_nat n /\ (vm_nGap vm = 0 \/ k <= s1_highestDestIndex s + vm_nGap vm).

(** What an iteration does: it goes on unless the packet is unexpected, and
    then has the packet. *)
Record progress (s : stage1) (r : option (bool * stage1)) : Prop := {
  pg_step : exists go s', r = Some (go, s') /\ effect s s' /\
    (go = true -> exists sc, scan_at src vm (s1_i s) = Some sc /\ s1_i s' = s1_i s + scan_step vm sc) /\
    (go = true -> forall k c, packet_at vm src start (s1_i s) k c -> c <> MAGIC_BAD_THREAD ->
      0 <= k < Z.of_nat n -> has (s1_dest s') k c) /\
    ((forall k c, packet_at vm src start (s1_i s) k c -> c <> MAGIC_BAD_THREAD -> expected s k) -> go = true) }.

Lemma packet_at_fun i k c k' c' : packet_at vm src start i k c -> packet_at vm src start i k' c' ->
  k = k' /\ c = c'.
Proof using.
  clear. intros (_ & vh & E & Ec & Ek) (_ & vh' & E' & Ec' & Ek'). rewrite E in E'. injection E' as <-.
  rewrite Ec in Ec'. injection Ec' as <-. by rewrite Ek in Ek'.
Qed.

(** Places without a wanted packet. *)
Lemma progress_skip s s' sc d : scan_at src vm (s1_i s) = Some sc -> d = scan_step vm sc ->
  (forall k c, packet_at vm src start (s1_i s) k c -> c <> MAGIC_BAD_THREAD -> 0 <= k < Z.of_nat n -> False) ->
  s1_dest s' = s1_dest s -> s1_highestDestIndex s' = s1_highestDestIndex s -> s1_i s' = s1_i s ->
  progress s (Some (true, advance s' d)).
Proof using Hn.
  intros Esc -> Hno Ed Eh Ei. split. exists true, (advance s' (scan_step vm sc)). split_and!; [done|by apply effect_none| | |done].
  - intros _. exists sc. split; [done|]. cbn. by rewrite Ei.
  - intros _ k c Hp Hb Hk. by destruct (Hno k c Hp Hb Hk).
Qed.

Lemma use_packet_progress nSort s0 s vh k c :
  slotted s -> scan_at src vm (s1_i s) = Some (Frame vh) -> packet_at vm src start (s1_i s) k c ->
  0 <= k < Z.of_nat n -> 0 <= c < vm_nThread vm ->
  s1_dest s = s1_dest s0 -> s1_highestDestIndex s = s1_highestDestIndex s0 -> s1_i s = s1_i s0 ->
  progress s0 (use_packet src_addr vm nSort s k c).
Proof using Hrun Hn.
  intros Hinv Hscan Hp Hk Hc Ed Eh Ei. unfold use_packet. set (s1 := s1_set_nSequentialUnprocessable s _).
  assert (H1 : slotted s1 /\ s1_dest s1 = s1_dest s0 /\ s1_highestDestIndex s1 = s1_highestDestIndex s0 /\
    s1_i s1 = s1_i s0) by done.
  clearbody s1. destruct H1 as (H1 & Ed1 & Eh1 & Ei1).
  destruct (mark_end_inv SZ vm src src_addr start Hrun n Hn s1 H1) as (H2 & Ei2 & _).
  assert (Em : s1_dest (mark_end s1) = s1_dest s0 /\ s1_highestDestIndex (mark_end s1) = s1_highestDestIndex s0)
    by (unfold mark_end; by case_match).
  assert (Hstore : forall s2, slotted s2 -> s1_dest s2 = s1_dest s0 -> s1_highestDestIndex s2 = s1_highestDestIndex s0 ->
    s1_i s2 = s1_i s0 -> progress s0 (s3 ← store_packet src_addr vm s2 k c; Some (true, s3))).
  { intros s2 Hs2 Ed2 Eh2 Ei2'. destruct (store_packet_effect s2 k c Hs2) as (s3 & -> & He & Ei3 & Hh);
      [by rewrite Ei2', <-Ei|done..|].
    split. exists true, s3. split_and!; [done|by apply (effect_same s0 s2)| | |done].
    - intros _. exists (Frame vh). split; [by rewrite <-Ei|]. cbn [scan_step]. by rewrite Ei3, Ei2'.
    - intros _ k' c' Hp' _ _. rewrite Ei in Hp. by destruct (packet_at_fun _ _ _ _ _ Hp Hp') as [<- <-]. }
  destruct Em as [Edm Ehm]. case_match eqn:Egap; [case_match|]; [|apply Hstore; done || congruence..].
  split. exists false, (mark_end s1). split_and!; [done|by apply effect_none|done|done|].
  intros Hexp. rewrite Ei in Hp. destruct (Hexp k c Hp) as [_ Hg].
  { pose proof (mo_threads _ _ (ro_mux _ _ _ _ Hrun)). unfold MAGIC_BAD_THREAD. lia. }
  rewrite !andb_true_iff, !Z.ltb_lt in Egap. lia.
Qed.

Lemma beyond_end_progress nSort s0 s vh k c :
  scan_at src vm (s1_i s0) = Some (Frame vh) -> packet_at vm src start (s1_i s0) k c ->
  Z.of_nat n <= k -> 0 <= c < vm_nThread vm ->
  s1_dest s = s1_dest s0 -> s1_highestDestIndex s = s1_highestDestIndex s0 -> s1_i s = s1_i s0 ->
  progress s0 (Some (beyond_end vm nSort s)).
Proof using Hrun Hn.
  intros Hscan Hp Hk Hc Ed Eh Ei. unfold beyond_end. set (s1 := s1_set_nSequentialUnprocessable s _).
  assert (Hno : forall k' c', packet_at vm src start (s1_i s0) k' c' -> ~ k' < Z.of_nat n).
  { intros k' c' Hp'. destruct (packet_at_fun _ _ _ _ _ Hp Hp') as [<- _]. lia. }
  case_match.
  - apply (progress_skip _ (discard s1) (Frame vh)); try done. intros k' c' Hp' _ Hk'. by destruct (Hno k' c' Hp'); lia.
  - set (s2 := mark_end s1).
    assert (E2 : s1_dest s2 = s1_dest s0 /\ s1_highestDestIndex s2 = s1_highestDestIndex s0 /\ s1_i s2 = s1_i s0).
    { subst s2. unfold mark_end. by case_match. }
    clearbody s2. destruct E2 as (Ed2 & Eh2 & Ei2). split. eexists _, _. split; [done|]. split; [by apply effect_none|].
    split; [|split].
    + intros _. exists (Frame vh). split; [done|]. cbn. by rewrite Ei2.
    + intros _ k' c' Hp' _ Hk'. by destruct (Hno k' c' Hp'); lia.
    + intros Hexp. destruct (Hexp k c Hp) as [Hlt _]; [|by destruct (Hno k c Hp)].
      pose proof (mo_threads _ _ (ro_mux _ _ _ _ Hrun)). unfold MAGIC_BAD_THREAD. lia.
Qed.

Lemma good_frame_progress nSort maxSrcIndex s0 s vh c :
  slotted s -> scan_at src vm (s1_i s) = Some (Frame vh) -> s1_i s <= srcSize - fs ->
  vm_chanIndex vm !! Z.to_nat (getVDIFThreadID vh) = Some c -> 0 <= c < vm_nThread vm ->
  s1_dest s = s1_dest s0 -> s1_highestDestIndex s = s1_highestDestIndex s0 -> s1_i s = s1_i s0 ->
  progress s0 (good_frame src src_addr vm nSort maxSrcIndex (Z.of_nat n - 1) start s vh c).
Proof using Hrun Hn.
  intros Hinv Hscan Hi Hchan Hc Ed Eh Ei. unfold good_frame. rewrite Ei in Hscan.
  destruct (first_header_ok SZ vm src src_addr start Hrun n Hn s vh) as (s1 & h & -> & Hs1 & Ei1 & _ & Ed1 & Eh1);
    [done|done|by rewrite Ei|]. cbn [mbind option_bind].
  set (k := s32 (frame_number vm vh - start)) in *.
  assert (Hp : packet_at vm src start (s1_i s0) k c).
  { pose proof (in_i _ _ _ _ _ _ _ _ _ _ _ _ Hinv). split; [rewrite <-Ei; lia|]. by exists vh. }
  set (s2 := s1_set_framesIn s1 _).
  assert (E2 : slotted s2 /\ s1_dest s2 = s1_dest s0 /\ s1_highestDestIndex s2 = s1_highestDestIndex s0 /\ s1_i s2 = s1_i s0)
    by (split; [done|]; cbn; split_and!; congruence).
  clearbody s2. destruct E2 as (Hs2 & Ed2 & Eh2 & Ei2). case_match eqn:Eneg.
  { apply Z.ltb_lt in Eneg. apply (progress_skip _ (discard s2) (Frame vh)); try done. intros k' c' Hp' _ Hk'.
    destruct (packet_at_fun _ _ _ _ _ Hp Hp') as [<- _]. lia. }
  apply Z.ltb_ge in Eneg. set (s3 := if _ && _ then _ else s2).
  assert (E3 : slotted s3 /\ s1_dest s3 = s1_dest s0 /\ s1_highestDestIndex s3 = s1_highestDestIndex s0 /\ s1_i s3 = s1_i s0).
  { subst s3. case_match; [|done]. split_and!; [|done..]. destruct Hs2 as []. split; cbn; done || lia. }
  clearbody s3. destruct E3 as (Hs3 & Ed3 & Eh3 & Ei3). case_match eqn:Emax.
  - apply Z.ltb_lt in Emax. apply (beyond_end_progress nSort s0 s3 vh k c); done || lia.
  - apply Z.ltb_ge in Emax. apply (use_packet_progress nSort s0 s3 vh); try done; [by rewrite Ei3..|lia].
Qed.

Lemma no_packet i sc k c : scan_at src vm i = Some sc -> (forall vh, sc <> Frame vh) ->
  packet_at vm src start i k c -> False.
Proof using.
  clear. intros E Hne (_ & vh & E' & _). rewrite E in E'. injection E' as ->. by destruct (Hne vh).
Qed.

Lemma stage1_step_progress nSort maxSrcIndex s : slotted s -> s1_i s <= srcSize - fs ->
  progress s (stage1_step src src_addr vm nSort maxSrcIndex (Z.of_nat n - 1) start s).
Proof using Hrun Hn.
  intros Hinv Hi. pose proof (in_i _ _ _ _ _ _ _ _ _ _ _ _ Hinv). unfold stage1_step.
  destruct (ro_scan _ _ _ _ Hrun (s1_i s)) as [sc Esc]; [lia|]. rewrite Esc. cbn [mbind option_bind].
  destruct sc as [| | | |vh]; [eapply progress_skip; try done; intros k c Hp _ _; by eapply no_packet in Hp..|].
  destruct (scan_frame _ _ _ _ Hrun _ _ Esc) as (_ & c & Ec). rewrite Ec. cbn [mbind option_bind].
  set (s1 := if s1_firstGoodByte s <? 0 then _ else s).
  assert (E1 : slotted s1 /\ s1_dest s1 = s1_dest s /\ s1_highestDestIndex s1 = s1_highestDestIndex s /\ s1_i s1 = s1_i s).
  { subst s1. case_match; [|done]. split_and!; [|done..]. destruct Hinv as []. split; cbn; done || lia. }
  clearbody s1. destruct E1 as (Hs1 & Ed1 & Eh1 & Ei1). case_match eqn:Eb.
  - apply Z.eqb_eq in Eb. eapply progress_skip; try done. intros k c' (_ & vh' & Es' & Ec' & _) Hb _. congruence.
  - apply Z.eqb_neq in Eb. pose proof (chan_range SZ vm src src_addr Hrun n Hn _ _ Ec Eb).
    apply good_frame_progress; try done; [by rewrite Ei1|lia].
Qed.

(** *** The invariant of an orderly input *)

Record gathered (s : stage1) : Prop := {
  ga_visited : visited (s1_i s);
  ga_packets : forall j k c, packet j k c -> j < s1_i s -> 0 <= k < Z.of_nat n -> has (s1_dest s) k c;
  ga_highest : forall k c, 0 <= k -> has (s1_dest s) k c -> k <= s1_highestDestIndex s }.

(** All packets before byte [P] are in their slots. *)
Definition covered (P : Z) (s : stage1) : Prop :=
  forall j k c, packet j k c -> j < P -> 0 <= k < Z.of_nat n ->
    has (s1_dest s) k c /\ k <= s1_highestDestIndex s.

Lemma has_store s s' k c frame mask j d :
  slotted s -> 0 <= k < Z.of_nat n -> 0 <= c < vm_nThread vm ->
  mask_of (s1_dest s) k = Some mask -> load 8 frame 3 = Some (Z.lor mask (2 ^ c)) ->
  s1_dest s' = <[Z.to_nat k := frame]> (s1_dest s) -> 0 <= j ->
  has (s1_dest s') j d <-> has (s1_dest s) j d \/ j = k /\ d = c.
Proof using Hn.
  intros Hinv Hk Hc Em El Ed Hj. pose proof (in_dest _ _ _ _ _ _ _ _ _ _ _ _ Hinv).
  unfold has. rewrite Ed. setoid_rewrite (mask_of_insert _ _ _ (Z.lor mask (2 ^ c))); [|done || lia..].
  destruct (Z.eqb_spec j k) as [->|Hne]; [|naive_solver]. split.
  - intros (m & [= <-] & Hb). rewrite Z.lor_spec in Hb. apply orb_prop in Hb as [Hb|Hb]; [left; by exists mask|].
    right. split; [done|]. destruct (Z.lt_ge_cases d 0); [by rewrite Z.testbit_neg_r in Hb|].
    rewrite Z.pow2_bits_eqb in Hb by lia. by apply Z.eqb_eq in Hb.
  - intros [(m & E & Hb)|[_ ->]]; (exists (Z.lor mask (2 ^ c)); split; [done|]); rewrite Z.lor_spec.
    + assert (m = mask) as -> by congruence. by rewrite Hb.
    + rewrite Z.pow2_bits_true by lia. apply orb_true_r.
Qed.

Lemma effect_grows s s' : slotted s -> effect s s' ->
  (forall j d, 0 <= j -> has (s1_dest s) j d -> has (s1_dest s') j d) /\
  s1_highestDestIndex s <= s1_highestDestIndex s' /\
  ((forall k c, 0 <= k -> has (s1_dest s) k c -> k <= s1_highestDestIndex s) ->
    forall k c, 0 <= k -> has (s1_dest s') k c -> k <= s1_highestDestIndex s').
Proof using Hn.
  intros Hinv [Ed Eh|k c f m Hp Hk Hc Em El Ed Eh|k c _ _ Ed Eh]; [rewrite Ed, Eh; split_and!; done || lia| |
    rewrite Ed, Eh; split_and!; done || lia].
  pose proof (fun j d => has_store s s' k c f m j d Hinv Hk Hc Em El Ed) as Hiff. split_and!.
  - intros j d Hj H. apply Hiff; auto.
  - lia.
  - intros Hh j d Hj H. apply Hiff in H; [|done]. destruct H as [H|[-> _]]; [specialize (Hh j d Hj H)|]; lia.
Qed.

Lemma covered_step P s s' : slotted s -> effect s s' -> covered P s -> covered P s'.
Proof using Hn.
  intros Hinv He Hc j k c Hp Hj Hk. destruct (effect_grows s s' Hinv He) as (H1 & H2 & _).
  destruct (Hc j k c Hp Hj Hk) as [Hh Hle]. split; [by apply H1; [lia|]|lia].
Qed.

Lemma gathered_expected P s : in_order P -> slotted s -> gathered s -> s1_i s < P ->
  forall k c, packet_at vm src start (s1_i s) k c -> c <> MAGIC_BAD_THREAD -> expected s k.
Proof using Hn.
  intros Ho Hinv [Hv Hg Hh] Hi k c Hp Hb. assert (Hpk : packet (s1_i s) k c) by done.
  pose proof (in_hi _ _ _ _ _ _ _ _ _ _ _ _ Hinv).
  destruct (Ho _ _ _ Hpk Hi) as [Hk [Hgap|[Hgap|(j & k' & c' & Hj & Hji & Hk' & Hgap)]]]; (split; [done|]);
    [by left|right; lia|right].
  destruct (Ho _ _ _ Hj ltac:(lia)) as [Hkn _].
  specialize (Hh k' c' Hk' (Hg j k' c' Hj Hji ltac:(lia))). lia.
Qed.

Lemma gathered_step P nSort maxSrcIndex s : in_order P -> slotted s -> gathered s -> s1_i s < P ->
  s1_i s <= srcSize - fs ->
  exists s', stage1_step src src_addr vm nSort maxSrcIndex (Z.of_nat n - 1) start s = Some (true, s') /\
    gathered s'.
Proof using Hrun Hn.
  intros Ho Hinv Hg HP Hi. destruct (stage1_step_progress nSort maxSrcIndex s Hinv Hi)
    as [(go & s' & E & He & Hadv & Hhas & Hgo)].
  rewrite Hgo in * by (by apply (gathered_expected P)). exists s'. split; [done|].
  destruct (Hadv eq_refl) as (sc & Esc & Ei). destruct (effect_grows s s' Hinv He) as (H1 & _ & H3).
  destruct Hg as [Hv Hp Hh]. split.
  - destruct Hv as [p Hv]. exists (S p). rewrite Ei. by constructor.
  - intros j k c Hpk Hj Hk. rewrite Ei in Hj. pose proof (proj1 Hpk) as Hvj.
    pose proof (visited_between _ _ _ Hv Hvj Esc Hj) as Hle. destruct (decide (j = s1_i s)) as [->|].
    + destruct Hpk as (_ & Hpa & Hb). by apply Hhas.
    + apply H1; [lia|]. apply (Hp j); done || lia.
  - by apply H3.
Qed.

Lemma stage1_loop_covered P nSort maxSrcIndex fuel s s' : in_order P -> slotted s -> gathered s \/ covered P s ->
  stage1_loop src src_addr srcSize vm nSort maxSrcIndex (Z.of_nat n - 1) start fuel s = Some s' -> covered P s'.
Proof using Hrun Hn.
  intros Ho. assert (Hdone : forall s, gathered s -> P <= s1_i s \/ srcSize - fs < s1_i s -> covered P s).
  { intros s0 Hg Hi j k c Hp Hj Hk. pose proof (proj1 (proj1 (proj2 Hp))).
    assert (Hh : has (s1_dest s0) k c) by (apply (ga_packets s0 Hg j); done || lia).
    split; [done|]. apply (ga_highest s0 Hg k c); done || lia. }
  revert s. induction fuel as [|fuel IH]; intros s Hinv Hor; cbn [stage1_loop];
    (destruct (Z.ltb_spec (srcSize - fs) (s1_i s)) as [Hend|Hend];
     [intros [= <-]; destruct Hor; [apply Hdone; auto|done]|]); [done|].
  assert (Hor' : gathered s /\ s1_i s < P \/ covered P s).
  { destruct Hor as [Hg|]; [|by right]. destruct (Z.lt_ge_cases (s1_i s) P); [by left|right]. apply Hdone; auto. }
  destruct (stage1_step_ok SZ vm src src_addr start Hrun n Hn nSort maxSrcIndex s Hinv Hend)
    as (go & s1 & E1 & H1 & _). rewrite E1. cbn [mbind option_bind].
  destruct Hor' as [[Hg HP]|Hc].
  - destruct (gathered_step P nSort maxSrcIndex s Ho Hinv Hg HP Hend) as (s2 & E2 & Hg2).
    rewrite E1 in E2. injection E2 as -> ->. apply IH; auto.
  - destruct (stage1_step_progress nSort maxSrcIndex s Hinv Hend) as [(go' & s2 & E2 & He & _)].
    rewrite E1 in E2. injection E2 as <- <-. pose proof (covered_step P s s1 Hinv He Hc) as Hc1.
    destruct go; [apply IH; auto|]. by intros [= <-].
Qed.

Lemma stage1_init_gathered dest : length dest = n ->
  Forall (fun frame => length frame = osize vm /\ bytes_ok frame /\ load 8 frame 3 = Some 0) dest ->
  gathered (stage1_init dest).
Proof using Hn.
  intros Hl Hd. split.
  - exists 0%nat. constructor.
  - intros j k c ((? & _) & ((? & _) & _)) Hj. cbn in Hj. lia.
  - intros k c _ (mask & Em & Hb). unfold mask_of in Em. cbn in Em. apply bind_Some in Em as (f & Ef & El).
    destruct (proj1 (Forall_lookup _ _) Hd _ _ Ef) as (_ & _ & E0). rewrite E0 in El. injection El as <-.
    by rewrite Z.bits_0 in Hb.
Qed.

(** ** Complete frames *)

(** The input has, before byte [P], the packets of all threads of output
    frame [k]. *)
Definition all_threads (P k : Z) : Prop :=
  forall c, 0 <= c < vm_nThread vm -> exists i, packet i k c /\ i < P.

Lemma covered_full P s k : slotted s -> covered P s -> all_threads P k -> 0 <= k < Z.of_nat n ->
  mask_of (s1_dest s) k = Some (vm_goodMask vm) /\ k <= s1_highestDestIndex s.
Proof using Hrun Hn.
  intros Hinv Hc Hall Hk. pose proof (mo_threads _ _ (ro_mux _ _ _ _ Hrun)) as Ht.
  assert (H : forall c, 0 <= c < vm_nThread vm -> has (s1_dest s) k c /\ k <= s1_highestDestIndex s).
  { intros c Hr. destruct (Hall c Hr) as (i & Hp & Hi). by apply (Hc i). }
  split; [|by apply (H 0); lia]. destruct (H 0 ltac:(lia)) as [(mask & Em & _) _]. rewrite Em. f_equal.
  rewrite (mo_goodMask _ _ (ro_mux _ _ _ _ Hrun)). unfold mask_of in Em. apply bind_Some in Em as (f & Ef & El).
  destruct (in_slots _ _ _ _ _ _ _ _ _ _ _ _ Hinv _ _ Ef) as (m & Hs & _).
  rewrite (sl_mask _ _ _ _ _ _ _ Hs) in El. injection El as ->. apply full_mask; [lia|apply Hs|].
  intros c Hr. destruct (H c Hr) as [(m & Em & Hb) _]. unfold mask_of in Em. rewrite Ef in Em. cbn in Em.
  rewrite (sl_mask _ _ _ _ _ _ _ Hs) in Em. by injection Em as ->.
Qed.

Definition complete (dest : list buffer) (K : Z) : Prop :=
  forall k, 0 <= k <= K -> mask_of dest k = Some (vm_goodMask vm).

Lemma backup_frame_keeps dest K f b b' : complete dest K -> backup_frame src_addr vm dest f b = Some b' ->
  K <= b_highestDestIndex b -> K <= b_highestDestIndex b'.
Proof using Hrun Hn.
  intros Hc. unfold backup_frame. intros H Hb. apply bind_Some in H as (frame & Ef & H).
  destruct (Z.leb_spec 0 f) as [Hf|]; [|done]. apply bind_Some in H as (mask & Em & H).
  assert (Hbelow : mask <> vm_goodMask vm -> K <= f - 1).
  { intros Hne. destruct (Z.le_gt_cases f K) as [Hle|]; [|lia]. specialize (Hc f ltac:(lia)).
    unfold mask_of in Hc. rewrite Ef in Hc. cbn in Hc. congruence. }
  pose proof (good_nonzero SZ vm src src_addr Hrun n Hn) as Hg.
  case_match.
  - injection H as <-. destruct (Z.eqb_spec mask 0) as [->|]; [cbn; by apply Hbelow; congruence|done].
  - destruct (Z.eqb_spec mask (vm_goodMask vm)) as [|Hne]; [by injection H as <-|].
    revert H. apply (run_iters_all _ (fun b => K <= b_highestDestIndex b)); [|by apply Hbelow].
    intros t b1 b2 Hb1. unfold unread_thread. intros H1. apply bind_Some in H1 as (bit & _ & H1).
    case_match; [by injection H1 as <-|]. apply bind_Some in H1 as (ptr & _ & H1). by injection H1 as <-.
Qed.

Lemma backup_frames_keeps nSort s b K : complete (s1_dest s) K -> K <= s1_highestDestIndex s ->
  backup_frames src_addr vm nSort s = Some b -> K <= b_highestDestIndex b.
Proof using Hrun Hn.
  intros Hc HK. unfold backup_frames.
  assert (Hstep : forall f b b', K <= b_highestDestIndex b ->
    backup_frame src_addr vm (s1_dest s) f b = Some b' -> K <= b_highestDestIndex b')
    by (intros f b1 b2 H1 H2; by eapply backup_frame_keeps).
  repeat case_match; [apply (run_iters_all _ (fun b => K <= b_highestDestIndex b)); done..|by intros [= <-]].
Qed.

(** ** The second loop *)

Context (sched : schedule) (Hsched : turner_schedule vm sched).

(** The frame is marked valid and holds the data of all threads. *)
Definition written (k : Z) (frame : buffer) : Prop :=
  getVDIFFrameInvalid (struct_of_bytes (take 32 frame)) = 0 /\
  frame_data vm src start k (vm_goodMask vm) frame.

Lemma proto_valid h0 k : struct_ok h0 -> proto_ok vm src h0 -> vh_invalid (timed vm start k h0) = 0.
Proof using Hrun.
  intros Hok (i & vh & Hi & Hscan & Hp).
  destruct (proto_header_spec SZ vm src src_addr Hrun i vh Hi Hscan) as (h & E & _ & Hsh).
  rewrite Hp in E. injection E as <-. by apply shared_invalid in Hsh.
Qed.

Lemma output_frame_written h0 k frame :
  struct_ok h0 -> proto_ok vm src h0 -> slot_ok vm src src_addr start k frame (vm_goodMask vm) ->
  exists frame', output_frame sched src src_addr vm h0 frame
    ((start + k) / vm_inputFramesPerSecond vm) ((start + k) mod vm_inputFramesPerSecond vm)
    = Some (Good, frame') /\ written k frame'.
Proof using Hrun Hn Hsched.
  intros Hh Hp Hs. pose proof Hs as [Hl Hb Em Hr _]. unfold output_frame. rewrite Em. cbn [mbind option_bind].
  fold (timed vm start k h0). pose proof (proto_valid h0 k Hh Hp) as Hv.
  pose proof (good_nonzero SZ vm src src_addr Hrun n Hn) as Hg.
  assert (Hload : forall t, (t < nt)%nat -> load 8 frame (4 + t) =
    if Z.testbit (vm_goodMask vm) (Z.of_nat t) then load 8 frame (4 + t) else Some src_addr).
  { intros t Ht. by rewrite (good_bits SZ vm src src_addr Hrun n Hn). }
  rewrite (proj2 (Z.eqb_neq _ 0)), Z.eqb_refl by done.
  assert (Hturn : forall hb, length hb = 32%nat ->
    vh_invalid (struct_of_bytes hb) = 0 ->
    exists frame', corner_turn sched src src_addr vm hb frame = Some frame' /\ written k frame').
  { intros hb Hlen Hi. destruct (frame_turned SZ vm src src_addr start Hrun n Hn sched Hsched hb k frame _ frame
      Hs Hg Hl Hb Hload) as (out & E & _ & _ & Hd).
    exists (hb ++ out). split; [done|]. split; [by rewrite take_app_length'|by apply Hd]. }
  case_match.
  - destruct (propagate_header SZ vm src src_addr start Hrun n Hn k h0 _ Hh Hr) as (v & -> & Hl4 & _ & Hsh & _).
    cbn [mbind option_bind]. destruct (Hturn _ Hl4) as (frame' & -> & Hw); [|by exists frame'].
    apply shared_invalid in Hsh. congruence.
  - destruct (Hturn (struct_bytes (timed vm start k h0))) as (frame' & -> & Hw);
      [apply length_header_bytes| |by exists frame'].
    by rewrite (struct_bytes_of header_whole) by (by apply timed_ok).
Qed.

(** ** The whole call *)

(** The stages of a call that returned. *)
Record stages (garbage : vdif_header) (d1 : list buffer) (destSize : Z) (stats : option vdif_mux_statistics)
    (s : stage1) (b : backup) (highest : Z) (o : stage2) (dest' : list buffer)
    (stats' : option vdif_mux_statistics) : Prop := {
  sg_loop : exists nSort maxSrcIndex,
    stage1_loop src src_addr srcSize vm nSort maxSrcIndex (cdiv destSize (vm_outputFrameSize vm) - 1) start
      (S (Z.to_nat srcSize)) (stage1_init d1) = Some s /\
    backup_frames src_addr vm nSort (stage1_end s) = Some b;
  sg_highest : b_highestDestIndex b <= highest /\
    (highest = b_highestDestIndex b \/ highest = cdiv destSize (vm_outputFrameSize vm) - 1);
  sg_output : stage2_loop sched src src_addr vm (default garbage (s1_outputHeader (stage1_end s))) highest
    (stage2_init vm start (s1_dest (stage1_end s))) = Some o;
  sg_dest : dest' = s2_dest o;
  sg_stats : forall st, stats' = Some st ->
    ms_destUsed st = (s2_nGoodOutput o + s2_nBadOutput o + s2_nPartialOutput o) * vm_outputFrameSize vm }.

Lemma update_stats_used destSize nSort s b o bp st st' used :
  update_stats vm src srcSize destSize nSort start s b o bp st = Some (st', used) ->
  ms_destUsed st' = (s2_nGoodOutput o + s2_nBadOutput o + s2_nPartialOutput o) * vm_outputFrameSize vm.
Proof using. unfold update_stats. intros H. apply bind_Some in H as (z & _ & H). by injection H as <- _. Qed.

Lemma vdifmux_stages garbage dest destSize startOut stats r dest' stats' :
  start_frame_number vm src srcSize startOut = Some start -> 0 <= start ->
  vdifmux sched vm src_addr garbage dest destSize src srcSize startOut stats = Some (r, dest', stats') ->
  exists d1 s b highest o, clear_masks dest = Some d1 /\
    stages garbage d1 destSize stats s b highest o dest' stats'.
Proof using Hn.
  intros Hstart H0. unfold vdifmux. intros H. apply bind_Some in H as (nSort & _ & H).
  rewrite Hstart in H. cbn [mbind option_bind] in H. case_match; [done|].
  rewrite (proj2 (Z.ltb_ge start 0)) in H by lia. apply bind_Some in H as (d1 & E1 & H).
  apply bind_Some in H as (s & E2 & H). apply bind_Some in H as (b & E3 & H).
  case_match; [done|]. apply bind_Some in H as (o & E4 & H). apply bind_Some in H as ([st used] & E5 & H).
  injection H as _ <- <-. eexists d1, s, b, _, o. split; [done|]. split; [by eauto| |exact E4|done|].
  - destruct (_ && _ && _) eqn:E; [|split; [lia|by left]]. rewrite !andb_true_iff in E. destruct E as [[_ E%Z.ltb_lt] _].
    split; [lia|by right].
  - intros st' Est. destruct stats as [st0|]; [|congruence]. apply bind_Some in E5 as ([st1 bp] & Eu & E5).
    injection E5 as E5 _. apply update_stats_used in Eu. congruence.
Qed.

(** Before byte [P] the input has everything for the output frames up to [K]. *)
Definition supplied (P K : Z) : Prop :=
  0 <= K /\ in_order P /\ forall k, 0 <= k <= K -> all_threads P k.

Lemma supplied_range P K : supplied P K -> 0 <= K < Z.of_nat n.
Proof using Hrun Hn.
  intros (HK & Ho & Hall). pose proof (mo_threads _ _ (ro_mux _ _ _ _ Hrun)).
  destruct (Hall K ltac:(lia) 0 ltac:(lia)) as (i & Hp & Hi). destruct (Ho _ _ _ Hp Hi). lia.
Qed.

(** The first loop leaves the supplied frames complete. *)
Lemma stage1_complete P K nSort maxSrcIndex dest d1 : length dest = n ->
  Forall (fun frame => length frame = osize vm /\ bytes_ok frame) dest -> clear_masks dest = Some d1 ->
  supplied P K -> exists s,
    stage1_loop src src_addr srcSize vm nSort maxSrcIndex (Z.of_nat n - 1) start (S (Z.to_nat srcSize))
      (stage1_init d1) = Some s /\
    slotted (stage1_end s) /\ complete (s1_dest (stage1_end s)) K /\ K <= s1_highestDestIndex (stage1_end s) /\
    0 <= s1_bytesProcessed (stage1_end s).
Proof using Hrun Hn.
  intros Hl Hd Ec Hsup. pose proof (supplied_range P K Hsup) as HK. destruct Hsup as (_ & Ho & Hall).
  destruct (clear_masks_ok SZ vm src src_addr Hrun n Hn dest Hd) as (d1' & E1 & Hl1 & Hd1).
  rewrite Ec in E1. injection E1 as <-. rewrite Hl in Hl1.
  pose proof (stage1_init_inv SZ vm src src_addr start Hrun n Hn d1 Hl1 Hd1) as Hi.
  destruct (stage1_loop_ok SZ vm src src_addr start Hrun n Hn nSort maxSrcIndex (S (Z.to_nat srcSize))
    (stage1_init d1) Hi) as (s & E & Hs); [cbn; lia|].
  pose proof (stage1_loop_covered P nSort maxSrcIndex _ _ s Ho Hi
    (or_introl (stage1_init_gathered d1 Hl1 Hd1)) E) as Hc.
  destruct (stage1_end_inv SZ vm src src_addr start Hrun n Hn s Hs) as [He Hbp].
  assert (Es : s1_highestDestIndex (stage1_end s) = s1_highestDestIndex s /\
    s1_dest (stage1_end s) = s1_dest s) by (unfold stage1_end; by case_match).
  destruct Es as [Eh Ed]. exists s. rewrite Eh, Ed. split; [done|]. split; [done|]. split; [|split; [|done]].
  - intros k Hk. apply (covered_full P s k Hs Hc); [apply Hall|]; lia.
  - apply (covered_full P s K Hs Hc); [apply Hall|]; lia.
Qed.

(** The second loop writes them. *)
Lemma stage2_written garbage s K m o : struct_ok garbage -> slotted s -> complete (s1_dest s) K ->
  (m <= n)%nat -> K < Z.of_nat m -> 0 <= start < 2 ^ 31 * vm_inputFramesPerSecond vm ->
  stage2_loop sched src src_addr vm (default garbage (s1_outputHeader s)) (Z.of_nat m - 1)
    (stage2_init vm start (s1_dest s)) = Some o ->
  s2_nGoodOutput o + s2_nBadOutput o + s2_nPartialOutput o = Z.of_nat m /\
  exists h0, forall k, 0 <= k <= K -> exists frame, s2_dest o !! Z.to_nat k = Some frame /\
    output_ok vm src start h0 k frame /\ written k frame.
Proof using Hrun Hn Hsched.
  intros Hg Hs Hc Hm HK H0 E. pose proof (in_dest _ _ _ _ _ _ _ _ _ _ _ _ Hs) as Hl.
  destruct (stage2_slots SZ vm src src_addr start Hrun n Hn garbage s Hg Hs) as [Hh0 Hslots].
  set (h0 := default garbage _) in *.
  destruct (stage2_loop_ok SZ vm src src_addr start Hrun n Hn sched Hsched h0 (s1_dest s) m
    (stage2_init vm start (s1_dest s)) (fun k frame => Z.of_nat k <= K -> written (Z.of_nat k) frame))
    as (o' & E' & Ho & Hw); [done|done| |lia|by apply (stage2_init_inv SZ vm src src_addr start Hrun n Hn)|].
  - intros k frame oc frame' Ef Eo Hk. destruct (Hslots k frame Ef) as (mask & Hsl & Hp).
    pose proof (Hc (Z.of_nat k) ltac:(lia)) as Em. unfold mask_of in Em. rewrite Nat2Z.id, Ef in Em.
    cbn [mbind option_bind] in Em. rewrite (sl_mask _ _ _ _ _ _ _ Hsl) in Em. injection Em as ->.
    destruct (output_frame_written h0 (Z.of_nat k) frame) as (f2 & E2 & Hw); [done| |done|congruence].
    apply Hp, (good_nonzero SZ vm src src_addr Hrun n Hn).
  - rewrite E in E'. injection E' as <-. split; [apply Ho|]. exists h0. intros k Hk.
    destruct (lookup_lt_is_Some_2 (s2_dest o) (Z.to_nat k)) as [frame Ef].
    { rewrite (t2_length _ _ _ _ _ _ _ Ho). lia. }
    exists frame. split; [done|]. split.
    + rewrite <-(Z2Nat.id k) by lia. apply (t2_done _ _ _ _ _ _ _ Ho (Z.to_nat k)); [lia|done].
    + rewrite <-(Z2Nat.id k) by lia. apply Hw; [lia|done|lia].
Qed.
End Complete.

(** ** Properties *)

(** C2 What is supplied in order is not lost: if, up to some place of the input,
    the packets of the wanted threads stay inside the output and come no
    further ahead than the configured gap, and all threads of the output
    frames [0 .. K] are among them (in any order), then [vdifmux] writes each of
    these frames with the time of its place, marked valid and with the corner
    turn of the packets of all threads, whatever the rest of the input holds;
    backing up over incomplete frames drops none of them, and the statistics
    count at least these frames as output. *)
Theorem vdifmux_complete SZ vm src src_addr start n sched garbage dest destSize startOut stats P K :
  run_ok SZ vm src src_addr -> (0 < n)%nat -> turner_schedule vm sched -> struct_ok garbage ->
  length dest = n -> cdiv destSize (vm_outputFrameSize vm) = Z.of_nat n ->
  Forall (fun frame => length frame = osize vm /\ bytes_ok frame) dest ->
  start_frame_number vm src (Z.of_nat (length src)) startOut = Some start ->
  0 <= start < 2 ^ 31 * vm_inputFramesPerSecond vm ->
  supplied vm src start n P K ->
  exists r dest' stats',
    vdifmux sched vm src_addr garbage dest destSize src (Z.of_nat (length src)) startOut stats
      = Some (r, dest', stats') /\
    (exists h0, forall k, 0 <= k <= K -> exists frame, dest' !! Z.to_nat k = Some frame /\
      output_ok vm src start h0 k frame /\ written vm src start k frame) /\
    (forall st, stats' = Some st -> (K + 1) * vm_outputFrameSize vm <= ms_destUsed st).
Proof.
  intros Hrun Hn Hsched Hg Hl Hds Hd Hstart H0 Hsup.
  destruct (vdifmux_run SZ vm src src_addr start Hrun n Hn sched Hsched garbage dest destSize startOut stats)
    as (r & dest' & stats' & E & _); [done..|].
  exists r, dest', stats'. split; [done|].
  destruct (vdifmux_stages vm src src_addr start n Hn sched garbage dest destSize startOut stats r dest' stats'
    Hstart ltac:(lia) E) as (d1 & s & b & highest & o & Ec & [(nSort & maxSrc & E1 & E2) [Hh Hor] E3 -> Hst]).
  rewrite Hds in E1, Hor.
  destruct (stage1_complete SZ vm src src_addr start Hrun n Hn P K nSort maxSrc dest d1 Hl Hd Ec Hsup)
    as (s' & E1' & Hs & Hcomp & HK & Hbp). rewrite E1 in E1'. injection E1' as <-.
  pose proof (backup_frames_keeps SZ vm src src_addr Hrun n Hn nSort _ b K Hcomp HK E2) as Hb.
  destruct (backup_frames_ok SZ vm src src_addr start Hrun n Hn nSort _ Hs Hbp) as (b' & E2' & [Hb1 _] & _).
  rewrite E2 in E2'. injection E2' as <-.
  pose proof (in_hi _ _ _ _ _ _ _ _ _ _ _ _ Hs). pose proof (supplied_range SZ vm src src_addr start Hrun n Hn P K Hsup).
  replace highest with (Z.of_nat (Z.to_nat (highest + 1)) - 1) in E3 by lia.
  destruct (stage2_written SZ vm src src_addr start Hrun n Hn sched Hsched garbage (stage1_end s) K
    (Z.to_nat (highest + 1)) o Hg Hs Hcomp) as [Hcount Hw]; [lia|lia|done|done|].
  split; [done|]. intros st Est. rewrite (Hst st Est), Hcount.
  destruct (sizes SZ vm src src_addr Hrun) as (_ & _ & _ & Hos & _). apply Z.mul_le_mono_nonneg_r; lia.
Qed.

(** The places visited in the example. *)
Lemma example_visits p i : visit example_src example_mux p i -> i ∈ [0; 4; 44; 84; 124; 164; 204; 244].
Proof.
  induction 1 as [|p i s _ IH Hs]; [set_solver|]. revert Hs. rewrite !elem_of_cons in IH.
  destruct IH as [->|[->|[->|[->|[->|[->|[->|[->|H]]]]]]]]; [..|by apply not_elem_of_nil in H];
    vm_compute scan_at; try done; intros [= <-]; cbn; set_solver.
Qed.

Lemma example_packet i k c : packet example_mux example_src 100999 i k c ->
  (i, k, c) ∈ [(4, 0, 0); (44, 1, 1); (124, 0, 1); (164, 1, 0); (204, 2, 0)].
Proof.
  intros ([p Hv] & (Hr & vh & Hs & Hc & Hk) & Hb). apply example_visits in Hv. revert Hs Hr. rewrite !elem_of_cons in Hv.
  destruct Hv as [->|[->|[->|[->|[->|[->|[->|[->|H]]]]]]]]; [..|by apply not_elem_of_nil in H];
    vm_compute scan_at; try done; intros [= <-] Hr; vm_compute in Hc; injection Hc as <-;
    vm_compute in Hk; subst k; try (by destruct Hb); rewrite !elem_of_cons; tauto.
Qed.

(** The [p]th place a scan visits, computed. *)
Fixpoint place (src : buffer) (vm : vdif_mux) (p : nat) : option Z :=
  match p with
  | O => Some 0
  | S p => i ← place src vm p; s ← scan_at src vm i; Some (i + scan_step vm s)
  end.

Lemma place_visited src vm p i : place src vm p = Some i -> visited vm src i.
Proof.
  intros H. exists p. revert i H. induction p as [|p IH]; cbn [place]; intros i H; [injection H as <-; constructor|].
  apply bind_Some in H as (j & Ej & H). apply bind_Some in H as (s & Es & H). injection H as <-.
  constructor; [by apply IH|done].
Qed.

Lemma example_has p i k c vh : place example_src example_mux p = Some i -> 0 <= i <= 204 ->
  scan_at example_src example_mux i = Some (Frame vh) ->
  vm_chanIndex example_mux !! Z.to_nat (getVDIFThreadID vh) = Some c ->
  s32 (frame_number example_mux vh - 100999) = k -> c <> MAGIC_BAD_THREAD ->
  packet example_mux example_src 100999 i k c.
Proof.
  intros Hv Hi Hs Hc Hk Hb. split; [by eapply place_visited|]. split; [|done]. split; [cbn; lia|]. by exists vh.
Qed.

#[local] Ltac example_here p :=
  eapply (example_has p); [vm_compute; reflexivity|lia|vm_compute; reflexivity|vm_compute; reflexivity
    |vm_compute; reflexivity|by compute].

Lemma example_supplied : supplied example_mux example_src 100999 3 244 1.
Proof.
  split; [lia|]. split.
  - intros i k c Hp%example_packet _. rewrite !elem_of_cons in Hp.
    assert (Hk : k <= 2) by (destruct Hp as [E|[E|[E|[E|[E|E]]]]];
      [injection E as _ -> _; lia..|by apply not_elem_of_nil in E]).
    cbn [example_mux vm_nGap]. split; [lia|]. right. left. lia.
  - intros k Hk c Hc. cbn [example_mux vm_nThread] in Hc.
    assert (k = 0 \/ k = 1) as [-> | ->] by lia; assert (c = 0 \/ c = 1) as [-> | ->] by lia.
    + exists 4. split; [|lia]. example_here 1%nat.
    + exists 124. split; [|lia]. example_here 4%nat.
    + exists 164. split; [|lia]. example_here 5%nat.
    + exists 44. split; [|lia]. example_here 2%nat.
Qed.

Lemma vdifmux_complete_witness :
  exists r dest' stats',
    vdifmux sequential example_mux 4096 zero_header example_dest 144 example_src 244 (-1) None
      = Some (r, dest', stats') /\
    (exists h0, forall k, 0 <= k <= 1 -> exists frame, dest' !! Z.to_nat k = Some frame /\
      output_ok example_mux example_src 100999 h0 k frame /\ written example_mux example_src 100999 k frame) /\
    (forall st, stats' = Some st -> (1 + 1) * 48 <= ms_destUsed st).
Proof.
  apply (vdifmux_complete 8 example_mux example_src 4096 100999 3 sequential zero_header example_dest
    144 (-1) None 244 1).
  - exact example_run_ok.
  - lia.
  - exact example_schedule.
  - exact zero_header_ok.
  - reflexivity.
  - reflexivity.
  - exact example_dest_ok.
  - vm_compute. reflexivity.
  - cbn [example_mux vm_inputFramesPerSecond]. lia.
  - exact example_supplied.
Defined.
