(* ===== verification/Streams.v ===== *)
(** * Streams: files that are read

    A file on disk is the list of its bytes; a [FILE] adds the position. *)
From S2P Require Export Memory.
#[local] Open Scope Z_scope.

Record stream : Type := { st_bytes : buffer; st_pos : Z }.

(** [fread] of up to [n] bytes. *)
Definition fread (n : Z) (f : stream) : buffer * stream :=
  let bs := take (Z.to_nat n) (drop (Z.to_nat (st_pos f)) (st_bytes f)) in
  (bs, {| st_bytes := st_bytes f; st_pos := st_pos f + Z.of_nat (length bs) |}).

(** [fseeko(f, pos, SEEK_SET)]; a negative position is refused. *)
Definition fseeko (pos : Z) (f : stream) : option stream :=
  if pos <? 0 then None else Some {| st_bytes := st_bytes f; st_pos := pos |}.

Lemma fread_bytes n f bs f' : fread n f = (bs, f') -> st_bytes f' = st_bytes f.
Proof. by intros [= _ <-]. Qed.

Lemma fread_app n f bs rest :
  0 <= st_pos f -> drop (Z.to_nat (st_pos f)) (st_bytes f) = bs ++ rest -> Z.of_nat (length bs) = n ->
  exists f', fread n f = (bs, f') /\ 0 <= st_pos f' /\ st_bytes f' = st_bytes f /\
    drop (Z.to_nat (st_pos f')) (st_bytes f') = rest.
Proof.
  intros Hpos Hd Hn. unfold fread. rewrite Hd, take_app_length' by lia.
  eexists. split; [done|]. cbn. split; [lia|]. split; [done|].
  rewrite Z2Nat.inj_add, Nat2Z.id, <-drop_drop, Hd by lia. by rewrite drop_app_length'.
Qed.
