(* ===== verification/Mark6Gather.v ===== *)
(** * Mark6Gather: gathering the scattered files of a Mark 6 recorder

    [mark6gather.c] of libraries/mark6sg: a recording is scattered in blocks over
    several files; the gatherer reads ahead one block per file in a thread,
    keeps ten blocks of every file in slots, and returns the packets of all
    slots in the order of their frame numbers.

    This file holds the sequential meaning of the operations: a call of
    [Mark6FileReadBlock] takes the block that was read ahead and the reader
    thread then reads the next one.  [Mark6Reader] shows that the two threads
    and their barrier implement it. *)
From S2P Require Export VdifHeader Streams.
#[local] Open Scope Z_scope.

Definition M6SG_PACKET_FORMAT_VDIF : Z := 0.
Definition MARK6_BUFFER_SLOTS : nat := 10.

(** ** Files *)

(** An [int32_t] that was read, or [None] at the end of the file. *)
Definition fread_int32 (f : stream) : option Z * stream :=
  let '(bs, f) := fread 4 f in
  (if decide (length bs = 4%nat) then Some (s32 (le_combine bs)) else None, f).

(** ** Data *)

Record Mark6Header : Type := {
  m6h_sync_word : Z;
  m6h_version : Z;
  m6h_block_size : Z;
  m6h_packet_format : Z;
  m6h_packet_size : Z }.

Definition int32_at (bs : buffer) (off : nat) : Z := s32 (le_combine (slice bs off 4)).

Definition mark6_header_of_bytes (bs : buffer) : Mark6Header := {|
  m6h_sync_word := le_combine (slice bs 0 4);
  m6h_version := int32_at bs 4;
  m6h_block_size := int32_at bs 8;
  m6h_packet_format := int32_at bs 12;
  m6h_packet_size := int32_at bs 16 |}.

Record Mark6BlockHeader : Type := { bh_blocknum : Z; bh_wb_size : Z }.

(** The size of the block header of a version; the version 1 header is the
    block number alone. *)
Definition mark6BlockHeaderSize (version : Z) : Z :=
  if version =? 1 then 4 else if version =? 2 then 8 else -1.

Record Mark6BufferSlot : Type := {
  bs_payloadBytes : Z;
  bs_index : Z;
  bs_frame : Z;
  bs_data : buffer;
  bs_blockHeader : Mark6BlockHeader }.

(** The part of a [Mark6File] that belongs to the reader thread, with the
    thread's variable [corrupted]. *)
Record reader : Type := {
  rd_in : stream;
  rd_header : Mark6BlockHeader;
  rd_buffer : buffer;
  rd_bytes : Z;
  rd_corrupted : bool }.

Record Mark6File : Type := {
  m6_version : Z;
  m6_maxBlockSize : Z;
  m6_blockHeaderSize : Z;
  m6_packetSize : Z;
  m6_packetFormat : Z;
  m6_st_size : Z;
  m6_block1 : Z;
  m6_block2 : Z;
  m6_slot : list Mark6BufferSlot;
  m6_reader : reader }.

Definition m6_set_slot (m : Mark6File) (slots : list Mark6BufferSlot) : Mark6File :=
  Build_Mark6File (m6_version m) (m6_maxBlockSize m) (m6_blockHeaderSize m) (m6_packetSize m)
    (m6_packetFormat m) (m6_st_size m) (m6_block1 m) (m6_block2 m) slots (m6_reader m).

Definition m6_set_reader (m : Mark6File) (r : reader) : Mark6File :=
  Build_Mark6File (m6_version m) (m6_maxBlockSize m) (m6_blockHeaderSize m) (m6_packetSize m)
    (m6_packetFormat m) (m6_st_size m) (m6_block1 m) (m6_block2 m) (m6_slot m) r.

Record Mark6Gatherer : Type := { mg_files : list Mark6File; mg_packetSize : Z }.

(** ** Frame numbers *)

Definition vdifFrame (vh : vdif_header) : Z :=
  Z.lor (Z.shiftl (getVDIFFrameEpochSecOffset vh) 24) (getVDIFFrameNumber vh).

(** Seconds in five BCD digits, frame number in 16 bits. *)
Definition mark5bFrame (data : buffer) (i : nat) : option Z :=
  b4 ← data !! (i + 4)%nat; b5 ← data !! (i + 5)%nat; b8 ← data !! (i + 8)%nat;
  b9 ← data !! (i + 9)%nat; b10 ← data !! (i + 10)%nat;
  let second := Z.land b10 0x0F * 10000 + Z.shiftr b9 4 * 1000 + Z.land b9 0x0F * 100
                + Z.shiftr b8 4 * 10 + Z.land b8 0x0F in
  Some (Z.lor (Z.shiftl second 24) (b5 * 256 + b4)).

(** The frame number of the packet at byte [i] of [data]; a VDIF frame number
    needs the first two words. *)
Definition frame_of (packetFormat : Z) (data : buffer) (i : nat) : option Z :=
  if packetFormat =? M6SG_PACKET_FORMAT_VDIF then
    if decide (i + 8 <= length data)%nat then Some (vdifFrame (struct_of_bytes (slice data i 32)))
    else None
  else mark5bFrame data i.

Definition filltest : buffer := [0x44; 0x33; 0x22; 0x11; 0x44; 0x33; 0x22; 0x11].

(** The pattern at one of the first 16 positions from byte [i] on. *)
Fixpoint fill_loop (n : nat) (data : buffer) (i : nat) : option bool :=
  match n with
  | O => Some false
  | S n => if decide (i + 8 <= length data)%nat then
             if decide (slice data i 8 = filltest) then Some true else fill_loop n data (S i)
           else None
  end.

Definition checkFillData (data : buffer) (i : nat) : option bool := fill_loop 16 data i.

(** ** The reader thread *)

(** The bytes of a block header over the old header. *)
Definition block_header (old : Mark6BlockHeader) (bs : buffer) : Mark6BlockHeader := {|
  bh_blocknum := int32_at bs 0;
  bh_wb_size := if decide (8 <= length bs)%nat then int32_at bs 4 else bh_wb_size old |}.

(** What the thread does between its two barrier waits: read the next block, or
    nothing any more once the file turned out corrupt. *)
Definition reader_read (m : Mark6File) : option Mark6File :=
  let r := m6_reader m in
  if rd_corrupted r then Some m else
  let payload := m6_maxBlockSize m - m6_blockHeaderSize m in
  let '(bs, f) := fread (m6_blockHeaderSize m) (rd_in r) in
  if Z.of_nat (length bs) =? m6_blockHeaderSize m then
    let h := block_header (rd_header r) bs in
    nrd ← sint (bh_wb_size h - m6_blockHeaderSize m);
    if (nrd <=? 0) || (payload <? nrd) then
      Some (m6_set_reader m {| rd_in := f; rd_header := h; rd_buffer := replicate (Z.to_nat payload) 0xFF;
                               rd_bytes := 0; rd_corrupted := true |})
    else
      let '(data, f) := fread nrd f in
      Some (m6_set_reader m {| rd_in := f; rd_header := h;
                               rd_buffer := data ++ drop (length data) (rd_buffer r);
                               rd_bytes := Z.of_nat (length data); rd_corrupted := false |})
  else
    Some (m6_set_reader m {| rd_in := f; rd_header := rd_header r; rd_buffer := rd_buffer r;
                             rd_bytes := 0; rd_corrupted := false |}).

(** ** Taking a block *)

(** What [Mark6FileReadBlock] does between its two barrier waits: the block read
    ahead goes to the slot, whose buffer goes to the reader. *)
Definition take_block (m : Mark6File) (slotIndex : nat) : option Mark6File :=
  slot ← m6_slot m !! slotIndex;
  let r := m6_reader m in
  if rd_bytes r =? 0 then
    Some (m6_set_slot m (<[slotIndex := {| bs_payloadBytes := 0; bs_index := 0; bs_frame := 0;
      bs_data := bs_data slot; bs_blockHeader := bs_blockHeader slot |}]> (m6_slot m)))
  else if m6_packetSize m =? 0 then None
  else
    let payloadBytes := rd_bytes r - cmod (rd_bytes r) (m6_packetSize m) in
    let h := {| bh_blocknum := bh_blocknum (rd_header r);
                bh_wb_size := if m6_blockHeaderSize m =? 8 then bh_wb_size (rd_header r)
                              else bh_wb_size (bs_blockHeader slot) |} in
    frame ← frame_of (m6_packetFormat m) (rd_buffer r) 0;
    let m := m6_set_slot m (<[slotIndex := {| bs_payloadBytes := payloadBytes; bs_index := 0;
      bs_frame := frame; bs_data := rd_buffer r; bs_blockHeader := h |}]> (m6_slot m)) in
    Some (m6_set_reader m {| rd_in := rd_in r; rd_header := rd_header r; rd_buffer := bs_data slot;
                             rd_bytes := rd_bytes r; rd_corrupted := rd_corrupted r |}).

(** [Mark6FileReadBlock], and the read that it lets the other thread begin. *)
Definition Mark6FileReadBlock (m : Mark6File) (slotIndex : nat) : option Mark6File :=
  m ← take_block m slotIndex; reader_read m.

(** ** Opening *)

(** [getFirstBlocks]: the numbers of the first two blocks, or an error. *)
Definition getFirstBlocks (version maxBlockSize : Z) (f : stream) : Z + (Z * Z) :=
  let offset := st_pos f in
  let '(b1, f1) := fread_int32 f in
  match b1 with
  | None => inl (-2)
  | Some block1 =>
      let '(size, f2) := if version =? 1 then (Some maxBlockSize, f1) else fread_int32 f1 in
      match size with
      | None => inl (-3)
      | Some size =>
          match fseeko (offset + size) f2 with
          | None => inl (-4)
          | Some f3 => match fst (fread_int32 f3) with None => inl (-5) | Some block2 => inr (block1, block2) end
          end
      end
  end.

Section Open.
(* malloc returns a block of the requested size, with any contents, or null *)
Context (malloc : Z -> option buffer).

(** The ten slots with their buffers. *)
Fixpoint new_slots (n : nat) (maxBlockSize payload : Z) : option (list Mark6BufferSlot) :=
  match n with
  | O => Some []
  | S n => data ← malloc payload; slots ← new_slots n maxBlockSize payload;
           Some ({| bs_payloadBytes := 0; bs_index := 0; bs_frame := 0; bs_data := data;
                    bs_blockHeader := {| bh_blocknum := -1; bh_wb_size := maxBlockSize |} |} :: slots)
  end.

(** Opening a file with the given contents ([None]: it cannot be opened), into
    zeroed memory: an error code or the open file, whose thread has begun to
    read the first block.  [readHeader.wb_size] is set from [maxBlockSize]
    before that is read. *)
Definition openMark6File (contents : option buffer) : option (Z + Mark6File) :=
  match contents with
  | None => Some (inl (-1))
  | Some bytes =>
      let '(hb, f) := fread 20 {| st_bytes := bytes; st_pos := 0 |} in
      if negb (Nat.eqb (length hb) 20) then Some (inl (-6)) else
      let header := mark6_header_of_bytes hb in
      let blockHeaderSize := mark6BlockHeaderSize (m6h_version header) in
      if blockHeaderSize <=? 0 then Some (inl (-2)) else
      let maxBlockSize := m6h_block_size header in
      payload ← sint (maxBlockSize - blockHeaderSize);
      match malloc payload with
      | None => Some (inl (-5))
      | Some readBuffer =>
          match getFirstBlocks (m6h_version header) maxBlockSize f with
          | inl _ => Some (inl (-4))
          | inr (block1, block2) =>
              match new_slots MARK6_BUFFER_SLOTS maxBlockSize payload with
              | None => Some (inl (-3))
              | Some slots =>
                  m ← reader_read {|
                    m6_version := m6h_version header;
                    m6_maxBlockSize := maxBlockSize;
                    m6_blockHeaderSize := blockHeaderSize;
                    m6_packetSize := m6h_packet_size header;
                    m6_packetFormat := m6h_packet_format header;
                    m6_st_size := Z.of_nat (length bytes);
                    m6_block1 := block1;
                    m6_block2 := block2;
                    m6_slot := slots;
                    m6_reader := {| rd_in := f; rd_header := {| bh_blocknum := 0; bh_wb_size := 0 |};
                                    rd_buffer := readBuffer; rd_bytes := 0; rd_corrupted := false |} |};
                  Some (inr m)
              end
          end
      end
  end.

(** Filling the slots of a file: [for(s = 0; s < MARK6_BUFFER_SLOTS; ++s)]. *)
Definition fill_slots (m : Mark6File) : option Mark6File :=
  run_iters (fun s m => Mark6FileReadBlock m s) (seq 0 MARK6_BUFFER_SLOTS) m.

(** Opening the files of a new gatherer, in order; the number of bad files
    counts up. *)
Fixpoint open_files (fileList : list (option buffer)) : option (Z * list Mark6File) :=
  match fileList with
  | [] => Some (0, [])
  | contents :: fileList =>
      r ← openMark6File contents;
      match r with
      | inl _ => '(nBad, files) ← open_files fileList; Some (nBad + 1, files)
      | inr m => m ← fill_slots m; '(nBad, files) ← open_files fileList; Some (nBad, m :: files)
      end
  end.

(** [openMark6Gatherer]: null unless every file could be opened. *)
Definition openMark6Gatherer (fileList : list (option buffer)) : option (option Mark6Gatherer) :=
  '(nBad, files) ← open_files fileList;
  if 0 <? nBad then Some None else
  match files with
  | [] => None
  | m :: _ => Some (Some {| mg_files := files; mg_packetSize := m6_packetSize m |})
  end.

End Open.

Definition getMark6GathererFileSize (g : Mark6Gatherer) : Z :=
  foldr (fun m size => m6_st_size m + size) 0 (mg_files g).

(** 1 if all files are present (with no extras) and 0 otherwise. *)
Definition isMark6GatherComplete (g : Mark6Gatherer) : Z :=
  match mg_files g with
  | [] => 0
  | files =>
      let a := foldl (fun a m => if a <? m6_block1 m then m6_block1 m else a) 0 files in
      let b := foldl (fun b m => if m6_block2 m <? b then m6_block2 m else b) 1000000 files in
      if (b =? a + 1) && (b =? Z.of_nat (length files)) then 1 else 0
  end.

(** ** Gathering *)

(** The start value of [lowestFrame]: one more than the first frame number in
    the slots of file 0 that is not 0, or 0 if there is none. *)
Fixpoint start_lowest (slots : list Mark6BufferSlot) : Z :=
  match slots with
  | [] => 0
  | slot :: slots => if 0 <? bs_frame slot then u64 (bs_frame slot + 1) else start_lowest slots
  end.

(** The search for the lowest frame number: the value so far and where it is. *)
Definition found : Type := Z * option (nat * nat).

Fixpoint select_slots (f s : nat) (slots : list Mark6BufferSlot) (acc : found) : found :=
  match slots with
  | [] => acc
  | slot :: slots =>
      select_slots f (S s) slots
        (if (0 <? bs_payloadBytes slot) && (bs_frame slot <? fst acc)
         then (bs_frame slot, Some (f, s)) else acc)
  end.

Fixpoint select_files (f : nat) (files : list Mark6File) (acc : found) : found :=
  match files with
  | [] => acc
  | m :: files => select_files (S f) files (select_slots f 0 (m6_slot m) acc)
  end.

Inductive gathered : Type :=
  | GatherEnd
  | Gather (packet : option buffer) (g : Mark6Gatherer).

(** One iteration of the loop of [mark6Gather]; the packet is [None] for fill
    data. *)
Definition gather_step (g : Mark6Gatherer) : option gathered :=
  m0 ← mg_files g !! 0%nat;
  match snd (select_files 0 (mg_files g) (start_lowest (m6_slot m0), None)) with
  | None => Some GatherEnd
  | Some (fileIndex, slotIndex) =>
      F ← mg_files g !! fileIndex;
      slot ← m6_slot F !! slotIndex;
      fill ← checkFillData (bs_data slot) (Z.to_nat (bs_index slot));
      packet ← (if (fill : bool) then Some None else
        if decide (bs_index slot + mg_packetSize g <= Z.of_nat (length (bs_data slot)))
        then Some (Some (slice (bs_data slot) (Z.to_nat (bs_index slot)) (Z.to_nat (mg_packetSize g))))
        else None);
      let index := bs_index slot + mg_packetSize g in
      let slot' frame := {| bs_payloadBytes := bs_payloadBytes slot; bs_index := index; bs_frame := frame;
                            bs_data := bs_data slot; bs_blockHeader := bs_blockHeader slot |} in
      let moved frame := m6_set_slot F (<[slotIndex := slot' frame]> (m6_slot F)) in
      F ← (if bs_payloadBytes slot <=? index then Mark6FileReadBlock (moved (bs_frame slot)) slotIndex
           else frame ← frame_of (m6_packetFormat F) (bs_data slot) (Z.to_nat index);
                Some (moved frame));
      Some (Gather packet {| mg_files := <[fileIndex := F]> (mg_files g); mg_packetSize := mg_packetSize g |})
  end.

(** The loop: [n] bytes are in [out]. *)
Fixpoint gather_loop (fuel : nat) (g : Mark6Gatherer) (n count : Z) (out : buffer)
    : option (Z * buffer * Mark6Gatherer) :=
  if n <? count then
    match fuel with
    | O => None
    | S fuel =>
        r ← gather_step g;
        match r with
        | GatherEnd => Some (n, out, g)
        | Gather None g => gather_loop fuel g n count out
        | Gather (Some packet) g => gather_loop fuel g (n + mg_packetSize g) count (out ++ packet)
        end
    end
  else Some (n, out, g).

(** The bytes a file still holds, on disk, read ahead and in the slots: more
    than the number of its packets. *)
Definition file_bytes (m : Mark6File) : nat :=
  (length (st_bytes (rd_in (m6_reader m))) + Z.to_nat (rd_bytes (m6_reader m)) +
   foldr (fun slot n => Z.to_nat (bs_payloadBytes slot) + n)%nat 0%nat (m6_slot m))%nat.

Definition gather_fuel (g : Mark6Gatherer) : nat :=
  S (foldr (fun m n => file_bytes m + n)%nat 0%nat (mg_files g)).

Definition mark6Gather (g : Mark6Gatherer) (count : Z) : option (Z * buffer * Mark6Gatherer) :=
  if mg_packetSize g <=? 0 then None else
  gather_loop (gather_fuel g) g 0 (count - cmod count (mg_packetSize g)) [].
