(* ===== verification/Mark6GatherSpec.v ===== *)
(** * Mark6GatherSpec: what gathering a recording returns

    A recording is described by its blocks ([block], [recording]); [file_rep]
    relates an open file to the packets in its slots and the blocks still to
    come.  Opening and reading blocks are shown to implement this description,
    and [mark6Gather] to return the packets of all files merged by frame
    number. *)
From S2P Require Export Mark6Gather.
From stdpp Require Export sorting sets.
#[local] Open Scope Z_scope.

(** ** The search for the lowest frame *)

(** The result [r] of a search from [acc] over candidates: one of them or [acc],
    and no candidate is below. *)
Definition lowest_of (cand : nat -> nat -> Mark6BufferSlot -> Prop) (acc r : found) : Prop :=
  (r = acc \/ exists f s slot, cand f s slot /\ 0 < bs_payloadBytes slot /\
    r = (bs_frame slot, Some (f, s)) /\ bs_frame slot < fst acc) /\
  fst r <= fst acc /\
  forall f s slot, cand f s slot -> 0 < bs_payloadBytes slot -> fst r <= bs_frame slot.

Lemma lowest_of_trans c1 c2 acc r1 r2 :
  lowest_of c1 acc r1 -> lowest_of c2 r1 r2 ->
  lowest_of (fun f s slot => c1 f s slot \/ c2 f s slot) acc r2.
Proof.
  intros (H1 & H2 & H3) (H4 & H5 & H6). split; [|split; [lia|]].
  - destruct H4 as [->|(f & s & slot & Hc & Hp & -> & Hlt)].
    + destruct H1 as [->|(f & s & slot & Hc & ?)]; [by left|right]. exists f, s, slot. tauto.
    + right. exists f, s, slot. split; [by right|]. split; [done|]. split; [done|lia].
  - intros f s slot [Hc|Hc] Hp; [specialize (H3 f s slot Hc Hp); lia|by apply (H6 f s)].
Qed.

Lemma lowest_of_equiv c c' acc r :
  (forall f s slot, c f s slot <-> c' f s slot) -> lowest_of c acc r -> lowest_of c' acc r.
Proof. intros E. unfold lowest_of. by setoid_rewrite E. Qed.

Lemma lowest_of_one f s slot acc :
  lowest_of (fun f' s' slot' => f' = f /\ s' = s /\ slot' = slot) acc
    (if (0 <? bs_payloadBytes slot) && (bs_frame slot <? fst acc) then (bs_frame slot, Some (f, s)) else acc).
Proof.
  destruct (Z.ltb_spec 0 (bs_payloadBytes slot)); cbn [andb].
  - destruct (Z.ltb_spec (bs_frame slot) (fst acc)); cbn.
    + split; [right; by exists f, s, slot|]. split; [cbn; lia|]. by intros ? ? ? (-> & -> & ->) _.
    + split; [by left|]. split; [lia|]. by intros ? ? ? (-> & -> & ->) _.
  - split; [by left|]. split; [lia|]. intros ? ? ? (-> & -> & ->). lia.
Qed.

Lemma select_slots_spec f s slots acc :
  lowest_of (fun f' s' slot => f' = f /\ (s <= s')%nat /\ slots !! (s' - s)%nat = Some slot) acc
    (select_slots f s slots acc).
Proof.
  revert s acc. induction slots as [|slot slots IH]; intros s acc; cbn [select_slots].
  - split; [by left|]. split; [lia|]. intros ? ? ? (_ & _ & H). done.
  - eapply lowest_of_equiv; [|eapply lowest_of_trans; [apply lowest_of_one|apply IH]].
    intros f' s' slot'. cbn. split.
    + intros [(-> & -> & ->)|(-> & Hs & Hl)]; [by rewrite Nat.sub_diag|].
      split; [done|]. split; [lia|]. by replace (s' - s)%nat with (S (s' - S s))%nat by lia.
    + intros (-> & Hs & Hl). destruct (decide (s' = s)) as [->|Hne].
      * left. rewrite Nat.sub_diag in Hl. by injection Hl as ->.
      * right. split; [done|]. split; [lia|]. by replace (s' - s)%nat with (S (s' - S s))%nat in Hl by lia.
Qed.

Lemma select_files_spec f files acc :
  lowest_of (fun f' s' slot => (f <= f')%nat /\ exists m, files !! (f' - f)%nat = Some m /\ m6_slot m !! s' = Some slot)
    acc (select_files f files acc).
Proof.
  revert f acc. induction files as [|m files IH]; intros f acc; cbn [select_files].
  - split; [by left|]. split; [lia|]. intros ? ? ? (_ & m & H & _). done.
  - eapply lowest_of_equiv; [|eapply lowest_of_trans; [apply select_slots_spec|apply IH]].
    intros f' s' slot'. cbn. split.
    + intros [(-> & _ & Hl)|(Hf & m' & Hm & Hl)].
      * split; [done|]. exists m. rewrite Nat.sub_0_r in Hl. by rewrite Nat.sub_diag.
      * split; [lia|]. exists m'. by replace (f' - f)%nat with (S (f' - S f))%nat by lia.
    + intros (Hf & m' & Hm & Hl). destruct (decide (f' = f)) as [->|Hne].
      * left. rewrite Nat.sub_diag in Hm. injection Hm as ->. split_and!; [done|lia|]. by rewrite Nat.sub_0_r.
      * right. split; [lia|]. exists m'. by replace (f' - f)%nat with (S (f' - S f))%nat in Hm by lia.
Qed.

Lemma start_lowest_spec slots :
  (start_lowest slots = 0 /\ Forall (fun slot => bs_frame slot <= 0) slots) \/
  (exists i slot, slots !! i = Some slot /\ 0 < bs_frame slot /\ start_lowest slots = u64 (bs_frame slot + 1)).
Proof.
  induction slots as [|slot slots IH]; cbn [start_lowest]; [by left|].
  destruct (Z.ltb_spec 0 (bs_frame slot)).
  - right. by exists 0%nat, slot.
  - destruct IH as [[H1 H2]|(i & sl & H1 & H2)]; [left; by split; [|constructor]|right].
    by exists (S i), sl.
Qed.

(** ** What reading leaves alone *)

(** The part of a file that is set when it is opened, and its contents. *)
Definition m6_const (m : Mark6File) : Z * Z * Z * Z * Z * Z * Z * Z * buffer :=
  (m6_version m, m6_maxBlockSize m, m6_blockHeaderSize m, m6_packetSize m, m6_packetFormat m,
   m6_st_size m, m6_block1 m, m6_block2 m, st_bytes (rd_in (m6_reader m))).

Lemma const_set_reader m r : st_bytes (rd_in r) = st_bytes (rd_in (m6_reader m)) ->
  m6_const (m6_set_reader m r) = m6_const m.
Proof. unfold m6_const. cbn. by intros ->. Qed.

Lemma reader_read_const m m' : reader_read m = Some m' -> m6_const m' = m6_const m.
Proof.
  unfold reader_read. destruct (rd_corrupted _); [by intros [= <-]|].
  destruct (fread _ _) as [bs f] eqn:Ef. apply fread_bytes in Ef.
  destruct (Z.eqb _ _); [|intros [= <-]; by apply const_set_reader].
  destruct (sint _) as [nrd|]; [|done]. cbn [mbind option_bind].
  destruct (_ || _); [intros [= <-]; by apply const_set_reader|].
  destruct (fread nrd f) as [data f'] eqn:Ef'. apply fread_bytes in Ef'. intros [= <-].
  apply const_set_reader. by rewrite <-Ef, <-Ef'.
Qed.

Lemma take_block_const m s m' : take_block m s = Some m' -> m6_const m' = m6_const m.
Proof.
  unfold take_block. destruct (m6_slot m !! s); [|done]. cbn [mbind option_bind].
  destruct (Z.eqb _ _); [by intros [= <-]|]. destruct (Z.eqb _ _); [done|].
  destruct (frame_of _ _ _); [|done]. by intros [= <-].
Qed.

Lemma ReadBlock_const m s m' : Mark6FileReadBlock m s = Some m' -> m6_const m' = m6_const m.
Proof.
  unfold Mark6FileReadBlock. destruct (take_block m s) as [m1|] eqn:E; [|done]. cbn [mbind option_bind].
  intros E'. rewrite (reader_read_const _ _ E'). by apply (take_block_const _ s).
Qed.

Lemma fill_slots_const m m' : fill_slots m = Some m' -> m6_const m' = m6_const m.
Proof.
  intros E. refine (run_iters_all _ (fun x => m6_const x = m6_const m) _ _ _ _ eq_refl E).
  intros i b b' <- Eb. by apply (ReadBlock_const _ i).
Qed.

(** ** Concatenations *)

Lemma concat_insert {A} (l : list (list A)) k x y : l !! k = Some x ->
  x ++ concat (<[k := y]> l) ≡ₚ y ++ concat l.
Proof.
  intros Hk. rewrite <-(take_drop_middle l k x Hk) at 2.
  rewrite insert_take_drop by (by apply lookup_lt_Some in Hk).
  rewrite !concat_app. cbn [concat].
  rewrite (Permutation_app_swap_app x), (Permutation_app_swap_app y).
  apply Permutation_app_head, Permutation_app_swap_app.
Qed.

Lemma tail_drop {A} (l : list A) k : tail (drop k l) = drop (S k) l.
Proof. revert k. induction l as [|x l IH]; intros [|k]; [done..|]. apply IH. Qed.

Lemma elem_of_concat {A} (l : list (list A)) x :
  x ∈ concat l <-> exists k y, l !! k = Some y /\ x ∈ y.
Proof.
  rewrite list_elem_of_In, List.in_concat. split.
  - intros (y & Hy & Hx). apply list_elem_of_In, list_elem_of_lookup_1 in Hy as [k Hk].
    exists k, y. by rewrite list_elem_of_In.
  - intros (k & y & Hk & Hx). exists y. rewrite <-!list_elem_of_In. split; [|done].
    by eapply list_elem_of_lookup_2.
Qed.

(** ** Recordings *)

Record block : Type := { blk_num : Z; blk_packets : list buffer }.

(** A file as a description: the packets in its slots and its blocks to come. *)
Abbreviation file_state := (list (list buffer) * list block)%type.

(** Packet size, block size limit and packet format of a recording. *)
Section Recording.
Context (P : nat) (maxb fmt : Z).

Definition encode_block (b : block) : buffer :=
  le_split 4 (blk_num b) ++ le_split 4 (8 + Z.of_nat (P * length (blk_packets b))) ++
  concat (blk_packets b).

Definition encode_blocks (bs : list block) : buffer := concat (encode_block <$> bs).

Definition encode_header (sync : Z) : buffer :=
  le_split 4 sync ++ le_split 4 2 ++ le_split 4 maxb ++ le_split 4 fmt ++ le_split 4 (Z.of_nat P).

Definition packet_ok (p : buffer) : Prop := length p = P /\ bytes_ok p.

(** A version 2 block: whole packets, at least one, within the size limit. *)
Record block_ok (b : block) : Prop := {
  bo_num : - 2 ^ 31 <= blk_num b < 2 ^ 31;
  bo_packets : Forall packet_ok (blk_packets b);
  bo_some : blk_packets b <> [];
  bo_size : 8 + Z.of_nat (P * length (blk_packets b)) <= maxb }.

(** Packets hold at least their headers; sizes and formats are [int]s. *)
Record params_ok : Prop := {
  po_packet : (32 <= P)%nat;
  po_size : Z.of_nat P < 2 ^ 31;
  po_block : 8 <= maxb < 2 ^ 31;
  po_fmt : 0 <= fmt < 2 ^ 31 }.

(** The contents of a file: header, blocks, and at most an unfinished block
    header. *)
Definition recording (sync : Z) (bs : list block) (tail : buffer) : buffer :=
  encode_header sync ++ encode_blocks bs ++ tail.

Definition packet_frame (p : buffer) : Z := default 0 (frame_of fmt p 0).
Definition packet_fill (p : buffer) : bool := default false (checkFillData p 0).

Context (Hpar : params_ok).

(** ** Fragments of a buffer *)

Lemma length_concat_packets q : Forall packet_ok q -> length (concat q) = (P * length q)%nat.
Proof using.
  induction 1 as [|p q Hp _ IH]; [cbn; lia|]. cbn. rewrite length_app, IH. destruct Hp. lia.
Qed.

Lemma slice_lookup_eq data i n p : slice data i n = p -> length p = n ->
  forall k, (k < n)%nat -> data !! (i + k)%nat = p !! k.
Proof using. intros <- _ k Hk. by rewrite slice_lookup. Qed.

Lemma length_slice_le data i n : (length (slice data i n) = n)%nat -> n <> 0%nat -> (i + n <= length data)%nat.
Proof using. unfold slice. rewrite length_take, length_drop. lia. Qed.

(** The frame number and the fill test see the packet only. *)
Lemma frame_of_slice data i p : slice data i P = p -> packet_ok p ->
  frame_of fmt data i = Some (packet_frame p).
Proof using Hpar.
  intros Hs Hp. pose proof (po_packet Hpar). destruct Hp as [Hp _].
  assert (Hlen : (i + P <= length data)%nat) by (apply length_slice_le; [by rewrite Hs|lia]).
  unfold packet_frame, frame_of. case_match.
  - rewrite !decide_True by lia. cbn [default]. rewrite <-Hs, slice_slice, Nat.add_0_r by lia. done.
  - unfold mark5bFrame. cbn [Nat.add].
    assert (Hk : forall k, (k < P)%nat -> data !! (i + k)%nat = p !! k) by (intros; by apply (slice_lookup_eq _ _ P)).
    rewrite !Hk by lia.
    destruct (lookup_lt_is_Some_2 p 4) as [? ->]; [lia|]. destruct (lookup_lt_is_Some_2 p 5) as [? ->]; [lia|].
    destruct (lookup_lt_is_Some_2 p 8) as [? ->]; [lia|]. destruct (lookup_lt_is_Some_2 p 9) as [? ->]; [lia|].
    destruct (lookup_lt_is_Some_2 p 10) as [? ->]; [lia|]. done.
Qed.

Lemma fill_loop_slice n data i p j : slice data i P = p -> packet_ok p -> (j + n + 8 <= P)%nat ->
  fill_loop n data (i + j) = fill_loop n p j /\ is_Some (fill_loop n p j).
Proof using Hpar.
  intros Hs [Hp _]. revert j. induction n as [|n IH]; intros j Hj; cbn [fill_loop]; [by eauto|].
  assert (Hlen : (i + P <= length data)%nat) by (apply length_slice_le; [by rewrite Hs|lia]).
  rewrite (decide_True (P:=(i + j + 8 <= length data)%nat)), (decide_True (P:=(j + 8 <= length p)%nat)) by lia.
  replace (slice p j 8) with (slice data (i + j) 8)
    by (rewrite <-Hs, slice_slice by lia; done).
  destruct (decide (slice data (i + j) 8 = filltest)); [by eauto|]. replace (S (i + j)) with (i + S j)%nat by lia. apply IH. lia.
Qed.

Lemma checkFillData_slice data i p : slice data i P = p -> packet_ok p ->
  checkFillData data i = Some (packet_fill p).
Proof using Hpar.
  intros Hs Hp. pose proof (po_packet Hpar). unfold packet_fill, checkFillData.
  destruct (fill_loop_slice 16 data i p 0 Hs Hp) as [E [b Eb]]; [lia|]. rewrite Nat.add_0_r in E.
  by rewrite E, Eb.
Qed.

(** ** Reading a block *)

Lemma int32_at_split a x rest n :
  length a = n -> - 2 ^ 31 <= x < 2 ^ 31 -> int32_at (a ++ le_split 4 x ++ rest) n = x.
Proof using.
  intros Ha Hx. unfold int32_at, slice. rewrite drop_app_length' by done.
  rewrite take_app_length' by (by rewrite length_le_split).
  rewrite le_combine_split_wrap. by apply swrap_uwrap.
Qed.

(** The slot holds the packets [q]. *)
Record slot_rep (slot : Mark6BufferSlot) (q : list buffer) : Prop := {
  sr_packets : Forall packet_ok q;
  sr_empty : q = [] -> bs_payloadBytes slot = 0;
  sr_index : 0 <= bs_index slot;
  sr_payload : q <> [] -> bs_index slot + Z.of_nat (P * length q) = bs_payloadBytes slot;
  sr_frame : bs_frame slot = match q with [] => 0 | p :: _ => packet_frame p end;
  sr_length : Z.of_nat (length (bs_data slot)) = maxb - 8;
  sr_data : slice (bs_data slot) (Z.to_nat (bs_index slot)) (P * length q) = concat q }.

(** The file is positioned before the blocks [bs]. *)
Record ready (m : Mark6File) (bs : list block) : Prop := {
  rd_blocks : Forall block_ok bs;
  rd_consts : m6_blockHeaderSize m = 8 /\ m6_maxBlockSize m = maxb /\
    m6_packetSize m = Z.of_nat P /\ m6_packetFormat m = fmt;
  rd_clean : rd_corrupted (m6_reader m) = false;
  rd_length : Z.of_nat (length (rd_buffer (m6_reader m))) = maxb - 8;
  rd_rest : 0 <= st_pos (rd_in (m6_reader m)) /\ exists tail, (length tail < 8)%nat /\
    drop (Z.to_nat (st_pos (rd_in (m6_reader m)))) (st_bytes (rd_in (m6_reader m))) =
    encode_blocks bs ++ tail }.

(** The reader has read ahead the first of the blocks [bs]. *)
Definition ahead (m : Mark6File) (bs : list block) : Prop :=
  match bs with
  | [] => ready m [] /\ rd_bytes (m6_reader m) = 0
  | b :: bs =>
      block_ok b /\ ready m bs /\
      rd_bytes (m6_reader m) = Z.of_nat (P * length (blk_packets b)) /\
      take (P * length (blk_packets b)) (rd_buffer (m6_reader m)) = concat (blk_packets b)
  end.

Lemma reader_read_ahead m bs : ready m bs ->
  exists m', reader_read m = Some m' /\ ahead m' bs /\ m6_slot m' = m6_slot m.
Proof using Hpar.
  intros [Hbs (Eh & Em & Ep & Ef) Hc Hl (Hpos & tail & Ht & Hd)]. pose proof (po_block Hpar).
  unfold reader_read. rewrite Hc, Eh, Em. destruct bs as [|b bs].
  - cbn in Hd. unfold fread. rewrite Hd.
    rewrite (proj2 (Z.eqb_neq _ _)) by (rewrite length_take; lia).
    eexists. split; [done|]. split; [|done]. split; [|done]. split; cbn; try done.
    split; [lia|]. exists []. split; [cbn; lia|].
    rewrite firstn_all2 by lia. apply skipn_all2. apply (f_equal length) in Hd. rewrite length_drop in Hd. lia.
  - apply Forall_cons_1 in Hbs as [Hb Hbs]. pose proof Hb as [Hnum Hpk Hsome Hsize].
    unfold encode_blocks in Hd. rewrite fmap_cons in Hd. cbn [concat] in Hd. unfold encode_block in Hd.
    rewrite <-!app_assoc in Hd.
    set (sz := 8 + Z.of_nat (P * length (blk_packets b))) in *.
    rewrite (app_assoc (le_split 4 (blk_num b))) in Hd.
    destruct (fread_app 8 _ _ _ Hpos Hd) as (f1 & -> & Hp1 & Eb1 & Hd1);
      [by rewrite length_app, !length_le_split|].
    rewrite (proj2 (Z.eqb_eq _ _)) by (by rewrite length_app, !length_le_split).
    assert (Enrd : bh_wb_size (block_header (rd_header (m6_reader m)) (le_split 4 (blk_num b) ++ le_split 4 sz)) = sz).
    { unfold block_header. cbn [bh_wb_size]. rewrite decide_True by (rewrite length_app, !length_le_split; lia).
      rewrite <-(app_nil_r (le_split 4 sz)). apply int32_at_split; [apply length_le_split|lia]. }
    rewrite Enrd, sint_Some by lia. cbn [mbind option_bind].
    assert (Hpos' : (0 < length (blk_packets b))%nat) by (destruct (blk_packets b); cbn; [done|lia]).
    pose proof (po_packet Hpar).
    rewrite (proj2 (Z.leb_gt _ _)), (proj2 (Z.ltb_ge _ _)) by nia. cbn [orb].
    pose proof (length_concat_packets _ Hpk) as Hlc.
    destruct (fread_app (sz - 8) _ _ _ Hp1 Hd1) as (f2 & -> & Hp2 & Eb2 & Hd2); [lia|].
    eexists. split; [done|]. split; [|done].
    split; [done|]. split; [split; cbn; try done|].
    + rewrite length_app, length_drop, Hlc. lia.
    + split; [done|]. by exists tail.
    + cbn. split; [lia|]. by rewrite take_app_length'.
Qed.

(** An open file: packets [qs] in the slots, blocks [bs] to come. *)
Record file_rep (m : Mark6File) (qs : list (list buffer)) (bs : list block) : Prop := {
  fr_slots : Forall2 slot_rep (m6_slot m) qs;
  fr_ahead : ahead m bs }.

Lemma ahead_consts m bs : ahead m bs ->
  m6_blockHeaderSize m = 8 /\ m6_packetSize m = Z.of_nat P /\ m6_packetFormat m = fmt.
Proof using. destruct bs as [|b bs]; [intros [[] _]|intros (_ & [] & _)]; tauto. Qed.

Lemma ahead_blocks m bs : ahead m bs -> Forall block_ok bs.
Proof using. destruct bs as [|b bs]; [done|]. intros (Hb & [] & _). by constructor. Qed.

Definition next_packets (bs : list block) : list buffer :=
  match bs with [] => [] | b :: _ => blk_packets b end.

(** Taking a block fills the slot with the next block. *)
Lemma take_block_ready m qs bs s slot :
  m6_slot m !! s = Some slot -> Z.of_nat (length (bs_data slot)) = maxb - 8 ->
  (forall slot' q, slot_rep slot' q -> Forall2 slot_rep (<[s := slot']> (m6_slot m)) (<[s := q]> qs)) ->
  ahead m bs ->
  exists m', take_block m s = Some m' /\ ready m' (tail bs) /\
    Forall2 slot_rep (m6_slot m') (<[s := next_packets bs]> qs).
Proof using Hpar.
  intros Eslot Hlen Hs Ha. unfold take_block. pose proof (po_packet Hpar). rewrite Eslot.
  cbn [mbind option_bind]. destruct (ahead_consts _ _ Ha) as (Eh & Ep & Ef).
  destruct bs as [|b bs]; cbn [ahead next_packets tail] in *.
  - destruct Ha as [Hr ->]. cbn. eexists. split; [done|]. split; [by destruct Hr; split|].
    apply Hs. split; cbn; try done. by rewrite Nat.mul_0_r.
  - destruct Ha as (Hb & Hr & Er & Et). pose proof Hb as [_ Hpk Hsome Hsize].
    assert (Hn : (0 < length (blk_packets b))%nat) by (destruct (blk_packets b); cbn; [done|lia]).
    rewrite Er, Ep, (proj2 (Z.eqb_neq _ 0)), (proj2 (Z.eqb_neq _ 0)) by nia.
    assert (Emod : cmod (Z.of_nat (P * length (blk_packets b))) (Z.of_nat P) = 0).
    { rewrite Nat2Z.inj_mul, Z.mul_comm. apply Z.rem_mul. lia. }
    rewrite Emod, Z.sub_0_r. destruct (blk_packets b) as [|p ps] eqn:Eb; [done|].
    assert (Hp : packet_ok p) by by apply Forall_cons_1 in Hpk as [].
    assert (Hslice : slice (rd_buffer (m6_reader m)) 0 P = p).
    { unfold slice. rewrite drop_0.
      replace (take P (rd_buffer (m6_reader m))) with
        (take P (take (P * length (p :: ps)) (rd_buffer (m6_reader m)))) by (rewrite take_take; f_equal; cbn; lia).
      rewrite Et. cbn. rewrite take_app_length'; [done|]. symmetry. apply Hp. }
    rewrite Ef, (frame_of_slice _ _ p Hslice Hp). cbn [mbind option_bind].
    eexists. split; [done|]. destruct Hr as [H1 H2 H3 H4 H5]. split.
    + split; cbn; done.
    + cbn. apply Hs. split; cbn [bs_payloadBytes bs_index bs_frame bs_data]; try done.
Qed.

Lemma ahead_set_slot m slots bs : ahead m bs -> ahead (m6_set_slot m slots) bs.
Proof using.
  assert (Hr : forall bs, ready m bs -> ready (m6_set_slot m slots) bs) by (by intros ? []; split).
  destruct bs as [|b bs]; cbn [ahead]; intuition auto.
Qed.

Lemma ReadBlock_slot m qs bs s slot :
  m6_slot m !! s = Some slot -> Z.of_nat (length (bs_data slot)) = maxb - 8 ->
  (forall slot' q, slot_rep slot' q -> Forall2 slot_rep (<[s := slot']> (m6_slot m)) (<[s := q]> qs)) ->
  ahead m bs ->
  exists m', Mark6FileReadBlock m s = Some m' /\ file_rep m' (<[s := next_packets bs]> qs) (tail bs).
Proof using Hpar.
  intros Eslot Hlen Hs Ha.
  destruct (take_block_ready m qs bs s slot Eslot Hlen Hs Ha) as (m1 & E1 & Hr & Hsl).
  destruct (reader_read_ahead m1 (tail bs) Hr) as (m2 & E2 & Ha2 & Es).
  unfold Mark6FileReadBlock. rewrite E1. cbn [mbind option_bind]. exists m2. split; [done|]. split; [by rewrite Es|done].
Qed.

Lemma ReadBlock_rep m qs bs s : file_rep m qs bs -> (s < length qs)%nat ->
  exists m', Mark6FileReadBlock m s = Some m' /\ file_rep m' (<[s := next_packets bs]> qs) (tail bs).
Proof using Hpar.
  intros [Hs Ha] Hlt. destruct (lookup_lt_is_Some_2 qs s Hlt) as [q Eq].
  destruct (Forall2_lookup_r _ _ _ _ _ Hs Eq) as (slot & Eslot & Hrep).
  apply (ReadBlock_slot m qs bs s slot Eslot (sr_length _ _ Hrep)); [|done].
  intros slot' q' H'. by apply Forall2_insert.
Qed.

(** ** Frame numbers *)

Lemma vdifFrame_range vh : header_ok vh -> 0 <= vdifFrame vh < 2 ^ 54.
Proof using.
  intros Hh. pose proof (ok_seconds _ Hh). pose proof (ok_frame _ Hh).
  unfold vdifFrame, getVDIFFrameEpochSecOffset, getVDIFFrameNumber. rewrite lor_shift_add by lia. lia.
Qed.

Lemma nibbles x : 0 <= x < 256 -> 0 <= x mod 16 < 16 /\ 0 <= x / 16 < 16.
Proof using.
  clear. intros Hx. split; [apply Z.mod_pos_bound; lia|].
  split; [apply Z.div_pos; lia|apply Z.div_lt_upper_bound; lia].
Qed.

Lemma packet_frame_range p : packet_ok p -> 0 <= packet_frame p < 2 ^ 63.
Proof using Hpar.
  intros [Hl Hb]. pose proof (po_packet Hpar). unfold packet_frame, frame_of. case_match.
  - rewrite decide_True by lia. unfold from_option, id.
    pose proof (vdifFrame_range (struct_of_bytes (slice p 0 32)) (struct_header_ok _ (struct_of_bytes_ok _))). lia.
  - unfold mark5bFrame. cbn [Nat.add].
    assert (Hby : forall k, (k < P)%nat -> exists x, p !! k = Some x /\ 0 <= x < 256).
    { intros k Hk. destruct (lookup_lt_is_Some_2 p k) as [x Hx]; [lia|]. exists x. split; [done|].
      exact (proj1 (Forall_lookup _ _) Hb _ _ Hx). }
    destruct (Hby 4%nat) as (x4 & -> & R4); [lia|]. destruct (Hby 5%nat) as (x5 & -> & R5); [lia|].
    destruct (Hby 8%nat) as (x8 & -> & R8); [lia|]. destruct (Hby 9%nat) as (x9 & -> & R9); [lia|].
    destruct (Hby 10%nat) as (x10 & -> & R10); [lia|]. cbn [mbind option_bind]. unfold from_option, id.
    change 15 with (Z.ones 4). rewrite !Z.land_ones, !Z.shiftr_div_pow2 by lia.
    rewrite lor_shift_add by lia. change (2 ^ 4) with 16.
    pose proof (nibbles x8 R8). pose proof (nibbles x9 R9). pose proof (nibbles x10 R10). lia.
Qed.

(** ** The state of a gatherer *)

(** No slot is empty while there are blocks to come. *)
Definition loaded (q : file_state) : Prop := snd q <> [] -> Forall (fun x => x <> []) (fst q).

Record gather_rep (g : Mark6Gatherer) (fs : list file_state) : Prop := {
  gr_files : Forall2 (fun m q => file_rep m (fst q) (snd q)) (mg_files g) fs;
  gr_loaded : Forall loaded fs;
  gr_slots : Forall (fun q => length (fst q) = MARK6_BUFFER_SLOTS) fs;
  gr_size : mg_packetSize g = Z.of_nat P;
  gr_some : fs <> [] }.

(** Packet [p] is at the head of slot [s] of file [f]. *)
Definition head_at (fs : list file_state) (f s : nat) (p : buffer) : Prop :=
  exists qs bs q, fs !! f = Some (qs, bs) /\ qs !! s = Some (p :: q).

(** Removing the head of slot [s]: an empty slot takes the next block. *)
Definition pop (s : nat) (st : file_state) : file_state :=
  match fst st !! s with
  | Some (_ :: []) => (<[s := next_packets (snd st)]> (fst st), tail (snd st))
  | Some (_ :: q) => (<[s := q]> (fst st), snd st)
  | _ => st
  end.

Lemma length_pop s st : length (fst (pop s st)) = length (fst st).
Proof using.
  unfold pop. destruct (fst st !! s) as [[|p [|p' q]]|]; cbn [fst]; [done|apply length_insert..|done].
Qed.

Lemma slot_rep_cand g fs f s slot : gather_rep g fs ->
  (exists m, mg_files g !! f = Some m /\ m6_slot m !! s = Some slot) ->
  exists qs bs q, fs !! f = Some (qs, bs) /\ qs !! s = Some q /\ slot_rep slot q.
Proof using.
  intros [Hf _ _ _ _] (m & Em & Es). destruct (Forall2_lookup_l _ _ _ _ _ Hf Em) as ([qs bs] & Eq & [Hs _]).
  destruct (Forall2_lookup_l _ _ _ _ _ Hs Es) as (q & Eqs & Hr). by exists qs, bs, q.
Qed.

Lemma payload_pos slot q : slot_rep slot q -> (0 < bs_payloadBytes slot <-> q <> []).
Proof using Hpar.
  intros Hr. pose proof (po_packet Hpar). split.
  - intros Hp ->. pose proof (sr_empty _ _ Hr eq_refl). lia.
  - intros Hne. pose proof (sr_payload _ _ Hr Hne). pose proof (sr_index _ _ Hr).
    assert (0 < length q)%nat by (destruct q; cbn; [done|lia]). nia.
Qed.

(** The packet the search picks. *)
Lemma select_rep g fs m0 : gather_rep g fs -> mg_files g !! 0%nat = Some m0 ->
  let r := select_files 0 (mg_files g) (start_lowest (m6_slot m0), None) in
  (snd r = None /\ forall s p, head_at fs 0 s p -> packet_frame p <= 0) \/
  (exists f s p, snd r = Some (f, s) /\ head_at fs f s p /\
    forall f' s' p', head_at fs f' s' p' -> packet_frame p <= packet_frame p').
Proof using Hpar.
  intros Hg Hm0 r. destruct (select_files_spec 0 (mg_files g) (start_lowest (m6_slot m0), None)) as (H1 & H2 & H3).
  fold r in H1, H2, H3.
  assert (Hcand : forall f s p, head_at fs f s p -> fst r <= packet_frame p).
  { intros f s p (qs & bs & q & Ef & Es). destruct Hg as [Hf _ _ _ _].
    destruct (Forall2_lookup_r _ _ _ _ _ Hf Ef) as (m & Em & [Hs _]).
    destruct (Forall2_lookup_r _ _ _ _ _ Hs Es) as (slot & Esl & Hr).
    rewrite <-(sr_frame _ _ Hr). apply (H3 f s).
    - split; [lia|]. exists m. by rewrite Nat.sub_0_r.
    - by apply (payload_pos _ _ Hr). }
  destruct H1 as [Er|(f & s & slot & (_ & Hsl) & Hp & Er & Hlt)].
  - left. rewrite Er. split; [done|]. intros s p Hh. rewrite Er in Hcand. cbn in Hcand.
    destruct (start_lowest_spec (m6_slot m0)) as [[E0 Hall]|(i & slot & Ei & Hfr & El)].
    + destruct Hh as (qs & bs & q & Ef & Es). destruct Hg as [Hf _ _ _ _].
      destruct (Forall2_lookup_r _ _ _ _ _ Hf Ef) as (m & Em & [Hs _]).
      destruct (Forall2_lookup_r _ _ _ _ _ Hs Es) as (slot & Esl & Hr).
      cbn in Em. rewrite Hm0 in Em. injection Em as ->.
      pose proof (sr_frame _ _ Hr) as <-. exact (proj1 (Forall_lookup _ _) Hall _ _ Esl).
    + exfalso. destruct (slot_rep_cand g fs 0 i slot Hg) as (qs & bs & q & Ef & Es & Hr); [by exists m0|].
      destruct q as [|p' q]; [pose proof (sr_frame _ _ Hr); cbn in *; lia|].
      assert (Hh' : head_at fs 0 i p') by by exists qs, bs, q.
      specialize (Hcand _ _ _ Hh'). rewrite El in Hcand.
      pose proof (sr_frame _ _ Hr) as Efr. cbn in Efr.
      assert (Hpk : packet_ok p') by by pose proof (sr_packets _ _ Hr) as [? _]%Forall_cons_1.
      pose proof (packet_frame_range _ Hpk). rewrite uwrap_small in Hcand by lia. lia.
  - right. rewrite Nat.sub_0_r in Hsl. destruct (slot_rep_cand g fs f s slot Hg Hsl) as (qs & bs & q & Ef & Es & Hr).
    apply (payload_pos _ _ Hr) in Hp. destruct q as [|p q]; [done|]. exists f, s, p. rewrite Er. split; [done|].
    split; [by exists qs, bs, q|]. intros f' s' p' Hh. specialize (Hcand _ _ _ Hh).
    rewrite Er in Hcand. cbn in Hcand. by rewrite (sr_frame _ _ Hr) in Hcand.
Qed.

(** The head of a slot in its buffer. *)
Lemma slot_head slot p q : slot_rep slot (p :: q) ->
  packet_ok p /\ slice (bs_data slot) (Z.to_nat (bs_index slot)) P = p /\
  bs_index slot + Z.of_nat P + Z.of_nat (P * length q) = bs_payloadBytes slot /\
  bs_index slot + Z.of_nat P <= Z.of_nat (length (bs_data slot)) /\
  slice (bs_data slot) (Z.to_nat (bs_index slot + Z.of_nat P)) (P * length q) = concat q.
Proof using Hpar.
  intros Hr. pose proof (po_packet Hpar). pose proof (sr_index _ _ Hr) as Hi.
  pose proof (sr_packets _ _ Hr) as [Hp Hq]%Forall_cons_1. pose proof Hp as [Hlp _].
  pose proof (sr_payload _ _ Hr ltac:(done)) as Hpay. cbn [length] in Hpay.
  pose proof (sr_data _ _ Hr) as Hd. cbn [length concat] in Hd.
  assert (Hs : slice (bs_data slot) (Z.to_nat (bs_index slot)) P = p).
  { apply (f_equal (fun l => slice l 0 P)) in Hd. rewrite slice_slice, Nat.add_0_r in Hd by lia.
    rewrite Hd. unfold slice. rewrite drop_0. by rewrite take_app_length'. }
  split; [done|]. split; [done|]. split; [lia|]. split.
  - assert ((Z.to_nat (bs_index slot) + P <= length (bs_data slot))%nat); [|lia].
    apply length_slice_le; [by rewrite Hs|lia].
  - apply (f_equal (fun l => slice l P (P * length q))) in Hd. rewrite slice_slice in Hd by lia.
    replace (Z.to_nat (bs_index slot + Z.of_nat P)) with (Z.to_nat (bs_index slot) + P)%nat by lia.
    rewrite Hd. unfold slice. rewrite drop_app_length' by done.
    apply firstn_all2. by rewrite length_concat_packets.
Qed.

Lemma head_packet_ok g fs f s p : gather_rep g fs -> head_at fs f s p -> packet_ok p.
Proof using.
  intros [Hf _ _ _ _] (qs & bs & q & Ef & Es).
  destruct (Forall2_lookup_r _ _ _ _ _ Hf Ef) as (m & _ & [Hs _]).
  destruct (Forall2_lookup_r _ _ _ _ _ Hs Es) as (slot & _ & Hr).
  by pose proof (sr_packets _ _ Hr) as [? _]%Forall_cons_1.
Qed.

Lemma loaded_pop s qs bs p q : Forall block_ok bs -> loaded (qs, bs) -> qs !! s = Some (p :: q) ->
  loaded (pop s (qs, bs)).
Proof using.
  intros Hb Hl Es. unfold pop. cbn [fst snd]. rewrite Es. unfold loaded in *. cbn [fst snd] in *.
  destruct q as [|p' q]; cbn [fst snd]; intros Hne.
  - destruct bs as [|b bs]; [done|]. apply Forall_insert; [by apply Hl|].
    apply Forall_cons_1 in Hb as [Hb _]. apply (bo_some _ Hb).
  - apply Forall_insert; [by apply Hl|done].
Qed.

(** The slot after its head was taken. *)
Definition popped (slot : Mark6BufferSlot) (frame : Z) : Mark6BufferSlot :=
  {| bs_payloadBytes := bs_payloadBytes slot; bs_index := bs_index slot + Z.of_nat P;
     bs_frame := frame; bs_data := bs_data slot; bs_blockHeader := bs_blockHeader slot |}.

Lemma pop_file F qs bs s slot p q :
  file_rep F qs bs -> m6_slot F !! s = Some slot -> qs !! s = Some (p :: q) -> slot_rep slot (p :: q) ->
  exists F', (if bs_payloadBytes slot <=? bs_index slot + Z.of_nat P
      then Mark6FileReadBlock (m6_set_slot F (<[s := popped slot (bs_frame slot)]> (m6_slot F))) s
      else frame ← frame_of (m6_packetFormat F) (bs_data slot) (Z.to_nat (bs_index slot + Z.of_nat P));
           Some (m6_set_slot F (<[s := popped slot frame]> (m6_slot F)))) = Some F' /\
    file_rep F' (fst (pop s (qs, bs))) (snd (pop s (qs, bs))).
Proof using Hpar.
  intros [Hs Ha] Eslot Es Hr. pose proof (po_packet Hpar).
  destruct (slot_head _ _ _ Hr) as (Hp & _ & Hpay & Hlen & Hnext).
  destruct (ahead_consts _ _ Ha) as (_ & _ & ->). unfold pop. cbn [fst snd]. rewrite Es.
  destruct q as [|p' q].
  - rewrite Nat.mul_0_r in Hpay. rewrite (proj2 (Z.leb_le _ _)) by lia. cbn [fst snd].
    apply (ReadBlock_slot (m6_set_slot F _) qs bs s (popped slot (bs_frame slot))).
    + cbn. apply list_lookup_insert_eq. by apply lookup_lt_Some in Eslot.
    + cbn. apply (sr_length _ _ Hr).
    + intros slot' q' H'. cbn. rewrite list_insert_insert_eq. by apply Forall2_insert.
    + by apply ahead_set_slot.
  - cbn [length] in Hpay. rewrite (proj2 (Z.leb_gt _ _)) by nia. cbn [fst snd].
    pose proof (sr_packets _ _ Hr) as [_ Hq]%Forall_cons_1. pose proof Hq as [Hp' _]%Forall_cons_1.
    assert (Hs' : slice (bs_data slot) (Z.to_nat (bs_index slot + Z.of_nat P)) P = p').
    { apply (f_equal (fun l => slice l 0 P)) in Hnext. cbn [length concat] in Hnext.
      rewrite slice_slice, Nat.add_0_r in Hnext by lia. rewrite Hnext. unfold slice. rewrite drop_0.
      rewrite take_app_length'; [done|]. symmetry. apply Hp'. }
    rewrite (frame_of_slice _ _ p' Hs' Hp'). cbn [mbind option_bind]. eexists. split; [done|].
    split; [|by apply ahead_set_slot]. cbn [m6_slot m6_set_slot].
    apply Forall2_insert; [done|]. pose proof (sr_index _ _ Hr).
    split; cbn [popped bs_payloadBytes bs_index bs_frame bs_data]; try done; try lia.
    apply (sr_length _ _ Hr).
Qed.

(** What an iteration of the gathering does: it ends, when file 0 shows no frame
    number above 0, or takes a packet with the lowest frame number of all slots. *)
Lemma gather_step_rep g fs : gather_rep g fs ->
  (gather_step g = Some GatherEnd /\ forall s p, head_at fs 0 s p -> packet_frame p <= 0) \/
  exists f s p st g', head_at fs f s p /\ fs !! f = Some st /\
    (forall f' s' p', head_at fs f' s' p' -> packet_frame p <= packet_frame p') /\
    gather_step g = Some (Gather (if packet_fill p then None else Some p) g') /\
    gather_rep g' (<[f := pop s st]> fs).
Proof using Hpar.
  intros Hg. pose proof Hg as [Hf Hl Hsl HP Hne]. unfold gather_step.
  destruct (mg_files g !! 0%nat) as [m0|] eqn:Em0.
  2: { apply lookup_ge_None in Em0. apply Forall2_length in Hf. destruct fs; cbn in *; [done|lia]. }
  cbn [mbind option_bind].
  destruct (select_rep g fs m0 Hg Em0) as [[-> Hend]|(f & s & p & -> & Hh & Hmin)]; [by left|right].
  pose proof Hh as (qs & bs & q & Ef & Es).
  destruct (Forall2_lookup_r _ _ _ _ _ Hf Ef) as (F & EF & HF). cbn [fst snd] in HF. pose proof HF as [Hs Ha].
  destruct (Forall2_lookup_r _ _ _ _ _ Hs Es) as (slot & Eslot & Hr).
  destruct (slot_head _ _ _ Hr) as (Hp & Hslice & Hpay & Hlen & _).
  rewrite EF. cbn [mbind option_bind]. rewrite Eslot. cbn [mbind option_bind].
  rewrite (checkFillData_slice _ _ p Hslice Hp). cbn [mbind option_bind]. rewrite HP.
  rewrite decide_True by lia. rewrite Nat2Z.id, Hslice.
  destruct (pop_file F qs bs s slot p q HF Eslot Es Hr) as (F' & EF' & HF').
  exists f, s, p, (qs, bs). eexists. split; [done|]. split; [done|]. split; [done|]. split.
  - unfold popped in EF'. destruct (packet_fill p); cbn [mbind option_bind]; cbv zeta; rewrite EF'; done.
  - split; cbn [mg_files mg_packetSize]; try done.
    + by apply Forall2_insert.
    + apply Forall_insert; [done|]. apply (loaded_pop _ _ _ p q); [by apply (ahead_blocks F)| |done].
      exact (proj1 (Forall_lookup _ _) Hl _ _ Ef).
    + apply Forall_insert; [done|]. rewrite length_pop. exact (proj1 (Forall_lookup _ _) Hsl _ _ Ef).
    + intros H0. apply (f_equal length) in H0. rewrite length_insert in H0. by destruct fs.
Qed.

(** ** The packets still to come *)

Definition pending_file (st : file_state) : list buffer :=
  concat (fst st) ++ concat (blk_packets <$> snd st).

Definition pending (fs : list file_state) : list buffer := concat (pending_file <$> fs).

Lemma pop_pending s qs bs p q : qs !! s = Some (p :: q) ->
  pending_file (qs, bs) ≡ₚ p :: pending_file (pop s (qs, bs)).
Proof using.
  intros Es. unfold pop, pending_file. cbn [fst snd]. rewrite Es.
  destruct q as [|p' q]; cbn [fst snd].
  - pose proof (concat_insert _ _ _ (next_packets bs) Es) as Hp. cbn in Hp.
    change (p :: concat (<[s := next_packets bs]> qs) ++ concat (blk_packets <$> tail bs)) with
      ((p :: concat (<[s := next_packets bs]> qs)) ++ concat (blk_packets <$> tail bs)).
    rewrite Hp. destruct bs as [|b bs]; cbn [next_packets tail]; [done|].
    rewrite fmap_cons. cbn [concat]. rewrite (Permutation_app_comm (blk_packets b) (concat qs)).
    by rewrite <-app_assoc.
  - pose proof (concat_insert _ _ _ (p' :: q) Es) as Hp. rewrite app_comm_cons. apply Permutation_app_tail.
    apply (Permutation_app_inv_l (p' :: q)). by rewrite <-Hp, <-Permutation_middle.
Qed.

Lemma pending_insert fs f st st' p : fs !! f = Some st -> pending_file st ≡ₚ p :: pending_file st' ->
  pending fs ≡ₚ p :: pending (<[f := st']> fs).
Proof using.
  intros Ef Hp. unfold pending. rewrite list_fmap_insert.
  assert (El : (pending_file <$> fs) !! f = Some (pending_file st)) by (by rewrite list_lookup_fmap, Ef).
  pose proof (concat_insert _ _ _ (pending_file st') El) as H1. rewrite Hp in H1. cbn in H1.
  apply (Permutation_app_inv_l (pending_file st')). rewrite <-H1. by rewrite <-Permutation_middle.
Qed.

(** ** Gathering as a merge *)

(** [gathers fs taken fs']: taking a lowest head of any slot, again and again,
    yields the packets [taken] and leaves [fs']. *)
Inductive gathers : list file_state -> list buffer -> list file_state -> Prop :=
  | gathers_nil fs : gathers fs [] fs
  | gathers_cons fs f s p st taken fs' :
      head_at fs f s p -> fs !! f = Some st ->
      (forall f' s' p', head_at fs f' s' p' -> packet_frame p <= packet_frame p') ->
      gathers (<[f := pop s st]> fs) taken fs' -> gathers fs (p :: taken) fs'.

Lemma head_pending fs f s p st : head_at fs f s p -> fs !! f = Some st ->
  pending fs ≡ₚ p :: pending (<[f := pop s st]> fs).
Proof using.
  intros (qs & bs & q & Ef & Es) Est. rewrite Est in Ef. injection Ef as ->.
  apply (pending_insert _ _ _ _ _ Est). by apply (pop_pending _ _ _ _ q).
Qed.

(** Nothing is lost and nothing invented. *)
Lemma gathers_pending fs taken fs' : gathers fs taken fs' -> pending fs ≡ₚ taken ++ pending fs'.
Proof using.
  induction 1 as [fs|fs f s p st taken fs' Hh Hst _ _ IH]; [done|].
  rewrite (head_pending _ _ _ _ _ Hh Hst), IH. done.
Qed.

(** The bytes that the packets [taken] add to the output: fill is left out. *)
Definition payload_of (taken : list buffer) : list buffer :=
  filter (fun p => packet_fill p = false) taken.

Lemma payload_packets taken : Forall packet_ok taken -> Forall packet_ok (payload_of taken).
Proof using.
  rewrite !Forall_forall. intros H p Hp. apply H. unfold payload_of in Hp.
  by apply list_elem_of_filter in Hp as [_ Hp].
Qed.

Lemma gather_loop_rep fuel g fs n count out :
  gather_rep g fs -> (length (pending fs) < fuel)%nat ->
  0 <= n <= count -> (Z.of_nat P | n) -> (Z.of_nat P | count) ->
  exists taken g' fs', gather_loop fuel g n count out =
      Some (n + Z.of_nat (P * length (payload_of taken)), out ++ concat (payload_of taken), g') /\
    gathers fs taken fs' /\ gather_rep g' fs' /\ Forall packet_ok taken /\
    n + Z.of_nat (P * length (payload_of taken)) <= count /\
    (n + Z.of_nat (P * length (payload_of taken)) < count ->
      forall s p, head_at fs' 0 s p -> packet_frame p <= 0).
Proof using Hpar.
  revert g fs n out. induction fuel as [|fuel IH]; intros g fs n out Hg Hf Hn Hdn Hdc; [lia|].
  pose proof (po_packet Hpar). cbn [gather_loop]. destruct (Z.ltb_spec n count) as [Hlt|Hge].
  - destruct (gather_step_rep g fs Hg) as [[-> Hend]|(f & s & p & st & g1 & Hh & Hst & Hmin & -> & Hg1)];
      cbn [mbind option_bind].
    + exists [], g, fs. cbn. rewrite Nat.mul_0_r, Z.add_0_r, app_nil_r.
      split; [done|]. split; [constructor|]. split; [done|]. split; [constructor|]. split; [lia|done].
    + pose proof (head_packet_ok _ _ _ _ _ Hg Hh) as Hp.
      pose proof (head_pending _ _ _ _ _ Hh Hst) as Hperm. apply Permutation_length in Hperm.
      cbn [length] in Hperm.
      destruct (packet_fill p) eqn:Efill; [|rewrite (gr_size _ _ Hg1)].
      * destruct (IH g1 _ n out Hg1) as (taken & g' & fs' & E & Hga & Hg' & Hok & Hle & Hend); [lia|done..|].
        exists (p :: taken), g', fs'. unfold payload_of in *. rewrite filter_cons_False by congruence.
        split; [done|]. split; [by econstructor|]. split; [done|]. split; [by constructor|]. done.
      * destruct Hdn as [a Ha], Hdc as [c Hc].
        destruct (IH g1 _ (n + Z.of_nat P) (out ++ p) Hg1) as (taken & g' & fs' & E & Hga & Hg' & Hok & Hle & Hend);
          [lia|split; [lia|]; rewrite Ha, Hc in *; assert (a < c) by nia; nia|exists (a + 1); lia|by exists c|].
        exists (p :: taken), g', fs'. unfold payload_of in *. rewrite filter_cons_True by done. cbn [length concat].
        rewrite E. replace (n + Z.of_nat P + Z.of_nat (P * length (filter (λ p, packet_fill p = false) taken)))
          with (n + Z.of_nat (P * S (length (filter (λ p, packet_fill p = false) taken)))) in * by lia.
        rewrite <-app_assoc. split; [done|]. split; [by econstructor|]. split; [done|]. split; [by constructor|]. done.
  - exists [], g, fs. cbn. rewrite Nat.mul_0_r, Z.add_0_r, app_nil_r.
    split; [done|]. split; [constructor|]. split; [done|]. split; [constructor|]. split; lia.
Qed.

(** ** Time order *)

Definition frame_le (p q : buffer) : Prop := packet_frame p <= packet_frame q.

#[local] Instance frame_le_trans : Transitive frame_le.
Proof using. intros x y z H1 H2. unfold frame_le in *. by etransitivity. Qed.

(** The packets of a file are in time order: within the slots, within the blocks
    to come, and between the two. *)
Record ordered (st : file_state) : Prop := {
  od_slots : Forall (StronglySorted frame_le) (fst st);
  od_blocks : StronglySorted frame_le (concat (blk_packets <$> snd st));
  od_later : forall p p', p ∈ concat (fst st) -> p' ∈ concat (blk_packets <$> snd st) -> frame_le p p' }.

Lemma ordered_pop s qs bs p q : qs !! s = Some (p :: q) -> ordered (qs, bs) -> ordered (pop s (qs, bs)).
Proof using.
  intros Es [H1 H2 H3]. unfold pop. cbn [fst snd] in *. rewrite Es.
  destruct q as [|p' q].
  - destruct bs as [|b bs]; cbn [next_packets tail fst snd] in *.
    + split; cbn [fst snd]; [apply Forall_insert; [done|constructor]|done|].
      intros x y _ Hy. by apply elem_of_nil in Hy.
    + rewrite fmap_cons in *. cbn [concat] in *. split; cbn [fst snd].
      * apply Forall_insert; [done|]. by apply StronglySorted_app_1_l in H2.
      * by apply StronglySorted_app_1_r in H2.
      * intros x y Hx Hy.
        assert (Hx' : x ∈ blk_packets b ++ concat qs)
          by (rewrite <-(concat_insert _ _ _ (blk_packets b) Es); apply elem_of_app; by right).
        apply elem_of_app in Hx' as [Hx'|Hx'].
        -- by apply (StronglySorted_app_1_elem_of _ _ _ _ _ H2).
        -- apply H3; [done|apply elem_of_app; by right].
  - cbn [fst snd]. split; cbn [fst snd]; [|done|].
    + apply Forall_insert; [done|]. pose proof (proj1 (Forall_lookup _ _) H1 _ _ Es) as Hs.
      by apply StronglySorted_cons in Hs as [_ Hs].
    + intros x y Hx Hy. apply H3; [|done].
      assert (Hx' : x ∈ (p :: p' :: q) ++ concat (<[s := p' :: q]> qs)) by (apply elem_of_app; by right).
      rewrite (concat_insert _ _ _ (p' :: q) Es) in Hx'. apply elem_of_app in Hx' as [Hx'|Hx']; [|done].
      apply elem_of_concat. exists s, (p :: p' :: q). split; [done|]. by right.
Qed.

(** A lowest head is a lowest packet of all. *)
Lemma head_lowest fs p : Forall loaded fs -> Forall ordered fs ->
  (forall st, st ∈ fs -> fst st <> []) ->
  (forall f' s' p', head_at fs f' s' p' -> packet_frame p <= packet_frame p') ->
  forall p', p' ∈ pending fs -> frame_le p p'.
Proof using.
  intros Hl Ho Hslots Hmin p' Hp'. apply elem_of_concat in Hp' as (f & l & Hf & Hp').
  apply list_lookup_fmap_Some in Hf as ([qs bs] & -> & Hf).
  pose proof (proj1 (Forall_lookup _ _) Hl _ _ Hf) as Hlo.
  pose proof (proj1 (Forall_lookup _ _) Ho _ _ Hf) as [H1 H2 H3]. cbn [fst snd] in *.
  assert (Hslot : forall s q x, qs !! s = Some q -> x ∈ q -> frame_le p x).
  { intros s q x Es Hx. destruct q as [|y q]; [by apply elem_of_nil in Hx|].
    assert (Hy : frame_le p y) by (apply (Hmin f s); by exists qs, bs, q).
    apply elem_of_cons in Hx as [->|Hx]; [done|].
    pose proof (proj1 (Forall_lookup _ _) H1 _ _ Es) as [Hall _]%StronglySorted_cons.
    transitivity y; [done|]. exact (proj1 (Forall_forall _ _) Hall x Hx). }
  apply elem_of_app in Hp' as [Hp'|Hp'].
  - apply elem_of_concat in Hp' as (s & q & Es & Hx). by apply (Hslot s q).
  - assert (Hbs : bs <> []) by (intros ->; by apply elem_of_nil in Hp').
    specialize (Hlo Hbs). pose proof (Hslots _ (list_elem_of_lookup_2 _ _ _ Hf)) as Hq. cbn [fst] in Hq, Hlo.
    destruct qs as [|q qs]; [done|]. apply Forall_cons_1 in Hlo as [Hq1 _]. destruct q as [|y q]; [done|].
    transitivity y; [apply (Hslot 0%nat (y :: q)); [done|by left]|].
    apply H3; [|done]. by left.
Qed.

(** Gathering from ordered files yields the packets in time order, and all that
    is left is later. *)
Lemma gathers_sorted fs taken fs' : gathers fs taken fs' ->
  Forall loaded fs -> Forall ordered fs -> (forall st, st ∈ fs -> fst st <> [] /\ Forall block_ok (snd st)) ->
  StronglySorted frame_le taken /\ forall p p', p ∈ taken -> p' ∈ pending fs' -> frame_le p p'.
Proof using.
  induction 1 as [fs|fs f s p st taken fs' Hh Hst Hmin Hg IH]; intros Hl Ho Hs.
  { split; [constructor|]. intros p p' Hp. by apply elem_of_nil in Hp. }
  pose proof Hh as (qs & bs & q & Ef & Es). rewrite Hst in Ef. injection Ef as ->.
  pose proof (list_elem_of_lookup_2 _ _ _ Hst) as Hin. destruct (Hs _ Hin) as [_ Hblk].
  pose proof (proj1 (Forall_lookup _ _) Hl _ _ Hst) as Hl1.
  pose proof (proj1 (Forall_lookup _ _) Ho _ _ Hst) as Ho1.
  destruct IH as [IH1 IH2].
  - apply Forall_insert; [done|]. by apply (loaded_pop s qs bs p q).
  - apply Forall_insert; [done|]. by apply (ordered_pop s qs bs p q).
  - intros st Hst'. apply list_elem_of_lookup_1 in Hst' as [k Hk].
    apply list_lookup_insert_Some in Hk as [(-> & <- & _)|[_ Hk]];
      [|apply Hs; by eapply list_elem_of_lookup_2].
    unfold pop. cbn [fst snd]. rewrite Es.
    assert (Hlen : length qs <> 0%nat) by (apply lookup_lt_Some in Es; lia).
    destruct q as [|p' q]; cbn [fst snd]; (split;
      [intros E; apply (f_equal length) in E; rewrite length_insert in E; done|]); [|done].
    by apply Forall_tail.
  - pose proof (head_lowest fs p Hl Ho (fun st H => proj1 (Hs st H)) Hmin) as Hlow.
    pose proof (head_pending _ _ _ _ _ Hh Hst) as Hperm.
    assert (Hrest : forall p', p' ∈ taken ++ pending fs' -> frame_le p p').
    { intros p' Hp'. apply Hlow. rewrite Hperm. right. by rewrite (gathers_pending _ _ _ Hg). }
    split.
    + apply StronglySorted_cons. split; [|done]. apply Forall_forall. intros x Hx. apply Hrest.
      apply elem_of_app. by left.
    + intros x y [->|Hx]%elem_of_cons Hy; [|by apply IH2]. apply Hrest. apply elem_of_app. by right.
Qed.

(** ** Opening *)

(** The libc allocator grants every request. *)
Context (malloc : Z -> option buffer).
Context (Hmalloc : forall n, 0 <= n -> exists b, malloc n = Some b /\ Z.of_nat (length b) = n).

Lemma fread_int32_split f x rest :
  0 <= st_pos f -> drop (Z.to_nat (st_pos f)) (st_bytes f) = le_split 4 x ++ rest ->
  - 2 ^ 31 <= x < 2 ^ 31 ->
  exists f', fread_int32 f = (Some x, f') /\ st_bytes f' = st_bytes f /\ st_pos f' = st_pos f + 4 /\
    drop (Z.to_nat (st_pos f')) (st_bytes f') = rest.
Proof using.
  intros Hp Hd Hx. destruct (fread_app 4 f _ _ Hp Hd) as (f' & E & Hp' & Eb & Hd'); [by rewrite length_le_split|].
  unfold fread_int32. rewrite E. rewrite decide_True by apply length_le_split. exists f'.
  rewrite le_combine_split_wrap. change (8 * Z.of_nat 4) with 32. rewrite swrap_uwrap by lia.
  split; [done|]. split; [done|]. split; [|done].
  unfold fread in E. injection E as _ <-. cbn. rewrite Hd, take_app_length' by (by rewrite length_le_split).
  by rewrite length_le_split.
Qed.

Lemma getFirstBlocks_recording f b1 b2 rest : block_ok b1 -> block_ok b2 -> 0 <= st_pos f ->
  drop (Z.to_nat (st_pos f)) (st_bytes f) = encode_block b1 ++ encode_block b2 ++ rest ->
  getFirstBlocks 2 maxb f = inr (blk_num b1, blk_num b2).
Proof using Hpar.
  intros [H1 H2 _ H4] [H5 _ _ _] Hp Hd. pose proof (po_block Hpar). unfold getFirstBlocks.
  pose proof Hd as Hd0. unfold encode_block at 1 in Hd. rewrite <-!app_assoc in Hd.
  destruct (fread_int32_split f _ _ Hp Hd H1) as (f1 & -> & Eb1 & Ep1 & Hd1). cbn [Z.eqb Pos.eqb].
  destruct (fread_int32_split f1 _ _ ltac:(lia) Hd1 ltac:(lia)) as (f2 & -> & Eb2 & Ep2 & _).
  unfold fseeko. rewrite (proj2 (Z.ltb_ge _ _)) by lia.
  match goal with |- context [fread_int32 ?x] => set (f3 := x) end.
  destruct (fread_int32_split f3 (blk_num b2)
    (le_split 4 (8 + Z.of_nat (P * length (blk_packets b2))) ++ concat (blk_packets b2) ++ rest))
    as (f4 & -> & _); [cbn; lia| |done|done].
  cbn [f3 st_pos st_bytes]. rewrite Z2Nat.inj_add, <-drop_drop, Eb2, Eb1, Hd0 by lia.
  rewrite drop_app_length'; [unfold encode_block; by rewrite <-!app_assoc|].
  unfold encode_block. rewrite !length_app, !length_le_split, length_concat_packets by done. lia.
Qed.

(** The number of the [i]-th block of a file. *)
Definition block_number (i : nat) (bs : list block) : Z := default 0 (blk_num <$> bs !! i).

Definition file_const (sync : Z) (bs : list block) (rest : buffer) : Z * Z * Z * Z * Z * Z * Z * Z * buffer :=
  let contents := recording sync bs rest in
  (2, maxb, 8, Z.of_nat P, fmt, Z.of_nat (length contents), block_number 0 bs, block_number 1 bs, contents).

Lemma new_slots_rep k : exists slots, new_slots malloc k maxb (maxb - 8) = Some slots /\
  Forall2 slot_rep slots (replicate k []).
Proof using Hpar Hmalloc.
  pose proof (po_block Hpar). induction k as [|k (slots & E & Hs)]; cbn [new_slots]; [by eexists|].
  destruct (Hmalloc (maxb - 8)) as (b & -> & Hb); [lia|]. cbn [mbind option_bind]. rewrite E.
  eexists. split; [done|]. cbn [replicate]. constructor; [|done].
  split; cbn; try done. by rewrite Nat.mul_0_r.
Qed.

Lemma header_fields sync : let h := mark6_header_of_bytes (encode_header sync) in
  m6h_version h = 2 /\ m6h_block_size h = maxb /\ m6h_packet_format h = fmt /\
  m6h_packet_size h = Z.of_nat P.
Proof using Hpar.
  destruct Hpar as [HP HP' Hm Hf]. unfold mark6_header_of_bytes.
  cbn [m6h_version m6h_block_size m6h_packet_format m6h_packet_size]. unfold encode_header. split_and!.
  - apply int32_at_split; [apply length_le_split|lia].
  - rewrite (app_assoc (le_split 4 sync)). apply int32_at_split; [by rewrite length_app, !length_le_split|lia].
  - rewrite (app_assoc (le_split 4 sync)), (app_assoc (_ ++ _)).
    apply int32_at_split; [by rewrite !length_app, !length_le_split|lia].
  - rewrite (app_assoc (le_split 4 sync)), (app_assoc (_ ++ _)), (app_assoc (_ ++ _)).
    rewrite <-(app_nil_r (le_split 4 (Z.of_nat P))).
    apply int32_at_split; [by rewrite !length_app, !length_le_split|lia].
Qed.

Lemma openMark6File_recording sync bs rest : Forall block_ok bs -> (2 <= length bs)%nat -> (length rest < 8)%nat ->
  exists m, openMark6File malloc (Some (recording sync bs rest)) = Some (inr m) /\
    Forall2 slot_rep (m6_slot m) (replicate MARK6_BUFFER_SLOTS []) /\ ahead m bs /\
    m6_const m = file_const sync bs rest.
Proof using Hpar Hmalloc.
  intros Hbs Hlen Hrest. pose proof (po_block Hpar).
  destruct bs as [|b1 [|b2 bs]]; cbn [length] in Hlen; [lia..|].
  pose proof (Forall_cons_1 _ _ _ Hbs) as [Hb1 [Hb2 _]%Forall_cons_1].
  unfold openMark6File.
  destruct (fread_app 20 {| st_bytes := recording sync (b1 :: b2 :: bs) rest; st_pos := 0 |}
    (encode_header sync) (encode_blocks (b1 :: b2 :: bs) ++ rest)) as (f & E & Hp & Ebytes & Hd); [done|done| |].
  { unfold encode_header. by rewrite !length_app, !length_le_split. }
  rewrite E. destruct (header_fields sync) as (-> & -> & -> & ->).
  assert (Elen : length (encode_header sync) = 20%nat) by (unfold encode_header; by rewrite !length_app, !length_le_split).
  rewrite Elen. cbn [Nat.eqb negb mark6BlockHeaderSize Z.eqb Pos.eqb Z.leb Z.compare].
  rewrite sint_Some by lia. cbn [mbind option_bind].
  destruct (Hmalloc (maxb - 8)) as (b & -> & Hb); [lia|].
  rewrite (getFirstBlocks_recording f b1 b2 (encode_blocks bs ++ rest)); [|done|done|done|].
  2: { rewrite Hd. unfold encode_blocks. rewrite !fmap_cons. cbn [concat]. by rewrite <-!app_assoc. }
  destruct (new_slots_rep MARK6_BUFFER_SLOTS) as (slots & -> & Hs).
  match goal with |- context [reader_read ?x] => set (m0 := x) end.
  destruct (reader_read_ahead m0 (b1 :: b2 :: bs)) as (m & Em & Ha & Esl).
  { split; cbn [m0 m6_blockHeaderSize m6_maxBlockSize m6_packetSize m6_packetFormat m6_reader rd_corrupted
      rd_buffer rd_in]; try done. split; [done|]. exists rest. split; [done|]. by rewrite Hd. }
  pose proof (reader_read_const _ _ Em) as Ec. rewrite Em.
  cbn [mbind option_bind]. exists m. split; [done|]. split; [by rewrite Esl|]. split; [done|].
  rewrite Ec. unfold m6_const, file_const. cbn [m0 m6_reader rd_in m6_version m6_maxBlockSize m6_blockHeaderSize
    m6_packetSize m6_packetFormat m6_st_size m6_block1 m6_block2]. by rewrite Ebytes.
Qed.

(** Files with fewer than two blocks. *)
Lemma getFirstBlocks_too_short f bs rest : Forall block_ok bs -> (length bs < 2)%nat -> (length rest < 4)%nat ->
  0 <= st_pos f -> drop (Z.to_nat (st_pos f)) (st_bytes f) = encode_blocks bs ++ rest ->
  exists e, getFirstBlocks 2 maxb f = inl e.
Proof using Hpar.
  intros Hbs Hlen Hrest Hp Hd. pose proof (po_block Hpar). unfold getFirstBlocks.
  destruct bs as [|b [|]]; cbn [length] in Hlen; [| |lia].
  - unfold fread_int32, fread. rewrite Hd. cbn [encode_blocks fmap list_fmap concat app].
    rewrite decide_False by (rewrite length_take; lia). by eexists.
  - apply Forall_cons_1 in Hbs as [[H1 H2 _ H4] _].
    pose proof Hd as Hd0. cbn [encode_blocks fmap list_fmap concat app] in Hd. rewrite app_nil_r in Hd.
    unfold encode_block in Hd. rewrite <-!app_assoc in Hd.
    destruct (fread_int32_split f _ _ Hp Hd H1) as (f1 & -> & Eb1 & Ep1 & Hd1). cbn [Z.eqb Pos.eqb].
    destruct (fread_int32_split f1 _ _ ltac:(lia) Hd1 ltac:(lia)) as (f2 & -> & Eb2 & Ep2 & _).
    unfold fseeko. rewrite (proj2 (Z.ltb_ge _ _)) by lia.
    unfold fread_int32, fread. cbn [st_pos st_bytes fst]. rewrite Z2Nat.inj_add, <-drop_drop, Eb2, Eb1, Hd0 by lia.
    rewrite drop_app_length'.
    2: { cbn [encode_blocks fmap list_fmap concat]. unfold encode_block.
         rewrite app_nil_r, !length_app, !length_le_split, length_concat_packets by done. lia. }
    rewrite decide_False by (rewrite length_take; lia). by eexists.
Qed.

Lemma one_block_refused sync bs rest : Forall block_ok bs -> (length bs < 2)%nat -> (length rest < 4)%nat ->
  openMark6File malloc (Some (recording sync bs rest)) = Some (inl (-4)).
Proof using Hpar Hmalloc.
  intros Hbs Hlen Hrest. pose proof (po_block Hpar). unfold openMark6File.
  destruct (fread_app 20 {| st_bytes := recording sync bs rest; st_pos := 0 |}
    (encode_header sync) (encode_blocks bs ++ rest)) as (f & E & Hp & Ebytes & Hd); [done|done| |].
  { unfold encode_header. by rewrite !length_app, !length_le_split. }
  rewrite E. destruct (header_fields sync) as (-> & -> & -> & ->).
  assert (Elen : length (encode_header sync) = 20%nat) by (unfold encode_header; by rewrite !length_app, !length_le_split).
  rewrite Elen. cbn [Nat.eqb negb mark6BlockHeaderSize Z.eqb Pos.eqb Z.leb Z.compare].
  rewrite sint_Some by lia. cbn [mbind option_bind].
  destruct (Hmalloc (maxb - 8)) as (b & -> & Hb); [lia|].
  by destruct (getFirstBlocks_too_short f bs rest Hbs Hlen Hrest Hp Hd) as (e & ->).
Qed.

(** Filling the slots takes the first ten blocks. *)
Definition opened_state (bs : list block) : file_state :=
  ((fun i => next_packets (drop i bs)) <$> seq 0 MARK6_BUFFER_SLOTS, drop MARK6_BUFFER_SLOTS bs).

Lemma fill_slots_rep m qs bs :
  length qs = MARK6_BUFFER_SLOTS -> Forall2 slot_rep (m6_slot m) qs -> ahead m bs ->
  exists m', fill_slots m = Some m' /\ file_rep m' (fst (opened_state bs)) (snd (opened_state bs)).
Proof using Hpar.
  intros Hlen Hs Ha. unfold fill_slots.
  destruct (run_iters_seq (fun s m => Mark6FileReadBlock m s)
    (fun k m => file_rep m (((fun i => next_packets (drop i bs)) <$> seq 0 k) ++ drop k qs) (drop k bs))
    MARK6_BUFFER_SLOTS m) as (m' & E & H').
  - intros k m1 Hk H1.
    destruct (ReadBlock_rep m1 _ _ k H1) as (m2 & E2 & H2).
    { rewrite length_app, length_fmap, length_seq, length_drop. lia. }
    exists m2. split; [done|]. rewrite insert_app_r_alt in H2 by (rewrite length_fmap, length_seq; lia).
    rewrite length_fmap, length_seq, Nat.sub_diag in H2.
    destruct (lookup_lt_is_Some_2 qs k) as [q Hq]; [lia|]. rewrite (drop_S _ _ _ Hq) in H2.
    rewrite seq_S, fmap_app, <-app_assoc. cbn [Nat.add app fmap list_fmap].
    by rewrite tail_drop in H2.
  - by split.
  - exists m'. split; [done|]. by rewrite (drop_ge qs), app_nil_r in H' by lia.
Qed.

Lemma opened_pending bs : pending_file (opened_state bs) = concat (blk_packets <$> bs).
Proof using.
  unfold opened_state, pending_file. cbn [fst snd].
  assert (E : forall k bs, concat ((fun i => next_packets (drop i bs)) <$> seq 0 k) =
    concat (blk_packets <$> take k bs)).
  { intros k. induction k as [|k IH]; intros bs'; [by rewrite take_0|].
    rewrite <-cons_seq, fmap_cons. cbn [concat]. rewrite drop_0, <-fmap_S_seq, <-list_fmap_compose.
    destruct bs' as [|b bs']; cbn [next_packets].
    - rewrite take_nil. cbn. clear. generalize (seq 0 k). induction l as [|i l IHl]; [done|]. cbn. by destruct i.
    - cbn [take]. rewrite fmap_cons. cbn [concat]. f_equal. apply (IH bs'). }
  rewrite E, <-concat_app, <-fmap_app. by rewrite take_drop.
Qed.

Lemma next_packets_lookup bs i : next_packets (drop i bs) = default [] (blk_packets <$> bs !! i).
Proof using.
  revert i. induction bs as [|b bs IH]; intros [|i]; [done..|]. apply IH.
Qed.

Lemma opened_loaded bs : Forall block_ok bs -> loaded (opened_state bs).
Proof using.
  intros Hb Hne. cbn [opened_state fst snd] in *. apply Forall_fmap, Forall_seq. intros i Hi. cbn.
  rewrite next_packets_lookup. destruct (lookup_lt_is_Some_2 bs i) as [b Eb].
  { destruct (decide (i < length bs)%nat) as [|Hge]; [done|].
    destruct Hne. apply drop_ge. unfold MARK6_BUFFER_SLOTS in *. lia. }
  rewrite Eb. apply bo_some. exact (proj1 (Forall_lookup _ _) Hb _ _ Eb).
Qed.

Lemma opened_ordered bs : StronglySorted frame_le (concat (blk_packets <$> bs)) -> ordered (opened_state bs).
Proof using.
  intros Hs. pose proof Hs as Hs'. rewrite <-opened_pending in Hs'. unfold pending_file in Hs'.
  split.
  - cbn [opened_state fst]. apply Forall_fmap, Forall_seq. intros i Hi. cbn. rewrite next_packets_lookup.
    destruct (bs !! i) as [b|] eqn:Eb; cbn; [|constructor].
    rewrite <-(take_drop_middle bs i b Eb), fmap_app, concat_app in Hs.
    apply StronglySorted_app_1_r in Hs. rewrite fmap_cons in Hs. by apply StronglySorted_app_1_l in Hs.
  - by apply StronglySorted_app_1_r in Hs'.
  - intros p p' Hp Hp'. by apply (StronglySorted_app_1_elem_of _ _ _ _ _ Hs').
Qed.

(** ** Enough fuel *)

Lemma slots_count slots qs : Forall2 slot_rep slots qs ->
  (length (concat qs) <= foldr (fun slot n => Z.to_nat (bs_payloadBytes slot) + n) 0 slots)%nat.
Proof using Hpar.
  pose proof (po_packet Hpar). induction 1 as [|slot q slots qs Hr _ IH]; [done|]. cbn. rewrite length_app.
  destruct q as [|p q]; [cbn; lia|]. pose proof (sr_payload _ _ Hr ltac:(done)). pose proof (sr_index _ _ Hr).
  nia.
Qed.

Lemma blocks_count bs : Forall block_ok bs -> (length (concat (blk_packets <$> bs)) <= length (encode_blocks bs))%nat.
Proof using Hpar.
  pose proof (po_packet Hpar). induction 1 as [|b bs [_ Hp _ _] _ IH]; [done|].
  unfold encode_blocks in *. rewrite !fmap_cons. cbn [concat]. rewrite !length_app.
  unfold encode_block at 1. rewrite !length_app, length_concat_packets by done.
  assert (length (blk_packets b) <= P * length (blk_packets b))%nat by nia. lia.
Qed.

Lemma file_count m st : file_rep m (fst st) (snd st) -> (length (pending_file st) <= file_bytes m)%nat.
Proof using Hpar.
  intros [Hs Ha]. unfold pending_file, file_bytes. rewrite length_app. pose proof (slots_count _ _ Hs) as H1.
  assert (Hready : forall bs, ready m bs ->
    (length (concat (blk_packets <$> bs)) <= length (st_bytes (rd_in (m6_reader m))))%nat).
  { intros bs [Hb _ _ _ (_ & rest & _ & Hd)]. apply (f_equal length) in Hd.
    rewrite length_drop, length_app in Hd. pose proof (blocks_count bs Hb). lia. }
  pose proof (po_packet Hpar). destruct (snd st) as [|b bs]; cbn [ahead] in Ha.
  - cbn. lia.
  - destruct Ha as (_ & Hr & -> & _). rewrite fmap_cons. cbn [concat]. rewrite length_app.
    pose proof (Hready bs Hr). nia.
Qed.

Lemma pending_fuel g fs : gather_rep g fs -> (length (pending fs) < gather_fuel g)%nat.
Proof using Hpar.
  intros [Hf _ _ _ _]. unfold gather_fuel, pending. apply Nat.lt_succ_r.
  induction Hf as [|m st ms fs Hm _ IH]; [done|]. rewrite fmap_cons. cbn [concat foldr]. rewrite length_app.
  pose proof (file_count m st Hm). lia.
Qed.

(** A file of the recording: blocks within the limits, at least two of them, and
    at most an unfinished block header at the end. *)
Definition rec_ok : Z * list block * buffer -> Prop :=
  fun '(_, bs, rest) => Forall block_ok bs /\ (2 <= length bs)%nat /\ (length rest < 8)%nat.

(** The file [m] as opened from the contents [r]. *)
Definition opened_file (m : Mark6File) (r : Z * list block * buffer) : Prop :=
  let '(sync, bs, rest) := r in
  file_rep m (fst (opened_state bs)) (snd (opened_state bs)) /\
  m6_const m = file_const sync bs rest.

Definition contents (recs : list (Z * list block * buffer)) : list (option buffer) :=
  (fun '(sync, bs, rest) => Some (recording sync bs rest)) <$> recs.

Definition opened (recs : list (Z * list block * buffer)) : list file_state :=
  (fun '(_, bs, _) => opened_state bs) <$> recs.

Lemma open_files_rep recs : Forall rec_ok recs ->
  exists ms, open_files malloc (contents recs) = Some (0, ms) /\ Forall2 opened_file ms recs.
Proof using Hpar Hmalloc.
  unfold contents. induction 1 as [|[[sync bs] rest] recs (Hb & Hl & Hr) _ (ms & E & Hms)]; [by eexists|].
  rewrite !fmap_cons. cbn [open_files].
  destruct (openMark6File_recording sync bs rest Hb Hl Hr) as (m & -> & Hs & Ha & Ec). cbn [mbind option_bind].
  destruct (fill_slots_rep m _ bs (length_replicate _ _) Hs Ha) as (m' & Em' & Hm').
  pose proof (fill_slots_const _ _ Em') as Ec'. rewrite Em'. cbn [mbind option_bind]. rewrite E.
  eexists. split; [done|]. constructor; [|done]. split; [done|congruence].
Qed.

(** What is pending after opening: the packets of all files. *)
Definition all_packets (recs : list (Z * list block * buffer)) : list buffer :=
  concat ((fun '(_, bs, _) => concat (blk_packets <$> bs)) <$> recs).

Lemma pending_opened recs : pending (opened recs) = all_packets recs.
Proof using.
  unfold opened, pending, all_packets. rewrite <-list_fmap_compose. f_equal. apply list_fmap_ext.
  intros i [[sync bs] rest] _. apply opened_pending.
Qed.

Lemma opened_gather_rep g recs : Forall (fun '(_, bs, _) => Forall block_ok bs) recs -> recs <> [] ->
  Forall2 (fun m '(_, bs, _) => file_rep m (fst (opened_state bs)) (snd (opened_state bs))) (mg_files g) recs ->
  mg_packetSize g = Z.of_nat P -> gather_rep g (opened recs).
Proof using.
  intros Hrecs Hne Hms Hsz. split; [| | |done|by destruct recs].
  - unfold opened. apply Forall2_fmap_r. eapply Forall2_impl; [exact Hms|]. by intros m [[sync bs] rest].
  - unfold opened. apply Forall_fmap. eapply Forall_impl; [exact Hrecs|].
    intros [[sync bs] rest]. apply opened_loaded.
  - unfold opened. apply Forall_fmap, Forall_true. by intros [[sync bs] rest].
Qed.

Lemma openMark6Gatherer_rep recs : recs <> [] -> Forall rec_ok recs ->
  exists g, openMark6Gatherer malloc (contents recs) = Some (Some g) /\
    gather_rep g (opened recs) /\ Forall2 opened_file (mg_files g) recs.
Proof using Hpar Hmalloc.
  intros Hne Hrecs. destruct (open_files_rep recs Hrecs) as (ms & E & Hms).
  unfold openMark6Gatherer. rewrite E. cbn [mbind option_bind]. rewrite (proj2 (Z.ltb_ge 0 0)) by lia.
  destruct ms as [|m ms]; [apply Forall2_length in Hms; by destruct recs|].
  eexists. split; [done|]. split; [|done]. apply opened_gather_rep; [|done| |]; cbn [mg_files mg_packetSize].
  { eapply Forall_impl; [exact Hrecs|]. by intros [[sync bs] rest] []. }
  { eapply Forall2_impl; [exact Hms|]. by intros m' [[sync bs] rest] []. }
  destruct recs as [|[[sync bs] rest] recs]; [done|].
  apply Forall2_cons_1 in Hms as [[[_ Ha] _] _]. by destruct (ahead_consts _ _ Ha) as (_ & ? & _).
Qed.
End Recording.
