(* ===== verification/Mark6GatherTheorems.v ===== *)
(** * Mark6GatherTheorems: properties of the gatherer

    The theorems on [openMark6Gatherer], [mark6Gather] and
    [isMark6GatherComplete], from the lemmas of [Mark6GatherSpec]. *)
From S2P Require Export Mark6GatherSpec.
#[local] Open Scope Z_scope.

(** ** An example recording *)

Definition some_malloc (n : Z) : option buffer :=
  if n <? 0 then None else Some (replicate (Z.to_nat n) 0xAA).

Lemma some_malloc_ok n : 0 <= n -> exists b, some_malloc n = Some b /\ Z.of_nat (length b) = n.
Proof.
  intros Hn. unfold some_malloc. rewrite (proj2 (Z.ltb_ge _ _)) by done.
  eexists. split; [done|]. rewrite length_replicate. lia.
Qed.

(** A VDIF packet of 40 bytes: second, frame number, and a payload byte. *)
Definition example_packet (second frame x : Z) : buffer :=
  struct_bytes (Build_vdif_header second 0 0 frame 30 0 5 0 0 0 0 1 0 0 0 0 0 0) ++ replicate 8 x.

(** Two files of blocks of two packets each. *)
Definition blocks_a : list block :=
  [Build_block 0 [example_packet 9 0 1; example_packet 9 1 2];
   Build_block 2 [example_packet 9 4 5; example_packet 9 5 6]].

Definition blocks_b : list block :=
  [Build_block 1 [example_packet 9 2 3; example_packet 9 3 4];
   Build_block 3 [example_packet 9 6 7; example_packet 9 7 8]].

Definition example_recs : list (Z * list block * buffer) :=
  [(0xfeed6666, blocks_a, []); (0xfeed6666, blocks_b, [])].

Lemma example_params : params_ok 40 1000 0.
Proof. split; lia. Qed.

Lemma example_packet_ok second frame x : 0 <= x < 256 -> packet_ok 40 (example_packet second frame x).
Proof.
  intros Hx. split.
  - unfold example_packet. by rewrite length_app, length_header_bytes, length_replicate.
  - apply Forall_app. split; [apply struct_bytes_bytes|]. by apply Forall_replicate.
Qed.

Lemma example_recs_ok : Forall (rec_ok 40 1000) example_recs.
Proof.
  repeat constructor; cbn; try lia; try done; apply example_packet_ok; lia.
Qed.

(** The gatherer that opens these files. *)
Definition gatherer_of (fl : list (option buffer)) : Mark6Gatherer :=
  match openMark6Gatherer some_malloc fl with
  | Some (Some g) => g
  | _ => {| mg_files := []; mg_packetSize := 0 |}
  end.

Definition example_gatherer : Mark6Gatherer := gatherer_of (contents 40 1000 0 example_recs).

Lemma example_rep : gather_rep 40 1000 0 example_gatherer (opened example_recs).
Proof.
  destruct (openMark6Gatherer_rep 40 1000 0 example_params some_malloc some_malloc_ok example_recs)
    as (g & E & Hg & _); [discriminate|exact example_recs_ok|].
  unfold example_gatherer, gatherer_of. by rewrite E.
Qed.

(** ** Opening and gathering *)

(** C31 Opening the files of a recording (each a header, at least two blocks of
    whole packets, and at most an unfinished block header) succeeds and leaves
    the gatherer with exactly the packets of the recording to return, the first
    ten blocks of every file in its slots; the size is that of all files. *)
Theorem openMark6Gatherer_recording P maxb fmt malloc recs :
  params_ok P maxb fmt ->
  (forall n, 0 <= n -> exists b, malloc n = Some b /\ Z.of_nat (length b) = n) ->
  recs <> [] -> Forall (rec_ok P maxb) recs ->
  exists g, openMark6Gatherer malloc (contents P maxb fmt recs) = Some (Some g) /\
    gather_rep P maxb fmt g (opened recs) /\ pending (opened recs) = all_packets recs /\
    getMark6GathererFileSize g =
      foldr (fun c n => Z.of_nat (length (default [] c)) + n) 0 (contents P maxb fmt recs).
Proof.
  intros Hpar Hmalloc Hne Hrecs.
  destruct (openMark6Gatherer_rep P maxb fmt Hpar malloc Hmalloc recs Hne Hrecs) as (g & E & Hg & Hms).
  exists g. split_and!; [done..|apply pending_opened|].
  unfold getMark6GathererFileSize, contents. clear -Hms.
  induction Hms as [|m [[sync bs] rest] ms recs [_ Hc] _ IH]; [done|].
  rewrite fmap_cons. cbn [foldr default]. rewrite IH. unfold id. by injection Hc as _ _ _ _ _ -> _ _ _.
Qed.

Lemma openMark6Gatherer_recording_witness :
  exists g, openMark6Gatherer some_malloc (contents 40 1000 0 example_recs) = Some (Some g) /\
    gather_rep 40 1000 0 g (opened example_recs) /\
    pending (opened example_recs) = all_packets example_recs /\
    getMark6GathererFileSize g =
      foldr (fun c n => Z.of_nat (length (default [] c)) + n) 0 (contents 40 1000 0 example_recs).
Proof.
  apply (openMark6Gatherer_recording 40 1000 0 some_malloc example_recs).
  - exact example_params.
  - exact some_malloc_ok.
  - discriminate.
  - exact example_recs_ok.
Defined.

(** C5 [mark6Gather] refines a merge: it terminates, never reads outside a slot,
    and returns, without the fill packets, packets taken one by one as a lowest
    head of all slots; every packet is either taken or still to come; at most
    [count] bytes are returned, and fewer than the whole packets of [count] only
    when file 0 shows no frame number above 0.  Files in time order give the
    packets in time order, and everything left is later. *)
Theorem mark6Gather_merges P maxb fmt g fs count :
  params_ok P maxb fmt -> gather_rep P maxb fmt g fs -> 0 <= count ->
  exists taken g' fs' n out, mark6Gather g count = Some (n, out, g') /\
    gathers fmt fs taken fs' /\ gather_rep P maxb fmt g' fs' /\
    out = concat (payload_of taken) /\ n = Z.of_nat (length out) /\ n <= count /\
    pending fs ≡ₚ taken ++ pending fs' /\
    (n < count - count mod Z.of_nat P -> forall s p, head_at fs' 0 s p -> packet_frame fmt p <= 0) /\
    (Forall (ordered fmt) fs ->
      StronglySorted (frame_le fmt) taken /\ forall p p', p ∈ taken -> p' ∈ pending fs' -> frame_le fmt p p').
Proof.
  intros Hpar Hg Hc. pose proof (po_packet _ _ _ Hpar).
  unfold mark6Gather. rewrite (gr_size _ _ _ _ _ Hg), (proj2 (Z.leb_gt _ _)), Z.rem_mod_nonneg by lia.
  pose proof (Z.mod_pos_bound count (Z.of_nat P) ltac:(lia)).
  pose proof (Z.div_mod count (Z.of_nat P) ltac:(lia)) as Hdiv.
  pose proof (Z.div_pos count (Z.of_nat P) Hc ltac:(lia)).
  destruct (gather_loop_rep P maxb fmt Hpar (gather_fuel g) g fs 0 (count - count mod Z.of_nat P) [] Hg)
    as (taken & g' & fs' & E & Hga & Hg' & Hok & Hle & Hend).
  - by apply (pending_fuel P maxb fmt Hpar).
  - split; [lia|nia].
  - by exists 0.
  - exists (count / Z.of_nat P). lia.
  - assert (El : length (concat (payload_of taken)) = (P * length (payload_of taken))%nat).
    { by apply (length_concat_packets P), payload_packets. }
    exists taken, g', fs', (Z.of_nat (length (concat (payload_of taken)))), (concat (payload_of taken)).
    rewrite El. rewrite Z.add_0_l in *. split_and!; try done; try lia.
    + by apply (gathers_pending fmt).
    + intros Ho. apply (gathers_sorted P maxb fmt fs taken fs' Hga); [apply (gr_loaded _ _ _ _ _ Hg)|done|].
      intros st Hst. split.
      { pose proof (proj1 (Forall_forall _ _) (gr_slots _ _ _ _ _ Hg) _ Hst) as Hl. intros E0. cbn in Hl. by rewrite E0 in Hl. }
      apply list_elem_of_lookup_1 in Hst as [k Hk].
      destruct (Forall2_lookup_r _ _ _ _ _ (gr_files _ _ _ _ _ Hg) Hk) as (m & _ & [_ Ha]).
      by apply (ahead_blocks P maxb fmt m).
Qed.

Lemma mark6Gather_merges_witness :
  exists taken g' fs' n out, mark6Gather example_gatherer 100 = Some (n, out, g') /\
    gathers 0 (opened example_recs) taken fs' /\ gather_rep 40 1000 0 g' fs' /\
    out = concat (payload_of taken) /\ n = Z.of_nat (length out) /\ n <= 100 /\
    pending (opened example_recs) ≡ₚ taken ++ pending fs' /\
    (n < 100 - 100 mod Z.of_nat 40 -> forall s p, head_at fs' 0 s p -> packet_frame 0 p <= 0) /\
    (Forall (ordered 0) (opened example_recs) ->
      StronglySorted (frame_le 0) taken /\ forall p p', p ∈ taken -> p' ∈ pending fs' -> frame_le 0 p p').
Proof.
  apply (mark6Gather_merges 40 1000 0 example_gatherer (opened example_recs) 100).
  - exact example_params.
  - exact example_rep.
  - lia.
Defined.

(** The gatherer of the example returns the payload bytes 1 to 6 in order. *)
Example mark6Gather_example :
  ((fun '(n, out, _) => (n, (fun i => out !! (40 * i + 32)%nat) <$> seq 0 7)) <$>
    mark6Gather example_gatherer 1000) =
  Some (240, [Some 1; Some 2; Some 3; Some 4; Some 5; Some 6; None]).
Proof. vm_compute. reflexivity. Qed.

(** ** Limits *)

(** No slot with data shows a frame number below the start of the search. *)
Lemma gather_nothing g m0 count :
  mg_files g !! 0%nat = Some m0 ->
  (forall f m s slot, mg_files g !! f = Some m -> m6_slot m !! s = Some slot -> 0 < bs_payloadBytes slot ->
    start_lowest (m6_slot m0) <= bs_frame slot) ->
  0 < mg_packetSize g -> mark6Gather g count = Some (0, [], g).
Proof.
  intros E0 Hlow Hsz. unfold mark6Gather. rewrite (proj2 (Z.leb_gt _ _)) by done.
  generalize (count - cmod count (mg_packetSize g)). intros c. unfold gather_fuel. cbn [gather_loop].
  destruct (0 <? c); [|done]. unfold gather_step. rewrite E0. cbn [mbind option_bind].
  destruct (select_files_spec 0 (mg_files g) (start_lowest (m6_slot m0), None)) as (H1 & _ & _).
  destruct H1 as [->|(f & s & slot & (_ & m & Hm & Hs) & Hp & _ & Hlt)]; [done|].
  specialize (Hlow _ _ _ _ Hm Hs Hp). cbn in Hlt. lia.
Qed.

(** A gatherer whose file 0 has no more packets returns nothing, whatever the
    other files still hold: the blocks that other files hold after the last
    block of file 0 are lost. *)
Theorem mark6Gather_file0_exhausted P maxb fmt g qs fs count :
  params_ok P maxb fmt -> gather_rep P maxb fmt g ((qs, []) :: fs) -> Forall (fun q => q = []) qs ->
  mark6Gather g count = Some (0, [], g).
Proof.
  intros Hpar Hg Hqs. pose proof (gr_files _ _ _ _ _ Hg) as Hf.
  destruct (Forall2_lookup_r _ _ _ 0%nat _ Hf eq_refl) as (m0 & E0 & [Hs0 _]).
  apply (gather_nothing g m0); [done| |rewrite (gr_size _ _ _ _ _ Hg); pose proof (po_packet _ _ _ Hpar); lia].
  intros f m s slot Hm Hs Hp. transitivity 0.
  - destruct (start_lowest_spec (m6_slot m0)) as [[-> _]|(i & sl & Hi & Hfr & _)]; [done|].
    destruct (Forall2_lookup_l _ _ _ _ _ Hs0 Hi) as (q & Hq & Hr).
    pose proof (sr_frame _ _ _ _ _ Hr) as E.
    rewrite (proj1 (Forall_lookup _ _) Hqs _ _ Hq) in E. lia.
  - destruct (slot_rep_cand P maxb fmt g _ f s slot Hg) as (qs' & bs & q & _ & _ & Hr); [by exists m|].
    rewrite (sr_frame _ _ _ _ _ Hr). destruct q as [|p q]; [done|].
    pose proof (sr_packets _ _ _ _ _ Hr) as [Hok _]%Forall_cons_1.
    by apply (packet_frame_range P maxb fmt Hpar).
Qed.

(** A file at its end, with the packets [q] in its first slot. *)
Definition example_end (q : list buffer) : Mark6File :=
  let h := {| bh_blocknum := 0; bh_wb_size := 88 |} in
  let slot q := {| bs_payloadBytes := Z.of_nat (40 * length q); bs_index := 0;
    bs_frame := match q with [] => 0 | p :: _ => packet_frame 0 p end;
    bs_data := concat q ++ replicate (80 - 40 * length q) 0; bs_blockHeader := h |} in
  {| m6_version := 2; m6_maxBlockSize := 88; m6_blockHeaderSize := 8; m6_packetSize := 40;
     m6_packetFormat := 0; m6_st_size := 20; m6_block1 := 0; m6_block2 := 2;
     m6_slot := slot q :: replicate 9 (slot []);
     m6_reader := {| rd_in := {| st_bytes := []; st_pos := 0 |}; rd_header := h;
                     rd_buffer := replicate 80 0; rd_bytes := 0; rd_corrupted := false |} |}.

Lemma example_end_rep q : Forall (packet_ok 40) q -> (length q <= 2)%nat ->
  file_rep 40 88 0 (example_end q) (q :: replicate 9 []) [].
Proof.
  intros Hq Hlen. pose proof (length_concat_packets 40 q Hq) as Hc. split.
  - cbn [example_end m6_slot].
    assert (H0 : forall n slot, slot_rep 40 88 0 slot [] ->
      Forall2 (slot_rep 40 88 0) (replicate n slot) (replicate n [])).
    { intros n slot Hs. induction n; constructor; done. }
    constructor; [|apply H0]; split; cbn [bs_payloadBytes bs_index bs_frame bs_data]; try done.
    + by intros ->.
    + rewrite length_app, Hc, length_replicate. lia.
    + change (Z.to_nat 0) with 0%nat. unfold slice. rewrite drop_0. by apply take_app_length'.
  - split; [|done]. split; try done. split; [done|]. exists []. split; [cbn; lia|done].
Qed.

(** File 0 is at its end, file 1 still has a packet. *)
Lemma mark6Gather_file0_exhausted_witness :
  let g := {| mg_files := [example_end []; example_end [example_packet 9 6 7]]; mg_packetSize := 40 |} in
  mark6Gather g 40 = Some (0, [], g).
Proof.
  intros g.
  apply (mark6Gather_file0_exhausted 40 88 0 g (replicate 10 []) [([example_packet 9 6 7] :: replicate 9 [], [])] 40).
  - split; lia.
  - assert (Hp : Forall (packet_ok 40) [example_packet 9 6 7])
      by (constructor; [apply example_packet_ok; lia|constructor]).
    split; [|constructor; [by intros []|constructor; [by intros []|constructor]]|by repeat constructor|reflexivity|discriminate].
    constructor; [|constructor; [|constructor]].
    + apply (example_end_rep []); [constructor|cbn; lia].
    + apply (example_end_rep [example_packet 9 6 7]); [exact Hp|cbn; lia].
  - by apply Forall_replicate.
Defined.

(** A file that is corrupt from the start. *)
Definition dead (m : Mark6File) : Prop :=
  rd_corrupted (m6_reader m) = true /\ rd_bytes (m6_reader m) = 0 /\
  Forall (fun slot => bs_payloadBytes slot = 0) (m6_slot m).

Lemma const_version m m' : m6_const m = m6_const m' -> m6_version m = m6_version m'.
Proof. by injection 1. Qed.

Lemma dead_reader_read m : rd_corrupted (m6_reader m) = true -> reader_read m = Some m.
Proof. unfold reader_read. by intros ->. Qed.

Lemma dead_fill m m' : dead m -> fill_slots m = Some m' -> dead m'.
Proof.
  intros Hd E. refine (run_iters_all _ dead _ _ _ _ Hd E). clear. intros i m m' (Hc & Hb & Hs).
  unfold Mark6FileReadBlock, take_block. destruct (m6_slot m !! i) as [slot|]; [|done].
  cbn [mbind option_bind]. rewrite Hb. cbn [Z.eqb mbind option_bind]. rewrite dead_reader_read by done.
  intros [= <-]. split_and!; [done..|]. cbn. by apply Forall_insert.
Qed.

Lemma new_slots_empty malloc n maxb payload slots : new_slots malloc n maxb payload = Some slots ->
  Forall (fun slot => bs_payloadBytes slot = 0) slots.
Proof.
  revert slots. induction n as [|n IH]; intros slots; cbn [new_slots]; [by intros [= <-]|].
  destruct (malloc payload); [|done]. cbn [mbind option_bind].
  destruct (new_slots malloc n maxb payload) as [ss|]; [|done]. intros [= <-]. constructor; auto.
Qed.

Lemma getFirstBlocks_header version maxb f bs : getFirstBlocks version maxb f = inr bs ->
  length (fst (fread 4 f)) = 4%nat.
Proof.
  unfold getFirstBlocks, fread_int32 at 1. destruct (fread 4 f) as [b f1]. cbn [fst].
  by destruct (decide (length b = 4%nat)).
Qed.

Lemma version1_dead malloc c m : openMark6File malloc c = Some (inr m) -> m6_version m = 1 -> dead m.
Proof.
  destruct c as [bytes|]; [|done]. cbn [openMark6File]. destruct (fread 20 _) as [hb f].
  destruct (negb _); [done|]. set (h := mark6_header_of_bytes hb).
  destruct (_ <=? 0); [done|]. destruct (sint _) as [payload|]; [|done]. cbn [mbind option_bind].
  destruct (malloc payload) as [rb|]; [|done].
  destruct (getFirstBlocks _ _ f) as [?|[b1 b2]] eqn:Efb; [done|].
  destruct (new_slots _ _ _ _) as [slots|] eqn:Es; [|done].
  match goal with |- context [reader_read ?x] => set (m0 := x) end.
  destruct (reader_read m0) as [m1|] eqn:Er; [|done]. cbn [mbind option_bind]. intros [= ->] Hv.
  assert (E1 : m6h_version h = 1).
  { rewrite <-Hv. symmetry. exact (const_version _ _ (reader_read_const _ _ Er)). }
  apply getFirstBlocks_header in Efb. unfold reader_read in Er. cbn [m0 m6_reader rd_corrupted m6_blockHeaderSize
    m6_maxBlockSize rd_in rd_header] in Er. rewrite E1 in Er. cbn [mark6BlockHeaderSize Z.eqb Pos.eqb] in Er.
  destruct (fread 4 f) as [b4 f1]. cbn [fst] in Efb. rewrite Efb in Er. cbn [Z.of_nat Pos.of_succ_nat Pos.succ Z.eqb Pos.eqb] in Er.
  unfold block_header in Er. cbn [bh_wb_size] in Er. rewrite decide_False in Er by lia.
  cbn [bh_wb_size Z.sub Z.opp Z.add Z.pos_sub] in Er. injection Er as <-.
  split_and!; [done..|]. cbn. by apply new_slots_empty in Es.
Qed.

Lemma open_files_all malloc fl n ms : open_files malloc fl = Some (n, ms) ->
  0 <= n /\ (n = 0 -> Forall2 (fun c m' => exists m, openMark6File malloc c = Some (inr m) /\
    fill_slots m = Some m') fl ms).
Proof.
  revert n ms. induction fl as [|c fl IH]; intros n ms; cbn [open_files]; [by intros [= <- <-]|].
  destruct (openMark6File malloc c) as [[e|m]|] eqn:Eo; [| |done]; cbn [mbind option_bind].
  - destruct (open_files malloc fl) as [[nb ms']|]; [|done]. intros [= <- <-].
    destruct (IH nb ms' eq_refl). split; lia.
  - destruct (fill_slots m) as [m'|] eqn:Ef; [|done]. cbn [mbind option_bind].
    destruct (open_files malloc fl) as [[nb ms']|]; [|done]. intros [= <- <-].
    destruct (IH nb ms' eq_refl) as [H1 H2]. split; [done|]. intros H0. constructor; [by exists m|by apply H2].
Qed.

(** Every file of a gatherer was opened. *)
Lemma gatherer_files malloc fl g : openMark6Gatherer malloc fl = Some (Some g) ->
  mg_files g <> [] /\ Forall2 (fun c m' => exists m, openMark6File malloc c = Some (inr m) /\
    fill_slots m = Some m') fl (mg_files g).
Proof.
  unfold openMark6Gatherer. destruct (open_files malloc fl) as [[n ms]|] eqn:E; [|done]. cbn [mbind option_bind].
  destruct (open_files_all _ _ _ _ E) as [H1 H2]. destruct (Z.ltb_spec 0 n); [done|].
  destruct ms as [|m0 ms]; [done|]. intros [= <-]. split; [done|]. apply H2. lia.
Qed.

(** Blocks of version 1 are never read: [openMark6File] sets the block size of
    [readHeader] from a field that is not yet set, the reader takes the file as
    corrupt, and a gatherer over such files returns nothing. *)
Theorem version1_unreadable malloc fl g count :
  openMark6Gatherer malloc fl = Some (Some g) -> Forall (fun m => m6_version m = 1) (mg_files g) ->
  0 < mg_packetSize g -> mark6Gather g count = Some (0, [], g).
Proof.
  intros E Hv Hsz. destruct (gatherer_files _ _ _ E) as [Hne Hms].
  destruct (mg_files g !! 0%nat) as [m0|] eqn:E0; [|by destruct (mg_files g)].
  apply (gather_nothing g m0); [done| |done]. intros f m s slot Hm Hs Hp. exfalso.
  assert (Hd : dead m).
  { destruct (Forall2_lookup_r _ _ _ _ _ Hms Hm) as (c & _ & m1 & Ho & Hf).
    apply (dead_fill m1 m); [|done]. apply (version1_dead _ _ _ Ho).
    rewrite <-(const_version m m1) by by apply fill_slots_const. exact (proj1 (Forall_lookup _ _) Hv _ _ Hm). }
  destruct Hd as (_ & _ & Hd). pose proof (proj1 (Forall_lookup _ _) Hd _ _ Hs) as Hz. cbn in Hz. lia.
Qed.

(** A file of version 1 with two blocks of two packets each. *)
Definition example_version1 : buffer :=
  le_split 4 0xfeed6666 ++ le_split 4 1 ++ le_split 4 84 ++ le_split 4 0 ++ le_split 4 40 ++
  le_split 4 0 ++ example_packet 9 0 1 ++ example_packet 9 1 2 ++
  le_split 4 1 ++ example_packet 9 2 3 ++ example_packet 9 3 4.

Definition example_gatherer1 : Mark6Gatherer := gatherer_of [Some example_version1].

Lemma version1_unreadable_witness :
  openMark6Gatherer some_malloc [Some example_version1] = Some (Some example_gatherer1) /\
  mark6Gather example_gatherer1 160 = Some (0, [], example_gatherer1).
Proof.
  split; [vm_compute; reflexivity|].
  apply (version1_unreadable some_malloc [Some example_version1] example_gatherer1 160).
  - vm_compute. reflexivity.
  - vm_compute. constructor; [reflexivity|constructor].
  - vm_compute. reflexivity.
Defined.

(** The errors of [openMark6File]: no file, no whole header, an unknown
    version, fewer than two blocks; a gatherer is opened only if every file is. *)
Theorem openMark6File_errors P maxb fmt malloc :
  params_ok P maxb fmt ->
  (forall n, 0 <= n -> exists b, malloc n = Some b /\ Z.of_nat (length b) = n) ->
  openMark6File malloc None = Some (inl (-1)) /\
  (forall bytes, (length bytes < 20)%nat -> openMark6File malloc (Some bytes) = Some (inl (-6))) /\
  (forall bytes, (20 <= length bytes)%nat -> int32_at bytes 4 <> 1 -> int32_at bytes 4 <> 2 ->
    openMark6File malloc (Some bytes) = Some (inl (-2))) /\
  (forall sync bs rest, Forall (block_ok P maxb) bs -> (length bs < 2)%nat -> (length rest < 4)%nat ->
    openMark6File malloc (Some (recording P maxb fmt sync bs rest)) = Some (inl (-4))) /\
  (forall fl g, openMark6Gatherer malloc fl = Some (Some g) ->
    Forall2 (fun c m' => exists m, openMark6File malloc c = Some (inr m) /\ fill_slots m = Some m') fl (mg_files g)).
Proof.
  intros Hpar Hmalloc. split; [done|]. split_and!; [| | |by intros fl g [_ ?]%gatherer_files].
  - intros bytes Hl. cbn [openMark6File]. unfold fread. cbn [st_pos st_bytes].
    change (Z.to_nat 20) with 20%nat. change (Z.to_nat 0) with 0%nat. rewrite drop_0.
    rewrite (proj2 (Nat.eqb_neq _ 20)) by (rewrite length_take; lia). done.
  - intros bytes Hl H1 H2. cbn [openMark6File]. unfold fread. cbn [st_pos st_bytes].
    change (Z.to_nat 20) with 20%nat. change (Z.to_nat 0) with 0%nat. rewrite drop_0.
    rewrite (proj2 (Nat.eqb_eq _ 20)) by (rewrite length_take; lia). cbn [negb].
    assert (E : m6h_version (mark6_header_of_bytes (take 20 bytes)) = int32_at bytes 4).
    { cbn [mark6_header_of_bytes m6h_version]. unfold int32_at. do 2 f_equal.
      pose proof (slice_slice bytes 0 20 4 4 ltac:(lia)) as Hs. unfold slice at 2 in Hs. by rewrite drop_0 in Hs. }
    rewrite E. unfold mark6BlockHeaderSize.
    by rewrite (proj2 (Z.eqb_neq _ 1)), (proj2 (Z.eqb_neq _ 2)) by done.
  - intros sync bs rest Hbs Hlen Hrest. by apply (one_block_refused P maxb fmt Hpar).
Qed.

Lemma openMark6File_errors_witness :
  openMark6File some_malloc (Some (recording 40 1000 0 7 [Build_block 0 [example_packet 9 0 1]] [])) = Some (inl (-4)).
Proof.
  destruct (openMark6File_errors 40 1000 0 some_malloc example_params some_malloc_ok) as (_ & _ & _ & H & _).
  apply H; [|cbn; lia|cbn; lia].
  repeat constructor; cbn; try lia; try done; apply example_packet_ok; lia.
Defined.

(** ** Complete sets of files *)

(** The largest first block number and the smallest second one. *)
Lemma foldl_max ms a : let r := foldl (fun a m => if a <? m6_block1 m then m6_block1 m else a) a ms in
  a <= r /\ Forall (fun m => m6_block1 m <= r) ms /\ (r = a \/ exists m, m ∈ ms /\ r = m6_block1 m).
Proof.
  cbn zeta. revert a. induction ms as [|m ms IH]; intros a; cbn [foldl]; [split; [lia|]; by split; [|left]|].
  destruct (IH (if a <? m6_block1 m then m6_block1 m else a)) as (H1 & H2 & H3).
  destruct (Z.ltb_spec a (m6_block1 m)); (split; [lia|]); (split; [constructor; [lia|done]|]).
  - right. destruct H3 as [->|(x & Hx & ->)]; [exists m|exists x]; (split; [|done]); [by left|by right].
  - destruct H3 as [->|(x & Hx & ->)]; [by left|right]. exists x. split; [by right|done].
Qed.

Lemma foldl_min ms b : let r := foldl (fun b m => if m6_block2 m <? b then m6_block2 m else b) b ms in
  r <= b /\ Forall (fun m => r <= m6_block2 m) ms /\ (r = b \/ exists m, m ∈ ms /\ r = m6_block2 m).
Proof.
  cbn zeta. revert b. induction ms as [|m ms IH]; intros b; cbn [foldl]; [split; [lia|]; by split; [|left]|].
  destruct (IH (if m6_block2 m <? b then m6_block2 m else b)) as (H1 & H2 & H3).
  destruct (Z.ltb_spec (m6_block2 m) b); (split; [lia|]); (split; [constructor; [lia|done]|]).
  - right. destruct H3 as [->|(x & Hx & ->)]; [exists m|exists x]; (split; [|done]); [by left|by right].
  - destruct H3 as [->|(x & Hx & ->)]; [by left|right]. exists x. split; [by right|done].
Qed.

(** Distinct numbers below [k], as many as [k], are all of them. *)
Lemma distinct_below (l : list Z) (k : nat) : NoDup l -> Forall (fun x => 0 <= x < Z.of_nat k) l ->
  (length l <= k)%nat /\ (length l = k -> forall x, 0 <= x < Z.of_nat k -> x ∈ l).
Proof.
  intros Hnd Hl. set (full := Z.of_nat <$> seq 0 k).
  assert (Hin : forall x, 0 <= x < Z.of_nat k -> x ∈ full).
  { intros x Hx. apply list_elem_of_fmap. exists (Z.to_nat x). rewrite elem_of_seq. lia. }
  assert (Hincl : incl l full).
  { intros x Hx. apply list_elem_of_In, Hin. rewrite Forall_forall in Hl. by apply Hl, list_elem_of_In. }
  assert (Hnd' : List.NoDup l) by by apply NoDup_ListNoDup.
  assert (Hlen : length full = k) by (unfold full; by rewrite length_fmap, length_seq).
  split; [rewrite <-Hlen; by apply List.NoDup_incl_length|].
  intros E x Hx. apply list_elem_of_In.
  apply (List.NoDup_length_incl Hnd' (l' := full)); [lia|done|]. by apply list_elem_of_In, Hin.
Qed.

(** Files of a recording over [k] files, each with the blocks of one residue
    class, are complete exactly if there are [k] of them. *)
Theorem isMark6GatherComplete_striped g k :
  mg_files g <> [] -> Z.of_nat k <= 1000000 ->
  Forall (fun m => 0 <= m6_block1 m < Z.of_nat k /\ m6_block2 m = m6_block1 m + Z.of_nat k) (mg_files g) ->
  NoDup (m6_block1 <$> mg_files g) ->
  isMark6GatherComplete g = if decide (length (mg_files g) = k) then 1 else 0.
Proof.
  intros Hne Hk Hall Hnd. unfold isMark6GatherComplete. cbv zeta.
  destruct (mg_files g) as [|m0 ms0] eqn:Ems; [done|]. pose proof (f_equal length Ems) as Hpos. cbn [length] in Hpos. rewrite <-Ems in *. clear Hne Ems.
  destruct (foldl_max (mg_files g) 0) as (A1 & A2 & A3). destruct (foldl_min (mg_files g) 1000000) as (B1 & B2 & B3).
  set (a := foldl _ 0 _) in *. set (b := foldl _ 1000000 _) in *.
  destruct (distinct_below (m6_block1 <$> mg_files g) k Hnd) as [Hle Hfull].
  { apply Forall_fmap. eapply Forall_impl; [exact Hall|]. cbn. tauto. }
  rewrite length_fmap in Hle, Hfull.
  assert (Hb : Z.of_nat k <= b).
  { destruct B3 as [->|(m & Hm & ->)]; [lia|]. rewrite Forall_forall in Hall. specialize (Hall m Hm). lia. }
  destruct (decide (length (mg_files g) = k)) as [E|E].
  - assert (Hk0 : k <> 0%nat) by lia. specialize (Hfull E).
    rewrite Forall_forall in A2, B2, Hall.
    assert (H0 : forall x, 0 <= x < Z.of_nat k -> exists m, m ∈ mg_files g /\ m6_block1 m = x).
    { intros x Hx. apply Hfull, list_elem_of_fmap in Hx as (m & -> & Hm). by exists m. }
    destruct (H0 0) as (m & Hm0 & E0); [lia|]. destruct (H0 (Z.of_nat k - 1)) as (m1 & Hm1 & E1); [lia|].
    pose proof (B2 _ Hm0) as HB. pose proof (Hall _ Hm0) as HA. pose proof (A2 _ Hm1) as HC. cbn in HA, HB, HC.
    assert (a <= Z.of_nat k - 1).
    { destruct A3 as [->|(m2 & Hm & ->)]; [lia|]. specialize (Hall m2 Hm). lia. }
    rewrite (proj2 (Z.eqb_eq b (a + 1))), (proj2 (Z.eqb_eq b _)) by lia. done.
  - rewrite (proj2 (Z.eqb_neq b (Z.of_nat _))) by lia. by rewrite andb_false_r.
Qed.

Lemma isMark6GatherComplete_striped_witness : isMark6GatherComplete example_gatherer = 1.
Proof.
  etransitivity; [apply (isMark6GatherComplete_striped example_gatherer 2)|].
  - vm_compute. discriminate.
  - lia.
  - vm_compute. repeat constructor; discriminate.
  - vm_compute. apply NoDup_cons; split; [|apply NoDup_singleton]. by intros [H|H]%elem_of_cons; [|apply elem_of_nil in H].
  - vm_compute. reflexivity.
Defined.
