(* ===== verification/Mark6Seek.v ===== *)
(** * Mark6Seek: positioning the gatherer

    [mark6Seeker] and [seekMark6Gather] of [mark6gather.c]: every file of the
    gatherer is positioned at its first block whose number is not below the
    target, guessed from the block size and corrected by reading block numbers,
    and its slots are filled from there.  The theorems are about recordings
    striped over the files: the file with remainder [r] has the blocks
    [r], [r + k], [r + 2 k], and so on. *)
From S2P Require Export Mark6GatherTheorems.
#[local] Open Scope Z_scope.

(** ** Operations *)

(** [sizeof(Mark6Header)]. *)
Definition MARK6_HEADER_BYTES : Z := 20.

(** [fseeko] with its result ignored. *)
Definition seek_to (pos : Z) (f : stream) : stream := default f (fseeko pos f).

Definition m6_set_in (m : Mark6File) (f : stream) : Mark6File :=
  let r := m6_reader m in
  m6_set_reader m {| rd_in := f; rd_header := rd_header r; rd_buffer := rd_buffer r;
                     rd_bytes := rd_bytes r; rd_corrupted := rd_corrupted r |}.

(** Up to [n] corrections of the position.  A block number that cannot be read
    is an indeterminate value, of which nothing is known. *)
Fixpoint refine_loop (n : nat) (st_size nFile blockSize targetBlock pos : Z) (f : stream)
    : option (Z * stream) :=
  match n with
  | O => Some (pos, f)
  | S n =>
      let '(v, f) := fread_int32 (seek_to pos f) in
      block ← v;
      deltaBlock ← sint (block - targetBlock);
      limit ← sint (4 * nFile);
      if (deltaBlock <=? 0) && (- limit <? deltaBlock) then Some (pos, f) else
      pos ← (if (deltaBlock <? nFile) && (0 <? deltaBlock) then Some (pos - blockSize)
             else d ← sint (blockSize * cdiv deltaBlock nFile); Some (pos - d));
      let pos := if pos <? 0 then MARK6_HEADER_BYTES else pos in
      let pos := if st_size <=? pos then pos - blockSize else pos in
      refine_loop n st_size nFile blockSize targetBlock pos f
  end.

(** Up to [n] steps to the first block that is not below the target. *)
Fixpoint advance_loop (n : nat) (blockSize targetBlock pos : Z) (f : stream) : option (Z * stream) :=
  match n with
  | O => Some (pos, f)
  | S n =>
      let '(v, f) := fread_int32 (seek_to pos f) in
      block ← v;
      if targetBlock <=? block then Some (pos, f)
      else advance_loop n blockSize targetBlock (pos + blockSize) f
  end.

(** The target block and the position to advance from. *)
Definition seek_guess (m : Mark6File) (nFile blockSize position : Z) : option (Z * Z * stream) :=
  let st_size := m6_st_size m in
  let f := rd_in (m6_reader m) in
  data ← sint (blockSize - m6_blockHeaderSize m);
  if (data =? 0) || (nFile =? 0) then None else
  let targetBlock := s32 (cdiv (cdiv st_size data) nFile) in
  if position =? 0 then Some (targetBlock, MARK6_HEADER_BYTES, f)
  else if u64 st_size <? u64 (blockSize + MARK6_HEADER_BYTES) then Some (targetBlock, MARK6_HEADER_BYTES, f)
  else
    let targetBlock := s32 (cdiv position data) in
    offset ← sint (blockSize * cdiv targetBlock nFile);
    let pos := MARK6_HEADER_BYTES + offset in
    pos ← (if st_size <=? pos then offset ← sint (blockSize * targetBlock); Some (MARK6_HEADER_BYTES + offset)
           else Some pos);
    '(pos, f) ← refine_loop 5 st_size nFile blockSize targetBlock pos f;
    Some (targetBlock, pos, f).

(** The thread between its two barrier waits: the file is positioned. *)
Definition seek_section (m : Mark6File) (nFile position : Z) : option Mark6File :=
  payload ← sint (m6_maxBlockSize m - m6_blockHeaderSize m);
  if m6_packetSize m =? 0 then None else
  blockSize ← sint (m6_maxBlockSize m - cmod payload (m6_packetSize m));
  '(targetBlock, pos, f) ← seek_guess m nFile blockSize position;
  '(pos, f) ← advance_loop (Z.to_nat (2 * nFile)) blockSize targetBlock pos f;
  Some (m6_set_in m (seek_to pos f)).

(** The whole thread: the second wait lets the reader read, and the slots are
    filled from there. *)
Definition mark6Seeker (m : Mark6File) (nFile position : Z) : option Mark6File :=
  m ← seek_section m nFile position; m ← reader_read m; fill_slots m.

(** One seeker per file; they share nothing. *)
Definition seekMark6Gather (g : Mark6Gatherer) (position : Z) : option (Z * Mark6Gatherer) :=
  if getMark6GathererFileSize g <=? position then Some (-2, g) else
  files ← mapM (fun m => mark6Seeker m (Z.of_nat (length (mg_files g))) position) (mg_files g);
  Some (0, {| mg_files := files; mg_packetSize := mg_packetSize g |}).

(** ** Arithmetic and filters *)

Lemma sint_None x : 2 ^ 31 <= x -> sint x = None.
Proof. intros Hx. unfold sint. by case_decide; [lia|]. Qed.

Lemma filter_all {A} (Q : A -> Prop) `{!forall x, Decision (Q x)} l : Forall Q l -> filter Q l = l.
Proof. induction 1 as [|x l Hx _ IH]; [done|]. by rewrite filter_cons_True, IH. Qed.

Lemma filter_none {A} (Q : A -> Prop) `{!forall x, Decision (Q x)} l : Forall (fun x => ~ Q x) l -> filter Q l = [].
Proof. induction 1 as [|x l Hx _ IH]; [done|]. by rewrite filter_cons_False. Qed.

(** ** Recordings striped over [k] files *)

Section Striped.
Context (P : nat) (maxb fmt : Z) (Hpar : params_ok P maxb fmt).
(* files, packets in a full block *)
Context (k n : nat).

Definition full_size : Z := 8 + Z.of_nat (P * n).

(** The file with the blocks [r], [r + k], ..., all full but the last. *)
Definition striped (r : Z) (bs : list block) : Prop :=
  0 <= r < Z.of_nat k /\ forall j b, bs !! j = Some b ->
    blk_num b = r + Z.of_nat k * Z.of_nat j /\
    ((S j < length bs)%nat -> length (blk_packets b) = n).

Lemma drop_recording r sync bs rest j : striped r bs -> Forall (block_ok P maxb) bs -> (j < length bs)%nat ->
  drop (Z.to_nat (MARK6_HEADER_BYTES + full_size * Z.of_nat j)) (recording P maxb fmt sync bs rest) =
    encode_blocks P (drop j bs) ++ rest.
Proof using.
  intros [Hr Hs] Hb. induction j as [|j IH]; intros Hj.
  - rewrite Z.mul_0_r, Z.add_0_r. unfold recording. apply drop_app_length'.
    unfold encode_header. by rewrite !length_app, !length_le_split.
  - destruct (lookup_lt_is_Some_2 bs j) as [b Hbj]; [lia|]. destruct (Hs j b Hbj) as [_ Hlen].
    assert (E : Z.to_nat (MARK6_HEADER_BYTES + full_size * Z.of_nat (S j)) =
      (Z.to_nat (MARK6_HEADER_BYTES + full_size * Z.of_nat j) + Z.to_nat full_size)%nat)
      by (unfold MARK6_HEADER_BYTES, full_size; lia).
    rewrite E, <-drop_drop, IH by lia. rewrite (drop_S _ _ _ Hbj).
    unfold encode_blocks. rewrite fmap_cons. cbn [concat]. rewrite <-app_assoc.
    apply drop_app_length'. unfold encode_block.
    pose proof (proj1 (Forall_lookup _ _) Hb _ _ Hbj) as [_ Hp _ _].
    rewrite !length_app, !length_le_split, (length_concat_packets P), Hlen by (done || lia).
    unfold full_size. lia.
Qed.

(** The file that is being positioned. *)
Context (sync : Z) (bs : list block) (rest : buffer) (r : Z).
Context (Hbs : Forall (block_ok P maxb) bs) (Hstr : striped r bs).

Lemma block_num j : (j < length bs)%nat -> - 2 ^ 31 <= r + Z.of_nat k * Z.of_nat j < 2 ^ 31.
Proof using Hbs Hstr.
  intros Hj. destruct (lookup_lt_is_Some_2 bs j Hj) as [b Hb].
  destruct Hstr as [_ Hs]. destruct (Hs j b Hb) as [<- _].
  exact (bo_num _ _ _ (proj1 (Forall_lookup _ _) Hbs _ _ Hb)).
Qed.

Lemma read_num f j : st_bytes f = recording P maxb fmt sync bs rest -> (j < length bs)%nat ->
  exists f', fread_int32 (seek_to (MARK6_HEADER_BYTES + full_size * Z.of_nat j) f) =
    (Some (r + Z.of_nat k * Z.of_nat j), f') /\ st_bytes f' = recording P maxb fmt sync bs rest.
Proof using Hbs Hstr.
  intros Hf Hj. destruct (lookup_lt_is_Some_2 bs j Hj) as [b Hb].
  pose proof Hstr as [_ Hs]. destruct (Hs j b Hb) as [Hnum _].
  pose proof (drop_recording r sync bs rest j Hstr Hbs Hj) as Hd.
  unfold seek_to, fseeko. set (pos := MARK6_HEADER_BYTES + full_size * Z.of_nat j) in *.
  assert (Hpos : 0 <= pos) by (unfold pos, MARK6_HEADER_BYTES, full_size; lia).
  rewrite (proj2 (Z.ltb_ge _ _)) by done. cbn [default]. unfold id.
  destruct (fread_int32_split {| st_bytes := st_bytes f; st_pos := pos |} (blk_num b)
    (le_split 4 (8 + Z.of_nat (P * length (blk_packets b))) ++ concat (blk_packets b) ++
     encode_blocks P (drop (S j) bs) ++ rest)) as (f' & E & Eb & _).
  - done.
  - cbn [st_pos st_bytes]. rewrite Hf, Hd, (drop_S _ _ _ Hb). unfold encode_blocks. rewrite fmap_cons.
    cbn [concat]. unfold encode_block at 1. by rewrite <-!app_assoc.
  - rewrite Hnum. by apply block_num.
  - exists f'. rewrite <-Hnum, E. split; [done|]. by rewrite Eb.
Qed.

Lemma block_before_end j : (j < length bs)%nat -> MARK6_HEADER_BYTES + full_size * Z.of_nat j <
  Z.of_nat (length (recording P maxb fmt sync bs rest)).
Proof using Hbs Hstr.
  intros Hj. pose proof (drop_recording r sync bs rest j Hstr Hbs Hj) as E.
  apply (f_equal length) in E. destruct (lookup_lt_is_Some_2 bs j Hj) as [b Hb].
  rewrite (drop_S _ _ _ Hb) in E. unfold encode_blocks in E. rewrite fmap_cons in E. cbn [concat] in E.
  unfold encode_block in E. rewrite length_drop, !length_app, !length_le_split in E.
  set (w := MARK6_HEADER_BYTES + full_size * Z.of_nat j) in *. lia.
Qed.

(** Advancing reaches the first block that is not below the target, unless the
    steps do not suffice. *)
Lemma advance_lands target d q f :
  st_bytes f = recording P maxb fmt sync bs rest ->
  (forall j, (q <= j < q + d)%nat -> (j < length bs)%nat /\ r + Z.of_nat k * Z.of_nat j < target) ->
  forall steps, (d <= steps)%nat ->
  (d = steps \/ (q + d < length bs)%nat /\ target <= r + Z.of_nat k * Z.of_nat (q + d)) ->
  exists f', advance_loop steps full_size target (MARK6_HEADER_BYTES + full_size * Z.of_nat q) f =
    Some (MARK6_HEADER_BYTES + full_size * Z.of_nat (q + d), f') /\
    st_bytes f' = recording P maxb fmt sync bs rest.
Proof using Hbs Hstr.
  revert q f. induction d as [|d IH]; intros q f Hf Hlow steps Hsteps Hend; cbn [advance_loop].
  - rewrite Nat.add_0_r in *. destruct steps as [|steps]; [by exists f|]. cbn [advance_loop].
    destruct Hend as [|[Hq Ht]]; [done|]. destruct (read_num f q Hf Hq) as (f' & -> & Hf').
    cbn [mbind option_bind]. rewrite (proj2 (Z.leb_le _ _)) by done. by exists f'.
  - destruct steps as [|steps]; [lia|]. cbn [advance_loop].
    destruct (Hlow q ltac:(lia)) as [Hq Ht]. destruct (read_num f q Hf Hq) as (f1 & -> & Hf1).
    cbn [mbind option_bind]. rewrite (proj2 (Z.leb_gt _ _)) by done.
    replace (MARK6_HEADER_BYTES + full_size * Z.of_nat q + full_size) with
      (MARK6_HEADER_BYTES + full_size * Z.of_nat (S q)) by lia.
    destruct (IH (S q) f1 Hf1) with (steps := steps) as (f' & E & Hf').
    + intros j Hj. apply Hlow. lia.
    + lia.
    + replace (S q + d)%nat with (q + S d)%nat by lia. destruct Hend; [left; lia|by right].
    + exists f'. by replace (q + S d)%nat with (S q + d)%nat by lia.
Qed.

(** The first block that is not below the target. *)
Definition first_at (target : Z) (j : nat) : Prop :=
  (j < length bs)%nat /\ target <= r + Z.of_nat k * Z.of_nat j /\
  (j = 0%nat \/ r + Z.of_nat k * (Z.of_nat j - 1) < target).

(** The blocks from the target on. *)
Lemma first_at_later target j : 0 <= target -> first_at target j ->
  drop j bs = filter (fun b => target <= blk_num b) bs.
Proof using Hstr.
  intros Ht (Hj & Hjt & Hj0). destruct Hstr as [Hr Hs].
  assert (E1 : filter (fun b => target <= blk_num b) (take j bs) = []).
  { apply filter_none. apply Forall_lookup. intros i b [Hb Hi]%lookup_take_Some.
    destruct (Hs i b Hb) as [-> _]. nia. }
  assert (E2 : filter (fun b => target <= blk_num b) (drop j bs) = drop j bs).
  { apply filter_all. apply Forall_lookup. intros i b Hb. rewrite lookup_drop in Hb.
    destruct (Hs _ b Hb) as [-> _]. nia. }
  rewrite <-(take_drop j bs) at 2. by rewrite filter_app, E1, E2.
Qed.

Lemma first_at_exists target b : b ∈ bs -> target <= blk_num b -> exists j, first_at target j.
Proof using Hstr.
  intros Hb Ht. destruct Hstr as [Hr Hs].
  apply list_elem_of_lookup_1 in Hb as [i Hi]. destruct (Hs i b Hi) as [Hnum _]. rewrite Hnum in Ht.
  apply lookup_lt_Some in Hi. clear Hnum. induction i as [|i IH].
  - exists 0%nat. split; [done|]. split; [done|by left].
  - destruct (decide (target <= r + Z.of_nat k * Z.of_nat i)) as [Hle|Hgt]; [apply IH; lia|].
    exists (S i). split; [done|]. split; [done|right]. lia.
Qed.

Lemma block_size m : m6_const m = file_const P maxb fmt sync bs rest ->
  m6_maxBlockSize m = maxb /\ m6_blockHeaderSize m = 8 /\ m6_packetSize m = Z.of_nat P /\
  m6_packetFormat m = fmt /\ m6_st_size m = Z.of_nat (length (recording P maxb fmt sync bs rest)) /\
  st_bytes (rd_in (m6_reader m)) = recording P maxb fmt sync bs rest.
Proof using. intros H. injection H. intros. by split_and!. Qed.

(** From the guess on: the file is at block [j], and ten blocks from there fill
    the slots. *)
Lemma fill_from m f j qs bs0 : (j <= length bs)%nat -> (length rest < 8)%nat ->
  file_rep P maxb fmt m qs bs0 -> length qs = MARK6_BUFFER_SLOTS ->
  m6_const m = file_const P maxb fmt sync bs rest ->
  st_bytes f = recording P maxb fmt sync bs rest ->
  drop (Z.to_nat (MARK6_HEADER_BYTES + full_size * Z.of_nat j)) (recording P maxb fmt sync bs rest) =
    encode_blocks P (drop j bs) ++ rest ->
  exists m', (m ← reader_read (m6_set_in m (seek_to (MARK6_HEADER_BYTES + full_size * Z.of_nat j) f)); fill_slots m)
      = Some m' /\ file_rep P maxb fmt m' (fst (opened_state (drop j bs))) (snd (opened_state (drop j bs))) /\
    m6_const m' = file_const P maxb fmt sync bs rest.
Proof using Hbs Hpar.
  intros Hj Hrest [Hs Ha] Hqs Hc Hf Hd. destruct (block_size m Hc) as (E1 & E2 & E3 & E4 & E5 & E6).
  set (pos := MARK6_HEADER_BYTES + full_size * Z.of_nat j) in *.
  assert (Hpos : 0 <= pos) by (unfold pos, MARK6_HEADER_BYTES, full_size; lia).
  unfold seek_to, fseeko. rewrite (proj2 (Z.ltb_ge _ _)) by done. cbn [default]. unfold id. rewrite Hf.
  set (m1 := m6_set_in m _).
  assert (Hr : ready P maxb fmt m1 (drop j bs)).
  { assert (Hx : exists bs1, ready P maxb fmt m bs1) by (destruct bs0; cbn [ahead] in Ha; [|destruct Ha as [_ Ha]];
      destruct Ha as [Ha _]; by eexists).
    destruct Hx as (bs1 & [_ _ Hcl Hl _]). split; cbn; try done.
    - by apply Forall_drop.
    - split; [done|]. by exists rest. }
  destruct (reader_read_ahead P maxb fmt Hpar m1 _ Hr) as (m2 & E & Ha2 & Es). rewrite E. cbn [mbind option_bind].
  destruct (fill_slots_rep P maxb fmt Hpar m2 qs (drop j bs)) as (m3 & E7 & H3); [done|by rewrite Es|done|].
  exists m3. split; [done|]. split; [done|].
  rewrite (fill_slots_const _ _ E7), (reader_read_const _ _ E), <-Hc. apply const_set_reader. cbn. by rewrite E6.
Qed.

Lemma fill_at m f j qs bs0 : (j < length bs)%nat -> (length rest < 8)%nat ->
  file_rep P maxb fmt m qs bs0 -> length qs = MARK6_BUFFER_SLOTS ->
  m6_const m = file_const P maxb fmt sync bs rest ->
  st_bytes f = recording P maxb fmt sync bs rest ->
  exists m', (m ← reader_read (m6_set_in m (seek_to (MARK6_HEADER_BYTES + full_size * Z.of_nat j) f)); fill_slots m)
      = Some m' /\ file_rep P maxb fmt m' (fst (opened_state (drop j bs))) (snd (opened_state (drop j bs))) /\
    m6_const m' = file_const P maxb fmt sync bs rest.
Proof using Hbs Hpar Hstr.
  intros Hj Hrest Hf Hqs Hc Hst. apply (fill_from m f j qs bs0); [lia|done..|].
  by apply (drop_recording r).
Qed.

Context (Hk : (0 < k)%nat) (Hk4 : 4 * Z.of_nat k < 2 ^ 31) (Hn : (0 < n)%nat).

Lemma refine_lands steps target j q f :
  0 <= target -> first_at target j ->
  - Z.of_nat k < r + Z.of_nat k * Z.of_nat q - target < Z.of_nat k -> (q < length bs)%nat ->
  st_bytes f = recording P maxb fmt sync bs rest ->
  exists q' f', refine_loop steps (Z.of_nat (length (recording P maxb fmt sync bs rest))) (Z.of_nat k) full_size
      target (MARK6_HEADER_BYTES + full_size * Z.of_nat q) f =
    Some (MARK6_HEADER_BYTES + full_size * Z.of_nat q', f') /\
    (q' = j \/ S q' = j) /\ st_bytes f' = recording P maxb fmt sync bs rest.
Proof using Hbs Hstr Hk Hk4 Hn Hpar.
  intros Ht (Hj & Hjt & Hj1). pose proof Hstr as [Hr _]. pose proof (po_packet _ _ _ Hpar) as HP.
  assert (HPn : (32 <= P * n)%nat) by nia. revert q f. induction steps as [|steps IH]; intros q f Hd Hq Hf; cbn [refine_loop].
  { exists q, f. split; [done|]. split; [|done]. nia. }
  destruct (read_num f q Hf Hq) as (f1 & -> & Hf1). cbn [mbind option_bind].
  rewrite !sint_Some by lia. cbn [mbind option_bind].
  destruct (Z.leb_spec (r + Z.of_nat k * Z.of_nat q - target) 0) as [Hle|Hgt]; cbn [andb].
  - rewrite (proj2 (Z.ltb_lt _ _)) by lia. exists q, f1. split; [done|]. split; [nia|done].
  - rewrite (proj2 (Z.ltb_lt _ (Z.of_nat k))), (proj2 (Z.ltb_lt 0 _)) by lia. cbn [andb].
    pose proof (block_before_end q Hq) as Hbig.
    set (pos := MARK6_HEADER_BYTES + full_size * Z.of_nat q - full_size).
    set (pos' := if pos <? 0 then MARK6_HEADER_BYTES else pos).
    assert (E : exists q', pos' = MARK6_HEADER_BYTES + full_size * Z.of_nat q' /\ (q' <= q)%nat /\
      - Z.of_nat k < r + Z.of_nat k * Z.of_nat q' - target < Z.of_nat k).
    { unfold pos', pos. destruct q as [|q].
      - rewrite (proj2 (Z.ltb_lt _ _)) by (rewrite Z.mul_0_r; unfold MARK6_HEADER_BYTES, full_size; lia).
        exists 0%nat. split; [by rewrite Z.mul_0_r|]. by split.
      - rewrite (proj2 (Z.ltb_ge _ _)) by (unfold MARK6_HEADER_BYTES, full_size; lia).
        rewrite Nat2Z.inj_succ in *. exists q. split_and!; nia. }
    destruct E as (q' & E & Hqq & Hd'). cbn [mbind option_bind]. fold pos'. rewrite E.
    rewrite (proj2 (Z.leb_gt _ _)) by (unfold full_size in *; nia).
    by apply IH; [|lia|].
Qed.
(** A full block holds all packets that fit. *)
Context (Hmaxb : maxb - 8 - (maxb - 8) mod Z.of_nat P = Z.of_nat (P * n)).

Lemma block_size_int : sint (maxb - 8) = Some (maxb - 8) /\
  sint (maxb - cmod (maxb - 8) (Z.of_nat P)) = Some full_size /\
  sint (full_size - 8) = Some (Z.of_nat (P * n)).
Proof using Hpar Hmaxb.
  clear Hk Hk4 Hn.
  pose proof (po_block _ _ _ Hpar). pose proof (po_packet _ _ _ Hpar).
  rewrite Z.rem_mod_nonneg by lia. pose proof (Z.mod_pos_bound (maxb - 8) (Z.of_nat P) ltac:(lia)).
  unfold full_size. split_and!; rewrite sint_Some by lia; f_equal; lia.
Qed.

(** The target block of a position. *)
Definition target_of (position : Z) : Z := position / Z.of_nat (P * n).

(** A file with a block at or after the target, which is in reach of an [int],
    is positioned at the first such block. *)
Lemma seeker_lands m position j qs bs0 :
  (2 <= length bs)%nat -> (length rest < 8)%nat ->
  Z.of_nat (length (recording P maxb fmt sync bs rest)) < 2 ^ 63 ->
  file_rep P maxb fmt m qs bs0 -> length qs = MARK6_BUFFER_SLOTS ->
  m6_const m = file_const P maxb fmt sync bs rest ->
  0 < position -> first_at (target_of position) j ->
  full_size * (target_of position / Z.of_nat k) < 2 ^ 31 ->
  exists m', mark6Seeker m (Z.of_nat k) position = Some m' /\
    file_rep P maxb fmt m' (fst (opened_state (drop j bs))) (snd (opened_state (drop j bs))) /\
    m6_const m' = file_const P maxb fmt sync bs rest.
Proof using Hpar Hk Hk4 Hn Hmaxb Hbs Hstr.
  intros Hlen Hrest Hsize Hf Hqs Hc Hpos Hj Hint. destruct (block_size m Hc) as (E1 & E2 & E3 & E4 & E5 & E6).
  pose proof (po_packet _ _ _ Hpar) as HP. pose proof Hstr as [Hr _]. pose proof Hj as (Hjl & Hjt & Hj0).
  assert (HPn : (32 <= P * n)%nat) by nia. set (t := target_of position) in *.
  assert (Ht : 0 <= t) by (apply Z.div_pos; lia). pose proof (block_num j Hjl) as Hnum.
  destruct block_size_int as (I1 & I2 & I3).
  pose proof (Z.mod_pos_bound t (Z.of_nat k) ltac:(lia)) as Hmod.
  pose proof (Z.div_mod t (Z.of_nat k) ltac:(lia)) as Hdiv.
  pose proof (Z.div_pos t (Z.of_nat k) Ht ltac:(lia)) as Hq.
  set (q := Z.to_nat (t / Z.of_nat k)). assert (Eq : t / Z.of_nat k = Z.of_nat q) by lia. clearbody q.
  rewrite Eq in *. assert (Hqj : (q <= j)%nat) by nia.
  pose proof (block_before_end q ltac:(lia)) as Hend. pose proof (block_before_end 1 ltac:(lia)) as Hone.
  unfold mark6Seeker, seek_section, seek_guess. rewrite E1, E2, E3, E5, I1. cbn [mbind option_bind].
  rewrite (proj2 (Z.eqb_neq _ _)), I2 by lia. cbn [mbind option_bind]. rewrite I3. cbn [mbind option_bind].
  rewrite (proj2 (Z.eqb_neq _ _)), (proj2 (Z.eqb_neq _ _)), (proj2 (Z.eqb_neq _ _)) by lia. cbn [orb].
  rewrite !uwrap_small by (unfold MARK6_HEADER_BYTES, full_size in *; lia).
  rewrite (proj2 (Z.ltb_ge _ _)) by (unfold MARK6_HEADER_BYTES, full_size in *; lia).
  rewrite (Z.quot_div_nonneg position) by lia. fold (target_of position) t.
  rewrite (swrap_small 32 t) by lia. rewrite Z.quot_div_nonneg, Eq by lia.
  assert (Hfs : 0 <= full_size * Z.of_nat q) by (apply Z.mul_nonneg_nonneg; unfold full_size; lia).
  rewrite (sint_Some (full_size * Z.of_nat q)) by lia. cbn [mbind option_bind].
  rewrite (proj2 (Z.leb_gt _ _)) by done. cbn [mbind option_bind].
  destruct (refine_lands 5 t j q (rd_in (m6_reader m)) Ht Hj) as (q' & f1 & -> & Hq' & Hf1); [nia|lia|done|].
  cbn [mbind option_bind].
  destruct (advance_lands t (j - q') q' f1 Hf1) with (steps := Z.to_nat (2 * Z.of_nat k)) as (f2 & Ea & Hf2).
  - intros j' Hj'. split; [lia|]. nia.
  - lia.
  - right. by replace (q' + (j - q'))%nat with j by lia.
  - rewrite Ea. cbn [mbind option_bind]. replace (q' + (j - q'))%nat with j by lia.
    by apply (fill_at m f2 j qs bs0).
Qed.

(** Position 0: the walk starts at the first block, but towards a target that is
    computed from the size of the file. *)
Lemma seeker_zero m d qs bs0 :
  (d < length bs)%nat -> (length rest < 8)%nat ->
  file_rep P maxb fmt m qs bs0 -> length qs = MARK6_BUFFER_SLOTS ->
  m6_const m = file_const P maxb fmt sync bs rest ->
  let size := Z.of_nat (length (recording P maxb fmt sync bs rest)) in
  let target := size / Z.of_nat (P * n) / Z.of_nat k in
  target < 2 ^ 31 -> (forall j, (j < d)%nat -> r + Z.of_nat k * Z.of_nat j < target) -> (d <= 2 * k)%nat ->
  (d = 2 * k)%nat \/ target <= r + Z.of_nat k * Z.of_nat d ->
  exists m', mark6Seeker m (Z.of_nat k) 0 = Some m' /\
    file_rep P maxb fmt m' (fst (opened_state (drop d bs))) (snd (opened_state (drop d bs))) /\
    m6_const m' = file_const P maxb fmt sync bs rest.
Proof using Hpar Hk Hk4 Hn Hmaxb Hbs Hstr.
  intros Hd Hrest Hf Hqs Hc size target Ht Hlow Hd2 Hend. destruct (block_size m Hc) as (E1 & E2 & E3 & E4 & E5 & E6).
  pose proof (po_packet _ _ _ Hpar) as HP. assert (HPn : (32 <= P * n)%nat) by nia.
  destruct block_size_int as (I1 & I2 & I3).
  assert (Hs1 : 0 <= size / Z.of_nat (P * n)) by (apply Z.div_pos; unfold size; lia).
  assert (Ht0 : 0 <= target) by (apply Z.div_pos; lia).
  unfold mark6Seeker, seek_section, seek_guess. rewrite E1, E2, E3, E5, I1. cbn [mbind option_bind].
  rewrite (proj2 (Z.eqb_neq _ _)), I2 by lia. cbn [mbind option_bind]. rewrite I3. cbn [mbind option_bind].
  rewrite (proj2 (Z.eqb_neq _ _)), (proj2 (Z.eqb_neq _ _)) by lia. cbn [orb Z.eqb mbind option_bind].
  fold size. rewrite (Z.quot_div_nonneg size), Z.quot_div_nonneg by (unfold size in *; lia). fold target.
  rewrite swrap_small by lia.
  destruct (advance_lands target d 0 (rd_in (m6_reader m))) with (steps := Z.to_nat (2 * Z.of_nat k))
    as (f & Ea & Hf2).
  - done.
  - intros j Hj. split; [lia|]. apply Hlow. lia.
  - lia.
  - destruct Hend as [|Hend]; [left; lia|right]. by split.
  - rewrite Z.mul_0_r, Z.add_0_r, Nat.add_0_l in Ea. rewrite Ea. cbn [mbind option_bind].
    by apply (fill_at m f d qs bs0).
Qed.
End Striped.

(** ** Seeking a gatherer *)

Section Seek.
Context (P : nat) (maxb fmt : Z) (Hpar : params_ok P maxb fmt).
(* packets in a full block *)
Context (n : nat) (Hn : (0 < n)%nat).
Context (Hmaxb : maxb - 8 - (maxb - 8) mod Z.of_nat P = Z.of_nat (P * n)).

(** An open file of the recording, wherever it is positioned. *)
Definition file_of (m : Mark6File) : Z * list block * buffer -> Prop :=
  fun '(sync, bs, rest) => m6_const m = file_const P maxb fmt sync bs rest.

(** A file with the blocks of one residue class, the target among them. *)
Definition seekable (k : nat) (target : Z) : Z * list block * buffer -> Prop :=
  fun '(sync, bs, rest) => (exists r, striped k n r bs) /\ (exists b, b ∈ bs /\ target <= blk_num b) /\
    Z.of_nat (length (recording P maxb fmt sync bs rest)) < 2 ^ 63.

(** The recording without the blocks before the target. *)
Definition later (target : Z) (recs : list (Z * list block * buffer)) : list (Z * list block * buffer) :=
  (fun '(sync, bs, rest) => (sync, filter (fun b => target <= blk_num b) bs, rest)) <$> recs.

Lemma seeker_later k m st position rec :
  (0 < k)%nat -> 4 * Z.of_nat k < 2 ^ 31 -> rec_ok P maxb rec -> seekable k (target_of P n position) rec ->
  file_rep P maxb fmt m (fst st) (snd st) -> length (fst st) = MARK6_BUFFER_SLOTS -> file_of m rec ->
  0 < position -> full_size P n * (target_of P n position / Z.of_nat k) < 2 ^ 31 ->
  exists m', mark6Seeker m (Z.of_nat k) position = Some m' /\ file_of m' rec /\
    (let '(_, bs, _) := rec in let bs := filter (fun b => target_of P n position <= blk_num b) bs in
     file_rep P maxb fmt m' (fst (opened_state bs)) (snd (opened_state bs))).
Proof using Hpar Hn Hmaxb.
  destruct rec as [[sync bs] rest]. intros Hk Hk4 (Hb & Hl & Hr) ([r Hs] & (b & Hbb & Ht) & Hsz) Hf Hq Hm Hp Hi.
  destruct (first_at_exists k n bs r Hs _ b Hbb Ht) as [j Hj].
  destruct (seeker_lands P maxb fmt Hpar k n sync bs rest r Hb Hs Hk Hk4 Hn Hmaxb m position j (fst st) (snd st))
    as (m' & E & Hf' & Hc'); [done..|].
  exists m'. split; [done|]. split; [done|].
  rewrite <-(first_at_later k n bs r Hs _ j); [done| |done]. apply Z.div_pos; [lia|].
  pose proof (po_packet _ _ _ Hpar). nia.
Qed.

(** Seeking to position 0 does not return to the start: every file skips its
    blocks with numbers below its own size over payload size and number of
    files, at most twice as many blocks as there are files. *)
Theorem seek_zero_skips k m st sync bs rest r d :
  (0 < k)%nat -> 4 * Z.of_nat k < 2 ^ 31 -> rec_ok P maxb (sync, bs, rest) -> striped k n r bs ->
  file_rep P maxb fmt m (fst st) (snd st) -> length (fst st) = MARK6_BUFFER_SLOTS ->
  file_of m (sync, bs, rest) -> (d < length bs)%nat -> (d <= 2 * k)%nat ->
  let target := Z.of_nat (length (recording P maxb fmt sync bs rest)) / Z.of_nat (P * n) / Z.of_nat k in
  target < 2 ^ 31 -> (forall j, (j < d)%nat -> r + Z.of_nat k * Z.of_nat j < target) ->
  (d = 2 * k)%nat \/ target <= r + Z.of_nat k * Z.of_nat d ->
  exists m', mark6Seeker m (Z.of_nat k) 0 = Some m' /\
    file_rep P maxb fmt m' (fst (opened_state (drop d bs))) (snd (opened_state (drop d bs))).
Proof using Hpar Hn Hmaxb.
  intros Hk Hk4 (Hb & Hl & Hr) Hs Hf Hq Hm Hd Hd2 target Ht Hlow Hend.
  destruct (seeker_zero P maxb fmt Hpar k n sync bs rest r Hb Hs Hk Hk4 Hn Hmaxb m d (fst st) (snd st))
    as (m' & E & Hf' & _); [done..|]. by exists m'.
Qed.

(** The offset of the target block is computed in an [int]: a seek to 2 GiB or
    more inside a file overflows. *)
Theorem seek_beyond_int m nFile position :
  m6_maxBlockSize m = maxb -> m6_blockHeaderSize m = 8 -> m6_packetSize m = Z.of_nat P ->
  full_size P n + MARK6_HEADER_BYTES <= m6_st_size m < 2 ^ 63 -> 0 < nFile -> 0 < position ->
  target_of P n position < 2 ^ 31 -> 2 ^ 31 <= full_size P n * (target_of P n position / nFile) ->
  mark6Seeker m nFile position = None.
Proof using Hpar Hn Hmaxb.
  intros E1 E2 E3 Hst Hf Hp Ht Hbig. destruct (block_size_int P maxb fmt Hpar n Hmaxb) as (I1 & I2 & I3).
  pose proof (po_packet _ _ _ Hpar) as HP. assert (HPn : (32 <= P * n)%nat) by nia.
  assert (Ht0 : 0 <= target_of P n position) by (apply Z.div_pos; lia).
  unfold mark6Seeker, seek_section, seek_guess. rewrite E1, E2, E3, I1. cbn [mbind option_bind].
  rewrite (proj2 (Z.eqb_neq _ _)), I2 by lia. cbn [mbind option_bind]. rewrite I3. cbn [mbind option_bind].
  rewrite (proj2 (Z.eqb_neq _ _)), (proj2 (Z.eqb_neq _ _)), (proj2 (Z.eqb_neq _ _)) by lia. cbn [orb].
  rewrite !uwrap_small by (unfold MARK6_HEADER_BYTES, full_size in *; lia).
  rewrite (proj2 (Z.ltb_ge _ _)) by (unfold MARK6_HEADER_BYTES, full_size in *; lia).
  rewrite (Z.quot_div_nonneg position) by lia. fold (target_of P n position).
  rewrite (swrap_small 32 (target_of P n position)) by lia. rewrite Z.quot_div_nonneg by lia.
  by rewrite (sint_None (_ * (_ / _))) by lia.
Qed.

(** C28 Seeking in a recording that is striped over its files leaves exactly the
    blocks from the target on: in every file the five corrections and the walk
    reach the first such block, and the slots are filled from there. *)
Theorem seekMark6Gather_striped g fs recs position :
  gather_rep P maxb fmt g fs -> Forall2 file_of (mg_files g) recs -> Forall (rec_ok P maxb) recs ->
  4 * Z.of_nat (length recs) < 2 ^ 31 ->
  Forall (seekable (length recs) (target_of P n position)) recs ->
  0 < position < getMark6GathererFileSize g ->
  full_size P n * (target_of P n position / Z.of_nat (length recs)) < 2 ^ 31 ->
  exists g', seekMark6Gather g position = Some (0, g') /\ Forall2 file_of (mg_files g') recs /\
    gather_rep P maxb fmt g' (opened (later (target_of P n position) recs)) /\
    pending (opened (later (target_of P n position) recs)) = all_packets (later (target_of P n position) recs).
Proof using Hpar Hn Hmaxb.
  intros Hg Hms Hrec Hk4 Hseek Hpos Hint. set (t := target_of P n position) in *.
  pose proof (Forall2_length _ _ _ Hms) as Hlen. pose proof (Forall2_length _ _ _ (gr_files _ _ _ _ _ Hg)) as Hlen'.
  assert (Hk : (0 < length recs)%nat) by (pose proof (gr_some _ _ _ _ _ Hg); destruct fs; cbn in *; [done|lia]).
  unfold seekMark6Gather. rewrite (proj2 (Z.leb_gt _ _)), Hlen by lia.
  assert (Hmap : exists ms', mapM (fun m => mark6Seeker m (Z.of_nat (length recs)) position) (mg_files g) = Some ms' /\
    Forall2 file_of ms' recs /\
    Forall2 (fun m '(_, bs, _) => file_rep P maxb fmt m (fst (opened_state bs)) (snd (opened_state bs))) ms' (later t recs)).
  { pose proof (gr_files _ _ _ _ _ Hg) as Hfiles. pose proof (gr_slots _ _ _ _ _ Hg) as Hslots.
    clear Hg Hlen Hlen'. revert Hk Hk4 Hint Hseek. generalize (length recs) as k. intros k Hk Hk4 Hint Hseek.
    generalize dependent fs. induction Hms as [|m rec ms recs Hm Hms IH]; intros fs Hfiles Hslots; [by eexists|].
    apply Forall2_cons_inv_l in Hfiles as (st & fs' & Hst & Hfiles & ->).
    apply Forall_cons_1 in Hrec as [Hr1 Hrec]. apply Forall_cons_1 in Hseek as [Hs1 Hseek].
    apply Forall_cons_1 in Hslots as [Hq1 Hslots].
    destruct (seeker_later k m st position rec) as (m' & E & Hm' & Hf'); [done..|lia|done|].
    destruct (IH Hrec Hseek fs' Hfiles Hslots) as (ms' & Ems & H1 & H2).
    cbn [mapM]. rewrite E. cbn [mbind option_bind]. rewrite Ems. eexists. split; [done|].
    split; [by constructor|]. destruct rec as [[sync bs] rest]. by constructor. }
  destruct Hmap as (ms' & -> & H1 & H2). cbn [mbind option_bind]. eexists. split; [done|]. split; [done|].
  split; [|apply pending_opened]. apply opened_gather_rep; cbn [mg_files mg_packetSize].
  - unfold later. apply Forall_fmap. eapply Forall_impl; [exact Hrec|]. intros [[sync bs] rest] (Hb & _).
    apply Forall_forall. intros b [_ Hin]%list_elem_of_filter. by eapply Forall_forall in Hb.
  - clear -Hk. destruct recs; [cbn in Hk; lia|done].
  - done.
  - apply (gr_size _ _ _ _ _ Hg).
Qed.
End Seek.

(** ** An example: two files of full blocks of two packets *)

Lemma seek_params : params_ok 40 88 0.
Proof. split; lia. Qed.

Lemma seek_recs_ok : Forall (rec_ok 40 88) example_recs.
Proof.
  repeat constructor; cbn; try lia; try done; apply example_packet_ok; lia.
Qed.

Lemma blocks_striped : striped 2 2 0 blocks_a /\ striped 2 2 1 blocks_b.
Proof.
  by split; (split; [lia|]); intros [|[|j]] b; cbn; [intros [= <-]..|intros [=]].
Qed.

Definition seek_gatherer (recs : list (Z * list block * buffer)) : Mark6Gatherer :=
  gatherer_of (contents 40 88 0 recs).

Lemma seek_rep recs : Forall (rec_ok 40 88) recs -> recs <> [] ->
  gather_rep 40 88 0 (seek_gatherer recs) (opened recs) /\
  Forall2 (file_of 40 88 0) (mg_files (seek_gatherer recs)) recs.
Proof.
  intros Hrecs Hne.
  destruct (openMark6Gatherer_rep 40 88 0 seek_params some_malloc some_malloc_ok recs Hne Hrecs) as (g & E & Hg & Hms).
  unfold seek_gatherer, gatherer_of. rewrite E. split; [done|].
  eapply Forall2_impl; [exact Hms|]. by intros m [[sync bs] rest] [].
Qed.

Lemma seek_size : getMark6GathererFileSize (seek_gatherer example_recs) = 392.
Proof. vm_compute. reflexivity. Qed.

(** From byte 100 on: the blocks 1, 2 and 3. *)
Lemma seekMark6Gather_striped_witness :
  exists g', seekMark6Gather (seek_gatherer example_recs) 100 = Some (0, g') /\
    Forall2 (file_of 40 88 0) (mg_files g') example_recs /\
    gather_rep 40 88 0 g' (opened (later (target_of 40 2 100) example_recs)) /\
    pending (opened (later (target_of 40 2 100) example_recs)) = all_packets (later (target_of 40 2 100) example_recs).
Proof.
  destruct (seek_rep example_recs seek_recs_ok) as [H1 H2]; [discriminate|].
  apply (seekMark6Gather_striped 40 88 0 seek_params 2 ltac:(lia) eq_refl _ (opened example_recs) example_recs 100).
  - exact H1.
  - exact H2.
  - exact seek_recs_ok.
  - reflexivity.
  - destruct blocks_striped as [Ha Hb]. constructor; [|constructor; [|constructor]].
    + split; [by exists 0|]. split; [|vm_compute; reflexivity]. eexists. split; [by right; left|]. vm_compute. discriminate.
    + split; [by exists 1|]. split; [|vm_compute; reflexivity]. eexists. split; [by left|]. vm_compute. discriminate.
  - rewrite seek_size. lia.
  - vm_compute. reflexivity.
Defined.

(** A recording in one file. *)
Definition blocks_one : list block :=
  [Build_block 0 [example_packet 9 0 1; example_packet 9 1 2];
   Build_block 1 [example_packet 9 2 3; example_packet 9 3 4];
   Build_block 2 [example_packet 9 4 5; example_packet 9 5 6];
   Build_block 3 [example_packet 9 6 7; example_packet 9 7 8]].

Definition one_file : Mark6File :=
  match mg_files (seek_gatherer [(7, blocks_one, [])]) with
  | m :: _ => m
  | [] => example_end []
  end.

Lemma one_file_ok : rec_ok 40 88 (7, blocks_one, []).
Proof.
  repeat constructor; cbn; try lia; try done; apply example_packet_ok; lia.
Qed.

Lemma one_file_rep : file_of 40 88 0 one_file (7, blocks_one, []) /\
  file_rep 40 88 0 one_file (fst (opened_state blocks_one)) (snd (opened_state blocks_one)).
Proof.
  destruct (seek_rep [(7, blocks_one, [])]) as [Hg Hms]; [constructor; [exact one_file_ok|constructor]|discriminate|].
  pose proof (gr_files _ _ _ _ _ Hg) as Hf. unfold one_file.
  apply Forall2_cons_inv_r in Hms as (m & ms & Hm & _ & E). rewrite E in Hf |- *.
  apply Forall2_cons_1 in Hf as [Hf _]. by split.
Qed.

(** Seeking to its start skips its first two blocks. *)
Lemma seek_zero_skips_witness :
  exists m', mark6Seeker one_file 1 0 = Some m' /\
    file_rep 40 88 0 m' (fst (opened_state (drop 2 blocks_one))) (snd (opened_state (drop 2 blocks_one))).
Proof.
  destruct one_file_rep as [H1 H2].
  apply (seek_zero_skips 40 88 0 seek_params 2 ltac:(lia) eq_refl 1 one_file (opened_state blocks_one)
    7 blocks_one [] 0 2).
  - lia.
  - lia.
  - exact one_file_ok.
  - split; [lia|]. intros [|[|[|[|j]]]] b; cbn; [intros [= <-]; by split..|intros [=]].
  - exact H2.
  - reflexivity.
  - exact H1.
  - cbn. lia.
  - lia.
  - vm_compute. reflexivity.
  - intros [|[|j]] Hj; [vm_compute; reflexivity..|lia].
  - by left.
Defined.

Definition big_file : Mark6File :=
  Build_Mark6File 2 88 8 40 0 3000000000 0 1 [] (Build_reader (Build_stream [] 0) (Build_Mark6BlockHeader 0 0) [] 0 false).

Lemma seek_beyond_int_witness : mark6Seeker big_file 1 2500000000 = None.
Proof.
  apply (seek_beyond_int 40 88 0 seek_params 2 ltac:(lia) eq_refl big_file 1 2500000000);
    try reflexivity; [split; [discriminate|reflexivity]|vm_compute; discriminate].
Defined.
