(* ===== verification/Mark6Reader.v ===== *)
(** * Mark6Reader: the reader thread and its barrier

    Every file of a gatherer has a thread [mark6Reader] that reads the next block
    while the main thread works on the slots; the two meet at a barrier of two.
    [Mark6Gather] and [Mark6Seek] describe a call of the main thread as one
    function on the file.  Here the two threads take steps of their own, in any
    order; every schedule is shown to end, without both threads ever working on
    the shared fields at once, in the state of the sequential description. *)
From S2P Require Export Mark6Seek.
From stdpp Require Export relations.
#[local] Open Scope Z_scope.

(** ** The threads *)

(** What the main thread asks for: a block for a slot, or another position. *)
Inductive command : Type :=
  | ReadBlock (slotIndex : nat)
  | SeekTo (nFile position : Z).

(** Its work between the two barrier waits. *)
Definition critical (c : command) (m : Mark6File) : option Mark6File :=
  match c with
  | ReadBlock s => take_block m s
  | SeekTo nFile position => seek_section m nFile position
  end.

(** Where the loop of [mark6Reader] is: at its first wait, reading, at its second
    wait, at the test of [stopReading], returned. *)
Inductive reader_pc : Type := RTop | RRead | RBottom | RCheck | RDone.

(** Where the main thread is: at the wait of [openMark6File]; between calls, the
    rest of the commands to come; at the first wait of a command, inside, at the
    second wait; in [closeMark6File] at its wait, at the join, after it. *)
Inductive main_pc : Type :=
  | MOpen (cs : list command)
  | MNext (cs : list command)
  | MEnter (c : command) (cs : list command)
  | MInside (c : command) (cs : list command)
  | MLeave (c : command) (cs : list command)
  | MClose
  | MJoin
  | MEnd.

Record system : Type := {
  sy_file : Mark6File;
  sy_stop : bool;
  sy_reader : reader_pc;
  sy_main : main_pc }.

(** A thread at the barrier, and where it goes on. *)
Definition reader_wait (pc : reader_pc) : option reader_pc :=
  match pc with RTop => Some RRead | RBottom => Some RCheck | _ => None end.

Definition main_wait (pc : main_pc) : option main_pc :=
  match pc with
  | MOpen cs => Some (MNext cs)
  | MEnter c cs => Some (MInside c cs)
  | MLeave _ cs => Some (MNext cs)
  | MClose => Some MJoin
  | _ => None
  end.

(** The steps: each thread on its own, and both through the barrier. *)
Inductive step : system -> system -> Prop :=
  | step_read m m' stop pc :
      reader_read m = Some m' ->
      step (Build_system m stop RRead pc) (Build_system m' stop RBottom pc)
  | step_check m stop pc :
      step (Build_system m stop RCheck pc) (Build_system m stop (if (stop : bool) then RDone else RTop) pc)
  | step_enter m stop r c cs :
      step (Build_system m stop r (MNext (c :: cs))) (Build_system m stop r (MEnter c cs))
  | step_work m m' stop r c cs :
      critical c m = Some m' ->
      step (Build_system m stop r (MInside c cs)) (Build_system m' stop r (MLeave c cs))
  | step_close m stop r :
      step (Build_system m stop r (MNext [])) (Build_system m true r MClose)
  | step_join m stop :
      step (Build_system m stop RDone MJoin) (Build_system m stop RDone MEnd)
  | step_barrier m stop r r' pc pc' :
      reader_wait r = Some r' -> main_wait pc = Some pc' ->
      step (Build_system m stop r pc) (Build_system m stop r' pc').

(** The file as [openMark6File] hands it to the new thread. *)
Definition started (m : Mark6File) (cs : list command) : system :=
  Build_system m false RTop (MOpen cs).

(** ** The sequential description *)

Definition command_seq (c : command) (m : Mark6File) : option Mark6File :=
  m ← critical c m; reader_read m.

Definition commands_seq (cs : list command) (m : Mark6File) : option Mark6File :=
  run_iters command_seq cs m.

#[local] Arguments commands_seq : simpl never.

Lemma commands_seq_cons c cs m : commands_seq (c :: cs) m = m ← command_seq c m; commands_seq cs m.
Proof. done. Qed.

Lemma ReadBlock_seq m s : command_seq (ReadBlock s) m = Mark6FileReadBlock m s.
Proof. done. Qed.

Lemma fill_slots_seq m : fill_slots m = commands_seq (ReadBlock <$> seq 0 MARK6_BUFFER_SLOTS) m.
Proof.
  unfold fill_slots, commands_seq. generalize (seq 0 MARK6_BUFFER_SLOTS). intros l. revert m.
  induction l as [|s l IH]; intros m; [done|]. cbn [run_iters fmap list_fmap]. rewrite ReadBlock_seq.
  destruct (Mark6FileReadBlock m s) as [m'|]; cbn [mbind option_bind]; [apply IH|done].
Qed.

Lemma mark6Seeker_seq m nFile position :
  mark6Seeker m nFile position =
  commands_seq (SeekTo nFile position :: (ReadBlock <$> seq 0 MARK6_BUFFER_SLOTS)) m.
Proof.
  rewrite commands_seq_cons. unfold mark6Seeker, command_seq. cbn [critical].
  destruct (seek_section m nFile position) as [m1|]; cbn [mbind option_bind]; [|done].
  destruct (reader_read m1) as [m2|]; [|done]. cbn [mbind option_bind]. apply fill_slots_seq.
Qed.

(** What the rest of the run makes of the file, were it sequential: a read that
    the reader has not done yet comes first. *)
Definition read_first (r : reader_pc) (m : Mark6File) : option Mark6File :=
  match r with RRead => reader_read m | _ => Some m end.

Definition rest_of (s : system) : option Mark6File :=
  match sy_main s with
  | MOpen cs => m ← reader_read (sy_file s); commands_seq cs m
  | MNext cs => m ← read_first (sy_reader s) (sy_file s); commands_seq cs m
  | MEnter c cs => m ← read_first (sy_reader s) (sy_file s); commands_seq (c :: cs) m
  | MInside c cs => commands_seq (c :: cs) (sy_file s)
  | MLeave c cs => m ← reader_read (sy_file s); commands_seq cs m
  | MClose | MJoin | MEnd => read_first (sy_reader s) (sy_file s)
  end.

(** ** Mutual exclusion *)

(** Where the reader can be while the main thread is where it is. *)
Definition locked (s : system) : Prop :=
  match sy_main s with
  | MOpen _ => sy_reader s = RTop /\ sy_stop s = false
  | MNext _ | MEnter _ _ => (sy_reader s = RRead \/ sy_reader s = RBottom) /\ sy_stop s = false
  | MInside _ _ | MLeave _ _ => (sy_reader s = RCheck \/ sy_reader s = RTop) /\ sy_stop s = false
  | MClose => (sy_reader s = RRead \/ sy_reader s = RBottom) /\ sy_stop s = true
  | MJoin => (sy_reader s = RCheck \/ sy_reader s = RDone) /\ sy_stop s = true
  | MEnd => sy_reader s = RDone
  end.

Lemma step_locked s s' : step s s' -> locked s -> locked s'.
Proof.
  destruct 1 as [m m' stop pc E|m stop pc|m stop r c cs|m m' stop r c cs E|m stop r|m stop|m stop r r' pc pc' Er Em];
    unfold locked; cbn; try (destruct pc); cbn in *; try destruct stop; try destruct r; cbn in *;
    simplify_eq/=; intuition congruence.
Qed.

Lemma reachable_locked m cs s : rtc step (started m cs) s -> locked s.
Proof.
  intros Hr. assert (H0 : locked (started m cs)) by done.
  revert H0. induction Hr as [|s1 s2 s3 H1 _ IH]; [done|]. intros H. by apply IH, (step_locked s1).
Qed.

(** ** Refinement *)

Lemma step_rest s s' : locked s -> step s s' -> rest_of s' = rest_of s.
Proof.
  intros Hl. destruct 1 as [m m' stop pc E|m stop pc|m stop r c cs|m m' stop r c cs E|m stop r|m stop|m stop r r' pc pc' Er Em];
    unfold locked, rest_of in *; cbn in *.
  - destruct pc; cbn in *; rewrite ?E; try done; intuition congruence.
  - destruct pc; cbn in *; destruct stop; done.
  - done.
  - destruct Hl as [[-> | ->] _]; rewrite commands_seq_cons; unfold command_seq; by rewrite E.
  - by destruct (read_first r m).
  - done.
  - destruct pc; cbn in *; simplify_eq/=; destruct r; cbn in *; simplify_eq/=; try done; intuition congruence.
Qed.

(** ** Termination *)

Definition reader_weight (pc : reader_pc) : nat :=
  match pc with RRead | RCheck => 1 | _ => 0 end.

Definition main_weight (pc : main_pc) : nat :=
  match pc with
  | MOpen cs => 10 * length cs + 9
  | MNext cs => 10 * length cs + 6
  | MEnter _ cs => 10 * length cs + 15
  | MInside _ cs => 10 * length cs + 13
  | MLeave _ cs => 10 * length cs + 12
  | MClose => 5
  | MJoin => 3
  | MEnd => 0
  end.

Definition weight (s : system) : nat := (reader_weight (sy_reader s) + main_weight (sy_main s))%nat.

Lemma step_weight s s' : step s s' -> (weight s' < weight s)%nat.
Proof.
  destruct 1 as [m m' stop pc E|m stop pc|m stop r c cs|m m' stop r c cs E|m stop r|m stop|m stop r r' pc pc' Er Em];
    unfold weight; cbn [sy_reader sy_main reader_weight main_weight length]; try lia.
  - destruct stop; cbn; lia.
  - destruct pc, r; cbn in *; simplify_eq/=; lia.
Qed.

Lemma nsteps_weight k s s' : nsteps step k s s' -> (k + weight s' <= weight s)%nat.
Proof. induction 1 as [|k s1 s2 s3 H1 _ IH]; [lia|]. apply step_weight in H1. lia. Qed.

(** As long as the rest of the run is defined, some thread can go on. *)
Lemma step_progress s : locked s -> is_Some (rest_of s) -> sy_main s <> MEnd -> exists s', step s s'.
Proof.
  destruct s as [m stop r pc]. unfold locked, rest_of. cbn. intros Hl Hd Hne.
  assert (Hread : r = RRead -> is_Some (reader_read m) -> exists s', step (Build_system m stop r pc) s').
  { intros -> [m' E]. eexists. by apply step_read. }
  destruct pc as [cs|cs|c cs|c cs|c cs| | |]; cbn in *.
  - destruct Hl as [-> ->]. eexists. by eapply step_barrier.
  - destruct cs as [|c cs]; eexists; [apply step_close|apply step_enter].
  - destruct Hl as [[-> | ->] ->]; [|eexists; by eapply step_barrier].
    apply Hread; [done|]. cbn in Hd. destruct (reader_read m); [done|by apply is_Some_None in Hd].
  - rewrite commands_seq_cons in Hd. unfold command_seq in Hd.
    destruct (critical c m) as [m'|] eqn:E; [eexists; by apply step_work|by apply is_Some_None in Hd].
  - destruct Hl as [[-> | ->] ->]; eexists; [apply step_check|by eapply step_barrier].
  - destruct Hl as [[-> | ->] ->]; [|eexists; by eapply step_barrier].
    by apply Hread.
  - destruct Hl as [[-> | ->] ->]; eexists; [apply step_check|apply step_join].
  - done.
Qed.

(** ** Every schedule *)

(** C37 The reader thread and the main thread are never both at work on the fields
    of the file they share: the reader reads only while the main thread is outside
    the section between its barrier waits. *)
Theorem reader_mutual_exclusion m cs s : rtc step (started m cs) s ->
  ~ (sy_reader s = RRead /\ exists c cs', sy_main s = MInside c cs') /\
  (sy_main s = MEnd -> sy_reader s = RDone).
Proof.
  intros Hl%reachable_locked. unfold locked in Hl. split.
  - intros [Er (c & cs' & Em)]. rewrite Em in Hl. destruct Hl as [[H|H] _]; congruence.
  - intros Em. by rewrite Em in Hl.
Qed.

(** C7 Whatever the schedule, the two threads of a file end after boundedly many
    steps, without a deadlock, and the file is then what the sequential
    description makes of it: the first read, then every call of
    [Mark6FileReadBlock] or of the seeker followed by the next read. *)
Theorem reader_schedules m m1 mf cs s k :
  reader_read m = Some m1 -> commands_seq cs m1 = Some mf -> nsteps step k (started m cs) s ->
  (k <= 10 * length cs + 9)%nat /\
  ((forall s', ~ step s s') -> sy_main s = MEnd /\ sy_reader s = RDone /\ sy_file s = mf).
Proof.
  intros E1 Ef Hk. split.
  { apply nsteps_weight in Hk. unfold weight in Hk at 2. cbn in Hk. lia. }
  intros Hstuck. pose proof (reachable_locked _ _ _ (rtc_nsteps_2 _ _ _ Hk)) as Hl.
  assert (Hrest : rest_of s = Some mf).
  { assert (H0 : rest_of (started m cs) = Some mf) by (unfold rest_of; cbn; by rewrite E1).
    assert (Hl0 : locked (started m cs)) by done. revert H0 Hl0. clear -Hk.
    induction Hk as [|k s1 s2 s3 H1 _ IH]; [done|]. intros H0 Hl0. apply IH; [|by apply (step_locked s1)].
    by rewrite (step_rest s1 s2). }
  assert (sy_main s = MEnd \/ sy_main s <> MEnd) as [Em|Hne] by (destruct (sy_main s); (by left) || by right).
  - unfold locked, rest_of in *. rewrite Em in *. rewrite Hl in Hrest. cbn in Hrest. split_and!; congruence.
  - destruct (step_progress s Hl) as [s' H']; [by eexists|done|]. by destruct (Hstuck s').
Qed.

(** A run over a recording of one file: the main thread asks for a block while the
    reader is at the next one. *)
Definition example_read : Mark6File := default one_file (reader_read one_file).
Definition example_last : Mark6File := default one_file (commands_seq [ReadBlock 0] example_read).
Definition example_state : system := Build_system example_read false RBottom (MEnter (ReadBlock 0) []).

Lemma example_reads : reader_read one_file = Some example_read.
Proof. vm_compute. reflexivity. Qed.

Lemma example_steps : nsteps step 3 (started one_file [ReadBlock 0]) example_state.
Proof.
  eapply nsteps_l; [by eapply step_barrier|]. eapply nsteps_l; [apply step_enter|].
  eapply nsteps_l; [apply step_read, example_reads|]. apply nsteps_O.
Qed.

Lemma reader_mutual_exclusion_witness :
  ~ (sy_reader example_state = RRead /\ exists c cs', sy_main example_state = MInside c cs') /\
  (sy_main example_state = MEnd -> sy_reader example_state = RDone).
Proof.
  apply (reader_mutual_exclusion one_file [ReadBlock 0]). exact (rtc_nsteps_2 _ _ _ example_steps).
Defined.

Lemma reader_schedules_witness :
  (3 <= 19)%nat /\
  ((forall s', ~ step example_state s') ->
    sy_main example_state = MEnd /\ sy_reader example_state = RDone /\ sy_file example_state = example_last).
Proof.
  apply (reader_schedules one_file example_read example_last [ReadBlock 0] example_state 3).
  - exact example_reads.
  - vm_compute. reflexivity.
  - exact example_steps.
Defined.
