(* ===== verification/VdifReader.v ===== *)
(** * VdifReader: reading the threads of a VDIF file in step

    [vdiffilereader.c]: the file is opened once per thread; every handle stays at
    the next frame of its thread, and [vdifreaderRead] returns the frames of all
    threads of one time after the other, with a marked replacement for a frame
    that the file does not have.  The result is what [vdifmux] likes to read.

    The two helper buffers of the file are part of the state.  An access outside
    them, a division by zero and a failed conversion are [None]; memory for the
    buffers is taken to be granted. *)
From S2P Require Export VdifHeader Streams.
#[local] Open Scope Z_scope.

(** ** Data *)

Record vdif_file_summary : Type := {
  vs_fileSize : Z;
  vs_nBit : Z;
  vs_nThread : Z;
  vs_threadIds : list Z;
  vs_frameSize : Z;
  vs_framesPerSecond : Z;
  vs_epoch : Z;
  vs_startSecond : Z;
  vs_startFrame : Z;
  vs_endSecond : Z;
  vs_endFrame : Z;
  vs_firstFrameOffset : Z }.

(** The entries of one thread in the arrays of the reader; a handle has an
    end-of-file indicator. *)
Record thread_file : Type := {
  tf_fd : stream;
  tf_eof : bool;
  tf_feof : bool;
  tf_header : vdif_header;
  tf_sec : Z }.

(** The reader, with [resyncbuffer_] and [fillpattern_]. *)
Record vdif_file_reader : Type := {
  vr_details : vdif_file_summary;
  vr_threads : list thread_file;
  vr_syncpoint_sec : Z;
  vr_syncpoint_framenr : Z;
  vr_eof : bool;
  vr_fps : Z;
  vr_firstframeoffset : Z;
  vr_virtualoffset : Z;
  vr_resync : buffer;
  vr_fillpattern : buffer }.

Definition resyncbuffersize_ : Z := 8 * 8224.

Definition tf_set_feof (th : thread_file) (b : bool) : thread_file :=
  {| tf_fd := tf_fd th; tf_eof := tf_eof th; tf_feof := b; tf_header := tf_header th; tf_sec := tf_sec th |}.

Definition tf_set_header (th : thread_file) (h : vdif_header) (sec : Z) : thread_file :=
  {| tf_fd := tf_fd th; tf_eof := tf_eof th; tf_feof := tf_feof th; tf_header := h; tf_sec := sec |}.

(** [fread]: a short count sets the indicator. *)
Definition tf_read (n : Z) (th : thread_file) : buffer * thread_file :=
  let '(bs, f) := fread n (tf_fd th) in
  (bs, {| tf_fd := f; tf_eof := tf_eof th || (Z.of_nat (length bs) <? n); tf_feof := tf_feof th;
          tf_header := tf_header th; tf_sec := tf_sec th |}).

(** [fseeko] to an absolute position; success clears the indicator. *)
Definition tf_seek (pos : Z) (th : thread_file) : option thread_file :=
  f ← fseeko pos (tf_fd th);
  Some {| tf_fd := f; tf_eof := false; tf_feof := tf_feof th; tf_header := tf_header th; tf_sec := tf_sec th |}.

(** The same with the result ignored. *)
Definition tf_goto (pos : Z) (th : thread_file) : thread_file := default th (tf_seek pos th).

Definition tf_pos (th : thread_file) : Z := st_pos (tf_fd th).

(** ** Headers in a file *)

Definition vdifreader_header_looks_good (sum : vdif_file_summary) (vhdr : vdif_header) : bool :=
  (getVDIFFrameBytes vhdr =? vs_frameSize sum) && (getVDIFBitsPerSample vhdr =? vs_nBit sum) &&
  (getVDIFEpoch vhdr =? vs_epoch sum).

(** The header at the position, which stays where it is; [None] is -1. *)
Definition vdifreader_peek_frame (th : thread_file) : option vdif_header * thread_file :=
  if tf_feof th then (None, th) else
  let '(bs, th) := tf_read 32 th in
  if decide (length bs = 32%nat) then
    match tf_seek (tf_pos th - 32) th with
    | Some th => (Some (struct_of_bytes bs), th)
    | None => (None, th)
    end
  else (None, th).

(** A header in the helper buffer; its first four words are looked at. *)
Definition resync_header (rs : buffer) (off : Z) : option vdif_header :=
  if decide (0 <= off /\ off + 16 <= Z.of_nat (length rs))
  then Some (struct_of_bytes (slice rs (Z.to_nat off) 32)) else None.

(** [for(off = ...; n > 0; ...)] over two consistent headers. *)
Fixpoint resync_find (n : nat) (off : Z) (sum : vdif_file_summary) (rs : buffer) : option (option Z) :=
  match n with
  | O => Some None
  | S n =>
      vh1 ← resync_header rs off;
      if negb (vdifreader_header_looks_good sum vh1) then resync_find n (off + 1) sum rs else
      vh2 ← resync_header rs (off + vs_frameSize sum);
      if vdifreader_header_looks_good sum vh2 &&
         (getVDIFFrameEpochSecOffset vh2 - getVDIFFrameEpochSecOffset vh1 <? 2)
      then Some (Some off) else resync_find n (off + 1) sum rs
  end.

(** The loop of [vdifreader_resync]: two frames at a time, in steps of one. *)
Fixpoint resync_loop (fuel : nat) (sum : vdif_file_summary) (rs : buffer) (th : thread_file)
    : option (Z * buffer * thread_file) :=
  match fuel with
  | O => None
  | S fuel =>
      let pos0 := tf_pos th in
      let '(bs, th) := tf_read (2 * vs_frameSize sum) th in
      if decide (Z.of_nat (length rs) < Z.of_nat (length bs)) then None else
      let rs := bs ++ drop (length bs) rs in
      if Z.of_nat (length bs) <? 2 * vs_frameSize sum then Some (-1, rs, tf_set_feof th true) else
      r ← resync_find (Z.to_nat (vs_frameSize sum - 1)) 0 sum rs;
      match r with
      | Some off => Some (off, rs, tf_goto (pos0 + off) th)
      | None => resync_loop fuel sum rs (tf_goto (tf_pos th - vs_frameSize sum) th)
      end
  end.

Definition vdifreader_resync (sum : vdif_file_summary) (rs : buffer) (th : thread_file)
    : option (Z * buffer * thread_file) :=
  if tf_feof th then Some (-1, rs, th) else
  if vs_frameSize sum <=? 0 then None else
  resync_loop (S (S (length (st_bytes (tf_fd th))))) sum rs th.

(** The loop of [vdifreader_advance_to_valid_frame]: after a resync the position
    has a good header, so two rounds do. *)
Fixpoint valid_loop (fuel : nat) (sum : vdif_file_summary) (rs : buffer) (th : thread_file)
    : option (option vdif_header * buffer * thread_file) :=
  match fuel with
  | O => None
  | S fuel =>
      match vdifreader_peek_frame th with
      | (None, th) => Some (None, rs, th)
      | (Some vh, th) =>
          if vdifreader_header_looks_good sum vh then Some (Some vh, rs, th) else
          '(r, rs, th) ← vdifreader_resync sum rs th;
          if r <? 0 then Some (None, rs, tf_set_feof th true) else valid_loop fuel sum rs th
      end
  end.

Definition vdifreader_advance_to_valid_frame (sum : vdif_file_summary) (rs : buffer) (th : thread_file)
    : option (option vdif_header * buffer * thread_file) :=
  if tf_feof th then Some (None, rs, th) else valid_loop 2 sum rs th.

(** The loop of [vdifreader_advance_to_frame_of_thread]. *)
Fixpoint thread_loop (fuel : nat) (sum : vdif_file_summary) (id : Z) (rs : buffer) (th : thread_file)
    : option (option vdif_header * buffer * thread_file) :=
  if tf_feof th then Some (None, rs, th) else
  match fuel with
  | O => None
  | S fuel =>
      '(v, rs, th) ← vdifreader_advance_to_valid_frame sum rs th;
      match v with
      | None => Some (None, rs, tf_set_feof th true)
      | Some vh =>
          if getVDIFThreadID vh =? id then Some (Some vh, rs, th) else
          thread_loop fuel sum id rs
            (match tf_seek (tf_pos th + getVDIFFrameBytes vh) th with
             | Some th => th
             | None => tf_set_feof th true
             end)
      end
  end.

(** 0 if a frame was found, -1 otherwise. *)
Definition vdifreader_advance_to_frame_of_thread (sum : vdif_file_summary) (id : Z) (rs : buffer)
    (th : thread_file) : option (Z * buffer * thread_file) :=
  if tf_feof th then Some (-1, rs, th) else
  '(v, rs, th) ← thread_loop (S (length (st_bytes (tf_fd th)))) sum id rs th;
  match v with
  | None => Some (-1, rs, tf_set_header th zero_header (tf_sec th))
  | Some vh => Some (0, rs, tf_set_header th vh (getVDIFFrameEpochSecOffset vh))
  end.

(** ** The reader *)

Definition vr_set_thread (rd : vdif_file_reader) (t : nat) (th : thread_file) (rs : buffer) : vdif_file_reader :=
  {| vr_details := vr_details rd; vr_threads := <[t := th]> (vr_threads rd);
     vr_syncpoint_sec := vr_syncpoint_sec rd; vr_syncpoint_framenr := vr_syncpoint_framenr rd;
     vr_eof := vr_eof rd; vr_fps := vr_fps rd; vr_firstframeoffset := vr_firstframeoffset rd;
     vr_virtualoffset := vr_virtualoffset rd; vr_resync := rs; vr_fillpattern := vr_fillpattern rd |}.

Definition vr_set_eof (rd : vdif_file_reader) (b : bool) : vdif_file_reader :=
  {| vr_details := vr_details rd; vr_threads := vr_threads rd;
     vr_syncpoint_sec := vr_syncpoint_sec rd; vr_syncpoint_framenr := vr_syncpoint_framenr rd;
     vr_eof := b; vr_fps := vr_fps rd; vr_firstframeoffset := vr_firstframeoffset rd;
     vr_virtualoffset := vr_virtualoffset rd; vr_resync := vr_resync rd; vr_fillpattern := vr_fillpattern rd |}.

Definition vr_set_fillpattern (rd : vdif_file_reader) (fp : buffer) : vdif_file_reader :=
  {| vr_details := vr_details rd; vr_threads := vr_threads rd;
     vr_syncpoint_sec := vr_syncpoint_sec rd; vr_syncpoint_framenr := vr_syncpoint_framenr rd;
     vr_eof := vr_eof rd; vr_fps := vr_fps rd; vr_firstframeoffset := vr_firstframeoffset rd;
     vr_virtualoffset := vr_virtualoffset rd; vr_resync := vr_resync rd; vr_fillpattern := fp |}.

(** The syncpoint and the virtual offset. *)
Definition vr_set_place (rd : vdif_file_reader) (sec framenr virtualoffset : Z) : vdif_file_reader :=
  {| vr_details := vr_details rd; vr_threads := vr_threads rd;
     vr_syncpoint_sec := sec; vr_syncpoint_framenr := framenr;
     vr_eof := vr_eof rd; vr_fps := vr_fps rd; vr_firstframeoffset := vr_firstframeoffset rd;
     vr_virtualoffset := virtualoffset; vr_resync := vr_resync rd; vr_fillpattern := vr_fillpattern rd |}.

Definition vdifreader_check_eof (rd : vdif_file_reader) : bool :=
  forallb tf_feof (vr_threads rd).

(** [vdifreader_advance_to_frame_of_thread] on thread [t] of the reader. *)
Definition advance_thread (t : nat) (rd : vdif_file_reader) : option (Z * vdif_file_reader) :=
  th ← vr_threads rd !! t;
  id ← vs_threadIds (vr_details rd) !! t;
  '(r, rs, th) ← vdifreader_advance_to_frame_of_thread (vr_details rd) id (vr_resync rd) th;
  Some (r, vr_set_thread rd t th rs).

(** ** The common start *)

(** Majority vote: the second and its votes so far. *)
Definition vote (sec : Z) (v : Z * Z) : Z * Z :=
  let '(maj_second, maj_votes) := v in
  if maj_votes <=? 0 then (sec, maj_votes + 1)
  else if sec =? maj_second then (maj_second, maj_votes + 1) else (maj_second, maj_votes - 1).

Definition vote_step (t : nat) (s : vdif_file_reader * (Z * Z)) : option (vdif_file_reader * (Z * Z)) :=
  '(r, rd) ← advance_thread t (fst s);
  if r <? 0 then Some (rd, snd s) else
  th ← vr_threads rd !! t;
  Some (rd, vote (getVDIFFrameEpochSecOffset (tf_header th)) (snd s)).

(** The lowest frame number of the voted second. *)
Definition lowest_in (sum : vdif_file_summary) (maj_second : Z) (threads : list thread_file) (framenr : Z) : Z :=
  foldl (fun framenr th =>
    let vh := tf_header th in
    if vdifreader_header_looks_good sum vh && (getVDIFFrameEpochSecOffset vh =? maj_second) &&
       (getVDIFFrameNumber vh <? framenr)
    then getVDIFFrameNumber vh else framenr) framenr threads.

Definition vdifreader_determine_syncpoint (rd : vdif_file_reader) : option vdif_file_reader :=
  '(rd, (maj_second, _)) ← run_iters vote_step (seq 0 (length (vr_threads rd))) (rd, (0, 0));
  Some (vr_set_place rd maj_second (lowest_in (vr_details rd) maj_second (vr_threads rd) 999999)
          (vr_virtualoffset rd)).

(** Restart thread [t] at [offset]. *)
Definition restart_thread (offset : Z) (t : nat) (rd : vdif_file_reader) : option vdif_file_reader :=
  th ← vr_threads rd !! t;
  let th := tf_goto offset (tf_set_feof (tf_set_header th zero_header (tf_sec th)) false) in
  '(_, rd) ← advance_thread t (vr_set_thread rd t th (vr_resync rd));
  Some rd.

Definition vdifreader_reposition_all (rd : vdif_file_reader) (offset : Z) : option vdif_file_reader :=
  th ← vr_threads rd !! 0%nat;
  '(_, rs, th) ← vdifreader_resync (vr_details rd) (vr_resync rd) (tf_goto offset th);
  let rd := vr_set_thread rd 0 th rs in
  let rd := {| vr_details := vr_details rd; vr_threads := vr_threads rd;
    vr_syncpoint_sec := vr_syncpoint_sec rd; vr_syncpoint_framenr := vr_syncpoint_framenr rd;
    vr_eof := vr_eof rd; vr_fps := vr_fps rd; vr_firstframeoffset := tf_pos th;
    vr_virtualoffset := 0; vr_resync := vr_resync rd; vr_fillpattern := vr_fillpattern rd |} in
  rd ← run_iters (restart_thread (tf_pos th)) (seq 0 (length (vr_threads rd))) rd;
  vdifreader_determine_syncpoint rd.

(** ** Reading *)

(** Bytes [data] over [buf] from byte [i] on. *)
Definition overwrite (buf : buffer) (i : nat) (data : buffer) : buffer :=
  take i buf ++ data ++ drop (i + length data) buf.

(** The header of a replacement frame. *)
Definition replacement_header (sum : vdif_file_summary) (id sec framenr : Z) (vh : vdif_header) : vdif_header :=
  let vh := setVDIFFrameInvalid vh 1 in
  let vh := setVDIFFrameEpochSecOffset vh sec in
  let vh := setVDIFEpoch vh (vs_epoch sum) in
  let vh := setVDIFFrameNumber vh framenr in
  let vh := setVDIFBitsPerSample vh (vs_nBit sum) in
  let vh := setVDIFFrameBytes vh (vs_frameSize sum) in
  setVDIFThreadID vh id.

(** [vdifreader_get_frame]: the bytes that go to the user's buffer. *)
Definition vdifreader_get_frame (rd : vdif_file_reader) (t : nat) (sec framenr nbyte offset : Z)
    : option (buffer * vdif_file_reader) :=
  let sum := vr_details rd in
  th ← vr_threads rd !! t;
  let vh := tf_header th in
  let useFile := negb (tf_feof th) && (sec =? getVDIFFrameEpochSecOffset vh) &&
                 (framenr =? getVDIFFrameNumber vh) in
  if vs_frameSize sum <=? 0 then None else
  let nbyte := if vs_frameSize sum <? nbyte + offset then vs_frameSize sum - offset else nbyte in
  if negb useFile then
    rd ← (if offset <? 32 then
            id ← vs_threadIds sum !! t;
            if decide (32 <= length (vr_fillpattern rd))%nat
            then Some (vr_set_fillpattern rd (overwrite (vr_fillpattern rd) 0
                   (struct_bytes (replacement_header sum id sec framenr vh))))
            else None
          else Some rd);
    if decide (0 <= offset /\ 0 <= nbyte /\ offset + nbyte <= Z.of_nat (length (vr_fillpattern rd)))
    then Some (slice (vr_fillpattern rd) (Z.to_nat offset) (Z.to_nat nbyte), rd) else None
  else
    let '(data, th) := tf_read nbyte th in
    let rd :=
      if (length data <? 1)%nat then
        let rd := vr_set_thread rd t (tf_set_feof th (tf_eof th)) (vr_resync rd) in
        vr_set_eof rd (vdifreader_check_eof rd)
      else vr_set_thread rd t th (vr_resync rd) in
    if vs_frameSize sum <=? nbyte + offset then
      '(r, rd) ← advance_thread t rd;
      if r <? 0 then
        th ← vr_threads rd !! t;
        let rd := vr_set_thread rd t (tf_set_feof th (tf_eof th)) (vr_resync rd) in
        Some (data, vr_set_eof rd (vdifreader_check_eof rd))
      else Some (data, rd)
    else Some (data, rd).

(** One round of the loop of [vdifreaderRead], of [count] bytes in all. *)
Definition read_step (rd : vdif_file_reader) (buf : buffer) (nrd count : Z)
    : option (vdif_file_reader * buffer * Z) :=
  let sum := vr_details rd in
  if (vs_frameSize sum <=? 0) || (vs_nThread sum <=? 0) then None else
  let threadIdx := cmod (cdiv (vr_virtualoffset rd) (vs_frameSize sum)) (vs_nThread sum) in
  let inframeoffset := cmod (vr_virtualoffset rd) (vs_frameSize sum) in
  let inframeremain := vs_frameSize sum - inframeoffset in
  let nwanted := if inframeremain <? count - nrd then inframeremain else count - nrd in
  '(data, rd) ← vdifreader_get_frame rd (Z.to_nat threadIdx) (s32 (vr_syncpoint_sec rd))
                  (s32 (vr_syncpoint_framenr rd)) nwanted inframeoffset;
  let virtualoffset := vr_virtualoffset rd + nwanted in
  let rd :=
    if (inframeremain - nwanted =? 0) && (threadIdx =? vs_nThread sum - 1) then
      if vr_syncpoint_framenr rd <? u64 (vr_fps rd - 1)
      then vr_set_place rd (vr_syncpoint_sec rd) (vr_syncpoint_framenr rd + 1) virtualoffset
      else vr_set_place rd (vr_syncpoint_sec rd + 1) 0 virtualoffset
    else vr_set_place rd (vr_syncpoint_sec rd) (vr_syncpoint_framenr rd) virtualoffset in
  Some (rd, overwrite buf (Z.to_nat nrd) data, nrd + nwanted).

Fixpoint read_loop (fuel : nat) (rd : vdif_file_reader) (buf : buffer) (nrd count : Z)
    : option (vdif_file_reader * buffer * Z) :=
  if nrd <? count then
    match fuel with
    | O => None
    | S fuel => '(rd, buf, nrd) ← read_step rd buf nrd count; read_loop fuel rd buf nrd count
    end
  else Some (rd, buf, nrd).

(** [vdifreaderRead] into the memory [buf]: the count, the memory, the reader. *)
Definition vdifreaderRead (rd : vdif_file_reader) (buf : buffer) (count : Z)
    : option (Z * buffer * vdif_file_reader) :=
  if vr_eof rd || (count =? 0) then Some (0, buf, rd) else
  '(rd, buf, nrd) ← read_loop (Z.to_nat count) rd buf 0 count;
  Some (nrd, buf, rd).

(** [vdifreaderSeek]; it always returns 0. *)
Definition vdifreaderSeek (rd : vdif_file_reader) (offset : Z) : option (Z * vdif_file_reader) :=
  rd ← vdifreader_reposition_all rd offset; Some (0, rd).

(** ** Opening *)

(** The most frames per second at 16 Gbps: the exact value of the quotient that
    the code takes in double precision. *)
Definition max_fps (sum : vdif_file_summary) : option Z :=
  let payload := u64 (vs_frameSize sum - 32) in
  if payload =? 0 then None else
  sint (cdiv ((vs_nThread sum + 1) * 16000000000) (8 * payload)).

(** The loop of [vdifreader_estimate_fps]. *)
Fixpoint fps_loop (fuel : nat) (sum : vdif_file_summary) (max ndiscarded fps : Z) (rs : buffer) (th : thread_file)
    : option (Z * buffer * thread_file) :=
  if ndiscarded + 1 <? max then
    match fuel with
    | O => None
    | S fuel =>
        '(v, rs, th) ← vdifreader_advance_to_valid_frame sum rs th;
        match v with
        | None => Some (fps, rs, th)
        | Some vh =>
            let higher := fps <=? getVDIFFrameNumber vh in
            fps_loop fuel sum max (if higher then 0 else ndiscarded + 1)
              (if higher then getVDIFFrameNumber vh + 1 else fps) rs
              (tf_goto (tf_pos th + getVDIFFrameBytes vh) th)
        end
    end
  else Some (fps, rs, th).

Definition vdifreader_estimate_fps (rd : vdif_file_reader) : option (Z * vdif_file_reader) :=
  th ← vr_threads rd !! 0%nat;
  max ← max_fps (vr_details rd);
  '(fps, rs, th') ← fps_loop (S (S (length (st_bytes (tf_fd th))))) (vr_details rd) max 0 1 (vr_resync rd) (tf_goto 0 th);
  Some (fps, vr_set_thread rd 0 (tf_goto (tf_pos th) th') rs).

(** The filler bytes 0x44 0x33 0x22 0x11. *)
Definition filler (n : nat) : buffer :=
  (fun i => let v := 4 - Z.of_nat i mod 4 in v * 16 + v) <$> seq 0 n.

(** [vdifreaderOpen] on the contents of the file ([None]: it cannot be opened),
    with the fresh memory [rs] for [resyncbuffer_]: the reader, or -1. *)
Definition vdifreaderOpen (sum : vdif_file_summary) (contents : option buffer) (rs : buffer)
    : option (option vdif_file_reader) :=
  match contents with
  | None => Some None
  | Some bytes =>
      let th := {| tf_fd := {| st_bytes := bytes; st_pos := 0 |}; tf_eof := false; tf_feof := false;
                   tf_header := zero_header; tf_sec := 0 |} in
      let rd := {| vr_details := sum; vr_threads := replicate (Z.to_nat (vs_nThread sum)) th;
        vr_syncpoint_sec := 0; vr_syncpoint_framenr := 0; vr_eof := false; vr_fps := 1;
        vr_firstframeoffset := 0; vr_virtualoffset := 0; vr_resync := rs;
        vr_fillpattern := filler (Z.to_nat (2 * vs_frameSize sum)) |} in
      '(fps, rd) ← (if vs_framesPerSecond sum <=? 0 then vdifreader_estimate_fps rd
                    else Some (vs_framesPerSecond sum, rd));
      let rd := {| vr_details := vr_details rd; vr_threads := vr_threads rd;
        vr_syncpoint_sec := vr_syncpoint_sec rd; vr_syncpoint_framenr := vr_syncpoint_framenr rd;
        vr_eof := vr_eof rd; vr_fps := fps; vr_firstframeoffset := vr_firstframeoffset rd;
        vr_virtualoffset := vr_virtualoffset rd; vr_resync := vr_resync rd;
        vr_fillpattern := vr_fillpattern rd |} in
      rd ← vdifreader_reposition_all rd 0;
      Some (Some rd)
  end.

(** ** Statistics *)

(** [vdifreaderStats]: the distances of the handles from the last one, in frames,
    and the largest. *)
Definition vdifreaderStats (rd : vdif_file_reader) : option (list Z * Z) :=
  if vs_frameSize (vr_details rd) =? 0 then None else
  let offs := (fun th => cdiv (tf_pos th - vr_firstframeoffset rd) (vs_frameSize (vr_details rd))) <$> vr_threads rd in
  o0 ← offs !! 0%nat;
  let minOffset := foldl (fun m o => if o <? m then o else m) o0 offs in
  let offs := (fun o => o - minOffset) <$> offs in
  Some (offs, foldl (fun m o => if m <? o then o else m) 0 offs).
