(* ===== verification/VdifReaderSpec.v ===== *)
(** * VdifReaderSpec: a file of frames and what the reader makes of it

    A file is a list of good frames and at most the rest of a header.  An entry
    of a thread is described by the frames of the thread that are still to come
    ([thread_rep]); the reader returns, time by time and thread by thread, the
    frame of that time or a marked replacement ([slot_filled]). *)
From S2P Require Export VdifReader.
From stdpp Require Export sorting.
#[local] Open Scope Z_scope.

(** ** Headers *)

Lemma vh_set_epoch_ok h v : struct_ok h -> struct_ok (vh_set_epoch h v).
Proof. setter_ok. Qed.

Lemma vh_set_nbits_ok h v : struct_ok h -> struct_ok (vh_set_nbits h v).
Proof. setter_ok. Qed.

Lemma looks_good_spec sum vh : vdifreader_header_looks_good sum vh = true <->
  getVDIFFrameBytes vh = vs_frameSize sum /\ getVDIFBitsPerSample vh = vs_nBit sum /\ getVDIFEpoch vh = vs_epoch sum.
Proof. unfold vdifreader_header_looks_good. rewrite !andb_true_iff, !Z.eqb_eq. tauto. Qed.

Lemma drop_concat n fs (rest : buffer) k : Forall (fun f : buffer => length f = n) fs -> (k <= length fs)%nat ->
  drop (k * n) (concat fs ++ rest) = concat (drop k fs) ++ rest.
Proof.
  revert fs. induction k as [|k IH]; intros fs Hfs Hk; [done|]. destruct fs as [|f fs]; [cbn in Hk; lia|].
  apply Forall_cons_1 in Hfs as [Hl Hfs]. cbn [concat drop]. replace (S k * n)%nat with (n + k * n)%nat by lia.
  rewrite <-drop_drop, <-app_assoc, drop_app_length' by done. apply IH; [done|]. cbn in Hk. lia.
Qed.

Section File.
Context (sum : vdif_file_summary) (frames : list buffer) (rest : buffer).

(** Frames per second. *)
Context (fps : Z).

Abbreviation size := (Z.to_nat (vs_frameSize sum)).

Definition header_of (f : buffer) : vdif_header := struct_of_bytes (take 32 f).
Definition frame_id (f : buffer) : Z := getVDIFThreadID (header_of f).

(** The time of a frame, in frames. *)
Definition frame_time (f : buffer) : Z :=
  getVDIFFrameEpochSecOffset (header_of f) * fps + getVDIFFrameNumber (header_of f).

Definition good (f : buffer) : Prop :=
  length f = size /\ vdifreader_header_looks_good sum (header_of f) = true /\
  getVDIFFrameNumber (header_of f) < fps.

Definition vdif_bytes : buffer := concat frames ++ rest.

Context (Hsize : 32 <= vs_frameSize sum < 2 ^ 27) (Hgood : Forall good frames) (Hrest : (length rest < 32)%nat).

(** ** Positions *)

Definition at_frame (th : thread_file) (k : nat) : Prop :=
  st_bytes (tf_fd th) = vdif_bytes /\ tf_pos th = Z.of_nat k * vs_frameSize sum.

Lemma pos_nonneg k : 0 <= Z.of_nat k * vs_frameSize sum.
Proof using Hsize. clear -Hsize. apply Z.mul_nonneg_nonneg; lia. Qed.

Lemma drop_frames k : (k <= length frames)%nat ->
  drop (Z.to_nat (Z.of_nat k * vs_frameSize sum)) vdif_bytes = concat (drop k frames) ++ rest.
Proof using Hgood Hsize.
  clear Hrest. intros Hk. unfold vdif_bytes. replace (Z.to_nat (Z.of_nat k * vs_frameSize sum)) with (k * size)%nat by lia.
  apply drop_concat; [|done]. eapply Forall_impl; [exact Hgood|]. by intros f (Hl & _).
Qed.

Lemma frames_count fs : Forall good fs -> (length fs <= length (concat fs))%nat.
Proof using Hsize.
  clear Hrest Hgood. induction 1 as [|f fs (Hl & _) _ IH]; [done|]. cbn. rewrite length_app. lia.
Qed.

Lemma frame_good k f : frames !! k = Some f -> good f.
Proof using Hgood. intros Hk. exact (proj1 (Forall_lookup _ _) Hgood _ _ Hk). Qed.

(** Looking at the header leaves the position and clears the indicator. *)
Lemma peek_frame th k f : at_frame th k -> frames !! k = Some f -> tf_feof th = false ->
  exists th', vdifreader_peek_frame th = (Some (header_of f), th') /\ at_frame th' k /\ tf_feof th' = false /\
    tf_sec th' = tf_sec th.
Proof using Hgood Hsize Hrest.
  intros [Hb Hp] Hk Hf. pose proof (frame_good k f Hk) as (Hl & _).
  pose proof (pos_nonneg k) as Hk0. unfold vdifreader_peek_frame. rewrite Hf. unfold tf_read.
  pose proof (drop_frames k ltac:(apply lookup_lt_Some in Hk; lia)) as Hd. rewrite (drop_S _ _ _ Hk) in Hd.
  cbn [concat] in Hd. unfold tf_pos in Hp.
  destruct (fread_app 32 (tf_fd th) (take 32 f) (drop 32 f ++ concat (drop (S k) frames) ++ rest))
    as (f' & E & Hp' & Eb & _).
  - lia.
  - rewrite Hp, Hb, Hd, !app_assoc. by rewrite take_drop.
  - rewrite length_take. lia.
  - assert (Ep : st_pos f' = st_pos (tf_fd th) + 32).
    { unfold fread in E. injection E as E1 <-. cbn. rewrite E1, length_take. lia. }
    rewrite E. rewrite decide_True by (rewrite length_take; lia). unfold tf_seek, tf_pos. cbn [tf_fd].
    unfold fseeko. rewrite (proj2 (Z.ltb_ge (_ - 32) 0)) by lia. cbn [mbind option_bind].
    eexists. split; [done|]. split; [|done]. split; cbn; [by rewrite Eb|]. unfold tf_pos. cbn. lia.
Qed.

(** At the end of the frames there is no header any more. *)
Lemma read_end th n : at_frame th (length frames) -> 32 <= n ->
  exists th', tf_read n th = (rest, th') /\ tf_eof th' = true /\ tf_feof th' = tf_feof th /\
    st_bytes (tf_fd th') = vdif_bytes /\ tf_sec th' = tf_sec th.
Proof using Hgood Hsize Hrest.
  intros [Hb Hp] Hn. unfold tf_pos in Hp.
  pose proof (drop_frames (length frames) ltac:(done)) as Hd. rewrite drop_all in Hd.
  assert (E : fread n (tf_fd th) = (rest, {| st_bytes := vdif_bytes; st_pos := st_pos (tf_fd th) + Z.of_nat (length rest) |})).
  { unfold fread. rewrite Hp, Hb, Hd. cbn [concat app]. by rewrite firstn_all2 by lia. }
  unfold tf_read. rewrite E. eexists. split; [done|]. cbn [tf_eof tf_feof tf_fd tf_sec st_bytes].
  rewrite (proj2 (Z.ltb_lt (Z.of_nat (length rest)) n)) by lia. by rewrite orb_true_r.
Qed.

Lemma peek_short th th' : tf_feof th = false -> tf_read 32 th = (rest, th') -> vdifreader_peek_frame th = (None, th').
Proof using Hrest. intros Hf E. unfold vdifreader_peek_frame. rewrite Hf, E, decide_False; [done|lia]. Qed.

Lemma peek_end th : at_frame th (length frames) -> tf_feof th = false ->
  exists th', vdifreader_peek_frame th = (None, th') /\ tf_eof th' = true /\ tf_feof th' = false /\
    st_bytes (tf_fd th') = vdif_bytes /\ tf_sec th' = tf_sec th.
Proof using Hgood Hsize Hrest.
  intros Hat Hf. destruct (read_end th 32 Hat (Z.le_refl 32)) as (th' & E & He & Hf' & Hb & Hs).
  exists th'. split; [exact (peek_short th th' Hf E)|]. rewrite Hf'. by split_and!.
Qed.

(** ** The next frame of a thread *)

Definition of_thread (id : Z) (fs : list buffer) : list buffer := filter (fun f => frame_id f = id) fs.

(** The frames of the thread still to come. *)
Definition thread_rep (th : thread_file) (id : Z) (rem : list buffer) : Prop :=
  st_bytes (tf_fd th) = vdif_bytes /\ struct_ok (tf_header th) /\
  match rem with
  | [] => tf_feof th = true /\ tf_header th = zero_header
  | f :: rem => tf_feof th = false /\ tf_header th = header_of f /\
      exists k, at_frame th k /\ frames !! k = Some f /\ of_thread id (drop (S k) frames) = rem
  end.

Lemma good_bytes f : good f -> getVDIFFrameBytes (header_of f) = vs_frameSize sum.
Proof using.
  intros (_ & Hg & _). by apply looks_good_spec in Hg as (? & _).
Qed.

Lemma valid_frame rs th k f : at_frame th k -> frames !! k = Some f -> tf_feof th = false ->
  exists th', vdifreader_advance_to_valid_frame sum rs th = Some (Some (header_of f), rs, th') /\
    at_frame th' k /\ tf_feof th' = false.
Proof using Hgood Hsize Hrest.
  intros Hat Hk Hf. destruct (peek_frame th k f Hat Hk Hf) as (th' & E & Hat' & Hf' & _).
  unfold vdifreader_advance_to_valid_frame. rewrite Hf. cbn [valid_loop]. rewrite E.
  pose proof (frame_good k f Hk) as (_ & Hg & _). rewrite Hg. by exists th'.
Qed.

Lemma valid_end rs th : at_frame th (length frames) -> tf_feof th = false ->
  exists th', vdifreader_advance_to_valid_frame sum rs th = Some (None, rs, th') /\
    tf_eof th' = true /\ st_bytes (tf_fd th') = vdif_bytes.
Proof using Hgood Hsize Hrest.
  intros Hat Hf. destruct (peek_end th Hat Hf) as (th' & E & He & _ & Hb & _).
  unfold vdifreader_advance_to_valid_frame. rewrite Hf. cbn [valid_loop]. rewrite E. by exists th'.
Qed.

Lemma seek_next th k n : at_frame th k -> n = vs_frameSize sum ->
  exists th', tf_seek (tf_pos th + n) th = Some th' /\ at_frame th' (S k) /\ tf_feof th' = tf_feof th.
Proof using Hsize.
  clear Hrest. intros [Hb Hp] ->. pose proof (pos_nonneg k). unfold tf_seek, fseeko.
  rewrite (proj2 (Z.ltb_ge _ 0)) by lia. cbn [mbind option_bind]. eexists. split; [done|]. split; [|done].
  split; [done|]. unfold tf_pos in *. cbn [tf_fd st_pos]. lia.
Qed.

Lemma frame_id_eq f : frame_id f = getVDIFThreadID (header_of f).
Proof using. unfold frame_id. reflexivity. Qed.

Lemma of_thread_cons id f fs :
  of_thread id (f :: fs) = if decide (frame_id f = id) then f :: of_thread id fs else of_thread id fs.
Proof using. done. Qed.

Lemma thread_loop_rep fuel id rs th k :
  at_frame th k -> tf_feof th = false -> (k <= length frames)%nat -> (length frames - k < fuel)%nat ->
  exists v th', thread_loop fuel sum id rs th = Some (v, rs, th') /\ st_bytes (tf_fd th') = vdif_bytes /\
    match of_thread id (drop k frames) with
    | [] => v = None /\ tf_feof th' = true /\ tf_eof th' = true
    | f :: rem => v = Some (header_of f) /\ tf_feof th' = false /\
        exists k', at_frame th' k' /\ frames !! k' = Some f /\ of_thread id (drop (S k') frames) = rem
    end.
Proof using Hgood Hsize Hrest.
  revert th k. induction fuel as [|fuel IH]; intros th k Hat Hf Hk Hfuel; [lia|].
  cbn [thread_loop]. rewrite Hf. destruct (decide (k = length frames)) as [->|Hne].
  - destruct (valid_end rs th Hat Hf) as (th' & -> & He & Hb). cbn [mbind option_bind].
    rewrite drop_all. eexists _, _. split; [done|]. by split.
  - destruct (lookup_lt_is_Some_2 frames k) as [f Hkf]; [lia|].
    destruct (valid_frame rs th k f Hat Hkf Hf) as (th' & -> & Hat' & Hf'). cbn [mbind option_bind].
    rewrite (drop_S _ _ _ Hkf), of_thread_cons, <-frame_id_eq.
    destruct (Z.eqb_spec (frame_id f) id) as [Eid|Eid].
    + rewrite decide_True by done. eexists _, _. split; [done|]. pose proof Hat' as [Hb _].
      split; [done|]. split; [done|]. split; [done|]. by exists k.
    + rewrite decide_False by done.
      destruct (seek_next th' k _ Hat' (good_bytes f (frame_good k f Hkf))) as (th'' & -> & Hat'' & Hf'').
      apply IH; [done|congruence|lia|lia].
Qed.

Lemma advance_rep id rs th k :
  at_frame th k -> tf_feof th = false -> (k <= length frames)%nat ->
  exists r th', vdifreader_advance_to_frame_of_thread sum id rs th = Some (r, rs, th') /\
    thread_rep th' id (of_thread id (drop k frames)) /\
    (r <? 0) = (if decide (of_thread id (drop k frames) = []) then true else false) /\
    (of_thread id (drop k frames) = [] -> tf_eof th' = true).
Proof using Hgood Hsize Hrest.
  intros Hat Hf Hk. unfold vdifreader_advance_to_frame_of_thread. rewrite Hf.
  assert (Hlen : (length frames <= length (st_bytes (tf_fd th)))%nat).
  { destruct Hat as [-> _]. unfold vdif_bytes. rewrite length_app.
    pose proof (frames_count frames Hgood). lia. }
  destruct (thread_loop_rep (S (length (st_bytes (tf_fd th)))) id rs th k Hat Hf Hk) as (v & th' & -> & Hb & Hm); [lia|].
  cbn [mbind option_bind]. destruct (of_thread id (drop k frames)) as [|f rem] eqn:E.
  - destruct Hm as (-> & Hf' & He'). eexists _, _. split; [done|]. split; [|by split]. split; [done|]. split; [apply zero_header_ok|done].
  - destruct Hm as (-> & Hf' & Hk'). eexists _, _. split; [done|]. split; [|by split].
    split; [done|]. split; [apply struct_of_bytes_ok|done].
Qed.

(** ** Getting a frame *)

(** What the summary says can be said by a header. *)
Record sum_ok : Prop := {
  so_size : vs_frameSize sum mod 8 = 0;
  so_bits : 1 <= vs_nBit sum <= 32;
  so_epoch : 0 <= vs_epoch sum < 64;
  so_ids : Forall (fun id => 0 <= id < 1024) (vs_threadIds sum);
  so_threads : length (vs_threadIds sum) = Z.to_nat (vs_nThread sum) }.

(** A frame that stands for a missing one: marked invalid, of the thread and time,
    with filler for data. *)
Record replacement (id sec framenr : Z) (out : buffer) : Prop := {
  rp_length : length out = size;
  rp_good : vdifreader_header_looks_good sum (header_of out) = true;
  rp_invalid : getVDIFFrameInvalid (header_of out) = 1;
  rp_id : frame_id out = id;
  rp_sec : getVDIFFrameEpochSecOffset (header_of out) = sec;
  rp_framenr : getVDIFFrameNumber (header_of out) = framenr;
  rp_data : drop 32 out = slice (filler (2 * size)) 32 (size - 32) }.

Context (Hsum : sum_ok) (Hfps : 1 <= fps <= 2 ^ 24).

Definition fill_ok (fp : buffer) : Prop :=
  length fp = (2 * size)%nat /\ drop 32 fp = drop 32 (filler (2 * size)).

Lemma replacement_header_fields id sec framenr vh :
  struct_ok vh -> 0 <= id < 1024 -> 0 <= sec < 2 ^ 30 -> 0 <= framenr < fps ->
  let h := replacement_header sum id sec framenr vh in
  struct_ok h /\ vdifreader_header_looks_good sum h = true /\ getVDIFFrameInvalid h = 1 /\
  getVDIFThreadID h = id /\ getVDIFFrameEpochSecOffset h = sec /\ getVDIFFrameNumber h = framenr.
Proof using Hsum Hfps Hsize.
  clear Hgood Hrest. intros Hvh Hid Hsec Hnr h. split.
  { unfold h, replacement_header. apply vh_set_threadid_ok, vh_set_framelength8_ok, vh_set_nbits_ok,
      vh_set_frame_ok, vh_set_epoch_ok, vh_set_seconds_ok, vh_set_invalid_ok. done. }
  destruct Hsum as [H1 H2 H3 _ _].
  pose proof (Z.div_mod (vs_frameSize sum) 8 ltac:(lia)) as Hdiv.
  pose proof (Z.div_pos (vs_frameSize sum) 8 ltac:(lia) ltac:(lia)).
  assert (E1 : getVDIFFrameBytes h = vs_frameSize sum).
  { change (getVDIFFrameBytes h) with (uwrap 24 (cdiv (vs_frameSize sum) 8) * 8).
    rewrite Z.quot_div_nonneg, uwrap_small by lia. lia. }
  assert (E2 : getVDIFBitsPerSample h = vs_nBit sum) by (change (getVDIFBitsPerSample h) with (uwrap 5 (vs_nBit sum - 1) + 1); rewrite uwrap_small by lia; lia).
  assert (E3 : getVDIFEpoch h = vs_epoch sum) by (change (getVDIFEpoch h) with (uwrap 6 (vs_epoch sum)); rewrite uwrap_small by lia; lia).
  split_and!.
  - unfold vdifreader_header_looks_good. by rewrite E1, E2, E3, !Z.eqb_refl.
  - done.
  - by apply (uwrap_small 10).
  - by apply (uwrap_small 30).
  - apply (uwrap_small 24). lia.
Qed.

Lemma replacement_ok id sec framenr vh fp :
  struct_ok vh -> 0 <= id < 1024 -> 0 <= sec < 2 ^ 30 -> 0 <= framenr < fps -> fill_ok fp ->
  let fp' := overwrite fp 0 (struct_bytes (replacement_header sum id sec framenr vh)) in
  fill_ok fp' /\ replacement id sec framenr (slice fp' 0 size).
Proof using Hsum Hfps Hsize.
  clear Hgood Hrest. intros Hvh Hid Hsec Hnr [Hl Hd] fp'.
  destruct (replacement_header_fields id sec framenr vh Hvh Hid Hsec Hnr) as (Hok & Hg & Hi & Ht & Hs & Hn).
  set (h := replacement_header sum id sec framenr vh) in *.
  assert (Efp : fp' = struct_bytes h ++ drop 32 fp).
  { unfold fp', overwrite. by rewrite length_header_bytes, take_0. }
  assert (Htake : take 32 (slice fp' 0 size) = struct_bytes h).
  { unfold slice. rewrite drop_0, take_take, Nat.min_l, Efp by lia. apply take_app_length'. by rewrite length_header_bytes. }
  assert (Hh : header_of (slice fp' 0 size) = h).
  { unfold header_of. rewrite Htake. apply (struct_bytes_of header_whole). done. }
  split.
  - split; [|rewrite Efp, drop_app_length'; [done|by rewrite length_header_bytes]].
    rewrite Efp, length_app, length_header_bytes, length_drop. lia.
  - split; unfold frame_id; rewrite ?Hh; try done.
    + unfold slice. rewrite length_take, drop_0, Efp, length_app, length_header_bytes, length_drop. lia.
    + unfold slice. rewrite drop_0, <-Hd, Efp, skipn_firstn_comm.
      rewrite drop_app_length' by (by rewrite length_header_bytes). done.
Qed.

(** What getting a frame leaves alone. *)
Definition vr_place (rd : vdif_file_reader) : vdif_file_summary * Z * Z * Z * Z * Z * buffer :=
  (vr_details rd, vr_syncpoint_sec rd, vr_syncpoint_framenr rd, vr_fps rd, vr_firstframeoffset rd,
   vr_virtualoffset rd, vr_resync rd).

(** The thread gives its next frame if that has the time, else a replacement. *)
Definition delivers (id sec framenr : Z) (rem : list buffer) (out : buffer) (rem' : list buffer) : Prop :=
  (exists f, rem = f :: rem' /\ frame_time f = sec * fps + framenr /\ out = f) \/
  (rem' = rem /\ (forall f, head rem = Some f -> frame_time f <> sec * fps + framenr) /\
   replacement id sec framenr out).

Lemma frame_time_eq f sec framenr : good f -> 0 <= sec -> 0 <= framenr < fps ->
  (sec =? getVDIFFrameEpochSecOffset (header_of f)) && (framenr =? getVDIFFrameNumber (header_of f)) = true <->
  frame_time f = sec * fps + framenr.
Proof using Hfps.
  clear Hgood Hrest Hsize Hsum. intros (_ & _ & Hn) Hs Hnr. unfold frame_time.
  pose proof (struct_header_ok _ (struct_of_bytes_ok (T:=vdif_header) (take 32 f))) as Hok.
  pose proof (ok_seconds _ Hok) as H1. pose proof (ok_frame _ Hok) as H2. fold (header_of f) in H1, H2.
  unfold getVDIFFrameEpochSecOffset, getVDIFFrameNumber in *.
  rewrite andb_true_iff, !Z.eqb_eq. split; [intros [-> ->]; done|]. intros E.
  assert (Hdiv : forall s n, 0 <= n < fps -> (s * fps + n) / fps = s)
    by (clear -Hfps; intros s n Hsn; rewrite Z.div_add_l, Z.div_small by lia; lia).
  pose proof (Hdiv sec framenr Hnr) as D1. rewrite <-E, Hdiv in D1 by lia. subst sec. lia.
Qed.

(** The frame that a handle is at, and the handle after it. *)
Lemma read_frame th k f : at_frame th k -> frames !! k = Some f ->
  exists th', tf_read (vs_frameSize sum) th = (f, th') /\ at_frame th' (S k) /\ tf_feof th' = tf_feof th /\
    tf_header th' = tf_header th.
Proof using Hgood Hsize Hrest.
  intros [Hb Hp] Hk. pose proof (frame_good k f Hk) as (Hl & _). pose proof (pos_nonneg k).
  pose proof (drop_frames k ltac:(apply lookup_lt_Some in Hk; lia)) as Hd. rewrite (drop_S _ _ _ Hk) in Hd.
  cbn [concat] in Hd. rewrite <-app_assoc in Hd. unfold tf_read, tf_pos in *.
  destruct (fread_app (vs_frameSize sum) (tf_fd th) f (concat (drop (S k) frames) ++ rest)) as (f' & E & _ & Eb & _);
    [lia|by rewrite Hp, Hb|lia|].
  assert (Ep : st_pos f' = st_pos (tf_fd th) + vs_frameSize sum).
  { unfold fread in E. injection E as E1 <-. cbn. rewrite E1. lia. }
  rewrite E. eexists. split; [done|]. split; [|done]. split; [cbn; by rewrite Eb|]. unfold tf_pos. cbn. lia.
Qed.

Lemma get_frame_rep rd t th id rem sec framenr :
  vr_details rd = sum -> vr_threads rd !! t = Some th -> vs_threadIds sum !! t = Some id ->
  thread_rep th id rem -> fill_ok (vr_fillpattern rd) -> 0 <= sec < 2 ^ 30 -> 0 <= framenr < fps ->
  exists out rd' th' rem', vdifreader_get_frame rd t sec framenr (vs_frameSize sum) 0 = Some (out, rd') /\
    vr_place rd' = vr_place rd /\ vr_threads rd' = <[t := th']> (vr_threads rd) /\ fill_ok (vr_fillpattern rd') /\
    thread_rep th' id rem' /\ delivers id sec framenr rem out rem' /\ length out = size /\
    vr_eof rd' = (if decide (rem <> [] /\ rem' = []) then vdifreader_check_eof rd' else vr_eof rd).
Proof using Hgood Hsize Hrest Hsum Hfps.
  intros Ed Et Eid (Hb & Hok & Hrem) Hfill Hsec Hnr.
  assert (Hid : 0 <= id < 1024) by exact (proj1 (Forall_lookup _ _) (so_ids Hsum) _ _ Eid).
  assert (Hlt : (t < length (vr_threads rd))%nat) by by apply lookup_lt_Some in Et.
  unfold vdifreader_get_frame. rewrite Ed, Et. cbn [mbind option_bind].
  rewrite (proj2 (Z.leb_gt _ _)), (proj2 (Z.ltb_ge _ _)) by lia.
  set (use := negb (tf_feof th) && _ && _).
  assert (Huse : use = true <-> exists f, head rem = Some f /\ frame_time f = sec * fps + framenr).
  { unfold use. destruct rem as [|f rem].
    - rewrite (proj1 Hrem). cbn. split; [done|by intros (? & ? & _)].
    - destruct Hrem as (-> & -> & k & _ & Hk & _). cbn [negb andb head].
      rewrite (frame_time_eq f) by (lia || by apply (frame_good k)). split; [by exists f|]. by intros (? & [= <-] & ?). }
  destruct use; cbn [negb].
  - destruct (proj1 Huse eq_refl) as (f & Hf & Htime). destruct rem as [|f' rem]; [done|]. injection Hf as ->.
    destruct Hrem as (Hfe & Hh & k & Hat & Hk & Hnext). pose proof (frame_good k f Hk) as (Hl & _).
    destruct (read_frame th k f Hat Hk) as (th1 & -> & Hat1 & Hfe1 & Hh1).
    assert (E1 : (length f <? 1)%nat = false) by (apply Nat.ltb_ge; lia). rewrite E1.
    rewrite (proj2 (Z.leb_le _ _)) by lia. unfold advance_thread at 1. cbn [vr_set_thread vr_threads vr_details vr_resync].
    rewrite list_lookup_insert_eq by done. cbn [mbind option_bind]. rewrite Ed, Eid. cbn [mbind option_bind].
    destruct (advance_rep id (vr_resync rd) th1 (S k) Hat1) as (r & th2 & -> & Hrep & Hr & Heof);
      [congruence|by apply lookup_lt_Some in Hk|]. rewrite Hnext in *. cbn [mbind option_bind]. rewrite Hr.
    destruct (decide (rem = [])) as [->|Hne].
    + cbn [vr_set_thread vr_threads vr_details vr_resync]. rewrite list_lookup_insert_eq by (by rewrite length_insert).
      cbn [mbind option_bind]. eexists f, _, (tf_set_feof th2 (tf_eof th2)), []. split; [done|]. split; [done|].
      split; [cbn; by rewrite !list_insert_insert_eq|]. split; [done|].
      destruct Hrep as (Hb2 & Hok2 & Hz2). split; [split; [done|]; split; [done|]; split; [by apply Heof|apply Hz2]|].
      split; [left; by exists f|]. split; [done|]. by rewrite decide_True.
    + eexists f, _, th2, rem. split; [done|]. split; [done|].
      split; [cbn; by rewrite !list_insert_insert_eq|]. split; [done|]. split; [done|].
      split; [left; by exists f|]. split; [done|]. by rewrite decide_False by naive_solver.
  - change (0 <? 32) with true. rewrite Eid. cbn [mbind option_bind].
    pose proof Hfill as [Hfl _]. rewrite decide_True by lia. cbn [mbind option_bind vr_set_fillpattern vr_fillpattern].
    destruct (replacement_ok id sec framenr (tf_header th) (vr_fillpattern rd) Hok Hid Hsec Hnr Hfill) as [Hfill' Hrp].
    pose proof Hfill' as [Hfl' _]. rewrite decide_True by lia.
    eexists _, _, th, rem. split; [done|]. split; [done|].
    split; [cbn; by rewrite list_insert_id|]. split; [done|]. split; [by split|].
    split; [right; split; [done|]; split; [|exact Hrp]|split; [apply (rp_length _ _ _ _ Hrp)|]];
      [|by rewrite decide_False by naive_solver].
    intros f Hf Ht. assert (false = true) by (apply Huse; by exists f). done.
Qed.

(** ** Threads in time order *)

Definition in_order (rem : list buffer) : Prop := StronglySorted (fun f g => frame_time f < frame_time g) rem.

(** The frames from time [A] on. *)
Definition from (A : Z) (rem : list buffer) : list buffer := filter (fun f => A <= frame_time f) rem.

(** What the reader returns for a thread at time [A]: the frame of that time, if
    the file has one. *)
Definition slot_filled (id : Z) (rem : list buffer) (A : Z) (out : buffer) : Prop :=
  (exists f, f ∈ rem /\ frame_time f = A /\ out = f) \/
  ((forall f, f ∈ rem -> frame_time f <> A) /\ replacement id (A / fps) (A mod fps) out).

Lemma from_cons A f rem : from A (f :: rem) = if decide (A <= frame_time f) then f :: from A rem else from A rem.
Proof using. done. Qed.

Lemma from_all A rem : Forall (fun f => A <= frame_time f) rem -> from A rem = rem.
Proof using.
  induction 1 as [|f rem Hf _ IH]; [done|]. by rewrite from_cons, decide_True, IH.
Qed.

Lemma from_none A rem : Forall (fun f => frame_time f < A) rem -> from A rem = [].
Proof using.
  clear. induction 1 as [|f rem Hf _ IH]; [done|]. by rewrite from_cons, decide_False by lia.
Qed.

Lemma in_order_cons f rem : in_order (f :: rem) -> in_order rem /\ Forall (fun g => frame_time f + 1 <= frame_time g) rem.
Proof using.
  clear Hrest Hsize Hgood Hsum Hfps.
  unfold in_order. intros [Hf Hs]%StronglySorted_cons. split; [done|]. eapply Forall_impl; [exact Hf|].
  intros g Hg. cbn in Hg. lia.
Qed.

(** The step from [A] to the next time. *)
Lemma from_next A rem : in_order rem ->
  (exists f, from A rem = f :: from (A + 1) rem /\ frame_time f = A /\ f ∈ rem) \/
  (from (A + 1) rem = from A rem /\ (forall f, f ∈ rem -> frame_time f <> A)).
Proof using.
  clear Hrest Hsize Hgood Hsum Hfps.
  induction rem as [|f rem IH]; intros Hs.
  - right. split; [done|]. by intros f Hf%elem_of_nil.
  - apply in_order_cons in Hs as [Hs Hf]. rewrite !from_cons. destruct (Z.lt_trichotomy (frame_time f) A) as [Hlt|[Heq|Hgt]].
    + rewrite !decide_False by lia. destruct (IH Hs) as [(g & E & Hg & Hin)|[E Hno]].
      * left. exists g. split; [done|]. split; [done|by right].
      * right. split; [done|]. intros g [->|Hg]%elem_of_cons; [lia|by apply Hno].
    + left. exists f. rewrite decide_True, decide_False by lia. split; [|split; [done|by left]]. f_equal.
      rewrite !from_all; [done| |]; (eapply Forall_impl; [exact Hf|]; intros g Hg; cbn in Hg; lia).
    + right. rewrite !decide_True by lia. split.
      * f_equal. rewrite !from_all; [done| |]; (eapply Forall_impl; [exact Hf|]; intros g Hg; cbn in Hg; lia).
      * intros g [->|Hg]%elem_of_cons; [lia|]. rewrite Forall_forall in Hf. specialize (Hf g Hg). cbn in Hf. lia.
Qed.

Lemma delivers_from id sec framenr rem out rem' : in_order rem -> 0 <= framenr < fps ->
  delivers id sec framenr (from (sec * fps + framenr) rem) out rem' ->
  rem' = from (sec * fps + framenr + 1) rem /\ slot_filled id rem (sec * fps + framenr) out.
Proof using Hfps.
  clear Hrest Hsize Hgood Hsum.
  intros Hs Hnr Hd. set (A := sec * fps + framenr) in *.
  assert (E1 : A / fps = sec) by (unfold A; rewrite Z.div_add_l, Z.div_small by lia; lia).
  assert (E2 : A mod fps = framenr) by (unfold A; rewrite Z.add_comm, Z.mod_add, Z.mod_small by lia; lia).
  destruct (from_next A rem Hs) as [(f & E & Hf & Hin)|[E Hno]].
  - rewrite E in Hd. destruct Hd as [(g & [= -> ->] & Hg & ->)|(_ & Hne & _)]; [|by destruct (Hne f)].
    split; [done|]. left. by exists g.
  - destruct Hd as [(g & Eg & Hg & ->)|(-> & _ & Hr)].
    + destruct (Hno g); [|done]. assert (Hin : g ∈ from A rem) by (rewrite Eg; by left).
      unfold from in Hin. by apply list_elem_of_filter in Hin as [_ ?].
    + split; [done|]. right. rewrite E1, E2. by split.
Qed.

(** ** Reading *)

(** The threads, and what the file has for each of them. *)
Context (rems : list (list buffer)) (Hrems : Forall in_order rems).
Context (n : nat) (Hn : (0 < n)%nat) (Hthreads : vs_nThread sum = Z.of_nat n) (Hlen : length rems = n).

(** The time of the first slot. *)
Context (T0 : Z) (HT0 : 0 <= T0).

(** The time of slot [i], and its thread. *)
Definition slot_time (i : nat) : Z := T0 + Z.of_nat (i / n).
Definition slot_thread (i : nat) : nat := (i mod n)%nat.

(** A thread whose first frame is before the time of the first slot is behind. *)
Definition behind (rem : list buffer) : bool :=
  match rem with [] => false | f :: _ => frame_time f <? T0 end.

(** What is left of each thread before slot [i]: a thread that is behind stays
    where it is. *)
Definition left_of (i t : nat) (rem : list buffer) : list buffer :=
  if behind rem then rem
  else from (if (t <? slot_thread i)%nat then slot_time i + 1 else slot_time i) rem.

Record reader_at (rd : vdif_file_reader) (i : nat) : Prop := {
  ra_details : vr_details rd = sum;
  ra_fps : vr_fps rd = fps;
  ra_fill : fill_ok (vr_fillpattern rd);
  ra_sec : 0 <= vr_syncpoint_sec rd;
  ra_framenr : 0 <= vr_syncpoint_framenr rd < fps;
  ra_time : vr_syncpoint_sec rd * fps + vr_syncpoint_framenr rd = slot_time i;
  ra_offset : exists j : nat, vr_virtualoffset rd = vs_frameSize sum * Z.of_nat (n * j + slot_thread i);
  ra_threads : forall t th id rem, vr_threads rd !! t = Some th -> vs_threadIds sum !! t = Some id ->
    rems !! t = Some rem -> thread_rep th id (left_of i t rem);
  ra_length : length (vr_threads rd) = n;
  ra_room : (2 * size <= length (vr_resync rd))%nat }.

(** The reader says that it is at the end if and only if no frame is left. *)
Definition eof_ok (rd : vdif_file_reader) (i : nat) : Prop :=
  vr_eof rd = true <-> forall t rem, rems !! t = Some rem -> left_of i t rem = [].

Lemma slot_succ i : (slot_thread i < n)%nat /\
  if decide (slot_thread i = (n - 1)%nat)
  then slot_time (S i) = slot_time i + 1 /\ slot_thread (S i) = 0%nat
  else slot_time (S i) = slot_time i /\ slot_thread (S i) = S (slot_thread i).
Proof using Hn.
  clear Hrest Hsize Hgood Hsum Hfps Hlen Hthreads HT0. unfold slot_time, slot_thread.
  pose proof (Nat.mod_upper_bound i n ltac:(lia)) as Hm. pose proof (Nat.div_mod_eq i n) as Hd. split; [done|].
  case_decide as Hc.
  - assert (E : S i = (S (i / n) * n)%nat) by nia. rewrite E, Nat.div_mul, Nat.Div0.mod_mul by lia. lia.
  - assert (E : S i = (S (i mod n) + (i / n) * n)%nat) by nia.
    rewrite E, Nat.div_add, Nat.Div0.mod_add, Nat.div_small, Nat.mod_small by lia. lia.
Qed.

(** Before the next slot, only the thread of this slot has moved on. *)
Lemma left_of_succ i t rem : (t < n)%nat ->
  left_of (S i) t rem =
    if decide (t = slot_thread i) then if behind rem then rem else from (slot_time i + 1) rem else left_of i t rem.
Proof using Hn.
  clear Hrest Hsize Hgood Hsum Hfps Hlen Hthreads HT0. intros Ht. unfold left_of.
  destruct (behind rem); [by case_decide|].
  destruct (slot_succ i) as [Hs Hc]. case_decide as Hl.
  - destruct Hc as [-> ->]. rewrite (proj2 (Nat.ltb_ge t 0)) by lia. case_decide as Hd; [done|].
    by rewrite (proj2 (Nat.ltb_lt t _)) by lia.
  - destruct Hc as [-> ->]. case_decide as Hd.
    + by rewrite (proj2 (Nat.ltb_lt t _)) by lia.
    + destruct (Nat.ltb_spec t (slot_thread i)), (Nat.ltb_spec t (S (slot_thread i))); try done; lia.
Qed.

(** The slot that thread and time belong to. *)
Definition slot_out (i : nat) (out : buffer) : Prop :=
  exists id rem, vs_threadIds sum !! slot_thread i = Some id /\ rems !! slot_thread i = Some rem /\
    if behind rem then replacement id (slot_time i / fps) (slot_time i mod fps) out
    else slot_filled id rem (slot_time i) out.

Lemma delivers_left i id sec framenr rem out rem' : in_order rem -> 0 <= framenr < fps ->
  sec * fps + framenr = slot_time i -> delivers id sec framenr (left_of i (slot_thread i) rem) out rem' ->
  rem' = (if behind rem then rem else from (slot_time i + 1) rem) /\
  if behind rem then replacement id (slot_time i / fps) (slot_time i mod fps) out
  else slot_filled id rem (slot_time i) out.
Proof using Hfps.
  clear Hrest Hsize Hgood Hsum Hn Hlen Hthreads HT0. intros Hs Hnr Et Hd.
  unfold left_of in Hd. rewrite Nat.ltb_irrefl in Hd. destruct (behind rem) eqn:Eb.
  - assert (E1 : slot_time i / fps = sec) by (rewrite <-Et, Z.div_add_l, Z.div_small by lia; lia).
    assert (E2 : slot_time i mod fps = framenr) by (rewrite <-Et, Z.add_comm, Z.mod_add, Z.mod_small by lia; lia).
    rewrite E1, E2. destruct Hd as [(f & -> & Hf & _)|(-> & _ & Hr)]; [|done]. exfalso.
    cbn in Eb. apply Z.ltb_lt in Eb. unfold slot_time in Et. lia.
  - rewrite <-Et in *. by apply delivers_from.
Qed.

Lemma int_time sec framenr i : 0 <= sec -> 0 <= framenr < fps -> sec * fps + framenr = slot_time i ->
  slot_time i < 2 ^ 30 * fps -> sec < 2 ^ 30.
Proof using Hfps.
  clear Hrest Hsize Hgood Hsum Hn Hlen Hthreads HT0. intros Hs Hnr E Hlt. nia.
Qed.

(** The bookkeeping after a slot. *)
Lemma next_place rd i : reader_at rd i -> (exists t, t = slot_thread i) ->
  let sync := if decide (slot_thread i = (n - 1)%nat)
    then if vr_syncpoint_framenr rd <? u64 (vr_fps rd - 1)
         then (vr_syncpoint_sec rd, vr_syncpoint_framenr rd + 1) else (vr_syncpoint_sec rd + 1, 0)
    else (vr_syncpoint_sec rd, vr_syncpoint_framenr rd) in
  0 <= fst sync /\ 0 <= snd sync < fps /\ fst sync * fps + snd sync = slot_time (S i).
Proof using Hn Hfps.
  intros Hr _ sync. destruct Hr as [_ Ef _ Hs Hnr Ht _ _ _ _]. destruct (slot_succ i) as [_ Hc].
  clear Hrest Hsize Hgood Hsum Hlen Hthreads HT0. unfold sync. rewrite Ef, uwrap_small by lia.
  case_decide as Hd; [|destruct Hc as [-> _]; by split].
  destruct Hc as [-> _]. destruct (Z.ltb_spec (vr_syncpoint_framenr rd) (fps - 1)); cbn; lia.
Qed.

(** Reading the frame of slot [i]. *)
Lemma read_step_rep rd i pre post count :
  reader_at rd i -> slot_time i < 2 ^ 30 * fps ->
  Z.of_nat (length pre) + vs_frameSize sum <= count ->
  exists rd' out, read_step rd (pre ++ post) (Z.of_nat (length pre)) count =
      Some (rd', pre ++ out ++ drop size post, Z.of_nat (length (pre ++ out))) /\
    length out = size /\ slot_out i out /\ reader_at rd' (S i) /\
    exists rem, rems !! slot_thread i = Some rem /\ vr_eof rd' =
      (if decide (left_of i (slot_thread i) rem <> [] /\ left_of (S i) (slot_thread i) rem = [])
       then vdifreader_check_eof rd' else vr_eof rd).
Proof using Hgood Hsize Hrest Hsum Hfps Hrems Hn Hthreads Hlen.
  intros Hr Hlt Hcount. pose proof (next_place rd i Hr ltac:(by eexists)) as Hplace.
  pose proof Hr as [Ed Ef Hfill Hs Hnr Ht (j & Hoff) Hth Hl Hroom]. destruct (slot_succ i) as [Hti Hc].
  set (t := slot_thread i) in *. pose proof (so_threads Hsum) as Hids.
  destruct (lookup_lt_is_Some_2 (vr_threads rd) t) as [th Eth]; [lia|].
  destruct (lookup_lt_is_Some_2 (vs_threadIds sum) t) as [id Eid]; [lia|].
  destruct (lookup_lt_is_Some_2 rems t) as [rem Erem]; [lia|].
  pose proof (Hth _ _ _ _ Eth Eid Erem) as Hrep.
  pose proof (int_time _ _ _ Hs Hnr Ht Hlt) as Hsec.
  destruct (get_frame_rep rd t th id _ _ _ Ed Eth Eid Hrep Hfill (conj Hs Hsec) Hnr)
    as (out & rd1 & th' & rem' & Eget & Hp1 & Eth1 & Hfill1 & Hrep' & Hdel & Hout & Heof).
  assert (Hord : in_order rem) by exact (proj1 (Forall_lookup _ _) Hrems _ _ Erem).
  destruct (delivers_left i _ _ _ _ _ _ Hord Hnr Ht Hdel) as [-> Hslot].
  unfold vr_place in Hp1. injection Hp1 as P1 P2 P3 P4 P5 P6 P7.
  assert (Hidx : vr_virtualoffset rd / vs_frameSize sum = Z.of_nat (n * j + t) /\
    vr_virtualoffset rd mod vs_frameSize sum = 0).
  { rewrite Hoff, Z.mul_comm. split; [apply Z.div_mul; lia|apply Z.mod_mul; lia]. }
  destruct Hidx as [Hq Hm]. assert (Hoff0 : 0 <= vr_virtualoffset rd) by (rewrite Hoff; apply Z.mul_nonneg_nonneg; lia).
  assert (Hmodn : ((n * j + t) mod n = t)%nat).
  { rewrite Nat.mul_comm, Nat.add_comm, Nat.Div0.mod_add. by apply Nat.mod_small. }
  unfold read_step. rewrite Ed, (proj2 (Z.leb_gt _ _)), Hthreads, (proj2 (Z.leb_gt _ _)) by lia. cbn [orb].
  rewrite (Z.quot_div_nonneg (vr_virtualoffset rd)), (Z.rem_mod_nonneg (vr_virtualoffset rd)) by lia.
  rewrite Hq, Hm, Z.rem_mod_nonneg by lia.
  rewrite <-Nat2Z.inj_mod, Hmodn, !Nat2Z.id, Z.sub_0_r.
  assert (Ewant : (if vs_frameSize sum <? count - Z.of_nat (length pre) then vs_frameSize sum
    else count - Z.of_nat (length pre)) = vs_frameSize sum) by (destruct (Z.ltb_spec (vs_frameSize sum)
      (count - Z.of_nat (length pre))); lia).
  rewrite Ewant, !swrap_small, Eget, Z.sub_diag by lia. cbn [mbind option_bind Z.eqb andb].
  set (sync := if decide _ then _ else _) in Hplace. rewrite P2, P3, P4, P6.
  set (rd2 := vr_set_place rd1 (fst sync) (snd sync) (vr_virtualoffset rd + vs_frameSize sum)).
  match goal with |- context [Some (?r, _, _) = Some _] => assert (Erd : r = rd2) end.
  { unfold rd2, sync. destruct (Z.eqb_spec (Z.of_nat t) (Z.of_nat n - 1)).
    - rewrite decide_True by lia. by destruct (_ <? _).
    - by rewrite decide_False by lia. }
  assert (Eleft : left_of (S i) t rem = if behind rem then rem else from (slot_time i + 1) rem)
    by (rewrite left_of_succ by lia; by rewrite decide_True).
  rewrite Erd. exists rd2, out. split; [|split; [done|]; split; [by exists id, rem|]; split];
    [| |exists rem; split; [done|]; rewrite Eleft; exact Heof].
  - f_equal. f_equal; [f_equal|rewrite length_app; lia]. unfold overwrite. rewrite take_app_length.
    rewrite drop_app, drop_ge, app_nil_l by lia. do 3 f_equal. lia.
  - destruct Hplace as (Q1 & Q2 & Q3). split; cbn [rd2 vr_set_place vr_details vr_fps vr_fillpattern vr_syncpoint_sec
      vr_syncpoint_framenr vr_virtualoffset vr_threads vr_resync]; try done; [congruence|congruence| | | |congruence].
    + rewrite Hoff. destruct (decide (t = (n - 1)%nat)) as [E|E]; destruct Hc as [_ ->].
      * exists (S j). replace (n * S j + 0)%nat with (S (n * j + t))%nat by lia. lia.
      * exists j. replace (n * j + S t)%nat with (S (n * j + t))%nat by lia. lia.
    + intros t' th2 id2 rem2 Et2 Ei2 Er2. rewrite Eth1 in Et2. rewrite left_of_succ by (apply lookup_lt_Some in Er2; lia).
      fold t. destruct (decide (t' = t)) as [Htt|Htt].
      * revert Et2 Ei2 Er2. rewrite Htt, list_lookup_insert_eq, Eid, Erem by lia.
        by intros [= <-] [= <-] [= <-].
      * rewrite list_lookup_insert_ne in Et2 by done. by apply (Hth t' th2).
    + rewrite Eth1, length_insert. done.
Qed.

(** All indicators are set if and only if nothing is left. *)
Lemma check_eof_left rd i : reader_at rd i ->
  vdifreader_check_eof rd = true <-> forall t rem, rems !! t = Some rem -> left_of i t rem = [].
Proof using Hsum Hthreads Hlen.
  clear Hrest Hsize Hgood Hfps HT0 Hn. intros Hr. pose proof (so_threads Hsum) as Hids. pose proof (ra_length _ _ Hr) as Hl.
  assert (Hrep : forall t th rem, vr_threads rd !! t = Some th -> rems !! t = Some rem ->
    tf_feof th = true <-> left_of i t rem = []).
  { intros t th rem Et Er. destruct (lookup_lt_is_Some_2 (vs_threadIds sum) t) as [id Eid]; [apply lookup_lt_Some in Et; lia|].
    destruct (ra_threads _ _ Hr _ _ _ _ Et Eid Er) as (_ & _ & Hm).
    destruct (left_of i t rem) as [|f l]; destruct Hm as [-> _]; by split. }
  unfold vdifreader_check_eof. rewrite forallb_forall. split.
  - intros Hc t rem Er. destruct (lookup_lt_is_Some_2 (vr_threads rd) t) as [th Eth]; [apply lookup_lt_Some in Er; lia|].
    apply (Hrep t th rem Eth Er), Hc, list_elem_of_In. by eapply list_elem_of_lookup_2.
  - intros Hall th Hin. apply list_elem_of_In, list_elem_of_lookup_1 in Hin as [t Eth].
    destruct (lookup_lt_is_Some_2 rems t) as [rem Er]; [apply lookup_lt_Some in Eth; lia|].
    by apply (Hrep t th rem Eth Er), (Hall t).
Qed.

Lemma left_of_other i t rem : (t < n)%nat -> t <> slot_thread i -> left_of (S i) t rem = left_of i t rem.
Proof using Hn. intros Ht Hne. rewrite left_of_succ by done. by rewrite decide_False. Qed.

Lemma from_mono A B rem : A <= B -> from A rem = [] -> from B rem = [].
Proof using.
  clear. intros HAB. induction rem as [|f rem IH]; [done|]. rewrite !from_cons.
  case_decide; [done|]. intros H'. rewrite decide_False by lia. by apply IH.
Qed.

Lemma left_of_mono i t rem : (t < n)%nat -> left_of i t rem = [] -> left_of (S i) t rem = [].
Proof using Hn.
  intros Ht Hl. rewrite left_of_succ by done. destruct (decide _) as [->|]; [|done].
  unfold left_of in Hl. destruct (behind rem); [done|]. rewrite Nat.ltb_irrefl in Hl.
  revert Hl. apply from_mono. clear. lia.
Qed.

Lemma eof_step rd rd' i rem : eof_ok rd i -> reader_at rd' (S i) -> rems !! slot_thread i = Some rem ->
  vr_eof rd' = (if decide (left_of i (slot_thread i) rem <> [] /\ left_of (S i) (slot_thread i) rem = [])
                then vdifreader_check_eof rd' else vr_eof rd) -> eof_ok rd' (S i).
Proof using Hsum Hthreads Hlen Hn.
  intros He Hr Hrem E. unfold eof_ok in *. rewrite E. destruct (decide _) as [|Hno]; [by apply check_eof_left|].
  rewrite He. split; intros Hall t r Ht; pose proof (lookup_lt_Some _ _ _ Ht) as Hlt; rewrite Hlen in Hlt.
  - apply left_of_mono; [done|]. by apply Hall.
  - pose proof (Hall t r Ht) as H1. destruct (decide (t = slot_thread i)) as [->|Hne]; [|by rewrite <-left_of_other].
    rewrite Hrem in Ht. injection Ht as <-. destruct (left_of i (slot_thread i) rem) eqn:E'; [done|]. by destruct Hno.
Qed.

(** Reading [m] frames from slot [i] on. *)
Lemma read_loop_rep m : forall fuel rd i pre post count,
  reader_at rd i -> eof_ok rd i -> slot_time (i + m) < 2 ^ 30 * fps ->
  count = Z.of_nat (length pre) + Z.of_nat m * vs_frameSize sum ->
  (m <= fuel)%nat -> (m * size <= length post)%nat ->
  exists rd' outs, read_loop fuel rd (pre ++ post) (Z.of_nat (length pre)) count =
      Some (rd', pre ++ concat outs ++ drop (m * size) post, count) /\
    length outs = m /\ Forall (fun out => length out = size) outs /\
    (forall k out, outs !! k = Some out -> slot_out (i + k) out) /\ reader_at rd' (i + m) /\ eof_ok rd' (i + m).
Proof using Hgood Hsize Hrest Hsum Hfps Hrems Hn Hthreads Hlen.
  induction m as [|m IH]; intros fuel rd i pre post count Hr He Hlt Hc Hfuel Hpost.
  - exists rd, []. replace (i + 0)%nat with i by lia. cbn [concat app].
    rewrite Nat.mul_0_l, drop_0. split_and!; try done.
    assert (Hge : (Z.of_nat (length pre) <? count) = false) by (apply Z.ltb_ge; lia).
    destruct fuel; cbn [read_loop]; rewrite Hge; do 2 f_equal; lia.
  - destruct fuel as [|fuel]; [lia|]. cbn [read_loop].
    assert (Hle : Z.of_nat m * vs_frameSize sum >= 0) by (apply Z.le_ge, Z.mul_nonneg_nonneg; lia).
    rewrite (proj2 (Z.ltb_lt _ _)) by lia.
    assert (Hmono : slot_time i <= slot_time (i + S m)).
    { unfold slot_time. pose proof (Nat.Div0.div_le_mono i (i + S m) n ltac:(lia)). lia. }
    destruct (read_step_rep rd i pre post count Hr) as (rd1 & out & -> & Hout & Hslot & Hr1 & rem1 & Hrem1 & Heof1); [lia|lia|].
    cbn [mbind option_bind]. rewrite app_assoc.
    destruct (IH fuel rd1 (S i) (pre ++ out) (drop size post) count) as (rd2 & outs & -> & Hl & Hs & Hk & Hr2 & He2).
    + done.
    + by apply (eof_step rd _ _ rem1).
    + by replace (S i + m)%nat with (i + S m)%nat by lia.
    + rewrite length_app. lia.
    + lia.
    + rewrite length_drop. lia.
    + exists rd2, (out :: outs). cbn [concat length]. rewrite drop_drop, <-!app_assoc.
      replace (size + m * size)%nat with (S m * size)%nat by lia.
      replace (S i + m)%nat with (i + S m)%nat in * by lia.
      split_and!; try done; [by rewrite Hl|by constructor|].
      intros [|k] o; cbn [lookup list_lookup]; [intros [= <-]; by rewrite Nat.add_0_r|].
      intros Ho. replace (i + S k)%nat with (S i + k)%nat by lia. by apply Hk.
Qed.

(** A whole call of [vdifreaderRead] from the first slot of a time on. *)
Lemma vdifreaderRead_rep rd i m buf :
  reader_at rd i -> eof_ok rd i -> vr_eof rd = false -> (0 < m)%nat -> slot_time (i + m) < 2 ^ 30 * fps ->
  (m * size <= length buf)%nat ->
  exists rd' outs, vdifreaderRead rd buf (Z.of_nat m * vs_frameSize sum) =
      Some (Z.of_nat m * vs_frameSize sum, concat outs ++ drop (m * size) buf, rd') /\
    length outs = m /\ Forall (fun out => length out = size) outs /\
    (forall k out, outs !! k = Some out -> slot_out (i + k) out) /\ reader_at rd' (i + m) /\ eof_ok rd' (i + m).
Proof using Hgood Hsize Hrest Hsum Hfps Hrems Hn Hthreads Hlen.
  intros Hr He Hnot Hm Hlt Hbuf. unfold vdifreaderRead. rewrite Hnot. cbn [orb].
  assert (Hpos : 0 < Z.of_nat m * vs_frameSize sum) by (apply Z.mul_pos_pos; lia).
  rewrite (proj2 (Z.eqb_neq _ _)) by lia.
  destruct (read_loop_rep m (Z.to_nat (Z.of_nat m * vs_frameSize sum)) rd i [] buf (Z.of_nat m * vs_frameSize sum))
    as (rd' & outs & E & Hall); [done..|cbn [length]; lia| |done|].
  { assert (Z.of_nat m <= Z.of_nat m * vs_frameSize sum) by nia. lia. }
  cbn [length app] in E. change (Z.of_nat 0) with 0 in E. rewrite E. cbn [mbind option_bind].
  exists rd', outs. by split.
Qed.
End File.
