(* ===== verification/VdifReaderOpen.v ===== *)
(** * VdifReaderOpen: opening and seeking the reader

    Resynchronisation at a frame of the file, the first frame of every thread,
    the majority vote over their seconds, and the time of the first slot.  After
    that the reader is where the description of [VdifReaderSpec] starts. *)
From S2P Require Export VdifReaderSpec.
#[local] Open Scope Z_scope.

(** ** Majority vote *)

Definition votes (secs : list Z) : Z * Z := foldl (fun v sec => vote sec v) (0, 0) secs.

Definition count (s : Z) (secs : list Z) : nat := length (filter (fun x => x = s) secs).

Lemma count_snoc s secs x : count s (secs ++ [x]) = (count s secs + if decide (x = s) then 1 else 0)%nat.
Proof. unfold count. rewrite filter_app, length_app. f_equal. rewrite filter_cons. by destruct (decide _). Qed.

Lemma votes_inv secs : 0 <= snd (votes secs) /\ forall s,
  2 * Z.of_nat (count s secs) <=
    Z.of_nat (length secs) + (if decide (s = fst (votes secs)) then snd (votes secs) else - snd (votes secs)).
Proof.
  induction secs as [|x secs [Hc IH]] using rev_ind; [by split; [done|]; intros s; case_decide|].
  unfold votes in *. rewrite foldl_app. cbn [foldl]. destruct (foldl _ _ secs) as [m c]. cbn [fst snd] in *.
  unfold vote. split; [|intros s; specialize (IH s); rewrite count_snoc, length_app; cbn [length]];
    destruct (Z.leb_spec c 0), (Z.eqb_spec x m); cbn [fst snd]; repeat case_decide; subst; lia || done.
Qed.

(** The vote finds a second that more than half of the threads have. *)
Lemma votes_majority s secs : (length secs < 2 * count s secs)%nat -> fst (votes secs) = s.
Proof. intros Hm. destruct (votes_inv secs) as [Hc IH]. specialize (IH s). case_decide; [done|lia]. Qed.

Section Open.
Context (sum : vdif_file_summary) (frames : list buffer) (rest : buffer) (fps : Z).

Abbreviation size := (Z.to_nat (vs_frameSize sum)).
Abbreviation bytes := (vdif_bytes frames rest).

Context (Hsize : 32 <= vs_frameSize sum < 2 ^ 27) (Hgood : Forall (good sum fps) frames) (Hrest : (length rest < 32)%nat).
Context (Hsum : sum_ok sum) (Hfps : 1 <= fps <= 10 ^ 6).

Definition frame_sec (f : buffer) : Z := getVDIFFrameEpochSecOffset (header_of f).
Definition frame_nr (f : buffer) : Z := getVDIFFrameNumber (header_of f).

Lemma frame_sec_eq f : frame_sec f = getVDIFFrameEpochSecOffset (header_of f).
Proof using. unfold frame_sec. reflexivity. Qed.

Lemma frame_nr_eq f : frame_nr f = getVDIFFrameNumber (header_of f).
Proof using. unfold frame_nr. reflexivity. Qed.

(** ** Resynchronisation at a frame *)

(** The frame is followed by one of the same second or the next. *)
Definition syncs (k : nat) : Prop :=
  exists f g, frames !! k = Some f /\ frames !! S k = Some g /\ frame_sec g - frame_sec f < 2.

Definition room (rs : buffer) : Prop := (2 * size <= length rs)%nat.

Lemma slice_frames f g rs : length f = size -> length g = size -> room rs ->
  let rs' := (f ++ g) ++ drop (length (f ++ g)) rs in
  slice rs' 0 32 = take 32 f /\ slice rs' size 32 = take 32 g /\ length rs' = length rs.
Proof using Hsize.
  clear Hgood Hsum Hrest Hfps. intros Hf Hg Hr rs'. unfold slice, rs'. rewrite length_app, Hf, Hg, drop_0. unfold room in Hr.
  split_and!.
  - rewrite <-app_assoc, take_app_le by lia. done.
  - rewrite <-app_assoc, drop_app_length' by done. rewrite take_app_le by lia. done.
  - rewrite !length_app, length_drop. lia.
Qed.

Lemma resync_find_first n f g rs : (0 < n)%nat -> good sum fps f -> good sum fps g ->
  frame_sec g - frame_sec f < 2 -> room rs ->
  resync_find n 0 sum ((f ++ g) ++ drop (length (f ++ g)) rs) = Some (Some 0).
Proof using Hsize.
  clear Hgood Hsum Hrest Hfps. intros Hn (Hf & Gf & _) (Hg & Gg & _) Hsec Hr. destruct n as [|n]; [lia|].
  destruct (slice_frames f g rs Hf Hg Hr) as (E1 & E2 & El). unfold room in Hr.
  cbn [resync_find]. unfold resync_header. rewrite !Z.add_0_l, El, !decide_True by lia. cbn [mbind option_bind].
  change (Z.to_nat 0) with 0%nat. rewrite E1, E2.
  change (struct_of_bytes (take 32 f)) with (header_of f). rewrite Gf. cbn [negb].
  change (struct_of_bytes (take 32 g)) with (header_of g). rewrite Gg. cbn [andb].
  unfold frame_sec in Hsec. by rewrite (proj2 (Z.ltb_lt _ _) Hsec).
Qed.

Lemma read_two th k f g : at_frame sum frames rest th k -> frames !! k = Some f -> frames !! S k = Some g ->
  exists th', tf_read (2 * vs_frameSize sum) th = (f ++ g, th') /\ st_bytes (tf_fd th') = bytes.
Proof using Hgood Hsize Hrest.
  intros [Hb Hp] Hk Hk'. pose proof (pos_nonneg sum Hsize k).
  destruct (frame_good sum frames fps Hgood _ _ Hk) as (Hf & _).
  destruct (frame_good sum frames fps Hgood _ _ Hk') as (Hg & _).
  pose proof (drop_frames sum frames rest fps Hsize Hgood k ltac:(apply lookup_lt_Some in Hk; lia)) as Hd.
  rewrite (drop_S _ _ _ Hk), (drop_S _ _ _ Hk') in Hd. cbn [concat] in Hd. unfold tf_read, tf_pos in *.
  destruct (fread_app (2 * vs_frameSize sum) (tf_fd th) (f ++ g) (concat (drop (S (S k)) frames) ++ rest))
    as (f' & -> & _ & Eb & _); [lia|by rewrite Hp, Hb, Hd, <-!app_assoc|rewrite length_app; lia|].
  eexists. split; [done|]. cbn. by rewrite Eb.
Qed.

Lemma resync_at rs th k : at_frame sum frames rest th k -> syncs k -> room rs ->
  exists r rs' th', vdifreader_resync sum rs th = Some (r, rs', th') /\ at_frame sum frames rest th' k /\
    length rs' = length rs.
Proof using Hgood Hsize Hrest.
  clear Hsum Hfps. intros Hat (f & g & Hk & Hk' & Hsec) Hr. unfold vdifreader_resync.
  destruct (tf_feof th); [by eexists _, _, _|]. rewrite (proj2 (Z.leb_gt _ _)) by lia. cbn [resync_loop].
  destruct (read_two th k f g Hat Hk Hk') as (th' & -> & Hb).
  pose proof (frame_good sum frames fps Hgood _ _ Hk) as Gf. pose proof (frame_good sum frames fps Hgood _ _ Hk') as Gg.
  assert (El : length (f ++ g) = (2 * size)%nat) by (destruct Gf as (? & _), Gg as (? & _); rewrite length_app; lia).
  unfold room in Hr. rewrite decide_False, (proj2 (Z.ltb_ge _ _)) by lia.
  rewrite resync_find_first by (done || lia). cbn [mbind option_bind].
  eexists _, _, _. split; [done|]. rewrite Z.add_0_r. destruct Hat as [_ Hp]. pose proof (pos_nonneg sum Hsize k). split.
  - unfold tf_goto, tf_seek, fseeko. rewrite Hp, (proj2 (Z.ltb_ge _ _)) by lia. by split.
  - rewrite length_app, length_drop. lia.
Qed.

(** ** The first frame of every thread *)

Context (n : nat) (Hthreads : vs_nThread sum = Z.of_nat n).

(** The frame from which the reader starts. *)
Context (k : nat) (Hk : (k <= length frames)%nat).

Abbreviation ids := (vs_threadIds sum).
Abbreviation rep := (thread_rep sum frames rest).

(** What the file has for each thread from there. *)
Definition rems : list (list buffer) := (fun id => of_thread id (drop k frames)) <$> ids.

(** What restarting leaves alone. *)
Definition vr_kept (rd : vdif_file_reader) := (vr_place rd, vr_eof rd, vr_fillpattern rd).

(** The first [m] threads are at their first frames. *)
Definition threads_ok (rd : vdif_file_reader) (m : nat) : Prop :=
  length (vr_threads rd) = n /\
  (forall t th, vr_threads rd !! t = Some th -> st_bytes (tf_fd th) = bytes) /\
  forall t th id, (t < m)%nat -> vr_threads rd !! t = Some th -> ids !! t = Some id ->
    rep th id (of_thread id (drop k frames)).

Lemma threads_ok_set rd t th id rs m : threads_ok rd m -> (t < n)%nat -> ids !! t = Some id ->
  rep th id (of_thread id (drop k frames)) ->
  threads_ok (vr_set_thread rd t th rs) m /\ (t = m -> threads_ok (vr_set_thread rd t th rs) (S m)).
Proof using.
  clear. intros (Hl & Hb & Hm) Ht Hid Hrep.
  assert (Hm' : forall t2 th2 id2, (t2 < m \/ t2 = t)%nat -> <[t := th]> (vr_threads rd) !! t2 = Some th2 ->
    ids !! t2 = Some id2 -> rep th2 id2 (of_thread id2 (drop k frames))).
  { intros t2 th2 id2 H2 E2 Eid. destruct (decide (t2 = t)) as [->|Hne].
    - rewrite list_lookup_insert_eq in E2 by lia. rewrite Hid in Eid. by simplify_eq.
    - rewrite list_lookup_insert_ne in E2 by done. apply (Hm t2); [lia|done|done]. }
  assert (Hb' : forall t2 th2, <[t := th]> (vr_threads rd) !! t2 = Some th2 -> st_bytes (tf_fd th2) = bytes).
  { intros t2 th2 E2. destruct (decide (t2 = t)) as [->|Hne].
    - rewrite list_lookup_insert_eq in E2 by lia. injection E2 as <-. by destruct Hrep.
    - rewrite list_lookup_insert_ne in E2 by done. by apply (Hb t2). }
  split; [|intros ->]; (split; [cbn; by rewrite length_insert|]; split; [exact Hb'|]);
    intros t2 th2 id2 H2; apply Hm'; lia.
Qed.

Lemma advance_thread_rep rd t th id j :
  vr_details rd = sum -> vr_threads rd !! t = Some th -> ids !! t = Some id ->
  at_frame sum frames rest th j -> tf_feof th = false -> (j <= length frames)%nat ->
  exists r th', advance_thread t rd = Some (r, vr_set_thread rd t th' (vr_resync rd)) /\
    rep th' id (of_thread id (drop j frames)) /\
    (r <? 0) = (if decide (of_thread id (drop j frames) = []) then true else false).
Proof using Hgood Hsize Hrest.
  intros Ed Et Eid Hat Hf Hj. unfold advance_thread. rewrite Ed, Et. cbn [mbind option_bind]. rewrite Eid.
  cbn [mbind option_bind].
  destruct (advance_rep sum frames rest fps Hsize Hgood Hrest id (vr_resync rd) th j Hat Hf Hj) as (r & th' & -> & Hrep & Hr & _).
  by exists r, th'.
Qed.

Lemma goto_frame th : st_bytes (tf_fd th) = bytes ->
  at_frame sum frames rest (tf_goto (Z.of_nat k * vs_frameSize sum) th) k /\
  tf_feof (tf_goto (Z.of_nat k * vs_frameSize sum) th) = tf_feof th.
Proof using Hsize.
  clear -Hsize. intros Hb. pose proof (pos_nonneg sum Hsize k).
  unfold tf_goto, tf_seek, fseeko. rewrite (proj2 (Z.ltb_ge _ _)) by lia. by split.
Qed.

Lemma restart_step t rd : vr_details rd = sum -> threads_ok rd t -> (t < n)%nat ->
  exists rd', restart_thread (Z.of_nat k * vs_frameSize sum) t rd = Some rd' /\ vr_kept rd' = vr_kept rd /\
    threads_ok rd' (S t).
Proof using Hgood Hsize Hrest Hsum Hthreads Hk.
  clear Hfps. intros Ed Hok Ht. pose proof Hok as (Hl & Hb & _). pose proof (so_threads _ Hsum) as Hids.
  destruct (lookup_lt_is_Some_2 (vr_threads rd) t) as [th Eth]; [lia|].
  destruct (lookup_lt_is_Some_2 ids t) as [id Eid]; [lia|].
  unfold restart_thread. rewrite Eth. cbn [mbind option_bind].
  set (th0 := tf_set_feof (tf_set_header th zero_header (tf_sec th)) false).
  destruct (goto_frame th0 (Hb _ _ Eth)) as [Hat Hf]. set (th1 := tf_goto _ th0) in *.
  set (rd1 := vr_set_thread rd t th1 (vr_resync rd)).
  destruct (advance_thread_rep rd1 t th1 id k) as (r & th' & -> & Hrep & _); try done.
  { apply list_lookup_insert_eq. lia. }
  cbn [mbind option_bind]. eexists. split; [done|]. split; [done|].
  replace (vr_set_thread rd1 t th' (vr_resync rd1)) with (vr_set_thread rd t th' (vr_resync rd))
    by (unfold vr_set_thread; cbn; by rewrite list_insert_insert_eq).
  by apply (threads_ok_set rd t th' id (vr_resync rd) t Hok Ht Eid Hrep).
Qed.

Lemma restart_all rd : vr_details rd = sum -> threads_ok rd 0 ->
  exists rd', run_iters (restart_thread (Z.of_nat k * vs_frameSize sum)) (seq 0 n) rd = Some rd' /\
    vr_kept rd' = vr_kept rd /\ threads_ok rd' n.
Proof using Hgood Hsize Hrest Hsum Hthreads Hk.
  intros Ed Hok. apply (run_iters_seq _ (fun i rd' => vr_kept rd' = vr_kept rd /\ threads_ok rd' i)); [|done].
  intros i rd1 Hi [Hkept Hok1]. assert (Ed1 : vr_details rd1 = sum) by (unfold vr_kept, vr_place in Hkept; congruence).
  destruct (restart_step i rd1 Ed1 Hok1 Hi) as (rd2 & -> & Hkept2 & Hok2). exists rd2. split; [done|].
  split; [congruence|done].
Qed.

(** ** The time of the first slot *)

(** The first frames of the threads that have one. *)
Definition firsts : list buffer := omap head rems.

Lemma of_thread_id id fs f rem : of_thread id fs = f :: rem -> frame_id f = id.
Proof using.
  intros E. assert (Hin : f ∈ of_thread id fs) by (rewrite E; by left).
  unfold of_thread in Hin. by apply list_elem_of_filter in Hin as [? _].
Qed.

Lemma vote_step_rep t rd v id : vr_details rd = sum -> threads_ok rd n -> (t < n)%nat -> ids !! t = Some id ->
  exists rd', vote_step t (rd, v) = Some (rd', match of_thread id (drop k frames) with
      | [] => v | f :: _ => vote (frame_sec f) v end) /\
    vr_kept rd' = vr_kept rd /\ threads_ok rd' n.
Proof using Hgood Hsize Hrest Hsum Hthreads Hk.
  clear Hfps. intros Ed Hok Ht Eid. pose proof Hok as (Hl & _ & Hm).
  destruct (lookup_lt_is_Some_2 (vr_threads rd) t) as [th Eth]; [lia|].
  pose proof (Hm t th id Ht Eth Eid) as Hrep. pose proof Hrep as (Hb & Hst & Hrem). unfold vote_step. cbn [fst snd].
  destruct (of_thread id (drop k frames)) as [|f rem] eqn:E.
  - destruct Hrem as [Hf _]. unfold advance_thread. rewrite Ed, Eth. cbn [mbind option_bind]. rewrite Eid.
    cbn [mbind option_bind]. unfold vdifreader_advance_to_frame_of_thread. rewrite Hf. cbn [mbind option_bind].
    change (-1 <? 0) with true. eexists. split; [done|]. split; [done|].
    eapply (threads_ok_set rd t th id); [done|done|done|by rewrite E].
  - destruct Hrem as (Hf & Hh & j & Hat & Hj & Hnext).
    destruct (advance_thread_rep rd t th id j Ed Eth Eid Hat Hf) as (r & th' & -> & Hrep' & Hr).
    { apply lookup_lt_Some in Hj. lia. }
    rewrite (drop_S _ _ _ Hj), of_thread_cons in Hrep', Hr. rewrite (of_thread_id _ _ _ _ E) in Hrep', Hr.
    rewrite (decide_True _ _ eq_refl), Hnext in Hrep', Hr. rewrite (decide_False (P := f :: rem = [])) in Hr by done.
    cbn [mbind option_bind]. rewrite Hr.
    cbn [vr_set_thread vr_threads]. rewrite list_lookup_insert_eq by lia. cbn [mbind option_bind].
    pose proof Hrep' as (_ & _ & _ & Eh & _). rewrite Eh. eexists. split; [reflexivity|]. split; [done|].
    eapply (threads_ok_set rd t th' id); [done|done|done|by rewrite E].
Qed.

Lemma firsts_snoc t id : ids !! t = Some id ->
  omap head (take (S t) rems) = omap head (take t rems) ++
    match of_thread id (drop k frames) with [] => [] | f :: _ => [f] end.
Proof using.
  intros Eid. assert (E : rems !! t = Some (of_thread id (drop k frames))).
  { unfold rems. by rewrite list_lookup_fmap, Eid. }
  rewrite (take_S_r _ _ _ E), omap_app. f_equal. cbn. by destruct (of_thread _ _).
Qed.

Lemma length_rems : length rems = n.
Proof using Hsum Hthreads.
  unfold rems. rewrite length_fmap, (so_threads _ Hsum), Hthreads. apply Nat2Z.id.
Qed.

Lemma vote_all rd : vr_details rd = sum -> threads_ok rd n ->
  exists rd', run_iters vote_step (seq 0 n) (rd, (0, 0)) = Some (rd', votes (frame_sec <$> firsts)) /\
    vr_kept rd' = vr_kept rd /\ threads_ok rd' n.
Proof using Hgood Hsize Hrest Hsum Hthreads Hk.
  intros Ed Hok.
  destruct (run_iters_seq vote_step (fun i s => vr_kept (fst s) = vr_kept rd /\ threads_ok (fst s) n /\
    snd s = votes (frame_sec <$> omap head (take i rems))) n (rd, (0, 0))) as ([rd' v] & E & Hkept & Hok' & Hv); [|done|].
  - intros i [rd1 v] Hi (Hkept & Hok1 & Hv). cbn [fst snd] in *.
    assert (Ed1 : vr_details rd1 = sum) by (unfold vr_kept, vr_place in Hkept; congruence).
    destruct (lookup_lt_is_Some_2 ids i) as [id Eid]; [rewrite (so_threads _ Hsum), Hthreads, Nat2Z.id; done|].
    destruct (vote_step_rep i rd1 v id Ed1 Hok1 Hi Eid) as (rd2 & -> & Hkept2 & Hok2). eexists. split; [done|].
    cbn [fst snd]. split; [congruence|]. split; [done|]. rewrite (firsts_snoc i id Eid), Hv.
    destruct (of_thread _ _); [by rewrite app_nil_r|]. rewrite fmap_app. unfold votes. by rewrite foldl_app.
  - cbn [fst snd] in *. exists rd'. rewrite E, Hv, take_ge by (by rewrite length_rems). by split.
Qed.

(** The lowest frame number, as a fold over the first frames. *)
Definition lower_nr (s m : Z) (f : buffer) : Z :=
  if (frame_sec f =? s) && (frame_nr f <? m) then frame_nr f else m.

Lemma zero_not_good : vdifreader_header_looks_good sum zero_header = false.
Proof using Hsize.
  clear -Hsize. apply not_true_is_false. intros (E & _)%looks_good_spec. change (getVDIFFrameBytes zero_header) with 0 in E. lia.
Qed.

Lemma lowest_threads s ths ids' : Forall2 (fun th id => rep th id (of_thread id (drop k frames))) ths ids' ->
  forall m, lowest_in sum s ths m =
    foldl (lower_nr s) m (omap head ((fun id => of_thread id (drop k frames)) <$> ids')).
Proof using Hsize Hgood.
  clear Hsum Hthreads Hk Hrest Hfps.
  induction 1 as [|th id ths ids' (_ & _ & Hm) _ IH]; intros m; [done|]. unfold lowest_in in *. cbn [foldl fmap list_fmap].
  rewrite IH. cbn [omap list_omap]. destruct (of_thread id (drop k frames)) as [|f rem].
  - destruct Hm as [_ ->]. rewrite zero_not_good. done.
  - destruct Hm as (_ & -> & j & _ & Hj & _). destruct (frame_good sum frames fps Hgood _ _ Hj) as (_ & G & _).
    rewrite G. cbn [head foldl]. done.
Qed.

Lemma lowest_spec s fs m0 : let m := foldl (lower_nr s) m0 fs in
  m <= m0 /\ Forall (fun f => frame_sec f = s -> m <= frame_nr f) fs /\
  (m = m0 \/ exists f, f ∈ fs /\ frame_sec f = s /\ frame_nr f = m).
Proof using.
  clear. cbv zeta. induction fs as [|x fs (H0 & Hf & Hor)] using rev_ind; [by split; [|split; [constructor|left]]|].
  rewrite foldl_app. cbn [foldl]. set (m := foldl (lower_nr s) m0 fs) in *. clearbody m.
  assert (Hlow : lower_nr s m x <= m /\ (frame_sec x = s -> lower_nr s m x <= frame_nr x) /\
    (lower_nr s m x = m \/ frame_sec x = s /\ frame_nr x = lower_nr s m x)).
  { unfold lower_nr. destruct (Z.eqb_spec (frame_sec x) s), (Z.ltb_spec (frame_nr x) m); cbn [andb]; split_and!; try lia; auto. }
  destruct Hlow as (L1 & L2 & L3). split_and!; [lia| |].
  - apply Forall_app. split; [|by constructor]. eapply Forall_impl; [exact Hf|]. intros g Hg Hs. specialize (Hg Hs). lia.
  - destruct L3 as [->|[Es En]]; [|right; exists x; split; [apply elem_of_app; right; by left|done]].
    destruct Hor as [->|(f & Hin & Hf')]; [by left|]. right. exists f. split; [apply elem_of_app; by left|done].
Qed.

(** More than half of the first frames are of one second; the first of them has
    the time [T0]. *)
Definition starts_at (T0 : Z) : Prop :=
  exists f, f ∈ firsts /\ frame_time fps f = T0 /\
    (length firsts < 2 * count (frame_sec f) (frame_sec <$> firsts))%nat /\
    Forall (fun g => frame_sec g = frame_sec f -> T0 <= frame_time fps g) firsts.

Lemma firsts_good f : f ∈ firsts -> good sum fps f.
Proof using Hgood.
  unfold firsts, rems. intros (rem & Hin & Hhead)%list_elem_of_omap.
  apply list_elem_of_fmap in Hin as (id & -> & _). destruct (of_thread id (drop k frames)) as [|g l] eqn:E; [done|].
  injection Hhead as ->. assert (Hg : f ∈ of_thread id (drop k frames)) by (rewrite E; by left).
  unfold of_thread in Hg. apply list_elem_of_filter in Hg as [_ Hg].
  exact (proj1 (Forall_forall _ _) (Forall_drop _ k _ Hgood) _ Hg).
Qed.

Lemma frame_fields f : 0 <= frame_sec f < 2 ^ 30 /\ 0 <= frame_nr f /\ frame_time fps f = frame_sec f * fps + frame_nr f.
Proof using.
  clear. unfold frame_time, frame_sec, frame_nr.
  pose proof (struct_header_ok _ (struct_of_bytes_ok (T:=vdif_header) (take 32 f))) as Hok.
  pose proof (ok_seconds _ Hok) as H1. pose proof (ok_frame _ Hok) as H2. fold (header_of f) in H1, H2.
  unfold getVDIFFrameEpochSecOffset, getVDIFFrameNumber. destruct H1, H2. by split_and!.
Qed.

Lemma syncpoint_time T0 : starts_at T0 ->
  let s := fst (votes (frame_sec <$> firsts)) in let m := foldl (lower_nr s) 999999 firsts in
  0 <= s /\ 0 <= m < fps /\ s * fps + m = T0.
Proof using Hgood Hfps.
  clear Hrest Hk Hthreads Hsum Hsize. intros (f & Hin & Ht & Hmaj & Hmin) s m. assert (Es : s = frame_sec f).
  { apply votes_majority. by rewrite length_fmap. }
  destruct (lowest_spec s firsts 999999) as (_ & Hall & Hor). fold m in Hall, Hor. rewrite Forall_forall in Hall, Hmin.
  pose proof (Hall f Hin ltac:(by rewrite Es)) as Hm. destruct (frame_fields f) as (F1 & F2 & F3).
  destruct (firsts_good f Hin) as (_ & _ & F4). fold (frame_nr f) in F4.
  assert (Hex : exists g, g ∈ firsts /\ frame_sec g = s /\ frame_nr g = m).
  { destruct Hor as [Em|Hex]; [|done]. exists f. split; [done|]. split; [done|]. lia. }
  destruct Hex as (g & Hg & Gs & Gn). pose proof (Hmin g Hg ltac:(congruence)) as Hge.
  destruct (frame_fields g) as (G1 & G2 & G3). rewrite Es in *. rewrite G3, Gs in Hge. rewrite F3 in Ht.
  clear -F1 F2 F4 Hm Hge Ht G2 Gn. lia.
Qed.

(** ** Starting at a frame *)

(** The reader is at the first slot. *)
Abbreviation at_start rd T0 := (reader_at sum frames rest fps rems n T0 rd 0).

Context (Hn : (0 < n)%nat) (Hrems : Forall (in_order fps) rems).

Lemma left_of_start T0 t rem : rems !! t = Some rem -> left_of fps n T0 0 t rem = rem.
Proof using Hn Hrems.
  clear Hrest Hk Hgood Hsize Hsum Hfps Hthreads. intros Hrem. assert (Hord : in_order fps rem) by exact (proj1 (Forall_lookup _ _) Hrems _ _ Hrem).
  unfold left_of, behind, slot_thread, slot_time. rewrite Nat.Div0.mod_0_l, Nat.Div0.div_0_l.
  change (t <? 0)%nat with false. rewrite Z.add_0_r. cbn match.
  destruct rem as [|f rem]; [done|]. destruct (Z.ltb_spec (frame_time fps f) T0); [done|].
  apply from_all. apply in_order_cons in Hord as [_ Hf]. constructor; [done|]. eapply Forall_impl; [exact Hf|].
  intros g Hg. cbn in Hg. lia.
Qed.

Lemma syncpoint_rep rd T0 : vr_details rd = sum -> threads_ok rd n -> vr_fps rd = fps ->
  vr_virtualoffset rd = 0 -> room (vr_resync rd) -> fill_ok sum (vr_fillpattern rd) -> starts_at T0 ->
  exists rd', vdifreader_determine_syncpoint rd = Some rd' /\ at_start rd' T0 /\
    vr_eof rd' = vr_eof rd /\ vr_firstframeoffset rd' = vr_firstframeoffset rd.
Proof using Hgood Hsize Hrest Hsum Hthreads Hk Hn Hrems Hfps.
  intros Ed Hok Ef Ev Hroom Hfill HT0. unfold vdifreader_determine_syncpoint. rewrite (proj1 Hok).
  destruct (vote_all rd Ed Hok) as (rd' & -> & Hkept & Hok'). cbn [mbind option_bind].
  unfold vr_kept, vr_place in Hkept. injection Hkept as K1 _ _ K4 K5 K6 K7 K8 K9.
  destruct (votes (frame_sec <$> firsts)) as [s c] eqn:Ev'. destruct (syncpoint_time T0 HT0) as (S1 & S2 & S3).
  rewrite Ev' in S1, S2, S3. cbn [fst] in S1, S2, S3. pose proof (so_threads _ Hsum) as Hids. destruct Hok' as (Hl & Hb & Hm).
  assert (Hlow : lowest_in (vr_details rd') s (vr_threads rd') 999999 = foldl (lower_nr s) 999999 firsts).
  { rewrite K1, Ed. apply lowest_threads. apply Forall2_same_length_lookup. split; [lia|].
    intros t th id Et Eid. apply (Hm t); [apply lookup_lt_Some in Et; lia|done|done]. }
  rewrite Hlow. eexists. split; [done|]. split; [|done].
  split; cbn [vr_set_place vr_details vr_fps vr_fillpattern vr_syncpoint_sec vr_syncpoint_framenr vr_virtualoffset vr_threads
    vr_resync]; try congruence; try done.
  - unfold slot_time. rewrite Nat.Div0.div_0_l, Z.add_0_r. exact S3.
  - exists 0%nat. rewrite K6, Ev. unfold slot_thread. rewrite Nat.Div0.mod_0_l, Nat.mul_0_r. cbn. by rewrite Z.mul_0_r.
  - intros t th id rem Et Eid Er. rewrite (left_of_start T0 t rem Er). unfold rems in Er.
    rewrite list_lookup_fmap, Eid in Er. injection Er as <-. apply (Hm t); [apply lookup_lt_Some in Et; lia|done|done].
  - by rewrite K7.
Qed.

Lemma reposition_rep rd T0 : vr_details rd = sum -> threads_ok rd 0 -> vr_fps rd = fps -> room (vr_resync rd) ->
  fill_ok sum (vr_fillpattern rd) -> syncs k -> starts_at T0 ->
  exists rd', vdifreader_reposition_all rd (Z.of_nat k * vs_frameSize sum) = Some rd' /\ at_start rd' T0 /\
    vr_eof rd' = vr_eof rd /\ vr_firstframeoffset rd' = Z.of_nat k * vs_frameSize sum.
Proof using Hgood Hsize Hrest Hsum Hthreads Hk Hn Hrems Hfps.
  intros Ed Hok Ef Hroom Hfill Hsync HT0. pose proof Hok as (Hl & Hb & _). unfold vdifreader_reposition_all.
  destruct (lookup_lt_is_Some_2 (vr_threads rd) 0) as [th Eth]; [lia|]. rewrite Eth. cbn [mbind option_bind].
  destruct (goto_frame th (Hb _ _ Eth)) as [Hat _].
  destruct (resync_at (vr_resync rd) _ k Hat Hsync Hroom) as (r & rs' & th' & E & Hat' & Hl').
  rewrite Ed, E. cbn [mbind option_bind]. destruct Hat' as [Hb' ->]. cbn [vr_set_thread vr_threads vr_details].
  rewrite length_insert, Hl. match goal with |- context [run_iters _ _ ?r] => set (rd1 := r) end.
  assert (Hok1 : threads_ok rd1 0).
  { split; [cbn; by rewrite length_insert|]. split; [|intros; lia]. intros t th2 Et. cbn in Et.
    destruct (decide (t = 0%nat)) as [->|Hne]; [rewrite list_lookup_insert_eq in Et by lia; congruence|].
    rewrite list_lookup_insert_ne in Et by done. by apply (Hb t). }
  destruct (restart_all rd1 Ed Hok1) as (rd2 & -> & Hkept & Hok2). cbn [mbind option_bind].
  unfold vr_kept, vr_place in Hkept. injection Hkept as K1 _ _ K4 K5 K6 K7 K8 K9.
  destruct (syncpoint_rep rd2 T0) as (rd3 & -> & Hr & He & Ho); try congruence; try done.
  { unfold room in *. rewrite K7. cbn. lia. }
  exists rd3. split; [done|]. split; [done|]. by rewrite He, Ho, K8, K5.
Qed.
End Open.
