(* ===== verification/VdifReaderSearch.v ===== *)
(** * VdifReaderSearch: the search for frames in any bytes

    Whatever a file contains, looking for the next frame of a thread ends, stays
    inside the helper buffer, never moves a handle back, and either finds a good
    header of the thread at the position where it stops or sets the end-of-file
    flag. *)
From S2P Require Export VdifReader.
#[local] Open Scope Z_scope.

Section Any.
Context (sum : vdif_file_summary) (bytes : buffer) (room : nat).
Context (Hsize : 32 <= vs_frameSize sum) (Hroom : 2 * vs_frameSize sum + 14 <= Z.of_nat room).

(** The header at a position of the file. *)
Definition header_at (pos : Z) : vdif_header := struct_of_bytes (slice bytes (Z.to_nat pos) 32).

(** The handle is of the file, at [pos] or after it. *)
Definition past (pos : Z) (th : thread_file) : Prop :=
  st_bytes (tf_fd th) = bytes /\ 0 <= pos <= tf_pos th.

(** It is at a good header. *)
Definition on_header (th : thread_file) : Prop :=
  tf_pos th + 32 <= Z.of_nat (length bytes) /\
  vdifreader_header_looks_good sum (header_at (tf_pos th)) = true.

Lemma past_le a b th : 0 <= a <= b -> past b th -> past a th.
Proof using. clear. intros Hab [Hb Hp]. split; [done|lia]. Qed.

Lemma tf_read_any n th bs th' : 0 <= tf_pos th -> st_bytes (tf_fd th) = bytes -> 0 < n -> tf_read n th = (bs, th') ->
  bs = slice bytes (Z.to_nat (tf_pos th)) (Z.to_nat n) /\ st_bytes (tf_fd th') = bytes /\
  tf_pos th' = tf_pos th + Z.of_nat (length bs) /\ tf_feof th' = tf_feof th /\
  (Z.of_nat (length bs) = n -> tf_pos th + n <= Z.of_nat (length bytes)) /\ Z.of_nat (length bs) <= n.
Proof using.
  clear. unfold tf_read, fread, tf_pos, slice. intros Hp Hb Hn [= <- <-]. cbn. rewrite Hb.
  split_and!; try done; rewrite length_take, length_drop; lia.
Qed.

Lemma goto_any pos th : 0 <= pos -> st_bytes (tf_fd th) = bytes ->
  past pos (tf_goto pos th) /\ tf_pos (tf_goto pos th) = pos /\ tf_feof (tf_goto pos th) = tf_feof th.
Proof using.
  clear. intros Hp Hb. unfold tf_goto, tf_seek, fseeko. rewrite (proj2 (Z.ltb_ge _ _)) by done.
  split; [split; [done|]; cbn; unfold tf_pos; cbn; lia|by split].
Qed.

Lemma peek_any th : past (tf_pos th) th -> tf_feof th = false ->
  (exists th', vdifreader_peek_frame th = (Some (header_at (tf_pos th)), th') /\ past (tf_pos th) th' /\
     tf_pos th' = tf_pos th /\ tf_pos th + 32 <= Z.of_nat (length bytes) /\ tf_feof th' = false) \/
  (exists th', vdifreader_peek_frame th = (None, th') /\ past (tf_pos th) th').
Proof using.
  clear. intros [Hb Hp] Hf. unfold vdifreader_peek_frame. rewrite Hf.
  destruct (tf_read 32 th) as [bs th1] eqn:E. apply tf_read_any in E as (-> & Hb1 & Hp1 & Hf1 & Hfull & _); [|lia|done|lia].
  set (bs := slice bytes _ _) in *. destruct (decide (length bs = 32%nat)) as [Hl|Hl].
  - left. specialize (Hfull ltac:(lia)). unfold tf_seek, fseeko. rewrite (proj2 (Z.ltb_ge _ _)) by lia. cbn [mbind option_bind].
    eexists. split; [done|]. unfold past, tf_pos in *. cbn. rewrite Hf1, Hf. split_and!; try done; lia.
  - right. eexists. split; [done|]. split; [done|lia].
Qed.

(** A good header that the sliding window finds lies in the first frame of it. *)
Lemma resync_find_any rs : length rs = room -> forall n off, 0 <= off -> off + Z.of_nat n <= vs_frameSize sum - 1 ->
  exists r, resync_find n off sum rs = Some r /\ forall off', r = Some off' ->
    off <= off' < vs_frameSize sum - 1 /\
    vdifreader_header_looks_good sum (struct_of_bytes (slice rs (Z.to_nat off') 32)) = true.
Proof using Hsize Hroom.
  intros Hrs. induction n as [|n IH]; intros off H0 Hn; [by exists None|].
  cbn [resync_find]. unfold resync_header. rewrite !decide_True by lia. cbn [mbind option_bind].
  destruct (IH (off + 1)) as (r & E & Hr); [lia|lia|]. rewrite E.
  assert (Hnext : forall off', r = Some off' -> off <= off' < vs_frameSize sum - 1 /\
    vdifreader_header_looks_good sum (struct_of_bytes (slice rs (Z.to_nat off') 32)) = true).
  { intros off' Hoff. destruct (Hr off' Hoff). split; [lia|done]. }
  destruct (vdifreader_header_looks_good sum (struct_of_bytes (slice rs (Z.to_nat off) 32))) eqn:E1; cbn [negb]; [|by exists r].
  destruct (_ && _); [|by exists r]. eexists. split; [done|]. intros off' [= <-]. split; [lia|done].
Qed.

Lemma slice_app_le (l k : buffer) b m : (b + m <= length l)%nat -> slice (l ++ k) b m = slice l b m.
Proof using. clear. intros Hle. unfold slice. rewrite drop_app_le, take_app_le by (rewrite ?length_drop; lia). done. Qed.

Lemma resync_loop_any fuel : forall rs th, past (tf_pos th) th -> tf_feof th = false -> length rs = room ->
  Z.of_nat (length bytes) - tf_pos th < Z.of_nat fuel -> (0 < fuel)%nat ->
  exists r rs' th', resync_loop fuel sum rs th = Some (r, rs', th') /\ length rs' = room /\ past (tf_pos th) th' /\
    ((r = -1 /\ tf_feof th' = true) \/ (0 <= r /\ tf_feof th' = false /\ on_header th')).
Proof using Hsize Hroom.
  induction fuel as [|fuel IH]; intros rs th [Hb Hp] Hf Hrs Hfuel H0; [lia|].
  cbn [resync_loop]. destruct (tf_read (2 * vs_frameSize sum) th) as [bs th1] eqn:E.
  apply tf_read_any in E as (Ebs & Hb1 & Hp1 & Hf1 & Hfull & Hle); [|lia|done|lia].
  rewrite decide_False by lia. assert (Hl : length (bs ++ drop (length bs) rs) = room) by (rewrite length_app, length_drop; lia).
  destruct (Z.ltb_spec (Z.of_nat (length bs)) (2 * vs_frameSize sum)) as [Hlt|Hge].
  - eexists _, _, _. split; [done|]. split; [done|]. split; [split; [done|]; unfold tf_pos in *; cbn; lia|by left].
  - specialize (Hfull ltac:(lia)).
    destruct (resync_find_any (bs ++ drop (length bs) rs) Hl (Z.to_nat (vs_frameSize sum - 1)) 0) as (r & -> & Hr); [lia|lia|].
    cbn [mbind option_bind]. destruct r as [off|].
    + destruct (Hr off eq_refl) as [Hoff Hgood]. rewrite slice_app_le, Ebs, slice_slice, <-Z2Nat.inj_add in Hgood by lia.
      destruct (goto_any (tf_pos th + off) th1) as (Hpast & Hpos & Hfeof); [lia|done|].
      eexists _, _, _. split; [done|]. split; [done|]. split; [apply (past_le _ (tf_pos th + off)); [lia|done]|].
      right. split; [lia|]. split; [congruence|]. split; rewrite Hpos; [lia|done].
    + destruct (goto_any (tf_pos th1 - vs_frameSize sum) th1) as (Hpast & Hpos & Hfeof); [lia|done|].
      destruct (IH (bs ++ drop (length bs) rs) (tf_goto (tf_pos th1 - vs_frameSize sum) th1)) as (r & rs' & th' & E & Hl' & Hpast' & Hcase);
        [by rewrite Hpos|congruence|done|lia|lia|].
      eexists _, _, _. split; [exact E|]. split; [done|]. rewrite Hpos in Hpast'. split; [|done].
      apply (past_le _ (tf_pos th1 - vs_frameSize sum)); [lia|done].
Qed.

Lemma valid_any rs th : past (tf_pos th) th -> tf_feof th = false -> length rs = room ->
  exists v rs' th', vdifreader_advance_to_valid_frame sum rs th = Some (v, rs', th') /\ length rs' = room /\ past (tf_pos th) th' /\
    match v with None => True | Some vh => tf_feof th' = false /\ on_header th' /\ vh = header_at (tf_pos th') end.
Proof using Hsize Hroom.
  intros Hpast Hf Hrs. unfold vdifreader_advance_to_valid_frame. rewrite Hf. cbn [valid_loop].
  destruct (peek_any th Hpast Hf) as [(th1 & -> & Hp1 & Epos & Hin & Hf1)|(th1 & -> & Hp1)]; [|by eexists _, _, _].
  destruct (vdifreader_header_looks_good sum (header_at (tf_pos th))) eqn:Eg.
  { eexists _, _, _. split; [done|]. split; [done|]. split; [done|]. rewrite Epos. split; [done|]. split; [|done].
    split; rewrite Epos; [lia|done]. }
  unfold vdifreader_resync. rewrite Hf1, (proj2 (Z.leb_gt _ _)) by lia.
  destruct (resync_loop_any (S (S (length (st_bytes (tf_fd th1))))) rs th1) as (r & rs' & th2 & -> & Hl & Hp2 & Hcase);
    [by rewrite Epos|done|done|destruct Hp1 as [-> ?]; lia|lia|].
  cbn [mbind option_bind]. rewrite Epos in Hp2. destruct Hcase as [[-> _]|(Hr & Hf2 & Hin2 & Hgood2)].
  { change (-1 <? 0) with true. eexists _, _, _. split; [done|]. by split_and!. }
  rewrite (proj2 (Z.ltb_ge _ _)) by done. destruct Hp2 as [Hb2 Hle2].
  destruct (peek_any th2) as [(th3 & -> & Hp3 & Epos3 & _ & Hf3)|(th3 & -> & Hp3)]; [split; [done|lia]|done| |].
  - rewrite Hgood2. eexists _, _, _. split; [done|]. split; [done|]. destruct Hp3 as [Hb3 _].
    split; [split; [done|lia]|]. rewrite Epos3. split; [done|]. split; [|done]. by split; rewrite Epos3.
  - eexists _, _, _. split; [done|]. split; [done|]. split; [|done]. apply (past_le _ (tf_pos th2)); [lia|done].
Qed.

Lemma good_size vh : vdifreader_header_looks_good sum vh = true -> getVDIFFrameBytes vh = vs_frameSize sum.
Proof using. clear. unfold vdifreader_header_looks_good. rewrite !andb_true_iff, !Z.eqb_eq. tauto. Qed.

Lemma thread_loop_any id fuel : forall rs th, past (tf_pos th) th -> tf_feof th = false -> length rs = room ->
  Z.of_nat (length bytes) - tf_pos th < Z.of_nat fuel -> (0 < fuel)%nat ->
  exists v rs' th', thread_loop fuel sum id rs th = Some (v, rs', th') /\ length rs' = room /\ past (tf_pos th) th' /\
    match v with
    | None => tf_feof th' = true
    | Some vh => tf_feof th' = false /\ on_header th' /\ vh = header_at (tf_pos th') /\ getVDIFThreadID vh = id
    end.
Proof using Hsize Hroom.
  induction fuel as [|fuel IH]; intros rs th Hpast Hf Hrs Hfuel H0; [lia|].
  cbn [thread_loop]. rewrite Hf.
  destruct (valid_any rs th Hpast Hf Hrs) as (v & rs1 & th1 & -> & Hl1 & Hp1 & Hv). cbn [mbind option_bind].
  destruct v as [vh|]; [|by eexists _, _, _]. destruct Hv as (Hf1 & Hon & Evh).
  destruct (Z.eqb_spec (getVDIFThreadID vh) id) as [Eid|_]; [by eexists _, _, _|].
  destruct Hon as [Hin Hgood]. rewrite <-Evh in Hgood. rewrite (good_size vh Hgood). destruct Hp1 as [Hb1 Hle1].
  unfold tf_seek, fseeko. rewrite (proj2 (Z.ltb_ge _ _)) by lia. cbn [mbind option_bind].
  set (th2 := {| tf_fd := _; tf_eof := _ |}). assert (Epos : tf_pos th2 = tf_pos th1 + vs_frameSize sum) by done.
  destruct (IH rs1 th2) as (v & rs' & th' & E & Hl' & Hp' & Hv); [split; [done|lia]|done|done|lia|lia|].
  eexists _, _, _. split; [exact E|]. split; [done|]. split; [|done]. apply (past_le _ (tf_pos th2)); [lia|done].
Qed.

Lemma advance_any id rs th : past (tf_pos th) th -> length rs = room ->
  exists r rs' th', vdifreader_advance_to_frame_of_thread sum id rs th = Some (r, rs', th') /\ length rs' = room /\
    past (tf_pos th) th' /\
    ((r = 0 /\ tf_feof th' = false /\ on_header th' /\ tf_header th' = header_at (tf_pos th') /\
      getVDIFThreadID (tf_header th') = id) \/
     (r = -1 /\ tf_feof th' = true)).
Proof using Hsize Hroom.
  intros Hpast Hrs. unfold vdifreader_advance_to_frame_of_thread.
  destruct (tf_feof th) eqn:Hf. { eexists _, _, _. split; [done|]. split_and!; try done; [apply Hpast..|by right]. }
  destruct (thread_loop_any id (S (length (st_bytes (tf_fd th)))) rs th Hpast Hf Hrs) as (v & rs' & th' & -> & Hl & Hp & Hv);
    [destruct Hpast as [-> ?]; lia|lia|].
  cbn [mbind option_bind]. destruct v as [vh|].
  - destruct Hv as (Hf' & Hon & -> & Eid). eexists _, _, _. split; [done|]. split; [done|]. split; [done|]. by left.
  - eexists _, _, _. split; [done|]. split; [done|]. split; [done|]. by right.
Qed.
End Any.

(** ** The whole reader *)

Section Safe.
Context (sum : vdif_file_summary) (bytes : buffer) (room n : nat).
Context (Hsize : 32 <= vs_frameSize sum) (Hroom : 2 * vs_frameSize sum + 14 <= Z.of_nat room).
Context (Hids : length (vs_threadIds sum) = n).

(** What every operation relies on and keeps, whatever the file contains. *)
Record safe (rd : vdif_file_reader) : Prop := {
  sf_details : vr_details rd = sum;
  sf_length : length (vr_threads rd) = n;
  sf_threads : Forall (past bytes 0) (vr_threads rd);
  sf_resync : length (vr_resync rd) = room;
  sf_fill : length (vr_fillpattern rd) = Z.to_nat (2 * vs_frameSize sum);
  sf_offset : 0 <= vr_virtualoffset rd }.

Lemma past_self pos th : past bytes pos th -> past bytes (tf_pos th) th.
Proof using. clear. intros [Hb Hp]. split; [done|lia]. Qed.

Lemma safe_set rd t th rs : safe rd -> past bytes 0 th -> length rs = room -> safe (vr_set_thread rd t th rs).
Proof using.
  intros [S1 S2 S3 S4 S5 S6] Hth Hrs. split; try done; cbn; [by rewrite length_insert|by apply Forall_insert].
Qed.

Lemma safe_thread rd t : safe rd -> (t < n)%nat -> exists th, vr_threads rd !! t = Some th /\ past bytes 0 th.
Proof using.
  clear. intros [_ Hl Hall _ _ _] Ht. destruct (lookup_lt_is_Some_2 (vr_threads rd) t) as [th Eth]; [lia|].
  exists th. split; [done|]. exact (proj1 (Forall_lookup _ _) Hall _ _ Eth).
Qed.

Lemma advance_safe t rd : safe rd -> (t < n)%nat ->
  exists r th rs, advance_thread t rd = Some (r, vr_set_thread rd t th rs) /\ safe (vr_set_thread rd t th rs).
Proof using Hsize Hroom Hids.
  intros Hs Ht. destruct (safe_thread rd t Hs Ht) as (th & Eth & Hp). unfold advance_thread.
  rewrite Eth, (sf_details rd Hs). cbn [mbind option_bind].
  destruct (lookup_lt_is_Some_2 (vs_threadIds sum) t) as [id Eid]; [by rewrite Hids|]. rewrite Eid. cbn [mbind option_bind].
  destruct (advance_any sum bytes room Hsize Hroom id (vr_resync rd) th (past_self _ _ Hp) (sf_resync rd Hs))
    as (r & rs' & th' & -> & Hl & Hp' & _). cbn [mbind option_bind]. exists r, th', rs'. split; [done|].
  apply safe_set; [done| |done]. destruct Hp as [_ ?]. apply (past_le bytes 0 (tf_pos th)); [lia|done].
Qed.

Lemma goto_safe pos th : 0 <= pos -> past bytes 0 th -> past bytes 0 (tf_goto pos th).
Proof using.
  clear. intros Hpos [Hb _]. destruct (goto_any bytes pos th Hpos Hb) as [Hp _]. apply (past_le bytes 0 pos); [lia|done].
Qed.

Lemma restart_safe offset t rd : 0 <= offset -> safe rd -> (t < n)%nat ->
  exists rd', restart_thread offset t rd = Some rd' /\ safe rd'.
Proof using Hsize Hroom Hids.
  intros Ho Hs Ht. destruct (safe_thread rd t Hs Ht) as (th & Eth & Hp). unfold restart_thread. rewrite Eth.
  cbn [mbind option_bind]. set (th1 := tf_goto offset _).
  assert (Hp1 : past bytes 0 th1) by (apply goto_safe; [done|exact Hp]).
  destruct (advance_safe t (vr_set_thread rd t th1 (vr_resync rd))) as (r & th2 & rs & -> & Hs2);
    [by apply safe_set; [done..|apply (sf_resync rd Hs)]|done|].
  cbn [mbind option_bind]. by eexists.
Qed.

Lemma vote_safe t rd v : safe rd -> (t < n)%nat -> exists rd' v', vote_step t (rd, v) = Some (rd', v') /\ safe rd'.
Proof using Hsize Hroom Hids.
  intros Hs Ht. unfold vote_step. cbn [fst snd]. destruct (advance_safe t rd Hs Ht) as (r & th & rs & -> & Hs').
  cbn [mbind option_bind]. destruct (r <? 0); [by eexists _, _|].
  destruct (safe_thread _ t Hs' Ht) as (th' & -> & _). cbn [mbind option_bind]. by eexists _, _.
Qed.

Lemma syncpoint_safe rd : safe rd -> exists rd', vdifreader_determine_syncpoint rd = Some rd' /\ safe rd'.
Proof using Hsize Hroom Hids.
  intros Hs. unfold vdifreader_determine_syncpoint. rewrite (sf_length rd Hs).
  destruct (run_iters_inv vote_step (fun s => safe (fst s)) (seq 0 n) (rd, (0, 0))) as ([rd' [m c]] & -> & Hs'); [|done|].
  - intros t [rd1 v] Hin%elem_of_seq Hs1. destruct (vote_safe t rd1 v Hs1) as (rd2 & v2 & E & Hs2); [lia|]. by exists (rd2, v2).
  - cbn [mbind option_bind]. eexists. split; [done|]. destruct Hs'. by split.
Qed.

Context (Hn : (0 < n)%nat) (Hthreads : vs_nThread sum = Z.of_nat n).

Lemma reposition_safe rd offset : 0 <= offset -> safe rd ->
  exists rd', vdifreader_reposition_all rd offset = Some rd' /\ safe rd'.
Proof using Hsize Hroom Hids Hn.
  intros Ho Hs. unfold vdifreader_reposition_all. destruct (safe_thread rd 0 Hs Hn) as (th & -> & Hp).
  cbn [mbind option_bind]. pose proof (goto_safe offset th Ho Hp) as Hp1. set (th1 := tf_goto offset th) in *. rewrite (sf_details rd Hs).
  assert (Hre : exists r rs th2, vdifreader_resync sum (vr_resync rd) th1 = Some (r, rs, th2) /\ length rs = room /\ past bytes 0 th2).
  { unfold vdifreader_resync. destruct (tf_feof th1) eqn:Ef; [by eexists _, _, _; split; [done|]; split; [apply (sf_resync rd Hs)|]|].
    rewrite (proj2 (Z.leb_gt _ _)) by lia.
    destruct (resync_loop_any sum bytes room Hsize Hroom (S (S (length (st_bytes (tf_fd th1))))) (vr_resync rd) th1 (past_self _ _ Hp1) Ef (sf_resync rd Hs))
      as (r & rs & th2 & E & Hl & Hp2 & _); [destruct Hp1 as [-> ?]; lia|lia|].
    eexists _, _, _. split; [exact E|]. split; [done|]. destruct Hp1 as [_ ?]. apply (past_le bytes 0 (tf_pos th1)); [lia|done]. }
  destruct Hre as (r & rs & th2 & -> & Hl & Hp2). cbn [mbind option_bind].
  match goal with |- context [run_iters _ _ ?r] => set (rd1 := r) end.
  assert (Hs1 : safe rd1).
  { destruct (safe_set rd 0 th2 rs Hs Hp2 Hl) as [A1 A2 A3 A4 A5 _]. by split. }
  rewrite (sf_length rd1 Hs1).
  destruct (run_iters_inv (restart_thread (tf_pos th2)) safe (seq 0 n) rd1) as (rd2 & -> & Hs2); [|done|].
  - intros t b Hin%elem_of_seq Hb. apply restart_safe; [apply Hp2|done|lia].
  - cbn [mbind option_bind]. by apply syncpoint_safe.
Qed.

Lemma length_overwrite buf i data : (i + length data <= length buf)%nat -> length (overwrite buf i data) = length buf.
Proof using. clear. intros Hl. unfold overwrite. rewrite !length_app, length_take, length_drop. lia. Qed.

Lemma safe_fillpattern rd fp : safe rd -> length fp = Z.to_nat (2 * vs_frameSize sum) -> safe (vr_set_fillpattern rd fp).
Proof using. intros [S1 S2 S3 S4 _ S6] Hf. by split. Qed.

Lemma safe_eof rd b : safe rd -> safe (vr_set_eof rd b).
Proof using. intros []. by split. Qed.

Lemma safe_place rd sec framenr v : safe rd -> 0 <= v -> safe (vr_set_place rd sec framenr v).
Proof using. intros [S1 S2 S3 S4 S5 _] Hv. by split. Qed.

Lemma get_frame_safe rd t sec framenr nbyte offset : safe rd -> (t < n)%nat ->
  0 <= offset -> 0 < nbyte -> offset + nbyte <= vs_frameSize sum ->
  exists data rd', vdifreader_get_frame rd t sec framenr nbyte offset = Some (data, rd') /\ safe rd' /\
    vr_virtualoffset rd' = vr_virtualoffset rd /\ Z.of_nat (length data) <= nbyte.
Proof using Hsize Hroom Hids.
  clear Hn Hthreads. intros Hs Ht H0 Hn0 Hle. destruct (safe_thread rd t Hs Ht) as (th & Eth & Hp). unfold vdifreader_get_frame.
  rewrite Eth, (sf_details rd Hs). cbn [mbind option_bind].
  rewrite (proj2 (Z.leb_gt _ _)), (proj2 (Z.ltb_ge _ _)) by lia. destruct (negb (_ && _)).
  - destruct (lookup_lt_is_Some_2 (vs_threadIds sum) t) as [id Eid]; [by rewrite Hids|]. pose proof (sf_fill rd Hs) as Hfl.
    match goal with |- context [(_ ← ?e; _)] => set (filled := e) end.
    assert (Hfill : exists rd1, filled = Some rd1 /\ safe rd1 /\ vr_virtualoffset rd1 = vr_virtualoffset rd).
    { unfold filled. destruct (offset <? 32); [|by exists rd]. rewrite Eid. cbn [mbind option_bind].
      rewrite decide_True by lia. eexists. split; [done|]. split; [|done]. apply safe_fillpattern; [done|].
      rewrite length_overwrite; [done|]. rewrite length_header_bytes. lia. }
    destruct Hfill as (rd1 & -> & Hs1 & Hv1). cbn [mbind option_bind]. pose proof (sf_fill rd1 Hs1) as Hfl1.
    rewrite decide_True by lia. eexists _, _. split; [done|]. split; [done|]. split; [done|].
    unfold slice. rewrite length_take. lia.
  - destruct (tf_read nbyte th) as [data th1] eqn:E. destruct Hp as [Hb Hp].
    apply (tf_read_any bytes) in E as (_ & Hb1 & Hp1 & _ & _ & Hlen); [|lia|done|done].
    assert (Hth : past bytes 0 th1) by (split; [done|lia]). clear Hp1.
    match goal with |- context [if vs_frameSize sum <=? _ then _ else Some (_, ?r)] => set (rd1 := r) end.
    assert (Hs1 : safe rd1 /\ vr_virtualoffset rd1 = vr_virtualoffset rd).
    { unfold rd1. destruct (length data <? 1)%nat; (split; [|done]); [apply safe_eof|];
        (apply safe_set; [done|exact Hth|apply (sf_resync rd Hs)]). }
    destruct Hs1 as [Hs1 Hv1]. clearbody rd1. destruct (_ <=? _); [|by exists data, rd1].
    destruct (advance_safe t rd1 Hs1 Ht) as (r & th2 & rs & -> & Hs2). cbn [mbind option_bind].
    destruct (r <? 0); [|by eexists _, _]. destruct (safe_thread _ t Hs2 Ht) as (th3 & -> & Hp3). cbn [mbind option_bind].
    eexists _, _. split; [done|]. split; [|done]. apply safe_eof. apply safe_set; [done|exact Hp3|apply (sf_resync _ Hs2)].
Qed.

Lemma read_step_safe rd buf nrd count : safe rd -> 0 <= nrd < count -> count <= Z.of_nat (length buf) ->
  exists rd' buf' nrd', read_step rd buf nrd count = Some (rd', buf', nrd') /\ safe rd' /\
    length buf' = length buf /\ nrd < nrd' <= count.
Proof using Hsize Hroom Hids Hn Hthreads.
  intros Hs Hnrd Hcount. pose proof (sf_offset rd Hs) as Hv. unfold read_step. rewrite (sf_details rd Hs), Hthreads.
  rewrite (proj2 (Z.leb_gt (vs_frameSize sum) 0)), (proj2 (Z.leb_gt (Z.of_nat n) 0)) by lia. cbn [orb].
  rewrite (Z.quot_div_nonneg (vr_virtualoffset rd)), (Z.rem_mod_nonneg (vr_virtualoffset rd)) by lia.
  pose proof (Z.div_pos (vr_virtualoffset rd) (vs_frameSize sum) Hv ltac:(lia)) as Hq.
  rewrite (Z.rem_mod_nonneg (_ / _)) by lia.
  pose proof (Z.mod_pos_bound (vr_virtualoffset rd / vs_frameSize sum) (Z.of_nat n) ltac:(lia)) as Ht.
  pose proof (Z.mod_pos_bound (vr_virtualoffset rd) (vs_frameSize sum) ltac:(lia)) as Hi.
  set (idx := _ mod Z.of_nat n) in *. set (off := _ mod vs_frameSize sum) in *.
  set (want := if vs_frameSize sum - off <? count - nrd then vs_frameSize sum - off else count - nrd).
  assert (Hw : 0 < want /\ off + want <= vs_frameSize sum /\ nrd + want <= count)
    by (unfold want; destruct (Z.ltb_spec (vs_frameSize sum - off) (count - nrd)); lia).
  clearbody want. destruct (get_frame_safe rd (Z.to_nat idx) (s32 (vr_syncpoint_sec rd)) (s32 (vr_syncpoint_framenr rd)) want off)
    as (data & rd1 & -> & Hs1 & Hv1 & Hlen); [done|lia|lia|lia|lia|].
  cbn [mbind option_bind]. eexists _, _, _. split; [done|]. split; [|split; [apply length_overwrite; lia|lia]].
  destruct (_ && _); [destruct (_ <? _)|]; (apply safe_place; [done|lia]).
Qed.

Lemma read_loop_safe fuel : forall rd buf nrd count, safe rd -> 0 <= nrd <= count -> count <= Z.of_nat (length buf) ->
  count - nrd <= Z.of_nat fuel ->
  exists rd' buf', read_loop fuel rd buf nrd count = Some (rd', buf', count) /\ safe rd' /\ length buf' = length buf.
Proof using Hsize Hroom Hids Hn Hthreads.
  induction fuel as [|fuel IH]; intros rd buf nrd count Hs Hnrd Hcount Hf; cbn [read_loop];
    (destruct (Z.ltb_spec nrd count) as [Hlt|Hge]; [|by replace nrd with count by lia; eexists _, _]); [lia|].
  destruct (read_step_safe rd buf nrd count Hs) as (rd1 & buf1 & nrd1 & -> & Hs1 & Hl1 & Hn1); [lia|done|].
  cbn [mbind option_bind]. rewrite <-Hl1. apply IH; [done|lia|lia|lia].
Qed.

Lemma read_safe rd buf count : safe rd -> 0 <= count <= Z.of_nat (length buf) ->
  exists ret buf' rd', vdifreaderRead rd buf count = Some (ret, buf', rd') /\ safe rd' /\ length buf' = length buf /\
    ret = if vr_eof rd then 0 else count.
Proof using Hsize Hroom Hids Hn Hthreads.
  intros Hs Hcount. unfold vdifreaderRead. destruct (vr_eof rd); [by eexists _, _, _|]. cbn [orb].
  destruct (Z.eqb_spec count 0) as [->|Hne]; [by eexists _, _, _|].
  destruct (read_loop_safe (Z.to_nat count) rd buf 0 count Hs) as (rd' & buf' & -> & Hs' & Hl); [lia..|].
  cbn [mbind option_bind]. by eexists _, _, _.
Qed.

(** The estimate of the rate reaches the end of the file at the latest. *)
Lemma fps_loop_safe mx fuel : forall nd fps rs th, past bytes 0 th -> length rs = room ->
  Z.of_nat (length bytes) - tf_pos th < Z.of_nat fuel -> (0 < fuel)%nat ->
  exists fps' rs' th', fps_loop fuel sum mx nd fps rs th = Some (fps', rs', th') /\ length rs' = room /\ past bytes 0 th'.
Proof using Hsize Hroom.
  clear Hn Hthreads Hids. induction fuel as [|fuel IH]; intros nd fps rs th Hp Hl Hf H0; [lia|]. cbn [fps_loop].
  destruct (nd + 1 <? mx); [|by eexists _, _, _].
  destruct (tf_feof th) eqn:Ef.
  { unfold vdifreader_advance_to_valid_frame. rewrite Ef. cbn [mbind option_bind]. by eexists _, _, _. }
  destruct (valid_any sum bytes room Hsize Hroom rs th (past_self _ _ Hp) Ef Hl) as (v & rs1 & th1 & -> & Hl1 & Hp1 & Hv).
  cbn [mbind option_bind]. pose proof Hp as [_ Hp0].
  destruct v as [vh|]; [|eexists _, _, _; split; [done|]; split; [done|]; apply (past_le bytes 0 (tf_pos th)); [lia|done]].
  destruct Hv as (_ & [Hin Hgood] & ->). rewrite (good_size sum _ Hgood). destruct Hp1 as [Hb1 Hle1].
  destruct (goto_any bytes (tf_pos th1 + vs_frameSize sum) th1) as (Hp2 & Epos & _); [lia|done|].
  apply IH; [apply (past_le bytes 0 (tf_pos th1 + vs_frameSize sum)); [lia|done]|done|lia|lia].
Qed.

Lemma estimate_safe rd : safe rd -> is_Some (max_fps sum) ->
  exists fps rd', vdifreader_estimate_fps rd = Some (fps, rd') /\ safe rd'.
Proof using Hsize Hroom Hids Hn.
  intros Hs [mx Emx]. destruct (safe_thread rd 0 Hs Hn) as (th & Eth & Hp). unfold vdifreader_estimate_fps.
  rewrite Eth, (sf_details rd Hs), Emx. cbn [mbind option_bind].
  destruct (goto_any bytes 0 th) as (Hp0 & Epos & _); [lia|apply Hp|].
  destruct (fps_loop_safe mx (S (S (length (st_bytes (tf_fd th))))) 0 1 (vr_resync rd) (tf_goto 0 th) Hp0 (sf_resync rd Hs))
    as (fps & rs & th' & -> & Hl & Hp'); [rewrite Epos, (proj1 Hp); lia|lia|].
  cbn [mbind option_bind]. eexists _, _. split; [done|]. apply safe_set; [done| |done].
  apply goto_safe; [apply Hp|done].
Qed.

Lemma open_safe rs : length rs = room -> (0 < vs_framesPerSecond sum \/ is_Some (max_fps sum)) ->
  exists rd, vdifreaderOpen sum (Some bytes) rs = Some (Some rd) /\ safe rd.
Proof using Hsize Hroom Hids Hn Hthreads.
  intros Hrs Hfps. unfold vdifreaderOpen. rewrite Hthreads, Nat2Z.id.
  match goal with |- context [vdifreader_estimate_fps ?r] => set (rd0 := r) end.
  assert (Hs0 : safe rd0).
  { split; cbn; try done; [by rewrite length_replicate|by apply Forall_replicate|].
    unfold filler. by rewrite length_fmap, length_seq. }
  assert (Hrate : exists fps rd1, (if vs_framesPerSecond sum <=? 0 then vdifreader_estimate_fps rd0
      else Some (vs_framesPerSecond sum, rd0)) = Some (fps, rd1) /\ safe rd1).
  { destruct (Z.leb_spec (vs_framesPerSecond sum) 0); [|by eexists _, _].
    apply estimate_safe; [done|]. destruct Hfps; [lia|done]. }
  destruct Hrate as (fps & rd1 & -> & Hs1). cbn [mbind option_bind].
  match goal with |- context [vdifreader_reposition_all ?r 0] => set (rd2 := r) end.
  assert (Hs2 : safe rd2) by (destruct Hs1; by split).
  destruct (reposition_safe rd2 0 ltac:(lia) Hs2) as (rd3 & -> & Hs3). cbn [mbind option_bind]. by exists rd3.
Qed.
End Safe.
