(* ===== verification/VdifReaderTheorems.v ===== *)
(** * VdifReaderTheorems: the properties of the file reader

    Opening and reading a file of frames returns the frames of all threads time
    by time; seeking restarts at a frame; the end is reported when every frame
    has been returned.  On a file of any bytes, the search for the next frame of
    a thread ends and finds a good header.  Then what the modelling showed. *)
From S2P Require Export VdifReaderSearch VdifReaderOpen.
#[local] Open Scope Z_scope.

(** ** A file and a place to start *)

(** A file of good frames that the summary describes, of [n] threads, with at
    most the rest of a header at the end. *)
Record vdif_file (sum : vdif_file_summary) (frames : list buffer) (rest : buffer) (fps : Z) (n : nat) : Prop := {
  vf_size : 32 <= vs_frameSize sum < 2 ^ 27;
  vf_good : Forall (good sum fps) frames;
  vf_rest : (length rest < 32)%nat;
  vf_sum : sum_ok sum;
  vf_fps : 1 <= fps <= 10 ^ 6;
  vf_nThread : vs_nThread sum = Z.of_nat n }.

(** From frame [k] on, the frames of every thread are in time order; frame [k] is
    followed by one of the same second or the next; and more than half of the
    threads start in one second, the first of them at time [T0]. *)
Record starts (sum : vdif_file_summary) (frames : list buffer) (fps : Z) (k : nat) (T0 : Z) : Prop := {
  st_k : (k <= length frames)%nat;
  st_syncs : syncs frames k;
  st_order : Forall (in_order fps) (rems sum frames k);
  st_at : starts_at sum frames fps k T0 }.

Section File.
Context (sum : vdif_file_summary) (frames : list buffer) (rest : buffer) (fps : Z) (n : nat).
Context (Hfile : vdif_file sum frames rest fps n) (k : nat) (T0 : Z) (Hstart : starts sum frames fps k T0).

Abbreviation size := (Z.to_nat (vs_frameSize sum)).
Abbreviation bytes := (vdif_bytes frames rest).
Abbreviation at_slot := (reader_at sum frames rest fps (rems sum frames k) n T0).
Abbreviation eof_at := (eof_ok fps (rems sum frames k) n T0).
Abbreviation out_at := (slot_out sum fps (rems sum frames k) n T0).

Lemma some_thread : (0 < n)%nat.
Proof using Hfile Hstart.
  destruct (st_at _ _ _ _ _ Hstart) as (f & Hin & _). unfold firsts in Hin.
  apply list_elem_of_omap in Hin as (rem & [t Ht]%list_elem_of_lookup_1 & _).
  apply lookup_lt_Some in Ht. rewrite (length_rems sum frames (vf_sum _ _ _ _ _ Hfile) n (vf_nThread _ _ _ _ _ Hfile) k) in Ht. lia.
Qed.

Lemma eof_at_start rd : at_slot rd 0 -> vr_eof rd = false -> eof_at rd 0.
Proof using Hfile Hstart.
  intros Hr He. unfold eof_ok. rewrite He. split; [done|]. intros Hall. exfalso.
  destruct (st_at _ _ _ _ _ Hstart) as (f & Hin & _). unfold firsts in Hin.
  apply list_elem_of_omap in Hin as (rem & [t Ht]%list_elem_of_lookup_1 & Hh). specialize (Hall t rem Ht).
  rewrite (left_of_start sum frames fps n k some_thread (st_order _ _ _ _ _ Hstart) T0 t rem Ht) in Hall.
  by rewrite Hall in Hh.
Qed.

(** A reader whose handles are of the file is restarted at frame [k]. *)
Lemma reposition_starts rd : vr_details rd = sum -> threads_ok sum frames rest n k rd 0 -> vr_fps rd = fps ->
  room sum (vr_resync rd) -> fill_ok sum (vr_fillpattern rd) ->
  exists rd', vdifreader_reposition_all rd (Z.of_nat k * vs_frameSize sum) = Some rd' /\ at_slot rd' 0 /\
    vr_eof rd' = vr_eof rd.
Proof using Hfile Hstart.
  intros Ed Hok Ef Hroom Hfill. pose proof some_thread as Hn. destruct Hfile as [H1 H2 H3 H4 H5 H6], Hstart as [S1 S2 S3 S4].
  destruct (reposition_rep sum frames rest fps H1 H2 H3 H4 H5 n H6 k S1 Hn S3 rd T0 Ed Hok Ef Hroom Hfill S2 S4)
    as (rd' & E & Hr & He & _). by exists rd'.
Qed.

(** Reading [m] frames from slot [i] on. *)
Lemma read_at rd i m buf : at_slot rd i -> eof_at rd i -> vr_eof rd = false -> (0 < m)%nat ->
  slot_time n T0 (i + m) < 2 ^ 30 * fps -> (m * size <= length buf)%nat ->
  exists rd' outs, vdifreaderRead rd buf (Z.of_nat m * vs_frameSize sum) =
      Some (Z.of_nat m * vs_frameSize sum, concat outs ++ drop (m * size) buf, rd') /\
    length outs = m /\ (forall j out, outs !! j = Some out -> out_at (i + j) out) /\ at_slot rd' (i + m) /\ eof_at rd' (i + m).
Proof using Hfile Hstart.
  intros Hr He Hnot Hm Hlt Hbuf. pose proof some_thread as Hn. pose proof Hfile as [H1 H2 H3 H4 H5 H6].
  pose proof (st_order _ _ _ _ _ Hstart) as S3.
  destruct (vdifreaderRead_rep sum frames rest fps H1 H2 H3 H4 ltac:(lia) (rems sum frames k) S3 n Hn H6
    (length_rems sum frames H4 n H6 k) T0 rd i m buf Hr He Hnot Hm Hlt Hbuf) as (rd' & outs & E & E1 & _ & E2 & E3 & E4).
  by exists rd', outs.
Qed.
End File.

(** ** Opening *)

(** One more than the highest frame number. *)
Definition highest_plus_one (frames : list buffer) : Z := foldl (fun m f => Z.max m (frame_nr f + 1)) 1 frames.

(** The rate: that of the summary, or, if it has none, what a file that is short
    against the highest possible rate shows. *)
Definition rate_ok (sum : vdif_file_summary) (frames : list buffer) (fps : Z) : Prop :=
  if vs_framesPerSecond sum <=? 0
  then fps = highest_plus_one frames /\ exists mx, max_fps sum = Some mx /\ Z.of_nat (length frames) + 1 < mx
  else fps = vs_framesPerSecond sum.

Section Rate.
Context (sum : vdif_file_summary) (frames : list buffer) (rest : buffer) (fps : Z).
Context (Hsize : 32 <= vs_frameSize sum < 2 ^ 27) (Hgood : Forall (good sum fps) frames) (Hrest : (length rest < 32)%nat).

Lemma fps_loop_rep mx rs fuel : forall th j d m, at_frame sum frames rest th j -> tf_feof th = false ->
  (j <= length frames)%nat -> (length frames - j < fuel)%nat -> 0 <= d <= Z.of_nat j -> 1 <= m ->
  Z.of_nat (length frames) + 1 < mx ->
  exists th', fps_loop fuel sum mx d m rs th =
    Some (foldl (fun m f => Z.max m (frame_nr f + 1)) m (drop j frames), rs, th') /\
    st_bytes (tf_fd th') = vdif_bytes frames rest.
Proof using Hsize Hgood Hrest.
  induction fuel as [|fuel IH]; intros th j d m Hat Hf Hj Hfuel Hd Hm Hmx; [lia|].
  cbn [fps_loop]. rewrite (proj2 (Z.ltb_lt _ _)) by lia. destruct (decide (j = length frames)) as [->|Hne].
  - destruct (valid_end sum frames rest fps Hsize Hgood Hrest rs th Hat Hf) as (th' & -> & _ & Hb).
    rewrite drop_all. by exists th'.
  - destruct (lookup_lt_is_Some_2 frames j) as [f Hjf]; [lia|].
    destruct (valid_frame sum frames rest fps Hsize Hgood Hrest rs th j f Hat Hjf Hf) as (th' & -> & Hat' & Hf').
    cbn [mbind option_bind]. rewrite (drop_S _ _ _ Hjf). cbn [foldl].
    pose proof (frame_good sum frames fps Hgood _ _ Hjf) as Gf.
    rewrite (good_bytes sum fps f Gf).
    change (getVDIFFrameNumber (header_of f)) with (frame_nr f).
    destruct (seek_next sum frames rest Hsize th' j (vs_frameSize sum) Hat' eq_refl) as (th'' & E & Hat'' & Hf'').
    unfold tf_goto. rewrite E. cbn [from_option]. unfold id.
    assert (Emax : (if m <=? frame_nr f then frame_nr f + 1 else m) = Z.max m (frame_nr f + 1))
      by (destruct (Z.leb_spec m (frame_nr f)); lia).
    destruct (frame_fields fps f) as (_ & F2 & _). rewrite Emax. apply IH; try done; [congruence|lia|lia| |lia].
    destruct (m <=? frame_nr f); lia.
Qed.
End Rate.

Section Opened.
Context (sum : vdif_file_summary) (frames : list buffer) (rest : buffer) (fps : Z) (n : nat).
Context (Hfile : vdif_file sum frames rest fps n) (T0 : Z) (Hstart : starts sum frames fps 0 T0).
Context (Hrate : rate_ok sum frames fps) (rs : buffer) (Hroom : room sum rs).

Abbreviation size := (Z.to_nat (vs_frameSize sum)).
Abbreviation bytes := (vdif_bytes frames rest).

(** A handle that has just been opened, and the reader before the rate is known. *)
Definition fresh : thread_file :=
  {| tf_fd := {| st_bytes := bytes; st_pos := 0 |}; tf_eof := false; tf_feof := false; tf_header := zero_header; tf_sec := 0 |}.

Definition unrated (rate : Z) (ths : list thread_file) : vdif_file_reader :=
  {| vr_details := sum; vr_threads := ths;
     vr_syncpoint_sec := 0; vr_syncpoint_framenr := 0; vr_eof := false; vr_fps := rate;
     vr_firstframeoffset := 0; vr_virtualoffset := 0; vr_resync := rs; vr_fillpattern := filler (Z.to_nat (2 * vs_frameSize sum)) |}.

Lemma estimate_rep : vs_framesPerSecond sum <= 0 ->
  exists th', st_bytes (tf_fd th') = bytes /\
    vdifreader_estimate_fps (unrated 1 (replicate n fresh)) = Some (fps, unrated 1 (<[0%nat := th']> (replicate n fresh))).
Proof using Hfile Hstart Hrate.
  intros Hr. pose proof (some_thread sum frames rest fps n Hfile 0 T0 Hstart) as Hn. destruct Hfile as [H1 H2 H3 _ _ _].
  unfold rate_ok in Hrate. rewrite (proj2 (Z.leb_le _ _) Hr) in Hrate. destruct Hrate as (Ef & mx & Emx & Hmx).
  unfold vdifreader_estimate_fps. cbn [unrated vr_threads vr_details vr_resync].
  rewrite lookup_replicate_2 by done. cbn [mbind option_bind]. rewrite Emx. cbn [mbind option_bind].
  assert (Hlen : (length frames <= length bytes)%nat).
  { unfold vdif_bytes. rewrite length_app. pose proof (frames_count sum fps H1 frames H2). lia. }
  destruct (fps_loop_rep sum frames rest fps H1 H2 H3 mx rs (S (S (length bytes))) (tf_goto 0 fresh) 0 0 1)
    as (th' & E & Hb); try done; [lia|lia|].
  cbn [fresh tf_fd st_bytes] in *. rewrite E. cbn [mbind option_bind]. rewrite drop_0.
  fold (highest_plus_one frames). rewrite <-Ef. eexists. split; [|done].
  unfold tf_goto, tf_seek, fseeko. by destruct (tf_pos fresh <? 0).
Qed.

Lemma fresh_ok ths : ths = replicate n fresh \/ (exists th', st_bytes (tf_fd th') = bytes /\ ths = <[0%nat := th']> (replicate n fresh)) ->
  threads_ok sum frames rest n 0 (unrated fps ths) 0.
Proof using.
  clear. intros Hths. assert (H0 : length ths = n /\ Forall (fun th => st_bytes (tf_fd th) = bytes) ths).
  { assert (Hrep : Forall (fun th => st_bytes (tf_fd th) = bytes) (replicate n fresh)) by by apply Forall_replicate.
    destruct Hths as [->|(th' & Hb & ->)]; [by rewrite length_replicate|].
    rewrite length_insert, length_replicate. split; [done|]. by apply Forall_insert. }
  destruct H0 as [Hl Hall]. split; [done|]. split; [|intros; lia]. intros t th Et. exact (proj1 (Forall_lookup _ _) Hall t th Et).
Qed.

Lemma open_rep : exists rd, vdifreaderOpen sum (Some bytes) rs = Some (Some rd) /\
  reader_at sum frames rest fps (rems sum frames 0) n T0 rd 0 /\ vr_eof rd = false.
Proof using Hfile Hstart Hrate Hroom.
  unfold vdifreaderOpen. rewrite (vf_nThread _ _ _ _ _ Hfile), Nat2Z.id.
  change ({| tf_fd := {| st_bytes := bytes; st_pos := 0 |}; tf_eof := false; tf_feof := false; tf_header := zero_header; tf_sec := 0 |})
    with fresh.
  assert (Hrest : exists ths, (ths = replicate n fresh \/
      (exists th', st_bytes (tf_fd th') = bytes /\ ths = <[0%nat := th']> (replicate n fresh))) /\
    (if vs_framesPerSecond sum <=? 0 then vdifreader_estimate_fps (unrated 1 (replicate n fresh))
     else Some (vs_framesPerSecond sum, unrated 1 (replicate n fresh))) = Some (fps, unrated 1 ths)).
  { destruct (Z.leb_spec (vs_framesPerSecond sum) 0) as [Hr|Hr].
    - destruct (estimate_rep Hr) as (th' & Hb & E). eexists. split; [right; by exists th'|done].
    - unfold rate_ok in Hrate. rewrite (proj2 (Z.leb_gt _ _) Hr) in Hrate. rewrite <-Hrate.
      exists (replicate n fresh). split; [by left|done]. }
  destruct Hrest as (ths & Hths & E). fold (unrated 1 (replicate n fresh)). rewrite E. cbn [mbind option_bind].
  destruct (reposition_starts sum frames rest fps n Hfile 0 T0 Hstart (unrated fps ths)) as (rd' & E' & Hr & He);
    [done|by apply fresh_ok|done|done| |].
  { pose proof (vf_size _ _ _ _ _ Hfile) as Hsize. cbn. split; [unfold filler; rewrite length_fmap, length_seq; lia|].
    do 2 f_equal. lia. }
  rewrite Z.mul_0_l in E'. unfold unrated in E'. cbn [unrated vr_details vr_threads vr_syncpoint_sec vr_syncpoint_framenr
    vr_eof vr_firstframeoffset vr_virtualoffset vr_resync vr_fillpattern]. rewrite E'. by exists rd'.
Qed.
End Opened.

(** ** Reading *)

(** C6 Opening a file of frames whose threads are each in time order and reading
    [m] frames: the result is, time by time from the common start on and thread
    by thread, the frame that the file has for this thread and time, or, if it
    has none, a frame of that thread and time that is marked invalid; a thread
    that starts before the common start is always replaced. *)
Theorem vdifreader_interleaves sum frames rest fps n T0 rs m buf :
  vdif_file sum frames rest fps n -> starts sum frames fps 0 T0 -> rate_ok sum frames fps -> room sum rs ->
  (0 < m)%nat -> slot_time n T0 m < 2 ^ 30 * fps -> (m * Z.to_nat (vs_frameSize sum) <= length buf)%nat ->
  exists rd rd' outs, vdifreaderOpen sum (Some (vdif_bytes frames rest)) rs = Some (Some rd) /\
    vdifreaderRead rd buf (Z.of_nat m * vs_frameSize sum) =
      Some (Z.of_nat m * vs_frameSize sum, concat outs ++ drop (m * Z.to_nat (vs_frameSize sum)) buf, rd') /\
    length outs = m /\ forall i out, outs !! i = Some out -> slot_out sum fps (rems sum frames 0) n T0 i out.
Proof.
  intros Hfile Hstart Hrate Hroom Hm Hlt Hbuf.
  destruct (open_rep sum frames rest fps n Hfile T0 Hstart Hrate rs Hroom) as (rd & E & Hr & He).
  destruct (read_at sum frames rest fps n Hfile 0 T0 Hstart rd 0 m buf Hr
    (eof_at_start sum frames rest fps n Hfile 0 T0 Hstart rd Hr He) He Hm Hlt Hbuf) as (rd' & outs & Erd & Hl & Hout & _).
  by exists rd, rd', outs.
Qed.

Lemma in_order_unique fps rem f g : in_order fps rem -> f ∈ rem -> g ∈ rem -> frame_time fps f = frame_time fps g -> f = g.
Proof.
  induction rem as [|x rem IH]; [by intros _ ?%elem_of_nil|].
  intros [Hs Hx]%in_order_cons Hf Hg Ht. rewrite Forall_forall in Hx.
  apply elem_of_cons in Hf as [->|Hf], Hg as [->|Hg]; [done| | |by apply IH];
    [specialize (Hx g Hg)|specialize (Hx f Hf)]; cbn in Hx; lia.
Qed.

(** No frame of the threads is before [T0], and none is [N] times after it or later. *)
Definition within (sum : vdif_file_summary) (frames : list buffer) (fps T0 : Z) (N : nat) : Prop :=
  Forall (fun f => frame_id f ∈ vs_threadIds sum -> T0 <= frame_time fps f < T0 + Z.of_nat N) frames.

Section ToEnd.
Context (sum : vdif_file_summary) (frames : list buffer) (fps T0 : Z) (n N : nat).
Context (Hn : (0 < n)%nat) (Hids : length (vs_threadIds sum) = n).
Context (Hord : Forall (in_order fps) (rems sum frames 0)) (Hwithin : within sum frames fps T0 N).

Lemma thread_rem f t : f ∈ frames -> vs_threadIds sum !! t = Some (frame_id f) ->
  exists rem, rems sum frames 0 !! t = Some rem /\ f ∈ rem.
Proof using.
  intros Hf Ht. unfold rems. rewrite list_lookup_fmap, Ht. eexists. split; [done|].
  unfold of_thread. rewrite drop_0. by apply list_elem_of_filter.
Qed.

Lemma rem_within t rem f : rems sum frames 0 !! t = Some rem -> f ∈ rem -> T0 <= frame_time fps f < T0 + Z.of_nat N.
Proof using Hwithin.
  unfold rems. rewrite list_lookup_fmap, drop_0. intros Ht Hf. destruct (vs_threadIds sum !! t) as [id|] eqn:Eid; [|done].
  injection Ht as <-. unfold of_thread in Hf. apply list_elem_of_filter in Hf as [Hid Hf].
  unfold within in Hwithin. rewrite Forall_forall in Hwithin. apply Hwithin; [done|]. rewrite Hid. by eapply list_elem_of_lookup_2.
Qed.

Lemma not_behind t rem : rems sum frames 0 !! t = Some rem -> behind fps T0 rem = false.
Proof using Hwithin.
  intros Ht. destruct rem as [|f rem]; [done|]. cbn. apply Z.ltb_ge. apply (rem_within t (f :: rem) f Ht). by left.
Qed.

(** The slot of a frame gives the frame. *)
Lemma slot_frame f t a out : f ∈ frames -> vs_threadIds sum !! t = Some (frame_id f) ->
  frame_time fps f = T0 + Z.of_nat a -> slot_out sum fps (rems sum frames 0) n T0 (a * n + t) out -> out = f.
Proof using Hn Hids Hord Hwithin.
  intros Hf Ht Ha (id & rem & Eid & Erem & Hslot). pose proof (lookup_lt_Some _ _ _ Ht) as Hlt. rewrite Hids in Hlt.
  assert (E1 : slot_thread n (a * n + t) = t).
  { unfold slot_thread. rewrite Nat.add_comm, Nat.Div0.mod_add. by apply Nat.mod_small. }
  assert (E2 : slot_time n T0 (a * n + t) = T0 + Z.of_nat a).
  { unfold slot_time. rewrite Nat.div_add_l, Nat.div_small by lia. lia. }
  rewrite E1 in Eid, Erem. rewrite E2, (not_behind t rem Erem) in Hslot.
  destruct (thread_rem f t Hf Ht) as (rem' & Er & Hin). rewrite Erem in Er. injection Er as <-.
  destruct Hslot as [(g & Hg & Gt & ->)|(Hno & _)]; [|by destruct (Hno f Hin)].
  apply (in_order_unique fps rem); [exact (proj1 (Forall_lookup _ _) Hord _ _ Erem)|done|done|congruence].
Qed.

(** After the last slot nothing is left. *)
Lemma nothing_left t rem : rems sum frames 0 !! t = Some rem -> left_of fps n T0 (N * n) t rem = [].
Proof using Hn Hwithin.
  clear Hids. intros Ht. unfold left_of. rewrite (not_behind t rem Ht). unfold slot_thread, slot_time.
  rewrite Nat.div_mul, Nat.Div0.mod_mul by lia. change (t <? 0)%nat with false. cbn match.
  apply from_none. pose proof (rem_within t rem) as Hw.
  apply Forall_forall. intros f Hf. specialize (Hw f Ht Hf). lia.
Qed.
End ToEnd.

Lemma vdifreader_reads_to_end_rep sum frames rest fps n T0 N rs buf :
  vdif_file sum frames rest fps n -> starts sum frames fps 0 T0 -> rate_ok sum frames fps -> room sum rs ->
  (0 < N)%nat -> T0 + Z.of_nat N < 2 ^ 30 * fps -> (N * n * Z.to_nat (vs_frameSize sum) <= length buf)%nat ->
  within sum frames fps T0 N ->
  exists rd rd' outs, vdifreaderOpen sum (Some (vdif_bytes frames rest)) rs = Some (Some rd) /\
    vdifreaderRead rd buf (Z.of_nat (N * n) * vs_frameSize sum) =
      Some (Z.of_nat (N * n) * vs_frameSize sum, concat outs ++ drop (N * n * Z.to_nat (vs_frameSize sum)) buf, rd') /\
    length outs = (N * n)%nat /\
    Forall (fun f => frame_id f ∈ vs_threadIds sum -> f ∈ outs) frames /\
    vr_eof rd' = true /\ forall buf' count, vdifreaderRead rd' buf' count = Some (0, buf', rd').
Proof.
  intros Hfile Hstart Hrate Hroom HN Hlt Hbuf Hwithin. pose proof (some_thread _ _ _ _ _ Hfile _ _ Hstart) as Hn.
  assert (Hids : length (vs_threadIds sum) = n).
  { pose proof (so_threads _ (vf_sum _ _ _ _ _ Hfile)). rewrite (vf_nThread _ _ _ _ _ Hfile), Nat2Z.id in *. done. }
  pose proof (st_order _ _ _ _ _ Hstart) as Hord.
  destruct (open_rep sum frames rest fps n Hfile T0 Hstart Hrate rs Hroom) as (rd & E & Hr & He).
  assert (Hend : slot_time n T0 (0 + N * n) < 2 ^ 30 * fps) by (unfold slot_time; rewrite Nat.add_0_l, Nat.div_mul; lia).
  destruct (read_at sum frames rest fps n Hfile 0 T0 Hstart rd 0 (N * n) buf Hr
    (eof_at_start sum frames rest fps n Hfile 0 T0 Hstart rd Hr He) He ltac:(lia) Hend Hbuf)
    as (rd' & outs & Erd & Hl & Hout & _ & Heof).
  assert (Heof' : vr_eof rd' = true) by (apply Heof; intros t rem Ht; by apply (nothing_left sum frames fps T0 n N Hn Hwithin t)).
  exists rd, rd', outs. split_and!; try done.
  - rewrite Forall_forall. intros f Hf Hid. apply list_elem_of_lookup_1 in Hid as [t Ht].
    destruct (thread_rem sum frames f t Hf Ht) as (rem & Er & Hin).
    pose proof (rem_within sum frames fps T0 N Hwithin t rem f Er Hin) as Hw. set (a := Z.to_nat (frame_time fps f - T0)).
    pose proof (lookup_lt_Some _ _ _ Ht) as Htn. rewrite Hids in Htn.
    assert (Ha : (a < N)%nat) by (unfold a; lia).
    destruct (lookup_lt_is_Some_2 outs (a * n + t)) as [out Eo]; [rewrite Hl; nia|].
    rewrite <-(slot_frame sum frames fps T0 n N Hn Hids Hord Hwithin f t a out Hf Ht); [by eapply list_elem_of_lookup_2|unfold a; lia|].
    by apply (Hout _ _ Eo).
  - intros buf' count. unfold vdifreaderRead. by rewrite Heof'.
Qed.

(** C9 Reading a file to its end: if the frames of the threads are all within [N]
    times of the common start, then reading [N] rounds of all threads returns
    every one of them; the reader then says that it is at the end, and another
    read returns nothing. *)
Theorem vdifreader_reads_to_end sum frames rest fps n T0 N rs buf :
  vdif_file sum frames rest fps n -> starts sum frames fps 0 T0 -> rate_ok sum frames fps -> room sum rs ->
  (0 < N)%nat -> T0 + Z.of_nat N < 2 ^ 30 * fps -> (N * n * Z.to_nat (vs_frameSize sum) <= length buf)%nat ->
  within sum frames fps T0 N ->
  exists rd rd' outs, vdifreaderOpen sum (Some (vdif_bytes frames rest)) rs = Some (Some rd) /\
    vdifreaderRead rd buf (Z.of_nat (N * n) * vs_frameSize sum) =
      Some (Z.of_nat (N * n) * vs_frameSize sum, concat outs ++ drop (N * n * Z.to_nat (vs_frameSize sum)) buf, rd') /\
    length outs = (N * n)%nat /\
    Forall (fun f => frame_id f ∈ vs_threadIds sum -> f ∈ outs) frames /\
    vr_eof rd' = true /\ forall buf' count, vdifreaderRead rd' buf' count = Some (0, buf', rd').
Proof. apply vdifreader_reads_to_end_rep. Qed.

(** C21 Seeking to a frame of the file: the reader restarts from there, as if the
    file began at this frame, and reads the frames of its slots.  But whether it
    is at the end is left as it was, so that after reading to the end every read
    returns nothing wherever the reader is moved. *)
Theorem vdifreaderSeek_restarts sum frames rest fps n k0 T i k T1 rd :
  vdif_file sum frames rest fps n -> starts sum frames fps k0 T -> starts sum frames fps k T1 ->
  reader_at sum frames rest fps (rems sum frames k0) n T rd i ->
  exists rd', vdifreaderSeek rd (Z.of_nat k * vs_frameSize sum) = Some (0, rd') /\
    reader_at sum frames rest fps (rems sum frames k) n T1 rd' 0 /\
    if vr_eof rd then forall buf count, vdifreaderRead rd' buf count = Some (0, buf, rd')
    else forall m buf, (0 < m)%nat -> slot_time n T1 m < 2 ^ 30 * fps ->
      (m * Z.to_nat (vs_frameSize sum) <= length buf)%nat ->
      exists rd'' outs, vdifreaderRead rd' buf (Z.of_nat m * vs_frameSize sum) =
          Some (Z.of_nat m * vs_frameSize sum, concat outs ++ drop (m * Z.to_nat (vs_frameSize sum)) buf, rd'') /\
        length outs = m /\ forall j out, outs !! j = Some out -> slot_out sum fps (rems sum frames k) n T1 j out.
Proof.
  intros Hfile Hstart0 Hstart Hr. pose proof (so_threads _ (vf_sum _ _ _ _ _ Hfile)) as Hids.
  rewrite (vf_nThread _ _ _ _ _ Hfile), Nat2Z.id in Hids.
  assert (Hok : threads_ok sum frames rest n k rd 0).
  { split; [by apply Hr|]. split; [|intros; lia]. intros t th Et. pose proof (lookup_lt_Some _ _ _ Et) as Hlt.
    rewrite (ra_length _ _ _ _ _ _ _ _ _ Hr) in Hlt. destruct (lookup_lt_is_Some_2 (vs_threadIds sum) t) as [id Eid]; [lia|].
    assert (Erem : rems sum frames k0 !! t = Some (of_thread id (drop k0 frames))) by (unfold rems; by rewrite list_lookup_fmap, Eid).
    by destruct (ra_threads _ _ _ _ _ _ _ _ _ Hr t th id _ Et Eid Erem). }
  destruct (reposition_starts sum frames rest fps n Hfile k T1 Hstart rd) as (rd' & E & Hr' & He);
    [by apply Hr|done|by apply Hr|by apply Hr|by apply Hr|].
  exists rd'. unfold vdifreaderSeek. rewrite E. split; [done|]. split; [done|]. rewrite <-He. destruct (vr_eof rd') eqn:Ee.
  - intros buf count. unfold vdifreaderRead. by rewrite Ee.
  - intros m buf Hm Hlt Hbuf. destruct (read_at sum frames rest fps n Hfile k T1 Hstart rd' 0 m buf Hr'
      (eof_at_start sum frames rest fps n Hfile k T1 Hstart rd' Hr' Ee) Ee Hm Hlt Hbuf) as (rd'' & outs & Erd & Hl & Hout & _).
    by exists rd'', outs.
Qed.

(** ** Any file *)

(** A reader as its user gets it: opened, then read and positioned at will. *)
Inductive session (sum : vdif_file_summary) (bytes rs : buffer) : vdif_file_reader -> Prop :=
  | session_open rd : vdifreaderOpen sum (Some bytes) rs = Some (Some rd) -> session sum bytes rs rd
  | session_read rd buf count ret buf' rd' : session sum bytes rs rd -> 0 <= count <= Z.of_nat (length buf) ->
      vdifreaderRead rd buf count = Some (ret, buf', rd') -> session sum bytes rs rd'
  | session_seek rd offset ret rd' : session sum bytes rs rd -> 0 <= offset ->
      vdifreaderSeek rd offset = Some (ret, rd') -> session sum bytes rs rd'.


(** C20 On any bytes, the search for the next frame of a thread ends.  It never
    moves the handle back, and it either stops at a good header of the thread or
    sets the end-of-file flag. *)
Theorem vdifreader_advance_finds sum bytes id rs th :
  32 <= vs_frameSize sum -> 2 * vs_frameSize sum + 14 <= Z.of_nat (length rs) ->
  st_bytes (tf_fd th) = bytes -> 0 <= tf_pos th ->
  exists r rs' th', vdifreader_advance_to_frame_of_thread sum id rs th = Some (r, rs', th') /\
    st_bytes (tf_fd th') = bytes /\ length rs' = length rs /\ tf_pos th <= tf_pos th' /\
    ((r = 0 /\ tf_feof th' = false /\ tf_pos th' + 32 <= Z.of_nat (length bytes) /\
      tf_header th' = header_at bytes (tf_pos th') /\
      vdifreader_header_looks_good sum (tf_header th') = true /\ getVDIFThreadID (tf_header th') = id) \/
     (r = -1 /\ tf_feof th' = true)).
Proof.
  intros Hsize Hroom Hb Hp.
  destruct (advance_any sum bytes (length rs) Hsize Hroom id rs th (conj Hb (conj Hp (Z.le_refl _))) eq_refl)
    as (r & rs' & th' & -> & Hl & [Hb' Hp'] & Hcase).
  exists r, rs', th'. split; [done|]. split; [done|]. split; [done|]. split; [lia|].
  destruct Hcase as [(-> & Hf & [Hin Hg] & Eh & Eid)|Hend]; [left|by right]. rewrite Eh in *. by split_and!.
Qed.

(** The helper buffer holds two frames of up to 32896 bytes; with larger frames,
    resynchronising, and so opening any file of two frames, writes past its end. *)
Lemma vdifreaderOpen_large_frames sum bytes rs :
  0 < vs_nThread sum -> 0 < vs_framesPerSecond sum -> Z.of_nat (length rs) = resyncbuffersize_ ->
  resyncbuffersize_ < 2 * vs_frameSize sum <= Z.of_nat (length bytes) -> vdifreaderOpen sum (Some bytes) rs = None.
Proof.
  unfold resyncbuffersize_. intros Hn Hfps Hrs Hsize. unfold vdifreaderOpen. rewrite (proj2 (Z.leb_gt _ _)) by done. cbn [mbind option_bind].
  unfold vdifreader_reposition_all. cbn [vr_threads vr_details vr_resync]. rewrite lookup_replicate_2 by lia.
  cbn [mbind option_bind]. unfold tf_goto, tf_seek, fseeko. cbn [Z.ltb Z.compare mbind option_bind from_option tf_fd st_bytes].
  unfold vdifreader_resync. cbn [id tf_feof tf_fd st_bytes]. rewrite (proj2 (Z.leb_gt (vs_frameSize sum) 0)) by lia. cbn [resync_loop].
  unfold tf_read, fread. cbn [tf_fd st_bytes st_pos]. change (Z.to_nat 0) with 0%nat. rewrite drop_0, length_take.
  by rewrite decide_True by lia.
Qed.

(** ** An example

    Two threads of two frames per second whose frames are not interleaved; thread
    5 has no frame at second 100, frame 1.  The summary may or may not know the rate. *)
Definition example_sum (rate : Z) : vdif_file_summary :=
  {| vs_fileSize := 201; vs_nBit := 2; vs_nThread := 2; vs_threadIds := [3; 5]; vs_frameSize := 40;
     vs_framesPerSecond := rate; vs_epoch := 30; vs_startSecond := 100; vs_startFrame := 0;
     vs_endSecond := 101; vs_endFrame := 0; vs_firstFrameOffset := 0 |}.

Definition clumpy_frame (id sec framenr v : Z) : buffer :=
  struct_bytes (setVDIFFrameInvalid (replacement_header (example_sum 2) id sec framenr zero_header) 0) ++ replicate 8 v.

Definition clumpy_frames : list buffer :=
  [clumpy_frame 3 100 0 1; clumpy_frame 3 100 1 2; clumpy_frame 5 100 0 3; clumpy_frame 3 101 0 4; clumpy_frame 5 101 0 5].

Lemma example_file rate : vdif_file (example_sum rate) clumpy_frames [7] 2 2.
Proof.
  split; [done| |cbn; lia| |done|done].
  - unfold clumpy_frames, good. repeat (constructor; [vm_compute; by split_and!|]). constructor.
  - split; vm_compute; try done. repeat (constructor; [by split|]). constructor.
Qed.

Lemma example_rems0 rate : rems (example_sum rate) clumpy_frames 0 =
  [[clumpy_frame 3 100 0 1; clumpy_frame 3 100 1 2; clumpy_frame 3 101 0 4]; [clumpy_frame 5 100 0 3; clumpy_frame 5 101 0 5]].
Proof. by vm_compute. Qed.

Lemma example_rems1 rate : rems (example_sum rate) clumpy_frames 1 =
  [[clumpy_frame 3 100 1 2; clumpy_frame 3 101 0 4]; [clumpy_frame 5 100 0 3; clumpy_frame 5 101 0 5]].
Proof. by vm_compute. Qed.

Ltac ordered := repeat (constructor; [|repeat (constructor; [vm_compute; reflexivity|]); constructor]); constructor.

Lemma example_starts0 rate : starts (example_sum rate) clumpy_frames 2 0 200.
Proof.
  split; [lia| | |].
  - eexists _, _. split; [reflexivity|]. by split.
  - rewrite example_rems0. unfold in_order. constructor; [ordered|]. constructor; [ordered|constructor].
  - exists (clumpy_frame 3 100 0 1). unfold firsts. rewrite example_rems0. split; [by left|]. split; [done|].
    split; [vm_compute; lia|]. cbn [omap list_omap head]. repeat (constructor; [vm_compute; done|]). constructor.
Qed.

Lemma example_starts1 rate : starts (example_sum rate) clumpy_frames 2 1 200.
Proof.
  split; [vm_compute; lia| | |].
  - eexists _, _. split; [reflexivity|]. by split.
  - rewrite example_rems1. unfold in_order. constructor; [ordered|]. constructor; [ordered|constructor].
  - exists (clumpy_frame 5 100 0 3). unfold firsts. rewrite example_rems1. split; [by right; left|]. split; [done|].
    split; [vm_compute; lia|]. cbn [omap list_omap head]. repeat (constructor; [vm_compute; done|]). constructor.
Qed.

Lemma example_within rate : within (example_sum rate) clumpy_frames 2 200 3.
Proof. unfold within, clumpy_frames. repeat (constructor; [vm_compute; by split|]). constructor. Qed.

Lemma example_rate rate : rate = 0 \/ rate = 2 -> rate_ok (example_sum rate) clumpy_frames 2.
Proof. intros [-> | ->]; [|done]. split; [by vm_compute|]. eexists. split; [by vm_compute|]. by vm_compute. Qed.

Lemma vdifreader_interleaves_witness :
  exists rd rd' outs, vdifreaderOpen (example_sum 0) (Some (vdif_bytes clumpy_frames [7])) (replicate 80 0) = Some (Some rd) /\
    vdifreaderRead rd (replicate 250 9) 160 = Some (160, concat outs ++ replicate 90 9, rd') /\
    length outs = 4%nat /\ forall i out, outs !! i = Some out -> slot_out (example_sum 0) 2 (rems (example_sum 0) clumpy_frames 0) 2 200 i out.
Proof.
  apply (vdifreader_interleaves (example_sum 0) clumpy_frames [7] 2 2 200 (replicate 80 0) 4 (replicate 250 9)
    (example_file 0) (example_starts0 0) (example_rate 0 (or_introl eq_refl))); [unfold room; cbn; lia|lia|by vm_compute|cbn; lia].
Defined.

Lemma vdifreader_reads_to_end_witness :
  exists rd rd' outs, vdifreaderOpen (example_sum 2) (Some (vdif_bytes clumpy_frames [7])) (replicate 80 0) = Some (Some rd) /\
    vdifreaderRead rd (replicate 240 9) 240 = Some (240, concat outs ++ [], rd') /\ length outs = 6%nat /\
    Forall (fun f => frame_id f ∈ [3; 5] -> f ∈ outs) clumpy_frames /\
    vr_eof rd' = true /\ forall buf' count, vdifreaderRead rd' buf' count = Some (0, buf', rd').
Proof.
  apply (vdifreader_reads_to_end (example_sum 2) clumpy_frames [7] 2 2 200 3 (replicate 80 0) (replicate 240 9)
    (example_file 2) (example_starts0 2) (example_rate 2 (or_intror eq_refl))); [unfold room; cbn; lia|lia|lia|cbn; lia|].
  apply example_within.
Defined.

Lemma vdifreaderSeek_restarts_witness : exists rd rd',
  vdifreaderOpen (example_sum 2) (Some (vdif_bytes clumpy_frames [7])) (replicate 80 0) = Some (Some rd) /\
  vdifreaderSeek rd 40 = Some (0, rd') /\
  reader_at (example_sum 2) clumpy_frames [7] 2 (rems (example_sum 2) clumpy_frames 1) 2 200 rd' 0.
Proof.
  destruct (open_rep (example_sum 2) clumpy_frames [7] 2 2 (example_file 2) 200 (example_starts0 2)
    (example_rate 2 (or_intror eq_refl)) (replicate 80 0)) as (rd & E & Hr & _); [unfold room; cbn; lia|].
  destruct (vdifreaderSeek_restarts (example_sum 2) clumpy_frames [7] 2 2 0 200 0 1 200 rd
    (example_file 2) (example_starts0 2) (example_starts1 2) Hr) as (rd' & E' & Hr' & _).
  exists rd, rd'. split; [exact E|]. split; [exact E'|exact Hr'].
Defined.


Lemma vdifreader_advance_finds_witness : exists r rs' th',
  vdifreader_advance_to_frame_of_thread (example_sum 2) 5 (replicate 94 0)
    {| tf_fd := {| st_bytes := vdif_bytes clumpy_frames [7]; st_pos := 3 |}; tf_eof := false; tf_feof := false;
       tf_header := zero_header; tf_sec := 0 |} = Some (r, rs', th') /\ length rs' = 94%nat /\ 3 <= tf_pos th'.
Proof.
  edestruct (vdifreader_advance_finds (example_sum 2) (vdif_bytes clumpy_frames [7]) 5 (replicate 94 0)) as (r & rs' & th' & E & _ & Hl & Hp & _);
    [| | | |exists r, rs', th'; split; [exact E|]; split; [exact Hl|exact Hp]]; [done..|done].
Defined.
