(* ===== verification/VdifFile.v ===== *)
(** * VdifFile: the summary of a VDIF file

    [vdiffile.c]: the first bytes of a file, and of a long file also the last, are
    scanned for the threads, the rate and the times of the recording.  The
    arithmetic on summaries that [vdifio.h] has inline is here as well.

    The summary is [vdif_file_summary] of [VdifReader], without the name of the
    file; of the array of thread ids it has the entries that are set.  A file is
    its bytes, which are all there when they are read. *)
From S2P Require Export VdifBuffer VdifReader.
#[local] Open Scope Z_scope.

Definition VDIF_SUMMARY_MAX_THREADS : Z := 256.

(** The header of a VLBA frame: another view of the same 32 bytes. *)
Record vdif_edv3_header : Type := {
  v3_seconds : Z;
  v3_legacymode : Z;
  v3_invalid : Z;
  v3_frame : Z;
  v3_epoch : Z;
  v3_unassigned : Z;
  v3_framelength8 : Z;
  v3_nchan : Z;
  v3_version : Z;
  v3_stationid : Z;
  v3_threadid : Z;
  v3_nbits : Z;
  v3_iscomplex : Z;
  v3_samprate : Z;
  v3_samprateunits : Z;
  v3_eversion : Z;
  v3_syncword : Z;
  v3_tuning : Z;
  v3_personalitytype : Z;
  v3_minorrev : Z;
  v3_majorrev : Z;
  v3_sideband : Z;
  v3_subband : Z;
  v3_ifnumber : Z;
  v3_dbeunit : Z;
  v3_unassigned2 : Z }.

#[export] Instance vdif_edv3_header_struct : BitStruct vdif_edv3_header.
Proof.
  refine {|
    layout := [30; 1; 1; 24; 6; 2; 24; 5; 3; 16; 10; 5; 1; 23; 1; 8; 32; 32; 8; 4; 4; 1; 3; 4; 4; 4]%nat;
    fields := fun h =>
      [v3_seconds h; v3_legacymode h; v3_invalid h; v3_frame h; v3_epoch h; v3_unassigned h;
      v3_framelength8 h; v3_nchan h; v3_version h; v3_stationid h; v3_threadid h; v3_nbits h;
      v3_iscomplex h; v3_samprate h; v3_samprateunits h; v3_eversion h; v3_syncword h; v3_tuning h;
      v3_personalitytype h; v3_minorrev h; v3_majorrev h; v3_sideband h; v3_subband h;
      v3_ifnumber h; v3_dbeunit h; v3_unassigned2 h];
    make := fun l =>
      let f k := nth k l 0 in
      Build_vdif_edv3_header (f 0%nat) (f 1%nat) (f 2%nat) (f 3%nat) (f 4%nat) (f 5%nat) (f 6%nat)
        (f 7%nat) (f 8%nat) (f 9%nat) (f 10%nat) (f 11%nat) (f 12%nat) (f 13%nat) (f 14%nat)
        (f 15%nat) (f 16%nat) (f 17%nat) (f 18%nat) (f 19%nat) (f 20%nat) (f 21%nat) (f 22%nat)
        (f 23%nat) (f 24%nat) (f 25%nat) |}.
  - by intros [].
  - intros l Hl. do 26 (destruct l as [|? l]; [done|]). destruct l; done.
Defined.

(** ** Assignments to a summary *)

Definition resetvdiffilesummary : vdif_file_summary :=
  {| vs_fileSize := 0; vs_nBit := 0; vs_nThread := 0; vs_threadIds := []; vs_frameSize := 0;
     vs_framesPerSecond := 0; vs_epoch := 0; vs_startSecond := 0; vs_startFrame := 0; vs_endSecond := 0;
     vs_endFrame := 0; vs_firstFrameOffset := 0 |}.

Definition vs_set_fileSize (sum : vdif_file_summary) (v : Z) : vdif_file_summary :=
  {| vs_fileSize := v; vs_nBit := vs_nBit sum; vs_nThread := vs_nThread sum; vs_threadIds := vs_threadIds sum;
     vs_frameSize := vs_frameSize sum; vs_framesPerSecond := vs_framesPerSecond sum; vs_epoch := vs_epoch sum;
     vs_startSecond := vs_startSecond sum; vs_startFrame := vs_startFrame sum; vs_endSecond := vs_endSecond sum;
     vs_endFrame := vs_endFrame sum; vs_firstFrameOffset := vs_firstFrameOffset sum |}.

(** The frame size and the offset of the first frame. *)
Definition vs_set_frames (sum : vdif_file_summary) (frameSize firstFrameOffset : Z) : vdif_file_summary :=
  {| vs_fileSize := vs_fileSize sum; vs_nBit := vs_nBit sum; vs_nThread := vs_nThread sum; vs_threadIds := vs_threadIds sum;
     vs_frameSize := frameSize; vs_framesPerSecond := vs_framesPerSecond sum; vs_epoch := vs_epoch sum;
     vs_startSecond := vs_startSecond sum; vs_startFrame := vs_startFrame sum; vs_endSecond := vs_endSecond sum;
     vs_endFrame := vs_endFrame sum; vs_firstFrameOffset := firstFrameOffset |}.

(** Epoch and bits of the first header. *)
Definition vs_set_format (sum : vdif_file_summary) (epoch nBit : Z) : vdif_file_summary :=
  {| vs_fileSize := vs_fileSize sum; vs_nBit := nBit; vs_nThread := vs_nThread sum; vs_threadIds := vs_threadIds sum;
     vs_frameSize := vs_frameSize sum; vs_framesPerSecond := vs_framesPerSecond sum; vs_epoch := epoch;
     vs_startSecond := vs_startSecond sum; vs_startFrame := vs_startFrame sum; vs_endSecond := vs_endSecond sum;
     vs_endFrame := vs_endFrame sum; vs_firstFrameOffset := vs_firstFrameOffset sum |}.

Definition vs_set_rate (sum : vdif_file_summary) (framesPerSecond : Z) : vdif_file_summary :=
  {| vs_fileSize := vs_fileSize sum; vs_nBit := vs_nBit sum; vs_nThread := vs_nThread sum; vs_threadIds := vs_threadIds sum;
     vs_frameSize := vs_frameSize sum; vs_framesPerSecond := framesPerSecond; vs_epoch := vs_epoch sum;
     vs_startSecond := vs_startSecond sum; vs_startFrame := vs_startFrame sum; vs_endSecond := vs_endSecond sum;
     vs_endFrame := vs_endFrame sum; vs_firstFrameOffset := vs_firstFrameOffset sum |}.

Definition vs_set_start (sum : vdif_file_summary) (second frame : Z) : vdif_file_summary :=
  {| vs_fileSize := vs_fileSize sum; vs_nBit := vs_nBit sum; vs_nThread := vs_nThread sum; vs_threadIds := vs_threadIds sum;
     vs_frameSize := vs_frameSize sum; vs_framesPerSecond := vs_framesPerSecond sum; vs_epoch := vs_epoch sum;
     vs_startSecond := second; vs_startFrame := frame; vs_endSecond := vs_endSecond sum;
     vs_endFrame := vs_endFrame sum; vs_firstFrameOffset := vs_firstFrameOffset sum |}.

Definition vs_set_end (sum : vdif_file_summary) (second frame : Z) : vdif_file_summary :=
  {| vs_fileSize := vs_fileSize sum; vs_nBit := vs_nBit sum; vs_nThread := vs_nThread sum; vs_threadIds := vs_threadIds sum;
     vs_frameSize := vs_frameSize sum; vs_framesPerSecond := vs_framesPerSecond sum; vs_epoch := vs_epoch sum;
     vs_startSecond := vs_startSecond sum; vs_startFrame := vs_startFrame sum; vs_endSecond := second;
     vs_endFrame := frame; vs_firstFrameOffset := vs_firstFrameOffset sum |}.

Definition vs_set_threads (sum : vdif_file_summary) (nThread : Z) (threadIds : list Z) : vdif_file_summary :=
  {| vs_fileSize := vs_fileSize sum; vs_nBit := vs_nBit sum; vs_nThread := nThread; vs_threadIds := threadIds;
     vs_frameSize := vs_frameSize sum; vs_framesPerSecond := vs_framesPerSecond sum; vs_epoch := vs_epoch sum;
     vs_startSecond := vs_startSecond sum; vs_startFrame := vs_startFrame sum; vs_endSecond := vs_endSecond sum;
     vs_endFrame := vs_endFrame sum; vs_firstFrameOffset := vs_firstFrameOffset sum |}.

(** ** The scan *)

(** What the scan has found: the summary, [hasThread] and [hasEDV3]. *)
Record file_scan : Type := { sc_sum : vdif_file_summary; sc_hasThread : list bool; sc_hasEDV3 : bool }.

Definition note_start (sum : vdif_file_summary) (s f : Z) : vdif_file_summary :=
  if s <? vs_startSecond sum then vs_set_start sum s f
  else if (s =? vs_startSecond sum) && (f <? vs_startFrame sum) then vs_set_start sum (vs_startSecond sum) f
  else sum.

Definition note_end (sum : vdif_file_summary) (s f : Z) : vdif_file_summary :=
  if vs_endSecond sum <? s then vs_set_end sum s f
  else if (s =? vs_endSecond sum) && (vs_endFrame sum <? f) then vs_set_end sum (vs_endSecond sum) f
  else sum.

(** The frame rate from the header of a VLBA frame; [legacymode] is of the frame
    at hand, the header is the first of the file. *)
Definition edv3_rate (edv3 : vdif_edv3_header) (nBit frameSize legacymode : Z) : option Z :=
  let dataSize := frameSize - (if legacymode =? 0 then 32 else 16) in
  khz ← sint (v3_samprate edv3 * 1000);
  rate ← sint (khz * 2);
  let sampRate := if v3_samprateunits edv3 =? 1 then rate * 1000 else rate in
  if dataSize =? 0 then None else Some (s32 (cdiv (sampRate * nBit) (8 * dataSize))).

(** [getVDIFFrameBytes(vh) == frameSize && ...]: a good frame near the first one. *)
Definition summary_good (sum : vdif_file_summary) (frameSize : Z) (vh0 vh : vdif_header) : bool :=
  (getVDIFFrameBytes vh =? frameSize) && (getVDIFEpoch vh =? vs_epoch sum) &&
  (getVDIFBitsPerSample vh =? vs_nBit sum) &&
  (Z.abs (getVDIFFrameEpochSecOffset vh - getVDIFFrameEpochSecOffset vh0) <? 2).

(** What a good frame adds. *)
Definition note_frame (frameSize : Z) (edv3 : vdif_edv3_header) (vh : vdif_header) (st : file_scan) : option file_scan :=
  if decide (0 <= getVDIFThreadID vh < Z.of_nat (length (sc_hasThread st))) then
    let hasThread := <[Z.to_nat (getVDIFThreadID vh) := true]> (sc_hasThread st) in
    let s := getVDIFFrameEpochSecOffset vh in
    let f := getVDIFFrameNumber vh in
    let sum := note_end (note_start (sc_sum st) s f) s f in
    if (vh_eversion vh =? 3) && negb (sc_hasEDV3 st) then
      framesPerSecond ← edv3_rate edv3 (vs_nBit sum) frameSize (vh_legacymode vh);
      Some {| sc_sum := vs_set_rate sum framesPerSecond; sc_hasThread := hasThread; sc_hasEDV3 := true |}
    else Some {| sc_sum := sum; sc_hasThread := hasThread; sc_hasEDV3 := sc_hasEDV3 st |}
  else None.

(** [for(i = ...; i < N; )]; the loop over the end of the file is the same
    without the part on VLBA headers, as if one had been seen. *)
Fixpoint scan_loop (fuel : nat) (buffer : list Z) (i N frameSize : Z) (vh0 : vdif_header)
    (edv3 : vdif_edv3_header) (st : file_scan) : option file_scan :=
  if i <? N then
    match fuel with
    | O => None
    | S fuel =>
        if i <? 0 then None else
        vh ← struct_at vdif_header buffer (Z.to_nat i);
        if summary_good (sc_sum st) frameSize vh0 vh then
          st ← note_frame frameSize edv3 vh st;
          scan_loop fuel buffer (i + frameSize) N frameSize vh0 edv3 st
        else scan_loop fuel buffer (i + 1) N frameSize vh0 edv3 st
    end
  else Some st.

(** The ids of the threads that were seen, in increasing order. *)
Definition found_threads (hasThread : list bool) : list Z :=
  omap (fun i => if nth i hasThread false then Some (Z.of_nat i) else None)
    (seq 0 (Z.to_nat (VDIF_MAX_THREAD_ID + 1))).

Definition finish (st : file_scan) : vdif_file_summary :=
  let ids := found_threads (sc_hasThread st) in
  vs_set_threads (sc_sum st) (Z.of_nat (length ids)) (take (Z.to_nat VDIF_SUMMARY_MAX_THREADS) ids).

(** [bufferSize] before the file is known to be shorter. *)
Definition summary_buffer : Z := 1215 * 8224 * 8.

(** The work on the end of the file, of which [buffer] has the last bytes. *)
Definition summarize_end (buffer : list Z) (frameSize : Z) (st : file_scan) : option (Z * file_scan) :=
  let bufferSize := Z.of_nat (length buffer) in
  let N := bufferSize - frameSize - VDIF_HEADER_BYTES in
  offset ← determinevdifframeoffset buffer bufferSize frameSize;
  if offset <? 0 then Some (-9, st) else
  vh0 ← struct_at vdif_header buffer (Z.to_nat offset);
  edv3 ← struct_at vdif_edv3_header buffer (Z.to_nat offset);
  st ← scan_loop (Z.to_nat N) buffer 0 N frameSize vh0 edv3
    {| sc_sum := sc_sum st; sc_hasThread := sc_hasThread st; sc_hasEDV3 := true |};
  Some (0, st).

(** The work on the beginning, from the frame size on. *)
Definition summarize_start (buffer : list Z) (frameSize : Z) (sum : vdif_file_summary) : option (Z * file_scan) :=
  let bufferSize := Z.of_nat (length buffer) in
  let N := bufferSize - frameSize - VDIF_HEADER_BYTES in
  offset ← determinevdifframeoffset buffer bufferSize frameSize;
  let st := {| sc_sum := vs_set_frames sum frameSize offset;
               sc_hasThread := replicate (Z.to_nat (VDIF_MAX_THREAD_ID + 1)) false; sc_hasEDV3 := false |} in
  if offset <? 0 then Some (-6, st) else
  vh0 ← struct_at vdif_header buffer (Z.to_nat offset);
  edv3 ← struct_at vdif_edv3_header buffer (Z.to_nat offset);
  st ← scan_loop (Z.to_nat N) buffer offset N frameSize vh0 edv3
    {| sc_sum := vs_set_format (sc_sum st) (getVDIFEpoch vh0) (getVDIFBitsPerSample vh0);
       sc_hasThread := sc_hasThread st; sc_hasEDV3 := false |};
  Some (0, st).

(** [summarizevdiffile] on the contents of the file ([None]: it cannot be opened):
    the status and the summary. *)
Definition summarizevdiffile (contents : option buffer) (frameSize : Z) : option (Z * vdif_file_summary) :=
  let sum := vs_set_start resetvdiffilesummary (2 ^ 30) 0 in
  match contents with
  | None => Some (-2, sum)
  | Some bytes =>
      let sum := vs_set_fileSize sum (Z.of_nat (length bytes)) in
      let bufferSize := if vs_fileSize sum <? 2 * summary_buffer then vs_fileSize sum else summary_buffer in
      let buffer := take (Z.to_nat bufferSize) bytes in
      found ← (if frameSize =? 0 then determinevdifframesize buffer bufferSize else Some frameSize);
      if (frameSize =? 0) && (found <=? 0) then Some (-5, sum) else
      '(rv, st) ← summarize_start buffer found sum;
      if rv <? 0 then Some (rv, sc_sum st) else
      '(rv, st) ← (if bufferSize <? vs_fileSize sum
                   then summarize_end (drop (length bytes - Z.to_nat bufferSize) bytes) found st
                   else Some (0, st));
      if rv <? 0 then Some (rv, sc_sum st) else Some (0, finish st)
  end.

(** ** Arithmetic on summaries *)

(** [sum->framesPerSecond = ...] from samples per second, in 64 bits. *)
Definition vdiffilesummarysetsamplerate (sum : vdif_file_summary) (sampRateHz : Z) : option vdif_file_summary :=
  bits ← slong (sampRateHz * vs_nBit sum);
  payload ← sint (8 * (vs_frameSize sum - VDIF_HEADER_BYTES));
  if payload =? 0 then None else Some (vs_set_rate sum (s32 (cdiv bits payload))).

(** The same from Mbps, in [int]. *)
Definition vdiffilesummarysetbitrate (sum : vdif_file_summary) (bitRateMbps : Z) : option vdif_file_summary :=
  bytes ← sint (bitRateMbps * 125000);
  payload ← sint (vs_nThread sum * (vs_frameSize sum - VDIF_HEADER_BYTES));
  if payload =? 0 then None else Some (vs_set_rate sum (cdiv bytes payload)).

Definition vdiffilesummarygetsamplerate (sum : vdif_file_summary) : option Z :=
  bytes ← sint (vs_framesPerSecond sum * (vs_frameSize sum - VDIF_HEADER_BYTES));
  bits ← sint (bytes * 8);
  if vs_nBit sum =? 0 then None else Some (cdiv bits (vs_nBit sum)).

Definition vdiffilesummarygetbitrate (sum : vdif_file_summary) : option Z :=
  bytes ← sint (vs_framesPerSecond sum * (vs_frameSize sum - VDIF_HEADER_BYTES));
  all ← sint (bytes * vs_nThread sum);
  Some (cdiv all 125000).

Definition vdiffilesummarygetstartns (sum : vdif_file_summary) : option Z :=
  if vs_framesPerSecond sum =? 0 then None
  else Some (s32 (cdiv (vs_startFrame sum * 1000000000) (vs_framesPerSecond sum))).

Definition vdiffilesummarygetstartsecond (sum : vdif_file_summary) : Z := cmod (vs_startSecond sum) 86400.

Definition vdiffilesummarygetstartmjd (sum : vdif_file_summary) : option Z :=
  mjd ← ymd2mjd (2000 + cdiv (vs_epoch sum) 2) (cmod (vs_epoch sum) 2 * 6 + 1) 1;
  Some (mjd + cdiv (vs_startSecond sum) 86400).

Definition vdiffilesummarygetbytespersecond (sum : vdif_file_summary) : option Z :=
  sint (vs_frameSize sum * vs_framesPerSecond sum).
