(* ===== verification/VdifFileTheorems.v ===== *)
(** * VdifFileTheorems: the properties of file summaries

    A summary of a file of frames has the epoch, the times and the threads of
    the frames that the scan looks at, which are all but the last; a reader can
    be opened with it.  Then the arithmetic on summaries. *)
From S2P Require Export VdifFile VdifReaderTheorems.
#[local] Open Scope Z_scope.

(** ** Times as keys *)

(** Seconds and frame numbers in lexicographic order. *)
Definition key (s f : Z) : Z := s * 2 ^ 24 + f.
Definition frame_key (f : buffer) : Z := key (frame_sec f) (frame_nr f).

Definition start_key (sum : vdif_file_summary) : Z := key (vs_startSecond sum) (vs_startFrame sum).
Definition end_key (sum : vdif_file_summary) : Z := key (vs_endSecond sum) (vs_endFrame sum).

(** What the scan does not change in a summary. *)
Definition vs_kept (sum : vdif_file_summary) :=
  (vs_fileSize sum, vs_nBit sum, vs_nThread sum, vs_threadIds sum, vs_frameSize sum, vs_epoch sum, vs_firstFrameOffset sum).

Definition times_ok (sum : vdif_file_summary) : Prop :=
  0 <= vs_startFrame sum < 2 ^ 24 /\ 0 <= vs_endFrame sum < 2 ^ 24.

Lemma note_start_spec sum s f : times_ok sum -> 0 <= f < 2 ^ 24 ->
  start_key (note_start sum s f) = Z.min (start_key sum) (key s f) /\ times_ok (note_start sum s f) /\
  end_key (note_start sum s f) = end_key sum /\ vs_kept (note_start sum s f) = vs_kept sum /\
  vs_framesPerSecond (note_start sum s f) = vs_framesPerSecond sum.
Proof.
  unfold times_ok, note_start, start_key, end_key, key, vs_kept. intros [H1 H2] Hf.
  destruct (Z.ltb_spec s (vs_startSecond sum)); [|destruct (Z.eqb_spec s (vs_startSecond sum)),
    (Z.ltb_spec f (vs_startFrame sum))]; cbn; split_and!; try done; nia.
Qed.

Lemma note_end_spec sum s f : times_ok sum -> 0 <= f < 2 ^ 24 ->
  end_key (note_end sum s f) = Z.max (end_key sum) (key s f) /\ times_ok (note_end sum s f) /\
  start_key (note_end sum s f) = start_key sum /\ vs_kept (note_end sum s f) = vs_kept sum /\
  vs_framesPerSecond (note_end sum s f) = vs_framesPerSecond sum.
Proof.
  unfold times_ok, note_end, start_key, end_key, key, vs_kept. intros [H1 H2] Hf.
  destruct (Z.ltb_spec (vs_endSecond sum) s); [|destruct (Z.eqb_spec s (vs_endSecond sum)),
    (Z.ltb_spec (vs_endFrame sum) f)]; cbn; split_and!; try done; nia.
Qed.

Lemma frame_nr_range f : 0 <= frame_nr f < 2 ^ 24.
Proof.
  pose proof (struct_header_ok _ (struct_of_bytes_ok (T:=vdif_header) (take 32 f))) as Hok.
  pose proof (ok_frame _ Hok) as H2. fold (header_of f) in H2. unfold frame_nr, getVDIFFrameNumber. exact H2.
Qed.

Lemma frame_id_range f : 0 <= frame_id f < 1024.
Proof.
  pose proof (struct_header_ok _ (struct_of_bytes_ok (T:=vdif_header) (take 32 f))) as Hok.
  pose proof (ok_threadid _ Hok) as H2. fold (header_of f) in H2. unfold frame_id, getVDIFThreadID. exact H2.
Qed.

(** ** Threads *)

Definition seen (hasThread : list bool) (id : Z) : Prop := 0 <= id /\ nth (Z.to_nat id) hasThread false = true.

Lemma found_threads_spec hasThread : length hasThread = 1024%nat ->
  StronglySorted Z.lt (found_threads hasThread) /\ forall id, id ∈ found_threads hasThread <-> seen hasThread id.
Proof.
  intros Hl. unfold found_threads. change (Z.to_nat (VDIF_MAX_THREAD_ID + 1)) with 1024%nat. split.
  - generalize 0%nat, 1024%nat. intros a m. revert a. induction m as [|m IH]; intros a; [constructor|].
    cbn [seq omap list_omap]. destruct (nth a hasThread false); [|apply IH]. constructor; [apply IH|].
    apply Forall_forall. intros x (i & Hi & Hx)%list_elem_of_omap. apply elem_of_seq in Hi.
    destruct (nth i hasThread false); [|done]. injection Hx as <-. lia.
  - intros id. rewrite list_elem_of_omap. unfold seen. split.
    + intros (i & Hi & Hx). destruct (nth i hasThread false) eqn:E; [|done]. injection Hx as <-. rewrite Nat2Z.id. split; [lia|done].
    + intros [H0 Hn]. exists (Z.to_nat id). assert (Z.to_nat id < 1024)%nat.
      { destruct (decide (Z.to_nat id < 1024)%nat); [done|]. rewrite nth_overflow in Hn by lia. done. }
      rewrite elem_of_seq, Hn. split; [lia|]. f_equal. lia.
Qed.

Lemma nth_insert_bool (l : list bool) i j : (i < length l)%nat ->
  nth j (<[i := true]> l) false = if decide (j = i) then true else nth j l false.
Proof.
  intros Hi. rewrite !nth_lookup. case_decide as Hd; [subst; by rewrite list_lookup_insert_eq|].
  by rewrite list_lookup_insert_ne by done.
Qed.

Lemma nth_replicate_false n i : nth i (replicate n false) false = false.
Proof.
  rewrite nth_lookup. destruct (replicate n false !! i) as [b|] eqn:Eb; [|done]. by apply lookup_replicate in Eb as [-> _].
Qed.

(** ** The frames of a scan *)

Section Scan.
Context (F E B : Z) (f0 : buffer) (edv3 : vdif_edv3_header).

(** A frame of the recording: its size, epoch and bits, near the first frame. *)
Record recorded (f : buffer) : Prop := {
  rc_length : Z.of_nat (length f) = F;
  rc_bytes : getVDIFFrameBytes (header_of f) = F;
  rc_epoch : getVDIFEpoch (header_of f) = E;
  rc_bits : getVDIFBitsPerSample (header_of f) = B;
  rc_near : Z.abs (frame_sec f - frame_sec f0) < 2 }.

Definition vlba (f : buffer) : Prop := vh_eversion (header_of f) = 3.
#[local] Instance vlba_dec f : Decision (vlba f) := Z.eq_dec _ _.

(** The rate that the first VLBA frame gives; 0 if there is none. *)
Definition rate_of (fs : list buffer) : option Z :=
  match filter vlba fs with
  | [] => Some 0
  | f :: _ => edv3_rate edv3 B F (vh_legacymode (header_of f))
  end.

(** What is known after the frames [fs]. *)
Record scan_rep (sum0 : vdif_file_summary) (fs : list buffer) (st : file_scan) : Prop := {
  sd_kept : vs_kept (sc_sum st) = vs_kept sum0;
  sd_times : times_ok (sc_sum st);
  sd_start : start_key (sc_sum st) = foldr Z.min (start_key sum0) (frame_key <$> fs);
  sd_end : end_key (sc_sum st) = foldr Z.max (end_key sum0) (frame_key <$> fs);
  sd_rate : rate_of fs = Some (vs_framesPerSecond (sc_sum st));
  sd_edv3 : sc_hasEDV3 st = true <-> filter vlba fs <> [];
  sd_length : length (sc_hasThread st) = 1024%nat;
  sd_threads : forall id, seen (sc_hasThread st) id <-> exists f, f ∈ fs /\ frame_id f = id }.

Lemma foldr_snoc_min m ks k : foldr Z.min m (ks ++ [k]) = Z.min (foldr Z.min m ks) k.
Proof using. clear. induction ks as [|x ks IH]; cbn; [lia|]. rewrite IH. lia. Qed.

Lemma foldr_snoc_max m ks k : foldr Z.max m (ks ++ [k]) = Z.max (foldr Z.max m ks) k.
Proof using. clear. induction ks as [|x ks IH]; cbn; [lia|]. rewrite IH. lia. Qed.

Lemma scan_threads fs st f : length (sc_hasThread st) = 1024%nat ->
  (forall id, seen (sc_hasThread st) id <-> exists g, g ∈ fs /\ frame_id g = id) ->
  forall id, seen (<[Z.to_nat (frame_id f) := true]> (sc_hasThread st)) id <-> exists g, g ∈ fs ++ [f] /\ frame_id g = id.
Proof using.
  clear. intros Hl Hs id. pose proof (frame_id_range f) as Hr. unfold seen. rewrite nth_insert_bool by lia.
  case_decide as Hd.
  - split; [intros [H0 _]; exists f; split; [apply elem_of_app; right; by left|lia]|].
    intros (g & _ & <-). pose proof (frame_id_range g). split; [lia|done].
  - specialize (Hs id). unfold seen in Hs. rewrite Hs. split.
    + intros (g & Hg & Hid). exists g. split; [apply elem_of_app; by left|done].
    + intros (g & [Hg|Hg%list_elem_of_singleton]%elem_of_app & Hid); [by exists g|]. subst g. by destruct Hd; rewrite Hid.
Qed.

Lemma vlba_eqb f : (vh_eversion (header_of f) =? 3) = if decide (vlba f) then true else false.
Proof using. clear. unfold vlba. destruct (decide _) as [Ev|Ev]; [by apply Z.eqb_eq|by apply Z.eqb_neq]. Qed.

Lemma rate_snoc fs f : rate_of (fs ++ [f]) =
  match filter vlba fs with
  | [] => if decide (vlba f) then edv3_rate edv3 B F (vh_legacymode (header_of f)) else Some 0
  | _ => rate_of fs
  end.
Proof using.
  unfold rate_of. rewrite filter_app, filter_cons, filter_nil.
  destruct (filter vlba fs) as [|g gs]; [|done]. by destruct (decide (vlba f)).
Qed.

Lemma filter_snoc fs f : filter vlba (fs ++ [f]) <> [] <-> filter vlba fs <> [] \/ vlba f.
Proof using.
  clear. rewrite filter_app, filter_cons, filter_nil. destruct (decide (vlba f)).
  - split; [by right|]. intros _ [_ ?]%app_nil. done.
  - rewrite app_nil_r. split; [by left|by intros [?|?]].
Qed.

(** Times and threads after one more frame. *)
Lemma noted_spec sum0 fs st f : scan_rep sum0 fs st ->
  let sum := note_end (note_start (sc_sum st) (frame_sec f) (frame_nr f)) (frame_sec f) (frame_nr f) in
  vs_kept sum = vs_kept sum0 /\ times_ok sum /\
  start_key sum = foldr Z.min (start_key sum0) (frame_key <$> fs ++ [f]) /\
  end_key sum = foldr Z.max (end_key sum0) (frame_key <$> fs ++ [f]) /\
  vs_framesPerSecond sum = vs_framesPerSecond (sc_sum st).
Proof using.
  intros [S1 S2 S3 S4 _ _ _ _] sum.
  destruct (note_start_spec (sc_sum st) (frame_sec f) (frame_nr f) S2 (frame_nr_range f)) as (A1 & A2 & A3 & A4 & A5).
  destruct (note_end_spec _ (frame_sec f) (frame_nr f) A2 (frame_nr_range f)) as (B1 & B2 & B3 & B4 & B5). fold sum in B1, B2, B3, B4, B5.
  rewrite fmap_app. cbn [fmap list_fmap]. rewrite foldr_snoc_min, foldr_snoc_max, <-S3, <-S4.
  split_and!; try done; try congruence; [by rewrite B3, A1|by rewrite B1, A3].
Qed.

(** Scanning one more frame. *)
Lemma note_frame_spec sum0 fs st f : scan_rep sum0 fs st -> vs_nBit sum0 = B ->
  is_Some (rate_of (fs ++ [f])) ->
  exists st', note_frame F edv3 (header_of f) st = Some st' /\ scan_rep sum0 (fs ++ [f]) st'.
Proof using.
  intros Hst HB Hrate. pose proof (noted_spec sum0 fs st f Hst) as (N1 & N2 & N3 & N4 & N5).
  destruct Hst as [_ _ _ _ S5 S6 S7 S8]. unfold note_frame. rewrite <-frame_id_eq, <-frame_sec_eq, <-frame_nr_eq.
  rewrite decide_True by (rewrite S7; exact (frame_id_range f)).
  set (sum := note_end _ _ _) in *. clearbody sum.
  assert (Hbits : vs_nBit sum = B) by (unfold vs_kept in N1; congruence).
  pose proof (scan_threads fs st f S7 S8) as N6. rewrite vlba_eqb.
  rewrite rate_snoc in Hrate. pose proof (rate_snoc fs f) as Er. pose proof (filter_snoc fs f) as Efil.
  destruct (filter vlba fs) as [|g gs] eqn:Eg.
  - assert (Hno : sc_hasEDV3 st = false) by (destruct (sc_hasEDV3 st); [by destruct (proj1 S6 eq_refl)|done]).
    assert (H0 : vs_framesPerSecond (sc_sum st) = 0) by (unfold rate_of in S5; rewrite Eg in S5; congruence).
    rewrite Hno. destruct (decide (vlba f)) as [Hv|Hv]; cbn [negb andb].
    + destruct Hrate as [r Hr]. rewrite Hbits, Hr. cbn [mbind option_bind]. eexists. split; [done|].
      split; cbn [sc_sum sc_hasThread sc_hasEDV3]; try done; [by rewrite Er, Hr|by rewrite Efil; split; [right|]|by rewrite length_insert].
    + eexists. split; [done|]. split; cbn [sc_sum sc_hasThread sc_hasEDV3]; try done; [by rewrite Er, N5, H0| |by rewrite length_insert].
      rewrite Efil. split; [done|by intros [?|?]].
  - assert (Hyes : sc_hasEDV3 st = true) by by apply S6. rewrite Hyes, andb_false_r.
    eexists. split; [done|]. split; cbn [sc_sum sc_hasThread sc_hasEDV3]; try done; [by rewrite Er, S5, N5| |by rewrite length_insert].
    rewrite Efil. split; [by left|done].
Qed.

Lemma rate_prefix fs k : is_Some (rate_of fs) -> is_Some (rate_of (take k fs)).
Proof using.
  rewrite <-(take_drop k fs) at 1. unfold rate_of. rewrite filter_app. destruct (filter vlba (take k fs)); [by eexists|done].
Qed.

(** ** The scan of a file of frames *)

Context (frames : list buffer) (rest : buffer) (Hframes : Forall recorded frames) (HF : 40 <= F).

Abbreviation bytes := (concat frames ++ rest).
Abbreviation K := (length frames).

Lemma frames_lengths : Forall (fun f : buffer => length f = Z.to_nat F) frames.
Proof using Hframes. clear -Hframes. eapply Forall_impl; [exact Hframes|]. intros f []. lia. Qed.

Lemma length_concat fs : Forall recorded fs -> Z.of_nat (length (concat fs)) = Z.of_nat (length fs) * F.
Proof using.
  clear. induction 1 as [|f fs [Hl _ _ _ _] _ IH]; [done|]. cbn [concat length].
  rewrite length_app, Nat2Z.inj_add, IH, Hl, Nat2Z.inj_succ. ring.
Qed.

Lemma length_file : Z.of_nat (length bytes) = Z.of_nat K * F + Z.of_nat (length rest).
Proof using Hframes. clear -Hframes. by rewrite length_app, Nat2Z.inj_add, length_concat. Qed.

Lemma header_of_eq f : header_of f = struct_of_bytes (take 32 f).
Proof using. unfold header_of. reflexivity. Qed.

Lemma header_32 : (width (layout (T:=vdif_header)) / 8 = 32)%nat.
Proof using. done. Qed.

Lemma edv3_32 : (width (layout (T:=vdif_edv3_header)) / 8 = 32)%nat.
Proof using. done. Qed.

(** The header of frame [j]. *)
Lemma frame_at `{BitStruct T} j f : (width (layout (T:=T)) / 8 = 32)%nat -> frames !! j = Some f ->
  struct_at T bytes (Z.to_nat (Z.of_nat j * F)) = Some (struct_of_bytes (take 32 f)).
Proof using Hframes HF.
  intros Hw Hj. pose proof (lookup_lt_Some _ _ _ Hj) as Hlt. unfold struct_at. rewrite Hw.
  pose proof length_file as Hlen.
  destruct (proj1 (Forall_lookup _ _) Hframes _ _ Hj) as [Hl _ _ _ _].
  assert (Hpos : Z.of_nat (S j) * F <= Z.of_nat K * F) by (apply Z.mul_le_mono_nonneg_r; lia).
  assert (H0 : 0 <= Z.of_nat j * F) by (apply Z.mul_nonneg_nonneg; lia).
  rewrite decide_True by lia. do 2 f_equal. unfold slice.
  replace (Z.to_nat (Z.of_nat j * F)) with (j * Z.to_nat F)%nat by (rewrite Z2Nat.inj_mul, Nat2Z.id by lia; done).
  rewrite (drop_concat (Z.to_nat F) frames rest j frames_lengths) by lia.
  rewrite (drop_S _ _ _ Hj). cbn [concat]. rewrite <-app_assoc, take_app_le by lia. done.
Qed.

Abbreviation N := (Z.of_nat (length bytes) - F - 32).

Context (Hrest : (length rest <= 32)%nat).

(** The scan looks at every frame but the last. *)
Lemma scan_loop_rep m : forall fuel j sum0 st, (j + m = K - 1)%nat -> (1 <= K)%nat -> (m <= fuel)%nat ->
  vs_nBit sum0 = B -> vs_epoch sum0 = E -> is_Some (rate_of (take (K - 1) frames)) ->
  scan_rep sum0 (take j frames) st ->
  exists st', scan_loop fuel bytes (Z.of_nat j * F) N F (header_of f0) edv3 st = Some st' /\
    scan_rep sum0 (take (K - 1) frames) st'.
Proof using Hframes HF Hrest.
  induction m as [|m IH]; intros fuel j sum0 st Hj HK Hfuel HB HE Hrate Hst; pose proof length_file as Hlen.
  - exists st. replace (K - 1)%nat with j by lia. split; [|done].
    assert (Hge : (Z.of_nat j * F <? N) = false) by (apply Z.ltb_ge; nia).
    destruct fuel; cbn [scan_loop]; by rewrite Hge.
  - destruct fuel as [|fuel]; [lia|]. cbn [scan_loop]. rewrite (proj2 (Z.ltb_lt _ N)), (proj2 (Z.ltb_ge _ 0)) by nia.
    destruct (lookup_lt_is_Some_2 frames j) as [f Ef]; [lia|].
    rewrite (frame_at j f header_32 Ef). cbn [mbind option_bind].
    rewrite <-header_of_eq.
    pose proof (proj1 (Forall_lookup _ _) Hframes _ _ Ef) as [R1 R2 R3 R4 R5].
    assert (Hgood : summary_good (sc_sum st) F (header_of f0) (header_of f) = true).
    { pose proof (sd_kept _ _ _ Hst) as Hk. unfold vs_kept in Hk. injection Hk as _ K2 _ _ _ K6 _.
      unfold summary_good. rewrite R2, R3, R4, K2, K6, HB, HE, !Z.eqb_refl, <-!frame_sec_eq. cbn [andb]. by apply Z.ltb_lt. }
    rewrite Hgood.
    destruct (note_frame_spec sum0 (take j frames) st f Hst HB) as (st1 & -> & Hst1).
    { rewrite <-(take_S_r _ _ _ Ef). replace (S j) with (S j `min` (K - 1))%nat by lia. rewrite <-take_take. by apply rate_prefix. }
    cbn [mbind option_bind]. replace (Z.of_nat j * F + F) with (Z.of_nat (S j) * F) by lia.
    apply (IH fuel (S j) sum0 st1); try done; [lia|lia|]. by rewrite (take_S_r _ _ _ Ef).
Qed.
End Scan.

(** ** The summary of a file of frames *)

(** A summary of the frames [fs], whose times are [start] and [end_] at the
    earliest and the latest. *)
Record summarizes (sum : vdif_file_summary) (fs : list buffer) : Prop := {
  sm_sorted : StronglySorted Z.lt (vs_threadIds sum);
  sm_threads : forall id, id ∈ vs_threadIds sum <-> exists f, f ∈ fs /\ frame_id f = id;
  sm_nThread : vs_nThread sum = Z.of_nat (length (vs_threadIds sum));
  sm_first : Forall (fun f => start_key sum <= frame_key f) fs;
  sm_start : exists f, f ∈ fs /\ vs_startSecond sum = frame_sec f /\ vs_startFrame sum = frame_nr f;
  sm_last : Forall (fun f => frame_key f <= end_key sum) fs;
  sm_end : exists f, f ∈ fs /\ vs_endSecond sum = frame_sec f /\ vs_endFrame sum = frame_nr f }.

Lemma foldr_min_spec m ks : (forall k, k ∈ ks -> k < m) -> ks <> [] ->
  Forall (fun k => foldr Z.min m ks <= k) ks /\ foldr Z.min m ks ∈ ks.
Proof.
  induction ks as [|k ks IH]; intros Hm Hne; [done|]. cbn [foldr]. destruct ks as [|k' ks].
  - pose proof (Hm k ltac:(by left)). cbn. rewrite Z.min_l by lia. split; [constructor; [lia|constructor]|by left].
  - destruct IH as [IH1 IH2]; [intros x Hx; apply Hm; by right|done|]. split.
    + constructor; [lia|]. eapply Forall_impl; [exact IH1|]. intros x Hx. cbn in *. lia.
    + destruct (Z.min_spec k (foldr Z.min m (k' :: ks))) as [[_ ->]|[_ ->]]; [by left|by right].
Qed.

Lemma foldr_max_spec m ks : (forall k, k ∈ ks -> m <= k) -> ks <> [] ->
  Forall (fun k => k <= foldr Z.max m ks) ks /\ foldr Z.max m ks ∈ ks.
Proof.
  induction ks as [|k ks IH]; intros Hm Hne; [done|]. cbn [foldr]. destruct ks as [|k' ks].
  - pose proof (Hm k ltac:(by left)). cbn. rewrite Z.max_l by lia. split; [constructor; [lia|constructor]|by left].
  - destruct IH as [IH1 IH2]; [intros x Hx; apply Hm; by right|done|]. split.
    + constructor; [lia|]. eapply Forall_impl; [exact IH1|]. intros x Hx. cbn in *. lia.
    + destruct (Z.max_spec k (foldr Z.max m (k' :: ks))) as [[_ ->]|[_ ->]]; [by right|by left].
Qed.

Lemma key_inj s f s' f' : 0 <= f < 2 ^ 24 -> 0 <= f' < 2 ^ 24 -> key s f = key s' f' -> s = s' /\ f = f'.
Proof. unfold key. lia. Qed.

(** The summary that a scan of [fs] from the initial one gives. *)
Lemma finish_spec F B edv3 sum0 fs st : scan_rep F B edv3 sum0 fs st -> fs <> [] ->
  vs_startSecond sum0 = 2 ^ 30 -> vs_startFrame sum0 = 0 -> vs_endSecond sum0 = 0 -> vs_endFrame sum0 = 0 ->
  (length (found_threads (sc_hasThread st)) <= 256)%nat ->
  summarizes (finish st) fs.
Proof.
  intros [S1 S2 S3 S4 S5 S6 S7 S8] Hne Z1 Z2 Z3 Z4 H256.
  destruct (found_threads_spec _ S7) as [Hsorted Hids].
  assert (Htake : take (Z.to_nat VDIF_SUMMARY_MAX_THREADS) (found_threads (sc_hasThread st)) = found_threads (sc_hasThread st))
    by (apply take_ge; exact H256).
  assert (Hkeys : frame_key <$> fs <> []) by (destruct fs; done).
  assert (Hk : forall k, k ∈ frame_key <$> fs -> start_key sum0 > k /\ end_key sum0 <= k).
  { intros k (f & -> & _)%list_elem_of_fmap. unfold start_key, end_key, frame_key, key. rewrite Z1, Z2, Z3, Z4.
    destruct (frame_fields 1 f) as (G1 & G2 & _). pose proof (frame_nr_range f). lia. }
  destruct (foldr_min_spec (start_key sum0) _ (fun k Hin => proj1 (Z.gt_lt_iff _ _) (proj1 (Hk k Hin))) Hkeys) as [M1 M2].
  destruct (foldr_max_spec (end_key sum0) _ (fun k Hin => proj2 (Hk k Hin)) Hkeys) as [X1 X2].
  rewrite <-S3 in M1, M2. rewrite <-S4 in X1, X2. destruct S2 as [T1 T2].
  unfold finish. rewrite Htake. split; cbn [vs_set_threads vs_threadIds vs_nThread vs_startSecond vs_startFrame vs_endSecond vs_endFrame];
    [done|intros id; by rewrite Hids, S8|done|by rewrite Forall_fmap in M1| |by rewrite Forall_fmap in X1|].
  - apply list_elem_of_fmap in M2 as (f & Ef & Hf). apply key_inj in Ef as [? ?]; [by exists f|done|apply frame_nr_range].
  - apply list_elem_of_fmap in X2 as (f & Ef & Hf). apply key_inj in Ef as [? ?]; [by exists f|done|apply frame_nr_range].
Qed.

Lemma sorted_NoDup (l : list Z) : StronglySorted Z.lt l -> NoDup l.
Proof.
  induction 1 as [|x l Hs IH Hx]; constructor; [|done]. intros Hin. rewrite Forall_forall in Hx. specialize (Hx x Hin). lia.
Qed.

Lemma found_count hasThread fs : length hasThread = 1024%nat ->
  (forall id, seen hasThread id <-> exists f, f ∈ fs /\ frame_id f = id) ->
  length (found_threads hasThread) = length (remove_dups (frame_id <$> fs)).
Proof.
  intros Hl Hs. destruct (found_threads_spec hasThread Hl) as [Hsorted Hids]. apply Permutation_length, NoDup_Permutation.
  - by apply sorted_NoDup.
  - apply NoDup_remove_dups.
  - intros id. rewrite Hids, Hs, elem_of_remove_dups, list_elem_of_fmap. naive_solver.
Qed.

Section Summary.
Context (F E B : Z) (f0 f1 f2 : buffer) (more : list buffer) (rest : buffer).

Abbreviation frames := (f0 :: f1 :: f2 :: more).
Abbreviation bytes := (concat frames ++ rest).

(** The frames that the scan looks at. *)
Definition scanned_frames : list buffer := take (length frames - 1) frames.

(** A short file of at least three frames, with at most a header's length of
    other bytes at the end; the threads fit into the summary. *)
Record short_file : Prop := {
  sh_size : 40 <= F;
  sh_frames : Forall (recorded F E B f0) frames;
  sh_rest : (length rest <= 32)%nat;
  sh_length : Z.of_nat (length bytes) < 2 * summary_buffer;
  sh_rate : is_Some (rate_of F B (struct_of_bytes (take 32 f0)) scanned_frames);
  sh_threads : (length (remove_dups (frame_id <$> scanned_frames)) <= 256)%nat }.

Context (Hfile : short_file).

Lemma first_offset : determinevdifframeoffset bytes (Z.of_nat (length bytes)) F = Some 0.
Proof using Hfile.
  destruct Hfile as [H1 H2 H3 _ _ _]. pose proof (length_file F E B f0 frames rest H2) as Hlen.
  destruct (determinevdifframeoffset_spec bytes F) as (r & -> & Hr); [done|cbn [length] in Hlen; lia|].
  assert (Htwo : two_frames bytes F 0 = true).
  { pose proof (frame_at F E B f0 frames rest H2 H1 0 f0 header_32 eq_refl) as E0.
    pose proof (frame_at F E B f0 frames rest H2 H1 1 f1 header_32 eq_refl) as E1.
    unfold struct_at in E0, E1. rewrite header_32 in E0, E1.
    destruct (decide _) in E0; [|done]. destruct (decide _) in E1; [|done].
    rewrite Z.mul_0_l in E0. rewrite Z.mul_1_l in E1. apply (inj Some) in E0, E1.
    unfold two_frames, hdr. rewrite Z.add_0_l, E0, E1, <-!header_of_eq.
    apply Forall_cons_1 in H2 as [[_ A2 A3 _ _] H2]. apply Forall_cons_1 in H2 as [[_ B2 B3 _ B5] _].
    rewrite A2, A3, B2, B3, !Z.eqb_refl, <-!frame_sec_eq. cbn [andb]. apply Z.ltb_lt. lia. }
  destruct Hr as [[-> Hno]|(Hr & _ & Hno)].
  - rewrite Hno in Htwo; [done|]. cbn [length] in Hlen. lia.
  - destruct (decide (r = 0)) as [->|Hne]; [done|]. rewrite Hno in Htwo by lia. done.
Qed.

(** The first frame as a VLBA frame. *)
Abbreviation edv3 := (struct_of_bytes (take 32 f0)).

Lemma scan_start sum0 : times_ok sum0 -> vs_framesPerSecond sum0 = 0 ->
  exists st, summarize_start bytes F sum0 = Some (0, st) /\
    scan_rep F B edv3 (vs_set_format (vs_set_frames sum0 F 0) E B) scanned_frames st.
Proof using Hfile.
  intros Ht Hr. pose proof Hfile as [H1 H2 H3 _ H5 _]. unfold summarize_start. rewrite first_offset. cbn [mbind option_bind].
  change (0 <? 0) with false. cbn match.
  pose proof (frame_at F E B f0 frames rest H2 H1 0 f0 header_32 eq_refl) as E0.
  pose proof (frame_at F E B f0 frames rest H2 H1 0 f0 edv3_32 eq_refl) as E3.
  rewrite Z.mul_0_l in E0, E3. rewrite E0, E3, <-header_of_eq. cbn [mbind option_bind sc_sum sc_hasThread].
  pose proof H2 as [[_ _ A3 A4 _] _]%Forall_cons_1. rewrite A3, A4. unfold VDIF_HEADER_BYTES.
  pose proof (length_file F E B f0 frames rest H2) as Hlen.
  destruct (scan_loop_rep F E B f0 edv3 frames rest H2 H1 H3 (length frames - 1) (Z.to_nat (Z.of_nat (length bytes) - F - 32)) 0
    (vs_set_format (vs_set_frames sum0 F 0) E B)
    {| sc_sum := vs_set_format (vs_set_frames sum0 F 0) E B; sc_hasThread := replicate (Z.to_nat (VDIF_MAX_THREAD_ID + 1)) false;
       sc_hasEDV3 := false |}) as (st & Est & Hst); [done|cbn; lia|cbn [length] in *; nia|done|done|exact H5| |].
  - split; cbn [sc_sum sc_hasThread sc_hasEDV3 take fmap list_fmap foldr]; try done.
    + unfold rate_of. rewrite filter_nil. cbn. by rewrite Hr.
    + intros id. unfold seen. rewrite nth_replicate_false. split; [by intros [_ ?]|by intros (f & Hf%elem_of_nil & _)].
  - rewrite Z.mul_0_l in Est. rewrite Est. cbn [mbind option_bind]. by exists st.
Qed.

(** The initial summary. *)
Abbreviation sum0 := (vs_set_fileSize (vs_set_start resetvdiffilesummary (2 ^ 30) 0) (Z.of_nat (length bytes))).

Lemma summarize_rep hint : hint = F \/ hint = 0 /\ determinevdifframesize bytes (Z.of_nat (length bytes)) = Some F ->
  exists st, summarizevdiffile (Some bytes) hint = Some (0, finish st) /\
    scan_rep F B edv3 (vs_set_format (vs_set_frames sum0 F 0) E B) scanned_frames st.
Proof using Hfile.
  intros Hhint. destruct (scan_start sum0) as (st & Est & Hst); [done|done|]. exists st. split; [|done].
  pose proof Hfile as [H1 _ _ H4 _ _]. unfold summarizevdiffile. cbv zeta.
  change (vs_fileSize sum0) with (Z.of_nat (length bytes)).
  rewrite (proj2 (Z.ltb_lt _ _) H4), Nat2Z.id, firstn_all.
  assert (Hfound : (if hint =? 0 then determinevdifframesize bytes (Z.of_nat (length bytes)) else Some hint) = Some F).
  { destruct Hhint as [-> | [-> ->]]; [|done]. by rewrite (proj2 (Z.eqb_neq F 0)) by lia. }
  rewrite Hfound. cbn [mbind option_bind]. rewrite (proj2 (Z.leb_gt F 0)), andb_false_r by lia.
  rewrite Est. cbn [mbind option_bind]. change (0 <? 0) with false. cbn match.
  rewrite Z.ltb_irrefl. done.
Qed.
End Summary.

(** The ranges of size, epoch and bits in any header. *)
Lemma frame_ranges f :
  (getVDIFFrameBytes (header_of f) mod 8 = 0 /\ getVDIFFrameBytes (header_of f) < 2 ^ 27) /\
  0 <= getVDIFEpoch (header_of f) < 64 /\ 1 <= getVDIFBitsPerSample (header_of f) <= 32.
Proof.
  pose proof (struct_header_ok _ (struct_of_bytes_ok (T:=vdif_header) (take 32 f))) as Hok. rewrite <-header_of_eq in Hok.
  generalize dependent (header_of f). intros h Hok. destruct Hok as [_ _ _ _ H1 H2 _ _ H3].
  unfold getVDIFFrameBytes, getVDIFEpoch, getVDIFBitsPerSample. rewrite Z.mod_mul by lia. lia.
Qed.

(** A summary with these values serves the reader. *)
Lemma summary_vdif_file F E B f0 fs rest fps sum seen_ : f0 ∈ fs -> 40 <= F -> Forall (recorded F E B f0) fs ->
  (length rest < 32)%nat -> 1 <= fps <= 10 ^ 6 -> Forall (fun f => frame_nr f < fps) fs ->
  vs_frameSize sum = F -> vs_epoch sum = E -> vs_nBit sum = B -> summarizes sum seen_ ->
  vdif_file sum fs rest fps (length (vs_threadIds sum)).
Proof.
  intros H0 HF Hfs Hrest Hfps Hnr V1 V2 V3 [_ M2 M3 _ _ _ _]. rewrite Forall_forall in Hfs, Hnr.
  destruct (Hfs f0 H0) as [_ A2 A3 A4 _]. destruct (frame_ranges f0) as ([Q1 Q1'] & Q2 & Q3). rewrite A2 in Q1, Q1'. rewrite A3 in Q2. rewrite A4 in Q3.
  split; [by rewrite V1; lia| |done| |done|done].
  - apply Forall_forall. intros f Hf. destruct (Hfs f Hf) as [L1 L2 L3 L4 _].
    split; [rewrite V1; lia|]. split; [apply looks_good_spec; by rewrite L2, L3, L4, V1, V2, V3|].
    rewrite <-frame_nr_eq. by apply Hnr.
  - split; [by rewrite V1|by rewrite V3|by rewrite V2| |lia].
    apply Forall_forall. intros id Hid. apply M2 in Hid as (f & _ & <-). apply frame_id_range.
Qed.


Lemma example_short_file : short_file 40 30 2 (clumpy_frame 3 100 0 1) (clumpy_frame 3 100 1 2) (clumpy_frame 5 100 0 3)
  [clumpy_frame 3 101 0 4; clumpy_frame 5 101 0 5] [7].
Proof.
  split; [done| |cbn; lia|by vm_compute|by eexists|vm_compute; lia].
  repeat (constructor; [split; by vm_compute|]). constructor.
Qed.


(** A file of one thread with the frames 0, 1 and 2: the summary ends at frame 1. *)
Lemma summary_misses_last_frame :
  let bytes := clumpy_frame 3 100 0 1 ++ clumpy_frame 3 100 1 2 ++ clumpy_frame 3 100 2 3 in
  match summarizevdiffile (Some bytes) 40 with
  | Some (rv, sum) => rv = 0 /\ vs_endSecond sum = 100 /\ vs_endFrame sum = 1
  | None => False
  end.
Proof. by vm_compute. Qed.

(** ** From the summary to the end of the file *)

(** C18 Summarizing a file, opening a reader with the summary and reading to the
    end returns every frame of the threads that the summary has. *)
Theorem summary_opens_reader F E B f0 f1 f2 more rest hint fps T0 N rs buf :
  let frames := f0 :: f1 :: f2 :: more in let bytes := concat frames ++ rest in
  short_file F E B f0 f1 f2 more rest -> (length rest < 32)%nat ->
  hint = F \/ hint = 0 /\ determinevdifframesize bytes (Z.of_nat (length bytes)) = Some F ->
  1 <= fps <= 10 ^ 6 -> Forall (fun f => frame_nr f < fps) frames ->
  (forall sum, summarizevdiffile (Some bytes) hint = Some (0, sum) ->
     starts sum frames fps 0 T0 /\ rate_ok sum frames fps /\ within sum frames fps T0 N) ->
  2 * F <= Z.of_nat (length rs) -> (0 < N)%nat -> T0 + Z.of_nat N < 2 ^ 30 * fps ->
  exists sum, summarizevdiffile (Some bytes) hint = Some (0, sum) /\
    let n := length (vs_threadIds sum) in
    ((N * n * Z.to_nat F <= length buf)%nat ->
     exists rd rd' outs, vdifreaderOpen sum (Some bytes) rs = Some (Some rd) /\
       vdifreaderRead rd buf (Z.of_nat (N * n) * F) =
         Some (Z.of_nat (N * n) * F, concat outs ++ drop (N * n * Z.to_nat F) buf, rd') /\
       Forall (fun f => frame_id f ∈ vs_threadIds sum -> f ∈ outs) frames /\ vr_eof rd' = true).
Proof.
  intros frames bytes Hfile Hrest Hhint Hfps Hnr Hall Hroom HN Hlt. pose proof (sh_size _ _ _ _ _ _ _ _ Hfile) as HF.
  destruct (summarize_rep F E B f0 f1 f2 more rest Hfile hint Hhint) as (st & E1 & Hst).
  destruct (Hall _ E1) as (Hstart & Hrate & Hwithin). exists (finish st). split; [exact E1|]. intros n Hbuf.
  assert (Hv : vs_frameSize (finish st) = F /\ vdif_file (finish st) frames rest fps n).
  { pose proof (sd_kept _ _ _ _ _ _ Hst) as Hk. unfold vs_kept in Hk. injection Hk as _ K2 _ _ K5 K6 _. split; [exact K5|].
    pose proof Hfile as [H1 H2 _ _ _ H6]. apply (summary_vdif_file F E B f0 frames rest fps _ (scanned_frames f0 f1 f2 more)); try done; [by left|].
    eapply finish_spec; try done. rewrite (found_count _ _ (sd_length _ _ _ _ _ _ Hst) (sd_threads _ _ _ _ _ _ Hst)). exact H6. }
  destruct Hv as [Es Hv]. destruct (vdifreader_reads_to_end_rep (finish st) frames rest fps n T0 N rs buf Hv Hstart Hrate)
    as (rd & rd' & outs & A1 & A2 & _ & A3 & A4 & _); try done; [unfold room; lia|by rewrite Es|].
  rewrite Es in A2. by exists rd, rd', outs.
Qed.

Lemma summary_opens_reader_witness :
  exists sum, summarizevdiffile (Some (concat clumpy_frames ++ [7])) 40 = Some (0, sum) /\
    let n := length (vs_threadIds sum) in
    ((3 * n * 40 <= length (replicate 240 9))%nat ->
     exists rd rd' outs, vdifreaderOpen sum (Some (concat clumpy_frames ++ [7])) (replicate 80 0) = Some (Some rd) /\
       vdifreaderRead rd (replicate 240 9) (Z.of_nat (3 * n) * 40) =
         Some (Z.of_nat (3 * n) * 40, concat outs ++ drop (3 * n * 40) (replicate 240 9), rd') /\
       Forall (fun f => frame_id f ∈ vs_threadIds sum -> f ∈ outs) clumpy_frames /\ vr_eof rd' = true).
Proof.
  apply (summary_opens_reader 40 30 2 _ _ _ _ [7] 40 2 200 3 (replicate 80 0) (replicate 240 9) example_short_file);
    [cbn; lia|by left|lia| | |cbn; lia|lia|lia].
  - repeat (constructor; [by vm_compute|]). constructor.
  - assert (Esum : summarizevdiffile (Some (concat clumpy_frames ++ [7])) 40 = Some (0, example_sum 0)) by by vm_compute.
    intros sum E. unfold clumpy_frames in Esum. rewrite Esum in E. apply (inj Some) in E. apply (f_equal snd) in E. cbn [snd] in E. subst sum.
    split; [exact (example_starts0 0)|]. split; [exact (example_rate 0 (or_introl eq_refl))|exact (example_within 0)].
Defined.

(** ** Any file *)

Section Total.
Context (buffer : list Z) (F : Z) (HF : 40 <= F).

(** As a VLBA header, the bytes at [off] do not overflow the rate arithmetic. *)
Definition rate_fits (off : nat) : Prop := v3_samprate (struct_of_bytes (slice buffer off 32)) * 2000 < 2 ^ 31.

Abbreviation N := (Z.of_nat (length buffer) - F - 32).

Lemma edv3_rate_some off nBit legacymode : rate_fits off ->
  is_Some (edv3_rate (struct_of_bytes (slice buffer off 32)) nBit F legacymode).
Proof using HF.
  intros Hfit. unfold rate_fits in Hfit. unfold edv3_rate.
  pose proof (struct_of_bytes_ok (T:=vdif_edv3_header) (slice buffer off 32)) as Hok.
  generalize dependent (struct_of_bytes (T:=vdif_edv3_header) (slice buffer off 32)). intros h Hfit Hok.
  assert (H0 : 0 <= v3_samprate h).
  { unfold struct_ok in Hok. cbn [layout fields vdif_edv3_header_struct] in Hok.
    apply (Forall2_lookup_lr _ _ _ 13 23%nat (v3_samprate h)) in Hok; [|done..]. unfold fits in Hok. lia. }
  rewrite (sint_Some (v3_samprate h * 1000)) by lia. cbn [mbind option_bind].
  rewrite (sint_Some (v3_samprate h * 1000 * 2)) by lia. cbn [mbind option_bind].
  rewrite (proj2 (Z.eqb_neq _ 0)); [by eexists|]. destruct (legacymode =? 0); lia.
Qed.

Lemma scan_loop_total off0 vh0 fuel : rate_fits off0 -> forall i st, 0 <= i -> N - i <= Z.of_nat fuel ->
  length (sc_hasThread st) = 1024%nat ->
  exists st', scan_loop fuel buffer i N F vh0 (struct_of_bytes (slice buffer off0 32)) st = Some st' /\
    length (sc_hasThread st') = 1024%nat.
Proof using HF.
  intros Hfit. induction fuel as [|fuel IH]; intros i st Hi Hfuel Hl; cbn [scan_loop];
    (destruct (Z.ltb_spec i N) as [Hlt|Hge]; [|by exists st]); [lia|].
  rewrite (proj2 (Z.ltb_ge i 0)) by lia. unfold struct_at. rewrite header_32, decide_True by lia. cbn [mbind option_bind].
  destruct (summary_good _ _ _ _); [|apply IH; [lia|lia|done]].
  pose proof (struct_header_ok _ (struct_of_bytes_ok (T:=vdif_header) (slice buffer (Z.to_nat i) 32))) as Hok.
  generalize dependent (struct_of_bytes (T:=vdif_header) (slice buffer (Z.to_nat i) 32)). intros vh Hok.
  unfold note_frame. rewrite decide_True by (rewrite Hl; exact (ok_threadid _ Hok)).
  destruct (_ && _).
  - match goal with |- context [edv3_rate ?h ?b F ?l] => destruct (edv3_rate_some off0 b l Hfit) as [r ->] end.
    cbn [mbind option_bind]. apply IH; [lia|lia|]. cbn [sc_hasThread]. by rewrite length_insert.
  - cbn [mbind option_bind]. apply IH; [lia|lia|]. cbn [sc_hasThread]. by rewrite length_insert.
Qed.
End Total.

(** Two consecutive good headers, with a third frame's worth of bytes. *)
Definition shows_frames (buffer : list Z) (F : Z) : Prop :=
  let N := Z.of_nat (length buffer) - F - 32 in F <= N /\ exists i, 0 <= i < N /\ two_frames buffer F i = true.

(** The first header that is found fits. *)
Definition rates_fit (buffer : list Z) (F : Z) : Prop :=
  forall r, determinevdifframeoffset buffer (Z.of_nat (length buffer)) F = Some r -> 0 <= r -> rate_fits buffer (Z.to_nat r).

Lemma offset_total buffer F : 40 <= F ->
  exists r, determinevdifframeoffset buffer (Z.of_nat (length buffer)) F = Some r /\
    (r = -1 /\ ~ shows_frames buffer F \/ 0 <= r < Z.of_nat (length buffer) - F - 32 /\ shows_frames buffer F).
Proof.
  intros HF. unfold shows_frames. destruct (decide (F <= Z.of_nat (length buffer) - F - 32)) as [HN|HN].
  - destruct (determinevdifframeoffset_spec buffer F HF HN) as (r & -> & Hr). exists r. split; [done|].
    destruct Hr as [[-> Hno]|(Hr & Ht & _)]; [left|right; split; [done|]; split; [done|]; by exists r].
    split; [done|]. intros (_ & i & Hi & Ht). by rewrite Hno in Ht.
  - exists (-1). split; [|left; split; [done|by intros [? _]]]. unfold determinevdifframeoffset, VDIF_HEADER_BYTES.
    by rewrite (proj2 (Z.ltb_lt _ F)) by lia.
Qed.

Lemma length_no_threads : length (replicate (Z.to_nat (VDIF_MAX_THREAD_ID + 1)) false) = 1024%nat.
Proof. apply length_replicate. Qed.

Lemma summarize_start_total buffer F sum : 40 <= F -> rates_fit buffer F ->
  exists rv st, summarize_start buffer F sum = Some (rv, st) /\ length (sc_hasThread st) = 1024%nat /\
    (rv = -6 /\ ~ shows_frames buffer F \/ rv = 0 /\ shows_frames buffer F).
Proof.
  intros HF Hfit. unfold summarize_start. destruct (offset_total buffer F HF) as (r & Er & Hr).
  specialize (Hfit r Er). rewrite Er. cbn [mbind option_bind].
  destruct Hr as [[-> Hno]|[Hr Hyes]].
  { change (-1 <? 0) with true. eexists _, _. split; [done|]. split; [exact length_no_threads|by left]. }
  rewrite (proj2 (Z.ltb_ge r 0)) by lia. unfold struct_at. rewrite header_32, edv3_32, !decide_True by lia.
  cbn [mbind option_bind sc_sum sc_hasThread]. unfold VDIF_HEADER_BYTES.
  match goal with |- context [scan_loop ?fuel buffer r ?N F ?vh0 _ ?st0] =>
    destruct (scan_loop_total buffer F HF (Z.to_nat r) vh0 fuel (Hfit (proj1 Hr)) r st0) as (st & -> & Hl) end;
    [lia|lia|exact length_no_threads|].
  cbn [mbind option_bind]. eexists _, _. split; [done|]. split; [done|by right].
Qed.

Lemma summarize_end_total buffer F st : 40 <= F -> length (sc_hasThread st) = 1024%nat -> rates_fit buffer F ->
  exists rv st', summarize_end buffer F st = Some (rv, st') /\
    (rv = -9 /\ ~ shows_frames buffer F \/ rv = 0 /\ shows_frames buffer F).
Proof.
  intros HF Hl Hfit. unfold summarize_end. destruct (offset_total buffer F HF) as (r & Er & Hr).
  specialize (Hfit r Er). rewrite Er. cbn [mbind option_bind].
  destruct Hr as [[-> Hno]|[Hr Hyes]].
  { change (-1 <? 0) with true. eexists _, _. split; [done|by left]. }
  rewrite (proj2 (Z.ltb_ge r 0)) by lia. unfold struct_at. rewrite header_32, edv3_32, !decide_True by lia.
  cbn [mbind option_bind sc_sum sc_hasThread]. unfold VDIF_HEADER_BYTES.
  match goal with |- context [scan_loop ?fuel buffer 0 ?N F ?vh0 _ ?st0] =>
    destruct (scan_loop_total buffer F HF (Z.to_nat r) vh0 fuel (Hfit (proj1 Hr)) 0 st0) as (st' & -> & Hl') end;
    [lia|lia|exact Hl|].
  cbn [mbind option_bind]. eexists _, _. split; [done|by right].
Qed.

(** The first bytes of a file, and the last ones of a long file. *)
Definition is_long (bytes : list Z) : Prop := 2 * summary_buffer <= Z.of_nat (length bytes).
Definition first_bytes (bytes : list Z) : list Z :=
  if Z.of_nat (length bytes) <? 2 * summary_buffer then bytes else take (Z.to_nat summary_buffer) bytes.
Definition last_bytes (bytes : list Z) : list Z := drop (length bytes - Z.to_nat summary_buffer) bytes.

(** C22 Summarizing any file with a given frame size ends inside the buffer, if
    the first header found does not overflow the rate arithmetic for VLBA frames.  The status is -6 exactly if the
    first bytes show no two consecutive frames of the size, -9 exactly if the
    file is long, the first bytes do and the last bytes do not, and 0 otherwise;
    a file that cannot be opened gives -2. *)
Theorem summarizevdiffile_total bytes F :
  40 <= F -> rates_fit (first_bytes bytes) F -> rates_fit (last_bytes bytes) F ->
  (exists sum, summarizevdiffile None F = Some (-2, sum)) /\
  exists rv sum, summarizevdiffile (Some bytes) F = Some (rv, sum) /\
    (rv = -6 /\ ~ shows_frames (first_bytes bytes) F \/
     rv = -9 /\ is_long bytes /\ shows_frames (first_bytes bytes) F /\ ~ shows_frames (last_bytes bytes) F \/
     rv = 0 /\ shows_frames (first_bytes bytes) F /\ (is_long bytes -> shows_frames (last_bytes bytes) F)).
Proof.
  intros HF Hfit1 Hfit2. split; [by eexists|]. unfold summarizevdiffile. cbv zeta.
  set (sum0 := vs_set_fileSize _ _). assert (Esize : vs_fileSize sum0 = Z.of_nat (length bytes)) by done.
  rewrite Esize. rewrite (proj2 (Z.eqb_neq F 0)) by lia. cbn [mbind option_bind andb].
  assert (Hb : 0 < summary_buffer) by done. unfold is_long. revert Hfit1 Hfit2. unfold first_bytes, last_bytes.
  generalize dependent summary_buffer. intros B Hb Hfit1 Hfit2.
  destruct (Z.ltb_spec (Z.of_nat (length bytes)) (2 * B)) as [Hs|Hs].
  - rewrite Nat2Z.id, firstn_all in *.
    destruct (summarize_start_total bytes F sum0 HF Hfit1) as (rv & st & -> & _ & Hrv). cbn [mbind option_bind].
    destruct Hrv as [[-> Hno]|[-> Hyes]].
    + change (-6 <? 0) with true. eexists _, _. split; [done|by left].
    + change (0 <? 0) with false. cbn match. rewrite Z.ltb_irrefl. eexists _, _. split; [done|]. right. right.
      split; [done|]. split; [done|]. intros Hlong. lia.
  - destruct (summarize_start_total (take (Z.to_nat B) bytes) F sum0 HF Hfit1) as (rv & st & -> & Hl & Hrv). cbn [mbind option_bind].
    destruct Hrv as [[-> Hno]|[-> Hyes]].
    + change (-6 <? 0) with true. eexists _, _. split; [done|by left].
    + change (0 <? 0) with false. cbn match. rewrite (proj2 (Z.ltb_lt B _)) by lia.
      destruct (summarize_end_total (drop (length bytes - Z.to_nat B) bytes) F st HF Hl Hfit2) as (rv & st' & -> & Hrv).
      cbn [mbind option_bind]. destruct Hrv as [[-> Hno]|[-> Hyes2]].
      * change (-9 <? 0) with true. eexists _, _. split; [done|]. right. left. by split_and!.
      * change (0 <? 0) with false. eexists _, _. split; [done|]. right. right. by split_and!.
Qed.

Lemma summarizevdiffile_total_witness :
  exists rv sum, summarizevdiffile (Some (concat clumpy_frames)) 40 = Some (rv, sum) /\ (rv = -6 \/ rv = -9 \/ rv = 0).
Proof.
  assert (Hoff : forall buffer, (length buffer <= 2000)%nat -> first_bytes buffer = buffer).
  { intros buffer Hl. unfold first_bytes. rewrite (proj2 (Z.ltb_lt _ _)); [done|]. unfold summary_buffer. lia. }
  assert (Hend : last_bytes (concat clumpy_frames) = concat clumpy_frames).
  { unfold last_bytes. replace (length (concat clumpy_frames)) with 200%nat by done.
    replace (200 - Z.to_nat summary_buffer)%nat with 0%nat by (unfold summary_buffer; lia). apply drop_0. }
  assert (Hfit : rates_fit (concat clumpy_frames) 40).
  { intros r Hr _. replace (determinevdifframeoffset _ _ _) with (Some 0) in Hr by by vm_compute.
    injection Hr as <-. by vm_compute. }
  destruct (summarizevdiffile_total (concat clumpy_frames) 40) as [_ (rv & sum & E & Hrv)];
    [done|rewrite Hoff; [exact Hfit|by vm_compute; lia]|by rewrite Hend|].
  exists rv, sum. split; [exact E|]. destruct Hrv as [[? _]|[[? _]|[? _]]]; [by left|by right; left|by right; right].
Defined.

(** ** Arithmetic on summaries *)

(** The rate of a summary set from samples per second is read back when it is
    a whole number of frames and the bits per second of a thread fit an [int];
    if they do not fit, reading it back is undefined although setting it is not.
    The start day is that of a header of the epoch and second. *)
Theorem summary_rates sum h rate :
  let payload := vs_frameSize sum - 32 in
  0 < payload < 2 ^ 27 -> 1 <= vs_nBit sum <= 32 -> 0 <= rate < 2 ^ 40 ->
  rate * vs_nBit sum mod (8 * payload) = 0 -> rate * vs_nBit sum / (8 * payload) < 2 ^ 31 ->
  vh_epoch h = vs_epoch sum -> vh_seconds h = vs_startSecond sum ->
  exists sum', vdiffilesummarysetsamplerate sum rate = Some sum' /\
    vdiffilesummarygetsamplerate sum' = (if rate * vs_nBit sum <? 2 ^ 31 then Some rate else None) /\
    vdiffilesummarygetstartmjd sum' = getVDIFFrameMJD h /\ vdiffilesummarygetstartsecond sum' = getVDIFFrameSecond h.
Proof.
  intros payload Hp Hb Hr Hdiv Hfps He Hs. unfold vdiffilesummarysetsamplerate, VDIF_HEADER_BYTES. fold payload.
  assert (H0 : 0 <= rate * vs_nBit sum <= 2 ^ 40 * 32) by nia.
  rewrite (slong_Some (rate * vs_nBit sum)) by lia. cbn [mbind option_bind].
  rewrite (sint_Some (8 * payload)) by lia. cbn [mbind option_bind]. rewrite (proj2 (Z.eqb_neq _ 0)) by lia.
  rewrite Z.quot_div_nonneg by lia. set (q := rate * vs_nBit sum / (8 * payload)) in *.
  assert (Hq0 : 0 <= q) by (apply Z.div_pos; lia).
  assert (Hq : rate * vs_nBit sum = 8 * payload * q) by (apply Z.div_exact; lia).
  rewrite swrap_small by lia. eexists. split; [done|].
  unfold vdiffilesummarygetsamplerate, vdiffilesummarygetstartmjd, vdiffilesummarygetstartsecond, VDIF_HEADER_BYTES.
  cbn [vs_set_rate vs_framesPerSecond vs_frameSize vs_nBit vs_epoch vs_startSecond]. fold payload. split; [|split].
  - assert (Hqp : 0 <= q * payload) by nia. assert (H8 : q * payload * 8 = rate * vs_nBit sum) by lia.
    destruct (decide (q * payload < 2 ^ 31)) as [Hlt|Hge].
    + rewrite (sint_Some (q * payload)) by lia. cbn [mbind option_bind]. rewrite H8.
      destruct (Z.ltb_spec (rate * vs_nBit sum) (2 ^ 31)).
      * rewrite sint_Some by lia. cbn [mbind option_bind]. rewrite (proj2 (Z.eqb_neq _ 0)), Z.quot_mul by lia. done.
      * unfold sint. by rewrite decide_False by lia.
    + unfold sint. rewrite decide_False by lia. by rewrite (proj2 (Z.ltb_ge _ _)) by lia.
  - unfold getVDIFFrameMJD, getVDIFEpochMJD. by rewrite He, Hs.
  - unfold getVDIFFrameSecond. by rewrite Hs.
Qed.

(** 1000 frames of 8000 bytes per second, as set for 32 million samples of 2 bits,
    and a thread of 4 Gbps. *)
Lemma summary_rates_witness :
  let sum := {| vs_fileSize := 0; vs_nBit := 2; vs_nThread := 1; vs_threadIds := [0]; vs_frameSize := 8032;
    vs_framesPerSecond := 0; vs_epoch := 30; vs_startSecond := 100000; vs_startFrame := 0; vs_endSecond := 0;
    vs_endFrame := 0; vs_firstFrameOffset := 0 |} in
  (exists sum', vdiffilesummarysetsamplerate sum 32000000 = Some sum' /\ vdiffilesummarygetsamplerate sum' = Some 32000000) /\
  (exists sum', vdiffilesummarysetsamplerate sum 2048000000 = Some sum' /\ vdiffilesummarygetsamplerate sum' = None).
Proof.
  intros sum. set (h := vh_set_epoch (vh_set_seconds zero_header 100000) 30). split.
  - destruct (summary_rates sum h 32000000) as (sum' & E1 & E2 & _); [done..|]. exists sum'. split; [exact E1|exact E2].
  - destruct (summary_rates sum h 2048000000) as (sum' & E1 & E2 & _); [done..|]. exists sum'. split; [exact E1|exact E2].
Defined.
