(* ===== verification/Mark5bFix.v ===== *)
(** * Mark5bFix: putting Mark5B frames on a uniform grid

    [mark5bfix.c] of [libraries/mark5access]: a block of Mark5B data is copied
    frame by frame to the places that the frame numbers give, without the bytes
    that do not belong to it; frames that are missing get a header and are
    marked invalid.  This is what the correlator does to all Mark5B data.

    The source and the destination are byte lists; an access outside of them, a
    division by zero and a signed overflow are [None].  The constants are those
    of a little-endian host. *)
From S2P Require Export Memory.
#[local] Open Scope Z_scope.

Definition MARK5B_FRAME_SIZE : Z := 10016.
Definition MARK5_FILL_WORD : Z := 0x11223344.
Definition MARK5B_SYNC_WORD : Z := 0xABADDEED.

Record mark5b_fix_statistics : Type := {
  fs_nValidFrame : Z;
  fs_nInvalidFrame : Z;
  fs_nSkippedByte : Z;
  fs_nFillByte : Z;
  fs_nLostPacket : Z;
  fs_dataProcessed : Z;
  fs_srcSize : Z;
  fs_srcUsed : Z;
  fs_destSize : Z;
  fs_destUsed : Z;
  fs_startFrameNumber : Z;
  fs_startFrameSeconds : Z;
  fs_startFrameNanoseconds : Z;
  fs_nCall : Z }.

Definition resetmark5bfixstatistics : mark5b_fix_statistics :=
  {| fs_nValidFrame := 0; fs_nInvalidFrame := 0; fs_nSkippedByte := 0; fs_nFillByte := 0; fs_nLostPacket := 0;
     fs_dataProcessed := 0; fs_srcSize := 0; fs_srcUsed := 0; fs_destSize := 0; fs_destUsed := 0;
     fs_startFrameNumber := 0; fs_startFrameSeconds := 0; fs_startFrameNanoseconds := 0; fs_nCall := 0 |}.

(** ** Bytes *)

(** [n] bytes from [off] on, and the little-endian word there. *)
Definition bytes_at (buf : buffer) (off : Z) (n : nat) : option buffer :=
  if decide (0 <= off /\ off + Z.of_nat n <= Z.of_nat (length buf))
  then Some (slice buf (Z.to_nat off) n) else None.

Definition word_at (buf : buffer) (off : Z) : option Z := le_combine <$> bytes_at buf off 4.
Definition byte_at (buf : buffer) (off : Z) : option Z := le_combine <$> bytes_at buf off 1.

(** [memcpy(buf + off, bs, ...)] *)
Definition put (buf : buffer) (off : Z) (bs : buffer) : option buffer :=
  if decide (0 <= off /\ off + Z.of_nat (length bs) <= Z.of_nat (length buf))
  then Some (take (Z.to_nat off) buf ++ bs ++ drop (Z.to_nat off + length bs) buf) else None.

(** ** Time codes *)

(** The day and the second of the frame [cur], in BCD. *)
Definition bcd_day (cur : buffer) : Z :=
  Z.shiftr (nth 11 cur 0) 4 * 100 + Z.land (nth 11 cur 0) 0x0F * 10 + Z.shiftr (nth 10 cur 0) 4.
Definition bcd_second (cur : buffer) : Z :=
  Z.land (nth 10 cur 0) 0x0F * 10000 + Z.shiftr (nth 9 cur 0) 4 * 1000 + Z.land (nth 9 cur 0) 0x0F * 100 +
  Z.shiftr (nth 8 cur 0) 4 * 10 + Z.land (nth 8 cur 0) 0x0F.

Definition gendifferentialtime (cur : buffer) (dt : Z) : buffer :=
  let newsec := bcd_second cur + dt in
  let newday := bcd_day cur in
  let '(newsec, newday) :=
    if newsec <? 0 then
      (newsec + 86400, let newday := newday - 1 in if newday <? 0 then newday + 1000 else newday)
    else if 86400 <=? newsec then
      (newsec - 86400, let newday := newday + 1 in if 1000 <=? newday then newday - 1000 else newday)
    else (newsec, newday) in
  let s1 := cdiv newsec 10 in let s2 := cdiv s1 10 in let s3 := cdiv s2 10 in let s4 := cdiv s3 10 in
  let d1 := cdiv newday 10 in let d2 := cdiv d1 10 in
  [u8 (cmod newsec 10 + Z.shiftl (cmod s1 10) 4);
   u8 (cmod s2 10 + Z.shiftl (cmod s3 10) 4);
   u8 (cmod s4 10 + Z.shiftl (cmod newday 10) 4);
   u8 (cmod d1 10 + Z.shiftl (cmod d2 10) 4)].

(** ** Looking at the source *)

(** What is at a position of the source: no frame, a frame that is too short,
    fill pattern, a frame that is marked, a good frame with its number. *)
Inductive sight : Type :=
  | NoSync
  | Short
  | Filled
  | Marked
  | Good (frameInSecond : Z).

(** The tests at the head of the loop. *)
Definition look (src : buffer) (N i : Z) : option sight :=
  w ← word_at src i;
  if negb (w =? MARK5B_SYNC_WORD) then Some NoSync else
  w ← word_at src (i + 5008);
  if w =? MARK5B_SYNC_WORD then Some Short else
  short ← (if i <=? N - MARK5B_FRAME_SIZE
           then w ← word_at src (i + MARK5B_FRAME_SIZE); Some (negb (w =? MARK5B_SYNC_WORD))
           else Some false);
  if (short : bool) then Some Short else
  w ← word_at src (i + 16);
  if w =? MARK5_FILL_WORD then Some Filled else
  b5 ← byte_at src (i + 5);
  if negb (Z.land b5 0x80 =? 0) then Some Marked else
  b4 ← byte_at src (i + 4);
  Some (Good (b4 + b5 * 256)).

(** How far the scan moves. *)
Definition sight_step (s : sight) : Z :=
  match s with
  | NoSync => 4
  | Short => 5008
  | _ => MARK5B_FRAME_SIZE
  end.

(** ** The state of a call *)

Record fixer : Type := {
  fx_dest : buffer;
  fx_nSkip : Z;
  fx_nFill : Z;
  fx_nInvalidFrame : Z;
  fx_nValidFrame : Z;
  fx_nLostPacket : Z;
  fx_second : Z;
  fx_lastFrameInSecond : Z;
  fx_startOutputFrame : Z;
  fx_lastGoodFrameNumber : Z }.

(** The counters that a position without a good frame changes. *)
Definition count_sight (s : sight) (st : fixer) : fixer :=
  {| fx_dest := fx_dest st;
     fx_nSkip := match s with NoSync => fx_nSkip st + 4 | _ => fx_nSkip st end;
     fx_nFill := match s with Filled => fx_nFill st + MARK5B_FRAME_SIZE | _ => fx_nFill st end;
     fx_nInvalidFrame := match s with Marked => fx_nInvalidFrame st + 1 | _ => fx_nInvalidFrame st end;
     fx_nValidFrame := fx_nValidFrame st;
     fx_nLostPacket := match s with Short => fx_nLostPacket st + 1 | _ => fx_nLostPacket st end;
     fx_second := fx_second st; fx_lastFrameInSecond := fx_lastFrameInSecond st;
     fx_startOutputFrame := fx_startOutputFrame st; fx_lastGoodFrameNumber := fx_lastGoodFrameNumber st |}.

(** The second count, the last frame number, the first one, the last good one. *)
Definition fx_set_numbers (st : fixer) (second last start lastGood : Z) : fixer :=
  {| fx_dest := fx_dest st; fx_nSkip := fx_nSkip st; fx_nFill := fx_nFill st;
     fx_nInvalidFrame := fx_nInvalidFrame st; fx_nValidFrame := fx_nValidFrame st; fx_nLostPacket := fx_nLostPacket st;
     fx_second := second; fx_lastFrameInSecond := last; fx_startOutputFrame := start; fx_lastGoodFrameNumber := lastGood |}.

(** The destination, with the frames that are new in it. *)
Definition fx_set_dest (st : fixer) (dest : buffer) (valid lost : Z) : fixer :=
  {| fx_dest := dest; fx_nSkip := fx_nSkip st; fx_nFill := fx_nFill st;
     fx_nInvalidFrame := fx_nInvalidFrame st; fx_nValidFrame := fx_nValidFrame st + valid;
     fx_nLostPacket := fx_nLostPacket st + lost;
     fx_second := fx_second st; fx_lastFrameInSecond := fx_lastFrameInSecond st;
     fx_startOutputFrame := fx_startOutputFrame st; fx_lastGoodFrameNumber := fx_lastGoodFrameNumber st |}.

(** [if(frameInSecond < lastFrameInSecond) ...]: the first frame, or a new second. *)
Definition track_second (framesPerSecond frameInSecond : Z) (st : fixer) : fixer :=
  if frameInSecond <? fx_lastFrameInSecond st then
    if fx_lastFrameInSecond st =? 2 ^ 24 then
      if (framesPerSecond =? 25600) && (cmod frameInSecond 2 =? 1)
      then fx_set_numbers st (fx_second st) (fx_lastFrameInSecond st) (frameInSecond + 1) (frameInSecond - 1)
      else fx_set_numbers st (fx_second st) (fx_lastFrameInSecond st) frameInSecond (frameInSecond - 1)
    else if frameInSecond <? 30
    then fx_set_numbers st (fx_second st + 1) (fx_lastFrameInSecond st - framesPerSecond)
           (fx_startOutputFrame st) (fx_lastGoodFrameNumber st)
    else st
  else st.

(** The header of the missing frame [m] in its place: its time is that of the
    frame [cur], of number [known], or as many seconds away as the numbers are.
    (The code keeps the last time it has generated, for the same difference.) *)
Definition mark_lost (framesPerSecond start known : Z) (cur : buffer) (m : Z) (dest : buffer) : option buffer :=
  let off := (m - start) * MARK5B_FRAME_SIZE in
  let f := cmod (m + framesPerSecond) framesPerSecond in
  let d := cdiv m framesPerSecond - cdiv known framesPerSecond in
  dest ← put dest off (le_split 4 MARK5B_SYNC_WORD);
  dest ← put dest (off + 4) [Z.land f 0xFF; u8 (Z.shiftr f 8)];
  dest ← put dest (off + 8) (if d =? 0 then slice cur 8 8 else gendifferentialtime cur d);
  b5 ← byte_at dest (off + 5);
  put dest (off + 5) [Z.lor b5 0x80].

(** All missing frames of [from, from + n). *)
Definition mark_lost_frames (framesPerSecond start known : Z) (cur : buffer) (from : Z) (n : nat) (dest : buffer)
    : option buffer :=
  run_iters (fun k => mark_lost framesPerSecond start known cur (from + Z.of_nat k)) (seq 0 n) dest.

(** What becomes of a good frame: [true] if the destination ends before it. *)
Definition take_frame (src : buffer) (i framesPerSecond nDestFrames frameInSecond : Z) (st : fixer)
    : option (bool * fixer) :=
  let st := track_second framesPerSecond frameInSecond st in
  let start := fx_startOutputFrame st in
  shift ← sint (fx_second st * framesPerSecond);
  frameNumber ← sint (frameInSecond + shift);
  if frameNumber <? start then Some (false, st) else
  if nDestFrames <=? frameNumber - start then Some (true, st) else
  if framesPerSecond =? 0 then None else
  let missed := cmod (frameInSecond - fx_lastFrameInSecond st - 1 + framesPerSecond) framesPerSecond in
  let lost := if (0 <? missed) && (missed <? cdiv framesPerSecond 2) then missed else 0 in
  cur ← bytes_at src i (Z.to_nat MARK5B_FRAME_SIZE);
  dest ← mark_lost_frames framesPerSecond start frameNumber cur (frameNumber - lost) (Z.to_nat lost) (fx_dest st);
  dest ← put dest ((frameNumber - start) * MARK5B_FRAME_SIZE) cur;
  Some (false, fx_set_numbers (fx_set_dest st dest 1 lost) (fx_second st) frameInSecond start frameNumber).

(** [for(i = 0; i <= N; )]: where the scan stops, and the state. *)
Fixpoint fix_loop (fuel : nat) (src : buffer) (N framesPerSecond nDestFrames i : Z) (st : fixer) : option (Z * fixer) :=
  if i <=? N then
    match fuel with
    | O => None
    | S fuel =>
        s ← look src N i;
        match s with
        | Good frameInSecond =>
            '(full, st) ← take_frame src i framesPerSecond nDestFrames frameInSecond st;
            if (full : bool) then Some (i, st)
            else fix_loop fuel src N framesPerSecond nDestFrames (i + MARK5B_FRAME_SIZE) st
        | _ => fix_loop fuel src N framesPerSecond nDestFrames (i + sight_step s) (count_sight s st)
        end
    end
  else Some (i, st).

(** The state before the scan; [None] is the division by [framesPerSecond]. *)
Definition fix_start (dest : buffer) (framesPerSecond startOutputFrameNumber : Z) : option fixer :=
  let st := {| fx_dest := dest; fx_nSkip := 0; fx_nFill := 0; fx_nInvalidFrame := 0; fx_nValidFrame := 0;
    fx_nLostPacket := 0; fx_second := 0; fx_lastFrameInSecond := 2 ^ 24; fx_startOutputFrame := -1;
    fx_lastGoodFrameNumber := 0 |} in
  if 0 <=? startOutputFrameNumber then
    if framesPerSecond =? 0 then None else
    let start := cmod startOutputFrameNumber framesPerSecond in
    Some (fx_set_numbers st 0 (start - 1) start (start - 1))
  else Some st.

(** [else if(i <= N && ...)]: the rest of the destination after the last frame. *)
Definition fill_rest (N framesPerSecond nDestFrames i : Z) (st : fixer) : option fixer :=
  let start := fx_startOutputFrame st in
  let lastGood := fx_lastGoodFrameNumber st in
  if (i <=? N) && (lastGood - start <? nDestFrames - 1) then
    if framesPerSecond =? 0 then None else
    cur ← bytes_at (fx_dest st) ((lastGood - start) * MARK5B_FRAME_SIZE) (Z.to_nat MARK5B_FRAME_SIZE);
    let n := start + nDestFrames - (lastGood + 1) in
    dest ← mark_lost_frames framesPerSecond start lastGood cur (lastGood + 1) (Z.to_nat n) (fx_dest st);
    Some (fx_set_numbers (fx_set_dest st dest 0 n) (fx_second st) (fx_lastFrameInSecond st) start (nDestFrames - 1 + start))
  else Some st.

Definition fix_statistics (srcSize destSize framesPerSecond i : Z) (st : fixer) (stats : mark5b_fix_statistics)
    : option mark5b_fix_statistics :=
  cur ← bytes_at (fx_dest st) 0 11;
  if framesPerSecond =? 0 then None else
  Some {| fs_nValidFrame := fs_nValidFrame stats + fx_nValidFrame st;
     fs_nInvalidFrame := fs_nInvalidFrame stats + fx_nInvalidFrame st;
     fs_nSkippedByte := fs_nSkippedByte stats + fx_nSkip st;
     fs_nFillByte := fs_nFillByte stats + fx_nFill st;
     fs_nLostPacket := fs_nLostPacket stats + fx_nLostPacket st;
     fs_dataProcessed := fs_dataProcessed stats + i;
     fs_srcSize := srcSize; fs_srcUsed := i; fs_destSize := destSize;
     fs_destUsed := (fx_lastGoodFrameNumber st - fx_startOutputFrame st + 1) * MARK5B_FRAME_SIZE;
     fs_startFrameNumber := fx_startOutputFrame st;
     fs_startFrameSeconds := bcd_second cur;
     fs_startFrameNanoseconds := s32 (cdiv (fx_startOutputFrame st * 1000000000) framesPerSecond);
     fs_nCall := fs_nCall stats + 1 |}.

(** [mark5bfix]: the result, the destination and the statistics. *)
Definition mark5bfix (dest : buffer) (destSize : Z) (src : buffer) (srcSize framesPerSecond startOutputFrameNumber : Z)
    (stats : mark5b_fix_statistics) : option (Z * buffer * mark5b_fix_statistics) :=
  let N := srcSize - MARK5B_FRAME_SIZE in
  let nDestFrames := cdiv destSize MARK5B_FRAME_SIZE in
  st ← fix_start dest framesPerSecond startOutputFrameNumber;
  '(i, st) ← fix_loop (Z.to_nat (N + 1)) src N framesPerSecond nDestFrames 0 st;
  if fx_lastGoodFrameNumber st <? fx_startOutputFrame st then Some (-1, fx_dest st, stats) else
  st ← fill_rest N framesPerSecond nDestFrames i st;
  stats ← fix_statistics srcSize destSize framesPerSecond i st stats;
  Some (i, fx_dest st, stats).
