(* ===== verification/Mark5bFixSpec.v ===== *)
(** * Mark5bFixSpec: the places of the fixed data

    What a destination looks like after the frames of a source in order: reading
    and writing bytes, the header of a missing frame, the good frames of a source
    and their numbers counted through the seconds, and the scan over them. *)
From S2P Require Export Mark5bFix.
#[local] Open Scope Z_scope.

(** ** Reading and writing *)

(** [buf'] is [buf] outside of [n] bytes at [off]. *)
Definition same_outside (off n : nat) (buf buf' : buffer) : Prop :=
  length buf' = length buf /\ forall j, (j < off \/ off + n <= j)%nat -> buf' !! j = buf !! j.

Lemma same_outside_refl off n buf : same_outside off n buf buf.
Proof. by split. Qed.

Lemma same_outside_trans off n a b c : same_outside off n a b -> same_outside off n b c -> same_outside off n a c.
Proof. intros [L1 S1] [L2 S2]. split; [congruence|]. intros j Hj. by rewrite S2, S1. Qed.

Lemma same_outside_weaken off n off' n' a b : (off' <= off)%nat -> (off + n <= off' + n')%nat ->
  same_outside off n a b -> same_outside off' n' a b.
Proof. intros H1 H2 [L S]. split; [done|]. intros j Hj. apply S. lia. Qed.

Lemma slice_same off n buf buf' a m : same_outside off n buf buf' -> (a + m <= off \/ off + n <= a)%nat ->
  slice buf' a m = slice buf a m.
Proof.
  intros [_ S] Hd. apply list_eq. intros j. unfold slice. destruct (decide (j < m)%nat).
  - rewrite !lookup_take_lt, !lookup_drop by done. apply S. lia.
  - by rewrite !lookup_take_ge by lia.
Qed.

Lemma slice_app_split (buf : buffer) a n m : slice buf a (n + m) = slice buf a n ++ slice buf (a + n) m.
Proof. unfold slice. by rewrite <-take_take_drop, drop_drop. Qed.

Lemma put_spec buf off bs : 0 <= off -> off + Z.of_nat (length bs) <= Z.of_nat (length buf) ->
  exists buf', put buf off bs = Some buf' /\ slice buf' (Z.to_nat off) (length bs) = bs /\
    same_outside (Z.to_nat off) (length bs) buf buf'.
Proof.
  intros H0 Hl. unfold put. rewrite decide_True by done. eexists. split; [done|]. split.
  - unfold slice. rewrite drop_app_length' by (rewrite length_take; lia). by rewrite take_app_length.
  - split; [rewrite !length_app, length_take, length_drop; lia|]. intros j [Hj|Hj].
    + by rewrite lookup_app_l, lookup_take_lt by (rewrite ?length_take; lia).
    + rewrite !lookup_app_r by (rewrite ?length_take; lia). rewrite lookup_drop, length_take. f_equal. lia.
Qed.

Lemma put_before buf off bs : off < 0 -> put buf off bs = None.
Proof. intros. unfold put. rewrite decide_False by lia. done. Qed.

Lemma bytes_at_Some buf off n : 0 <= off -> off + Z.of_nat n <= Z.of_nat (length buf) ->
  bytes_at buf off n = Some (slice buf (Z.to_nat off) n).
Proof. intros. unfold bytes_at. by rewrite decide_True. Qed.

(** ** Marked frames *)

(** The place [m] of the destination holds the header of a missing frame: the sync
    word, its number with the mark, and the time from the frame [cur] of number [known]. *)
Record is_lost (fps start known : Z) (cur : buffer) (m : Z) (dest : buffer) : Prop := {
  lost_sync : slice dest (Z.to_nat ((m - start) * MARK5B_FRAME_SIZE)) 4 = le_split 4 MARK5B_SYNC_WORD;
  lost_number : slice dest (Z.to_nat ((m - start) * MARK5B_FRAME_SIZE) + 4) 2 =
    [Z.land (m mod fps) 0xFF; Z.lor (u8 (Z.shiftr (m mod fps) 8)) 0x80];
  lost_time : let d := m / fps - known / fps in
    let time := if d =? 0 then slice cur 8 8 else gendifferentialtime cur d in
    slice dest (Z.to_nat ((m - start) * MARK5B_FRAME_SIZE) + 8) (length time) = time }.

Lemma length_gendifferentialtime cur d : length (gendifferentialtime cur d) = 4%nat.
Proof. unfold gendifferentialtime. by repeat case_match. Qed.

Lemma le_combine_1 b : le_combine [b] = b.
Proof. cbn [le_combine]. by rewrite ?Z.shiftl_0_l, ?Z.lor_0_r, ?Z.mul_0_r, ?Z.add_0_r. Qed.

Lemma mark_lost_spec fps start known cur m dest : 1 <= fps -> 0 <= m -> 0 <= known -> 0 <= m - start ->
  (m - start + 1) * MARK5B_FRAME_SIZE <= Z.of_nat (length dest) -> (16 <= length cur)%nat ->
  exists dest', mark_lost fps start known cur m dest = Some dest' /\ is_lost fps start known cur m dest' /\
    same_outside (Z.to_nat ((m - start) * MARK5B_FRAME_SIZE)) (Z.to_nat MARK5B_FRAME_SIZE) dest dest'.
Proof.
  intros Hfps Hm Hk Hs Hl Hcur. unfold mark_lost.
  assert (Hoff : 0 <= (m - start) * MARK5B_FRAME_SIZE) by (apply Z.mul_nonneg_nonneg; done || lia).
  set (off := (m - start) * MARK5B_FRAME_SIZE) in *. assert (Hend : off + 10016 <= Z.of_nat (length dest)) by (unfold off, MARK5B_FRAME_SIZE in *; lia).
  rewrite !Z.quot_div_nonneg by lia. rewrite Z.rem_mod_nonneg by lia.
  replace ((m + fps) mod fps) with (m mod fps) by (rewrite <-(Z.mod_add m 1 fps) by lia; f_equal; lia).
  set (d := m / fps - known / fps). set (time := if d =? 0 then slice cur 8 8 else gendifferentialtime cur d).
  assert (Ht : (length time <= 8)%nat).
  { unfold time. destruct (d =? 0); [unfold slice; rewrite length_take; lia|]. rewrite length_gendifferentialtime. lia. }
  destruct (put_spec dest off (le_split 4 MARK5B_SYNC_WORD)) as (d1 & -> & S1 & O1); [lia|rewrite length_le_split; lia|]. rewrite length_le_split in *.
  cbn [mbind option_bind]. pose proof (proj1 O1) as L1.
  destruct (put_spec d1 (off + 4) [Z.land (m mod fps) 0xFF; u8 (Z.shiftr (m mod fps) 8)]) as (d2 & -> & S2 & O2); [lia|cbn [length]; lia|].
  cbn [mbind option_bind length] in *. pose proof (proj1 O2) as L2.
  destruct (put_spec d2 (off + 8) time) as (d3 & -> & S3 & O3); [lia|lia|]. cbn [mbind option_bind]. pose proof (proj1 O3) as L3.
  unfold byte_at. rewrite bytes_at_Some by lia. cbn [mbind option_bind fmap option_fmap option_map].
  assert (E4 : Z.to_nat (off + 4) = (Z.to_nat off + 4)%nat) by lia. assert (E5 : Z.to_nat (off + 5) = (Z.to_nat off + 4 + 1)%nat) by lia.
  assert (E8 : Z.to_nat (off + 8) = (Z.to_nat off + 8)%nat) by lia. rewrite E4, ?E5, E8 in *.
  assert (S23 : slice d3 (Z.to_nat off + 4) 2 = [Z.land (m mod fps) 0xFF; u8 (Z.shiftr (m mod fps) 8)])
    by (rewrite (slice_same _ _ _ _ _ _ O3) by lia; exact S2).
  assert (Ehi : slice d3 (Z.to_nat off + 4 + 1) 1 = [u8 (Z.shiftr (m mod fps) 8)]) by (by rewrite <-(slice_slice d3 _ 2 1 1), S23 by lia).
  assert (Elo : slice d3 (Z.to_nat off + 4) 1 = [Z.land (m mod fps) 0xFF])
    by (replace (Z.to_nat off + 4)%nat with (Z.to_nat off + 4 + 0)%nat by lia; by rewrite <-(slice_slice d3 _ 2 0 1), S23 by lia).
  rewrite Ehi, le_combine_1.
  destruct (put_spec d3 (off + 5) [Z.lor (u8 (Z.shiftr (m mod fps) 8)) 0x80]) as (d4 & -> & S4 & O4); [lia|cbn [length]; lia|].
  cbn [length] in *. rewrite E5 in S4, O4. eexists. split; [done|]. split.
  - split; fold off; fold d; fold time.
    + rewrite (slice_same _ _ _ _ _ _ O4), (slice_same _ _ _ _ _ _ O3), (slice_same _ _ _ _ _ _ O2) by lia. exact S1.
    + change (slice d4 (Z.to_nat off + 4) 2) with (slice d4 (Z.to_nat off + 4) (1 + 1)).
      rewrite slice_app_split, S4, (slice_same _ _ _ _ _ _ O4), Elo by lia. done.
    + cbv zeta. rewrite (slice_same _ _ _ _ _ _ O4) by lia. exact S3.
  - assert (Hw : forall o n a b, (Z.to_nat off <= o)%nat -> (o + n <= Z.to_nat off + Z.to_nat MARK5B_FRAME_SIZE)%nat -> same_outside o n a b ->
      same_outside (Z.to_nat off) (Z.to_nat MARK5B_FRAME_SIZE) a b).
    { intros o n a b Ho Hn'. by apply same_outside_weaken. }
    assert (Hfs : Z.to_nat MARK5B_FRAME_SIZE = Z.to_nat 10016) by done. rewrite Hfs in Hw.
    eapply same_outside_trans; [|eapply Hw; [| |exact O4]; lia].
    eapply same_outside_trans; [|eapply Hw; [| |exact O3]; lia].
    eapply same_outside_trans; [eapply Hw; [| |exact O1]; lia|eapply Hw; [| |exact O2]; lia].
Qed.

(** ** The scan over the source *)

(** The positions and numbers of the good frames. *)
Fixpoint goods (fuel : nat) (src : buffer) (N i : Z) : list (Z * Z) :=
  if i <=? N then
    match fuel with
    | O => []
    | S fuel =>
        match look src N i with
        | Some (Good f) => (i, f) :: goods fuel src N (i + MARK5B_FRAME_SIZE)
        | Some s => goods fuel src N (i + sight_step s)
        | None => []
        end
    end
  else [].

(** The number of a frame, counted through the seconds, is the first one after
    the last frame that the number in the second can be. *)
Definition number (fps prev f : Z) : Z := prev + 1 + (f - (prev + 1)) mod fps.

Fixpoint numbered (fps prev : Z) (gs : list (Z * Z)) : list (Z * Z) :=
  match gs with
  | [] => []
  | (p, f) :: gs => (p, number fps prev f) :: numbered fps (number fps prev f) gs
  end.

(** Never are more than 29 frames missing in a row. *)
Fixpoint steady (fps prev : Z) (gs : list (Z * Z)) : Prop :=
  match gs with
  | [] => True
  | (p, f) :: gs => 0 <= f < fps /\ number fps prev f <= prev + 30 /\ steady fps (number fps prev f) gs
  end.

(** With 25600 frames per second the first frame must have an even number. *)
Fixpoint first_frames (fps : Z) (gs : list (Z * Z)) : list (Z * Z) :=
  match gs with
  | [] => []
  | (p, f) :: gs' => if (fps =? 25600) && Z.odd f then first_frames fps gs' else gs
  end.

Lemma look_total src N i : N = Z.of_nat (length src) - MARK5B_FRAME_SIZE -> 0 <= i <= N -> exists s, look src N i = Some s.
Proof.
  unfold MARK5B_FRAME_SIZE. intros -> Hi. unfold look, word_at, byte_at, MARK5B_FRAME_SIZE.
  rewrite !bytes_at_Some by lia. cbn [mbind option_bind fmap option_fmap option_map].
  destruct (Z.leb_spec i (Z.of_nat (length src) - 10016 - 10016)); rewrite ?bytes_at_Some by lia; cbn [mbind option_bind fmap option_fmap option_map];
    repeat case_match; by eexists.
Qed.

Lemma sight_step_pos s : 4 <= sight_step s.
Proof. destruct s; unfold sight_step, MARK5B_FRAME_SIZE; lia. Qed.

(** ** Sources in order *)

Section Fix.
Context (src : buffer) (fps start nDest : Z) (destLength : nat).
Context (Hfps : 60 <= fps) (Hstart : 0 <= start < fps) (Hdest : nDest * MARK5B_FRAME_SIZE <= Z.of_nat destLength).

Abbreviation N := (Z.of_nat (length src) - MARK5B_FRAME_SIZE).
Abbreviation place n := (Z.to_nat ((n - start) * MARK5B_FRAME_SIZE)).
Abbreviation FS := (Z.to_nat MARK5B_FRAME_SIZE).
Abbreviation source_frame p := (slice src (Z.to_nat p) FS).

Lemma number_spec prev f : 0 <= f < fps -> prev < number fps prev f /\ number fps prev f mod fps = f.
Proof using Hfps.
  clear - Hfps. intros Hf. unfold number. pose proof (Z.mod_pos_bound (f - (prev + 1)) fps ltac:(lia)). split; [lia|].
  rewrite Z.add_mod_idemp_r by lia. replace (prev + 1 + (f - (prev + 1))) with f by lia. apply Z.mod_small. lia.
Qed.

(** Every place below [prev + 1] has the frame of its number, if there was one
    among the frames [done], and the header of a missing frame otherwise. *)
Record filled (prev : Z) (done : list (Z * Z)) (dest : buffer) : Prop := {
  fl_length : length dest = destLength;
  fl_range : Forall (fun pn => start <= snd pn <= prev) done;
  fl_good : forall p n, (p, n) ∈ done -> slice dest (place n) FS = source_frame p;
  fl_lost : forall m, start <= m <= prev -> m ∉ done.*2 ->
    exists p n, (p, n) ∈ done /\ is_lost fps start n (source_frame p) m dest }.

(** The state after the frames [done], the last of them [prev]. *)
Record fixing (prev : Z) (done : list (Z * Z)) (st : fixer) : Prop := {
  fg_filled : filled prev done (fx_dest st);
  fg_start : fx_startOutputFrame st = start;
  fg_lastGood : fx_lastGoodFrameNumber st = prev;
  fg_valid : fx_nValidFrame st = Z.of_nat (length done) }.

(** The second and the frame in it that were last seen. *)
Definition tracks (prev : Z) (st : fixer) : Prop :=
  fx_lastFrameInSecond st + fx_second st * fps = prev /\ -1 <= fx_lastFrameInSecond st < fps /\ 0 <= fx_second st.

Lemma place_mono m n : start <= m -> m < n -> (place m + FS <= place n)%nat.
Proof using. clear. intros Hm Hn. unfold MARK5B_FRAME_SIZE. lia. Qed.

Lemma slice_place m n dest dest' a len : start <= m -> start <= n -> m <> n -> (a + len <= FS)%nat ->
  same_outside (place m) FS dest dest' -> slice dest' (place n + a) len = slice dest (place n + a) len.
Proof using.
  clear. intros Hm Hn Hne Ha Ho. apply (slice_same _ _ _ _ _ _ Ho).
  destruct (Z.lt_total m n) as [Hlt|[?|Hlt]]; [|done|].
  - pose proof (place_mono m n Hm Hlt). lia.
  - pose proof (place_mono n m Hn Hlt). lia.
Qed.

Lemma is_lost_same n known cur dest dest' :
  (forall a len, (a + len <= FS)%nat -> slice dest' (place n + a) len = slice dest (place n + a) len) ->
  is_lost fps start known cur n dest -> is_lost fps start known cur n dest'.
Proof using.
  clear. intros Hs [L1 L2 L3]. assert (HFS : (16 <= FS)%nat) by (unfold MARK5B_FRAME_SIZE; lia).
  split.
  - specialize (Hs 0%nat 4%nat ltac:(lia)). rewrite Nat.add_0_r in Hs. by rewrite Hs.
  - by rewrite Hs by lia.
  - cbv zeta in *. assert (Hl : forall d : Z, (length (if (d =? 0)%Z then slice cur 8 8 else gendifferentialtime cur d) <= 8)%nat).
    { intros d. destruct (d =? 0); [unfold slice; rewrite length_take; lia|]. rewrite length_gendifferentialtime. lia. }
    specialize (Hl (n / fps - known / fps)). rewrite Hs by lia. exact L3.
Qed.

Lemma mark_lost_frames_spec known cur from k dest : start <= from -> 0 <= known -> (16 <= length cur)%nat ->
  length dest = destLength -> from + Z.of_nat k - start <= nDest ->
  exists dest', mark_lost_frames fps start known cur from k dest = Some dest' /\ length dest' = destLength /\
    (forall m, from <= m < from + Z.of_nat k -> is_lost fps start known cur m dest') /\
    forall n a len, start <= n -> (n < from \/ from + Z.of_nat k <= n) -> (a + len <= FS)%nat ->
      slice dest' (place n + a) len = slice dest (place n + a) len.
Proof using Hfps Hstart Hdest.
  intros Hf Hk Hc Hl Hend. unfold mark_lost_frames.
  destruct (run_iters_seq (fun k => mark_lost fps start known cur (from + Z.of_nat k)) (fun j dest' => length dest' = destLength /\
    (forall m, from <= m < from + Z.of_nat j -> is_lost fps start known cur m dest') /\
    forall n a len, start <= n -> (n < from \/ from + Z.of_nat j <= n) -> (a + len <= FS)%nat ->
      slice dest' (place n + a) len = slice dest (place n + a) len) k dest) as (dest' & E & H1 & H2 & H3).
  - intros j d Hj (D1 & D2 & D3).
    destruct (mark_lost_spec fps start known cur (from + Z.of_nat j) d) as (d' & E & Hlost & Ho); [lia|lia|lia|lia| |lia|].
    { assert ((from + Z.of_nat j - start + 1) * MARK5B_FRAME_SIZE <= nDest * MARK5B_FRAME_SIZE)
        by (apply Z.mul_le_mono_nonneg_r; unfold MARK5B_FRAME_SIZE; lia). lia. }
    exists d'. split; [exact E|]. split; [by rewrite (proj1 Ho)|]. split.
    + intros m Hm. destruct (decide (m = from + Z.of_nat j)) as [->|Hne]; [exact Hlost|].
      eapply is_lost_same; [|apply D2; lia]. intros a len Ha. apply (slice_place (from + Z.of_nat j)); [lia..|exact Ha|exact Ho].
    + intros n a len Hn Hor Ha. rewrite (slice_place (from + Z.of_nat j) n d d') by (done || lia). apply D3; [done|lia|done].
  - split; [done|]. split; [intros; lia|done].
  - by exists dest'.
Qed.
Lemma length_source_frame p : 0 <= p <= N -> length (source_frame p) = FS.
Proof using.
  clear. intros Hp. unfold slice. rewrite length_take, length_drop. unfold MARK5B_FRAME_SIZE in *. lia.
Qed.

(** A frame is put into its place, and what is missing before it is marked. *)
Lemma filled_step prev done dest p n : 0 <= p <= N -> start - 1 <= prev < n -> n - start < nDest -> filled prev done dest ->
  exists dest1 dest2, mark_lost_frames fps start n (source_frame p) (prev + 1) (Z.to_nat (n - prev - 1)) dest = Some dest1 /\
    put dest1 ((n - start) * MARK5B_FRAME_SIZE) (source_frame p) = Some dest2 /\ filled n (done ++ [(p, n)]) dest2.
Proof using Hfps Hstart Hdest.
  intros Hp Hprev Hn [F1 F2 F3 F4].
  pose proof (length_source_frame p Hp) as Hcur. assert (HFS : FS = Z.to_nat 10016) by done.
  destruct (mark_lost_frames_spec n (source_frame p) (prev + 1) (Z.to_nat (n - prev - 1)) dest) as (d1 & E1 & L1 & M1 & S1); [lia|lia|lia|done|lia|].
  assert (Hend : (n - start + 1) * MARK5B_FRAME_SIZE <= nDest * MARK5B_FRAME_SIZE) by (apply Z.mul_le_mono_nonneg_r; unfold MARK5B_FRAME_SIZE; lia).
  assert (Hoff : 0 <= (n - start) * MARK5B_FRAME_SIZE) by (unfold MARK5B_FRAME_SIZE; lia).
  destruct (put_spec d1 ((n - start) * MARK5B_FRAME_SIZE) (source_frame p)) as (d2 & E2 & S2 & O2);
    [done|rewrite Hcur; unfold MARK5B_FRAME_SIZE in *; lia|]. rewrite Hcur in S2, O2.
  exists d1, d2. split; [done|]. split; [done|].
  assert (Hother : forall m a len, start <= m -> m <> n -> (a + len <= FS)%nat ->
    slice d2 (place m + a) len = slice d1 (place m + a) len).
  { intros m a len Hm Hne Ha. apply (slice_place n); [lia|done|done|done|exact O2]. }
  split.
  - by rewrite (proj1 O2).
  - apply Forall_app. split; [|by constructor; [cbn [snd]; lia|]]. eapply Forall_impl; [|exact F2]. cbn beta. lia.
  - intros q m [Hin|Hin%list_elem_of_singleton]%elem_of_app.
    + assert (Hm : start <= m <= prev) by (by rewrite Forall_forall in F2; apply (F2 (q, m)), list_elem_of_In).
      pose proof (Hother m 0%nat FS ltac:(lia) ltac:(lia) ltac:(lia)) as H2. rewrite Nat.add_0_r in H2.
      pose proof (S1 m 0%nat FS ltac:(lia) ltac:(lia) ltac:(lia)) as H1. rewrite Nat.add_0_r in H1.
      rewrite H2, H1. by apply F3.
    + pose proof (f_equal fst Hin) as Ep. pose proof (f_equal snd Hin) as En. cbn [fst snd] in Ep, En. subst q m. exact S2.
  - intros m Hm Hnot. rewrite fmap_app, not_elem_of_app in Hnot. destruct Hnot as [Hnot Hne].
    cbn [fmap list_fmap] in Hne. rewrite not_elem_of_cons in Hne. destruct Hne as [Hne _]. cbn [snd] in Hne.
    destruct (decide (m <= prev)) as [Hle|Hgt].
    + destruct (F4 m ltac:(lia) Hnot) as (q & k & Hin & Hlost). exists q, k. split; [apply elem_of_app; by left|].
      eapply is_lost_same; [|exact Hlost]. intros a len Ha. rewrite Hother by lia. apply S1; [lia|lia|done].
    + exists p, n. split; [apply elem_of_app; right; by apply list_elem_of_singleton|]. eapply is_lost_same; [|apply M1; lia]. intros a len Ha. apply Hother; [lia|done|done].
Qed.
(** What is done with a good frame, up to 29 numbers after the last one. *)
Lemma take_frame_step prev done st p f : fps <= 65536 -> nDest < 2 ^ 30 -> 0 <= p <= N -> 0 <= f < fps ->
  start - 1 <= prev < start + nDest -> number fps prev f <= prev + 30 -> fixing prev done st -> tracks prev st ->
  let n := number fps prev f in
  exists st', take_frame src p fps nDest f st = Some (negb (n <? start + nDest), st') /\
    (if n <? start + nDest then fixing n (done ++ [(p, n)]) st' /\ tracks n st' else fixing prev done st').
Proof using Hfps Hstart Hdest.
  intros Hfps2 HnD Hp Hf Hprev Hnum [G1 G2 G3 G4] (T1 & T2 & T3) n.
  destruct (number_spec prev f Hf) as [Hn1 Hn2]. fold n in Hnum, Hn1, Hn2.
  assert (Htr : exists last second, track_second fps f st = fx_set_numbers st second last start prev /\
      f + second * fps = n /\ 0 <= second /\
      cmod (f - last - 1 + fps) fps = n - prev - 1).
  { unfold track_second. rewrite G2, G3. unfold n, number in Hnum |- *.
    assert (E0 : (fx_lastFrameInSecond st =? 2 ^ 24) = false) by (apply Z.eqb_neq; lia). rewrite E0.
    assert (Em : (f - (prev + 1)) mod fps = (f - fx_lastFrameInSecond st - 1) mod fps).
    { rewrite <-(Z.mod_add (f - (prev + 1)) (fx_second st) fps) by lia. f_equal. lia. }
    rewrite Em in Hnum |- *. destruct (Z.ltb_spec f (fx_lastFrameInSecond st)) as [Hlt|Hge].
    - assert (E : (f - fx_lastFrameInSecond st - 1) mod fps = f - fx_lastFrameInSecond st - 1 + fps).
      { symmetry. apply (Z.mod_unique_pos _ _ (-1)); lia. }
      rewrite E in Hnum |- *. destruct (Z.ltb_spec f 30) as [_|?]; [|lia].
      eexists _, _. split; [reflexivity|]. split; [lia|]. split; [lia|].
      rewrite Z.rem_mod_nonneg by lia. symmetry. apply (Z.mod_unique_pos _ _ 1); lia.
    - assert (Hne : f <> fx_lastFrameInSecond st).
      { intros ->. replace (fx_lastFrameInSecond st - fx_lastFrameInSecond st - 1) with (-1) in Hnum by lia.
        replace ((-1) mod fps) with (fps - 1) in Hnum by (apply (Z.mod_unique_pos _ _ (-1)); lia). lia. }
      assert (E : (f - fx_lastFrameInSecond st - 1) mod fps = f - fx_lastFrameInSecond st - 1) by (apply Z.mod_small; lia).
      rewrite E. eexists (fx_lastFrameInSecond st), (fx_second st). split; [by rewrite <-G2, <-G3; destruct st|].
      split; [lia|]. split; [lia|].
      rewrite Z.rem_mod_nonneg by lia. symmetry. apply (Z.mod_unique_pos _ _ 1); lia. }
  destruct Htr as (last & second & Etr & En & Hsec & Emiss). unfold take_frame. rewrite Etr.
  cbn [fx_set_numbers fx_second fx_startOutputFrame fx_lastFrameInSecond fx_dest].
  rewrite sint_Some by nia. cbn [mbind option_bind]. rewrite sint_Some by nia. cbn [mbind option_bind]. rewrite En.
  destruct (Z.ltb_spec n start); [lia|].
  destruct (Z.ltb_spec n (start + nDest)) as [Hin|Hout]; (destruct (Z.leb_spec nDest (n - start)); [try lia|try lia]); cbn [negb].
  2: { eexists. split; [reflexivity|]. split; [exact G1|done|done|exact G4]. }
  destruct (Z.eqb_spec fps 0); [lia|]. rewrite Emiss.
  assert (Elost : (if (0 <? n - prev - 1) && (n - prev - 1 <? cdiv fps 2) then n - prev - 1 else 0) = n - prev - 1).
  { rewrite Z.quot_div_nonneg by lia. pose proof (Z.div_le_mono 60 fps 2 ltac:(lia) ltac:(lia)). change (60 / 2) with 30 in *.
    destruct (Z.ltb_spec 0 (n - prev - 1)); [|cbn [andb]; lia]. destruct (Z.ltb_spec (n - prev - 1) (fps / 2)); [done|lia]. }
  rewrite Elost. rewrite bytes_at_Some by (unfold MARK5B_FRAME_SIZE in *; lia). cbn [mbind option_bind].
  destruct (filled_step prev done (fx_dest st) p n) as (d1 & d2 & E1 & E2 & F); [done|lia|lia|exact G1|].
  replace (n - (n - prev - 1)) with (prev + 1) by lia. rewrite E1. cbn [mbind option_bind]. rewrite E2. cbn [mbind option_bind].
  eexists. split; [reflexivity|]. split.
  - split; cbn [fx_set_numbers fx_set_dest fx_dest fx_startOutputFrame fx_lastGoodFrameNumber fx_nValidFrame]; [exact F|done|done|].
    rewrite length_app, G4. cbn [length]. lia.
  - unfold tracks. cbn [fx_set_numbers fx_set_dest fx_second fx_lastFrameInSecond]. lia.
Qed.
(** The frames that have a place, and the ones behind the destination. *)
Definition inside (pns : list (Z * Z)) : list (Z * Z) := filter (fun pn => snd pn < start + nDest) pns.
Definition behind_dest (pns : list (Z * Z)) : list (Z * Z) := filter (fun pn => start + nDest <= snd pn) pns.

Lemma inside_nil pns : Forall (fun pn => start + nDest <= snd pn) pns -> inside pns = [].
Proof using. clear. induction 1 as [|pn pns H ? IH]; [done|]. unfold inside in *. rewrite filter_cons_False by lia. exact IH. Qed.

Lemma numbered_after gs prev : steady fps prev gs -> Forall (fun pn => prev < snd pn) (numbered fps prev gs).
Proof using Hfps.
  clear - Hfps. revert prev. induction gs as [|[p f] gs IH]; intros prev H; [constructor|]. destruct H as (Hf & _ & H).
  destruct (number_spec prev f Hf) as [Hn _]. constructor; [exact Hn|].
  eapply Forall_impl; [|exact (IH _ H)]. cbn beta. lia.
Qed.

Lemma fixing_count prev done s st : fixing prev done st -> fixing prev done (count_sight s st).
Proof using. clear. intros [G1 G2 G3 G4]. by split. Qed.

Fixpoint last_number (prev : Z) (pns : list (Z * Z)) : Z :=
  match pns with
  | [] => prev
  | (_, n) :: pns => last_number n pns
  end.

(** Where the scan ends: at the first frame behind the destination, or at the end. *)
Definition stops_at (i : Z) (pns : list (Z * Z)) : Prop :=
  match behind_dest pns with [] => N < i | (p, _) :: _ => i = p /\ p <= N end.

Lemma last_number_in prev pns : pns <> [] -> exists p, (p, last_number prev pns) ∈ pns.
Proof using.
  clear. revert prev. induction pns as [|[p n] pns IH]; intros prev Hne; [done|]. cbn [last_number].
  destruct pns as [|pn pns]; [exists p; by left|]. destruct (IH n) as [q Hq]; [done|]. exists q. by right.
Qed.

Lemma fix_loop_run fuel : fps <= 65536 -> nDest < 2 ^ 30 -> forall i prev done st, 0 <= i -> N + 1 - i <= Z.of_nat fuel ->
  start - 1 <= prev < start + nDest -> fixing prev done st -> tracks prev st ->
  let gs := goods fuel src N i in steady fps prev gs ->
  let pns := numbered fps prev gs in
  exists i' st', fix_loop fuel src N fps nDest i st = Some (i', st') /\
    fixing (last_number prev (inside pns)) (done ++ inside pns) st' /\ stops_at i' pns.
Proof using Hfps Hstart Hdest.
  intros Hfps2 HnD. induction fuel as [|fuel IH]; intros i prev done st Hi Hfuel Hprev Hfx Htr; cbn [goods fix_loop].
  all: destruct (Z.leb_spec i N) as [Hle|Hgt]; [try lia|intros _; exists i, st; rewrite app_nil_r; done].
  destruct (look_total src N i) as [s Es]; [done|lia|]. rewrite Es. cbn [mbind option_bind].
  assert (Hskip : forall st', fixing prev done st' -> tracks prev st' ->
    let gs := goods fuel src N (i + sight_step s) in steady fps prev gs ->
    let pns := numbered fps prev gs in
    exists i' st'', fix_loop fuel src N fps nDest (i + sight_step s) st' = Some (i', st'') /\
      fixing (last_number prev (inside pns)) (done ++ inside pns) st'' /\ stops_at i' pns).
  { intros st' H1 H2 gs. pose proof (sight_step_pos s). apply IH; [lia|lia|done|done|done]. }
  destruct s as [| | | |f]; [apply Hskip; [by apply fixing_count|exact Htr]..|].
  intros (Hf & Hnum & Hst). cbn [numbered].
  destruct (take_frame_step prev done st i f) as (st' & -> & Hst'); [done..|]. cbn [mbind option_bind].
  pose proof (numbered_after _ _ Hst) as Hafter. destruct (number_spec prev f Hf) as [Hn _].
  set (n := number fps prev f) in *. set (pns := numbered fps n _) in *.
  assert (HFS : 0 < MARK5B_FRAME_SIZE) by done.
  destruct (Z.ltb_spec n (start + nDest)) as [Hin|Hout]; cbn [negb].
  - destruct Hst' as [Hfx' Htr']. destruct (IH (i + MARK5B_FRAME_SIZE) n (done ++ [(i, n)]) st') as (i' & st'' & -> & Hfx'' & Hstop);
      [lia|unfold MARK5B_FRAME_SIZE in *; lia|lia|exact Hfx'|exact Htr'|exact Hst|].
    exists i', st''. split; [done|]. unfold inside, stops_at, behind_dest in *. rewrite filter_cons_True by exact Hin.
    rewrite (filter_cons_False (fun pn => start + nDest <= snd pn)) by (cbn [snd]; lia). cbn [last_number]. split; [|exact Hstop].
    by rewrite <-app_assoc in Hfx''.
  - exists i, st'. split; [done|]. unfold inside, stops_at, behind_dest. rewrite filter_cons_False by (cbn [snd]; lia).
    rewrite (filter_cons_True (fun pn => start + nDest <= snd pn)) by (cbn [snd]; lia).
    fold (inside pns). rewrite inside_nil by (eapply Forall_impl; [|exact Hafter]; cbn beta; lia). by rewrite app_nil_r.
Qed.
(** Before the first frame. *)
Definition unstarted (dest : buffer) (st : fixer) : Prop :=
  fx_dest st = dest /\ fx_second st = 0 /\ fx_lastFrameInSecond st = 2 ^ 24 /\ fx_nValidFrame st = 0.

Lemma cmod_odd f : 0 <= f -> (cmod f 2 =? 1) = Z.odd f.
Proof using. clear. intros Hf. rewrite Z.rem_mod_nonneg, Zmod_odd by lia. by destruct (Z.odd f). Qed.

Lemma track_second_fresh dest st f : 0 <= f < 2 ^ 24 -> unstarted dest st ->
  track_second fps f st = fx_set_numbers st 0 (2 ^ 24) (if (fps =? 25600) && Z.odd f then f + 1 else f) (f - 1).
Proof using.
  clear. intros Hf (F1 & F2 & F3 & F4). unfold track_second. rewrite F3, cmod_odd, F2, Z.eqb_refl by lia.
  destruct (Z.ltb_spec f (2 ^ 24)); [|lia]. by destruct ((fps =? 25600) && Z.odd f).
Qed.

Lemma take_frame_skip dest st p f : fps <= 65536 -> 0 <= f < fps -> (fps =? 25600) && Z.odd f = true -> unstarted dest st ->
  exists st', take_frame src p fps nDest f st = Some (false, st') /\ unstarted dest st'.
Proof using Hfps.
  clear - Hfps. intros Hfps2 Hf Hodd Hfresh. unfold take_frame. rewrite (track_second_fresh dest), Hodd by (done || lia).
  destruct Hfresh as (F1 & F2 & F3 & F4).
  cbn [fx_set_numbers fx_second fx_startOutputFrame]. rewrite Z.mul_0_l. rewrite sint_Some by lia. cbn [mbind option_bind].
  rewrite sint_Some by lia. cbn [mbind option_bind]. destruct (Z.ltb_spec (f + 0) (f + 1)); [|lia].
  eexists. split; [reflexivity|]. by split_and!.
Qed.

Lemma take_frame_first dest st p : fps <= 65536 -> 1 <= nDest -> 0 <= p <= N -> (fps =? 25600) && Z.odd start = false ->
  length dest = destLength -> unstarted dest st ->
  exists st', take_frame src p fps nDest start st = Some (false, st') /\ fixing start [(p, start)] st' /\ tracks start st'.
Proof using Hfps Hstart Hdest.
  intros Hfps2 HnD Hp Heven Hl Hfresh. unfold take_frame. rewrite (track_second_fresh dest), Heven by (done || lia).
  destruct Hfresh as (F1 & F2 & F3 & F4).
  cbn [fx_set_numbers fx_second fx_startOutputFrame fx_lastFrameInSecond fx_dest]. rewrite Z.mul_0_l. rewrite sint_Some by lia. cbn [mbind option_bind].
  rewrite sint_Some, Z.add_0_r by lia. cbn [mbind option_bind]. destruct (Z.ltb_spec start start); [lia|].
  destruct (Z.leb_spec nDest (start - start)); [lia|]. destruct (Z.eqb_spec fps 0); [lia|].
  assert (Hm : cmod (start - 2 ^ 24 - 1 + fps) fps <= 0) by (apply Z.rem_nonpos; lia).
  destruct (Z.ltb_spec 0 (cmod (start - 2 ^ 24 - 1 + fps) fps)); [lia|]. cbn [andb].
  rewrite bytes_at_Some by (unfold MARK5B_FRAME_SIZE in *; lia). cbn [mbind option_bind]. rewrite F1.
  destruct (filled_step (start - 1) [] dest p start) as (d1 & d2 & E1 & E2 & F); [done|lia|lia| |].
  { split; [done|constructor|by intros ? ? ?%elem_of_nil|lia]. }
  replace (start - (start - 1) - 1) with 0 in E1 by lia. replace (start - 1 + 1) with (start - 0) in E1 by lia.
  rewrite E1. cbn [mbind option_bind]. rewrite E2. cbn [mbind option_bind]. eexists. split; [reflexivity|]. split.
  - split; cbn [fx_set_numbers fx_set_dest fx_dest fx_startOutputFrame fx_lastGoodFrameNumber fx_nValidFrame]; [exact F|done|done|].
    rewrite F4. done.
  - unfold tracks. cbn [fx_set_numbers fx_set_dest fx_second fx_lastFrameInSecond]. lia.
Qed.
Lemma number_first : number fps (start - 1) start = start.
Proof using Hfps. clear - Hfps. unfold number. replace (start - (start - 1 + 1)) with 0 by lia. rewrite Z.mod_0_l by lia. lia. Qed.

(** The scan from the start, when the first frame is not given. *)
Lemma fix_loop_fresh fuel : fps <= 65536 -> 1 <= nDest < 2 ^ 30 -> forall i dest st gs p, 0 <= i -> N + 1 - i <= Z.of_nat fuel ->
  length dest = destLength -> unstarted dest st -> Forall (fun pf => 0 <= snd pf < fps) (goods fuel src N i) ->
  first_frames fps (goods fuel src N i) = (p, start) :: gs -> steady fps (start - 1) ((p, start) :: gs) ->
  let pns := numbered fps (start - 1) ((p, start) :: gs) in
  exists i' st', fix_loop fuel src N fps nDest i st = Some (i', st') /\
    fixing (last_number (start - 1) (inside pns)) (inside pns) st' /\ stops_at i' pns.
Proof using Hfps Hstart Hdest.
  intros Hfps2 HnD. assert (HFS : 0 < MARK5B_FRAME_SIZE) by done.
  induction fuel as [|fuel IH]; intros i dest st gs p Hi Hfuel Hl Hfresh Hrange Hfirst Hst; cbn [goods fix_loop] in *.
  all: destruct (Z.leb_spec i N) as [Hle|Hgt]; [try lia|done].
  destruct (look_total src N i) as [s Es]; [done|lia|]. rewrite Es in *. cbn [mbind option_bind].
  assert (Hcount : forall s, unstarted dest (count_sight s st)) by (by destruct Hfresh).
  pose proof (sight_step_pos s) as Hadv.
  destruct s as [| | | |f]; [apply (IH _ dest _ gs p); [lia|lia|done|apply Hcount|done|done|done]..|].
  apply Forall_cons_1 in Hrange as [Hf Hrange]. cbn [snd] in Hf. cbn [first_frames] in Hfirst.
  destruct ((fps =? 25600) && Z.odd f) eqn:Hodd.
  - destruct (take_frame_skip dest st i f) as (st' & -> & Hfresh'); [done..|]. cbn [mbind option_bind].
    apply (IH _ dest _ gs p); [lia|unfold MARK5B_FRAME_SIZE in *; lia|done..].
  - pose proof (f_equal (hd (0, 0)) Hfirst) as Hh. pose proof (f_equal (@tl _) Hfirst) as Ht. cbn [hd tl] in Hh, Ht.
    pose proof (f_equal fst Hh) as Ep. pose proof (f_equal snd Hh) as Ef. cbn [fst snd] in Ep, Ef. subst i f gs. clear Hfirst Hh.
    destruct (take_frame_first dest st p) as (st' & -> & Hfx & Htr); [done|lia|lia|done|done|done|]. cbn [mbind option_bind].
    destruct Hst as (_ & _ & Hst). cbn [numbered]. rewrite number_first in *.
    destruct (fix_loop_run fuel Hfps2 ltac:(lia) (p + MARK5B_FRAME_SIZE) start [(p, start)] st') as (i' & st'' & -> & Hfx' & Hstop);
      [lia|unfold MARK5B_FRAME_SIZE in *; lia|lia|done|done|done|].
    exists i', st''. split; [done|]. unfold inside, stops_at, behind_dest in *. rewrite filter_cons_True by (cbn [snd]; lia).
    rewrite (filter_cons_False (fun pn => start + nDest <= snd pn)) by (cbn [snd]; lia). cbn [last_number]. split; [exact Hfx'|exact Hstop].
Qed.

(** The places behind the last frame, when a frame behind the destination was seen. *)
Lemma fill_rest_spec prev done st i p : start <= prev < start + nDest -> (p, prev) ∈ done -> fixing prev done st ->
  exists st', fill_rest N fps nDest i st = Some st' /\ fixing (if i <=? N then start + nDest - 1 else prev) done st'.
Proof using Hfps Hstart Hdest.
  intros Hprev Hin [[F1 F2 F3 F4] G2 G3 G4]. unfold fill_rest. rewrite G2, G3.
  destruct (Z.leb_spec i N); cbn [andb]; [|by exists st].
  destruct (Z.ltb_spec (prev - start) (nDest - 1)).
  2: { exists st. split; [done|]. replace (start + nDest - 1) with prev by lia. done. }
  destruct (Z.eqb_spec fps 0); [lia|].
  assert (Hend : (prev - start + 1) * MARK5B_FRAME_SIZE <= nDest * MARK5B_FRAME_SIZE) by (apply Z.mul_le_mono_nonneg_r; unfold MARK5B_FRAME_SIZE; lia).
  assert (Hcur : length (slice (fx_dest st) (place prev) FS) = FS)
    by (unfold slice; rewrite length_take, length_drop; unfold MARK5B_FRAME_SIZE in *; lia).
  rewrite bytes_at_Some by (unfold MARK5B_FRAME_SIZE in *; lia). cbn [mbind option_bind]. rewrite (F3 p prev Hin) in Hcur |- *.
  assert (HFS : FS = Z.to_nat 10016) by done.
  destruct (mark_lost_frames_spec prev (source_frame p) (prev + 1) (Z.to_nat (start + nDest - (prev + 1))) (fx_dest st)) as (d1 & E1 & L1 & M1 & S1);
    [lia|lia|lia|done|lia|].
  rewrite E1. cbn [mbind option_bind]. eexists. split; [reflexivity|].
  split; cbn [fx_set_numbers fx_set_dest fx_dest fx_startOutputFrame fx_lastGoodFrameNumber fx_nValidFrame]; [|done|lia|lia].
  split; [done| | |].
  - eapply Forall_impl; [|exact F2]. cbn beta. lia.
  - intros q m Hqm. assert (Hm : start <= m <= prev) by (by rewrite Forall_forall in F2; apply (F2 (q, m)), list_elem_of_In).
    pose proof (S1 m 0%nat FS ltac:(lia) ltac:(lia) ltac:(lia)) as H1. rewrite Nat.add_0_r in H1. rewrite H1. by apply F3.
  - intros m Hm Hnot. destruct (decide (m <= prev)) as [Hle|Hgt].
    + destruct (F4 m ltac:(lia) Hnot) as (q & k & Hqk & Hlost). exists q, k. split; [done|].
      eapply is_lost_same; [|exact Hlost]. intros a len Ha. apply S1; [lia|lia|done].
    + exists p, prev. split; [done|]. apply M1. lia.
Qed.
End Fix.
