(* ===== verification/Mark5bFixTheorems.v ===== *)
(** * Mark5bFixTheorems: what the fixed data are

    Time codes; a whole call on a source in order; the types of the result on any
    source; then what the function does without frames and with frames out of
    order. *)
From S2P Require Export Mark5bFixSpec.
#[local] Open Scope Z_scope.

(** ** Time codes *)

(** A time code in the four bytes from [8] on. *)
Definition time_bytes (tb : buffer) : buffer := replicate 8 0 ++ tb.

(** The time of day and the day modulo 1000, as one number of seconds. *)
Definition bcd_time (cur : buffer) : Z := bcd_day cur * 86400 + bcd_second cur.

(** Two decimal digits in a byte. *)
Lemma digits_byte lo hi : 0 <= lo < 10 -> 0 <= hi < 10 ->
  let b := u8 (lo + Z.shiftl hi 4) in Z.land b 0x0F = lo /\ Z.shiftr b 4 = hi.
Proof.
  intros Hl Hh b. assert (Eb : b = hi * 2 ^ 4 + lo).
  { unfold b. rewrite Z.shiftl_mul_pow2 by lia. rewrite uwrap_small by lia. lia. }
  rewrite Eb. split.
  - change 15 with (Z.ones 4). rewrite Z.land_ones by lia. rewrite Z.add_comm, Z.mod_add by lia. apply Z.mod_small. lia.
  - rewrite Z.shiftr_div_pow2 by lia. rewrite Z.div_add_l by lia. rewrite Z.div_small by lia. lia.
Qed.

Lemma digits_of n : 0 <= n ->
  cdiv n 10 = n / 10 /\ cmod n 10 = n mod 10 /\ 0 <= n mod 10 < 10 /\ 0 <= n / 10 /\ n = 10 * (n / 10) + n mod 10.
Proof.
  intros Hn. rewrite Z.quot_div_nonneg, Z.rem_mod_nonneg by lia.
  pose proof (Z.mod_pos_bound n 10 ltac:(lia)). pose proof (Z.div_pos n 10 Hn ltac:(lia)). pose proof (Z.div_mod n 10 ltac:(lia)).
  split; [done|]. split; [done|]. split; [done|]. split; [done|lia].
Qed.

(** The generated time code: for a code of decimal digits and a difference of up
    to a day, it is the day and second that many seconds away, days modulo 1000. *)
Theorem gendifferentialtime_spec cur dt :
  0 <= bcd_second cur < 86400 -> 0 <= bcd_day cur < 1000 -> -86400 <= dt <= 86400 ->
  let new := time_bytes (gendifferentialtime cur dt) in
  length (gendifferentialtime cur dt) = 4%nat /\
  0 <= bcd_second new < 86400 /\ 0 <= bcd_day new < 1000 /\
  bcd_time new = (bcd_time cur + dt) mod 86400000.
Proof.
  intros Hs Hd Hdt new.
  assert (Hgen : forall sec day, 0 <= sec < 86400 -> 0 <= day < 1000 ->
    let s1 := cdiv sec 10 in let s2 := cdiv s1 10 in let s3 := cdiv s2 10 in let s4 := cdiv s3 10 in
    let d1 := cdiv day 10 in let d2 := cdiv d1 10 in
    let tb := time_bytes [u8 (cmod sec 10 + Z.shiftl (cmod s1 10) 4); u8 (cmod s2 10 + Z.shiftl (cmod s3 10) 4);
      u8 (cmod s4 10 + Z.shiftl (cmod day 10) 4); u8 (cmod d1 10 + Z.shiftl (cmod d2 10) 4)] in
    bcd_second tb = sec /\ bcd_day tb = day).
  { intros sec day Hsec Hday. cbv zeta.
    destruct (digits_of sec) as (-> & -> & A1 & A2 & A3); [lia|].
    destruct (digits_of (sec / 10)) as (-> & -> & B1 & B2 & B3); [lia|].
    destruct (digits_of (sec / 10 / 10)) as (-> & -> & C1 & C2 & C3); [lia|].
    destruct (digits_of (sec / 10 / 10 / 10)) as (-> & -> & D1 & D2 & D3); [lia|].
    destruct (digits_of (sec / 10 / 10 / 10 / 10)) as (_ & -> & E1 & E2 & E3); [lia|].
    destruct (digits_of day) as (-> & -> & F1 & F2 & F3); [lia|].
    destruct (digits_of (day / 10)) as (-> & -> & G1 & G2 & G3); [lia|].
    destruct (digits_of (day / 10 / 10)) as (_ & -> & H1 & H2 & H3); [lia|].
    unfold bcd_second, bcd_day, time_bytes. cbn [nth app replicate].
    destruct (digits_byte _ _ A1 B1) as [-> ->]. destruct (digits_byte _ _ C1 D1) as [-> ->].
    destruct (digits_byte _ _ E1 F1) as [-> ->]. destruct (digits_byte _ _ G1 H1) as [-> ->]. lia. }
  assert (Hdown : (if bcd_day cur - 1 <? 0 then bcd_day cur - 1 + 1000 else bcd_day cur - 1) = (bcd_day cur - 1) mod 1000).
  { destruct (Z.ltb_spec (bcd_day cur - 1) 0); [|by rewrite Z.mod_small by lia]. by replace (bcd_day cur) with 0 by lia. }
  assert (Hup : (if 1000 <=? bcd_day cur + 1 then bcd_day cur + 1 - 1000 else bcd_day cur + 1) = (bcd_day cur + 1) mod 1000).
  { destruct (Z.leb_spec 1000 (bcd_day cur + 1)); [|by rewrite Z.mod_small by lia]. by replace (bcd_day cur) with 999 by lia. }
  pose proof (Z.div_mod (bcd_day cur - 1) 1000 ltac:(lia)) as Hd1. pose proof (Z.div_mod (bcd_day cur + 1) 1000 ltac:(lia)) as Hd2.
  pose proof (Z.mod_pos_bound (bcd_day cur - 1) 1000 ltac:(lia)) as Hr1.
  pose proof (Z.mod_pos_bound (bcd_day cur + 1) 1000 ltac:(lia)) as Hr2.
  unfold new, gendifferentialtime, bcd_time. cbv zeta. rewrite Hdown, Hup.
  destruct (Z.ltb_spec (bcd_second cur + dt) 0) as [Hlt|Hge];
    [|destruct (Z.leb_spec 86400 (bcd_second cur + dt)) as [Hge2|Hlt2]]; (split; [done|]).
  - destruct (Hgen (bcd_second cur + dt + 86400) ((bcd_day cur - 1) mod 1000)) as [-> ->]; [lia|lia|]. split; [lia|]. split; [lia|].
    apply (Z.mod_unique_pos _ _ ((bcd_day cur - 1) / 1000)); lia.
  - destruct (Hgen (bcd_second cur + dt - 86400) ((bcd_day cur + 1) mod 1000)) as [-> ->]; [lia|lia|]. split; [lia|]. split; [lia|].
    apply (Z.mod_unique_pos _ _ ((bcd_day cur + 1) / 1000)); lia.
  - destruct (Hgen (bcd_second cur + dt) (bcd_day cur)) as [-> ->]; [lia|lia|]. split; [lia|]. split; [lia|].
    rewrite Z.mod_small by lia. lia.
Qed.

(** Day 999, 23:59:59. *)
Lemma gendifferentialtime_spec_witness :
  let cur := replicate 8 0 ++ [0x99; 0x63; 0x98; 0x99] in
  bcd_second cur = 86399 /\ gendifferentialtime cur 1 = [0; 0; 0; 0] /\
  bcd_time (time_bytes (gendifferentialtime cur 1)) = (bcd_time cur + 1) mod 86400000.
Proof.
  intros cur. split; [done|]. split; [done|]. by apply (gendifferentialtime_spec cur 1).
Defined.

(** ** The whole call *)

Definition good_frames (src : buffer) : list (Z * Z) :=
  let N := Z.of_nat (length src) - MARK5B_FRAME_SIZE in goods (Z.to_nat (N + 1)) src N 0.

(** The number that the output starts with, and the frames from there on. *)
Definition origin (fps startOutputFrameNumber : Z) (gs : list (Z * Z)) : option (Z * list (Z * Z)) :=
  if 0 <=? startOutputFrameNumber then Some (startOutputFrameNumber mod fps, gs)
  else match first_frames fps gs with
       | [] => None
       | (p, f) :: _ => Some (f, first_frames fps gs)
       end.

Lemma origin_range fps startN gs start gs' : 60 <= fps -> Forall (fun pf => 0 <= snd pf < fps) gs ->
  origin fps startN gs = Some (start, gs') -> 0 <= start < fps.
Proof.
  intros Hfps Hr. unfold origin. destruct (Z.leb_spec 0 startN).
  - intros [= <- <-]. apply Z.mod_pos_bound. lia.
  - assert (Hf : Forall (fun pf => 0 <= snd pf < fps) (first_frames fps gs)).
    { induction Hr as [|[p f] gs Hpf Hr IH]; [constructor|]. cbn [first_frames]. destruct (_ && _); [done|by constructor]. }
    destruct (first_frames fps gs) as [|[p f] gs1]; [done|]. intros [= <- <-]. by apply Forall_cons_1 in Hf as [? _].
Qed.

Lemma scan_in_order dest src fps startN start gs nDest : 60 <= fps <= 65536 -> 1 <= nDest < 2 ^ 30 ->
  nDest * MARK5B_FRAME_SIZE <= Z.of_nat (length dest) ->
  Forall (fun pf => 0 <= snd pf < fps) (good_frames src) ->
  origin fps startN (good_frames src) = Some (start, gs) -> steady fps (start - 1) gs ->
  let N := Z.of_nat (length src) - MARK5B_FRAME_SIZE in let pns := numbered fps (start - 1) gs in
  exists st i st', fix_start dest fps startN = Some st /\ fix_loop (Z.to_nat (N + 1)) src N fps nDest 0 st = Some (i, st') /\
    fixing src fps start (length dest) (last_number (start - 1) (inside start nDest pns)) (inside start nDest pns) st' /\
    stops_at src start nDest i pns.
Proof.
  intros Hfps HnD Hd Hr Ho Hst N pns. pose proof (origin_range fps startN _ start gs ltac:(lia) Hr Ho) as Hstart.
  unfold origin, fix_start in *. destruct (Z.leb_spec 0 startN).
  - destruct (Z.eqb_spec fps 0); [lia|]. rewrite Z.rem_mod_nonneg by lia. injection Ho as <- <-. eexists.
    destruct (fix_loop_run src fps (startN mod fps) nDest (length dest) ltac:(lia) Hstart Hd (Z.to_nat (N + 1)) ltac:(lia) ltac:(lia) 0 (startN mod fps - 1) []
      (fx_set_numbers {| fx_dest := dest; fx_nSkip := 0; fx_nFill := 0; fx_nInvalidFrame := 0; fx_nValidFrame := 0;
         fx_nLostPacket := 0; fx_second := 0; fx_lastFrameInSecond := 2 ^ 24; fx_startOutputFrame := -1; fx_lastGoodFrameNumber := 0 |}
         0 (startN mod fps - 1) (startN mod fps) (startN mod fps - 1))) as (i & st' & E & Hfx & Hstop);
      [lia|lia|lia| | |exact Hst|].
    + split; [split|..]; cbn; [done|constructor|by intros ? ? ?%elem_of_nil|lia|done..].
    + unfold tracks. cbn. lia.
    + by exists i, st'.
  - destruct (first_frames fps (good_frames src)) as [|[p f] gs1] eqn:Efirst; [done|]. injection Ho as -> <-. eexists.
    destruct (fix_loop_fresh src fps start nDest (length dest) ltac:(lia) Hstart Hd (Z.to_nat (N + 1)) ltac:(lia) ltac:(lia) 0 dest
      {| fx_dest := dest; fx_nSkip := 0; fx_nFill := 0; fx_nInvalidFrame := 0; fx_nValidFrame := 0;
         fx_nLostPacket := 0; fx_second := 0; fx_lastFrameInSecond := 2 ^ 24; fx_startOutputFrame := -1; fx_lastGoodFrameNumber := 0 |}
      gs1 p) as (i & st' & E & Hfx & Hstop); [lia|lia|done|by split_and!|done|done|done|].
    by exists i, st'.
Qed.

Lemma mark5bfix_in_order_rep dest destSize src fps startN stats start gs :
  60 <= fps <= 65536 -> MARK5B_FRAME_SIZE <= destSize < 2 ^ 31 -> destSize <= Z.of_nat (length dest) ->
  Forall (fun pf => 0 <= snd pf < fps) (good_frames src) ->
  origin fps startN (good_frames src) = Some (start, gs) -> steady fps (start - 1) gs ->
  let N := Z.of_nat (length src) - MARK5B_FRAME_SIZE in
  let nDest := destSize / MARK5B_FRAME_SIZE in let pns := numbered fps (start - 1) gs in
  let taken := inside start nDest pns in
  taken <> [] ->
  exists i dest' stats', mark5bfix dest destSize src (Z.of_nat (length src)) fps startN stats = Some (i, dest', stats') /\
    stops_at src start nDest i pns /\
    let end_number := if i <=? N then start + nDest - 1 else last_number (start - 1) taken in
    filled src fps start (length dest) end_number taken dest' /\
    fs_destUsed stats' = (end_number - start + 1) * MARK5B_FRAME_SIZE /\ fs_srcUsed stats' = i /\
    fs_startFrameNumber stats' = start /\ fs_nValidFrame stats' = fs_nValidFrame stats + Z.of_nat (length taken).
Proof.
  intros Hfps HdS Hd Hr Ho Hst N nDest pns taken Hne.
  assert (HnD : 1 <= nDest < 2 ^ 30).
  { unfold nDest, MARK5B_FRAME_SIZE in *. split; [apply Z.div_le_lower_bound; lia|apply Z.div_lt_upper_bound; lia]. }
  assert (Hdest : nDest * MARK5B_FRAME_SIZE <= Z.of_nat (length dest)).
  { unfold nDest. rewrite Z.mul_comm. etrans; [apply Z.mul_div_le; done|done]. }
  pose proof (origin_range fps startN _ start gs ltac:(lia) Hr Ho) as Hstart.
  destruct (scan_in_order dest src fps startN start gs nDest Hfps HnD Hdest Hr Ho Hst) as (st & i & st' & E1 & E2 & Hfx & Hstop).
  fold N in E2. fold pns taken in Hfx, Hstop. destruct (last_number_in (start - 1) taken Hne) as [p Hp].
  set (prev := last_number (start - 1) taken) in *.
  assert (Hprev : start <= prev < start + nDest).
  { split.
    - destruct Hfx as [[_ F2 _ _] _ _ _]. rewrite Forall_forall in F2. by apply (F2 (p, prev)), list_elem_of_In.
    - by apply list_elem_of_filter in Hp as [? _]. }
  destruct (fill_rest_spec src fps start nDest (length dest) ltac:(lia) Hstart Hdest prev taken st' i p Hprev Hp Hfx) as (st2 & E3 & Hfx2).
  unfold mark5bfix. rewrite Z.quot_div_nonneg by (unfold MARK5B_FRAME_SIZE in *; lia). fold nDest N. rewrite E1. cbn [mbind option_bind].
  rewrite E2. cbn [mbind option_bind]. destruct Hfx as [_ G2 G3 _]. rewrite G2, G3. destruct (Z.ltb_spec prev start); [lia|].
  fold N in E3, Hfx2. rewrite E3. cbn [mbind option_bind]. destruct Hfx2 as [Hfill H2 H3 H4]. unfold fix_statistics.
  rewrite bytes_at_Some by (rewrite ?(fl_length _ _ _ _ _ _ _ Hfill); unfold MARK5B_FRAME_SIZE in *; lia). cbn [mbind option_bind].
  destruct (Z.eqb_spec fps 0); [lia|]. cbn [mbind option_bind].
  eexists _, _, _. split; [reflexivity|]. split; [exact Hstop|]. cbn [fs_destUsed fs_srcUsed fs_startFrameNumber fs_nValidFrame].
  rewrite H2, H3, H4. by split_and!.
Qed.


(** A source of three frames of a stream with 60 frames per second, after four
    other bytes: 59, then 1 and 5 of the next second.  The destination has four
    places: 59, the missing 60, 61 and the missing 62. *)
Definition mark5b_example_frame (f second : Z) : buffer :=
  le_split 4 MARK5B_SYNC_WORD ++ [f; 0; 0; 0; second; 0; 0; 0; 0; 0; 0; 0] ++ replicate (Z.to_nat 10000) 0.
Definition mark5b_example_source : buffer := [0; 0; 0; 0] ++ mark5b_example_frame 59 7 ++ mark5b_example_frame 1 8 ++ mark5b_example_frame 5 8.


(** ** Types *)

(** A destination of [L] bytes. *)
Definition dest_ok (L : nat) (dest : buffer) : Prop := length dest = L /\ bytes_ok dest.

Lemma put_ok L buf off bs buf' : put buf off bs = Some buf' -> bytes_ok bs -> dest_ok L buf -> dest_ok L buf'.
Proof.
  unfold put. case_decide as Hd; [|done]. intros [= <-] Hbs [Hl Hb]. split.
  - rewrite !length_app, length_take, length_drop. lia.
  - apply Forall_app. split; [by apply Forall_take|]. apply Forall_app. split; [done|by apply Forall_drop].
Qed.

Lemma lor_byte a b : is_byte a -> is_byte b -> is_byte (Z.lor a b).
Proof.
  unfold is_byte. intros Ha Hb. assert (H0 : 0 <= Z.lor a b) by (apply Z.lor_nonneg; lia). split; [done|].
  destruct (Z.eq_dec (Z.lor a b) 0) as [->|Hne]; [done|]. change 256 with (2 ^ 8). apply Z.log2_lt_pow2; [lia|].
  rewrite Z.log2_lor by lia. apply Z.max_lub_lt.
  - destruct (Z.eq_dec a 0) as [->|?]; [done|]. apply Z.log2_lt_pow2; lia.
  - destruct (Z.eq_dec b 0) as [->|?]; [done|]. apply Z.log2_lt_pow2; lia.
Qed.

Lemma u8_byte x : is_byte (u8 x).
Proof. apply (uwrap_range 8). lia. Qed.

Lemma gendifferentialtime_bytes cur d : bytes_ok (gendifferentialtime cur d).
Proof. unfold gendifferentialtime. repeat case_match; repeat apply Forall_cons_2; try apply u8_byte; constructor. Qed.

Lemma mark_lost_ok L fps start known cur m dest dest' : bytes_ok cur ->
  dest_ok L dest -> mark_lost fps start known cur m dest = Some dest' -> dest_ok L dest'.
Proof.
  intros Hc Hd. unfold mark_lost. cbv zeta.
  destruct (put dest _ _) as [d1|] eqn:E1; [|done]. cbn [mbind option_bind].
  apply (put_ok L) in E1; [|apply le_split_bytes|done].
  destruct (put d1 _ _) as [d2|] eqn:E2; [|done]. cbn [mbind option_bind]. apply (put_ok L) in E2; [| |done].
  2: { repeat apply Forall_cons_2; [|apply u8_byte|constructor]. change 255 with (Z.ones 8). unfold is_byte.
       rewrite Z.land_ones by lia. by apply Z.mod_pos_bound. }
  destruct (put d2 _ _) as [d3|] eqn:E3; [|done]. cbn [mbind option_bind]. apply (put_ok L) in E3; [| |done].
  2: { case_match; [by apply bytes_ok_slice|apply gendifferentialtime_bytes]. }
  unfold byte_at, bytes_at. case_decide as Hd5; [|done]. cbn [fmap option_fmap option_map mbind option_bind].
  intros E4. apply (put_ok L) in E4; [done| |done]. apply Forall_cons_2; [|constructor]. apply lor_byte; [|done].
  destruct E3 as [_ Hb3]. pose proof (bytes_ok_slice d3 (Z.to_nat ((m - start) * MARK5B_FRAME_SIZE + 5)) 1 Hb3) as Hs.
  assert (Hlen : length (slice d3 (Z.to_nat ((m - start) * MARK5B_FRAME_SIZE + 5)) 1) = 1%nat)
    by (unfold slice; rewrite length_take, length_drop; lia).
  destruct (slice d3 _ 1) as [|b [|]]; [done| |done]. rewrite le_combine_1. by apply Forall_cons_1 in Hs as [? _].
Qed.

Lemma mark_lost_frames_ok L fps start known cur from n dest dest' : bytes_ok cur ->
  dest_ok L dest -> mark_lost_frames fps start known cur from n dest = Some dest' -> dest_ok L dest'.
Proof. intros Hc Hd E. refine (run_iters_all _ (dest_ok L) _ _ _ _ Hd E). intros k d d' H Hm. by eapply mark_lost_ok. Qed.

Lemma track_second_dest fps f st : fx_dest (track_second fps f st) = fx_dest st.
Proof. unfold track_second. by repeat case_match. Qed.

Lemma bytes_at_bytes buf off n bs : bytes_ok buf -> bytes_at buf off n = Some bs -> bytes_ok bs.
Proof. unfold bytes_at. case_decide; [|done]. intros Hb [= <-]. by apply bytes_ok_slice. Qed.

Lemma take_frame_ok L src i fps nDest f st full st' : bytes_ok src ->
  dest_ok L (fx_dest st) -> take_frame src i fps nDest f st = Some (full, st') -> dest_ok L (fx_dest st').
Proof.
  intros Hsrc Hd. rewrite <-(track_second_dest fps f st) in Hd. unfold take_frame. set (st1 := track_second fps f st) in *.
  destruct (sint (fx_second st1 * fps)) as [shift|]; [|done]. cbn [mbind option_bind].
  destruct (sint (f + shift)) as [n|]; [|done]. cbn [mbind option_bind].
  destruct (n <? fx_startOutputFrame st1); [by intros [= <- <-]|].
  destruct (nDest <=? n - fx_startOutputFrame st1); [by intros [= <- <-]|].
  destruct (fps =? 0); [done|]. match goal with |- context[Z.to_nat ?l] => set (lost := l) end.
  destruct (bytes_at src i _) as [cur|] eqn:Ec; [|done]. cbn [mbind option_bind]. apply bytes_at_bytes in Ec; [|done].
  destruct (mark_lost_frames _ _ _ _ _ _ _) as [d1|] eqn:E1; [|done]. cbn [mbind option_bind].
  destruct (put d1 _ _) as [d2|] eqn:E2; [|done]. cbn [mbind option_bind]. intros [= <- <-].
  cbn [fx_set_numbers fx_set_dest fx_dest]. eapply put_ok; [exact E2|done|]. by eapply mark_lost_frames_ok.
Qed.

Lemma fix_loop_ok L src srcSize fps nDest fuel i st i' st' : bytes_ok src -> 0 <= i <= srcSize ->
  dest_ok L (fx_dest st) -> fix_loop fuel src (srcSize - MARK5B_FRAME_SIZE) fps nDest i st = Some (i', st') ->
  dest_ok L (fx_dest st') /\ 0 <= i' <= srcSize.
Proof.
  intros Hsrc. revert i st. induction fuel as [|fuel IH]; intros i st Hi Hd; cbn [fix_loop].
  { by destruct (i <=? srcSize - MARK5B_FRAME_SIZE); [|intros [= <- <-]]. }
  destruct (Z.leb_spec i (srcSize - MARK5B_FRAME_SIZE)) as [Hle|Hgt]; [|by intros [= <- <-]].
  destruct (look src _ i) as [s|]; [|done]. cbn [mbind option_bind].
  assert (Hnext : 0 <= i + sight_step s <= srcSize) by (destruct s; unfold sight_step, MARK5B_FRAME_SIZE in *; lia).
  destruct s as [| | | |f]; [by apply IH..|].
  destruct (take_frame src i fps nDest f st) as [[full st1]|] eqn:E; [|done]. cbn [mbind option_bind].
  apply (take_frame_ok L) in E; [|done|done]. destruct full; [by intros [= <- <-]|by apply IH].
Qed.

Lemma mark5bfix_types_rep dest destSize src srcSize fps startN stats r dest' stats' :
  bytes_ok dest -> bytes_ok src -> 0 <= srcSize ->
  mark5bfix dest destSize src srcSize fps startN stats = Some (r, dest', stats') ->
  dest_ok (length dest) dest' /\ -1 <= r <= srcSize.
Proof.
  intros Hdest Hsrc HN. unfold mark5bfix. destruct (fix_start dest fps startN) as [st|] eqn:E0; [|done]. cbn [mbind option_bind].
  assert (Hst : dest_ok (length dest) (fx_dest st)).
  { unfold fix_start in E0. destruct (0 <=? startN); [destruct (fps =? 0); [done|]|]; by injection E0 as <-. }
  destruct (fix_loop _ _ _ _ _ _ _) as [[i st1]|] eqn:E1; [|done]. cbn [mbind option_bind].
  apply (fix_loop_ok (length dest)) in E1 as [Hd1 Hi]; [|done|lia|done].
  destruct (_ <? _); [intros [= <- <- <-]; split; [done|lia]|].
  destruct (fill_rest _ _ _ _ _) as [st2|] eqn:E2; [|done]. cbn [mbind option_bind].
  assert (Hd2 : dest_ok (length dest) (fx_dest st2)).
  { unfold fill_rest in E2. destruct (_ && _); [|by injection E2 as <-]. destruct (fps =? 0); [done|].
    destruct (bytes_at _ _ _) as [cur|] eqn:Ec; [|done]. cbn [mbind option_bind] in E2. apply bytes_at_bytes in Ec; [|apply Hd1].
    destruct (mark_lost_frames _ _ _ _ _ _ _) as [d2|] eqn:Em; [|done]. cbn [mbind option_bind] in E2. injection E2 as <-.
    by eapply mark_lost_frames_ok. }
  destruct (fix_statistics _ _ _ _ _ _) as [stats1|]; [|done]. cbn [mbind option_bind]. intros [= <- <- <-]. split; [done|lia].
Qed.


Lemma bytes_ok_check buf : forallb (fun b => (0 <=? b) && (b <? 256)) buf = true -> bytes_ok buf.
Proof.
  intros H. apply List.Forall_forall. intros b Hin. apply (proj1 (List.forallb_forall _ _) H) in Hin.
  by apply andb_prop in Hin as [?%Z.leb_le ?%Z.ltb_lt].
Qed.


(** ** No frames, and frames out of order *)

Lemma fix_loop_nothing src fps nDest fuel : let N := Z.of_nat (length src) - MARK5B_FRAME_SIZE in
  forall i st, 0 <= i -> N + 1 - i <= Z.of_nat fuel -> goods fuel src N i = [] ->
  exists i' st', fix_loop fuel src N fps nDest i st = Some (i', st') /\ N < i' /\ fx_dest st' = fx_dest st /\
    fx_startOutputFrame st' = fx_startOutputFrame st /\ fx_lastGoodFrameNumber st' = fx_lastGoodFrameNumber st.
Proof.
  intros N. induction fuel as [|fuel IH]; intros i st Hi Hfuel Hg; cbn [goods fix_loop] in *.
  all: destruct (Z.leb_spec i N) as [Hle|Hgt]; [try lia|by exists i, st].
  destruct (look_total src N i) as [s Es]; [done|lia|]. rewrite Es in *. cbn [mbind option_bind]. pose proof (sight_step_pos s).
  assert (Hskip : goods fuel src N (i + sight_step s) = [] -> exists i' st', fix_loop fuel src N fps nDest (i + sight_step s) (count_sight s st) = Some (i', st') /\
    N < i' /\ fx_dest st' = fx_dest st /\ fx_startOutputFrame st' = fx_startOutputFrame st /\
    fx_lastGoodFrameNumber st' = fx_lastGoodFrameNumber st) by (intros Hg'; apply (IH (i + sight_step s) (count_sight s st)); [lia|lia|done]).
  by destruct s; [apply Hskip..|].
Qed.

(** C24 A call on a source without good frames: when the number of the first output
    frame is given, the result is -1 and nothing has been written.  When it is not
    given, the call reports success, with an output of two frames that starts with
    number -1, in a destination that nothing has been written to. *)
Theorem mark5bfix_no_frames dest destSize src fps startN stats : 1 <= fps -> 11 <= Z.of_nat (length dest) ->
  good_frames src = [] ->
  let N := Z.of_nat (length src) - MARK5B_FRAME_SIZE in
  let result := mark5bfix dest destSize src (Z.of_nat (length src)) fps startN stats in
  if 0 <=? startN then result = Some (-1, dest, stats)
  else exists i stats', result = Some (i, dest, stats') /\ N < i /\
    fs_destUsed stats' = 2 * MARK5B_FRAME_SIZE /\ fs_startFrameNumber stats' = -1.
Proof.
  intros Hfps Hd Hg N result. unfold result, mark5bfix, fix_start. fold N.
  assert (Hloop := fix_loop_nothing src fps (cdiv destSize MARK5B_FRAME_SIZE) (Z.to_nat (N + 1))). cbv zeta in Hloop. fold N in Hloop.
  destruct (Z.leb_spec 0 startN).
  - destruct (Z.eqb_spec fps 0); [lia|]. cbn [mbind option_bind].
    match goal with |- context[fix_loop _ _ _ _ _ 0 ?st] =>
      destruct (Hloop 0 st ltac:(lia) ltac:(lia) Hg) as (i & st' & -> & Hi & E1 & E2 & E3) end.
    cbn [mbind option_bind]. rewrite E1, E2, E3. cbn [fx_set_numbers fx_dest fx_startOutputFrame fx_lastGoodFrameNumber].
    by destruct (Z.ltb_spec (cmod startN fps - 1) (cmod startN fps)); [|lia].
  - cbn [mbind option_bind].
    match goal with |- context[fix_loop _ _ _ _ _ 0 ?st] =>
      destruct (Hloop 0 st ltac:(lia) ltac:(lia) Hg) as (i & st' & -> & Hi & E1 & E2 & E3) end.
    cbn [mbind option_bind]. cbn [fx_dest fx_startOutputFrame fx_lastGoodFrameNumber] in E1, E2, E3.
    rewrite E2, E3. cbn [Z.ltb Z.compare]. unfold fill_rest. destruct (Z.leb_spec i N); [lia|]. cbn [andb mbind option_bind].
    unfold fix_statistics. rewrite E1, bytes_at_Some by lia. cbn [mbind option_bind]. destruct (Z.eqb_spec fps 0); [lia|]. cbn [mbind option_bind].
    eexists i, _. split; [reflexivity|]. cbn [fs_destUsed fs_startFrameNumber]. by rewrite E2, E3.
Qed.

Lemma mark5bfix_no_frames_witness :
  let dest := replicate 11 7 in let src := replicate (Z.to_nat 10020) 0 in
  good_frames src = [] /\ mark5bfix dest 0 src 10020 25600 0 resetmark5bfixstatistics = Some (-1, dest, resetmark5bfixstatistics) /\
  exists i stats', mark5bfix dest 0 src 10020 25600 (-1) resetmark5bfixstatistics = Some (i, dest, stats') /\ fs_destUsed stats' = 20032.
Proof.
  intros dest src. assert (Eg : good_frames src = []) by (vm_compute; reflexivity).
  assert (Hsrc : Z.of_nat (length src) = 10020) by (vm_compute; reflexivity). split; [exact Eg|].
  pose proof (mark5bfix_no_frames dest 0 src 25600 0 resetmark5bfixstatistics ltac:(lia) ltac:(by vm_compute) Eg) as H0.
  pose proof (mark5bfix_no_frames dest 0 src 25600 (-1) resetmark5bfixstatistics ltac:(lia) ltac:(by vm_compute) Eg) as H1.
  rewrite Hsrc in H0, H1. split; [exact H0|]. destruct H1 as (i & stats' & E & _ & Hu & _).
  exists i, stats'. split; [exact E|exact Hu].
Defined.

(** A frame of number 30 or more that is below the last one, without a new second
    seen in between, counts as missing all frames that wrap around the second; when
    their places begin before the destination, the bytes before it are written. *)
Lemma take_frame_before src i fps nDest f st : fx_second st = 0 -> 0 <= fx_startOutputFrame st <= f -> 30 <= f < fx_lastFrameInSecond st ->
  fx_lastFrameInSecond st < fps <= 65536 -> f - fx_startOutputFrame st < nDest ->
  let missed := f - fx_lastFrameInSecond st - 1 + fps in
  0 < missed < fps / 2 -> f - missed < fx_startOutputFrame st ->
  take_frame src i fps nDest f st = None.
Proof.
  intros Hs Hf1 Hf2 Hfps Hin missed Hm Hb. unfold take_frame.
  assert (Et : track_second fps f st = st).
  { unfold track_second. destruct (Z.ltb_spec f (fx_lastFrameInSecond st)); [|done].
    destruct (Z.eqb_spec (fx_lastFrameInSecond st) (2 ^ 24)); [lia|]. by destruct (Z.ltb_spec f 30); [lia|]. }
  rewrite Et, Hs, Z.mul_0_l, sint_Some by lia. cbn [mbind option_bind]. rewrite Z.add_0_r, sint_Some by lia. cbn [mbind option_bind].
  destruct (Z.ltb_spec f (fx_startOutputFrame st)); [lia|]. destruct (Z.leb_spec nDest (f - fx_startOutputFrame st)); [lia|].
  destruct (Z.eqb_spec fps 0); [done|]. rewrite Z.rem_mod_nonneg, Z.mod_small by lia. fold missed.
  rewrite Z.quot_div_nonneg by lia. destruct (Z.ltb_spec 0 missed); [|lia]. destruct (Z.ltb_spec missed (fps / 2)); [|lia]. cbn [andb].
  destruct (bytes_at src i _) as [cur|]; [|done]. cbn [mbind option_bind]. destruct (Z.to_nat missed) as [|k] eqn:Ek; [lia|].
  unfold mark_lost_frames. cbn [seq run_iters].
  assert (El : forall cur dest, mark_lost fps (fx_startOutputFrame st) f cur (f - missed + Z.of_nat 0) dest = None).
  { intros cur' dest. unfold mark_lost. cbv zeta. rewrite put_before; [done|]. unfold MARK5B_FRAME_SIZE. lia. }
  by rewrite El.
Qed.
