(* ===== verification/Mark5Stream.v ===== *)
(** * Mark5Stream: streams of frames that are decoded

    The core of [mark5access] as the decoders of Mark5B and VDIF use it: the
    position in a stream, the next frame of an unpacker
    ([mark5_stream_unpacker.c]) or of data in memory ([mark5_stream_memory.c]),
    the validity of a frame, the search for fill pattern in a payload
    ([blanker_mark5.c]).

    All data are one byte list [mem]; a pointer into it is an offset, which may
    be outside as long as nothing is read there; NULL is [None].  Of the streams
    only the fields are modelled that these operations use. *)
From S2P Require Export Mark5bFix.
#[local] Open Scope Z_scope.

Definition MAXBLANKZONES : nat := 32.
Definition MARK5_FILL_WORD32 : Z := 0x11223344.
Definition MARK5_FILL_WORD64 : Z := 0x1122334411223344.

(** The values of [next], [validate] and [blanker]; a stream in memory ends at an
    offset. *)
Inductive next_function : Type :=
  | mark5_stream_unpacker_next
  | mark5_stream_unpacker_next_noheaders
  | mark5_stream_memory_next (end_ : Z).
Inductive validate_function : Type :=
  | one
  | mark5_format_vdif_validate.
Inductive blanker_function : Type :=
  | call_blanker_none
  | call_blanker_mark5
  | call_blanker_vdif.

Record mark5_stream : Type := {
  ms_nchan : Z;
  ms_nbit : Z;
  ms_decimation : Z;
  ms_framebytes : Z;
  ms_databytes : Z;
  ms_framesamples : Z;
  ms_samplegranularity : Z;
  ms_payloadoffset : Z;
  ms_framenum : Z;
  ms_nvalidatefail : Z;
  ms_nvalidatepass : Z;
  ms_consecutivefails : Z;
  ms_frame : option Z;
  ms_payload : option Z;
  ms_readposition : Z;
  ms_log2blankzonesize : Z;
  ms_blankzonestartvalid : list Z;
  ms_blankzoneendvalid : list Z;
  ms_next : next_function;
  ms_validate : validate_function;
  ms_blanker : blanker_function }.

(** A change of the position in the stream. *)
Definition ms_move (ms : mark5_stream) (framenum : Z) (frame payload : option Z) (readposition : Z) : mark5_stream :=
  {| ms_nchan := ms_nchan ms; ms_nbit := ms_nbit ms; ms_decimation := ms_decimation ms; ms_framebytes := ms_framebytes ms;
     ms_databytes := ms_databytes ms; ms_framesamples := ms_framesamples ms; ms_samplegranularity := ms_samplegranularity ms;
     ms_payloadoffset := ms_payloadoffset ms; ms_framenum := framenum; ms_nvalidatefail := ms_nvalidatefail ms;
     ms_nvalidatepass := ms_nvalidatepass ms; ms_consecutivefails := ms_consecutivefails ms;
     ms_frame := frame; ms_payload := payload; ms_readposition := readposition;
     ms_log2blankzonesize := ms_log2blankzonesize ms; ms_blankzonestartvalid := ms_blankzonestartvalid ms;
     ms_blankzoneendvalid := ms_blankzoneendvalid ms; ms_next := ms_next ms; ms_validate := ms_validate ms; ms_blanker := ms_blanker ms |}.

(** A frame that is valid or not has been seen. *)
Definition ms_count_frame (ms : mark5_stream) (valid : bool) : mark5_stream :=
  {| ms_nchan := ms_nchan ms; ms_nbit := ms_nbit ms; ms_decimation := ms_decimation ms; ms_framebytes := ms_framebytes ms;
     ms_databytes := ms_databytes ms; ms_framesamples := ms_framesamples ms; ms_samplegranularity := ms_samplegranularity ms;
     ms_payloadoffset := ms_payloadoffset ms; ms_framenum := ms_framenum ms; ms_nvalidatefail := if valid then ms_nvalidatefail ms else ms_nvalidatefail ms + 1;
     ms_nvalidatepass := if valid then ms_nvalidatepass ms + 1 else ms_nvalidatepass ms; ms_consecutivefails := if valid then 0 else ms_consecutivefails ms + 1;
     ms_frame := ms_frame ms; ms_payload := ms_payload ms; ms_readposition := ms_readposition ms;
     ms_log2blankzonesize := ms_log2blankzonesize ms; ms_blankzonestartvalid := ms_blankzonestartvalid ms;
     ms_blankzoneendvalid := ms_blankzoneendvalid ms; ms_next := ms_next ms; ms_validate := ms_validate ms; ms_blanker := ms_blanker ms |}.

(** A change of the blanked zones. *)
Definition ms_set_zones (ms : mark5_stream) (log2 : Z) (startvalid endvalid : list Z) : mark5_stream :=
  {| ms_nchan := ms_nchan ms; ms_nbit := ms_nbit ms; ms_decimation := ms_decimation ms; ms_framebytes := ms_framebytes ms;
     ms_databytes := ms_databytes ms; ms_framesamples := ms_framesamples ms; ms_samplegranularity := ms_samplegranularity ms;
     ms_payloadoffset := ms_payloadoffset ms; ms_framenum := ms_framenum ms; ms_nvalidatefail := ms_nvalidatefail ms;
     ms_nvalidatepass := ms_nvalidatepass ms; ms_consecutivefails := ms_consecutivefails ms;
     ms_frame := ms_frame ms; ms_payload := ms_payload ms; ms_readposition := ms_readposition ms;
     ms_log2blankzonesize := log2; ms_blankzonestartvalid := startvalid;
     ms_blankzoneendvalid := endvalid; ms_next := ms_next ms; ms_validate := ms_validate ms; ms_blanker := ms_blanker ms |}.

Definition ms_set_payload (ms : mark5_stream) (payload : option Z) : mark5_stream :=
  ms_move ms (ms_framenum ms) (ms_frame ms) payload (ms_readposition ms).
Definition ms_set_readposition (ms : mark5_stream) (readposition : Z) : mark5_stream :=
  ms_move ms (ms_framenum ms) (ms_frame ms) (ms_payload ms) readposition.

(** ** Fill pattern *)

(** Word [i] of the payload at [data], of 64 and of 32 bits. *)
Definition data64 (mem : buffer) (data i : Z) : option Z := le_combine <$> bytes_at mem (data + 8 * i) 8.
Definition data32 (mem : buffer) (data i : Z) : option Z := le_combine <$> bytes_at mem (data + 4 * i) 4.

(** The bisections of [findfirstinvalid] and [findfirstvalid]: a word that meets the
    condition is the new result, and the search goes on before it. *)
Fixpoint bisect (fuel : nat) (hit : Z -> option bool) (i r s : Z) : option Z :=
  if 0 <? s then
    match fuel with
    | O => None
    | S fuel =>
        h ← hit i;
        if (h : bool) then bisect fuel hit (i - s) i (Z.shiftr s 1) else bisect fuel hit (i + s) r (Z.shiftr s 1)
    end
  else Some r.

Definition findfirstinvalid (mem : buffer) (data start end_ : Z) : option Z :=
  let n := end_ - start in
  r ← bisect 32 (fun i => w ← data64 mem data (start + i); Some (w =? MARK5_FILL_WORD64)) (cdiv n 2) (n - 1) (cdiv n 4);
  let r := 8 * (start + r) in
  w ← data32 mem data (cdiv r 4 - 1);
  Some (if w =? MARK5_FILL_WORD32 then r - 4 else r).

Definition findfirstvalid (mem : buffer) (data start end_ : Z) : option Z :=
  let n := end_ - start in
  r ← bisect 32 (fun i => w ← data64 mem data (start + i); Some (negb (w =? MARK5_FILL_WORD64))) (cdiv n 2) (n - 1) (cdiv n 4);
  let r := 8 * (start + r) in
  w ← data32 mem data (cdiv r 4 - 2);
  Some (if w =? MARK5_FILL_WORD32 then r + 4 else r).

(** ** Blankers *)

(** [zones[zone] = v] *)
Definition set_zone (zones : list Z) (zone : nat) (v : Z) : option (list Z) :=
  if decide (zone < length zones)%nat then Some (<[zone := v]> zones) else None.

Definition blanker_none (ms : mark5_stream) : option (Z * mark5_stream) :=
  startvalid ← set_zone (ms_blankzonestartvalid ms) 0 0;
  endvalid ← set_zone (ms_blankzoneendvalid ms) 0 (2 ^ 30);
  Some (0, ms_set_zones ms 30 startvalid endvalid).

(** The words [b, e): what is valid of them, and how many bytes are not. *)
Definition blank_zone (mem : buffer) (data b e : Z) : option (Z * Z * Z) :=
  wb ← data64 mem data b;
  we ← data64 mem data (e - 1);
  let startOK := negb (wb =? MARK5_FILL_WORD64) in
  let endOK := negb (we =? MARK5_FILL_WORD64) in
  if startOK && endOK then Some (0, 2 ^ 30, 0)
  else if negb startOK && negb endOK then Some (2 ^ 30, 0, (e - b) * 8)
  else if startOK then
    endvalid ← findfirstinvalid mem data b e;
    Some (0, endvalid, e * 8 - endvalid)
  else
    startvalid ← findfirstvalid mem data b e;
    Some (startvalid, 2 ^ 30, if b * 8 <? startvalid then startvalid - b * 8 else 0).

(** [for(b = 0; b < nword; b += zonesize)] *)
Fixpoint blank_zones (fuel : nat) (mem : buffer) (data nword zonesize b : Z) (zone : nat) (startvalid endvalid : list Z)
    (nblanked : Z) : option (list Z * list Z * Z) :=
  if b <? nword then
    match fuel with
    | O => None
    | S fuel =>
        let e := if nword <? b + zonesize then nword else b + zonesize in
        '(s, v, n) ← blank_zone mem data b e;
        startvalid ← set_zone startvalid zone s;
        endvalid ← set_zone endvalid zone v;
        blank_zones fuel mem data nword zonesize (b + zonesize) (S zone) startvalid endvalid (nblanked + n)
    end
  else Some (startvalid, endvalid, nblanked).

Definition blanker_mark5 (mem : buffer) (ms : mark5_stream) : option (Z * mark5_stream) :=
  match ms_payload ms with
  | None =>
      startvalid ← set_zone (ms_blankzonestartvalid ms) 0 0;
      endvalid ← set_zone (ms_blankzoneendvalid ms) 0 0;
      Some (0, ms_set_zones ms 15 startvalid endvalid)
  | Some data =>
      let zonesize := Z.shiftl 1 (15 - 3) in
      let nword := cdiv (ms_databytes ms) 8 in
      '(startvalid, endvalid, nblanked) ← blank_zones (S (Z.to_nat nword)) mem data nword zonesize 0 0
        (ms_blankzonestartvalid ms) (ms_blankzoneendvalid ms) 0;
      Some (nblanked, ms_set_zones ms 15 startvalid endvalid)
  end.

(** A payload of VDIF is good or bad as a whole. *)
Definition blanker_vdif (mem : buffer) (ms : mark5_stream) : option (Z * mark5_stream) :=
  match ms_payload ms with
  | None =>
      endvalid ← set_zone (ms_blankzoneendvalid ms) 0 0;
      Some (0, ms_set_zones ms (ms_log2blankzonesize ms) (ms_blankzonestartvalid ms) endvalid)
  | Some data =>
      let nword := cdiv (ms_databytes ms) 8 in
      startvalid ← set_zone (ms_blankzonestartvalid ms) 0 0;
      first ← data64 mem data 0;
      fill ← (if first =? MARK5_FILL_WORD64 then Some true
              else last ← data64 mem data (nword - 1); Some (last =? MARK5_FILL_WORD64));
      endvalid ← set_zone (ms_blankzoneendvalid ms) 0 (if (fill : bool) then 0 else 2 ^ 30);
      Some (if (fill : bool) then 0 else nword, ms_set_zones ms (ms_log2blankzonesize ms) startvalid endvalid)
  end.

Definition call_blanker (mem : buffer) (ms : mark5_stream) : option (Z * mark5_stream) :=
  match ms_blanker ms with
  | call_blanker_none => blanker_none ms
  | call_blanker_mark5 => blanker_mark5 mem ms
  | call_blanker_vdif => blanker_vdif mem ms
  end.

Definition mark5_stream_blank_frame (ms : mark5_stream) : mark5_stream :=
  ms_set_zones ms (ms_log2blankzonesize ms) (replicate MAXBLANKZONES (2 ^ 30)) (replicate MAXBLANKZONES 0).

(** ** Validity *)

(** [ms->validate(ms)].  For VDIF, of a stream without a date, as an unpacker is
    after [mark5_format_init]: the time of the frame is not compared then. *)
Definition call_validate (mem : buffer) (ms : mark5_stream) (frame : Z) : option bool :=
  match ms_validate ms with
  | one => Some true
  | mark5_format_vdif_validate =>
      word2 ← data32 mem frame 2;
      if word2 =? 0 then Some false else
      word0 ← data32 mem frame 0;
      Some (Z.land (Z.shiftr word0 31) 1 =? 0)
  end.

(** ** The next frame *)

(** [ms->next(ms)]; a NULL payload stays NULL where C adds an offset to it, since it is
    set from the frame then. *)
Definition call_next (ms : mark5_stream) : option (Z * mark5_stream) :=
  match ms_next ms with
  | mark5_stream_unpacker_next =>
      Some (0, ms_move ms (ms_framenum ms + 1) ((fun f => f + ms_framebytes ms) <$> ms_frame ms)
        ((fun p => p + ms_framebytes ms) <$> ms_payload ms) 0)
  | mark5_stream_unpacker_next_noheaders =>
      Some (0, ms_move ms (ms_framenum ms + 1) ((fun f => f + ms_framebytes ms) <$> ms_frame ms)
        ((fun p => p + ms_databytes ms) <$> ms_payload ms) 0)
  | mark5_stream_memory_next end_ =>
      frame ← ms_frame ms;
      let frame := frame + ms_framebytes ms in
      if end_ <? frame + ms_framebytes ms
      then Some (-1, ms_move ms (ms_framenum ms) (Some frame) (ms_payload ms) (-1))
      else Some (ms_framebytes ms, ms_move ms (ms_framenum ms + 1) (Some frame) (ms_payload ms) 0)
  end.

Definition mark5_stream_next_frame (mem : buffer) (ms : mark5_stream) : option (Z * mark5_stream) :=
  '(n, ms) ← call_next ms;
  if n <? 0 then Some (-1, ms_set_payload ms None) else
  '(v, ms) ← (match ms_frame ms with
              | None => Some (true, ms)
              | Some frame =>
                  v ← call_validate mem ms frame;
                  Some (v, ms_set_payload (ms_count_frame ms v) (Some (frame + ms_payloadoffset ms)))
              end);
  if (v : bool) then '(_, ms) ← call_blanker mem ms; Some (0, ms) else Some (0, mark5_stream_blank_frame ms).
