(* ===== verification/Mark5StreamTheorems.v ===== *)
(** * Mark5StreamTheorems: fill pattern and frames

    What [blanker_mark5] takes for valid in a payload of Mark5B that begins or ends
    with fill pattern, and the frames that follow each other in a stream. *)
From S2P Require Export Mark5bFixTheorems Mark5Stream.
#[local] Open Scope Z_scope.

(** ** Words *)

(** A check of all numbers of a range holds for each. *)
Lemma forallb_seq (f : nat -> bool) a n i : forallb f (seq a n) = true -> (i < n)%nat -> f (a + i)%nat = true.
Proof. intros H Hi. apply (proj1 (List.forallb_forall _ _) H), List.in_seq. lia. Qed.

Lemma slice_bytes_ok mem off n : bytes_ok mem -> bytes_ok (slice mem off n).
Proof. intros H. unfold slice. apply List.Forall_forall. intros b Hb. apply (proj1 (List.Forall_forall _ _) H). apply list_elem_of_In in Hb. apply list_elem_of_In. apply elem_of_take in Hb as (i & Hb & _). rewrite lookup_drop in Hb. by apply list_elem_of_lookup_2 in Hb. Qed.

Lemma bytes_at_inv mem off n bs : bytes_at mem off n = Some bs ->
  0 <= off /\ off + Z.of_nat n <= Z.of_nat (length mem) /\ bs = slice mem (Z.to_nat off) n.
Proof. unfold bytes_at. destruct (decide _) as [[H1 H2]|]; [|done]. by intros [= <-]. Qed.

Lemma le_combine_app a b : le_combine (a ++ b) = Z.lor (le_combine a) (Z.shiftl (le_combine b) (8 * Z.of_nat (length a))).
Proof.
  induction a as [|x a IH]; cbn [app le_combine length]; [by rewrite Z.shiftl_0_r|].
  rewrite IH, Z.shiftl_lor, Z.shiftl_shiftl, Z.lor_assoc by lia. do 2 f_equal. lia.
Qed.

Lemma data32_range mem p i w : bytes_ok mem -> data32 mem p i = Some w -> 0 <= w < 2 ^ 32.
Proof.
  intros Hm. unfold data32. destruct (bytes_at mem _ 4) as [bs|] eqn:E; [|done]. intros [= <-].
  apply bytes_at_inv in E as (H1 & H2 & ->). pose proof (le_combine_bound _ (slice_bytes_ok mem (Z.to_nat (p + 4 * i)) 4 Hm)) as H.
  rewrite length_slice in H by lia. exact H.
Qed.

(** A word of 64 bits is two of 32. *)
Lemma data64_words mem p i a b : bytes_ok mem -> data32 mem p (2 * i) = Some a -> data32 mem p (2 * i + 1) = Some b ->
  data64 mem p i = Some (b * 2 ^ 32 + a).
Proof.
  intros Hm Ha Hb. pose proof (data32_range _ _ _ _ Hm Ha) as Ra. revert Ha Hb. unfold data32, data64.
  destruct (bytes_at mem (p + 4 * (2 * i)) 4) as [x|] eqn:Ex; [|done]. destruct (bytes_at mem (p + 4 * (2 * i + 1)) 4) as [y|] eqn:Ey; [|done].
  intros [= Ha] [= Hb]. apply bytes_at_inv in Ex as (X1 & X2 & ->). apply bytes_at_inv in Ey as (Y1 & Y2 & ->).
  rewrite bytes_at_Some by lia. cbn [fmap option_fmap option_map]. f_equal.
  change 8%nat with (4 + 4)%nat. rewrite slice_app_split.
  replace (Z.to_nat (p + 8 * i) + 4)%nat with (Z.to_nat (p + 4 * (2 * i + 1))) by lia.
  replace (p + 8 * i) with (p + 4 * (2 * i)) by lia.
  rewrite le_combine_app, length_slice by lia. rewrite Ha, Hb. rewrite Z.lor_comm. change (8 * Z.of_nat 4) with 32.
  by rewrite lor_shift_add by lia.
Qed.

Lemma fill64 a b : 0 <= a < 2 ^ 32 -> (b * 2 ^ 32 + a =? MARK5_FILL_WORD64) = (b =? MARK5_FILL_WORD32) && (a =? MARK5_FILL_WORD32).
Proof.
  intros Ha. unfold MARK5_FILL_WORD64, MARK5_FILL_WORD32.
  destruct (Z.eqb_spec b 0x11223344), (Z.eqb_spec a 0x11223344), (Z.eqb_spec (b * 2 ^ 32 + a) 0x1122334411223344); cbn [andb]; lia.
Qed.

(** ** Payloads with fill pattern *)

(** The payload of 2500 words of 32 bits at [p]; [fill i] says whether word [i] is
    fill pattern. *)
Definition payload_fill (mem : buffer) (p : Z) (fill : Z -> bool) : Prop :=
  forall i, 0 <= i < 2500 -> exists w, data32 mem p i = Some w /\ (w =? MARK5_FILL_WORD32) = fill i.

Lemma payload_fill64 mem p fill i : bytes_ok mem -> payload_fill mem p fill -> 0 <= i < 1250 ->
  exists w, data64 mem p i = Some w /\ (w =? MARK5_FILL_WORD64) = fill (2 * i + 1) && fill (2 * i).
Proof.
  intros Hm Hp Hi. destruct (Hp (2 * i)) as (a & Ea & <-); [lia|]. destruct (Hp (2 * i + 1)) as (b & Eb & <-); [lia|].
  exists (b * 2 ^ 32 + a). split; [by apply data64_words|]. apply fill64. by eapply data32_range.
Qed.

(** The bisection needs the condition only where it looks. *)
Lemma bisect_guarded (hit : Z -> option bool) h n : (forall i, 0 <= i < n -> hit i = Some (h i)) ->
  forall fuel i r s x, bisect fuel (fun i => if (0 <=? i) && (i <? n) then Some (h i) else None) i r s = Some x ->
  bisect fuel hit i r s = Some x.
Proof.
  intros Hh. induction fuel as [|fuel IH]; intros i r s x; cbn [bisect]; [done|]. destruct (0 <? s); [|done].
  destruct (Z.leb_spec 0 i); [|done]. destruct (Z.ltb_spec i n); [|done]. rewrite Hh by done. cbn [andb mbind option_bind].
  destruct (h i); apply IH.
Qed.

(** It stays within twice its first step. *)
Lemma bisect_result hit (h : Z -> bool) lo hi : (forall i, lo <= i <= hi -> hit i = Some (h i)) ->
  forall fuel i r s, 0 <= s < 2 ^ Z.of_nat fuel -> lo <= i - 2 * s -> i + 2 * s <= hi -> lo <= r <= hi ->
  exists x, lo <= x <= hi /\ bisect fuel hit i r s = Some x.
Proof.
  intros Hh. induction fuel as [|fuel IH]; intros i r s Hs Hlo Hhi Hr; cbn [bisect].
  - change (2 ^ Z.of_nat 0) with 1 in Hs. destruct (Z.ltb_spec 0 s); [lia|]. by exists r.
  - destruct (Z.ltb_spec 0 s); [|by exists r]. rewrite Hh by lia. cbn [mbind option_bind].
    rewrite Nat2Z.inj_succ, Z.pow_succ_r in Hs by lia. rewrite Z.shiftr_div_pow2 by lia. change (2 ^ 1) with 2.
    pose proof (Z.div_mod s 2 ltac:(lia)). pose proof (Z.mod_pos_bound s 2 ltac:(lia)).
    destruct (h i); apply IH; lia.
Qed.

(** Both searches for a change from valid to fill (or back) at every word of a
    payload, by computation: how far the result is behind the change. *)
Definition search_at (fill : Z -> bool) (hit : bool -> bool) (back add : Z) : option Z :=
  r ← bisect 32 (fun i => if (0 <=? i) && (i <? 1250) then Some (hit (fill (2 * i + 1) && fill (2 * i))) else None) 625 1249 312;
  let w := cdiv (8 * r) 4 - back in
  if (0 <=? w) && (w <? 2500) then Some (if fill w then 8 * r + add else 8 * r) else None.

Definition invalid_from (q i : Z) : bool := q <=? i.
Definition valid_from (q i : Z) : bool := i <? q.

Definition behind_by (q bound : Z) (r : option Z) : bool :=
  match r with Some r => (4 * q <=? r) && (r <=? 4 * q + bound) | None => false end.

Lemma searches_behind : forallb (fun k => let q := Z.of_nat k in
  behind_by q 36 (search_at (invalid_from q) id 1 (-4)) && behind_by q 40 (search_at (valid_from q) negb 2 4)) (seq 2 2497) = true.
Proof. by vm_compute. Qed.

Lemma search_behind q : 2 <= q <= 2498 -> behind_by q 36 (search_at (invalid_from q) id 1 (-4)) = true /\
  behind_by q 40 (search_at (valid_from q) negb 2 4) = true.
Proof.
  intros Hq. pose proof (forallb_seq _ 2 2497 (Z.to_nat q - 2) searches_behind ltac:(lia)) as H. cbv beta zeta in H.
  replace (Z.of_nat (2 + (Z.to_nat q - 2))) with q in H by lia. by apply andb_prop.
Qed.

Section Search.
Context (mem : buffer) (p : Z) (fill : Z -> bool).
Hypothesis Hmem : bytes_ok mem.
Hypothesis Hfill : payload_fill mem p fill.

Lemma findfirstinvalid_search r : search_at fill id 1 (-4) = Some r -> findfirstinvalid mem p 0 1250 = Some r.
Proof using Hmem Hfill.
  unfold search_at, findfirstinvalid. destruct (bisect _ _ _ _ _) as [x|] eqn:Eb; [|done].
  apply (bisect_guarded (fun i => w ← data64 mem p (0 + i); Some (w =? MARK5_FILL_WORD64))) in Eb.
  2: { intros i Hi. rewrite Z.add_0_l. by destruct (payload_fill64 mem p fill i) as (w & -> & <-). }
  change (cdiv (1250 - 0) 2) with 625. change (cdiv (1250 - 0) 4) with 312. change (1250 - 0 - 1) with 1249. rewrite Eb. cbn [mbind option_bind].
  rewrite Z.add_0_l. destruct (Z.leb_spec 0 (cdiv (8 * x) 4 - 1)); [|done]. destruct (Z.ltb_spec (cdiv (8 * x) 4 - 1) 2500); [|done]. cbn [andb].
  destruct (Hfill (cdiv (8 * x) 4 - 1)) as (w & E1 & E2); [lia|]. rewrite E1. cbn [mbind option_bind]. by rewrite E2.
Qed.

Lemma findfirstvalid_search r : search_at fill negb 2 4 = Some r -> findfirstvalid mem p 0 1250 = Some r.
Proof using Hmem Hfill.
  unfold search_at, findfirstvalid. destruct (bisect _ _ _ _ _) as [x|] eqn:Eb; [|done].
  apply (bisect_guarded (fun i => w ← data64 mem p (0 + i); Some (negb (w =? MARK5_FILL_WORD64)))) in Eb.
  2: { intros i Hi. rewrite Z.add_0_l. by destruct (payload_fill64 mem p fill i) as (w & -> & <-). }
  change (cdiv (1250 - 0) 2) with 625. change (cdiv (1250 - 0) 4) with 312. change (1250 - 0 - 1) with 1249. rewrite Eb. cbn [mbind option_bind].
  rewrite Z.add_0_l. destruct (Z.leb_spec 0 (cdiv (8 * x) 4 - 2)); [|done]. destruct (Z.ltb_spec (cdiv (8 * x) 4 - 2) 2500); [|done]. cbn [andb].
  destruct (Hfill (cdiv (8 * x) 4 - 2)) as (w & E1 & E2); [lia|]. rewrite E1. cbn [mbind option_bind]. by rewrite E2.
Qed.

(** The searches always have a result. *)
Lemma search_result hit back add : 1 <= back <= 2 -> exists r, search_at fill hit back add = Some r /\ 8 + Z.min 0 add <= r <= 9992 + Z.max 0 add.
Proof using.
  clear. intros Hb. unfold search_at.
  destruct (bisect_result (fun i => if (0 <=? i) && (i <? 1250) then Some (hit (fill (2 * i + 1) && fill (2 * i))) else None)
    (fun i => hit (fill (2 * i + 1) && fill (2 * i))) 1 1249) with (fuel := 32%nat) (i := 625) (r := 1249) (s := 312) as (r & Hr & ->); [|lia..|].
  { intros i Hi. destruct (Z.leb_spec 0 i); [|lia]. by destruct (Z.ltb_spec i 1250); [|lia]. }
  cbn [mbind option_bind]. rewrite Z.quot_div_nonneg by lia.
  replace (8 * r / 4) with (2 * r) by (replace (8 * r) with (2 * r * 4) by lia; by rewrite Z.div_mul by lia).
  destruct (Z.leb_spec 0 (2 * r - back)); [|lia]. destruct (Z.ltb_spec (2 * r - back) 2500); [|lia]. cbn [andb].
  destruct (fill (2 * r - back)); eexists; (split; [reflexivity|lia]).
Qed.

End Search.

(** ** The blanker *)

(** The 64-bit word [i] is not fill pattern. *)
Definition word_valid (fill : Z -> bool) (i : Z) : bool := negb (fill (2 * i + 1) && fill (2 * i)).

(** Two payloads agree on where fill pattern is. *)
Definition same_fill (fill fill' : Z -> bool) : Prop := forall i, 0 <= i < 2500 -> fill i = fill' i.

Lemma same_fill_sym fill fill' : same_fill fill fill' -> same_fill fill' fill.
Proof. intros H i Hi. symmetry. by apply H. Qed.

(** What the blanker finds: the valid bytes [s, e) of a payload and the number of bytes
    that are not. *)
Definition fill_zone (fill : Z -> bool) : Z * Z * Z :=
  match word_valid fill 0, word_valid fill 1249 with
  | true, true => (0, 2 ^ 30, 0)
  | false, false => (2 ^ 30, 0, 10000)
  | true, false => let e := default 0 (search_at fill id 1 (-4)) in (0, e, 10000 - e)
  | false, true => let s := default 0 (search_at fill negb 2 4) in (s, 2 ^ 30, s)
  end.

Lemma word_valid_ext fill fill' i : same_fill fill fill' -> 0 <= i < 1250 -> word_valid fill i = word_valid fill' i.
Proof. intros E Hi. unfold word_valid. by rewrite !E by lia. Qed.

Lemma search_at_ext fill fill' hit back add : same_fill fill fill' -> search_at fill hit back add = search_at fill' hit back add.
Proof.
  intros E. unfold search_at.
  assert (Eb : forall fuel i r s,
    bisect fuel (fun i => if (0 <=? i) && (i <? 1250) then Some (hit (fill (2 * i + 1) && fill (2 * i))) else None) i r s =
    bisect fuel (fun i => if (0 <=? i) && (i <? 1250) then Some (hit (fill' (2 * i + 1) && fill' (2 * i))) else None) i r s).
  { induction fuel as [|fuel IH]; intros i r s; cbn [bisect]; [done|]. destruct (0 <? s); [|done].
    destruct (Z.leb_spec 0 i); [|done]. destruct (Z.ltb_spec i 1250); [|done]. rewrite !E by lia. cbn [andb mbind option_bind]. by destruct (hit _). }
  rewrite Eb. destruct (bisect _ _ _ _ _) as [r|]; [|done]. cbn [mbind option_bind].
  destruct (Z.leb_spec 0 (cdiv (8 * r) 4 - back)); [|done]. destruct (Z.ltb_spec (cdiv (8 * r) 4 - back) 2500); [|done]. cbn [andb].
  by rewrite E by lia.
Qed.

Lemma fill_zone_ext fill fill' : same_fill fill fill' -> fill_zone fill = fill_zone fill'.
Proof.
  intros E. unfold fill_zone. rewrite !(word_valid_ext fill fill') by (done || lia).
  by rewrite !(search_at_ext fill fill') by done.
Qed.

(** With one change between valid data and fill pattern, all valid data before it are
    taken for valid and all fill pattern before it is not; the place is missed by at
    most 36 bytes, or 40. *)
Record blanked (fill : Z -> bool) (s e n : Z) : Prop := {
  bl_valid : word_valid fill 0 = true -> word_valid fill 1249 = true -> s = 0 /\ e = 2 ^ 30 /\ n = 0;
  bl_fill : word_valid fill 0 = false -> word_valid fill 1249 = false -> s = 2 ^ 30 /\ e = 0 /\ n = 10000;
  bl_end : forall q, 2 <= q <= 2498 -> same_fill fill (invalid_from q) -> s = 0 /\ 4 * q <= e <= 4 * q + 36 /\ n = 10000 - e;
  bl_start : forall q, 2 <= q <= 2498 -> same_fill fill (valid_from q) -> e = 2 ^ 30 /\ 4 * q <= s <= 4 * q + 40 /\ n = s }.

Lemma behind_default q bound r : behind_by q bound r = true -> 4 * q <= default 0 r <= 4 * q + bound.
Proof. destruct r as [r|]; [|done]. intros [?%Z.leb_le ?%Z.leb_le]%andb_prop. cbn. lia. Qed.

Lemma fill_zone_blanked fill : let '(s, e, n) := fill_zone fill in blanked fill s e n.
Proof.
  assert (Hend : forall q, 2 <= q <= 2498 -> same_fill fill (invalid_from q) -> fill_zone fill = fill_zone (invalid_from q) /\
    word_valid fill 0 = true /\ word_valid fill 1249 = false).
  { intros q Hq E. split; [by apply fill_zone_ext|]. rewrite !(word_valid_ext _ _ _ E) by lia. unfold word_valid, invalid_from. split.
    - by destruct (Z.leb_spec q (2 * 0 + 1)); [lia|].
    - destruct (Z.leb_spec q (2 * 1249 + 1)); [|lia]. by destruct (Z.leb_spec q (2 * 1249)); [|lia]. }
  assert (Hst : forall q, 2 <= q <= 2498 -> same_fill fill (valid_from q) -> word_valid fill 0 = false /\ word_valid fill 1249 = true).
  { intros q Hq E. rewrite !(word_valid_ext _ _ _ E) by lia. unfold word_valid, valid_from. split.
    - destruct (Z.ltb_spec (2 * 0 + 1) q); [|lia]. by destruct (Z.ltb_spec (2 * 0) q); [|lia].
    - by destruct (Z.ltb_spec (2 * 1249 + 1) q); [lia|]. }
  unfold fill_zone. destruct (word_valid fill 0) eqn:V0, (word_valid fill 1249) eqn:V1.
  - split; [done|congruence|intros q Hq E; destruct (Hend q Hq E) as (_ & ? & ?)|intros q Hq E; destruct (Hst q Hq E)]; congruence.
  - split; [congruence|congruence| |intros q Hq E; destruct (Hst q Hq E); congruence].
    intros q Hq E. destruct (search_behind q Hq) as [Hb _]. rewrite <-(search_at_ext _ _ _ _ _ E) in Hb. by apply behind_default in Hb.
  - split; [congruence|congruence|intros q Hq E; destruct (Hend q Hq E) as (_ & ? & ?); congruence|].
    intros q Hq E. destruct (search_behind q Hq) as [_ Hb]. rewrite <-(search_at_ext _ _ _ _ _ E) in Hb. by apply behind_default in Hb.
  - split; [congruence|done|intros q Hq E; destruct (Hend q Hq E) as (_ & ? & ?)|intros q Hq E; destruct (Hst q Hq E)]; congruence.
Qed.

Lemma blank_zone_fill mem p fill : bytes_ok mem -> payload_fill mem p fill -> blank_zone mem p 0 1250 = Some (fill_zone fill).
Proof.
  intros Hm Hf. unfold blank_zone. change (1250 - 1) with 1249.
  destruct (payload_fill64 mem p fill 0 Hm Hf) as (wb & Eb & Fb); [lia|]. rewrite Eb. cbn [mbind option_bind].
  destruct (payload_fill64 mem p fill 1249 Hm Hf) as (we & Ee & Fe); [lia|]. rewrite Ee. cbn [mbind option_bind].
  rewrite Fb, Fe. fold (word_valid fill 0) (word_valid fill 1249). unfold fill_zone.
  destruct (word_valid fill 0), (word_valid fill 1249); cbn [andb negb]; [done|..|done].
  - destruct (search_result fill id 1 (-4)) as (r & Er & Hr); [lia|]. by rewrite (findfirstinvalid_search mem p fill Hm Hf r Er), Er.
  - destruct (search_result fill negb 2 4) as (r & Er & Hr); [lia|]. rewrite (findfirstvalid_search mem p fill Hm Hf r Er), Er.
    cbn [mbind option_bind default]. destruct (Z.ltb_spec (0 * 8) r); [by rewrite Z.mul_0_l, Z.sub_0_r|lia].
Qed.

(** A stream whose zones can be set. *)
Definition zones_ok (ms : mark5_stream) : Prop :=
  (0 < length (ms_blankzonestartvalid ms))%nat /\ (0 < length (ms_blankzoneendvalid ms))%nat.

Lemma set_zone_Some zones v : (0 < length zones)%nat -> set_zone zones 0 v = Some (<[0%nat := v]> zones).
Proof. intros. unfold set_zone. by rewrite decide_True. Qed.

Lemma blanker_mark5_rep mem ms p fill : bytes_ok mem -> zones_ok ms -> ms_databytes ms = 10000 -> ms_payload ms = Some p ->
  payload_fill mem p fill ->
  let '(s, e, n) := fill_zone fill in
  blanker_mark5 mem ms =
    Some (n, ms_set_zones ms 15 (<[0%nat := s]> (ms_blankzonestartvalid ms)) (<[0%nat := e]> (ms_blankzoneendvalid ms))).
Proof.
  intros Hm [Hs He] Hd Hp Hf. pose proof (blank_zone_fill mem p fill Hm Hf) as E. destruct (fill_zone fill) as [[s e] n].
  unfold blanker_mark5. rewrite Hp, Hd. change (cdiv 10000 8) with 1250. change (Z.shiftl 1 (15 - 3)) with 4096.
  assert (El : forall fuel b zone sv ev nb, 1250 <= b -> blank_zones fuel mem p 1250 4096 b zone sv ev nb = Some (sv, ev, nb)).
  { intros [|fuel] b zone sv ev nb Hge; cbn [blank_zones]; by destruct (Z.ltb_spec b 1250); [lia|]. }
  cbn [blank_zones]. destruct (Z.ltb_spec 0 1250); [|lia]. rewrite Z.add_0_l. destruct (Z.ltb_spec 1250 4096); [|lia]. rewrite E. cbn [mbind option_bind].
  rewrite !set_zone_Some by done. cbn [mbind option_bind]. rewrite El by lia. cbn [mbind option_bind]. by rewrite Z.add_0_l.
Qed.

(** C38 [blanker_mark5] on the payload of a Mark5B frame reads nothing outside it and
    sets the valid range of its one zone: all of it when the first and the last word
    are not fill pattern, nothing when both are; when the data change once, from
    valid to fill pattern or back, the range ends (begins) at the change or up to 36
    (40) bytes behind it, never before. *)
Theorem blanker_mark5_spec mem ms p fill : bytes_ok mem -> zones_ok ms -> ms_databytes ms = 10000 -> ms_payload ms = Some p ->
  payload_fill mem p fill ->
  exists s e n, blanker_mark5 mem ms =
    Some (n, ms_set_zones ms 15 (<[0%nat := s]> (ms_blankzonestartvalid ms)) (<[0%nat := e]> (ms_blankzoneendvalid ms))) /\ blanked fill s e n.
Proof.
  intros Hm Hz Hd Hp Hf. pose proof (blanker_mark5_rep mem ms p fill Hm Hz Hd Hp Hf) as E. pose proof (fill_zone_blanked fill) as Hb.
  destruct (fill_zone fill) as [[s e] n]. by exists s, e, n.
Qed.

(** A check of where the fill pattern of a payload is. *)
Lemma payload_fill_check mem p fill :
  forallb (fun i => match data32 mem p (Z.of_nat i) with Some w => eqb (w =? MARK5_FILL_WORD32) (fill (Z.of_nat i)) | None => false end)
    (seq 0 (Z.to_nat 2500)) = true -> payload_fill mem p fill.
Proof.
  intros H i Hi. pose proof (forallb_seq _ 0 _ (Z.to_nat i) H ltac:(lia)) as Hw. rewrite Nat.add_0_l, Z2Nat.id in Hw by lia.
  destruct (data32 mem p i) as [w|]; [|done]. exists w. split; [done|]. by apply eqb_prop in Hw.
Qed.

(** A stream before its first frame, and a frame of Mark5B. *)
Definition mark5_example_stream (nchan nbit decimation : Z) : mark5_stream :=
  {| ms_nchan := nchan; ms_nbit := nbit; ms_decimation := decimation; ms_framebytes := 10016; ms_databytes := 10000; ms_framesamples := 0;
     ms_samplegranularity := 1; ms_payloadoffset := 16; ms_framenum := 0; ms_nvalidatefail := 0;
     ms_nvalidatepass := 0; ms_consecutivefails := 0; ms_frame := None; ms_payload := None;
     ms_readposition := 0; ms_log2blankzonesize := 30; ms_blankzonestartvalid := replicate MAXBLANKZONES 0;
     ms_blankzoneendvalid := replicate MAXBLANKZONES 0; ms_next := mark5_stream_unpacker_next;
     ms_validate := one; ms_blanker := call_blanker_mark5 |}.

Definition mark5_example_frame (mark : Z) (valid fills : nat) (byte : Z) : buffer :=
  le_split 4 MARK5B_SYNC_WORD ++ [0; mark] ++ replicate 10 0 ++ replicate valid byte ++ concat (replicate fills (le_split 4 MARK5_FILL_WORD32)).

(** Valid data up to word 5. *)
Lemma blanker_mark5_spec_witness :
  let mem := mark5_example_frame 0 20 (Z.to_nat 2495) 0 in
  let ms := ms_move (mark5_example_stream 1 1 1) 0 (Some 0) (Some 16) 0 in
  exists e n, blanker_mark5 mem ms = Some (n, ms_set_zones ms 15 (<[0%nat := 0]> (ms_blankzonestartvalid ms)) (<[0%nat := e]> (ms_blankzoneendvalid ms))) /\
    20 <= e <= 56 /\ n = 10000 - e.
Proof.
  intros mem ms. assert (Hb : forallb (fun b => (0 <=? b) && (b <? 256)) mem = true) by (vm_compute; reflexivity). apply bytes_ok_check in Hb.
  assert (Hf : payload_fill mem 16 (invalid_from 5)) by (apply payload_fill_check; vm_compute; reflexivity). clearbody mem.
  destruct (blanker_mark5_spec mem ms 16 (invalid_from 5) Hb ltac:(split; vm_compute; lia) eq_refl eq_refl Hf) as (s & e & n & E & [_ _ Hend _]).
  destruct (Hend 5 ltac:(lia) ltac:(intros i _; reflexivity)) as (-> & He & ->). exists e, (10000 - e). split; [exact E|]. split; [lia|reflexivity].
Defined.
