(* ===== verification/Decoders.v ===== *)
(** * Decoders: the loop of the unrolled decoders

    The decoders of [mark5access] for Mark5B ([mark5_format_mark5b.c]) and VDIF
    ([format_vdif.c]) are unrolled functions, one for each number of channels, of
    bits and decimation, with one loop in common.  What differs is a value of type
    [decoder] (or [counter], for the functions that count high states): the
    function is the loop with that value.

    A sample is the entry of the level tables that it is: the [float]s 0 of
    [zeros], 1.0, -1.0, HiMag, -HiMag, [lut16level[l]] and [lut8bit[b]]. *)
From S2P Require Export Mark5Stream.
#[local] Open Scope Z_scope.

Inductive state : Type := Zero | One | MinusOne | High | MinusHigh | Level16 (l : Z) | Level256 (b : Z).

#[export] Instance state_eq_dec : EqDecision state.
Proof. solve_decision. Defined.

(** [fabs(...) > 1.1], of one or two bits. *)
Definition is_high (v : state) : bool := match v with High | MinusHigh => true | _ => false end.

Definition zeros : list state := replicate 8 Zero.

(** ** Decoders *)

(** [d_blanked] is the condition for [zeros], [d_end] the size of a payload;
    [d_fps] bytes are looked up in [d_lut]; [(c, j, e)] in row [r] of [d_rows] is
    [data[c][o] = fpj[e]] after [r] times [++o]; [d_step] is how far the position
    moves, by the decimation, and [d_skip] how far it does in blanked data; the
    result is [nsamp - d_blank*nblank]. *)
Record decoder : Type := {
  d_blanked : buffer -> mark5_stream -> Z -> option bool;
  d_end : mark5_stream -> Z;
  d_lut : list (list state);
  d_fps : nat;
  d_step : Z -> Z;
  d_skip : Z -> Z;
  d_blank : Z;
  d_rows : list (list (nat * nat * nat)) }.

(** The entries for the bytes from position [i] on. *)
Definition lookups {A} (lut : list (list A)) (fps : nat) (mem : buffer) (ms : mark5_stream) (i : Z) : option (list (list A)) :=
  payload ← ms_payload ms;
  mapM (fun j => b ← byte_at mem (payload + i + Z.of_nat j); lut !! Z.to_nat b) (seq 0 fps).

(** [data[c][o] = v] *)
Definition set_sample (data : list (list state)) (c : nat) (o : Z) (v : state) : option (list (list state)) :=
  samples ← data !! c;
  if decide (0 <= o < Z.of_nat (length samples)) then Some (<[c := <[Z.to_nat o := v]> samples]> data) else None.

Definition store_row (fps : list (list state)) (o : Z) (row : list (nat * nat * nat)) (data : list (list state))
    : option (list (list state)) :=
  run_iters (fun (p : nat * nat * nat) (data : list (list state)) => let '(c, j, e) := p in fp ← fps !! j; v ← fp !! e; set_sample data c o v) row data.

Definition store_rows (fps : list (list state)) (o : Z) (rows : list (list (nat * nat * nat))) (data : list (list state))
    : option (list (list state)) :=
  run_iters (fun r data => row ← rows !! r; store_row fps (o + Z.of_nat r) row data) (seq 0 (length rows)) data.

(** [if(i >= ...) ...]: the stream and the position, [None] inside for [return -1]. *)
Definition next_position (end_ : mark5_stream -> Z) (mem : buffer) (ms : mark5_stream) (i : Z) : option (mark5_stream * option Z) :=
  if end_ ms <=? i then
    '(n, ms) ← mark5_stream_next_frame mem ms;
    Some (ms, if n <? 0 then None else Some 0)
  else Some (ms, Some i).

(** [for(o = 0; o < nsamp; ++o)]: the result, the stream and the samples. *)
Fixpoint decode_loop (fuel : nat) (d : decoder) (mem : buffer) (nsamp o i nblank : Z) (ms : mark5_stream)
    (data : list (list state)) : option (Z * mark5_stream * list (list state)) :=
  if o <? nsamp then
    match fuel with
    | O => None
    | S fuel =>
        bad ← d_blanked d mem ms i;
        fps ← (if (bad : bool) then Some (replicate (d_fps d) zeros) else lookups (d_lut d) (d_fps d) mem ms i);
        data ← store_rows fps o (d_rows d) data;
        '(ms, next) ← next_position (d_end d) mem ms (i + (if (bad : bool) then d_skip d else d_step d) (ms_decimation ms));
        match next with
        | None => Some (-1, ms, data)
        | Some i => decode_loop fuel d mem nsamp (o + Z.of_nat (length (d_rows d))) i (if (bad : bool) then nblank + 1 else nblank) ms data
        end
    end
  else Some (nsamp - d_blank d * nblank, ms_set_readposition ms i, data).

(** A call of the decoder; every turn of the loop makes at least one sample. *)
Definition decode (d : decoder) (mem : buffer) (ms : mark5_stream) (nsamp : Z) (data : list (list state))
    : option (Z * mark5_stream * list (list state)) :=
  decode_loop (Z.to_nat nsamp) d mem nsamp 0 (ms_readposition ms) 0 ms data.

(** ** Counters *)

(** The counters go over the stream in the same way; [(c, j, e)] is
    [highstates[c] += fpj[e]], and [c_turn] is what a turn adds to [o]. *)
Record counter : Type := {
  c_blanked : buffer -> mark5_stream -> Z -> option bool;
  c_end : mark5_stream -> Z;
  c_lut : list (list Z);
  c_fps : nat;
  c_turn : Z;
  c_step : Z -> Z;
  c_blank : Z;
  c_adds : list (nat * nat * nat) }.

(** The states are [unsigned int]. *)
Definition add_states (fps : list (list Z)) (adds : list (nat * nat * nat)) (highstates : list Z) : option (list Z) :=
  run_iters (fun (p : nat * nat * nat) (hs : list Z) => let '(c, j, e) := p in fp ← fps !! j; v ← fp !! e; h ← hs !! c; Some (<[c := u32 (h + v)]> hs)) adds highstates.

Fixpoint count_states_loop (fuel : nat) (d : counter) (mem : buffer) (nsamp o i nblank : Z) (ms : mark5_stream)
    (highstates : list Z) : option (Z * mark5_stream * list Z) :=
  if o <? nsamp then
    match fuel with
    | O => None
    | S fuel =>
        bad ← c_blanked d mem ms i;
        highstates ← (if (bad : bool) then Some highstates
                      else fps ← lookups (c_lut d) (c_fps d) mem ms i; add_states fps (c_adds d) highstates);
        '(ms, next) ← next_position (c_end d) mem ms (i + c_step d (ms_decimation ms));
        match next with
        | None => Some (-1, ms, highstates)
        | Some i => count_states_loop fuel d mem nsamp (o + c_turn d) i (if (bad : bool) then nblank + 1 else nblank) ms highstates
        end
    end
  else Some (nsamp - c_blank d * nblank, ms_set_readposition ms i, highstates).

Definition count_states (d : counter) (mem : buffer) (ms : mark5_stream) (nsamp : Z) (highstates : list Z)
    : option (Z * mark5_stream * list Z) :=
  count_states_loop (Z.to_nat nsamp) d mem nsamp 0 (ms_readposition ms) 0 ms highstates.

(** ** Calls *)

(** [mark5_stream_decode]: the decoder, when a multiple of the granularity is asked
    for from a position that is not lost. *)
Definition mark5_stream_decode (d : decoder) (mem : buffer) (ms : mark5_stream) (nsamp : Z) (data : list (list state))
    : option (Z * mark5_stream * list (list state)) :=
  if ms_readposition ms <? 0 then Some (-1, ms, data) else
  if ms_samplegranularity ms =? 0 then None else
  if negb (cmod nsamp (ms_samplegranularity ms) =? 0) then Some (-1, ms, data) else
  decode d mem ms nsamp data.

(** The start of [mark5_unpack] and [mark5_unpack_with_offset]: the frame whose data
    are wanted, or the one at [frame], which is reached from the one before. *)
Definition unpack_frame (mem : buffer) (ms : mark5_stream) (packed frame : Z) : option mark5_stream :=
  match ms_next ms with
  | mark5_stream_unpacker_next_noheaders =>
      '(_, ms) ← call_blanker mem (ms_set_payload ms (Some packed));
      Some ms
  | _ =>
      '(_, ms) ← mark5_stream_next_frame mem
        (ms_move ms (ms_framenum ms) (Some (frame - ms_framebytes ms)) (ms_payload ms) (ms_readposition ms));
      Some ms
  end.

Definition mark5_unpack (d : decoder) (mem : buffer) (ms : mark5_stream) (packed : Z)
    (unpacked : list (list state)) (nsamp : Z) : option (Z * mark5_stream * list (list state)) :=
  ms ← unpack_frame mem ms packed packed;
  decode d mem (ms_set_readposition ms 0) nsamp unpacked.

Definition mark5_unpack_with_offset (d : decoder) (mem : buffer) (ms : mark5_stream) (packed offsetsamples : Z)
    (unpacked : list (list state)) (nsamp : Z) : option (Z * mark5_stream * list (list state)) :=
  if ms_framesamples ms =? 0 then None else
  ms ← unpack_frame mem ms packed (packed + cdiv offsetsamples (ms_framesamples ms) * ms_framebytes ms);
  position ← sint (cmod offsetsamples (ms_framesamples ms) * ms_nchan ms * ms_nbit ms * ms_decimation ms);
  decode d mem (ms_set_readposition ms (cdiv position 8)) nsamp unpacked.
