(* ===== verification/DecodersSpec.v ===== *)
(** * DecodersSpec: what the decoders compute

    Storing rows of samples; the loop of a decoder over the frames of a stream, for
    every decoder whose entries are where its format has the samples; the call that
    starts with a multiple of the samples of a turn. *)
From S2P Require Export Mark5StreamTheorems Decoders.
#[local] Open Scope Z_scope.

(** ** Storing samples *)

Definition shape {A} (data : list (list A)) : list nat := length <$> data.
Definition sample_at (data : list (list state)) (c o : nat) : option state := data !! c ≫= (.!! o).

(** The value of entry [(c, j, e)] of a row. *)
Definition entry_value {A} (fps : list (list A)) (j e : nat) : option A := fps !! j ≫= (.!! e).

Lemma set_sample_spec data c o v n : shape data !! c = Some n -> 0 <= o < Z.of_nat n ->
  exists data', set_sample data c o v = Some data' /\ shape data' = shape data /\
    (forall c' o', sample_at data' c' o' = if decide (c' = c /\ o' = Z.to_nat o) then Some v else sample_at data c' o').
Proof.
  unfold shape, set_sample, sample_at. rewrite list_lookup_fmap. intros Hn Ho.
  destruct (data !! c) as [s|] eqn:E; [|done]. injection Hn as <-. cbn [mbind option_bind]. rewrite decide_True by done.
  eexists. split; [reflexivity|]. split.
  - apply list_eq. intros i. rewrite !list_lookup_fmap. destruct (decide (i = c)) as [->|Hne].
    + rewrite list_lookup_insert_eq by (by apply lookup_lt_Some in E). rewrite E. cbn. by rewrite length_insert.
    + by rewrite list_lookup_insert_ne.
  - intros c' o'. destruct (decide (c' = c)) as [->|Hne].
    + rewrite list_lookup_insert_eq by (by apply lookup_lt_Some in E). rewrite E. cbn [mbind option_bind].
      destruct (decide (o' = Z.to_nat o)) as [->|Hne].
      * rewrite decide_True by done. apply list_lookup_insert_eq. lia.
      * rewrite decide_False by (by intros []). by rewrite list_lookup_insert_ne.
    + rewrite decide_False by (by intros []). by rewrite list_lookup_insert_ne.
Qed.

Definition row_channels (row : list (nat * nat * nat)) : list nat := (fun p => p.1.1) <$> row.

(** There is room for the samples [.., nsamp) of the channels below [nchan]. *)
Definition sample_room (nchan : nat) (nsamp : Z) (data : list (list state)) : Prop :=
  forall c, (c < nchan)%nat -> exists n, shape data !! c = Some n /\ nsamp <= Z.of_nat n.

Lemma room_shape nchan nsamp data data' : shape data' = shape data -> sample_room nchan nsamp data -> sample_room nchan nsamp data'.
Proof. unfold sample_room. by intros ->. Qed.

Lemma store_row_spec nchan fps o row : 0 <= o -> Forall (fun p => is_Some (entry_value fps p.1.2 p.2)) row ->
  NoDup (row_channels row) -> Forall (fun c => (c < nchan)%nat) (row_channels row) -> forall data, sample_room nchan (o + 1) data ->
  exists data', store_row fps o row data = Some data' /\ shape data' = shape data /\
    (forall c j e, (c, j, e) ∈ row -> sample_at data' c (Z.to_nat o) = entry_value fps j e) /\
    (forall c o', o' <> Z.to_nat o \/ c ∉ row_channels row -> sample_at data' c o' = sample_at data c o').
Proof.
  intros Ho. induction row as [|[[c j] e] row IH]; intros Hv Hnd Hc data Hroom.
  - exists data. split; [done|]. split; [done|]. split; [by intros ??? ?%elem_of_nil|done].
  - apply Forall_cons_1 in Hv as [[v Hv] Hvs]. unfold row_channels in *. cbn [fmap list_fmap] in *.
    apply list.NoDup_cons in Hnd as [Hni Hnd]. apply Forall_cons_1 in Hc as [Hc Hcs]. cbn [fst snd] in *.
    destruct (Hroom c Hc) as (n & Hn & Hle). destruct (set_sample_spec data c o v n Hn) as (d1 & E1 & S1 & A1); [lia|].
    destruct (IH Hvs Hnd Hcs d1) as (d2 & E2 & S2 & G2 & A2); [by eapply room_shape|].
    exists d2. split; [|split; [congruence|split]].
    + unfold store_row in *. cbn [run_iters]. unfold entry_value in Hv. destruct (fps !! j) as [fp|]; [|done].
      cbn [mbind option_bind] in *. rewrite Hv. cbn [mbind option_bind]. rewrite E1. exact E2.
    + intros c' j' e' [Heq|Hin]%elem_of_cons; [|by apply G2]. injection Heq as -> -> ->.
      rewrite A2, A1, decide_True by (done || by right). congruence.
    + intros c' o' Hor. rewrite A2, A1.
      * rewrite decide_False; [done|]. intros [-> ->]. destruct Hor as [?|Hor]; [done|]. apply Hor. by left.
      * destruct Hor as [?|Hor]; [by left|]. right. intros Hin. apply Hor. by right.
Qed.

Definition rows_ok (nchan : nat) {A} (fps : list (list A)) (rows : list (list (nat * nat * nat))) : Prop :=
  forall r row, rows !! r = Some row ->
    row_channels row = seq 0 nchan /\ Forall (fun p => is_Some (entry_value fps p.1.2 p.2)) row.

Lemma store_rows_spec nchan fps o rows data : 0 <= o -> rows_ok nchan fps rows -> sample_room nchan (o + Z.of_nat (length rows)) data ->
  exists data', store_rows fps o rows data = Some data' /\ shape data' = shape data /\
    (forall r row c j e, rows !! r = Some row -> (c, j, e) ∈ row -> sample_at data' c (Z.to_nat o + r) = entry_value fps j e) /\
    (forall c o', (o' < Z.to_nat o \/ Z.to_nat o + length rows <= o' \/ nchan <= c)%nat -> sample_at data' c o' = sample_at data c o').
Proof.
  intros Ho Hrows Hroom. unfold store_rows.
  assert (H : forall n, (n <= length rows)%nat -> exists data',
    run_iters (fun r data => row ← rows !! r; store_row fps (o + Z.of_nat r) row data) (seq 0 n) data = Some data' /\ shape data' = shape data /\
    (forall r row c j e, (r < n)%nat -> rows !! r = Some row -> (c, j, e) ∈ row -> sample_at data' c (Z.to_nat o + r) = entry_value fps j e) /\
    (forall c o', (o' < Z.to_nat o \/ Z.to_nat o + n <= o' \/ nchan <= c)%nat -> sample_at data' c o' = sample_at data c o')).
  { induction n as [|n IH]; intros Hn; [exists data; split_and!; [done|done|intros; lia|done]|]. destruct IH as (d1 & E1 & S1 & G1 & A1); [lia|].
    destruct (rows !! n) as [row|] eqn:Er; [|apply lookup_ge_None in Er; lia]. destruct (Hrows n row Er) as [Hc Hv].
    destruct (store_row_spec nchan fps (o + Z.of_nat n) row) with (data := d1) as (d2 & E2 & S2 & G2 & A2); [lia|done|rewrite Hc; apply NoDup_seq|..].
    - rewrite Hc. apply list.Forall_forall. intros c Hin%elem_of_seq. lia.
    - eapply room_shape; [exact S1|]. intros c Hlt. destruct (Hroom c Hlt) as (m & Hm & Hle). exists m. split; [done|]. lia.
    - exists d2. split; [|split; [congruence|split]].
      + rewrite seq_S, run_iters_app, E1. cbn [mbind option_bind run_iters Nat.add]. rewrite Er. cbn [mbind option_bind]. by rewrite E2.
      + intros r row' c j e Hr Er' Hin. destruct (decide (r = n)) as [->|Hne].
        * rewrite Er in Er'. injection Er' as <-. rewrite <-(G2 c j e Hin). f_equal. lia.
        * rewrite A2 by lia. apply (G1 r row'); [lia|done..].
      + intros c o' Hor. rewrite A2.
        * apply A1. lia.
        * rewrite Hc, elem_of_seq. lia. }
  destruct (H (length rows)) as (d & E & S1 & G & A); [done|]. exists d. split; [exact E|]. split; [done|]. split; [|exact A].
  intros r row c j e Er. apply G; [|done]. by apply lookup_lt_Some in Er.
Qed.

(** ** The decoder of a format *)

(** Entry [(c, j, e)] of row [r] is the sample of channel [c] at [r] samples after the
    start: the [nbit] bits from [8*j + nbit*e] on; [stride] samples are kept for each
    time and [level] is the meaning of the bits of a byte at an offset. *)
Record decodes (nchan : nat) (stride nbit decimation : Z) (level : Z -> Z -> state) (d : decoder) : Prop := {
  dc_bits : 1 <= nbit <= 8;
  dc_stride : Z.of_nat nchan <= stride;
  dc_lut : forall b e, 0 <= b < 256 -> nbit * Z.of_nat e < 8 -> d_lut d !! Z.to_nat b ≫= (.!! e) = Some (level b (nbit * Z.of_nat e));
  dc_rows : (0 < length (d_rows d))%nat;
  dc_channels : forall r row, d_rows d !! r = Some row -> row_channels row = seq 0 nchan;
  dc_entry : forall r row c j e, d_rows d !! r = Some row -> (c, j, e) ∈ row ->
    (j < d_fps d)%nat /\ nbit * Z.of_nat e < 8 /\
    8 * Z.of_nat j + nbit * Z.of_nat e = (Z.of_nat r * decimation * stride + Z.of_nat c) * nbit;
  dc_step : 8 * d_step d decimation = Z.of_nat (length (d_rows d)) * decimation * stride * nbit;
  dc_fps : 0 < Z.of_nat (d_fps d) <= d_step d decimation }.

Definition rows_check (nchan : nat) (stride nbit decimation : Z) (d : decoder) : bool :=
  forallb (fun r => match d_rows d !! r with
    | None => false
    | Some row => bool_decide (row_channels row = seq 0 nchan) &&
        forallb (fun p : nat * nat * nat => (p.1.2 <? d_fps d)%nat && (nbit * Z.of_nat p.2 <? 8) &&
          (8 * Z.of_nat p.1.2 + nbit * Z.of_nat p.2 =? (Z.of_nat r * decimation * stride + Z.of_nat p.1.1) * nbit)) row
    end) (seq 0 (length (d_rows d))).

(** The entries of a table have the meaning that [level] says. *)
Definition lut_check (nbit : Z) (level : Z -> Z -> state) (lut : list (list state)) : bool :=
  forallb (fun b => forallb (fun e => (8 <=? nbit * Z.of_nat e) ||
    bool_decide (lut !! b ≫= (.!! e) = Some (level (Z.of_nat b) (nbit * Z.of_nat e)))) (seq 0 8)) (seq 0 256).

Lemma lut_by_check nbit level lut : 1 <= nbit -> lut_check nbit level lut = true ->
  forall b e, 0 <= b < 256 -> nbit * Z.of_nat e < 8 -> lut !! Z.to_nat b ≫= (.!! e) = Some (level b (nbit * Z.of_nat e)).
Proof.
  intros Hn H b e Hb He. pose proof (forallb_seq _ 0 256 (Z.to_nat b) H ltac:(lia)) as H1. cbv beta in H1. rewrite Nat.add_0_l, Z2Nat.id in H1 by lia.
  pose proof (forallb_seq _ 0 8 e H1 ltac:(nia)) as H2. cbv beta in H2. rewrite Nat.add_0_l in H2.
  apply orb_prop in H2 as [H2%Z.leb_le|H2%bool_decide_eq_true_1]; [lia|done].
Qed.

(** A decoder of single samples has the same rows for all decimations. *)
Lemma decodes_by_check nchan stride nbit decimation level d rowdec : 1 <= nbit <= 8 -> Z.of_nat nchan <= stride ->
  (forall b e, 0 <= b < 256 -> nbit * Z.of_nat e < 8 -> d_lut d !! Z.to_nat b ≫= (.!! e) = Some (level b (nbit * Z.of_nat e))) ->
  (0 < length (d_rows d))%nat ->
  rows_check nchan stride nbit rowdec d = true -> rowdec = decimation \/ length (d_rows d) = 1%nat ->
  8 * d_step d decimation = Z.of_nat (length (d_rows d)) * decimation * stride * nbit ->
  0 < Z.of_nat (d_fps d) <= d_step d decimation -> decodes nchan stride nbit decimation level d.
Proof.
  intros Hb Hst Hl Hr Hc Hd Hs Hf.
  assert (H : forall r row, d_rows d !! r = Some row -> row_channels row = seq 0 nchan /\
    forall c j e, (c, j, e) ∈ row -> (j < d_fps d)%nat /\ nbit * Z.of_nat e < 8 /\
    8 * Z.of_nat j + nbit * Z.of_nat e = (Z.of_nat r * rowdec * stride + Z.of_nat c) * nbit).
  { intros r row Er. assert (Hlt : (r < length (d_rows d))%nat) by (by apply lookup_lt_Some in Er).
    pose proof (forallb_seq _ 0 _ r Hc Hlt) as H. cbn [Nat.add] in H. rewrite Er in H. apply andb_prop in H as [H1%bool_decide_eq_true_1 H2].
    split; [done|]. intros c j e Hin%list_elem_of_In. apply (proj1 (List.forallb_forall _ _) H2) in Hin. cbn [fst snd] in Hin.
    apply andb_prop in Hin as [[?%Nat.ltb_lt ?%Z.ltb_lt]%andb_prop ?%Z.eqb_eq]. done. }
  split; [done|done|done|done|intros r row Er; apply (H r row Er)| |done|done].
  intros r row c j e Er Hin. destruct (H r row Er) as [_ H2]. destruct (H2 c j e Hin) as (H3 & H4 & H5).
  split; [done|]. split; [done|]. rewrite H5. destruct Hd as [->|H1]; [done|].
  assert (r = 0%nat) by (apply lookup_lt_Some in Er; lia). subst r. lia.
Qed.

(** ** Streams of frames *)

Lemma byte_at_nth mem off : 0 <= off < Z.of_nat (length mem) -> byte_at mem off = Some (nth (Z.to_nat off) mem 0).
Proof.
  intros H. unfold byte_at. rewrite bytes_at_Some by lia. cbn [fmap option_fmap option_map]. f_equal.
  destruct (mem !! Z.to_nat off) as [b|] eqn:E; [|apply lookup_ge_None in E; lia].
  unfold slice. rewrite (drop_S _ _ _ E), (nth_lookup_Some _ _ _ _ E). cbn [take]. by rewrite le_combine_1.
Qed.

(** What a decoder needs of a stream: [on k ms] is that [ms] is at frame [k] of the
    frames below [n]; [payload k] is where its [P] bytes of data are, and [blank k i]
    whether a turn that starts with byte [i] of them is blanked, as [blanked] finds
    out. *)
Class FrameStream (mem : buffer) (decimation n P : Z) (payload : Z -> Z) (blank : Z -> Z -> bool) (on : Z -> mark5_stream -> Prop)
    (blanked : buffer -> mark5_stream -> Z -> option bool) (end_ : mark5_stream -> Z) : Prop := {
  fr_bytes : bytes_ok mem;
  fr_size : 0 < P;
  fr_readable : forall k, 0 <= k < n -> 0 <= payload k /\ payload k + P <= Z.of_nat (length mem);
  fr_decimation : forall k ms, on k ms -> ms_decimation ms = decimation;
  fr_payload : forall k ms, on k ms -> ms_payload ms = Some (payload k);
  fr_blank : forall k ms i, on k ms -> 0 <= k < n -> 0 <= i < P -> blanked mem ms i = Some (blank k i);
  fr_end : forall k ms, on k ms -> end_ ms = P;
  fr_next : forall k ms, on k ms -> 0 <= k -> k + 1 < n -> exists ms', mark5_stream_next_frame mem ms = Some (0, ms') /\ on (k + 1) ms';
  fr_position : forall k ms p, on k ms -> on k (ms_set_readposition ms p) }.

Section Levels.
Context (mem : buffer) (P : Z) (payload : Z -> Z) (blank : Z -> Z -> bool) (level : Z -> Z -> state).

(** Byte [x] of the payloads of a stream; whether it is to be blanked; the level of
    a sample at bit [m] that is read in a turn that starts with byte [x]; the blanked
    ones of [T] turns from byte [b] on. *)
Definition stream_byte (x : Z) : Z := nth (Z.to_nat (payload (x / P) + x mod P)) mem 0.
Definition blank_at (x : Z) : bool := blank (x / P) (x mod P).
Definition level_at (x m : Z) : state := if blank_at x then Zero else level (stream_byte (m / 8)) (m mod 8).

Fixpoint blank_turns (st : Z) (T : nat) (b : Z) : Z :=
  match T with
  | O => 0
  | S T => (if blank_at b then 1 else 0) + blank_turns st T (b + st)
  end.

Lemma blank_turns_range st T b : 0 <= blank_turns st T b <= Z.of_nat T.
Proof using. revert b. induction T as [|T IH]; intros b; cbn [blank_turns]; [done|]. specialize (IH (b + st)). destruct (blank_at _); lia. Qed.

End Levels.

Lemma step_within P st b : 0 < P -> 0 < st -> (st | P) -> (st | b) -> b mod P + st <= P.
Proof.
  intros HP Hst Hp Hb. assert (Hd : (st | P - b mod P)).
  { apply Z.divide_sub_r; [done|]. rewrite Z.mod_eq by lia. apply Z.divide_sub_r; [done|]. by apply Z.divide_mul_l. }
  pose proof (Z.mod_pos_bound b P HP). apply Z.divide_pos_le in Hd; lia.
Qed.

Lemma row_entry nchan row c : row_channels row = seq 0 nchan -> (c < nchan)%nat -> exists j e, (c, j, e) ∈ row.
Proof.
  intros Hc Hlt. assert (E : row_channels row !! c = Some c) by (rewrite Hc; by apply lookup_seq).
  unfold row_channels in E. rewrite list_lookup_fmap in E. destruct (row !! c) as [[[c' j] e]|] eqn:Er; [|done].
  injection E as ->. exists j, e. by eapply list_elem_of_lookup_2.
Qed.

Section Decoding.
Context {mem : buffer} {decimation n P : Z} {payload : Z -> Z} {blank : Z -> Z -> bool} {on : Z -> mark5_stream -> Prop}.
Context {blanked : buffer -> mark5_stream -> Z -> option bool} {end_ : mark5_stream -> Z}.
Context `{FS : !FrameStream mem decimation n P payload blank on blanked end_}.

Lemma blanked_at k ms b : on k ms -> 0 <= b -> b / P = k -> k < n -> blanked mem ms (b mod P) = Some (blank_at P blank b).
Proof using FS.
  intros Hon Hb Hk Hn. pose proof (fr_size (FrameStream := FS)) as HP. unfold blank_at. rewrite Hk. apply fr_blank; [done| |by apply Z.mod_pos_bound].
  split; [subst k; by apply Z.div_pos|done].
Qed.

Lemma lookups_at {A} (lut : list (list A)) fps k ms b : (forall x, 0 <= x < 256 -> is_Some (lut !! Z.to_nat x)) -> on k ms -> 0 <= b -> b / P = k -> k < n ->
  b mod P + Z.of_nat fps <= P ->
  exists rows, lookups lut fps mem ms (b mod P) = Some rows /\
    forall j, (j < fps)%nat -> rows !! j = lut !! Z.to_nat (stream_byte mem P payload (b + Z.of_nat j)) /\
      0 <= stream_byte mem P payload (b + Z.of_nat j) < 256.
Proof using FS.
  intros Hlut Hon Hb Hk Hn Hf. unfold lookups. rewrite (fr_payload k ms Hon). cbn [mbind option_bind].
  pose proof (fr_size (FrameStream := FS)) as HP. assert (Hk0 : 0 <= k) by (subst k; by apply Z.div_pos).
  destruct (fr_readable k) as [H1 H2]; [lia|]. pose proof (Z.mod_pos_bound b P HP) as Hr.
  pose proof (Z.div_mod b P ltac:(lia)) as Hd. rewrite Hk in Hd.
  assert (Hbyte : forall j, (j < fps)%nat -> byte_at mem (payload k + b mod P + Z.of_nat j) = Some (stream_byte mem P payload (b + Z.of_nat j)) /\
    0 <= stream_byte mem P payload (b + Z.of_nat j) < 256).
  { intros j Hj. unfold stream_byte.
    assert (Eq : (b + Z.of_nat j) / P = k /\ (b + Z.of_nat j) mod P = b mod P + Z.of_nat j).
    { split; [symmetry; apply (Z.div_unique_pos _ _ k (b mod P + Z.of_nat j))|
              symmetry; apply (Z.mod_unique_pos _ _ k)]; lia. }
    destruct Eq as [-> ->]. rewrite byte_at_nth by lia. rewrite !Z.add_assoc. split; [done|].
    assert (Hin : (Z.to_nat (payload k + b mod P + Z.of_nat j) < length mem)%nat) by lia.
    apply (proj1 (List.Forall_forall _ _) (fr_bytes (FrameStream := FS))), List.nth_In, Hin. }
  destruct (mapM (fun j => b ← byte_at mem (payload k + b mod P + Z.of_nat j); lut !! Z.to_nat b) (seq 0 fps)) as [rows|] eqn:E.
  - exists rows. split; [done|]. intros j Hj. apply mapM_Some in E. destruct (Hbyte j Hj) as [Ej Rj]. split; [|done].
    destruct (list.Forall2_lookup_l _ _ _ j j E) as (row & Er & Ev); [apply lookup_seq; lia|].
    rewrite Ej in Ev. cbn [mbind option_bind] in Ev. congruence.
  - exfalso. apply mapM_None in E. apply list.Exists_exists in E as (j & Hj%elem_of_seq & E). destruct (Hbyte j) as [Ej Rj]; [lia|].
    rewrite Ej in E. cbn [mbind option_bind] in E. destruct (Hlut _ Rj) as [row Er]. congruence.
Qed.

Lemma next_position_at st b ms : 0 < st -> (st | P) -> (st | b) -> 0 <= b -> on (b / P) ms -> (b + st) / P < n ->
  exists ms', next_position end_ mem ms (b mod P + st) = Some (ms', Some ((b + st) mod P)) /\ on ((b + st) / P) ms'.
Proof using FS.
  intros Hst Hp Hd Hb Hon Hn. pose proof (fr_size (FrameStream := FS)) as HP. pose proof (step_within P st b HP Hst Hp Hd) as Hle.
  pose proof (Z.mod_pos_bound b P HP) as Hr. pose proof (Z.div_mod b P ltac:(lia)) as Hdm.
  unfold next_position. rewrite (fr_end _ _ Hon). destruct (Z.leb_spec P (b mod P + st)) as [Hge|Hlt].
  - assert (E : (b + st) / P = b / P + 1 /\ (b + st) mod P = 0).
    { split; symmetry; [apply (Z.div_unique_pos _ _ _ 0)|apply (Z.mod_unique_pos _ _ (b / P + 1))]; lia. }
    destruct E as [E1 E2]. rewrite E1, E2 in *. destruct (fr_next _ _ Hon) as (ms' & -> & Hon'); [by apply Z.div_pos|done|].
    by exists ms'.
  - assert (E : (b + st) / P = b / P /\ (b + st) mod P = b mod P + st).
    { split; symmetry; [apply (Z.div_unique_pos _ _ _ (b mod P + st))|apply (Z.mod_unique_pos _ _ (b / P))]; lia. }
    destruct E as [-> ->]. by exists ms.
Qed.

Context (nchan : nat) (stride nbit : Z) (level : Z -> Z -> state) (d : decoder).
Hypothesis Hd : decodes nchan stride nbit decimation level d.
Hypothesis Hdiv : (d_step d decimation | P).

Abbreviation R := (Z.of_nat (length (d_rows d))).
Abbreviation st := (d_step d decimation).
Abbreviation lev := (level_at mem P payload blank level).

Lemma turn_values k ms b : on k ms -> 0 <= b -> b / P = k -> k < n -> b mod P + st <= P ->
  exists fps, (if blank_at P blank b then Some (replicate (d_fps d) zeros) else lookups (d_lut d) (d_fps d) mem ms (b mod P)) = Some fps /\
    forall j e, (j < d_fps d)%nat -> nbit * Z.of_nat e < 8 ->
      entry_value fps j e = Some (lev b (8 * (b + Z.of_nat j) + nbit * Z.of_nat e)).
Proof using FS Hd.
  intros Hon Hb Hk Hn Hroom. unfold level_at. destruct Hd as [Hbits _ Hlut _ _ _ _ Hfps]. destruct (blank_at P blank b).
  - eexists. split; [reflexivity|]. intros j e Hj He. unfold entry_value. rewrite lookup_replicate_2 by done.
    cbn [mbind option_bind]. apply lookup_replicate_2. nia.
  - destruct (lookups_at (d_lut d) (d_fps d) k ms b) as (rows & E & Hrows); [|done..|lia|].
    { intros x Hx. specialize (Hlut x 0%nat Hx ltac:(lia)). destruct (d_lut d !! Z.to_nat x); [by eexists|done]. }
    exists rows. split; [exact E|]. intros j e Hj He. destruct (Hrows j Hj) as [Er Hr]. unfold entry_value. rewrite Er.
    rewrite Hlut by done. do 2 f_equal.
    + f_equal. apply (Z.div_unique_pos _ _ _ (nbit * Z.of_nat e)); lia.
    + apply (Z.mod_unique_pos _ _ (b + Z.of_nat j)); lia.
Qed.

(** All turns of a call: in blanked data the position moves on as elsewhere, or there
    are none. *)
Lemma decode_loop_run : d_blanked d = blanked -> d_end d = end_ -> d_skip d decimation = st \/ (forall k i, 0 <= k < n -> blank k i = false) ->
  forall T fuel b o nblank ms data nsamp, (T <= fuel)%nat -> nsamp = o + Z.of_nat T * R -> 0 <= o -> 0 <= b -> (st | b) ->
  on (b / P) ms -> (b + Z.of_nat T * st) / P < n -> sample_room nchan nsamp data ->
  exists ms' data', decode_loop fuel d mem nsamp o (b mod P) nblank ms data =
      Some (nsamp - d_blank d * (nblank + blank_turns P blank st T b), ms_set_readposition ms' ((b + Z.of_nat T * st) mod P), data') /\
    on ((b + Z.of_nat T * st) / P) ms' /\ shape data' = shape data /\
    (forall c s, (c < nchan)%nat -> 0 <= s < Z.of_nat T * R -> sample_at data' c (Z.to_nat (o + s)) =
       Some (lev (b + s / R * st) (8 * b + (s * decimation * stride + Z.of_nat c) * nbit))) /\
    (forall c o', (o' < Z.to_nat o \/ Z.to_nat nsamp <= o' \/ nchan <= c)%nat -> sample_at data' c o' = sample_at data c o').
Proof using FS Hd Hdiv.
  intros Hbl Hend Hskip. pose proof Hd as [Hbits _ _ HR Hch Hent Hst Hfps]. pose proof (fr_size (FrameStream := FS)) as HP.
  induction T as [|T IH]; intros fuel b o nblank ms data nsamp Hfuel Hns Ho Hb Hdv Hon Hn Hroom.
  - exists ms, data. rewrite Z.mul_0_l, !Z.add_0_r in *. subst nsamp. cbn [blank_turns]. rewrite ?Z.add_0_r. split; [|split; [done|split; [done|split; [lia|done]]]].
    destruct fuel; cbn [decode_loop]; by rewrite Z.ltb_irrefl.
  - destruct fuel as [|fuel]; [lia|]. cbn [decode_loop]. rewrite Nat2Z.inj_succ, Z.mul_succ_l in Hn. rewrite Nat2Z.inj_succ, Z.mul_succ_l in Hns.
    assert (HTR : 0 <= Z.of_nat T * R) by (apply Z.mul_nonneg_nonneg; lia). assert (HTs : 0 <= Z.of_nat T * st) by (apply Z.mul_nonneg_nonneg; lia).
    destruct (Z.ltb_spec o nsamp); [|lia].
    assert (Hk1 : b / P <= (b + st) / P <= (b + (Z.of_nat T * st + st)) / P) by (split; apply Z.div_le_mono; lia).
    assert (Hk0 : 0 <= b / P) by (by apply Z.div_pos).
    rewrite Hbl, (blanked_at _ ms b Hon Hb eq_refl) by lia. cbn [mbind option_bind].
    destruct (turn_values _ ms b Hon Hb eq_refl) as (fps & E1 & V); [lia|by apply step_within; [|lia|..]|].
    rewrite E1. cbn [mbind option_bind].
    destruct (store_rows_spec nchan fps o (d_rows d) data) as (d1 & E2 & S1 & G1 & A1); [done| | |].
    { intros r row Er. split; [by apply (Hch r)|]. apply list.Forall_forall. intros [[c j] e] Hin.
      destruct (Hent r row c j e Er Hin) as (Hj & He & _). cbn [fst snd]. rewrite V by done. by eexists. }
    { intros c Hc. destruct (Hroom c Hc) as (m & Hm & Hle). exists m. split; [done|lia]. }
    rewrite E2. cbn [mbind option_bind]. rewrite (fr_decimation _ ms Hon), Hend.
    assert (Es : (if blank_at P blank b then d_skip d else d_step d) decimation = st).
    { destruct (blank_at P blank b) eqn:Eb; [|done]. destruct Hskip as [E|E]; [exact E|]. unfold blank_at in Eb. rewrite E in Eb; [done|lia]. }
    rewrite Es. destruct (next_position_at st b ms) as (ms1 & E3 & Hon1); [lia|done|done|done|done|lia|]. rewrite E3. cbn [mbind option_bind].
    destruct (IH fuel (b + st) (o + R) (if blank_at P blank b then nblank + 1 else nblank) ms1 d1 nsamp) as (ms' & d2 & E4 & Hon2 & S2 & G2 & A2);
      [lia|lia|lia|lia|by apply Z.divide_add_r|done|by replace (b + st + Z.of_nat T * st) with (b + (Z.of_nat T * st + st)) by lia|by eapply room_shape|].
    exists ms', d2. replace (b + Z.of_nat (S T) * st) with (b + st + Z.of_nat T * st) by lia. split; [|split; [done|split; [congruence|split]]].
    + rewrite E4. do 3 f_equal. cbn [blank_turns]. destruct (blank_at P blank b); lia.
    + intros c s Hc Hs. destruct (Z.lt_ge_cases s R) as [Hlt|Hge].
      * rewrite A2 by lia. destruct (d_rows d !! Z.to_nat s) as [row|] eqn:Er; [|apply lookup_ge_None in Er; lia].
        destruct (row_entry nchan row c (Hch _ _ Er) Hc) as (j & e & Hin). destruct (Hent _ row c j e Er Hin) as (Hj & He & Hm).
        replace (Z.to_nat (o + s)) with (Z.to_nat o + Z.to_nat s)%nat by lia. rewrite (G1 _ row c j e Er Hin), V by done.
        rewrite (Z.div_small s R), Z.mul_0_l, Z.add_0_r by lia. do 2 f_equal. rewrite Z2Nat.id in Hm by lia. lia.
      * replace (o + s) with (o + R + (s - R)) by lia. rewrite G2 by lia. do 2 f_equal.
        -- replace (s / R) with ((s - R) / R + 1); [lia|]. rewrite <-Z.div_add by lia. f_equal. lia.
        -- replace (8 * (b + st)) with (8 * b + R * decimation * stride * nbit) by lia. ring.
    + intros c o' Hor. rewrite A2 by lia. apply A1. lia.
Qed.

(** A call of the decoder that starts with sample [Q * R] of the frames. *)
Lemma decode_run ms Q T data : d_blanked d = blanked -> d_end d = end_ -> d_skip d decimation = st \/ (forall k i, 0 <= k < n -> blank k i = false) ->
  on (Q * st / P) ms -> ms_readposition ms = (Q * st) mod P ->
  0 <= Q -> (Q + Z.of_nat T) * st < n * P -> sample_room nchan (Z.of_nat T * R) data ->
  exists ms' data', decode d mem ms (Z.of_nat T * R) data = Some (Z.of_nat T * R - d_blank d * blank_turns P blank st T (Q * st), ms', data') /\
    on ((Q + Z.of_nat T) * st / P) ms' /\ ms_readposition ms' = ((Q + Z.of_nat T) * st) mod P /\ shape data' = shape data /\
    forall c s, (c < nchan)%nat -> 0 <= s < Z.of_nat T * R -> sample_at data' c (Z.to_nat s) =
      Some (lev ((Q * R + s) / R * st) (((Q * R + s) * decimation * stride + Z.of_nat c) * nbit)).
Proof using FS Hd Hdiv.
  intros Hbl Hend Hskip Hon Hpos HQ Hn Hroom. pose proof Hd as [Hbits _ _ HR _ _ Hst Hfps]. pose proof (fr_size (FrameStream := FS)) as HP.
  destruct (decode_loop_run Hbl Hend Hskip T (Z.to_nat (Z.of_nat T * R)) (Q * st) 0 0 ms data (Z.of_nat T * R))
    as (ms' & data' & E & Hon' & Hs & G & _); [nia|done|done|nia|by apply Z.divide_factor_r|done| |done|].
  { apply Z.div_lt_upper_bound; [done|]. lia. }
  rewrite <-Z.mul_add_distr_r in E, Hon'.
  eexists _, data'. split; [|split; [|split; [|split; [done|]]]].
  - unfold decode. rewrite Hpos, E. by rewrite Z.add_0_l.
  - by apply fr_position.
  - done.
  - intros c s Hc Hsr. specialize (G c s Hc Hsr). rewrite Z.add_0_l in G. rewrite G. do 2 f_equal.
    + rewrite (Z.add_comm (Q * R)), Z.div_add by lia. ring.
    + replace (8 * (Q * st)) with (Q * (8 * st)) by ring. rewrite Hst. ring.
Qed.

End Decoding.

(** ** The turn of a sample *)

(** The numbers of a format whose turns fit in a payload of [P] bytes. *)
Lemma format_numbers P nchan stride nbit decimation level d : decodes nchan stride nbit decimation level d -> (d_step d decimation | P) ->
  0 < P -> 0 < stride -> 0 < decimation ->
  let R := Z.of_nat (length (d_rows d)) in let st := d_step d decimation in
  0 < R /\ 0 < st /\ exists M, 0 < M /\ P = st * M /\ 8 * st = R * (stride * nbit * decimation) /\
    cdiv (P * 8) (stride * nbit * decimation) = R * M.
Proof.
  intros [Hb _ _ HR _ _ Hst Hf] [M HM] HP Hn Hdec R st. fold R st in Hst. fold st in Hf, HM.
  assert (HR1 : 0 < R) by (unfold R; lia). assert (HM0 : 0 < M) by nia.
  assert (Hp : 0 < stride * nbit * decimation) by (apply Z.mul_pos_pos; [apply Z.mul_pos_pos|]; lia).
  split; [done|]. split; [lia|]. exists M. split; [done|]. split; [lia|]. split; [lia|].
  rewrite Z.quot_div_nonneg by lia. symmetry. apply (Z.div_unique_pos _ _ _ 0); [lia|].
  rewrite HM. replace (M * st * 8) with (M * (8 * st)) by lia. rewrite Hst. ring.
Qed.

Lemma blocks_of (st M Q : Z) : 0 < st -> 0 < M -> (Q * st) / (st * M) = Q / M /\ (Q * st) mod (st * M) = st * (Q mod M).
Proof.
  intros Hs HM. rewrite (Z.mul_comm Q st). split; [by rewrite Z.div_mul_cancel_l by lia|]. by rewrite Z.mul_mod_distr_l by lia.
Qed.

(** A sample is read in the turn that its number says: in the frame of its bits. *)
Lemma turn_of_sample P stride nbit decimation R st S c : 0 < P -> 0 < R -> 0 < st -> (st | P) -> 1 <= nbit -> 0 < decimation ->
  8 * st = R * (stride * nbit * decimation) -> 0 <= S -> 0 <= c < stride ->
  S / R * st / P = (S * decimation * stride + c) * nbit / 8 / P.
Proof.
  intros HP HR Hst Hdiv Hb Hdec H8 HS Hc. set (x := S / R * st).
  pose proof (Z.div_mod S R ltac:(lia)) as Hdm. pose proof (Z.mod_pos_bound S R HR) as Hr. pose proof (Z.div_pos S R HS HR) as Hq.
  set (o := (S mod R * decimation * stride + c) * nbit).
  assert (Em : (S * decimation * stride + c) * nbit = 8 * x + o).
  { unfold x, o. rewrite Hdm at 1. replace (8 * (S / R * st)) with (S / R * (8 * st)) by ring. rewrite H8. ring. }
  assert (Ho : 0 <= o < 8 * st).
  { unfold o. rewrite H8. assert (H1 : 0 <= S mod R * decimation * stride) by (apply Z.mul_nonneg_nonneg; [apply Z.mul_nonneg_nonneg|]; lia).
    assert (H2 : S mod R * decimation * stride + c < R * (decimation * stride)).
    { assert ((S mod R + 1) * (decimation * stride) <= R * (decimation * stride)) by (apply Z.mul_le_mono_nonneg_r; [apply Z.mul_nonneg_nonneg|]; lia).
      assert (stride <= decimation * stride) by nia. lia. }
    split; [apply Z.mul_nonneg_nonneg; lia|].
    replace (R * (stride * nbit * decimation)) with (R * (decimation * stride) * nbit) by ring. apply Z.mul_lt_mono_pos_r; lia. }
  rewrite Em. assert (Hx : 0 <= x) by (unfold x; nia).
  assert (E8 : (8 * x + o) / 8 = x + o / 8) by (rewrite (Z.mul_comm 8 x), Z.div_add_l by lia; done). rewrite E8.
  assert (Ho8 : 0 <= o / 8 < st) by (split; [apply Z.div_pos; lia|apply Z.div_lt_upper_bound; lia]).
  pose proof (step_within P st x HP Hst Hdiv) as Hw. pose proof (Z.mod_pos_bound x P HP). pose proof (Z.div_mod x P ltac:(lia)).
  apply (Z.div_unique_pos _ _ _ (x mod P + o / 8)); [|lia].
  enough (x mod P + st <= P) by lia. apply Hw. by exists (S / R).
Qed.

(** The bits of the samples of [B] turns. *)
Lemma sample_bit stride nbit decimation R st B S c : 1 <= nbit -> 0 < stride -> 0 < decimation ->
  8 * st = R * (stride * nbit * decimation) -> 0 <= S < B * R -> 0 <= c < stride ->
  0 <= (S * decimation * stride + c) * nbit /\ (S * decimation * stride + c) * nbit < 8 * (B * st).
Proof.
  intros Hb Hn Hd H8 HS Hc. replace (8 * (B * st)) with (B * R * (decimation * stride) * nbit) by (replace (8 * (B * st)) with (B * (8 * st)) by ring; rewrite H8; ring).
  assert (H1 : (S + 1) * (decimation * stride) <= B * R * (decimation * stride)) by (apply Z.mul_le_mono_nonneg_r; [apply Z.mul_nonneg_nonneg|]; lia).
  assert (H2 : stride <= decimation * stride) by nia. assert (H3 : 0 <= S * (decimation * stride)) by (apply Z.mul_nonneg_nonneg; [|apply Z.mul_nonneg_nonneg]; lia).
  rewrite <-(Z.mul_assoc S). split; [apply Z.mul_nonneg_nonneg; lia|].
  apply Z.mul_lt_mono_pos_r; lia.
Qed.

(** Where bit [m] is in the frames: in payload [m / (8*P)], at bit [m mod (8*P)]. *)
Lemma frame_bit P m : 0 < P -> m / 8 / P = m / (8 * P) /\ (m / 8) mod P = m mod (8 * P) / 8 /\ m mod 8 = (m mod (8 * P)) mod 8.
Proof.
  intros HP. rewrite Z.div_div by lia. split; [done|].
  assert (Em : m mod (8 * P) = m mod 8 + (m / 8) mod P * 8).
  { pose proof (Z.div_mod (m / 8) P ltac:(lia)) as H1. pose proof (Z.div_mod m 8 ltac:(done)) as H2.
    pose proof (Z.mod_pos_bound m 8 ltac:(done)). pose proof (Z.mod_pos_bound (m / 8) P HP) as H3.
    symmetry. apply (Z.mod_unique_pos _ _ (m / 8 / P)); lia. }
  pose proof (Z.mod_pos_bound m 8 ltac:(done)).
  rewrite Em, Z.div_add, Z.mod_add by done. by rewrite (Z.div_small (m mod 8) 8), Z.add_0_l, Z.mod_mod by done.
Qed.

(** The level of the sample at bit [m] of the payload at [p], read in a turn that
    starts with byte [i] of it; [bl] says which turns are blanked. *)
Definition payload_level (mem : buffer) (p : Z) (bl : Z -> bool) (level : Z -> Z -> state) (i m : Z) : state :=
  if bl i then Zero else level (nth (Z.to_nat (p + m / 8)) mem 0) (m mod 8).

Lemma level_at_frame mem P payload blank level x m : 0 < P -> x / P = m / 8 / P ->
  level_at mem P payload blank level x m =
  payload_level mem (payload (m / (8 * P))) (blank (m / (8 * P))) level (x mod P) (m mod (8 * P)).
Proof.
  intros HP Hk. destruct (frame_bit P m HP) as (E1 & E2 & E3). unfold level_at, payload_level, blank_at, stream_byte. by rewrite Hk, E1, E2, E3.
Qed.

(** The sample [S] of channel [c] that a decoder reads, in its frame. *)
Lemma level_sample mem P payload blank nchan stride nbit decimation level d S c : decodes nchan stride nbit decimation level d -> (d_step d decimation | P) ->
  0 < P -> 0 < stride -> 0 < decimation -> 0 <= S -> 0 <= c < stride ->
  let m := (S * decimation * stride + c) * nbit in let x := S / Z.of_nat (length (d_rows d)) * d_step d decimation in
  level_at mem P payload blank level x m =
  payload_level mem (payload (m / (8 * P))) (blank (m / (8 * P))) level (x mod P) (m mod (8 * P)).
Proof.
  intros Hd Hdiv HP Hn Hdec HS Hc m x.
  destruct (format_numbers P nchan stride nbit decimation level d Hd Hdiv HP Hn Hdec) as (HR & Hst & M & HM & EP & H8 & HF).
  apply level_at_frame; [done|]. apply turn_of_sample; try done. by apply (dc_bits _ _ _ _ _ _ Hd).
Qed.

Lemma room_replicate nchan n nsamp : nsamp <= Z.of_nat n -> sample_room nchan nsamp (replicate nchan (replicate n Zero)).
Proof.
  intros H c Hc. exists n. split; [|done]. unfold shape. rewrite fmap_replicate, length_replicate. by apply lookup_replicate_2.
Qed.
