(* ===== verification/CountersSpec.v ===== *)
(** * CountersSpec: what the counters compute

    A counter of high states adds to the counts of the channels what its decoder would
    give as high or low extremes. *)
From S2P Require Export DecodersSpec.
#[local] Open Scope Z_scope.

Definition high (v : state) : Z := if is_high v then 1 else 0.

Fixpoint sum_upto (f : Z -> Z) (n : nat) : Z :=
  match n with O => 0 | S n => sum_upto f n + f (Z.of_nat n) end.

Lemma sum_upto_add f a b : sum_upto f (a + b) = sum_upto f a + sum_upto (fun i => f (Z.of_nat a + i)) b.
Proof.
  induction b as [|b IH]; [by rewrite Nat.add_0_r, Z.add_0_r|]. rewrite Nat.add_succ_r. cbn [sum_upto]. rewrite IH, Nat2Z.inj_add. lia.
Qed.

Lemma sum_upto_ext f g n : (forall i, 0 <= i < Z.of_nat n -> f i = g i) -> sum_upto f n = sum_upto g n.
Proof. intros H. induction n as [|n IH]; [done|]. cbn [sum_upto]. rewrite H by lia. rewrite IH; [done|]. intros i Hi. apply H. lia. Qed.

Lemma sum_upto_zero f n : (forall i, 0 <= i < Z.of_nat n -> f i = 0) -> sum_upto f n = 0.
Proof. intros H. induction n as [|n IH]; [done|]. cbn [sum_upto]. rewrite H by lia. rewrite IH; [done|]. intros i Hi. apply H. lia. Qed.

(** A table of counts, of a table of levels. *)
Definition high_lut (lut : list (list state)) : list (list Z) := (fun row : list state => (fun v => if is_high v then 1 else 0) <$> row) <$> lut.

Lemma high_lut_entry lut b e : high_lut lut !! b ≫= (.!! e) = high <$> (lut !! b ≫= (.!! e)).
Proof.
  unfold high_lut. rewrite list_lookup_fmap. destruct (lut !! b) as [row|]; [|done]. cbn [mbind option_bind fmap option_fmap option_map].
  by rewrite list_lookup_fmap.
Qed.

(** The counter of a decoder goes over the same data by the same steps, and counts
    the entries that the decoder stores. *)
Definition counts (d : decoder) (c : counter) : Prop :=
  c_blanked c = d_blanked d /\ c_end c = d_end d /\ c_lut c = high_lut (d_lut d) /\ c_fps c = d_fps d /\ c_step c = d_step d /\
  c_blank c = d_blank d /\ c_adds c = concat (d_rows d).

(** ** Adding a turn *)

Definition counters_ok (nchan : nat) (hs : list Z) : Prop := (nchan <= length hs)%nat /\ Forall (fun h => 0 <= h < 2 ^ 32) hs.

Lemma add_row_spec nchan fps row : Forall (fun p => is_Some (entry_value fps p.1.2 p.2)) row -> NoDup (row_channels row) ->
  Forall (fun c => (c < nchan)%nat) (row_channels row) -> forall hs, counters_ok nchan hs ->
  exists hs', add_states fps row hs = Some hs' /\ counters_ok nchan hs' /\
    (forall c j e v, (c, j, e) ∈ row -> entry_value fps j e = Some v -> hs' !! c = (fun h => u32 (h + v)) <$> hs !! c) /\
    (forall c, c ∉ row_channels row -> hs' !! c = hs !! c).
Proof.
  induction row as [|[[c j] e] row IH]; intros Hv Hnd Hc hs Hhs.
  - exists hs. split; [done|]. split; [done|]. split; [by intros ???? ?%elem_of_nil|done].
  - apply Forall_cons_1 in Hv as [[v Hv] Hvs]. unfold row_channels in *. cbn [fmap list_fmap] in *.
    apply list.NoDup_cons in Hnd as [Hni Hnd]. apply Forall_cons_1 in Hc as [Hc Hcs]. cbn [fst snd] in *. destruct Hhs as [Hl Hr].
    destruct (hs !! c) as [h|] eqn:Eh; [|apply lookup_ge_None in Eh; lia].
    destruct (IH Hvs Hnd Hcs (<[c := u32 (h + v)]> hs)) as (hs' & E & Hok & G & A).
    { split; [by rewrite length_insert|]. apply Forall_insert; [done|]. apply uwrap_range. lia. }
    exists hs'. split; [|split; [done|split]].
    + unfold add_states in *. cbn [run_iters]. unfold entry_value in Hv. destruct (fps !! j) as [fp|]; [|done]. cbn [mbind option_bind] in *.
      rewrite Hv. cbn [mbind option_bind]. rewrite Eh. exact E.
    + intros c' j' e' v' [Heq|Hin]%elem_of_cons Hv'.
      * injection Heq as -> -> ->. rewrite A by done. rewrite list_lookup_insert_eq by lia. rewrite Eh. cbn. congruence.
      * rewrite (G c' j' e' v') by done. rewrite list_lookup_insert_ne; [done|]. intros ->. apply Hni.
        apply list_elem_of_fmap. by exists (c', j', e').
    + intros c' Hn. rewrite A by (intros Hin; apply Hn; by right). apply list_lookup_insert_ne. intros ->. apply Hn. by left.
Qed.

(** The value that row [r] has for channel [c]. *)
Definition row_value (fps : list (list Z)) (rows : list (list (nat * nat * nat))) (c : nat) (r : Z) : Z :=
  default 0 (row ← rows !! Z.to_nat r; p ← row !! c; entry_value fps p.1.2 p.2).

Lemma add_rows_spec nchan fps rows : rows_ok nchan fps rows -> forall hs, counters_ok nchan hs ->
  exists hs', add_states fps (concat rows) hs = Some hs' /\ counters_ok nchan hs' /\
    forall c, (c < nchan)%nat -> hs' !! c = (fun h => u32 (h + sum_upto (row_value fps rows c) (length rows))) <$> hs !! c.
Proof.
  induction rows as [|row rows IH] using rev_ind; intros Hrows hs Hhs.
  - exists hs. split; [done|]. split; [done|]. intros c Hc. destruct Hhs as [Hl Hr]. destruct (hs !! c) as [h|] eqn:Eh; [|done].
    cbn [fmap option_fmap option_map sum_upto length]. rewrite Z.add_0_r, uwrap_small; [done|]. exact (Forall_lookup_1 _ _ _ _ Hr Eh).
  - destruct (IH) with (hs := hs) as (h1 & E1 & Ok1 & A1); [|done|].
    { intros r row' Er. apply (Hrows r). rewrite lookup_app_l; [done|]. by apply lookup_lt_Some in Er. }
    assert (Elast : (rows ++ [row]) !! length rows = Some row) by (rewrite lookup_app_r, Nat.sub_diag by lia; done).
    destruct (Hrows _ _ Elast) as [Hc Hv].
    destruct (add_row_spec nchan fps row Hv) with (hs := h1) as (h2 & E2 & Ok2 & A2 & _); [rewrite Hc; apply NoDup_seq| |done|].
    { rewrite Hc. apply list.Forall_forall. intros c Hin%elem_of_seq. lia. }
    exists h2. split; [|split; [done|]].
    + rewrite concat_app. cbn [concat]. rewrite app_nil_r. unfold add_states in *. by rewrite run_iters_app, E1.
    + intros c Hlt. assert (Ech : row_channels row !! c = Some c) by (rewrite Hc; by apply lookup_seq).
      unfold row_channels in Ech. rewrite list_lookup_fmap in Ech. destruct (row !! c) as [[[c' j] e]|] eqn:Er; [|done]. injection Ech as ->.
      pose proof (proj1 (list.Forall_forall _ _) Hv (c, j, e) ltac:(by eapply list_elem_of_lookup_2)) as [v Ev]. cbn [fst snd] in Ev.
      rewrite (A2 c j e v), A1 by (done || by eapply list_elem_of_lookup_2). rewrite length_app. cbn [length]. rewrite Nat.add_1_r. cbn [sum_upto].
      assert (Es : sum_upto (row_value fps (rows ++ [row]) c) (length rows) = sum_upto (row_value fps rows c) (length rows)).
      { apply sum_upto_ext. intros i Hi. unfold row_value. by rewrite lookup_app_l by lia. }
      assert (El : row_value fps (rows ++ [row]) c (Z.of_nat (length rows)) = v).
      { unfold row_value. rewrite Nat2Z.id, Elast. cbn [mbind option_bind]. rewrite Er. cbn [mbind option_bind fst snd]. by rewrite Ev. }
      rewrite Es, El. destruct (hs !! c) as [h|]; [|done]. cbn [fmap option_fmap option_map]. f_equal. unfold uwrap. rewrite Z.add_mod_idemp_l by lia.
      f_equal. lia.
Qed.

(** ** The loop *)

Section Counting.
Context {mem : buffer} {decimation n P : Z} {payload : Z -> Z} {blank : Z -> Z -> bool} {on : Z -> mark5_stream -> Prop}.
Context {blanked : buffer -> mark5_stream -> Z -> option bool} {end_ : mark5_stream -> Z}.
Context `{FS : !FrameStream mem decimation n P payload blank on blanked end_}.
Context (nchan : nat) (stride nbit : Z) (level : Z -> Z -> state) (d : decoder) (k : counter).
Hypothesis Hd : decodes nchan stride nbit decimation level d.
Hypothesis Hk : counts d k.
Hypothesis Hdiv : (d_step d decimation | P).

Abbreviation R := (Z.of_nat (length (d_rows d))).
Abbreviation st := (d_step d decimation).
Abbreviation lev b s c := (level_at mem P payload blank level (b + s / R * st) (8 * b + (s * decimation * stride + c) * nbit)).

(** A turn that is not blanked. *)
Lemma count_turn ms b hs : on (b / P) ms -> 0 <= b -> b / P < n -> b mod P + st <= P ->
  blank_at P blank b = false -> counters_ok nchan hs ->
  exists fps hs', lookups (c_lut k) (c_fps k) mem ms (b mod P) = Some fps /\ add_states fps (c_adds k) hs = Some hs' /\ counters_ok nchan hs' /\
    forall c, (c < nchan)%nat -> hs' !! c = (fun h => u32 (h + sum_upto (fun s => high (lev b s (Z.of_nat c))) (length (d_rows d)))) <$> hs !! c.
Proof using FS Hd Hk.
  intros Hon Hb Hn Hroom Hbl Hhs. destruct Hk as (_ & _ & -> & -> & _ & _ & ->). pose proof Hd as [Hbits _ Hlut HR Hch Hent Hst Hfps].
  destruct (lookups_at (high_lut (d_lut d)) (d_fps d) (b / P) ms b) as (fps & E & Hrows); [|done|done|done|done|lia|].
  { intros x Hx. specialize (Hlut x 0%nat Hx ltac:(lia)). unfold high_lut. rewrite list_lookup_fmap. destruct (d_lut d !! Z.to_nat x); [by eexists|done]. }
  assert (V : forall j e, (j < d_fps d)%nat -> nbit * Z.of_nat e < 8 ->
    entry_value fps j e = Some (high (level_at mem P payload blank level b (8 * (b + Z.of_nat j) + nbit * Z.of_nat e)))).
  { intros j e Hj He. destruct (Hrows j Hj) as [Er Hr]. unfold entry_value. rewrite Er, high_lut_entry.
    rewrite Hlut by done. cbn [fmap option_fmap option_map]. unfold level_at. rewrite Hbl. do 3 f_equal.
    - f_equal. apply (Z.div_unique_pos _ _ _ (nbit * Z.of_nat e)); lia.
    - apply (Z.mod_unique_pos _ _ (b + Z.of_nat j)); lia. }
  destruct (add_rows_spec nchan fps (d_rows d)) with (hs := hs) as (hs' & E2 & Hok & A); [|done|].
  { intros r row Er. split; [by apply (Hch r)|]. apply list.Forall_forall. intros [[c j] e] Hin.
    destruct (Hent r row c j e Er Hin) as (Hj & He & _). cbn [fst snd]. rewrite V by done. by eexists. }
  exists fps, hs'. split; [done|]. split; [done|]. split; [done|]. intros c Hc. rewrite A by done. destruct (hs !! c) as [h|]; [|done].
  cbn [fmap option_fmap option_map]. do 2 f_equal. f_equal. apply sum_upto_ext. intros s Hs. unfold row_value.
  destruct (d_rows d !! Z.to_nat s) as [row|] eqn:Er; [|apply lookup_ge_None in Er; lia]. cbn [mbind option_bind].
  assert (Ech : row_channels row !! c = Some c) by (rewrite (Hch _ _ Er); by apply lookup_seq).
  unfold row_channels in Ech. rewrite list_lookup_fmap in Ech. destruct (row !! c) as [[[c' j] e]|] eqn:Ec; [|done]. injection Ech as ->.
  apply list_elem_of_lookup_2 in Ec. destruct (Hent _ row c j e Er Ec) as (Hj & He & Hm). cbn [mbind option_bind fst snd]. rewrite V by done. unfold default, id.
  rewrite (Z.div_small s R), Z.mul_0_l, Z.add_0_r by lia. do 2 f_equal. rewrite Z2Nat.id in Hm by lia. lia.
Qed.

Lemma count_loop_run : c_blanked k = blanked -> c_end k = end_ -> forall T fuel b o nblank ms hs nsamp, (T <= fuel)%nat -> nsamp = o + Z.of_nat T * c_turn k -> 0 < c_turn k -> 0 <= b -> (st | b) ->
  on (b / P) ms -> (b + Z.of_nat T * st) / P < n -> counters_ok nchan hs ->
  exists ms' hs', count_states_loop fuel k mem nsamp o (b mod P) nblank ms hs =
      Some (nsamp - d_blank d * (nblank + blank_turns P blank st T b),
            ms_set_readposition ms' ((b + Z.of_nat T * st) mod P), hs') /\
    on ((b + Z.of_nat T * st) / P) ms' /\ counters_ok nchan hs' /\
    forall c, (c < nchan)%nat -> hs' !! c = (fun h => u32 (h + sum_upto (fun s => high (lev b s (Z.of_nat c))) (T * length (d_rows d)))) <$> hs !! c.
Proof using FS Hd Hk Hdiv.
  intros Hbl Hend. pose proof Hd as [_ _ _ HR _ _ Hst Hfps]. pose proof Hk as (_ & _ & _ & _ & Hks & Hkb & _). pose proof (fr_size (FrameStream := FS)) as HP.
  induction T as [|T IH]; intros fuel b o nblank ms hs nsamp Hfuel Hns Ht Hb Hdv Hon Hn Hhs.
  - exists ms, hs. rewrite Z.mul_0_l, !Z.add_0_r in *. subst nsamp. split; [|split; [done|split; [done|]]].
    + cbn [blank_turns]. rewrite ?Z.add_0_r. destruct fuel; cbn [count_states_loop]; by rewrite Z.ltb_irrefl, Hkb.
    + intros c Hc. destruct Hhs as [Hl Hr]. destruct (hs !! c) as [h|] eqn:Eh; [|done].
      cbn [fmap option_fmap option_map sum_upto Nat.mul]. rewrite Z.add_0_r, uwrap_small; [done|exact (Forall_lookup_1 _ _ _ _ Hr Eh)].
  - destruct fuel as [|fuel]; [lia|]. cbn [count_states_loop]. rewrite Nat2Z.inj_succ, Z.mul_succ_l in Hn. rewrite Nat2Z.inj_succ, Z.mul_succ_l in Hns.
    assert (HTR : 0 <= Z.of_nat T * c_turn k) by (apply Z.mul_nonneg_nonneg; lia). assert (HTs : 0 <= Z.of_nat T * st) by (apply Z.mul_nonneg_nonneg; lia).
    destruct (Z.ltb_spec o nsamp); [|lia].
    assert (Hk1 : b / P <= (b + st) / P <= (b + (Z.of_nat T * st + st)) / P) by (split; apply Z.div_le_mono; lia).
    assert (Hk0 : 0 <= b / P) by (by apply Z.div_pos). rewrite Hbl, (blanked_at _ ms b Hon Hb eq_refl) by lia. cbn [mbind option_bind].
    assert (H1 : exists h1, (if blank_at P blank b then Some hs else fps ← lookups (c_lut k) (c_fps k) mem ms (b mod P); add_states fps (c_adds k) hs) = Some h1 /\
      counters_ok nchan h1 /\ forall c, (c < nchan)%nat -> h1 !! c = (fun h => u32 (h + sum_upto (fun s => high (lev b s (Z.of_nat c))) (length (d_rows d)))) <$> hs !! c).
    { destruct (blank_at P blank b) eqn:Ebl.
      - exists hs. split; [done|]. split; [done|]. intros c Hc. destruct Hhs as [Hl Hr]. destruct (hs !! c) as [h|] eqn:Eh; [|done].
        cbn [fmap option_fmap option_map]. rewrite sum_upto_zero; [rewrite Z.add_0_r, uwrap_small; [done|exact (Forall_lookup_1 _ _ _ _ Hr Eh)]|].
        intros s Hs. rewrite (Z.div_small s R), Z.mul_0_l, Z.add_0_r by lia. unfold level_at. by rewrite Ebl.
      - destruct (count_turn ms b hs Hon Hb) as (fps & h1 & E1 & E2 & Hok & A); [lia|by apply step_within; [|lia|..]|done|done|].
        exists h1. rewrite E1. by split. }
    destruct H1 as (h1 & -> & Hok1 & A1). cbn [mbind option_bind]. rewrite (fr_decimation _ ms Hon), Hks, Hend.
    destruct (next_position_at st b ms) as (ms1 & E3 & Hon1); [lia|done|done|done|done|lia|]. rewrite E3. cbn [mbind option_bind].
    destruct (IH fuel (b + st) (o + c_turn k) (if blank_at P blank b then nblank + 1 else nblank) ms1 h1 nsamp) as (ms' & h2 & E4 & Hon2 & Hok2 & A2);
      [lia|lia|lia|lia|by apply Z.divide_add_r|done|by replace (b + st + Z.of_nat T * st) with (b + (Z.of_nat T * st + st)) by lia|done|].
    exists ms', h2. replace (b + Z.of_nat (S T) * st) with (b + st + Z.of_nat T * st) by lia. split; [|split; [done|split; [done|]]].
    + rewrite E4. do 3 f_equal. cbn [blank_turns]. destruct (blank_at P blank b); lia.
    + intros c Hc. rewrite A2, A1 by done. destruct (hs !! c) as [h|]; [|done]. cbn [fmap option_fmap option_map]. f_equal.
      cbn [Nat.mul]. rewrite sum_upto_add. unfold uwrap. rewrite Z.add_mod_idemp_l by lia. f_equal. rewrite <-Z.add_assoc. do 2 f_equal.
      apply sum_upto_ext. intros s Hs. f_equal. f_equal.
      * replace ((R + s) / R) with (s / R + 1) by (rewrite <-(Z.div_add s 1 R), Z.mul_1_l, Z.add_comm by lia; done). lia.
      * replace (8 * (b + st)) with (8 * b + R * decimation * stride * nbit) by lia. ring.
Qed.

(** A call of the counter that starts with the sample of turn [Q]. *)
Lemma count_run ms Q T hs : c_blanked k = blanked -> c_end k = end_ -> 0 < c_turn k ->
  on (Q * st / P) ms -> ms_readposition ms = (Q * st) mod P ->
  0 <= Q -> (Q + Z.of_nat T) * st < n * P -> counters_ok nchan hs ->
  exists ms' hs', count_states k mem ms (Z.of_nat T * c_turn k) hs = Some (Z.of_nat T * c_turn k - d_blank d * blank_turns P blank st T (Q * st), ms', hs') /\
    on ((Q + Z.of_nat T) * st / P) ms' /\ ms_readposition ms' = ((Q + Z.of_nat T) * st) mod P /\
    forall c, (c < nchan)%nat -> hs' !! c =
      (fun h => u32 (h + sum_upto (fun s => high (level_at mem P payload blank level ((Q * R + s) / R * st) (((Q * R + s) * decimation * stride + Z.of_nat c) * nbit)))
        (T * length (d_rows d)))) <$> hs !! c.
Proof using FS Hd Hk Hdiv.
  intros Hbl Hend Ht Hon Hpos HQ Hn Hhs. pose proof Hd as [_ _ _ HR _ _ Hst Hfps]. pose proof (fr_size (FrameStream := FS)) as HP.
  destruct (count_loop_run Hbl Hend T (Z.to_nat (Z.of_nat T * c_turn k)) (Q * st) 0 0 ms hs (Z.of_nat T * c_turn k))
    as (ms' & hs' & E & Hon' & _ & A); [nia|done|done|nia|by apply Z.divide_factor_r|done| |done|].
  { apply Z.div_lt_upper_bound; [done|]. lia. }
  rewrite <-Z.mul_add_distr_r in E, Hon'.
  eexists _, hs'. split; [unfold count_states; rewrite Hpos, E; by rewrite Z.add_0_l|]. split; [by apply fr_position|]. split; [done|].
  intros c Hc. rewrite A by done. destruct (hs !! c) as [h|]; [|done]. cbn [fmap option_fmap option_map]. do 2 f_equal. f_equal.
  apply sum_upto_ext. intros s Hs. f_equal. f_equal.
  - rewrite (Z.add_comm (Q * R)), Z.div_add by lia. ring.
  - replace (8 * (Q * st)) with (Q * (8 * st)) by ring. rewrite Hst. ring.
Qed.

End Counting.
