(* ===== verification/Mark5bDecode.v ===== *)
(** * Mark5bDecode: the decoders of Mark5B

    [mark5_format_mark5b.c] of [mark5access]: 34 decoders and 15 counters of high
    states, by the number of bit streams, the bits of a sample and the decimation,
    and the table that picks them. *)
From S2P Require Export Decoders.
#[local] Open Scope Z_scope.

Definition MK5B_PAYLOADSIZE : Z := 10000.

Definition lut2level : list state := [One; MinusOne].
Definition lut4level : list state := [MinusHigh; One; MinusOne; High].

(** ** [initluts] *)

(** [(b>>i)&1] *)
Definition lut_bit (b : Z) (i : nat) : Z := Z.land (Z.shiftr b (Z.of_nat i)) 1.

Definition lut1bit : list (list state) :=
  (fun b => (fun i => nth (Z.to_nat (lut_bit (Z.of_nat b) i)) lut2level Zero) <$> seq 0 8) <$> seq 0 256.
Definition lut2bit : list (list state) :=
  (fun b => (fun i => let s := (i * 2)%nat in let m := (s + 1)%nat in
     nth (Z.to_nat (lut_bit (Z.of_nat b) s + Z.shiftl (lut_bit (Z.of_nat b) m) 1)) lut4level Zero) <$> seq 0 4) <$> seq 0 256.
Definition countlut2bit : list (list Z) := (fun row : list state => (fun v => if is_high v then 1 else 0) <$> row) <$> lut2bit.

(** The condition for [zeros]; the byte before the header's time is only read when
    the position is in the valid part. *)
Definition is_blank (mem : buffer) (ms : mark5_stream) (i : Z) : option bool :=
  startvalid ← ms_blankzonestartvalid ms !! 0%nat;
  endvalid ← ms_blankzoneendvalid ms !! 0%nat;
  if (i <? startvalid) || (endvalid <=? i) then Some true else
  payload ← ms_payload ms;
  b ← byte_at mem (payload - 11);
  Some (negb (Z.land b 0x80 =? 0)).

Definition lut1bit_decoder (fps : nat) (step : Z -> Z) (blank : Z) (rows : list (list (nat * nat * nat))) : decoder :=
  {| d_blanked := is_blank; d_end := fun _ => MK5B_PAYLOADSIZE; d_lut := lut1bit; d_fps := fps; d_step := step; d_skip := step;
     d_blank := blank; d_rows := rows |}.
Definition lut2bit_decoder (fps : nat) (step : Z -> Z) (blank : Z) (rows : list (list (nat * nat * nat))) : decoder :=
  {| d_blanked := is_blank; d_end := fun _ => MK5B_PAYLOADSIZE; d_lut := lut2bit; d_fps := fps; d_step := step; d_skip := step;
     d_blank := blank; d_rows := rows |}.
Definition countlut2bit_counter (fps : nat) (turn : Z) (step : Z -> Z) (blank : Z) (adds : list (nat * nat * nat)) : counter :=
  {| c_blanked := is_blank; c_end := fun _ => MK5B_PAYLOADSIZE; c_lut := countlut2bit; c_fps := fps; c_turn := turn; c_step := step;
     c_blank := blank; c_adds := adds |}.

(** ** Decoders *)

Definition mark5b_decode_1bitstream_1bit_decimation1 : decoder :=
  lut1bit_decoder 1 (fun _ => 1) 8
  [[(0, 0, 0)];
   [(0, 0, 1)];
   [(0, 0, 2)];
   [(0, 0, 3)];
   [(0, 0, 4)];
   [(0, 0, 5)];
   [(0, 0, 6)];
   [(0, 0, 7)]]%nat.

Definition mark5b_decode_1bitstream_1bit_decimation2 : decoder :=
  lut1bit_decoder 1 (fun _ => 1) 8
  [[(0, 0, 0)];
   [(0, 0, 2)];
   [(0, 0, 4)];
   [(0, 0, 6)]]%nat.

Definition mark5b_decode_1bitstream_1bit_decimation4 : decoder :=
  lut1bit_decoder 1 (fun _ => 1) 8
  [[(0, 0, 0)];
   [(0, 0, 4)]]%nat.

Definition mark5b_decode_1bitstream_1bit_decimation8 : decoder :=
  lut1bit_decoder 1 (fun dec => cdiv dec 8) 8
  [[(0, 0, 0)]]%nat.

Definition mark5b_decode_2bitstream_1bit_decimation1 : decoder :=
  lut1bit_decoder 1 (fun _ => 1) 4
  [[(0, 0, 0); (1, 0, 1)];
   [(0, 0, 2); (1, 0, 3)];
   [(0, 0, 4); (1, 0, 5)];
   [(0, 0, 6); (1, 0, 7)]]%nat.

Definition mark5b_decode_2bitstream_1bit_decimation2 : decoder :=
  lut1bit_decoder 1 (fun _ => 1) 4
  [[(0, 0, 0); (1, 0, 1)];
   [(0, 0, 4); (1, 0, 5)]]%nat.

Definition mark5b_decode_2bitstream_1bit_decimation4 : decoder :=
  lut1bit_decoder 1 (fun dec => cdiv dec 4) 4
  [[(0, 0, 0); (1, 0, 1)]]%nat.

Definition mark5b_decode_4bitstream_1bit_decimation1 : decoder :=
  lut1bit_decoder 1 (fun _ => 1) 2
  [[(0, 0, 0); (1, 0, 1); (2, 0, 2); (3, 0, 3)];
   [(0, 0, 4); (1, 0, 5); (2, 0, 6); (3, 0, 7)]]%nat.

Definition mark5b_decode_4bitstream_1bit_decimation2 : decoder :=
  lut1bit_decoder 1 (fun _ => 1) 2
  [[(0, 0, 0); (1, 0, 1); (2, 0, 2); (3, 0, 3)]]%nat.

Definition mark5b_decode_4bitstream_1bit_decimation4 : decoder :=
  lut1bit_decoder 1 (fun dec => cdiv dec 2) 2
  [[(0, 0, 0); (1, 0, 1); (2, 0, 2); (3, 0, 3)]]%nat.

Definition mark5b_decode_8bitstream_1bit_decimation1 : decoder :=
  lut1bit_decoder 1 (fun _ => 1) 1
  [[(0, 0, 0); (1, 0, 1); (2, 0, 2); (3, 0, 3); (4, 0, 4); (5, 0, 5); (6, 0, 6); (7, 0, 7)]]%nat.

Definition mark5b_decode_8bitstream_1bit_decimation2 : decoder :=
  lut1bit_decoder 1 (fun _ => 2) 1
  [[(0, 0, 0); (1, 0, 1); (2, 0, 2); (3, 0, 3); (4, 0, 4); (5, 0, 5); (6, 0, 6); (7, 0, 7)]]%nat.

Definition mark5b_decode_8bitstream_1bit_decimation4 : decoder :=
  lut1bit_decoder 1 (fun dec => dec) 1
  [[(0, 0, 0); (1, 0, 1); (2, 0, 2); (3, 0, 3); (4, 0, 4); (5, 0, 5); (6, 0, 6); (7, 0, 7)]]%nat.

Definition mark5b_decode_16bitstream_1bit_decimation1 : decoder :=
  lut1bit_decoder 2 (fun _ => 2) 1
  [[(0, 0, 0); (1, 0, 1); (2, 0, 2); (3, 0, 3); (4, 0, 4); (5, 0, 5); (6, 0, 6); (7, 0, 7); (8, 1, 0);
    (9, 1, 1); (10, 1, 2); (11, 1, 3); (12, 1, 4); (13, 1, 5); (14, 1, 6); (15, 1, 7)]]%nat.

Definition mark5b_decode_16bitstream_1bit_decimation2 : decoder :=
  lut1bit_decoder 2 (fun _ => 4) 1
  [[(0, 0, 0); (1, 0, 1); (2, 0, 2); (3, 0, 3); (4, 0, 4); (5, 0, 5); (6, 0, 6); (7, 0, 7); (8, 1, 0);
    (9, 1, 1); (10, 1, 2); (11, 1, 3); (12, 1, 4); (13, 1, 5); (14, 1, 6); (15, 1, 7)]]%nat.

Definition mark5b_decode_16bitstream_1bit_decimation4 : decoder :=
  lut1bit_decoder 2 (fun dec => 1 + (dec * 2 - 1)) 1
  [[(0, 0, 0); (1, 0, 1); (2, 0, 2); (3, 0, 3); (4, 0, 4); (5, 0, 5); (6, 0, 6); (7, 0, 7); (8, 1, 0);
    (9, 1, 1); (10, 1, 2); (11, 1, 3); (12, 1, 4); (13, 1, 5); (14, 1, 6); (15, 1, 7)]]%nat.

Definition mark5b_decode_32bitstream_1bit_decimation1 : decoder :=
  lut1bit_decoder 4 (fun _ => 4) 1
  [[(0, 0, 0); (1, 0, 1); (2, 0, 2); (3, 0, 3); (4, 0, 4); (5, 0, 5); (6, 0, 6); (7, 0, 7); (8, 1, 0);
    (9, 1, 1); (10, 1, 2); (11, 1, 3); (12, 1, 4); (13, 1, 5); (14, 1, 6); (15, 1, 7); (16, 2, 0);
    (17, 2, 1); (18, 2, 2); (19, 2, 3); (20, 2, 4); (21, 2, 5); (22, 2, 6); (23, 2, 7); (24, 3, 0);
    (25, 3, 1); (26, 3, 2); (27, 3, 3); (28, 3, 4); (29, 3, 5); (30, 3, 6); (31, 3, 7)]]%nat.

Definition mark5b_decode_32bitstream_1bit_decimation2 : decoder :=
  lut1bit_decoder 4 (fun _ => 8) 1
  [[(0, 0, 0); (1, 0, 1); (2, 0, 2); (3, 0, 3); (4, 0, 4); (5, 0, 5); (6, 0, 6); (7, 0, 7); (8, 1, 0);
    (9, 1, 1); (10, 1, 2); (11, 1, 3); (12, 1, 4); (13, 1, 5); (14, 1, 6); (15, 1, 7); (16, 2, 0);
    (17, 2, 1); (18, 2, 2); (19, 2, 3); (20, 2, 4); (21, 2, 5); (22, 2, 6); (23, 2, 7); (24, 3, 0);
    (25, 3, 1); (26, 3, 2); (27, 3, 3); (28, 3, 4); (29, 3, 5); (30, 3, 6); (31, 3, 7)]]%nat.

Definition mark5b_decode_32bitstream_1bit_decimation4 : decoder :=
  lut1bit_decoder 4 (fun dec => 3 + (dec * 4 - 3)) 1
  [[(0, 0, 0); (1, 0, 1); (2, 0, 2); (3, 0, 3); (4, 0, 4); (5, 0, 5); (6, 0, 6); (7, 0, 7); (8, 1, 0);
    (9, 1, 1); (10, 1, 2); (11, 1, 3); (12, 1, 4); (13, 1, 5); (14, 1, 6); (15, 1, 7); (16, 2, 0);
    (17, 2, 1); (18, 2, 2); (19, 2, 3); (20, 2, 4); (21, 2, 5); (22, 2, 6); (23, 2, 7); (24, 3, 0);
    (25, 3, 1); (26, 3, 2); (27, 3, 3); (28, 3, 4); (29, 3, 5); (30, 3, 6); (31, 3, 7)]]%nat.

Definition mark5b_decode_2bitstream_2bit_decimation1 : decoder :=
  lut2bit_decoder 1 (fun _ => 1) 4
  [[(0, 0, 0)];
   [(0, 0, 1)];
   [(0, 0, 2)];
   [(0, 0, 3)]]%nat.

Definition mark5b_decode_2bitstream_2bit_decimation2 : decoder :=
  lut2bit_decoder 1 (fun _ => 1) 4
  [[(0, 0, 0)];
   [(0, 0, 2)]]%nat.

Definition mark5b_decode_2bitstream_2bit_decimation4 : decoder :=
  lut2bit_decoder 1 (fun dec => cdiv dec 4) 4
  [[(0, 0, 0)]]%nat.

Definition mark5b_decode_4bitstream_2bit_decimation1 : decoder :=
  lut2bit_decoder 1 (fun _ => 1) 2
  [[(0, 0, 0); (1, 0, 1)];
   [(0, 0, 2); (1, 0, 3)]]%nat.

Definition mark5b_decode_4bitstream_2bit_decimation2 : decoder :=
  lut2bit_decoder 1 (fun _ => 1) 2
  [[(0, 0, 0); (1, 0, 1)]]%nat.

Definition mark5b_decode_4bitstream_2bit_decimation4 : decoder :=
  lut2bit_decoder 1 (fun dec => cdiv dec 2) 2
  [[(0, 0, 0); (1, 0, 1)]]%nat.

Definition mark5b_decode_8bitstream_2bit_decimation1 : decoder :=
  lut2bit_decoder 1 (fun _ => 1) 1
  [[(0, 0, 0); (1, 0, 1); (2, 0, 2); (3, 0, 3)]]%nat.

Definition mark5b_decode_8bitstream_2bit_decimation2 : decoder :=
  lut2bit_decoder 1 (fun _ => 2) 1
  [[(0, 0, 0); (1, 0, 1); (2, 0, 2); (3, 0, 3)]]%nat.

Definition mark5b_decode_8bitstream_2bit_decimation4 : decoder :=
  lut2bit_decoder 1 (fun dec => dec) 1
  [[(0, 0, 0); (1, 0, 1); (2, 0, 2); (3, 0, 3)]]%nat.

Definition mark5b_decode_16bitstream_2bit_decimation1 : decoder :=
  lut2bit_decoder 2 (fun _ => 2) 1
  [[(0, 0, 0); (1, 0, 1); (2, 0, 2); (3, 0, 3); (4, 1, 0); (5, 1, 1); (6, 1, 2); (7, 1, 3)]]%nat.

Definition mark5b_decode_16bitstream_2bit_decimation2 : decoder :=
  lut2bit_decoder 2 (fun _ => 4) 1
  [[(0, 0, 0); (1, 0, 1); (2, 0, 2); (3, 0, 3); (4, 1, 0); (5, 1, 1); (6, 1, 2); (7, 1, 3)]]%nat.

Definition mark5b_decode_16bitstream_2bit_decimation4 : decoder :=
  lut2bit_decoder 2 (fun dec => 1 + (dec * 2 - 1)) 1
  [[(0, 0, 0); (1, 0, 1); (2, 0, 2); (3, 0, 3); (4, 1, 0); (5, 1, 1); (6, 1, 2); (7, 1, 3)]]%nat.

Definition mark5b_decode_32bitstream_2bit_decimation1 : decoder :=
  lut2bit_decoder 4 (fun _ => 4) 1
  [[(0, 0, 0); (1, 0, 1); (2, 0, 2); (3, 0, 3); (4, 1, 0); (5, 1, 1); (6, 1, 2); (7, 1, 3); (8, 2, 0);
    (9, 2, 1); (10, 2, 2); (11, 2, 3); (12, 3, 0); (13, 3, 1); (14, 3, 2); (15, 3, 3)]]%nat.

Definition mark5b_decode_32bitstream_2bit_decimation2 : decoder :=
  lut2bit_decoder 4 (fun _ => 8) 1
  [[(0, 0, 0); (1, 0, 1); (2, 0, 2); (3, 0, 3); (4, 1, 0); (5, 1, 1); (6, 1, 2); (7, 1, 3); (8, 2, 0);
    (9, 2, 1); (10, 2, 2); (11, 2, 3); (12, 3, 0); (13, 3, 1); (14, 3, 2); (15, 3, 3)]]%nat.

Definition mark5b_decode_32bitstream_2bit_decimation4 : decoder :=
  lut2bit_decoder 4 (fun dec => 3 + (dec * 4 - 3)) 1
  [[(0, 0, 0); (1, 0, 1); (2, 0, 2); (3, 0, 3); (4, 1, 0); (5, 1, 1); (6, 1, 2); (7, 1, 3); (8, 2, 0);
    (9, 2, 1); (10, 2, 2); (11, 2, 3); (12, 3, 0); (13, 3, 1); (14, 3, 2); (15, 3, 3)]]%nat.

(** ** Counters *)

Definition mark5b_count_2bitstream_2bit_decimation1 : counter :=
  countlut2bit_counter 1 3 (fun _ => 1) 4
  [(0, 0, 0); (0, 0, 1); (0, 0, 2); (0, 0, 3)]%nat.

Definition mark5b_count_2bitstream_2bit_decimation2 : counter :=
  countlut2bit_counter 1 2 (fun _ => 1) 4
  [(0, 0, 0); (0, 0, 2)]%nat.

Definition mark5b_count_2bitstream_2bit_decimation4 : counter :=
  countlut2bit_counter 1 1 (fun dec => cdiv dec 4) 4
  [(0, 0, 0)]%nat.

Definition mark5b_count_4bitstream_2bit_decimation1 : counter :=
  countlut2bit_counter 1 2 (fun _ => 1) 2
  [(0, 0, 0); (1, 0, 1); (0, 0, 2); (1, 0, 3)]%nat.

Definition mark5b_count_4bitstream_2bit_decimation2 : counter :=
  countlut2bit_counter 1 1 (fun _ => 1) 2
  [(0, 0, 0); (1, 0, 1)]%nat.

Definition mark5b_count_4bitstream_2bit_decimation4 : counter :=
  countlut2bit_counter 1 1 (fun dec => cdiv dec 2) 2
  [(0, 0, 0); (1, 0, 1)]%nat.

Definition mark5b_count_8bitstream_2bit_decimation1 : counter :=
  countlut2bit_counter 1 1 (fun _ => 1) 1
  [(0, 0, 0); (1, 0, 1); (2, 0, 2); (3, 0, 3)]%nat.

Definition mark5b_count_8bitstream_2bit_decimation2 : counter :=
  countlut2bit_counter 1 1 (fun _ => 2) 1
  [(0, 0, 0); (1, 0, 1); (2, 0, 2); (3, 0, 3)]%nat.

Definition mark5b_count_8bitstream_2bit_decimation4 : counter :=
  countlut2bit_counter 1 1 (fun dec => dec) 1
  [(0, 0, 0); (1, 0, 1); (2, 0, 2); (3, 0, 3)]%nat.

Definition mark5b_count_16bitstream_2bit_decimation1 : counter :=
  countlut2bit_counter 2 1 (fun _ => 2) 1
  [(0, 0, 0); (1, 0, 1); (2, 0, 2); (3, 0, 3); (4, 1, 0); (5, 1, 1); (6, 1, 2); (7, 1, 3)]%nat.

Definition mark5b_count_16bitstream_2bit_decimation2 : counter :=
  countlut2bit_counter 2 1 (fun _ => 4) 1
  [(0, 0, 0); (1, 0, 1); (2, 0, 2); (3, 0, 3); (4, 1, 0); (5, 1, 1); (6, 1, 2); (7, 1, 3)]%nat.

Definition mark5b_count_16bitstream_2bit_decimation4 : counter :=
  countlut2bit_counter 2 1 (fun dec => 1 + (dec * 2 - 1)) 1
  [(0, 0, 0); (1, 0, 1); (2, 0, 2); (3, 0, 3); (4, 1, 0); (5, 1, 1); (6, 1, 2); (7, 1, 3)]%nat.

Definition mark5b_count_32bitstream_2bit_decimation1 : counter :=
  countlut2bit_counter 4 1 (fun _ => 4) 1
  [(0, 0, 0); (1, 0, 1); (2, 0, 2); (3, 0, 3); (4, 1, 0); (5, 1, 1); (6, 1, 2); (7, 1, 3); (8, 2, 0);
    (9, 2, 1); (10, 2, 2); (11, 2, 3); (12, 3, 0); (13, 3, 1); (14, 3, 2); (15, 3, 3)]%nat.

Definition mark5b_count_32bitstream_2bit_decimation2 : counter :=
  countlut2bit_counter 4 1 (fun _ => 8) 1
  [(0, 0, 0); (1, 0, 1); (2, 0, 2); (3, 0, 3); (4, 1, 0); (5, 1, 1); (6, 1, 2); (7, 1, 3); (8, 2, 0);
    (9, 2, 1); (10, 2, 2); (11, 2, 3); (12, 3, 0); (13, 3, 1); (14, 3, 2); (15, 3, 3)]%nat.

Definition mark5b_count_32bitstream_2bit_decimation4 : counter :=
  countlut2bit_counter 4 1 (fun dec => 3 + (dec * 4 - 3)) 1
  [(0, 0, 0); (1, 0, 1); (2, 0, 2); (3, 0, 3); (4, 1, 0); (5, 1, 1); (6, 1, 2); (7, 1, 3); (8, 2, 0);
    (9, 2, 1); (10, 2, 2); (11, 2, 3); (12, 3, 0); (13, 3, 1); (14, 3, 2); (15, 3, 3)]%nat.

(** ** The table *)

(** [new_mark5_format_mark5b]: the index from decimation, bits and bit streams
    (another decimation is only reported), and what the index stands for. *)
Definition decoderindex (nbit nbitstream decimation : Z) : option Z :=
  let by_decimation := if decimation =? 1 then 0 else if decimation =? 2 then 12 else if cmod decimation 4 =? 0 then 24 else 0 in
  by_bit ← (if nbit =? 1 then Some 0 else if nbit =? 2 then Some 6 else None);
  by_bitstream ← (if nbitstream =? 1 then Some 0 else if nbitstream =? 2 then Some 1 else if nbitstream =? 4 then Some 2
                  else if nbitstream =? 8 then Some 3 else if nbitstream =? 16 then Some 4
                  else if nbitstream =? 32 then Some 5 else None);
  let index := by_decimation + by_bit + by_bitstream in
  if index =? 6 then None else Some index.

(** [switch(decoderindex)] *)
Definition decoders (index decimation : Z) : option (decoder * option counter) :=
  match index with
  | 0 => Some (mark5b_decode_1bitstream_1bit_decimation1, None)
  | 1 => Some (mark5b_decode_2bitstream_1bit_decimation1, None)
  | 2 => Some (mark5b_decode_4bitstream_1bit_decimation1, None)
  | 3 => Some (mark5b_decode_8bitstream_1bit_decimation1, None)
  | 4 => Some (mark5b_decode_16bitstream_1bit_decimation1, None)
  | 5 => Some (mark5b_decode_32bitstream_1bit_decimation1, None)
  | 7 => Some (mark5b_decode_2bitstream_2bit_decimation1, Some mark5b_count_2bitstream_2bit_decimation1)
  | 8 => Some (mark5b_decode_4bitstream_2bit_decimation1, Some mark5b_count_4bitstream_2bit_decimation1)
  | 9 => Some (mark5b_decode_8bitstream_2bit_decimation1, Some mark5b_count_8bitstream_2bit_decimation1)
  | 10 => Some (mark5b_decode_16bitstream_2bit_decimation1, Some mark5b_count_16bitstream_2bit_decimation1)
  | 11 => Some (mark5b_decode_32bitstream_2bit_decimation1, Some mark5b_count_32bitstream_2bit_decimation1)
  | 12 => Some (mark5b_decode_1bitstream_1bit_decimation2, None)
  | 13 => Some (mark5b_decode_2bitstream_1bit_decimation2, None)
  | 14 => Some (mark5b_decode_4bitstream_1bit_decimation2, None)
  | 15 => Some (mark5b_decode_8bitstream_1bit_decimation2, None)
  | 16 => Some (mark5b_decode_16bitstream_1bit_decimation2, None)
  | 17 => Some (mark5b_decode_32bitstream_1bit_decimation2, None)
  | 19 => Some (mark5b_decode_2bitstream_2bit_decimation2, Some mark5b_count_2bitstream_2bit_decimation2)
  | 20 => Some (mark5b_decode_4bitstream_2bit_decimation2, Some mark5b_count_4bitstream_2bit_decimation2)
  | 21 => Some (mark5b_decode_8bitstream_2bit_decimation2, Some mark5b_count_8bitstream_2bit_decimation2)
  | 22 => Some (mark5b_decode_16bitstream_2bit_decimation2, Some mark5b_count_16bitstream_2bit_decimation2)
  | 23 => Some (mark5b_decode_32bitstream_2bit_decimation2, Some mark5b_count_32bitstream_2bit_decimation2)
  | 24 => if decimation =? 4 then Some (mark5b_decode_1bitstream_1bit_decimation4, None)
          else if cmod decimation 8 =? 0 then Some (mark5b_decode_1bitstream_1bit_decimation8, None) else None
  | 25 => Some (mark5b_decode_2bitstream_1bit_decimation4, None)
  | 26 => Some (mark5b_decode_4bitstream_1bit_decimation4, None)
  | 27 => Some (mark5b_decode_8bitstream_1bit_decimation4, None)
  | 28 => Some (mark5b_decode_16bitstream_1bit_decimation4, None)
  | 29 => Some (mark5b_decode_32bitstream_1bit_decimation4, None)
  | 31 => Some (mark5b_decode_2bitstream_2bit_decimation4, Some mark5b_count_2bitstream_2bit_decimation4)
  | 32 => Some (mark5b_decode_4bitstream_2bit_decimation4, Some mark5b_count_4bitstream_2bit_decimation4)
  | 33 => Some (mark5b_decode_8bitstream_2bit_decimation4, Some mark5b_count_8bitstream_2bit_decimation4)
  | 34 => Some (mark5b_decode_16bitstream_2bit_decimation4, Some mark5b_count_16bitstream_2bit_decimation4)
  | 35 => Some (mark5b_decode_32bitstream_2bit_decimation4, Some mark5b_count_32bitstream_2bit_decimation4)
  | _ => None
  end.

Definition new_mark5_format_mark5b (nchan nbit decimation : Z) : option (decoder * option counter) :=
  index ← decoderindex nbit (nchan * nbit) decimation;
  decoders index decimation.

(** ** Initialisation *)

(** [mark5_format_mark5b_init] for a stream without a data window, as an unpacker
    is; the data rate and the times are left out. *)
Definition mark5_format_mark5b_init (nbitstream : Z) (ms : mark5_stream) : option mark5_stream :=
  if nbitstream * ms_decimation ms =? 0 then None else
  let granularity := cdiv 8 (nbitstream * ms_decimation ms) in
  Some {| ms_nchan := ms_nchan ms; ms_nbit := ms_nbit ms; ms_decimation := ms_decimation ms; ms_framebytes := 10016;
          ms_databytes := 10000; ms_framesamples := cdiv (10000 * 8) (nbitstream * ms_decimation ms);
          ms_samplegranularity := if granularity <=? 0 then 1 else granularity; ms_payloadoffset := 16;
          ms_framenum := ms_framenum ms; ms_nvalidatefail := ms_nvalidatefail ms; ms_nvalidatepass := ms_nvalidatepass ms;
          ms_consecutivefails := ms_consecutivefails ms; ms_frame := ms_frame ms;
          ms_payload := ms_payload ms; ms_readposition := ms_readposition ms;
          ms_log2blankzonesize := ms_log2blankzonesize ms; ms_blankzonestartvalid := ms_blankzonestartvalid ms;
          ms_blankzoneendvalid := ms_blankzoneendvalid ms; ms_next := ms_next ms; ms_validate := one; ms_blanker := call_blanker_mark5 |}.
