(* ===== verification/Mark5bFrames.v ===== *)
(** * Mark5bFrames: frames of Mark5B as a stream for the decoders

    The level of a sample, read from its bits.  An unpacker or a stream in memory that
    goes over frames of 10016 bytes is a [FrameStream]; what is decoded from a frame
    depends on its bytes only. *)
From S2P Require Export DecodersSpec Mark5bDecode.
#[local] Open Scope Z_scope.

(** ** Levels *)

(** The level of the sample of [nbit] bits at bit [off] of the byte [b]. *)
Definition sample_level (nbit b off : Z) : state :=
  if nbit =? 1 then (if Z.testbit b off then MinusOne else One)
  else match Z.testbit b (off + 1), Z.testbit b off with
       | false, false => MinusHigh
       | false, true => One
       | true, false => MinusOne
       | true, true => High
       end.

Definition lut_of (nbit : Z) : list (list state) := if nbit =? 1 then lut1bit else lut2bit.

(** [initluts]: all entries of both tables. *)
Lemma luts_levels : lut_check 1 (sample_level 1) (lut_of 1) = true /\ lut_check 2 (sample_level 2) (lut_of 2) = true.
Proof. split; by vm_compute. Qed.

Lemma lut_level nbit : nbit = 1 \/ nbit = 2 -> forall b e, 0 <= b < 256 -> nbit * Z.of_nat e < 8 ->
  lut_of nbit !! Z.to_nat b ≫= (.!! e) = Some (sample_level nbit b (nbit * Z.of_nat e)).
Proof. destruct luts_levels. intros [-> | ->]; by apply lut_by_check. Qed.

(** ** One frame *)

(** Where the fill pattern is in the payload at [p], and the valid bytes of it. *)
Definition payload_fills (mem : buffer) (p i : Z) : bool :=
  match data32 mem p i with Some w => w =? MARK5_FILL_WORD32 | None => false end.
Definition payload_zone (mem : buffer) (p : Z) : Z * Z := (fill_zone (payload_fills mem p)).1.

(** Whether a turn that starts with byte [i] of the payload at [p] is blanked; the
    level of the sample at bit [m] of it that is read in such a turn. *)
Definition frame_blank (mem : buffer) (p i : Z) : bool :=
  (i <? (payload_zone mem p).1) || ((payload_zone mem p).2 <=? i) || negb (Z.land (nth (Z.to_nat (p - 11)) mem 0) 0x80 =? 0).
Definition frame_level (mem : buffer) (p nbit i m : Z) : state := payload_level mem p (frame_blank mem p) (sample_level nbit) i m.

Definition whole_frame (mem : buffer) (off : Z) : Prop := 0 <= off /\ off + MARK5B_FRAME_SIZE <= Z.of_nat (length mem).

Lemma payload_fills_ok mem off : whole_frame mem off -> payload_fill mem (off + 16) (payload_fills mem (off + 16)).
Proof.
  intros [H1 H2] i Hi. unfold payload_fills, data32, MARK5B_FRAME_SIZE in *. rewrite bytes_at_Some by lia. cbn [fmap option_fmap option_map].
  by eexists.
Qed.

Lemma bytes_at_frame mem off i n : whole_frame mem off -> 0 <= i -> i + Z.of_nat n <= MARK5B_FRAME_SIZE ->
  bytes_at mem (off + i) n = bytes_at (slice mem (Z.to_nat off) (Z.to_nat MARK5B_FRAME_SIZE)) i n.
Proof.
  intros [H1 H2] Hi Hn. rewrite !bytes_at_Some; [|rewrite ?length_slice; unfold MARK5B_FRAME_SIZE in *; lia..].
  rewrite slice_slice by lia. do 2 f_equal. lia.
Qed.

Definition same_frame (mem mem' : buffer) (off off' : Z) : Prop :=
  slice mem (Z.to_nat off) (Z.to_nat MARK5B_FRAME_SIZE) = slice mem' (Z.to_nat off') (Z.to_nat MARK5B_FRAME_SIZE).

Lemma nth_frame mem mem' off off' i : whole_frame mem off -> whole_frame mem' off' -> same_frame mem mem' off off' -> 0 <= i < MARK5B_FRAME_SIZE ->
  nth (Z.to_nat (off + i)) mem 0 = nth (Z.to_nat (off' + i)) mem' 0.
Proof.
  intros H H' E Hi. pose proof (bytes_at_frame mem off i 1 H) as E1. pose proof (bytes_at_frame mem' off' i 1 H') as E2.
  rewrite E in E1. specialize (E1 ltac:(lia) ltac:(lia)). specialize (E2 ltac:(lia) ltac:(lia)). rewrite <-E2 in E1.
  apply (f_equal (fmap le_combine)) in E1. fold (byte_at mem (off + i)) (byte_at mem' (off' + i)) in E1.
  destruct H, H'. rewrite !byte_at_nth in E1 by lia. by injection E1.
Qed.

(** Equal frames have equal samples. *)
Lemma frame_level_same mem mem' off off' nbit i m : whole_frame mem off -> whole_frame mem' off' -> same_frame mem mem' off off' ->
  0 <= i < MK5B_PAYLOADSIZE -> 0 <= m < 8 * MK5B_PAYLOADSIZE ->
  frame_level mem (off + 16) nbit i m = frame_level mem' (off' + 16) nbit i m.
Proof.
  intros H H' E Hi Hm. unfold frame_level, payload_level, frame_blank, payload_zone.
  assert (Ez : fill_zone (payload_fills mem (off + 16)) = fill_zone (payload_fills mem' (off' + 16))).
  { apply fill_zone_ext. intros j Hj. unfold payload_fills, data32. unfold same_frame in E.
    replace (off + 16 + 4 * j) with (off + (16 + 4 * j)) by lia. replace (off' + 16 + 4 * j) with (off' + (16 + 4 * j)) by lia.
    rewrite (bytes_at_frame mem off), (bytes_at_frame mem' off') by (done || unfold MARK5B_FRAME_SIZE; lia). by rewrite E. }
  rewrite Ez. assert (Hb : 0 <= m / 8 < MK5B_PAYLOADSIZE) by (split; [apply Z.div_pos|apply Z.div_lt_upper_bound]; lia).
  replace (off + 16 - 11) with (off + 5) by lia. replace (off' + 16 - 11) with (off' + 5) by lia.
  replace (off + 16 + m / 8) with (off + (16 + m / 8)) by lia. replace (off' + 16 + m / 8) with (off' + (16 + m / 8)) by lia.
  rewrite (nth_frame mem mem' off off' 5) by (done || unfold MARK5B_FRAME_SIZE; lia).
  rewrite (nth_frame mem mem' off off' (16 + m / 8)); [done..|unfold MK5B_PAYLOADSIZE, MARK5B_FRAME_SIZE in *; lia].
Qed.

(** A frame that is marked as invalid is decoded to zeros. *)
Lemma frame_level_marked mem off nbit i m : whole_frame mem off -> Z.testbit (nth (Z.to_nat (off + 5)) mem 0) 7 = true ->
  frame_level mem (off + 16) nbit i m = Zero.
Proof.
  intros H Hb. unfold frame_level, payload_level, frame_blank. replace (off + 16 - 11) with (off + 5) by lia.
  replace (Z.land _ 128 =? 0) with false; [by rewrite orb_true_r|]. symmetry. apply Z.eqb_neq. intros E.
  apply (f_equal (fun x => Z.testbit x 7)) in E. rewrite Z.land_spec, Hb, Z.bits_0 in E. done.
Qed.

(** ** A stream of frames *)

Section Frames.
Context (mem : buffer) (decimation base n : Z).
Hypothesis Hmem : bytes_ok mem.
Hypothesis Hbase : 0 <= base.
Hypothesis Hframes : base + n * MARK5B_FRAME_SIZE <= Z.of_nat (length mem).

(** [n] frames from [base] on can be had from the stream. *)
Definition can_next (next : next_function) : Prop :=
  match next with
  | mark5_stream_unpacker_next => True
  | mark5_stream_unpacker_next_noheaders => False
  | mark5_stream_memory_next end_ => base + n * MARK5B_FRAME_SIZE <= end_
  end.

Record mark5b_stream (ms : mark5_stream) : Prop := {
  mb_decimation : ms_decimation ms = decimation;
  mb_framebytes : ms_framebytes ms = 10016;
  mb_databytes : ms_databytes ms = 10000;
  mb_payloadoffset : ms_payloadoffset ms = 16;
  mb_validate : ms_validate ms = one;
  mb_blanker : ms_blanker ms = call_blanker_mark5;
  mb_next : can_next (ms_next ms);
  mb_zones : zones_ok ms }.

Definition frame_offset (k : Z) : Z := base + k * MARK5B_FRAME_SIZE.
Definition frame_payload (k : Z) : Z := frame_offset k + 16.
Definition frame_zone (k : Z) : Z * Z := payload_zone mem (frame_payload k).

Record at_mark5b_frame (k : Z) (ms : mark5_stream) : Prop := {
  af_stream : mark5b_stream ms;
  af_frame : ms_frame ms = Some (frame_offset k);
  af_payload : ms_payload ms = Some (frame_payload k);
  af_start : ms_blankzonestartvalid ms !! 0%nat = Some (frame_zone k).1;
  af_end : ms_blankzoneendvalid ms !! 0%nat = Some (frame_zone k).2 }.

Lemma frame_at_offset k : 0 <= k < n -> whole_frame mem (frame_offset k).
Proof using Hbase Hframes. intros Hk. unfold whole_frame, frame_offset, MARK5B_FRAME_SIZE in *. lia. Qed.

Definition same_format (ms ms' : mark5_stream) : Prop :=
  ms_nchan ms' = ms_nchan ms /\ ms_nbit ms' = ms_nbit ms /\ ms_framesamples ms' = ms_framesamples ms.

Lemma next_frame_at k ms f : mark5b_stream ms -> ms_frame ms = Some f -> f + MARK5B_FRAME_SIZE = frame_offset k -> 0 <= k < n ->
  exists ms', mark5_stream_next_frame mem ms = Some (0, ms') /\ at_mark5b_frame k ms' /\ same_format ms ms'.
Proof using Hmem Hbase Hframes.
  intros [F1 F2 F3 F4 Fv F5 F6 [Z1 Z2]] Hf Hfk Hk. unfold mark5_stream_next_frame.
  assert (En : exists m p, 0 <= m /\ call_next ms = Some (m, ms_move ms (ms_framenum ms + 1) (Some (frame_offset k)) p 0)).
  { unfold call_next. rewrite Hf, F2. unfold MARK5B_FRAME_SIZE in Hfk. unfold can_next in F6. destruct (ms_next ms) as [| |end_]; [|done|].
    - cbn [fmap option_fmap option_map]. rewrite Hfk. by eexists 0, _.
    - cbn [mbind option_bind]. rewrite Hfk. destruct (Z.ltb_spec end_ (frame_offset k + 10016)); [unfold frame_offset, MARK5B_FRAME_SIZE in *; lia|].
      by eexists 10016, _. }
  destruct En as (m & p & Hm & ->). cbn [mbind option_bind]. destruct (Z.ltb_spec m 0); [lia|].
  change (ms_frame (ms_move _ _ _ _ _)) with (Some (frame_offset k)). cbn iota beta. unfold call_validate.
  change (ms_validate (ms_move _ _ _ _ _)) with (ms_validate ms). rewrite Fv. cbn [mbind option_bind].
  change (ms_payloadoffset (ms_move _ _ _ _ _)) with (ms_payloadoffset ms). rewrite F4. fold (frame_payload k).
  unfold call_blanker. match goal with |- context[blanker_mark5 mem ?x] => set (ms2 := x) end.
  change (ms_blanker ms2) with (ms_blanker ms). rewrite F5.
  pose proof (blanker_mark5_rep mem ms2 (frame_payload k) (payload_fills mem (frame_payload k)) Hmem) as Hb.
  specialize (Hb (conj Z1 Z2) F3 eq_refl (payload_fills_ok mem _ (frame_at_offset k Hk))).
  destruct (fill_zone (payload_fills mem (frame_payload k))) as [[s e] nb] eqn:Ez. rewrite Hb. cbn [mbind option_bind].
  eexists. split; [reflexivity|]. split; [|done]. split; [split|..]; cbn; try done.
  - unfold zones_ok. cbn. by rewrite !length_insert.
  - unfold frame_zone, payload_zone. rewrite Ez. by apply list_lookup_insert_eq.
  - unfold frame_zone, payload_zone. rewrite Ez. by apply list_lookup_insert_eq.
Qed.

(** Whether turns of the stream are blanked. *)
Definition stream_blank (k i : Z) : bool := frame_blank mem (frame_payload k) i.

#[export] Instance mark5b_frames :
  FrameStream mem decimation n MK5B_PAYLOADSIZE frame_payload stream_blank at_mark5b_frame is_blank (fun _ => MK5B_PAYLOADSIZE).
Proof using Hmem Hbase Hframes.
  split.
  - done.
  - done.
  - intros k Hk. unfold frame_payload, frame_offset, MARK5B_FRAME_SIZE, MK5B_PAYLOADSIZE in *. lia.
  - by intros k ms [[]].
  - by intros k ms [].
  - intros k ms i [_ _ Hp Hs He] Hk Hi. unfold is_blank, stream_blank, frame_blank. rewrite Hs, He. cbn [mbind option_bind]. fold (frame_zone k).
    destruct (_ || _); [done|]. rewrite Hp. cbn [mbind option_bind]. rewrite byte_at_nth; [done|].
    unfold frame_payload, frame_offset, MARK5B_FRAME_SIZE in *. lia.
  - done.
  - intros k ms [H1 H2 _ _ _] Hk Hn. destruct (next_frame_at (k + 1) ms (frame_offset k)) as (ms' & E & Hat & _); [done|done| |lia|by exists ms'].
    unfold frame_offset, MARK5B_FRAME_SIZE. lia.
  - intros k ms p [[] H2 H3 H4 H5]. by split; [split|..].
Qed.

End Frames.
