(* ===== verification/Mark5bDecodeTheorems.v ===== *)
(** * Mark5bDecodeTheorems: the decoders of Mark5B are right

    The decoder that a format gets; what unpacking gives for every sample; counting
    of high states; decoding of repaired data; the end of the data. *)
From S2P Require Export Mark5bFrames CountersSpec.
#[local] Open Scope Z_scope.

(** ** The table of decoders *)

(** The decimations that the decoders are written for. *)
Definition good_decimation (decimation : Z) : Prop := decimation = 1 \/ decimation = 2 \/ 0 < decimation /\ decimation mod 4 = 0.

(** A format with a decoder: 1 to 32 bit streams, except that one bit stream is not
    decimated by an odd multiple of 4 above 4. *)
Definition has_decoder (nchan nbit decimation : Z) : Prop :=
  (nbit = 1 /\ nchan ∈ [1; 2; 4; 8; 16; 32] \/ nbit = 2 /\ nchan ∈ [1; 2; 4; 8; 16]) /\
  ~ (nbit = 1 /\ nchan = 1 /\ decimation <> 4 /\ decimation mod 8 = 4).

Lemma decimation_steps decimation : 0 < decimation -> decimation mod 4 = 0 ->
  exists m, 0 < m /\ decimation = 4 * m /\ cdiv decimation 4 = m /\ cdiv decimation 2 = 2 * m /\ cmod decimation 4 = 0.
Proof.
  intros H0 H4. exists (decimation / 4). pose proof (Z.div_mod decimation 4 ltac:(lia)). rewrite !Z.quot_div_nonneg, Z.rem_mod_nonneg by lia.
  split_and!; [lia|lia|done| |done]. symmetry. apply (Z.div_unique_pos _ _ _ 0); lia.
Qed.

Lemma decimation_octal decimation : 0 < decimation -> decimation mod 4 = 0 -> decimation <> 4 ->
  (decimation mod 8 = 0 /\ exists m, 0 < m /\ decimation = 8 * m /\ cdiv decimation 8 = m) \/ decimation mod 8 = 4.
Proof.
  intros H0 H4 Hne. pose proof (Z.div_mod decimation 4 ltac:(lia)). pose proof (Z.div_mod decimation 8 ltac:(lia)).
  pose proof (Z.mod_pos_bound decimation 8 ltac:(lia)). destruct (decide (decimation mod 8 = 0)) as [E|]; [left|right; lia].
  split; [done|]. exists (decimation / 8). rewrite Z.quot_div_nonneg by lia. lia.
Qed.

(** Formats of two bits have a counter; it takes a turn for as many samples as the
    decoder does, except that of one channel without decimation. *)
Definition counter_result (nchan nbit decimation : Z) (d : decoder) (c : option counter) : Prop :=
  match c with
  | Some c => nbit = 2 /\ counts d c /\
      c_turn c = if (nchan =? 1) && (decimation =? 1) then Z.of_nat (length (d_rows d)) - 1 else Z.of_nat (length (d_rows d))
  | None => nbit = 1
  end.

(** What is taken off the result for a blanked turn: its number of samples, or the
    number that it would have without decimation. *)
Definition blank_result (nchan nbit decimation : Z) (d : decoder) : Prop :=
  if (decimation =? 1) || (8 <=? nchan * nbit) then d_blank d = Z.of_nat (length (d_rows d)) else Z.of_nat (length (d_rows d)) < d_blank d.

(** It goes over Mark5B, by the same step in blanked data. *)
Definition mark5b_loop (d : decoder) : Prop := d_blanked d = is_blank /\ d_end d = (fun _ => MK5B_PAYLOADSIZE) /\ d_skip d = d_step d.

Definition decoder_result (nchan nbit decimation : Z) (r : option (decoder * option counter)) : Prop :=
  match r with
  | Some (d, c) => has_decoder nchan nbit decimation /\ decodes (Z.to_nat nchan) nchan nbit decimation (sample_level nbit) d /\ mark5b_loop d /\ counter_result nchan nbit decimation d c /\
      blank_result nchan nbit decimation d
  | None => ~ has_decoder nchan nbit decimation
  end.

(** A decoder is the right one if its rows are. *)
Lemma result_decodes nchan nbit decimation d c rowdec : nchan ∈ [1; 2; 4; 8; 16; 32] -> nbit = 1 \/ nbit = 2 -> nchan * nbit <= 32 ->
  ~ (nbit = 1 /\ nchan = 1 /\ decimation <> 4 /\ decimation mod 8 = 4) ->
  d_lut d = lut_of nbit -> mark5b_loop d -> rows_check (Z.to_nat nchan) nchan nbit rowdec d = true -> rowdec = decimation \/ length (d_rows d) = 1%nat ->
  (0 < length (d_rows d))%nat -> 8 * d_step d decimation = Z.of_nat (length (d_rows d)) * decimation * nchan * nbit ->
  0 < Z.of_nat (d_fps d) <= d_step d decimation -> counter_result nchan nbit decimation d c /\ blank_result nchan nbit decimation d ->
  decoder_result nchan nbit decimation (Some (d, c)).
Proof.
  intros Hn Hb H32 Hodd Hl Hloop Hc Hd Hr Hs Hf Hcount. rewrite !elem_of_cons, elem_of_nil in Hn. split; [|split; [|split; [exact Hloop|exact Hcount]]].
  - split; [|done]. rewrite !elem_of_cons, elem_of_nil. lia.
  - apply (decodes_by_check _ _ _ _ _ _ rowdec); try done; [lia|lia|]. rewrite Hl. by apply lut_level.
Qed.

(** All formats of one decimation; [D] is the decimation of the rows. *)
Ltac no_decoder := cbn [mbind option_bind]; intros [H _]; rewrite !elem_of_cons, elem_of_nil in H; lia.
Ltac one_turn := repeat match goal with |- context[?x =? ?y] => destruct (Z.eqb_spec x y) end; cbn [andb]; first [done|lia].
Ltac one_blank := unfold blank_result; repeat match goal with |- context[?x =? ?y] => destruct (Z.eqb_spec x y) end;
  repeat match goal with |- context[?x <=? ?y] => destruct (Z.leb_spec x y) end; cbn; lia.
Ltac one_decoder D :=
  cbn [mbind option_bind Z.add Pos.add Pos.succ Z.eqb Pos.eqb decoders]; apply (result_decodes _ _ _ _ _ D);
  [by apply (bool_decide_unpack _); vm_compute|lia|lia|let H := fresh in intros (? & ? & ? & H); first [lia|discriminate H]|done|done|by vm_compute|
   first [by left|by right]|cbn; lia|first [by vm_compute|cbn; lia]|first [by vm_compute|cbn; lia]|
   split; [first [done|split; [done|split; [by repeat split|by one_turn]]]|by one_blank]].
Ltac with_nchan nchan nc D := assert (nchan = nc) by lia; subst nchan; one_decoder D.
Ltac all_formats nchan nbit D :=
  destruct (Z.eqb_spec nbit 1) as [->|?]; [|destruct (Z.eqb_spec nbit 2) as [->|?]; [|no_decoder]];
  repeat match goal with |- context[?x * ?y =? ?c] => destruct (Z.eqb_spec (x * y) c) end;
  first [exfalso; lia|no_decoder|with_nchan nchan 1 D|with_nchan nchan 2 D|with_nchan nchan 4 D|with_nchan nchan 8 D|with_nchan nchan 16 D|with_nchan nchan 32 D].

Lemma format_decimation1 nchan nbit : decoder_result nchan nbit 1 (new_mark5_format_mark5b nchan nbit 1).
Proof. unfold new_mark5_format_mark5b, decoderindex. cbn [Z.eqb Pos.eqb]. all_formats nchan nbit 1. Qed.

Lemma format_decimation2 nchan nbit : decoder_result nchan nbit 2 (new_mark5_format_mark5b nchan nbit 2).
Proof. unfold new_mark5_format_mark5b, decoderindex. cbn [Z.eqb Pos.eqb]. all_formats nchan nbit 2. Qed.

Lemma format_decimation4 nchan nbit : decoder_result nchan nbit 4 (new_mark5_format_mark5b nchan nbit 4).
Proof. unfold new_mark5_format_mark5b, decoderindex. cbn [Z.eqb Pos.eqb]. change (cmod 4 4 =? 0) with true. all_formats nchan nbit 4. Qed.

Lemma format_decimation8 nchan nbit decimation : 0 < decimation -> decimation mod 4 = 0 -> decimation <> 4 ->
  decoder_result nchan nbit decimation (new_mark5_format_mark5b nchan nbit decimation).
Proof.
  intros H0 H4 Hne. destruct (decimation_steps decimation H0 H4) as (m & Hm & Em & E4 & E2 & Er).
  pose proof (decimation_octal decimation H0 H4 Hne) as H8.
  unfold new_mark5_format_mark5b, decoderindex. destruct (Z.eqb_spec decimation 1); [lia|]. destruct (Z.eqb_spec decimation 2); [lia|]. rewrite Er.
  change (0 =? 0) with true. cbn iota.
  destruct (decide (nchan = 1 /\ nbit = 1)) as [[-> ->]|Hne1].
  - change (1 * 1 =? 1) with true. change (1 =? 1) with true. cbn [mbind option_bind]. change (24 + 0 + 0) with 24. change (24 =? 6) with false.
    cbn [mbind option_bind decoders]. destruct (Z.eqb_spec decimation 4); [done|].
    rewrite Z.rem_mod_nonneg by lia. destruct H8 as [(E & m8 & H8 & Em8 & Ed8)|E]; rewrite E.
    + cbn [Z.eqb]. apply (result_decodes _ _ _ _ _ 8); [by apply (bool_decide_unpack _); vm_compute|lia|lia|rewrite E; lia|done|done|by vm_compute|by right|
        cbn; lia|cbn; lia|cbn; lia|split; [done|by one_blank]].
    + intros [_ H]. by apply H.
  - all_formats nchan nbit 4.
Qed.

Lemma format_rep nchan nbit decimation : good_decimation decimation ->
  decoder_result nchan nbit decimation (new_mark5_format_mark5b nchan nbit decimation).
Proof.
  intros [->|[->|[H0 H4]]]; [apply format_decimation1|apply format_decimation2|].
  destruct (decide (decimation = 4)) as [->|Hne]; [apply format_decimation4|by apply format_decimation8].
Qed.

(** C13 [new_mark5_format_mark5b] has a decoder for one or two bits and 1, 2, 4, 8, 16
    or 32 bit streams (not for two bits in one), at a decimation of 1, 2 or a multiple
    of 4 -- a single bit stream only at 4 and at multiples of 8 --, and the decoder
    is the right one: entry by entry, it stores the sample that the format has there. *)
Theorem new_mark5_format_mark5b_spec nchan nbit decimation : good_decimation decimation ->
  decoder_result nchan nbit decimation (new_mark5_format_mark5b nchan nbit decimation).
Proof. apply format_rep. Qed.

Lemma new_mark5_format_mark5b_spec_witness : good_decimation 2 /\
  decoder_result 8 2 2 (Some (mark5b_decode_16bitstream_2bit_decimation2, Some mark5b_count_16bitstream_2bit_decimation2)).
Proof.
  assert (H : good_decimation 2) by (right; left; reflexivity). split; [exact H|]. exact (new_mark5_format_mark5b_spec 8 2 2 H).
Defined.

(** ** Unpacking *)

(** A stream to which the format of the decoder [d] has been given. *)
Record unpacks (nchan nbit decimation : Z) (d : decoder) (ms : mark5_stream) : Prop := {
  up_decoder : exists ms0 c, mark5_format_mark5b_init (nchan * nbit) ms0 = Some ms /\ ms_decimation ms0 = decimation /\
    ms_nchan ms0 = nchan /\ ms_nbit ms0 = nbit /\ zones_ok ms0 /\ new_mark5_format_mark5b nchan nbit decimation = Some (d, c);
  up_decimation : good_decimation decimation;
  up_step : (d_step d decimation | MK5B_PAYLOADSIZE) }.

(** Sample [S] of channel [c] of the frames from [base] on: its bits are at bit [m] of
    their payloads, and the turn of the decoder that reads it starts with byte [x]. *)
Definition sample_of (mem : buffer) (base nchan nbit decimation : Z) (d : decoder) (S c : Z) : state :=
  let m := (S * decimation * nchan + c) * nbit in
  let x := S / Z.of_nat (length (d_rows d)) * d_step d decimation in
  frame_level mem (frame_payload base (m / (8 * MK5B_PAYLOADSIZE))) nbit (x mod MK5B_PAYLOADSIZE) (m mod (8 * MK5B_PAYLOADSIZE)).

Lemma init_facts nbitstream ms0 ms : mark5_format_mark5b_init nbitstream ms0 = Some ms ->
  ms_decimation ms = ms_decimation ms0 /\ ms_nchan ms = ms_nchan ms0 /\ ms_nbit ms = ms_nbit ms0 /\ ms_framebytes ms = 10016 /\
  ms_databytes ms = 10000 /\ ms_payloadoffset ms = 16 /\ ms_framesamples ms = cdiv (10000 * 8) (nbitstream * ms_decimation ms0) /\
  ms_validate ms = one /\ ms_blanker ms = call_blanker_mark5 /\ (zones_ok ms0 -> zones_ok ms).
Proof. unfold mark5_format_mark5b_init. destruct (_ =? 0); [done|]. intros [= <-]. by split_and!. Qed.

Lemma has_decoder_pos nchan nbit decimation : has_decoder nchan nbit decimation -> 0 < nchan.
Proof. intros [H _]. rewrite !elem_of_cons, elem_of_nil in H. lia. Qed.

Lemma good_decimation_pos decimation : good_decimation decimation -> 0 < decimation.
Proof. unfold good_decimation. lia. Qed.

(** The blanked ones of [T] turns from byte [b] on. *)
Definition blanks (mem : buffer) (base st : Z) (T : nat) (b : Z) : Z := blank_turns MK5B_PAYLOADSIZE (stream_blank mem base) st T b.

Lemma sample_of_level mem base nchan nbit decimation d S c : decodes (Z.to_nat nchan) nchan nbit decimation (sample_level nbit) d ->
  (d_step d decimation | MK5B_PAYLOADSIZE) -> 0 < nchan -> 0 < decimation -> 0 <= S -> 0 <= c < nchan ->
  level_at mem MK5B_PAYLOADSIZE (frame_payload base) (stream_blank mem base) (sample_level nbit) (S / Z.of_nat (length (d_rows d)) * d_step d decimation)
    ((S * decimation * nchan + c) * nbit) = sample_of mem base nchan nbit decimation d S c.
Proof. intros Hd Hdiv Hn Hdec HS Hc. exact (level_sample _ _ _ _ _ _ _ _ _ _ _ _ Hd Hdiv eq_refl Hn Hdec HS Hc). Qed.

(** A call of the decoder that starts with sample [Q * R] of the frames. *)
Lemma decode_samples mem packed n nchan nbit decimation d ms Q T data : bytes_ok mem -> 0 <= packed ->
  packed + n * MARK5B_FRAME_SIZE <= Z.of_nat (length mem) ->
  decodes (Z.to_nat nchan) nchan nbit decimation (sample_level nbit) d -> mark5b_loop d -> (d_step d decimation | MK5B_PAYLOADSIZE) -> 0 < nchan -> 0 < decimation ->
  let R := Z.of_nat (length (d_rows d)) in let st := d_step d decimation in
  at_mark5b_frame mem decimation packed n (Q * st / MK5B_PAYLOADSIZE) ms -> ms_readposition ms = (Q * st) mod MK5B_PAYLOADSIZE ->
  0 <= Q -> (Q + Z.of_nat T) * st < n * MK5B_PAYLOADSIZE -> sample_room (Z.to_nat nchan) (Z.of_nat T * R) data ->
  exists ms' data', decode d mem ms (Z.of_nat T * R) data =
      Some (Z.of_nat T * R - d_blank d * blanks mem packed st T (Q * st), ms', data') /\
    at_mark5b_frame mem decimation packed n ((Q + Z.of_nat T) * st / MK5B_PAYLOADSIZE) ms' /\
    ms_readposition ms' = ((Q + Z.of_nat T) * st) mod MK5B_PAYLOADSIZE /\ shape data' = shape data /\
    forall c s, 0 <= c < nchan -> 0 <= s < Z.of_nat T * R ->
      sample_at data' (Z.to_nat c) (Z.to_nat s) = Some (sample_of mem packed nchan nbit decimation d (Q * R + s) c).
Proof.
  intros Hmem Hpk Hlen Hd (Hl1 & Hl2 & Hl3) Hdiv Hn Hdec R st Hon Hpos HQ Hend Hroom.
  pose proof (mark5b_frames mem decimation packed n Hmem Hpk Hlen) as FS.
  destruct (decode_run (FS := FS) (Z.to_nat nchan) nchan nbit (sample_level nbit) d Hd Hdiv ms Q T data Hl1 Hl2) as (ms' & data' & E & Hon' & Hp' & Hs & G);
    [left; by rewrite Hl3|done..|].
  exists ms', data'. split; [exact E|]. split; [done|]. split; [done|]. split; [done|]. intros c s Hc Hsr.
  rewrite (G (Z.to_nat c) s) by lia. f_equal. rewrite Z2Nat.id by lia. apply sample_of_level; try done. nia.
Qed.

Lemma mark5_unpack_rep mem packed n nchan nbit decimation d ms Q T data : bytes_ok mem -> 0 <= packed ->
  packed + n * MARK5B_FRAME_SIZE <= Z.of_nat (length mem) -> unpacks nchan nbit decimation d ms -> can_next packed n (ms_next ms) ->
  let R := Z.of_nat (length (d_rows d)) in let st := d_step d decimation in
  0 <= Q -> (Q + Z.of_nat T) * st < n * MK5B_PAYLOADSIZE -> sample_room (Z.to_nat nchan) (Z.of_nat T * R) data ->
  exists ms' data', mark5_unpack_with_offset d mem ms packed (Q * R) data (Z.of_nat T * R) =
      Some (Z.of_nat T * R - d_blank d * blanks mem packed st T (Q * st), ms', data') /\
    at_mark5b_frame mem decimation packed n ((Q + Z.of_nat T) * st / MK5B_PAYLOADSIZE) ms' /\
    ms_readposition ms' = ((Q + Z.of_nat T) * st) mod MK5B_PAYLOADSIZE /\ shape data' = shape data /\
    forall c s, 0 <= c < nchan -> 0 <= s < Z.of_nat T * R ->
      sample_at data' (Z.to_nat c) (Z.to_nat s) = Some (sample_of mem packed nchan nbit decimation d (Q * R + s) c).
Proof.
  intros Hmem Hpk Hlen [(ms0 & cnt & Hi & Ed & En & Eb & Hz & Hnew) Hdec Hdiv] Hnext R st HQ Hend Hroom.
  pose proof (format_rep nchan nbit decimation Hdec) as Hr. rewrite Hnew in Hr. destruct Hr as (Hhas & Hd & Hloop & _).
  destruct (init_facts _ _ _ Hi) as (I1 & I2 & I3 & I4 & I5 & I6 & I7 & Iv & I8 & I9). rewrite Ed in I1, I7. rewrite En in I2. rewrite Eb in I3.
  destruct (format_numbers MK5B_PAYLOADSIZE _ _ _ _ _ d Hd Hdiv eq_refl (has_decoder_pos _ _ _ Hhas) (good_decimation_pos _ Hdec)) as (HR & Hst & M & HM & HP & H8 & HF).
  fold R st in HR, Hst, HM, HP, H8, HF. change (10000 * 8) with (MK5B_PAYLOADSIZE * 8) in I7. rewrite HF in I7. destruct (blocks_of st M Q Hst HM) as [B1 B2]. rewrite <-HP in B1, B2.
  assert (Hb : Q * st < n * MK5B_PAYLOADSIZE) by nia. assert (Hk : 0 <= Q / M < n).
  { split; [by apply Z.div_pos|]. rewrite <-B1. apply Z.div_lt_upper_bound; [done|]. lia. }
  unfold mark5_unpack_with_offset. rewrite I7. destruct (Z.eqb_spec (R * M) 0); [lia|]. unfold unpack_frame. rewrite I4.
  rewrite Z.quot_div_nonneg by lia. rewrite (Z.mul_comm Q R), Z.div_mul_cancel_l by lia.
  destruct (next_frame_at mem decimation packed n Hmem Hpk Hlen (Q / M)
    (ms_move ms (ms_framenum ms) (Some (packed + Q / M * 10016 - 10016)) (ms_payload ms) (ms_readposition ms))
    (packed + Q / M * 10016 - 10016)) as (ms1 & E1 & Hon & S1 & S2 & S3); [by split; auto|done|unfold frame_offset, MARK5B_FRAME_SIZE; lia|done|].
  cbn [ms_move ms_nchan ms_nbit ms_framesamples] in S1, S2, S3. rewrite E1.
  destruct (ms_next ms); [|done|]; cbn [mbind option_bind].
  all: rewrite S1, S2, S3, I2, I3, I7, (mb_decimation _ _ _ _ (af_stream _ _ _ _ _ _ Hon)).
  all: rewrite Z.rem_mod_nonneg by lia; rewrite Z.mul_mod_distr_l by lia.
  all: replace (R * (Q mod M) * nchan * nbit * decimation) with (8 * (st * (Q mod M))) by (rewrite Z.mul_assoc, H8; ring).
  all: pose proof (Z.mod_pos_bound Q M HM); assert (Hr : 0 <= st * (Q mod M) < MK5B_PAYLOADSIZE) by (rewrite HP; nia).
  all: rewrite sint_Some by (unfold MK5B_PAYLOADSIZE in Hr; lia); cbn [mbind option_bind]; rewrite (Z.mul_comm 8), Z.quot_mul by lia.
  all: rewrite (Z.mul_comm R Q); apply (decode_samples _ _ n); try done.
  all: try (by eapply has_decoder_pos); try (by apply good_decimation_pos).
  all: fold st; first [rewrite B1; by apply (fr_position (FrameStream := mark5b_frames mem decimation packed n Hmem Hpk Hlen))|by rewrite B2].
Qed.


(** The value returned is the number of samples that are not blanked when there is
    no decimation or there are at least eight bit streams; otherwise too much is taken
    off for a blanked turn, and with all data blanked the value is negative. *)
Theorem mark5_unpack_result mem packed n nchan nbit decimation d ms Q T data : bytes_ok mem -> 0 <= packed ->
  packed + n * MARK5B_FRAME_SIZE <= Z.of_nat (length mem) -> unpacks nchan nbit decimation d ms -> can_next packed n (ms_next ms) ->
  let R := Z.of_nat (length (d_rows d)) in let st := d_step d decimation in
  0 <= Q -> (Q + Z.of_nat T) * st < n * MK5B_PAYLOADSIZE -> sample_room (Z.to_nat nchan) (Z.of_nat T * R) data ->
  exists r ms' data', mark5_unpack_with_offset d mem ms packed (Q * R) data (Z.of_nat T * R) = Some (r, ms', data') /\
    let bt := blanks mem packed st T (Q * st) in
    0 <= bt <= Z.of_nat T /\
    if (decimation =? 1) || (8 <=? nchan * nbit) then r = (Z.of_nat T - bt) * R
    else r <= (Z.of_nat T - bt) * R /\ (bt = Z.of_nat T -> (0 < T)%nat -> r < 0).
Proof.
  intros Hm Hp Hl Hu Hn R st HQ He Hr.
  destruct (mark5_unpack_rep mem packed n nchan nbit decimation d ms Q T data Hm Hp Hl Hu Hn HQ He Hr) as (ms' & data' & E & _).
  destruct Hu as [(ms0 & cnt & _ & _ & _ & _ & _ & Hnew) Hdec _].
  pose proof (format_rep nchan nbit decimation Hdec) as Hf. rewrite Hnew in Hf. destruct Hf as (_ & _ & _ & _ & Hb). unfold blank_result in Hb. fold R in Hb.
  eexists _, ms', data'. split; [exact E|]. cbv zeta.
  revert Hb. unfold R, st. generalize (Z.of_nat (length (d_rows d))). intros R' Hb.
  pose proof (blank_turns_range MK5B_PAYLOADSIZE (stream_blank mem packed) (d_step d decimation) T (Q * d_step d decimation)) as Hbt.
  revert Hbt. fold (blanks mem packed (d_step d decimation) T (Q * d_step d decimation)). generalize (blanks mem packed (d_step d decimation) T (Q * d_step d decimation)).
  intros bt Hbt. split; [done|]. destruct (_ || _); [rewrite Hb; ring|]. split; [nia|]. intros -> HT. nia.
Qed.

(** [mark5_unpack] is the case of no offset. *)
Lemma mark5_unpack_offset0 d mem ms packed data nsamp : ms_framesamples ms <> 0 ->
  (forall ms', unpack_frame mem ms packed packed = Some ms' -> ms_framesamples ms' <> 0) ->
  mark5_unpack d mem ms packed data nsamp = mark5_unpack_with_offset d mem ms packed 0 data nsamp.
Proof.
  intros Hf Hf'. unfold mark5_unpack, mark5_unpack_with_offset. destruct (Z.eqb_spec (ms_framesamples ms) 0); [done|].
  rewrite Z.quot_0_l, Z.mul_0_l, Z.add_0_r by done. destruct (unpack_frame mem ms packed packed) as [ms'|]; [|done]. cbn [mbind option_bind].
  by rewrite Z.rem_0_l by (by apply Hf').
Qed.

(** [mark5_stream_decode] goes on from the current position, when it is asked for
    multiples of the granularity and the position is not lost. *)
Lemma mark5_stream_decode_spec d mem ms nsamp data : 0 < ms_samplegranularity ms ->
  mark5_stream_decode d mem ms nsamp data =
    if (0 <=? ms_readposition ms) && (cmod nsamp (ms_samplegranularity ms) =? 0) then decode d mem ms nsamp data else Some (-1, ms, data).
Proof.
  intros Hg. unfold mark5_stream_decode. destruct (Z.ltb_spec (ms_readposition ms) 0), (Z.leb_spec 0 (ms_readposition ms)); try lia; [done|].
  destruct (Z.eqb_spec (ms_samplegranularity ms) 0); [lia|]. by destruct (_ =? 0).
Qed.

(** ** Examples *)

Definition mark5_example_unpacker (nchan nbit decimation : Z) : option mark5_stream :=
  mark5_format_mark5b_init (nchan * nbit) (mark5_example_stream nchan nbit decimation).

Lemma example_unpacks nchan nbit decimation d c ms : mark5_example_unpacker nchan nbit decimation = Some ms ->
  new_mark5_format_mark5b nchan nbit decimation = Some (d, c) -> good_decimation decimation -> (d_step d decimation | MK5B_PAYLOADSIZE) ->
  unpacks nchan nbit decimation d ms.
Proof.
  intros Hi Hn Hd Hdiv. split; [|done|done]. exists (mark5_example_stream nchan nbit decimation), c.
  split; [exact Hi|]. do 3 (split; [reflexivity|]). split; [split; cbn; lia|exact Hn].
Qed.

(** Four channels of two bits; the second frame is marked as invalid. *)
Definition mark5_example_data : buffer :=
  mark5_example_frame 0 (Z.to_nat 10000) 0 0x1B ++ mark5_example_frame 0x80 (Z.to_nat 10000) 0 0x1B.

Lemma mark5_example_data_facts : bytes_ok mark5_example_data /\ Z.of_nat (length mark5_example_data) = 20032.
Proof. split; [apply bytes_ok_check; by vm_compute|by vm_compute]. Qed.


(** Two channels of two bits, decimated by 2, in a frame that is marked as invalid:
    three samples are asked for, and the result is -3. *)
Lemma mark5_unpack_result_witness :
  exists ms r ms' data', mark5_example_unpacker 2 2 2 = Some ms /\
    mark5_unpack_with_offset mark5b_decode_4bitstream_2bit_decimation2 mark5_example_data ms 0 10000 (replicate 2 (replicate 3 Zero)) 3 = Some (r, ms', data') /\
    r < 0.
Proof.
  destruct mark5_example_data_facts as [Hb Hl].
  assert (Hbt : blanks mark5_example_data 0 1 3 10000 = 3)
    by (vm_compute; reflexivity).
  revert Hb Hl Hbt. generalize mark5_example_data. intros mem Hb Hl Hbt.
  assert (Hi : exists ms, mark5_example_unpacker 2 2 2 = Some ms /\ ms_next ms = mark5_stream_unpacker_next) by (eexists; split; reflexivity).
  destruct Hi as (ms & Hi & Hn). exists ms.
  assert (Hu : unpacks 2 2 2 mark5b_decode_4bitstream_2bit_decimation2 ms).
  { eapply example_unpacks; [exact Hi|reflexivity|right; left; reflexivity|exists 10000; reflexivity]. }
  destruct (mark5_unpack_result mem 0 2 2 2 2 mark5b_decode_4bitstream_2bit_decimation2 ms 10000 3 (replicate 2 (replicate 3 Zero)) Hb ltac:(lia)
    ltac:(rewrite Hl; vm_compute; congruence) Hu ltac:(rewrite Hn; exact I) ltac:(lia) ltac:(vm_compute; reflexivity)
    (room_replicate 2 3 3 ltac:(lia))) as (r & ms' & data' & E & _ & _ & Hneg).
  exists r, ms', data'. split; [exact Hi|]. split; [exact E|]. apply Hneg; [exact Hbt|lia].
Defined.

(** ** The end of the data *)

(** After the last sample of a frame the decoder goes to the next one at once: at the
    end of the data the blanker of an unpacker reads behind them, and a stream in
    memory returns -1 with all samples decoded.  Data without headers have no byte
    for the mark. *)
Lemma unpack_last_sample :
  let frame := mark5_example_frame 0 (Z.to_nat 10000) 0 0x1B in let data := replicate 4 [Zero] in
  (ms ← mark5_example_unpacker 4 2 1; mark5_unpack_with_offset mark5b_decode_8bitstream_2bit_decimation1 frame ms 0 9999 data 1) = None /\
  (ms ← mark5_example_unpacker 4 2 1; mark5_unpack_with_offset mark5b_decode_8bitstream_2bit_decimation1 (frame ++ frame) ms 0 9999 data 1) <> None.
Proof. cbv zeta. split; [vm_compute; reflexivity|]. vm_compute. discriminate. Qed.

Definition with_next (ms : mark5_stream) (next : next_function) : mark5_stream :=
  {| ms_nchan := ms_nchan ms; ms_nbit := ms_nbit ms; ms_decimation := ms_decimation ms; ms_framebytes := ms_framebytes ms;
     ms_databytes := ms_databytes ms; ms_framesamples := ms_framesamples ms; ms_samplegranularity := ms_samplegranularity ms;
     ms_payloadoffset := ms_payloadoffset ms; ms_framenum := ms_framenum ms; ms_nvalidatefail := ms_nvalidatefail ms;
     ms_nvalidatepass := ms_nvalidatepass ms; ms_consecutivefails := ms_consecutivefails ms; ms_frame := ms_frame ms;
     ms_payload := ms_payload ms; ms_readposition := ms_readposition ms;
     ms_log2blankzonesize := ms_log2blankzonesize ms; ms_blankzonestartvalid := ms_blankzonestartvalid ms;
     ms_blankzoneendvalid := ms_blankzoneendvalid ms; ms_next := next; ms_validate := ms_validate ms; ms_blanker := ms_blanker ms |}.

Lemma memory_last_sample :
  let frame := mark5_example_frame 0 (Z.to_nat 10000) 0 0x1B in
  (ms ← mark5_example_unpacker 4 2 1; '(r, _, data) ← mark5_unpack_with_offset mark5b_decode_8bitstream_2bit_decimation1 frame
     (with_next ms (mark5_stream_memory_next 10016)) 0 9999 (replicate 4 [Zero]) 1; Some (r, data)) =
  Some (-1, [[High]; [MinusOne]; [One]; [MinusHigh]]).
Proof. vm_compute. reflexivity. Qed.

Lemma noheaders_reads_before :
  (ms ← mark5_example_unpacker 4 2 1; mark5_unpack mark5b_decode_8bitstream_2bit_decimation1 (replicate (Z.to_nat 10000) 0x1B)
     (with_next ms mark5_stream_unpacker_next_noheaders) 0 (replicate 4 [Zero]) 1) = None.
Proof. vm_compute. reflexivity. Qed.
