(* ===== verification/Mark5bCount.v ===== *)
(** * Mark5bCount: counting high states

    The counters of two-bit formats count the samples that their decoders would give
    as high or low extremes. *)
From S2P Require Export Mark5bDecodeTheorems.
#[local] Open Scope Z_scope.

(** ** The whole call *)

(** C39 A counter of a two-bit format adds to the count of every channel, modulo the
    width of the counts, the samples that are [High] or [MinusHigh] when decoded, and
    returns what the decoder returns; it goes on by as many samples as it was asked
    for -- except for one channel without decimation, where it goes over four samples
    for every three that are asked for. *)
Theorem count_states_spec mem base n nchan decimation d k ms Q T hs : bytes_ok mem -> 0 <= base ->
  base + n * MARK5B_FRAME_SIZE <= Z.of_nat (length mem) ->
  new_mark5_format_mark5b nchan 2 decimation = Some (d, Some k) -> good_decimation decimation -> (d_step d decimation | MK5B_PAYLOADSIZE) ->
  let R := Z.of_nat (length (d_rows d)) in let st := d_step d decimation in
  at_mark5b_frame mem decimation base n (Q * st / MK5B_PAYLOADSIZE) ms -> ms_readposition ms = (Q * st) mod MK5B_PAYLOADSIZE ->
  0 <= Q -> (Q + Z.of_nat T) * st < n * MK5B_PAYLOADSIZE -> counters_ok (Z.to_nat nchan) hs ->
  let nsamp := Z.of_nat T * (if (nchan =? 1) && (decimation =? 1) then 3 else R) in
  exists ms' hs', count_states k mem ms nsamp hs =
      Some (nsamp - d_blank d * blanks mem base st T (Q * st), ms', hs') /\
    at_mark5b_frame mem decimation base n ((Q + Z.of_nat T) * st / MK5B_PAYLOADSIZE) ms' /\ ms_readposition ms' = ((Q + Z.of_nat T) * st) mod MK5B_PAYLOADSIZE /\
    forall c, 0 <= c < nchan -> hs' !! Z.to_nat c =
      (fun h => u32 (h + sum_upto (fun s => high (sample_of mem base nchan 2 decimation d (Q * R + s) c)) (T * length (d_rows d)))) <$> hs !! Z.to_nat c.
Proof.
  intros Hmem Hb Hlen Hnew Hdec Hdiv R st Hon Hpos HQ Hend Hhs nsamp.
  pose proof (format_rep nchan 2 decimation Hdec) as Hr. rewrite Hnew in Hr. destruct Hr as (Hhas%has_decoder_pos & Hd & (Hl1 & Hl2 & _) & (_ & Hk & Ht) & _).
  apply good_decimation_pos in Hdec. pose proof (dc_rows _ _ _ _ _ _ Hd) as HR. pose proof (mark5b_frames mem decimation base n Hmem Hb Hlen) as FS.
  assert (Et : c_turn k = if (nchan =? 1) && (decimation =? 1) then 3 else R).
  { rewrite Ht. destruct (Z.eqb_spec nchan 1) as [->|]; [|done]. destruct (Z.eqb_spec decimation 1) as [->|]; [|done]. cbn [andb].
    vm_compute in Hnew. injection Hnew as <- _. done. }
  assert (Hct : 0 < c_turn k) by (rewrite Et; destruct (_ && _); unfold R; lia). unfold nsamp. rewrite <-Et.
  pose proof Hk as (Hb1 & Hb2 & _).
  destruct (count_run (FS := FS) (Z.to_nat nchan) nchan 2 (sample_level 2) d k Hd Hk Hdiv ms Q T hs) as (ms' & hs' & E & Hon' & Hp' & A);
    [by rewrite Hb1|by rewrite Hb2|done..|].
  exists ms', hs'. split; [exact E|]. split; [done|]. split; [done|].
  intros c Hc. rewrite A by lia. destruct (hs !! Z.to_nat c) as [h|]; [|done]. cbn [fmap option_fmap option_map]. do 2 f_equal. f_equal.
  apply sum_upto_ext. intros s Hs. f_equal. rewrite Z2Nat.id by lia. apply sample_of_level; try done. fold R. unfold R in *. nia.
Qed.

(** Two channels: every byte has one extreme sample of each; three turns are counted
    from the first frame on. *)
Lemma count_states_spec_witness :
  exists ms ms' hs', at_mark5b_frame mark5_example_data 1 0 2 0 ms /\
    count_states mark5b_count_4bitstream_2bit_decimation1 mark5_example_data ms 6 [0; 40] = Some (6, ms', hs') /\
    hs' !! 0%nat = Some 3 /\ hs' !! 1%nat = Some 43.
Proof.
  destruct mark5_example_data_facts as [Hb Hl].
  assert (Hbt : blanks mark5_example_data 0 1 3 0 = 0)
    by (vm_compute; reflexivity).
  assert (Hs : forall c, (c = 0 \/ c = 1) ->
    sum_upto (fun s => high (sample_of mark5_example_data 0 2 2 1 mark5b_decode_4bitstream_2bit_decimation1 (0 * 2 + s) c)) 6 = 3)
    by (intros c [-> | ->]; vm_compute; reflexivity).
  assert (Hz : frame_zone mark5_example_data 0 0 = (0, 2 ^ 30)) by (vm_compute; reflexivity).
  revert Hb Hl Hbt Hs Hz. generalize mark5_example_data. intros mem Hb Hl Hbt Hs Hz.
  set (ms := ms_set_zones (ms_move (mark5_example_stream 2 2 1) 1 (Some 0) (Some 16) 0) 15 [0] [2 ^ 30]).
  assert (Hat : at_mark5b_frame mem 1 0 2 0 ms).
  { split; [split; [reflexivity..|exact I|split; cbn; lia]|reflexivity|reflexivity|rewrite Hz; reflexivity|rewrite Hz; reflexivity]. }
  destruct (count_states_spec mem 0 2 2 1 mark5b_decode_4bitstream_2bit_decimation1 mark5b_count_4bitstream_2bit_decimation1 ms 0 3 [0; 40]
    Hb ltac:(lia) ltac:(rewrite Hl; vm_compute; congruence) eq_refl ltac:(left; reflexivity) ltac:(exists 10000; reflexivity)
    Hat eq_refl ltac:(lia) ltac:(vm_compute; reflexivity)) as (ms' & hs' & E & _ & _ & A).
  { split; [cbn; lia|]. repeat apply Forall_cons_2; [lia|lia|apply Forall_nil_2]. }
  exists ms, ms', hs'. split; [exact Hat|]. split.
  - change (0 * d_step mark5b_decode_4bitstream_2bit_decimation1 1) with 0 in E.
    change (d_step mark5b_decode_4bitstream_2bit_decimation1 1) with 1 in E. rewrite Hbt in E. exact E.
  - pose proof (A 0 ltac:(lia)) as A0. pose proof (A 1 ltac:(lia)) as A1.
    change (3 * length (d_rows mark5b_decode_4bitstream_2bit_decimation1))%nat with 6%nat in A0, A1.
    change (Z.of_nat (length (d_rows mark5b_decode_4bitstream_2bit_decimation1))) with 2 in A0, A1.
    rewrite (Hs 0) in A0 by (left; reflexivity). rewrite (Hs 1) in A1 by (right; reflexivity). split; [exact A0|exact A1].
Defined.
