(* ===== verification/Mark5bRepaired.v ===== *)
(** * Mark5bRepaired: repaired data, decoded

    What the decoders make of the output of [mark5bfix]: the samples of every frame
    that the source has, zeros for every frame that it does not have. *)
From S2P Require Export Mark5bDecodeTheorems.
#[local] Open Scope Z_scope.

(** ** Frames of the source *)

Lemma goods_inside fuel src N i p f : 0 <= i -> (p, f) ∈ goods fuel src N i -> 0 <= p <= N.
Proof.
  revert i. induction fuel as [|fuel IH]; intros i Hi; cbn [goods]; destruct (Z.leb_spec i N); try by intros ?%elem_of_nil.
  destruct (look src N i) as [s|]; [|by intros ?%elem_of_nil].
  assert (Hs : (p, f) ∈ goods fuel src N (i + sight_step s) -> 0 <= p <= N) by (apply IH; pose proof (sight_step_pos s); lia).
  destruct s; [exact Hs..|]. intros [[= -> ->]|Hin]%elem_of_cons; [lia|]. by apply Hs.
Qed.

Lemma origin_good fps startN gs start gs' pf : origin fps startN gs = Some (start, gs') -> pf ∈ gs' -> pf ∈ gs.
Proof.
  unfold origin. destruct (0 <=? startN); [by intros [= _ <-]|].
  assert (Hsub : pf ∈ first_frames fps gs -> pf ∈ gs).
  { induction gs as [|[p f] gs IH]; cbn [first_frames]; [done|]. destruct (_ && _); [|done]. intros Hin. right. by apply IH. }
  destruct (first_frames fps gs) as [|[p f] gs1]; [done|]. intros [= _ <-]. exact Hsub.
Qed.

Lemma numbered_position fps prev gs p n : (p, n) ∈ numbered fps prev gs -> exists f, (p, f) ∈ gs.
Proof.
  revert prev. induction gs as [|[q f] gs IH]; intros prev; cbn [numbered]; [by intros ?%elem_of_nil|].
  intros [[= -> _]|Hin]%elem_of_cons; [exists f; by left|]. destruct (IH _ Hin) as [f' ?]. exists f'. by right.
Qed.

Lemma taken_frame src fps startN start gs nDest p n : origin fps startN (good_frames src) = Some (start, gs) ->
  (p, n) ∈ inside start nDest (numbered fps (start - 1) gs) -> whole_frame src p.
Proof.
  intros Ho Hin. apply list_elem_of_filter in Hin as [_ Hin]. apply numbered_position in Hin as [f Hin].
  apply (origin_good _ _ _ _ _ _ Ho) in Hin. apply goods_inside in Hin; [|lia]. unfold whole_frame. lia.
Qed.

(** ** Frames of the repaired data *)

Section Repaired.
Context (src dest : buffer) (fps start last : Z) (taken : list (Z * Z)).
Hypothesis Hfill : filled src fps start (length dest) last taken dest.
Hypothesis Htaken : forall p n, (p, n) ∈ taken -> whole_frame src p.
Hypothesis Hroom : (last - start + 1) * MARK5B_FRAME_SIZE <= Z.of_nat (length dest).

Lemma repaired_frame k : 0 <= k <= last - start -> whole_frame dest (frame_offset 0 k).
Proof using Hroom. clear - Hroom. intros Hk. unfold whole_frame, frame_offset, MARK5B_FRAME_SIZE in *. lia. Qed.

(** A frame of the source, and a missing one. *)
Lemma repaired_good p k nbit i m : (p, start + k) ∈ taken -> 0 <= k <= last - start -> 0 <= i < MK5B_PAYLOADSIZE -> 0 <= m < 8 * MK5B_PAYLOADSIZE ->
  frame_level dest (frame_payload 0 k) nbit i m = frame_level src (p + 16) nbit i m.
Proof using Hfill Htaken Hroom.
  intros Hp Hk Hi Hm. apply frame_level_same; [by apply repaired_frame|by eapply Htaken| |done|done].
  unfold same_frame. rewrite <-(fl_good _ _ _ _ _ _ _ Hfill p (start + k) Hp). do 2 f_equal. unfold frame_offset. lia.
Qed.

Lemma repaired_lost k nbit i m : start + k ∉ taken.*2 -> 0 <= k <= last - start ->
  frame_level dest (frame_payload 0 k) nbit i m = Zero.
Proof using Hfill Hroom.
  intros Hp Hk. pose proof (repaired_frame k Hk) as Hf. apply frame_level_marked; [done|].
  destruct (fl_lost _ _ _ _ _ _ _ Hfill (start + k)) as (p & n & _ & [_ Hn _]); [lia|done|].
  pose proof Hf as [H1 H2]. pose proof (bytes_at_Some dest (frame_offset 0 k + 5) 1) as Hb.
  specialize (Hb ltac:(lia) ltac:(unfold MARK5B_FRAME_SIZE in *; lia)).
  assert (E : byte_at dest (frame_offset 0 k + 5) = Some (Z.lor (u8 (Z.shiftr ((start + k) mod fps) 8)) 0x80)).
  { unfold byte_at. rewrite Hb. cbn [fmap option_fmap option_map]. f_equal.
    replace (Z.to_nat (frame_offset 0 k + 5)) with (Z.to_nat ((start + k - start) * MARK5B_FRAME_SIZE) + 4 + 1)%nat
      by (unfold frame_offset, MARK5B_FRAME_SIZE in *; lia).
    rewrite <-(slice_slice _ _ 2 1 1) by lia. rewrite Hn. unfold slice. cbn [drop take]. apply le_combine_1. }
  rewrite byte_at_nth in E by (unfold MARK5B_FRAME_SIZE in *; lia). injection E as ->. by rewrite Z.lor_spec, orb_true_r.
Qed.

End Repaired.

(** ** The whole way *)

(** C11 A source in order, repaired by [mark5bfix] and unpacked, from any multiple of
    the granularity on: every sample of a frame that the source has is decoded from
    the bits of that frame, and every sample of a missing frame is zero. *)
Theorem mark5bfix_unpack dest destSize src fps startN stats start gs nchan nbit decimation d ms Q T data :
  60 <= fps <= 65536 -> MARK5B_FRAME_SIZE <= destSize < 2 ^ 31 -> destSize <= Z.of_nat (length dest) ->
  bytes_ok dest -> bytes_ok src ->
  Forall (fun pf => 0 <= snd pf < fps) (good_frames src) ->
  origin fps startN (good_frames src) = Some (start, gs) -> steady fps (start - 1) gs ->
  let taken := inside start (destSize / MARK5B_FRAME_SIZE) (numbered fps (start - 1) gs) in
  taken <> [] ->
  unpacks nchan nbit decimation d ms -> ms_next ms = mark5_stream_unpacker_next ->
  let R := Z.of_nat (length (d_rows d)) in
  0 <= Q -> sample_room (Z.to_nat nchan) (Z.of_nat T * R) data ->
  exists i dest' stats', mark5bfix dest destSize src (Z.of_nat (length src)) fps startN stats = Some (i, dest', stats') /\
    ((Q + Z.of_nat T) * d_step d decimation / MK5B_PAYLOADSIZE < fs_destUsed stats' / MARK5B_FRAME_SIZE ->
     exists r ms' data', mark5_unpack_with_offset d dest' ms 0 (Q * R) data (Z.of_nat T * R) = Some (r, ms', data') /\
       shape data' = shape data /\
       forall c s, 0 <= c < nchan -> 0 <= s < Z.of_nat T * R ->
         let S := Q * R + s in let m := (S * decimation * nchan + c) * nbit in
         let number := start + m / (8 * MK5B_PAYLOADSIZE) in
         (forall p, (p, number) ∈ taken -> sample_at data' (Z.to_nat c) (Z.to_nat s) =
            Some (frame_level src (p + 16) nbit ((S / R * d_step d decimation) mod MK5B_PAYLOADSIZE) (m mod (8 * MK5B_PAYLOADSIZE)))) /\
         (number ∉ taken.*2 -> sample_at data' (Z.to_nat c) (Z.to_nat s) = Some Zero)).
Proof.
  intros Hfps HdS Hd Hbd Hbs Hr Ho Hst taken Hne Hup Hnext R HQ Hroom.
  destruct (mark5bfix_in_order_rep dest destSize src fps startN stats start gs Hfps HdS Hd Hr Ho Hst Hne)
    as (i & dest' & stats' & E & _ & Hfill & Hused & _).
  fold taken in Hfill, Hused. destruct (mark5bfix_types_rep dest destSize src (Z.of_nat (length src)) fps startN stats i dest' stats' Hbd Hbs ltac:(lia) E) as [[Hl Hb] _].
  exists i, dest', stats'. split; [exact E|]. rewrite Hused, Z.div_mul by done. 
  set (last := if i <=? Z.of_nat (length src) - MARK5B_FRAME_SIZE then start + destSize / MARK5B_FRAME_SIZE - 1 else last_number (start - 1) taken) in *. intros Hend.
  assert (Hlast : (last - start + 1) * MARK5B_FRAME_SIZE <= Z.of_nat (length dest')).
  { destruct (last_number_in (start - 1) taken Hne) as [q Hq]. apply list_elem_of_filter in Hq as [Hq _]. cbn [snd] in Hq.
    pose proof (Z.mul_div_le destSize MARK5B_FRAME_SIZE ltac:(done)). unfold last.
    destruct (Z.leb_spec i (Z.of_nat (length src) - MARK5B_FRAME_SIZE)); unfold MARK5B_FRAME_SIZE in *; lia. }
  pose proof Hup as [(ms0 & cnt & _ & _ & _ & _ & _ & Hnew) Hdec Hdiv].
  pose proof (format_rep nchan nbit decimation Hdec) as Hf. rewrite Hnew in Hf. destruct Hf as (Hhas%has_decoder_pos & Hdc & _).
  apply good_decimation_pos in Hdec.
  assert (Hx : (Q + Z.of_nat T) * d_step d decimation < (last - start + 1) * MK5B_PAYLOADSIZE).
  { revert Hend. generalize ((Q + Z.of_nat T) * d_step d decimation) (last - start + 1). clear. intros x n Hx. pose proof (Z.div_mod x MK5B_PAYLOADSIZE ltac:(done)).
    pose proof (Z.mod_pos_bound x MK5B_PAYLOADSIZE ltac:(done)). unfold MK5B_PAYLOADSIZE in *. lia. }
  destruct (mark5_unpack_rep dest' 0 (last - start + 1) nchan nbit decimation d ms Q T data) as (ms' & data' & E2 & _ & _ & Hs & G);
    [done|done|done|done|by rewrite Hnext|done|done|done|].
  eexists _, ms', data'. split; [exact E2|]. split; [done|]. intros c s Hc Hsr S m number. rewrite G by done.
  assert (Hk : 0 <= m / (8 * MK5B_PAYLOADSIZE) <= last - start).
  { destruct (format_numbers MK5B_PAYLOADSIZE _ _ _ _ _ d Hdc Hdiv eq_refl Hhas Hdec) as (HR & Hst' & M & HM & HP & H8 & _). fold R in HR, H8.
    destruct (sample_bit nchan nbit decimation R (d_step d decimation) (Q + Z.of_nat T) S c) as [Hm1 Hm2]; [by destruct (dc_bits _ _ _ _ _ _ Hdc)|done|done|done|unfold S; lia|done|].
    fold m in Hm1, Hm2. split; [by apply Z.div_pos|]. apply Z.lt_succ_r, Z.div_lt_upper_bound; [done|]. unfold MK5B_PAYLOADSIZE in *. lia. }
  unfold sample_of. fold R S m. rewrite <-Hl in Hfill. split.
  - intros p Hp. f_equal. apply (repaired_good src dest' fps start last taken Hfill); try done; [|by apply Z.mod_pos_bound..].
    intros p' n' Hin. by eapply taken_frame.
  - intros Hp. f_equal. by apply (repaired_lost src dest' fps start last taken Hfill).
Qed.

(** The stream of the example of [mark5bfix_in_order]: frame 60 is missing.  Its first
    sample and the last one of frame 59 before it, in four channels of two bits. *)
Lemma mark5bfix_unpack_witness :
  let dest := replicate (Z.to_nat 40064) 0 in
  exists ms i dest' stats' r ms' data', mark5_example_unpacker 4 2 1 = Some ms /\
    mark5bfix dest 40064 mark5b_example_source 30052 60 (-1) resetmark5bfixstatistics = Some (i, dest', stats') /\
    mark5_unpack_with_offset mark5b_decode_8bitstream_2bit_decimation1 dest' ms 0 9999 (replicate 4 (replicate 2 Zero)) 2 = Some (r, ms', data') /\
    sample_at data' 3 0 = Some MinusHigh /\ sample_at data' 3 1 = Some Zero.
Proof.
  intros dest. assert (Eg : good_frames mark5b_example_source = [(4, 59); (10020, 1); (20036, 5)]) by (vm_compute; reflexivity).
  assert (Hd : Z.of_nat (length dest) = 40064) by (vm_compute; reflexivity).
  assert (Hsrc : Z.of_nat (length mark5b_example_source) = 30052) by (vm_compute; reflexivity).
  assert (Eo : origin 60 (-1) (good_frames mark5b_example_source) = Some (59, [(4, 59); (10020, 1); (20036, 5)])) by (rewrite Eg; reflexivity).
  assert (Hr : Forall (fun pf => 0 <= snd pf < 60) (good_frames mark5b_example_source)).
  { rewrite Eg. repeat apply Forall_cons_2; [cbn [snd]; lia..|apply Forall_nil_2]. }
  assert (Hst : steady 60 (59 - 1) [(4, 59); (10020, 1); (20036, 5)]) by (cbn [steady]; repeat split; vm_compute; congruence).
  assert (Hbd : bytes_ok dest) by (apply bytes_ok_check; vm_compute; reflexivity).
  assert (Hbs : bytes_ok mark5b_example_source) by (apply bytes_ok_check; vm_compute; reflexivity).
  assert (Hu : match mark5bfix dest 40064 mark5b_example_source 30052 60 (-1) resetmark5bfixstatistics with
               | Some (_, _, stats') => fs_destUsed stats' =? 40064 | None => false end = true) by (vm_compute; reflexivity).
  assert (Hlev : frame_level mark5b_example_source 20 2 9999 79998 = MinusHigh) by (vm_compute; reflexivity).
  assert (Ht : inside 59 (40064 / MARK5B_FRAME_SIZE) (numbered 60 (59 - 1) [(4, 59); (10020, 1); (20036, 5)]) = [(4, 59); (10020, 61)])
    by (vm_compute; reflexivity).
  clear Eg. revert Hsrc Eo Hr Hbs Hu Hlev. generalize mark5b_example_source. intros src Hsrc Eo Hr Hbs Hu Hlev. clearbody dest.
  assert (Hi : exists ms, mark5_example_unpacker 4 2 1 = Some ms /\ ms_next ms = mark5_stream_unpacker_next) by (eexists; split; reflexivity).
  destruct Hi as (ms & Hi & Hn). exists ms.
  assert (Hup : unpacks 4 2 1 mark5b_decode_8bitstream_2bit_decimation1 ms).
  { eapply example_unpacks; [exact Hi|reflexivity|left; reflexivity|exists 10000; reflexivity]. }
  destruct (mark5bfix_unpack dest 40064 src 60 (-1) resetmark5bfixstatistics 59 _ 4 2 1 mark5b_decode_8bitstream_2bit_decimation1 ms 9999 2
    (replicate 4 (replicate 2 Zero)) ltac:(lia) ltac:(split; vm_compute; congruence) ltac:(lia) Hbd Hbs Hr Eo Hst ltac:(rewrite Ht; discriminate) Hup Hn
    ltac:(lia) (room_replicate 4 2 2 ltac:(lia))) as (i & dest' & stats' & E & G).
  rewrite Hsrc in E. rewrite E in Hu. apply Z.eqb_eq in Hu. rewrite Hu, Ht in G.
  destruct (G ltac:(vm_compute; reflexivity)) as (r & ms' & data' & E2 & _ & V).
  exists i, dest', stats', r, ms', data'. split; [exact Hi|]. split; [exact E|]. split; [exact E2|].
  destruct (V 3 0 ltac:(lia) ltac:(cbn; lia)) as [V0 _]. destruct (V 3 1 ltac:(lia) ltac:(cbn; lia)) as [_ V1]. split.
  - rewrite <-Hlev. apply (V0 4). left.
  - apply V1. apply (bool_decide_eq_true_1 _). vm_compute. reflexivity.
Defined.
