(* ===== verification/VdifDecode.v ===== *)
(** * VdifDecode: the decoders of VDIF

    [format_vdif.c] of [mark5access], for real samples: 32 decoders of 1, 2, 4 and 8
    bits and 7 counters of high states, the table that picks them, and the
    initialisation of a stream. *)
From S2P Require Export Decoders.
#[local] Open Scope Z_scope.

(** ** [initluts] *)

Definition vdif_lut2level : list state := [MinusOne; One].
Definition vdif_lut4level : list state := [MinusHigh; MinusOne; One; High].
Definition vdif_lut16level : list state := (fun l => Level16 (Z.of_nat l)) <$> seq 0 16.

Definition vdif_lut1bit : list (list state) :=
  (fun b => (fun i => nth (Z.to_nat (Z.land (Z.shiftr (Z.of_nat b) (Z.of_nat i)) 0x01)) vdif_lut2level Zero) <$> seq 0 8) <$> seq 0 256.
Definition vdif_lut2bit : list (list state) :=
  (fun b => (fun i => nth (Z.to_nat (Z.land (Z.shiftr (Z.of_nat b) (2 * Z.of_nat i)) 0x03)) vdif_lut4level Zero) <$> seq 0 4) <$> seq 0 256.
Definition vdif_lut4bit : list (list state) :=
  (fun b => (fun i => nth (Z.to_nat (Z.land (Z.shiftr (Z.of_nat b) (4 * Z.of_nat i)) 0x0F)) vdif_lut16level Zero) <$> seq 0 2) <$> seq 0 256.
Definition vdif_lut8bit : list (list state) := (fun b => [Level256 (Z.of_nat b)]) <$> seq 0 256.
Definition vdif_countlut2bit : list (list Z) := (fun row : list state => (fun v => if is_high v then 1 else 0) <$> row) <$> vdif_lut2bit.

(** The condition for [zeros]. *)
Definition vdif_is_blank (mem : buffer) (ms : mark5_stream) (i : Z) : option bool :=
  endvalid ← ms_blankzoneendvalid ms !! 0%nat;
  Some (endvalid <=? i).

Definition vdif_decoder (lut : list (list state)) (fps : nat) (step skip blank : Z) (rows : list (list (nat * nat * nat))) : decoder :=
  {| d_blanked := vdif_is_blank; d_end := ms_databytes; d_lut := lut; d_fps := fps; d_step := fun _ => step; d_skip := fun _ => skip;
     d_blank := blank; d_rows := rows |}.
Definition vdif_counter (fps : nat) (turn step blank : Z) (adds : list (nat * nat * nat)) : counter :=
  {| c_blanked := vdif_is_blank; c_end := ms_databytes; c_lut := vdif_countlut2bit; c_fps := fps; c_turn := turn; c_step := fun _ => step;
     c_blank := blank; c_adds := adds |}.

(** ** Decoders *)

Definition vdif_decode_1channel_1bit_decimation1 : decoder :=
  vdif_decoder vdif_lut1bit 1 1 1 8
  [[(0, 0, 0)];
   [(0, 0, 1)];
   [(0, 0, 2)];
   [(0, 0, 3)];
   [(0, 0, 4)];
   [(0, 0, 5)];
   [(0, 0, 6)];
   [(0, 0, 7)]]%nat.

Definition vdif_decode_2channel_1bit_decimation1 : decoder :=
  vdif_decoder vdif_lut1bit 1 1 1 4
  [[(0, 0, 0); (1, 0, 1)];
   [(0, 0, 2); (1, 0, 3)];
   [(0, 0, 4); (1, 0, 5)];
   [(0, 0, 6); (1, 0, 7)]]%nat.

Definition vdif_decode_3channel_1bit_decimation1 : decoder :=
  vdif_decoder vdif_lut1bit 1 1 1 2
  [[(0, 0, 0); (1, 0, 1); (2, 0, 2)];
   [(0, 0, 4); (1, 0, 5); (2, 0, 6)]]%nat.

Definition vdif_decode_4channel_1bit_decimation1 : decoder :=
  vdif_decoder vdif_lut1bit 1 1 1 2
  [[(0, 0, 0); (1, 0, 1); (2, 0, 2); (3, 0, 3)];
   [(0, 0, 4); (1, 0, 5); (2, 0, 6); (3, 0, 7)]]%nat.

Definition vdif_decode_5channel_1bit_decimation1 : decoder :=
  vdif_decoder vdif_lut1bit 1 1 1 1
  [[(0, 0, 0); (1, 0, 1); (2, 0, 2); (3, 0, 3); (4, 0, 4)]]%nat.

Definition vdif_decode_6channel_1bit_decimation1 : decoder :=
  vdif_decoder vdif_lut1bit 1 1 1 1
  [[(0, 0, 0); (1, 0, 1); (2, 0, 2); (3, 0, 3); (4, 0, 4); (5, 0, 5)]]%nat.

Definition vdif_decode_7channel_1bit_decimation1 : decoder :=
  vdif_decoder vdif_lut1bit 1 1 1 1
  [[(0, 0, 0); (1, 0, 1); (2, 0, 2); (3, 0, 3); (4, 0, 4); (5, 0, 5); (6, 0, 6)]]%nat.

Definition vdif_decode_8channel_1bit_decimation1 : decoder :=
  vdif_decoder vdif_lut1bit 1 1 1 1
  [[(0, 0, 0); (1, 0, 1); (2, 0, 2); (3, 0, 3); (4, 0, 4); (5, 0, 5); (6, 0, 6); (7, 0, 7)]]%nat.

Definition vdif_decode_16channel_1bit_decimation1 : decoder :=
  vdif_decoder vdif_lut1bit 2 2 2 1
  [[(0, 0, 0); (1, 0, 1); (2, 0, 2); (3, 0, 3); (4, 0, 4); (5, 0, 5); (6, 0, 6); (7, 0, 7); (8, 1, 0);
    (9, 1, 1); (10, 1, 2); (11, 1, 3); (12, 1, 4); (13, 1, 5); (14, 1, 6); (15, 1, 7)]]%nat.

Definition vdif_decode_32channel_1bit_decimation1 : decoder :=
  vdif_decoder vdif_lut1bit 4 4 4 1
  [[(0, 0, 0); (1, 0, 1); (2, 0, 2); (3, 0, 3); (4, 0, 4); (5, 0, 5); (6, 0, 6); (7, 0, 7); (8, 1, 0);
    (9, 1, 1); (10, 1, 2); (11, 1, 3); (12, 1, 4); (13, 1, 5); (14, 1, 6); (15, 1, 7); (16, 2, 0);
    (17, 2, 1); (18, 2, 2); (19, 2, 3); (20, 2, 4); (21, 2, 5); (22, 2, 6); (23, 2, 7); (24, 3, 0);
    (25, 3, 1); (26, 3, 2); (27, 3, 3); (28, 3, 4); (29, 3, 5); (30, 3, 6); (31, 3, 7)]]%nat.

Definition vdif_decode_1channel_2bit_decimation1 : decoder :=
  vdif_decoder vdif_lut2bit 1 1 1 4
  [[(0, 0, 0)];
   [(0, 0, 1)];
   [(0, 0, 2)];
   [(0, 0, 3)]]%nat.

Definition vdif_decode_2channel_2bit_decimation1 : decoder :=
  vdif_decoder vdif_lut2bit 1 1 1 2
  [[(0, 0, 0); (1, 0, 1)];
   [(0, 0, 2); (1, 0, 3)]]%nat.

Definition vdif_decode_3channel_2bit_decimation1 : decoder :=
  vdif_decoder vdif_lut2bit 1 1 1 1
  [[(0, 0, 0); (1, 0, 1); (2, 0, 2)]]%nat.

Definition vdif_decode_4channel_2bit_decimation1 : decoder :=
  vdif_decoder vdif_lut2bit 1 1 1 1
  [[(0, 0, 0); (1, 0, 1); (2, 0, 2); (3, 0, 3)]]%nat.

Definition vdif_decode_5channel_2bit_decimation1 : decoder :=
  vdif_decoder vdif_lut2bit 2 2 2 1
  [[(0, 0, 0); (1, 0, 1); (2, 0, 2); (3, 0, 3); (4, 1, 0)]]%nat.

Definition vdif_decode_6channel_2bit_decimation1 : decoder :=
  vdif_decoder vdif_lut2bit 2 2 2 1
  [[(0, 0, 0); (1, 0, 1); (2, 0, 2); (3, 0, 3); (4, 1, 0); (5, 1, 1)]]%nat.

Definition vdif_decode_7channel_2bit_decimation1 : decoder :=
  vdif_decoder vdif_lut2bit 2 2 2 1
  [[(0, 0, 0); (1, 0, 1); (2, 0, 2); (3, 0, 3); (4, 1, 0); (5, 1, 1); (6, 1, 2)]]%nat.

Definition vdif_decode_8channel_2bit_decimation1 : decoder :=
  vdif_decoder vdif_lut2bit 2 2 2 1
  [[(0, 0, 0); (1, 0, 1); (2, 0, 2); (3, 0, 3); (4, 1, 0); (5, 1, 1); (6, 1, 2); (7, 1, 3)]]%nat.

Definition vdif_decode_16channel_2bit_decimation1 : decoder :=
  vdif_decoder vdif_lut2bit 4 4 4 1
  [[(0, 0, 0); (1, 0, 1); (2, 0, 2); (3, 0, 3); (4, 1, 0); (5, 1, 1); (6, 1, 2); (7, 1, 3); (8, 2, 0);
    (9, 2, 1); (10, 2, 2); (11, 2, 3); (12, 3, 0); (13, 3, 1); (14, 3, 2); (15, 3, 3)]]%nat.

Definition vdif_decode_32channel_2bit_decimation1 : decoder :=
  vdif_decoder vdif_lut2bit 8 8 8 1
  [[(0, 0, 0); (1, 0, 1); (2, 0, 2); (3, 0, 3); (4, 1, 0); (5, 1, 1); (6, 1, 2); (7, 1, 3); (8, 2, 0);
    (9, 2, 1); (10, 2, 2); (11, 2, 3); (12, 3, 0); (13, 3, 1); (14, 3, 2); (15, 3, 3); (16, 4, 0);
    (17, 4, 1); (18, 4, 2); (19, 4, 3); (20, 5, 0); (21, 5, 1); (22, 5, 2); (23, 5, 3); (24, 6, 0);
    (25, 6, 1); (26, 6, 2); (27, 6, 3); (28, 7, 0); (29, 7, 1); (30, 7, 2); (31, 7, 3)]]%nat.

Definition vdif_decode_64channel_2bit_decimation1 : decoder :=
  vdif_decoder vdif_lut2bit 16 16 16 1
  [[(0, 0, 0); (1, 0, 1); (2, 0, 2); (3, 0, 3); (4, 1, 0); (5, 1, 1); (6, 1, 2); (7, 1, 3); (8, 2, 0);
    (9, 2, 1); (10, 2, 2); (11, 2, 3); (12, 3, 0); (13, 3, 1); (14, 3, 2); (15, 3, 3); (16, 4, 0);
    (17, 4, 1); (18, 4, 2); (19, 4, 3); (20, 5, 0); (21, 5, 1); (22, 5, 2); (23, 5, 3); (24, 6, 0);
    (25, 6, 1); (26, 6, 2); (27, 6, 3); (28, 7, 0); (29, 7, 1); (30, 7, 2); (31, 7, 3); (32, 8, 0);
    (33, 8, 1); (34, 8, 2); (35, 8, 3); (36, 9, 0); (37, 9, 1); (38, 9, 2); (39, 9, 3); (40, 10, 0);
    (41, 10, 1); (42, 10, 2); (43, 10, 3); (44, 11, 0); (45, 11, 1); (46, 11, 2); (47, 11, 3); (48, 12, 0);
    (49, 12, 1); (50, 12, 2); (51, 12, 3); (52, 13, 0); (53, 13, 1); (54, 13, 2); (55, 13, 3); (56, 14, 0);
    (57, 14, 1); (58, 14, 2); (59, 14, 3); (60, 15, 0); (61, 15, 1); (62, 15, 2); (63, 15, 3)]]%nat.

Definition vdif_decode_1channel_4bit_decimation1 : decoder :=
  vdif_decoder vdif_lut4bit 1 1 1 2
  [[(0, 0, 0)];
   [(0, 0, 1)]]%nat.

Definition vdif_decode_2channel_4bit_decimation1 : decoder :=
  vdif_decoder vdif_lut4bit 1 1 1 1
  [[(0, 0, 0); (1, 0, 1)]]%nat.

Definition vdif_decode_3channel_4bit_decimation1 : decoder :=
  vdif_decoder vdif_lut4bit 2 2 2 1
  [[(0, 0, 0); (1, 0, 1); (2, 1, 0)]]%nat.

Definition vdif_decode_4channel_4bit_decimation1 : decoder :=
  vdif_decoder vdif_lut4bit 2 2 2 1
  [[(0, 0, 0); (1, 0, 1); (2, 1, 0); (3, 1, 1)]]%nat.

Definition vdif_decode_5channel_4bit_decimation1 : decoder :=
  vdif_decoder vdif_lut4bit 4 4 4 1
  [[(0, 0, 0); (1, 0, 1); (2, 1, 0); (3, 1, 1); (4, 2, 0)]]%nat.

Definition vdif_decode_6channel_4bit_decimation1 : decoder :=
  vdif_decoder vdif_lut4bit 4 4 4 1
  [[(0, 0, 0); (1, 0, 1); (2, 1, 0); (3, 1, 1); (4, 2, 0); (5, 2, 1)]]%nat.

Definition vdif_decode_7channel_4bit_decimation1 : decoder :=
  vdif_decoder vdif_lut4bit 4 4 4 1
  [[(0, 0, 0); (1, 0, 1); (2, 1, 0); (3, 1, 1); (4, 2, 0); (5, 2, 1); (6, 3, 0)]]%nat.

Definition vdif_decode_8channel_4bit_decimation1 : decoder :=
  vdif_decoder vdif_lut4bit 4 4 4 1
  [[(0, 0, 0); (1, 0, 1); (2, 1, 0); (3, 1, 1); (4, 2, 0); (5, 2, 1); (6, 3, 0); (7, 3, 1)]]%nat.

Definition vdif_decode_1channel_8bit_decimation1 : decoder :=
  vdif_decoder vdif_lut8bit 1 1 1 1
  [[(0, 0, 0)]]%nat.

Definition vdif_decode_2channel_8bit_decimation1 : decoder :=
  vdif_decoder vdif_lut8bit 2 2 0 1
  [[(0, 0, 0); (1, 1, 0)]]%nat.

Definition vdif_decode_3channel_8bit_decimation1 : decoder :=
  vdif_decoder vdif_lut8bit 4 4 0 1
  [[(0, 0, 0); (1, 1, 0); (2, 2, 0)]]%nat.

Definition vdif_decode_4channel_8bit_decimation1 : decoder :=
  vdif_decoder vdif_lut8bit 4 4 0 1
  [[(0, 0, 0); (1, 1, 0); (2, 2, 0); (3, 3, 0)]]%nat.

(** ** Counters *)

Definition vdif_count_1channel_2bit_decimation1 : counter :=
  vdif_counter 1 4 1 4
  [(0, 0, 0); (0, 0, 1); (0, 0, 2); (0, 0, 3)]%nat.

Definition vdif_count_2channel_2bit_decimation1 : counter :=
  vdif_counter 1 2 1 2
  [(0, 0, 0); (1, 0, 1); (0, 0, 2); (1, 0, 3)]%nat.

Definition vdif_count_4channel_2bit_decimation1 : counter :=
  vdif_counter 1 1 1 1
  [(0, 0, 0); (1, 0, 1); (2, 0, 2); (3, 0, 3)]%nat.

Definition vdif_count_8channel_2bit_decimation1 : counter :=
  vdif_counter 2 1 2 1
  [(0, 0, 0); (1, 0, 1); (2, 0, 2); (3, 0, 3); (4, 1, 0); (5, 1, 1); (6, 1, 2); (7, 1, 3)]%nat.

Definition vdif_count_16channel_2bit_decimation1 : counter :=
  vdif_counter 4 1 4 1
  [(0, 0, 0); (1, 0, 1); (2, 0, 2); (3, 0, 3); (4, 1, 0); (5, 1, 1); (6, 1, 2); (7, 1, 3); (8, 2, 0);
    (9, 2, 1); (10, 2, 2); (11, 2, 3); (12, 3, 0); (13, 3, 1); (14, 3, 2); (15, 3, 3)]%nat.

Definition vdif_count_32channel_2bit_decimation1 : counter :=
  vdif_counter 8 1 8 1
  [(0, 0, 0); (1, 0, 1); (2, 0, 2); (3, 0, 3); (4, 1, 0); (5, 1, 1); (6, 1, 2); (7, 1, 3); (8, 2, 0);
    (9, 2, 1); (10, 2, 2); (11, 2, 3); (12, 3, 0); (13, 3, 1); (14, 3, 2); (15, 3, 3); (16, 4, 0);
    (17, 4, 1); (18, 4, 2); (19, 4, 3); (20, 5, 0); (21, 5, 1); (22, 5, 2); (23, 5, 3); (24, 6, 0);
    (25, 6, 1); (26, 6, 2); (27, 6, 3); (28, 7, 0); (29, 7, 1); (30, 7, 2); (31, 7, 3)]%nat.

Definition vdif_count_64channel_2bit_decimation1 : counter :=
  vdif_counter 16 1 16 1
  [(0, 0, 0); (1, 0, 1); (2, 0, 2); (3, 0, 3); (4, 1, 0); (5, 1, 1); (6, 1, 2); (7, 1, 3); (8, 2, 0);
    (9, 2, 1); (10, 2, 2); (11, 2, 3); (12, 3, 0); (13, 3, 1); (14, 3, 2); (15, 3, 3); (16, 4, 0);
    (17, 4, 1); (18, 4, 2); (19, 4, 3); (20, 5, 0); (21, 5, 1); (22, 5, 2); (23, 5, 3); (24, 6, 0);
    (25, 6, 1); (26, 6, 2); (27, 6, 3); (28, 7, 0); (29, 7, 1); (30, 7, 2); (31, 7, 3); (32, 8, 0);
    (33, 8, 1); (34, 8, 2); (35, 8, 3); (36, 9, 0); (37, 9, 1); (38, 9, 2); (39, 9, 3); (40, 10, 0);
    (41, 10, 1); (42, 10, 2); (43, 10, 3); (44, 11, 0); (45, 11, 1); (46, 11, 2); (47, 11, 3); (48, 12, 0);
    (49, 12, 1); (50, 12, 2); (51, 12, 3); (52, 13, 0); (53, 13, 1); (54, 13, 2); (55, 13, 3); (56, 14, 0);
    (57, 14, 1); (58, 14, 2); (59, 14, 3); (60, 15, 0); (61, 15, 1); (62, 15, 2); (63, 15, 3)]%nat.

(** ** The table *)

(** What a format gets; the decoder for [float] data is not modelled. *)
Inductive decode_function : Type :=
  | float_decoder (d : decoder) (c : option counter)
  | vdif_decode_1channel_32bit_decimation1.

(** [switch(decoderindex)] *)
Definition vdif_decoders (index : Z) : option decode_function :=
  match index with
  | 1 => Some (float_decoder vdif_decode_1channel_1bit_decimation1 None)
  | 2 => Some (float_decoder vdif_decode_2channel_1bit_decimation1 None)
  | 3 => Some (float_decoder vdif_decode_3channel_1bit_decimation1 None)
  | 4 => Some (float_decoder vdif_decode_4channel_1bit_decimation1 None)
  | 5 => Some (float_decoder vdif_decode_5channel_1bit_decimation1 None)
  | 6 => Some (float_decoder vdif_decode_6channel_1bit_decimation1 None)
  | 7 => Some (float_decoder vdif_decode_7channel_1bit_decimation1 None)
  | 8 => Some (float_decoder vdif_decode_8channel_1bit_decimation1 None)
  | 16 => Some (float_decoder vdif_decode_16channel_1bit_decimation1 None)
  | 32 => Some (float_decoder vdif_decode_32channel_1bit_decimation1 None)
  | 1001 => Some (float_decoder vdif_decode_1channel_2bit_decimation1 (Some vdif_count_1channel_2bit_decimation1))
  | 1002 => Some (float_decoder vdif_decode_2channel_2bit_decimation1 (Some vdif_count_2channel_2bit_decimation1))
  | 1003 => Some (float_decoder vdif_decode_3channel_2bit_decimation1 None)
  | 1004 => Some (float_decoder vdif_decode_4channel_2bit_decimation1 (Some vdif_count_4channel_2bit_decimation1))
  | 1005 => Some (float_decoder vdif_decode_5channel_2bit_decimation1 None)
  | 1006 => Some (float_decoder vdif_decode_6channel_2bit_decimation1 None)
  | 1007 => Some (float_decoder vdif_decode_7channel_2bit_decimation1 None)
  | 1008 => Some (float_decoder vdif_decode_8channel_2bit_decimation1 (Some vdif_count_8channel_2bit_decimation1))
  | 1016 => Some (float_decoder vdif_decode_16channel_2bit_decimation1 (Some vdif_count_16channel_2bit_decimation1))
  | 1032 => Some (float_decoder vdif_decode_32channel_2bit_decimation1 (Some vdif_count_32channel_2bit_decimation1))
  | 1064 => Some (float_decoder vdif_decode_64channel_2bit_decimation1 (Some vdif_count_64channel_2bit_decimation1))
  | 2001 => Some (float_decoder vdif_decode_1channel_4bit_decimation1 None)
  | 2002 => Some (float_decoder vdif_decode_2channel_4bit_decimation1 None)
  | 2003 => Some (float_decoder vdif_decode_3channel_4bit_decimation1 None)
  | 2004 => Some (float_decoder vdif_decode_4channel_4bit_decimation1 None)
  | 2005 => Some (float_decoder vdif_decode_5channel_4bit_decimation1 None)
  | 2006 => Some (float_decoder vdif_decode_6channel_4bit_decimation1 None)
  | 2007 => Some (float_decoder vdif_decode_7channel_4bit_decimation1 None)
  | 2008 => Some (float_decoder vdif_decode_8channel_4bit_decimation1 None)
  | 3001 => Some (float_decoder vdif_decode_1channel_8bit_decimation1 None)
  | 3002 => Some (float_decoder vdif_decode_2channel_8bit_decimation1 None)
  | 3003 => Some (float_decoder vdif_decode_3channel_8bit_decimation1 None)
  | 3004 => Some (float_decoder vdif_decode_4channel_8bit_decimation1 None)
  | 5001 => Some vdif_decode_1channel_32bit_decimation1
  | _ => None
  end.

(** [new_mark5_format_generalized_vdif] for samples that are not complex. *)
Definition new_mark5_format_generalized_vdif (nchan nbit decimation : Z) : option decode_function :=
  if negb (decimation =? 1) then None else
  index ← (if nbit =? 1 then Some 0 else if nbit =? 2 then Some 1000 else if nbit =? 4 then Some 2000 else if nbit =? 8 then Some 3000
           else if nbit =? 16 then Some 4000 else if nbit =? 32 then Some 5000 else None);
  if (nchan <? 1) || (512 <? nchan) then None else vdif_decoders (index + nchan).

(** ** Initialisation *)

(** [mark5_format_vdif]: the bytes of a frame. *)
Record mark5_format_vdif : Type := {
  mv_databytesperpacket : Z;
  mv_frameheadersize : Z }.

(** [mark5_format_vdif_init] for a stream without a data window and real samples, as
    an unpacker is; the names, data rate and times are left out. *)
Definition mark5_format_vdif_init (f : mark5_format_vdif) (framesperperiod alignmentseconds : Z) (ms : mark5_stream) : option (Z * mark5_stream) :=
  let bitspersample := ms_nbit ms in
  if ms_nchan ms * bitspersample * ms_decimation ms =? 0 then None else
  let granularity := cdiv 8 (ms_nchan ms * bitspersample * ms_decimation ms) in
  let ms := {| ms_nchan := ms_nchan ms; ms_nbit := ms_nbit ms; ms_decimation := ms_decimation ms;
          ms_framebytes := mv_databytesperpacket f + mv_frameheadersize f;
          ms_databytes := mv_databytesperpacket f; ms_framesamples := cdiv (mv_databytesperpacket f * 8) (ms_nchan ms * bitspersample * ms_decimation ms);
          ms_samplegranularity := if granularity <=? 0 then 1 else granularity; ms_payloadoffset := mv_frameheadersize f;
          ms_framenum := ms_framenum ms; ms_nvalidatefail := ms_nvalidatefail ms; ms_nvalidatepass := ms_nvalidatepass ms;
          ms_consecutivefails := ms_consecutivefails ms; ms_frame := ms_frame ms;
          ms_payload := ms_payload ms; ms_readposition := ms_readposition ms;
          ms_log2blankzonesize := ms_log2blankzonesize ms; ms_blankzonestartvalid := ms_blankzonestartvalid ms;
          ms_blankzoneendvalid := ms_blankzoneendvalid ms; ms_next := ms_next ms; ms_validate := mark5_format_vdif_validate;
          ms_blanker := call_blanker_vdif |} in
  if negb ((0 <? framesperperiod) && (0 <? alignmentseconds)) then Some (-1, ms) else
  if negb ((mv_frameheadersize f =? 32) || (mv_frameheadersize f =? 16)) then Some (-1, ms) else
  Some (0, ms).
