(* ===== verification/VdifFrames.v ===== *)
(** * VdifFrames: frames of VDIF as a stream for the decoders

    The level of a sample, read from its bits.  An unpacker or a stream in memory that
    goes over frames of VDIF of one size is a [FrameStream]: a frame is decoded, or
    blanked as a whole. *)
From S2P Require Export DecodersSpec VdifDecode.
#[local] Open Scope Z_scope.

(** ** Levels *)

(** The level of the value [v] of a sample of [nbit] bits: offset binary. *)
Definition vdif_value (nbit v : Z) : state :=
  if nbit =? 1 then nth (Z.to_nat v) [MinusOne; One] Zero
  else if nbit =? 2 then nth (Z.to_nat v) [MinusHigh; MinusOne; One; High] Zero
  else if nbit =? 4 then Level16 v
  else Level256 v.

(** The sample of [nbit] bits at bit [off] of the byte [b]. *)
Definition vdif_level (nbit b off : Z) : state := vdif_value nbit ((b / 2 ^ off) mod 2 ^ nbit).

Definition vdif_lut (nbit : Z) : list (list state) :=
  if nbit =? 1 then vdif_lut1bit else if nbit =? 2 then vdif_lut2bit else if nbit =? 4 then vdif_lut4bit else vdif_lut8bit.

Definition vdif_bits (nbit : Z) : Prop := nbit = 1 \/ nbit = 2 \/ nbit = 4 \/ nbit = 8.

(** [initluts]: all entries of the four tables. *)
Lemma vdif_luts_levels : forallb (fun nbit => lut_check nbit (vdif_level nbit) (vdif_lut nbit)) [1; 2; 4; 8] = true.
Proof. by vm_compute. Qed.

Lemma vdif_lut_level nbit : vdif_bits nbit -> forall b e, 0 <= b < 256 -> nbit * Z.of_nat e < 8 ->
  vdif_lut nbit !! Z.to_nat b ≫= (.!! e) = Some (vdif_level nbit b (nbit * Z.of_nat e)).
Proof.
  intros Hb. pose proof (proj1 (List.forallb_forall _ _) vdif_luts_levels nbit) as H.
  apply lut_by_check; [unfold vdif_bits in Hb; lia|]. apply H. cbn. unfold vdif_bits in Hb. lia.
Qed.

(** ** A stream of frames *)

(** A frame at [off] with a header of [hs] and data of [P] bytes is bad when its size
    is 0, when it is marked as invalid or when its data begin or end with fill
    pattern. *)
Definition vdif_frame_bad (mem : buffer) (hs P off : Z) : bool :=
  match data32 mem off 2, data32 mem off 0, data64 mem (off + hs) 0, data64 mem (off + hs) (cdiv P 8 - 1) with
  | Some word2, Some word0, Some first, Some last =>
      (word2 =? 0) || Z.testbit word0 31 || (first =? MARK5_FILL_WORD64) || (last =? MARK5_FILL_WORD64)
  | _, _, _, _ => true
  end.

Lemma data32_read mem off i : 0 <= off + 4 * i -> off + 4 * i + 4 <= Z.of_nat (length mem) ->
  data32 mem off i = Some (le_combine (slice mem (Z.to_nat (off + 4 * i)) 4)).
Proof. intros H1 H2. unfold data32. by rewrite bytes_at_Some by lia. Qed.

Lemma data64_read mem off i : 0 <= off + 8 * i -> off + 8 * i + 8 <= Z.of_nat (length mem) ->
  data64 mem off i = Some (le_combine (slice mem (Z.to_nat (off + 8 * i)) 8)).
Proof. intros H1 H2. unfold data64. by rewrite bytes_at_Some by lia. Qed.

Lemma bit31 w : (Z.land (Z.shiftr w 31) 1 =? 0) = negb (Z.testbit w 31).
Proof. rewrite Z.land_ones with (n := 1) by lia. change (2 ^ 1) with 2. rewrite <-Z.bit0_mod, Z.shiftr_spec by lia. change (0 + 31) with 31. by destruct (Z.testbit w 31). Qed.

Section Frames.
Context (mem : buffer) (hs P base n : Z).
Hypothesis Hmem : bytes_ok mem.
Hypothesis Hbase : 0 <= base.
Hypothesis Hheader : 16 <= hs.
Hypothesis Hdata : 0 < P <= 2 ^ 30.
Hypothesis Hwords : (8 | P).
Hypothesis Hframes : base + n * (hs + P) <= Z.of_nat (length mem).

(** [n] frames from [base] on can be had from the stream. *)
Definition vdif_can_next (next : next_function) : Prop :=
  match next with
  | mark5_stream_unpacker_next => True
  | mark5_stream_unpacker_next_noheaders => False
  | mark5_stream_memory_next end_ => base + n * (hs + P) <= end_
  end.

Record vdif_stream (ms : mark5_stream) : Prop := {
  vs_decimation : ms_decimation ms = 1;
  vs_framebytes : ms_framebytes ms = hs + P;
  vs_databytes : ms_databytes ms = P;
  vs_payloadoffset : ms_payloadoffset ms = hs;
  vs_validate : ms_validate ms = mark5_format_vdif_validate;
  vs_blanker : ms_blanker ms = call_blanker_vdif;
  vs_next : vdif_can_next (ms_next ms);
  vs_zones : zones_ok ms }.

Definition vdif_offset (k : Z) : Z := base + k * (hs + P).
Definition vdif_payload (k : Z) : Z := vdif_offset k + hs.
Definition vdif_bad (k : Z) : bool := vdif_frame_bad mem hs P (vdif_offset k).
Definition vdif_blank (k i : Z) : bool := vdif_bad k.

Record at_vdif_frame (k : Z) (ms : mark5_stream) : Prop := {
  av_stream : vdif_stream ms;
  av_frame : ms_frame ms = Some (vdif_offset k);
  av_payload : ms_payload ms = Some (vdif_payload k);
  av_end : ms_blankzoneendvalid ms !! 0%nat = Some (if vdif_bad k then 0 else 2 ^ 30) }.

Lemma vdif_inside k : 0 <= k < n -> 0 <= vdif_offset k /\ vdif_offset k + hs + P <= Z.of_nat (length mem).
Proof using Hbase Hheader Hdata Hframes. intros Hk. unfold vdif_offset. nia. Qed.

(** What makes a frame bad, word by word. *)
Lemma vdif_words k : 0 <= k < n -> exists word2 word0 first last,
  data32 mem (vdif_offset k) 2 = Some word2 /\ data32 mem (vdif_offset k) 0 = Some word0 /\
  data64 mem (vdif_payload k) 0 = Some first /\ data64 mem (vdif_payload k) (cdiv P 8 - 1) = Some last /\
  vdif_bad k = (word2 =? 0) || Z.testbit word0 31 || (first =? MARK5_FILL_WORD64) || (last =? MARK5_FILL_WORD64).
Proof using Hbase Hheader Hdata Hwords Hframes.
  intros Hk. destruct (vdif_inside k Hk) as [H1 H2]. destruct Hwords as [w Hw].
  assert (Ew : cdiv P 8 = w) by (rewrite Z.quot_div_nonneg, Hw, Z.div_mul by lia; done).
  unfold vdif_bad, vdif_frame_bad. fold (vdif_payload k). rewrite Ew.
  rewrite !data32_read by lia. rewrite !data64_read by (unfold vdif_payload; lia). by eexists _, _, _, _.
Qed.

Lemma vdif_next_frame_at k ms f : vdif_stream ms -> ms_frame ms = Some f -> f + (hs + P) = vdif_offset k -> 0 <= k < n ->
  exists ms', mark5_stream_next_frame mem ms = Some (0, ms') /\ at_vdif_frame k ms' /\
    ms_nchan ms' = ms_nchan ms /\ ms_nbit ms' = ms_nbit ms /\ ms_framesamples ms' = ms_framesamples ms.
Proof using Hbase Hheader Hdata Hwords Hframes.
  intros [F1 F2 F3 F4 Fv F5 F6 [Z1 Z2]] Hf Hfk Hk. unfold mark5_stream_next_frame.
  assert (En : exists m p, 0 <= m /\ call_next ms = Some (m, ms_move ms (ms_framenum ms + 1) (Some (vdif_offset k)) p 0)).
  { unfold call_next. rewrite Hf, F2. unfold vdif_can_next in F6. destruct (ms_next ms) as [| |end_]; [|done|].
    - cbn [fmap option_fmap option_map]. rewrite Hfk. by eexists 0, _.
    - cbn [mbind option_bind]. rewrite Hfk. destruct (Z.ltb_spec end_ (vdif_offset k + (hs + P))); [unfold vdif_offset in *; nia|].
      eexists (hs + P), _. by split; [lia|]. }
  destruct En as (m & p & Hm & ->). cbn [mbind option_bind]. destruct (Z.ltb_spec m 0); [lia|].
  change (ms_frame (ms_move _ _ _ _ _)) with (Some (vdif_offset k)). cbn iota beta. unfold call_validate.
  change (ms_validate (ms_move _ _ _ _ _)) with (ms_validate ms). rewrite Fv.
  change (ms_payloadoffset (ms_move _ _ _ _ _)) with (ms_payloadoffset ms). rewrite F4. fold (vdif_payload k).
  destruct (vdif_words k Hk) as (word2 & word0 & first & last & -> & -> & E1 & E2 & Eb). cbn [mbind option_bind]. rewrite bit31.
  assert (Ev : exists v, (if word2 =? 0 then Some false else Some (negb (Z.testbit word0 31))) = Some v /\ v = negb ((word2 =? 0) || Z.testbit word0 31))
    by (destruct (word2 =? 0); by eexists).
  destruct Ev as (v & -> & Ev). cbn [mbind option_bind]. destruct v.
  - unfold call_blanker. match goal with |- context[blanker_vdif mem ?x] => set (ms2 := x) end.
    change (ms_blanker ms2) with (ms_blanker ms). rewrite F5. unfold blanker_vdif.
    change (ms_payload ms2) with (Some (vdif_payload k)). cbn iota. change (ms_databytes ms2) with (ms_databytes ms). rewrite F3, E1, E2.
    change (ms_blankzonestartvalid ms2) with (ms_blankzonestartvalid ms). change (ms_blankzoneendvalid ms2) with (ms_blankzoneendvalid ms).
    unfold set_zone. rewrite decide_True by done. cbn [mbind option_bind].
    symmetry in Ev. apply negb_true_iff in Ev. rewrite Ev in Eb. cbn [orb] in Eb.
    assert (Ef : exists fill, (if first =? MARK5_FILL_WORD64 then Some true else Some (last =? MARK5_FILL_WORD64)) = Some fill /\ fill = vdif_bad k)
      by (rewrite Eb; destruct (first =? MARK5_FILL_WORD64); by eexists).
    destruct Ef as (fill & -> & ->). cbn [mbind option_bind]. rewrite decide_True by done. cbn [mbind option_bind].
    eexists. split; [reflexivity|]. split; [|done]. split; [split|..]; cbn; try done.
    + unfold zones_ok. cbn. by rewrite !length_insert.
    + by apply list_lookup_insert_eq.
  - eexists. split; [reflexivity|]. split; [|done]. symmetry in Ev. apply negb_false_iff in Ev. rewrite Ev in Eb. cbn [orb] in Eb.
    split; [split|..]; rewrite ?Eb; cbn; try done; try (unfold zones_ok; cbn; lia).
Qed.

#[export] Instance vdif_frames : FrameStream mem 1 n P vdif_payload vdif_blank at_vdif_frame vdif_is_blank ms_databytes.
Proof using Hmem Hbase Hheader Hdata Hwords Hframes.
  split.
  - done.
  - lia.
  - intros k Hk. destruct (vdif_inside k Hk). unfold vdif_payload. lia.
  - by intros k ms [[]].
  - by intros k ms [].
  - intros k ms i [_ _ _ He] Hk Hi. unfold vdif_is_blank, vdif_blank. rewrite He. cbn [mbind option_bind]. f_equal.
    destruct (vdif_bad k); [apply Z.leb_le; lia|apply Z.leb_gt; lia].
  - by intros k ms [[]].
  - intros k ms [H1 H2 _ _] Hk Hn. destruct (vdif_next_frame_at (k + 1) ms (vdif_offset k)) as (ms' & E & Hat & _); [done|done| |lia|by exists ms'].
    unfold vdif_offset. lia.
  - intros k ms p [[] H2 H3 H4]. by split; [split|..].
Qed.

End Frames.
