(* ===== verification/VdifDecodeTheorems.v ===== *)
(** * VdifDecodeTheorems: the decoders of VDIF are right

    The decoder that a format gets; what unpacking gives for every sample; the frame
    that decoders of several channels of 8 bits do not leave. *)
From S2P Require Export VdifFrames CountersSpec CornerSpec.
#[local] Open Scope Z_scope.

(** ** The table of decoders *)

(** The samples of a time take a power of two of channels. *)
Definition vdif_stride (nchan : Z) : Z := Z.of_nat (CornerSpec.nchan (Z.to_nat nchan)).

Definition vdif_channels (nbit : Z) : list Z :=
  if nbit =? 1 then [1; 2; 3; 4; 5; 6; 7; 8; 16; 32]
  else if nbit =? 2 then [1; 2; 3; 4; 5; 6; 7; 8; 16; 32; 64]
  else if nbit =? 4 then [1; 2; 3; 4; 5; 6; 7; 8]
  else [1; 2; 3; 4].

(** It goes over VDIF, and moves on in blanked data except for several channels of 8
    bits. *)
Definition vdif_loop (nchan nbit : Z) (d : decoder) : Prop :=
  d_blanked d = vdif_is_blank /\ d_end d = ms_databytes /\ d_skip d 1 = (if (nbit =? 8) && negb (nchan =? 1) then 0 else d_step d 1).

(** The counter of a format of two bits with a power of two of channels takes a turn
    for as many samples as the decoder does. *)
Definition vdif_counter_result (nchan nbit : Z) (d : decoder) (c : option counter) : Prop :=
  match c with
  | Some c => nbit = 2 /\ vdif_stride nchan = nchan /\ counts d c /\ c_turn c = Z.of_nat (length (d_rows d))
  | None => nbit <> 2 \/ vdif_stride nchan <> nchan
  end.

Definition vdif_result (nchan nbit decimation : Z) (r : option decode_function) : Prop :=
  match r with
  | Some (float_decoder d c) => decimation = 1 /\ vdif_bits nbit /\ nchan ∈ vdif_channels nbit /\
      decodes (Z.to_nat nchan) (vdif_stride nchan) nbit 1 (vdif_level nbit) d /\ vdif_loop nchan nbit d /\
      d_blank d = Z.of_nat (length (d_rows d)) /\ vdif_counter_result nchan nbit d c
  | Some vdif_decode_1channel_32bit_decimation1 => decimation = 1 /\ nbit = 32 /\ nchan = 1
  | None => ~ (decimation = 1 /\ (vdif_bits nbit /\ nchan ∈ vdif_channels nbit \/ nbit = 32 /\ nchan = 1))
  end.

(** A decoder is the right one if its rows are. *)
Lemma vdif_result_decodes nchan nbit d c : vdif_bits nbit -> bool_decide (nchan ∈ vdif_channels nbit) = true ->
  d_lut d = vdif_lut nbit -> rows_check (Z.to_nat nchan) (vdif_stride nchan) nbit 1 d = true ->
  8 * d_step d 1 = Z.of_nat (length (d_rows d)) * 1 * vdif_stride nchan * nbit ->
  ((0 < length (d_rows d))%nat /\ 0 < Z.of_nat (d_fps d) <= d_step d 1 /\ Z.of_nat (Z.to_nat nchan) <= vdif_stride nchan) -> vdif_loop nchan nbit d ->
  d_blank d = Z.of_nat (length (d_rows d)) -> vdif_counter_result nchan nbit d c ->
  vdif_result nchan nbit 1 (Some (float_decoder d c)).
Proof.
  intros Hb Hn%bool_decide_eq_true_1 Hl Hr Hs (H1 & H2 & H3) Hloop Hblank Hc. split; [done|]. split; [done|]. split; [done|]. split; [|done].
  apply (decodes_by_check _ _ _ _ _ _ 1); try done; [unfold vdif_bits in Hb; lia| |by left].
  rewrite Hl. by apply vdif_lut_level.
Qed.

(** Every other number of channels has none. *)
Definition vdif_table : list (Z * list Z) :=
  [(0, vdif_channels 1); (1000, vdif_channels 2); (2000, vdif_channels 4); (3000, vdif_channels 8); (4000, []); (5000, [1])].

Lemma vdif_no_decoder index channels : (index, channels) ∈ vdif_table -> forall nchan, 1 <= nchan <= 512 ->
  nchan ∉ channels -> vdif_decoders (index + nchan) = None.
Proof.
  intros Hin nchan Hn Hni.
  assert (H : forallb (fun p : Z * list Z => forallb (fun c => let c := Z.of_nat c in
    match vdif_decoders (p.1 + c) with None => true | Some _ => bool_decide (c ∈ p.2) end) (seq 1 (Z.to_nat 512))) vdif_table = true) by (vm_compute; reflexivity).
  apply list_elem_of_In in Hin. apply (proj1 (List.forallb_forall _ _) H) in Hin. cbn [fst snd] in Hin.
  pose proof (forallb_seq _ 1 _ (Z.to_nat (nchan - 1)) Hin ltac:(lia)) as Hc. cbv beta zeta in Hc.
  replace (Z.of_nat (1 + Z.to_nat (nchan - 1))) with nchan in Hc by lia.
  destruct (vdif_decoders (index + nchan)); [|done]. by apply bool_decide_eq_true_1 in Hc.
Qed.

Ltac vdif_decoder :=
  cbn [vdif_decoders Z.add Pos.add Pos.succ Pos.add_carry]; apply vdif_result_decodes;
  [unfold vdif_bits; lia|by vm_compute|reflexivity|by vm_compute|by vm_compute|vm_compute; repeat split; (lia || congruence)|by repeat split|reflexivity|
   first [by (split; [|split; [by vm_compute|split; [by repeat split|]]])|left; lia|right; by vm_compute]].
Ltac vdif_formats nbit index nchan :=
  cbn [Z.eqb Pos.eqb negb mbind option_bind]; destruct (decide (nchan ∈ vdif_channels nbit)) as [Hin|Hin];
  [unfold vdif_channels in Hin; cbn [Z.eqb Pos.eqb] in Hin; rewrite !elem_of_cons, elem_of_nil in Hin; destruct_or! Hin; subst nchan; try done; cbn [Z.ltb Z.compare orb]; vdif_decoder|
   destruct (Z.ltb_spec nchan 1); [cbn [orb]; intros (_ & [[_ ?]|[? _]]); [done|lia]|]; destruct (Z.ltb_spec 512 nchan); cbn [orb]; [intros (_ & [[_ ?]|[? _]]); [done|lia]|];
   rewrite (vdif_no_decoder index (vdif_channels nbit)) by (done || lia || (apply (bool_decide_unpack _); by vm_compute)); intros (_ & [[_ ?]|[? _]]); [done|lia]].

Lemma vdif_format1 nchan : vdif_result nchan 1 1 (new_mark5_format_generalized_vdif nchan 1 1).
Proof. unfold new_mark5_format_generalized_vdif. vdif_formats 1 0 nchan. Qed.

Lemma vdif_format2 nchan : vdif_result nchan 2 1 (new_mark5_format_generalized_vdif nchan 2 1).
Proof. unfold new_mark5_format_generalized_vdif. vdif_formats 2 1000 nchan. Qed.

Lemma vdif_format4 nchan : vdif_result nchan 4 1 (new_mark5_format_generalized_vdif nchan 4 1).
Proof. unfold new_mark5_format_generalized_vdif. vdif_formats 4 2000 nchan. Qed.

Lemma vdif_format8 nchan : vdif_result nchan 8 1 (new_mark5_format_generalized_vdif nchan 8 1).
Proof. unfold new_mark5_format_generalized_vdif. vdif_formats 8 3000 nchan. Qed.

Lemma vdif_format_rep nchan nbit decimation : vdif_result nchan nbit decimation (new_mark5_format_generalized_vdif nchan nbit decimation).
Proof.
  destruct (decide (decimation = 1)) as [->|Hd].
  2: { unfold new_mark5_format_generalized_vdif. destruct (Z.eqb_spec decimation 1); [done|]. cbn [negb]. by intros [? _]. }
  destruct (decide (nbit = 1)) as [->|H1]; [apply vdif_format1|]. destruct (decide (nbit = 2)) as [->|H2]; [apply vdif_format2|].
  destruct (decide (nbit = 4)) as [->|H4]; [apply vdif_format4|]. destruct (decide (nbit = 8)) as [->|H8]; [apply vdif_format8|].
  assert (Hb : ~ vdif_bits nbit) by (unfold vdif_bits; lia). unfold new_mark5_format_generalized_vdif.
  rewrite !(proj2 (Z.eqb_neq nbit _)) by done. cbn [Z.eqb Pos.eqb negb].
  destruct (Z.eqb_spec nbit 16) as [->|H16]; [|destruct (Z.eqb_spec nbit 32) as [->|H32]]; cbn [mbind option_bind].
  - destruct (Z.ltb_spec nchan 1), (Z.ltb_spec 512 nchan); cbn [orb]; try (intros (_ & [[? _]|[? _]]); done).
    rewrite (vdif_no_decoder 4000 []); [intros (_ & [[? _]|[? _]]); done|apply (bool_decide_unpack _); by vm_compute|lia|apply not_elem_of_nil].
  - destruct (decide (nchan = 1)) as [->|Hn]; [by vm_compute|].
    destruct (Z.ltb_spec nchan 1), (Z.ltb_spec 512 nchan); cbn [orb]; try (intros (_ & [[? _]|[_ ?]]); done).
    rewrite (vdif_no_decoder 5000 [1]); [intros (_ & [[? _]|[_ ?]]); done|apply (bool_decide_unpack _); by vm_compute|lia|by rewrite list_elem_of_singleton].
  - intros (_ & [[? _]|[? _]]); done.
Qed.

(** C15 [new_mark5_format_generalized_vdif], for real samples: without decimation there
    is a decoder of 1, 2, 4 or 8 bits for 1 to 8 channels (1 to 4 of 8 bits), for 16
    and 32 channels of one and two bits and for 64 of two, and the one for [float]
    data; and the decoder is the right one: entry by entry it stores the sample that
    the format has there, where a number of channels that is not a power of two is
    padded to one, and the counter counts over the same entries. *)
Theorem new_mark5_format_vdif_spec nchan nbit decimation :
  vdif_result nchan nbit decimation (new_mark5_format_generalized_vdif nchan nbit decimation).
Proof. apply vdif_format_rep. Qed.

(** ** Unpacking *)

(** A stream to which the format of the decoder [d] has been given: frames with a
    header of [hs] and data of [P] bytes, in which the turns of the decoder fit. *)
Record vdif_unpacks (nchan nbit hs P : Z) (d : decoder) (ms : mark5_stream) : Prop := {
  vu_decoder : exists ms0 c framesperperiod alignmentseconds,
    mark5_format_vdif_init {| mv_databytesperpacket := P; mv_frameheadersize := hs |} framesperperiod alignmentseconds ms0 = Some (0, ms) /\
    ms_decimation ms0 = 1 /\ ms_nchan ms0 = nchan /\ ms_nbit ms0 = nbit /\ zones_ok ms0 /\
    new_mark5_format_generalized_vdif nchan nbit 1 = Some (float_decoder d c);
  vu_size : 0 < P < 2 ^ 28;
  vu_words : (8 | P);
  vu_step : (d_step d 1 | P) }.

(** Sample [S] of channel [c] of the frames from [base] on: its bits are at bit [m] of
    their payloads. *)
Definition vdif_sample (mem : buffer) (hs P base nchan nbit S c : Z) : state :=
  let m := (S * vdif_stride nchan + c) * nbit in let k := m / (8 * P) in let b := m mod (8 * P) in
  if vdif_bad mem hs P base k then Zero
  else vdif_level nbit (nth (Z.to_nat (vdif_payload hs P base k + b / 8)) mem 0) (b mod 8).

(** How many of [T] turns from byte [b] on are in bad frames. *)
Definition vdif_blanks (mem : buffer) (hs P base st : Z) (T : nat) (b : Z) : Z := blank_turns P (vdif_blank mem hs P base) st T b.

Lemma vdif_init_facts f framesperperiod alignmentseconds ms0 ms : mark5_format_vdif_init f framesperperiod alignmentseconds ms0 = Some (0, ms) ->
  (mv_frameheadersize f = 32 \/ mv_frameheadersize f = 16) /\
  ms_decimation ms = ms_decimation ms0 /\ ms_nchan ms = ms_nchan ms0 /\ ms_nbit ms = ms_nbit ms0 /\
  ms_framebytes ms = mv_databytesperpacket f + mv_frameheadersize f /\ ms_databytes ms = mv_databytesperpacket f /\
  ms_payloadoffset ms = mv_frameheadersize f /\
  ms_framesamples ms = cdiv (mv_databytesperpacket f * 8) (ms_nchan ms0 * ms_nbit ms0 * ms_decimation ms0) /\
  ms_validate ms = mark5_format_vdif_validate /\ ms_blanker ms = call_blanker_vdif /\ (zones_ok ms0 -> zones_ok ms).
Proof.
  unfold mark5_format_vdif_init. destruct (_ =? 0); [done|]. cbv zeta. destruct (negb (_ && _)); [done|].
  destruct (Z.eqb_spec (mv_frameheadersize f) 32), (Z.eqb_spec (mv_frameheadersize f) 16); cbn [orb negb]; try done;
    intros [= <-]; split; (lia || by split_and!).
Qed.

Lemma vdif_stride_bounds nchan : 0 < nchan -> nchan <= vdif_stride nchan.
Proof. intros Hn. unfold vdif_stride. pose proof (nchan_ge (Z.to_nat nchan)). lia. Qed.

Lemma vdif_channels_pos nbit nchan : nchan ∈ vdif_channels nbit -> 0 < nchan.
Proof.
  unfold vdif_channels. destruct (nbit =? 1), (nbit =? 2), (nbit =? 4); rewrite !elem_of_cons, elem_of_nil; lia.
Qed.

Lemma vdif_unpack_rep mem packed n hs P nchan nbit d ms Q T data : bytes_ok mem -> 0 <= packed ->
  packed + n * (hs + P) <= Z.of_nat (length mem) -> vdif_unpacks nchan nbit hs P d ms -> vdif_can_next hs P packed n (ms_next ms) ->
  let R := Z.of_nat (length (d_rows d)) in let st := d_step d 1 in
  Q = 0 \/ vdif_stride nchan = nchan ->
  (nbit = 8 -> nchan = 1 \/ forall k, 0 <= k < n -> vdif_bad mem hs P packed k = false) ->
  0 <= Q -> (Q + Z.of_nat T) * st < n * P -> sample_room (Z.to_nat nchan) (Z.of_nat T * R) data ->
  exists ms' data', mark5_unpack_with_offset d mem ms packed (Q * R) data (Z.of_nat T * R) =
      Some ((Z.of_nat T - vdif_blanks mem hs P packed st T (Q * st)) * R, ms', data') /\
    at_vdif_frame mem hs P packed n ((Q + Z.of_nat T) * st / P) ms' /\
    ms_readposition ms' = ((Q + Z.of_nat T) * st) mod P /\ shape data' = shape data /\
    forall c s, 0 <= c < nchan -> 0 <= s < Z.of_nat T * R ->
      sample_at data' (Z.to_nat c) (Z.to_nat s) = Some (vdif_sample mem hs P packed nchan nbit (Q * R + s) c).
Proof.
  intros Hmem Hpk Hlen [(ms0 & cnt & fpp & als & Hi & Ed & En & Eb & Hz & Hnew) Hsize Hwords Hdiv] Hnext R st HQ0 H8bit HQ Hend Hroom.
  pose proof (vdif_format_rep nchan nbit 1) as Hr. rewrite Hnew in Hr. destruct Hr as (_ & Hbits & Hch & Hd & (L1 & L2 & L3) & Hblank & _).
  apply vdif_channels_pos in Hch. pose proof (vdif_stride_bounds nchan Hch) as Hstr.
  destruct (vdif_init_facts _ _ _ _ _ Hi) as (Hhs & I1 & I2 & I3 & I4 & I5 & I6 & I7 & Iv & I8 & I9).
  cbn [mv_databytesperpacket mv_frameheadersize] in Hhs, I4, I5, I6, I7. rewrite Ed in I1, I7. rewrite En in I2, I7. rewrite Eb in I3, I7. specialize (I9 Hz).
  destruct (format_numbers P _ _ _ _ _ d Hd Hdiv ltac:(lia) ltac:(lia) ltac:(lia)) as (HR & Hst & M & HM & HP & H8 & HF). fold R st in HR, Hst, HP, H8, HF.
  destruct (blocks_of st M Q Hst HM) as [B1 B2]. rewrite <-HP in B1, B2. assert (Hn0 : 1 <= nbit) by (unfold vdif_bits in Hbits; lia).
  assert (HTs : 0 <= Z.of_nat T * st) by (apply Z.mul_nonneg_nonneg; lia).
  assert (Hk : 0 <= Q / M < n).
  { split; [by apply Z.div_pos|]. rewrite <-B1. apply Z.div_lt_upper_bound; lia. }
  assert (Hfs : 0 < ms_framesamples ms).
  { assert (F1 : 0 < nchan * nbit) by (apply Z.mul_pos_pos; lia).
    assert (F2 : nchan * nbit <= vdif_stride nchan * nbit) by (apply Z.mul_le_mono_nonneg_r; lia).
    assert (F3 : 1 * (vdif_stride nchan * nbit * 1) <= R * (vdif_stride nchan * nbit * 1)) by (apply Z.mul_le_mono_nonneg_r; lia).
    assert (F4 : st * 1 <= st * M) by (apply Z.mul_le_mono_nonneg_l; lia).
    rewrite I7, Z.quot_div_nonneg by lia. apply Z.div_str_pos. lia. }
  assert (HQM : cdiv (Q * R) (ms_framesamples ms) = Q / M /\ cmod (Q * R) (ms_framesamples ms) * nchan * nbit * 1 = 8 * (st * (Q mod M))).
  { destruct HQ0 as [->|Es].
    - rewrite Z.mul_0_l, Z.quot_0_l, Z.rem_0_l, Z.div_0_l, Z.mod_0_l by lia. split; [done|]. ring.
    - rewrite I7. rewrite Es in HF. rewrite HF, Z.quot_div_nonneg, Z.rem_mod_nonneg by nia. rewrite (Z.mul_comm Q R), Z.div_mul_cancel_l, Z.mul_mod_distr_l by lia.
      split; [done|]. replace (8 * (st * (Q mod M))) with (8 * st * (Q mod M)) by ring. rewrite H8, Es. ring. }
  destruct HQM as [Q1 Q2]. pose proof (Z.mod_pos_bound Q M HM) as HQm. assert (Hr : 0 <= st * (Q mod M) < P) by (rewrite HP; nia).
  unfold mark5_unpack_with_offset. destruct (Z.eqb_spec (ms_framesamples ms) 0); [lia|]. rewrite Q1. unfold unpack_frame. rewrite I4.
  assert (Hh16 : 16 <= hs) by lia. assert (HP30 : 0 < P <= 2 ^ 30) by lia.
  destruct (vdif_next_frame_at mem hs P packed n Hpk Hh16 HP30 Hwords Hlen (Q / M)
    (ms_move ms (ms_framenum ms) (Some (packed + Q / M * (P + hs) - (P + hs))) (ms_payload ms) (ms_readposition ms))
    (packed + Q / M * (P + hs) - (P + hs))) as (ms1 & E1 & Hon & S1 & S2 & S3);
    [split; cbn; try done; lia|done|unfold vdif_offset; lia|done|].
  rewrite E1. pose proof (vdif_frames mem hs P packed n Hmem Hpk Hh16 HP30 Hwords Hlen) as FS.
  destruct (decode_run (FS := FS) (Z.to_nat nchan) (vdif_stride nchan) nbit (vdif_level nbit) d Hd Hdiv
    (ms_set_readposition ms1 (st * (Q mod M))) Q T data L1 L2) as (ms' & data' & E & Hon' & Hp' & Hs & G);
    [|fold st; rewrite B1; by apply fr_position|fold st; by rewrite B2|done|done|done|].
  { rewrite L3. destruct (Z.eqb_spec nbit 8) as [E8|]; [|by left]. destruct (Z.eqb_spec nchan 1); [by left|]. right.
    destruct (H8bit E8) as [?|Hgood]; [done|]. intros k i Hk'. by apply Hgood. }
  fold R st in E, Hon', Hp', G. exists ms', data'. split; [|split; [done|split; [done|split; [done|]]]].
  - cbn [ms_move ms_nchan ms_nbit ms_framesamples] in S1, S2, S3.
    destruct (ms_next ms); [|done|]; cbn [mbind option_bind].
    all: rewrite S1, S2, S3, I2, I3, (fr_decimation (FrameStream := FS) _ _ Hon), Q2.
    all: rewrite sint_Some by lia; cbn [mbind option_bind]; rewrite (Z.mul_comm 8), Z.quot_mul, E by lia.
    all: do 3 f_equal; rewrite Hblank; fold R; unfold vdif_blanks; ring.
  - intros c s Hc Hsr. rewrite (G (Z.to_nat c) s) by lia. f_equal. rewrite Z2Nat.id by lia. unfold vdif_sample.
    unfold R, st. rewrite (level_sample mem P _ _ _ _ _ 1 _ d (Q * Z.of_nat (length (d_rows d)) + s) c Hd Hdiv) by (fold R; nia).
    by rewrite Z.mul_1_r.
Qed.

(** ** Examples *)

Definition vdif_example_unpacker (nchan nbit P : Z) : option mark5_stream :=
  match mark5_format_vdif_init {| mv_databytesperpacket := P; mv_frameheadersize := 32 |} 1000 1 (mark5_example_stream nchan nbit 1) with
  | Some (0, ms) => Some ms
  | _ => None
  end.

Lemma vdif_example_unpacks nchan nbit P d c ms : vdif_example_unpacker nchan nbit P = Some ms ->
  new_mark5_format_generalized_vdif nchan nbit 1 = Some (float_decoder d c) -> 0 < P < 2 ^ 28 -> (8 | P) -> (d_step d 1 | P) ->
  vdif_unpacks nchan nbit 32 P d ms.
Proof.
  unfold vdif_example_unpacker. destruct (mark5_format_vdif_init _ _ _ _) as [[[| |] ms']|] eqn:E; try done. intros [= ->] Hn HP H8 Hd.
  split; [|done..]. exists (mark5_example_stream nchan nbit 1), c, 1000, 1. split; [exact E|]. do 3 (split; [reflexivity|]).
  split; [split; cbn; lia|exact Hn].
Qed.

(** A frame with 16 bytes of data. *)
Definition vdif_example_frame (word0 byte : Z) : buffer :=
  le_split 4 word0 ++ le_split 4 0 ++ le_split 4 6 ++ replicate 20 0 ++ replicate 16 byte.

(** A good frame and one that is marked as invalid. *)
Definition vdif_example_data : buffer := vdif_example_frame 0 0x1B ++ vdif_example_frame (2 ^ 31) 0x1B.

Lemma vdif_example_data_facts : bytes_ok vdif_example_data /\ Z.of_nat (length vdif_example_data) = 96.
Proof. split; [apply bytes_ok_check; by vm_compute|by vm_compute]. Qed.

(** C14 [mark5_unpack_with_offset] on frames of VDIF, from a multiple of the samples of
    a turn on (for a number of channels that is not a power of two: from the start of a
    frame): sample by sample, every channel has the level of its bits in the payloads,
    and zero in a frame that is marked as invalid or has fill pattern at its start or
    its end; the value returned is the number of samples that are not in such frames,
    and the stream is left at the next sample.  With several channels of 8 bits, this
    is so for good frames only. *)
Theorem vdif_unpack_levels mem packed n hs P nchan nbit d ms Q T data : bytes_ok mem -> 0 <= packed ->
  packed + n * (hs + P) <= Z.of_nat (length mem) -> vdif_unpacks nchan nbit hs P d ms -> vdif_can_next hs P packed n (ms_next ms) ->
  let R := Z.of_nat (length (d_rows d)) in let st := d_step d 1 in
  Q = 0 \/ vdif_stride nchan = nchan ->
  (nbit = 8 -> nchan = 1 \/ forall k, 0 <= k < n -> vdif_bad mem hs P packed k = false) ->
  0 <= Q -> (Q + Z.of_nat T) * st < n * P -> sample_room (Z.to_nat nchan) (Z.of_nat T * R) data ->
  exists ms' data', mark5_unpack_with_offset d mem ms packed (Q * R) data (Z.of_nat T * R) =
      Some ((Z.of_nat T - vdif_blanks mem hs P packed st T (Q * st)) * R, ms', data') /\
    at_vdif_frame mem hs P packed n ((Q + Z.of_nat T) * st / P) ms' /\
    ms_readposition ms' = ((Q + Z.of_nat T) * st) mod P /\ shape data' = shape data /\
    forall c s, 0 <= c < nchan -> 0 <= s < Z.of_nat T * R ->
      sample_at data' (Z.to_nat c) (Z.to_nat s) = Some (vdif_sample mem hs P packed nchan nbit (Q * R + s) c).
Proof. apply vdif_unpack_rep. Qed.

(** Three channels of two bits, in a good frame and the first sample of a bad one. *)
Lemma vdif_unpack_levels_witness :
  exists ms ms' data', vdif_example_unpacker 3 2 16 = Some ms /\
    mark5_unpack_with_offset vdif_decode_3channel_2bit_decimation1 vdif_example_data ms 0 0 (replicate 3 (replicate 17 Zero)) 17 = Some (16, ms', data') /\
    (fun c => sample_at data' c 0) <$> [0%nat; 1%nat; 2%nat] = [Some High; Some One; Some MinusOne] /\
    sample_at data' 0 16 = Some Zero.
Proof.
  destruct vdif_example_data_facts as [Hb Hl].
  assert (Hs : (fun c => vdif_sample vdif_example_data 32 16 0 3 2 0 c) <$> [0; 1; 2] = [High; One; MinusOne]) by (vm_compute; reflexivity).
  assert (Hz : vdif_sample vdif_example_data 32 16 0 3 2 16 0 = Zero) by (vm_compute; reflexivity).
  assert (Hbt : vdif_blanks vdif_example_data 32 16 0 1 17 0 = 1) by (vm_compute; reflexivity).
  revert Hb Hl Hs Hz Hbt. generalize vdif_example_data. intros mem Hb Hl Hs Hz Hbt.
  assert (Hi : exists ms, vdif_example_unpacker 3 2 16 = Some ms /\ ms_next ms = mark5_stream_unpacker_next) by (eexists; split; reflexivity).
  destruct Hi as (ms & Hi & Hn). exists ms.
  assert (Hu : vdif_unpacks 3 2 32 16 vdif_decode_3channel_2bit_decimation1 ms).
  { eapply vdif_example_unpacks; [exact Hi|reflexivity|lia|exists 2; reflexivity|exists 16; reflexivity]. }
  destruct (vdif_unpack_levels mem 0 2 32 16 3 2 vdif_decode_3channel_2bit_decimation1 ms 0 17 (replicate 3 (replicate 17 Zero)) Hb ltac:(lia)
    ltac:(lia) Hu ltac:(rewrite Hn; exact I) ltac:(left; reflexivity) ltac:(intros Hc; discriminate Hc) ltac:(lia) ltac:(vm_compute; reflexivity)
    (room_replicate 3 17 17 ltac:(lia))) as (ms' & data' & E & _ & _ & _ & G).
  exists ms', data'. split; [exact Hi|]. split.
  - change (0 * d_step vdif_decode_3channel_2bit_decimation1 1) with 0 in E. change (d_step vdif_decode_3channel_2bit_decimation1 1) with 1 in E.
    rewrite Hbt in E. exact E.
  - pose proof (G 0 0 ltac:(lia) ltac:(cbn; lia)) as G0. pose proof (G 1 0 ltac:(lia) ltac:(cbn; lia)) as G1.
    pose proof (G 2 0 ltac:(lia) ltac:(cbn; lia)) as G2. pose proof (G 0 16 ltac:(lia) ltac:(cbn; lia)) as G3.
    change (0 * Z.of_nat (length (d_rows vdif_decode_3channel_2bit_decimation1)) + 0) with 0 in G0, G1, G2.
    change (0 * Z.of_nat (length (d_rows vdif_decode_3channel_2bit_decimation1)) + 16) with 16 in G3.
    change (Z.to_nat 0) with 0%nat in G0, G1, G2, G3. change (Z.to_nat 1) with 1%nat in G1. change (Z.to_nat 2) with 2%nat in G2.
    change (Z.to_nat 16) with 16%nat in G3. injection Hs as S0 S1 S2. split; [|rewrite <-Hz; exact G3].
    cbn [fmap list_fmap]. rewrite G0, G1, G2, S0, S1, S2. reflexivity.
Defined.

(** ** Counting *)

(** The counters of VDIF add, modulo the width of the counts, the samples that are
    high or low extremes, for as many samples as they are asked for. *)
Theorem vdif_count_states_spec mem base n hs P nchan d k ms Q T counts : bytes_ok mem -> 0 <= base -> 16 <= hs -> 0 < P <= 2 ^ 30 -> (8 | P) ->
  base + n * (hs + P) <= Z.of_nat (length mem) -> new_mark5_format_generalized_vdif nchan 2 1 = Some (float_decoder d (Some k)) -> (d_step d 1 | P) ->
  let R := Z.of_nat (length (d_rows d)) in let st := d_step d 1 in
  at_vdif_frame mem hs P base n (Q * st / P) ms -> ms_readposition ms = (Q * st) mod P ->
  0 <= Q -> (Q + Z.of_nat T) * st < n * P -> counters_ok (Z.to_nat nchan) counts ->
  exists ms' counts', count_states k mem ms (Z.of_nat T * R) counts =
      Some ((Z.of_nat T - vdif_blanks mem hs P base st T (Q * st)) * R, ms', counts') /\
    at_vdif_frame mem hs P base n ((Q + Z.of_nat T) * st / P) ms' /\ ms_readposition ms' = ((Q + Z.of_nat T) * st) mod P /\
    forall c, 0 <= c < nchan -> counts' !! Z.to_nat c =
      (fun h => u32 (h + sum_upto (fun s => high (vdif_sample mem hs P base nchan 2 (Q * R + s) c)) (T * length (d_rows d)))) <$> counts !! Z.to_nat c.
Proof.
  intros Hmem Hb Hhs HP Hw Hlen Hnew Hdiv R st Hon Hpos HQ Hend Hcs.
  pose proof (vdif_format_rep nchan 2 1) as Hr. rewrite Hnew in Hr. destruct Hr as (_ & _ & Hch & Hd & (L1 & L2 & L3) & Hblank & (_ & Hstr & Hk & Ht)).
  apply vdif_channels_pos in Hch. pose proof (vdif_frames mem hs P base n Hmem Hb Hhs HP Hw Hlen) as FS. pose proof (dc_rows _ _ _ _ _ _ Hd) as HR.
  pose proof Hk as (K1 & K2 & _).
  destruct (count_run (FS := FS) (Z.to_nat nchan) (vdif_stride nchan) 2 (vdif_level 2) d k Hd Hk Hdiv ms Q T counts) as (ms' & hs' & E & Hon' & Hp' & A);
    [by rewrite K1|by rewrite K2|rewrite Ht; lia|done..|].
  rewrite Ht in E. fold R st in E. exists ms', hs'. split; [rewrite E; do 3 f_equal; rewrite Hblank; unfold vdif_blanks; fold R st; ring|]. split; [done|]. split; [done|].
  intros c Hc. rewrite A by lia. destruct (counts !! Z.to_nat c) as [h|]; [|done]. cbn [fmap option_fmap option_map]. do 2 f_equal. f_equal.
  apply sum_upto_ext. intros s Hs. f_equal. rewrite Z2Nat.id by lia.
  rewrite (level_sample mem P _ _ _ _ _ 1 _ d (Q * Z.of_nat (length (d_rows d)) + s) c Hd Hdiv) by (lia || (rewrite Hstr; lia) || nia).
  unfold vdif_sample. by rewrite Z.mul_1_r.
Qed.

(** ** A frame that is not left *)

(** Without a step in blanked data the position stays where it is. *)
Lemma decode_loop_stuck d nchan mem ms : d_blanked d mem ms 0 = Some true -> d_skip d (ms_decimation ms) = 0 -> 0 < d_end d ms ->
  rows_ok nchan (replicate (d_fps d) zeros) (d_rows d) ->
  (forall r row c j e, d_rows d !! r = Some row -> (c, j, e) ∈ row -> (j < d_fps d)%nat /\ (e < 8)%nat) ->
  let R := Z.of_nat (length (d_rows d)) in 0 < R ->
  forall T fuel o nblank data nsamp, (T <= fuel)%nat -> nsamp = o + Z.of_nat T * R -> 0 <= o -> sample_room nchan nsamp data ->
  exists data', decode_loop fuel d mem nsamp o 0 nblank ms data = Some (nsamp - d_blank d * (nblank + Z.of_nat T), ms_set_readposition ms 0, data') /\
    shape data' = shape data /\
    (forall c s, (c < nchan)%nat -> 0 <= s < Z.of_nat T * R -> sample_at data' c (Z.to_nat (o + s)) = Some Zero) /\
    (forall c s, (c < nchan)%nat -> (s < Z.to_nat o)%nat -> sample_at data' c s = sample_at data c s).
Proof.
  intros Hbl Hskip Hend Hrows Hent R HR. induction T as [|T IH]; intros fuel o nblank data nsamp Hfuel Hns Ho Hroom.
  - exists data. split; [|split; [done|split; [lia|done]]]. destruct fuel; cbn [decode_loop]; destruct (Z.ltb_spec o nsamp); try lia;
      do 4 f_equal; lia.
  - destruct fuel as [|fuel]; [lia|]. cbn [decode_loop]. rewrite Nat2Z.inj_succ, Z.mul_succ_l in Hns.
    assert (HTR : 0 <= Z.of_nat T * R) by nia. destruct (Z.ltb_spec o nsamp); [|lia]. rewrite Hbl. cbn [mbind option_bind].
    destruct (store_rows_spec nchan (replicate (d_fps d) zeros) o (d_rows d) data) as (d1 & E1 & S1 & G1 & A1); [done|done| |].
    { intros c Hc. destruct (Hroom c Hc) as (m & Hm & Hle). exists m. split; [done|]. fold R. lia. }
    rewrite E1. cbn [mbind option_bind]. rewrite Hskip. unfold next_position. destruct (Z.leb_spec (d_end d ms) (0 + 0)); [lia|]. cbn [mbind option_bind].
    destruct (IH fuel (o + R) (nblank + 1) d1 nsamp) as (d2 & E2 & S2 & G2 & A2); [lia|lia|lia|by eapply room_shape|].
    exists d2. change (0 + 0) with 0. fold R. rewrite E2. split; [do 4 f_equal; lia|]. split; [congruence|]. split.
    + intros c s Hc Hs. destruct (Z.lt_ge_cases s R) as [Hlt|Hge].
      * rewrite A2 by (done || lia). destruct (d_rows d !! Z.to_nat s) as [row|] eqn:Er; [|apply lookup_ge_None in Er; unfold R in *; lia].
        destruct (Hrows _ _ Er) as [Hch _]. destruct (row_entry nchan row c Hch Hc) as (j & e & Hin). destruct (Hent _ row c j e Er Hin) as [Hj He].
        replace (Z.to_nat (o + s)) with (Z.to_nat o + Z.to_nat s)%nat by lia. rewrite (G1 _ row c j e Er Hin). unfold entry_value.
        rewrite lookup_replicate_2 by done. cbn [mbind option_bind]. by apply lookup_replicate_2.
      * replace (o + s) with (o + R + (s - R)) by lia. apply G2; [done|lia].
    + intros c s Hc Hs. rewrite A2 by (done || lia). apply A1. lia.
Qed.

(** C40 With 2, 3 or 4 channels of 8 bits a bad frame is never left: however many samples
    are asked for, and whatever frames follow, they are all zero, the value returned is
    0, and the stream is still at the start of the frame. *)
Theorem vdif_8bit_stuck mem packed n hs P nchan d ms k nsamp data :
  vdif_unpacks nchan 8 hs P d ms -> 0 <= packed -> packed + n * (hs + P) <= Z.of_nat (length mem) ->
  vdif_can_next hs P packed n (ms_next ms) -> 1 < nchan -> 0 <= k < n -> vdif_bad mem hs P packed k = true ->
  0 <= nsamp -> sample_room (Z.to_nat nchan) nsamp data ->
  exists ms' data', mark5_unpack d mem ms (vdif_offset hs P packed k) data nsamp = Some (0, ms', data') /\
    ms_frame ms' = Some (vdif_offset hs P packed k) /\ ms_readposition ms' = 0 /\
    forall c s, 0 <= c < nchan -> 0 <= s < nsamp -> sample_at data' (Z.to_nat c) (Z.to_nat s) = Some Zero.
Proof.
  intros [(ms0 & cnt & fpp & als & Hi & Ed & En & Eb & Hz & Hnew) Hsize Hwords _] Hpk Hlen Hnext Hn Hk Hbad Hns Hroom.
  pose proof (vdif_format_rep nchan 8 1) as Hr. rewrite Hnew in Hr. destruct Hr as (_ & Hbits & Hch & Hd & (L1 & L2 & L3) & Hblank & _).
  destruct (vdif_init_facts _ _ _ _ _ Hi) as (Hhs & I1 & I2 & I3 & I4 & I5 & I6 & I7 & Iv & I8 & I9).
  cbn [mv_databytesperpacket mv_frameheadersize] in Hhs, I4, I5, I6, I7. rewrite Ed in I1. specialize (I9 Hz).
  assert (Hh16 : 16 <= hs) by lia. assert (HP30 : 0 < P <= 2 ^ 30) by lia.
  destruct (vdif_next_frame_at mem hs P packed n Hpk Hh16 HP30 Hwords Hlen k
    (ms_move ms (ms_framenum ms) (Some (vdif_offset hs P packed k - (P + hs))) (ms_payload ms) (ms_readposition ms))
    (vdif_offset hs P packed k - (P + hs))) as (ms1 & E1 & [Hon Hf _ He] & _); [split; cbn; try done; lia|done|lia|done|].
  assert (HR : length (d_rows d) = 1%nat).
  { pose proof (dc_step _ _ _ _ _ _ Hd) as Hs. pose proof (dc_rows _ _ _ _ _ _ Hd). unfold vdif_channels in Hch. cbn [Z.eqb Pos.eqb] in Hch.
    rewrite !elem_of_cons, elem_of_nil in Hch. destruct_or! Hch; try done; try lia; rewrite Hch in Hnew; vm_compute in Hnew; injection Hnew as <- _; done. }
  destruct (decode_loop_stuck d (Z.to_nat nchan) mem (ms_set_readposition ms1 0)) with (T := Z.to_nat nsamp) (fuel := Z.to_nat nsamp) (o := 0) (nblank := 0)
    (data := data) (nsamp := nsamp) as (data' & E & _ & G & _).
  - rewrite L1. unfold vdif_is_blank. cbn [ms_set_readposition ms_move ms_blankzoneendvalid]. rewrite He, Hbad. done.
  - cbn [ms_set_readposition ms_move ms_decimation]. rewrite (vs_decimation _ _ _ _ _ Hon), L3. destruct (Z.eqb_spec nchan 1); [lia|done].
  - rewrite L2. cbn [ms_set_readposition ms_move ms_databytes]. rewrite (vs_databytes _ _ _ _ _ Hon). lia.
  - intros r row Er. split; [by apply (dc_channels _ _ _ _ _ _ Hd r)|]. apply list.Forall_forall. intros [[c j] e] Hin.
    destruct (dc_entry _ _ _ _ _ _ Hd r row c j e Er Hin) as (Hj & He8 & _). unfold entry_value. cbn [fst snd].
    rewrite lookup_replicate_2 by done. cbn [mbind option_bind]. unfold zeros. rewrite lookup_replicate_2 by lia. by eexists.
  - intros r row c j e Er Hin. destruct (dc_entry _ _ _ _ _ _ Hd r row c j e Er Hin) as (Hj & He8 & _). split; [done|lia].
  - rewrite HR. done.
  - done.
  - rewrite HR. lia.
  - done.
  - done.
  - exists (ms_set_readposition (ms_set_readposition ms1 0) 0), data'. split; [|split; [done|split; [done|]]].
    + unfold mark5_unpack, unpack_frame. rewrite I4, E1. unfold decode. cbn [ms_set_readposition ms_move ms_readposition].
      destruct (ms_next ms); [|done|]; cbn [mbind option_bind]; rewrite E; rewrite Hblank, HR; do 3 f_equal; lia.
    + intros c s Hc Hs. specialize (G (Z.to_nat c) s ltac:(lia)). rewrite HR, Z.add_0_l in G. apply G. lia.
Qed.

(** Two channels of 8 bits: the frame that is marked as invalid, and a good one
    behind it; a thousand samples are asked for. *)
Lemma vdif_8bit_stuck_witness :
  let mem := vdif_example_frame (2 ^ 31) 1 ++ vdif_example_frame 0 1 in
  exists ms ms' data', vdif_example_unpacker 2 8 16 = Some ms /\
    mark5_unpack vdif_decode_2channel_8bit_decimation1 mem ms 0 (replicate 2 (replicate 1000 One)) 1000 = Some (0, ms', data') /\
    ms_frame ms' = Some 0 /\ sample_at data' 0 999 = Some Zero.
Proof.
  intros mem. assert (Hl : Z.of_nat (length mem) = 96) by (vm_compute; reflexivity).
  assert (Hb : vdif_bad mem 32 16 0 0 = true) by (vm_compute; reflexivity). clearbody mem.
  assert (Hi : exists ms, vdif_example_unpacker 2 8 16 = Some ms /\ ms_next ms = mark5_stream_unpacker_next) by (eexists; split; reflexivity).
  destruct Hi as (ms & Hi & Hn). exists ms.
  assert (Hu : vdif_unpacks 2 8 32 16 vdif_decode_2channel_8bit_decimation1 ms).
  { eapply vdif_example_unpacks; [exact Hi|reflexivity|lia|exists 2; reflexivity|exists 8; reflexivity]. }
  destruct (vdif_8bit_stuck mem 0 2 32 16 2 vdif_decode_2channel_8bit_decimation1 ms 0 1000 (replicate 2 (replicate 1000 One)) Hu ltac:(lia)
    ltac:(lia) ltac:(rewrite Hn; exact I) ltac:(lia) ltac:(lia) Hb ltac:(lia)) as (ms' & data' & E & Hf & _ & G).
  { intros c Hc. exists 1000%nat. split; [|reflexivity]. unfold shape. rewrite fmap_replicate, length_replicate. by apply lookup_replicate_2. }
  exists ms', data'. split; [exact Hi|]. split; [exact E|]. split; [exact Hf|].
  pose proof (G 0 999 ltac:(lia) ltac:(lia)) as G0. exact G0.
Defined.
