(* ===== verification/CStrings.v ===== *)
(** * CStrings: text as C has it

    Strings are lists of characters without the final NUL; memory that holds
    text is a list that may have NULs.  [char] is signed.  The functions of the
    standard library that the code uses on text: [strdup], [snprintf] with
    integer arguments, [atoi], [fgets]. *)
From S2P Require Export Prelude.
From stdpp Require Export strings pretty.
From Stdlib Require Export Ascii.
From Stdlib Require String.
#[local] Open Scope Z_scope.

Abbreviation cstr := (list ascii).
Abbreviation text := String.list_ascii_of_string.

Definition NUL : ascii := "000"%char.
Definition LF : ascii := "010"%char.

(** The string that starts in memory: up to the first NUL. *)
Fixpoint c_string (bs : cstr) : cstr :=
  match bs with
  | [] => []
  | c :: bs => if decide (c = NUL) then [] else c :: c_string bs
  end.

(** The value of a [char]; what the code takes for printable, [c > ' ']. *)
Definition char_value (c : ascii) : Z := swrap 8 (Z.of_N (N_of_ascii c)).
Definition printable (c : ascii) : bool := 32 <? char_value c.

(** ** Formats *)

(** [%d] of an [int]. *)
Definition decimal (z : Z) : cstr := text (pretty z).

(** The text of a format with [int] arguments.  [None] is a missing argument, or
    a directive other than [%d] and [%%], which the code does not use here. *)
Fixpoint format (fmt : cstr) (args : list Z) : option cstr :=
  match fmt with
  | [] => Some []
  | c :: fmt =>
      if decide (c = "%"%char) then
        match fmt with
        | [] => None
        | d :: fmt =>
            if decide (d = "d"%char) then
              match args with
              | [] => None
              | a :: args => s ← format fmt args; Some (decimal a ++ s)
              end
            else if decide (d = "%"%char) then s ← format fmt args; Some (d :: s)
            else None
        end
      else s ← format fmt args; Some (c :: s)
  end.

(** [snprintf(buf, n, ...)]: what is left of the text in [n] bytes. *)
Definition truncated (n : nat) (s : cstr) : cstr := take (n - 1) s.

(** ** Numbers *)

Definition isspace (c : ascii) : bool :=
  let v := N_of_ascii c in (v =? 32)%N || ((9 <=? v) && (v <=? 13))%N.
Definition digit (c : ascii) : option Z :=
  let v := Z.of_N (N_of_ascii c) in if (48 <=? v) && (v <=? 57) then Some (v - 48) else None.

Fixpoint digits (s : cstr) (acc : Z) : Z :=
  match s with
  | [] => acc
  | c :: s => match digit c with Some d => digits s (10 * acc + d) | None => acc end
  end.

Fixpoint skip_space (s : cstr) : cstr :=
  match s with
  | [] => []
  | c :: s' => if isspace c then skip_space s' else s
  end.

(** The behaviour is undefined when the number is not an [int]. *)
Definition atoi (s : cstr) : option Z :=
  let s := skip_space s in
  sint (match s with
        | [] => 0
        | c :: s' => if decide (c = "-"%char) then - digits s' 0 else if decide (c = "+"%char) then digits s' 0 else digits s 0
        end).

(** ** Lines of a file *)

(** At most [n] characters, not further than the first line end. *)
Fixpoint get_line (n : nat) (input : cstr) : cstr * cstr :=
  match n, input with
  | S n, c :: input => if decide (c = LF) then ([c], input) else let '(l, rest) := get_line n input in (c :: l, rest)
  | _, _ => ([], input)
  end.

(** [fgets(buf, n, f)]: [None] at the end of the file. *)
Definition fgets (n : nat) (input : cstr) : option (cstr * cstr) :=
  match input with
  | [] => None
  | _ => Some (get_line (n - 1) input)
  end.

(** ** Lemmas *)

Lemma c_string_id s : NUL ∉ s -> c_string s = s.
Proof.
  induction s as [|c s IH]; [done|]. rewrite not_elem_of_cons. intros [Hc Hs]. cbn [c_string].
  rewrite decide_False by done. by rewrite IH.
Qed.

Lemma get_line_app n input : let '(l, rest) := get_line n input in l ++ rest = input.
Proof.
  revert input. induction n as [|n IH]; intros [|c input]; cbn [get_line]; try done. case_decide; [done|].
  specialize (IH input). destruct (get_line n input) as [l rest]. by rewrite <-IH.
Qed.

Lemma get_line_nonempty n c input : (1 <= n)%nat -> fst (get_line n (c :: input)) <> [].
Proof. destruct n; [lia|]. cbn [get_line]. case_decide; [done|]. by destruct (get_line n input). Qed.

Lemma get_line_length n input : (length (fst (get_line n input)) <= n)%nat.
Proof.
  revert input. induction n as [|n IH]; intros [|c input]; cbn [get_line fst length]; try lia. case_decide; [cbn; lia|].
  specialize (IH input). destruct (get_line n input) as [l rest]. cbn [fst length] in *. lia.
Qed.

(** A whole line is read. *)
Lemma get_line_line n l rest : LF ∉ l -> (length l < n)%nat -> get_line n (l ++ LF :: rest) = (l ++ [LF], rest).
Proof.
  revert n. induction l as [|c l IH]; intros [|n] Hl Hn; cbn [length] in *; try lia; cbn [app get_line].
  - by rewrite decide_True.
  - rewrite not_elem_of_cons in Hl. destruct Hl as [Hc Hl]. rewrite decide_False by done. by rewrite IH by (done || lia).
Qed.

Lemma decimal_inj z z' : decimal z = decimal z' -> z = z'.
Proof.
  unfold decimal. intros E. apply (f_equal String.string_of_list_ascii) in E. rewrite !String.string_of_list_ascii_of_string in E.
  by apply (inj pretty).
Qed.

(** How many [%d] a format has. *)
Fixpoint count_directives (fmt : cstr) : nat :=
  match fmt with
  | [] => 0
  | c :: fmt =>
      if decide (c = "%"%char) then
        match fmt with
        | [] => 0
        | d :: fmt => if decide (d = "d"%char) then S (count_directives fmt) else count_directives fmt
        end
      else count_directives fmt
  end.

Lemma format_args n : forall fmt args args', (length fmt <= n)%nat -> count_directives fmt = 0%nat ->
  format fmt args = format fmt args'.
Proof.
  induction n as [|n IH]; intros [|c fmt] args args' Hn Hc; cbn [length] in Hn; try lia; try done.
  cbn [format count_directives] in *. case_decide; [|by rewrite (IH fmt args args') by (done || lia)].
  destruct fmt as [|d fmt]; [done|]. cbn [length] in Hn. case_decide; [done|]. case_decide; [|done].
  by rewrite (IH fmt args args') by (done || lia).
Qed.

(** Two numbers in the one place for a number give different texts. *)
Lemma format_inj n : forall fmt i j s, (length fmt <= n)%nat -> count_directives fmt = 1%nat ->
  format fmt [i] = Some s -> format fmt [j] = Some s -> i = j.
Proof.
  induction n as [|n IH]; intros [|c fmt] i j s Hn Hc; cbn [length] in Hn; try lia; try done.
  cbn [format count_directives] in *. case_decide as Hp.
  - destruct fmt as [|d fmt]; [done|]. cbn [length] in Hn. case_decide as Hd.
    + injection Hc as Hc. destruct (format fmt []) as [r|]; [|done]. cbn [mbind option_bind]. intros [= <-] [= E].
      apply app_inv_tail in E. symmetry. by apply decimal_inj.
    + case_decide; [|done]. destruct (format fmt [i]) as [r1|] eqn:E1; [|done]. destruct (format fmt [j]) as [r2|] eqn:E2; [|done].
      cbn [mbind option_bind]. intros [= <-] [= ->]. by apply (IH fmt i j r1); [lia|..].
  - destruct (format fmt [i]) as [r1|] eqn:E1; [|done]. destruct (format fmt [j]) as [r2|] eqn:E2; [|done].
    cbn [mbind option_bind]. intros [= <-] [= ->]. by apply (IH fmt i j r1); [lia|..].
Qed.

(** ** Decimal numbers are read back *)

Lemma digit_char x : (x < 10)%N -> digit (pretty_N_char x) = Some (Z.of_N x).
Proof.
  intros H. assert (Hx : x = 0%N \/ x = 1%N \/ x = 2%N \/ x = 3%N \/ x = 4%N \/ x = 5%N \/ x = 6%N \/ x = 7%N \/ x = 8%N \/ x = 9%N) by lia.
  by repeat (destruct Hx as [->|Hx]; [done|]); subst.
Qed.

Lemma digits_pretty x : forall s acc, exists n : nat,
  (0 < x)%N -> digits (text (pretty_N_go x s)) acc = digits (text s) (acc * 10 ^ Z.of_nat n + Z.of_N x).
Proof.
  induction (N.lt_wf_0 x) as [x _ IH]; intros s acc.
  destruct (decide (x = 0)%N) as [->|Hx]; [by exists 0%nat|].
  destruct (decide (x < 10)%N) as [Hlt|Hge].
  - exists 1%nat. intros _. rewrite pretty_N_go_step by lia. rewrite N.div_small, N.mod_small, pretty_N_go_0 by done.
    cbn [String.list_ascii_of_string digits]. rewrite digit_char by done. f_equal. lia.
  - destruct (IH (x / 10)%N ltac:(apply N.div_lt; lia) (String.String (pretty_N_char (x mod 10)) s) acc) as [n Hn].
    exists (S n). intros _. rewrite pretty_N_go_step by lia. rewrite Hn by (apply N.div_str_pos; lia).
    cbn [String.list_ascii_of_string digits]. rewrite digit_char by (apply N.mod_lt; lia). f_equal.
    rewrite Nat2Z.inj_succ, Z.pow_succ_r by lia. pose proof (N.div_mod x 10 ltac:(lia)) as Hd. lia.
Qed.

(** The characters of a decimal number. *)
Definition is_digit (c : ascii) : bool := match digit c with Some _ => true | None => false end.

Lemma pretty_digits x : forall s, (0 < x)%N -> exists d ds,
  text (pretty_N_go x s) = d :: ds ++ text s /\ Forall (fun c => is_digit c = true) (d :: ds).
Proof.
  induction (N.lt_wf_0 x) as [x _ IH]; intros s Hx. rewrite pretty_N_go_step by done.
  assert (Hd : is_digit (pretty_N_char (x mod 10)) = true) by (unfold is_digit; by rewrite digit_char by (apply N.mod_lt; lia)).
  destruct (decide (x < 10)%N) as [Hlt|Hge].
  - rewrite N.div_small, pretty_N_go_0 by done. by exists (pretty_N_char (x mod 10)), []; repeat constructor.
  - destruct (IH (x / 10)%N ltac:(apply N.div_lt; lia) (String.String (pretty_N_char (x mod 10)) s)) as (d & ds & E & Hds);
      [apply N.div_str_pos; lia|].
    exists d, (ds ++ [pretty_N_char (x mod 10)]). rewrite E, <-app_assoc. split; [done|].
    apply Forall_cons_1 in Hds as [H1 H2]. constructor; [done|]. apply Forall_app. split; [done|by repeat constructor].
Qed.

Lemma pretty_pos_go p : text (pretty (N.pos p)) = text (pretty_N_go (N.pos p) EmptyString).
Proof. unfold pretty, pretty_N. by rewrite decide_False by done. Qed.

Lemma decimal_chars z : exists c cs, decimal z = c :: cs /\ (c = "-"%char \/ is_digit c = true) /\
  Forall (fun c => is_digit c = true) cs.
Proof.
  unfold decimal. destruct z as [|p|p]; [by exists "0"%char, []; split; [|split; [right|]]| |].
  - change (text (pretty (Zpos p))) with (text (pretty (N.pos p))). rewrite pretty_pos_go.
    destruct (pretty_digits (N.pos p) EmptyString ltac:(lia)) as (d & ds & -> & H). rewrite app_nil_r.
    apply Forall_cons_1 in H as [? ?]. exists d, ds. eauto.
  - change (text (pretty (Zneg p))) with ("-"%char :: text (pretty (N.pos p))). rewrite pretty_pos_go.
    destruct (pretty_digits (N.pos p) EmptyString ltac:(lia)) as (d & ds & -> & H). rewrite app_nil_r. eauto 10.
Qed.

Lemma digit_not c c' : is_digit c = true -> is_digit c' = false -> c <> c'.
Proof. intros H H' ->. congruence. Qed.

Lemma digit_not_space c : is_digit c = true -> isspace c = false.
Proof.
  unfold is_digit, digit, isspace. destruct (Z.leb_spec 48 (Z.of_N (N_of_ascii c))); [|done].
  destruct (Z.leb_spec (Z.of_N (N_of_ascii c)) 57); [|done]. intros _.
  destruct (N.eqb_spec (N_of_ascii c) 32); [lia|]. destruct (N.leb_spec (N_of_ascii c) 13); [lia|]. by rewrite andb_false_r.
Qed.

Lemma digits_pretty_0 p : digits (text (pretty (N.pos p))) 0 = Z.pos p.
Proof.
  rewrite pretty_pos_go. destruct (digits_pretty (N.pos p) EmptyString 0) as [n Hn]. rewrite Hn by lia. done.
Qed.

Lemma atoi_decimal z : - 2 ^ 31 <= z < 2 ^ 31 -> atoi (decimal z) = Some z.
Proof.
  intros Hz. transitivity (sint z); [|by apply sint_Some]. unfold atoi. destruct z as [|p|p]; [done| |].
  - unfold decimal. change (text (pretty (Zpos p))) with (text (pretty (N.pos p))).
    pose proof (digits_pretty_0 p) as Hd. rewrite pretty_pos_go in *.
    destruct (pretty_digits (N.pos p) EmptyString ltac:(lia)) as (d & ds & E & H). rewrite E in *.
    apply Forall_cons_1 in H as [H _]. cbn [skip_space]. rewrite digit_not_space by done.
    rewrite !decide_False by (by apply digit_not). by rewrite Hd.
  - unfold decimal. change (text (pretty (Zneg p))) with ("-"%char :: text (pretty (N.pos p))).
    cbn [skip_space]. change (isspace "-") with false. cbv iota. rewrite decide_True by done. by rewrite digits_pretty_0.
Qed.

Lemma pretty_length n : forall x s, (x < 10 ^ N.of_nat n)%N -> (length (text (pretty_N_go x s)) <= n + length (text s))%nat.
Proof.
  induction n as [|n IH]; intros x s Hx.
  - assert (x = 0)%N as -> by (cbn in Hx; lia). by rewrite pretty_N_go_0.
  - destruct (decide (x = 0)%N) as [->|Hne]; [rewrite pretty_N_go_0; lia|]. rewrite pretty_N_go_step by lia.
    etransitivity; [apply IH|cbn [String.list_ascii_of_string length]; lia].
    apply N.Div0.div_lt_upper_bound. rewrite Nat2N.inj_succ, N.pow_succ_r' in Hx. lia.
Qed.

(** An [int] has at most ten digits and a sign. *)
Lemma decimal_length z : - 2 ^ 31 <= z < 2 ^ 31 -> (length (decimal z) <= 11)%nat.
Proof.
  intros Hz. unfold decimal. destruct z as [|p|p]; [cbn; lia| |].
  - change (text (pretty (Zpos p))) with (text (pretty (N.pos p))). rewrite pretty_pos_go.
    pose proof (pretty_length 10 (N.pos p) EmptyString ltac:(cbn; lia)) as H. cbn [String.list_ascii_of_string length] in H. lia.
  - change (text (pretty (Zneg p))) with ("-"%char :: text (pretty (N.pos p))). rewrite pretty_pos_go. cbn [length].
    pose proof (pretty_length 10 (N.pos p) EmptyString ltac:(cbn; lia)) as H. cbn [String.list_ascii_of_string length] in H. lia.
Qed.

Lemma digit_printable c : is_digit c = true -> printable c = true.
Proof.
  unfold is_digit, digit, printable, char_value. destruct (Z.leb_spec 48 (Z.of_N (N_of_ascii c))); [|done].
  destruct (Z.leb_spec (Z.of_N (N_of_ascii c)) 57); [|done]. intros _. unfold swrap. rewrite Z.mod_small by lia. lia.
Qed.

Lemma decimal_printable z : Forall (fun c => printable c = true) (decimal z).
Proof.
  destruct (decimal_chars z) as (c & cs & -> & Hc & Hcs). constructor; [destruct Hc as [->|Hc]; [done|by apply digit_printable]|].
  eapply Forall_impl; [exact Hcs|]. apply digit_printable.
Qed.
