(* ===== verification/ParseDifx.v ===== *)
(** * ParseDifx: the parameter files of the correlator

    [parsedifx.c] of [libraries/difxio]: files of lines "KEY: value", held as
    rows with their keys and values, and the searches that the readers of
    [.input], [.calc] and the other files make in them; arrays of strings.

    A pointer is an option, NULL is [None]; memory is always granted.  [None] of
    a whole result is undefined behaviour.  Releasing memory at the end is left
    out, and so are the NULL arrays of strings, for which the functions return at
    once. *)
From S2P Require Export CStrings.
#[local] Open Scope Z_scope.

Definition MAX_DIFX_INPUT_LINE_LENGTH : nat := Z.to_nat 8192.
Definition MAX_DIFX_KEY_LEN : nat := 32.

Record DifxRow : Type := {
  row_line : option cstr;
  row_key : option cstr;
  row_value : option cstr }.

Record DifxParameters : Type := {
  num_rows : Z;
  alloc_rows : Z;
  rows : list DifxRow }.

Record DifxStringArray : Type := {
  sa_str : list (option cstr);
  sa_n : Z;
  sa_nAlloc : Z }.

(** ** Rows *)

(** What [calloc] gives. *)
Definition zero_row : DifxRow := {| row_line := None; row_key := None; row_value := None |}.

Definition newDifxParameters : DifxParameters :=
  {| num_rows := 0; alloc_rows := 100; rows := replicate 100 zero_row |}.

Definition growDifxParameters (dp : DifxParameters) : option DifxParameters :=
  alloc ← sint (2 * alloc_rows dp);
  Some {| num_rows := num_rows dp; alloc_rows := alloc;
     rows := take (Z.to_nat (alloc_rows dp)) (rows dp) ++ replicate (Z.to_nat (alloc_rows dp)) zero_row |}.

(** The first loop over the line: where the colon is, if there is one, and the
    last printable character before it. *)
Fixpoint key_extent (line : cstr) (i lastprintable : Z) : Z * Z :=
  match line with
  | [] => (-1, lastprintable)
  | c :: line =>
      if decide (c = ":"%char) then (i, lastprintable)
      else key_extent line (i + 1) (if printable c then i else lastprintable)
  end.

(** The second loop: the first and the last printable character after the colon. *)
Fixpoint value_extent (line : cstr) (i firstprintable lastprintable : Z) : Z * Z :=
  match line with
  | [] => (firstprintable, lastprintable)
  | c :: line =>
      if printable c then value_extent line (i + 1) (if firstprintable <? 0 then i else firstprintable) i
      else value_extent line (i + 1) firstprintable lastprintable
  end.

Definition parserow (row : DifxRow) : option DifxRow :=
  line ← row_line row;
  let '(colon, lastprintable) := key_extent line 0 (-1) in
  if lastprintable <? 0 then Some row else
  let key := truncated (Z.to_nat (lastprintable + 2)) line in
  if colon <? 0 then Some {| row_line := Some line; row_key := Some key; row_value := row_value row |} else
  let '(firstprintable, lastprintable) := value_extent (drop (Z.to_nat (colon + 1)) line) (colon + 1) (-1) lastprintable in
  let value := if 0 <=? firstprintable
               then truncated (Z.to_nat (lastprintable - firstprintable + 2)) (drop (Z.to_nat firstprintable) line)
               else [] in
  Some {| row_line := Some line; row_key := Some key; row_value := Some value |}.

Definition resetDifxParameters (dp : DifxParameters) : DifxParameters :=
  if num_rows dp =? 0 then dp else
  {| num_rows := 0; alloc_rows := alloc_rows dp;
     rows := replicate (Z.to_nat (num_rows dp)) zero_row ++ drop (Z.to_nat (num_rows dp)) (rows dp) |}.

Definition DifxParametersaddrow (dp : option DifxParameters) (line : cstr) : option (Z * option DifxParameters) :=
  match dp with
  | None => Some (-1, None)
  | Some dp =>
      dp ← (if alloc_rows dp <=? num_rows dp then growDifxParameters dp else Some dp);
      let n := Z.to_nat (num_rows dp) in
      row ← rows dp !! n;
      row ← parserow {| row_line := Some (c_string line); row_key := row_key row; row_value := row_value row |};
      num ← sint (num_rows dp + 1);
      Some (num, Some {| num_rows := num; alloc_rows := alloc_rows dp; rows := <[n := row]> (rows dp) |})
  end.

(** The loop over the lines of a file; its fuel is a bound on their number. *)
Fixpoint fromfile_loop (fuel : nat) (content : cstr) (dp : DifxParameters) : option DifxParameters :=
  match fgets MAX_DIFX_INPUT_LINE_LENGTH content with
  | None => Some dp
  | Some (line, content) =>
      match fuel with
      | O => None
      | S fuel =>
          '(_, dp) ← DifxParametersaddrow (Some dp) line;
          dp ← dp;
          fromfile_loop fuel content dp
      end
  end.

(** [content] is what is in the file, if it can be opened. *)
Definition newDifxParametersfromfile (content : option cstr) : option (option DifxParameters) :=
  match content with
  | None => Some None
  | Some content => Some <$> fromfile_loop (length content) content newDifxParameters
  end.

(** ** Searches *)

(** The first of [n] rows from [i] on that has the key, or -1. *)
Fixpoint find_loop (n : nat) (dp : DifxParameters) (i : Z) (key : cstr) : option Z :=
  match n with
  | O => Some (-1)
  | S n =>
      row ← rows dp !! Z.to_nat i;
      if decide (row_key row = Some key) then Some i else find_loop n dp (i + 1) key
  end.

Definition DifxParametersfind_limited (dp : option DifxParameters) (start_row max_rows : Z) (key : option cstr) : option Z :=
  max_r ← sint (start_row + max_rows);
  d ← dp;
  let max_r := if num_rows d <? max_r then num_rows d else max_r in
  match key with
  | None => Some (-1)
  | Some key =>
      if (start_row <? 0) || (num_rows d <=? start_row) then Some (-1)
      else find_loop (Z.to_nat (max_r - start_row)) d start_row key
  end.

Definition DifxParametersfind (dp : option DifxParameters) (start_row : Z) (key : option cstr) : option Z :=
  match dp, key with
  | Some dp, Some key =>
      if (start_row <? 0) || (num_rows dp <=? start_row) then Some (-1)
      else find_loop (Z.to_nat (num_rows dp - start_row)) dp start_row key
  | _, _ => Some (-1)
  end.

(** [snprintf(newkey, MAX_DIFX_KEY_LEN+1, key, ...)] *)
Definition newkey (key : option cstr) (indices : list Z) : option cstr :=
  key ← key;
  truncated (MAX_DIFX_KEY_LEN + 1) <$> format key indices.

Definition DifxParametersfind1_limited dp start_row max_rows key index1 : option Z :=
  newkey ← newkey key [index1];
  DifxParametersfind_limited dp start_row max_rows (Some newkey).

Definition DifxParametersfind2_limited dp start_row max_rows key index1 index2 : option Z :=
  newkey ← newkey key [index1; index2];
  DifxParametersfind_limited dp start_row max_rows (Some newkey).

Definition DifxParametersfind1 dp start_row key index1 : option Z :=
  newkey ← newkey key [index1];
  DifxParametersfind dp start_row (Some newkey).

Definition DifxParametersfind2 dp start_row key index1 index2 : option Z :=
  newkey ← newkey key [index1; index2];
  DifxParametersfind dp start_row (Some newkey).

Definition DifxParametersvalue (dp : option DifxParameters) (row : Z) : option (option cstr) :=
  match dp with
  | None => Some None
  | Some dp =>
      if (row <? 0) || (num_rows dp <=? row) then Some None
      else row_value <$> rows dp !! Z.to_nat row
  end.

(** The loop of the three functions below, for their searches: how many keys were
    found, and the rows that have been written. *)
Fixpoint batch_loop (find : Z -> cstr -> option Z) (s : Z) (keys : list cstr) : option (Z * list Z) :=
  match keys with
  | [] => Some (0, [])
  | key :: keys =>
      r ← find s key;
      if r <? 0 then Some (0, [r]) else
      '(n, rs) ← batch_loop find (r + 1) keys;
      Some (n + 1, r :: rs)
  end.

Definition DifxParametersbatchfind (dp : option DifxParameters) (start : Z) (keys : list cstr) : option (Z * list Z) :=
  batch_loop (fun s key => DifxParametersfind dp s (Some key)) start keys.

Definition DifxParametersbatchfind1 (dp : option DifxParameters) (start : Z) (keys : list cstr) (index1 : Z) :=
  batch_loop (fun s key => DifxParametersfind1 dp s (Some key) index1) start keys.

Definition DifxParametersbatchfind2 (dp : option DifxParameters) (start : Z) (keys : list cstr) (index1 index2 : Z) :=
  batch_loop (fun s key => DifxParametersfind2 dp s (Some key) index1 index2) start keys.

(** ** Arrays of strings *)

Definition DifxStringArrayinit : DifxStringArray := {| sa_str := []; sa_n := 0; sa_nAlloc := 0 |}.

(** The memory that [realloc] adds has no strings yet. *)
Definition DifxStringArrayadd (sa : DifxStringArray) (str : option cstr) (max : Z) : option (Z * DifxStringArray) :=
  sa ← (if sa_nAlloc sa =? 0 then Some {| sa_str := replicate 16 None; sa_n := 0; sa_nAlloc := 16 |}
        else if sa_nAlloc sa <=? sa_n sa then
          alloc ← sint (sa_nAlloc sa * 2);
          Some {| sa_str := sa_str sa ++ replicate (Z.to_nat (sa_nAlloc sa)) None; sa_n := sa_n sa; sa_nAlloc := alloc |}
        else Some sa);
  let new := match str with
             | Some str => if 0 <? max then take (Z.to_nat max) str else str
             | None => []
             end in
  if decide (0 <= sa_n sa < Z.of_nat (length (sa_str sa))) then
    Some (sa_n sa + 1, {| sa_str := <[Z.to_nat (sa_n sa) := Some new]> (sa_str sa); sa_n := sa_n sa + 1; sa_nAlloc := sa_nAlloc sa |})
  else None.

(** [for(a = start; a < i; ++a)]: the first printable character, or [i]. *)
Fixpoint scan_up (n : nat) (str : cstr) (a : Z) : Z :=
  match n with
  | O => a
  | S n => if printable (nth (Z.to_nat a) str NUL) then a else scan_up n str (a + 1)
  end.

(** [for(b = i-1; b >= start; --b)]: the last one, or [start - 1]. *)
Fixpoint scan_down (n : nat) (str : cstr) (b : Z) : Z :=
  match n with
  | O => b
  | S n => if printable (nth (Z.to_nat b) str NUL) then b else scan_down n str (b - 1)
  end.

(** What is done at a comma or at the end, position [i]. *)
Definition add_item (str : cstr) (start i : Z) (sa : DifxStringArray) : option DifxStringArray :=
  if start <? i then
    let a := scan_up (Z.to_nat (i - start)) str start in
    let b := scan_down (Z.to_nat (i - start)) str (i - 1) in
    if a <=? b then snd <$> DifxStringArrayadd sa (Some (drop (Z.to_nat a) str)) (b - a + 1) else Some sa
  else Some sa.

Fixpoint addlist_loop (rest str : cstr) (i start : Z) (sa : DifxStringArray) : option DifxStringArray :=
  match rest with
  | [] => add_item str start i sa
  | c :: rest =>
      if decide (c = ","%char) then
        sa ← add_item str start i sa;
        addlist_loop rest str (i + 1) (i + 1) sa
      else addlist_loop rest str (i + 1) start sa
  end.

Definition DifxStringArrayaddlist (sa : DifxStringArray) (str : cstr) : option (Z * DifxStringArray) :=
  sa ← addlist_loop str str 0 0 sa;
  Some (sa_n sa, sa).

(** Of two different arrays. *)
Definition DifxStringArrayappend (dest src : DifxStringArray) : option (Z * DifxStringArray) :=
  dest ← run_iters (fun i dest => str ← sa_str src !! i; snd <$> DifxStringArrayadd dest str 0)
           (seq 0 (Z.to_nat (sa_n src))) dest;
  Some (sa_n src, dest).

(** [strcmp] of every string; an entry without a string is read as NULL. *)
Fixpoint contains_loop (strs : list (option cstr)) (str : cstr) : option bool :=
  match strs with
  | [] => Some false
  | s :: strs => s ← s; if decide (s = str) then Some true else contains_loop strs str
  end.

Definition DifxStringArraycontains (sa : DifxStringArray) (str : cstr) : option bool :=
  contains_loop (take (Z.to_nat (sa_n sa)) (sa_str sa)) str.

Definition DifxStringArrayclear (sa : DifxStringArray) : DifxStringArray :=
  if 0 <? sa_nAlloc sa then DifxStringArrayinit else sa.
