(* ===== verification/DifxWrite.v ===== *)
(** * DifxWrite: writing parameter files

    The lines "KEY: value" of [difx_write.c] of [libraries/difxio], which
    [ParseDifx] reads.  The file is the text that has been written to it.
    Numbers in floating point and in hexadecimal are left out. *)
From S2P Require Export ParseDifx.
#[local] Open Scope Z_scope.

(** The buffer [line]: at most [MAX_DIFX_KEY_LEN] characters of the key, the
    colon, and spaces up to column 20. *)
Definition writeDifxLineKey (out key : cstr) : cstr :=
  let line := take MAX_DIFX_KEY_LEN key ++ [":"%char] in
  out ++ line ++ replicate (20 - length line) " "%char.

Definition writeDifxLine (out key value : cstr) : cstr := writeDifxLineKey out key ++ value ++ [LF].

Definition writeDifxLine1 (out key : cstr) (i1 : Z) (value : cstr) : option cstr :=
  k ← newkey (Some key) [i1];
  Some (writeDifxLine out k value).

Definition writeDifxLine2 (out key : cstr) (i1 i2 : Z) (value : cstr) : option cstr :=
  k ← newkey (Some key) [i1; i2];
  Some (writeDifxLine out k value).

Definition writeDifxLine3 (out key : cstr) (i1 i2 i3 : Z) (value : cstr) : option cstr :=
  k ← newkey (Some key) [i1; i2; i3];
  Some (writeDifxLine out k value).

Definition writeDifxLineBoolean (out key : cstr) (value : Z) : cstr :=
  if value =? 0 then writeDifxLine out key (text "FALSE") else writeDifxLine out key (text "TRUE").

Definition writeDifxLineBoolean1 (out key : cstr) (i1 value : Z) : option cstr :=
  k ← newkey (Some key) [i1];
  Some (if value =? 0 then writeDifxLine out k (text "FALSE") else writeDifxLine out k (text "TRUE")).

Definition numLength : nat := 32.

Definition writeDifxLineInt (out key : cstr) (value : Z) : cstr :=
  writeDifxLine out key (truncated numLength (decimal value)).

Definition writeDifxLineInt1 (out key : cstr) (i1 value : Z) : option cstr :=
  k ← newkey (Some key) [i1];
  Some (writeDifxLine out k (truncated numLength (decimal value))).

Definition writeDifxLineInt2 (out key : cstr) (i1 i2 value : Z) : option cstr :=
  k ← newkey (Some key) [i1; i2];
  Some (writeDifxLine out k (truncated numLength (decimal value))).

(** The strings with commas between them; [%s] of NULL is undefined. *)
Fixpoint comma_list (strs : list (option cstr)) : option cstr :=
  match strs with
  | [] => Some [LF]
  | [s] => s ← s; Some (s ++ [LF])
  | s :: strs => s ← s; r ← comma_list strs; Some (s ++ ","%char :: r)
  end.

Definition writeDifxLineStringArray (out key : cstr) (sa : DifxStringArray) : option cstr :=
  r ← comma_list (take (Z.to_nat (sa_n sa)) (sa_str sa));
  Some (writeDifxLineKey out key ++ r).

Definition writeDifxLineStringArray1 (out key : cstr) (i1 : Z) (sa : DifxStringArray) : option cstr :=
  k ← newkey (Some key) [i1];
  writeDifxLineStringArray out k sa.
