(* ===== verification/ParseDifxTheorems.v ===== *)
(** * ParseDifxTheorems: what is in a parameter file

    Rows as cut and trimmed text; files of any content; what is written is read
    back and found by its key; several keys at once; keys with an index; lists of
    strings. *)
From S2P Require Export DifxWrite.
#[local] Open Scope Z_scope.

(** ** Cutting and trimming *)

(** The text before the first colon, and the text after it. *)
Fixpoint cut (line : cstr) : cstr * option cstr :=
  match line with
  | [] => ([], None)
  | c :: line => if decide (c = ":"%char) then ([], Some line) else let '(k, v) := cut line in (c :: k, v)
  end.

Fixpoint ltrim (s : cstr) : cstr :=
  match s with
  | [] => []
  | c :: s' => if printable c then s else ltrim s'
  end.

Fixpoint rtrim (s : cstr) : cstr :=
  match s with
  | [] => []
  | c :: s => match rtrim s with [] => if printable c then [c] else [] | r => c :: r end
  end.

Definition trim (s : cstr) : cstr := rtrim (ltrim s).

(** A row: the key without the blanks behind it, the value without blanks on
    either side; without a key there is no value. *)
Definition row_of (line : cstr) : DifxRow :=
  let '(before, after) := cut line in
  match rtrim before with
  | [] => {| row_line := Some line; row_key := None; row_value := None |}
  | key => {| row_line := Some line; row_key := Some key; row_value := trim <$> after |}
  end.

Lemma rtrim_length s : (length (rtrim s) <= length s)%nat.
Proof. induction s as [|c s IH]; [done|]. cbn [rtrim length]. destruct (rtrim s); [destruct (printable c)|]; cbn [length] in *; lia. Qed.

Lemma ltrim_length s : (length (ltrim s) <= length s)%nat.
Proof. induction s as [|c s IH]; [done|]. cbn [ltrim]. destruct (printable c); cbn [length]; lia. Qed.

Lemma rtrim_take s : take (length (rtrim s)) s = rtrim s.
Proof.
  induction s as [|c s IH]; [done|]. cbn [rtrim]. destruct (rtrim s) as [|d r]; [by destruct (printable c)|].
  cbn [length take] in *. by rewrite IH.
Qed.

Lemma rtrim_take_app s s' : take (length (rtrim s)) (s ++ s') = rtrim s.
Proof. rewrite take_app_le by apply rtrim_length. apply rtrim_take. Qed.

Lemma ltrim_drop s : drop (length s - length (ltrim s)) s = ltrim s.
Proof.
  induction s as [|c s IH]; [done|]. cbn [ltrim]. destruct (printable c); [by rewrite Nat.sub_diag|].
  cbn [length]. replace (S (length s) - length (ltrim s))%nat with (S (length s - length (ltrim s))) by (pose proof (ltrim_length s); lia).
  exact IH.
Qed.

Lemma rtrim_nil_ltrim s : rtrim s = [] -> ltrim s = [].
Proof.
  induction s as [|c s IH]; [done|]. cbn [rtrim ltrim]. destruct (rtrim s); [|done]. destruct (printable c); [done|]. by intros _; apply IH.
Qed.

Lemma trim_length s : rtrim s <> [] -> (length (trim s) + (length s - length (ltrim s)) = length (rtrim s))%nat.
Proof.
  unfold trim. induction s as [|c s IH]; [done|]. cbn [ltrim]. destruct (printable c) eqn:Ec.
  - intros _. rewrite Nat.sub_diag. lia.
  - cbn [rtrim]. rewrite Ec. destruct (rtrim s) as [|d r]; [done|]. intros _. specialize (IH ltac:(done)).
    pose proof (ltrim_length s). cbn [length] in *. lia.
Qed.

Lemma cut_line line : line = fst (cut line) ++ match snd (cut line) with Some after => ":"%char :: after | None => [] end.
Proof.
  induction line as [|c line IH]; [done|]. cbn [cut]. case_decide as Hc; [by subst|]. destruct (cut line) as [k v]. cbn [fst snd app] in *. by rewrite <-IH.
Qed.

(** ** Rows *)

Lemma key_extent_spec line : forall i last,
  key_extent line i last =
  (match snd (cut line) with None => -1 | Some _ => i + Z.of_nat (length (fst (cut line))) end,
   match rtrim (fst (cut line)) with [] => last | key => i + Z.of_nat (length key) - 1 end).
Proof.
  induction line as [|c line IH]; intros i last; [done|]. cbn [key_extent cut]. case_decide as Hc.
  - cbn [fst snd length rtrim]. f_equal. lia.
  - rewrite IH. destruct (cut line) as [k v]. cbn [fst snd length rtrim]. f_equal.
    + destruct v; [lia|done].
    + destruct (rtrim k) as [|d r]; [destruct (printable c); cbn [length]; lia|cbn [length]; lia].
Qed.

Lemma value_extent_spec s : forall i first last, 0 <= i ->
  value_extent s i first last =
  match rtrim s with
  | [] => (first, last)
  | r => (if first <? 0 then i + Z.of_nat (length s - length (ltrim s)) else first, i + Z.of_nat (length r) - 1)
  end.
Proof.
  induction s as [|c s IH]; intros i first last Hi; [done|]. cbn [value_extent rtrim ltrim].
  destruct (printable c) eqn:Ec.
  - rewrite IH by lia. rewrite Nat.sub_diag. destruct (Z.ltb_spec first 0) as [Hf|Hf].
    + destruct (Z.ltb_spec i 0); [lia|]. destruct (rtrim s) as [|d r]; cbn [length]; f_equal; lia.
    + destruct (Z.ltb_spec first 0); [lia|]. destruct (rtrim s) as [|d r]; cbn [length]; f_equal; lia.
  - rewrite IH by lia. destruct (rtrim s) as [|d r]; [done|]. pose proof (ltrim_length s). cbn [length].
    f_equal; [destruct (first <? 0)|]; lia.
Qed.

Lemma parserow_row_of line : parserow {| row_line := Some line; row_key := None; row_value := None |} = Some (row_of line).
Proof.
  unfold parserow, row_of. cbn [row_line row_value mbind option_bind]. rewrite key_extent_spec.
  pose proof (cut_line line) as El. destruct (cut line) as [before after]. cbn [fst snd] in *.
  destruct (rtrim before) as [|c key] eqn:Ek; [done|]. destruct (Z.ltb_spec (0 + Z.of_nat (length (c :: key)) - 1) 0); [cbn [length] in *; lia|].
  assert (Ekey : truncated (Z.to_nat (0 + Z.of_nat (length (c :: key)) - 1 + 2)) line = c :: key).
  { unfold truncated. replace (Z.to_nat (0 + Z.of_nat (length (c :: key)) - 1 + 2) - 1)%nat with (length (c :: key)) by lia.
    rewrite El, <-Ek. apply rtrim_take_app. }
  rewrite Ekey. destruct after as [after|]; [|done].
  destruct (Z.ltb_spec (0 + Z.of_nat (length before)) 0); [lia|]. rewrite value_extent_spec by lia.
  replace (Z.to_nat (0 + Z.of_nat (length before) + 1)) with (length before + 1)%nat by lia.
  assert (Ea : drop (length before + 1) line = after) by (by rewrite El, drop_app_add).
  rewrite Ea. cbn [fmap option_fmap option_map]. destruct (rtrim after) as [|d r] eqn:Er.
  - cbn [Z.leb Z.compare]. unfold trim. by rewrite rtrim_nil_ltrim.
  - pose proof (trim_length after ltac:(by rewrite Er)) as Hl. rewrite Er in Hl. pose proof (ltrim_length after).
    cbn [Z.ltb Z.compare]. set (first := 0 + Z.of_nat (length before) + 1 + Z.of_nat (length after - length (ltrim after))).
    destruct (Z.leb_spec 0 first); [|lia]. unfold truncated.
    replace (Z.to_nat first) with (length before + 1 + (length after - length (ltrim after)))%nat by lia.
    rewrite <-drop_drop, Ea, ltrim_drop.
    replace (Z.to_nat _ - 1)%nat with (length (trim after)) by (cbn [length] in *; lia).
    unfold trim. by rewrite rtrim_take.
Qed.

(** The rows of text are the text cut at its first colon and trimmed: blanks are
    the characters up to the space and those that are negative as [char]s; a row
    has a key if something printable is before the colon, and then a value if there
    is a colon. *)
Theorem parserow_trims line :
  exists row, parserow {| row_line := Some line; row_key := None; row_value := None |} = Some row /\ row = row_of line /\
    forall key after, rtrim key = key -> key <> [] -> ":"%char ∉ key -> line = key ++ ":"%char :: after ->
      row_key row = Some key /\ row_value row = Some (trim after).
Proof.
  exists (row_of line). split; [apply parserow_row_of|]. split; [done|]. intros key after Ht Hne Hc ->.
  assert (E : cut (key ++ ":"%char :: after) = (key, Some after)).
  { clear Ht Hne. induction key as [|c key IH]; cbn [app cut]; [by rewrite decide_True|].
    rewrite not_elem_of_cons in Hc. destruct Hc as [Hc1 Hc2]. rewrite decide_False by done. by rewrite IH. }
  unfold row_of. rewrite E, Ht. by destruct key.
Qed.

Lemma parserow_trims_witness :
  let line := text "EXECUTE TIME (SEC): 7200 " ++ [LF] in
  exists row, parserow {| row_line := Some line; row_key := None; row_value := None |} = Some row /\
    row_key row = Some (text "EXECUTE TIME (SEC)") /\ row_value row = Some (text "7200").
Proof.
  intros line. destruct (parserow_trims line) as (row & E & _ & H). exists row. split; [exact E|].
  apply (H (text "EXECUTE TIME (SEC)") (text " 7200 " ++ [LF])); [done|done| |done].
  apply (bool_decide_eq_true_1 _). by vm_compute.
Defined.

(** ** Tables of rows *)

(** The rows [rs], in memory that has been doubled as often as needed. *)
Record params_rep (dp : DifxParameters) (rs : list DifxRow) : Prop := {
  pr_num : num_rows dp = Z.of_nat (length rs);
  pr_alloc : Z.max 100 (Z.of_nat (length rs)) <= alloc_rows dp <= Z.max 100 (2 * Z.of_nat (length rs));
  pr_rows : rows dp = rs ++ replicate (Z.to_nat (alloc_rows dp) - length rs) zero_row }.

Lemma newDifxParameters_rep : params_rep newDifxParameters [].
Proof. by split. Qed.

Lemma addrow_rep dp rs line : params_rep dp rs -> Z.of_nat (length rs) < 2 ^ 29 ->
  exists dp', DifxParametersaddrow (Some dp) line = Some (Z.of_nat (length rs) + 1, Some dp') /\
    params_rep dp' (rs ++ [row_of (c_string line)]).
Proof.
  intros [Hn Ha Hr] Hlt. unfold DifxParametersaddrow.
  assert (Hgrow : exists dp1, (if alloc_rows dp <=? num_rows dp then growDifxParameters dp else Some dp) = Some dp1 /\
    num_rows dp1 = Z.of_nat (length rs) /\ Z.max 100 (Z.of_nat (length rs) + 1) <= alloc_rows dp1 <= Z.max 100 (2 * (Z.of_nat (length rs) + 1)) /\
    rows dp1 = rs ++ replicate (Z.to_nat (alloc_rows dp1) - length rs) zero_row).
  { destruct (Z.leb_spec (alloc_rows dp) (num_rows dp)) as [Hle|Hgt].
    - unfold growDifxParameters. rewrite sint_Some by lia. cbn [mbind option_bind]. eexists. split; [reflexivity|]. cbn [num_rows alloc_rows rows].
      assert (Ea : alloc_rows dp = Z.of_nat (length rs)) by lia. split; [done|]. rewrite Hr, Ea, Nat2Z.id, Nat.sub_diag. cbn [replicate].
      rewrite app_nil_r. rewrite take_ge by lia. replace (Z.to_nat (2 * Z.of_nat (length rs)) - length rs)%nat with (length rs) by lia.
      split; [lia|done].
    - exists dp. repeat split; [done|lia|lia|done]. }
  destruct Hgrow as (dp1 & -> & Hn1 & Ha1 & Hr1). cbn [mbind option_bind]. rewrite Hn1, Nat2Z.id, Hr1.
  assert (Er : replicate (Z.to_nat (alloc_rows dp1) - length rs) zero_row = zero_row :: replicate (Z.to_nat (alloc_rows dp1) - S (length rs)) zero_row).
  { replace (Z.to_nat (alloc_rows dp1) - length rs)%nat with (S (Z.to_nat (alloc_rows dp1) - S (length rs))) by lia. done. }
  rewrite Er, list_lookup_middle by done. cbn [mbind option_bind zero_row row_key row_value]. rewrite parserow_row_of. cbn [mbind option_bind].
  rewrite sint_Some by lia. cbn [mbind option_bind]. eexists. split; [reflexivity|].
  split; cbn [num_rows alloc_rows rows]; rewrite ?length_app; cbn [length]; [lia|lia|].
  rewrite insert_app_r_alt, Nat.sub_diag by done. cbn [insert list_insert]. rewrite <-app_assoc. cbn [app]. do 3 f_equal. lia.
Qed.

(** The pieces in which a file is read: lines, or 8191 characters of longer ones. *)
Fixpoint pieces (fuel : nat) (content : cstr) : list cstr :=
  match fuel, fgets MAX_DIFX_INPUT_LINE_LENGTH content with
  | S fuel, Some (line, content) => line :: pieces fuel content
  | _, _ => []
  end.

Lemma fgets_Some content line rest : fgets MAX_DIFX_INPUT_LINE_LENGTH content = Some (line, rest) ->
  content = line ++ rest /\ (1 <= length line <= MAX_DIFX_INPUT_LINE_LENGTH - 1)%nat.
Proof.
  unfold fgets. destruct content as [|c content]; [done|]. intros E. apply (inj Some) in E.
  pose proof (get_line_app (MAX_DIFX_INPUT_LINE_LENGTH - 1) (c :: content)) as Ha.
  pose proof (get_line_length (MAX_DIFX_INPUT_LINE_LENGTH - 1) (c :: content)) as Hl.
  pose proof (get_line_nonempty (MAX_DIFX_INPUT_LINE_LENGTH - 1) c content) as Hne.
  rewrite E in Ha, Hl, Hne. cbn [fst] in *. split; [done|]. destruct line; [|cbn [length] in *; lia].
  destruct Hne; [unfold MAX_DIFX_INPUT_LINE_LENGTH; lia|done].
Qed.

Lemma pieces_concat fuel : forall content, (length content <= fuel)%nat ->
  concat (pieces fuel content) = content /\ Forall (fun l => (1 <= length l <= MAX_DIFX_INPUT_LINE_LENGTH - 1)%nat) (pieces fuel content).
Proof.
  induction fuel as [|fuel IH]; intros content Hf; [by destruct content; [|cbn in Hf; lia]|]. cbn [pieces].
  destruct (fgets _ content) as [[line rest]|] eqn:E.
  - destruct (fgets_Some _ _ _ E) as [-> Hl]. rewrite length_app in Hf. destruct (IH rest ltac:(lia)) as [H1 H2].
    cbn [concat]. by rewrite H1; split; [|constructor].
  - by destruct content.
Qed.

Lemma fromfile_loop_rep fuel : forall content dp rs, (length content <= fuel)%nat -> params_rep dp rs ->
  Z.of_nat (length rs) + Z.of_nat (length content) < 2 ^ 29 ->
  exists dp', fromfile_loop fuel content dp = Some dp' /\ params_rep dp' (rs ++ (row_of ∘ c_string <$> pieces fuel content)).
Proof.
  induction fuel as [|fuel IH]; intros content dp rs Hf Hrep Hlt.
  - exists dp. destruct content; [|cbn in Hf; lia]. cbn [fromfile_loop fgets pieces fmap list_fmap]. by rewrite app_nil_r.
  - cbn [fromfile_loop pieces]. destruct (fgets _ content) as [[line rest]|] eqn:E.
    + destruct (fgets_Some _ _ _ E) as [-> Hl]. rewrite length_app in Hf, Hlt.
      destruct (addrow_rep dp rs line Hrep ltac:(lia)) as (dp1 & -> & Hrep1). cbn [mbind option_bind].
      destruct (IH rest dp1 _ ltac:(lia) Hrep1) as (dp' & E' & Hrep'); [rewrite length_app; cbn [length]; lia|].
      exists dp'. split; [exact E'|]. rewrite fmap_cons. by rewrite <-app_assoc in Hrep'.
    + exists dp. cbn [fmap list_fmap]. by rewrite app_nil_r.
Qed.

Definition rows_of_file (content : cstr) : list DifxRow := row_of ∘ c_string <$> pieces (length content) content.

Lemma fromfile_rep content : Z.of_nat (length content) < 2 ^ 29 ->
  exists dp, newDifxParametersfromfile (Some content) = Some (Some dp) /\ params_rep dp (rows_of_file content).
Proof.
  intros Hlt. destruct (fromfile_loop_rep (length content) content newDifxParameters [] ltac:(done) newDifxParameters_rep) as (dp & E & Hrep);
    [cbn [length]; lia|].
  exists dp. split; [|exact Hrep]. unfold newDifxParametersfromfile. by rewrite E.
Qed.

(** ** Searches *)

(** What a search from row [s] for a key must give: the first row from there on
    that has the key, or -1 when there is none. *)
Definition found_row (rs : list DifxRow) (s : Z) (key : cstr) (r : Z) : Prop :=
  (r = -1 /\ forall i row, s <= Z.of_nat i -> rs !! i = Some row -> row_key row <> Some key) \/
  (0 <= s <= r /\ (row_key <$> rs !! Z.to_nat r) = Some (Some key) /\
   forall i row, s <= Z.of_nat i < r -> rs !! i = Some row -> row_key row <> Some key).

Lemma found_row_unique rs s key r r' : 0 <= s -> found_row rs s key r -> found_row rs s key r' -> r = r'.
Proof.
  assert (Hin : forall r, (row_key <$> rs !! Z.to_nat r) = Some (Some key) -> exists row, rs !! Z.to_nat r = Some row /\ row_key row = Some key).
  { intros r0 E. destruct (rs !! Z.to_nat r0) as [row|]; [|done]. injection E as E. by exists row. }
  intros Hs [[-> H1]|(H1 & H2 & H3)] [[-> H1']|(H1' & H2' & H3')]; [done| | |].
  - destruct (Hin _ H2') as (row & E & Hk). by destruct (H1 (Z.to_nat r') row ltac:(lia) E).
  - destruct (Hin _ H2) as (row & E & Hk). by destruct (H1' (Z.to_nat r) row ltac:(lia) E).
  - destruct (Z.lt_total r r') as [Hlt|[->|Hlt]]; [|done|].
    + destruct (Hin _ H2) as (row & E & Hk). by destruct (H3' (Z.to_nat r) row ltac:(lia) E).
    + destruct (Hin _ H2') as (row & E & Hk). by destruct (H3 (Z.to_nat r') row ltac:(lia) E).
Qed.

Lemma find_loop_found_row dp rs key n : params_rep dp rs -> forall i, 0 <= i -> i + Z.of_nat n <= Z.of_nat (length rs) ->
  exists r, find_loop n dp i key = Some r /\
    ((r = -1 /\ forall j row, i <= Z.of_nat j < i + Z.of_nat n -> rs !! j = Some row -> row_key row <> Some key) \/
     (i <= r < i + Z.of_nat n /\ (row_key <$> rs !! Z.to_nat r) = Some (Some key) /\
      forall j row, i <= Z.of_nat j < r -> rs !! j = Some row -> row_key row <> Some key)).
Proof.
  intros Hrep. induction n as [|n IH]; intros i Hi Hn; cbn [find_loop].
  - exists (-1). split; [done|]. left. split; [done|]. intros j row Hj. lia.
  - destruct (lookup_lt_is_Some_2 rs (Z.to_nat i) ltac:(lia)) as [row Erow].
    rewrite (pr_rows _ _ Hrep), lookup_app_l, Erow by lia. cbn [mbind option_bind].
    destruct (decide (row_key row = Some key)) as [Hk|Hk].
    + exists i. split; [done|]. right. split; [lia|]. split; [rewrite Erow; cbn; by rewrite Hk|]. intros j row' Hj. lia.
    + destruct (IH (i + 1) ltac:(lia) ltac:(lia)) as (r & -> & Hr). exists r. split; [done|].
      assert (Hfirst : forall j row', Z.of_nat j = i -> rs !! j = Some row' -> row_key row' <> Some key).
      { intros j row' Hj E. replace j with (Z.to_nat i) in E by lia. rewrite Erow in E. by injection E as <-. }
      destruct Hr as [[-> H]|(H1 & H2 & H3)].
      * left. split; [done|]. intros j row' Hj E. destruct (decide (Z.of_nat j = i)); [by apply (Hfirst j)|apply (H j); [lia|done]].
      * right. split; [lia|]. split; [done|]. intros j row' Hj E. destruct (decide (Z.of_nat j = i)); [by apply (Hfirst j)|apply (H3 j); [lia|done]].
Qed.

(** A search from a row that is not in the table finds nothing. *)
Lemma DifxParametersfind_found_row dp rs s key : params_rep dp rs ->
  exists r, DifxParametersfind (Some dp) s (Some key) = Some r /\ r < Z.of_nat (length rs) /\
    if s <? 0 then r = -1 else found_row rs s key r.
Proof.
  intros Hrep. unfold DifxParametersfind. rewrite (pr_num _ _ Hrep).
  destruct (Z.ltb_spec s 0) as [Hs|Hs]; cbn [orb]; [exists (-1); split; [done|]; split; [lia|done]|].
  destruct (Z.leb_spec (Z.of_nat (length rs)) s).
  - exists (-1). split; [done|]. split; [lia|]. left. split; [done|]. intros i row Hi E. apply lookup_lt_Some in E. lia.
  - destruct (find_loop_found_row dp rs key (Z.to_nat (Z.of_nat (length rs) - s)) Hrep s Hs ltac:(lia)) as (r & -> & Hr).
    exists r. split; [done|]. destruct Hr as [[-> Hr]|(H1 & H2 & H3)].
    + split; [lia|]. left. split; [done|]. intros i row Hi E. apply (Hr i); [|done]. apply lookup_lt_Some in E. lia.
    + split; [lia|]. right. split; [lia|done].
Qed.

(** A row that is the first one with its key is found, and its value is read. *)
Lemma find_value dp rs s i row key : params_rep dp rs -> 0 <= s <= Z.of_nat i -> rs !! i = Some row -> row_key row = Some key ->
  (forall j row', s <= Z.of_nat j < Z.of_nat i -> rs !! j = Some row' -> row_key row' <> Some key) ->
  DifxParametersfind (Some dp) s (Some key) = Some (Z.of_nat i) /\ DifxParametersvalue (Some dp) (Z.of_nat i) = Some (row_value row).
Proof.
  intros Hrep Hs Hi Hk Hbefore. destruct (DifxParametersfind_found_row dp rs s key Hrep) as (r & -> & _ & Hr).
  destruct (Z.ltb_spec s 0); [lia|]. split.
  - f_equal. apply (found_row_unique rs s key); [lia|exact Hr|]. right. rewrite Nat2Z.id, Hi. cbn. by rewrite Hk.
  - unfold DifxParametersvalue. rewrite (pr_num _ _ Hrep). pose proof (lookup_lt_Some _ _ _ Hi).
    destruct (Z.ltb_spec (Z.of_nat i) 0); [lia|]. destruct (Z.leb_spec (Z.of_nat (length rs)) (Z.of_nat i)); [lia|]. cbn [orb].
    rewrite Nat2Z.id, (pr_rows _ _ Hrep), lookup_app_l, Hi by done. done.
Qed.

(** ** Written lines *)

Definition key_ok (k : cstr) : Prop :=
  k <> [] /\ rtrim k = k /\ (":"%char ∉ k) /\ (NUL ∉ k) /\ (LF ∉ k) /\ (length k <= MAX_DIFX_KEY_LEN)%nat.
Definition value_ok (v : cstr) : Prop := trim v = v /\ (NUL ∉ v) /\ (LF ∉ v).

(** A line that is read in one piece. *)
Definition line_ok (kv : cstr * cstr) : Prop :=
  key_ok kv.1 /\ value_ok kv.2 /\ (length (writeDifxLine [] kv.1 kv.2) <= MAX_DIFX_INPUT_LINE_LENGTH - 1)%nat.

#[export] Instance line_ok_dec kv : Decision (line_ok kv).
Proof. unfold line_ok, key_ok, value_ok. apply _. Defined.

Definition written_row (kv : cstr * cstr) : DifxRow :=
  {| row_line := Some (writeDifxLine [] kv.1 kv.2); row_key := Some kv.1; row_value := Some kv.2 |}.

Lemma writeDifxLine_app out k v : writeDifxLine out k v = out ++ writeDifxLine [] k v.
Proof. unfold writeDifxLine, writeDifxLineKey. by rewrite <-!app_assoc. Qed.

Lemma ltrim_spaces n s : ltrim (replicate n " "%char ++ s) = ltrim s.
Proof. induction n as [|n IH]; [done|]. exact IH. Qed.

Lemma trim_LF v : trim (v ++ [LF]) = trim v.
Proof.
  assert (Hr : forall s, rtrim (s ++ [LF]) = rtrim s).
  { intros s. induction s as [|c s IH]; [done|]. cbn [app rtrim]. by rewrite IH. }
  unfold trim. induction v as [|c v IH]; [done|]. cbn [app ltrim]. destruct (printable c); [apply (Hr (c :: v))|exact IH].
Qed.

Lemma cut_key k after : ":"%char ∉ k -> cut (k ++ ":"%char :: after) = (k, Some after).
Proof.
  induction k as [|c k IH]; cbn [app cut]; [by rewrite decide_True|].
  rewrite not_elem_of_cons. intros [Hc Hk]. rewrite decide_False by done. by rewrite IH.
Qed.

Lemma writeDifxLine_text k v : (length k <= MAX_DIFX_KEY_LEN)%nat ->
  writeDifxLine [] k v = k ++ ":"%char :: replicate (20 - S (length k)) " "%char ++ v ++ [LF].
Proof.
  intros Hk. unfold writeDifxLine, writeDifxLineKey. rewrite take_ge, length_app by done. cbn [length app].
  rewrite <-!app_assoc. cbn [app]. by rewrite Nat.add_1_r.
Qed.

Lemma row_of_written kv : line_ok kv -> row_of (c_string (writeDifxLine [] kv.1 kv.2)) = written_row kv.
Proof.
  intros ((Hne & Htrim & Hc & Hn & _ & Hl) & (Hv & Hvn & _) & _). unfold written_row. rewrite c_string_id.
  - unfold row_of. rewrite writeDifxLine_text by done. rewrite cut_key, Htrim by done. destruct kv as [[|c k] v]; [done|]. cbn [fst snd] in *.
    cbn [fmap option_fmap option_map]. unfold trim at 1. rewrite ltrim_spaces. change (rtrim (ltrim (v ++ [LF]))) with (trim (v ++ [LF])).
    by rewrite trim_LF, Hv.
  - rewrite writeDifxLine_text by done. rewrite !not_elem_of_app, not_elem_of_cons, !not_elem_of_app, list_elem_of_singleton.
    split; [done|]. split; [done|]. split; [|done]. intros Hin. apply elem_of_replicate in Hin as [? _]. done.
Qed.

Lemma pieces_cons fuel l rest : LF ∉ l -> (length l + 1 <= MAX_DIFX_INPUT_LINE_LENGTH - 1)%nat ->
  pieces (S fuel) (l ++ LF :: rest) = (l ++ [LF]) :: pieces fuel rest.
Proof.
  intros Hl Hlen. cbn [pieces]. unfold fgets. destruct (l ++ LF :: rest) as [|c s] eqn:E; [by destruct l|].
  rewrite <-E, get_line_line by (done || lia). done.
Qed.

Definition written (kvs : list (cstr * cstr)) : cstr := concat ((fun kv => writeDifxLine [] kv.1 kv.2) <$> kvs).

Lemma pieces_written kvs : forall fuel, Forall line_ok kvs -> (length (written kvs) <= fuel)%nat ->
  pieces fuel (written kvs) = (fun kv => writeDifxLine [] kv.1 kv.2) <$> kvs.
Proof.
  induction kvs as [|kv kvs IH]; intros fuel Hok Hf; [by destruct fuel|]. apply Forall_cons_1 in Hok as [Hkv Hok].
  unfold written in *. rewrite fmap_cons. cbn [concat]. destruct Hkv as ((Hne & _ & _ & _ & HkL & Hl) & (_ & _ & HvL) & Hlen).
  rewrite writeDifxLine_text in Hlen |- * by done. destruct fuel as [|fuel].
  { rewrite fmap_cons in Hf. cbn [concat] in Hf. rewrite writeDifxLine_text, !length_app in Hf by done. cbn [length] in Hf. lia. }
  set (body := kv.1 ++ ":"%char :: replicate (20 - S (length kv.1)) " "%char ++ kv.2).
  assert (Eb : kv.1 ++ ":"%char :: replicate (20 - S (length kv.1)) " "%char ++ kv.2 ++ [LF] = body ++ [LF]).
  { unfold body. rewrite <-app_assoc. cbn [app]. by rewrite <-app_assoc. }
  rewrite Eb in *. rewrite <-app_assoc. cbn [app]. rewrite pieces_cons.
  - rewrite IH; [done|done|]. rewrite fmap_cons in Hf. cbn [concat] in Hf. rewrite writeDifxLine_text, Eb, !length_app in Hf by done.
    cbn [length] in Hf. lia.
  - unfold body. rewrite not_elem_of_app, not_elem_of_cons, not_elem_of_app. split; [done|]. split; [done|]. split; [|done].
    intros Hin. apply elem_of_replicate in Hin as [? _]. done.
  - rewrite length_app in Hlen. cbn [length] in Hlen. lia.
Qed.

Lemma rows_of_written kvs : Forall line_ok kvs -> rows_of_file (written kvs) = written_row <$> kvs.
Proof.
  intros Hok. unfold rows_of_file. rewrite pieces_written by done. rewrite <-list_fmap_compose.
  induction Hok as [|kv kvs Hkv Hok IH]; [done|]. rewrite !fmap_cons. cbn [compose]. by rewrite row_of_written, IH.
Qed.

(** C16 What is written is read back: from a file of lines, each short enough to be
    read in one piece, come rows with these keys and values; a search for a key from
    any row up to the first one with it ends there and its value is the text that
    was written. *)
Theorem difx_file_roundtrip kvs : Forall line_ok kvs -> Z.of_nat (length (written kvs)) < 2 ^ 29 ->
  written kvs = foldl (fun out kv => writeDifxLine out kv.1 kv.2) [] kvs /\
  exists dp, newDifxParametersfromfile (Some (written kvs)) = Some (Some dp) /\ params_rep dp (written_row <$> kvs) /\
    forall s i k v, kvs !! i = Some (k, v) -> 0 <= s <= Z.of_nat i ->
      (forall j kv, s <= Z.of_nat j < Z.of_nat i -> kvs !! j = Some kv -> kv.1 <> k) ->
      DifxParametersfind (Some dp) s (Some k) = Some (Z.of_nat i) /\
      DifxParametersvalue (Some dp) (Z.of_nat i) = Some (Some v).
Proof.
  intros Hok Hlt. split.
  - assert (Hfold : forall out, foldl (fun out kv => writeDifxLine out kv.1 kv.2) out kvs = out ++ written kvs); [|by rewrite Hfold].
    clear Hok Hlt. induction kvs as [|kv kvs IH]; intros out; [by rewrite app_nil_r|]. cbn [foldl]. rewrite IH.
    unfold written. rewrite fmap_cons. cbn [concat]. by rewrite writeDifxLine_app, app_assoc.
  - destruct (fromfile_rep (written kvs) Hlt) as (dp & E & Hrep). rewrite rows_of_written in Hrep by done.
    exists dp. split; [done|]. split; [done|]. intros s i k v Hi Hs Hbefore.
    apply (find_value dp _ s i (written_row (k, v)) k Hrep Hs); [by rewrite list_lookup_fmap, Hi|done|].
    intros j row Hj E'. rewrite list_lookup_fmap in E'. destruct (kvs !! j) as [kv|] eqn:Ej; [|done]. injection E' as <-.
    intros [= Hk]. by apply (Hbefore j kv).
Qed.

Lemma difx_file_roundtrip_witness :
  let kvs := [(text "CALC FILENAME", text "/data/job_1.calc"); (text "EXECUTE TIME (SEC)", text "7200"); (text "OUTPUT FILENAME", [])] in
  exists dp, newDifxParametersfromfile (Some (written kvs)) = Some (Some dp) /\
    DifxParametersfind (Some dp) 0 (Some (text "EXECUTE TIME (SEC)")) = Some 1 /\
    DifxParametersvalue (Some dp) 1 = Some (Some (text "7200")).
Proof.
  intros kvs. assert (Hok : Forall line_ok kvs) by (apply (bool_decide_eq_true_1 _); by vm_compute).
  destruct (difx_file_roundtrip kvs Hok) as (_ & dp & E & _ & H); [by vm_compute|]. exists dp. split; [exact E|].
  apply (H 0 1%nat); [done|lia|]. intros j kv Hj Ej. assert (j = 0%nat) as -> by lia. injection Ej as <-. done.
Defined.

(** C27 A file of any content, up to 512 MB, is read without undefined behaviour:
    the rows are the pieces of the file in order, nothing is left out, and every
    piece is a line or 8191 characters of a longer one; from a file that cannot be
    opened comes NULL. *)
Theorem newDifxParametersfromfile_total content : Z.of_nat (length content) < 2 ^ 29 ->
  newDifxParametersfromfile None = Some None /\
  exists dp lines, newDifxParametersfromfile (Some content) = Some (Some dp) /\
    params_rep dp (row_of ∘ c_string <$> lines) /\ concat lines = content /\
    Forall (fun l => (1 <= length l <= MAX_DIFX_INPUT_LINE_LENGTH - 1)%nat) lines.
Proof.
  intros Hlt. split; [done|]. destruct (fromfile_rep content Hlt) as (dp & E & Hrep).
  destruct (pieces_concat (length content) content ltac:(done)) as [H1 H2].
  by exists dp, (pieces (length content) content).
Qed.

Lemma newDifxParametersfromfile_total_witness :
  let content := text "no colon" ++ [LF; NUL; LF] in
  exists dp lines, newDifxParametersfromfile (Some content) = Some (Some dp) /\ concat lines = content /\ params_rep dp (row_of ∘ c_string <$> lines).
Proof.
  intros content. destruct (newDifxParametersfromfile_total content) as (_ & dp & lines & E & Hrep & Hc & _); [by vm_compute|].
  by exists dp, lines.
Defined.

(** ** Several keys *)

(** The rows [rws] have the keys, in this order, from row [s] on. *)
Fixpoint at_rows (rs : list DifxRow) (s : Z) (keys : list cstr) (rws : list Z) : Prop :=
  match keys, rws with
  | [], [] => True
  | key :: keys, i :: rws => s <= i /\ (row_key <$> rs !! Z.to_nat i) = Some (Some key) /\ at_rows rs (i + 1) keys rws
  | _, _ => False
  end.

Lemma at_rows_weaken rs keys rws s s' : s' <= s -> at_rows rs s keys rws -> at_rows rs s' keys rws.
Proof. intros Hs. destruct keys, rws; cbn [at_rows]; try done. intros (H1 & H2 & H3). split; [lia|done]. Qed.

Lemma batchfind_greedy dp rs keys : params_rep dp rs -> forall s, 0 <= s ->
  exists n rws, DifxParametersbatchfind (Some dp) s keys = Some (n, rws) /\ 0 <= n <= Z.of_nat (length keys) /\
    (n = Z.of_nat (length keys) -> at_rows rs s keys rws) /\
    (n < Z.of_nat (length keys) -> forall rws', ~ at_rows rs s keys rws') /\
    (n < Z.of_nat (length keys) -> rws !! Z.to_nat n = Some (-1)) /\ at_rows rs s (take (Z.to_nat n) keys) (take (Z.to_nat n) rws).
Proof.
  intros Hrep. unfold DifxParametersbatchfind. induction keys as [|key keys IH]; intros s Hs; cbn [batch_loop].
  - exists 0, []. split; [done|]. cbn [length]. repeat split; lia || done.
  - destruct (DifxParametersfind_found_row dp rs s key Hrep) as (r & -> & _ & Hr). destruct (Z.ltb_spec s 0); [lia|]. cbn [mbind option_bind].
    destruct (Z.ltb_spec r 0) as [Hneg|Hpos].
    + assert (r = -1) as -> by (destruct Hr as [[? _]|[? _]]; lia).
      exists 0, [-1]. split; [done|]. cbn [length]. split; [lia|]. split; [lia|]. split; [|split; [intros _; reflexivity|exact I]].
      intros _ [|i rws']; cbn [at_rows]; [by intros []|]. intros (Hi & Hk & _). destruct Hr as [[_ Hr]|[? _]]; [|lia].
      destruct (rs !! Z.to_nat i) as [row|] eqn:E; [|done]. injection Hk as Hk. by apply (Hr (Z.to_nat i) row); [lia|..].
    + destruct Hr as [[-> _]|(Hsr & Hk & Hfirst)]; [lia|].
      destruct (IH (r + 1) ltac:(lia)) as (n & rws & -> & Hn & Hall & Hnone & Hlast & Hpre). cbn [mbind option_bind].
      exists (n + 1), (r :: rws). split; [done|]. cbn [length]. split; [lia|].
      replace (Z.to_nat (n + 1)) with (S (Z.to_nat n)) by lia. cbn [take at_rows].
      split; [intros E; split; [lia|]; split; [done|]; apply Hall; lia|]. split; [|split; [intros Hlt; apply Hlast; lia|]; split; [lia|done]].
      intros Hlt [|i rws']; [by intros []|]. intros (Hi & Hki & Hrest). apply (Hnone ltac:(lia) rws'). eapply at_rows_weaken; [|exact Hrest].
      destruct (Z.le_gt_cases r i) as [?|Hgt]; [lia|]. destruct (rs !! Z.to_nat i) as [row|] eqn:E; [|done]. injection Hki as Hki.
      by destruct (Hfirst (Z.to_nat i) row ltac:(lia) E).
Qed.

(** C26 Several keys: all of them are found exactly when the rows have them in this
    order from the start row on; the rows that are written are such rows, up to a
    -1 at the first key that is not found; keys with an index are searched for as
    the texts that the index makes of them. *)
Theorem DifxParametersbatchfind_spec dp rs start keys : params_rep dp rs -> 0 <= start ->
  (exists n rws, DifxParametersbatchfind (Some dp) start keys = Some (n, rws) /\ 0 <= n <= Z.of_nat (length keys) /\
    (n = Z.of_nat (length keys) <-> exists rws', at_rows rs start keys rws') /\
    at_rows rs start (take (Z.to_nat n) keys) (take (Z.to_nat n) rws) /\
    (n < Z.of_nat (length keys) -> rws !! Z.to_nat n = Some (-1))) /\
  (forall index1 ks, Forall2 (fun key k => newkey (Some key) [index1] = Some k) keys ks ->
    DifxParametersbatchfind1 (Some dp) start keys index1 = DifxParametersbatchfind (Some dp) start ks) /\
  (forall index1 index2 ks, Forall2 (fun key k => newkey (Some key) [index1; index2] = Some k) keys ks ->
    DifxParametersbatchfind2 (Some dp) start keys index1 index2 = DifxParametersbatchfind (Some dp) start ks).
Proof.
  intros Hrep Hs. assert (Hbatch : forall find f, (forall s key k, f key = Some k -> find s key = DifxParametersfind (Some dp) s (Some k)) ->
    forall ks, Forall2 (fun key k => f key = Some k) keys ks ->
    batch_loop find start keys = DifxParametersbatchfind (Some dp) start ks).
  { intros find f Hf ks Hks. unfold DifxParametersbatchfind. clear Hs. revert start.
    induction Hks as [|key k keys ks Hk Hks IH]; intros start; [done|]. cbn [batch_loop].
    rewrite (Hf _ _ _ Hk). destruct (DifxParametersfind (Some dp) start (Some k)) as [r|]; [|done]. cbn [mbind option_bind].
    destruct (r <? 0); [done|]. by rewrite IH. }
  split; [|split].
  - destruct (batchfind_greedy dp rs keys Hrep start Hs) as (n & rws & E & Hn & Hall & Hnone & Hlast & Hpre).
    exists n, rws. split; [done|]. split; [done|]. split; [|done]. split; [intros Hl; exists rws; by apply Hall|].
    intros [rws' H]. destruct (Z.eq_dec n (Z.of_nat (length keys))); [done|]. by destruct (Hnone ltac:(lia) rws').
  - intros index1 ks. apply Hbatch. intros s key k E. unfold DifxParametersfind1. by rewrite E.
  - intros index1 index2 ks. apply Hbatch. intros s key k E. unfold DifxParametersfind2. by rewrite E.
Qed.

Lemma DifxParametersbatchfind_spec_witness :
  let rs := written_row <$> [(text "NUM CHANNELS 0", text "1"); (text "A", []); (text "BITS 0", text "2")] in
  let dp := {| num_rows := 3; alloc_rows := 100; rows := rs ++ replicate 97 zero_row |} in
  exists rws, DifxParametersbatchfind1 (Some dp) 0 [text "NUM CHANNELS %d"; text "BITS %d"] 0 = Some (2, rws) /\
    at_rows rs 0 [text "NUM CHANNELS 0"; text "BITS 0"] rws.
Proof.
  intros rs dp. assert (Hrep : params_rep dp rs) by (by split).
  destruct (DifxParametersbatchfind_spec dp rs 0 [text "NUM CHANNELS %d"; text "BITS %d"] Hrep ltac:(lia)) as (_ & Heq & _).
  destruct (DifxParametersbatchfind_spec dp rs 0 [text "NUM CHANNELS 0"; text "BITS 0"] Hrep ltac:(lia)) as ((n & rws & E & _ & Hn & Hpre & _) & _).
  assert (En : n = 2).
  { apply (proj2 Hn). exists [0; 2]. repeat split; done || lia. }
  subst n. rewrite (Heq 0 [text "NUM CHANNELS 0"; text "BITS 0"]) by (by repeat constructor).
  assert (Er : rws = [0; 2]) by (vm_compute in E; congruence). subst rws. by exists [0; 2].
Defined.

(** ** Keys with an index and numbers *)

Lemma rtrim_printable s : Forall (fun c => printable c = true) s -> rtrim s = s.
Proof. induction 1 as [|c s Hc Hs IH]; [done|]. cbn [rtrim]. rewrite IH, Hc. by destruct s. Qed.

Lemma decimal_value z : value_ok (decimal z).
Proof.
  pose proof (decimal_printable z) as H. unfold value_ok.
  assert (Hnot : forall c, printable c = false -> c ∉ decimal z).
  { intros c Hc Hin. rewrite Forall_forall in H. apply H in Hin. congruence. }
  split; [|by split; apply Hnot]. unfold trim.
  destruct (decimal z) as [|c s] eqn:E; [done|]. pose proof H as H'. apply Forall_cons_1 in H' as [Hc _]. cbn [ltrim]. rewrite Hc.
  by apply rtrim_printable.
Qed.

(** One line for each of the numbers, with the index in the key. *)
Definition write_ints (fmt : cstr) (vals : list Z) : option cstr :=
  run_iters (fun i out => v ← vals !! i; writeDifxLineInt1 out fmt (Z.of_nat i) v) (seq 0 (length vals)) [].

(** The keys that a format with one number gives for the indices below [n]. *)
Definition indexed_keys (fmt : cstr) (n : nat) (keys : list cstr) : Prop :=
  length keys = n /\ forall i k, keys !! i = Some k -> format fmt [Z.of_nat i] = Some k /\ key_ok k.

Lemma newkey_key fmt index k : format fmt [index] = Some k -> key_ok k -> newkey (Some fmt) [index] = Some k.
Proof.
  intros E (_ & _ & _ & _ & _ & Hl). unfold newkey. cbn [mbind option_bind]. rewrite E. cbn [fmap option_fmap option_map]. unfold truncated.
  by rewrite take_ge by lia.
Qed.

Lemma write_ints_written fmt vals keys : indexed_keys fmt (length vals) keys -> Forall (fun v => - 2 ^ 31 <= v < 2 ^ 31) vals ->
  write_ints fmt vals = Some (written (zip keys (decimal <$> vals))).
Proof.
  intros [Hlen Hkeys] Hvals. unfold write_ints.
  destruct (run_iters_seq (fun i out => v ← vals !! i; writeDifxLineInt1 out fmt (Z.of_nat i) v)
    (fun i out => out = written (take i (zip keys (decimal <$> vals)))) (length vals) []) as (out & E & Ho).
  - intros i out Hi ->. destruct (lookup_lt_is_Some_2 vals i Hi) as [v Ev]. destruct (lookup_lt_is_Some_2 keys i ltac:(lia)) as [k Ek].
    rewrite Ev. cbn [mbind option_bind]. destruct (Hkeys i k Ek) as [Ef Hk]. unfold writeDifxLineInt1.
    rewrite (newkey_key _ _ k Ef Hk). cbn [mbind option_bind]. eexists. split; [done|].
    assert (Hv : - 2 ^ 31 <= v < 2 ^ 31) by (by apply (Forall_lookup_1 _ _ _ _ Hvals Ev)).
    unfold truncated, numLength. rewrite (take_ge (decimal v)) by (pose proof (decimal_length v Hv); lia).
    assert (Ez : zip keys (decimal <$> vals) !! i = Some (k, decimal v)).
    { rewrite lookup_zip_with, Ek. cbn [mbind option_bind]. by rewrite list_lookup_fmap, Ev. }
    rewrite (take_S_r _ _ _ Ez). unfold written. rewrite fmap_app, concat_app. cbn [fmap list_fmap concat]. rewrite app_nil_r. apply writeDifxLine_app.
  - done.
  - rewrite E, Ho. f_equal. f_equal. apply take_ge. rewrite length_zip_with, length_fmap. lia.
Qed.

Lemma int_line_ok k v : key_ok k -> - 2 ^ 31 <= v < 2 ^ 31 -> line_ok (k, decimal v).
Proof.
  intros Hk Hv. split; [done|]. split; [apply decimal_value|]. cbn [fst snd]. destruct Hk as (_ & _ & _ & _ & _ & Hl).
  rewrite writeDifxLine_text, length_app by done. cbn [length]. rewrite !length_app, length_replicate. cbn [length].
  pose proof (decimal_length v Hv). unfold MAX_DIFX_KEY_LEN, MAX_DIFX_INPUT_LINE_LENGTH in *. lia.
Qed.

(** C17 Numbers under keys with an index, such as "TELESCOPE INDEX %d": when the
    keys are no longer than the limit, the number that was written with an index is
    found with that index, from any row up to its own, and read back. *)
Theorem difx_indexed_roundtrip fmt vals keys : count_directives fmt = 1%nat -> indexed_keys fmt (length vals) keys ->
  Forall (fun v => - 2 ^ 31 <= v < 2 ^ 31) vals -> Z.of_nat (length vals) < 2 ^ 20 ->
  exists content dp, write_ints fmt vals = Some content /\ newDifxParametersfromfile (Some content) = Some (Some dp) /\
    forall i v s, vals !! i = Some v -> 0 <= s <= Z.of_nat i ->
      DifxParametersfind1 (Some dp) s (Some fmt) (Z.of_nat i) = Some (Z.of_nat i) /\
      exists value, DifxParametersvalue (Some dp) (Z.of_nat i) = Some (Some value) /\ atoi value = Some v.
Proof.
  intros Hfmt Hkeys Hvals Hlen. pose proof Hkeys as [Hkl Hk]. set (kvs := zip keys (decimal <$> vals)).
  assert (Hz : forall i k v, kvs !! i = Some (k, v) -> keys !! i = Some k /\ exists x, vals !! i = Some x /\ v = decimal x).
  { intros i k v E. apply lookup_zip_with_Some in E as (k' & v' & [= -> ->] & E1 & E2). rewrite list_lookup_fmap in E2.
    destruct (vals !! i) as [x|]; [|done]. injection E2 as <-. eauto. }
  assert (Hok : Forall line_ok kvs).
  { apply Forall_lookup. intros i [k v] E. destruct (Hz i k v E) as (Ek & x & Ex & ->). apply int_line_ok; [by apply (Hk i k)|].
    by apply (Forall_lookup_1 _ _ _ _ Hvals Ex). }
  assert (Hlt : Z.of_nat (length (written kvs)) < 2 ^ 29).
  { assert (Hb : forall l, Forall (fun kv => (length (writeDifxLine [] kv.1 kv.2) <= 80)%nat) l -> (length (written l) <= 80 * length l)%nat).
    { induction 1 as [|kv l Hkv Hl IH]; [done|]. unfold written in *. rewrite fmap_cons. cbn [concat length]. rewrite length_app. lia. }
    assert (Hkvs : (length kvs = length vals)%nat) by (unfold kvs; rewrite length_zip_with, length_fmap; lia).
    pose proof (Hb kvs) as Hb'. rewrite Hkvs in Hb'.
    assert (Z.of_nat (length (written kvs)) <= 80 * Z.of_nat (length vals)); [|lia].
    enough (length (written kvs) <= 80 * length vals)%nat by lia. apply Hb'. apply Forall_lookup. intros i [k v] E.
    destruct (Hz i k v E) as (Ek & x & Ex & ->). destruct (Hk i k Ek) as (_ & _ & _ & _ & _ & _ & Hl). cbn [fst snd].
    rewrite writeDifxLine_text, length_app by done. cbn [length]. rewrite !length_app, length_replicate. cbn [length].
    pose proof (decimal_length x (Forall_lookup_1 _ _ _ _ Hvals Ex)). unfold MAX_DIFX_KEY_LEN in *. lia. }
  destruct (fromfile_rep (written kvs) Hlt) as (dp & E & Hrep). rewrite rows_of_written in Hrep by done.
  exists (written kvs), dp. split; [by apply write_ints_written|]. split; [done|]. intros i v s Ei Hs.
  destruct (lookup_lt_is_Some_2 keys i) as [k Ek]; [pose proof (lookup_lt_Some _ _ _ Ei); lia|]. destruct (Hk i k Ek) as [Ef Hkok].
  assert (Ekv : kvs !! i = Some (k, decimal v)).
  { unfold kvs. rewrite lookup_zip_with, Ek. cbn [mbind option_bind]. by rewrite list_lookup_fmap, Ei. }
  unfold DifxParametersfind1. rewrite (newkey_key _ _ k Ef Hkok). cbn [mbind option_bind].
  destruct (find_value dp _ s i (written_row (k, decimal v)) k Hrep Hs) as [E1 E2]; [by rewrite list_lookup_fmap, Ekv|done| |].
  - intros j row Hj E'. rewrite list_lookup_fmap in E'. destruct (kvs !! j) as [[k' v']|] eqn:Ej; [|done]. injection E' as <-.
    intros [= Hkk]. destruct (Hz j k' v' Ej) as (Ek' & _). destruct (Hk j k' Ek') as [Ef' _]. rewrite Hkk in Ef'.
    pose proof (format_inj _ fmt _ _ k ltac:(done) Hfmt Ef Ef'). lia.
  - split; [exact E1|]. exists (decimal v). split; [exact E2|]. apply atoi_decimal. by apply (Forall_lookup_1 _ _ _ _ Hvals Ei).
Qed.

Lemma difx_indexed_roundtrip_witness :
  let fmt := text "TELESCOPE INDEX %d" in
  exists content dp, write_ints fmt [7; -12; 100000] = Some content /\ newDifxParametersfromfile (Some content) = Some (Some dp) /\
    DifxParametersfind1 (Some dp) 0 (Some fmt) 1 = Some 1 /\
    exists value, DifxParametersvalue (Some dp) 1 = Some (Some value) /\ atoi value = Some (-12).
Proof.
  intros fmt.
  destruct (difx_indexed_roundtrip fmt [7; -12; 100000] [text "TELESCOPE INDEX 0"; text "TELESCOPE INDEX 1"; text "TELESCOPE INDEX 2"])
    as (content & dp & E1 & E2 & H); [done| |repeat constructor; lia|done|].
  - split; [done|]. intros [|[|[|i]]] k Ek; [injection Ek as <-; split; [done|]; apply (bool_decide_eq_true_1 _); by vm_compute..|done].
  - exists content, dp. split; [exact E1|]. split; [exact E2|]. apply (H 1%nat (-12) 0); [done|lia].
Defined.
