(* ===== verification/DifxStringArrays.v ===== *)
(** * DifxStringArrays: lists of strings in parameter files

    The strings of an array in memory; the items of a comma list; an array that is
    written as the value of a key is read back. *)
From S2P Require Export ParseDifxTheorems.
#[local] Open Scope Z_scope.

(** ** Arrays *)

(** The array holds [strs], in memory that is doubled as often as needed. *)
Record sa_rep (sa : DifxStringArray) (strs : list cstr) : Prop := {
  sr_n : sa_n sa = Z.of_nat (length strs);
  sr_alloc : sa_nAlloc sa = 0 /\ strs = [] \/
    16 <= sa_nAlloc sa /\ Z.of_nat (length strs) <= sa_nAlloc sa <= Z.max 16 (2 * Z.of_nat (length strs));
  sr_str : sa_str sa = (Some <$> strs) ++ replicate (Z.to_nat (sa_nAlloc sa) - length strs) None }.

Lemma DifxStringArrayinit_rep : sa_rep DifxStringArrayinit [].
Proof. split; [done|by left|done]. Qed.

(** The string that is added: no more than [max] characters of it, if [max] is positive. *)
Definition added (str : option cstr) (max : Z) : cstr :=
  match str with
  | Some str => if 0 <? max then take (Z.to_nat max) str else str
  | None => []
  end.

Lemma DifxStringArrayadd_rep sa strs str max : sa_rep sa strs -> Z.of_nat (length strs) < 2 ^ 29 ->
  exists sa', DifxStringArrayadd sa str max = Some (Z.of_nat (length strs) + 1, sa') /\ sa_rep sa' (strs ++ [added str max]).
Proof.
  intros [Hn Ha Hs] Hlt. unfold DifxStringArrayadd.
  assert (Hgrow : exists sa1, (if sa_nAlloc sa =? 0 then Some {| sa_str := replicate 16 None; sa_n := 0; sa_nAlloc := 16 |}
        else if sa_nAlloc sa <=? sa_n sa then
          alloc ← sint (sa_nAlloc sa * 2);
          Some {| sa_str := sa_str sa ++ replicate (Z.to_nat (sa_nAlloc sa)) None; sa_n := sa_n sa; sa_nAlloc := alloc |}
        else Some sa) = Some sa1 /\ sa_n sa1 = Z.of_nat (length strs) /\
    16 <= sa_nAlloc sa1 /\ Z.of_nat (length strs) < sa_nAlloc sa1 <= Z.max 16 (2 * (Z.of_nat (length strs) + 1)) /\
    sa_str sa1 = (Some <$> strs) ++ replicate (Z.to_nat (sa_nAlloc sa1) - length strs) None).
  { destruct (Z.eqb_spec (sa_nAlloc sa) 0) as [H0|H0].
    - destruct Ha as [[_ ->]|?]; [|lia]. eexists. split; [reflexivity|]. cbn. split; [done|]. split; [lia|]. split; [lia|done].
    - destruct Ha as [[? _]|Ha]; [done|]. destruct (Z.leb_spec (sa_nAlloc sa) (sa_n sa)) as [Hle|Hgt].
      + rewrite sint_Some by lia. cbn [mbind option_bind]. eexists. split; [reflexivity|]. cbn [sa_n sa_nAlloc sa_str].
        assert (Ea : sa_nAlloc sa = Z.of_nat (length strs)) by lia. split; [done|]. split; [lia|]. split; [lia|].
        rewrite Hs, Ea, Nat2Z.id, Nat.sub_diag. cbn [replicate]. rewrite app_nil_r. do 2 f_equal. lia.
      + exists sa. split; [done|]. split; [done|]. split; [lia|]. split; [lia|done]. }
  destruct Hgrow as (sa1 & -> & Hn1 & H16 & Ha1 & Hs1). cbn [mbind option_bind]. fold (added str max). rewrite Hn1, Hs1.
  rewrite decide_True by (rewrite length_app, length_fmap, length_replicate; lia). eexists. split; [reflexivity|].
  split; cbn [sa_n sa_nAlloc sa_str]; rewrite ?length_app; cbn [length]; [lia|right; lia|].
  rewrite Nat2Z.id, insert_app_r_alt by (rewrite length_fmap; done). rewrite length_fmap, Nat.sub_diag.
  replace (Z.to_nat (sa_nAlloc sa1) - length strs)%nat with (S (Z.to_nat (sa_nAlloc sa1) - (length strs + 1)))%nat by lia.
  cbn [replicate insert list_insert]. rewrite fmap_app, <-app_assoc. done.
Qed.

(** ** Comma lists *)

Fixpoint split_comma (s : cstr) : list cstr :=
  match s with
  | [] => [[]]
  | c :: s =>
      if decide (c = ","%char) then [] :: split_comma s
      else match split_comma s with [] => [[c]] | item :: items => (c :: item) :: items end
  end.

(** What is between the commas, without blanks around it, unless it is empty. *)
Definition items_of (s : cstr) : list cstr := filter (fun item => item <> []) (trim <$> split_comma s).

Lemma trim_nonempty s : rtrim s <> [] -> trim s <> [].
Proof.
  unfold trim. induction s as [|c s IH]; [done|]. cbn [ltrim]. destruct (printable c) eqn:Ec; [done|]. cbn [rtrim]. rewrite Ec.
  destruct (rtrim s); [done|]. intros _. by apply IH.
Qed.

(** Scanning a part of the string. *)
Lemma scan_up_spec seg : forall pre post, let str := pre ++ seg ++ post in let start := Z.of_nat (length pre) in
  scan_up (length seg) str start = start + Z.of_nat (length seg - length (ltrim seg)).
Proof.
  induction seg as [|c seg IH]; intros pre post str start; cbn [length scan_up ltrim]; [lia|].
  assert (Ec : nth (Z.to_nat start) str NUL = c).
  { unfold str, start. rewrite Nat2Z.id, app_nth2, Nat.sub_diag by lia. done. }
  rewrite Ec. destruct (printable c); [cbn [length]; lia|].
  specialize (IH (pre ++ [c]) post). cbv zeta in IH. rewrite <-app_assoc, length_app in IH. cbn [app length] in IH.
  unfold str, start. change (pre ++ (c :: seg) ++ post) with (pre ++ c :: seg ++ post).
  replace (Z.of_nat (length pre) + 1) with (Z.of_nat (length pre + 1)) by lia. rewrite IH. pose proof (ltrim_length seg). lia.
Qed.

Lemma rtrim_snoc seg c : rtrim (seg ++ [c]) = if printable c then seg ++ [c] else rtrim seg.
Proof.
  induction seg as [|d seg IH]; cbn [app rtrim]; [by destruct (printable c)|]. rewrite IH. destruct (printable c); [|done].
  by destruct seg.
Qed.

Lemma scan_down_spec seg : forall pre post, let str := pre ++ seg ++ post in
  scan_down (length seg) str (Z.of_nat (length pre + length seg) - 1) = Z.of_nat (length pre + length (rtrim seg)) - 1.
Proof.
  induction seg as [|c seg IH] using rev_ind; intros pre post str; [done|].
  rewrite length_app. cbn [length]. rewrite Nat.add_1_r. cbn [scan_down].
  assert (Ec : nth (Z.to_nat (Z.of_nat (length pre + S (length seg)) - 1)) str NUL = c).
  { unfold str. replace (Z.to_nat _) with (length pre + length seg)%nat by lia. rewrite app_nth2_plus, <-app_assoc, app_nth2, Nat.sub_diag by lia. done. }
  rewrite Ec, rtrim_snoc. destruct (printable c); [rewrite length_app; cbn [length]; lia|].
  specialize (IH pre ([c] ++ post)). cbv zeta in IH. unfold str. rewrite <-app_assoc.
  replace (Z.of_nat (length pre + S (length seg)) - 1 - 1) with (Z.of_nat (length pre + length seg) - 1) by lia. exact IH.
Qed.

Lemma add_item_rep pre seg post sa strs : sa_rep sa strs -> Z.of_nat (length strs) < 2 ^ 29 ->
  exists sa', add_item (pre ++ seg ++ post) (Z.of_nat (length pre)) (Z.of_nat (length pre + length seg)) sa = Some sa' /\
    sa_rep sa' (strs ++ filter (fun item => item <> []) [trim seg]).
Proof.
  intros Hrep Hlt. unfold add_item. destruct (Z.ltb_spec (Z.of_nat (length pre)) (Z.of_nat (length pre + length seg))) as [Hne|He].
  2: { destruct seg; [|cbn [length] in He; lia]. exists sa. split; [done|]. by rewrite app_nil_r. }
  replace (Z.to_nat (Z.of_nat (length pre + length seg) - Z.of_nat (length pre))) with (length seg) by lia.
  rewrite scan_up_spec, scan_down_spec. pose proof (ltrim_length seg). pose proof (rtrim_length seg).
  destruct (decide (rtrim seg = [])) as [Er|Er].
  - pose proof (rtrim_nil_ltrim seg Er) as El. rewrite Er, El. cbn [length].
    destruct (Z.leb_spec (Z.of_nat (length pre) + Z.of_nat (length seg - 0)) (Z.of_nat (length pre + 0) - 1)); [lia|].
    exists sa. split; [done|]. unfold trim. rewrite El. cbn. by rewrite app_nil_r.
  - pose proof (trim_length seg Er) as Ht.
    assert (Htrim : (1 <= length (trim seg))%nat).
    { pose proof (trim_nonempty seg Er). destruct (trim seg); [done|cbn; lia]. }
    destruct (Z.leb_spec (Z.of_nat (length pre) + Z.of_nat (length seg - length (ltrim seg))) (Z.of_nat (length pre + length (rtrim seg)) - 1)); [|lia].
    destruct (DifxStringArrayadd_rep sa strs (Some (drop (Z.to_nat (Z.of_nat (length pre) + Z.of_nat (length seg - length (ltrim seg)))) (pre ++ seg ++ post)))
      (Z.of_nat (length pre + length (rtrim seg)) - 1 - (Z.of_nat (length pre) + Z.of_nat (length seg - length (ltrim seg))) + 1) Hrep Hlt) as (sa' & -> & Hrep').
    exists sa'. split; [done|]. rewrite filter_cons_True by (by destruct (trim seg); [cbn in Htrim; lia|]). cbn [filter list_filter].
    unfold added in Hrep'. destruct (Z.ltb_spec 0 (Z.of_nat (length pre + length (rtrim seg)) - 1 - (Z.of_nat (length pre) + Z.of_nat (length seg - length (ltrim seg))) + 1)); [|lia].
    replace (Z.to_nat (Z.of_nat (length pre) + _)) with (length pre + (length seg - length (ltrim seg)))%nat in Hrep' by lia.
    replace (Z.to_nat _) with (length (trim seg)) in Hrep' by lia.
    rewrite <-drop_drop, drop_app_length, drop_app_le, ltrim_drop in Hrep' by lia. unfold trim in *. by rewrite rtrim_take_app in Hrep'.
Qed.

Lemma split_comma_cons s : exists item items, split_comma s = item :: items.
Proof. destruct s as [|c s]; cbn [split_comma]; [by eexists _, _|]. case_decide; [by eexists _, _|]. destruct (split_comma s); by eexists _, _. Qed.

(** The loop, in the middle of an item of which [seg] has been seen. *)
Lemma addlist_loop_rep rest : forall pre seg sa strs, sa_rep sa strs -> Z.of_nat (length strs) + Z.of_nat (length rest) < 2 ^ 29 - 1 ->
  exists sa', addlist_loop rest (pre ++ seg ++ rest) (Z.of_nat (length pre + length seg)) (Z.of_nat (length pre)) sa = Some sa' /\
    sa_rep sa' (strs ++ filter (fun item => item <> [])
      (trim <$> match split_comma rest with [] => [] | item :: items => (seg ++ item) :: items end)).
Proof.
  induction rest as [|c rest IH]; intros pre seg sa strs Hrep Hlt; cbn [addlist_loop split_comma].
  - destruct (add_item_rep pre seg [] sa strs Hrep ltac:(lia)) as (sa' & -> & Hrep'). exists sa'. split; [done|].
    by rewrite app_nil_r.
  - cbn [length] in Hlt. case_decide as Hc.
    + subst c. destruct (add_item_rep pre seg (","%char :: rest) sa strs Hrep ltac:(lia)) as (sa1 & -> & Hrep1). cbn [mbind option_bind].
      set (new := filter _ [trim seg]) in Hrep1.
      assert (Hnew : (length new <= 1)%nat) by (unfold new; cbn [filter list_filter]; case_decide; cbn [length]; lia).
      destruct (IH (pre ++ seg ++ [","%char]) [] sa1 _ Hrep1) as (sa' & E & Hrep'); [rewrite length_app; lia|].
      exists sa'. split.
      * rewrite <-!app_assoc, !length_app in E. cbn [app length] in E.
        replace (Z.of_nat (length pre + (length seg + 1) + 0)) with (Z.of_nat (length pre + length seg) + 1) in E by lia.
        replace (Z.of_nat (length pre + (length seg + 1))) with (Z.of_nat (length pre + length seg) + 1) in E by lia. exact E.
      * rewrite app_nil_r. destruct (split_comma_cons rest) as (item & items & Ei). rewrite Ei in *. cbn [app] in Hrep'.
        rewrite <-app_assoc in Hrep'. unfold new in Hrep'. rewrite <-filter_app in Hrep'. exact Hrep'.
    + destruct (IH pre (seg ++ [c]) sa strs Hrep ltac:(lia)) as (sa' & E & Hrep'). exists sa'. split.
      * rewrite <-!app_assoc, length_app in E. cbn [app length] in E.
        replace (Z.of_nat (length pre + (length seg + 1))) with (Z.of_nat (length pre + length seg) + 1) in E by lia. exact E.
      * destruct (split_comma_cons rest) as (item & items & Ei). rewrite Ei in *. by rewrite <-app_assoc in Hrep'.
Qed.

Lemma addlist_rep sa strs str : sa_rep sa strs -> Z.of_nat (length strs) + Z.of_nat (length str) < 2 ^ 29 - 1 ->
  exists sa', DifxStringArrayaddlist sa str = Some (Z.of_nat (length (strs ++ items_of str)), sa') /\ sa_rep sa' (strs ++ items_of str).
Proof.
  intros Hrep Hlt. destruct (addlist_loop_rep str [] [] sa strs Hrep Hlt) as (sa' & E & Hrep'). cbn [app length Nat.add] in *.
  assert (Hi : sa_rep sa' (strs ++ items_of str)) by (unfold items_of; by destruct (split_comma str)).
  exists sa'. split; [|done]. unfold DifxStringArrayaddlist. change (Z.of_nat 0) with 0 in E. rewrite E. cbn [mbind option_bind].
  by rewrite (sr_n _ _ Hi).
Qed.

(** ** Written and read *)

Fixpoint joined (strs : list cstr) : cstr :=
  match strs with
  | [] => []
  | [s] => s
  | s :: strs => s ++ ","%char :: joined strs
  end.

Definition item_ok (s : cstr) : Prop := s <> [] /\ trim s = s /\ (","%char ∉ s) /\ (NUL ∉ s) /\ (LF ∉ s).

#[export] Instance item_ok_dec s : Decision (item_ok s).
Proof. unfold item_ok. apply _. Defined.

Lemma comma_list_joined strs : comma_list (Some <$> strs) = Some (joined strs ++ [LF]).
Proof.
  induction strs as [|s strs IH]; [done|]. rewrite fmap_cons. destruct strs as [|s' strs]; [done|].
  rewrite fmap_cons in *. cbn [comma_list mbind option_bind joined] in *. rewrite IH. cbn [mbind option_bind]. by rewrite <-app_assoc.
Qed.

Lemma split_comma_item s rest : ","%char ∉ s ->
  split_comma (s ++ rest) = match split_comma rest with [] => [] | item :: items => (s ++ item) :: items end.
Proof.
  induction s as [|c s IH]; [intros _; cbn [app]; by destruct (split_comma rest)|]. rewrite not_elem_of_cons. intros [Hc Hs]. cbn [app split_comma].
  rewrite decide_False, IH by done. by destruct (split_comma_cons rest) as (item & items & ->).
Qed.

Lemma items_of_joined strs : Forall item_ok strs -> items_of (joined strs) = strs.
Proof.
  intros Hok. unfold items_of. induction Hok as [|s strs Hs Hok IH]; [done|]. destruct Hs as (Hne & Ht & Hc & _ & _).
  destruct strs as [|s' strs].
  - cbn [joined]. rewrite <-(app_nil_r s), split_comma_item by done. cbn [split_comma fmap list_fmap]. rewrite app_nil_r, Ht. by rewrite filter_cons_True.
  - change (joined (s :: s' :: strs)) with (s ++ ","%char :: joined (s' :: strs)). rewrite split_comma_item by done.
    cbn [split_comma]. rewrite decide_True by done. rewrite app_nil_r, fmap_cons, Ht, filter_cons_True by done. by rewrite IH.
Qed.

Lemma trim_id s : trim s = s -> ltrim s = s /\ rtrim s = s.
Proof.
  intros Ht. assert (El : ltrim s = s).
  { pose proof (ltrim_drop s) as Hd. pose proof (ltrim_length s). pose proof (rtrim_length (ltrim s)) as Hr. unfold trim in Ht. rewrite Ht in Hr.
    by replace (length s - length (ltrim s))%nat with 0%nat in Hd by lia. }
  split; [done|]. unfold trim in Ht. by rewrite El in Ht.
Qed.

Lemma rtrim_app s t : rtrim t <> [] -> rtrim (s ++ t) = s ++ rtrim t.
Proof.
  intros Ht. induction s as [|c s IH]; [done|]. cbn [app rtrim]. rewrite IH. destruct (s ++ rtrim t) as [|d r] eqn:E; [|done].
  apply app_eq_nil in E as [_ ?]. done.
Qed.

Lemma joined_value strs : Forall item_ok strs -> value_ok (joined strs).
Proof.
  intros Hok. unfold value_ok. split; [|].
  - assert (H : strs = [] \/ (ltrim (joined strs) = joined strs /\ rtrim (joined strs) = joined strs /\ joined strs <> [])).
    { induction Hok as [|s strs Hs Hok IH]; [by left|]. right. destruct Hs as (Hne & Ht & _). destruct (trim_id s Ht) as [El Er].
      destruct strs as [|s' strs]; [done|]. destruct IH as [?|(IH1 & IH2 & IH3)]; [done|].
      change (joined (s :: s' :: strs)) with (s ++ ","%char :: joined (s' :: strs)).
      change (s ++ ","%char :: joined (s' :: strs)) with (s ++ [","%char] ++ joined (s' :: strs)). split; [|split].
      - destruct s as [|c s]; [done|]. cbn [app ltrim] in *. destruct (printable c); [done|].
        pose proof (ltrim_length s) as Hl. rewrite El in Hl. cbn [length] in Hl. lia.
      - rewrite app_assoc, rtrim_app by (by rewrite IH2). by rewrite IH2.
      - by destruct s. }
    destruct H as [->|(H1 & H2 & _)]; [done|]. unfold trim. by rewrite H1, H2.
  - assert (H : forall c, c <> ","%char -> Forall (fun s : cstr => c ∉ s) strs -> c ∉ joined strs).
    { clear Hok. intros c Hc H. induction H as [|s strs Hs H IH]; [apply not_elem_of_nil|]. destruct strs as [|s' strs]; [done|].
      change (joined (s :: s' :: strs)) with (s ++ ","%char :: joined (s' :: strs)).
      rewrite not_elem_of_app, not_elem_of_cons. split; [exact Hs|]. split; [exact Hc|exact IH]. }
    split; apply H; try done; (eapply Forall_impl; [exact Hok|]; intros s (_ & _ & _ & ? & ?); done).
Qed.

(** C25 A list of strings that is written under a key is read back: the value of the
    row is split at its commas into the strings, and they are added to the array
    that they are read into, whatever it holds; this is so for an array of any
    length that a line can hold. *)
Theorem string_array_roundtrip key sa strs sa0 strs0 : key_ok key -> sa_rep sa strs -> Forall item_ok strs ->
  Z.of_nat (length (joined strs)) <= 8000 -> sa_rep sa0 strs0 -> Z.of_nat (length strs0) < 2 ^ 28 ->
  exists content dp value sa', writeDifxLineStringArray [] key sa = Some content /\
    newDifxParametersfromfile (Some content) = Some (Some dp) /\
    DifxParametersfind (Some dp) 0 (Some key) = Some 0 /\ DifxParametersvalue (Some dp) 0 = Some (Some value) /\
    DifxStringArrayaddlist sa0 value = Some (Z.of_nat (length (strs0 ++ strs)), sa') /\ sa_rep sa' (strs0 ++ strs).
Proof.
  intros Hkey [Hn Ha Hs] Hok Hlen Hrep0 Hlt. pose proof (joined_value strs Hok) as Hv.
  assert (Ew : writeDifxLineStringArray [] key sa = Some (written [(key, joined strs)])).
  { unfold writeDifxLineStringArray. rewrite Hn, Nat2Z.id, Hs. rewrite <-(length_fmap Some strs), take_app_length, comma_list_joined.
    cbn [mbind option_bind]. unfold written. cbn [fmap list_fmap concat fst snd]. by rewrite app_nil_r. }
  assert (Hline : line_ok (key, joined strs)).
  { split; [done|]. split; [done|]. cbn [fst snd]. destruct Hkey as (_ & _ & _ & _ & _ & Hl).
    rewrite writeDifxLine_text, length_app by done. cbn [length]. rewrite !length_app, length_replicate. cbn [length].
    unfold MAX_DIFX_KEY_LEN, MAX_DIFX_INPUT_LINE_LENGTH in *. lia. }
  assert (Hl29 : Z.of_nat (length (written [(key, joined strs)])) < 2 ^ 29).
  { destruct Hline as (_ & _ & Hl). unfold written. cbn [fmap list_fmap concat]. rewrite app_nil_r. unfold MAX_DIFX_INPUT_LINE_LENGTH in Hl. lia. }
  destruct (fromfile_rep _ Hl29) as (dp & E & Hrep). rewrite rows_of_written in Hrep by (apply Forall_cons_2; [exact Hline|constructor]).
  destruct (find_value dp _ 0 0 (written_row (key, joined strs)) key Hrep) as [E1 E2]; [lia|done|done|lia|].
  destruct (addlist_rep sa0 strs0 (joined strs) Hrep0 ltac:(lia)) as (sa' & E3 & Hrep'). rewrite items_of_joined in * by done.
  by exists (written [(key, joined strs)]), dp, (joined strs), sa'.
Qed.

Lemma string_array_roundtrip_witness :
  let sa := {| sa_str := [Some (text "3C84"); Some (text "CAL 2")] ++ replicate 14 None; sa_n := 2; sa_nAlloc := 16 |} in
  exists content dp value sa', writeDifxLineStringArray [] (text "SOURCES") sa = Some content /\
    newDifxParametersfromfile (Some content) = Some (Some dp) /\ DifxParametersvalue (Some dp) 0 = Some (Some value) /\
    DifxStringArrayaddlist DifxStringArrayinit value = Some (2, sa') /\ sa_rep sa' [text "3C84"; text "CAL 2"].
Proof.
  intros sa.
  destruct (string_array_roundtrip (text "SOURCES") sa [text "3C84"; text "CAL 2"] DifxStringArrayinit [])
    as (content & dp & value & sa' & E1 & E2 & _ & E4 & E5 & Hrep).
  - apply (bool_decide_eq_true_1 (line_ok (text "SOURCES", []))). by vm_compute.
  - split; [done| |done]. right. cbn. lia.
  - apply (bool_decide_eq_true_1 _). by vm_compute.
  - by vm_compute.
  - apply DifxStringArrayinit_rep.
  - done.
  - by exists content, dp, value, sa'.
Defined.

(** ** The limited search *)

(** The limited search is the search in the rows up to the limit; but for a NULL
    table, for which the search without a limit returns -1, it reads the number of
    rows of the table before it tests the pointer. *)
Theorem DifxParametersfind_limited_spec dp rs start max_rows key : params_rep dp rs -> Z.of_nat (length rs) < 2 ^ 30 ->
  0 <= start < 2 ^ 30 -> 0 <= max_rows < 2 ^ 30 ->
  (exists r, DifxParametersfind_limited (Some dp) start max_rows (Some key) = Some r /\
    found_row (take (Z.to_nat (start + max_rows)) rs) start key r) /\
  DifxParametersfind None start (Some key) = Some (-1) /\ DifxParametersfind_limited None start max_rows (Some key) = None.
Proof.
  intros Hrep Hlen Hs Hm. split; [|split; [done|unfold DifxParametersfind_limited; by rewrite sint_Some by lia]].
  unfold DifxParametersfind_limited. rewrite sint_Some by lia. cbn [mbind option_bind]. rewrite (pr_num _ _ Hrep).
  destruct (Z.ltb_spec start 0); [lia|]. cbn [orb].
  assert (Hin : forall j row, take (Z.to_nat (start + max_rows)) rs !! j = Some row <-> (j < Z.to_nat (start + max_rows))%nat /\ rs !! j = Some row).
  { intros j row. rewrite lookup_take_Some. tauto. }
  destruct (Z.leb_spec (Z.of_nat (length rs)) start).
  { exists (-1). split; [done|]. left. split; [done|]. intros i row Hi [_ E]%Hin. apply lookup_lt_Some in E. lia. }
  set (max_r := if Z.of_nat (length rs) <? start + max_rows then Z.of_nat (length rs) else start + max_rows).
  assert (Hmax : max_r = Z.min (Z.of_nat (length rs)) (start + max_rows)) by (unfold max_r; destruct (Z.ltb_spec (Z.of_nat (length rs)) (start + max_rows)); lia).
  destruct (find_loop_found_row dp rs key (Z.to_nat (max_r - start)) Hrep start ltac:(lia) ltac:(lia)) as (r & -> & Hr).
  exists r. split; [done|]. destruct Hr as [[-> Hr]|(H1 & H2 & H3)].
  - left. split; [done|]. intros i row Hi [Hi2 E]%Hin. apply (Hr i); [|done]. apply lookup_lt_Some in E as ?. lia.
  - right. split; [lia|]. split; [|intros i row Hi [_ E]%Hin; by apply (H3 i)].
    rewrite lookup_take_lt by lia. done.
Qed.

Lemma DifxParametersfind_limited_spec_witness :
  exists r, DifxParametersfind_limited (Some newDifxParameters) 0 5 (Some (text "TCAL FREQUENCY")) = Some r /\
    found_row [] 0 (text "TCAL FREQUENCY") r.
Proof. apply (DifxParametersfind_limited_spec newDifxParameters [] 0 5 (text "TCAL FREQUENCY") newDifxParameters_rep); cbn; lia. Defined.
