(* ===== verification/VdifMuxUnpack.v ===== *)
(** * VdifMuxUnpack: multiplexed data, decoded

    What the decoders of [mark5access] make of the output of [vdifmux]: channel by
    channel, the samples of the payloads of the input threads. *)
From S2P Require Export VdifMuxTheorems VdifDecodeTheorems.
#[local] Open Scope Z_scope.

(** ** Samples by their bits *)

Lemma vdif_level_bits nbit b1 o1 b2 o2 : 0 <= nbit -> 0 <= o1 -> 0 <= o2 ->
  (forall r, 0 <= r < nbit -> Z.testbit b1 (o1 + r) = Z.testbit b2 (o2 + r)) -> vdif_level nbit b1 o1 = vdif_level nbit b2 o2.
Proof.
  intros Hn Ho1 Ho2 H. unfold vdif_level. f_equal. rewrite <-!Z.shiftr_div_pow2 by done. apply Z.bits_inj'. intros i Hi.
  destruct (Z.lt_ge_cases i nbit) as [Hlt|Hge].
  - rewrite !Z.mod_pow2_bits_low, !Z.shiftr_spec by lia. rewrite !(Z.add_comm i). apply H. lia.
  - by rewrite !Z.mod_pow2_bits_high by lia.
Qed.

(** Sample [u] of [b] bits of the payload [buf]. *)
Definition thread_sample (b : Z) (buf : buffer) (u : Z) : state := vdif_level b (nth (Z.to_nat (u * b / 8)) buf 0) ((u * b) mod 8).

Lemma sample_in_byte b u r : vdif_bits b -> 0 <= u -> 0 <= r < b -> (u * b + r) / 8 = u * b / 8 /\ (u * b + r) mod 8 = (u * b) mod 8 + r.
Proof. unfold vdif_bits. intros Hb Hu Hr. assert (b = 1 \/ b = 2 \/ b = 4 \/ b = 8) as [-> | [-> | [-> | ->]]] by done; lia. Qed.

Lemma thread_sample_bits b buf1 u1 buf2 u2 : vdif_bits b -> 0 <= u1 -> 0 <= u2 ->
  (forall r, 0 <= r < b -> bit_at buf1 (Z.to_nat (u1 * b + r)) = bit_at buf2 (Z.to_nat (u2 * b + r))) ->
  thread_sample b buf1 u1 = thread_sample b buf2 u2.
Proof.
  intros Hb H1 H2 H. assert (Hb0 : 1 <= b) by (unfold vdif_bits in Hb; lia).
  apply vdif_level_bits; [lia|apply Z.mod_pos_bound; lia..|]. intros r Hr. specialize (H r Hr). unfold bit_at in H.
  destruct (sample_in_byte b u1 r Hb H1 Hr) as [D1 M1]. destruct (sample_in_byte b u2 r Hb H2 Hr) as [D2 M2].
  rewrite <-M1, <-M2, <-D1, <-D2. revert H. change 8%nat with (Z.to_nat 8). rewrite <-!Z2Nat.inj_div, <-!Z2Nat.inj_mod by nia.
  rewrite !Z2Nat.id by (apply Z.mod_pos_bound; lia). done.
Qed.

(** ** Headers *)

(** The words of a header that a decoder looks at. *)
Lemma header_words frame : bytes_ok frame -> (32 <= length frame)%nat -> let h := struct_of_bytes (take 32 frame) : vdif_header in
  data32 frame 0 0 = Some (le_combine (slice frame 0 4)) /\ Z.testbit (le_combine (slice frame 0 4)) 31 = negb (vh_invalid h =? 0) /\
  data32 frame 0 2 = Some (le_combine (slice frame 8 4)) /\ (le_combine (slice frame 8 4) = 0 -> vh_framelength8 h = 0).
Proof.
  intros Hb Hl h. rewrite !data32_read by lia. split; [done|]. set (x := le_combine (take 32 frame)).
  assert (Ht : bytes_ok (take 32 frame)) by (by apply Forall_take).
  assert (Hx : forall k, (k < 256)%nat -> Z.testbit x (Z.of_nat k) = bit_at frame k).
  { intros k Hk. unfold x. rewrite le_combine_bit by done. change (take 32 frame) with (slice frame 0 32). by rewrite bit_at_slice by lia. }
  assert (Hs : forall off k, (off <= 8)%nat -> (k < 32)%nat -> Z.testbit (le_combine (slice frame off 4)) (Z.of_nat k) = Z.testbit x (Z.of_nat (8 * off + k))).
  { intros off k Ho Hk. rewrite le_combine_bit by (by apply slice_bytes_ok). rewrite bit_at_slice by lia. symmetry. apply Hx. lia. }
  assert (E : vh_invalid h = x / 2 ^ 30 / 2 ^ 1 mod 2 ^ 1 /\ vh_framelength8 h = x / 2 ^ 30 / 2 ^ 1 / 2 ^ 1 / 2 ^ 24 / 2 ^ 6 / 2 ^ 2 mod 2 ^ 24) by done.
  destruct E as [-> ->]. rewrite !Z.div_div, <-!Z.pow_add_r by lia. cbn [Z.add Pos.add Pos.succ Pos.add_carry]. split; [|split; [done|]].
  - change 31 with (Z.of_nat 31). rewrite Hs by lia. cbn [Nat.mul Nat.add]. rewrite <-Z.shiftr_div_pow2 by lia. change (2 ^ 1) with 2.
    rewrite <-Z.bit0_mod, Z.shiftr_spec by lia. change (0 + (30 + 1)) with (Z.of_nat 31). by destruct (Z.testbit x (Z.of_nat 31)).
  - intros E0. rewrite <-Z.shiftr_div_pow2 by lia. apply Z.bits_inj'. intros i Hi. rewrite Z.bits_0.
    destruct (Z.lt_ge_cases i 24) as [Hlt|Hge]; [|by rewrite Z.mod_pow2_bits_high by lia].
    rewrite Z.mod_pow2_bits_low, Z.shiftr_spec by lia. pose proof (Hs 8%nat (Z.to_nat i) ltac:(lia) ltac:(lia)) as H. rewrite E0, Z.bits_0 in H.
    rewrite H. f_equal. lia.
Qed.

(** ** Frames in memory *)

Lemma slice_concat (frames : list buffer) F k frame : Forall (fun f => length f = F) frames -> frames !! k = Some frame ->
  slice (concat frames) (k * F) F = frame /\ ((k + 1) * F <= length (concat frames))%nat.
Proof.
  revert k. induction frames as [|f frames IH]; intros k Hl Hk; [done|]. apply Forall_cons_1 in Hl as [Hf Hl].
  cbn [concat]. rewrite length_app, Hf. destruct k as [|k]; cbn in Hk.
  - injection Hk as ->. split; [|lia]. unfold slice. rewrite Nat.mul_0_l, drop_0. by rewrite take_app_length'.
  - destruct (IH k Hl Hk) as [E Hle]. split; [|lia]. rewrite <-E. unfold slice. f_equal. rewrite drop_app_ge by lia. f_equal. lia.
Qed.

Lemma frame_bad_slice mem frame hs P off : 0 <= off -> off + hs + P <= Z.of_nat (length mem) -> 16 <= hs -> 0 < P -> (8 | P) ->
  slice mem (Z.to_nat off) (Z.to_nat (hs + P)) = frame -> vdif_frame_bad mem hs P off = vdif_frame_bad frame hs P 0.
Proof.
  intros Ho Hl Hh HP [w Hw] <-. unfold vdif_frame_bad. assert (Ew : cdiv P 8 = w) by (rewrite Z.quot_div_nonneg, Hw, Z.div_mul by lia; done).
  rewrite Ew, !data32_read, !data64_read by (rewrite ?length_slice by lia; lia). rewrite !slice_slice by lia.
  repeat f_equal; lia.
Qed.

Lemma nth_slice mem frame off n i : slice mem off n = frame -> (i < n)%nat -> nth (off + i) mem 0 = nth i frame 0.
Proof.
  intros <- Hi. unfold slice. rewrite !nth_lookup. rewrite lookup_take_lt, lookup_drop by done. done.
Qed.

(** Sample [S] of channel [c] that a decoder reads from frames of [F] samples: sample
    [S mod F] of frame [S / F]. *)
Lemma vdif_sample_frame mem hs P base nchan b F S c f frame : vdif_bits b -> 0 < nchan -> 0 < P -> 0 <= base -> 16 <= hs -> (8 | P) ->
  8 * P = F * vdif_stride nchan * b -> 0 <= S -> 0 <= c < nchan -> f = S / F ->
  base + f * (hs + P) + hs + P <= Z.of_nat (length mem) ->
  slice mem (Z.to_nat (base + f * (hs + P))) (Z.to_nat (hs + P)) = frame ->
  vdif_sample mem hs P base nchan b S c =
    if vdif_frame_bad frame hs P 0 then Zero else thread_sample b (drop (Z.to_nat hs) frame) (S mod F * vdif_stride nchan + c).
Proof.
  intros Hb Hn HP Hbase Hhs Hw HF HS Hc Hf Hlen Hslice. pose proof (vdif_stride_bounds nchan Hn) as Hstr.
  assert (Hb1 : 1 <= b) by (unfold vdif_bits in Hb; lia). assert (HF0 : 0 < F).
  { apply (Z.mul_pos_cancel_r F (vdif_stride nchan * b)); [apply Z.mul_pos_pos; lia|]. rewrite Z.mul_assoc. lia. }
  pose proof (Z.div_mod S F ltac:(lia)) as Hdm. pose proof (Z.mod_pos_bound S F HF0) as Hu. pose proof (Z.div_pos S F HS HF0) as Hf0.
  set (q := S mod F * vdif_stride nchan + c).
  assert (Hq : 0 <= q * b < 8 * P).
  { rewrite HF. unfold q. assert ((S mod F + 1) * vdif_stride nchan <= F * vdif_stride nchan) by (apply Z.mul_le_mono_nonneg_r; lia).
    split; [apply Z.mul_nonneg_nonneg; nia|]. apply Z.mul_lt_mono_pos_r; lia. }
  assert (Em : (S * vdif_stride nchan + c) * b = 8 * P * f + q * b).
  { rewrite HF. unfold q. rewrite Hdm at 1. rewrite <-Hf. ring. }
  unfold vdif_sample. cbv zeta. rewrite Em.
  assert (Ek : (8 * P * f + q * b) / (8 * P) = f) by (symmetry; apply (Z.div_unique_pos _ _ _ (q * b)); lia).
  assert (Ej : (8 * P * f + q * b) mod (8 * P) = q * b) by (symmetry; apply (Z.mod_unique_pos _ _ f); lia).
  rewrite Ek, Ej. unfold vdif_bad, vdif_offset. rewrite <-Hf in Hf0.
  assert (Hoff : 0 <= f * (hs + P)) by (apply Z.mul_nonneg_nonneg; lia).
  rewrite (frame_bad_slice mem frame) by (done || lia). destruct (vdif_frame_bad _ _ _ _); [done|].
  unfold thread_sample. f_equal. unfold vdif_payload, vdif_offset.
  assert (Hq8 : 0 <= q * b / 8 < P) by (split; [apply Z.div_pos; lia|apply Z.div_lt_upper_bound; lia]).
  replace (Z.to_nat (base + f * (hs + P) + hs + q * b / 8)) with (Z.to_nat (base + f * (hs + P)) + Z.to_nat (hs + q * b / 8))%nat by (revert Hoff; generalize (f * (hs + P)); lia).
  rewrite (nth_slice mem frame _ _ _ Hslice) by lia. rewrite !nth_lookup, lookup_drop. do 2 f_equal. lia.
Qed.

(** ** The whole way *)

(** The data of an output frame begin or end with fill pattern. *)
Definition fill_ends (P : Z) (frame : buffer) : Prop :=
  data64 frame 32 0 = Some MARK5_FILL_WORD64 \/ data64 frame 32 (cdiv P 8 - 1) = Some MARK5_FILL_WORD64.

(** What sample [u] of channel [c] is decoded to from the output frame [f]: zero from
    an invalid frame and from fill pattern, otherwise sample [u] of the payload of an
    input frame of thread [c] and the time of [f]. *)
Record channel_sample (vm : vdif_mux) (src : buffer) (start f : Z) (frame : buffer) (c u : Z) (v : state) : Prop := {
  cs_invalid : getVDIFFrameInvalid (struct_of_bytes (take 32 frame)) <> 0 -> v = Zero;
  cs_fill : fill_ends (vm_outputDataSize vm) frame -> v = Zero;
  cs_data : getVDIFFrameInvalid (struct_of_bytes (take 32 frame)) = 0 -> ~ fill_ends (vm_outputDataSize vm) frame -> 0 <= c < vm_nThread vm ->
    exists mask, 0 < mask < 2 ^ vm_nThread vm /\
      (if propagate vm then validity_bits vm mask (v4_validitymask (struct_of_bytes (take 32 frame))) else mask = vm_goodMask vm) /\
      (Z.testbit mask c = true -> exists i, packet_at vm src start i f c /\
         v = thread_sample (vm_bitsPerSample vm) (drop (Z.to_nat (i + 32)) src) u) }.

(** The size in the header of an output frame is not 0. *)
Lemma proto_size SZ vm src src_addr h : run_ok SZ vm src src_addr -> proto_ok vm src h -> vh_framelength8 h <> 0.
Proof.
  intros Hrun (i & vh & Hi & Hscan & Hp). destruct (proto_header_spec SZ vm src src_addr Hrun i vh Hi Hscan) as (h' & E & _ & Hsh).
  rewrite Hp in E. injection E as <-. destruct (sizes SZ vm src src_addr Hrun) as (_ & _ & E3 & E4 & E5 & Hod & Hlt).
  unfold shared_fields, proto_of, setVDIFFrameInvalid, setVDIFFrameBytes, setVDIFThreadID in Hsh.
  cbn [fields vdif_header_struct take vh_set_invalid vh_set_framelength8 vh_set_threadid vh_set_nchan
    vh_seconds vh_legacymode vh_invalid vh_frame vh_epoch vh_unassigned vh_framelength8 vh_nchan
    vh_version vh_stationid vh_threadid vh_nbits vh_iscomplex] in Hsh.
  injection Hsh as _ _ _ _ _ _ Efl _ _ _ _ _ _. rewrite Efl.
  pose proof (mo_threads _ _ (ro_mux _ _ _ _ Hrun)). rewrite Z.quot_div_nonneg by lia.
  rewrite uwrap_small; [|split; [apply Z.div_pos; lia|apply Z.div_lt_upper_bound; lia]].
  enough (0 < vm_outputFrameSize vm / 8) by lia. apply Z.div_str_pos. lia.
Qed.

(** Bit [r] of sample [u] of channel [c] among [nc] channels of [b] bits. *)
Lemma turned_position nc b u c r D : (0 < b)%nat -> (c < nc)%nat -> (r < b)%nat -> ((u + 1) * b <= D)%nat ->
  let p := ((u * nc + c) * b + r)%nat in
  (p / b = u * nc + c)%nat /\ (p mod b = r)%nat /\ ((u * nc + c) mod nc = c)%nat /\ ((u * nc + c) / nc = u)%nat /\ (p < D * nc)%nat.
Proof.
  intros Hb Hc Hr HD p. split_and!.
  - symmetry. apply (Nat.div_unique _ _ _ r); [done|]. unfold p. lia.
  - symmetry. apply (Nat.mod_unique _ _ (u * nc + c)); [done|]. unfold p. lia.
  - symmetry. apply (Nat.mod_unique _ _ u); lia.
  - symmetry. apply (Nat.div_unique _ _ _ c); lia.
  - assert ((u + 1) * b * nc <= D * nc)%nat by (apply Nat.mul_le_mono_r; lia).
    assert ((c + 1) * b <= nc * b)%nat by (apply Nat.mul_le_mono_r; lia). unfold p. lia.
Qed.

Lemma timed_size vm start (h h0 : vdif_header) f inv :
  shared_fields h = shared_fields (setVDIFFrameInvalid (timed vm start f h0) inv) -> vh_framelength8 h = vh_framelength8 h0.
Proof. intros H. by apply (f_equal (fun l => nth 6 l 0)) in H. Qed.

(** A frame of the output, decoded. *)
Lemma output_sample SZ vm src src_addr start h0 f frame c u : run_ok SZ vm src src_addr -> output_ok vm src start h0 f frame ->
  vm_inputChannelsPerThread vm = 1 -> vm_complexFactor vm = 1 -> vdif_bits (vm_bitsPerSample vm) -> (8 | vm_outputDataSize vm) ->
  let S := Z.of_nat (CornerSpec.nchan (Z.to_nat (vm_nThread vm))) in
  0 <= u -> (u + 1) * vm_bitsPerSample vm <= 8 * vm_inputDataSize vm -> 0 <= c < S ->
  channel_sample vm src start f frame c u
    (if vdif_frame_bad frame 32 (vm_outputDataSize vm) 0 then Zero else thread_sample (vm_bitsPerSample vm) (drop 32 frame) (u * S + c)).
Proof.
  intros Hrun Ho Hich Hcf Hb [w Hw] S Hu Huf Hc. destruct (sizes SZ vm src src_addr Hrun) as (E1 & E2 & E3 & E4 & E5 & Hod & Hlt).
  pose proof (mo_threads _ _ (ro_mux _ _ _ _ Hrun)) as Ht. destruct Ho as [Hl Hbytes (inv & Hinv & Hhdr) Hproto Hdata].
  set (P := vm_outputDataSize vm) in *. set (b := vm_bitsPerSample vm) in *. assert (Hb1 : 1 <= b) by (unfold vdif_bits in Hb; lia).
  assert (Hl32 : Z.of_nat (length frame) = 32 + P) by (rewrite Hl; unfold osize; lia).
  destruct (header_words frame Hbytes) as (W0 & B0 & W2 & B2); [lia|].
  set (h := struct_of_bytes (take 32 frame) : vdif_header) in *. assert (HP8 : 8 <= P) by (unfold P; lia).
  assert (Ew : cdiv P 8 = w) by (rewrite Z.quot_div_nonneg, Hw, Z.div_mul by lia; done).
  assert (Hfirst : exists x, data64 frame 32 0 = Some x) by (rewrite data64_read by lia; by eexists). destruct Hfirst as [x Hx].
  assert (Hlast : exists y, data64 frame 32 (cdiv P 8 - 1) = Some y) by (rewrite Ew, data64_read by lia; by eexists). destruct Hlast as [y Hy].
  assert (Ebad : vdif_frame_bad frame 32 P 0 = (le_combine (slice frame 8 4) =? 0) || negb (vh_invalid h =? 0) || (x =? MARK5_FILL_WORD64) || (y =? MARK5_FILL_WORD64)).
  { unfold vdif_frame_bad. by rewrite W2, W0, Z.add_0_l, Hx, Hy, B0. }
  rewrite Ebad. split.
  - intros Hne. unfold getVDIFFrameInvalid in Hne. fold h in Hne. destruct (Z.eqb_spec (vh_invalid h) 0); [done|]. by rewrite orb_true_r.
  - fold P. unfold fill_ends. rewrite Hx, Hy. intros [[= ->]|[= ->]]; rewrite Z.eqb_refl, ?orb_true_r; done.
  - fold P. unfold fill_ends. rewrite Hx, Hy. intros Hval Hnf Hct. fold h in Hval. destruct (Hdata Hval) as (mask & Hm & (tb & Htb & Hturn) & Hprop).
    exists mask. split; [done|]. split; [exact Hprop|]. intros Hbit. destruct Htb as [Hltb Hpk].
    destruct (Hpk (Z.to_nat c)) as (i & Hat & Etb); [lia|by rewrite Z2Nat.id by lia|]. rewrite Z2Nat.id in Hat by lia.
    exists i. split; [exact Hat|]. unfold getVDIFFrameInvalid in Hval. rewrite Hval. cbn [Z.eqb negb].
    assert (Hsz : (le_combine (slice frame 8 4) =? 0) = false).
    { apply Z.eqb_neq. intros E0. apply (proto_size SZ vm src src_addr h0 Hrun (Hproto Hval)). specialize (B2 E0).
      rewrite <-B2. symmetry. exact (timed_size _ _ _ _ _ _ Hhdr). }
    rewrite Hsz. cbn [orb]. destruct (Z.eqb_spec x MARK5_FILL_WORD64) as [->|_]; [destruct Hnf; by left|].
    destruct (Z.eqb_spec y MARK5_FILL_WORD64) as [->|_]; [destruct Hnf; by right|]. cbn [orb].
    assert (Enb : nbit vm = b) by (unfold nbit; rewrite Hich, Hcf; lia). rewrite Enb in Hturn.
    assert (Hq0 : 0 <= u * S + c) by (assert (0 <= u * S) by (apply Z.mul_nonneg_nonneg; lia); lia).
    assert (Hqb : 0 <= (u * S + c) * b) by (apply Z.mul_nonneg_nonneg; lia). assert (Hub : 0 <= u * b) by (apply Z.mul_nonneg_nonneg; lia).
    apply thread_sample_bits; [done..|]. intros r Hr.
    destruct (turned_position (CornerSpec.nchan (Z.to_nat (vm_nThread vm))) (Z.to_nat b) (Z.to_nat u) (Z.to_nat c) (Z.to_nat r)
      (Z.to_nat (8 * vm_inputDataSize vm))) as (Q1 & Q2 & Q3 & Q4 & Q5); [clear -Hb1; lia|unfold S in Hc; clear -Hc; lia|clear -Hr; lia|clear -Hu Hb1 Huf; nia|].
    assert (Ep : Z.to_nat ((u * S + c) * b + r) = ((Z.to_nat u * CornerSpec.nchan (Z.to_nat (vm_nThread vm)) + Z.to_nat c) * Z.to_nat b + Z.to_nat r)%nat).
    { apply Nat2Z.inj. rewrite Z2Nat.id by (clear -Hqb Hr; lia). rewrite Nat2Z.inj_add, Nat2Z.inj_mul, Nat2Z.inj_add, Nat2Z.inj_mul, !Z2Nat.id by (clear -Hu Hc Hb1 Hr; lia). done. }
    fold b. rewrite Ep. specialize (Hturn ((Z.to_nat u * CornerSpec.nchan (Z.to_nat (vm_nThread vm)) + Z.to_nat c) * Z.to_nat b + Z.to_nat r)%nat).
    cbv zeta in Hturn. rewrite Q1, Q2, Q3, Q4 in Hturn. rewrite Hturn.
    2: { replace (8 * odata vm)%nat with (Z.to_nat (8 * vm_inputDataSize vm) * CornerSpec.nchan (Z.to_nat (vm_nThread vm)))%nat; [done|].
         apply Nat2Z.inj. rewrite !Nat2Z.inj_mul, Z2Nat.id, <-E5, E2, <-E1 by (rewrite E1; pose proof (ro_frame _ _ _ _ Hrun) as Hf; clear -Hf; lia). clear. lia. }
    2: { clear -Hct Hc. lia. }
    rewrite (nth_lookup_Some _ _ _ _ Etb). f_equal. clear -Hu Hb1 Hr. nia.
Qed.

(** The frames of the output in memory. *)
Lemma output_memory (frames : list buffer) osz : Forall (fun f => length f = osz) frames -> Forall bytes_ok frames ->
  bytes_ok (concat frames) /\ length (concat frames) = (length frames * osz)%nat.
Proof.
  intros Hl Hb. induction frames as [|f frames IH]; [by split; [apply Forall_nil_2|]|].
  apply Forall_cons_1 in Hl as [Hf Hl]. apply Forall_cons_1 in Hb as [Hbf Hb]. destruct (IH Hl Hb) as [H1 H2].
  cbn [concat length]. split; [by apply Forall_app|]. rewrite length_app. lia.
Qed.

(** Frame [f] after the first [k] of them. *)
Lemma output_slice (frames : list buffer) osz L k f : Forall (fun f => length f = osz) frames -> Z.of_nat osz = L -> 0 <= L ->
  0 <= k -> 0 <= f < Z.of_nat (length frames) - k ->
  exists frame, frames !! Z.to_nat (k + f) = Some frame /\ slice (concat frames) (Z.to_nat (k * L + f * L)) (Z.to_nat L) = frame /\
    0 <= k * L + f * L /\ k * L + f * L + L <= Z.of_nat (length (concat frames)).
Proof.
  intros Hl HL HL0 Hk Hf. destruct (frames !! Z.to_nat (k + f)) as [frame|] eqn:Ef; [|apply lookup_ge_None in Ef; lia].
  exists frame. split; [done|]. destruct (slice_concat frames osz _ frame Hl Ef) as [Es Hle]. rewrite <-Z.mul_add_distr_r.
  assert (Hkf : 0 <= (k + f) * L) by (apply Z.mul_nonneg_nonneg; lia).
  split; [rewrite <-Es; f_equal; [|lia]; apply Nat2Z.inj; rewrite Nat2Z.inj_mul, !Z2Nat.id, HL by lia; done|].
  split; [done|]. apply inj_le in Hle. rewrite Nat2Z.inj_mul, Nat2Z.inj_add, Z2Nat.id, HL in Hle by lia. lia.
Qed.

(** Sample [s] of [T] turns that end inside [n] frames is in one of them. *)
Lemma sample_in_frames P F stride b R st T n s : 1 <= b -> 0 < stride -> 0 < P -> 8 * P = F * stride * b -> 8 * st = R * (stride * b * 1) ->
  T * st < n * P -> 0 <= s < T * R -> 0 < F /\ 0 <= s / F < n.
Proof.
  intros Hb Hst HP HF H8 Hend Hs. assert (Hsb : 0 < stride * b) by (apply Z.mul_pos_pos; lia).
  assert (HF0 : 0 < F) by (apply (Z.mul_pos_cancel_r F (stride * b)); [done|]; rewrite Z.mul_assoc; lia).
  split; [done|]. split; [apply Z.div_pos; lia|]. apply Z.div_lt_upper_bound; [done|]. apply (Z.mul_lt_mono_pos_r (stride * b)); [done|].
  replace (F * n * (stride * b)) with (n * (8 * P)) by (rewrite HF; ring).
  assert (s * (stride * b) < T * R * (stride * b)) by (apply Z.mul_lt_mono_pos_r; lia).
  assert (T * R * (stride * b) = T * (8 * st)) by (rewrite H8; ring). lia.
Qed.

(** Decoding frames of that kind from frame [k] on. *)
Lemma output_unpack SZ vm src src_addr start h0 (frames : list buffer) nc d ms k T data :
  run_ok SZ vm src src_addr -> vm_inputChannelsPerThread vm = 1 -> vm_complexFactor vm = 1 ->
  (forall f frame, frames !! f = Some frame -> output_ok vm src start h0 (Z.of_nat f) frame) ->
  vdif_stride nc = Z.of_nat (CornerSpec.nchan (Z.to_nat (vm_nThread vm))) ->
  let b := vm_bitsPerSample vm in let P := vm_outputDataSize vm in let m := Z.of_nat (length frames) in
  vdif_unpacks nc b 32 P d ms -> ms_next ms = mark5_stream_unpacker_next ->
  (b = 8 -> nc = 1 \/ Forall (fun frame => vdif_frame_bad frame 32 P 0 = false) frames) ->
  let N := Z.of_nat T * Z.of_nat (length (d_rows d)) in let F := 8 * vm_inputDataSize vm / b in
  0 <= k -> Z.of_nat T * d_step d 1 < (m - k) * P -> sample_room (Z.to_nat nc) N data ->
  exists v ms' data', mark5_unpack_with_offset d (concat frames) ms (k * vm_outputFrameSize vm) 0 data N = Some (v, ms', data') /\
    forall c s, 0 <= c < nc -> 0 <= s < N -> exists frame level,
      frames !! Z.to_nat (k + s / F) = Some frame /\ sample_at data' (Z.to_nat c) (Z.to_nat s) = Some level /\
      channel_sample vm src start (k + s / F) frame c (s mod F) level.
Proof.
  intros Hrun Hich Hcf Hout Hstr b P m Hup Hnext H8 N F Hk Hend Hroom.
  destruct (sizes SZ vm src src_addr Hrun) as (E1 & E2 & E3 & E4 & E5 & Hod & Hlt). pose proof (mo_threads _ _ (ro_mux _ _ _ _ Hrun)) as Ht.
  pose proof Hup as [(ms0 & cnt & fpp & als & Hi & _ & _ & _ & _ & Hnew) Hsize Hwords Hdiv].
  pose proof (vdif_format_rep nc b 1) as Hr. rewrite Hnew in Hr. destruct Hr as (_ & Hbits & Hch%vdif_channels_pos & Hd & _).
  assert (Hl : Forall (fun f => length f = osize vm) frames /\ Forall bytes_ok frames).
  { split; apply list.Forall_forall; intros f [i Hf]%list_elem_of_lookup; by destruct (Hout i f Hf). }
  destruct Hl as [Hl Hb]. destruct (output_memory frames (osize vm) Hl Hb) as [Hmb Hml].
  assert (Hfs : vm_outputFrameSize vm = 32 + P) by (unfold P; lia). assert (Hos : Z.of_nat (osize vm) = 32 + P) by lia.
  assert (Hmem : Z.of_nat (length (concat frames)) = m * (32 + P)) by (rewrite Hml, Nat2Z.inj_mul; unfold m; lia).
  assert (HP : 0 < P) by (unfold P in *; lia). set (n := m - k) in *.
  assert (HF : 8 * P = F * vdif_stride nc * b).
  { rewrite Hstr. unfold P. rewrite E2, <-E1. assert (EF : F * b = 8 * vm_inputDataSize vm).
    { unfold F. clear -Hbits. unfold vdif_bits in Hbits. destruct Hbits as [-> | [-> | [-> | ->]]]; lia. }
    rewrite Z.mul_assoc, <-EF. ring. }
  assert (Hslice : forall f, 0 <= f < n -> exists frame, frames !! Z.to_nat (k + f) = Some frame /\
    slice (concat frames) (Z.to_nat (k * (32 + P) + f * (32 + P))) (Z.to_nat (32 + P)) = frame /\
    0 <= k * (32 + P) + f * (32 + P) /\ k * (32 + P) + f * (32 + P) + (32 + P) <= Z.of_nat (length (concat frames)))
    by (intros f Hf; apply (output_slice frames (osize vm)); [done|done|lia|done|done]).
  assert (HTR : 0 <= N) by (unfold N; apply Z.mul_nonneg_nonneg; lia).
  destruct (vdif_unpack_rep (concat frames) (k * vm_outputFrameSize vm) n 32 P nc b d ms 0 T data) as (ms' & data' & E & _ & _ & _ & G).
  - done.
  - apply Z.mul_nonneg_nonneg; lia.
  - rewrite Hmem, Hfs. unfold n. lia.
  - done.
  - by rewrite Hnext.
  - by left.
  - intros Eb. destruct (H8 Eb) as [?|Hgood]; [by left|]. right. intros f Hf. destruct (Hslice f Hf) as (frame & Ef & Es & H0 & Hle).
    unfold vdif_bad, vdif_offset. rewrite Hfs. rewrite (frame_bad_slice (concat frames) frame) by (done || lia).
    apply (Forall_lookup_1 _ _ _ _ Hgood Ef).
  - done.
  - lia.
  - done.
  - exists ((Z.of_nat T - vdif_blanks (concat frames) 32 P (k * vm_outputFrameSize vm) (d_step d 1) T (0 * d_step d 1)) * Z.of_nat (length (d_rows d))), ms', data'.
    split; [exact E|]. intros c s Hc Hs. specialize (G c s Hc Hs). rewrite Z.mul_0_l, Z.add_0_l in G.
    destruct (format_numbers P _ _ _ _ _ d Hd Hdiv HP ltac:(pose proof (vdif_stride_bounds nc Hch); lia) ltac:(lia)) as (HR & Hst & M & HM & EP & H8s & _).
    assert (Hb1 : 1 <= b) by (unfold vdif_bits in Hbits; lia). pose proof (vdif_stride_bounds nc Hch) as Hsb.
    destruct (sample_in_frames P F (vdif_stride nc) b (Z.of_nat (length (d_rows d))) (d_step d 1) (Z.of_nat T) n s) as [HF0 Hf]; try done; [lia|].
    destruct (Hslice (s / F) Hf) as (frame & Ef & Es & H0 & Hle).
    exists frame, (vdif_sample (concat frames) 32 P (k * vm_outputFrameSize vm) nc b s c). split; [exact Ef|]. split; [exact G|].
    rewrite Hfs. rewrite (vdif_sample_frame (concat frames) 32 P (k * (32 + P)) nc b F s c (s / F) frame); try done; [|apply Z.mul_nonneg_nonneg; lia|lia..].
    change (Z.to_nat 32) with 32%nat. rewrite Hstr.
    pose proof (output_sample SZ vm src src_addr start h0 (k + s / F) frame c (s mod F) Hrun) as Hos'. 
    replace (k + s / F) with (Z.of_nat (Z.to_nat (k + s / F))) in Hos' at 1 by lia. specialize (Hos' (Hout _ _ Ef) Hich Hcf Hbits Hwords).
    apply Hos'.
    + apply Z.mod_pos_bound. done.
    + pose proof (Z.mod_pos_bound s F HF0). fold b. assert ((s mod F + 1) * b <= F * b) by (apply Z.mul_le_mono_nonneg_r; lia).
      assert (F * b <= 8 * vm_inputDataSize vm) by (unfold F; rewrite Z.mul_comm; apply Z.mul_div_le; lia). lia.
    + lia.
Qed.

(** Statistics that are given are returned. *)
Lemma vdifmux_statistics sched vm src_addr garbage dest destSize src srcSize startOut st0 r dest' stats' :
  vdifmux sched vm src_addr garbage dest destSize src srcSize startOut (Some st0) = Some (r, dest', stats') -> exists st, stats' = Some st.
Proof.
  unfold vdifmux. destruct (adjust_nSort _ _) as [nSort|]; [|done]. cbn [mbind option_bind].
  destruct (start_frame_number _ _ _ _) as [start|]; [|done]. cbn [mbind option_bind]. destruct (_ =? 0); [done|].
  destruct (start <? 0); [intros [= _ _ <-]; by eexists|]. destruct (clear_masks dest) as [d1|]; [|done]. cbn [mbind option_bind].
  destruct (stage1_loop _ _ _ _ _ _ _ _ _ _) as [s|]; [|done]. cbn [mbind option_bind]. destruct (backup_frames _ _ _ _) as [b|]; [|done].
  cbn [mbind option_bind]. destruct (_ =? 0); [done|]. destruct (stage2_loop _ _ _ _ _ _ _) as [o|]; [|done]. cbn [mbind option_bind].
  destruct (update_stats _ _ _ _ _ _ _ _ _ _ _) as [[st bp]|]; [|done]. cbn [mbind option_bind]. intros [= _ _ <-]. by eexists.
Qed.


(** The example of [vdifmux]: two threads of two bits, in frames of 16 bytes of data;
    four samples of both are decoded. *)
Definition example_stats : vdif_mux_statistics := Build_vdif_mux_statistics 0 0 0 0 0 0 0 0 0 0 0 0 0 0 0 0 0 0 0 0 0 0 0 0.


(** The same evaluated: the samples of the payloads 27 and 228. *)
Example vdifmux_unpack_example :
  (ms ← vdif_example_unpacker 2 2 16;
   '(_, dest, _) ← vdifmux sequential example_mux 4096 zero_header example_dest 144 example_src 244 (-1) None;
   '(v, _, data) ← mark5_unpack_with_offset vdif_decode_2channel_2bit_decimation1 (concat (take 2 dest)) ms 0 0 (replicate 2 (replicate 4 Zero)) 4;
   Some (v, data)) = Some (4, [[High; One; MinusOne; MinusHigh]; [MinusHigh; MinusOne; One; High]]).
Proof. vm_compute. reflexivity. Qed.
